(* ===== verification/_CoqProject ===== *)
-Q . S2P
Prelude.v
GoVal.v
Rfc3339.v
Json.v
JsonText.v
JsonValue.v
Effects.v
Domain.v
Schema.v
Broker.v
TaskStore.v
TaskList.v
Artifacts.v
Cursor.v
BridgeLease.v
Queue.v
InitiativeStore.v
TransitionLog.v
Policy.v
Http.v
TaskApi.v
Worker.v
WorkerLoop.v
InitiativeApi.v
Autonomous.v
Objective.v
Evidence.v
Retrieval.v
Workspace.v
Profile.v
Plans.v
Planning.v
Contract.v
ObjectiveRun.v
Machine.v
Planner.v
Runner.v
RunnerSpec.v
Regexp.v
RepairScope.v
ReviewReport.v
CodeAnalysis.v
ScaffoldFiles.v
Glob.v
CoderTask.v
Executor.v
ExecutorSpec.v
BridgeApi.v
Capability.v
CapabilitySpec.v
Daemon.v
DaemonSpec.v
EnvFile.v
System.v
Auth.v
Gateway.v
ToolCall.v
GatewayApi.v
GatewayStream.v
GatewayChat.v
TelegramQueue.v
Timers.v
Interaction.v
TelegramBot.v
Learning.v
