(* ===== verification/Prelude.v ===== *)
(** * Verification of the ia-lab control plane

    The repository is a laboratory of software agents.  Its control plane, a Go
    program ([src/internal/orchestratorgo]), accepts tasks over HTTP, keeps them in
    Postgres, queues them in Redis, runs them in workers of its own or on the bridges
    of user machines, asks people for approvals, and drives initiatives (a goal, its
    requirements, design and plan, then the tasks of the plan) and objectives (work
    items with dependencies, repaired until they validate).  A second program, the
    local model gateway ([src/internal/codexlocalgateway]), puts a local model behind
    an OpenAI-compatible API; a third, the secretary ([src/internal/secretary]), answers
    people over Telegram.  This library models the first two and the front of the third,
    and proves what makes them correct.

    ** How the code is modelled

    A database is a value ([Schema.Sys]): the Postgres tables as finite maps and the
    Redis sorted sets.  Code that touches it runs in the monad of [Effects]: state,
    Go errors, and an environment ([Env]) that decides the clock, the uuids drawn and
    which statements fail.  Every theorem holds for all environments unless it says
    otherwise, so it covers failures between any two statements.  A transaction is
    [in_tx]: it commits as a whole or leaves nothing.  An HTTP handler is a
    computation that ends in a [Reply]; [x <~ m] is the code's check of an error that
    answers 500.  Dynamic values ([map[string]any]) are [GoVal.gval], with what JSON
    makes of them when they are stored ([jsonb]); times are nanoseconds; [int] and
    [time.Duration] arithmetic that may overflow is wrapped ([wrap64]), the float64
    scores of the queues are rounded exactly.

    A comment that starts with [path:first-last] names the lines of [src/internal]
    that the definition under it, and those up to the next comment, translate.

    ** The files

    - [Prelude]: notations, tactics, strings (UTF-8, trimming, folding, prefixes,
      joins), [path/filepath], sorting and selection, shared lemmas.
    - [GoVal], [Rfc3339], [Json], [JsonText], [JsonValue], [Regexp]: what the program
      uses of Go's standard library on data: dynamic values, times as text, the JSON
      scanner and printer, numbers and whole documents, regular expressions.
    - [Effects], [Schema], [Http]: the monad with its [respects] calculus (a
      relation that every step respects holds of the whole run), the database,
      the replies.
    - [Domain] ([domain/types.go], [initiative.go], [bridge.go]): states, the
      transition table, the records.
    - [Broker] ([capabilitybroker/broker.go], [store/capabilities.go]): which endpoint
      may serve an intent.
    - [TaskStore], [TaskList], [Cursor], [Artifacts] ([store/postgres.go]): tasks,
      approvals, the transition log, pagination, documents.  [TaskStore.evolves] is
      the contract of the store, the interface all later files are proved against.
      [TransitionLog]: all calls that write a task or the log, and what the log says of them.
    - [BridgeLease] ([store/postgres.go]): bridges, the leases of their tasks and
      the claim, cut where it commits.
    - [Queue] ([store/redis.go]): the queues with their exact scores.
    - [InitiativeStore] ([store/initiatives.go]), [Policy]
      ([initiative/contracts.go]): initiatives, reviews, links, derived status;
      the contracts of the phase documents and the execution policy.
    - [TaskApi] ([httpapi/handlers.go]), [InitiativeApi]
      ([httpapi/initiatives.go]), [Autonomous] ([initiative/autonomous.go],
      [httpapi/autonomous_http.go]), [BridgeApi] ([httpapi/bridges.go]): the
      endpoints.
    - [Worker] ([worker/worker.go]): polling, claiming, executing, the fan-out of a
      plan into subtasks, recovery.  [WorkerLoop]: the same code as the threads of the
      loop and of the executions it spawns, cut at each call and each access to the
      worker's current task.
    - [Objective], [Evidence], [ObjectiveRun] ([httpapi/objectives.go], parts of
      [httpapi/bridges.go]): the work items of an objective, budgets and decisions;
      the documents a result leaves; tasks, queueing, repair cycles.
    - [Retrieval] ([memory/retrieval.go]), [Workspace], [Profile]
      ([initiative/objectives.go], [service.go]): what the planners read:
      ranked notes, the files of a workspace with the hypotheses of which matter,
      the kind of repository.
    - [Plans] ([initiative/service.go]): the documents of the phases, asked of a
      language model and replaced by deterministic ones when it fails.
    - [Planning] ([httpapi/objectives.go]), [Contract] ([initiative/objectives.go]):
      the context of an objective and the contract generated from it, with its
      work items and their dependencies.
    - [Machine], [Planner] ([planner/service.go]), [Runner], [RunnerSpec]
      ([runner/runner.go]): the calls a task makes to the machine it runs on, the plans
      asked of a model, what each agent does with a task.
    - [Executor], [ExecutorSpec] ([bridge/executor.go], [scaffold_project.go]): the tools a
      bridge has for a claimed task, on the same machine; with [RepairScope] (which files a
      repair is about), [ReviewReport] (how a diff compares with the plan), [CoderTask]
      (what the coder is told), [ScaffoldFiles] (the files of a new project), [Glob]
      ([filepath.Match]) and [CodeAnalysis] ([codeanalysis/service.go]).
    - [Daemon], [DaemonSpec] ([bridge/daemon.go], [objective_runner.go], parts of [cli.go]),
      [EnvFile] ([envfile.go]): the agent itself: registering, heartbeats, claims and
      results, the run of one objective, its environment file.
    - [Capability], [CapabilitySpec] ([httpapi/capability_runtime.go], parts of
      [handlers.go]): what the server itself runs for a capability.
    - [System]: all endpoints and worker calls as the steps of one system, and the
      abstract life cycle it refines.
    - [Auth] ([httpapi/middleware.go], [safe_mode.go]): keys, scopes and the
      tracker of failed attempts in front of the handlers.
    - [TelegramQueue] ([secretary/telegram_webhook.go]), [Interaction]
      ([secretary/interaction.go], [progress.go]), [TelegramBot] ([secretary/telegram.go]),
      [Timers] ([secretary/timer.go]): how the secretary, a chat assistant beside the control
      plane, takes updates, whom it answers and how, what it shows of its work, and its
      timers.  [Learning] ([learning_store.go], [learning_feedback.go]): what it
      records of its answers, and the review of corrections.
    - [Gateway] ([codexlocalgateway/store.go], [server.go], [config.go],
      [middleware.go]): conversations, prompt compaction, settings.  [ToolCall]
      ([responses.go]): the calls of tools a model writes as text, and commands that ran
      already.  [GatewayApi], [GatewayStream], [GatewayChat] ([server.go], [types.go]):
      the responses endpoint with its requests and turns, its streams, and the chat
      endpoint; what the upstream answers is a parameter.

    The layers call each other as the code does: handlers call stores and queues,
    [ObjectiveRun] is called by [BridgeApi] when a result arrives, creating an
    objective runs [Planning] and [Contract] on the workspace, tasks are created
    through [InitiativeApi.create_linked], [Plans.phase_service] implements the
    interface the handlers of the phases are proved against, and every change of a task's state ends in
    [TaskStore.transitionTaskStateTx] or one of the two requeues.

    ** What is proved

    - The system as a whole: it refines the abstract life cycle
      ([system_refines_lifecycle]), and every reachable state is well formed
      ([reachable_well_formed]).
    - The store: each operation's effect on every branch; whatever calls are made, the log of
      transitions accounts for every state, up to as many requeues as a task's retry counter
      says ([store_calls_audited]); pages enumerate the matching
      tasks once ([pages_enumerate_matches]), cursors round-trip
      ([cursor_roundtrip]).
    - Bridges: a lease excludes others until it expires ([lease_excludes_others]), a
      claim takes the right task and makes progress ([BridgeLease.claim_takes],
      [claim_progress]), and what each reported result does ([submit_outcome]).
    - Queues and workers: the most urgent task comes first ([dequeue_most_urgent]), a
      worker executes one task at a time however its goroutines interleave, and clears its
      current task after it ([one_task_at_a_time]), what a run and a plan become ([executeTask_spec],
      [planner_releases_steps]).
    - Running tasks: whatever the machine answers, a task writes only inside its
      workspace, not while an approval it requires was not asked for, and where its
      capabilities allow it, and runs only the commands of its agent ([Execute_confined]);
      what a fixed plan is made of, and that another one is the plan the model wrote
      ([executePlanner_spec]); when a review passes ([executeReviewer_spec]).
    - On a bridge: a claimed task writes and runs nothing unless approved and permitted,
      and then only inside the workspace, with the commands of its tool
      ([claim_confined]); when a review approves ([reviewWorkspace_spec]); which files a
      repair is told to work on ([recommended_scope]).  The agent holds one task at a time,
      names it while it is executed and reports it before it claims another; it resolves
      approvals in one mode only ([agent_protocol]).
    - Initiatives: reviews move the phases ([resolve_phase_spec]), a plan becomes its
      tasks ([plan_becomes_tasks]), launching respects the policy and
      gives every selected task its mode ([launch_spec]), the autonomous run makes and
      launches the tasks of the plan it stored ([autonomous_spec]), the derived status.
    - Planning: a generated contract is a well-formed graph of work items, ordered by
      its dependencies, with verification last ([contract_spec]); every document of a
      phase is valid whatever the model answers ([phase_documents_valid]); the files
      proposed ([buildInitialScopeHypotheses_spec]) and the notes retrieved are bounded,
      distinct and ranked ([SelectRetrievalHits_spec]).
    - Capabilities: what the broker runs, a policy and a role allow
      ([execute_authorized]); what is run writes and executes only below the allowed
      roots ([capability_confined]).
    - Objectives: a task is queued only after its dependencies ([queueReady_spec]), a
      repair cycle is runnable ([repair_cycle_spec]), what it replaces is found and
      cancelled in finitely many passes ([cancelSuperseded_spec]), and repairs end
      ([repairs_bounded]).
    - The API: capacity ([createTask_respects_capacity]), idempotency, approvals,
      aggregation of roots, authentication, the bound on guesses and the block
      that refuses what comes after them unexamined ([auth_spec], [guesses_bounded]).
    - The gateway: compaction meets its limit, with the messages that are kept and the summary
      of the others said from the conversation ([compactChatPrompt_spec]); a text becomes
      a call only of a tool on offer ([parseFallbackToolCall_offered]); what a response
      or a stream says of what the model said, and that it is the conversation a later
      request continues while it is stored ([responses_spec]); a stream is judged as the same text at once would be
      ([stream_same_turn]); what the chat endpoint passes on ([GatewayChat.chatCompletions_spec]).

    - The secretary: an update that was completed is not taken again ([completed_once]),
      nobody is answered, or told of any progress, who is not permitted
      ([processUpdate_permitted]), an update is
      polled once ([TelegramBot.polled_once]), timers are announced once and bounded
      ([timers_spec]), a review decides one candidate and nothing else ([review_spec]).

    Where the code does not do what it means to, the theorem states what it does
    ([Worker.planner_step_fails], [approved_asks_again], [expired_item_blocks], [claim_window_double_claim],
    [mode_change_skips_review], [tree_depends_on_map_order], and others).

    ** Bounds and fuel

    Loops over lists are structural.  Fuel appears where the code loops on a
    condition: [ObjectiveRun.supersede_passes] takes one pass more than there are
    tasks, which [cancelSuperseded_spec] proves enough; the reading of JSON and of
    base64 consumes its text; the eviction of [Gateway] removes one entry per round.
    A [WorkerLoop.Thread] has no loop: its ticks and executions end by their structure,
    and the steps between them are any number.
    What the agent does without end ([Daemon.DaemonRun], [RunObjective]) is run for any
    number of rounds, and an execution for any number of heartbeats.
    [repairs_bounded] asks for at most 2^53 iterations, the integers a float64 holds
    exactly, since the count is stored as a JSON number.

    ** What is not modelled

    - Code that only calls services or draws a screen: the HTTP client, most
      of the command line and the terminal interface of the bridge
      ([orchestratorgo/bridge]), the research service, the telegram bot of the control
      plane, the questions, the memory and the connectors of the secretary (what it answers, with the
      events it reports on the way, is a parameter), the telemetry proxy,
      start-up and configuration.  What the modelled code asks of them is a parameter: the
      [Machine] of a runner, of a bridge and of a capability, the services some
      capabilities forward to, the runner of a worker (which [Runner.Execute] on a machine
      is one of), the [PhaseService] the phase handlers are proved against, in [Plans] the answers of
      the language model ([PlannerModel]) and of the research service, the file
      system ([Workspace.Disk]), [git].
    - Of the endpoints, research runs, evaluations and health; the record of a tool's run
      is modelled for bridges alone.
    - Search indexes, metrics, event streams and logging, which no modelled decision
      reads.
    - Concurrency inside a transaction: Postgres serialises the rows a transaction
      locks, so one runs alone; the interleavings between transactions are steps
      ([BridgeLease.claim_tx] and [claim_finish], [WorkerLoop.worker_step]).  [System]
      composes whole calls in sequence.
    - Of the gateway, the token buckets of its rate limiter (binary64 arithmetic on
      elapsed time) and its constant list of models.  A JSON key given twice whose value
      is a list starts again, where [encoding/json] reuses the old elements. *)
From stdpp Require Export base gmap sets list strings sorting pretty.
From Stdlib Require Export Ascii.

(** ** Notations *)
Declare Scope lab_scope.
Delimit Scope lab_scope with lab.
Open Scope Z_scope.
Open Scope lab_scope.

Notation "a '=?s' b" := (String.eqb a b) (at level 70) : lab_scope.

(** ** Go's [strings] package on byte strings *)

(** A Go string is a sequence of bytes: [string] of 8-bit [ascii]. *)

Definition slen (s : string) : Z := Z.of_nat (String.length s).

(** [s[n:]] for [n <= len s]. *)
Fixpoint sdrop (n : nat) (s : string) : string :=
  match n, s with
  | S n', String _ s' => sdrop n' s'
  | _, _ => s
  end.

(** [s[:n]] for [n <= len s]. *)
Fixpoint stake (n : nat) (s : string) : string :=
  match n, s with
  | S n', String a s' => String a (stake n' s')
  | _, _ => ""
  end.

(** A line feed. *)
Definition nl : string := String (ascii_of_nat 10) "".

(** [strings.HasPrefix(s, p)] *)
Definition has_prefix (p s : string) : bool := String.prefix p s.

(** [strings.HasSuffix(s, p)] *)
Definition has_suffix (p s : string) : bool :=
  (String.length p <=? String.length s)%nat
  && (sdrop (String.length s - String.length p) s =?s p).

(** [strings.TrimPrefix(s, p)] and [strings.TrimSuffix(s, p)] *)
Definition trim_prefix (p s : string) : string :=
  if has_prefix p s then sdrop (String.length p) s else s.
Definition trim_suffix (p s : string) : string :=
  if has_suffix p s then stake (String.length s - String.length p) s else s.

(** [strings.Contains(s, sub)] *)
Fixpoint contains (sub s : string) : bool :=
  has_prefix sub s
  || match s with EmptyString => false | String _ s' => contains sub s' end.

Definition ascii_in (l : list nat) (a : ascii) : bool :=
  existsb (Nat.eqb (nat_of_ascii a)) l.

(** Unicode White_Space, by its UTF-8 encoding: one, two or three bytes. *)
Definition space1 (a : ascii) : bool := ascii_in [9; 10; 11; 12; 13; 32]%nat a.
Definition space2 (a b : ascii) : bool :=
  ascii_in [194]%nat a && ascii_in [133; 160]%nat b.
Definition space3 (a b c : ascii) : bool :=
  (ascii_in [225]%nat a && ascii_in [154]%nat b && ascii_in [128]%nat c)
  || (ascii_in [226]%nat a && ascii_in [128]%nat b
      && ascii_in [128; 129; 130; 131; 132; 133; 134; 135; 136; 137; 138;
                   168; 169; 175]%nat c)
  || (ascii_in [226]%nat a && ascii_in [129]%nat b && ascii_in [159]%nat c)
  || (ascii_in [227]%nat a && ascii_in [128]%nat b && ascii_in [128]%nat c).

Fixpoint trim_left (s : string) : string :=
  match s with
  | EmptyString => ""
  | String a r =>
      if space1 a then trim_left r else
      match r with
      | String b r2 =>
          if space2 a b then trim_left r2 else
          match r2 with
          | String c r3 => if space3 a b c then trim_left r3 else s
          | EmptyString => s
          end
      | EmptyString => s
      end
  end.

(** Is the whole string the encoding of one white space? *)
Definition one_space (s : string) : bool :=
  match s with
  | String a EmptyString => space1 a
  | String a (String b EmptyString) => space2 a b
  | String a (String b (String c EmptyString)) => space3 a b c
  | _ => false
  end.

Fixpoint trim_right (s : string) : string :=
  match s with
  | EmptyString => ""
  | String a r =>
      let u := String a (trim_right r) in if one_space u then "" else u
  end.

(** [strings.TrimSpace] *)
Definition trim_space (s : string) : string := trim_right (trim_left s).

(** [strings.TrimSpace(s) == ""] *)
Definition blank (s : string) : bool := trim_space s =?s "".

(** [strings.Join(l, sep)] *)
Fixpoint sjoin (sep : string) (l : list string) : string :=
  match l with
  | [] => ""
  | [x] => x
  | x :: r => x +:+ sep +:+ sjoin sep r
  end.

(** Bytes, and the sequences that encode a rune ([utf8.DecodeRune]). *)
Definition code (a : ascii) : N := N_of_ascii a.
Definition isb (n : N) (a : ascii) : bool := (code a =? n)%N.
Definition within (lo hi : N) (a : ascii) : bool := (lo <=? code a)%N && (code a <=? hi)%N.
Definition cont (a : ascii) : bool := within 128 191 a.
Definition valid2 (a b : ascii) : bool := within 194 223 a && cont b.
Definition valid3 (a b c : ascii) : bool :=
  ((isb 224 a && within 160 191 b) || (within 225 236 a && cont b)
   || (isb 237 a && within 128 159 b) || (within 238 239 a && cont b)) && cont c.
Definition valid4 (a b c d : ascii) : bool :=
  ((isb 240 a && within 144 191 b) || (within 241 243 a && cont b)
   || (isb 244 a && within 128 143 b)) && cont c && cont d.
(** U+FFFD. *)
Definition replacement : string :=
  String (ascii_of_N 239) (String (ascii_of_N 191) (String (ascii_of_N 189) "")).

(** The runes of a text, each by its UTF-8 text; [bad] reads a byte that starts none. *)
Fixpoint units (bad : ascii → string) (s : string) : list string :=
  match s with
  | EmptyString => []
  | String a r =>
      if within 0 127 a then String a "" :: units bad r else
      match r with
      | EmptyString => [bad a]
      | String b r2 =>
          if valid2 a b then String a (String b "") :: units bad r2 else
          match r2 with
          | EmptyString => bad a :: units bad r
          | String c r3 =>
              if valid3 a b c then String a (String b (String c "")) :: units bad r3 else
              match r3 with
              | EmptyString => bad a :: units bad r
              | String d r4 =>
                  if valid4 a b c d then String a (String b (String c (String d ""))) :: units bad r4
                  else bad a :: units bad r
              end
          end
      end
  end.
(** [[]rune(s)], where such a byte reads as U+FFFD. *)
Definition runes (s : string) : list string := units (λ _, replacement) s.
(** [strings.ToLower], rune by rune: ASCII, the letters of two bytes of the Latin,
    Greek, Cyrillic and Armenian scripts whose cases are regular, and the two that it
    sends to ASCII letters (the Kelvin sign and the dotted capital I); other letters
    keep their case. *)
Definition lower_ascii (a : ascii) : ascii :=
  let n := nat_of_ascii a in
  if ((65 <=? n) && (n <=? 90))%nat then ascii_of_nat (n + 32) else a.
(** The small letter of a code point of two bytes. *)
Definition lower_rune (u : N) : N :=
  let between (lo hi : N) := (lo <=? u)%N && (u <=? hi)%N in
  let even_pair := between 256%N 311%N || between 330%N 375%N || between 1120%N 1152%N
    || between 1162%N 1215%N || between 1232%N 1327%N in
  let odd_pair := between 313%N 328%N || between 377%N 382%N || between 1217%N 1230%N in
  if (between 192%N 222%N && negb (u =? 215)%N) || (between 913%N 939%N && negb (u =? 930)%N)
     || between 1040%N 1071%N then (u + 32)%N
  else if even_pair && N.even u then (u + 1)%N
  else if odd_pair && N.odd u then (u + 1)%N
  else if (u =? 376)%N then 255%N
  else if (u =? 902)%N then 940%N
  else if between 904%N 906%N then (u + 37)%N
  else if (u =? 908)%N then 972%N
  else if between 910%N 911%N then (u + 63)%N
  else if between 1024%N 1039%N then (u + 80)%N
  else if (u =? 1216)%N then 1231%N
  else if between 1329%N 1366%N then (u + 48)%N
  else u.
Definition lower_text (u : string) : string :=
  match u with
  | String a EmptyString => String (lower_ascii a) ""
  | String a (String b EmptyString) =>
      if isb 196 a && isb 176 b then "i"
      else
        let v := lower_rune ((code a - 192) * 64 + (code b - 128)) in
        String (ascii_of_N (192 + v / 64)) (String (ascii_of_N (128 + v mod 64)) "")
  | String a (String b (String c EmptyString)) =>
      if isb 226 a && isb 132 b && isb 170 c then "k" else u
  | _ => u
  end.
Definition to_lower (s : string) : string := sjoin "" (lower_text <$> runes s).

(** Texts that [strings.EqualFold] takes for the same, as far as their ASCII letters
    go: the long s and the Kelvin sign are the only others that fold to those. *)
Fixpoint fold_ascii (s : string) : string :=
  match s with
  | String a ((String b r2) as r) =>
      if ascii_in [197]%nat a && ascii_in [191]%nat b then String "s" (fold_ascii r2) else
      match r2 with
      | String c r3 =>
          if ascii_in [226]%nat a && ascii_in [132]%nat b && ascii_in [170]%nat c
          then String "k" (fold_ascii r3) else String (lower_ascii a) (fold_ascii r)
      | EmptyString => String (lower_ascii a) (fold_ascii r)
      end
  | String a EmptyString => String (lower_ascii a) ""
  | EmptyString => ""
  end.
(** [strings.EqualFold(a, b)] for an ASCII [b]. *)
Definition equal_fold (a b : string) : bool := fold_ascii a =?s fold_ascii b.

(** [strings.Cut], [strings.Split] and the text before [strings.LastIndex]. *)
Fixpoint cut (sep s : string) : option (string * string) :=
  if has_prefix sep s then Some ("", sdrop (String.length sep) s)
  else match s with
       | EmptyString => None
       | String c r => (λ '(a, b), (String c a, b)) <$> cut sep r
       end.
Fixpoint split_rounds (rounds : nat) (sep s : string) : list string :=
  match rounds with
  | O => [s]
  | S rounds =>
      match cut sep s with Some (a, b) => a :: split_rounds rounds sep b | None => [s] end
  end.
Definition split_text (sep s : string) : list string := split_rounds (String.length s) sep s.
Fixpoint before_last (sep s : string) : option string :=
  match s with
  | EmptyString => None
  | String c r =>
      match before_last sep r with
      | Some a => Some (String c a)
      | None => if has_prefix sep s then Some "" else None
      end
  end.

(** [strconv.Quote], [fmt]'s verb q: a byte that is not part of a character is written in
    hexadecimal; a character beyond ASCII is taken for printable. *)
Definition dquote : string := String (ascii_of_nat 34) "".
Definition hex_char (n : N) : ascii := ascii_of_N (if (n <? 10)%N then 48 + n else 87 + n)%N.
Definition hex_byte (a : ascii) : string :=
  "\x" +:+ String (hex_char (code a / 16)) (String (hex_char (code a mod 16)) "").
Definition quoted_unit (u : string) : string :=
  match u with
  | String a EmptyString =>
      if isb 34 a || isb 92 a then "\" +:+ u
      else if isb 7 a then "\a" else if isb 8 a then "\b" else if isb 9 a then "\t"
      else if isb 10 a then "\n" else if isb 11 a then "\v" else if isb 12 a then "\f"
      else if isb 13 a then "\r" else if within 32 126 a then u else hex_byte a
  | _ => u
  end.
Definition go_quote (s : string) : string :=
  dquote +:+ sjoin "" (quoted_unit <$> units hex_byte s) +:+ dquote.

(** [strings.ToUpper], as far as the ASCII letters of the result go: those, the
    dotless i and the long s are what it sends to ASCII letters. *)
Definition upper_ascii (a : ascii) : ascii :=
  let n := nat_of_ascii a in
  if ((97 <=? n) && (n <=? 122))%nat then ascii_of_nat (n - 32) else a.
Fixpoint to_upper (s : string) : string :=
  match s with
  | String a ((String b r2) as r) =>
      if ascii_in [196]%nat a && ascii_in [177]%nat b then String "I" (to_upper r2)
      else if ascii_in [197]%nat a && ascii_in [191]%nat b then String "S" (to_upper r2)
      else String (upper_ascii a) (to_upper r)
  | String a EmptyString => String (upper_ascii a) ""
  | EmptyString => ""
  end.

(** [strings.Fields] *)
Fixpoint fields_from (word s : string) : list string :=
  let flush := if word =?s "" then [] else [word] in
  match s with
  | EmptyString => flush
  | String a r =>
      let more := fields_from (word +:+ String a "") r in
      if space1 a then flush ++ fields_from "" r else
      match r with
      | String b r2 =>
          if space2 a b then flush ++ fields_from "" r2 else
          match r2 with
          | String c r3 => if space3 a b c then flush ++ fields_from "" r3 else more
          | EmptyString => more
          end
      | EmptyString => more
      end
  end.
Definition fields (s : string) : list string := fields_from "" s.

(** [strings.Trim(s, cutset)] for an ASCII cutset *)
Definition in_set (cutset : string) (a : ascii) : bool :=
  contains (String a "") cutset.
Fixpoint trim_set_left (cutset s : string) : string :=
  match s with
  | String a r => if in_set cutset a then trim_set_left cutset r else s
  | EmptyString => ""
  end.
Fixpoint trim_set_right (cutset s : string) : string :=
  match s with
  | String a r =>
      let r' := trim_set_right cutset r in
      if (r' =?s "") && in_set cutset a then "" else String a r'
  | EmptyString => ""
  end.
Definition trim_set (cutset s : string) : string :=
  trim_set_right cutset (trim_set_left cutset s).

(** [strings.Split(s, sep)] for a one-byte separator *)
Fixpoint split_on (sep : ascii) (s : string) : list string :=
  match s with
  | EmptyString => [""]
  | String a r =>
      if Ascii.eqb a sep then "" :: split_on sep r
      else match split_on sep r with
           | x :: xs => String a x :: xs
           | [] => [String a ""]
           end
  end.

(** [strings.ReplaceAll(s, c, new)] for a one-byte pattern *)
Definition replace_char (c : ascii) (new s : string) : string :=
  sjoin new (split_on c s).

(** [bufio.Scanner]: the lines before one that has [limit] bytes or more, and whether
    there is one; a carriage return at the end of a line is dropped. *)
Fixpoint scan_from (limit : Z) (lines : list string) : list string * bool :=
  match lines with
  | [] | [""] => ([], false)
  | line :: lines =>
      if slen line <? limit then
        let '(l, too_long) := scan_from limit lines in
        (trim_suffix (String (ascii_of_nat 13) "") line :: l, too_long)
      else ([], true)
  end.
Definition scan_lines (limit : Z) (text : string) : list string * bool :=
  scan_from limit (split_on (ascii_of_nat 10) text).

(** The first value that is not blank, and its trimmed and raw readings:
    the packages' two [firstNonEmptyString] helpers. *)
Definition first_trimmed (l : list string) : string :=
  default "" (head (filter (λ s, s ≠ "") (trim_space <$> l))).
Definition first_nonblank (l : list string) : string :=
  default "" (head (filter (λ s, trim_space s ≠ "") l)).

(** ** Go's [path/filepath] package on Unix paths *)

Definition is_rooted (p : string) : bool := has_prefix "/" p.

Definition clean_step (rooted : bool) (st : list string) (c : string) : list string :=
  if (c =?s "") || (c =?s ".") then st
  else if c =?s ".." then
    match st with
    | [] => if rooted then [] else [".."]
    | top :: st' => if top =?s ".." then ".." :: st else st'
    end
  else c :: st.

(** [filepath.Clean] *)
Definition path_clean (p : string) : string :=
  let rooted := is_rooted p in
  let body := sjoin "/" (rev (foldl (clean_step rooted) [] (split_on "/" p))) in
  if rooted then "/" +:+ body else if body =?s "" then "." else body.

Definition last_component (l : list string) : string :=
  default "" (last (filter (λ s, s ≠ "") l)).

(** [filepath.Base] *)
Definition path_base (p : string) : string :=
  if p =?s "" then "."
  else let b := last_component (split_on "/" p) in
       if b =?s "" then "/" else b.

(** [filepath.Ext]: from the last dot of the last component. *)
Fixpoint last_dot (s : string) : option string :=
  match s with
  | EmptyString => None
  | String a r =>
      match last_dot r with
      | Some e => Some e
      | None => if Ascii.eqb a "." then Some s else None
      end
  end.
Definition path_ext (p : string) : string :=
  default "" (last_dot (default "" (last (split_on "/" p)))).

(** [filepath.Join] *)
Definition path_join (l : list string) : string :=
  match filter (λ s, s ≠ "") l with
  | [] => ""
  | l' => path_clean (sjoin "/" l')
  end.
(** [filepath.Dir]: up to the last separator, cleaned. *)
Definition path_dir (p : string) : string :=
  match reverse (split_on "/" p) with
  | [] | [_] => "."
  | _ :: l => path_clean (sjoin "/" (reverse l) +:+ "/")
  end.

(** ** Record update

    [r <| field := v |>], for a record type with an [Eta] instance. *)
Class Eta (R : Type) := eta : R → R.
Class Updater {R T} (p : R → T) := update : (T → T) → R → R.
Arguments update {R T} p {_} f r / : assert.
Ltac derive_updater :=
  match goal with
  | |- @Updater ?R ?T ?p =>
      let e := constr:(_ : Eta R) in
      let b := eval red in e in
      let g := eval pattern p in b in
      match g with ?h _ => let u := eval cbv beta in (λ f : T → T, h (λ r, f (p r))) in exact u end
  end.
#[export] Hint Extern 1 (Updater _) => derive_updater : typeclass_instances.
Notation "r <| p := v |>" := (update p (λ _, v) r)
  (at level 1, left associativity, p at level 11) : lab_scope.

(** ** Orders and [ORDER BY]

    A sort key compares lexicographically; a descending component is [flip]ped. *)
Definition lex2 {A B} (R : relation A) (Q : relation B) : relation (A * B) :=
  λ x y, (x.1 ≠ y.1 ∧ R x.1 y.1) ∨ (x.1 = y.1 ∧ Q x.2 y.2).
Definition by_key {A K} (key : A → K) (R : relation K) : relation A :=
  λ x y, R (key x) (key y).

Section Orders.
Context {A B : Type} (R : relation A) (Q : relation B).

#[export] Instance lex2_dec `{EqDecision A, !RelDecision R, !RelDecision Q} :
  RelDecision (lex2 R Q).
Proof. intros x y. unfold lex2. apply _. Defined.

#[export] Instance lex2_trans `{!PartialOrder R, !Transitive Q} : Transitive (lex2 R Q).
Proof.
  intros [a b] [a' b'] [a'' b'']; unfold lex2; cbn.
  intros [[Hn H]|[<- H]] [[Hn' H']|[<- H']].
  - left. split; [|by etransitivity]. intros <-. apply Hn. by apply (anti_symm R).
  - by left.
  - by left.
  - right. split; [done|by etransitivity].
Qed.

#[export] Instance lex2_total `{EqDecision A, !Total R, !Total Q} : Total (lex2 R Q).
Proof.
  intros [a b] [a' b']; unfold lex2; cbn. destruct (decide (a = a')) as [<-|Hn].
  - destruct (total Q b b'); eauto.
  - destruct (total R a a'); eauto.
Qed.

Lemma flip_total `{!Total R} : Total (flip R).
Proof. intros x y. destruct (total R x y); auto. Qed.

Lemma flip_trans `{!Transitive R} : Transitive (flip R).
Proof. intros x y z Hxy Hyz. unfold flip in *. by trans y. Qed.

Lemma flip_partial_order `{!PartialOrder R} : PartialOrder (flip R).
Proof.
  split; [split|].
  - intros x. unfold flip. reflexivity.
  - apply flip_trans.
  - intros x y Hxy Hyx. by apply (anti_symm R).
Qed.

Context {K : Type} (key : K → A).
#[export] Instance by_key_dec `{!RelDecision R} : RelDecision (by_key key R).
Proof. intros x y. unfold by_key. apply _. Defined.
#[export] Instance by_key_trans `{!Transitive R} : Transitive (by_key key R).
Proof. intros x y z. unfold by_key. apply (transitivity (R:=R)). Qed.
#[export] Instance by_key_total `{!Total R} : Total (by_key key R).
Proof. intros x y. unfold by_key. apply (total R). Qed.
End Orders.
(** Only for a relation that is syntactically flipped: unification would
    otherwise flip forever. *)
#[export] Hint Extern 3 (Total (flip _)) => apply flip_total : typeclass_instances.
#[export] Hint Extern 3 (Transitive (flip _)) => apply flip_trans : typeclass_instances.
#[export] Hint Extern 3 (PartialOrder (flip _)) =>
  apply flip_partial_order : typeclass_instances.

(** [sort.SliceStable] and [slices.SortStableFunc]: equal elements keep their order. *)
Fixpoint stable_insert {A} (le : relation A) `{!RelDecision le} (x : A) (l : list A) : list A :=
  match l with
  | [] => [x]
  | y :: l' => if decide (le x y) then x :: l else y :: stable_insert le x l'
  end.
Definition stable_sort {A} (le : relation A) `{!RelDecision le} (l : list A) : list A :=
  foldr (stable_insert le) [] l.

Section StableSort.
Context {A : Type} (le : relation A) `{!RelDecision le}.

Lemma stable_insert_Permutation x l : stable_insert le x l ≡ₚ x :: l.
Proof.
  induction l as [|y l IH]; cbn; [done|]. destruct (decide _); [done|].
  rewrite IH. apply Permutation_swap.
Qed.
Lemma stable_sort_Permutation l : stable_sort le l ≡ₚ l.
Proof.
  induction l as [|x l IH]; cbn; [done|]. by rewrite stable_insert_Permutation, IH.
Qed.
Lemma StronglySorted_stable_insert `{!Total le, !Transitive le} x l :
  StronglySorted le l → StronglySorted le (stable_insert le x l).
Proof.
  induction 1 as [|y l Hl IH Hy]; cbn; [by repeat constructor|].
  destruct (decide (le x y)) as [Hxy|Hxy].
  - repeat constructor; [done..|]. eapply Forall_impl; [exact Hy|]. intros. by trans y.
  - constructor; [done|]. rewrite stable_insert_Permutation. constructor; [|done].
    by destruct (total le x y).
Qed.
Lemma StronglySorted_stable_sort `{!Total le, !Transitive le} l :
  StronglySorted le (stable_sort le l).
Proof.
  induction l as [|x l IH]; cbn; [constructor|]. by apply StronglySorted_stable_insert.
Qed.
End StableSort.

(** [SELECT .. WHERE p ORDER BY le] over the rows of a table. *)
Definition select {A} (p : A → bool) (le : relation A) `{!RelDecision le}
    (l : list A) : list A :=
  merge_sort le (filter (λ r, p r = true) l).

Section Select.
Context {A : Type} (p : A → bool) (le : relation A)
  `{!RelDecision le, !Total le, !Transitive le}.

Lemma elem_of_select l x : x ∈ select p le l ↔ x ∈ l ∧ p x = true.
Proof.
  unfold select. rewrite (merge_sort_Permutation le), list_elem_of_filter. tauto.
Qed.

Lemma select_sorted l : StronglySorted le (select p le l).
Proof. apply StronglySorted_merge_sort; apply _. Qed.

(** The first row of a query is a least one among those that qualify. *)
Lemma select_head l x :
  head (select p le l) = Some x →
  x ∈ l ∧ p x = true ∧ ∀ y, y ∈ l → p y = true → le x y.
Proof.
  intros Hx. pose proof (select_sorted l) as Hs.
  assert (x ∈ select p le l) as [Hin Hp]%elem_of_select.
  { destruct (select p le l); simplify_eq/=. left. }
  split_and!; [done..|]. intros y Hy Hpy.
  assert (y ∈ select p le l) as Hys by by apply elem_of_select.
  destruct (select p le l) as [|z l']; simplify_eq/=.
  apply elem_of_cons in Hys as [->|Hys].
  - destruct (total le x x); done.
  - inversion_clear Hs as [|? ? _ Hall].
    rewrite Forall_forall in Hall. by apply Hall.
Qed.

Lemma select_nil l : select p le l = [] → ∀ y, y ∈ l → p y = false.
Proof.
  intros Hnil y Hy. destruct (p y) eqn:E; [|done].
  assert (y ∈ select p le l) as Hin by by apply elem_of_select.
  rewrite Hnil in Hin. by apply not_elem_of_nil in Hin.
Qed.
End Select.

(** ** Tactics *)

(** Destruct every boolean test, decision and option in sight. *)
Ltac split_tests :=
  repeat (case_match || case_decide); simplify_eq/=.

Ltac bool_to_prop :=
  rewrite ?andb_true_iff, ?andb_false_iff, ?orb_true_iff, ?orb_false_iff,
    ?negb_true_iff, ?negb_false_iff, ?String.eqb_eq, ?String.eqb_neq in *.

(** ** Hint databases *)
Create HintDb lab discriminated.
Create Rewrite HintDb lab_simpl.
Create HintDb respects discriminated.

(** ** Shared lemmas *)

Lemma eqb_string_refl (s : string) : (s =?s s) = true.
Proof. by apply String.eqb_eq. Qed.

#[export] Hint Rewrite eqb_string_refl : lab_simpl.

(** [trim_space] reaches a fixed point at once. *)

Lemma trim_left_no_lead (s : string) :
  trim_left (trim_left s) = trim_left s.
Proof.
  revert s. fix IH 1. intros [|a r]; [done|]. cbn [trim_left].
  destruct (space1 a) eqn:E1; [apply IH|].
  destruct r as [|b r2]; [cbn [trim_left]; by rewrite E1|].
  destruct (space2 a b) eqn:E2; [apply IH|].
  destruct r2 as [|c r3]; [cbn [trim_left]; by rewrite E1, E2|].
  destruct (space3 a b c) eqn:E3; [apply IH|].
  cbn [trim_left]; by rewrite E1, E2, E3.
Qed.

Lemma trim_right_idemp (s : string) : trim_right (trim_right s) = trim_right s.
Proof.
  induction s as [|a r IH]; [done|]. cbn [trim_right].
  destruct (one_space (String a (trim_right r))) eqn:E; [done|].
  cbn [trim_right]. by rewrite IH, E.
Qed.

(** Concatenation. *)
Lemma sapp_cons a s t : String a s +:+ t = String a (s +:+ t).
Proof. reflexivity. Qed.
Lemma sapp_empty s : "" +:+ s = s.
Proof. reflexivity. Qed.
Lemma sapp_nil s : s +:+ "" = s.
Proof. induction s as [|a s IH]; [done|]. by rewrite sapp_cons, IH. Qed.
Lemma sapp_assoc a b c : (a +:+ b) +:+ c = a +:+ (b +:+ c).
Proof. induction a as [|x a IH]; [done|]. by rewrite !sapp_cons, IH. Qed.
Lemma sapp_length a b : String.length (a +:+ b) = (String.length a + String.length b)%nat.
Proof. induction a as [|x a IH]; [done|]. rewrite sapp_cons. cbn. by rewrite IH. Qed.
Create Rewrite HintDb sapp.
#[export] Hint Rewrite sapp_cons sapp_empty sapp_nil sapp_assoc : sapp.

(** Trimming and cutting do not lengthen a string. *)
Lemma slen_app a b : slen (a +:+ b) = slen a + slen b.
Proof.
  unfold slen. induction a as [|c a IH]; [reflexivity|]. simpl.
  rewrite !Nat2Z.inj_succ, IH. lia.
Qed.
Lemma slen_nonneg s : 0 <= slen s.
Proof. unfold slen. lia. Qed.
Lemma slen_stake n s : slen (stake n s) <= Z.of_nat n.
Proof.
  unfold slen. revert s. induction n as [|n IH]; intros [|a s]; cbn [stake String.length]; try lia.
  specialize (IH s). lia.
Qed.
Lemma slen_trim_left s : slen (trim_left s) <= slen s.
Proof.
  unfold slen. revert s. fix IH 1. intros [|a r]; [done|]. cbn [trim_left].
  destruct (space1 a); [specialize (IH r); cbn [String.length]; lia|].
  destruct r as [|b r2]; [done|].
  destruct (space2 a b); [specialize (IH r2); cbn [String.length]; lia|].
  destruct r2 as [|c r3]; [done|].
  destruct (space3 a b c); [specialize (IH r3); cbn [String.length]; lia|done].
Qed.
Lemma slen_trim_right s : slen (trim_right s) <= slen s.
Proof.
  unfold slen. induction s as [|a r IH]; [done|]. cbn [trim_right].
  destruct (one_space _); cbn [String.length]; lia.
Qed.
Lemma slen_trim_space s : slen (trim_space s) <= slen s.
Proof.
  unfold trim_space. pose proof (slen_trim_right (trim_left s)).
  pose proof (slen_trim_left s). lia.
Qed.

(** What trimming leaves is trimmed. *)
Lemma trim_left_cons a r :
  trim_left (String a r) =
    if space1 a then trim_left r else
    match r with
    | String b r2 =>
        if space2 a b then trim_left r2 else
        match r2 with
        | String c r3 => if space3 a b c then trim_left r3 else String a r
        | EmptyString => String a r
        end
    | EmptyString => String a r
    end.
Proof. reflexivity. Qed.
Lemma trim_left_prefix u w : trim_left (u +:+ w) = u +:+ w → trim_left u = u.
Proof.
  assert (Hshort : ∀ x a k, slen x <= slen k → x ≠ String a k).
  { intros x a k Hx ->. unfold slen in Hx. cbn [String.length] in Hx. lia. }
  assert (Hstep : ∀ k a, slen k <= slen (String a k)).
  { intros k a. unfold slen. cbn [String.length]. lia. }
  assert (Hle : ∀ k, slen (trim_left k) <= slen k) by (intros; apply slen_trim_left).
  destruct u as [|a [|b u]]; [done|..];
    rewrite ?sapp_cons, ?sapp_empty, !(trim_left_cons a);
    (destruct (space1 a); [intros []%Hshort; apply Hle|]); [done|].
  destruct (space2 a b); [intros []%Hshort; etrans; [apply Hle|apply Hstep]|].
  destruct u as [|c u]; [done|]. rewrite sapp_cons.
  destruct (space3 a b c); [|done].
  intros []%Hshort. etrans; [apply Hle|]. etrans; apply Hstep.
Qed.
Lemma trim_right_prefix s : ∃ w, s = trim_right s +:+ w.
Proof.
  induction s as [|a s [w IH]]; [by exists ""|]. cbn [trim_right].
  destruct (one_space _); [by eexists|]. exists w. rewrite sapp_cons. by rewrite <- IH.
Qed.
Lemma trim_space_idemp s : trim_space (trim_space s) = trim_space s.
Proof.
  unfold trim_space. destruct (trim_right_prefix (trim_left s)) as [w Hw].
  rewrite (trim_left_prefix (trim_right (trim_left s)) w), trim_right_idemp; [done|].
  by rewrite <- Hw, trim_left_no_lead.
Qed.
Lemma slen_sjoin sep l n :
  0 <= n → Forall (λ s, slen s <= n) l →
  slen (sjoin sep l) <= Z.of_nat (length l) * (n + slen sep).
Proof.
  intros Hn Hl. induction Hl as [|x l Hx Hl IH]; [cbn; unfold slen; cbn; lia|].
  pose proof (slen_nonneg sep). destruct l as [|y l]; [cbn in *; lia|].
  change (sjoin sep (x :: y :: l)) with (x +:+ sep +:+ sjoin sep (y :: l)).
  rewrite !slen_app. cbn [length] in *. lia.
Qed.

(** ** Paths *)

Lemma split_on_cons sep s : ∃ x xs, split_on sep s = x :: xs.
Proof.
  destruct s as [|a s]; cbn; [eauto|]. destruct (Ascii.eqb a sep); [eauto|].
  destruct (split_on sep s); eauto.
Qed.

Lemma split_prefix_of (r w : string) :
  w = r ∨ has_prefix (r +:+ "/") w = true ↔
  split_on "/" r `prefix_of` split_on "/" w.
Proof.
  unfold has_prefix. revert w. induction r as [|a r IH]; intros w.
  - cbn [split_on]. change ("" +:+ "/") with "/". destruct w as [|b w].
    + split; [intros _; done|by left].
    + cbn [split_on String.prefix]. destruct (ascii_dec "/" b) as [<-|Hne].
      * rewrite Ascii.eqb_refl. split; [|right; by destruct w].
        intros _. apply prefix_cons, prefix_nil.
      * assert (Ascii.eqb b "/" = false) as -> by (by apply Ascii.eqb_neq).
        split; [intros [?|?]; done|].
        destruct (split_on_cons "/" w) as (x & xs & ->).
        intros Hp%prefix_cons_inv_1. done.
  - destruct w as [|b w].
    { split; [intros [?|?]; done|]. cbn [split_on]. destruct (Ascii.eqb a "/").
      - intros Hp. apply prefix_cons_inv_2 in Hp.
        destruct (split_on_cons "/" r) as (x & xs & Hx). rewrite Hx in Hp.
        by apply prefix_nil_not in Hp.
      - destruct (split_on_cons "/" r) as (x & xs & ->).
        intros Hp%prefix_cons_inv_1. done. }
    change (String a r +:+ "/") with (String a (r +:+ "/")).
    cbn [split_on String.prefix]. destruct (ascii_dec a b) as [<-|Hab].
    + assert (String a w = String a r ↔ w = r) as -> by naive_solver.
      rewrite IH. destruct (Ascii.eqb a "/").
      * split; [apply prefix_cons|apply prefix_cons_inv_2].
      * destruct (split_on_cons "/" r) as (x & xs & ->),
          (split_on_cons "/" w) as (y & ys & ->).
        split; intros Hp.
        -- pose proof (prefix_cons_inv_1 _ _ _ _ Hp) as ->.
           by apply prefix_cons, (prefix_cons_inv_2 _ _ _ _ Hp).
        -- pose proof (prefix_cons_inv_1 _ _ _ _ Hp). simplify_eq.
           by apply prefix_cons, (prefix_cons_inv_2 _ _ _ _ Hp).
    + split; [intros [?|?]; congruence|].
      destruct (Ascii.eqb a "/") eqn:Ea, (Ascii.eqb b "/") eqn:Eb.
      * apply Ascii.eqb_eq in Ea, Eb. congruence.
      * destruct (split_on_cons "/" w) as (y & ys & ->).
        intros Hp%prefix_cons_inv_1. done.
      * destruct (split_on_cons "/" r) as (x & xs & ->).
        intros Hp%prefix_cons_inv_1. done.
      * destruct (split_on_cons "/" r) as (x & xs & ->),
          (split_on_cons "/" w) as (y & ys & ->).
        intros Hp%prefix_cons_inv_1. congruence.
Qed.

(** A text without separators is one part. *)
Lemma split_on_app sep c s :
  split_on sep c = [c] → split_on sep (c +:+ String sep s) = c :: split_on sep s.
Proof.
  induction c as [|a c IH].
  - intros _. change ("" +:+ String sep s) with (String sep s). cbn [split_on]. by rewrite Ascii.eqb_refl.
  - change (String a c +:+ String sep s) with (String a (c +:+ String sep s)). cbn [split_on].
    destruct (Ascii.eqb a sep) eqn:Ea; [discriminate|].
    destruct (split_on_cons sep c) as (x & xs & Hc). rewrite Hc. intros E. injection E as -> ->.
    by rewrite (IH Hc).
Qed.
Lemma split_on_parts sep s x : x ∈ split_on sep s → split_on sep x = [x].
Proof.
  revert x. induction s as [|a s IH]; intros x; cbn [split_on].
  - intros ->%list_elem_of_singleton. done.
  - destruct (Ascii.eqb a sep) eqn:Ea.
    + rewrite elem_of_cons. intros [->|Hx]; [done|by apply IH].
    + destruct (split_on_cons sep s) as (y & ys & Hs). rewrite Hs in *.
      rewrite elem_of_cons. intros [->|Hx]; [|by apply IH; right].
      cbn [split_on]. rewrite Ea, (IH y) by (by left). done.
Qed.
Lemma split_on_sjoin l x :
  Forall (λ c, split_on "/" c = [c]) (x :: l) → split_on "/" (sjoin "/" (x :: l)) = x :: l.
Proof.
  revert x. induction l as [|y l IH]; intros x Hall; apply Forall_cons in Hall as [Hx Hl].
  - exact Hx.
  - change (sjoin "/" (x :: y :: l)) with (x +:+ String "/" (sjoin "/" (y :: l))).
    by rewrite split_on_app, IH.
Qed.
(** The parts of a cleaned rooted path. *)
Definition proper (c : string) : Prop :=
  split_on "/" c = [c] ∧ c ≠ "" ∧ c ≠ "." ∧ c ≠ "..".
Lemma clean_step_proper st c :
  Forall proper st → split_on "/" c = [c] → Forall proper (clean_step true st c).
Proof.
  intros Hst Hc. unfold clean_step.
  destruct (String.eqb_spec c ""); [done|]. destruct (String.eqb_spec c "."); [done|]. cbn [orb].
  destruct (String.eqb_spec c ".."); [|by constructor].
  destruct st as [|top st]; [done|]. apply Forall_cons in Hst as [(? & ? & ? & Htop) Hst].
  apply String.eqb_neq in Htop. by rewrite Htop.
Qed.
Lemma clean_steps_proper l st :
  Forall proper st → Forall (λ c, split_on "/" c = [c]) l → Forall proper (foldl (clean_step true) st l).
Proof.
  revert st. induction l as [|c l IH]; intros st Hst Hall; [done|].
  apply Forall_cons in Hall as [Hc Hall]. cbn [foldl]. apply IH; [|done].
  by apply clean_step_proper.
Qed.
Lemma clean_parts p : Forall proper (foldl (clean_step true) [] (split_on "/" p)).
Proof.
  apply clean_steps_proper; [constructor|].
  apply Forall_forall. intros c Hc. by apply (split_on_parts _ p).
Qed.
Lemma clean_of_parts l st :
  Forall proper l → foldl (clean_step true) st l = rev l ++ st.
Proof.
  revert st. induction l as [|c l IH]; intros st Hall; [done|].
  apply Forall_cons in Hall as [(_ & H1 & H2 & H3) Hall]. cbn [foldl rev]. rewrite (IH _ Hall).
  unfold clean_step. apply String.eqb_neq in H1, H2, H3. rewrite H1, H2, H3. cbn [orb].
  rewrite <- app_assoc. reflexivity.
Qed.
Lemma path_clean_rooted p : is_rooted p = true → is_rooted (path_clean p) = true.
Proof.
  intros Hp. unfold path_clean. rewrite Hp. cbn zeta. generalize (sjoin "/" (rev (foldl
    (clean_step true) [] (split_on "/" p)))) as b. by intros [|? ?].
Qed.
Lemma path_clean_idemp p : is_rooted p = true → path_clean (path_clean p) = path_clean p.
Proof.
  intros Hp. unfold path_clean at 1. rewrite (path_clean_rooted p Hp). unfold path_clean. rewrite Hp.
  pose proof (clean_parts p) as Hparts. revert Hparts.
  generalize (foldl (clean_step true) [] (split_on "/" p)) as st. intros st Hst.
  f_equal. f_equal. f_equal.
  change ("/" +:+ sjoin "/" (rev st)) with (String "/" (sjoin "/" (rev st))).
  cbn [split_on]. rewrite Ascii.eqb_refl. cbn [foldl].
  assert (Hrev : Forall proper (rev st)) by (by apply Forall_rev).
  destruct (rev st) as [|x l] eqn:E.
  - cbn. by apply (f_equal (@rev _)) in E; rewrite rev_involutive in E.
  - rewrite split_on_sjoin; [|eapply Forall_impl; [exact Hrev|]; by intros ? []].
    rewrite clean_of_parts by done. rewrite app_nil_r.
    by rewrite <- E, rev_involutive.
Qed.
Lemma path_join_rooted a l :
  is_rooted a = true → ∃ s, is_rooted s = true ∧ path_join (a :: l) = path_clean s.
Proof.
  intros Ha. unfold path_join.
  assert (a ≠ "") as Hne by (by intros ->). rewrite filter_cons_True by done.
  eexists. split; [|reflexivity]. destruct (filter _ l) as [|b l'].
  - exact Ha.
  - change (sjoin "/" (a :: b :: l')) with (a +:+ "/" +:+ sjoin "/" (b :: l')).
    revert Ha. unfold is_rooted, has_prefix. destruct a as [|c a]; [intros Ha; discriminate Ha|].
    cbn [String.prefix]. destruct (ascii_dec _ c) as [<-|]; [|intros Ha; discriminate Ha].
    intros _. destruct a; reflexivity.
Qed.
