(* ===== verification/GoVal.v ===== *)
(** * Dynamic values

    Go's [any] as the control plane uses it: the payloads decoded from JSON,
    task metadata, and the values the code builds in memory before they are
    marshalled into a [jsonb] column.  Shared by every file that touches
    [map[string]any]. *)
From S2P Require Import Prelude.

(** ** Time

    A [time.Time] is the number of nanoseconds since Go's zero time
    (0001-01-01T00:00:00Z), so [IsZero] is [t = 0].  Durations are
    nanoseconds too. *)
Definition nanosecond : Z := 1.
Definition second : Z := 1000000000.
Definition minute : Z := 60 * second.
Definition hour : Z := 60 * minute.
(** The Unix epoch, on this scale. *)
Definition unix_epoch : Z := 719162 * 86400 * second.
(** Arithmetic on [time.Duration] wraps around at 64 bits. *)
Definition wrap64 (z : Z) : Z := (z + 2 ^ 63) mod 2 ^ 64 - 2 ^ 63.
Definition time_is_zero (t : Z) : bool := t =? 0.
Definition truncate_second (t : Z) : Z := t / second * second.

(** Civil date of a day number counted from 0001-01-01. *)
Definition civil_from_days (z0 : Z) : Z * Z * Z :=
  let z := z0 + 306 in
  let era := z / 146097 in
  let doe := z - era * 146097 in
  let yoe := (doe - doe / 1460 + doe / 36524 - doe / 146096) / 365 in
  let y := yoe + era * 400 in
  let doy := doe - (365 * yoe + yoe / 4 - yoe / 100) in
  let mp := (5 * doy + 2) / 153 in
  let d := doy - (153 * mp + 2) / 5 + 1 in
  let m := if mp <? 10 then mp + 3 else mp - 9 in
  (if m <=? 2 then y + 1 else y, m, d).

Fixpoint zeros (n : nat) : string :=
  match n with O => "" | S n' => String "0" (zeros n') end.
Definition pad (width : nat) (z : Z) : string :=
  let s := pretty z in zeros (width - String.length s) +:+ s.

(** [t.UTC().Format(time.RFC3339)] *)
Definition rfc3339 (t : Z) : string :=
  let secs := t / second in
  let day := secs / 86400 in
  let sod := secs mod 86400 in
  let '(y, m, d) := civil_from_days day in
  pad 4 y +:+ "-" +:+ pad 2 m +:+ "-" +:+ pad 2 d +:+ "T"
  +:+ pad 2 (sod / 3600) +:+ ":" +:+ pad 2 (sod / 60 mod 60) +:+ ":"
  +:+ pad 2 (sod mod 60) +:+ "Z".

Example rfc3339_unix_epoch :
  rfc3339 (719162 * 86400 * second + 5 * second + 7) = "1970-01-01T00:00:05Z".
Proof. vm_compute. reflexivity. Qed.
Example rfc3339_leap_day :
  rfc3339 ((719162 + 19782) * 86400 * second) = "2024-02-29T00:00:00Z".
Proof. vm_compute. reflexivity. Qed.

(** ** Values

    [VNum m e] is the float64 whose shortest decimal form is [m * 10^e];
    [VTime t] is the string [rfc3339 t], kept by the instant it denotes;
    [VInt], [VStrs] and [VMaps] are the in-memory [int], [[]string] and
    [[]map[string]any], which JSON does not distinguish from the others, and
    [VNilMap] and [VNilStrs] are a nil [map[string]any] and a nil [[]string] in an
    interface: not a nil interface, but marshalled as null. *)
Inductive gval :=
  | VNil
  | VBool (b : bool)
  | VInt (z : Z)
  | VNum (m e : Z)
  | VStr (s : string)
  | VTime (t : Z)
  | VStrs (l : list string)
  | VList (l : list gval)
  | VMap (m : gmap string gval)
  | VNilMap
  | VNilStrs
  | VMaps (l : list (gmap string gval)).

Abbreviation gmap_any := (gmap string gval).

(** What a value becomes when it is marshalled and read back. *)
Fixpoint jsonb (v : gval) : gval :=
  match v with
  | VInt z => VNum z 0
  | VStrs l => VList (VStr <$> l)
  | VNilMap | VNilStrs => VNil
  | VList l => VList (jsonb <$> l)
  | VMap m => VMap (jsonb <$> m)
  | VMaps l => VList ((λ m, VMap (jsonb <$> m)) <$> l)
  | _ => v
  end.
Definition jsonb_map (m : gmap_any) : gmap_any := jsonb <$> m.

(** [m[key]] on a [map[string]any]: the nil interface when absent. *)
Definition mget (m : gmap_any) (key : string) : gval := default VNil (m !! key).

(** [asString]: the string when the dynamic type is string, else "". *)
Definition as_string (v : gval) : string :=
  match v with VStr s => s | VTime t => rfc3339 t | _ => "" end.

(** The lenient booleans of the HTTP layer, the worker and the contracts. *)
Definition as_bool (v : gval) : bool :=
  match v with
  | VBool b => b
  | VStr s =>
      let t := to_lower (trim_space s) in
      (t =?s "true") || (t =?s "1") || (t =?s "yes") || (t =?s "on")
  | _ => false
  end.

(** [normalizedMapSlice]: the maps of a slice, other entries dropped. *)
Definition only_map (v : gval) : option gmap_any :=
  match v with VMap m => Some m | _ => None end.
Definition map_slice (v : gval) : list gmap_any :=
  match v with
  | VMaps l => l
  | VList l => omap only_map l
  | _ => []
  end.

(** Map keys in the order of [sort.Strings]. *)
Definition sorted_keys {A} (m : gmap string A) : list string :=
  merge_sort String.le (elements (dom m)).

(** A float64 in the shortest of its decimal forms, with an exponent below [lo] and
    from [hi] on. *)
Fixpoint strip_zeros (fuel : nat) (m e : Z) : Z * Z :=
  match fuel with
  | O => (m, e)
  | S f => if (m mod 10 =? 0) && negb (m =? 0)
           then strip_zeros f (m / 10) (e + 1) else (m, e)
  end.
Definition float_text (lo hi : Z) (exponent : Z → string) (m0 e0 : Z) : string :=
  if m0 =? 0 then "0" else
  let '(m, e) := strip_zeros (Z.to_nat (Z.log2 (Z.abs m0) + 1)) (Z.abs m0) e0 in
  let d := pretty m in
  let nd := slen d in
  let dp := nd + e in
  let x := dp - 1 in
  let body :=
    if (x <? lo) || (hi <=? x) then
      stake 1 d +:+ (if nd =? 1 then "" else "." +:+ sdrop 1 d) +:+ exponent x
    else if dp <=? 0 then "0." +:+ zeros (Z.to_nat (- dp)) +:+ d
    else if nd <=? dp then d +:+ zeros (Z.to_nat (dp - nd))
    else stake (Z.to_nat dp) d +:+ "." +:+ sdrop (Z.to_nat dp) d in
  (if m0 <? 0 then "-" else "") +:+ body.

(** [fmt.Sprint] of a float64. *)
Definition exponent_text (x : Z) : string :=
  (if x <? 0 then "e-" else "e+") +:+ pad 2 (Z.abs x).
Definition sprint_num (m e : Z) : string := float_text (-4) 6 exponent_text m e.

(** [fmt.Sprint] *)
Definition sprint_entries (m : gmap string string) : string :=
  "map[" +:+ sjoin " " ((λ k, k +:+ ":" +:+ default "" (m !! k)) <$> sorted_keys m)
  +:+ "]".
Fixpoint sprint (v : gval) : string :=
  match v with
  | VNil => "<nil>"
  | VBool b => if b then "true" else "false"
  | VInt z => pretty z
  | VNum m e => sprint_num m e
  | VStr s => s
  | VTime t => rfc3339 t
  | VStrs l => "[" +:+ sjoin " " l +:+ "]"
  | VList l => "[" +:+ sjoin " " (sprint <$> l) +:+ "]"
  | VMap m => sprint_entries (sprint <$> m)
  | VNilMap => "map[]"
  | VNilStrs => "[]"
  | VMaps l => "[" +:+ sjoin " " ((λ m, sprint_entries (sprint <$> m)) <$> l) +:+ "]"
  end.

Example sprint_numbers :
  sprint <$> [VNum 1000000 0; VNum 25 (-1); VNum (-3) 0; VNum 5 (-6); VNum 120 0]
  = ["1e+06"; "2.5"; "-3"; "5e-06"; "120"].
Proof. vm_compute. reflexivity. Qed.

(** [n / d] to the nearest integer, ties to even. *)
Definition round_half_even (n d : Z) : Z :=
  let q := n / d in
  let r := n mod d in
  if 2 * r <? d then q
  else if d <? 2 * r then q + 1
  else if Z.even q then q else q + 1.

(** ** Lemmas *)

Lemma round_half_even_bounds n d :
  0 < d → 2 * n - d <= 2 * (round_half_even n d * d) <= 2 * n + d.
Proof.
  intros Hd. unfold round_half_even.
  pose proof (Z.div_mod n d ltac:(lia)) as Hn.
  pose proof (Z.mod_pos_bound n d Hd) as Hr.
  destruct (Z.ltb_spec (2 * (n mod d)) d); [nia|].
  destruct (Z.ltb_spec d (2 * (n mod d))); [nia|].
  destruct (Z.even _); nia.
Qed.

Lemma mget_insert_eq (m : gmap_any) k v : mget (<[k:=v]> m) k = v.
Proof. unfold mget. by rewrite lookup_insert_eq. Qed.
Lemma mget_insert_ne (m : gmap_any) k k' v :
  k ≠ k' → mget (<[k:=v]> m) k' = mget m k'.
Proof. intros H. unfold mget. by rewrite lookup_insert_ne. Qed.

Lemma mget_jsonb_map (m : gmap_any) k : mget (jsonb_map m) k = jsonb (mget m k).
Proof.
  unfold mget, jsonb_map. rewrite lookup_fmap. by destruct (m !! k).
Qed.

Lemma as_string_jsonb v : as_string (jsonb v) = as_string v.
Proof. by destruct v. Qed.

#[export] Hint Rewrite mget_insert_eq mget_jsonb_map as_string_jsonb : lab_simpl.

Lemma map_slice_jsonb v :
  map_slice (jsonb v) = jsonb_map <$> map_slice v.
Proof.
  destruct v as [| | | | | |l|l| | | |l]; try done; cbn.
  - by induction l.
  - induction l as [|x l IH]; [done|]; cbn. destruct x; cbn; by rewrite ?IH.
  - induction l as [|x l IH]; [done|]; cbn. unfold jsonb_map at 1. by rewrite <- IH.
Qed.

Lemma wrap64_small z : - 2 ^ 63 <= z < 2 ^ 63 → wrap64 z = z.
Proof. intros Hz. unfold wrap64. rewrite Z.mod_small; lia. Qed.
