(* ===== verification/Rfc3339.v ===== *)
(** * Times as text

    The layouts [time.RFC3339] and [time.RFC3339Nano] of Go's [time] package, as
    the control plane prints and reads them: cursors, objective deadlines, query
    filters.  A time is an instant (nanoseconds, as in [GoVal]); printing takes
    the offset of its location in seconds east of UTC. *)
From S2P Require Import Prelude GoVal.

(** ** The calendar *)

Definition is_leap (y : Z) : bool :=
  (y mod 4 =? 0) && (negb (y mod 100 =? 0) || (y mod 400 =? 0)).
Definition days_in (y m : Z) : Z :=
  if m =? 2 then if is_leap y then 29 else 28
  else if (m =? 4) || (m =? 6) || (m =? 9) || (m =? 11) then 30 else 31.

(** The day number of a civil date, from 0001-01-01. *)
Definition days_from_civil (y m d : Z) : Z :=
  let y := if m <=? 2 then y - 1 else y in
  let era := y / 400 in
  let yoe := y - era * 400 in
  let mp := if m <=? 2 then m + 9 else m - 3 in
  let doy := (153 * mp + 2) / 5 + d - 1 in
  era * 146097 + (365 * yoe + yoe / 4 - yoe / 100 + doy) - 306.

(** ** Digits *)

Definition digit_char (n : Z) : ascii := ascii_of_nat (Z.to_nat (48 + n)).
Definition digit_value (a : ascii) : option Z :=
  let n := Z.of_nat (nat_of_ascii a) in
  if (48 <=? n) && (n <=? 57) then Some (n - 48) else None.

(** [width] digits. *)
Fixpoint digits (width : nat) (n : Z) : string :=
  match width with
  | O => ""
  | S w => digits w (n / 10) +:+ String (digit_char (n mod 10)) ""
  end.
(** The digits of a fraction of [width] digits, without its trailing zeros. *)
Fixpoint fraction_digits (width : nat) (n : Z) : string :=
  match width with
  | O => ""
  | S w => if n mod 10 =? 0 then fraction_digits w (n / 10) else digits width n
  end.

(** ** Printing *)

(** [Time.appendFormatRFC3339(b, nanos)]: the zone is cut to minutes. *)
Definition format_zone (offset : Z) : string :=
  if offset =? 0 then "Z"
  else
    let zone := Z.quot offset 60 in
    (if zone <? 0 then "-" else "+") +:+ pad 2 (Z.abs zone / 60) +:+ ":"
    +:+ pad 2 (Z.abs zone mod 60).
Definition format_seconds (secs : Z) : string :=
  let '(y, m, d) := civil_from_days (secs / 86400) in
  let sod := secs mod 86400 in
  pad 4 y +:+ "-" +:+ pad 2 m +:+ "-" +:+ pad 2 d +:+ "T"
  +:+ pad 2 (sod / 3600) +:+ ":" +:+ pad 2 (sod / 60 mod 60) +:+ ":" +:+ pad 2 (sod mod 60).
Definition format_nano (t offset : Z) : string :=
  let local := t + offset * second in
  let nsec := local mod second in
  format_seconds (local / second)
  +:+ (if nsec =? 0 then "" else "." +:+ fraction_digits 9 nsec)
  +:+ format_zone offset.

(** The year that is printed. *)
Definition local_year (t offset : Z) : Z :=
  ((civil_from_days ((t + offset * second) / second / 86400)).1).1.

(** ** Parsing: [time.Parse] with either layout *)

Definition expect (c : ascii) (s : string) : option string :=
  match s with String a r => if Ascii.eqb a c then Some r else None | EmptyString => None end.
Definition digit (s : string) : option (Z * string) :=
  match s with
  | String a r => (λ d, (d, r)) <$> digit_value a
  | EmptyString => None
  end.
Fixpoint fixed (width : nat) (acc : Z) (s : string) : option (Z * string) :=
  match width with
  | O => Some (acc, s)
  | S w => '(d, s) ← digit s; fixed w (10 * acc + d) s
  end.
(** [getnum(s, false)]: one or two digits. *)
Definition one_or_two (s : string) : option (Z * string) :=
  '(a, s) ← digit s;
  match digit s with
  | Some (b, s) => Some (10 * a + b, s)
  | None => Some (a, s)
  end.
(** All digits in front: the first [width] as a number, how many those were. *)
Fixpoint many (width : nat) (acc : Z) (s : string) : Z * nat * string :=
  match s with
  | EmptyString => (acc, width, s)
  | String a r =>
      match digit_value a with
      | None => (acc, width, s)
      | Some d =>
          match width with
          | O => many O acc r
          | S w => many w (10 * acc + d) r
          end
      end
  end.
(** A fraction of a second, if one is there. *)
Definition parse_fraction (s : string) : Z * string :=
  match s with
  | String c ((String d _) as r) =>
      if (Ascii.eqb c "." || Ascii.eqb c ",") && bool_decide (is_Some (digit_value d)) then
        let '(n, missing, rest) := many 9 0 r in (n * 10 ^ Z.of_nat missing, rest)
      else (0, s)
  | _ => (0, s)
  end.
Definition parse_zone (s : string) : option (Z * string) :=
  match s with
  | EmptyString => None
  | String c r =>
      if Ascii.eqb c "Z" then Some (0, r)
      else
        '(hh, r) ← fixed 2 0 r;
        r ← expect ":" r;
        '(mm, r) ← fixed 2 0 r;
        if (24 <? hh) || (60 <? mm) then None
        else if Ascii.eqb c "+" then Some ((hh * 60 + mm) * 60, r)
        else if Ascii.eqb c "-" then Some (- ((hh * 60 + mm) * 60), r)
        else None
  end.
Definition parse_rfc3339 (s : string) : option Z :=
  '(y, s) ← fixed 4 0 s;
  s ← expect "-" s;
  '(mo, s) ← fixed 2 0 s;
  s ← expect "-" s;
  '(d, s) ← fixed 2 0 s;
  s ← expect "T" s;
  '(h, s) ← one_or_two s;
  s ← expect ":" s;
  '(mi, s) ← fixed 2 0 s;
  s ← expect ":" s;
  '(sec, s) ← fixed 2 0 s;
  let '(nsec, s) := parse_fraction s in
  '(offset, s) ← parse_zone s;
  if negb (s =?s "") then None
  else if (mo <? 1) || (12 <? mo) || (23 <? h) || (59 <? mi) || (59 <? sec)
          || (d <? 1) || (days_in y mo <? d) then None
  else Some ((days_from_civil y mo d * 86400 + h * 3600 + mi * 60 + sec - offset) * second
             + nsec).

Example parse_offset :
  parse_rfc3339 "2024-02-29T1:30:00.5+02:30"
    = Some ((((719162 + 19782) * 86400 - 3600) * 10 + 5) * 100000000) ∧
  parse_rfc3339 "2023-02-29T01:30:00Z" = None.
Proof. split; vm_compute; reflexivity. Qed.

(** ** The calendar is a bijection *)
Ltac divisions := Z.div_mod_to_equations; lia.

(** Of a day of the 400-year cycle: its year from March, and its day in that. *)
Lemma era_year doe :
  0 <= doe < 146097 →
  let yoe := (doe - doe / 1460 + doe / 36524 - doe / 146096) / 365 in
  let doy := doe - (365 * yoe + yoe / 4 - yoe / 100) in
  0 <= yoe < 400 ∧ 0 <= doy <= 365 ∧
  (doy = 365 → yoe = 399 ∨ (yoe mod 4 = 3 ∧ yoe mod 100 ≠ 99)).
Proof. intros H. cbn zeta. divisions. Qed.
(** Of a day of a year from March: its month and its day in that. *)
Lemma year_month doy :
  0 <= doy <= 365 →
  let mp := (5 * doy + 2) / 153 in
  0 <= mp <= 11 ∧ 1 <= doy - (153 * mp + 2) / 5 + 1 <= (if mp =? 11 then 29 else
    if (mp =? 1) || (mp =? 3) || (mp =? 6) || (mp =? 8) then 30 else 31) ∧
  (mp = 11 → doy - (153 * mp + 2) / 5 + 1 = 29 → doy = 365).
Proof.
  intros H. cbn zeta.
  assert (Hmp : 0 <= (5 * doy + 2) / 153 <= 11) by divisions.
  assert (Hd : (5 * doy + 2) / 153 * 153 <= 5 * doy + 2 < (5 * doy + 2) / 153 * 153 + 153)
    by divisions.
  generalize dependent ((5 * doy + 2) / 153). intros mp Hmp Hd.
  assert (mp = 0 ∨ mp = 1 ∨ mp = 2 ∨ mp = 3 ∨ mp = 4 ∨ mp = 5 ∨ mp = 6 ∨ mp = 7 ∨ mp = 8
    ∨ mp = 9 ∨ mp = 10 ∨ mp = 11) as Hc by lia.
  destruct_or! Hc; subst mp; cbn; divisions.
Qed.

Lemma days_in_march_year y mp :
  0 <= mp <= 11 →
  (if mp =? 11 then 28 else
     if (mp =? 1) || (mp =? 3) || (mp =? 6) || (mp =? 8) then 30 else 31)
  <= days_in y (if mp <? 10 then mp + 3 else mp - 9) ∧
  (mp = 11 → is_leap y = true → days_in y 2 = 29).
Proof.
  intros Hmp. split; [|intros _; unfold days_in; by intros ->].
  assert (mp = 0 ∨ mp = 1 ∨ mp = 2 ∨ mp = 3 ∨ mp = 4 ∨ mp = 5 ∨ mp = 6 ∨ mp = 7 ∨ mp = 8
    ∨ mp = 9 ∨ mp = 10 ∨ mp = 11) as Hc by lia.
  destruct_or! Hc; subst mp; unfold days_in; destruct (is_leap y); vm_compute; discriminate.
Qed.
Lemma leap_of_cycle yoe era :
  yoe = 399 ∨ (yoe mod 4 = 3 ∧ yoe mod 100 ≠ 99) → is_leap (yoe + era * 400 + 1) = true.
Proof.
  unfold is_leap. intros [->|[H4 H100]].
  - replace (399 + era * 400 + 1) with ((era + 1) * 400) by lia.
    replace (((era + 1) * 400) mod 4) with 0 by divisions.
    rewrite Z.mod_mul by lia. by rewrite orb_true_r.
  - replace ((yoe + era * 400 + 1) mod 4) with 0 by divisions.
    assert ((yoe + era * 400 + 1) mod 100 ≠ 0) as ->%Z.eqb_neq; [|done].
    intros H0. apply H100. divisions.
Qed.

Lemma civil_from_days_spec z :
  let '(y, m, d) := civil_from_days z in
  days_from_civil y m d = z ∧ 1 <= m <= 12 ∧ 1 <= d <= days_in y m.
Proof.
  unfold civil_from_days. cbn zeta.
  set (era := (z + 306) / 146097). set (doe := z + 306 - era * 146097).
  assert (Hdoe : 0 <= doe < 146097) by (unfold doe, era; divisions).
  destruct (era_year doe Hdoe) as (Hyoe & Hdoy & Hleap). cbn zeta in *.
  set (yoe := (doe - doe / 1460 + doe / 36524 - doe / 146096) / 365) in *.
  clearbody yoe.
  set (doy := doe - (365 * yoe + yoe / 4 - yoe / 100)) in *.
  destruct (year_month doy Hdoy) as (Hmp & Hd & Hlast). cbn zeta in *.
  set (mp := (5 * doy + 2) / 153) in *. clearbody mp.
  set (d := doy - (153 * mp + 2) / 5 + 1) in *.
  assert (Hz : z = era * 146097 + (365 * yoe + yoe / 4 - yoe / 100 + doy) - 306)
    by (unfold doy, doe; lia).
  assert (Hdoy' : (153 * mp + 2) / 5 + d - 1 = doy) by (unfold d; lia).
  assert (Hera : (yoe + era * 400) / 400 = era) by divisions.
  clearbody era doy d. clear Hdoe.
  destruct (Z.ltb_spec mp 10) as [Hlt|Hge].
  - pose proof (days_in_march_year (yoe + era * 400) mp Hmp) as [Hdays _].
    rewrite (proj2 (Z.ltb_lt mp 10) Hlt) in Hdays.
    replace (mp + 3 <=? 2) with false by lia. unfold days_from_civil.
    replace (mp + 3 <=? 2) with false by lia. cbn zeta. rewrite Hera.
    replace (mp + 3 - 3) with mp by lia. rewrite Hdoy'.
    replace (yoe + era * 400 - era * 400) with yoe by lia.
    split; [lia|]. split; [lia|]. destruct (Z.eqb_spec mp 11); [lia|]. lia.
  - pose proof (days_in_march_year (yoe + era * 400 + 1) mp Hmp) as [Hdays Hfeb].
    rewrite (proj2 (Z.ltb_ge mp 10) Hge) in Hdays.
    replace (mp - 9 <=? 2) with true by lia. unfold days_from_civil.
    replace (mp - 9 <=? 2) with true by lia. cbn zeta.
    replace (yoe + era * 400 + 1 - 1) with (yoe + era * 400) by lia. rewrite Hera.
    replace (mp - 9 + 9) with mp by lia. rewrite Hdoy'.
    replace (yoe + era * 400 - era * 400) with yoe by lia.
    split; [lia|]. split; [lia|]. destruct (Z.eqb_spec mp 11) as [->|]; [|lia].
    destruct (decide (d = 29)) as [->|]; [|lia].
    change (11 - 9) with 2. rewrite Hfeb; [lia|done|]. apply leap_of_cycle, Hleap, Hlast; done.
Qed.

(** ** Digits are read back *)
Lemma digit_value_char n : 0 <= n < 10 → digit_value (digit_char n) = Some n.
Proof.
  intros H. assert (n = 0 ∨ n = 1 ∨ n = 2 ∨ n = 3 ∨ n = 4 ∨ n = 5 ∨ n = 6 ∨ n = 7 ∨ n = 8
    ∨ n = 9) as Hc by lia. by destruct_or! Hc; subst n.
Qed.
Lemma digits_length w : ∀ n, String.length (digits w n) = w.
Proof.
  induction w as [|w IH]; intros n; cbn; [done|].
  rewrite sapp_length, IH. cbn. lia.
Qed.

Lemma fixed_digits w : ∀ n acc rest,
  0 <= n < 10 ^ Z.of_nat w →
  fixed w acc (digits w n +:+ rest) = Some (acc * 10 ^ Z.of_nat w + n, rest).
Proof.
  assert (Hsnoc : ∀ w acc s d rest, String.length s = w →
    fixed (S w) acc (s +:+ String d rest)
    = '(a, r) ← fixed w acc (s +:+ String d rest); '(x, r) ← digit r; Some (10 * a + x, r)).
  { clear. induction w as [|w IH]; intros acc s d rest Hl.
    - destruct s; [|done]. cbn. by destruct (digit_value d).
    - destruct s as [|c s]; [done|]. injection Hl as Hl.
      change (fixed (S (S w)) acc (String c s +:+ String d rest)) with
        ('(x, r) ← digit (String c (s +:+ String d rest)); fixed (S w) (10 * acc + x) r).
      change (fixed (S w) acc (String c s +:+ String d rest)) with
        ('(x, r) ← digit (String c (s +:+ String d rest)); fixed w (10 * acc + x) r).
      cbn [digit]. destruct (digit_value c) as [x|]; [|done]. cbn [fmap option_fmap option_map
        mbind option_bind]. by rewrite IH. }
  induction w as [|w IH]; intros n acc rest Hn.
  - cbn in *. f_equal. f_equal; lia.
  - change (digits (S w) n) with (digits w (n / 10) +:+ String (digit_char (n mod 10)) "").
    rewrite sapp_assoc, sapp_cons, sapp_empty.
    rewrite Hsnoc by apply digits_length.
    rewrite Nat2Z.inj_succ, Z.pow_succ_r in * by lia.
    rewrite IH by divisions. cbn [mbind option_bind digit].
    rewrite digit_value_char by divisions. cbn. do 2 f_equal. divisions.
Qed.

(** ** Zero padding prints the digits *)
Lemma pretty_N_go_app x : ∀ s, pretty_N_go x s = pretty_N_go x "" +:+ s.
Proof.
  induction (N.lt_wf_0 x) as [x _ IH]. intros s. destruct (decide (x = 0)%N) as [->|]; [done|].
  rewrite pretty_N_go_step, (pretty_N_go_step _ "") by lia.
  assert (x `div` 10 < x)%N as Hlt by (apply N.div_lt; lia).
  rewrite (IH _ Hlt), (IH _ Hlt (String _ "")). by rewrite sapp_assoc.
Qed.
Lemma digits_zero w : digits w 0 = zeros w.
Proof.
  assert (Hsnoc : ∀ w, zeros w +:+ "0" = zeros (S w))
    by (clear; induction w as [|w IH]; [done|]; cbn [zeros]; by rewrite sapp_cons, IH).
  induction w as [|w IH]; [done|]. rewrite <- Hsnoc, <- IH. done.
Qed.
Lemma pretty_char n : 0 <= n < 10 → pretty_N_char (Z.to_N n) = digit_char n.
Proof.
  intros H. assert (n = 0 ∨ n = 1 ∨ n = 2 ∨ n = 3 ∨ n = 4 ∨ n = 5 ∨ n = 6 ∨ n = 7 ∨ n = 8
    ∨ n = 9) as Hc by lia. by destruct_or! Hc; subst n.
Qed.
Lemma padded_go w : ∀ n,
  0 <= n < 10 ^ Z.of_nat w →
  zeros (w - String.length (pretty_N_go (Z.to_N n) "")) +:+ pretty_N_go (Z.to_N n) ""
  = digits w n.
Proof.
  induction w as [|w IH]; intros n Hn.
  { by assert (n = 0) as -> by (cbn in Hn; lia). }
  destruct (decide (n = 0)) as [->|Hnz].
  { rewrite digits_zero. cbn. by rewrite sapp_nil. }
  rewrite Nat2Z.inj_succ, Z.pow_succ_r in Hn by lia.
  rewrite pretty_N_go_step, pretty_N_go_app by lia.
  replace (Z.to_N n `div` 10)%N with (Z.to_N (n / 10)) by (by rewrite Z2N.inj_div by lia).
  replace (Z.to_N n `mod` 10)%N with (Z.to_N (n mod 10)) by (by rewrite Z2N.inj_mod by lia).
  rewrite pretty_char by divisions. rewrite sapp_length, <- sapp_assoc. cbn [String.length].
  replace (S w - _)%nat with (w - String.length (pretty_N_go (Z.to_N (n / 10)) ""))%nat by lia.
  by rewrite IH by divisions.
Qed.
Lemma pad_digits w n : 0 <= n < 10 ^ Z.of_nat w → (0 < w)%nat → pad w n = digits w n.
Proof.
  intros Hn Hw. unfold pad. destruct n as [|p|p]; [|by rewrite <- padded_go|lia].
  destruct w as [|w]; [lia|]. change (pretty 0) with "0". cbn [String.length Nat.sub].
  by rewrite Nat.sub_0_r, <- digits_zero.
Qed.

(** ** What is printed is read back *)
Definition starts_digit (s : string) : bool := bool_decide (is_Some (digit s)).

Lemma many_fixed k : ∀ j acc s a rest,
  fixed k acc s = Some (a, rest) → starts_digit rest = false →
  many (k + j) acc s = (a, j, rest).
Proof.
  induction k as [|k IH]; intros j acc s a rest Hf Hr.
  - cbn in Hf. simplify_eq. destruct rest as [|c rest]; [done|].
    unfold starts_digit, digit in Hr. cbn.
    destruct (digit_value c); [|done]. apply bool_decide_eq_false in Hr. by destruct Hr.
  - cbn [fixed] in Hf. destruct s as [|c s]; [done|]. cbn [digit] in Hf. cbn [Nat.add many].
    destruct (digit_value c) as [d|]; [|done]. by apply IH.
Qed.
Lemma fraction_spec w : ∀ n, 0 < n < 10 ^ Z.of_nat w →
  ∃ k m, (1 <= k <= w)%nat ∧ fraction_digits w n = digits k m ∧ 0 <= m < 10 ^ Z.of_nat k ∧
    m * 10 ^ Z.of_nat (w - k) = n.
Proof.
  induction w as [|w IH]; intros n Hn; [cbn in Hn; lia|].
  cbn [fraction_digits]. destruct (Z.eqb_spec (n mod 10) 0) as [H0|H0].
  - rewrite Nat2Z.inj_succ, Z.pow_succ_r in Hn by lia.
    destruct (IH (n / 10)) as (k & m & Hk & -> & Hm & Hval); [divisions|].
    exists k, m. split; [lia|]. split; [done|]. split; [done|].
    replace (S w - k)%nat with (S (w - k)) by lia. rewrite Nat2Z.inj_succ, Z.pow_succ_r by lia.
    transitivity (10 * (m * 10 ^ Z.of_nat (w - k))); [lia|]. rewrite Hval. divisions.
  - exists (S w), n. split; [lia|]. split; [done|]. split; [lia|].
    rewrite Nat.sub_diag. cbn. lia.
Qed.

(** A text that cannot be taken for a part of the seconds. *)
Definition not_fraction (s : string) : Prop :=
  match s with
  | EmptyString => True
  | String c _ => digit_value c = None ∧ (Ascii.eqb c "." || Ascii.eqb c ",") = false
  end.
Lemma parse_fraction_none s : not_fraction s → parse_fraction s = (0, s).
Proof.
  destruct s as [|c [|d s]]; [done|done|]. cbn [not_fraction parse_fraction].
  by intros [_ ->].
Qed.
Lemma parse_fraction_digits n rest :
  0 < n < second → not_fraction rest →
  parse_fraction ("." +:+ fraction_digits 9 n +:+ rest) = (n, rest).
Proof.
  intros Hn Hrest. destruct (fraction_spec 9 n Hn) as (k & m & Hk & -> & Hm & Hval).
  pose proof (fixed_digits k m 0 rest Hm) as Hf.
  assert (Hd : starts_digit rest = false).
  { destruct rest as [|c rest]; [done|]. destruct Hrest as [Hc _]. unfold starts_digit.
    cbn [digit]. rewrite Hc. by apply bool_decide_eq_false_2; intros [? ?]. }
  pose proof (many_fixed k (9 - k) 0 _ _ _ Hf Hd) as Hmany.
  replace (k + (9 - k))%nat with 9%nat in Hmany by lia.
  rewrite sapp_cons, sapp_empty. unfold parse_fraction.
  destruct (digits k m +:+ rest) as [|d r] eqn:E.
  { destruct k; [lia|]. done. }
  assert (bool_decide (is_Some (digit_value d)) = true) as ->.
  { apply bool_decide_eq_true_2. destruct k; [lia|]. cbn [fixed digit] in Hf.
    destruct (digit_value d); [by eexists|done]. }
  cbn [Ascii.eqb orb andb]. rewrite Hmany. f_equal. rewrite <- Hval. lia.
Qed.

(** Every comparison in the goal fails. *)
Ltac not_less := repeat match goal with |- context [?a <? ?b] =>
  replace (a <? b) with false by (symmetry; apply Z.ltb_ge; first [lia | divisions]) end.

Lemma format_zone_not_fraction offset : not_fraction (format_zone offset).
Proof.
  unfold format_zone. destruct (offset =? 0); [done|]. cbn zeta. by destruct (_ <? 0).
Qed.
Lemma parse_zone_format offset :
  offset mod 60 = 0 → -86400 < offset < 86400 →
  parse_zone (format_zone offset) = Some (offset, "").
Proof.
  intros Hm Hr. unfold format_zone. destruct (Z.eqb_spec offset 0) as [->|Hnz]; [done|].
  cbn zeta. assert (∃ k, offset = k * 60) as [k ->] by (exists (offset / 60); divisions).
  rewrite Z.quot_mul by lia. rewrite !pad_digits by (cbn; divisions || lia).
  unfold parse_zone. destruct (Z.ltb_spec k 0) as [Hk|Hk];
    rewrite sapp_cons, sapp_empty; cbn [Ascii.eqb Bool.eqb];
    rewrite fixed_digits by (cbn; divisions); cbn [mbind option_bind];
    rewrite sapp_cons, sapp_empty; cbn [expect Ascii.eqb Bool.eqb mbind option_bind];
    rewrite <- (sapp_nil (digits 2 (Z.abs k mod 60)));
    rewrite fixed_digits by (cbn; divisions); cbn [mbind option_bind];
    not_less; cbn; do 2 f_equal; divisions.
Qed.

Lemma one_or_two_digits n rest :
  0 <= n < 100 → one_or_two (digits 2 n +:+ rest) = Some (n, rest).
Proof.
  intros Hn. cbn [digits]. rewrite !sapp_assoc, !sapp_cons, !sapp_empty. unfold one_or_two.
  do 2 (cbn [digit]; rewrite digit_value_char by divisions;
        cbn [mbind option_bind fmap option_fmap option_map]).
  rewrite (Z.mod_small (n / 10)) by divisions. do 2 f_equal. divisions.
Qed.

Ltac read_field :=
  first [rewrite fixed_digits by (cbn; divisions) | rewrite one_or_two_digits by divisions
        | rewrite sapp_cons, sapp_empty]; cbn [mbind option_bind expect Ascii.eqb Bool.eqb].

Lemma clock_of_day secs :
  secs / 86400 * 86400 + secs mod 86400 / 3600 * 3600 + secs mod 86400 / 60 mod 60 * 60
  + secs mod 86400 mod 60 = secs.
Proof.
  assert (Hr : ∀ r, r / 3600 * 3600 + r / 60 mod 60 * 60 + r mod 60 = r) by (intros; divisions).
  pose proof (Hr (secs mod 86400)). divisions.
Qed.
Lemma parse_seconds secs rest nsec offset :
  0 <= ((civil_from_days (secs / 86400)).1).1 <= 9999 →
  parse_fraction rest = (nsec, format_zone offset) →
  offset mod 60 = 0 → -86400 < offset < 86400 →
  parse_rfc3339 (format_seconds secs +:+ rest) = Some ((secs - offset) * second + nsec).
Proof.
  intros Hy Hfrac Hm Hr. unfold format_seconds.
  pose proof (civil_from_days_spec (secs / 86400)) as Hcivil.
  destruct (civil_from_days (secs / 86400)) as [[y m] d].
  destruct Hcivil as (Hdays & Hmo & Hd). cbn in Hy.
  assert (Hd31 : days_in y m <= 31) by (unfold days_in; repeat case_match; lia).
  cbn zeta. rewrite !pad_digits by (cbn; divisions || lia).
  rewrite !sapp_assoc. unfold parse_rfc3339.
  do 11 read_field. rewrite Hfrac. rewrite parse_zone_format by done.
  cbn [mbind option_bind]. cbn [String.eqb negb].
  replace (0 * 10 ^ Z.of_nat 4 + y) with y by lia.
  replace (0 * 10 ^ Z.of_nat 2 + m) with m by lia.
  replace (0 * 10 ^ Z.of_nat 2 + d) with d by lia.
  not_less.
  cbn [orb]. rewrite Hdays. pose proof (clock_of_day secs). f_equal.
  rewrite !Z.mul_0_l, !Z.add_0_l. nia.
Qed.

(** A time printed with its nanoseconds in any zone of whole minutes is read back. *)
Lemma parse_format_nano t offset :
  0 <= local_year t offset <= 9999 → offset mod 60 = 0 → -86400 < offset < 86400 →
  parse_rfc3339 (format_nano t offset) = Some t.
Proof.
  intros Hy Hm Hr. unfold format_nano. cbn zeta.
  rewrite (parse_seconds _ _ ((t + offset * second) mod second) offset); [|done| |done..].
  - f_equal. unfold second. divisions.
  - destruct (Z.eqb_spec ((t + offset * second) mod second) 0) as [->|Hn].
    + apply parse_fraction_none, format_zone_not_fraction.
    + rewrite sapp_assoc. apply parse_fraction_digits; [|apply format_zone_not_fraction].
      unfold second in *. divisions.
Qed.
(** A time printed in whole seconds is read back without its fraction. *)
Lemma parse_rfc3339_printed t :
  0 <= local_year t 0 <= 9999 → parse_rfc3339 (rfc3339 t) = Some (truncate_second t).
Proof.
  intros Hy.
  assert (Hf : rfc3339 t = format_seconds (t / second) +:+ format_zone 0).
  { unfold rfc3339, format_seconds. destruct (civil_from_days _) as [[y m] d].
    by rewrite !sapp_assoc. }
  rewrite Hf, (parse_seconds _ _ 0 0); [|..|done|done].
  - f_equal. unfold truncate_second. lia.
  - unfold local_year in Hy. by rewrite Z.add_0_r in Hy.
  - apply parse_fraction_none, format_zone_not_fraction.
Qed.
