(* ===== verification/Json.v ===== *)
(** * JSON texts

    What the program uses of [encoding/json] to read text it did not write: the
    scanner, as the state machine over bytes that Go's is, and strings, written
    with HTML escapes and read with every escape, invalid UTF-8 included. *)
From Stdlib Require Import ZifyBool ZifyN.
From S2P Require Import Prelude.

(** ** Bytes *)
Definition backslash : ascii := ascii_of_N 92.
Definition quote_mark : ascii := ascii_of_N 34.

Fixpoint valid_utf8 (s : string) : bool :=
  match s with
  | EmptyString => true
  | String a r =>
      if within 0 127 a then valid_utf8 r else
      match r with
      | EmptyString => false
      | String b r2 =>
          if valid2 a b then valid_utf8 r2 else
          match r2 with
          | EmptyString => false
          | String c r3 =>
              if valid3 a b c then valid_utf8 r3 else
              match r3 with
              | EmptyString => false
              | String d r4 => valid4 a b c d && valid_utf8 r4
              end
          end
      end
  end.

(** [utf8.AppendRune] of a rune that is not a surrogate. *)
Definition utf8_encode (u : N) : string :=
  let b := ascii_of_N in
  if (u <? 128)%N then String (b u) ""
  else if (u <? 2048)%N then String (b (192 + u / 64)%N) (String (b (128 + u mod 64)%N) "")
  else if (u <? 65536)%N then
    String (b (224 + u / 4096)%N) (String (b (128 + u / 64 mod 64)%N)
      (String (b (128 + u mod 64)%N) ""))
  else String (b (240 + u / 262144)%N) (String (b (128 + u / 4096 mod 64)%N)
      (String (b (128 + u / 64 mod 64)%N) (String (b (128 + u mod 64)%N) ""))).

(** ** Strings *)

Definition hex_value (a : ascii) : option N :=
  if within 48 57 a then Some (code a - 48)%N
  else if within 97 102 a then Some (code a - 87)%N
  else if within 65 70 a then Some (code a - 55)%N
  else None.
Definition hex4 (a b c d : ascii) : option N :=
  x ← hex_value a; y ← hex_value b; z ← hex_value c; w ← hex_value d;
  Some (4096 * x + 256 * y + 16 * z + w)%N.

(** [appendString(dst, s, true)] without its quotes. *)
Definition quote_byte (a : ascii) : string :=
  if isb 34 a || isb 92 a then String backslash (String a "")
  else if isb 8 a then String backslash "b"
  else if isb 12 a then String backslash "f"
  else if isb 10 a then String backslash "n"
  else if isb 13 a then String backslash "r"
  else if isb 9 a then String backslash "t"
  else if within 0 31 a || isb 60 a || isb 62 a || isb 38 a then
    String backslash "u00" +:+ String (hex_char (code a / 16)%N)
      (String (hex_char (code a mod 16)%N) "")
  else String a "".
Definition line_separator (a b c : ascii) : bool :=
  isb 226 a && isb 128 b && (isb 168 c || isb 169 c).
Fixpoint quote (s : string) : string :=
  match s with
  | EmptyString => ""
  | String a r =>
      if within 0 127 a then quote_byte a +:+ quote r else
      let bad := String backslash "ufffd" +:+ quote r in
      match r with
      | EmptyString => bad
      | String b r2 =>
          if valid2 a b then String a (String b (quote r2)) else
          match r2 with
          | EmptyString => bad
          | String c r3 =>
              if valid3 a b c then
                if line_separator a b c
                then String backslash "u202" +:+ String (hex_char (code c mod 16)%N) (quote r3)
                else String a (String b (String c (quote r3)))
              else
              match r3 with
              | EmptyString => bad
              | String d r4 =>
                  if valid4 a b c d then String a (String b (String c (String d (quote r4))))
                  else bad
              end
          end
      end
  end.

(** [unquoteBytes], on what is between the quotes. *)
Definition simple_escape (e : ascii) : string :=
  if isb 98 e then String (ascii_of_N 8) ""
  else if isb 102 e then String (ascii_of_N 12) ""
  else if isb 110 e then String (ascii_of_N 10) ""
  else if isb 114 e then String (ascii_of_N 13) ""
  else if isb 116 e then String (ascii_of_N 9) ""
  else String e "".
Definition is_surrogate (u : N) : bool := (55296 <=? u)%N && (u <=? 57343)%N.
Definition surrogate_pair (u v : N) : bool :=
  (55296 <=? u)%N && (u <=? 56319)%N && (56320 <=? v)%N && (v <=? 57343)%N.
Fixpoint unquote (s : string) : string :=
  match s with
  | EmptyString => ""
  | String a r =>
      if isb 92 a then
        match r with
        | EmptyString => ""
        | String e r1 =>
            if isb 117 e then
              match r1 with
              | String h1 (String h2 (String h3 (String h4 r2))) =>
                  match hex4 h1 h2 h3 h4 with
                  | None => ""
                  | Some u =>
                      if negb (is_surrogate u) then utf8_encode u +:+ unquote r2 else
                      match r2 with
                      | String b (String e' (String k1 (String k2 (String k3 (String k4 r3))))) =>
                          match hex4 k1 k2 k3 k4 with
                          | Some v =>
                              if isb 92 b && isb 117 e' && surrogate_pair u v then
                                utf8_encode (65536 + (u - 55296) * 1024 + (v - 56320))%N
                                  +:+ unquote r3
                              else replacement +:+ unquote r2
                          | None => replacement +:+ unquote r2
                          end
                      | _ => replacement +:+ unquote r2
                      end
                  end
              | _ => ""
              end
            else simple_escape e +:+ unquote r1
        end
      else if within 0 127 a then String a (unquote r) else
      let bad := replacement +:+ unquote r in
      match r with
      | EmptyString => bad
      | String b r2 =>
          if valid2 a b then String a (String b (unquote r2)) else
          match r2 with
          | EmptyString => bad
          | String c r3 =>
              if valid3 a b c then String a (String b (String c (unquote r3))) else
              match r3 with
              | EmptyString => bad
              | String d r4 =>
                  if valid4 a b c d then String a (String b (String c (String d (unquote r4))))
                  else bad
              end
          end
      end
  end.

Example quote_demo : unquote (quote ("<a>" +:+ String quote_mark "" +:+ replacement))
  = "<a>" +:+ String quote_mark "" +:+ replacement.
Proof. vm_compute. reflexivity. Qed.
Example unquote_pair : unquote (String backslash "ud83d" +:+ String backslash "ude00") =
  String (ascii_of_N 240) (String (ascii_of_N 159) (String (ascii_of_N 152)
    (String (ascii_of_N 128) ""))).
Proof. vm_compute. reflexivity. Qed.

(** ** Values *)

(** Strings and numbers keep their text. *)
Inductive jval :=
  | JNull
  | JBool (b : bool)
  | JNum (text : string)
  | JStr (raw : string)
  | JArr (l : list jval)
  | JObj (l : list (string * jval)).

(** An array or an object that is still open, with what it has so far. *)
Inductive frame :=
  | InArray (l : list jval)
  | InObject (l : list (string * jval)) (key : option string).

(** The phases of a number. *)
Inductive numst := NMinus | NZero | NInt | NDot | NFrac | NExp | NExpSign | NExpDigits.
Definition num_complete (p : numst) : bool :=
  match p with NZero | NInt | NFrac | NExpDigits => true | _ => false end.
Definition num_step (p : numst) (c : ascii) : option numst :=
  let digit := within 48 57 c in
  let e := isb 101 c || isb 69 c in
  match p with
  | NMinus => if isb 48 c then Some NZero else if digit then Some NInt else None
  | NZero => if isb 46 c then Some NDot else if e then Some NExp else None
  | NInt => if digit then Some NInt else if isb 46 c then Some NDot
            else if e then Some NExp else None
  | NDot => if digit then Some NFrac else None
  | NFrac => if digit then Some NFrac else if e then Some NExp else None
  | NExp => if isb 43 c || isb 45 c then Some NExpSign
            else if digit then Some NExpDigits else None
  | NExpSign => if digit then Some NExpDigits else None
  | NExpDigits => if digit then Some NExpDigits else None
  end.

(** Inside an escape: after the backslash, or hexadecimal digits to come. *)
Inductive escst := NoEscape | Escape | HexDigits (missing : nat).

Inductive state :=
  | BeginValue (or_close : bool)
  | BeginKey (or_close : bool)
  | AfterKey (key : string)
  | AfterValue
  | InString (is_key : bool) (raw : string) (esc : escst)
  | InNumber (text : string) (p : numst)
  | InLiteral (rest : string) (v : jval)
  | EndTop (v : jval).

Definition config : Type := list frame * state.
Definition space (c : ascii) : bool := isb 32 c || isb 9 c || isb 13 c || isb 10 c.

(** A value ends. *)
Definition complete (stack : list frame) (v : jval) : option config :=
  match stack with
  | [] => Some ([], EndTop v)
  | InArray l :: up => Some (InArray (l ++ [v]) :: up, AfterValue)
  | InObject l (Some key) :: up => Some (InObject (l ++ [(key, v)]) None :: up, AfterValue)
  | InObject _ None :: _ => None
  end.
(** [maxNestingDepth] *)
Definition push (f : frame) (stack : list frame) (st : state) : option config :=
  if (10000 <=? N.of_nat (length stack))%N then None else Some (f :: stack, st).

(** [stateBeginValue] *)
Definition begin_value (stack : list frame) (c : ascii) : option config :=
  if isb 123 c then push (InObject [] None) stack (BeginKey true)
  else if isb 91 c then push (InArray []) stack (BeginValue true)
  else if isb 34 c then Some (stack, InString false "" NoEscape)
  else if isb 45 c then Some (stack, InNumber (String c "") NMinus)
  else if isb 48 c then Some (stack, InNumber (String c "") NZero)
  else if within 49 57 c then Some (stack, InNumber (String c "") NInt)
  else if isb 116 c then Some (stack, InLiteral "rue" (JBool true))
  else if isb 102 c then Some (stack, InLiteral "alse" (JBool false))
  else if isb 110 c then Some (stack, InLiteral "ull" JNull)
  else None.
(** [stateEndValue] *)
Definition after_value (stack : list frame) (c : ascii) : option config :=
  if space c then Some (stack, AfterValue) else
  match stack with
  | InArray l :: up =>
      if isb 44 c then Some (stack, BeginValue false)
      else if isb 93 c then complete up (JArr l) else None
  | InObject l None :: up =>
      if isb 44 c then Some (stack, BeginKey false)
      else if isb 125 c then complete up (JObj l) else None
  | _ => None
  end.
Definition in_string (esc : escst) (c : ascii) : option escst :=
  match esc with
  | NoEscape => if isb 92 c then Some Escape else if within 0 31 c then None else Some NoEscape
  | Escape =>
      if isb 117 c then Some (HexDigits 3)
      else if isb 98 c || isb 102 c || isb 110 c || isb 114 c || isb 116 c || isb 92 c || isb 47 c
              || isb 34 c then Some NoEscape else None
  | HexDigits k =>
      hex_value c ≫= λ _, Some (match k with O => NoEscape | S k' => HexDigits k' end)
  end.
Definition step (cfg : config) (c : ascii) : option config :=
  let '(stack, st) := cfg in
  match st with
  | BeginValue or_close =>
      if space c then Some cfg
      else if or_close && isb 93 c then
        match stack with InArray l :: up => complete up (JArr l) | _ => None end
      else begin_value stack c
  | BeginKey or_close =>
      if space c then Some cfg
      else if or_close && isb 125 c then
        match stack with InObject l None :: up => complete up (JObj l) | _ => None end
      else if isb 34 c then Some (stack, InString true "" NoEscape) else None
  | AfterKey key =>
      if space c then Some cfg
      else if isb 58 c then
        match stack with
        | InObject l None :: up => Some (InObject l (Some key) :: up, BeginValue false)
        | _ => None
        end
      else None
  | AfterValue => after_value stack c
  | InString is_key raw esc =>
      if isb 34 c && match esc with NoEscape => true | _ => false end then
        if is_key then Some (stack, AfterKey raw) else complete stack (JStr raw)
      else
        esc' ← in_string esc c; Some (stack, InString is_key (raw +:+ String c "") esc')
  | InNumber text p =>
      match num_step p c with
      | Some p' => Some (stack, InNumber (text +:+ String c "") p')
      | None =>
          if num_complete p then
            '(stack', st') ← complete stack (JNum text);
            match st' with
            | EndTop v => if space c then Some (stack', st') else None
            | _ => after_value stack' c
            end
          else None
      end
  | InLiteral rest v =>
      match rest with
      | String x rest =>
          if Ascii.eqb c x then
            match rest with
            | EmptyString => complete stack v
            | _ => Some (stack, InLiteral rest v)
            end
          else None
      | EmptyString => None
      end
  | EndTop v => if space c then Some cfg else None
  end.

Fixpoint run (cfg : config) (s : string) : option config :=
  match s with
  | EmptyString => Some cfg
  | String c r => cfg' ← step cfg c; run cfg' r
  end.
(** [checkValid] and the value it found: the end counts as a space. *)
Definition parse (s : string) : option jval :=
  match run ([], BeginValue false) (s +:+ " ") with
  | Some (_, EndTop v) => Some v
  | _ => None
  end.

Example parse_demo :
  parse "{ 'a' : [1, -2.5e3, true], 'b':{}}" = None ∧
  parse "[1, -2.5e3, true, {}] "
    = Some (JArr [JNum "1"; JNum "-2.5e3"; JBool true; JObj []]) ∧
  parse "[1,]" = None ∧ parse "01" = None ∧ parse "" = None ∧ parse "7" = Some (JNum "7").
Proof. split_and!; vm_compute; reflexivity. Qed.

(** ** What is written is read back *)

Lemma string_length_ind (P : string → Prop) :
  (∀ s, (∀ t, (String.length t < String.length s)%nat → P t) → P s) → ∀ s, P s.
Proof.
  intros IH s. apply IH. induction (String.length s) as [|n IHn]; [lia|].
  intros t Ht. apply IH. intros u Hu. apply IHn. lia.
Qed.
Lemma isb_eq n a : (n < 256)%N → isb n a = true → a = ascii_of_N n.
Proof. intros Hn H%N.eqb_eq. unfold code in H. by rewrite <- H, ascii_N_embedding. Qed.
Lemma high_byte a n : within 0 127 a = false → (n <= 127)%N → isb n a = false.
Proof. unfold within, isb. lia. Qed.

(** A byte of ASCII. *)
Lemma unquote_quote_byte a rest :
  within 0 127 a = true → unquote (quote_byte a +:+ rest) = String a (unquote rest).
Proof. destruct a as [[] [] [] [] [] [] [] []]; intros H; try discriminate H; reflexivity. Qed.

Lemma unquote_quote s : valid_utf8 s = true → unquote (quote s) = s.
Proof.
  induction s as [s IH] using string_length_ind. intros Hv.
  destruct s as [|a r]; [done|]. cbn [valid_utf8] in Hv. cbn [quote].
  destruct (within 0 127 a) eqn:Ha.
  { rewrite unquote_quote_byte by done. f_equal. apply IH; [cbn; lia|done]. }
  assert (H92 : isb 92 a = false) by by apply high_byte.
  destruct r as [|b r]; [done|]. destruct (valid2 a b) eqn:H2.
  { cbn [unquote]. rewrite H92, Ha, H2. do 2 f_equal. apply IH; [cbn; lia|done]. }
  destruct r as [|c r]; [done|]. destruct (valid3 a b c) eqn:H3.
  { assert (IHr : unquote (quote r) = r) by (apply IH; [cbn; lia|done]).
    destruct (line_separator a b c) eqn:Hls.
    - unfold line_separator in Hls. apply andb_true_iff in Hls as [[Hx Hy]%andb_true_iff Hz].
      apply isb_eq in Hx, Hy; [|done..]. subst a b.
      apply orb_true_iff in Hz as [Hz|Hz]; apply isb_eq in Hz; [|done| |done]; subst c;
        rewrite !sapp_cons, sapp_empty; cbn -[quote]; by rewrite IHr.
    - cbn [unquote]. rewrite H92, Ha, H2, H3. by rewrite IHr. }
  destruct r as [|d r]; [done|]. apply andb_true_iff in Hv as [H4 Hv]. rewrite H4.
  cbn [unquote]. rewrite H92, Ha, H2, H3, H4. do 4 f_equal. apply IH; [cbn; lia|done].
Qed.

(** The scanner over a part of a string that does not close it. *)
Fixpoint scans (esc : escst) (s : string) : option escst :=
  match s with
  | EmptyString => Some esc
  | String c r =>
      if isb 34 c && match esc with NoEscape => true | _ => false end then None
      else esc' ← in_string esc c; scans esc' r
  end.
Lemma run_scans stack k s : ∀ raw esc esc' rest,
  scans esc s = Some esc' →
  run (stack, InString k raw esc) (s +:+ rest) = run (stack, InString k (raw +:+ s) esc') rest.
Proof.
  induction s as [|c s IH]; intros raw esc esc' rest Hs; cbn [scans] in Hs.
  { simplify_eq. by rewrite sapp_nil, sapp_empty. }
  rewrite sapp_cons. cbn [run step]. destruct (isb 34 c && _); [done|].
  destruct (in_string esc c) as [e|]; [|done]. cbn [mbind option_bind] in *.
  rewrite (IH _ _ _ _ Hs). by rewrite sapp_assoc, sapp_cons, sapp_empty.
Qed.
Lemma scans_app s t : ∀ esc, scans esc (s +:+ t) = scans esc s ≫= λ e, scans e t.
Proof.
  induction s as [|c s IH]; intros esc; [done|]. rewrite sapp_cons. cbn [scans].
  destruct (isb 34 c && _); [done|]. destruct (in_string esc c); [|done]. apply IH.
Qed.
Lemma scans_high a s : within 0 127 a = false → scans NoEscape (String a s) = scans NoEscape s.
Proof.
  intros Ha. cbn [scans]. rewrite (high_byte a 34) by done. cbn [andb in_string].
  rewrite (high_byte a 92) by done. replace (within 0 31 a) with false; [done|].
  unfold within in *. lia.
Qed.
Lemma scans_quote_byte a : within 0 127 a = true → scans NoEscape (quote_byte a) = Some NoEscape.
Proof. destruct a as [[] [] [] [] [] [] [] []]; intros H; try discriminate H; reflexivity. Qed.

Lemma valid_continues a b c d :
  (valid2 a b = true → within 0 127 b = false) ∧
  (valid3 a b c = true → within 0 127 b = false ∧ within 0 127 c = false) ∧
  (valid4 a b c d = true →
     within 0 127 b = false ∧ within 0 127 c = false ∧ within 0 127 d = false).
Proof. unfold valid2, valid3, valid4, cont, within, isb. split_and!; intros; lia. Qed.
Lemma scans_quote s : scans NoEscape (quote s) = Some NoEscape.
Proof.
  induction s as [s IH] using string_length_ind.
  destruct s as [|a r]; [done|]. cbn [quote]. destruct (within 0 127 a) eqn:Ha.
  { rewrite scans_app, scans_quote_byte by done. apply IH. cbn; lia. }
  assert (Hbad : scans NoEscape (String backslash "ufffd" +:+ quote r) = Some NoEscape).
  { rewrite scans_app. apply IH. cbn; lia. }
  destruct r as [|b r]; [done|]. destruct (valid2 a b) eqn:H2.
  { rewrite !scans_high; [apply IH; cbn; lia|by apply (proj1 (valid_continues a b a a))|done]. }
  destruct r as [|c r]; [done|]. destruct (valid3 a b c) eqn:H3.
  { destruct (line_separator a b c) eqn:Hls.
    - apply andb_true_iff in Hls as [_ Hz].
      assert (IHr : scans NoEscape (quote r) = Some NoEscape) by (apply IH; cbn; lia).
      apply orb_true_iff in Hz as [Hz|Hz]; apply isb_eq in Hz; [|done| |done]; subst c;
        rewrite !sapp_cons, sapp_empty; exact IHr.
    - apply (valid_continues a b c a) in H3 as [Hb Hc].
      rewrite !scans_high by done. apply IH. cbn; lia. }
  destruct r as [|d r]; [done|]. destruct (valid4 a b c d) eqn:H4; [|done].
  apply (valid_continues a b c d) in H4 as (Hb & Hc & Hd).
  rewrite !scans_high by done. apply IH. cbn; lia.
Qed.

(** A string, as it is written, inside a text that is scanned. *)
Lemma run_string stack k s rest :
  run (stack, InString k "" NoEscape) (quote s +:+ rest)
  = run (stack, InString k (quote s) NoEscape) rest.
Proof. exact (run_scans _ _ _ "" _ _ _ (scans_quote s)). Qed.

(** Text without quotes, escapes and controls. *)
Definition plain_byte (c : ascii) : bool :=
  within 32 127 c && negb (isb 34 c) && negb (isb 92 c).
Fixpoint plain (s : string) : bool :=
  match s with EmptyString => true | String c r => plain_byte c && plain r end.
Lemma plain_app s t : plain (s +:+ t) = plain s && plain t.
Proof.
  induction s as [|c s IH]; [done|]. rewrite sapp_cons. cbn [plain].
  by rewrite IH, andb_assoc.
Qed.
Lemma scans_plain s : plain s = true → scans NoEscape s = Some NoEscape.
Proof.
  induction s as [|c s IH]; [done|]. cbn [plain scans in_string]. unfold plain_byte.
  intros [[[Hw H34%negb_true_iff]%andb_true_iff H92%negb_true_iff]%andb_true_iff Hs]%andb_true_iff.
  rewrite H34, H92. replace (within 0 31 c) with false by (unfold within in *; lia). by apply IH.
Qed.
