(* ===== verification/JsonText.v ===== *)
(** * Writing JSON

    [json.MarshalIndent] as the program uses it, on dynamic values (whose keys it
    sorts) and on structs (whose fields it keeps in order). *)
From S2P Require Import Prelude GoVal Json.

(** A float64 by its shortest decimal form, as [encoding/json] writes it. *)
Definition json_exponent (x : Z) : string :=
  (if x <? 0 then "e-" else "e+") +:+ pretty (Z.abs x).
Definition json_number (m e : Z) : string := float_text (-6) 21 json_exponent m e.

Definition json_str (s : string) : jval := JStr (quote s).

(** ** Dynamic values *)

(** The entries of a map in the order of its keys. *)
Definition sorted_entries {A} (m : gmap string A) : list (string * A) :=
  omap (λ k, pair k <$> m !! k) (sorted_keys m).
Definition object_of (m : gmap string jval) : jval :=
  JObj ((λ kv, (quote kv.1, kv.2)) <$> sorted_entries m).
Fixpoint to_jval (v : gval) : jval :=
  match v with
  | VNil | VNilMap | VNilStrs => JNull
  | VBool b => JBool b
  | VInt z => JNum (pretty z)
  | VNum m e => JNum (json_number m e)
  | VStr s => json_str s
  | VTime t => json_str (rfc3339 t)
  | VStrs l => JArr (json_str <$> l)
  | VList l => JArr (to_jval <$> l)
  | VMap m => object_of (to_jval <$> m)
  | VMaps l => JArr ((λ m, object_of (to_jval <$> m)) <$> l)
  end.

(** A struct, by the names of its fields. *)
Definition struct_jval (fields : list (string * jval)) : jval :=
  JObj ((λ kv, (quote kv.1, kv.2)) <$> fields).

(** ** [MarshalIndent(v, "", "  ")] *)
Fixpoint margin (depth : nat) : string :=
  match depth with O => "" | S d => "  " +:+ margin d end.
Definition in_quotes (raw : string) : string :=
  String quote_mark (raw +:+ String quote_mark "").
Definition bracketed (opening closing : string) (depth : nat) (l : list string) : string :=
  match l with
  | [] => opening +:+ closing
  | _ =>
      opening +:+ sjoin "," ((λ x, nl +:+ margin (S depth) +:+ x) <$> l)
      +:+ nl +:+ margin depth +:+ closing
  end.
Fixpoint indent (depth : nat) (v : jval) : string :=
  match v with
  | JNull => "null"
  | JBool b => if b then "true" else "false"
  | JNum text => text
  | JStr raw => in_quotes raw
  | JArr l => bracketed "[" "]" depth (indent (S depth) <$> l)
  | JObj l =>
      bracketed "{" "}" depth
        ((λ kv, in_quotes kv.1 +:+ ": " +:+ indent (S depth) kv.2) <$> l)
  end.
Definition MarshalIndent (v : jval) : string := indent 0 v.

Example indent_demo :
  MarshalIndent (to_jval (VMap {["b" := VList [VNum 1 21; VNum 15 (-1)]; "a" := VMap ∅]}))
  = "{" +:+ nl +:+ "  " +:+ in_quotes "a" +:+ ": {}," +:+ nl
    +:+ "  " +:+ in_quotes "b" +:+ ": [" +:+ nl +:+ "    1e+21," +:+ nl +:+ "    1.5" +:+ nl
    +:+ "  ]" +:+ nl +:+ "}".
Proof. vm_compute. reflexivity. Qed.
