(* ===== verification/JsonValue.v ===== *)
(** * Reading JSON into dynamic values

    [json.Unmarshal] of a text into a [map[string]any]: the numbers become float64,
    correctly rounded, and are kept by their shortest decimal form; and
    [json.Marshal]. *)
From S2P Require Import Prelude GoVal Json JsonText.

(** ** Float64 and decimals *)

(** A positive fraction: [(n, d)] is [n / d]. *)
Definition fraction := (Z * Z)%type.
Definition of_decimal (m e : Z) : fraction := (m * 10 ^ Z.max 0 e, 10 ^ Z.max 0 (- e)).
Definition of_binary (b k : Z) : fraction := (b * 2 ^ Z.max 0 k, 2 ^ Z.max 0 (- k)).
Definition fraction_eqb (x y : fraction) : bool := x.1 * y.2 =? y.1 * x.2.
Definition fraction_leb (x y : fraction) : bool := x.1 * y.2 <=? y.1 * x.2.

(** The float64 nearest to a positive fraction, ties to even, as [b * 2 ^ k]. *)
Definition binary64 (x : fraction) : Z * Z :=
  let '(n, d) := x in
  let guess := Z.log2 n - Z.log2 d - 52 in
  let scaled k := (n * 2 ^ Z.max 0 (- k), d * 2 ^ Z.max 0 k) in
  let k := if (scaled guess).1 <? 2 ^ 52 * (scaled guess).2 then guess - 1 else guess in
  let k := Z.max (-1074) k in
  (round_half_even (scaled k).1 (scaled k).2, k).
Definition too_large (b k : Z) : bool := fraction_leb (2 ^ 1024, 1) (of_binary b k).

(** The exponent of the first decimal digit: from the guess by the binary one. *)
Fixpoint adjust_exponent (fuel : nat) (x : fraction) (p : Z) : Z :=
  match fuel with
  | O => p
  | S f => if fraction_leb (of_decimal 1 (p + 1)) x then adjust_exponent f x (p + 1) else p
  end.
Definition decimal_exponent (x : fraction) : Z :=
  adjust_exponent 4 x ((Z.log2 x.1 - Z.log2 x.2) * 30103 / 100000 - 2).
(** The shortest decimal that reads back as the float64, the nearest of those. *)
Fixpoint shortest (fuel : nat) (digits : Z) (b k : Z) : Z * Z :=
  let x := of_binary b k in
  let e := decimal_exponent x + 1 - digits in
  let '(n, d) := (x.1 * 10 ^ Z.max 0 (- e), x.2 * 10 ^ Z.max 0 e) in
  let low := n / d in
  let back m := let '(b', k') := binary64 (of_decimal m e) in
                (0 <? m) && fraction_eqb (of_binary b' k') x in
  match fuel with
  | O => (low, e)
  | S f =>
      if back low && (2 * (n mod d) <=? d) then (low, e)
      else if back (low + 1) then (low + 1, e)
      else if back low then (low, e)
      else shortest f (digits + 1) b k
  end.

(** ** Numbers *)

(** The text of a JSON number: its digits as an integer, and the power of ten. *)
Definition digit_of (a : ascii) : Z := Z.of_N (code a) - 48.
Fixpoint natural_of (s : string) (acc : Z) : Z :=
  match s with String a r => natural_of r (10 * acc + digit_of a) | EmptyString => acc end.
Definition exponent_of (s : string) : Z :=
  match s with
  | String a r => if isb 45 a then - natural_of r 0 else if isb 43 a then natural_of r 0
                  else natural_of s 0
  | EmptyString => 0
  end.
Fixpoint number_parts (s : string) (in_fraction : bool) (m e : Z) : Z * Z :=
  match s with
  | EmptyString => (m, e)
  | String a r =>
      if isb 46 a then number_parts r true m e
      else if isb 101 a || isb 69 a then (m, e + exponent_of r)
      else number_parts r in_fraction (10 * m + digit_of a) (if in_fraction then e - 1 else e)
  end.
(** [strconv.ParseFloat]: an error when it is out of range. *)
Definition float_of_text (s : string) : option gval :=
  let negative := has_prefix "-" s in
  let '(m, e) := number_parts (trim_prefix "-" s) false 0 0 in
  if m =? 0 then Some (VNum 0 0)
  else
    let '(b, k) := binary64 (of_decimal m e) in
    if too_large b k then None
    else if b =? 0 then Some (VNum 0 0)
    else
      let '(m, e) := shortest 17 1 b k in
      Some (VNum (if negative then - m else m) e).
Example float_of_text_demo :
  (λ s, default "range" (sprint <$> float_of_text s)) <$>
    ["0.1"; "1e23"; "5e-324"; "123456789012345678"; "-2.50"; "1e400"; "3"; "0.30000000000000004";
     "9007199254740993"; "1e-400"]
  = ["0.1"; "1e+23"; "5e-324"; "1.2345678901234568e+17"; "-2.5"; "range"; "3";
     "0.30000000000000004"; "9.007199254740992e+15"; "0"].
Proof. vm_compute. reflexivity. Qed.

(** ** Values *)

(** What is decoded into an [any], and whether every number was in range; the last
    entry of a key stands. *)
Fixpoint of_jval (v : jval) : gval :=
  match v with
  | JNull => VNil
  | JBool b => VBool b
  | JNum text => default VNil (float_of_text text)
  | JStr raw => VStr (unquote raw)
  | JArr l => VList (of_jval <$> l)
  | JObj l => VMap (list_to_map (rev ((λ kv, (unquote kv.1, of_jval kv.2)) <$> l)))
  end.
Fixpoint in_range (v : jval) : bool :=
  match v with
  | JNum text => bool_decide (is_Some (float_of_text text))
  | JArr l => forallb in_range l
  | JObj l => forallb (λ kv, in_range kv.2) l
  | _ => true
  end.
(** [json.Unmarshal] into a nil [map[string]any]: null leaves it nil. *)
Definition UnmarshalMap (text : string) : option (option gmap_any) :=
  match parse text with
  | Some JNull => Some None
  | Some (JObj l) =>
      if in_range (JObj l) then
        match of_jval (JObj l) with VMap m => Some (Some m) | _ => None end
      else None
  | _ => None
  end.

(** [json.Unmarshal] into a text, which null leaves alone, into a slice of texts, *)
Definition text_value (old : string) (v : jval) : option string :=
  match v with JNull => Some old | JStr raw => Some (unquote raw) | _ => None end.
Fixpoint list_value (l : list jval) : option (list string) :=
  match l with
  | [] => Some []
  | v :: l =>
      match text_value "" v, list_value l with
      | Some x, Some xs => Some (x :: xs)
      | _, _ => None
      end
  end.
(** and into a struct, field by field in the order of the text, by any name that folds to
    theirs: [f] reads the field of a key. *)
Fixpoint read_entries {A} (f : string → A → jval → option A) (a : A) (l : list (string * jval)) :
    option A :=
  match l with
  | [] => Some a
  | (key, v) :: l =>
      match f (fold_ascii (unquote key)) a v with Some a => read_entries f a l | None => None end
  end.
Definition read_object {A} (f : string → A → jval → option A) (a : A) (v : jval) : option A :=
  match v with JNull => Some a | JObj l => read_entries f a l | _ => None end.
(** Into a string, a slice and a slice of maps, where null is an empty map. *)
Definition UnmarshalString (text : string) : option string :=
  match parse text with Some v => text_value "" v | None => None end.
Definition UnmarshalList (text : string) : option (list gval) :=
  match parse text with
  | Some JNull => Some []
  | Some (JArr l) => if forallb in_range l then Some (of_jval <$> l) else None
  | _ => None
  end.
Definition map_of (v : jval) : option gmap_any :=
  match v with
  | JNull => Some ∅
  | JObj _ => if in_range v then match of_jval v with VMap m => Some m | _ => None end else None
  | _ => None
  end.
Definition UnmarshalMaps (text : string) : option (list gmap_any) :=
  match parse text with
  | Some JNull => Some []
  | Some (JArr l) => mapM map_of l
  | _ => None
  end.

(** ** [json.Marshal] *)
Fixpoint compact (v : jval) : string :=
  match v with
  | JNull => "null"
  | JBool b => if b then "true" else "false"
  | JNum text => text
  | JStr raw => in_quotes raw
  | JArr l => "[" +:+ sjoin "," (compact <$> l) +:+ "]"
  | JObj l => "{" +:+ sjoin "," ((λ kv, in_quotes kv.1 +:+ ":" +:+ compact kv.2) <$> l) +:+ "}"
  end.
Definition Marshal (m : gmap_any) : string := compact (to_jval (VMap m)).

Example unmarshal_demo :
  (sprint ∘ VMap ∘ default ∅) <$>
    UnmarshalMap (Marshal {["b" := VList [VNum 15 (-1); VNil]; "a" := VMap {["x" := VBool true]}]})
  = Some "map[a:map[x:true] b:[1.5 <nil>]]"
  ∧ UnmarshalMap "[]" = None ∧ UnmarshalMap "null" = Some None.
Proof. vm_compute. done. Qed.
