(* ===== verification/Effects.v ===== *)
(** * Effects

    The monad in which the stores and handlers are written.  A computation
    threads a state [S] (the Postgres tables and the Redis keys) and returns a
    value or a Go [error].  What the program does not control is an [Env]:
    the identifiers the uuid package draws, the clock, and which statements
    sent to Postgres or Redis fail.  Every draw is indexed by a counter that
    each effect advances, so a theorem stated for every [Env] holds for every
    clock and every pattern of failures. *)
From S2P Require Import Prelude.

(** ** Errors and results *)
Inductive GoError :=
  | ErrNoRows
  | ErrApprovalNotFound
  | ErrApprovalAlreadyResolved
  | ErrUniqueViolation (constraint : string)      (* Postgres code 23505 *)
  | ErrText (msg : string).

#[export] Instance GoError_eq_dec : EqDecision GoError.
Proof. solve_decision. Defined.

Definition error_text (e : GoError) : string :=
  match e with
  | ErrNoRows => "no rows in result set"
  | ErrApprovalNotFound => "approval not found"
  | ErrApprovalAlreadyResolved => "approval already resolved"
  | ErrUniqueViolation c =>
      "ERROR: duplicate key value violates unique constraint " +:+ c
  | ErrText s => s
  end.

Inductive res (A : Type) := Ok (a : A) | Err (e : GoError).
Arguments Ok {A} _.
Arguments Err {A} _.

(** ** The environment *)
Class Env := {
  uuid : N → string;             (* github.com/google/uuid *)
  clock : N → Z;                 (* time.Now() and Postgres NOW() *)
  fault : N → option string;     (* the n-th statement fails with this text *)
  timestamptz_in : string → option Z;   (* Postgres: text::timestamptz *)
  timestamptz_out : Z → string;         (* Postgres: a timestamp as JSON text *)
}.

(** ** The monad *)
Definition M (S A : Type) : Type := N → S → res A * (N * S).

Section Monad.
Context {S : Type}.

Definition ret {A} (a : A) : M S A := λ n s, (Ok a, (n, s)).
Definition throw {A} (e : GoError) : M S A := λ n s, (Err e, (n, s)).
Definition bind {A B} (m : M S A) (f : A → M S B) : M S B := λ n s,
  match m n s with
  | (Ok a, (n', s')) => f a n' s'
  | (Err e, ns') => (Err e, ns')
  end.
(** Run [m] and hand its error to the caller instead of returning it. *)
Definition attempt {A} (m : M S A) : M S (res A) := λ n s,
  let '(r, ns') := m n s in (Ok r, ns').
Definition errorf {A} (msg : string) : M S A := throw (ErrText msg).
Definition of_res {A} (r : res A) : M S A :=
  match r with Ok a => ret a | Err e => throw e end.

Context `{Env}.

Definition new_uuid : M S string := λ n s, (Ok (uuid n), (N.succ n, s)).
Definition time_now : M S Z := λ n s, (Ok (clock n), (N.succ n, s)).

(** One statement sent to a server: it fails without effect, or runs. *)
Definition stmt {A} (f : S → res A * S) : M S A := λ n s,
  match fault n with
  | Some msg => (Err (ErrText msg), (N.succ n, s))
  | None => let '(r, s') := f s in (r, (N.succ n, s'))
  end.
Definition query {A} (f : S → A) : M S A := stmt (λ s, (Ok (f s), s)).
Definition exec (f : S → S) : M S unit := stmt (λ s, (Ok tt, f s)).
(** A statement that reads NOW(): the time at which it starts. *)
Definition exec_now (f : Z → S → S) : M S unit := λ n s, exec (f (clock n)) n s.

(** [BeginTx] .. [Commit]: the body gets the transaction's NOW(); an error,
    an early return without Commit or a failed Commit roll everything back
    (the deferred [tx.Rollback]). *)
Inductive TxEnd (A : Type) := Commit (a : A) | Rollback (a : A).
Arguments Commit {A} _.
Arguments Rollback {A} _.
Definition in_tx {A} (body : Z → M S (TxEnd A)) : M S A := λ n s,
  match fault n with
  | Some msg => (Err (ErrText msg), (N.succ n, s))
  | None =>
      match body (clock n) (N.succ n) s with
      | (Err e, (n', _)) => (Err e, (n', s))
      | (Ok (Rollback a), (n', _)) => (Ok a, (n', s))
      | (Ok (Commit a), (n', s')) =>
          match fault n' with
          | Some msg => (Err (ErrText msg), (N.succ n', s))
          | None => (Ok a, (N.succ n', s'))
          end
      end
  end.

(** [for _, x := range l], threading an accumulator; an error returns. *)
Fixpoint for_each {A B} (l : list A) (acc : B) (body : B → A → M S B) : M S B :=
  match l with
  | [] => ret acc
  | x :: l' => bind (body acc x) (λ acc', for_each l' acc' body)
  end.
End Monad.

Arguments Commit {A} _.
Arguments Rollback {A} _.

Notation "x <- m ;; k" := (bind m (λ x, k))
  (at level 100, m at next level, right associativity) : lab_scope.
Notation "'let*' p ':=' m 'in' k" := (bind m (λ x, match x with p => k end))
  (at level 10, p pattern, k at level 200) : lab_scope.
Notation "m ;;; k" := (bind m (λ _, k))
  (at level 100, right associativity) : lab_scope.

(** ** Reasoning *)

Section Laws.
Context {S : Type} `{Env}.

Lemma bind_ok {A B} (m : M S A) (f : A → M S B) n s a n' s' :
  m n s = (Ok a, (n', s')) → bind m f n s = f a n' s'.
Proof. unfold bind. by intros ->. Qed.

Lemma bind_err {A B} (m : M S A) (f : A → M S B) n s e ns' :
  m n s = (Err e, ns') → bind m f n s = (Err e, ns').
Proof. unfold bind. by intros ->. Qed.

Lemma bind_inv {A B} (m : M S A) (f : A → M S B) n s r ns' :
  bind m f n s = (r, ns') →
  (∃ e, m n s = (Err e, ns') ∧ r = Err e)
  ∨ ∃ a n1 s1, m n s = (Ok a, (n1, s1)) ∧ f a n1 s1 = (r, ns').
Proof.
  unfold bind. destruct (m n s) as [[a|e] [n1 s1]]; [eauto 10|].
  intros; simplify_eq; eauto.
Qed.

Lemma bind_assoc {A B C} (m : M S A) (f : A → M S B) (g : B → M S C) n s :
  bind (bind m f) g n s = bind m (λ a, bind (f a) g) n s.
Proof. unfold bind. by destruct (m n s) as [[a|e] [n1 s1]]. Qed.
End Laws.

(** ** Relations every step respects

    [respects R m]: whatever [m] returns, the state it leaves is related to
    the state it found.  With a preorder [R] this composes through the
    monad, so a property of all handlers reduces to one of each statement. *)
Definition respects {S A} (R : relation S) (m : M S A) : Prop :=
  ∀ n s r n' s', m n s = (r, (n', s')) → R s s'.

Lemma respects_run {S A} {R : relation S} {m : M S A} {n s r n' s'} :
  respects R m → m n s = (r, (n', s')) → R s s'.
Proof. intros Hm Hrun. exact (Hm n s r n' s' Hrun). Qed.

Section Respects.
Context {S : Type} `{Env} (R : relation S) `{!PreOrder R}.

Lemma respects_ret {A} (a : A) : respects R (ret a).
Proof. intros n s r n' s' ?; unfold ret in *; simplify_eq. done. Qed.
Lemma respects_throw {A} e : respects R (throw (A:=A) e).
Proof. intros n s r n' s' ?; unfold throw in *; simplify_eq. done. Qed.
Lemma respects_errorf {A} e : respects R (errorf (A:=A) e).
Proof. apply respects_throw. Qed.
Lemma respects_of_res {A} (r : res A) : respects R (of_res r).
Proof. destruct r; [apply respects_ret|apply respects_throw]. Qed.
Lemma respects_bind {A B} (m : M S A) (f : A → M S B) :
  respects R m → (∀ a, respects R (f a)) → respects R (bind m f).
Proof.
  intros Hm Hf n s r n' s' [(e & He & ->)|(a & n1 & s1 & Ha & Hb)]%bind_inv.
  - by eapply Hm.
  - transitivity s1; [by eapply Hm|by eapply Hf].
Qed.
Lemma respects_attempt {A} (m : M S A) : respects R m → respects R (attempt m).
Proof.
  intros Hm n s r n' s'. unfold attempt.
  destruct (m n s) as [r1 [n1 s1]] eqn:E. intros; simplify_eq. by eapply Hm.
Qed.
Lemma respects_uuid : respects R new_uuid.
Proof. intros n s r n' s' ?; unfold new_uuid in *; simplify_eq. done. Qed.
Lemma respects_now : respects R time_now.
Proof. intros n s r n' s' ?; unfold time_now in *; simplify_eq. done. Qed.
Lemma respects_stmt {A} (f : S → res A * S) :
  (∀ s, R s (f s).2) → respects R (stmt f).
Proof.
  intros Hf n s r n' s'. unfold stmt. destruct (fault n); [by intros; simplify_eq|].
  specialize (Hf s). destruct (f s). by intros; simplify_eq/=.
Qed.
Lemma respects_query {A} (f : S → A) : respects R (query f).
Proof. by apply respects_stmt. Qed.
Lemma respects_exec (f : S → S) : (∀ s, R s (f s)) → respects R (exec f).
Proof. intros Hf. by apply respects_stmt. Qed.
Lemma respects_exec_now (f : Z → S → S) :
  (∀ t s, R s (f t s)) → respects R (exec_now f).
Proof. intros Hf n s r n' s'. unfold exec_now. apply respects_exec. apply Hf. Qed.
Lemma respects_in_tx {A} (body : Z → M S (TxEnd A)) :
  (∀ t, respects R (body t)) → respects R (in_tx body).
Proof.
  intros Hb n s r n' s'. unfold in_tx. destruct (fault n); [by intros; simplify_eq|].
  destruct (body _ _ s) as [r1 [n1 s1]] eqn:E. apply Hb in E.
  destruct r1 as [[a|a]|e]; [|by intros; simplify_eq..].
  destruct (fault n1); by intros; simplify_eq.
Qed.
Lemma respects_for_each {A B} (l : list A) (acc : B) (body : B → A → M S B) :
  (∀ acc x, x ∈ l → respects R (body acc x)) → respects R (for_each l acc body).
Proof.
  revert acc. induction l as [|x l IH]; intros acc Hb; cbn.
  - apply respects_ret.
  - apply respects_bind; [apply Hb; set_solver|].
    intros a. apply IH. intros; apply Hb; set_solver.
Qed.
End Respects.

#[export] Hint Extern 2 (PreOrder _) => apply _ : respects.
#[export] Hint Resolve respects_ret respects_throw respects_errorf respects_of_res
  respects_uuid respects_now respects_query : respects.

(** Walk through a handler, leaving the state-changing statements. *)
Ltac respects_step :=
  match goal with
  | |- respects _ (bind _ _) => apply respects_bind; [apply _| |intros ?]
  | |- respects _ (attempt _) => apply respects_attempt
  | |- respects _ (in_tx _) => apply respects_in_tx; [apply _|intros ?]
  | |- respects _ (for_each _ _ _) => apply respects_for_each; [apply _|intros ? ? ?]
  | |- respects _ (match _ with _ => _ end) => case_match
  | |- _ => solve [eauto with respects]
  end.
Ltac solve_respects := repeat respects_step.

(** ** Transactions are all or nothing *)
Section Atomicity.
Context {S : Type} `{Env}.

Lemma in_tx_err {A} (body : Z → M S (TxEnd A)) n s e n' s' :
  in_tx body n s = (Err e, (n', s')) → s' = s.
Proof.
  unfold in_tx. destruct (fault n); [by intros; simplify_eq|].
  destruct (body _ _ s) as [[[a|a]|e'] [n1 s1]]; try by intros; simplify_eq.
  destruct (fault n1); by intros; simplify_eq.
Qed.

Lemma in_tx_ok {A} (body : Z → M S (TxEnd A)) n s a n' s' :
  in_tx body n s = (Ok a, (n', s')) →
  ∃ n1 s1, (body (clock n) (N.succ n) s = (Ok (Commit a), (n1, s1)) ∧ s' = s1)
           ∨ (body (clock n) (N.succ n) s = (Ok (Rollback a), (n1, s1)) ∧ s' = s).
Proof.
  unfold in_tx. destruct (fault n); [by intros; simplify_eq|].
  destruct (body _ _ s) as [[[b|b]|e'] [n1 s1]]; try by intros; simplify_eq.
  - destruct (fault n1); intros; simplify_eq. eauto 10.
  - intros; simplify_eq. eauto 10.
Qed.

Lemma stmt_inv {A} (f : S → res A * S) n s r n' s' :
  stmt f n s = (r, (n', s')) →
  n' = N.succ n ∧
  ((∃ msg, fault n = Some msg ∧ r = Err (ErrText msg) ∧ s' = s)
   ∨ (fault n = None ∧ f s = (r, s'))).
Proof.
  unfold stmt. destruct (fault n) eqn:E; intros; simplify_eq; [eauto 10|].
  destruct (f s); simplify_eq; eauto.
Qed.

Lemma query_ok {A} (f : S → A) n s a n' s' :
  query f n s = (Ok a, (n', s')) → a = f s ∧ s' = s ∧ n' = N.succ n.
Proof. intros [? [(?&?&?&?)|[_ ?]]]%stmt_inv; simplify_eq; eauto. Qed.
Lemma query_state {A} (f : S → A) n s r n' s' :
  query f n s = (r, (n', s')) → s' = s.
Proof. intros [? [(?&?&?&?)|[_ ?]]]%stmt_inv; simplify_eq; eauto. Qed.
Lemma exec_ok (f : S → S) n s u n' s' :
  exec f n s = (Ok u, (n', s')) → s' = f s ∧ n' = N.succ n.
Proof. intros [? [(?&?&?&?)|[_ ?]]]%stmt_inv; simplify_eq; eauto. Qed.
End Atomicity.

(** Invert a run step by step, down to the statements it executed. *)
Ltac run_step :=
  match goal with
  | H : bind _ _ _ _ = (_, _) |- _ =>
      apply bind_inv in H as [(? & H & ?)|(? & ? & ? & ? & H)]
  | H : ret _ _ _ = _ |- _ => unfold ret in H
  | H : throw _ _ _ = _ |- _ => unfold throw in H
  | H : errorf _ _ _ = _ |- _ => unfold errorf, throw in H
  | H : new_uuid _ _ = _ |- _ => unfold new_uuid in H
  | H : time_now _ _ = _ |- _ => unfold time_now in H
  | H : exec _ _ _ = (Ok _, (_, _)) |- _ => first [apply exec_ok in H as [-> ->] | apply exec_ok in H as [? ?]]
  | H : query _ _ _ = (Ok _, (_, _)) |- _ => first [apply query_ok in H as (-> & -> & ->) | apply query_ok in H as (? & ? & ?)]
  end; simplify_eq.
Ltac run_inv := repeat run_step.

(** A loop over a list with an element whose turn always fails does not succeed. *)
Lemma for_each_fails {S A B} (l : list A) (body : B → A → M S B) x :
  x ∈ l → (∀ acc n s, ∃ e, (body acc x n s).1 = Err e) →
  ∀ acc n s, ∃ e, (for_each l acc body n s).1 = Err e.
Proof.
  intros Hx Hbody. induction Hx as [x l|x y l Hx IH]; intros acc n s; cbn; unfold bind.
  - destruct (Hbody acc n s) as [e He]. destruct (body acc x n s) as [[b|e'] [n1 s1]]; eauto.
    discriminate He.
  - destruct (body acc y n s) as [[b|e'] [n1 s1]]; eauto.
Qed.

(** ** Runs in which no statement fails *)

Definition calm `{Env} : Prop := ∀ n, fault n = None.

Section Calm.
Context {S : Type} `{Env} (Hcalm : calm).

Lemma stmt_calm {A} (f : S → res A * S) n s :
  stmt f n s = ((f s).1, (N.succ n, (f s).2)).
Proof. unfold stmt. rewrite Hcalm. by destruct (f s). Qed.
Lemma query_calm {A} (f : S → A) n s : query f n s = (Ok (f s), (N.succ n, s)).
Proof. unfold query. by rewrite stmt_calm. Qed.
Lemma exec_calm (f : S → S) n s : exec f n s = (Ok tt, (N.succ n, f s)).
Proof. unfold exec. by rewrite stmt_calm. Qed.
Lemma in_tx_calm {A} (body : Z → M S (TxEnd A)) n s :
  in_tx body n s =
  match body (clock n) (N.succ n) s with
  | (Err e, (n', _)) => (Err e, (n', s))
  | (Ok (Rollback a), (n', _)) => (Ok a, (n', s))
  | (Ok (Commit a), (n', s')) => (Ok a, (N.succ n', s'))
  end.
Proof.
  unfold in_tx. rewrite Hcalm. destruct (body _ _ _) as [[[]|] []]; try done.
  by rewrite Hcalm.
Qed.
End Calm.

(** ** Computations that never return an error *)

Definition never_fails {S A} (m : M S A) : Prop :=
  ∀ n s, ∃ a n' s', m n s = (Ok a, (n', s')).

Section NeverFails.
  Context {S : Type}.

Lemma total_ret {A} (a : A) : never_fails (S:=S) (ret a).
Proof. intros n s. by do 3 eexists. Qed.
Lemma total_attempt {A} (m : M S A) : never_fails (attempt m).
Proof. intros n s. unfold attempt. destruct (m n s) as [r [n' s']]. eauto. Qed.
Lemma total_bind {A B} (m : M S A) (f : A → M S B) :
  never_fails m → (∀ a, never_fails (f a)) → never_fails (bind m f).
Proof.
  intros Hm Hf n s. unfold bind. destruct (Hm n s) as (a & n' & s' & ->). apply Hf.
Qed.
Lemma total_now `{Env} : never_fails (S:=S) time_now.
Proof. intros n s. unfold time_now. eauto. Qed.
End NeverFails.
Ltac solve_total :=
  repeat match goal with
  | |- never_fails (bind _ _) => apply total_bind; [|intros ?]
  | |- never_fails (attempt _) => apply total_attempt
  | |- never_fails (ret _) => apply total_ret
  | |- never_fails time_now => apply total_now
  | |- never_fails (match _ with _ => _ end) => case_match
  end.

(** An environment for concrete runs: numbered identifiers, a clock that ticks
    one second per effect from [t0], and no failures. *)
Definition quiet_env (t0 : Z) : Env := {|
  uuid n := "id-" +:+ pretty n;
  clock n := t0 + Z.of_N n * 1000000000;
  fault _ := None;
  timestamptz_in _ := None;
  timestamptz_out _ := "now";
|}.
Lemma quiet_env_calm t0 : @calm (quiet_env t0).
Proof. done. Qed.

(** The same with one failing statement. *)
Definition flaky_env (t0 : Z) (at_n : N) : Env := {|
  uuid n := "id-" +:+ pretty n;
  clock n := t0 + Z.of_N n * 1000000000;
  fault n := if (n =? at_n)%N then Some "connection reset" else None;
  timestamptz_in _ := None;
  timestamptz_out _ := "now";
|}.
