(* ===== verification/Domain.v ===== *)
(** * The domain vocabulary ([internal/orchestratorgo/domain])

    Task and initiative states, the response structures the stores return, and
    the task state machine [validTransitions].  A comment that starts with
    [path:first-last] names the lines of [src/internal] a definition renders;
    every file of the development uses this convention. *)
From S2P Require Import Prelude GoVal.

(** ** Task states *)

(** [orchestratorgo/domain/types.go:9-27] TaskState. The column is the Postgres
    enum [taskstate], which has exactly these ten values. *)
Inductive TaskState :=
  | TaskStateCreated
  | TaskStateQueued
  | TaskStateAssigned
  | TaskStateInProgress
  | TaskStateWaitingApproval
  | TaskStateReview
  | TaskStateRetrying
  | TaskStateCompleted
  | TaskStateFailed
  | TaskStateCancelled.

#[export] Instance TaskState_eq_dec : EqDecision TaskState.
Proof. solve_decision. Defined.

Definition state_text (s : TaskState) : string :=
  match s with
  | TaskStateCreated => "created"
  | TaskStateQueued => "queued"
  | TaskStateAssigned => "assigned"
  | TaskStateInProgress => "in_progress"
  | TaskStateWaitingApproval => "waiting_approval"
  | TaskStateReview => "review"
  | TaskStateRetrying => "retrying"
  | TaskStateCompleted => "completed"
  | TaskStateFailed => "failed"
  | TaskStateCancelled => "cancelled"
  end.

Definition all_states : list TaskState :=
  [TaskStateCreated; TaskStateQueued; TaskStateAssigned; TaskStateInProgress;
   TaskStateWaitingApproval; TaskStateReview; TaskStateRetrying;
   TaskStateCompleted; TaskStateFailed; TaskStateCancelled].

(** [orchestratorgo/httpapi/handlers.go:2782-2789] isRecognizedTaskState: the
    state a request names, when it names one. *)
Definition recognized_state (text : string) : option TaskState :=
  head (filter (λ s, state_text s = text) all_states).

(** [orchestratorgo/domain/types.go:284-288] terminalStates. *)
Definition terminalStates : list TaskState :=
  [TaskStateCompleted; TaskStateFailed; TaskStateCancelled].

(** [orchestratorgo/domain/types.go:290-298] validTransitions. *)
Definition validTransitions (s : TaskState) : list TaskState :=
  match s with
  | TaskStateCreated => [TaskStateQueued; TaskStateWaitingApproval; TaskStateCancelled]
  | TaskStateQueued => [TaskStateAssigned; TaskStateCancelled]
  | TaskStateAssigned => [TaskStateInProgress; TaskStateFailed; TaskStateCancelled]
  | TaskStateInProgress =>
      [TaskStateWaitingApproval; TaskStateReview; TaskStateCompleted;
       TaskStateFailed; TaskStateCancelled; TaskStateRetrying]
  | TaskStateWaitingApproval =>
      [TaskStateInProgress; TaskStateQueued; TaskStateCancelled; TaskStateFailed]
  | TaskStateRetrying => [TaskStateInProgress; TaskStateFailed; TaskStateCancelled]
  | TaskStateReview => [TaskStateCompleted; TaskStateInProgress; TaskStateFailed]
  | TaskStateCompleted | TaskStateFailed | TaskStateCancelled => []
  end.

(** [orchestratorgo/domain/types.go:300-303] IsTerminalState. *)
Definition IsTerminalState (s : TaskState) : bool := bool_decide (s ∈ terminalStates).

(** [orchestratorgo/domain/types.go:305-313] GetValidTransitions. *)
Definition GetValidTransitions (s : TaskState) : list TaskState := validTransitions s.

(** [orchestratorgo/domain/types.go:315-322] IsValidTransition. *)
Definition IsValidTransition (current target : TaskState) : bool :=
  bool_decide (target ∈ validTransitions current).

(** [orchestratorgo/domain/types.go:324-331] ValidTransitionStrings. *)
Definition ValidTransitionStrings (s : TaskState) : list string :=
  state_text <$> GetValidTransitions s.

(** [orchestratorgo/httpapi/handlers.go:2791-2798] isCancellableState. *)
Definition isCancellableState (s : TaskState) : bool :=
  bool_decide (s ∈ [TaskStateCreated; TaskStateQueued; TaskStateAssigned;
                    TaskStateInProgress; TaskStateWaitingApproval]).

(** ** Named strings *)

(** [orchestratorgo/domain/types.go:29-33] AgentType. *)
Definition AgentTypePlanner : string := "planner".
Definition AgentTypeCoder : string := "coder".
Definition AgentTypeReviewer : string := "reviewer".
Definition AgentTypeInfra : string := "infra".
Definition AgentTypeResearcher : string := "researcher".

(** [orchestratorgo/domain/types.go:35-38] Priority. *)
Definition PriorityCritical : string := "critical".
Definition PriorityHigh : string := "high".
Definition PriorityNormal : string := "normal".
Definition PriorityLow : string := "low".

(** [orchestratorgo/domain/types.go:40-44] TaskKind, ExecutionTarget. *)
Definition TaskKindRoot : string := "root".
Definition TaskKindPlanStep : string := "plan_step".
Definition ExecutionTargetRemote : string := "remote".
Definition ExecutionTargetLocal : string := "local".

(** [orchestratorgo/domain/types.go:46-49] ApprovalStatus. *)
Definition ApprovalPending : string := "pending".
Definition ApprovalApproved : string := "approved".
Definition ApprovalRejected : string := "rejected".
Definition ApprovalTimeout : string := "timeout".

(** [orchestratorgo/domain/types.go:51-54] ApiKeyScope. *)
Definition ScopeAdmin : string := "admin".
Definition ScopeOperator : string := "operator".
Definition ScopeBot : string := "bot".
Definition ScopeReadonly : string := "readonly".

(** [orchestratorgo/domain/initiative.go:33-37] task launch modes. *)
Definition InitiativeExecutionModeSelective : string := "selective".
Definition TaskLaunchModeManual : string := "manual".
Definition TaskLaunchModeAgentLocal : string := "agent_local".
Definition TaskLaunchModeAgentRemote : string := "agent_remote".

(** [orchestratorgo/domain/initiative.go:212-219] IsRecognizedTaskLaunchMode. *)
Definition IsRecognizedTaskLaunchMode (mode : string) : bool :=
  bool_decide (mode ∈ [TaskLaunchModeManual; TaskLaunchModeAgentLocal;
                       TaskLaunchModeAgentRemote]).

(** [orchestratorgo/httpapi/handlers.go:2764-2771] isSupportedAgent. *)
Definition isSupportedAgent (agent : string) : bool :=
  bool_decide (agent ∈ [AgentTypePlanner; AgentTypeResearcher; AgentTypeCoder;
                        AgentTypeReviewer]).

(** [orchestratorgo/httpapi/handlers.go:2773-2780] isSupportedPriority. *)
Definition isSupportedPriority (priority : string) : bool :=
  bool_decide (priority ∈ [PriorityCritical; PriorityHigh; PriorityNormal; PriorityLow]).

(** [orchestratorgo/httpapi/handlers.go:2800-2812] classifyAgent. *)
Definition plannerHints : list string :=
  ["plan"; "design"; "architect"; "roadmap"; "spec"; "requirements";
   "investigate"; "research"; "compare"; "analyze"].
Definition classifyAgent (description : string) (assigned : option string) : string :=
  match assigned with
  | Some a => a
  | None =>
      let text := to_lower description in
      if existsb (λ hint, contains hint text) plannerHints
      then AgentTypePlanner else AgentTypeCoder
  end.

(** ** Tasks, approvals, bridges *)

(** [orchestratorgo/domain/types.go:77-101] TaskResponse. *)
Record TaskResponse := MkTask {
  task_id : string;
  task_state : TaskState;
  task_description : string;
  task_metadata : gmap_any;
  task_allowed_capabilities : list string;
  task_parent : option string;
  task_root : option string;
  task_kind : string;
  task_assigned_agent : option string;
  task_planned_agent : option string;
  task_priority : string;
  task_execution_target : string;
  task_initiative : option string;
  task_workspace_path : option string;
  task_retry_count : Z;
  task_correlation : string;
  task_results : gval;
  task_error_message : option string;
  task_created_at : Z;
  task_updated_at : Z;
  task_started_at : option Z;
  task_completed_at : option Z;
  task_archived_at : option Z;
}.

(** [orchestratorgo/domain/types.go:103-112] TaskCreateRequest. *)
Record TaskCreateRequest := MkTaskCreate {
  create_description : string;
  create_metadata : gmap_any;
  create_allowed_capabilities : list string;
  create_priority : string;
  create_assigned_agent : option string;
  create_execution_target : string;
  create_initiative : option string;
  create_planned_agent : option string;
}.

(** [orchestratorgo/domain/types.go:131-143] ApprovalResponse: a row of the
    table [approvals], every column of which the response carries. *)
Record ApprovalResponse := MkApproval {
  approval_id : string;
  approval_task : string;
  approval_action_type : string;
  approval_target_resource : string;
  approval_status : string;
  approval_operator : option string;
  approval_timeout_seconds : Z;
  approval_escalation_level : Z;
  approval_requested_at : Z;
  approval_resolved_at : option Z;
  approval_timeout_at : Z;
}.
#[export] Instance eta_approval : Eta ApprovalResponse := λ r,
  MkApproval (approval_id r) (approval_task r) (approval_action_type r)
    (approval_target_resource r) (approval_status r) (approval_operator r)
    (approval_timeout_seconds r) (approval_escalation_level r)
    (approval_requested_at r) (approval_resolved_at r) (approval_timeout_at r).

(** [orchestratorgo/domain/bridge.go:23-34] LocalBridgeResponse: a row of
    [local_bridges]. *)
Record LocalBridgeResponse := MkBridge {
  bridge_id : string;
  bridge_name : string;
  bridge_hostname : string;
  bridge_workspace_root : string;
  bridge_status : string;
  bridge_capabilities : gmap_any;
  bridge_api_key_name : option string;
  bridge_last_heartbeat : option Z;
  bridge_created_at : option Z;
  bridge_updated_at : option Z;
}.
#[export] Instance eta_bridge : Eta LocalBridgeResponse := λ r,
  MkBridge (bridge_id r) (bridge_name r) (bridge_hostname r)
    (bridge_workspace_root r) (bridge_status r) (bridge_capabilities r)
    (bridge_api_key_name r) (bridge_last_heartbeat r) (bridge_created_at r)
    (bridge_updated_at r).

(** [orchestratorgo/domain/bridge.go:41-53] LocalBridgeTaskClaimResponse. *)
Record LocalBridgeTaskClaimResponse := MkClaim {
  claim_task : string;
  claim_root : option string;
  claim_parent : option string;
  claim_description : string;
  claim_assigned_agent : string;
  claim_execution_target : string;
  claim_workspace_path : string;
  claim_workspace_root : string;
  claim_metadata : gmap_any;
  claim_repo_path : string;
  claim_branch : string;
}.

(** ** Initiatives *)

(** [orchestratorgo/domain/initiative.go:10-22] InitiativeStatus. *)
Inductive InitiativeStatus :=
  | InitiativeStatusIdeaSubmitted
  | InitiativeStatusRequirementsDraft
  | InitiativeStatusRequirementsReview
  | InitiativeStatusDesignDraft
  | InitiativeStatusDesignReview
  | InitiativeStatusPlanDraft
  | InitiativeStatusPlanReview
  | InitiativeStatusExecutionReady
  | InitiativeStatusExecuting
  | InitiativeStatusBlocked
  | InitiativeStatusCompleted
  | InitiativeStatusCancelled.

(** [orchestratorgo/domain/initiative.go:24-27] InitiativePhase. *)
Inductive InitiativePhase :=
  | InitiativePhaseRequirements
  | InitiativePhaseDesign
  | InitiativePhasePlan
  | InitiativePhaseExecution.

(** [orchestratorgo/domain/initiative.go:29-31] InitiativeReviewDecision. *)
Inductive InitiativeReviewDecision :=
  | InitiativeReviewGenerated
  | InitiativeReviewApproved
  | InitiativeReviewRejected.

#[export] Instance InitiativeStatus_eq_dec : EqDecision InitiativeStatus.
Proof. solve_decision. Defined.
#[export] Instance InitiativePhase_eq_dec : EqDecision InitiativePhase.
Proof. solve_decision. Defined.
#[export] Instance InitiativeReviewDecision_eq_dec : EqDecision InitiativeReviewDecision.
Proof. solve_decision. Defined.

Definition phase_text (p : InitiativePhase) : string :=
  match p with
  | InitiativePhaseRequirements => "requirements"
  | InitiativePhaseDesign => "design"
  | InitiativePhasePlan => "plan"
  | InitiativePhaseExecution => "execution"
  end.

Definition status_text (s : InitiativeStatus) : string :=
  match s with
  | InitiativeStatusIdeaSubmitted => "idea_submitted"
  | InitiativeStatusRequirementsDraft => "requirements_draft"
  | InitiativeStatusRequirementsReview => "requirements_review"
  | InitiativeStatusDesignDraft => "design_draft"
  | InitiativeStatusDesignReview => "design_review"
  | InitiativeStatusPlanDraft => "plan_draft"
  | InitiativeStatusPlanReview => "plan_review"
  | InitiativeStatusExecutionReady => "execution_ready"
  | InitiativeStatusExecuting => "executing"
  | InitiativeStatusBlocked => "blocked"
  | InitiativeStatusCompleted => "completed"
  | InitiativeStatusCancelled => "cancelled"
  end.

(** [orchestratorgo/domain/initiative.go:191-198] IsRecognizedInitiativePhase:
    the phase a request path names. *)
Definition recognized_phase (text : string) : option InitiativePhase :=
  head (filter (λ p, phase_text p = text)
    [InitiativePhaseRequirements; InitiativePhaseDesign; InitiativePhasePlan;
     InitiativePhaseExecution]).

(** [orchestratorgo/domain/initiative.go:40-55] InitiativeResponse: a row of
    [initiatives]. *)
Record InitiativeResponse := MkInitiative {
  ini_id : string;
  ini_title : string;
  ini_workspace_root : string;
  ini_goal : string;
  ini_status : InitiativeStatus;
  ini_current_phase : InitiativePhase;
  ini_requirements_artifact : option string;
  ini_design_artifact : option string;
  ini_plan_artifact : option string;
  ini_created_by : string;
  ini_execution_mode : string;
  ini_archived_at : option Z;
  ini_created_at : Z;
  ini_updated_at : Z;
}.
#[export] Instance eta_initiative : Eta InitiativeResponse := λ r,
  MkInitiative (ini_id r) (ini_title r) (ini_workspace_root r) (ini_goal r)
    (ini_status r) (ini_current_phase r) (ini_requirements_artifact r)
    (ini_design_artifact r) (ini_plan_artifact r) (ini_created_by r)
    (ini_execution_mode r) (ini_archived_at r) (ini_created_at r) (ini_updated_at r).

(** [orchestratorgo/domain/initiative.go:79-89] InitiativePhaseReviewResponse. *)
Record InitiativePhaseReview := MkReview {
  review_id : string;
  review_initiative : string;
  review_phase : InitiativePhase;
  review_decision : InitiativeReviewDecision;
  review_feedback : option string;
  review_generated_by : option string;
  review_markdown : option string;
  review_json : option string;
  review_created_at : Z;
}.

(** [orchestratorgo/domain/types.go:219-228] ArtifactResponse. *)
Record ArtifactResponse := MkArtifact {
  artifact_id : string;
  artifact_type : string;
  artifact_title : option string;
  artifact_uri : option string;
  artifact_media_type : option string;
  artifact_content : option string;
  artifact_metadata : gmap_any;
  artifact_created_at : Z;
}.

(** [orchestratorgo/domain/initiative.go:144-154] InitiativeTaskLinkResponse. *)
Record InitiativeTaskLink := MkLink {
  link_initiative : string;
  link_task_id : string;
  link_phase_origin : string;
  link_epic : option string;
  link_launch_group : option string;
  link_execution_mode : string;
  link_launch_order : Z;
  link_created_at : Z;
  link_task : TaskResponse;
}.

(** ** Facts about the state machine *)

Lemma IsValidTransition_spec s t :
  IsValidTransition s t = true ↔ t ∈ validTransitions s.
Proof. apply bool_decide_eq_true. Qed.

Lemma state_text_inj s t : state_text s = state_text t → s = t.
Proof. by destruct s, t. Qed.

Lemma recognized_state_text s : recognized_state (state_text s) = Some s.
Proof. by destruct s. Qed.

Lemma recognized_state_sound text s :
  recognized_state text = Some s → state_text s = text.
Proof.
  unfold recognized_state. intros H.
  assert (s ∈ filter (λ s, state_text s = text) all_states) as Hin.
  { destruct (filter _ _); simplify_eq/=. left. }
  by apply list_elem_of_filter in Hin as [? _].
Qed.

(** A state has no outgoing edge exactly when it is terminal. *)
Lemma terminal_no_edges s : IsTerminalState s = true ↔ validTransitions s = [].
Proof. by destruct s. Qed.

(** No edge of the table is a loop. *)
Lemma validTransitions_irrefl s : IsValidTransition s s = false.
Proof. by destruct s. Qed.

(** Whatever the API lets an operator cancel can be cancelled; the converse
    fails for the one state [retrying], which the state machine could cancel but
    the endpoint refuses. *)
Theorem cancellable_states s :
  (isCancellableState s = true → IsValidTransition s TaskStateCancelled = true) ∧
  (IsValidTransition s TaskStateCancelled = true →
     isCancellableState s = true ∨ s = TaskStateRetrying).
Proof. destruct s; vm_compute; auto. Qed.
