(* ===== verification/Schema.v ===== *)
(** * The database and the queues

    The Postgres tables (created by [roles/orchestrator/tasks/main.yml]) and the
    Redis sorted sets the stores work on, the SQL expressions the statements use
    on them, and the reading of a [tasks] row as a [TaskResponse]. *)
From S2P Require Import Prelude GoVal Effects Domain.

(** ** Rows *)

(** A row of [tasks], every column. *)
Record TaskRow := MkRow {
  row_id : string;
  row_state : TaskState;
  row_description : string;
  row_metadata : gmap_any;
  row_assigned_agent : option string;
  row_priority : string;
  row_execution_target : string;
  row_workspace_path : option string;
  row_retry_count : Z;
  row_max_retries : Z;
  row_idempotency_key : option string;
  row_correlation : string;
  row_results : option gval;
  row_error_message : option string;
  row_created_at : Z;
  row_updated_at : Z;
  row_started_at : option Z;
  row_completed_at : option Z;
  row_queued_at : option Z;
  row_parent : option string;
  row_root : string;
  row_kind : string;
  row_initiative : option string;
  row_planned_agent : option string;
  row_archived_at : option Z;
}.
#[export] Instance eta_row : Eta TaskRow := λ r,
  MkRow (row_id r) (row_state r) (row_description r) (row_metadata r)
    (row_assigned_agent r) (row_priority r) (row_execution_target r)
    (row_workspace_path r) (row_retry_count r) (row_max_retries r)
    (row_idempotency_key r) (row_correlation r) (row_results r)
    (row_error_message r) (row_created_at r) (row_updated_at r)
    (row_started_at r) (row_completed_at r) (row_queued_at r) (row_parent r)
    (row_root r) (row_kind r) (row_initiative r) (row_planned_agent r)
    (row_archived_at r).

(** A row of [state_transitions]. *)
Record Transition := MkTransition {
  tr_id : string;
  tr_task : string;
  tr_from : TaskState;
  tr_to : TaskState;
  tr_actor : string;
  tr_reason : string;
  tr_time : Z;
}.

(** A row of [initiative_task_links]: the task is joined when it is read. *)
Record LinkRow := MkLinkRow {
  lr_id : string;
  lr_phase_origin : string;
  lr_epic : option string;
  lr_launch_group : option string;
  lr_execution_mode : string;
  lr_launch_order : Z;
  lr_created_at : Z;
}.
#[export] Instance eta_linkrow : Eta LinkRow := λ r,
  MkLinkRow (lr_id r) (lr_phase_origin r) (lr_epic r) (lr_launch_group r)
    (lr_execution_mode r) (lr_launch_order r) (lr_created_at r).

(** A row of [artifacts]: the columns an [ArtifactResponse] leaves out, and the rest. *)
Record ArtifactRow := MkArtifactRow {
  art_task : option string;
  art_invocation : option string;
  art_response : ArtifactResponse;
}.

(** A row of [tool_invocations]. *)
Record ToolInvocation := MkInvocation {
  inv_id : string;
  inv_task : option string;
  inv_agent : option string;
  inv_entrypoint : string;
  inv_capability : string;
  inv_input : gmap_any;
  inv_output : gmap_any;
  inv_status : string;
  inv_duration : Z;
  inv_artifacts : list string;
  inv_error : option string;
}.
#[export] Instance eta_invocation : Eta ToolInvocation := λ i,
  MkInvocation (inv_id i) (inv_task i) (inv_agent i) (inv_entrypoint i) (inv_capability i)
    (inv_input i) (inv_output i) (inv_status i) (inv_duration i) (inv_artifacts i)
    (inv_error i).

(** ** Tables *)
Record DB := MkDB {
  tasks : gmap string TaskRow;
  approvals : gmap string ApprovalResponse;
  state_transitions : list Transition;          (* in insertion order *)
  local_bridges : gmap string LocalBridgeResponse;
  initiatives : gmap string InitiativeResponse;
  phase_reviews : gmap string InitiativePhaseReview;
  task_links : gmap (string * string) LinkRow;  (* UNIQUE (initiative_id, task_id) *)
  artifacts : gmap string ArtifactRow;
  tool_invocations : gmap string ToolInvocation;
}.
#[export] Instance eta_db : Eta DB := λ d,
  MkDB (tasks d) (approvals d) (state_transitions d) (local_bridges d)
    (initiatives d) (phase_reviews d) (task_links d) (artifacts d) (tool_invocations d).

(** [queue:agent:<agent>]: a sorted set of task ids by score. *)
Abbreviation Redis := (gmap string (gmap string Z)).

Record Sys := MkSys { pg : DB; redis : Redis }.
#[export] Instance eta_sys : Eta Sys := λ s, MkSys (pg s) (redis s).

Definition empty_db : DB := MkDB ∅ ∅ [] ∅ ∅ ∅ ∅ ∅ ∅.
Definition empty_sys : Sys := MkSys empty_db ∅.

(** ** SQL expressions *)

(** A [jsonb] value as text. *)
Definition json_escape_char (a : ascii) : string :=
  let n := nat_of_ascii a in
  let bs := String (ascii_of_nat 92) "" in
  if (n =? 34)%nat then bs +:+ String a ""
  else if (n =? 92)%nat then bs +:+ bs
  else if (n =? 8)%nat then bs +:+ "b"
  else if (n =? 9)%nat then bs +:+ "t"
  else if (n =? 10)%nat then bs +:+ "n"
  else if (n =? 12)%nat then bs +:+ "f"
  else if (n =? 13)%nat then bs +:+ "r"
  else if (n <? 32)%nat then
    let hex k := String (ascii_of_nat (if (k <? 10)%nat then 48 + k else 87 + k)) "" in
    bs +:+ "u00" +:+ hex (n / 16)%nat +:+ hex (n mod 16)%nat
  else String a "".
Fixpoint json_escape (s : string) : string :=
  match s with
  | EmptyString => ""
  | String a r => json_escape_char a +:+ json_escape r
  end.
Definition json_string (s : string) : string := dquote +:+ json_escape s +:+ dquote.

Definition numeric_text (m e : Z) : string :=
  let sign := if m <? 0 then "-" else "" in
  let d := pretty (Z.abs m) in
  if m =? 0 then "0" else
  if 0 <=? e then sign +:+ d +:+ zeros (Z.to_nat e)
  else
    let nd := slen d in
    if nd <=? - e then sign +:+ "0." +:+ zeros (Z.to_nat (- e - nd)) +:+ d
    else sign +:+ stake (Z.to_nat (nd + e)) d +:+ "." +:+ sdrop (Z.to_nat (nd + e)) d.

(** Object keys are stored by length, then bytewise. *)
Definition jsonb_key_le (a b : string) : Prop :=
  (String.length a < String.length b)%nat ∨
  (String.length a = String.length b ∧ String.leb a b = true).
#[export] Instance jsonb_key_le_dec : RelDecision jsonb_key_le.
Proof. intros a b. unfold jsonb_key_le. apply _. Defined.
Definition json_object (m : gmap string string) : string :=
  "{" +:+ sjoin ", " ((λ k, json_string k +:+ ": " +:+ default "" (m !! k))
    <$> merge_sort jsonb_key_le (elements (dom m))) +:+ "}".

Fixpoint json_text (v : gval) : string :=
  match v with
  | VNil => "null"
  | VBool b => if b then "true" else "false"
  | VInt z => pretty z
  | VNum m e => numeric_text m e
  | VStr s => json_string s
  | VTime t => json_string (rfc3339 t)
  | VStrs l => "[" +:+ sjoin ", " (json_string <$> l) +:+ "]"
  | VList l => "[" +:+ sjoin ", " (json_text <$> l) +:+ "]"
  | VMap m => json_object (json_text <$> m)
  | VNilMap | VNilStrs => "null"
  | VMaps l => "[" +:+ sjoin ", " ((λ m, json_object (json_text <$> m)) <$> l) +:+ "]"
  end.

(** [metadata->>'key']: SQL NULL when the key is absent or JSON null. *)
Definition arrow_text (m : gmap_any) (key : string) : option string :=
  match m !! key with
  | None | Some VNil => None
  | Some (VStr s) => Some s
  | Some (VTime t) => Some (rfc3339 t)
  | Some v => Some (json_text v)
  end.

(** [metadata->'key'->>'field'] *)
Definition arrow_arrow_text (m : gmap_any) (key field : string) : option string :=
  match m !! key with
  | Some (VMap inner) => arrow_text inner field
  | _ => None
  end.

(** [a || b] on [jsonb]: objects are merged, anything else is an array. *)
Definition jsonb_elems (v : gval) : list gval :=
  match v with VList l => l | _ => [v] end.
Definition jsonb_concat (a b : gval) : gval :=
  match a, b with
  | VMap m, VMap p => VMap (p ∪ m)
  | _, _ => VList (jsonb_elems a ++ jsonb_elems b)
  end.

(** The rows of a table, in no particular order. *)
Definition rows_of {K A} `{Countable K} (t : gmap K A) : list A :=
  (map_to_list t).*2.

Definition oldest_first : relation TaskRow :=
  by_key (λ r, (row_created_at r, row_id r)) (lex2 Z.le String.le).
Definition newest_first : relation TaskRow :=
  by_key (λ r, (row_created_at r, row_id r)) (lex2 (flip Z.le) (flip String.le)).
Definition recently_updated_first : relation TaskRow :=
  by_key (λ r, (row_updated_at r, (row_created_at r, row_id r)))
    (lex2 (flip Z.le) (lex2 Z.le String.le)).
Definition oldest_completed_first : relation TaskRow :=
  by_key (λ r, (default 0 (row_completed_at r), row_id r)) (lex2 Z.le String.le).

#[export] Instance oldest_first_dec : RelDecision oldest_first.
Proof. unfold oldest_first. apply _. Defined.
#[export] Instance oldest_first_total : Total oldest_first.
Proof. unfold oldest_first. apply _. Qed.
#[export] Instance oldest_first_trans : Transitive oldest_first.
Proof. unfold oldest_first. apply _. Qed.
#[export] Instance newest_first_dec : RelDecision newest_first.
Proof. unfold newest_first. apply _. Defined.
#[export] Instance newest_first_total : Total newest_first.
Proof. unfold newest_first. apply _. Qed.
#[export] Instance newest_first_trans : Transitive newest_first.
Proof. unfold newest_first. apply _. Qed.
#[export] Instance recently_updated_first_dec : RelDecision recently_updated_first.
Proof. unfold recently_updated_first. apply _. Defined.
#[export] Instance recently_updated_first_total : Total recently_updated_first.
Proof. unfold recently_updated_first. apply _. Qed.
#[export] Instance recently_updated_first_trans : Transitive recently_updated_first.
Proof. unfold recently_updated_first. apply _. Qed.
#[export] Instance oldest_completed_first_dec : RelDecision oldest_completed_first.
Proof. unfold oldest_completed_first. apply _. Defined.
#[export] Instance oldest_completed_first_total : Total oldest_completed_first.
Proof. unfold oldest_completed_first. apply _. Qed.
#[export] Instance oldest_completed_first_trans : Transitive oldest_completed_first.
Proof. unfold oldest_completed_first. apply _. Qed.

(** ** Reading a task *)

Definition nonempty (o : option string) : option string :=
  match o with Some "" => None | _ => o end.

(** [orchestratorgo/store/postgres.go:1694-1782] scanTask. [metadata] has no
    other JSON shape than an object: every statement that writes it stores one. *)
Definition scan_allowed (metadata : gmap_any) : list string :=
  match mget metadata "allowed_capabilities" with
  | VList l => sprint <$> l
  | _ => []
  end.
Definition scanTask (r : TaskRow) : TaskResponse := {|
  task_id := row_id r;
  task_state := row_state r;
  task_description := row_description r;
  task_metadata := row_metadata r;
  task_allowed_capabilities := scan_allowed (row_metadata r);
  task_parent := row_parent r;
  task_root := Some (row_root r);
  task_kind := row_kind r;
  task_assigned_agent := nonempty (row_assigned_agent r);
  task_planned_agent := nonempty (row_planned_agent r);
  task_priority := row_priority r;
  task_execution_target := row_execution_target r;
  task_initiative := row_initiative r;
  task_workspace_path := row_workspace_path r;
  task_retry_count := row_retry_count r;
  task_correlation := row_correlation r;
  task_results := default VNil (row_results r);
  task_error_message := row_error_message r;
  task_created_at := row_created_at r;
  task_updated_at := row_updated_at r;
  task_started_at := row_started_at r;
  task_completed_at := row_completed_at r;
  task_archived_at := row_archived_at r;
|}.

(** ** Updates of the tables *)

Definition on_pg (f : DB → DB) (s : Sys) : Sys := s <| pg := f (pg s) |>.
Definition with_tasks (f : gmap string TaskRow → gmap string TaskRow) : Sys → Sys :=
  on_pg (λ d, d <| tasks := f (tasks d) |>).

(** [UPDATE tasks SET .. WHERE id = $1] *)
Definition update_task (id : string) (f : TaskRow → TaskRow) : Sys → Sys :=
  with_tasks (alter f id).
(** [UPDATE tasks SET .. WHERE p] *)
Definition update_tasks_where (p : TaskRow → bool) (f : TaskRow → TaskRow) : Sys → Sys :=
  with_tasks (fmap (λ r, if p r then f r else r)).
Definition insert_transition (t : Transition) : Sys → Sys :=
  on_pg (λ d, d <| state_transitions := state_transitions d ++ [t] |>).

(** ** Facts *)

Definition get_row (s : Sys) (id : string) : option TaskRow := tasks (pg s) !! id.

Lemma elem_of_rows_of {K A} `{Countable K} (t : gmap K A) x :
  x ∈ rows_of t ↔ ∃ k, t !! k = Some x.
Proof.
  unfold rows_of. rewrite list_elem_of_fmap. split.
  - intros ([k v] & -> & Hin%elem_of_map_to_list). eauto.
  - intros [k Hk]. exists (k, x). by rewrite elem_of_map_to_list.
Qed.

Lemma get_row_update_eq s id f :
  get_row (update_task id f s) id = f <$> get_row s id.
Proof. apply lookup_alter_eq. Qed.
Lemma get_row_update_ne s id id' f :
  id ≠ id' → get_row (update_task id f s) id' = get_row s id'.
Proof. apply lookup_alter_ne. Qed.
Lemma get_row_insert_transition s t id :
  get_row (insert_transition t s) id = get_row s id.
Proof. done. Qed.
Lemma get_row_update_where s p f id :
  get_row (update_tasks_where p f s) id
  = (λ r, if p r then f r else r) <$> get_row s id.
Proof. apply lookup_fmap. Qed.

#[export] Hint Rewrite get_row_update_eq get_row_insert_transition
  get_row_update_where : lab_simpl.
