(* ===== verification/Broker.v ===== *)
(** * The capability broker ([capabilitybroker/broker.go], [store/capabilities.go])

    Agents run tools ("capabilities") through the broker, which decides by the
    definition of the capability, by fixed rules per agent and by the policy of the
    project which of them an agent may use, and ranks those.  What runs a capability
    is a parameter. *)
From S2P Require Import Prelude GoVal Effects Schema.

(** ** Data *)

(** [orchestratorgo/domain/capabilities.go:5-22] CapabilityDefinition: a nil slice and an
    empty one are not told apart. *)
Record CapabilityDefinition := MkCapability {
  cap_name : string;
  cap_kind : string;
  cap_backend : string;
  cap_input_schema : gmap_any;
  cap_output_schema : gmap_any;
  cap_agents : list string;
  cap_tags : list string;
  cap_risk : string;
  cap_cost : string;
  cap_latency : string;
  cap_workspace : bool;
  cap_default_policy : gmap_any;
  cap_enabled : bool;
  cap_version : Z;
  cap_created_at : Z;
  cap_updated_at : Z;
}.
#[export] Instance eta_capability : Eta CapabilityDefinition := λ c,
  MkCapability (cap_name c) (cap_kind c) (cap_backend c) (cap_input_schema c)
    (cap_output_schema c) (cap_agents c) (cap_tags c) (cap_risk c) (cap_cost c) (cap_latency c)
    (cap_workspace c) (cap_default_policy c) (cap_enabled c) (cap_version c) (cap_created_at c)
    (cap_updated_at c).
(** [orchestratorgo/domain/capabilities.go:24-32] CapabilityPolicyOverride. *)
Record CapabilityPolicyOverride := MkOverride {
  ov_enabled : option bool;
  ov_auto_use : option bool;
  ov_approval_required : option bool;
  ov_max_invocations : option Z;
  ov_timeout_seconds : option Z;
  ov_preferred_agents : list string;
  ov_denied_agents : list string;
}.
(** [orchestratorgo/domain/capabilities.go:34-42] ProjectCapabilityPolicy. *)
Record ProjectCapabilityPolicy := MkProjectPolicy {
  pp_repository : string;
  pp_mode : string;
  pp_enabled : list string;
  pp_disabled : list string;
  pp_overrides : gmap string CapabilityPolicyOverride;
  pp_updated_by : option string;
  pp_updated_at : Z;
}.
(** [orchestratorgo/domain/capabilities.go:44-55] CapabilityCandidate: the fields copied
    from the definition are read from it; the score is a float64 that stays a small
    integer. *)
Record CapabilityCandidate := MkCandidate {
  cand_score : Z;
  cand_definition : CapabilityDefinition;
  cand_override : option CapabilityPolicyOverride;
}.
Definition cand_name (c : CapabilityCandidate) : string := cap_name (cand_definition c).

(** The tables [capability_definitions] and [project_capability_policies]. *)
Record Registry := MkRegistry {
  capability_definitions : gmap string CapabilityDefinition;
  project_policies : gmap string ProjectCapabilityPolicy;
}.
#[export] Instance eta_registry : Eta Registry := λ r,
  MkRegistry (capability_definitions r) (project_policies r).

(** ** The store *)

Section Store.
Context `{Env}.

(** [orchestratorgo/store/capabilities.go:121-137] GetCapabilityDefinition. *)
Definition GetCapabilityDefinition (name : string) : M Registry (option CapabilityDefinition) :=
  query (λ s, capability_definitions s !! trim_space name).

(** [orchestratorgo/store/capabilities.go:64-119] UpsertCapabilityDefinition: the row it
    inserts, or updates without touching [created_at]. *)
Definition definition_row (now : Z) (params : CapabilityDefinition)
    (old : option CapabilityDefinition) : CapabilityDefinition :=
  {| cap_name := trim_space (cap_name params);
     cap_kind := trim_space (cap_kind params);
     cap_backend := trim_space (cap_backend params);
     cap_input_schema := jsonb_map (cap_input_schema params);
     cap_output_schema := jsonb_map (cap_output_schema params);
     cap_agents := cap_agents params;
     cap_tags := cap_tags params;
     cap_risk := trim_space (cap_risk params);
     cap_cost := trim_space (cap_cost params);
     cap_latency := trim_space (cap_latency params);
     cap_workspace := cap_workspace params;
     cap_default_policy := jsonb_map (cap_default_policy params);
     cap_enabled := cap_enabled params;
     cap_version := if cap_version params <=? 0 then 1 else cap_version params;
     cap_created_at := match old with Some d => cap_created_at d | None => now end;
     cap_updated_at := now |}.
Definition upsert_definition (now : Z) (params : CapabilityDefinition) (s : Registry) : Registry :=
  let name := trim_space (cap_name params) in
  s <| capability_definitions :=
    <[name := definition_row now params (capability_definitions s !! name)]>
      (capability_definitions s) |>.
Definition UpsertCapabilityDefinition (params : CapabilityDefinition) :
    M Registry (option CapabilityDefinition) :=
  if blank (cap_name params) then errorf "capability name is required"
  else
    exec_now (λ now, upsert_definition now params) ;;;
    GetCapabilityDefinition (trim_space (cap_name params)).

(** [orchestratorgo/store/capabilities.go:40-62] EnsureDefaultCapabilityDefinitions. *)
Definition EnsureDefaultCapabilityDefinitions (definitions : list CapabilityDefinition) :
    M Registry unit :=
  for_each definitions tt (λ _ item, UpsertCapabilityDefinition item ;;; ret tt).

(** [orchestratorgo/store/capabilities.go:139-160] ListCapabilityDefinitions. *)
Definition by_name : relation CapabilityDefinition := by_key cap_name String.le.
#[export] Instance by_name_dec : RelDecision by_name.
Proof. unfold by_name. apply _. Defined.
Definition ListCapabilityDefinitions : M Registry (list CapabilityDefinition) :=
  query (λ s, merge_sort by_name (snd <$> map_to_list (capability_definitions s))).

(** [orchestratorgo/store/capabilities.go:202-216] GetProjectCapabilityPolicy. *)
Definition GetProjectCapabilityPolicy (repositoryURL : string) :
    M Registry (option ProjectCapabilityPolicy) :=
  query (λ s, project_policies s !! trim_space repositoryURL).
(** [orchestratorgo/store/capabilities.go:162-200] UpsertProjectCapabilityPolicy. *)
Definition UpsertProjectCapabilityPolicy (params : ProjectCapabilityPolicy) :
    M Registry (option ProjectCapabilityPolicy) :=
  let repositoryURL := trim_space (pp_repository params) in
  if repositoryURL =?s "" then errorf "repository_url is required"
  else
    let mode := trim_space (pp_mode params) in
    exec_now (λ now s, s <| project_policies := <[repositoryURL :=
      MkProjectPolicy repositoryURL (if mode =?s "" then "discover_filter" else mode)
        (pp_enabled params) (pp_disabled params) (pp_overrides params) (pp_updated_by params) now]>
      (project_policies s) |>) ;;;
    GetProjectCapabilityPolicy repositoryURL.
End Store.

(** ** Names, tags and rules *)

(** [orchestratorgo/capabilitybroker/broker.go:702-719] containsString, containsAnyTag. *)
Definition containsString (items : list string) (target : string) : bool :=
  existsb (λ item, trim_space item =?s trim_space target) items.
Definition containsAnyTag (items targets : list string) : bool :=
  existsb (containsString items) targets.

(** [orchestratorgo/capabilitybroker/broker.go:549-560] normalizeCapabilityAlias. *)
Definition normalizeCapabilityAlias (value : string) : string :=
  let value := trim_space value in
  if value =?s "write_file" then "filesystem.write"
  else if value =?s "read_file" then "filesystem.read"
  else if value =?s "list_files" then "filesystem.list"
  else value.

(** [orchestratorgo/capabilitybroker/broker.go:208-547] DefaultDefinitions: version 1,
    enabled, each run by the backend of its name. *)
Definition builtin (name kind : string) (agents tags : list string) (risk cost latency : string)
    (workspace : bool) (policy : gmap_any) : CapabilityDefinition :=
  MkCapability name kind name ∅ ∅ agents tags risk cost latency workspace policy true 1 0 0.
Definition DefaultDefinitions : list CapabilityDefinition :=
  [builtin "web.search" "internal"
     ["planner"; "researcher"]
     ["evidence"; "search"; "docs"] "read_only" "low" "medium" false {["auto_use" := VBool false]};
   builtin "web.fetch" "internal"
     ["planner"; "researcher"; "reviewer"]
     ["evidence"; "fetch"; "docs"] "read_only" "low" "medium" false {["auto_use" := VBool false]};
   builtin "document.read" "sidecar"
     ["researcher"; "reviewer"]
     ["evidence"; "docs"; "documents"] "read_only" "medium" "medium" false ∅;
   builtin "image.analyze" "sidecar"
     ["researcher"; "reviewer"]
     ["evidence"; "images"] "read_only" "medium" "medium" false ∅;
   builtin "code.analysis" "internal"
     ["reviewer"]
     ["review"; "static-analysis"; "code-quality"; "validation"] "read_only" "medium" "medium" false ∅;
   builtin "shell.exec" "internal"
     ["coder"; "infra"]
     ["shell"; "execute"; "workspace"; "validation"] "workspace_execute" "low" "medium" true {["approval_required" := VBool true]};
   builtin "git.status" "internal"
     ["coder"; "reviewer"; "infra"]
     ["git"; "status"; "workspace"; "review"] "read_only" "low" "low" true ∅;
   builtin "git.diff" "internal"
     ["coder"; "reviewer"; "infra"]
     ["git"; "diff"; "workspace"; "review"; "validation"] "read_only" "low" "low" true ∅;
   builtin "git.log" "internal"
     ["coder"; "reviewer"; "infra"]
     ["git"; "history"; "workspace"; "review"] "read_only" "low" "low" true ∅;
   builtin "git.branch" "internal"
     ["coder"; "infra"]
     ["git"; "branch"; "workspace"] "workspace_write" "low" "low" true {["approval_required" := VBool true]};
   builtin "docker.compose_up" "internal"
     ["coder"; "infra"]
     ["docker"; "compose"; "service"; "validation"] "workspace_execute" "medium" "high" true {["approval_required" := VBool true]};
   builtin "docker.compose_down" "internal"
     ["coder"; "infra"]
     ["docker"; "compose"; "service"] "workspace_execute" "medium" "medium" true {["approval_required" := VBool true]};
   builtin "docker.logs" "internal"
     ["coder"; "reviewer"; "infra"]
     ["docker"; "logs"; "service"; "validation"] "read_only" "medium" "medium" true ∅;
   builtin "docker.ps" "internal"
     ["coder"; "reviewer"; "infra"]
     ["docker"; "service"; "status"; "validation"] "read_only" "low" "low" true ∅;
   builtin "docker.build" "internal"
     ["coder"; "infra"]
     ["docker"; "build"; "service"] "workspace_execute" "high" "high" true {["approval_required" := VBool true]};
   builtin "docker.run" "internal"
     ["coder"; "infra"]
     ["docker"; "run"; "service"] "workspace_execute" "high" "high" true {["approval_required" := VBool true]};
   builtin "http.check" "internal"
     ["coder"; "reviewer"; "researcher"]
     ["http"; "validation"; "service"; "evidence"] "read_only" "low" "medium" false ∅;
   builtin "browser.verify" "internal"
     ["reviewer"; "researcher"]
     ["browser"; "validation"; "service"; "evidence"] "read_only" "medium" "high" false ∅;
   builtin "github.read" "mcp_wrapper"
     ["researcher"; "reviewer"]
     ["github"; "repo-hosting"; "issues"; "prs"; "evidence"] "read_only" "medium" "medium" false ∅;
   builtin "jira.read" "mcp_wrapper"
     ["researcher"; "reviewer"]
     ["jira"; "issue-tracker"; "tickets"; "evidence"] "read_only" "medium" "medium" false ∅;
   builtin "slack.read" "mcp_wrapper"
     ["researcher"; "reviewer"]
     ["slack"; "chatops"; "context"; "evidence"] "read_only" "medium" "medium" false ∅;
   builtin "slack.notify" "mcp_wrapper"
     ["reviewer"; "infra"]
     ["slack"; "chatops"; "notify"] "external_write" "low" "medium" false {["approval_required" := VBool true]};
   builtin "filesystem.read" "internal"
     ["coder"; "reviewer"; "infra"]
     ["filesystem"; "read"; "workspace"] "read_only" "low" "low" true ∅;
   builtin "filesystem.list" "internal"
     ["coder"; "reviewer"; "infra"]
     ["filesystem"; "read"; "workspace"] "read_only" "low" "low" true ∅;
   builtin "filesystem.write" "internal"
     ["coder"; "infra"]
     ["filesystem"; "write"; "workspace"] "workspace_write" "low" "low" true {["approval_required" := VBool true]};
   builtin "research.query" "internal"
     ["planner"; "researcher"]
     ["research"; "evidence"; "synthesis"] "read_only" "medium" "high" false ∅].


(** [orchestratorgo/capabilitybroker/broker.go:562-582] defaultPolicyAllows. *)
Definition read_only (def : CapabilityDefinition) : bool := cap_risk def =?s "read_only".
Definition defaultPolicyAllows (def : CapabilityDefinition) (agentType : string) : bool :=
  let agent := trim_space agentType in
  let tagged := containsAnyTag (cap_tags def) in
  let name := cap_name def in
  if agent =?s "coder" then
    (name =?s "filesystem.write") || (name =?s "shell.exec") || has_prefix "git." name
    || has_prefix "docker." name || (name =?s "http.check")
  else if agent =?s "researcher" then
    read_only def
    && (tagged ["evidence"; "docs"; "search"; "research"; "browser"; "http"; "github"; "jira";
                "slack"] || has_prefix "web." name)
  else if agent =?s "reviewer" then
    (read_only def || (name =?s "slack.notify"))
    && tagged ["review"; "validation"; "docs"; "evidence"; "static-analysis"; "code-quality";
               "github"; "jira"; "slack"; "browser"; "http"; "git"]
  else if agent =?s "planner" then
    read_only def && tagged ["evidence"; "docs"; "research"; "search"]
  else true.

(** [orchestratorgo/capabilitybroker/broker.go:584-593] policyOverride. *)
Definition policyOverride (policy : option ProjectCapabilityPolicy) (name : string) :
    option CapabilityPolicyOverride :=
  policy ← policy; pp_overrides policy !! name.

(** [orchestratorgo/capabilitybroker/broker.go:595-617] isDeniedByProjectPolicy. *)
Definition override_denies (agentType : string) (o : CapabilityPolicyOverride) : bool :=
  bool_decide (ov_enabled o = Some false)
  || containsString (ov_denied_agents o) agentType
  || (negb (bool_decide (ov_preferred_agents o = []))
      && negb (containsString (ov_preferred_agents o) agentType)).
Definition isDeniedByProjectPolicy (policy : option ProjectCapabilityPolicy)
    (name agentType : string) (override : option CapabilityPolicyOverride) : bool :=
  match override with Some o => override_denies agentType o | None => false end
  || match policy with
     | None => false
     | Some p =>
         containsString (pp_disabled p) name
         || (negb (bool_decide (pp_enabled p = [])) && negb (containsString (pp_enabled p) name))
     end.

(** [orchestratorgo/capabilitybroker/broker.go:619-700] scoreCandidate, classPenalty. *)
Definition classPenalty (value : string) : Z :=
  let value := trim_space value in
  if value =?s "high" then 4 else if value =?s "medium" then 2 else 0.
Definition intent_tags : list (string * (list string * Z)) :=
  [("needs_external_evidence", (["evidence"; "docs"; "search"; "research"], 20));
   ("needs_repo_static_analysis",
      (["review"; "static-analysis"; "code-quality"; "validation"], 20));
   ("needs_workspace_write", (["filesystem"; "write"], 20));
   ("needs_workspace_execution", (["shell"; "execute"], 25));
   ("needs_git_context", (["git"; "review"], 20));
   ("needs_service_validation", (["http"; "browser"; "service"], 24));
   ("needs_browser_validation", (["browser"; "validation"], 24));
   ("needs_repo_hosting_context", (["github"; "repo-hosting"; "prs"; "issues"], 22));
   ("needs_issue_tracker_context", (["jira"; "issue-tracker"; "tickets"], 22));
   ("needs_chatops_context", (["slack"; "chatops"; "notify"; "context"], 22));
   ("needs_docs_lookup", (["docs"; "fetch"; "search"], 20));
   ("needs_ci_signal", (["evidence"; "review"], 10))].
Definition intent_score (tags : list string) (intent : string) : Z :=
  match head (filter (λ row, row.1 = trim_space intent) intent_tags) with
  | Some (_, (wanted, weight)) => if containsAnyTag tags wanted then weight else 0
  | None => 0
  end.
Definition scoreCandidate (def : CapabilityDefinition) (agentType intent : string)
    (preferredTags : list string) (override : option CapabilityPolicyOverride) : Z :=
  10
  + (if containsAnyTag (cap_tags def) preferredTags then 25 else 0)
  + intent_score (cap_tags def) intent
  + (if read_only def then 5 else 0)
  - classPenalty (cap_cost def) - classPenalty (cap_latency def)
  + (if bool_decide (override ≫= ov_auto_use = Some true) then 5 else 0)
  + (if (agentType =?s "reviewer") && (cap_name def =?s "code.analysis") then 15 else 0)
  + (if (agentType =?s "coder") && (cap_name def =?s "filesystem.write") then 15 else 0).

(** [orchestratorgo/capabilitybroker/broker.go:178-206] evaluateCandidate. *)
Definition evaluateCandidate (def : CapabilityDefinition) (policy : option ProjectCapabilityPolicy)
    (agentType intent : string) (preferredTags : list string) : option CapabilityCandidate :=
  let def := def <| cap_name := normalizeCapabilityAlias (cap_name def) |> in
  if negb (cap_enabled def) then None
  else if negb (blank agentType) && negb (containsString (cap_agents def) agentType) then None
  else if negb (blank agentType) && negb (defaultPolicyAllows def agentType) then None
  else
    let override := policyOverride policy (cap_name def) in
    if isDeniedByProjectPolicy policy (cap_name def) agentType override then None
    else Some (MkCandidate (scoreCandidate def agentType intent preferredTags override) def override).

(** ** The broker *)

(** [orchestratorgo/capabilitybroker/broker.go:23-30] ExecuteRequest. *)
Record ExecuteRequest := MkExecute {
  ex_task : option string;
  ex_agent : string;
  ex_repository : string;
  ex_intent : string;
  ex_capability : string;
  ex_input : gmap_any;
}.

(** [orchestratorgo/capabilitybroker/broker.go:104-121] ListAvailable: better scores first,
    then by name. *)
Definition ranked : relation CapabilityCandidate :=
  by_key (λ c, (cand_score c, cand_name c)) (lex2 (flip Z.le) String.le).
#[export] Instance ranked_dec : RelDecision ranked.
Proof. unfold ranked. apply _. Defined.
#[export] Instance ranked_total : Total ranked.
Proof. unfold ranked. apply _. Qed.
#[export] Instance ranked_trans : Transitive ranked.
Proof. unfold ranked. apply _. Qed.

Section Broker.
(** [has_store]: the broker has a store; [backends]: what runs each capability, with
    results in [R]. *)
Context `{Env} {R : Type} (has_store : bool) (backends : gmap string (ExecuteRequest → M Registry R)).

(** [orchestratorgo/capabilitybroker/broker.go:67-72] EnsureDefaults. *)
Definition EnsureDefaults : M Registry unit :=
  if has_store then EnsureDefaultCapabilityDefinitions DefaultDefinitions else ret tt.

(** [orchestratorgo/capabilitybroker/broker.go:84-96] ListDefinitions. *)
Definition ListDefinitions : M Registry (list CapabilityDefinition) :=
  if negb has_store then ret DefaultDefinitions
  else
    items <- ListCapabilityDefinitions ;;
    ret (if bool_decide (items = []) then DefaultDefinitions else items).

(** [orchestratorgo/capabilitybroker/broker.go:170-176] projectPolicy. *)
Definition projectPolicy (projectURL : string) : M Registry (option ProjectCapabilityPolicy) :=
  if blank projectURL || negb has_store then ret None
  else GetProjectCapabilityPolicy (trim_space projectURL).

(** [orchestratorgo/capabilitybroker/broker.go:98-122] ListAvailable. *)
Definition available (definitions : list CapabilityDefinition)
    (policy : option ProjectCapabilityPolicy) (agentType intent : string)
    (preferredTags : list string) : list CapabilityCandidate :=
  merge_sort ranked
    (omap (λ def, evaluateCandidate def policy agentType intent preferredTags) definitions).
Definition ListAvailable (projectURL agentType intent : string) (preferredTags : list string) :
    M Registry (list CapabilityCandidate * option ProjectCapabilityPolicy) :=
  definitions <- ListDefinitions ;;
  policy <- projectPolicy projectURL ;;
  ret (available definitions policy agentType intent preferredTags, policy).

(** [orchestratorgo/capabilitybroker/broker.go:124-142] Resolve. *)
Definition not_allowed {A} (what : string) : M Registry A :=
  errorf ("capability not allowed: " +:+ what).
Definition Resolve (projectURL agentType intent : string) (preferredTags : list string)
    (explicitCapability : string) :
    M Registry (CapabilityCandidate * option ProjectCapabilityPolicy) :=
  found <- ListAvailable projectURL agentType intent preferredTags ;;
  let '(items, policy) := found in
  let explicitCapability := normalizeCapabilityAlias explicitCapability in
  if negb (explicitCapability =?s "") then
    match head (filter (λ item, cand_name item = explicitCapability) items) with
    | Some item => ret (item, policy)
    | None => not_allowed explicitCapability
    end
  else
    match items with
    | item :: _ => ret (item, policy)
    | [] => not_allowed "no capability matched"
    end.

(** [orchestratorgo/capabilitybroker/broker.go:144-168] Execute: the backend of the name,
    else that of the reference. *)
Definition backend_of (candidate : CapabilityCandidate) : option (ExecuteRequest → M Registry R) :=
  match backends !! cand_name candidate with
  | Some b => Some b
  | None => backends !! cap_backend (cand_definition candidate)
  end.
Definition Execute (req : ExecuteRequest) (preferredTags : list string) :
    M Registry (CapabilityCandidate * R * option ProjectCapabilityPolicy) :=
  found <- Resolve (ex_repository req) (ex_agent req) (ex_intent req) preferredTags
             (ex_capability req) ;;
  let '(candidate, policy) := found in
  match backend_of candidate with
  | None => errorf ("no backend registered for capability " +:+ cand_name candidate)
  | Some backend =>
      result <- backend (MkExecute (ex_task req) (ex_agent req) (ex_repository req)
                           (ex_intent req) (cand_name candidate) (ex_input req)) ;;
      ret (candidate, result, policy)
  end.
End Broker.

(** ** Who may run what *)

(** The role of an agent bounds the risk of what it runs. *)
Definition within_role (agent : string) (def : CapabilityDefinition) : Prop :=
  (agent ∈ ["researcher"; "planner"] → cap_risk def = "read_only") ∧
  (agent = "reviewer" → cap_risk def = "read_only" ∨ cap_name def = "slack.notify") ∧
  (agent = "coder" →
    cap_name def ∈ ["filesystem.write"; "shell.exec"; "http.check"] ∨
    has_prefix "git." (cap_name def) = true ∨ has_prefix "docker." (cap_name def) = true).
Definition within_policy (policy : option ProjectCapabilityPolicy) (agent name : string) : Prop :=
  ∀ p, policy = Some p →
    containsString (pp_disabled p) name = false ∧
    (pp_enabled p ≠ [] → containsString (pp_enabled p) name = true) ∧
    ∀ o, pp_overrides p !! name = Some o →
      ov_enabled o ≠ Some false ∧ containsString (ov_denied_agents o) agent = false ∧
      (ov_preferred_agents o ≠ [] → containsString (ov_preferred_agents o) agent = true).

Lemma defaultPolicy_role def agent :
  defaultPolicyAllows def agent = true → within_role (trim_space agent) def.
Proof.
  unfold defaultPolicyAllows, within_role, read_only.
  intros Hallow. split_and!.
  - rewrite !elem_of_cons, elem_of_nil. intros [Ha|[Ha|[]]]; rewrite Ha in Hallow; cbn in Hallow;
      by apply andb_true_iff in Hallow as [Hr%String.eqb_eq _].
  - intros Ha. rewrite Ha in Hallow. cbn in Hallow. apply andb_true_iff in Hallow as [Hr _].
    apply orb_true_iff in Hr as [Hr|Hr]; apply String.eqb_eq in Hr; auto.
  - intros Ha. rewrite Ha in Hallow. cbn in Hallow. rewrite !orb_true_iff, !String.eqb_eq in Hallow.
    rewrite !elem_of_cons. naive_solver.
Qed.
Lemma not_denied_policy policy name agent :
  isDeniedByProjectPolicy policy name agent (policyOverride policy name) = false →
  within_policy policy agent name.
Proof.
  unfold isDeniedByProjectPolicy, policyOverride, override_denies.
  intros Hd p ->. cbn in Hd. apply orb_false_iff in Hd as [Ho Hp].
  apply orb_false_iff in Hp as [Hdis Hen]. split_and!; [done| |].
  - intros Hne. apply andb_false_iff in Hen as [Hen|Hen]; [|by apply negb_false_iff in Hen].
    by rewrite bool_decide_false in Hen.
  - intros o Ho'. rewrite Ho' in Ho. apply orb_false_iff in Ho as [Ho Hpref].
    apply orb_false_iff in Ho as [Hoff Hden]. apply bool_decide_eq_false in Hoff.
    split_and!; [done..|]. intros Hne.
    apply andb_false_iff in Hpref as [Hpref|Hpref]; [|by apply negb_false_iff in Hpref].
    by rewrite bool_decide_false in Hpref.
Qed.

(** What is authorized: the definition, in the registry or built in, of an enabled
    capability that its own list, the role and the project's policy grant. *)
Record authorized (definitions : list CapabilityDefinition)
    (policy : option ProjectCapabilityPolicy) (agent : string) (c : CapabilityCandidate) : Prop := {
  au_defined : ∃ def, def ∈ definitions ∧
    cand_definition c = def <| cap_name := normalizeCapabilityAlias (cap_name def) |>;
  au_enabled : cap_enabled (cand_definition c) = true;
  au_agent : blank agent = false →
    containsString (cap_agents (cand_definition c)) agent = true ∧
    within_role (trim_space agent) (cand_definition c);
  au_policy : within_policy policy agent (cand_name c);
}.
Lemma evaluate_authorized definitions def policy agent intent tags c :
  def ∈ definitions → evaluateCandidate def policy agent intent tags = Some c →
  authorized definitions policy agent c.
Proof.
  intros Hin. unfold evaluateCandidate. cbn zeta.
  set (def' := def <| cap_name := _ |>).
  destruct (cap_enabled def') eqn:Hen; [|done]. cbn [negb].
  destruct (negb (blank agent) && negb (containsString (cap_agents def') agent)) eqn:Ha; [done|].
  destruct (negb (blank agent) && negb (defaultPolicyAllows def' agent)) eqn:Hd; [done|].
  destruct (isDeniedByProjectPolicy _ _ _ _) eqn:Hp; [done|].
  intros Hc. injection Hc as <-. split; cbn.
  - by exists def.
  - exact Hen.
  - intros Hb. rewrite Hb in Ha, Hd. cbn in Ha, Hd.
    apply negb_false_iff in Ha, Hd. split; [done|]. by apply defaultPolicy_role.
  - by apply not_denied_policy.
Qed.
Lemma available_authorized definitions policy agent intent tags c :
  c ∈ available definitions policy agent intent tags → authorized definitions policy agent c.
Proof.
  unfold available. rewrite (merge_sort_Permutation ranked).
  intros (def & Hin & Hc)%list_elem_of_omap. by eapply evaluate_authorized.
Qed.
(** Whoever is not on the list of the ranking was refused, or ranks lower. *)
Lemma available_first definitions policy agent intent tags c l def c' :
  available definitions policy agent intent tags = c :: l → def ∈ definitions →
  evaluateCandidate def policy agent intent tags = Some c' → ranked c c'.
Proof.
  intros Hl Hin Hc'. assert (Hc : c' ∈ c :: l).
  { rewrite <- Hl. unfold available. rewrite (merge_sort_Permutation ranked).
    apply list_elem_of_omap. eauto. }
  pose proof (StronglySorted_merge_sort ranked
    (omap (λ def, evaluateCandidate def policy agent intent tags) definitions)) as Hs.
  unfold available in Hl. rewrite Hl in Hs. apply StronglySorted_inv in Hs as [_ Hall].
  apply elem_of_cons in Hc as [->|Hc]; [by right|].
  rewrite Forall_forall in Hall. by apply Hall.
Qed.

Section Execution.
Context `{Env} {R : Type} (has_store : bool) (backends : gmap string (ExecuteRequest → M Registry R)).

(** What the broker reads of the registry. *)
Definition known_definitions (s : Registry) : list CapabilityDefinition :=
  let stored := merge_sort by_name (snd <$> map_to_list (capability_definitions s)) in
  if has_store && negb (bool_decide (stored = [])) then stored else DefaultDefinitions.
Definition known_policy (s : Registry) (url : string) : option ProjectCapabilityPolicy :=
  if blank url || negb has_store then None else project_policies s !! trim_space url.

Lemma trim_space_trimmed_lookup (m : gmap string ProjectCapabilityPolicy) url :
  m !! trim_space (trim_space url) = m !! trim_space url.
Proof. by rewrite trim_space_idemp. Qed.
Lemma ListAvailable_run url agent intent tags n s r n' s' :
  ListAvailable has_store url agent intent tags n s = (r, (n', s')) →
  s' = s ∧ (r = Ok (available (known_definitions s) (known_policy s url) agent intent tags,
                    known_policy s url) ∨ ∃ e, r = Err e).
Proof.
  unfold ListAvailable, ListDefinitions, projectPolicy, known_definitions, known_policy.
  destruct has_store; cbn [negb andb].
  - rewrite orb_false_r.
    intros [(e & Hd & ->)|(defs & n1 & s1 & Hd & Hrun)]%bind_inv;
      apply bind_inv in Hd as [(e' & Hq & He)|(items & n2 & s2 & Hq & Hret)].
    { apply query_state in Hq as ->. eauto. }
    { discriminate Hret. }
    { discriminate He. }
    apply query_ok in Hq as (-> & -> & ->). unfold ret in Hret. injection Hret as <- <- <-.
    apply bind_inv in Hrun as [(e & Hp & ->)|(policy & n3 & s3 & Hp & Hret)].
    + destruct (blank url); [discriminate Hp|]. apply query_state in Hp as ->. eauto.
    + unfold ret in Hret. injection Hret as <- <- <-.
      destruct (blank url).
      * unfold ret in Hp. injection Hp as <- <- <-. split; [done|]. left.
        by destruct (bool_decide _).
      * apply query_ok in Hp as (-> & -> & ->). rewrite trim_space_idemp.
        split; [done|]. left. by destruct (bool_decide _).
  - rewrite orb_true_r. intros Hrun. unfold bind, ret in Hrun. injection Hrun as <- <- <-. eauto.
Qed.
Lemma Resolve_run url agent intent tags explicit n s r n' s' :
  Resolve has_store url agent intent tags explicit n s = (r, (n', s')) →
  let definitions := known_definitions s in
  let policy := known_policy s url in
  let allowed def c := def ∈ definitions ∧
    evaluateCandidate def policy agent intent tags = Some c in
  let wanted := normalizeCapabilityAlias explicit in
  s' = s ∧
  ((∃ c def, r = Ok (c, policy) ∧ allowed def c ∧
      (wanted ≠ "" → cand_name c = wanted) ∧
      (wanted = "" → ∀ def' c', allowed def' c' → ranked c c')) ∨
   ∃ e, r = Err e).
Proof.
  intros Hrun definitions policy allowed wanted. unfold Resolve in Hrun.
  assert (Hin : ∀ c, c ∈ available definitions policy agent intent tags → ∃ def, allowed def c).
  { intros c Hc. unfold available in Hc. rewrite (merge_sort_Permutation ranked) in Hc.
    apply list_elem_of_omap in Hc as (def & ? & ?). by exists def. }
  apply bind_inv in Hrun as [(e & Hl & ->)|([items found] & n1 & s1 & Hl & Hrun)];
    apply ListAvailable_run in Hl as [-> [Hl|[e' Hl]]]; try discriminate Hl; [by eauto|].
  injection Hl as -> ->. cbn zeta in Hrun. fold wanted definitions policy in Hrun.
  destruct (wanted =?s "") eqn:Hw; cbn [negb] in Hrun.
  - apply String.eqb_eq in Hw.
    destruct (available definitions policy agent intent tags) as [|c l] eqn:Hav.
    + unfold not_allowed, errorf, throw in Hrun. injection Hrun as <- <- <-. eauto.
    + unfold ret in Hrun. injection Hrun as <- <- <-.
      destruct (Hin c) as [def Hdef]; [left|]. split; [done|]. left. exists c, def.
      split_and!; [done|exact Hdef|done|].
      intros _ def' c' [Hd' Hc']. by eapply available_first.
  - apply String.eqb_neq in Hw.
    destruct (head _) as [c|] eqn:Hhd.
    + unfold ret in Hrun. injection Hrun as <- <- <-.
      apply head_Some_elem_of in Hhd as [Hname Hc]%list_elem_of_filter.
      destruct (Hin c Hc) as [def Hdef]. split; [done|]. left. exists c, def. naive_solver.
    + unfold not_allowed, errorf, throw in Hrun. injection Hrun as <- <- <-. eauto.
Qed.

(** C34: what the broker runs for an agent is authorized: a capability that is defined
    and enabled, that lists the agent, within the limits of the agent's role (a
    researcher and a planner only read, a reviewer only reads or notifies, a coder runs
    the workspace tools) and of the project's policy; it is the one asked for by name,
    or else the best ranked of all the agent may use.  Until then the registry is only
    read, and without such a capability nothing runs. *)
Theorem execute_authorized req tags n s :
  let definitions := known_definitions s in
  let policy := known_policy s (ex_repository req) in
  let wanted := normalizeCapabilityAlias (ex_capability req) in
  let '(r, (n', s')) := Execute has_store backends req tags n s in
  (s' = s ∧ ∃ e, r = Err e) ∨
  ∃ c backend n1,
    authorized definitions policy (ex_agent req) c ∧
    (wanted ≠ "" → cand_name c = wanted) ∧
    (wanted = "" → ∀ def c', def ∈ definitions →
       evaluateCandidate def policy (ex_agent req) (ex_intent req) tags = Some c' → ranked c c') ∧
    (backends !! cand_name c = Some backend ∨
     backends !! cand_name c = None ∧
     backends !! cap_backend (cand_definition c) = Some backend) ∧
    let '(out, ns') := backend (MkExecute (ex_task req) (ex_agent req) (ex_repository req)
                                  (ex_intent req) (cand_name c) (ex_input req)) n1 s in
    ns' = (n', s') ∧
    r = match out with Ok result => Ok (c, result, policy) | Err e => Err e end.
Proof.
  intros definitions policy wanted.
  destruct (Execute _ _ _ _ n s) as [r [n' s']] eqn:Hrun. unfold Execute in Hrun.
  apply bind_inv in Hrun as [(e & Hres & ->)|([c p] & n1 & s1 & Hres & Hrun)];
    apply Resolve_run in Hres as [-> Hres]; [by eauto|].
  destruct Hres as [(c' & def & Heq & Hallow & Hname & Hbest)|[e He]]; [|discriminate He].
  injection Heq as <- ->. unfold backend_of in Hrun.
  destruct (match backends !! cand_name c with Some b => Some b | None => _ end) as [backend|]
    eqn:Hb; [|unfold errorf, throw in Hrun; injection Hrun as <- <- <-; eauto].
  right. exists c, backend, n1. split_and!.
  - destruct Hallow. by eapply evaluate_authorized.
  - exact Hname.
  - intros Hw def' c' Hd Hc. apply (Hbest Hw def' c'). by split.
  - destruct (backends !! cand_name c); [by left; simplify_eq|by right].
  - unfold bind, ret in Hrun. destruct (backend _ n1 s) as [[out|e] [n2 s2]];
      injection Hrun as <- <- <-; done.
Qed.
End Execution.
