(* ===== verification/TaskStore.v ===== *)
(** * Tasks and approvals in Postgres ([store/postgres.go])

    The statements and transactions of [PostgresStore] on tasks, approvals and
    the transition log, and what they guarantee: every transition a transaction
    makes is one [validTransitions] allows, is logged exactly once, and either
    happens entirely or not at all. *)
From S2P Require Import Prelude GoVal Effects Domain Schema.

(** ** Helpers *)

(** [orchestratorgo/store/postgres.go:1585-1604] nullableString and nullableUUID. *)
Definition nullableString (o : option string) : option string :=
  match o with Some s => if blank s then None else Some s | None => None end.

(** [orchestratorgo/store/postgres.go:1882-1887] derefString. *)
Definition derefString (o : option string) : string := default "" o.

(** [orchestratorgo/store/postgres.go:1889-1896] firstNonEmptyString. *)
Definition firstNonEmptyString (l : list string) : string := first_nonblank l.

Definition invalid_transition {A} (from to : TaskState) : M Sys A :=
  errorf ("invalid_transition:" +:+ state_text from +:+ ":" +:+ state_text to).

Section Store.
Context `{Env}.

(** ** Reading *)

(** [orchestratorgo/store/postgres.go:62-69] GetTask. *)
Definition GetTask (taskID : string) : M Sys (option TaskResponse) :=
  query (λ s, scanTask <$> get_row s taskID).

(** [orchestratorgo/store/postgres.go:71-78] GetTaskByIdempotencyKey: the first
    row the scan yields. *)
Definition GetTaskByIdempotencyKey (key : string) : M Sys (option TaskResponse) :=
  query (λ s, scanTask <$>
    head (filter (λ r, row_idempotency_key r = Some key) (rows_of (tasks (pg s))))).

(** [orchestratorgo/store/postgres.go:1527-1534] GetTaskForUpdateTx. *)
Definition GetTaskForUpdateTx (taskID : string) : M Sys (option TaskResponse) :=
  GetTask taskID.

(** [orchestratorgo/store/postgres.go:649-656] ListChildren. *)
Definition ListChildren (parentTaskID : string) : M Sys (list TaskResponse) :=
  query (λ s, scanTask <$>
    select (λ r, bool_decide (row_parent r = Some parentTaskID)) oldest_first
      (rows_of (tasks (pg s)))).

(** [orchestratorgo/store/postgres.go:658-665] ListByRoot. *)
Definition ListByRoot (rootTaskID : string) : M Sys (list TaskResponse) :=
  query (λ s, scanTask <$>
    select (λ r, row_root r =?s rootTaskID) oldest_first (rows_of (tasks (pg s)))).

(** [orchestratorgo/store/postgres.go:667-684] ListWorkspaceCleanupCandidates. *)
Definition is_cleanup_candidate (cutoff : Z) (r : TaskRow) : bool :=
  IsTerminalState (row_state r)
  && bool_decide (is_Some (row_workspace_path r))
  && match row_completed_at r with Some t => t <? cutoff | None => false end.
Definition ListWorkspaceCleanupCandidates (cutoff limit : Z) : M Sys (list TaskResponse) :=
  let limit := if limit <=? 0 then 100 else limit in
  query (λ s, scanTask <$>
    take (Z.to_nat limit)
      (select (is_cleanup_candidate cutoff) oldest_completed_first
        (rows_of (tasks (pg s))))).

(** ** Creating *)

(** [orchestratorgo/store/postgres.go:80-96] CreateTaskParams. *)
Record CreateTaskParams := MkCreateTask {
  ctp_description : string;
  ctp_metadata : gmap_any;
  ctp_allowed_capabilities : list string;
  ctp_priority : string;
  ctp_assigned_agent : string;
  ctp_planned_agent : option string;
  ctp_execution_target : string;
  ctp_idempotency_key : option string;
  ctp_entrypoint : string;
  ctp_workspace_path : option string;
  ctp_parent : option string;
  ctp_root : option string;
  ctp_initiative : option string;
  ctp_kind : string;
  ctp_queue_on_create : bool;
}.

(** [orchestratorgo/store/postgres.go:1840-1860] transitionTaskStateTx. *)
Definition apply_transition (toState : TaskState) (now : Z) (r : TaskRow) : TaskRow :=
  r <| row_state := toState |>
    <| row_updated_at := now |>
    <| row_queued_at :=
         if decide (toState = TaskStateQueued) then Some now else row_queued_at r |>
    <| row_started_at :=
         if decide (toState = TaskStateInProgress ∧ row_started_at r = None)
         then Some now else row_started_at r |>
    <| row_completed_at :=
         if IsTerminalState toState then Some now else row_completed_at r |>.
Definition transitionTaskStateTx (taskID : string) (fromState toState : TaskState)
    (actor reason : string) (now : Z) : M Sys unit :=
  exec (update_task taskID (apply_transition toState now)) ;;;
  id <- new_uuid ;;
  exec (insert_transition (MkTransition id taskID fromState toState actor reason now)).

(** The foreign key [fk_tasks_initiative]. *)
Definition initiative_exists (s : Sys) (ref : option string) : bool :=
  match ref with
  | Some i => bool_decide (is_Some (initiatives (pg s) !! i))
  | None => true
  end.
Definition insert_task (r : TaskRow) : M Sys unit := stmt (λ s,
  if decide (is_Some (get_row s (row_id r))) then
    (Err (ErrUniqueViolation "tasks_pkey"), s)
  else if initiative_exists s (row_initiative r) then
    (Ok tt, with_tasks <[row_id r := r]> s)
  else (Err (ErrText "violates foreign key constraint fk_tasks_initiative"), s)).

(** [orchestratorgo/store/postgres.go:108-175] CreateTask. *)
Definition new_task_row (params : CreateTaskParams) (taskID correlationID : string)
    (now : Z) : TaskRow :=
  let metadata :=
    let m := <["entrypoint" := VStr (ctp_entrypoint params)]> (ctp_metadata params) in
    match ctp_allowed_capabilities params with
    | [] => m
    | l => <["allowed_capabilities" := VStrs l]> m
    end in
  let effectiveWorkspacePath :=
    match ctp_workspace_path params with
    | Some p =>
        if (ctp_execution_target params =?s ExecutionTargetRemote) && negb (blank p)
        then Some (path_join [p; taskID]) else Some p
    | None => None
    end in
  let rootTaskID :=
    match ctp_root params with
    | Some r => if blank r then taskID else trim_space r
    | None => taskID
    end in
  {| row_id := taskID;
     row_state := TaskStateCreated;
     row_description := ctp_description params;
     row_metadata := jsonb_map metadata;
     row_assigned_agent := Some (ctp_assigned_agent params);
     row_priority := ctp_priority params;
     row_execution_target := ctp_execution_target params;
     row_workspace_path := effectiveWorkspacePath;
     row_retry_count := 0;
     row_max_retries := 3;
     row_idempotency_key := ctp_idempotency_key params;
     row_correlation := correlationID;
     row_results := None;
     row_error_message := None;
     row_created_at := now;
     row_updated_at := now;
     row_started_at := None;
     row_completed_at := None;
     row_queued_at := None;
     row_parent := ctp_parent params;
     row_root := rootTaskID;
     row_kind := if ctp_kind params =?s "" then TaskKindRoot else ctp_kind params;
     row_initiative := nullableString (ctp_initiative params);
     row_planned_agent := nullableString (ctp_planned_agent params);
     row_archived_at := None |}.
Definition CreateTask (params : CreateTaskParams) : M Sys (option TaskResponse) :=
  taskID <- new_uuid ;;
  correlationID <- new_uuid ;;
  now <- time_now ;;
  in_tx (λ _,
    insert_task (new_task_row params taskID correlationID now) ;;;
    (if ctp_queue_on_create params
     then transitionTaskStateTx taskID TaskStateCreated TaskStateQueued
            (ctp_entrypoint params +:+ ":create")
            ("Queued for " +:+ ctp_assigned_agent params +:+ " via "
             +:+ ctp_execution_target params) now
     else ret tt) ;;;
    ret (Commit tt)) ;;;
  GetTask taskID.

(** ** State changes *)

(** [orchestratorgo/store/postgres.go:215-235] UpdateTaskState. *)
Definition UpdateTaskState (taskID : string) (targetState : TaskState)
    (actor reason : string) : M Sys unit :=
  in_tx (λ _,
    row <- query (λ s, row_state <$> get_row s taskID) ;;
    match row with
    | None => throw ErrNoRows
    | Some fromState =>
        if negb (IsValidTransition fromState targetState) then
          invalid_transition fromState targetState
        else
          now <- time_now ;;
          transitionTaskStateTx taskID fromState targetState actor reason now ;;;
          ret (Commit tt)
    end).

(** [orchestratorgo/store/postgres.go:191-193] CancelTask. *)
Definition CancelTask (taskID actor reason : string) : M Sys unit :=
  UpdateTaskState taskID TaskStateCancelled actor reason.

(** [orchestratorgo/store/postgres.go:1536-1576] finalizeTask. *)
Definition finalize_row (results : gval) (errorMessage : option string)
    (r : TaskRow) : TaskRow :=
  r <| row_results :=
         match results with VNil => row_results r | v => Some (jsonb v) end |>
    <| row_error_message := errorMessage |>.
Definition finalizeTask (taskID : string) (targetState : TaskState)
    (actor reason : string) (results : gval) (errorMessage : option string) :
    M Sys (option TaskResponse) :=
  in_tx (λ _,
    task <- GetTaskForUpdateTx taskID ;;
    match task with
    | None => errorf ("task " +:+ taskID +:+ " not found")
    | Some task =>
        if negb (IsValidTransition (task_state task) targetState) then
          invalid_transition (task_state task) targetState
        else
          exec (update_task taskID (finalize_row results errorMessage)) ;;;
          now <- time_now ;;
          transitionTaskStateTx taskID (task_state task) targetState actor reason now ;;;
          ret (Commit tt)
    end) ;;;
  GetTask taskID.

(** [orchestratorgo/store/postgres.go:886-888] CompleteTask. *)
Definition CompleteTask (taskID actor reason : string) (results : gval) :
    M Sys (option TaskResponse) :=
  finalizeTask taskID TaskStateCompleted actor reason results None.

(** [orchestratorgo/store/postgres.go:890-893] FailTask. *)
Definition FailTask (taskID actor reason errorMessage : string) (results : gval) :
    M Sys (option TaskResponse) :=
  finalizeTask taskID TaskStateFailed actor reason results (Some errorMessage).

(** ** Updates that leave the state alone *)

(** [orchestratorgo/store/postgres.go:177-189] UpdateTaskResults. *)
Definition UpdateTaskResults (taskID : string) (results : gval) : M Sys unit :=
  exec_now (λ now, update_task taskID (λ r,
    r <| row_results := Some (jsonb results) |> <| row_updated_at := now |>)).

(** [orchestratorgo/store/postgres.go:195-203] ArchiveTask. *)
Definition ArchiveTask (taskID : string) : M Sys unit :=
  exec_now (λ now, update_task taskID (λ r,
    r <| row_archived_at := Some now |> <| row_updated_at := now |>)).

(** [orchestratorgo/store/postgres.go:205-213] UnarchiveTask. *)
Definition UnarchiveTask (taskID : string) : M Sys unit :=
  exec_now (λ now, update_task taskID (λ r,
    r <| row_archived_at := None |> <| row_updated_at := now |>)).

(** [orchestratorgo/store/postgres.go:686-694] ClearWorkspacePath. *)
Definition ClearWorkspacePath (taskID : string) : M Sys unit :=
  exec_now (λ now, update_task taskID (λ r,
    r <| row_workspace_path := None |> <| row_updated_at := now |>)).

(** [orchestratorgo/store/postgres.go:1263-1278] PatchTaskMetadata. *)
Definition PatchTaskMetadata (taskID : string) (patch : gmap_any) : M Sys unit :=
  if decide (patch = ∅) then ret tt
  else exec_now (λ now, update_task taskID (λ r,
    r <| row_metadata := jsonb_map patch ∪ row_metadata r |>
      <| row_updated_at := now |>)).

(** [orchestratorgo/store/postgres.go:1280-1315] RequeueRecoverableRemoteTasks. *)
Definition is_recoverable_remote (cutoff : Z) (r : TaskRow) : bool :=
  negb (row_execution_target r =?s ExecutionTargetLocal)
  && bool_decide (row_archived_at r = None)
  && bool_decide (row_state r ∈
       [TaskStateAssigned; TaskStateInProgress; TaskStateRetrying])
  && (row_updated_at r <? cutoff).
Definition requeue_recovered (now : Z) (actor : string) (r : TaskRow) : TaskRow :=
  let checkpoint :=
    default (VMap ∅) (row_metadata r !! "recovery_checkpoint") in
  r <| row_state := TaskStateQueued |>
    <| row_retry_count := row_retry_count r + 1 |>
    <| row_error_message := None |>
    <| row_queued_at := Some now |>
    <| row_updated_at := now |>
    <| row_metadata :=
         <["recovery_checkpoint" := jsonb_concat checkpoint (VMap
            (<["last_requeue_at" := VStr (timestamptz_out now)]>
             (<["recovery_actor" := VStr actor]>
              {["recovery_stage" := VStr "requeued_after_interruption"]})))]>
         (row_metadata r) |>.
Definition RequeueRecoverableRemoteTasks (cutoff : Z) (actor : string) :
    M Sys (list string) := λ n, stmt (λ s,
  (Ok (row_id <$> filter (λ r, is_recoverable_remote cutoff r = true)
                   (rows_of (tasks (pg s)))),
   update_tasks_where (is_recoverable_remote cutoff)
     (requeue_recovered (clock n) actor) s)) n.

(** ** Approvals *)

(** [orchestratorgo/store/postgres.go:696-708] GetApproval. *)
Definition GetApproval (approvalID : string) : M Sys (option ApprovalResponse) :=
  query (λ s, approvals (pg s) !! approvalID).

Definition update_approval (id : string) (f : ApprovalResponse → ApprovalResponse) :
    Sys → Sys :=
  on_pg (λ d, d <| approvals := alter f id (approvals d) |>).

(** [orchestratorgo/store/postgres.go:710-823] ResolveApproval. *)
Definition merge_resolution (approve : bool) (metadata : gmap_any) : gmap_any :=
  if approve
  then delete "approval_requested" (<["approval_granted" := VBool true]> metadata)
  else <["approval_granted" := VBool false]> metadata.
Definition mark_resolved (status operator : string) (now : Z) (a : ApprovalResponse) :
    ApprovalResponse :=
  a <| approval_status := status |>
    <| approval_operator := Some operator |>
    <| approval_resolved_at := Some now |>.
Definition set_metadata (metadata : gmap_any) (r : TaskRow) : TaskRow :=
  r <| row_metadata := jsonb_map metadata |>.
Definition ResolveApproval (approvalID : string) (approve : bool) (operator : string) :
    M Sys (option ApprovalResponse * option TaskResponse) :=
  taskID <- in_tx (λ _,
    row <- GetApproval approvalID ;;
    match row with
    | None => throw ErrApprovalNotFound
    | Some approval =>
        if negb (approval_status approval =?s ApprovalPending) then
          throw ErrApprovalAlreadyResolved
        else
          let taskID := approval_task approval in
          task <- GetTaskForUpdateTx taskID ;;
          match task with
          | None => errorf ("task " +:+ taskID +:+ " not found for approval " +:+ approvalID)
          | Some task =>
              now <- time_now ;;
              let newApprovalStatus :=
                if approve then ApprovalApproved else ApprovalRejected in
              let targetTaskState :=
                if approve then TaskStateQueued else TaskStateCancelled in
              let actor := "operator:" +:+ operator in
              let reason := if approve then "Approval granted" else "approval_rejected" in
              exec (update_approval approvalID
                (mark_resolved newApprovalStatus operator now)) ;;;
              exec (update_task taskID
                (set_metadata (merge_resolution approve (task_metadata task)))) ;;;
              if negb (IsValidTransition (task_state task) targetTaskState) then
                invalid_transition (task_state task) targetTaskState
              else
                transitionTaskStateTx taskID (task_state task) targetTaskState
                  actor reason now ;;;
                ret (Commit taskID)
          end
    end) ;;
  updatedApproval <- GetApproval approvalID ;;
  updatedTask <- GetTask taskID ;;
  ret (updatedApproval, updatedTask).

(** The column [timeout_seconds] is a 32-bit integer. *)
Definition fits_int4 (z : Z) : bool := (-2147483648 <=? z) && (z <=? 2147483647).
Definition insert_approval (a : ApprovalResponse) : M Sys unit := stmt (λ s,
  if decide (is_Some (approvals (pg s) !! approval_id a)) then
    (Err (ErrUniqueViolation "approvals_pkey"), s)
  else if negb (fits_int4 (approval_timeout_seconds a)) then
    (Err (ErrText "integer out of range"), s)
  else if decide (is_Some (get_row s (approval_task a))) then
    (Ok tt, on_pg (λ d, d <| approvals := <[approval_id a := a]> (approvals d) |>) s)
  else (Err (ErrText "violates foreign key constraint approvals_task_id_fkey"), s)).

(** [orchestratorgo/store/postgres.go:825-884] RequestApproval. *)
Definition RequestApproval (taskID actionType targetResource : string)
    (timeoutSeconds : Z) (actor reason : string) (metadataPatch : gmap_any) :
    M Sys (option ApprovalResponse) :=
  approvalID <- in_tx (λ _,
    task <- GetTaskForUpdateTx taskID ;;
    match task with
    | None => errorf ("task " +:+ taskID +:+ " not found")
    | Some task =>
        if negb (IsValidTransition (task_state task) TaskStateWaitingApproval) then
          invalid_transition (task_state task) TaskStateWaitingApproval
        else
          let mergedMetadata := metadataPatch ∪ task_metadata task in
          now <- time_now ;;
          let timeoutAt := now + wrap64 (timeoutSeconds * second) in
          approvalID <- new_uuid ;;
          insert_approval (MkApproval approvalID taskID actionType targetResource
            ApprovalPending None timeoutSeconds 1 now None timeoutAt) ;;;
          exec (update_task taskID (set_metadata mergedMetadata)) ;;;
          transitionTaskStateTx taskID (task_state task) TaskStateWaitingApproval
            actor reason now ;;;
          ret (Commit approvalID)
    end) ;;
  GetApproval approvalID.

(** ** Listing *)

(** [orchestratorgo/domain/types.go:260-263] CursorPayload: what a cursor's text
    encodes (base64 of its JSON, see [Cursor]). *)
Definition CursorPayload : Type := Z * string.

(** [orchestratorgo/store/postgres.go:1490-1504] TaskListFilter, its cursor
    decoded. *)
Record TaskListFilter := MkFilter {
  filter_state : string;
  filter_agent : string;
  filter_priority : string;
  filter_execution_target : string;
  filter_initiative : string;
  filter_include_archived : bool;
  filter_only_archived : bool;
  filter_parent : string;
  filter_root : string;
  filter_date_from : option Z;
  filter_date_to : option Z;
  filter_cursor : option CursorPayload;
  filter_limit : Z;
}.
#[export] Instance eta_filter : Eta TaskListFilter := λ f,
  MkFilter (filter_state f) (filter_agent f) (filter_priority f)
    (filter_execution_target f) (filter_initiative f) (filter_include_archived f)
    (filter_only_archived f) (filter_parent f) (filter_root f) (filter_date_from f)
    (filter_date_to f) (filter_cursor f) (filter_limit f).

(** [orchestratorgo/store/postgres.go:237-324] ListTasks. *)
Definition clause (value : string) (test : bool) : bool := (value =?s "") || test.
Definition matches_filter (f : TaskListFilter) (r : TaskRow) : bool :=
  clause (filter_state f) (state_text (row_state r) =?s filter_state f)
  && clause (filter_agent f) (bool_decide (row_assigned_agent r = Some (filter_agent f)))
  && clause (filter_priority f) (row_priority r =?s filter_priority f)
  && clause (filter_execution_target f)
       (row_execution_target r =?s filter_execution_target f)
  && (blank (filter_initiative f)
      || bool_decide (row_initiative r = Some (filter_initiative f)))
  && (if filter_only_archived f then bool_decide (is_Some (row_archived_at r))
      else filter_include_archived f || bool_decide (row_archived_at r = None))
  && clause (filter_parent f) (bool_decide (row_parent r = Some (filter_parent f)))
  && clause (filter_root f) (row_root r =?s filter_root f)
  && match filter_date_from f with Some t => t <=? row_created_at r | None => true end
  && match filter_date_to f with Some t => row_created_at r <=? t | None => true end.
Definition after_cursor (c : option CursorPayload) (r : TaskRow) : bool :=
  match c with
  | None => true
  | Some (t, id) =>
      (row_created_at r <? t)
      || ((row_created_at r =? t) && String.ltb (row_id r) id)
  end.
Definition page_limit (limit : Z) : Z :=
  let limit := if limit <=? 0 then 20 else limit in
  if 100 <? limit then 100 else limit.
Definition list_page (f : TaskListFilter) (rows : list TaskRow) :
    list TaskRow * option CursorPayload :=
  let limit := Z.to_nat (page_limit (filter_limit f)) in
  let items := take (S limit)
    (select (λ r, matches_filter f r && after_cursor (filter_cursor f) r)
      newest_first rows) in
  if decide (limit < length items)%nat then
    let items := take limit items in
    (items, (λ r, (row_created_at r, row_id r)) <$> last items)
  else (items, None).
Definition ListTasks (f : TaskListFilter) :
    M Sys (list TaskResponse * option CursorPayload) := stmt (λ s,
  if negb (filter_state f =?s "")
     && bool_decide (recognized_state (filter_state f) = None) then
    (Err (ErrText "invalid input value for enum taskstate"), s)
  else
    let '(items, cursor) := list_page f (rows_of (tasks (pg s))) in
    (Ok (scanTask <$> items, cursor), s)).

End Store.

(** ** What one transition does *)

Section Transitions.
Context `{Env}.

Definition transition_effect (taskID : string) (to : TaskState) (now : Z)
    (t : Transition) (s : Sys) : Sys :=
  insert_transition t (update_task taskID (apply_transition to now) s).

Lemma transition_ok taskID from to actor reason now n s u n' s' :
  transitionTaskStateTx taskID from to actor reason now n s = (Ok u, (n', s')) →
  ∃ id, s' = transition_effect taskID to now
               (MkTransition id taskID from to actor reason now) s.
Proof.
  unfold transitionTaskStateTx. intros Hr. run_inv.
  by eexists.
Qed.

Lemma get_row_transition_eq taskID to now t s :
  get_row (transition_effect taskID to now t s) taskID
  = apply_transition to now <$> get_row s taskID.
Proof. unfold transition_effect. by autorewrite with lab_simpl. Qed.
Lemma get_row_transition_ne taskID id to now t s :
  taskID ≠ id →
  get_row (transition_effect taskID to now t s) id = get_row s id.
Proof. intros Hne. unfold transition_effect. rewrite get_row_insert_transition.
  by apply get_row_update_ne. Qed.
Lemma log_transition taskID to now t s :
  state_transitions (pg (transition_effect taskID to now t s))
  = state_transitions (pg s) ++ [t].
Proof. done. Qed.
End Transitions.
#[export] Hint Rewrite @get_row_transition_eq @log_transition : lab_simpl.

(** Replace a run of [transitionTaskStateTx] by its effect. *)
Ltac transition_inv :=
  match goal with
  | Ht : transitionTaskStateTx _ _ _ _ _ _ _ _ = (Ok _, _) |- _ =>
      apply transition_ok in Ht as [? ->]
  end.

(** ** State changes are all or nothing, and logged *)

Section Correctness.
Context `{Env}.

Lemma UpdateTaskState_ok taskID to actor reason n s u n' s' :
  UpdateTaskState taskID to actor reason n s = (Ok u, (n', s')) →
  ∃ row now id,
    get_row s taskID = Some row ∧ IsValidTransition (row_state row) to = true ∧
    s' = transition_effect taskID to now
           (MkTransition id taskID (row_state row) to actor reason now) s.
Proof.
  unfold UpdateTaskState. intros (n1 & s1 & [[Hr ->]|[Hr ->]])%in_tx_ok; run_inv.
  all: destruct (get_row s taskID) as [row|] eqn:Hrow; cbn in *; [|run_inv].
  all: destruct (IsValidTransition (row_state row) to) eqn:Hv; cbn in *;
    [|unfold invalid_transition in *; run_inv].
  all: run_inv; transition_inv; eauto 10.
Qed.

(** The transaction inside [finalizeTask]. *)
Lemma finalizeTask_run taskID to actor reason results msg n s r n' s' :
  finalizeTask taskID to actor reason results msg n s = (r, (n', s')) →
  (s' = s ∧ ∃ e, r = Err e) ∨
  ∃ row now id,
    get_row s taskID = Some row ∧ IsValidTransition (row_state row) to = true ∧
    s' = transition_effect taskID to now
           (MkTransition id taskID (row_state row) to actor reason now)
           (update_task taskID (finalize_row results msg) s).
Proof.
  unfold finalizeTask.
  intros [(e & Hrun & ->)|(u & n1 & s1 & Hrun & Hget)]%bind_inv.
  { apply in_tx_err in Hrun as ->. eauto. }
  right. apply query_state in Hget as ->.
  apply in_tx_ok in Hrun as (n2 & s2 & [[Hr ->]|[Hr ->]]); run_inv.
  all: unfold GetTaskForUpdateTx, GetTask in *; run_inv.
  all: destruct (get_row s taskID) as [row|] eqn:Hrow; cbn in *; [|run_inv].
  all: destruct (IsValidTransition (row_state row) to) eqn:Hv; cbn in *;
    [|unfold invalid_transition in *; run_inv].
  all: run_inv; transition_inv; eauto 10.
Qed.

Definition resolution (approve : bool) : TaskState * string * string :=
  if approve then (TaskStateQueued, ApprovalApproved, "Approval granted")
  else (TaskStateCancelled, ApprovalRejected, "approval_rejected").

(** The transaction inside [ResolveApproval]. *)
Lemma ResolveApproval_run approvalID approve operator n s r n' s' :
  ResolveApproval approvalID approve operator n s = (r, (n', s')) →
  (s' = s ∧ ∃ e, r = Err e) ∨
  ∃ a row now id, let '(target, status, reason) := resolution approve in
    approvals (pg s) !! approvalID = Some a ∧
    approval_status a = ApprovalPending ∧
    get_row s (approval_task a) = Some row ∧
    IsValidTransition (row_state row) target = true ∧
    s' = transition_effect (approval_task a) target now
           (MkTransition id (approval_task a) (row_state row) target
              ("operator:" +:+ operator) reason now)
           (update_task (approval_task a)
              (set_metadata (merge_resolution approve (row_metadata row)))
           (update_approval approvalID (mark_resolved status operator now) s)) ∧
    ∀ o, r = Ok o →
      o = (approvals (pg s') !! approvalID, scanTask <$> get_row s' (approval_task a)).
Proof.
  unfold ResolveApproval.
  intros [(e & Hrun & ->)|(tid & n1 & s1 & Hrun & Hget)]%bind_inv.
  { apply in_tx_err in Hrun as ->. eauto. }
  right. assert (s' = s1 ∧ ∀ o, r = Ok o →
    o = (approvals (pg s1) !! approvalID, scanTask <$> get_row s1 tid)) as [-> Hread].
  { apply bind_inv in Hget as [(e & Hget & ->)|(? & ? & ? & Hget & Hget2)];
      [apply query_state in Hget as ->; by split|apply query_ok in Hget as (-> & -> & ->)].
    apply bind_inv in Hget2 as [(e & Hget & ->)|(? & ? & ? & Hget & Hret)];
      [apply query_state in Hget as ->; by split|apply query_ok in Hget as (-> & -> & ->)].
    unfold ret in Hret. simplify_eq. split; [done|]. by intros o [= <-]. }
  clear Hget. apply in_tx_ok in Hrun as (n2 & s2 & [[Hr ->]|[Hr ->]]).
  all: unfold GetTaskForUpdateTx, GetTask, GetApproval in *; run_inv.
  all: destruct (approvals (pg s) !! approvalID) as [a|] eqn:Ha; cbn in *; [|run_inv].
  all: destruct (String.eqb_spec (approval_status a) ApprovalPending) as [Hp|Hp];
    cbn in *; [|run_inv].
  all: run_inv.
  all: destruct (get_row s (approval_task a)) as [row|] eqn:Hrow; cbn in *; [|run_inv].
  all: run_inv; destruct (IsValidTransition _ _) eqn:Hv in *; cbn in *;
    [|unfold invalid_transition in *; run_inv].
  all: run_inv; transition_inv.
  exists a, row. do 2 eexists. unfold resolution.
  destruct approve; split_and!; try done; exact Hread.
Qed.

(** The transaction inside [RequestApproval]. *)
Lemma RequestApproval_run taskID actionType target timeout actor reason patch n s r n' s' :
  RequestApproval taskID actionType target timeout actor reason patch n s
    = (r, (n', s')) →
  (s' = s ∧ ∃ e, r = Err e) ∨
  ∃ row now aid id,
    get_row s taskID = Some row ∧
    IsValidTransition (row_state row) TaskStateWaitingApproval = true ∧
    approvals (pg s) !! aid = None ∧
    s' = transition_effect taskID TaskStateWaitingApproval now
           (MkTransition id taskID (row_state row) TaskStateWaitingApproval
              actor reason now)
           (update_task taskID (set_metadata (patch ∪ row_metadata row))
           (on_pg (λ d, d <| approvals := <[aid :=
              MkApproval aid taskID actionType target ApprovalPending None timeout 1
                now None (now + wrap64 (timeout * second))]> (approvals d) |>) s)).
Proof.
  unfold RequestApproval.
  intros [(e & Hrun & ->)|(aid & n1 & s1 & Hrun & Hget)]%bind_inv.
  { apply in_tx_err in Hrun as ->. eauto. }
  right. apply query_state in Hget as ->.
  apply in_tx_ok in Hrun as (n2 & s2 & [[Hr ->]|[Hr ->]]).
  all: unfold GetTaskForUpdateTx, GetTask in *; run_inv.
  all: destruct (get_row s taskID) as [row|] eqn:Hrow; cbn -[approvals] in *; [|run_inv].
  all: destruct (IsValidTransition _ _) eqn:Hv in *; cbn in *;
    [|unfold invalid_transition in *; run_inv].
  all: run_inv; transition_inv.
  match goal with Hi : insert_approval _ _ _ = _ |- _ =>
    apply stmt_inv in Hi as [-> [(?&?&?&?)|[_ Hi]]]; [done|] end.
  case_decide as Hfresh; simplify_eq. destruct (fits_int4 _); simplify_eq/=.
  case_decide; simplify_eq. apply eq_None_not_Some in Hfresh.
  eexists row, _, _, _. split_and!; done.
Qed.

(** The transaction inside [CreateTask]. *)
Definition creation (params : CreateTaskParams) (taskID cid : string) (now : Z)
    (id : string) (s : Sys) : Sys :=
  let s1 := with_tasks <[taskID := new_task_row params taskID cid now]> s in
  if ctp_queue_on_create params
  then transition_effect taskID TaskStateQueued now
         (MkTransition id taskID TaskStateCreated TaskStateQueued
            (ctp_entrypoint params +:+ ":create")
            ("Queued for " +:+ ctp_assigned_agent params +:+ " via "
             +:+ ctp_execution_target params) now) s1
  else s1.
Lemma CreateTask_run params n s r n' s' :
  CreateTask params n s = (r, (n', s')) →
  (s' = s ∧ ∃ e, r = Err e) ∨
  ∃ id, let taskID := uuid n in
    get_row s taskID = None ∧
    initiative_exists s (nullableString (ctp_initiative params)) = true ∧
    s' = creation params taskID (uuid (N.succ n)) (clock (N.succ (N.succ n))) id s ∧
    ((∃ e, r = Err e) ∨ r = Ok (scanTask <$> get_row s' taskID)).
Proof.
  unfold CreateTask. intros Hrun. do 3 (apply bind_inv in Hrun as
    [(? & Hd & ?)|(? & ? & ? & Hd & Hrun)]; unfold new_uuid, time_now in Hd;
    simplify_eq).
  apply bind_inv in Hrun as [(e & Hrun & ->)|(? & n1 & s1 & Hrun & Hget)].
  { apply in_tx_err in Hrun as ->. eauto. }
  right. assert (s' = s1 ∧ ((∃ e, r = Err e) ∨ r = Ok (scanTask <$> get_row s1 (uuid n))))
    as [-> Hres].
  { unfold GetTask in Hget. destruct r.
    - apply query_ok in Hget as (-> & -> & ->). eauto.
    - apply query_state in Hget as ->. eauto. }
  clear Hget. apply in_tx_ok in Hrun as (n2 & s2 & [[Hr ->]|[Hr ->]]); run_inv.
  all: match goal with Hi : insert_task _ _ _ = _ |- _ =>
    apply stmt_inv in Hi as [-> [(?&?&?&?)|[_ Hi]]]; [done|] end.
  all: case_decide as Hfresh; simplify_eq; apply eq_None_not_Some in Hfresh.
  all: destruct (initiative_exists _ _) eqn:Hfk; simplify_eq/=.
  unfold creation. destruct (ctp_queue_on_create params); run_inv;
    [transition_inv; eexists|exists ""]; split_and!; done.
Qed.

(** C2: UpdateTaskState moves the task along one edge of [validTransitions],
    stamps it, appends exactly that edge to the transition log and leaves
    every other task alone; when it returns an error (an unknown task, an edge
    the table does not have, or any statement or the commit failing) nothing
    has changed. *)
Theorem UpdateTaskState_spec taskID to actor reason n s :
  match UpdateTaskState taskID to actor reason n s with
  | (Ok _, (_, s')) =>
      ∃ row now id,
        get_row s taskID = Some row ∧
        IsValidTransition (row_state row) to = true ∧
        get_row s' taskID = Some (apply_transition to now row) ∧
        (∀ other, other ≠ taskID → get_row s' other = get_row s other) ∧
        state_transitions (pg s') = state_transitions (pg s)
          ++ [MkTransition id taskID (row_state row) to actor reason now]
  | (Err _, (_, s')) => s' = s
  end.
Proof.
  destruct (UpdateTaskState _ _ _ _ n s) as [[u|e] [n' s']] eqn:Hrun.
  - apply UpdateTaskState_ok in Hrun as (row & now & id & Hrow & Hv & ->).
    exists row, now, id. autorewrite with lab_simpl. rewrite Hrow.
    split_and!; try done. intros. by apply get_row_transition_ne.
  - by eapply in_tx_err.
Qed.
End Correctness.

(** ** How the system may evolve

    The contract every operation of the control plane keeps, whatever fails in
    the middle: tasks are never lost, their identity never changes, their state
    moves along [lifecycle_edge]s from [created], the transition log only grows, a
    resolved approval is final, and what is logged or asked is about a task there is. *)

(** The edges of [validTransitions], the two unlogged recovery requeues and the
    relaunch of a stopped task. *)
Inductive lifecycle_edge : TaskState → TaskState → Prop :=
  | edge_valid s t : IsValidTransition s t = true → lifecycle_edge s t
  | edge_requeue s :
      s ∈ [TaskStateAssigned; TaskStateInProgress; TaskStateRetrying] →
      lifecycle_edge s TaskStateQueued
  | edge_relaunch s :
      s ∈ [TaskStateCreated; TaskStateFailed; TaskStateCancelled] →
      lifecycle_edge s TaskStateQueued.

Definition identity (r : TaskRow) :=
  (row_id r, row_description r, row_priority r, row_assigned_agent r,
   (row_correlation r, row_created_at r, row_parent r, row_root r, row_kind r),
   (row_initiative r, row_planned_agent r, row_idempotency_key r)).

Record row_evolves (r r' : TaskRow) : Prop := {
  re_identity : identity r' = identity r;
  re_state : rtc lifecycle_edge (row_state r) (row_state r');
}.

Record evolves (s s' : Sys) : Prop := {
  ev_tasks : ∀ id r, get_row s id = Some r →
    ∃ r', get_row s' id = Some r' ∧ row_evolves r r';
  ev_new : ∀ id r', get_row s' id = Some r' → get_row s id = None →
    row_id r' = id ∧ rtc lifecycle_edge TaskStateCreated (row_state r');
  ev_log : ∃ new, state_transitions (pg s') = state_transitions (pg s) ++ new ∧
    Forall (λ t, is_Some (get_row s' (tr_task t))) new;
  ev_approvals : ∀ id a, approvals (pg s) !! id = Some a →
    ∃ a', approvals (pg s') !! id = Some a' ∧ approval_id a' = approval_id a ∧
      approval_task a' = approval_task a ∧ (approval_status a ≠ ApprovalPending → a' = a);
  ev_asked : ∀ id a', approvals (pg s') !! id = Some a' → approvals (pg s) !! id = None →
    approval_id a' = id ∧ is_Some (get_row s' (approval_task a'));
}.

#[export] Instance row_evolves_preorder : PreOrder row_evolves.
Proof.
  split.
  - intros r. split; [done|apply rtc_refl].
  - intros r1 r2 r3 [Hi Hs] [Hi' Hs']. split; [congruence|by etrans].
Qed.

Lemma row_evolves_refl r : row_evolves r r.
Proof. done. Qed.

#[export] Instance evolves_preorder : PreOrder evolves.
Proof.
  split.
  - intros s. split; [intros id r Hr; by exists r|congruence| |eauto 10|congruence].
    exists []. by rewrite app_nil_r.
  - intros s1 s2 s3 [Ht Hn (l & Hl & Hlt) Ha Hq] [Ht' Hn' (l' & Hl' & Hlt') Ha' Hq'].
    assert (Hkept : ∀ id, is_Some (get_row s2 id) → is_Some (get_row s3 id)).
    { intros id [r Hr]. destruct (Ht' _ _ Hr) as (r' & ? & _). by exists r'. }
    split.
    + intros id r Hr. destruct (Ht _ _ Hr) as (r' & Hr' & He).
      destruct (Ht' _ _ Hr') as (r'' & ? & ?). exists r''. split; [done|by etrans].
    + intros id r'' Hr'' Hnone. destruct (get_row s2 id) as [r'|] eqn:Hr'; [|by eapply Hn'].
      destruct (Ht' _ _ Hr') as (? & Hr3 & [Hid Hst]). unfold identity in Hid.
      simplify_eq. destruct (Hn _ _ Hr' Hnone) as [Hid' Hst'].
      split; [congruence|by etrans].
    + exists (l ++ l'). split; [by rewrite Hl', Hl, app_assoc|].
      apply Forall_app. split; [|done]. eapply Forall_impl; [exact Hlt|eauto].
    + intros id a Hid. destruct (Ha _ _ Hid) as (a' & Hid' & Ei & Et & Hp).
      destruct (Ha' _ _ Hid') as (a'' & ? & Ei' & Et' & Hp'). exists a''.
      split_and!; [done|congruence|congruence|]. intros Hnp.
      specialize (Hp Hnp) as ->. by apply Hp'.
    + intros id a'' Hid'' Hnone. destruct (approvals (pg s2) !! id) as [a'|] eqn:Hid';
        [|by eapply Hq'].
      destruct (Hq _ _ Hid' Hnone) as [<- Hrow].
      destruct (Ha' _ _ Hid') as (b & Hb & Ei & Et & _).
      rewrite Hb in Hid''. injection Hid'' as <-. split; [done|]. rewrite Et. auto.
Qed.

(** The tasks of a state that differs elsewhere. *)
Ltac same_tasks :=
  solve [intros ? ? ?; eauto using row_evolves_refl
        |intros ? ? ?; unfold get_row in *; cbn in *; congruence].

(** Statements that touch only the tasks, and keep the set of their keys. *)
Lemma evolves_with_tasks f s :
  (∀ id r, get_row s id = Some r →
    ∃ r', f (tasks (pg s)) !! id = Some r' ∧ row_evolves r r') →
  (∀ id r', f (tasks (pg s)) !! id = Some r' → get_row s id = None →
    row_id r' = id ∧ rtc lifecycle_edge TaskStateCreated (row_state r')) →
  evolves s (with_tasks f s).
Proof.
  intros Hf Hn. split; [done|done|exists []; by rewrite app_nil_r|eauto 10|].
  cbn. congruence.
Qed.

Lemma evolves_update_task id f s :
  (∀ r, get_row s id = Some r → row_evolves r (f r)) → evolves s (update_task id f s).
Proof.
  intros Hf. apply evolves_with_tasks; intros id' r Hr; destruct (decide (id = id')) as [<-|Hne].
  - rewrite lookup_alter_eq. unfold get_row in Hr. rewrite Hr. eauto.
  - rewrite lookup_alter_ne by done. exists r. by split.
  - intros Hnone. unfold get_row in Hnone. by rewrite lookup_alter_eq, Hnone in Hr.
  - intros Hnone. unfold get_row in Hnone. by rewrite lookup_alter_ne, Hnone in Hr.
Qed.

Lemma evolves_update_where p f s :
  (∀ r, p r = true → row_evolves r (f r)) → evolves s (update_tasks_where p f s).
Proof.
  intros Hf. apply evolves_with_tasks; intros id r Hr; unfold get_row in *;
    rewrite lookup_fmap in *.
  - rewrite Hr. eexists. split; [done|]. destruct (p r) eqn:E; [by apply Hf|done].
  - intros Hnone. by rewrite Hnone in Hr.
Qed.

Lemma evolves_insert_transition t s :
  is_Some (get_row s (tr_task t)) → evolves s (insert_transition t s).
Proof.
  intros Ht. split; [same_tasks..| |eauto 10|cbn; congruence].
  exists [t]. split; [done|]. by repeat constructor.
Qed.

Lemma evolves_insert_task id r s :
  get_row s id = None → row_id r = id → row_state r = TaskStateCreated →
  evolves s (with_tasks <[id := r]> s).
Proof.
  intros Hfresh Hid Hst. apply evolves_with_tasks; intros id' r' Hr.
  - exists r'. split; [|done]. unfold get_row in *. rewrite lookup_insert_ne; congruence.
  - intros Hnone. destruct (decide (id = id')) as [<-|Hne].
    + rewrite lookup_insert_eq in Hr. injection Hr as <-. by rewrite Hst.
    + rewrite lookup_insert_ne in Hr by done. unfold get_row in Hnone. congruence.
Qed.

Lemma evolves_other_tables f s :
  tasks (f (pg s)) = tasks (pg s) → approvals (f (pg s)) = approvals (pg s) →
  state_transitions (f (pg s)) = state_transitions (pg s) → evolves s (on_pg f s).
Proof.
  intros Ht Ha Hl. split; unfold get_row; cbn.
  - intros id r Hr. exists r. by rewrite Ht.
  - rewrite Ht. congruence.
  - exists []. by rewrite app_nil_r.
  - rewrite Ha. eauto 10.
  - rewrite Ha. congruence.
Qed.

Lemma evolves_approvals f s :
  (∀ id a, approvals (pg s) !! id = Some a →
    ∃ a', f (approvals (pg s)) !! id = Some a' ∧ approval_id a' = approval_id a ∧
      approval_task a' = approval_task a ∧ (approval_status a ≠ ApprovalPending → a' = a)) →
  (∀ id a', f (approvals (pg s)) !! id = Some a' → approvals (pg s) !! id = None →
    approval_id a' = id ∧ is_Some (get_row s (approval_task a'))) →
  evolves s (on_pg (λ d, d <| approvals := f (approvals d) |>) s).
Proof.
  intros Hf Hn. split; [same_tasks..|by exists []; rewrite app_nil_r|done|done].
Qed.

(** Rows are stored under their own id. *)
Definition keyed (s : Sys) : Prop := ∀ id r, get_row s id = Some r → row_id r = id.

Lemma evolves_keyed s s' : evolves s s' → keyed s → keyed s'.
Proof.
  intros He Hk id r' Hr'. destruct (get_row s id) as [r|] eqn:Hr.
  - destruct (ev_tasks _ _ He _ _ Hr) as (? & ? & [Hid _]). simplify_eq.
    unfold identity in Hid. simplify_eq. pose proof (Hk _ _ Hr). congruence.
  - by eapply (ev_new _ _ He).
Qed.

(** The contract from a well-keyed state. *)
Definition keeps (s s' : Sys) : Prop := keyed s → evolves s s'.
#[export] Instance keeps_preorder : PreOrder keeps.
Proof.
  split; [by intros s ?|]. intros s1 s2 s3 H12 H23 Hk.
  pose proof (H12 Hk) as He. etrans; [exact He|]. by apply H23, (evolves_keyed s1).
Qed.
Lemma respects_keeps {A} (m : M Sys A) : respects evolves m → respects keeps m.
Proof. intros Hm n s r n' s' Hrun _. by eapply Hm. Qed.
#[export] Hint Resolve respects_keeps | 5 : respects.

(** An update of the task columns outside the state machine. *)
Lemma row_evolves_same r r' :
  identity r' = identity r → row_state r' = row_state r → row_evolves r r'.
Proof. intros Hi Hs. split; [done|]. rewrite Hs. apply rtc_refl. Qed.

Lemma row_evolves_transition to now r :
  lifecycle_edge (row_state r) to → row_evolves r (apply_transition to now r).
Proof. intros He. split; [done|]. by apply rtc_once. Qed.

Lemma evolves_transition id to now tid from to' actor reason now' s r :
  get_row s id = Some r → lifecycle_edge (row_state r) to →
  evolves s (transition_effect id to now (MkTransition tid id from to' actor reason now') s).
Proof.
  intros Hr He. unfold transition_effect.
  etrans; [|apply evolves_insert_transition; cbn [tr_task];
              rewrite get_row_update_eq, Hr; by eexists].
  apply evolves_update_task. intros r' Hr'. simplify_eq.
  by apply row_evolves_transition.
Qed.

#[export] Hint Resolve row_evolves_same edge_valid : lab.
#[export] Hint Extern 1 (identity _ = identity _) => reflexivity : lab.

(** ** Every operation of the task store keeps the contract *)

Section Evolution.
Context `{Env}.

Lemma exec_now_update_evolves id (f : Z → TaskRow → TaskRow) :
  (∀ t r, row_evolves r (f t r)) →
  respects evolves (exec_now (λ now, update_task id (f now))).
Proof.
  intros Hf. apply respects_exec_now; [apply _|]. intros t s. apply evolves_update_task. auto.
Qed.

Lemma UpdateTaskState_evolves id to actor reason :
  respects evolves (UpdateTaskState id to actor reason).
Proof.
  intros n s [u|e] n' s' Hrun.
  - apply UpdateTaskState_ok in Hrun as (row & now & tid & Hrow & Hv & ->).
    eapply evolves_transition; eauto with lab.
  - by apply in_tx_err in Hrun as ->.
Qed.

Lemma finalizeTask_evolves id to actor reason results msg :
  respects evolves (finalizeTask id to actor reason results msg).
Proof.
  intros n s r n' s' [[-> _]|(row & now & tid & Hrow & Hv & ->)]%finalizeTask_run;
    [done|].
  etrans; [apply (evolves_update_task id (finalize_row results msg)); eauto with lab|].
  eapply evolves_transition; [by rewrite get_row_update_eq, Hrow|].
  by apply edge_valid.
Qed.

Lemma set_metadata_evolves m r : row_evolves r (set_metadata m r).
Proof. auto with lab. Qed.

Lemma ResolveApproval_evolves id approve operator :
  respects evolves (ResolveApproval id approve operator).
Proof.
  intros n s r n' s' [[-> _]|(a & row & now & tid & Hres)]%ResolveApproval_run; [done|].
  destruct (resolution approve) as [[to status] reason].
  destruct Hres as (Ha & Hp & Hrow & Hv & -> & _).
  etrans; [|eapply evolves_transition; [|apply edge_valid]].
  - etrans; [|apply evolves_update_task; intros; apply set_metadata_evolves].
    apply evolves_approvals.
    + intros i b Hb. destruct (decide (i = id)) as [->|Hne].
      * rewrite lookup_alter_eq, Hb. eexists. split_and!; [done..|].
        intros Hn. by simplify_eq.
      * rewrite lookup_alter_ne by done. eauto 10.
    + intros i b Hb Hnone. exfalso. destruct (decide (i = id)) as [->|Hne]; [congruence|].
      rewrite lookup_alter_ne in Hb by done. congruence.
  - rewrite get_row_update_eq. unfold get_row, update_approval in *. cbn. by rewrite Hrow.
  - done.
Qed.

Lemma RequestApproval_evolves id at_ tr timeout actor reason patch :
  respects evolves (RequestApproval id at_ tr timeout actor reason patch).
Proof.
  intros n s r n' s'
    [[-> _]|(row & now & aid & tid & Hrow & Hv & Hfresh & ->)]%RequestApproval_run; [done|].
  etrans; [|eapply evolves_transition; [|apply edge_valid]].
  - etrans; [|apply evolves_update_task; intros; apply set_metadata_evolves].
    apply evolves_approvals.
    + intros i b Hb. rewrite lookup_insert_ne by congruence. eauto 10.
    + intros i b Hb Hnone. destruct (decide (i = aid)) as [->|Hne].
      * rewrite lookup_insert_eq in Hb. injection Hb as <-. cbn. by split; [|eexists].
      * rewrite lookup_insert_ne in Hb by done. congruence.
  - rewrite get_row_update_eq. unfold get_row in *. cbn. by rewrite Hrow.
  - done.
Qed.

Lemma CreateTask_evolves params : respects evolves (CreateTask params).
Proof.
  intros n s r n' s' [[-> _]|(id & Hfresh & _ & -> & _)]%CreateTask_run; [done|].
  etrans; [by apply (evolves_insert_task (uuid n)
    (new_task_row params (uuid n) (uuid (N.succ n)) (clock (N.succ (N.succ n)))))|].
  unfold creation.
  destruct (ctp_queue_on_create params); [|done].
  eapply evolves_transition; [apply lookup_insert_eq|]. by apply edge_valid.
Qed.

Lemma RequeueRecoverableRemoteTasks_evolves cutoff actor :
  respects evolves (RequeueRecoverableRemoteTasks cutoff actor).
Proof.
  intros n. apply respects_stmt; [apply _|]. intros s. cbn. apply evolves_update_where.
  intros r Hr. split; [done|]. apply rtc_once, edge_requeue.
  unfold is_recoverable_remote in Hr. bool_to_prop.
  destruct Hr as [[_ Hr] _]. by apply bool_decide_eq_true in Hr.
Qed.
End Evolution.

#[export] Hint Resolve UpdateTaskState_evolves finalizeTask_evolves
  ResolveApproval_evolves RequestApproval_evolves CreateTask_evolves
  RequeueRecoverableRemoteTasks_evolves : respects.

Section Quiet.
Context `{Env}.

Lemma CancelTask_evolves id actor reason : respects evolves (CancelTask id actor reason).
Proof. apply UpdateTaskState_evolves. Qed.
Lemma CompleteTask_evolves id actor reason results :
  respects evolves (CompleteTask id actor reason results).
Proof. apply finalizeTask_evolves. Qed.
Lemma FailTask_evolves id actor reason msg results :
  respects evolves (FailTask id actor reason msg results).
Proof. apply finalizeTask_evolves. Qed.
Lemma UpdateTaskResults_evolves id results :
  respects evolves (UpdateTaskResults id results).
Proof. apply (exec_now_update_evolves id). auto with lab. Qed.
Lemma ArchiveTask_evolves id : respects evolves (ArchiveTask id).
Proof. apply (exec_now_update_evolves id). auto with lab. Qed.
Lemma UnarchiveTask_evolves id : respects evolves (UnarchiveTask id).
Proof. apply (exec_now_update_evolves id). auto with lab. Qed.
Lemma ClearWorkspacePath_evolves id : respects evolves (ClearWorkspacePath id).
Proof. apply (exec_now_update_evolves id). auto with lab. Qed.
Lemma PatchTaskMetadata_evolves id patch : respects evolves (PatchTaskMetadata id patch).
Proof.
  unfold PatchTaskMetadata. case_decide; [auto with respects|].
  apply (exec_now_update_evolves id (λ now r, _)). auto with lab.
Qed.
End Quiet.

#[export] Hint Resolve CancelTask_evolves CompleteTask_evolves FailTask_evolves
  UpdateTaskResults_evolves ArchiveTask_evolves UnarchiveTask_evolves
  ClearWorkspacePath_evolves PatchTaskMetadata_evolves : respects.

(** Completed is final for everything that keeps the contract. *)
Lemma completed_no_edge t : ¬ lifecycle_edge TaskStateCompleted t.
Proof.
  intros He. remember TaskStateCompleted as c eqn:E.
  destruct He as [? t Hv|? Hin|? Hin]; subst; [by destruct t|..];
    by apply (bool_decide_pack _) in Hin.
Qed.

Lemma evolves_completed s s' id r :
  evolves s s' → get_row s id = Some r → row_state r = TaskStateCompleted →
  ∃ r', get_row s' id = Some r' ∧ row_state r' = TaskStateCompleted.
Proof.
  intros He Hr Hc. destruct (ev_tasks _ _ He _ _ Hr) as (r' & Hr' & [_ Hrtc]).
  exists r'. split; [done|]. rewrite Hc in Hrtc.
  inversion Hrtc as [|? x ? Hedge]; [done|]. by apply completed_no_edge in Hedge.
Qed.

(** A run on the empty database: create a task, work it, ask for an approval,
    approve it, finish it; a call that fails does not stop the run. *)
Section Demo.
Context `{Env}.

Definition demo_params : CreateTaskParams :=
  MkCreateTask "fix the build" ∅ ["git"] "normal" "coder" None "remote" None "api"
    (Some "/srv/lab") None None None "" true.
Definition demo_pickup : M Sys unit :=
  UpdateTaskState "id-0" TaskStateAssigned "worker:w1" "dequeued".
Definition demo_calls : list (M Sys unit) :=
  [CreateTask demo_params ;;; ret tt;
   demo_pickup;
   UpdateTaskState "id-0" TaskStateInProgress "worker:w1" "started";
   UpdateTaskState "id-0" TaskStateQueued "worker:w1" "refused";
   RequestApproval "id-0" "deploy" "prod" 60 "worker:w1" "needs approval" ∅ ;;; ret tt;
   ResolveApproval "id-29" true "ana" ;;; ret tt].
Definition worked_demo (calls : nat) : M Sys unit :=
  for_each (take calls demo_calls) tt (λ _ call, attempt call ;;; ret tt).
End Demo.

(** ** Finishing a task, resolving an approval, creating a task *)

Section Specs.
Context `{Env}.

(** CompleteTask and FailTask: on success the task has taken one valid
    edge into the target state, its results are replaced only when new ones are
    given, its error message is the one given (cleared on completion), it is
    stamped as finished and nothing else moves; on an error either nothing has
    changed or only the final read-back failed. *)
Theorem finalizeTask_spec taskID to actor reason results msg n s :
  let '(r, (_, s')) := finalizeTask taskID to actor reason results msg n s in
  (s' = s ∧ ∃ e, r = Err e) ∨
  ∃ row now id,
    get_row s taskID = Some row ∧ IsValidTransition (row_state row) to = true ∧
    get_row s' taskID =
      Some (apply_transition to now (finalize_row results msg row)) ∧
    (∀ other, other ≠ taskID → get_row s' other = get_row s other) ∧
    state_transitions (pg s') = state_transitions (pg s)
      ++ [MkTransition id taskID (row_state row) to actor reason now] ∧
    approvals (pg s') = approvals (pg s).
Proof.
  destruct (finalizeTask _ _ _ _ _ _ n s) as [r [n' s']] eqn:Hrun.
  apply finalizeTask_run in Hrun as [Hrun|(row & now & id & Hrow & Hv & ->)]; [by left|].
  right. exists row, now, id. rewrite get_row_transition_eq, get_row_update_eq, Hrow.
  split_and!; try done. intros other Hne.
  rewrite get_row_transition_ne, get_row_update_ne by congruence. done.
Qed.

(** C12: ResolveApproval decides a pending approval: it records the operator and
    the time, queues (approve) or cancels (reject) the task along a valid edge,
    and grants or denies the approval in the task's metadata, dropping the
    request marker only when it is granted. *)
Theorem ResolveApproval_spec approvalID approve operator n s :
  let '(r, (_, s')) := ResolveApproval approvalID approve operator n s in
  (s' = s ∧ ∃ e, r = Err e) ∨
  ∃ a row now id, let '(target, status, reason) := resolution approve in
    approvals (pg s) !! approvalID = Some a ∧
    approval_status a = ApprovalPending ∧
    get_row s (approval_task a) = Some row ∧
    IsValidTransition (row_state row) target = true ∧
    approvals (pg s') =
      <[approvalID := mark_resolved status operator now a]> (approvals (pg s)) ∧
    get_row s' (approval_task a) = Some (apply_transition target now
      (set_metadata (merge_resolution approve (row_metadata row)) row)) ∧
    (∀ other, other ≠ approval_task a → get_row s' other = get_row s other) ∧
    state_transitions (pg s') = state_transitions (pg s)
      ++ [MkTransition id (approval_task a) (row_state row) target
            ("operator:" +:+ operator) reason now].
Proof.
  destruct (ResolveApproval _ _ _ n s) as [r [n' s']] eqn:Hrun.
  apply ResolveApproval_run in Hrun as [Hrun|(a & row & now & id & Hres)]; [by left|].
  right. exists a, row, now, id.
  destruct (resolution approve) as [[target status] reason].
  destruct Hres as (Ha & Hp & Hrow & Hv & -> & _). split_and!; try done.
  - cbn. apply map_eq. intros i. destruct (decide (i = approvalID)) as [->|Hne].
    + by rewrite lookup_alter_eq, lookup_insert_eq, Ha.
    + by rewrite lookup_alter_ne, lookup_insert_ne by done.
  - rewrite get_row_transition_eq, get_row_update_eq.
    unfold get_row in *. cbn. by rewrite Hrow.
  - intros other Hne.
    by rewrite get_row_transition_ne, get_row_update_ne by congruence.
Qed.

(** an approval is resolved at most once: once it is no longer pending,
    whatever calls come after (every operation [evolves] the system), resolving
    it again in either direction is refused and changes nothing. *)
Theorem ResolveApproval_once approvalID approve operator n s s' a :
  approvals (pg s) !! approvalID = Some a → approval_status a ≠ ApprovalPending →
  evolves s s' →
  let '(r, (_, s'')) := ResolveApproval approvalID approve operator n s' in
  s'' = s' ∧ (∃ e, r = Err e) ∧ (calm → r = Err ErrApprovalAlreadyResolved).
Proof.
  intros Ha Hres He. destruct (ev_approvals _ _ He _ _ Ha) as (a' & Ha' & _ & _ & Hsame).
  specialize (Hsame Hres) as ->.
  destruct (ResolveApproval _ _ _ n s') as [r [n' s'']] eqn:Hrun. split_and!.
  - apply ResolveApproval_run in Hrun as [[-> _]|(b & row & now & id & Hb)]; [done|].
    destruct (resolution approve) as [[? ?] ?]. destruct Hb as (Hb & Hp & _).
    by simplify_eq.
  - apply ResolveApproval_run in Hrun as [[_ Hr]|(b & row & now & id & Hb)]; [done|].
    destruct (resolution approve) as [[? ?] ?]. destruct Hb as (Hb & Hp & _).
    by simplify_eq.
  - intros Hcalm. unfold ResolveApproval, bind at 1 in Hrun.
    rewrite in_tx_calm in Hrun by done. unfold bind at 1, GetApproval in Hrun.
    rewrite query_calm, Ha' in Hrun by done.
    assert ((approval_status a =?s ApprovalPending) = false) as Hf
      by by apply String.eqb_neq.
    rewrite Hf in Hrun. cbn in Hrun. unfold throw in Hrun. by simplify_eq.
Qed.

(** CreateTask inserts one fresh row; with [QueueOnCreate] the row is
    already [queued] and the log holds exactly that first transition, in the
    same transaction, so no observer sees a created task that should be queued.
    Every other task is untouched, and the caller gets the stored row back. *)
Theorem CreateTask_spec params n s :
  let '(r, (_, s')) := CreateTask params n s in
  (s' = s ∧ ∃ e, r = Err e) ∨
  ∃ row log,
    let taskID := uuid n in
    let now := clock (N.succ (N.succ n)) in
    let row0 := new_task_row params taskID (uuid (N.succ n)) now in
    get_row s taskID = None ∧ get_row s' taskID = Some row ∧
    (∀ other, other ≠ taskID → get_row s' other = get_row s other) ∧
    state_transitions (pg s') = state_transitions (pg s) ++ log ∧
    (if ctp_queue_on_create params
     then row = apply_transition TaskStateQueued now row0 ∧
          (λ t, (tr_task t, tr_from t, tr_to t)) <$> log
            = [(taskID, TaskStateCreated, TaskStateQueued)]
     else row = row0 ∧ log = []) ∧
    ((∃ e, r = Err e) ∨ r = Ok (Some (scanTask row))).
Proof.
  destruct (CreateTask params n s) as [r [n' s']] eqn:Hrun.
  apply CreateTask_run in Hrun as [Hrun|(id & Hfresh & _ & -> & Hr)]; [by left|].
  right. unfold creation in *. destruct (ctp_queue_on_create params).
  - rewrite get_row_transition_eq in Hr. unfold get_row at 1 in Hr. cbn in Hr.
    rewrite lookup_insert_eq in Hr. do 2 eexists. split_and!; [done| | | | | |exact Hr].
    + rewrite get_row_transition_eq. unfold get_row. cbn. by rewrite lookup_insert_eq.
    + intros other Hne. rewrite get_row_transition_ne by congruence.
      unfold get_row. cbn. by rewrite lookup_insert_ne by congruence.
    + by rewrite log_transition.
    + done.
    + done.
  - unfold get_row at 1 in Hr. cbn in Hr. rewrite lookup_insert_eq in Hr.
    do 2 eexists. split_and!; [done| | | | | |exact Hr].
    + unfold get_row. cbn. by rewrite lookup_insert_eq.
    + intros other Hne. unfold get_row. cbn. by rewrite lookup_insert_ne by congruence.
    + by rewrite app_nil_r.
    + done.
    + done.
Qed.
End Specs.

(** A task waiting for an approval that was granted, and the same task back at
    work: resolving the approval again is refused. *)
Definition approved_demo : Sys := Eval vm_compute in
  (@worked_demo (quiet_env 0) 6 0%N empty_sys).2.2.
Definition resumed_demo : Sys := Eval vm_compute in
  (@demo_pickup (quiet_env 0) 40%N approved_demo).2.2.

Lemma ResolveApproval_once_witness :
  ∃ a, approvals (pg approved_demo) !! "id-29" = Some a ∧
    approval_status a ≠ ApprovalPending ∧ evolves approved_demo resumed_demo ∧
    let '(r, (_, s'')) := @ResolveApproval (quiet_env 0) "id-29" false "eve" 50%N resumed_demo in
    s'' = resumed_demo ∧ (∃ e, r = Err e) ∧
    (@calm (quiet_env 0) → r = Err ErrApprovalAlreadyResolved).
Proof.
  assert (Hf : match approvals (pg approved_demo) !! "id-29" with
    | Some a => negb (approval_status a =?s ApprovalPending) | None => false end = true)
    by (vm_compute; reflexivity).
  destruct (approvals (pg approved_demo) !! "id-29") as [a|] eqn:Ha; [|discriminate Hf].
  apply negb_true_iff, String.eqb_neq in Hf.
  assert (He : evolves approved_demo resumed_demo).
  { assert (Hrun : (@demo_pickup (quiet_env 0) 40%N approved_demo).2.2
      = resumed_demo) by (vm_compute; reflexivity).
    destruct (@demo_pickup (quiet_env 0) 40%N approved_demo) as [r [n s]] eqn:E.
    cbn [snd] in Hrun. rewrite <- Hrun.
    eapply (@UpdateTaskState_evolves (quiet_env 0)). exact E. }
  exists a. split; [done|]. split; [done|]. split; [done|].
  apply (@ResolveApproval_once (quiet_env 0) "id-29" false "eve" 50%N
    approved_demo resumed_demo a Ha Hf He).
Defined.
