(* ===== verification/TaskList.v ===== *)
(** * Keyset pagination of tasks ([ListTasks])

    Following the cursors [ListTasks] returns enumerates exactly the tasks the
    filter selects, newest first, each once. *)
From S2P Require Import Prelude GoVal Effects Domain Schema TaskStore.

(** ** Sorted selections *)

Lemma NoDup_fmap_filter {A B} (g : A → B) (P : A → Prop) `{!∀ x, Decision (P x)} l :
  NoDup (g <$> l) → NoDup (g <$> filter P l).
Proof.
  induction l as [|x l IH]; [done|]. rewrite fmap_cons, NoDup_cons, filter_cons.
  intros [Hx Hl]. case_decide; [|by apply IH].
  rewrite fmap_cons, NoDup_cons. split; [|by apply IH].
  intros (y & E & [_ Hy]%list_elem_of_filter)%list_elem_of_fmap.
  apply Hx. rewrite E. by apply list_elem_of_fmap_2.
Qed.

Lemma filter_filter_bool {A} (p q : A → bool) (l : list A) :
  filter (λ r, p r && q r = true) l
  = filter (λ r, q r = true) (filter (λ r, p r = true) l).
Proof.
  induction l as [|x l IH]; [done|]. rewrite !filter_cons.
  destruct (p x) eqn:Ep, (q x) eqn:Eq; cbn;
    rewrite ?(decide_True (P := true = true)), ?(decide_False (P := false = true)) by done;
    rewrite ?filter_cons, ?Eq, ?(decide_True (P := true = true)),
      ?(decide_False (P := false = true)) by done; by rewrite ?IH.
Qed.

Section Selections.
Context {A : Type} (le : relation A) `{!RelDecision le, !Total le, !Transitive le}.

Lemma StronglySorted_filter (P : A → Prop) `{!∀ x, Decision (P x)} l :
  StronglySorted le l → StronglySorted le (filter P l).
Proof.
  induction 1 as [|x l Hl IH Hx]; [constructor|].
  rewrite filter_cons. case_decide; [|done]. constructor; [done|].
  rewrite Forall_forall in *. intros y [_ Hy]%list_elem_of_filter. by apply Hx.
Qed.

Lemma select_refine p q l :
  (∀ x y, x ∈ l → y ∈ l → le x y → le y x → x = y) →
  select (λ r, p r && q r) le l = filter (λ r, q r = true) (select p le l).
Proof.
  intros Hanti. apply (StronglySorted_unique_strong le).
  - intros x y Hx%elem_of_select Hy Hxy Hyx; [|apply _..].
    apply list_elem_of_filter in Hy as [_ Hy].
    apply elem_of_select in Hy; [|apply _..]. apply Hanti; tauto.
  - apply select_sorted; apply _.
  - apply StronglySorted_filter, select_sorted; apply _.
  - unfold select. rewrite !merge_sort_Permutation. by rewrite filter_filter_bool.
Qed.

(** In a strictly sorted list, the elements strictly after [x]. *)
Lemma filter_after (q : A → bool) l1 x l2 :
  StronglySorted le (l1 ++ x :: l2) →
  (∀ y, y ∈ l1 → q y = false) → q x = false → (∀ y, y ∈ l2 → q y = true) →
  filter (λ r, q r = true) (l1 ++ x :: l2) = l2.
Proof.
  intros _ H1 Hx H2. rewrite filter_app, filter_cons, decide_False by congruence.
  replace (filter _ l1) with (@nil A).
  - cbn. clear -H2. induction l2 as [|y l2 IH]; [done|].
    rewrite filter_cons, decide_True by (apply H2; left).
    f_equal. apply IH. intros. apply H2. by right.
  - clear -H1. induction l1 as [|y l1 IH]; [done|].
    rewrite filter_cons, decide_False by (rewrite H1; [done|left]).
    apply IH. intros. apply H1. by right.
Qed.
End Selections.

(** ** The order of the listing *)

Lemma string_ltb_spec (a b : string) : String.ltb a b = true ↔ a ≠ b ∧ String.le a b.
Proof.
  unfold String.ltb, String.le, String.leb.
  destruct (String.compare a b) eqn:E; cbn.
  - apply String.compare_eq_iff in E. split; [done|by intros [? _]].
  - split; [|done]. intros _. split; [|done]. intros ->.
    pose proof (String.compare_antisym b b) as Ha. by rewrite E in Ha.
  - split; [done|by intros [_ ?]].
Qed.

Lemma after_cursor_spec x r :
  row_id r ≠ row_id x →
  after_cursor (Some (row_created_at x, row_id x)) r = true ↔ newest_first x r.
Proof.
  intros Hne. unfold newest_first, by_key, lex2, flip; cbn.
  rewrite orb_true_iff, andb_true_iff, string_ltb_spec, Z.ltb_lt, Z.eqb_eq.
  split; [intros [?|[? [_ ?]]]|intros [[? ?]|[? ?]]].
  - left. split; lia.
  - right. split; [lia|done].
  - left. lia.
  - right. split; [lia|]. by split.
Qed.

Lemma after_cursor_self x : after_cursor (Some (row_created_at x, row_id x)) x = false.
Proof.
  cbn. apply orb_false_iff. split; [apply Z.ltb_irrefl|].
  apply andb_false_iff. right. destruct (String.ltb _ _) eqn:E; [|done].
  apply string_ltb_spec in E as [? _]. done.
Qed.

Lemma newest_first_anti rows x y :
  NoDup (row_id <$> rows) → x ∈ rows → y ∈ rows →
  newest_first x y → newest_first y x → x = y.
Proof.
  intros Hd Hx Hy Hxy Hyx.
  assert (row_id x = row_id y) as Hid.
  { unfold newest_first, by_key, lex2, flip in *; cbn in *.
    destruct Hxy as [[? ?]|[? ?]], Hyx as [[? ?]|[? ?]]; try lia.
    by apply (anti_symm String.le). }
  apply list_elem_of_lookup in Hx as [i Hi]. apply list_elem_of_lookup in Hy as [j Hj].
  assert (i = j) as ->; [|congruence].
  apply (NoDup_lookup (row_id <$> rows) i j (row_id y) Hd);
    rewrite list_lookup_fmap, ?Hi, ?Hj; cbn; congruence.
Qed.

(** ** Pages *)

Lemma after_cursor_suffix f rows l1 x l2 :
  NoDup (row_id <$> rows) →
  select (matches_filter f) newest_first rows = l1 ++ x :: l2 →
  select (λ r, matches_filter f r && after_cursor (Some (row_created_at x, row_id x)) r)
    newest_first rows = l2.
Proof.
  intros Hd Hsel.
  assert (Hin : ∀ y, y ∈ l1 ++ x :: l2 → y ∈ rows).
  { intros y Hy. rewrite <- Hsel in Hy. apply elem_of_select in Hy. tauto. }
  pose proof (select_sorted (matches_filter f) newest_first rows) as Hs.
  rewrite Hsel in Hs.
  assert (NoDup (row_id <$> l1 ++ x :: l2)) as Hd2.
  { rewrite <- Hsel. unfold select. rewrite merge_sort_Permutation.
    by apply NoDup_fmap_filter. }
  rewrite fmap_app, fmap_cons in Hd2. apply NoDup_app in Hd2 as (_ & Hdis & Hdx).
  apply NoDup_cons in Hdx as [Hnx _].
  rewrite select_refine; [|apply _..|intros; by eapply newest_first_anti].
  rewrite Hsel. apply (filter_after newest_first); [done| |apply after_cursor_self|].
  - intros y Hy. apply not_true_is_false. intros Ha.
    assert (row_id y ≠ row_id x) as Hne.
    { intros He. apply (Hdis (row_id y)); [by apply list_elem_of_fmap_2|].
      rewrite He. left. }
    apply after_cursor_spec in Ha; [|done]. apply Hne. f_equal.
    apply (newest_first_anti rows); [done|set_solver|set_solver| |done].
    eapply StronglySorted_app_1_elem_of; [exact Hs|done|left].
  - intros y Hy. apply after_cursor_spec.
    + intros He. apply Hnx. rewrite <- He. by apply list_elem_of_fmap_2.
    + apply StronglySorted_app_1_r in Hs. inversion Hs as [|? ? _ Hall].
      rewrite Forall_forall in Hall. by apply Hall.
Qed.

(** Follow the cursors from the first page, at most [fuel] pages. *)
Fixpoint all_pages (fuel : nat) (f : TaskListFilter) (rows : list TaskRow) : list TaskRow :=
  match fuel with
  | O => []
  | S fuel' =>
      let '(items, cursor) := list_page f rows in
      match cursor with
      | None => items
      | Some _ => items ++ all_pages fuel' (f <| filter_cursor := cursor |>) rows
      end
  end.

Lemma page_limit_bounds limit : 1 <= page_limit limit <= 100.
Proof. unfold page_limit. repeat case_match; lia. Qed.

(** One page is a prefix of what is left, and its cursor marks the rest. *)
Lemma list_page_split f rows seen rest :
  NoDup (row_id <$> rows) →
  select (matches_filter f) newest_first rows = seen ++ rest →
  select (λ r, matches_filter f r && after_cursor (filter_cursor f) r) newest_first rows
    = rest →
  let limit := Z.to_nat (page_limit (filter_limit f)) in
  let '(items, cursor) := list_page f rows in
  items = take limit rest ∧
  ((cursor = None ∧ (length rest <= limit)%nat) ∨
   (cursor ≠ None ∧ (limit < length rest)%nat ∧
    select (λ r, matches_filter f r && after_cursor cursor r) newest_first rows
      = drop limit rest)).
Proof.
  intros Hd Hall Hsel. cbn zeta. unfold list_page. rewrite Hsel.
  pose proof (page_limit_bounds (filter_limit f)) as Hb.
  set (limit := Z.to_nat (page_limit (filter_limit f))) in *.
  assert (1 <= limit)%nat as Hl by lia.
  case_decide as Hlen; rewrite length_take in Hlen.
  - rewrite take_take. replace (limit `min` S limit)%nat with limit by lia.
    split; [done|right].
    destruct (last (take limit rest)) as [x|] eqn:Hx.
    + apply last_Some in Hx as [l1 Hl1].
      split_and!; [done|lia|].
      apply (after_cursor_suffix f rows (seen ++ l1) x); [done|].
      rewrite Hall, <- app_assoc. f_equal.
      rewrite <- (take_drop limit rest) at 1. rewrite Hl1. by rewrite <- app_assoc.
    + apply last_None in Hx. apply (f_equal length) in Hx.
      rewrite length_take in Hx. cbn in Hx. lia.
  - rewrite !take_ge by lia. split; [done|left]. split; [done|lia].
Qed.

Lemma all_pages_rest fuel : ∀ f rows seen rest,
  NoDup (row_id <$> rows) →
  select (matches_filter f) newest_first rows = seen ++ rest →
  select (λ r, matches_filter f r && after_cursor (filter_cursor f) r) newest_first rows
    = rest →
  (length rest < fuel)%nat →
  all_pages fuel f rows = rest.
Proof.
  induction fuel as [|fuel IH]; intros f rows seen rest Hd Hall Hsel Hfuel; [lia|].
  cbn [all_pages]. pose proof (list_page_split f rows seen rest Hd Hall Hsel) as Hpage.
  pose proof (page_limit_bounds (filter_limit f)) as Hb.
  destruct (list_page f rows) as [items cursor]. cbn zeta in Hpage.
  destruct Hpage as [-> [[-> Hle]|(Hc & Hlt & Hrest)]]; [by apply take_ge|].
  destruct cursor as [c|]; [|done].
  rewrite (IH _ rows (seen ++ take (Z.to_nat (page_limit (filter_limit f))) rest)
    (drop (Z.to_nat (page_limit (filter_limit f))) rest)).
  - apply take_drop.
  - done.
  - rewrite <- app_assoc, take_drop. exact Hall.
  - exact Hrest.
  - rewrite length_drop. lia.
Qed.

(** C30: pagination is complete and exact: whatever the page size, following the
    cursors [ListTasks] hands out visits the tasks the filter selects newest
    first, each exactly once, and ends (one request more than there are tasks is
    always enough). *)
Theorem pages_enumerate_matches (f : TaskListFilter) (rows : list TaskRow) :
  NoDup (row_id <$> rows) → filter_cursor f = None →
  all_pages (S (length rows)) f rows = select (matches_filter f) newest_first rows.
Proof.
  intros Hd Hc. apply (all_pages_rest _ f rows []); [done|done| |].
  - rewrite Hc. unfold select. f_equal. apply list_filter_iff. intros r. cbn.
    by rewrite andb_true_r.
  - unfold select. rewrite merge_sort_Permutation. 
    pose proof (length_filter (λ r, matches_filter f r = true) rows). lia.
Qed.

Definition demo_rows : list TaskRow :=
  [new_task_row demo_params "a" "c" 5; new_task_row demo_params "b" "c" 7;
   new_task_row demo_params "c" "c" 5; new_task_row demo_params "d" "c" 9;
   new_task_row demo_params "e" "c" 6].
Definition demo_filter : TaskListFilter :=
  MkFilter "created" "" "" "" "" false false "" "" None None None 2.

Lemma pages_enumerate_matches_witness :
  NoDup (row_id <$> demo_rows) ∧
  all_pages 6 demo_filter demo_rows
    = select (matches_filter demo_filter) newest_first demo_rows ∧
  row_id <$> all_pages 6 demo_filter demo_rows = ["d"; "b"; "e"; "c"; "a"].
Proof.
  assert (NoDup (row_id <$> demo_rows)) as Hd
    by (apply (bool_decide_unpack _); vm_compute; exact I).
  split; [exact Hd|]. split.
  - exact (pages_enumerate_matches demo_filter demo_rows Hd eq_refl).
  - vm_compute. reflexivity.
Defined.
