(* ===== verification/Artifacts.v ===== *)
(** * Artifacts and tool invocations ([store/postgres.go])

    The documents the services leave behind, and the record of each run of a
    tool.  Both may refer to a task, and an artifact to the run that made it. *)
From S2P Require Import Prelude GoVal Effects Domain Schema TaskStore.

(** [orchestratorgo/store/postgres.go:923-932] CreateArtifactParams. *)
Record CreateArtifactParams := MkCreateArtifact {
  ca_task : option string;
  ca_invocation : option string;
  ca_type : string;
  ca_title : option string;
  ca_uri : option string;
  ca_media_type : option string;
  ca_content : option string;
  ca_metadata : gmap_any;
}.
(** An artifact of no task and no invocation. *)
Definition plain_artifact := MkCreateArtifact None None.

(** [orchestratorgo/store/postgres.go:908-921] CreateToolInvocationParams; what the
    callers leave empty (metadata, sources) is left out. *)
Record CreateToolInvocationParams := MkCreateInvocation {
  ti_task : option string;
  ti_agent : option string;
  ti_entrypoint : string;
  ti_capability : string;
  ti_input : gmap_any;
  ti_output : gmap_any;
  ti_status : string;
  ti_duration : Z;
  ti_error : option string;
}.

Definition stored_artifact (s : Sys) (id : string) : option ArtifactResponse :=
  art_response <$> artifacts (pg s) !! id.
Definition task_reference (s : Sys) (ref : option string) : bool :=
  match ref with Some id => bool_decide (is_Some (get_row s id)) | None => true end.
Definition invocation_reference (s : Sys) (ref : option string) : bool :=
  match ref with
  | Some id => bool_decide (is_Some (tool_invocations (pg s) !! id))
  | None => true
  end.

Section Store.
Context `{Env}.

(** [orchestratorgo/store/postgres.go:1097-1121] CreateArtifact. *)
Definition new_artifact (p : CreateArtifactParams) (id : string) (now : Z) : ArtifactRow :=
  MkArtifactRow (nullableString (ca_task p)) (nullableString (ca_invocation p))
    (MkArtifact id (ca_type p) (ca_title p) (ca_uri p) (ca_media_type p) (ca_content p)
       (jsonb_map (ca_metadata p)) now).
Definition CreateArtifact (p : CreateArtifactParams) : M Sys string :=
  artifactID <- new_uuid ;;
  (λ n, stmt (λ s,
    if decide (is_Some (artifacts (pg s) !! artifactID)) then
      (Err (ErrUniqueViolation "artifacts_pkey"), s)
    else if task_reference s (nullableString (ca_task p))
            && invocation_reference s (nullableString (ca_invocation p)) then
      (Ok tt, on_pg (λ d, d <| artifacts :=
         <[artifactID := new_artifact p artifactID (clock n)]> (artifacts d) |>) s)
    else (Err (ErrText "violates foreign key constraint"), s)) n) ;;;
  ret artifactID.

(** [orchestratorgo/store/postgres.go:1209-1224] ListArtifactsByIDs, of one id. *)
Definition ListArtifactByID (id : string) : M Sys (option ArtifactResponse) :=
  query (λ s, stored_artifact s id).

(** [orchestratorgo/store/postgres.go:1195-1207] ListArtifactsByTask. *)
Definition oldest_artifact_first : relation ArtifactResponse :=
  by_key artifact_created_at Z.le.
#[export] Instance oldest_artifact_first_dec : RelDecision oldest_artifact_first.
Proof. unfold oldest_artifact_first. apply _. Defined.
Definition ListArtifactsByTask (taskID : string) : M Sys (list ArtifactResponse) :=
  query (λ s, merge_sort oldest_artifact_first
    (art_response <$> filter (λ r, art_task r = Some taskID) (rows_of (artifacts (pg s))))).

(** [orchestratorgo/store/postgres.go:1045-1086] CreateToolInvocation. *)
Definition new_invocation (p : CreateToolInvocationParams) (id : string) : ToolInvocation :=
  {| inv_id := id;
     inv_task := nullableString (ti_task p);
     inv_agent := nullableString (ti_agent p);
     inv_entrypoint := ti_entrypoint p;
     inv_capability := ti_capability p;
     inv_input := jsonb_map (ti_input p);
     inv_output := jsonb_map (ti_output p);
     inv_status := ti_status p;
     inv_duration := ti_duration p;
     inv_artifacts := [];
     inv_error := ti_error p |}.
Definition with_invocations (f : gmap string ToolInvocation → gmap string ToolInvocation) :
    Sys → Sys :=
  on_pg (λ d, d <| tool_invocations := f (tool_invocations d) |>).
Definition CreateToolInvocation (p : CreateToolInvocationParams) : M Sys string :=
  invocationID <- new_uuid ;;
  stmt (λ s,
    if decide (is_Some (tool_invocations (pg s) !! invocationID)) then
      (Err (ErrUniqueViolation "tool_invocations_pkey"), s)
    else if task_reference s (nullableString (ti_task p)) then
      (Ok tt, with_invocations <[invocationID := new_invocation p invocationID]> s)
    else (Err (ErrText "violates foreign key constraint"), s)) ;;;
  ret invocationID.

(** [orchestratorgo/store/postgres.go:1088-1095] UpdateToolInvocationArtifactIDs. *)
Definition UpdateToolInvocationArtifactIDs (invocationID : string)
    (artifactIDs : list string) : M Sys unit :=
  exec (with_invocations (alter (λ i, i <| inv_artifacts := artifactIDs |>) invocationID)).
End Store.

(** ** They only add documents *)
Section Facts.
Context `{Env}.

(** Every table but the two of this file is as it was. *)
Definition only_artifacts : relation Sys := λ s s',
  tasks (pg s') = tasks (pg s) ∧ state_transitions (pg s') = state_transitions (pg s) ∧
  approvals (pg s') = approvals (pg s) ∧ local_bridges (pg s') = local_bridges (pg s) ∧
  initiatives (pg s') = initiatives (pg s) ∧ phase_reviews (pg s') = phase_reviews (pg s) ∧
  task_links (pg s') = task_links (pg s) ∧ redis s' = redis s.
#[export] Instance only_artifacts_preorder : PreOrder only_artifacts.
Proof.
  split; unfold only_artifacts; [done|].
  intros s1 s2 s3 (-> & -> & -> & -> & -> & -> & -> & ->). auto 10.
Qed.

Lemma CreateArtifact_only p : respects only_artifacts (CreateArtifact p).
Proof.
  unfold CreateArtifact. solve_respects.
  intros n s r n' s' [_ [(?&?&?&->)|[_ Hrun]]]%stmt_inv; [reflexivity|].
  repeat case_match; by simplify_eq.
Qed.
Lemma CreateToolInvocation_only p : respects only_artifacts (CreateToolInvocation p).
Proof.
  unfold CreateToolInvocation. solve_respects. apply respects_stmt; [apply _|].
  intros s0. by repeat case_match.
Qed.
Lemma UpdateInvocation_only id l :
  respects only_artifacts (UpdateToolInvocationArtifactIDs id l).
Proof. by apply respects_exec; [apply _|]. Qed.

Lemma respects_weaken {A} (R Q : relation Sys) (m : M Sys A) :
  (∀ s s', R s s' → Q s s') → respects R m → respects Q m.
Proof. intros HRQ Hm n s r n' s' Hrun. eapply HRQ, Hm, Hrun. Qed.
Lemma only_artifacts_evolves s s' : only_artifacts s s' → evolves s s'.
Proof.
  intros (Ht & Hl & Ha & _).
  pose proof (evolves_other_tables (λ _, pg s') s Ht Ha Hl) as Hev.
  destruct Hev as [H1 H2 H3 H4]. by split.
Qed.
Lemma CreateArtifact_evolves p : respects evolves (CreateArtifact p).
Proof. eapply respects_weaken; [apply only_artifacts_evolves|apply CreateArtifact_only]. Qed.
Lemma CreateToolInvocation_evolves p : respects evolves (CreateToolInvocation p).
Proof.
  eapply respects_weaken; [apply only_artifacts_evolves|apply CreateToolInvocation_only].
Qed.
Lemma UpdateInvocation_evolves id l : respects evolves (UpdateToolInvocationArtifactIDs id l).
Proof. eapply respects_weaken; [apply only_artifacts_evolves|apply UpdateInvocation_only]. Qed.
End Facts.
#[export] Hint Resolve CreateArtifact_evolves CreateToolInvocation_evolves
  UpdateInvocation_evolves CreateArtifact_only CreateToolInvocation_only
  UpdateInvocation_only : respects.
