(* ===== verification/Cursor.v ===== *)
(** * Pagination cursors ([domain/types.go])

    A cursor is the base64 text of the JSON of the last task's creation time and
    id.  The alphabet is the URL one, with padding; decoding skips line breaks
    and does not look at the unused bits, as Go's does. *)
From Stdlib Require Import ZifyBool ZifyN.
From S2P Require Import Prelude GoVal Rfc3339 Json TaskStore.

(** ** [base64.URLEncoding] *)

Definition alphabet : string :=
  "ABCDEFGHIJKLMNOPQRSTUVWXYZabcdefghijklmnopqrstuvwxyz0123456789-_".
Definition sextet (n : N) : ascii := default "A"%char (String.get (N.to_nat n) alphabet).
Fixpoint index_in (a : ascii) (s : string) (i : N) : option N :=
  match s with
  | EmptyString => None
  | String b r => if Ascii.eqb a b then Some i else index_in a r (N.succ i)
  end.
Definition unsextet (a : ascii) : option N := index_in a alphabet 0.

Fixpoint base64_encode (s : string) : string :=
  match s with
  | EmptyString => ""
  | String a EmptyString =>
      String (sextet (code a / 4)%N) (String (sextet (code a mod 4 * 16)%N) "==")
  | String a (String b EmptyString) =>
      String (sextet (code a / 4)%N) (String (sextet (code a mod 4 * 16 + code b / 16)%N)
        (String (sextet (code b mod 16 * 4)%N) "="))
  | String a (String b (String c r)) =>
      String (sextet (code a / 4)%N) (String (sextet (code a mod 4 * 16 + code b / 16)%N)
        (String (sextet (code b mod 16 * 4 + code c / 64)%N) (String (sextet (code c mod 64)%N)
           (base64_encode r))))
  end.

Definition line_break (a : ascii) : bool := isb 10 a || isb 13 a.
Fixpoint skip_breaks (s : string) : string :=
  match s with
  | EmptyString => ""
  | String a r => if line_break a then skip_breaks r else String a (skip_breaks r)
  end.
Definition padding (a : ascii) : bool := isb 61 a.
Fixpoint base64_quanta (s : string) : option string :=
  match s with
  | EmptyString => Some ""
  | String a (String b (String c (String d r))) =>
      x ← unsextet a;
      y ← unsextet b;
      let first := ascii_of_N (x * 4 + y / 16)%N in
      if padding c then
        if padding d && (r =?s "") then Some (String first "") else None
      else
        z ← unsextet c;
        let second := ascii_of_N (y mod 16 * 16 + z / 4)%N in
        if padding d then
          if r =?s "" then Some (String first (String second "")) else None
        else
          w ← unsextet d;
          rest ← base64_quanta r;
          Some (String first (String second (String (ascii_of_N (z mod 4 * 64 + w)%N) rest)))
  | _ => None
  end.
Definition base64_decode (s : string) : option string := base64_quanta (skip_breaks s).

(** ** The cursor *)

(** [Time.MarshalJSON] without its quotes: years of four digits and zones of less
    than a day only. *)
Definition marshal_time (t offset : Z) : option string :=
  if (local_year t offset <? 0) || (9999 <? local_year t offset)
     || (24 * 60 <=? Z.abs (Z.quot offset 60))
  then None
  else Some (format_nano t offset).

Definition quoted (s : string) : string := String quote_mark s +:+ String quote_mark "".

(** [orchestratorgo/domain/types.go:265-272] EncodeCursor: of a time in a location
    [offset] seconds east of UTC. *)
Definition cursor_json (created id : string) : string :=
  "{" +:+ quoted "created_at" +:+ ":" +:+ quoted created +:+ "," +:+ quoted "id" +:+ ":"
  +:+ quoted (quote id) +:+ "}".
Definition EncodeCursor (createdAt offset : Z) (id : string) : option string :=
  created ← marshal_time createdAt offset;
  Some (base64_encode (cursor_json created id)).

(** [json.Unmarshal] into a [CursorPayload]: fields in the order of the text, null
    leaves a field alone, any field of the wrong type is an error. *)
Definition unmarshal_time (old : Z) (v : jval) : option Z :=
  match v with
  | JNull => Some old
  | JStr raw => parse_rfc3339 raw
  | _ => None
  end.
Definition unmarshal_string (old : string) (v : jval) : option string :=
  match v with
  | JNull => Some old
  | JStr raw => Some (unquote raw)
  | _ => None
  end.
Definition unmarshal_field (payload : CursorPayload) (entry : string * jval) :
    option CursorPayload :=
  let key := fold_ascii (unquote entry.1) in
  if key =?s "created_at" then
    t ← unmarshal_time payload.1 entry.2; Some (t, payload.2)
  else if key =?s "id" then
    id ← unmarshal_string payload.2 entry.2; Some (payload.1, id)
  else Some payload.
Fixpoint unmarshal_fields (payload : CursorPayload) (l : list (string * jval)) :
    option CursorPayload :=
  match l with
  | [] => Some payload
  | entry :: l => payload ← unmarshal_field payload entry; unmarshal_fields payload l
  end.
Definition unmarshal_payload (v : jval) : option CursorPayload :=
  match v with
  | JNull => Some (0, "")
  | JObj l => unmarshal_fields (0, "") l
  | _ => None
  end.

(** [orchestratorgo/domain/types.go:274-282] DecodeCursor. *)
Definition DecodeCursor (cursor : string) : option CursorPayload :=
  raw ← base64_decode cursor;
  v ← parse raw;
  unmarshal_payload v.

Example cursor_demo :
  EncodeCursor (719162 * 86400 * second) 0 "t1" =
    Some "eyJjcmVhdGVkX2F0IjoiMTk3MC0wMS0wMVQwMDowMDowMFoiLCJpZCI6InQxIn0=" ∧
  DecodeCursor "eyJjcmVhdGVkX2F0IjoiMTk3MC0wMS0wMVQwMDowMDowMFoiLCJpZCI6InQxIn0="
    = Some (719162 * 86400 * second, "t1") ∧
  DecodeCursor "bnVsbA==" = Some (0, "") ∧ DecodeCursor "bnVsbA=" = None ∧
  DecodeCursor "e30" = None ∧ DecodeCursor "" = None.
Proof. split_and!; vm_compute; reflexivity. Qed.

(** ** Round trips *)

Lemma sextet_spec n :
  (n < 64)%N →
  unsextet (sextet n) = Some n ∧ line_break (sextet n) = false ∧ padding (sextet n) = false.
Proof.
  intros Hn.
  assert (Hall : forallb (λ k, let n := N.of_nat k in
    bool_decide (unsextet (sextet n) = Some n) && negb (line_break (sextet n))
    && negb (padding (sextet n))) (seq 0 64) = true) by (vm_compute; reflexivity).
  rewrite forallb_forall in Hall. specialize (Hall (N.to_nat n)). cbn zeta in Hall.
  rewrite N2Nat.id in Hall.
  apply andb_true_iff in Hall as [[Hu%bool_decide_eq_true Hl%negb_true_iff]%andb_true_iff
    Hp%negb_true_iff]; [done|]. apply in_seq. lia.
Qed.
Lemma code_bound a : (code a < 256)%N.
Proof. apply N_ascii_bounded. Qed.
Lemma byte_of_code a n : (n = code a)%N → ascii_of_N n = a.
Proof. intros ->. apply ascii_N_embedding. Qed.
Ltac n_divisions := zify; Z.div_mod_to_equations; lia.

Lemma join1 a y : (y < 16 → a / 4 * 4 + (a mod 4 * 16 + y) / 16 = a)%N.
Proof. intros H. n_divisions. Qed.
Lemma join2 x b z :
  (b < 256 → z < 4 → (x * 16 + b / 16) mod 16 * 16 + (b mod 16 * 4 + z) / 4 = b)%N.
Proof.
  intros Hb Hz. assert ((x * 16 + b / 16) mod 16 = b / 16)%N as -> by n_divisions.
  n_divisions.
Qed.
Lemma join3 y c : (c < 256 → (y * 4 + c / 64) mod 4 * 64 + c mod 64 = c)%N.
Proof.
  intros Hc. assert ((y * 4 + c / 64) mod 4 = c / 64)%N as -> by n_divisions. n_divisions.
Qed.

(** The parts of a byte are sextets. *)
Lemma parts a :
  (code a / 4 < 64 ∧ code a mod 4 * 16 < 64 ∧ code a mod 16 * 4 < 64 ∧ code a mod 64 < 64 ∧
   code a / 16 < 16 ∧ code a / 64 < 4)%N.
Proof. pose proof (code_bound a). split_and!; n_divisions. Qed.
Lemma parts2 a b :
  (code a mod 4 * 16 + code b / 16 < 64 ∧ code a mod 16 * 4 + code b / 64 < 64)%N.
Proof. pose proof (code_bound a). pose proof (code_bound b). split; n_divisions. Qed.

Lemma base64_roundtrip s : base64_decode (base64_encode s) = Some s.
Proof.
  unfold base64_decode. induction s as [s IH] using string_length_ind.
  destruct s as [|a [|b [|c r]]]; [done|..];
    cbn [base64_encode skip_breaks];
    repeat match goal with |- context [sextet ?n] =>
      let H := fresh "Hs" in assert (n < 64)%N as H%sextet_spec by (apply parts || apply parts2);
      destruct H as (? & ? & ?); generalize dependent (sextet n); intros end;
    repeat match goal with H : line_break ?x = false |- context [line_break ?x] =>
      rewrite H end;
    cbn [base64_quanta];
    repeat match goal with
    | H : unsextet ?x = _ |- context [unsextet ?x] => rewrite H; cbn [mbind option_bind]
    | H : padding ?x = _ |- context [padding ?x] => rewrite H end.
  - change (padding "=") with true. cbn [andb String.eqb]. f_equal. f_equal.
    apply byte_of_code. assert (Hj := join1 (code a) 0%N). rewrite N.add_0_r in Hj. by apply Hj.
  - change (padding "=") with true. cbn [andb String.eqb]. f_equal.
    f_equal; [|f_equal]; apply byte_of_code; [apply join1, parts|].
    assert (Hj := join2 (code a mod 4) (code b) 0). rewrite N.add_0_r in Hj.
    apply Hj; [apply code_bound|done].
  - rewrite IH by (cbn; lia). cbn [mbind option_bind]. f_equal. f_equal; [|f_equal; [|f_equal]];
      apply byte_of_code; [apply join1, parts|apply join2; [apply code_bound|apply parts]
        |apply join3, code_bound].
Qed.

(** *** The text of a time has nothing to escape *)
Lemma plain_digits w : ∀ n, 0 <= n → plain (digits w n) = true.
Proof.
  induction w as [|w IH]; intros n Hn; [done|]. cbn [digits]. rewrite plain_app, IH by divisions.
  assert (Hd : 0 <= n mod 10 < 10) by divisions. generalize dependent (n mod 10). intros d Hd.
  assert (d = 0 ∨ d = 1 ∨ d = 2 ∨ d = 3 ∨ d = 4 ∨ d = 5 ∨ d = 6 ∨ d = 7 ∨ d = 8 ∨ d = 9)
    as Hc by lia. by destruct_or! Hc; subst d.
Qed.
Lemma plain_pad w n : 0 <= n < 10 ^ Z.of_nat w → (0 < w)%nat → plain (pad w n) = true.
Proof. intros Hn Hw. rewrite pad_digits by done. apply plain_digits. lia. Qed.
Lemma plain_fraction w : ∀ n, 0 <= n → plain (fraction_digits w n) = true.
Proof.
  induction w as [|w IH]; intros n Hn; [done|]. cbn [fraction_digits].
  case_match; [apply IH; divisions|by apply plain_digits].
Qed.
Lemma plain_nano t offset :
  0 <= local_year t offset <= 9999 → -86400 < offset < 86400 → plain (format_nano t offset) = true.
Proof.
  intros Hy Hr. unfold format_nano, format_seconds, format_zone. cbn zeta.
  unfold local_year in Hy.
  pose proof (civil_from_days_spec ((t + offset * second) / second / 86400)) as Hcivil.
  destruct (civil_from_days _) as [[y m] d]. destruct Hcivil as (_ & Hmo & Hd). cbn in Hy.
  assert (Hd31 : days_in y m <= 31) by (unfold days_in; repeat case_match; lia).
  generalize ((t + offset * second) / second). intros secs.
  assert (Hq : 0 <= Z.abs (Z.quot offset 60) < 1440).
  { rewrite <- Z.quot_abs by lia. rewrite Z.quot_div_nonneg by lia. divisions. }
  rewrite !plain_app. repeat (apply andb_true_iff; split);
    try reflexivity; try (apply plain_pad; [cbn; divisions || lia|lia]).
  - case_match; [done|]. rewrite plain_app. apply plain_fraction. unfold second. divisions.
  - case_match; [done|]. rewrite !plain_app. repeat (apply andb_true_iff; split);
      try reflexivity; try (apply plain_pad; [cbn; divisions || lia|lia]).
    by case_match.
Qed.

(** *** The text of the object is scanned to the object *)
Lemma run_key l s rest :
  scans NoEscape s = Some NoEscape →
  run ([InObject l None], BeginKey false) (quoted s +:+ ":" +:+ rest)
    = run ([InObject l (Some s)], BeginValue false) rest ∧
  run ([InObject l None], BeginKey true) (quoted s +:+ ":" +:+ rest)
    = run ([InObject l (Some s)], BeginValue false) rest.
Proof.
  intros Hs. unfold quoted. rewrite !sapp_cons, !sapp_assoc.
  pose proof (run_scans [InObject l None] true s "" _ _
    (String quote_mark "" +:+ ":" +:+ rest) Hs) as Hrun.
  split; exact Hrun.
Qed.
Lemma run_text l key s c rest :
  scans NoEscape s = Some NoEscape →
  run ([InObject l (Some key)], BeginValue false) (quoted s +:+ String c "" +:+ rest)
    = run ([InObject (l ++ [(key, JStr s)]) None], AfterValue) (String c "" +:+ rest).
Proof.
  intros Hs. unfold quoted. rewrite !sapp_cons, !sapp_assoc.
  pose proof (run_scans [InObject l (Some key)] false s "" _ _
    (String quote_mark "" +:+ String c "" +:+ rest) Hs) as Hrun. exact Hrun.
Qed.
Lemma parse_cursor created id :
  plain created = true →
  parse (cursor_json created id)
    = Some (JObj [("created_at", JStr created); ("id", JStr (quote id))]).
Proof.
  intros Hp. unfold parse, cursor_json. rewrite !sapp_assoc.
  match goal with |- context [run _ ("{" +:+ ?x)] =>
    change (run ([], BeginValue false) ("{" +:+ x)) with (run ([InObject [] None], BeginKey true) x)
  end.
  rewrite (proj2 (run_key [] "created_at" _ eq_refl)), (run_text _ _ _ ","%char) by by apply scans_plain.
  match goal with |- context [run _ ("," +:+ ?x)] =>
    change (run ([InObject ([] ++ [("created_at", JStr created)]) None], AfterValue)
              ("," +:+ x))
      with (run ([InObject [("created_at", JStr created)] None], BeginKey false) x)
  end.
  rewrite (proj1 (run_key _ "id" _ eq_refl)), (run_text _ _ _ "}"%char) by apply scans_quote.
  reflexivity.
Qed.

Lemma unmarshal_cursor p created raw :
  unmarshal_fields p [("created_at", JStr created); ("id", JStr raw)]
  = t ← parse_rfc3339 created; Some (t, unquote raw).
Proof.
  cbn [unmarshal_fields]. unfold unmarshal_field. cbn [fst snd].
  replace (fold_ascii (unquote "created_at") =?s "created_at") with true by reflexivity.
  replace (fold_ascii (unquote "id") =?s "created_at") with false by reflexivity.
  replace (fold_ascii (unquote "id") =?s "id") with true by reflexivity.
  cbn [unmarshal_time]. by destruct (parse_rfc3339 created).
Qed.

(** C16: a cursor is read back: the text [EncodeCursor] makes of a creation time and an
    id, in any time zone of whole minutes, is decoded to that very instant and id,
    for every id that is valid UTF-8 (escapes included) and every time whose local
    year has four digits; for other years, and for zones of a day and more, it makes
    none. *)
Theorem cursor_roundtrip createdAt offset id :
  offset mod 60 = 0 → valid_utf8 id = true →
  (0 <= local_year createdAt offset <= 9999 ∧ -86400 < offset < 86400 →
     ∃ cursor, EncodeCursor createdAt offset id = Some cursor ∧
       DecodeCursor cursor = Some (createdAt, id)) ∧
  (¬ (0 <= local_year createdAt offset <= 9999 ∧ -86400 < offset < 86400) →
     EncodeCursor createdAt offset id = None).
Proof.
  intros Hm Hv. unfold EncodeCursor, marshal_time.
  assert (Hz : 1440 <= Z.abs (Z.quot offset 60) ↔ ¬ -86400 < offset < 86400).
  { rewrite <- Z.quot_abs by lia. rewrite Z.quot_div_nonneg by lia. divisions. }
  split; intros Hc.
  - assert ((local_year createdAt offset <? 0) || (9999 <? local_year createdAt offset)
      || (24 * 60 <=? Z.abs (Z.quot offset 60)) = false) as -> by lia.
    destruct Hc as [Hy Hr]. eexists. split; [done|]. unfold DecodeCursor. rewrite base64_roundtrip.
    cbn [mbind option_bind]. rewrite parse_cursor by by apply plain_nano.
    cbn [mbind option_bind unmarshal_payload]. rewrite unmarshal_cursor.
    by rewrite parse_format_nano, unquote_quote.
  - assert ((local_year createdAt offset <? 0) || (9999 <? local_year createdAt offset)
      || (24 * 60 <=? Z.abs (Z.quot offset 60)) = true) as -> by lia. done.
Qed.

Lemma cursor_roundtrip_witness :
  let t := (719162 + 20000) * 86400 * second + 123456000 in
  7200 mod 60 = 0 ∧ valid_utf8 "a<b" = true ∧
  (0 <= local_year t 7200 <= 9999 ∧ -86400 < 7200 < 86400 →
     ∃ cursor, EncodeCursor t 7200 "a<b" = Some cursor ∧ DecodeCursor cursor = Some (t, "a<b")) ∧
  (¬ (0 <= local_year t 7200 <= 9999 ∧ -86400 < 7200 < 86400) →
     EncodeCursor t 7200 "a<b" = None).
Proof.
  cbn zeta. split; [reflexivity|]. split; [reflexivity|].
  apply (cursor_roundtrip _ 7200 "a<b"); reflexivity.
Defined.
