(* ===== verification/BridgeLease.v ===== *)
(** * Local bridges and their task leases ([store/postgres.go])

    A local bridge is a process on an operator's machine that claims tasks with
    [execution_target = 'local'].  The lease of a claim lives in the task's
    metadata.  Rows locked by a concurrent claim are skipped by the code; here a
    transaction runs alone, and the interleavings that matter are those between
    transactions (a claim commits before it writes its lease). *)
From S2P Require Import Prelude GoVal Effects Domain Schema TaskStore.

(** ** Helpers *)

(** [orchestratorgo/store/postgres.go:642-647] nonEmptyBridgeLeaseStatus. *)
Definition nonEmptyBridgeLeaseStatus (value fallback : string) : string :=
  if blank value then fallback else trim_space value.

(** [orchestratorgo/store/postgres.go:602-640] buildLocalBridgeClaim. *)
Definition buildLocalBridgeClaim (task : TaskResponse) (bridge : LocalBridgeResponse) :
    LocalBridgeTaskClaimResponse :=
  let metadata := task_metadata task in
  let or_else s fallback := if s =?s "" then fallback else s in
  let workspaceRoot :=
    or_else (trim_space (as_string (mget metadata "workspace_root")))
      (bridge_workspace_root bridge) in
  let repoPath :=
    or_else (trim_space (as_string (mget metadata "repo_path"))) workspaceRoot in
  let branch := or_else (trim_space (as_string (mget metadata "branch"))) "main" in
  {| claim_task := task_id task;
     claim_root := task_root task;
     claim_parent := task_parent task;
     claim_description := task_description task;
     claim_assigned_agent := default "" (task_assigned_agent task);
     claim_execution_target := task_execution_target task;
     claim_workspace_path := default "" (task_workspace_path task);
     claim_workspace_root := workspaceRoot;
     claim_metadata := metadata;
     claim_repo_path := repoPath;
     claim_branch := branch |}.

Definition lease_patch (taskStage status bridgeID : string) (now expiresAt : Z)
    (released : bool) (tool summary : option string) : gmap_any :=
  let t := VTime now in
  let extra (m : gmap_any) : gmap_any :=
    let m := if released then <["released_at" := t]> m else m in
    let m := if blank (derefString tool) then m
             else <["tool" := VStr (trim_space (derefString tool))]> m in
    if blank (derefString summary) then m
    else <["summary" := VStr (trim_space (derefString summary))]> m in
  <["local_bridge_lease" := VMap (extra
      (<["bridge_id" := VStr bridgeID]>
       (<["status" := VStr status]>
        (<["last_heartbeat_at" := t]> {["lease_expires_at" := VTime expiresAt]}))))]>
  {["recovery_checkpoint" := VMap (extra
      (<["stage" := VStr taskStage]>
       (<["bridge_id" := VStr bridgeID]>
        (<["updated_at" := t]>
         (<["lease_expires_at" := VTime expiresAt]>
          {["execution_target" := VStr "local"]})))))]}.

(** What the SQL of the claim reads in a row. *)
Definition lease_owner (r : TaskRow) : string :=
  default "" (arrow_arrow_text (row_metadata r) "local_bridge_lease" "bridge_id").
Definition in_workspace (root : string) (r : TaskRow) : bool :=
  let w := default "" (arrow_text (row_metadata r) "workspace_root") in
  (w =?s "") || bool_decide (arrow_text (row_metadata r) "workspace_root" = Some root).
Definition claimable (root : string) (r : TaskRow) : bool :=
  (row_execution_target r =?s ExecutionTargetLocal)
  && bool_decide (row_assigned_agent r ∈
       [Some AgentTypeCoder; Some AgentTypeResearcher; Some AgentTypeReviewer])
  && bool_decide (row_archived_at r = None)
  && in_workspace root r.
Definition active_state (s : TaskState) : bool :=
  bool_decide (s ∈ [TaskStateAssigned; TaskStateInProgress; TaskStateRetrying]).

Lemma active_state_inv s :
  active_state s = true →
  s = TaskStateAssigned ∨ s = TaskStateInProgress ∨ s = TaskStateRetrying.
Proof. destruct s; auto; discriminate. Qed.

Section Bridges.
Context `{Env}.

(** [(metadata->'local_bridge_lease'->>'lease_expires_at')::timestamptz]: the
    outer option is the failure of the cast. The times this code writes are
    RFC 3339 with whole seconds. *)
Definition lease_expires_at (r : TaskRow) : option Z :=
  match row_metadata r !! "local_bridge_lease" with
  | Some (VMap lease) =>
      match lease !! "lease_expires_at" with
      | Some (VTime t) => Some (truncate_second t)
      | _ =>
          match arrow_text lease "lease_expires_at" with
          | Some text => timestamptz_in text
          | None => Some unix_epoch
          end
      end
  | _ => Some unix_epoch
  end.

(** ** Bridges *)

(** [orchestratorgo/store/postgres.go:98-106] UpsertLocalBridgeParams. *)
Record UpsertLocalBridgeParams := MkUpsertBridge {
  ub_id : string;
  ub_name : string;
  ub_hostname : string;
  ub_workspace_root : string;
  ub_capabilities : gmap_any;
  ub_api_key_name : option string;
  ub_status : string;
}.

(** [orchestratorgo/store/postgres.go:356-367] GetLocalBridge. *)
Definition GetLocalBridge (bridgeID : string) : M Sys (option LocalBridgeResponse) :=
  query (λ s, local_bridges (pg s) !! bridgeID).

(** [orchestratorgo/store/postgres.go:326-354] UpsertLocalBridge. *)
Definition upsert_bridge (params : UpsertLocalBridgeParams) (status : string) (now : Z)
    (old : option LocalBridgeResponse) : LocalBridgeResponse :=
  {| bridge_id := ub_id params;
     bridge_name := ub_name params;
     bridge_hostname := ub_hostname params;
     bridge_workspace_root := ub_workspace_root params;
     bridge_status := status;
     bridge_capabilities := jsonb_map (ub_capabilities params);
     bridge_api_key_name := ub_api_key_name params;
     bridge_last_heartbeat := Some now;
     bridge_created_at :=
       match old with Some b => bridge_created_at b | None => Some now end;
     bridge_updated_at := Some now |}.
Definition UpsertLocalBridge (params : UpsertLocalBridgeParams) :
    M Sys (option LocalBridgeResponse) :=
  now <- time_now ;;
  let status := if blank (ub_status params) then "active" else ub_status params in
  exec (on_pg (λ d, d <| local_bridges :=
    partial_alter (λ old, Some (upsert_bridge params status now old)) (ub_id params)
      (local_bridges d) |>)) ;;;
  GetLocalBridge (ub_id params).

(** [orchestratorgo/store/postgres.go:369-388] HeartbeatLocalBridge. *)
Definition HeartbeatLocalBridge (bridgeID status : string) :
    M Sys (option LocalBridgeResponse) :=
  now <- time_now ;;
  let status := if blank status then "active" else status in
  affected <- stmt (λ s,
    (Ok (bool_decide (is_Some (local_bridges (pg s) !! bridgeID))),
     on_pg (λ d, d <| local_bridges := alter (λ b,
       b <| bridge_status := status |>
         <| bridge_last_heartbeat := Some now |>
         <| bridge_updated_at := Some now |>) bridgeID (local_bridges d) |>) s)) ;;
  if affected : bool then GetLocalBridge bridgeID else ret None.

(** [orchestratorgo/store/postgres.go:464-484] ListLocalBridges. *)
Definition recently_seen_first : relation LocalBridgeResponse :=
  by_key (λ b, (default 0 (bridge_updated_at b), bridge_id b)) (lex2 (flip Z.le) String.le).
#[export] Instance recently_seen_first_dec : RelDecision recently_seen_first.
Proof. unfold recently_seen_first. apply _. Defined.
Definition ListLocalBridges : M Sys (list LocalBridgeResponse) :=
  query (λ s, select (λ b, bridge_status b =?s "active") recently_seen_first
    (rows_of (local_bridges (pg s)))).

(** ** Leases *)

(** [orchestratorgo/store/postgres.go:390-426] TouchLocalBridgeTaskLease. *)
Definition TouchLocalBridgeTaskLease (taskID bridgeID : string) (ttlSeconds : Z)
    (status : string) (stage tool summary : option string) : M Sys unit :=
  let taskID := trim_space taskID in
  let bridgeID := trim_space bridgeID in
  if (taskID =?s "") || (bridgeID =?s "") then ret tt
  else
    let ttlSeconds := if ttlSeconds <=? 0 then 45 else ttlSeconds in
    now <- time_now ;;
    let expiresAt := now + wrap64 (ttlSeconds * second) in
    let status := nonEmptyBridgeLeaseStatus status "active" in
    let checkpointStage :=
      trim_space (firstNonEmptyString [derefString stage; status]) in
    PatchTaskMetadata taskID
      (lease_patch checkpointStage status bridgeID now expiresAt false tool summary).

(** [orchestratorgo/store/postgres.go:428-462] FinalizeLocalBridgeTaskLease. *)
Definition FinalizeLocalBridgeTaskLease (taskID bridgeID status : string)
    (stage tool summary : option string) : M Sys unit :=
  let taskID := trim_space taskID in
  let bridgeID := trim_space bridgeID in
  if (taskID =?s "") || (bridgeID =?s "") then ret tt
  else
    now <- time_now ;;
    let status := nonEmptyBridgeLeaseStatus status "completed" in
    let checkpointStage :=
      trim_space (firstNonEmptyString [derefString stage; status]) in
    PatchTaskMetadata taskID
      (lease_patch checkpointStage status bridgeID now now true tool summary).

(** ** Claiming *)

(** [orchestratorgo/store/postgres.go:1814-1826] getLocalBridgeForUpdateTx. *)
Definition getLocalBridgeForUpdateTx (bridgeID : string) :
    M Sys (option LocalBridgeResponse) := GetLocalBridge bridgeID.

(** [orchestratorgo/store/postgres.go:505-516] the task the bridge already holds. *)
Definition is_own (root bridgeID : string) (r : TaskRow) : bool :=
  claimable root r && active_state (row_state r) && (lease_owner r =?s bridgeID).
Definition own_task (root bridgeID : string) (s : Sys) : option TaskRow :=
  head (select (is_own root bridgeID) recently_updated_first (rows_of (tasks (pg s)))).

(** [orchestratorgo/store/postgres.go:541-563] requeueing the tasks whose lease,
    held by another bridge, has expired. The statement fails when it meets an
    expiry that is not a time. *)
Definition foreign_active (root bridgeID : string) (r : TaskRow) : bool :=
  claimable root r && active_state (row_state r) && negb (lease_owner r =?s bridgeID).
Definition lease_expired (now : Z) (r : TaskRow) : bool :=
  match lease_expires_at r with Some t => t <? now | None => false end.
Definition requeue_expired (now : Z) (r : TaskRow) : TaskRow :=
  let lease := default (VMap ∅) (row_metadata r !! "local_bridge_lease") in
  r <| row_state := TaskStateQueued |>
    <| row_retry_count := row_retry_count r + 1 |>
    <| row_queued_at := Some now |>
    <| row_updated_at := now |>
    <| row_metadata :=
         <["local_bridge_lease" := jsonb_concat lease (VMap
            (<["status" := VStr "expired"]>
             {["requeued_at" := VStr (timestamptz_out now)]}))]> (row_metadata r) |>.
Definition requeue_expired_leases (root bridgeID : string) (now : Z) : M Sys unit :=
  stmt (λ s,
    if bool_decide (Exists (λ r, foreign_active root bridgeID r = true ∧
                                 lease_expires_at r = None) (rows_of (tasks (pg s))))
    then (Err (ErrText "invalid input syntax for type timestamp with time zone"), s)
    else
      (Ok tt, update_tasks_where
         (λ r, foreign_active root bridgeID r && lease_expired now r)
         (requeue_expired now) s)).

(** [orchestratorgo/store/postgres.go:565-575] the next queued task. *)
Definition is_queued_for (root : string) (r : TaskRow) : bool :=
  claimable root r && bool_decide (row_state r = TaskStateQueued).
Definition next_queued (root : string) (s : Sys) : option TaskRow :=
  head (select (is_queued_for root) oldest_first (rows_of (tasks (pg s)))).

(** [orchestratorgo/store/postgres.go:490-600] ClaimNextLocalBridgeTaskWithTTL:
    the transaction, and the lease written after it has committed. *)
Definition claim_tx (bridgeID : string) (txnow : Z) :
    M Sys (TxEnd (option (TaskRow * LocalBridgeResponse * string))) :=
  bridge <- getLocalBridgeForUpdateTx bridgeID ;;
  match bridge with
  | None => ret (Rollback None)
  | Some bridge =>
      let root := bridge_workspace_root bridge in
      own <- query (own_task root bridgeID) ;;
      match own with
      | Some r =>
          now <- time_now ;;
          match row_state r with
          | TaskStateAssigned =>
              transitionTaskStateTx (row_id r) TaskStateAssigned TaskStateInProgress
                ("bridge:" +:+ bridgeID) "Execution resumed in local bridge" now
          | TaskStateRetrying =>
              transitionTaskStateTx (row_id r) TaskStateRetrying TaskStateInProgress
                ("bridge:" +:+ bridgeID) "Retry resumed in local bridge" now
          | _ => ret tt
          end ;;;
          ret (Commit (Some (r, bridge, "resumed")))
      | None =>
          requeue_expired_leases root bridgeID txnow ;;;
          next <- query (next_queued root) ;;
          match next with
          | None => ret (Commit None)
          | Some r =>
              now <- time_now ;;
              transitionTaskStateTx (row_id r) TaskStateQueued TaskStateAssigned
                ("bridge:" +:+ bridgeID) "Dequeued for local bridge" now ;;;
              transitionTaskStateTx (row_id r) TaskStateAssigned TaskStateInProgress
                ("bridge:" +:+ bridgeID) "Execution started in local bridge" now ;;;
              ret (Commit (Some (r, bridge, "claimed")))
          end
      end
  end.
Definition claim_finish (bridgeID : string) (leaseTTLSeconds : Z)
    (claimed : option (TaskRow * LocalBridgeResponse * string)) :
    M Sys (option LocalBridgeTaskClaimResponse) :=
  match claimed with
  | None => ret None
  | Some (r, bridge, status) =>
      TouchLocalBridgeTaskLease (row_id r) bridgeID leaseTTLSeconds status None None None ;;;
      ret (Some (buildLocalBridgeClaim (scanTask r) bridge))
  end.
Definition ClaimNextLocalBridgeTaskWithTTL (bridgeID : string) (leaseTTLSeconds : Z) :
    M Sys (option LocalBridgeTaskClaimResponse) :=
  claimed <- in_tx (claim_tx bridgeID) ;;
  claim_finish bridgeID leaseTTLSeconds claimed.

(** [orchestratorgo/store/postgres.go:486-488] ClaimNextLocalBridgeTask. *)
Definition ClaimNextLocalBridgeTask (bridgeID : string) :=
  ClaimNextLocalBridgeTaskWithTTL bridgeID 45.

End Bridges.

(** ** What a claim does *)

Section Claim.
Context `{Env}.

Definition resume_effect (b : string) (r : TaskRow) (reason id : string) (now : Z) :
    Sys → Sys :=
  transition_effect (row_id r) TaskStateInProgress now
    (MkTransition id (row_id r) (row_state r) TaskStateInProgress
       ("bridge:" +:+ b) reason now).
Definition start_effect (b : string) (r : TaskRow) (id1 id2 : string) (now : Z)
    (s : Sys) : Sys :=
  transition_effect (row_id r) TaskStateInProgress now
    (MkTransition id2 (row_id r) TaskStateAssigned TaskStateInProgress
       ("bridge:" +:+ b) "Execution started in local bridge" now)
    (transition_effect (row_id r) TaskStateAssigned now
      (MkTransition id1 (row_id r) TaskStateQueued TaskStateAssigned
         ("bridge:" +:+ b) "Dequeued for local bridge" now) s).
Definition after_requeue (root b : string) (now : Z) : Sys → Sys :=
  update_tasks_where (λ r, foreign_active root b r && lease_expired now r)
    (requeue_expired now).

Lemma own_task_spec root b s r :
  own_task root b s = Some r →
  is_own root b r = true ∧ ∃ k, get_row s k = Some r.
Proof.
  intros Hr. apply select_head in Hr as (Hin & Hp & _); [|apply _..].
  apply elem_of_rows_of in Hin. eauto.
Qed.

(** The queued task a claim takes: the oldest of those it may take. *)
Lemma next_queued_spec root s r :
  next_queued root s = Some r →
  is_queued_for root r = true ∧ (∃ k, get_row s k = Some r) ∧
  ∀ k r', get_row s k = Some r' → is_queued_for root r' = true → oldest_first r r'.
Proof.
  intros Hr. apply select_head in Hr as (Hin & Hp & Hmin); [|apply _..].
  apply elem_of_rows_of in Hin.
  split_and!; [done|done|]. intros k r' Hk. apply Hmin. apply elem_of_rows_of. eauto.
Qed.

Lemma requeue_ok root b now n s u n' s' :
  requeue_expired_leases root b now n s = (Ok u, (n', s')) →
  s' = after_requeue root b now s.
Proof.
  unfold requeue_expired_leases.
  intros [_ [(?&?&?&?)|[_ Hr]]]%stmt_inv; [done|]. case_bool_decide; by simplify_eq.
Qed.

Inductive claim_outcome (b : string) (txnow : Z) (s : Sys) :
    TxEnd (option (TaskRow * LocalBridgeResponse * string)) → Sys → Prop :=
  | outcome_unknown :
      local_bridges (pg s) !! b = None → claim_outcome b txnow s (Rollback None) s
  | outcome_holds bridge r :
      local_bridges (pg s) !! b = Some bridge →
      own_task (bridge_workspace_root bridge) b s = Some r →
      row_state r = TaskStateInProgress →
      claim_outcome b txnow s (Commit (Some (r, bridge, "resumed"))) s
  | outcome_resumes bridge r reason id now :
      local_bridges (pg s) !! b = Some bridge →
      own_task (bridge_workspace_root bridge) b s = Some r →
      row_state r = TaskStateAssigned ∨ row_state r = TaskStateRetrying →
      claim_outcome b txnow s (Commit (Some (r, bridge, "resumed")))
        (resume_effect b r reason id now s)
  | outcome_none bridge :
      local_bridges (pg s) !! b = Some bridge →
      own_task (bridge_workspace_root bridge) b s = None →
      next_queued (bridge_workspace_root bridge)
        (after_requeue (bridge_workspace_root bridge) b txnow s) = None →
      claim_outcome b txnow s (Commit None)
        (after_requeue (bridge_workspace_root bridge) b txnow s)
  | outcome_starts bridge r id1 id2 now :
      local_bridges (pg s) !! b = Some bridge →
      own_task (bridge_workspace_root bridge) b s = None →
      next_queued (bridge_workspace_root bridge)
        (after_requeue (bridge_workspace_root bridge) b txnow s) = Some r →
      claim_outcome b txnow s (Commit (Some (r, bridge, "claimed")))
        (start_effect b r id1 id2 now
          (after_requeue (bridge_workspace_root bridge) b txnow s)).

Lemma claim_tx_run b txnow n s x n' s' :
  claim_tx b txnow n s = (Ok x, (n', s')) → claim_outcome b txnow s x s'.
Proof.
  unfold claim_tx, getLocalBridgeForUpdateTx, GetLocalBridge. intros Hr. run_inv.
  destruct (local_bridges (pg s) !! b) as [bridge|] eqn:Hb; run_inv;
    [|by constructor].
  destruct (own_task (bridge_workspace_root bridge) b s) as [r|] eqn:Hown; run_inv.
  - apply own_task_spec in Hown as Hspec. destruct Hspec as [Hown' _].
    unfold is_own in Hown'. bool_to_prop.
    destruct Hown' as [[_ Hst%active_state_inv] _].
    destruct Hst as [Est|[Est|Est]]; rewrite Est in *; run_inv; try transition_inv.
    1, 3: rewrite <- Est at 1; eapply outcome_resumes; eauto.
    by eapply outcome_holds.
  - match goal with Hq : requeue_expired_leases _ _ _ _ _ = _ |- _ =>
      apply requeue_ok in Hq as -> end.
    destruct (next_queued _ _) as [r|] eqn:Hnext; run_inv.
    + repeat transition_inv. by eapply outcome_starts.
    + by eapply outcome_none.
Qed.

(** Ids as the uuid package prints them: no surrounding blanks, not empty. *)
Definition canonical (s : Sys) : Prop := ∀ id r, get_row s id = Some r →
  row_id r = id ∧ trim_space id = id ∧ id ≠ "".

Lemma lease_patch_nonempty st status b now exp rel tool summary :
  lease_patch st status b now exp rel tool summary ≠ ∅.
Proof. unfold lease_patch. apply insert_non_empty. Qed.

Definition patch_row (patch : gmap_any) (now : Z) (r : TaskRow) : TaskRow :=
  r <| row_metadata := jsonb_map patch ∪ row_metadata r |> <| row_updated_at := now |>.

Lemma PatchTaskMetadata_ok id patch n s u n' s' :
  PatchTaskMetadata id patch n s = (Ok u, (n', s')) → patch ≠ ∅ →
  s' = update_task id (patch_row patch (clock n)) s.
Proof.
  unfold PatchTaskMetadata, exec_now. intros Hr Hne.
  rewrite decide_False in Hr by done. by apply exec_ok in Hr as [-> _].
Qed.

(** Writing a lease makes the bridge the owner of the task until it expires. *)
Lemma Touch_ok id b ttl status stage tool summary n s u n' s' :
  TouchLocalBridgeTaskLease id b ttl status stage tool summary n s = (Ok u, (n', s')) →
  trim_space id ≠ "" → trim_space b ≠ "" →
  ∃ st status' now exp now',
    exp = now + wrap64 ((if ttl <=? 0 then 45 else ttl) * second) ∧ now = clock n ∧
    s' = update_task (trim_space id)
           (patch_row (lease_patch st status' (trim_space b) now exp false tool summary)
              now') s.
Proof.
  unfold TouchLocalBridgeTaskLease. intros Hr Hid Hb.
  apply String.eqb_neq in Hid, Hb. rewrite Hid, Hb in Hr. cbn [orb] in Hr.
  unfold bind, time_now in Hr. apply PatchTaskMetadata_ok in Hr as ->;
    [|apply lease_patch_nonempty].
  do 5 eexists. split_and!; done.
Qed.

(** The lease object of a patch, whatever the optional fields. *)
Lemma lease_patch_lookup st status b now exp tool summary now' r :
  ∃ lease,
    row_metadata (patch_row (lease_patch st status b now exp false tool summary) now' r)
      !! "local_bridge_lease" = Some (VMap lease) ∧
    lease !! "bridge_id" = Some (VStr b) ∧
    lease !! "lease_expires_at" = Some (VTime exp).
Proof.
  eexists. unfold patch_row, lease_patch; cbn [row_metadata update]. split_and!.
  - apply lookup_union_Some_l. unfold jsonb_map.
    by rewrite lookup_fmap, lookup_insert_eq.
  - rewrite lookup_fmap. destruct (blank (derefString tool)), (blank (derefString summary));
      rewrite ?lookup_insert_ne by done; by rewrite lookup_insert_eq.
  - rewrite lookup_fmap. destruct (blank (derefString tool)), (blank (derefString summary));
      rewrite ?lookup_insert_ne by done; by rewrite lookup_singleton_eq.
Qed.

Lemma lease_patch_owner st status b now exp tool summary now' r :
  lease_owner (patch_row (lease_patch st status b now exp false tool summary) now' r) = b.
Proof.
  destruct (lease_patch_lookup st status b now exp tool summary now' r)
    as (lease & Hl & Hb & _).
  unfold lease_owner, arrow_arrow_text. rewrite Hl. unfold arrow_text. by rewrite Hb.
Qed.

Lemma lease_patch_expiry st status b now exp tool summary now' r :
  lease_expires_at
    (patch_row (lease_patch st status b now exp false tool summary) now' r)
  = Some (truncate_second exp).
Proof.
  destruct (lease_patch_lookup st status b now exp tool summary now' r)
    as (lease & Hl & _ & He).
  unfold lease_expires_at. by rewrite Hl, He.
Qed.

Lemma Touch_err id b ttl status stage tool summary n s e n' s' :
  TouchLocalBridgeTaskLease id b ttl status stage tool summary n s = (Err e, (n', s')) →
  s' = s.
Proof.
  unfold TouchLocalBridgeTaskLease, PatchTaskMetadata. case_match; [done|].
  unfold bind, time_now. rewrite decide_False by apply lease_patch_nonempty.
  unfold exec_now, exec. intros [_ [(?&_&_&?)|[_ ?]]]%stmt_inv; [done|].
  unfold update_task in *. by simplify_eq.
Qed.

Lemma Claim_run b ttl n s r n' s' :
  ClaimNextLocalBridgeTaskWithTTL b ttl n s = (r, (n', s')) →
  (s' = s ∧ ((∃ e, r = Err e) ∨ r = Ok None)) ∨
  ∃ x s1, claim_outcome b (clock n) s (Commit x) s1 ∧
    match x with
    | None => r = Ok None ∧ s' = s1
    | Some (row, bridge, status) =>
        ((∃ e, r = Err e) ∧ s' = s1) ∨
        r = Ok (Some (buildLocalBridgeClaim (scanTask row) bridge)) ∧
        ∃ u n1 n2, TouchLocalBridgeTaskLease (row_id row) b ttl status None None None n1 s1
                 = (Ok u, (n2, s'))
    end.
Proof.
  unfold ClaimNextLocalBridgeTaskWithTTL, claim_finish.
  intros [(e & Hrun & ->)|(x & n1 & s1 & Hrun & Hrest)]%bind_inv.
  { apply in_tx_err in Hrun as ->. eauto. }
  apply in_tx_ok in Hrun as (n2 & s2 & [[Hr ->]|[Hr ->]]);
    apply claim_tx_run in Hr.
  - right. exists x, s2. split; [done|].
    destruct x as [[[row bridge] status]|]; [|unfold ret in Hrest; by simplify_eq].
    apply bind_inv in Hrest as [(e & Ht & ->)|(u & n3 & s3 & Ht & Hret)].
    + apply Touch_err in Ht as ->. eauto.
    + unfold ret in Hret. simplify_eq. eauto 10.
  - left. inversion Hr; subst. unfold ret in Hrest. by simplify_eq; eauto.
Qed.

Definition may_take (b : string) (now : Z) (r : TaskRow) : Prop :=
  (active_state (row_state r) = true ∧ lease_owner r = b) ∨
  row_state r = TaskStateQueued ∨
  (active_state (row_state r) = true ∧ lease_owner r ≠ b ∧ lease_expired now r = true).

Lemma foreign_active_inv root b r :
  foreign_active root b r = true →
  claimable root r = true ∧ active_state (row_state r) = true ∧ lease_owner r ≠ b.
Proof.
  unfold foreign_active. rewrite !andb_true_iff, negb_true_iff, String.eqb_neq. tauto.
Qed.

(** The row the committed transaction picked, and how it found it. *)
Lemma claim_outcome_row b txnow s row bridge status s1 :
  canonical s →
  claim_outcome b txnow s (Commit (Some (row, bridge, status))) s1 →
  ∃ r, get_row s (row_id row) = Some r ∧ row_id r = row_id row ∧
    local_bridges (pg s) !! b = Some bridge ∧
    claimable (bridge_workspace_root bridge) r = true ∧ may_take b txnow r ∧
    ∃ r1, get_row s1 (row_id row) = Some r1 ∧ row_state r1 = TaskStateInProgress.
Proof.
  intros Hcan Hout. inversion Hout as [|? ? Hb Hown Hst|? ? ? ? ? Hb Hown Hst| |
    ? ? ? ? ? Hb _ Hnext]; subst.
  - apply own_task_spec in Hown as [Hown (k & Hk)]. destruct (Hcan _ _ Hk) as (<- & _).
    unfold is_own in Hown. bool_to_prop. destruct Hown as [[Hc Ha] Ho].
    exists row. split_and!; try done; [by left|]. eauto.
  - apply own_task_spec in Hown as [Hown (k & Hk)]. destruct (Hcan _ _ Hk) as (<- & _).
    unfold is_own in Hown. bool_to_prop. destruct Hown as [[Hc Ha] Ho].
    exists row. split_and!; try done; [by left|].
    unfold resume_effect. rewrite get_row_transition_eq, Hk. by eexists.
  - apply next_queued_spec in Hnext as (Hq & (k & Hk) & _).
    unfold after_requeue in Hk. rewrite get_row_update_where in Hk.
    destruct (get_row s k) as [r|] eqn:Hr; [|done]. cbn in Hk.
    destruct (Hcan _ _ Hr) as (Hid & _).
    assert (row_id row = row_id r) as Hrow by (case_match; simplify_eq; done).
    unfold start_effect. rewrite Hrow, Hid, Hr.
    exists r. split_and!; try done.
    + destruct (foreign_active _ _ _ && _) eqn:Hf; simplify_eq.
      * apply andb_true_iff in Hf as [Hf _]. apply foreign_active_inv in Hf as [? _]. done.
      * unfold is_queued_for in Hq. by apply andb_true_iff in Hq as [? _].
    + destruct (foreign_active _ _ _ && _) eqn:Hf; simplify_eq.
      * apply andb_true_iff in Hf as [Hf He]. apply foreign_active_inv in Hf as (_ & ? & ?).
        right; right. done.
      * right; left. unfold is_queued_for in Hq.
        apply andb_true_iff in Hq as [_ Hq]. by apply bool_decide_eq_true in Hq.
    + rewrite !get_row_transition_eq. unfold after_requeue.
      rewrite get_row_update_where, Hr. by eexists.
Qed.

(** A claim hands out a task the bridge may work on (local, for a coding,
    research or review agent, not archived, in the bridge's workspace) that it
    already holds, that is queued, or whose lease another bridge has let expire
    at the transaction's NOW(); afterwards the task is in progress and leased to
    the claiming bridge for the time to live asked for (45 seconds when that is
    not positive), to the second. *)
Theorem claim_takes b ttl n s :
  canonical s → trim_space b = b → b ≠ "" →
  match ClaimNextLocalBridgeTaskWithTTL b ttl n s with
  | (Ok (Some c), (_, s')) =>
      ∃ r r' bridge leased,
        get_row s (claim_task c) = Some r ∧
        local_bridges (pg s) !! b = Some bridge ∧
        claimable (bridge_workspace_root bridge) r = true ∧
        may_take b (clock n) r ∧
        get_row s' (claim_task c) = Some r' ∧
        row_state r' = TaskStateInProgress ∧ lease_owner r' = b ∧
        lease_expires_at r' = Some (truncate_second
          (clock leased + wrap64 ((if ttl <=? 0 then 45 else ttl) * second)))
  | _ => True
  end.
Proof.
  intros Hcan Htrim Hne.
  destruct (ClaimNextLocalBridgeTaskWithTTL b ttl n s) as [res [n' s']] eqn:Hrun.
  destruct res as [[c|]|]; [|done..].
  apply Claim_run in Hrun as [[_ [[? ?]|?]]|(x & s1 & Hout & Hx)]; [done..|].
  destruct x as [[[row bridge] status]|]; [|by destruct Hx].
  destruct Hx as [[[? ?] _]|([= ->] & u & n1 & n2 & Ht)]; [done|].
  apply (claim_outcome_row _ _ _ _ _ _ _ Hcan) in Hout as
    (r & Hr & Hid & Hb & Hc & Hmay & r1 & Hr1 & Hst).
  destruct (Hcan _ _ Hr) as (_ & Hidt & Hidne).
  apply Touch_ok in Ht as (st & status' & now & exp & now' & -> & -> & ->);
    [|congruence..].
  rewrite Hidt, Htrim. cbn [claim_task buildLocalBridgeClaim scanTask task_id].
  exists r. eexists. exists bridge, n1. rewrite get_row_update_eq, Hr1.
  split_and!; try done; [apply lease_patch_owner|apply lease_patch_expiry].
Qed.

(** Rows a requeue does not select are left alone. *)
Lemma after_requeue_other root b now s k r :
  get_row s k = Some r → foreign_active root b r && lease_expired now r = false →
  get_row (after_requeue root b now s) k = Some r.
Proof. intros Hr Hf. unfold after_requeue. by rewrite get_row_update_where, Hr; cbn; rewrite Hf. Qed.

Lemma claim_outcome_other b txnow s x s1 k r :
  canonical s → claim_outcome b txnow s x s1 → get_row s k = Some r →
  ¬ may_take b txnow r →
  get_row s1 k = Some r ∧
  ∀ row bridge status, x = Commit (Some (row, bridge, status)) → row_id row ≠ k.
Proof.
  intros Hcan Hout Hr Hno.
  assert (Hdiff : ∀ row bridge status, x = Commit (Some (row, bridge, status)) →
    row_id row ≠ k).
  { intros row bridge status -> <-.
    apply (claim_outcome_row _ _ _ _ _ _ _ Hcan) in Hout as (r' & Hr' & _ & _ & _ & Hm & _).
    by simplify_eq. }
  split; [|done].
  assert (Hreq : ∀ root, foreign_active root b r && lease_expired txnow r = false).
  { intros root. apply not_true_iff_false. intros [Hf He]%andb_true_iff.
    apply foreign_active_inv in Hf as (_ & ? & ?). apply Hno. right; right. done. }
  inversion Hout; subst; try done.
  - unfold resume_effect. rewrite get_row_transition_ne; [done|]. by eapply Hdiff.
  - by apply after_requeue_other.
  - unfold start_effect. rewrite !get_row_transition_ne by by eapply Hdiff.
    by apply after_requeue_other.
Qed.

(** C10: leases exclude: while a task is being worked on under another bridge's
    lease that has not expired at the claiming transaction's NOW(), a claim
    neither returns that task nor changes its row, however the claim ends. *)
Theorem lease_excludes_others b ttl n s k r t :
  canonical s → trim_space b = b → b ≠ "" →
  get_row s k = Some r → active_state (row_state r) = true →
  lease_owner r ≠ b → lease_expires_at r = Some t → clock n <= t →
  let '(res, (_, s')) := ClaimNextLocalBridgeTaskWithTTL b ttl n s in
  get_row s' k = Some r ∧ ∀ c, res = Ok (Some c) → claim_task c ≠ k.
Proof.
  intros Hcan Htrim Hne Hr Hact Hown Hexp Ht.
  assert (Hno : ¬ may_take b (clock n) r).
  { intros [[_ Ho]|[Hq|(_ & _ & He)]]; [done|by rewrite Hq in Hact|].
    unfold lease_expired in He. rewrite Hexp in He. lia. }
  destruct (ClaimNextLocalBridgeTaskWithTTL b ttl n s) as [res [n' s']] eqn:Hrun.
  apply Claim_run in Hrun as [[-> Hres]|(x & s1 & Hout & Hx)].
  { split; [done|]. intros c ->. by destruct Hres as [[? ?]|?]. }
  destruct (claim_outcome_other _ _ _ _ _ _ _ Hcan Hout Hr Hno) as [Hr1 Hdiff].
  destruct x as [[[row bridge] status]|]; [|destruct Hx as [-> ->]; by split].
  specialize (Hdiff _ _ _ eq_refl).
  destruct Hx as [[[e ->] ->]|(-> & u & n1 & n2 & Htouch)]; [by split|].
  apply (claim_outcome_row _ _ _ _ _ _ _ Hcan) in Hout as (r0 & Hr0 & _).
  destruct (Hcan _ _ Hr0) as (_ & Hidt & Hidne).
  apply Touch_ok in Htouch as (? & ? & ? & ? & ? & _ & _ & ->); [|congruence..].
  rewrite Hidt, get_row_update_ne by done. split; [done|]. intros c [= <-]. exact Hdiff.
Qed.
End Claim.

(** ** Claims keep the contract *)
Section ClaimEvolves.
Context `{Env}.

Lemma requeue_expired_evolves now r :
  active_state (row_state r) = true → row_evolves r (requeue_expired now r).
Proof.
  intros Ha. split; [done|]. apply rtc_once, edge_requeue.
  by apply bool_decide_eq_true in Ha.
Qed.

Lemma after_requeue_evolves root b now s : evolves s (after_requeue root b now s).
Proof.
  apply evolves_update_where. intros r [Hf _]%andb_true_iff.
  apply foreign_active_inv in Hf as (_ & ? & _). by apply requeue_expired_evolves.
Qed.

Lemma claim_outcome_evolves b txnow s x s1 :
  keyed s → claim_outcome b txnow s x s1 → evolves s s1.
Proof.
  intros Hk Hout. inversion Hout as [| |? ? ? ? ? Hb Hown Hst| |? ? ? ? ? Hb _ Hnext];
    subst; try done; try apply after_requeue_evolves.
  - apply own_task_spec in Hown as [_ (k & Hr)]. pose proof (Hk _ _ Hr) as <-.
    eapply evolves_transition; [done|]. apply edge_valid.
    by destruct Hst as [-> | ->].
  - etrans; [apply after_requeue_evolves|]. unfold start_effect.
    apply next_queued_spec in Hnext as (Hq & (k & Hr) & _).
    pose proof (evolves_keyed _ _ (after_requeue_evolves _ b txnow s) Hk _ _ Hr) as <-.
    apply andb_true_iff in Hq as [_ Hq]. apply bool_decide_eq_true in Hq.
    etrans; eapply evolves_transition; [done| |by rewrite get_row_transition_eq, Hr|];
      apply edge_valid; [by rewrite Hq|done].
Qed.

Lemma Touch_evolves id b ttl status stage tool summary :
  respects evolves (TouchLocalBridgeTaskLease id b ttl status stage tool summary).
Proof. unfold TouchLocalBridgeTaskLease. solve_respects. Qed.
Lemma Finalize_evolves id b status stage tool summary :
  respects evolves (FinalizeLocalBridgeTaskLease id b status stage tool summary).
Proof. unfold FinalizeLocalBridgeTaskLease. solve_respects. Qed.

Lemma Claim_keeps b ttl : respects keeps (ClaimNextLocalBridgeTaskWithTTL b ttl).
Proof.
  intros n s r n' s' Hrun Hk.
  apply Claim_run in Hrun as [[-> _]|(x & s1 & Hout & Hx)]; [done|].
  etrans; [by eapply claim_outcome_evolves|].
  destruct x as [[[row bridge] status]|]; [|by destruct Hx as [_ ->]].
  destruct Hx as [[_ ->]|(_ & u & n1 & n2 & Ht)]; [done|]. by eapply Touch_evolves.
Qed.

Lemma UpsertLocalBridge_evolves params : respects evolves (UpsertLocalBridge params).
Proof.
  unfold UpsertLocalBridge, GetLocalBridge. solve_respects.
  apply respects_exec; [apply _|]. intros s. by apply evolves_other_tables.
Qed.
Lemma HeartbeatLocalBridge_evolves b status :
  respects evolves (HeartbeatLocalBridge b status).
Proof.
  unfold HeartbeatLocalBridge, GetLocalBridge. solve_respects.
  apply respects_stmt; [apply _|]. intros s. by apply evolves_other_tables.
Qed.
End ClaimEvolves.
#[export] Hint Resolve Touch_evolves Finalize_evolves Claim_keeps
  UpsertLocalBridge_evolves HeartbeatLocalBridge_evolves : respects.

(** ** A claim makes progress *)
Section ClaimProgress.
Context `{Env}.

Lemma transition_calm id from to actor reason now n s :
  calm → ∃ n' s', transitionTaskStateTx id from to actor reason now n s = (Ok tt, (n', s')).
Proof.
  intros Hcalm. unfold transitionTaskStateTx, bind, new_uuid.
  rewrite exec_calm by done. rewrite exec_calm by done. eauto.
Qed.

Lemma Touch_calm id b ttl status n s :
  calm → ∃ n' s', TouchLocalBridgeTaskLease id b ttl status None None None n s
                  = (Ok tt, (n', s')).
Proof.
  intros Hcalm. unfold TouchLocalBridgeTaskLease, PatchTaskMetadata.
  case_match; [by do 2 eexists|]. unfold bind, time_now.
  rewrite decide_False by apply lease_patch_nonempty. unfold exec_now.
  rewrite exec_calm by done. by do 2 eexists.
Qed.

Lemma select_none {A} (p : A → bool) le `{!RelDecision le, !Total le, !Transitive le} l :
  head (select p le l) = None → ∀ y, y ∈ l → p y = false.
Proof. intros Hn. apply (select_nil p le). by destruct (select p le l). Qed.

Lemma claim_tx_calm b txnow n s bridge :
  calm → local_bridges (pg s) !! b = Some bridge →
  (∀ r, r ∈ rows_of (tasks (pg s)) →
    foreign_active (bridge_workspace_root bridge) b r = true →
    lease_expires_at r ≠ None) →
  ∃ x n' s', claim_tx b txnow n s = (Ok (Commit x), (n', s')).
Proof.
  intros Hcalm Hb Hexp. unfold claim_tx, getLocalBridgeForUpdateTx, GetLocalBridge.
  unfold bind. rewrite query_calm, Hb by done. rewrite query_calm by done.
  destruct (own_task (bridge_workspace_root bridge) b s) as [r|].
  - unfold time_now. destruct (row_state r); cbn [ret]; try by do 3 eexists.
    all: match goal with |- context [transitionTaskStateTx ?i ?f ?t ?a ?re ?nw ?n ?s] =>
      destruct (transition_calm i f t a re nw n s Hcalm) as (? & ? & ->) end;
      by do 3 eexists.
  - unfold requeue_expired_leases. rewrite stmt_calm by done.
    rewrite bool_decide_false.
    2: { rewrite Exists_exists. intros (r & Hin & Hf & He). by eapply Hexp. }
    cbn [fst snd]. rewrite query_calm by done.
    destruct (next_queued _ _) as [r|]; [|by do 3 eexists]. unfold time_now.
    match goal with |- context [transitionTaskStateTx ?i ?f ?t ?a ?re ?nw ?n ?s] =>
      destruct (transition_calm i f t a re nw n s Hcalm) as (? & ? & ->) end.
    match goal with |- context [transitionTaskStateTx ?i ?f ?t ?a ?re ?nw ?n ?s] =>
      destruct (transition_calm i f t a re nw n s Hcalm) as (? & ? & ->) end.
    by do 3 eexists.
Qed.

(** C32: when no statement fails, the bridge is registered, no lease it could
    inherit has a malformed expiry, and some task it may work on is queued or
    already its own, a claim does return a task. *)
Theorem claim_progress b ttl n s bridge k r :
  calm → local_bridges (pg s) !! b = Some bridge →
  (∀ k' r', get_row s k' = Some r' →
    foreign_active (bridge_workspace_root bridge) b r' = true →
    lease_expires_at r' ≠ None) →
  get_row s k = Some r →
  is_own (bridge_workspace_root bridge) b r = true
    ∨ is_queued_for (bridge_workspace_root bridge) r = true →
  ∃ c, (ClaimNextLocalBridgeTaskWithTTL b ttl n s).1 = Ok (Some c).
Proof.
  intros Hcalm Hb Hexp Hr Hready.
  assert (Hin : r ∈ rows_of (tasks (pg s))) by (apply elem_of_rows_of; by exists k).
  destruct (claim_tx_calm b (clock n) (N.succ n) s bridge Hcalm Hb) as
    (x & n1 & s1 & Htx).
  { intros r' (k' & Hk')%elem_of_rows_of Hf. by eapply Hexp. }
  assert (Hx : x ≠ None).
  { intros ->. apply claim_tx_run in Htx. inversion Htx as [| | |? Hb' Hown Hnext|]; subst.
    simplify_eq. destruct Hready as [Ho|Hq].
    - pose proof (select_none _ _ _ Hown _ Hin). congruence.
    - assert (r ∈ rows_of (tasks (pg (after_requeue (bridge_workspace_root bridge)
        b (clock n) s)))) as Hin'.
      { apply elem_of_rows_of. exists k. apply after_requeue_other; [done|].
        apply andb_false_iff; left; apply not_true_iff_false.
        intros (_ & Ha & _)%foreign_active_inv.
        apply andb_true_iff in Hq as [_ Hq%bool_decide_eq_true]. by rewrite Hq in Ha. }
      pose proof (select_none _ _ _ Hnext _ Hin'). congruence. }
  destruct x as [[[row bridge'] status]|]; [|done].
  unfold ClaimNextLocalBridgeTaskWithTTL, claim_finish, bind. rewrite in_tx_calm, Htx by done.
  destruct (Touch_calm (row_id row) b ttl status (N.succ n1) s1 Hcalm) as (n2 & s2 & ->).
  by eexists.
Qed.
End ClaimProgress.

(** ** Concrete runs *)

Definition demo_t0 : Z := unix_epoch + 1700000000 * second.
Definition demo_env : Env := quiet_env demo_t0.
Definition local_task (description : string) : CreateTaskParams :=
  MkCreateTask description {["workspace_root" := VStr "/w"]} [] "normal" "coder" None
    "local" None "api" None None None None "" true.
Definition demo_bridge (id : string) : UpsertLocalBridgeParams :=
  MkUpsertBridge id id "laptop" "/w" ∅ None "".
(** Two bridges on one workspace and two queued tasks. *)
Definition bridge_setup `{Env} : M Sys unit :=
  UpsertLocalBridge (demo_bridge "b1") ;;; UpsertLocalBridge (demo_bridge "b2") ;;;
  CreateTask (local_task "first") ;;; CreateTask (local_task "second") ;;; ret tt.
Definition bridge_demo : Sys := Eval vm_compute in
  (@bridge_setup demo_env 0%N empty_sys).2.2.
(** .. and the first task claimed by [b1]. *)
Definition claimed_demo : Sys := Eval vm_compute in
  (@ClaimNextLocalBridgeTaskWithTTL demo_env "b1" 45 100%N bridge_demo).2.2.

Lemma canonical_by_compute s :
  bool_decide (map_Forall (λ id r, row_id r = id ∧ trim_space id = id ∧ id ≠ "")
    (tasks (pg s))) = true → canonical s.
Proof. intros Hb. apply bool_decide_eq_true in Hb. exact Hb. Qed.

Definition claimed_id (r : res (option LocalBridgeTaskClaimResponse)) : option string :=
  match r with Ok (Some c) => Some (claim_task c) | _ => None end.

Lemma claim_takes_witness :
  canonical bridge_demo ∧ trim_space "b1" = "b1" ∧ "b1" ≠ "" ∧
  claimed_id (@ClaimNextLocalBridgeTaskWithTTL demo_env "b1" 45 100%N bridge_demo).1
    = Some "id-6" ∧
  match @ClaimNextLocalBridgeTaskWithTTL demo_env "b1" 45 100%N bridge_demo with
  | (Ok (Some c), (_, s')) =>
      ∃ r r' bridge leased,
        get_row bridge_demo (claim_task c) = Some r ∧
        local_bridges (pg bridge_demo) !! "b1" = Some bridge ∧
        claimable (bridge_workspace_root bridge) r = true ∧
        @may_take demo_env "b1" (@clock demo_env 100%N) r ∧
        get_row s' (claim_task c) = Some r' ∧
        row_state r' = TaskStateInProgress ∧ lease_owner r' = "b1" ∧
        @lease_expires_at demo_env r' = Some (truncate_second
          (@clock demo_env leased + wrap64 (45 * second)))
  | _ => False
  end.
Proof.
  assert (canonical bridge_demo) as Hc by (apply canonical_by_compute; by vm_compute).
  assert (trim_space "b1" = "b1") as Ht by reflexivity.
  assert ("b1" ≠ "") as Hn by discriminate.
  pose proof (@claim_takes demo_env "b1" 45 100%N bridge_demo Hc Ht Hn) as Hclaim.
  assert (claimed_id (@ClaimNextLocalBridgeTaskWithTTL demo_env "b1" 45 100%N bridge_demo).1
    = Some "id-6") as Hid by (vm_compute; reflexivity).
  split; [exact Hc|]. split; [exact Ht|]. split; [exact Hn|]. split; [exact Hid|].
  destruct (@ClaimNextLocalBridgeTaskWithTTL demo_env "b1" 45 100%N bridge_demo)
    as [[[c|]|e] [n' s']]; [exact Hclaim|discriminate Hid|discriminate Hid].
Defined.

Lemma lease_excludes_others_witness :
  ∃ r t, canonical claimed_demo ∧ get_row claimed_demo "id-6" = Some r ∧
    active_state (row_state r) = true ∧ lease_owner r = "b1" ∧
    @lease_expires_at demo_env r = Some t ∧ @clock demo_env 120%N <= t ∧
    let '(res, (_, s')) :=
      @ClaimNextLocalBridgeTaskWithTTL demo_env "b2" 45 120%N claimed_demo in
    get_row s' "id-6" = Some r ∧ ∀ c, res = Ok (Some c) → claim_task c ≠ "id-6".
Proof.
  assert (Hfacts : match get_row claimed_demo "id-6" with
    | Some r => active_state (row_state r) && (lease_owner r =?s "b1")
        && match @lease_expires_at demo_env r with
           | Some t => @clock demo_env 120%N <=? t
           | None => false
           end
    | None => false
    end = true) by (vm_compute; reflexivity).
  assert (canonical claimed_demo) as Hc by (apply canonical_by_compute; vm_compute; reflexivity).
  destruct (get_row claimed_demo "id-6") as [r|] eqn:Hr; [|discriminate Hfacts].
  apply andb_true_iff in Hfacts as [Hfacts Hle].
  apply andb_true_iff in Hfacts as [Ha Ho]. apply String.eqb_eq in Ho.
  destruct (@lease_expires_at demo_env r) as [t|] eqn:Ht; [|discriminate Hle].
  apply Z.leb_le in Hle.
  exists r, t. split; [exact Hc|]. split; [reflexivity|]. split; [exact Ha|].
  split; [exact Ho|]. split; [exact Ht|]. split; [exact Hle|].
  apply (@lease_excludes_others demo_env "b2" 45 120%N claimed_demo "id-6" r t Hc);
    [reflexivity|discriminate|exact Hr|exact Ha|rewrite Ho; discriminate|exact Ht|exact Hle].
Defined.

Lemma claim_progress_witness :
  ∃ c, (@ClaimNextLocalBridgeTaskWithTTL demo_env "b2" 45 100%N bridge_demo).1 = Ok (Some c).
Proof.
  assert (Hfacts : match local_bridges (pg bridge_demo) !! "b2",
                         get_row bridge_demo "id-6" with
    | Some bridge, Some r => is_queued_for (bridge_workspace_root bridge) r
    | _, _ => false
    end = true) by (vm_compute; reflexivity).
  destruct (local_bridges (pg bridge_demo) !! "b2") as [bridge|] eqn:Hb;
    [|discriminate Hfacts].
  destruct (get_row bridge_demo "id-6") as [r|] eqn:Hr; [|discriminate Hfacts].
  apply (@claim_progress demo_env "b2" 45 100%N bridge_demo bridge "id-6" r).
  - apply quiet_env_calm.
  - exact Hb.
  - intros k' r' Hk' Hf. apply foreign_active_inv in Hf as (_ & Ha & _).
    assert (map_Forall (λ _ r, active_state (row_state r) = false) (tasks (pg bridge_demo)))
      as Hall by (apply (bool_decide_unpack _); vm_compute; exact I).
    apply Hall in Hk'. congruence.
  - exact Hr.
  - right. exact Hfacts.
Defined.

(** [b1]'s claim commits, [b2] makes a whole claim, then [b1] writes its lease. *)
Definition claim_in_window `{Env} (b1 b2 : string) (n : N) (s : Sys) :
    option string * option string :=
  let '(first, (n1, s1)) := in_tx (claim_tx b1) n s in
  let '(second, (n2, s2)) := ClaimNextLocalBridgeTaskWithTTL b2 45 n1 s1 in
  (match first with
   | Ok claimed => claimed_id (claim_finish b1 45 claimed n2 s2).1
   | Err _ => None
   end, claimed_id second).

(** the lease is written after the claim has committed, so between the two
    another bridge finds an active task without an unexpired lease: when [b2]
    claims in that window, both bridges are handed the same task, although a
    second queued task is waiting. *)
Theorem claim_window_double_claim :
  @claim_in_window demo_env "b1" "b2" 100%N bridge_demo = (Some "id-6", Some "id-6") ∧
  row_state <$> get_row bridge_demo "id-16" = Some TaskStateQueued.
Proof. split; vm_compute; reflexivity. Qed.
