(* ===== verification/Queue.v ===== *)
(** * The Redis work queues ([store/redis.go])

    One sorted set per agent; the score orders by priority, then by the time of
    the enqueue.  Scores are float64: every operation of the score rounds to 53
    bits, ties to even, which is modelled exactly. *)
From S2P Require Import Prelude GoVal Effects Domain Schema.

(** ** Positive float64 values

    A value is an integer number of units of [2^-80]; every score is far above
    the smallest unit that needs. *)
Definition fl_unit : Z := 2 ^ 80.
(** The float64 nearest to [n / d] units. *)
Definition fl_pos (n d : Z) : Z :=
  let ulp := 2 ^ Z.max 0 (Z.log2 (n / d) - 52) in
  round_half_even n (d * ulp) * ulp.
Definition fl_div (n d : Z) : Z := if n <? 0 then - fl_pos (- n) d else fl_pos n d.

(** [orchestratorgo/store/redis.go:24-29] priorityWeights: the zero value for a
    priority that is not in the map. *)
Definition priorityWeights (priority : string) : Z :=
  if priority =?s PriorityCritical then 0
  else if priority =?s PriorityHigh then 1
  else if priority =?s PriorityNormal then 2
  else if priority =?s PriorityLow then 3
  else 0.

Definition unix_nano (t : Z) : Z := wrap64 (t - unix_epoch).

(** [orchestratorgo/store/redis.go:48-48] the score of a task. *)
Definition queue_score (priority : string) (now : Z) : Z :=
  let seconds := fl_div (fl_div (unix_nano now * fl_unit) 1) 1000000000 in
  fl_div (priorityWeights priority * 10 ^ 12 * fl_unit + seconds) 1.

(** ** Operations *)
Definition agent_queue (s : Sys) (agent : string) : gmap string Z :=
  default ∅ (redis s !! agent).
(** [ZPOPMIN]: least score first, then the member's bytes. *)
Definition lowest_score_first : relation (string * Z) :=
  by_key (λ p, (p.2, p.1)) (lex2 Z.le String.le).
#[export] Instance lowest_score_first_dec : RelDecision lowest_score_first.
Proof. unfold lowest_score_first. apply _. Defined.
#[export] Instance lowest_score_first_total : Total lowest_score_first.
Proof. unfold lowest_score_first. apply _. Qed.
#[export] Instance lowest_score_first_trans : Transitive lowest_score_first.
Proof. unfold lowest_score_first. apply _. Qed.
Definition zmin (q : gmap string Z) : option (string * Z) :=
  head (select (λ _, true) lowest_score_first (map_to_list q)).

Section Queue.
Context `{Env}.

(** [orchestratorgo/store/redis.go:47-53] EnqueueTask. *)
Definition EnqueueTask (taskID agentType priority : string) : M Sys unit :=
  now <- time_now ;;
  exec (λ s, s <| redis :=
    <[agentType := <[taskID := queue_score priority now]> (agent_queue s agentType)]>
      (redis s) |>).

(** [orchestratorgo/store/redis.go:55-68] DequeueTask. *)
Definition DequeueTask (agentType : string) : M Sys (option string) := stmt (λ s,
  match zmin (agent_queue s agentType) with
  | None => (Ok None, s)
  | Some (member, _) =>
      (Ok (Some member),
       s <| redis := <[agentType := delete member (agent_queue s agentType)]> (redis s) |>)
  end).

(** [orchestratorgo/store/redis.go:70-72] QueueDepth. *)
Definition QueueDepth (agentType : string) : M Sys Z :=
  query (λ s, Z.of_nat (size (agent_queue s agentType))).

(** [orchestratorgo/store/redis.go:74-84] TotalQueueDepth. *)
Definition TotalQueueDepth : M Sys Z :=
  for_each [AgentTypePlanner; AgentTypeCoder; AgentTypeReviewer; AgentTypeInfra;
            AgentTypeResearcher] 0
    (λ total agentType, depth <- QueueDepth agentType ;; ret (total + depth)).
End Queue.

(** ** Rounding *)

(** The relative error of one rounding is at most [2^-53]. *)
Lemma fl_pos_error n d :
  0 < d → 2 ^ 53 * d <= n →
  2 ^ 53 * Z.abs (fl_pos n d * d - n) <= n.
Proof.
  intros Hd Hn. unfold fl_pos.
  assert (Hq : 2 ^ 53 <= n / d) by (apply Z.div_le_lower_bound; lia).
  assert (Hlog : 53 <= Z.log2 (n / d)).
  { apply Z.log2_le_pow2; lia. }
  rewrite Z.max_r by lia.
  set (u := 2 ^ (Z.log2 (n / d) - 52)).
  assert (Hu : 0 < u) by (apply Z.pow_pos_nonneg; lia).
  pose proof (round_half_even_bounds n (d * u) ltac:(nia)) as Hb.
  assert (Hpow : 2 ^ 52 * u <= n / d).
  { unfold u. rewrite <- Z.pow_add_r by lia.
    replace (52 + (Z.log2 (n / d) - 52)) with (Z.log2 (n / d)) by lia.
    apply Z.log2_spec. lia. }
  assert (n / d * d <= n) by (pose proof (Z.mul_div_le n d Hd); lia).
  assert (2 ^ 52 * u * d <= n) by nia.
  set (k := round_half_even n (d * u)) in *. nia.
Qed.

(** ** Scores order by priority, then by time *)

Definition millisecond : Z := 1000000.

(** Times from the first microsecond of 1970 that an int64 of nanoseconds can
    hold. *)
Definition representable (t : Z) : Prop := unix_epoch + 1000 <= t < unix_epoch + 2 ^ 63.

Lemma queue_score_error priority now :
  representable now →
  let x := now - unix_epoch in
  let w := priorityWeights priority * 10 ^ 12 * 1000000000 in
  let exact := (w + x) * fl_unit in
  2 ^ 53 * Z.abs (queue_score priority now * 1000000000 - exact)
    <= (w + 4 * x) * fl_unit.
Proof.
  intros [Hlo Hhi] x w exact. unfold queue_score, unix_nano.
  rewrite wrap64_small by lia. fold x.
  assert (1000 <= x < 2 ^ 63) as Hx by lia.
  assert (Hw : 0 <= priorityWeights priority <= 3)
    by (unfold priorityWeights; repeat case_match; lia).
  unfold exact, w. clear exact w. clearbody x. clear Hlo Hhi.
  change fl_unit with 1208925819614629174706176.
  unfold fl_div at 3. rewrite (proj2 (Z.ltb_ge _ _)) by lia.
  pose proof (fl_pos_error (x * 1208925819614629174706176) 1 ltac:(lia) ltac:(lia)) as Ha.
  set (a := fl_pos (x * 1208925819614629174706176) 1) in *.
  unfold fl_div at 2. rewrite (proj2 (Z.ltb_ge _ _)) by lia.
  pose proof (fl_pos_error a 1000000000 ltac:(lia) ltac:(lia)) as Hb.
  set (b := fl_pos a 1000000000) in *.
  unfold fl_div. rewrite (proj2 (Z.ltb_ge _ _)) by lia.
  pose proof (fl_pos_error (priorityWeights priority * 10 ^ 12 * 1208925819614629174706176 + b) 1
    ltac:(lia) ltac:(lia)) as Hc.
  set (c := fl_pos _ 1) in *. lia.
Qed.

(** A task of a more urgent priority scores below every task of a less urgent one,
    whenever they were enqueued, despite the rounding of the scores. *)
Lemma score_priority_dominates p1 p2 t1 t2 :
  priorityWeights p1 < priorityWeights p2 → representable t1 → representable t2 →
  queue_score p1 t1 < queue_score p2 t2.
Proof.
  intros Hp H1 H2.
  pose proof (queue_score_error p1 t1 H1) as E1.
  pose proof (queue_score_error p2 t2 H2) as E2. cbn zeta in *.
  change fl_unit with 1208925819614629174706176 in *.
  assert (0 <= priorityWeights p1 /\ priorityWeights p2 <= 3)
    by (unfold priorityWeights; repeat case_match; lia).
  destruct H1, H2. lia.
Qed.

(** Within one priority, tasks enqueued a millisecond apart keep their order. *)
Lemma score_time_order p t1 t2 :
  representable t1 → representable t2 → t1 + millisecond <= t2 →
  queue_score p t1 < queue_score p t2.
Proof.
  intros H1 H2 Ht.
  pose proof (queue_score_error p t1 H1) as E1.
  pose proof (queue_score_error p t2 H2) as E2. cbn zeta in *.
  change fl_unit with 1208925819614629174706176 in *.
  assert (0 <= priorityWeights p <= 3)
    by (unfold priorityWeights; repeat case_match; lia).
  unfold millisecond in *. destruct H1, H2. lia.
Qed.

(** ** What a dequeue returns *)

Lemma agent_queue_insert s a q a' :
  agent_queue (s <| redis := <[a := q]> (redis s) |>) a'
  = if decide (a = a') then q else agent_queue s a'.
Proof.
  unfold agent_queue; cbn. case_decide as Ha.
  - subst. by rewrite lookup_insert_eq.
  - by rewrite lookup_insert_ne.
Qed.

Lemma zmin_spec q m sc :
  zmin q = Some (m, sc) →
  q !! m = Some sc ∧ ∀ m' sc', q !! m' = Some sc' → sc <= sc'.
Proof.
  unfold zmin. intros Hz. apply select_head in Hz as (Hin & _ & Hmin); [|apply _..].
  apply elem_of_map_to_list in Hin. split; [done|]. intros m' sc' Hm'.
  specialize (Hmin (m', sc') ltac:(by apply elem_of_map_to_list) eq_refl).
  unfold lowest_score_first, by_key, lex2 in Hmin; cbn in Hmin.
  destruct Hmin as [[_ ?]|[? _]]; lia.
Qed.

Lemma zmin_None q : zmin q = None → q = ∅.
Proof.
  unfold zmin. intros Hz. apply map_empty. intros m. destruct (q !! m) as [sc|] eqn:E; [|done].
  assert ((m, sc) ∈ map_to_list q) as Hin by by apply elem_of_map_to_list.
  pose proof (select_nil (λ _, true) lowest_score_first (map_to_list q)) as Hnil.
  destruct (select _ _ _); [|done]. by specialize (Hnil eq_refl _ Hin).
Qed.

Section Dequeue.
Context `{Env}.

(** C31: when a queue holds only what EnqueueTask put there (member [m] with
    priority and time [prov m]), DequeueTask removes and returns a task such
    that none of the others is more urgent, or as urgent and enqueued a
    millisecond or more before it; it answers "none" only on an empty queue, and
    a failure removes nothing. *)
Theorem dequeue_most_urgent agent (prov : string → string * Z) n s :
  (∀ m sc, agent_queue s agent !! m = Some sc →
    representable (prov m).2 ∧ sc = queue_score (prov m).1 (prov m).2) →
  match DequeueTask agent n s with
  | (Ok (Some m), (_, s')) =>
      is_Some (agent_queue s agent !! m) ∧
      agent_queue s' agent = delete m (agent_queue s agent) ∧
      (∀ other, other ≠ agent → agent_queue s' other = agent_queue s other) ∧
      pg s' = pg s ∧
      ∀ m', is_Some (agent_queue s agent !! m') →
        priorityWeights (prov m).1 <= priorityWeights (prov m').1 ∧
        ((prov m).1 = (prov m').1 → (prov m).2 < (prov m').2 + millisecond)
  | (Ok None, (_, s')) => agent_queue s agent = ∅ ∧ s' = s
  | (Err _, (_, s')) => s' = s
  end.
Proof.
  intros Hprov. destruct (DequeueTask agent n s) as [r [n' s']] eqn:Hrun.
  unfold DequeueTask in Hrun.
  apply stmt_inv in Hrun as [_ [(msg & _ & -> & ->)|[_ Hz]]]; [done|].
  destruct (zmin (agent_queue s agent)) as [[m sc]|] eqn:Hmin; simplify_eq.
  2: { split; [by apply zmin_None|done]. }
  apply zmin_spec in Hmin as [Hm Hmin]. split_and!; [done| | |done|].
  - rewrite agent_queue_insert. by rewrite decide_True.
  - intros other Hne. rewrite agent_queue_insert. by rewrite decide_False.
  - intros m' [sc' Hm']. specialize (Hmin _ _ Hm').
    destruct (Hprov _ _ Hm) as [Hr ->]. destruct (Hprov _ _ Hm') as [Hr' ->].
    split.
    + destruct (Z.le_gt_cases (priorityWeights (prov m).1) (priorityWeights (prov m').1));
        [done|].
      pose proof (score_priority_dominates _ _ _ _ ltac:(eassumption) Hr' Hr). lia.
    + intros Heq. rewrite Heq in Hmin.
      destruct (Z.lt_ge_cases (prov m).2 ((prov m').2 + millisecond)); [done|].
      pose proof (score_time_order (prov m').1 _ _ Hr' Hr ltac:(lia)). lia.
Qed.
End Dequeue.

Definition queue_t0 : Z := unix_epoch + 1700000000 * second.
Definition queue_prov (m : string) : string * Z :=
  if m =?s "urgent" then ("high", queue_t0 + 5 * second) else ("normal", queue_t0).
Definition queue_demo : Sys := MkSys empty_db
  {["coder" := <["urgent" := queue_score "high" (queue_t0 + 5 * second)]>
               {["first" := queue_score "normal" queue_t0]}]}.

Lemma dequeue_most_urgent_witness :
  (@DequeueTask (quiet_env 0) "coder" 0%N queue_demo).1 = Ok (Some "urgent") ∧
  match @DequeueTask (quiet_env 0) "coder" 0%N queue_demo with
  | (Ok (Some m), (_, s')) =>
      is_Some (agent_queue queue_demo "coder" !! m) ∧
      agent_queue s' "coder" = delete m (agent_queue queue_demo "coder") ∧
      (∀ other, other ≠ "coder" → agent_queue s' other = agent_queue queue_demo other) ∧
      pg s' = pg queue_demo ∧
      ∀ m', is_Some (agent_queue queue_demo "coder" !! m') →
        priorityWeights (queue_prov m).1 <= priorityWeights (queue_prov m').1 ∧
        ((queue_prov m).1 = (queue_prov m').1 →
          (queue_prov m).2 < (queue_prov m').2 + millisecond)
  | (Ok None, (_, s')) => agent_queue queue_demo "coder" = ∅ ∧ s' = queue_demo
  | (Err _, (_, s')) => s' = queue_demo
  end.
Proof.
  split; [vm_compute; reflexivity|].
  apply (@dequeue_most_urgent (quiet_env 0) "coder" queue_prov 0%N queue_demo).
  intros m sc Hm. unfold agent_queue, queue_demo in Hm. cbn [redis] in Hm.
  rewrite lookup_singleton_eq in Hm. cbn [default from_option id] in Hm.
  apply lookup_insert_Some in Hm as [[<- <-]|[_ Hm]].
  - split; [|reflexivity]. unfold representable. vm_compute. split; [discriminate|reflexivity].
  - apply lookup_singleton_Some in Hm as [<- <-].
    split; [|reflexivity]. unfold representable. vm_compute. split; [discriminate|reflexivity].
Defined.

(** two tasks of one priority enqueued 30 microseconds apart may get the same
    score; the ids then decide, and the later task can be served first. *)
Theorem queue_not_fifo_within_rounding :
  let first := queue_t0 + 1000 in
  let later := queue_t0 + 31000 in
  queue_score "low" first = queue_score "low" later ∧
  fst <$> zmin (<["task-b" := queue_score "low" first]>
               {["task-a" := queue_score "low" later]}) = Some "task-a".
Proof. vm_compute. split; reflexivity. Qed.
