(* ===== verification/InitiativeStore.v ===== *)
(** * Initiatives in Postgres ([store/initiatives.go])

    The initiative, its phase reviews, the links to the tasks that execute it,
    launching those tasks, and the status an initiative derives from them. *)
From S2P Require Import Prelude GoVal Effects Domain Schema TaskStore.

(** [orchestratorgo/store/initiatives.go:16-22] CreateInitiativeParams. *)
Record CreateInitiativeParams := MkCreateInitiative {
  ci_title : string;
  ci_workspace_root : string;
  ci_goal : string;
  ci_created_by : string;
  ci_execution_mode : string;
}.

(** [orchestratorgo/store/initiatives.go:24-28] InitiativeListFilter. *)
Record InitiativeListFilter := MkInitiativeFilter {
  if_include_archived : bool;
  if_limit : Z;
  if_workspace_root : string;
}.

(** [orchestratorgo/store/initiatives.go:30-37] UpdateInitiativeParams. *)
Record UpdateInitiativeParams := MkUpdateInitiative {
  ui_status : option InitiativeStatus;
  ui_phase : option InitiativePhase;
  ui_requirements : option string;
  ui_design : option string;
  ui_plan : option string;
  ui_archived_at : option Z;
}.
Definition no_update : UpdateInitiativeParams := MkUpdateInitiative None None None None None None.

(** [orchestratorgo/store/initiatives.go:39-47] CreateInitiativePhaseReviewParams. *)
Record CreateReviewParams := MkCreateReview {
  cr_initiative : string;
  cr_phase : InitiativePhase;
  cr_decision : InitiativeReviewDecision;
  cr_feedback : option string;
  cr_generated_by : option string;
  cr_markdown : option string;
  cr_json : option string;
}.

(** [orchestratorgo/store/initiatives.go:49-57] LinkInitiativeTaskParams. *)
Record LinkInitiativeTaskParams := MkLinkParams {
  lp_initiative : string;
  lp_task : string;
  lp_phase_origin : string;
  lp_epic : option string;
  lp_launch_group : option string;
  lp_execution_mode : string;
  lp_launch_order : Z;
}.

(** ** Ordering of the queries *)
Definition initiative_order : relation InitiativeResponse :=
  by_key (λ i, (ini_updated_at i, ini_id i)) (lex2 (flip Z.le) String.le).
Definition latest_review_first : relation InitiativePhaseReview :=
  by_key (λ r, (review_created_at r, review_id r)) (lex2 (flip Z.le) (flip String.le)).
Definition latest_artifact_first : relation ArtifactResponse :=
  by_key (λ a, (artifact_created_at a, artifact_id a)) (lex2 (flip Z.le) (flip String.le)).
Definition launch_order_first : relation InitiativeTaskLink :=
  by_key (λ l, (link_launch_order l, (task_created_at (link_task l), task_id (link_task l))))
    (lex2 Z.le (lex2 Z.le String.le)).
#[export] Instance initiative_order_dec : RelDecision initiative_order.
Proof. unfold initiative_order. apply _. Defined.
#[export] Instance latest_review_first_dec : RelDecision latest_review_first.
Proof. unfold latest_review_first. apply _. Defined.
#[export] Instance latest_review_first_total : Total latest_review_first.
Proof. unfold latest_review_first. apply _. Qed.
#[export] Instance latest_review_first_trans : Transitive latest_review_first.
Proof. unfold latest_review_first. apply _. Qed.
#[export] Instance latest_artifact_first_dec : RelDecision latest_artifact_first.
Proof. unfold latest_artifact_first. apply _. Defined.
#[export] Instance launch_order_first_dec : RelDecision launch_order_first.
Proof. unfold launch_order_first. apply _. Defined.
#[export] Instance launch_order_first_total : Total launch_order_first.
Proof. unfold launch_order_first. apply _. Qed.
#[export] Instance launch_order_first_trans : Transitive launch_order_first.
Proof. unfold launch_order_first. apply _. Qed.

(** ** Deriving the status of an initiative *)

(** [orchestratorgo/store/initiatives.go:405-421] taskMetadataBool. *)
Definition taskMetadataBool (metadata : gmap_any) (key : string) : bool :=
  match metadata !! key with
  | Some (VBool b) => b
  | Some (VStr s) => equal_fold (trim_space s) "true"
  | _ => false
  end.

(** [orchestratorgo/store/initiatives.go:359-403] deriveInitiativeExecutionStatus:
    one pass that folds four flags over the linked tasks. *)
Record ExecFlags := MkFlags {
  has_failed : bool;
  has_running : bool;
  has_pending_manual : bool;
  all_terminal : bool;
}.
Definition start_flags : ExecFlags := MkFlags false false false true.
Definition derive_step (superseded : TaskResponse → bool) (f : ExecFlags)
    (item : InitiativeTaskLink) : ExecFlags :=
  let t := link_task item in
  if (link_execution_mode item =?s TaskLaunchModeManual)
     && bool_decide (task_state t = TaskStateCreated)
  then MkFlags (has_failed f) (has_running f) true false
  else match task_state t with
  | TaskStateFailed => MkFlags true (has_running f) (has_pending_manual f) false
  | TaskStateCancelled =>
      if superseded t then f
      else MkFlags true (has_running f) (has_pending_manual f) false
  | TaskStateCompleted => f
  | _ => MkFlags (has_failed f) true (has_pending_manual f) false
  end.
Definition derive_verdict (current : InitiativeStatus) (f : ExecFlags) : InitiativeStatus :=
  if has_failed f then InitiativeStatusBlocked
  else if has_running f then InitiativeStatusExecuting
  else if has_pending_manual f then InitiativeStatusExecutionReady
  else if all_terminal f then InitiativeStatusCompleted
  else current.
Definition superseded_by_repair (t : TaskResponse) : bool :=
  taskMetadataBool (task_metadata t) "superseded_by_repair_cycle".
Definition deriveInitiativeExecutionStatus (current : InitiativeStatus)
    (items : list InitiativeTaskLink) : InitiativeStatus :=
  match items with
  | [] => current
  | _ => derive_verdict current (foldl (derive_step superseded_by_repair) start_flags items)
  end.

Section Initiatives.
Context `{Env}.

(** ** Initiatives *)

(** [orchestratorgo/store/initiatives.go:83-93] GetInitiative. *)
Definition GetInitiative (initiativeID : string) : M Sys (option InitiativeResponse) :=
  query (λ s, initiatives (pg s) !! initiativeID).

Definition with_initiatives
    (f : gmap string InitiativeResponse → gmap string InitiativeResponse) : Sys → Sys :=
  on_pg (λ d, d <| initiatives := f (initiatives d) |>).

(** [orchestratorgo/store/initiatives.go:59-81] CreateInitiative. *)
Definition new_initiative (params : CreateInitiativeParams) (id : string) (now : Z) :
    InitiativeResponse :=
  let createdBy := trim_space (ci_created_by params) in
  {| ini_id := id;
     ini_title := ci_title params;
     ini_workspace_root := ci_workspace_root params;
     ini_goal := ci_goal params;
     ini_status := InitiativeStatusIdeaSubmitted;
     ini_current_phase := InitiativePhaseRequirements;
     ini_requirements_artifact := None;
     ini_design_artifact := None;
     ini_plan_artifact := None;
     ini_created_by := if createdBy =?s "" then "operator" else createdBy;
     ini_execution_mode :=
       if ci_execution_mode params =?s "" then InitiativeExecutionModeSelective
       else ci_execution_mode params;
     ini_archived_at := None;
     ini_created_at := now;
     ini_updated_at := now |}.
Definition CreateInitiative (params : CreateInitiativeParams) :
    M Sys (option InitiativeResponse) :=
  id <- new_uuid ;;
  (λ n, stmt (λ s,
    if decide (is_Some (initiatives (pg s) !! id)) then
      (Err (ErrUniqueViolation "initiatives_pkey"), s)
    else (Ok tt, with_initiatives <[id := new_initiative params id (clock n)]> s)) n) ;;;
  GetInitiative id.

(** [orchestratorgo/store/initiatives.go:95-135] ListInitiatives. *)
Definition ListInitiatives (f : InitiativeListFilter) : M Sys (list InitiativeResponse) :=
  let limit := if if_limit f <=? 0 then 100 else if_limit f in
  let root := trim_space (if_workspace_root f) in
  query (λ s, take (Z.to_nat limit) (select (λ i,
    (if_include_archived f || bool_decide (ini_archived_at i = None))
    && ((root =?s "") || (ini_workspace_root i =?s root)))
    initiative_order (rows_of (initiatives (pg s))))).

(** [orchestratorgo/store/initiatives.go:137-160] UpdateInitiative: COALESCE
    keeps a column whose parameter is null, except [archived_at]. *)
Definition coalesce {A} (new : option A) (old : A) : A := default old new.
Definition apply_update (params : UpdateInitiativeParams) (now : Z)
    (i : InitiativeResponse) : InitiativeResponse :=
  i <| ini_status := coalesce (ui_status params) (ini_status i) |>
    <| ini_current_phase := coalesce (ui_phase params) (ini_current_phase i) |>
    <| ini_requirements_artifact :=
         match ui_requirements params with Some a => Some a
         | None => ini_requirements_artifact i end |>
    <| ini_design_artifact :=
         match ui_design params with Some a => Some a | None => ini_design_artifact i end |>
    <| ini_plan_artifact :=
         match ui_plan params with Some a => Some a | None => ini_plan_artifact i end |>
    <| ini_archived_at := ui_archived_at params |>
    <| ini_updated_at := now |>.
Definition UpdateInitiative (initiativeID : string) (params : UpdateInitiativeParams) :
    M Sys (option InitiativeResponse) :=
  exec_now (λ now, with_initiatives (alter (apply_update params now) initiativeID)) ;;;
  GetInitiative initiativeID.

(** ** Phase reviews *)

(** [orchestratorgo/store/initiatives.go:162-180] CreateInitiativePhaseReview. *)
Definition new_review (p : CreateReviewParams) (id : string) (now : Z) :
    InitiativePhaseReview :=
  MkReview id (cr_initiative p) (cr_phase p) (cr_decision p) (cr_feedback p)
    (cr_generated_by p) (cr_markdown p) (cr_json p) now.
Definition CreateInitiativePhaseReview (p : CreateReviewParams) :
    M Sys (option InitiativePhaseReview) :=
  id <- new_uuid ;;
  (λ n, stmt (λ s,
    if decide (is_Some (phase_reviews (pg s) !! id)) then
      (Err (ErrUniqueViolation "initiative_phase_reviews_pkey"), s)
    else if decide (is_Some (initiatives (pg s) !! cr_initiative p)) then
      (Ok tt, on_pg (λ d, d <| phase_reviews :=
         <[id := new_review p id (clock n)]> (phase_reviews d) |>) s)
    else (Err (ErrText "violates foreign key constraint"), s)) n) ;;;
  query (λ s, phase_reviews (pg s) !! id).

(** [orchestratorgo/store/initiatives.go:182-203] ListInitiativePhaseReviews. *)
Definition ListInitiativePhaseReviews (initiativeID : string) :
    M Sys (list InitiativePhaseReview) :=
  query (λ s, select (λ r, review_initiative r =?s initiativeID) latest_review_first
    (rows_of (phase_reviews (pg s)))).

(** [orchestratorgo/store/initiatives.go:205-217] GetInitiativePhaseReview. *)
Definition GetInitiativePhaseReview (reviewID : string) :
    M Sys (option InitiativePhaseReview) :=
  query (λ s, phase_reviews (pg s) !! reviewID).

(** ** Linked tasks *)

(** [orchestratorgo/store/initiatives.go:499-596] scanInitiativeTaskLink: a link
    row joined with its task, read as [scanTask] reads one. *)
Definition join_link (s : Sys) (key : string * string) (l : LinkRow) :
    option InitiativeTaskLink :=
  (λ r, MkLink key.1 key.2 (lr_phase_origin l) (lr_epic l) (lr_launch_group l)
     (lr_execution_mode l) (lr_launch_order l) (lr_created_at l) (scanTask r))
  <$> get_row s key.2.

Definition with_links
    (f : gmap (string * string) LinkRow → gmap (string * string) LinkRow) : Sys → Sys :=
  on_pg (λ d, d <| task_links := f (task_links d) |>).

(** [orchestratorgo/store/initiatives.go:239-242] GetInitiativeTaskLink. *)
Definition GetInitiativeTaskLink (initiativeID taskID : string) :
    M Sys (option InitiativeTaskLink) :=
  query (λ s, task_links (pg s) !! (initiativeID, taskID) ≫= join_link s (initiativeID, taskID)).

(** [orchestratorgo/store/initiatives.go:219-237] LinkInitiativeTask: an upsert on
    (initiative_id, task_id) that keeps the row's id and creation time. *)
Definition upsert_link (p : LinkInitiativeTaskParams) (id : string) (now : Z)
    (old : option LinkRow) : LinkRow :=
  {| lr_id := match old with Some l => lr_id l | None => id end;
     lr_phase_origin := lp_phase_origin p;
     lr_epic := lp_epic p;
     lr_launch_group := lp_launch_group p;
     lr_execution_mode := lp_execution_mode p;
     lr_launch_order := lp_launch_order p;
     lr_created_at := match old with Some l => lr_created_at l | None => now end |}.
Definition LinkInitiativeTask (p : LinkInitiativeTaskParams) :
    M Sys (option InitiativeTaskLink) :=
  id <- new_uuid ;;
  (λ n, stmt (λ s,
    if decide (is_Some (initiatives (pg s) !! lp_initiative p)) then
      if decide (is_Some (get_row s (lp_task p))) then
        (Ok tt, with_links (partial_alter (λ old, Some (upsert_link p id (clock n) old))
                  (lp_initiative p, lp_task p)) s)
      else (Err (ErrText "violates foreign key constraint"), s)
    else (Err (ErrText "violates foreign key constraint"), s)) n) ;;;
  GetInitiativeTaskLink (lp_initiative p) (lp_task p).

(** [orchestratorgo/store/initiatives.go:244-253] UpdateInitiativeTaskMode. *)
Definition UpdateInitiativeTaskMode (initiativeID taskID mode : string) :
    M Sys (option InitiativeTaskLink) :=
  exec (with_links (alter (λ l, l <| lr_execution_mode := mode |>) (initiativeID, taskID))) ;;;
  GetInitiativeTaskLink initiativeID taskID.

(** [orchestratorgo/store/initiatives.go:255-273] ListInitiativeTasks. *)
Definition initiative_links (initiativeID : string) (s : Sys) : list InitiativeTaskLink :=
  select (λ l, link_initiative l =?s initiativeID) launch_order_first
    (omap (λ '(key, l), join_link s key l) (map_to_list (task_links (pg s)))).
Definition ListInitiativeTasks (initiativeID : string) : M Sys (list InitiativeTaskLink) :=
  query (initiative_links initiativeID).

(** [orchestratorgo/store/initiatives.go:275-287] ListInitiativeArtifacts. *)
Definition ListInitiativeArtifacts (initiativeID : string) : M Sys (list ArtifactResponse) :=
  query (λ s, select
    (λ a, bool_decide (arrow_text (artifact_metadata a) "initiative_id" = Some initiativeID))
    latest_artifact_first (rows_of (art_response <$> artifacts (pg s)))).

(** [orchestratorgo/store/initiatives.go:289-316] UpdateTaskLaunchMode. *)
Definition UpdateTaskLaunchMode (taskID mode : string) : M Sys unit :=
  if mode =?s TaskLaunchModeManual then
    exec_now (λ now, update_task taskID (λ r, r <| row_updated_at := now |>))
  else if mode =?s TaskLaunchModeAgentLocal then
    exec_now (λ now, update_task taskID (λ r,
      r <| row_execution_target := ExecutionTargetLocal |> <| row_updated_at := now |>))
  else if mode =?s TaskLaunchModeAgentRemote then
    exec_now (λ now, update_task taskID (λ r,
      r <| row_execution_target := ExecutionTargetRemote |> <| row_updated_at := now |>))
  else errorf ("unsupported launch mode " +:+ dquote +:+ mode +:+ dquote).

(** [orchestratorgo/store/initiatives.go:318-341] QueueTaskForLaunch. *)
Definition launchable_state (s : TaskState) : bool :=
  bool_decide (s ∈ [TaskStateCreated; TaskStateFailed; TaskStateCancelled]).
Definition QueueTaskForLaunch (taskID actor reason : string) : M Sys (option TaskResponse) :=
  in_tx (λ _,
    task <- GetTaskForUpdateTx taskID ;;
    match task with
    | None => errorf ("task " +:+ taskID +:+ " not found")
    | Some task =>
        if negb (launchable_state (task_state task)) then
          errorf ("task " +:+ taskID +:+ " is not launchable from state "
                  +:+ state_text (task_state task))
        else
          now <- time_now ;;
          transitionTaskStateTx taskID (task_state task) TaskStateQueued actor reason now ;;;
          ret (Commit tt)
    end) ;;;
  GetTask taskID.

(** [orchestratorgo/store/initiatives.go:343-357] ReconcileInitiativeExecution. *)
Definition ReconcileInitiativeExecution (initiativeID : string) :
    M Sys (option InitiativeResponse) :=
  initiative <- GetInitiative initiativeID ;;
  match initiative with
  | None => ret None
  | Some i =>
      items <- ListInitiativeTasks initiativeID ;;
      match items with
      | [] => ret (Some i)
      | _ =>
          UpdateInitiative initiativeID
            (MkUpdateInitiative
               (Some (deriveInitiativeExecutionStatus (ini_status i) items))
               (Some InitiativePhaseExecution) None None None None)
      end
  end.
End Initiatives.

(** ** The derived status, declaratively *)

(** How one linked task counts. *)
Inductive LinkClass := CountPendingManual | CountFailed | CountRunning | CountDone.
#[export] Instance LinkClass_eq_dec : EqDecision LinkClass.
Proof. solve_decision. Defined.
Definition link_class (superseded : TaskResponse → bool) (l : InitiativeTaskLink) :
    LinkClass :=
  match task_state (link_task l) with
  | TaskStateCreated =>
      if link_execution_mode l =?s TaskLaunchModeManual then CountPendingManual
      else CountRunning
  | TaskStateFailed => CountFailed
  | TaskStateCancelled => if superseded (link_task l) then CountDone else CountFailed
  | TaskStateCompleted => CountDone
  | _ => CountRunning
  end.
Definition any_class (sup : TaskResponse → bool) (c : LinkClass)
    (items : list InitiativeTaskLink) : bool :=
  existsb (λ l, bool_decide (link_class sup l = c)) items.

Lemma derive_step_class sup f l :
  derive_step sup f l =
  match link_class sup l with
  | CountPendingManual => MkFlags (has_failed f) (has_running f) true false
  | CountFailed => MkFlags true (has_running f) (has_pending_manual f) false
  | CountRunning => MkFlags (has_failed f) true (has_pending_manual f) false
  | CountDone => f
  end.
Proof.
  unfold derive_step, link_class. destruct (task_state (link_task l)) eqn:E;
    destruct (link_execution_mode l =?s TaskLaunchModeManual); cbn; try done.
  all: by destruct (sup (link_task l)).
Qed.

Lemma derive_fold_class sup items f :
  foldl (derive_step sup) f items =
  MkFlags (has_failed f || any_class sup CountFailed items)
    (has_running f || any_class sup CountRunning items)
    (has_pending_manual f || any_class sup CountPendingManual items)
    (all_terminal f && negb (any_class sup CountFailed items)
       && negb (any_class sup CountRunning items)
       && negb (any_class sup CountPendingManual items)).
Proof.
  revert f. induction items as [|l items IH]; intros [a b c d]; cbn.
  - by rewrite !orb_false_r, !andb_true_r.
  - rewrite IH, derive_step_class. unfold any_class; cbn.
    destruct (link_class sup l); cbn; f_equal; by rewrite ?orb_true_r, ?andb_false_r.
Qed.

Lemma derive_verdict_class sup current items :
  derive_verdict current (foldl (derive_step sup) start_flags items)
  = if any_class sup CountFailed items then InitiativeStatusBlocked
    else if any_class sup CountRunning items then InitiativeStatusExecuting
    else if any_class sup CountPendingManual items then InitiativeStatusExecutionReady
    else InitiativeStatusCompleted.
Proof.
  rewrite derive_fold_class. unfold derive_verdict; cbn.
  by destruct (any_class sup CountFailed items), (any_class sup CountRunning items),
    (any_class sup CountPendingManual items).
Qed.

(** ** Properties *)

(** The status an initiative derives from its linked tasks does not depend on
    the status it had nor on the order of the tasks: blocked as soon as one task
    failed or was cancelled without being superseded by a repair, else executing
    while one is still open, else ready while a manual task has not been started,
    else completed. *)
Theorem derive_status_spec current items :
  items ≠ [] →
  let st := deriveInitiativeExecutionStatus current items in
  let has c := ∃ l, l ∈ items ∧ link_class superseded_by_repair l = c in
  (st = InitiativeStatusBlocked ↔ has CountFailed) ∧
  (st = InitiativeStatusExecuting ↔ ¬ has CountFailed ∧ has CountRunning) ∧
  (st = InitiativeStatusExecutionReady ↔
     ¬ has CountFailed ∧ ¬ has CountRunning ∧ has CountPendingManual) ∧
  (st = InitiativeStatusCompleted ↔
     ∀ l, l ∈ items → link_class superseded_by_repair l = CountDone).
Proof.
  intros Hne. cbn zeta.
  assert (deriveInitiativeExecutionStatus current items
    = derive_verdict current (foldl (derive_step superseded_by_repair) start_flags items))
    as -> by by destruct items.
  rewrite derive_verdict_class.
  assert (Hany : ∀ c, any_class superseded_by_repair c items = true ↔
    ∃ l, l ∈ items ∧ link_class superseded_by_repair l = c).
  { intros c. unfold any_class. rewrite existsb_exists.
    split; intros (l & Hin & Hl); exists l; rewrite ?bool_decide_eq_true in *;
      by rewrite list_elem_of_In in *. }
  assert (Hdone : (∀ l, l ∈ items → link_class superseded_by_repair l = CountDone) ↔
    any_class superseded_by_repair CountFailed items = false ∧
    any_class superseded_by_repair CountRunning items = false ∧
    any_class superseded_by_repair CountPendingManual items = false).
  { rewrite <- !not_true_iff_false, !Hany. split.
    - intros Hall. split_and!; intros (l & Hin & Hl); by rewrite Hall in Hl.
    - intros (H1 & H2 & H3) l Hin.
      destruct (link_class superseded_by_repair l) eqn:E; [|naive_solver..|done].
      exfalso. eauto. }
  rewrite Hdone, <- !Hany.
  destruct (any_class superseded_by_repair CountFailed items),
    (any_class superseded_by_repair CountRunning items),
    (any_class superseded_by_repair CountPendingManual items);
    split_and!; split; intros; try done; naive_solver.
Qed.

Section InitiativeFacts.
Context `{Env}.

Lemma initiative_table_evolves f s : evolves s (with_initiatives f s).
Proof. by apply evolves_other_tables. Qed.

Lemma exec_now_row_evolves id (f : Z → TaskRow → TaskRow) :
  (∀ t r, identity (f t r) = identity r ∧ row_state (f t r) = row_state r) →
  respects evolves (exec_now (λ now, update_task id (f now))).
Proof.
  intros Hf. apply exec_now_update_evolves. intros t r. destruct (Hf t r).
  by apply row_evolves_same.
Qed.

Lemma CreateInitiative_evolves p : respects evolves (CreateInitiative p).
Proof.
  unfold CreateInitiative, GetInitiative. solve_respects.
  intros n. apply respects_stmt; [apply _|]. intros s. case_decide; cbn; [done|].
  apply initiative_table_evolves.
Qed.
Lemma UpdateInitiative_evolves id p : respects evolves (UpdateInitiative id p).
Proof.
  unfold UpdateInitiative, GetInitiative. solve_respects.
  apply respects_exec_now; [apply _|]. intros t s. apply initiative_table_evolves.
Qed.
Lemma CreateInitiativePhaseReview_evolves p :
  respects evolves (CreateInitiativePhaseReview p).
Proof.
  unfold CreateInitiativePhaseReview. solve_respects.
  intros n. apply respects_stmt; [apply _|]. intros s. repeat case_decide; cbn; try done.
  by apply evolves_other_tables.
Qed.
Lemma LinkInitiativeTask_evolves p : respects evolves (LinkInitiativeTask p).
Proof.
  unfold LinkInitiativeTask, GetInitiativeTaskLink. solve_respects.
  intros n. apply respects_stmt; [apply _|]. intros s. repeat case_decide; cbn; try done.
  by apply evolves_other_tables.
Qed.
Lemma UpdateInitiativeTaskMode_evolves i t m :
  respects evolves (UpdateInitiativeTaskMode i t m).
Proof.
  unfold UpdateInitiativeTaskMode, GetInitiativeTaskLink. solve_respects.
  apply respects_exec; [apply _|]. intros s. by apply evolves_other_tables.
Qed.
Lemma UpdateTaskLaunchMode_evolves t m : respects evolves (UpdateTaskLaunchMode t m).
Proof.
  unfold UpdateTaskLaunchMode. repeat case_match; [..|by auto with respects].
  all: by apply (exec_now_row_evolves t (λ now r, _)).
Qed.

Lemma QueueTaskForLaunch_run taskID actor reason n s r n' s' :
  QueueTaskForLaunch taskID actor reason n s = (r, (n', s')) →
  (s' = s ∧ ∃ e, r = Err e) ∨
  ∃ row now id, get_row s taskID = Some row ∧ launchable_state (row_state row) = true ∧
    s' = transition_effect taskID TaskStateQueued now
           (MkTransition id taskID (row_state row) TaskStateQueued actor reason now) s.
Proof.
  unfold QueueTaskForLaunch.
  intros [(e & Hrun & ->)|(u & n1 & s1 & Hrun & Hget)]%bind_inv.
  { apply in_tx_err in Hrun as ->. eauto. }
  right. apply query_state in Hget as ->.
  apply in_tx_ok in Hrun as (n2 & s2 & [[Hr ->]|[Hr ->]]); run_inv.
  all: unfold GetTaskForUpdateTx, GetTask in *; run_inv.
  all: destruct (get_row s taskID) as [row|] eqn:Hrow; cbn in *; [|run_inv].
  all: destruct (launchable_state (row_state row)) eqn:Hv; cbn in *; run_inv.
  all: transition_inv; eauto 10.
Qed.

Lemma launchable_edge s : launchable_state s = true → lifecycle_edge s TaskStateQueued.
Proof. intros Hs. apply edge_relaunch. by apply bool_decide_eq_true in Hs. Qed.

Lemma QueueTaskForLaunch_evolves t actor reason :
  respects evolves (QueueTaskForLaunch t actor reason).
Proof.
  intros n s r n' s' [[-> _]|(row & now & id & Hrow & Hl & ->)]%QueueTaskForLaunch_run;
    [done|]. eapply evolves_transition; [done|]. by apply launchable_edge.
Qed.

Lemma ReconcileInitiativeExecution_evolves i :
  respects evolves (ReconcileInitiativeExecution i).
Proof.
  unfold ReconcileInitiativeExecution, GetInitiative, ListInitiativeTasks. solve_respects.
  apply UpdateInitiative_evolves.
Qed.

(** Reconciling an initiative that has tasks stores the status derived from
    them and moves it to the execution phase, whatever it was before; doing it
    again derives the same status, so reconciliation is idempotent. It also
    clears [archived_at]: an archived initiative comes back. *)
Theorem ReconcileInitiativeExecution_spec id n s i l ls :
  initiatives (pg s) !! id = Some i → initiative_links id s = l :: ls →
  match ReconcileInitiativeExecution id n s with
  | (Ok o, (_, s')) =>
      ∃ i', o = Some i' ∧ initiatives (pg s') !! id = Some i' ∧
        ini_status i' = deriveInitiativeExecutionStatus (ini_status i) (l :: ls) ∧
        ini_current_phase i' = InitiativePhaseExecution ∧
        ini_archived_at i' = None ∧
        ini_status i' = deriveInitiativeExecutionStatus (ini_status i')
          (initiative_links id s')
  | (Err _, _) => True
  end.
Proof.
  intros Hi Hl.
  destruct (ReconcileInitiativeExecution id n s) as [[o|e] [n' s']] eqn:Hrun; [|done].
  unfold ReconcileInitiativeExecution, GetInitiative, ListInitiativeTasks in Hrun.
  run_inv. rewrite Hi in Hrun. run_inv. rewrite Hl in Hrun.
  unfold UpdateInitiative, GetInitiative, exec_now in Hrun. run_inv.
  unfold with_initiatives at 1; cbn -[deriveInitiativeExecutionStatus].
  rewrite lookup_alter_eq, Hi. eexists. split_and!; try done.
  cbn -[deriveInitiativeExecutionStatus initiative_links].
  assert (∀ t f, initiative_links id (with_initiatives f t) = initiative_links id t)
    as Hsame by done.
  rewrite Hsame, Hl. unfold deriveInitiativeExecutionStatus.
  by rewrite !derive_verdict_class.
Qed.
End InitiativeFacts.

#[export] Hint Resolve CreateInitiative_evolves UpdateInitiative_evolves
  CreateInitiativePhaseReview_evolves LinkInitiativeTask_evolves
  UpdateInitiativeTaskMode_evolves UpdateTaskLaunchMode_evolves
  QueueTaskForLaunch_evolves ReconcileInitiativeExecution_evolves : respects.

(** ** Concrete runs *)

Definition demo_initiative : CreateInitiativeParams :=
  MkCreateInitiative "Login" "/w" "add login" "ana" "".
Definition demo_link (task mode : string) (order : Z) : LinkInitiativeTaskParams :=
  MkLinkParams "id-0" task "plan" None None mode order.
(** An archived initiative with a completed and a cancelled task. *)
Definition initiative_setup `{Env} : M Sys unit :=
  CreateInitiative demo_initiative ;;;
  CreateTask demo_params ;;; CreateTask demo_params ;;;
  LinkInitiativeTask (demo_link "id-3" "agent_remote" 10) ;;;
  LinkInitiativeTask (demo_link "id-13" "manual" 20) ;;;
  UpdateTaskState "id-3" TaskStateCancelled "api" "no longer needed" ;;;
  UpdateInitiative "id-0" (MkUpdateInitiative None None None None None (Some 5)) ;;;
  ret tt.
Definition initiative_demo : Sys := Eval vm_compute in
  (@initiative_setup (quiet_env 0) 0%N empty_sys).2.2.
Definition demo_links : list InitiativeTaskLink := Eval vm_compute in
  initiative_links "id-0" initiative_demo.

Lemma derive_status_spec_witness :
  demo_links ≠ [] ∧
  let st := deriveInitiativeExecutionStatus InitiativeStatusCompleted demo_links in
  let has c := ∃ l, l ∈ demo_links ∧ link_class superseded_by_repair l = c in
  st = InitiativeStatusBlocked ∧
  (st = InitiativeStatusBlocked ↔ has CountFailed) ∧
  (st = InitiativeStatusExecuting ↔ ¬ has CountFailed ∧ has CountRunning) ∧
  (st = InitiativeStatusExecutionReady ↔
     ¬ has CountFailed ∧ ¬ has CountRunning ∧ has CountPendingManual) ∧
  (st = InitiativeStatusCompleted ↔
     ∀ l, l ∈ demo_links → link_class superseded_by_repair l = CountDone).
Proof.
  assert (demo_links ≠ []) as Hne by discriminate.
  split; [exact Hne|]. split; [vm_compute; reflexivity|].
  exact (derive_status_spec InitiativeStatusCompleted demo_links Hne).
Defined.

Lemma ReconcileInitiativeExecution_spec_witness :
  ∃ i l ls,
    initiatives (pg initiative_demo) !! "id-0" = Some i ∧ ini_archived_at i = Some 5 ∧
    initiative_links "id-0" initiative_demo = l :: ls ∧
    match @ReconcileInitiativeExecution (quiet_env 0) "id-0" 90%N initiative_demo with
    | (Ok o, (_, s')) =>
        ∃ i', o = Some i' ∧ initiatives (pg s') !! "id-0" = Some i' ∧
          ini_status i' = deriveInitiativeExecutionStatus (ini_status i) (l :: ls) ∧
          ini_current_phase i' = InitiativePhaseExecution ∧
          ini_archived_at i' = None ∧
          ini_status i' = deriveInitiativeExecutionStatus (ini_status i')
            (initiative_links "id-0" s')
    | (Err _, _) => True
    end.
Proof.
  assert (Ha : ini_archived_at <$> initiatives (pg initiative_demo) !! "id-0"
    = Some (Some 5)) by (vm_compute; reflexivity).
  assert (Hlen : length (initiative_links "id-0" initiative_demo) = 2%nat)
    by (vm_compute; reflexivity).
  destruct (initiatives (pg initiative_demo) !! "id-0") as [i|] eqn:Hi; [|discriminate Ha].
  destruct (initiative_links "id-0" initiative_demo) as [|l ls] eqn:Hl; [discriminate Hlen|].
  cbn [fmap option_fmap option_map] in Ha.
  exists i, l, ls. split; [reflexivity|]. split; [congruence|]. split; [reflexivity|].
  apply (@ReconcileInitiativeExecution_spec (quiet_env 0) "id-0" 90%N initiative_demo
    i l ls Hi Hl).
Defined.
