(* ===== verification/TransitionLog.v ===== *)
(** * The transition log as an audit trail ([store/postgres.go], [store/initiatives.go])

    Every call of the store that writes a task or the transition log, and what the
    log says of the states it finds: each logged transition starts where the task
    was, and the only moves it does not record are the requeues of work that was
    interrupted or whose lease has expired, which the task's retry counter counts. *)
From S2P Require Import Prelude GoVal Effects Domain Schema TaskStore BridgeLease InitiativeStore.

(** ** What the log says *)

(** The edges a logged transition may take: those of [validTransitions], and the
    relaunch of a task that has failed or was cancelled. *)
Definition logged_edge (st to : TaskState) : bool :=
  IsValidTransition st to
  || bool_decide (st ∈ [TaskStateFailed; TaskStateCancelled]) && bool_decide (to = TaskStateQueued).

(** A log leads from one state to another, passing over [k] requeues it is silent about:
    each of them takes a task being worked on back to the queue. *)
Inductive accounted (start : TaskState) : nat → list Transition → TaskState → Prop :=
  | accounted_new : accounted start 0 [] start
  | accounted_logged k l st t :
      accounted start k l st → tr_from t = st → logged_edge st (tr_to t) = true →
      accounted start k (l ++ [t]) (tr_to t)
  | accounted_requeued k l st :
      accounted start k l st → active_state st = true →
      accounted start (S k) l TaskStateQueued.

(** Without one, the log alone gives the state. *)
Fixpoint replay (st : TaskState) (l : list Transition) : option TaskState :=
  match l with
  | [] => Some st
  | t :: l' =>
      if decide (tr_from t = st) then
        if logged_edge st (tr_to t) then replay (tr_to t) l' else None
      else None
  end.

Lemma replay_app st l1 l2 mid :
  replay st l1 = Some mid → replay st (l1 ++ l2) = replay mid l2.
Proof.
  revert st. induction l1 as [|t l1 IH]; intros st; cbn; [by intros [= ->]|].
  case_decide; [|done]. destruct (logged_edge _ _); [apply IH|done].
Qed.

Lemma accounted_replay start l st : accounted start 0 l st → replay start l = Some st.
Proof.
  remember 0%nat as k eqn:Ek. intros Ha. induction Ha as [|k l st t Ha IH Hf He|]; subst; [done| |done].
  rewrite (replay_app _ _ _ _ (IH eq_refl)). cbn. by rewrite decide_True, He.
Qed.

(** The part of the log about a task, oldest first. *)
Definition history (s : Sys) (id : string) : list Transition :=
  filter (λ t, tr_task t = id) (state_transitions (pg s)).

(** Every task's state is accounted for by its log, up to as many requeues as its retry
    counter says; of a task there is not, nothing is logged. *)
Record audited (s : Sys) : Prop := {
  aud_keyed : ∀ id r, get_row s id = Some r → row_id r = id;
  aud_known : ∀ id r, get_row s id = Some r → ∃ k, row_retry_count r = Z.of_nat k ∧
    accounted TaskStateCreated k (history s id) (row_state r);
  aud_unknown : ∀ id, get_row s id = None → history s id = [];
}.
Definition keeps_audit (s s' : Sys) : Prop := audited s → audited s'.
#[export] Instance keeps_audit_preorder : PreOrder keeps_audit.
Proof. split; unfold keeps_audit; [by intros ?|intros ???; auto]. Qed.

(** ** What the statements do to it *)

Lemma history_insert s t id :
  history (insert_transition t s) id
  = history s id ++ (if decide (tr_task t = id) then [t] else []).
Proof. unfold history. cbn. by rewrite filter_app. Qed.

(** What the log is about in a row. *)
Definition audit_of (r : TaskRow) := (row_id r, row_state r, row_retry_count r).

Lemma keeps_audit_update id f s :
  (∀ r, audit_of (f r) = audit_of r) → keeps_audit s (update_task id f s).
Proof.
  intros Hf [Hi Hk Hu]. split.
  - intros id' r. destruct (decide (id = id')) as [<-|Hne].
    + rewrite get_row_update_eq. intros (r0 & Hg & ->)%fmap_Some.
      pose proof (Hf r0) as E. unfold audit_of in E. simplify_eq. rewrite H. by apply Hi.
    + rewrite get_row_update_ne by done. apply Hi.
  - intros id' r. destruct (decide (id = id')) as [<-|Hne].
    + rewrite get_row_update_eq. intros (r0 & Hg & ->)%fmap_Some.
      pose proof (Hf r0) as E. unfold audit_of in E. injection E as _ -> ->. by apply Hk.
    + rewrite get_row_update_ne by done. apply Hk.
  - intros id'. destruct (decide (id = id')) as [<-|Hne].
    + rewrite get_row_update_eq, fmap_None. apply Hu.
    + rewrite get_row_update_ne by done. apply Hu.
Qed.

Lemma keeps_audit_transition id to now tid actor reason s r :
  get_row s id = Some r → logged_edge (row_state r) to = true →
  keeps_audit s (transition_effect id to now
    (MkTransition tid id (row_state r) to actor reason now) s).
Proof.
  intros Hr Hv [Hi Hk Hu]. split; unfold transition_effect.
  - intros id' r'. rewrite get_row_insert_transition. destruct (decide (id = id')) as [<-|Hne].
    + rewrite get_row_update_eq, Hr. intros [= <-]. exact (Hi _ _ Hr).
    + rewrite get_row_update_ne by done. apply Hi.
  - intros id' r'. rewrite get_row_insert_transition, history_insert. cbn [tr_task].
    destruct (decide (id = id')) as [<-|Hne].
    + rewrite get_row_update_eq, Hr. intros [= <-]. destruct (Hk _ _ Hr) as (k & Hc & Ha).
      exists k. split; [done|]. by apply (accounted_logged _ _ _ (row_state r)
        (MkTransition tid id (row_state r) to actor reason now)).
    + rewrite get_row_update_ne, app_nil_r by done. apply Hk.
  - intros id'. rewrite get_row_insert_transition, history_insert. cbn [tr_task].
    destruct (decide (id = id')) as [<-|Hne].
    + by rewrite get_row_update_eq, Hr.
    + rewrite get_row_update_ne, app_nil_r by done. apply Hu.
Qed.

(** An unlogged requeue is counted. *)
Lemma keeps_audit_requeue p f s :
  (∀ r, p r = true → active_state (row_state r) = true ∧
    audit_of (f r) = (row_id r, TaskStateQueued, row_retry_count r + 1)) →
  keeps_audit s (update_tasks_where p f s).
Proof.
  intros Hf [Hi Hk Hu].
  assert (Hrow : ∀ id r', get_row (update_tasks_where p f s) id = Some r' →
    ∃ r, get_row s id = Some r ∧ (r' = r ∨ p r = true ∧ r' = f r)).
  { intros id r'. rewrite get_row_update_where. intros (r & Hr & ->)%fmap_Some.
    exists r. split; [done|]. destruct (p r); auto. }
  split.
  - intros id r' (r & Hr & [->|[Hp ->]])%Hrow; [by apply Hi|].
    destruct (Hf _ Hp) as [_ E]. unfold audit_of in E. injection E as -> _ _. by apply Hi.
  - intros id r' (r & Hr & [->|[Hp ->]])%Hrow; [by apply (Hk id)|].
    destruct (Hf _ Hp) as [Hact E]. unfold audit_of in E. injection E as _ -> ->.
    destruct (Hk _ _ Hr) as (k & -> & Ha). exists (S k). split; [lia|].
    by apply (accounted_requeued _ _ _ (row_state r)).
  - intros id. rewrite get_row_update_where, fmap_None. apply Hu.
Qed.

Lemma keeps_audit_insert_task id r s :
  get_row s id = None → audit_of r = (id, TaskStateCreated, 0) →
  keeps_audit s (with_tasks <[id := r]> s).
Proof.
  intros Hfresh E [Hi Hk Hu]. unfold audit_of in E. injection E as Hid Hst Hcount.
  split; unfold get_row; cbn.
  - intros id' r'. destruct (decide (id = id')) as [<-|Hne].
    + rewrite lookup_insert_eq. by intros [= <-].
    + rewrite lookup_insert_ne by done. apply Hi.
  - intros id' r'. destruct (decide (id = id')) as [<-|Hne].
    + rewrite lookup_insert_eq. intros [= <-]. rewrite Hst. exists 0%nat. split; [done|].
      unfold history; cbn. change (filter _ _) with (history s id). rewrite (Hu _ Hfresh). constructor.
    + rewrite lookup_insert_ne by done. apply Hk.
  - intros id'. destruct (decide (id = id')) as [<-|Hne].
    + by rewrite lookup_insert_eq.
    + rewrite lookup_insert_ne by done. apply Hu.
Qed.

Lemma keeps_audit_approvals f s :
  keeps_audit s (on_pg (λ d, d <| approvals := f (approvals d) |>) s).
Proof. intros [Hi Hk Hu]. by split. Qed.

(** ** What the calls do to it *)

(** The calls that write a task or the log: one constructor for each method of the store
    that has such a statement. *)
Inductive StoreCall :=
  | CallCreateTask (params : CreateTaskParams)
  | CallUpdateTaskState (id : string) (to : TaskState) (actor reason : string)
  | CallCancelTask (id actor reason : string)
  | CallCompleteTask (id actor reason : string) (results : gval)
  | CallFailTask (id actor reason msg : string) (results : gval)
  | CallRequestApproval (id action target : string) (timeout : Z)
      (actor reason : string) (patch : gmap_any)
  | CallResolveApproval (id : string) (approve : bool) (operator : string)
  | CallUpdateTaskResults (id : string) (results : gval)
  | CallPatchTaskMetadata (id : string) (patch : gmap_any)
  | CallArchiveTask (id : string)
  | CallUnarchiveTask (id : string)
  | CallClearWorkspacePath (id : string)
  | CallRequeueRecoverableRemoteTasks (cutoff : Z) (actor : string)
  | CallTouchLease (id bridge : string) (ttl : Z) (status : string)
      (stage tool summary : option string)
  | CallFinalizeLease (id bridge status : string) (stage tool summary : option string)
  | CallClaimNextLocalBridgeTask (bridge : string) (ttl : Z)
  | CallUpdateTaskLaunchMode (id mode : string)
  | CallQueueTaskForLaunch (id actor reason : string).

Section Calls.
Context `{Env}.

Definition run_call (c : StoreCall) : M Sys unit :=
  match c with
  | CallCreateTask p => CreateTask p ;;; ret tt
  | CallUpdateTaskState id to actor reason => UpdateTaskState id to actor reason
  | CallCancelTask id actor reason => CancelTask id actor reason
  | CallCompleteTask id actor reason results => CompleteTask id actor reason results ;;; ret tt
  | CallFailTask id actor reason msg results => FailTask id actor reason msg results ;;; ret tt
  | CallRequestApproval id action target timeout actor reason patch =>
      RequestApproval id action target timeout actor reason patch ;;; ret tt
  | CallResolveApproval id approve operator => ResolveApproval id approve operator ;;; ret tt
  | CallUpdateTaskResults id results => UpdateTaskResults id results
  | CallPatchTaskMetadata id patch => PatchTaskMetadata id patch
  | CallArchiveTask id => ArchiveTask id
  | CallUnarchiveTask id => UnarchiveTask id
  | CallClearWorkspacePath id => ClearWorkspacePath id
  | CallRequeueRecoverableRemoteTasks cutoff actor =>
      RequeueRecoverableRemoteTasks cutoff actor ;;; ret tt
  | CallTouchLease id bridge ttl status stage tool summary =>
      TouchLocalBridgeTaskLease id bridge ttl status stage tool summary
  | CallFinalizeLease id bridge status stage tool summary =>
      FinalizeLocalBridgeTaskLease id bridge status stage tool summary
  | CallClaimNextLocalBridgeTask bridge ttl =>
      ClaimNextLocalBridgeTaskWithTTL bridge ttl ;;; ret tt
  | CallUpdateTaskLaunchMode id mode => UpdateTaskLaunchMode id mode
  | CallQueueTaskForLaunch id actor reason => QueueTaskForLaunch id actor reason ;;; ret tt
  end.

(** A sequence of calls, each of which may fail. *)
Fixpoint run_calls (l : list StoreCall) : M Sys unit :=
  match l with
  | [] => ret tt
  | c :: l' => attempt (run_call c) ;;; run_calls l'
  end.

Lemma valid_logged st to : IsValidTransition st to = true → logged_edge st to = true.
Proof. unfold logged_edge. by intros ->. Qed.
Lemma launchable_logged st : launchable_state st = true → logged_edge st TaskStateQueued = true.
Proof. by destruct st. Qed.

Lemma UpdateTaskState_audit id to actor reason :
  respects keeps_audit (UpdateTaskState id to actor reason).
Proof.
  intros n s [u|e] n' s' Hrun; [|by apply in_tx_err in Hrun as ->].
  apply UpdateTaskState_ok in Hrun as (row & now & tid & Hrow & Hv & ->).
  by apply keeps_audit_transition, valid_logged.
Qed.

Lemma finalizeTask_audit id to actor reason results msg :
  respects keeps_audit (finalizeTask id to actor reason results msg).
Proof.
  intros n s r n' s' [[-> _]|(row & now & tid & Hrow & Hv & ->)]%finalizeTask_run; [done|].
  etrans; [by apply (keeps_audit_update id (finalize_row results msg))|].
  by eapply (keeps_audit_transition id to now tid actor reason _
    (finalize_row results msg row)), valid_logged; [rewrite get_row_update_eq, Hrow|].
Qed.

(** A new metadata, then a transition. *)
Lemma keeps_audit_marked id metadata to now tid actor reason s row :
  get_row s id = Some row → IsValidTransition (row_state row) to = true →
  keeps_audit s (transition_effect id to now
    (MkTransition tid id (row_state row) to actor reason now)
    (update_task id (set_metadata metadata) s)).
Proof.
  intros Hrow Hv. etrans; [by apply (keeps_audit_update id (set_metadata metadata))|].
  apply (keeps_audit_transition _ _ _ _ _ _ _ (set_metadata metadata row)); [|by apply valid_logged].
  by rewrite get_row_update_eq, Hrow.
Qed.

Lemma ResolveApproval_audit id approve operator :
  respects keeps_audit (ResolveApproval id approve operator).
Proof.
  intros n s r n' s' [[-> _]|(a & row & now & tid & Hres)]%ResolveApproval_run; [done|].
  destruct (resolution approve) as [[to status] reason].
  destruct Hres as (Ha & Hp & Hrow & Hv & -> & _).
  etrans; [apply keeps_audit_approvals|]. by apply keeps_audit_marked.
Qed.

Lemma RequestApproval_audit id at_ tr timeout actor reason patch :
  respects keeps_audit (RequestApproval id at_ tr timeout actor reason patch).
Proof.
  intros n s r n' s'
    [[-> _]|(row & now & aid & tid & Hrow & Hv & Hfresh & ->)]%RequestApproval_run; [done|].
  etrans; [apply keeps_audit_approvals|]. by apply keeps_audit_marked.
Qed.

Lemma CreateTask_audit params : respects keeps_audit (CreateTask params).
Proof.
  intros n s r n' s' [[-> _]|(id & Hfresh & _ & -> & _)]%CreateTask_run; [done|].
  etrans; [by apply (keeps_audit_insert_task (uuid n)
    (new_task_row params (uuid n) (uuid (N.succ n)) (clock (N.succ (N.succ n)))))|].
  unfold creation. destruct (ctp_queue_on_create params); [|done].
  by apply (keeps_audit_transition _ _ _ _ _ _ _
    (new_task_row params (uuid n) (uuid (N.succ n)) (clock (N.succ (N.succ n)))));
    [apply lookup_insert_eq|].
Qed.

Lemma QueueTaskForLaunch_audit id actor reason :
  respects keeps_audit (QueueTaskForLaunch id actor reason).
Proof.
  intros n s r n' s' [[-> _]|(row & now & tid & Hrow & Hl & ->)]%QueueTaskForLaunch_run; [done|].
  by apply keeps_audit_transition, launchable_logged.
Qed.

Lemma exec_now_audit id (f : Z → TaskRow → TaskRow) :
  (∀ t r, audit_of (f t r) = audit_of r) →
  respects keeps_audit (exec_now (λ now, update_task id (f now))).
Proof. intros Hf. apply respects_exec_now; [apply _|]. intros t s. by apply keeps_audit_update. Qed.

Lemma PatchTaskMetadata_audit id patch : respects keeps_audit (PatchTaskMetadata id patch).
Proof.
  unfold PatchTaskMetadata. case_decide; [by auto with respects|].
  by apply (exec_now_audit id (λ now r, _)).
Qed.

Lemma Touch_audit id b ttl status stage tool summary :
  respects keeps_audit (TouchLocalBridgeTaskLease id b ttl status stage tool summary).
Proof. unfold TouchLocalBridgeTaskLease. solve_respects. apply PatchTaskMetadata_audit. Qed.

Lemma Requeue_audit cutoff actor :
  respects keeps_audit (RequeueRecoverableRemoteTasks cutoff actor).
Proof.
  intros n. apply respects_stmt; [apply _|]. intros s. cbn. apply keeps_audit_requeue.
  intros r Hr. split; [|done]. unfold is_recoverable_remote in Hr. bool_to_prop. by destruct Hr as [[_ ?] _].
Qed.

Lemma after_requeue_audit root b now s : keeps_audit s (after_requeue root b now s).
Proof.
  apply keeps_audit_requeue. intros r [Hf _]%andb_true_iff.
  apply foreign_active_inv in Hf as (_ & ? & _). by split.
Qed.

(** A claim resumes the bridge's own task, or requeues what has expired and starts the next. *)
Lemma claim_outcome_audit b txnow s x s1 : claim_outcome b txnow s x s1 → keeps_audit s s1.
Proof.
  intros Hout Ha. inversion Hout as [| |? ? ? ? ? Hb Hown Hst| |? ? ? ? ? Hb _ Hnext];
    subst; try done; try by apply after_requeue_audit.
  - apply own_task_spec in Hown as [_ (k & Hr)]. pose proof (aud_keyed _ Ha _ _ Hr) as <-.
    revert Ha. apply keeps_audit_transition; [done|]. by destruct Hst as [-> | ->].
  - apply (after_requeue_audit (bridge_workspace_root bridge) b txnow) in Ha.
    apply next_queued_spec in Hnext as (Hq & (k & Hr) & _).
    pose proof (aud_keyed _ Ha _ _ Hr) as <-. apply andb_true_iff in Hq as [_ Hq].
    apply bool_decide_eq_true in Hq. unfold start_effect. rewrite <- Hq.
    change TaskStateAssigned with (row_state (apply_transition TaskStateAssigned now r)) at 1.
    apply keeps_audit_transition; [by rewrite get_row_transition_eq, Hr|done|].
    by apply keeps_audit_transition; [|rewrite Hq|].
Qed.

Lemma Claim_audit b ttl : respects keeps_audit (ClaimNextLocalBridgeTaskWithTTL b ttl).
Proof.
  intros n s r n' s' [[-> _]|(x & s1 & Hout & Hx)]%Claim_run; [done|].
  etrans; [by eapply claim_outcome_audit|].
  destruct x as [[[row bridge] status]|]; [|by destruct Hx as [_ ->]].
  destruct Hx as [[_ ->]|(_ & u & n1 & n2 & Ht)]; [done|]. by eapply Touch_audit.
Qed.

Lemma run_call_audit c : respects keeps_audit (run_call c).
Proof.
  destruct c; cbn; try (apply respects_bind; [apply _| |by auto with respects]).
  - apply CreateTask_audit.
  - apply UpdateTaskState_audit.
  - apply UpdateTaskState_audit.
  - apply finalizeTask_audit.
  - apply finalizeTask_audit.
  - apply RequestApproval_audit.
  - apply ResolveApproval_audit.
  - by apply (exec_now_audit id).
  - apply PatchTaskMetadata_audit.
  - by apply (exec_now_audit id).
  - by apply (exec_now_audit id).
  - by apply (exec_now_audit id).
  - apply Requeue_audit.
  - apply Touch_audit.
  - unfold FinalizeLocalBridgeTaskLease. solve_respects. apply PatchTaskMetadata_audit.
  - apply Claim_audit.
  - unfold UpdateTaskLaunchMode. repeat case_match; [..|by auto with respects];
      by apply (exec_now_audit id).
  - apply QueueTaskForLaunch_audit.
Qed.

Lemma run_calls_audit calls : respects keeps_audit (run_calls calls).
Proof.
  induction calls as [|c calls IH]; cbn; [by auto with respects|].
  apply respects_bind; [apply _|apply respects_attempt, run_call_audit|done].
Qed.

(** C3: the transition log is an audit trail, whatever sequence of the calls that write a
    task or the log is made, with any of their statements failing.  A task's logged
    transitions follow [validTransitions] or relaunch a stopped task, each starts in the
    state the task was in, and they lead from [created] to the state the task is in, except
    for the requeues of interrupted work and of expired leases, which write no transition:
    there are exactly as many of them as the task's retry counter says, each of a task
    being worked on.  So a task whose counter is zero is in the state its log replays to. *)
Theorem store_calls_audited (calls : list StoreCall) n s :
  audited s →
  let s' := (run_calls calls n s).2.2 in
  audited s' ∧
  ∀ id r, get_row s' id = Some r → row_retry_count r = 0 →
    replay TaskStateCreated (history s' id) = Some (row_state r).
Proof.
  intros Hs s'. assert (Ha : audited s').
  { unfold s'. destruct (run_calls calls n s) as [r [n' s2]] eqn:E.
    exact (run_calls_audit calls _ _ _ _ _ E Hs). }
  split; [done|]. intros id r Hr Hzero. destruct (aud_known _ Ha _ _ Hr) as (k & Hk & Hacc).
  assert (k = 0%nat) as -> by lia. by apply accounted_replay.
Qed.
End Calls.

(** A run on the empty database: a task is created, worked on by a worker that dies,
    requeued without a log entry, taken again, asks for an approval, gets it, is worked on again, fails and is relaunched. *)
Definition demo_calls : list StoreCall :=
  [CallCreateTask demo_params;
   CallUpdateTaskState "id-0" TaskStateAssigned "worker:w1" "dequeued";
   CallUpdateTaskState "id-0" TaskStateInProgress "worker:w1" "started";
   CallRequeueRecoverableRemoteTasks 1000000000000 "worker:w2";
   CallUpdateTaskState "id-0" TaskStateAssigned "worker:w2" "dequeued";
   CallUpdateTaskState "id-0" TaskStateInProgress "worker:w2" "started";
   CallRequestApproval "id-0" "deploy" "prod" 60 "worker:w2" "needs approval" ∅;
   CallResolveApproval "id-42" true "ana";
   CallUpdateTaskState "id-0" TaskStateAssigned "worker:w2" "dequeued";
   CallUpdateTaskState "id-0" TaskStateInProgress "worker:w2" "started";
   CallFailTask "id-0" "worker:w2" "failed" "no disk" VNil;
   CallQueueTaskForLaunch "id-0" "ana" "again"].

Lemma audited_empty : audited empty_sys.
Proof. by split. Qed.

Lemma store_calls_audited_witness :
  audited empty_sys ∧
  (let s := (@run_calls (quiet_env 0) demo_calls 0%N empty_sys).2.2 in
   audited s ∧ (λ r, (row_state r, row_retry_count r)) <$> get_row s "id-0" = Some (TaskStateQueued, 1) ∧
   (tr_to <$> history s "id-0") =
     [TaskStateQueued; TaskStateAssigned; TaskStateInProgress; TaskStateAssigned;
      TaskStateInProgress; TaskStateWaitingApproval; TaskStateQueued; TaskStateAssigned;
      TaskStateInProgress; TaskStateFailed; TaskStateQueued]).
Proof.
  split; [apply audited_empty|]. split; [|split; vm_compute; reflexivity].
  apply (@store_calls_audited (quiet_env 0) demo_calls 0%N empty_sys audited_empty).
Defined.
