(* ===== verification/Policy.v ===== *)
(** * Contracts of the initiative phases ([initiative/contracts.go])

    What a generated phase payload must contain, the execution policy of a
    workspace, and the summary of the differences between two versions. *)
From S2P Require Import Prelude GoVal Effects Domain Schema.

(** ** Payloads *)

(** [orchestratorgo/initiative/contracts.go:180-199] normalizedStringSlice. *)
Definition normalizedStringSlice (value : gval) : list string :=
  match value with
  | VStrs items => filter (λ s, s ≠ "") (trim_space <$> items)
  | VList items => filter (λ s, s ≠ "") ((λ item, trim_space (sprint item)) <$> items)
  | _ => []
  end.

(** [orchestratorgo/initiative/contracts.go:201-217] isEmptyStructuredValue. *)
Definition isEmptyStructuredValue (value : gval) : bool :=
  match value with
  | VNil => true
  | VStr s => blank s
  | VStrs _ => bool_decide (normalizedStringSlice value = [])
  | VList _ => bool_decide (normalizedStringSlice value = [])
               && bool_decide (length (map_slice value) = 0%nat)
  | VMap m => bool_decide (size m = 0%nat)
  | _ => let raw := trim_space (sprint value) in (raw =?s "") || (raw =?s "<nil>")
  end.

(** [orchestratorgo/initiative/contracts.go:219-230] asBool. *)
Definition asBool (value : gval) : bool := as_bool value.

(** The first check of a sequence that fails, each guarding the next. *)
Definition check (bad : bool) (msg : string) (rest : option string) : option string :=
  if bad then Some msg else rest.
Fixpoint check_all {A} (f : A → option string) (l : list A) : option string :=
  match l with
  | [] => None
  | x :: l' => match f x with Some e => Some e | None => check_all f l' end
  end.

Definition text_of (payload : gmap_any) (key : string) : string := as_string (mget payload key).
Definition missing (payload : gmap_any) (key : string) : bool := blank (text_of payload key).

(** [orchestratorgo/initiative/contracts.go:20-34] ValidateRequirementsPayload. *)
Definition requirements_lists : list string :=
  ["scope"; "out_of_scope"; "constraints"; "risks"; "acceptance_criteria";
   "open_questions"; "assumptions"].
Definition ValidateRequirementsPayload (payload : gmap_any) : option string :=
  check (missing payload "objective") "requirements payload missing objective"
  (check_all (λ key,
     check (bool_decide (normalizedStringSlice (mget payload key) = []))
       ("requirements payload missing non-empty " +:+ key) None) requirements_lists).

(** [orchestratorgo/initiative/contracts.go:36-50] ValidateDesignPayload. *)
Definition design_values : list string :=
  ["components"; "interfaces"; "data_model"; "testing_strategy"; "technical_risks";
   "pending_decisions"].
Definition ValidateDesignPayload (payload : gmap_any) : option string :=
  check (missing payload "architecture") "design payload missing architecture"
  (check_all (λ key,
     check (isEmptyStructuredValue (mget payload key))
       ("design payload missing non-empty " +:+ key) None) design_values).

(** [orchestratorgo/initiative/contracts.go:52-92] ValidateExecutionPlanPayload. *)
Definition validate_plan_task (epic : gmap_any) (it : nat * gmap_any) : option string :=
  let '(taskIdx, task) := it in
  let title := go_quote (text_of task "title") in
  let agent := trim_space (text_of task "suggested_agent") in
  let mode := trim_space (text_of task "execution_mode") in
  let target := trim_space (text_of task "execution_target") in
  check (missing task "title")
    ("execution plan epic " +:+ go_quote (text_of epic "name") +:+ " task "
     +:+ pretty taskIdx +:+ " missing title")
  (check (missing task "description")
    ("execution plan task " +:+ title +:+ " missing description")
  (check (negb (isSupportedAgent agent))
    ("execution plan task " +:+ title +:+ " has invalid suggested_agent " +:+ go_quote agent)
  (check (negb (IsRecognizedTaskLaunchMode mode))
    ("execution plan task " +:+ title +:+ " has invalid execution_mode " +:+ go_quote mode)
  (check (negb ((target =?s ExecutionTargetLocal) || (target =?s ExecutionTargetRemote)))
    ("execution plan task " +:+ title +:+ " has invalid execution_target " +:+ go_quote target)
  (check (missing task "definition_of_done")
    ("execution plan task " +:+ title +:+ " missing definition_of_done") None))))).
Definition validate_epic (it : nat * gmap_any) : option string :=
  let '(epicIdx, epic) := it in
  let tasks := map_slice (mget epic "tasks") in
  check (missing epic "name") ("execution plan epic " +:+ pretty epicIdx +:+ " missing name")
  (check (bool_decide (length tasks = 0%nat))
    ("execution plan epic " +:+ go_quote (text_of epic "name") +:+ " has no tasks")
  (check_all (validate_plan_task epic) (imap pair tasks))).
Definition ValidateExecutionPlanPayload (payload : gmap_any) : option string :=
  let epics := map_slice (mget payload "epics") in
  check (bool_decide (length epics = 0%nat)) "execution plan missing epics"
  (check_all validate_epic (imap pair epics)).

(** ** The execution policy of a workspace *)

(** [orchestratorgo/initiative/contracts.go:13-18] ExecutionPolicy. *)
Record ExecutionPolicy := MkPolicy {
  pol_workspace_root : string;
  pol_scope : string;
  pol_allowed_modes : list string;
  pol_approval_required_modes : list string;
}.

(** [orchestratorgo/initiative/contracts.go:94-110] ResolveExecutionPolicy. *)
Definition ResolveExecutionPolicy (orchestratorWorkspaceRoot workspaceRoot : string) :
    ExecutionPolicy :=
  let root := path_clean (trim_space orchestratorWorkspaceRoot) in
  let workspace := path_clean (trim_space workspaceRoot) in
  if negb (workspace =?s "") && negb (root =?s "")
     && ((workspace =?s root) || has_prefix (root +:+ "/") workspace)
  then MkPolicy workspace "orchestrator_remote"
         [TaskLaunchModeManual; TaskLaunchModeAgentRemote] []
  else MkPolicy workspace "local_bridge"
         [TaskLaunchModeManual; TaskLaunchModeAgentLocal] [].

(** [orchestratorgo/initiative/contracts.go:112-119] AllowsMode. *)
Definition AllowsMode (p : ExecutionPolicy) (mode : string) : bool :=
  existsb (λ candidate, trim_space candidate =?s trim_space mode) (pol_allowed_modes p).

(** [orchestratorgo/initiative/contracts.go:121-127] ValidateTaskLaunchAgainstPolicy. *)
Definition ValidateTaskLaunchAgainstPolicy (policy : ExecutionPolicy)
    (link : InitiativeTaskLink) (mode : string) : option string :=
  let mode := trim_space mode in
  check (negb (AllowsMode policy mode))
    ("execution mode " +:+ go_quote mode +:+ " is not allowed for workspace scope "
     +:+ pol_scope policy) None.

(** ** Differences between versions *)

(** Do two values marshal to the same JSON text? *)
Definition same_json (a b : gval) : bool := json_text (jsonb a) =?s json_text (jsonb b).

(** [orchestratorgo/initiative/contracts.go:129-178] SummarizeStructuredDiff. *)
Record Diff := MkDiff { added : list string; changed : list string; removed : list string }.
Definition diff_step (previous next : gmap_any) (d : Diff) (key : string) : Diff :=
  match previous !! key, next !! key with
  | None, Some _ => MkDiff (added d ++ [key])%list (changed d) (removed d)
  | Some _, None => MkDiff (added d) (changed d) (removed d ++ [key])%list
  | prev, curr =>
      if same_json (default VNil prev) (default VNil curr) then d
      else MkDiff (added d) (changed d ++ [key])%list (removed d)
  end.
Definition structured_diff (previous next : gmap_any) : Diff :=
  foldl (diff_step previous next) (MkDiff [] [] [])
    (merge_sort String.le (elements (dom previous ∪ dom next))).
Definition diff_part (label : string) (keys : list string) : list string :=
  match keys with [] => [] | _ => [label +:+ sjoin ", " keys] end.
Definition SummarizeStructuredDiff (previous next : gmap_any) : string :=
  if decide (previous = ∅) then "initial version"
  else
    let d := structured_diff previous next in
    match (diff_part "changed: " (changed d) ++ diff_part "added: " (added d)
           ++ diff_part "removed: " (removed d))%list with
    | [] => "no substantive changes"
    | parts => sjoin " | " parts
    end.

(** ** Validation is exact *)

Lemma check_None bad msg rest : check bad msg rest = None ↔ bad = false ∧ rest = None.
Proof. destruct bad; cbn; naive_solver. Qed.

Lemma check_all_None {A} (f : A → option string) l :
  check_all f l = None ↔ Forall (λ x, f x = None) l.
Proof.
  induction l as [|x l IH]; cbn; [by split; [constructor|]|].
  rewrite Forall_cons. destruct (f x); [naive_solver|]. rewrite IH. naive_solver.
Qed.

Lemma check_all_imap_None {A} (f : nat * A → option string) (P : A → Prop) l :
  (∀ i x, f (i, x) = None ↔ P x) → check_all f (imap pair l) = None ↔ Forall P l.
Proof.
  intros Hf. rewrite check_all_None, !Forall_forall. split.
  - intros Hall x [i Hi]%list_elem_of_lookup. apply (Hf i). apply Hall.
    apply list_elem_of_lookup. exists i. by rewrite list_lookup_imap, Hi.
  - intros Hall [i x] [j Hj]%list_elem_of_lookup. apply Hf, Hall.
    rewrite list_lookup_imap in Hj. destruct (l !! j) eqn:E; simplify_eq/=.
    by apply list_elem_of_lookup_2 in E.
Qed.

Definition has_text (m : gmap_any) (key : string) : Prop :=
  trim_space (text_of m key) ≠ "".

(** A task and an epic of a plan that can be materialized. *)
Record plan_task_ok (task : gmap_any) : Prop := {
  pt_title : has_text task "title";
  pt_description : has_text task "description";
  pt_agent : trim_space (text_of task "suggested_agent")
    ∈ [AgentTypePlanner; AgentTypeResearcher; AgentTypeCoder; AgentTypeReviewer];
  pt_mode : trim_space (text_of task "execution_mode")
    ∈ [TaskLaunchModeManual; TaskLaunchModeAgentLocal; TaskLaunchModeAgentRemote];
  pt_target : trim_space (text_of task "execution_target")
    ∈ [ExecutionTargetLocal; ExecutionTargetRemote];
  pt_done : has_text task "definition_of_done";
}.
Definition epic_ok (epic : gmap_any) : Prop :=
  has_text epic "name" ∧ map_slice (mget epic "tasks") ≠ [] ∧
  Forall plan_task_ok (map_slice (mget epic "tasks")).

Lemma missing_false m key : missing m key = false ↔ has_text m key.
Proof. unfold missing, blank, has_text. by rewrite String.eqb_neq. Qed.

Lemma validate_plan_task_None epic i task :
  validate_plan_task epic (i, task) = None ↔ plan_task_ok task.
Proof.
  unfold validate_plan_task. rewrite !check_None, !missing_false, !negb_false_iff.
  unfold isSupportedAgent, IsRecognizedTaskLaunchMode.
  rewrite !bool_decide_eq_true, orb_true_iff, !String.eqb_eq.
  assert (∀ t : string, t ∈ [ExecutionTargetLocal; ExecutionTargetRemote] ↔
    t = ExecutionTargetLocal ∨ t = ExecutionTargetRemote) as Hsplit by set_solver.
  rewrite <- Hsplit. split; [intros (?&?&?&?&?&?&_); by split|intros []; tauto].
Qed.

Lemma validate_epic_None i epic : validate_epic (i, epic) = None ↔ epic_ok epic.
Proof.
  unfold validate_epic, epic_ok. rewrite !check_None, missing_false, bool_decide_eq_false.
  rewrite (check_all_imap_None _ plan_task_ok); [|apply validate_plan_task_None].
  by rewrite length_zero_iff_nil.
Qed.

(** A plan payload is accepted exactly when it has an epic, every epic has a
    name and a task, and every task has a title, a description, a definition of
    done, a supported agent, a known launch mode and a known target. *)
Theorem ValidateExecutionPlanPayload_spec payload :
  ValidateExecutionPlanPayload payload = None ↔
  map_slice (mget payload "epics") ≠ [] ∧ Forall epic_ok (map_slice (mget payload "epics")).
Proof.
  unfold ValidateExecutionPlanPayload. rewrite check_None, bool_decide_eq_false.
  rewrite (check_all_imap_None _ epic_ok); [|apply validate_epic_None].
  by rewrite length_zero_iff_nil.
Qed.

(** ** The policy goes by path components *)

Lemma path_clean_nonempty p : path_clean p ≠ "".
Proof.
  unfold path_clean. destruct (is_rooted p); [done|].
  destruct (_ =?s "") eqn:E; [done|]. by apply String.eqb_neq.
Qed.

(** a workspace is executed remotely exactly when its cleaned path lies, by
    whole path components, at or under the orchestrator's workspace root (so
    [/srv/lab2] is not under [/srv/lab], and the root [/] contains only itself);
    a manual launch is always allowed, a remote one exactly in that case and a
    local one exactly otherwise, and no mode ever needs an approval. *)
Theorem ResolveExecutionPolicy_spec root workspace mode :
  let p := ResolveExecutionPolicy root workspace in
  let remote :=
    split_on "/" (path_clean (trim_space root))
      `prefix_of` split_on "/" (path_clean (trim_space workspace)) in
  (pol_scope p = "orchestrator_remote" ↔ remote) ∧
  (pol_scope p = "local_bridge" ↔ ¬ remote) ∧
  (AllowsMode p mode = true ↔
     trim_space mode = TaskLaunchModeManual
     ∨ (remote ∧ trim_space mode = TaskLaunchModeAgentRemote)
     ∨ (¬ remote ∧ trim_space mode = TaskLaunchModeAgentLocal)) ∧
  pol_approval_required_modes p = [].
Proof.
  cbn zeta. unfold ResolveExecutionPolicy.
  assert (∀ q, (path_clean q =?s "") = false) as Hne
    by (intros q; apply String.eqb_neq, path_clean_nonempty).
  rewrite !Hne. cbn [negb andb]. rewrite <- split_prefix_of.
  destruct ((path_clean (trim_space workspace) =?s path_clean (trim_space root))
    || has_prefix (path_clean (trim_space root) +:+ "/") (path_clean (trim_space workspace)))
    eqn:E.
  - apply orb_true_iff in E. rewrite String.eqb_eq in E. unfold AllowsMode; cbn -[trim_space].
    change (trim_space TaskLaunchModeManual) with TaskLaunchModeManual.
    change (trim_space TaskLaunchModeAgentRemote) with TaskLaunchModeAgentRemote.
    rewrite orb_false_r, orb_true_iff, !String.eqb_eq. intuition congruence.
  - apply orb_false_iff in E as [E1 E2]. apply String.eqb_neq in E1.
    assert (¬ (path_clean (trim_space workspace) = path_clean (trim_space root)
      ∨ has_prefix (path_clean (trim_space root) +:+ "/") (path_clean (trim_space workspace))
        = true)) as Hno by (intros [?|?]; congruence).
    unfold AllowsMode; cbn -[trim_space].
    change (trim_space TaskLaunchModeManual) with TaskLaunchModeManual.
    change (trim_space TaskLaunchModeAgentLocal) with TaskLaunchModeAgentLocal.
    rewrite orb_false_r, orb_true_iff, !String.eqb_eq. intuition congruence.
Qed.

Example policy_examples :
  pol_scope <$> [ResolveExecutionPolicy "/srv/lab" "/srv/lab/a/../b";
                 ResolveExecutionPolicy "/srv/lab/" " /srv/lab ";
                 ResolveExecutionPolicy "/srv/lab" "/srv/lab2";
                 ResolveExecutionPolicy "/" "/srv"; ResolveExecutionPolicy "" ""]
  = ["orchestrator_remote"; "orchestrator_remote"; "local_bridge"; "local_bridge";
     "orchestrator_remote"].
Proof. vm_compute. reflexivity. Qed.

(** ** Differences *)

Definition diff_added (p q : gmap_any) (k : string) : Prop :=
  p !! k = None ∧ is_Some (q !! k).
Definition diff_removed (p q : gmap_any) (k : string) : Prop :=
  is_Some (p !! k) ∧ q !! k = None.
Definition diff_changed (p q : gmap_any) (k : string) : Prop :=
  ∃ a b, p !! k = Some a ∧ q !! k = Some b ∧ same_json a b = false.

Lemma diff_step_at p q d key k :
  (k ∈ added (diff_step p q d key) ↔ k ∈ added d ∨ k = key ∧ diff_added p q k) ∧
  (k ∈ removed (diff_step p q d key) ↔ k ∈ removed d ∨ k = key ∧ diff_removed p q k) ∧
  (k ∈ changed (diff_step p q d key) ↔ k ∈ changed d ∨ k = key ∧ diff_changed p q k).
Proof.
  destruct (decide (k = key)) as [->|Hne].
  2: { assert (∀ P, k = key ∧ P ↔ False) as Hf by tauto. rewrite !Hf. unfold diff_step.
    repeat case_match; cbn; rewrite ?elem_of_app, ?list_elem_of_singleton; tauto. }
  assert (Hc : diff_changed p q key ↔
    match p !! key, q !! key with
    | Some a, Some b => same_json a b = false
    | _, _ => False
    end).
  { unfold diff_changed. destruct (p !! key) as [a|], (q !! key) as [b|];
      (split; [intros (a' & b' & Ea & Eb & Hs); by simplify_eq|]); [eauto|done..]. }
  rewrite Hc. unfold diff_added, diff_removed, diff_step. clear Hc.
  destruct (p !! key) as [a|], (q !! key) as [b|]; cbn [default from_option id].
  - destruct (same_json a b); cbn; rewrite ?elem_of_app, ?list_elem_of_singleton;
      intuition (eauto; congruence).
  - cbn. rewrite ?elem_of_app, ?list_elem_of_singleton. intuition (eauto; congruence).
  - cbn. rewrite ?elem_of_app, ?list_elem_of_singleton. intuition (eauto; congruence).
  - replace (same_json VNil VNil) with true by reflexivity.
    assert (¬ is_Some (@None gval)) by (intros [? ?]; done). cbn. tauto.
Qed.

Lemma diff_fold p q keys d k :
  let d' := foldl (diff_step p q) d keys in
  (k ∈ added d' ↔ k ∈ added d ∨ k ∈ keys ∧ diff_added p q k) ∧
  (k ∈ removed d' ↔ k ∈ removed d ∨ k ∈ keys ∧ diff_removed p q k) ∧
  (k ∈ changed d' ↔ k ∈ changed d ∨ k ∈ keys ∧ diff_changed p q k).
Proof.
  revert d. induction keys as [|key keys IH]; intros d; cbn.
  - split_and!; set_solver.
  - destruct (IH (diff_step p q d key)) as (Ha & Hr & Hc). rewrite Ha, Hr, Hc.
    destruct (diff_step_at p q d key k) as (Sa & Sr & Sc). rewrite Sa, Sr, Sc, !elem_of_cons.
    clear. destruct (decide (k = key)) as [->|Hne]; tauto.
Qed.

(** comparing two versions reports a key as added, removed or changed exactly
    when it is in the new version only, in the old one only, or in both with a
    different JSON value; the text says "no substantive changes" exactly when an
    earlier version exists and there is no such key. *)
Theorem SummarizeStructuredDiff_spec previous next :
  let d := structured_diff previous next in
  (∀ k, (k ∈ added d ↔ diff_added previous next k) ∧
        (k ∈ removed d ↔ diff_removed previous next k) ∧
        (k ∈ changed d ↔ diff_changed previous next k)) ∧
  (SummarizeStructuredDiff previous next = "no substantive changes" ↔
     previous ≠ ∅ ∧ ∀ k, ¬ diff_added previous next k ∧ ¬ diff_removed previous next k
                         ∧ ¬ diff_changed previous next k).
Proof.
  cbn zeta.
  assert (Hkeys : ∀ k, (k ∈ added (structured_diff previous next) ↔ diff_added previous next k) ∧
        (k ∈ removed (structured_diff previous next) ↔ diff_removed previous next k) ∧
        (k ∈ changed (structured_diff previous next) ↔ diff_changed previous next k)).
  { intros k. unfold structured_diff.
    destruct (diff_fold previous next
      (merge_sort String.le (elements (dom previous ∪ dom next))) (MkDiff [] [] []) k)
      as (Ha & Hr & Hc). rewrite Ha, Hr, Hc. clear Ha Hr Hc. cbn.
    rewrite merge_sort_Permutation, elem_of_elements, elem_of_union, !elem_of_dom.
    rewrite elem_of_nil. unfold diff_added, diff_removed, diff_changed, is_Some.
    naive_solver. }
  split; [exact Hkeys|].
  unfold SummarizeStructuredDiff. destruct (decide (previous = ∅)) as [He|Hne].
  { split; [done|intros [? _]; done]. }
  set (d := structured_diff previous next) in *.
  transitivity (added d = [] ∧ removed d = [] ∧ changed d = []).
  - destruct (changed d), (added d), (removed d); cbn; naive_solver.
  - split.
    + intros (Ha & Hr & Hc). split; [done|]. intros k.
      destruct (Hkeys k) as (<- & <- & <-). rewrite Ha, Hr, Hc. set_solver.
    + intros [_ Hno].
      assert (∀ l : list string, (∀ k, k ∉ l) → l = []) as Hnil
        by (intros [|x l] Hl; [done|]; destruct (Hl x); left).
      split_and!; apply Hnil; intros k Hk; destruct (Hno k) as (? & ? & ?);
        destruct (Hkeys k) as (? & ? & ?); tauto.
Qed.
