(* ===== verification/Http.v ===== *)
(** * HTTP handlers

    A handler runs in the monad of the stores and ends with a reply; it never
    fails itself.  [x <~ m ;; k] is the code's [x, err := m; if err != nil
    { writeDetail(500, err.Error()); return }]. *)
From S2P Require Import Prelude GoVal Effects Domain Schema.

(** [orchestratorgo/domain/types.go:252-258] TaskStateConflictResponse. *)
Record Conflict := MkConflict {
  conflict_current : TaskState;
  conflict_requested : TaskState;
  conflict_valid : list string;
  conflict_task : string;
}.

Inductive Reply (A : Type) :=
  | Json (status : Z) (body : A)
  | Detail (status : Z) (detail : string)
  | StateConflict (c : Conflict)
  | JsonNull.
Arguments Json {A} _ _.
Arguments Detail {A} _ _.
Arguments StateConflict {A} _.
Arguments JsonNull {A}.

Definition reply_status {A} (r : Reply A) : Z :=
  match r with
  | Json st _ | Detail st _ => st
  | StateConflict _ => 409
  | JsonNull => 200
  end.

Definition Handler (A : Type) : Type := M Sys (Reply A).

Section Handlers.
Context {A : Type}.
Definition reply (r : Reply A) : Handler A := ret r.
Definition detail (status : Z) (msg : string) : Handler A := ret (Detail status msg).
Definition json (status : Z) (body : A) : Handler A := ret (Json status body).
(** [orchestratorgo/httpapi/helpers.go:50-60] writeTaskStateConflict. *)
Definition writeTaskStateConflict (current requested : TaskState) (taskID : string) :
    Handler A :=
  ret (StateConflict (MkConflict current requested (ValidTransitionStrings current) taskID)).
(** An error of [m] becomes a 500 with its text. *)
Definition or_500 {B} (m : M Sys B) (k : B → Handler A) : Handler A :=
  bind (attempt m) (λ r,
    match r with
    | Err e => detail 500 (error_text e)
    | Ok b => k b
    end).
End Handlers.

Notation "x <~ m ;; k" := (or_500 m (λ x, k))
  (at level 100, m at next level, right associativity) : lab_scope.

(** [*o]: nil panics. *)
Definition deref {S A} (o : option A) : M S A :=
  match o with Some a => ret a | None => throw (ErrText "nil pointer dereference") end.
Lemma deref_ok {S A} (o : option A) (n : N) (s : S) a n' s' :
  deref o n s = (Ok a, (n', s')) → o = Some a ∧ s' = s.
Proof. destruct o; unfold deref, ret, throw; intros; by simplify_eq. Qed.
Lemma respects_deref {S A} (R : relation S) `{!PreOrder R} (o : option A) :
  respects R (deref o).
Proof. destruct o; [by apply respects_ret|by apply respects_throw]. Qed.
#[export] Hint Resolve respects_deref : respects.

(** [_ = m] and [_, _ = m]: run a statement and ignore its result. *)
Definition ignore {S A} (m : M S A) : M S unit := bind (attempt m) (λ _, ret tt).

Lemma respects_or_500 {A B} (R : relation Sys) `{!PreOrder R} (m : M Sys B)
    (k : B → Handler A) :
  respects R m → (∀ b, respects R (k b)) → respects R (or_500 m k).
Proof.
  intros Hm Hk. apply respects_bind; [done|by apply respects_attempt|].
  intros [b|e]; [done|]. by apply respects_ret.
Qed.
Lemma respects_ignore {S A} (R : relation S) `{!PreOrder R} (m : M S A) :
  respects R m → respects R (ignore m).
Proof.
  intros Hm. apply respects_bind; [done|by apply respects_attempt|].
  intros. by apply respects_ret.
Qed.
Lemma respects_detail {A} (R : relation Sys) `{!PreOrder R} st msg :
  respects R (detail (A:=A) st msg).
Proof. by apply respects_ret. Qed.
Lemma respects_json {A} (R : relation Sys) `{!PreOrder R} st (body : A) :
  respects R (json st body).
Proof. by apply respects_ret. Qed.
Lemma respects_reply {A} (R : relation Sys) `{!PreOrder R} (r : Reply A) :
  respects R (reply r).
Proof. by apply respects_ret. Qed.
Lemma respects_conflict {A} (R : relation Sys) `{!PreOrder R} c r t :
  respects R (writeTaskStateConflict (A:=A) c r t).
Proof. by apply respects_ret. Qed.
#[export] Hint Resolve respects_detail respects_json respects_reply respects_conflict
  : respects.

(** Walk through a handler. *)
Ltac handler_step :=
  match goal with
  | |- respects _ (or_500 _ _) => apply respects_or_500; [apply _| |intros ?]
  | |- respects _ (ignore _) => apply respects_ignore; [apply _|]
  | |- _ => respects_step
  end.
Ltac solve_handler := repeat handler_step.

(** A run of a checked call: it answered 500 and left what [m] left, or went on. *)
Lemma or_500_inv {A B} (m : M Sys B) (k : B → Handler A) n s r n' s' :
  or_500 m k n s = (r, (n', s')) →
  (∃ e, m n s = (Err e, (n', s')) ∧ r = Ok (Detail 500 (error_text e))) ∨
  ∃ b n1 s1, m n s = (Ok b, (n1, s1)) ∧ k b n1 s1 = (r, (n', s')).
Proof.
  unfold or_500, attempt, bind. destruct (m n s) as [[b|e] [n1 s1]] eqn:E.
  - eauto 10.
  - unfold detail, ret. intros [= <- <- <-]. eauto.
Qed.

(** Ignore the outcome of a call and go on with its state. *)
Lemma ignore_bind {S A B} (m : M S A) (k : M S B) n s :
  bind (ignore m) (λ _, k) n s = k (m n s).2.1 (m n s).2.2.
Proof. unfold ignore, attempt, bind, ret. by destruct (m n s) as [r [n' s']]. Qed.
