(* ===== verification/TaskApi.v ===== *)
(** * Task and approval handlers ([httpapi/handlers.go])

    Creating, updating, cancelling, archiving and reading tasks, resolving
    approvals, and the aggregation of a root task from its subtasks. *)
From S2P Require Import Prelude GoVal Effects Domain Schema TaskStore Queue.
From S2P Require Import InitiativeStore Http.

(** The part of [config.Config] the handlers read. *)
Record Config := MkConfig {
  cfg_queue_max_global : Z;
  cfg_queue_max_per_agent : Z;
  cfg_workspace_root : string;
}.

(** [orchestratorgo/httpapi/handlers.go:2814-2828] workspacePath. *)
Definition workspacePath (cfg : Config) (target : string) (metadata : gmap_any) :
    res (option string) :=
  if target =?s ExecutionTargetLocal then
    if blank (as_string (mget metadata "workspace_root")) then
      Err (ErrText "execution_target=local requires metadata.workspace_root")
    else Ok None
  else
    let base := trim_space (cfg_workspace_root cfg) in
    if base =?s "" then Ok None else Ok (Some (path_clean base)).

Section TaskApi.
Context `{Env} (cfg : Config).

(** [orchestratorgo/httpapi/handlers.go:2706-2762] reconcileRootTask: the root's
    state from its subtasks; every error is dropped. *)
Definition child_failed (t : TaskResponse) : bool :=
  bool_decide (task_state t = TaskStateFailed ∨ task_state t = TaskStateCancelled).
Definition child_open (t : TaskResponse) : bool :=
  negb (child_failed t) && negb (bool_decide (task_state t = TaskStateCompleted)).
Definition root_id_of (task : TaskResponse) : string :=
  match task_root task with
  | Some r => if blank r then task_id task else trim_space r
  | None => task_id task
  end.
Definition find_root (rootID : string) (l : list TaskResponse) : option TaskResponse :=
  last (filter (λ t, task_id t = rootID) l).
Definition aggregate_root (actor : string) (root : TaskResponse)
    (children : list TaskResponse) : M Sys unit :=
  if existsb child_failed children then
    if IsTerminalState (task_state root) then ret tt
    else ignore (FailTask (task_id root) actor "One or more subtasks failed"
                   "One or more subtasks failed" (task_results root))
  else if negb (existsb child_open children)
          && negb (bool_decide (task_state root = TaskStateCompleted)) then
    ignore (CompleteTask (task_id root) actor "All subtasks completed" (task_results root))
  else ret tt.
Definition reconcile_root (actor taskID : string) : M Sys unit :=
  found <- attempt (GetTask taskID) ;;
  match found with
  | Ok (Some task) =>
      match task_initiative task with
      | Some i =>
          if blank i then ret tt else ignore (ReconcileInitiativeExecution (trim_space i))
      | None => ret tt
      end ;;;
      let rootID := root_id_of task in
      if (rootID =?s task_id task) && bool_decide (task_parent task = None) then ret tt
      else
        listed <- attempt (ListByRoot rootID) ;;
        match listed with
        | Ok tasks =>
            let children := filter (λ t, task_id t ≠ rootID) tasks in
            match find_root rootID tasks with
            | Some root =>
                if bool_decide (children = []) then ret tt
                else aggregate_root actor root children
            | None => ret tt
            end
        | Err _ => ret tt
        end
  | _ => ret tt
  end.
Definition reconcileRootTask (taskID : string) : M Sys unit :=
  reconcile_root "api:aggregate" taskID.

(** [orchestratorgo/httpapi/handlers.go:476-598] createTask: the decoded body (none
    when it is not JSON) and the [Idempotency-Key] header. *)
Definition create_and_enqueue (body : TaskCreateRequest) (agentType priority target : string)
    (workspace : option string) (idempotencyKey : string) : Handler (option TaskResponse) :=
  created <- attempt (CreateTask
    {| ctp_description := trim_space (create_description body);
       ctp_metadata := create_metadata body;
       ctp_allowed_capabilities := create_allowed_capabilities body;
       ctp_priority := priority;
       ctp_assigned_agent := agentType;
       ctp_planned_agent := create_planned_agent body;
       ctp_execution_target := target;
       ctp_idempotency_key := if idempotencyKey =?s "" then None else Some idempotencyKey;
       ctp_entrypoint := "api";
       ctp_workspace_path := workspace;
       ctp_parent := None;
       ctp_root := None;
       ctp_initiative := create_initiative body;
       ctp_kind := "";
       ctp_queue_on_create := true |}) ;;
  match created with
  | Err (ErrUniqueViolation c) =>
      if idempotencyKey =?s "" then detail 500 (error_text (ErrUniqueViolation c))
      else
        existing <- attempt (GetTaskByIdempotencyKey idempotencyKey) ;;
        match existing with
        | Ok (Some t) => json 201 (Some t)
        | _ => detail 500 (error_text (ErrUniqueViolation c))
        end
  | Err e => detail 500 (error_text e)
  | Ok None => throw (ErrText "nil pointer dereference")
  | Ok (Some task) =>
      enqueued <- (if target =?s ExecutionTargetLocal then ret (Ok tt)
                   else attempt (EnqueueTask (task_id task) agentType priority)) ;;
      match enqueued with
      | Err e =>
          ignore (CancelTask (task_id task) "api:create"
                    ("queue enqueue failed: " +:+ error_text e)) ;;;
          detail 503 "failed to enqueue task"
      | Ok _ =>
          updated <- attempt (GetTask (task_id task)) ;;
          match updated with
          | Ok (Some t) => json 201 (Some t)
          | _ => json 201 (Some task)
          end
      end
  end.
Definition createTask (body : option TaskCreateRequest) (idempotencyHeader : string) :
    Handler (option TaskResponse) :=
  match body with
  | None => detail 400 "invalid JSON body"
  | Some body =>
      let description := trim_space (create_description body) in
      if (description =?s "") || (10000 <? slen description) then
        detail 400 "description must be between 1 and 10000 characters"
      else
      let priority := if create_priority body =?s "" then PriorityNormal
                      else create_priority body in
      if negb (isSupportedPriority priority) then detail 400 "invalid priority" else
      let target := if create_execution_target body =?s "" then ExecutionTargetRemote
                    else create_execution_target body in
      if negb ((target =?s ExecutionTargetRemote) || (target =?s ExecutionTargetLocal)) then
        detail 400 "invalid execution_target"
      else
      let agentType := classifyAgent description (create_assigned_agent body) in
      if negb (isSupportedAgent agentType) then
        detail 400 "Current Go runtime only supports planner, researcher, coder and reviewer"
      else
      match workspacePath cfg target (create_metadata body) with
      | Err e => detail 400 (error_text e)
      | Ok workspace =>
          let idempotencyKey := trim_space idempotencyHeader in
          prior <~ (if idempotencyKey =?s "" then ret None
                    else GetTaskByIdempotencyKey idempotencyKey) ;;
          match prior with
          | Some t => json 201 (Some t)
          | None =>
              if target =?s ExecutionTargetLocal then
                create_and_enqueue body agentType priority target workspace idempotencyKey
              else
                totalDepth <~ TotalQueueDepth ;;
                if cfg_queue_max_global cfg <=? totalDepth then
                  detail 429 "global queue capacity reached"
                else
                  agentDepth <~ QueueDepth agentType ;;
                  if cfg_queue_max_per_agent cfg <=? agentDepth then
                    detail 429 "agent queue capacity reached"
                  else
                    create_and_enqueue body agentType priority target workspace
                      idempotencyKey
          end
      end
  end.

(** [orchestratorgo/httpapi/handlers.go:600-611] getTask. *)
Definition getTask (taskID : string) : Handler TaskResponse :=
  task <~ GetTask taskID ;;
  match task with
  | None => detail 404 "task not found"
  | Some t => json 200 t
  end.

Definition is_invalid_transition (e : GoError) : bool :=
  has_prefix "invalid_transition:" (error_text e).

(** [orchestratorgo/httpapi/handlers.go:613-669] updateTask: the body's state and
    reason. *)
Definition updateTask (taskID : string) (body : option (string * option string)) :
    Handler TaskResponse :=
  task <~ GetTask taskID ;;
  match task, body with
  | None, _ => detail 404 "task not found"
  | _, None => detail 400 "invalid JSON body"
  | Some task, Some (state, reason) =>
      if state =?s "" then detail 400 "state is required" else
      match recognized_state state with
      | None => detail 400 "invalid state"
      | Some target =>
          let currentState := task_state task in
          if negb (IsValidTransition currentState target) then
            writeTaskStateConflict currentState target taskID
          else
            let reason := match reason with Some r => trim_space r | None => "" end in
            updated <- attempt (UpdateTaskState taskID target "api" reason) ;;
            match updated with
            | Err e =>
                if is_invalid_transition e
                then writeTaskStateConflict currentState target taskID
                else detail 500 (error_text e)
            | Ok _ =>
                updatedTask <~ GetTask taskID ;;
                match updatedTask with
                | None => detail 404 "task not found"
                | Some t => reconcileRootTask (task_id t) ;;; json 200 t
                end
            end
      end
  end.

(** [orchestratorgo/httpapi/handlers.go:671-678] listTaskChildren. *)
Definition listTaskChildren (taskID : string) : Handler (list TaskResponse) :=
  items <~ ListChildren taskID ;; json 200 items.

(** [orchestratorgo/httpapi/handlers.go:680-713] cancelTask. *)
Definition cancelTask (taskID : string) : Handler TaskResponse :=
  task <~ GetTask taskID ;;
  match task with
  | None => detail 404 "task not found"
  | Some task =>
      if negb (isCancellableState (task_state task)) then
        writeTaskStateConflict (task_state task) TaskStateCancelled taskID
      else
        cancelled <- attempt (CancelTask taskID "api" "Cancelled via API") ;;
        match cancelled with
        | Err e =>
            if is_invalid_transition e
            then writeTaskStateConflict (task_state task) TaskStateCancelled taskID
            else detail 500 (error_text e)
        | Ok _ =>
            updatedTask <~ GetTask taskID ;;
            match updatedTask with
            | None => detail 404 "task not found"
            | Some t => json 200 t
            end
        end
  end.

(** [orchestratorgo/httpapi/handlers.go:715-740] archiveTask. *)
Definition archiveTask (taskID : string) : Handler (option TaskResponse) :=
  task <~ GetTask taskID ;;
  match task with
  | None => detail 404 "task not found"
  | Some task =>
      if negb (IsTerminalState (task_state task)) then
        detail 409 "only terminal tasks can be archived"
      else
        _u <~ ArchiveTask taskID ;;
        updatedTask <~ GetTask taskID ;;
        json 200 updatedTask
  end.

(** [orchestratorgo/httpapi/handlers.go:742-763] unarchiveTask. *)
Definition unarchiveTask (taskID : string) : Handler (option TaskResponse) :=
  task <~ GetTask taskID ;;
  match task with
  | None => detail 404 "task not found"
  | Some _ =>
      _u <~ UnarchiveTask taskID ;;
      updatedTask <~ GetTask taskID ;;
      json 200 updatedTask
  end.

(** [orchestratorgo/httpapi/handlers.go:843-889] resolveApproval: the body's
    operator. ResolveApproval returns no task with an error, so the branch that
    answers a state conflict is never taken. *)
Definition resolveApproval (approvalID : string) (body : option string) (approve : bool) :
    Handler (option ApprovalResponse) :=
  match body with
  | None => detail 400 "invalid JSON body"
  | Some operator =>
      let operator := trim_space operator in
      if (operator =?s "") || (128 <? slen operator) then
        detail 400 "operator must be between 1 and 128 characters"
      else
        resolved <- attempt (ResolveApproval approvalID approve operator) ;;
        match resolved with
        | Err ErrApprovalNotFound => detail 404 "approval not found"
        | Err ErrApprovalAlreadyResolved => detail 409 "approval already resolved"
        | Err e => detail 500 (error_text e)
        | Ok (approval, task) =>
            enqueued <- match task with
              | Some t =>
                  match task_assigned_agent t with
                  | Some agent =>
                      if approve && negb (task_execution_target t =?s ExecutionTargetLocal)
                      then attempt (EnqueueTask (task_id t) agent (task_priority t))
                      else ret (Ok tt)
                  | None => ret (Ok tt)
                  end
              | None => ret (Ok tt)
              end ;;
            match enqueued with
            | Err _ => detail 503 "approval resolved but failed to enqueue task"
            | Ok _ =>
                match task with Some t => reconcileRootTask (task_id t) | None => ret tt end ;;;
                json 200 approval
            end
        end
  end.

(** [orchestratorgo/httpapi/handlers.go:835-841] approveApproval, rejectApproval. *)
Definition approveApproval (id : string) (body : option string) := resolveApproval id body true.
Definition rejectApproval (id : string) (body : option string) := resolveApproval id body false.

(** ** The task tree *)

(** [orchestratorgo/domain/types.go:126-129] TaskTreeResponse. *)
Inductive TaskTree := Node (task : TaskResponse) (children : list TaskTree).
Definition tree_task (t : TaskTree) : TaskResponse := let 'Node x _ := t in x.
Definition tree_children (t : TaskTree) : list TaskTree := let 'Node _ c := t in c.

(** [orchestratorgo/httpapi/handlers.go:785-798] nodes are shared by pointer, but
    a parent is given a copy of its child as it is at that moment; [order] is the
    order in which the range over the map happens to visit the nodes. *)
Definition tree_nodes (items : list TaskResponse) : gmap string TaskTree :=
  foldl (λ m item, <[task_id item := Node item []]> m) ∅ items.
Definition attach_step (nodes : gmap string TaskTree) (id : string) : gmap string TaskTree :=
  match nodes !! id with
  | None => nodes
  | Some node =>
      match task_parent (tree_task node) with
      | None => nodes
      | Some parentID =>
          if parentID =?s "" then nodes
          else alter (λ parent, Node (tree_task parent) (tree_children parent ++ [node])%list)
                 parentID nodes
      end
  end.
Definition attach_children (order : list string) (nodes : gmap string TaskTree) :
    gmap string TaskTree := foldl attach_step nodes order.

(** [orchestratorgo/httpapi/handlers.go:765-808] getTaskTree. *)
Definition getTaskTree (order : list TaskResponse → list string) (taskID : string) :
    Handler TaskTree :=
  root <~ GetTask taskID ;;
  match root with
  | None => detail 404 "task not found"
  | Some root =>
      let rootID := match task_root root with
                    | Some r => if r =?s "" then task_id root else r
                    | None => task_id root
                    end in
      items <~ ListByRoot rootID ;;
      let nodes := attach_children (order items) (tree_nodes items) in
      match nodes !! taskID with
      | Some target => json 200 target
      | None =>
          match nodes !! rootID with
          | Some target => json 200 target
          | None => detail 404 "task tree not found"
          end
      end
  end.
End TaskApi.

(** ** Every handler keeps the contract *)
Section Evolution.
Context `{Env} (cfg : Config).

Lemma redis_evolves q s : evolves s (s <| redis := q |>).
Proof. split; [same_tasks..|by exists []; rewrite app_nil_r|eauto 10|cbn; congruence]. Qed.
Lemma EnqueueTask_evolves t a p : respects evolves (EnqueueTask t a p).
Proof.
  unfold EnqueueTask. solve_respects. apply respects_exec; [apply _|].
  intros s. apply redis_evolves.
Qed.
Lemma DequeueTask_evolves a : respects evolves (DequeueTask a).
Proof.
  apply respects_stmt; [apply _|]. intros s.
  destruct (zmin _) as [[m sc]|]; cbn; [apply redis_evolves|done].
Qed.
Lemma QueueDepth_evolves a : respects evolves (QueueDepth a).
Proof. unfold QueueDepth. auto with respects. Qed.
Lemma TotalQueueDepth_evolves : respects evolves TotalQueueDepth.
Proof. unfold TotalQueueDepth. solve_respects. Qed.

Lemma GetTask_evolves id : respects evolves (GetTask id).
Proof. unfold GetTask. auto with respects. Qed.
Lemma ListByRoot_evolves id : respects evolves (ListByRoot id).
Proof. unfold ListByRoot. auto with respects. Qed.
Lemma ListChildren_evolves id : respects evolves (ListChildren id).
Proof. unfold ListChildren. auto with respects. Qed.
Lemma GetTaskByIdempotencyKey_evolves k : respects evolves (GetTaskByIdempotencyKey k).
Proof. unfold GetTaskByIdempotencyKey. auto with respects. Qed.
End Evolution.
#[export] Hint Resolve EnqueueTask_evolves DequeueTask_evolves QueueDepth_evolves
  TotalQueueDepth_evolves GetTask_evolves ListByRoot_evolves ListChildren_evolves
  GetTaskByIdempotencyKey_evolves : respects.

Section HandlerEvolution.
Context `{Env} (cfg : Config).

Lemma aggregate_root_evolves actor root children :
  respects evolves (aggregate_root actor root children).
Proof. unfold aggregate_root. solve_handler. Qed.
Lemma reconcile_root_evolves actor id : respects evolves (reconcile_root actor id).
Proof. unfold reconcile_root. solve_handler. apply aggregate_root_evolves. Qed.
Lemma reconcileRootTask_evolves id : respects evolves (reconcileRootTask id).
Proof. apply reconcile_root_evolves. Qed.
Hint Resolve reconcileRootTask_evolves : respects.

Lemma create_and_enqueue_evolves body a p t w k :
  respects evolves (create_and_enqueue body a p t w k).
Proof. unfold create_and_enqueue. solve_handler. Qed.
Hint Resolve create_and_enqueue_evolves : respects.
Lemma createTask_evolves body k : respects evolves (createTask cfg body k).
Proof. unfold createTask. cbn zeta. solve_handler. Qed.
Lemma updateTask_evolves id body : respects evolves (updateTask id body).
Proof. unfold updateTask. cbn zeta. solve_handler. Qed.
Lemma cancelTask_evolves id : respects evolves (cancelTask id).
Proof. unfold cancelTask. solve_handler. Qed.
Lemma archiveTask_evolves id : respects evolves (archiveTask id).
Proof. unfold archiveTask. solve_handler. Qed.
Lemma unarchiveTask_evolves id : respects evolves (unarchiveTask id).
Proof. unfold unarchiveTask. solve_handler. Qed.
Lemma resolveApproval_evolves id body approve :
  respects evolves (resolveApproval id body approve).
Proof. unfold resolveApproval. cbn zeta. solve_handler. Qed.
Lemma getTaskTree_evolves order id : respects evolves (getTaskTree order id).
Proof. unfold getTaskTree. cbn zeta. solve_handler. Qed.
End HandlerEvolution.
#[export] Hint Resolve aggregate_root_evolves reconcile_root_evolves reconcileRootTask_evolves createTask_evolves
  updateTask_evolves cancelTask_evolves archiveTask_evolves unarchiveTask_evolves
  resolveApproval_evolves getTaskTree_evolves : respects.

(** ** Queue capacity *)
Section Capacity.
Context `{Env} (cfg : Config).

Definition depth (s : Sys) (agent : string) : Z := Z.of_nat (size (agent_queue s agent)).
Definition total_depth (s : Sys) : Z :=
  depth s AgentTypePlanner + depth s AgentTypeCoder + depth s AgentTypeReviewer
  + depth s AgentTypeInfra + depth s AgentTypeResearcher.

Definition same_redis (s s' : Sys) : Prop := redis s' = redis s.
#[export] Instance same_redis_preorder : PreOrder same_redis.
Proof. split; unfold same_redis; [done|congruence]. Qed.

Lemma QueueDepth_ok a n s d n' s' :
  QueueDepth a n s = (Ok d, (n', s')) → d = depth s a ∧ s' = s.
Proof. intros (-> & -> & _)%query_ok. done. Qed.
Lemma TotalQueueDepth_ok n s d n' s' :
  TotalQueueDepth n s = (Ok d, (n', s')) → d = total_depth s ∧ s' = s.
Proof.
  unfold TotalQueueDepth, total_depth. cbn [for_each]. intros Hr. run_inv.
  repeat match goal with Hq : QueueDepth _ _ _ = (Ok _, _) |- _ =>
    apply QueueDepth_ok in Hq as [-> ->] end.
  split; [lia|done].
Qed.

Lemma UpdateTaskState_same_redis id to actor reason :
  respects same_redis (UpdateTaskState id to actor reason).
Proof.
  intros n s [u|e] n' s' Hrun; [|by apply in_tx_err in Hrun as ->].
  by apply UpdateTaskState_ok in Hrun as (? & ? & ? & _ & _ & ->).
Qed.
Lemma CreateTask_same_redis params : respects same_redis (CreateTask params).
Proof.
  intros n s r n' s' [[-> _]|(id & _ & _ & -> & _)]%CreateTask_run; [done|].
  unfold creation. by destruct (ctp_queue_on_create params).
Qed.

Lemma depth_enqueue s agent q a :
  depth (s <| redis := <[agent := q]> (redis s) |>) a
  = if decide (agent = a) then Z.of_nat (size q) else depth s a.
Proof. unfold depth. rewrite agent_queue_insert. by case_decide. Qed.

Lemma depth_same_redis s s' a : same_redis s s' → depth s' a = depth s a.
Proof. unfold same_redis, depth, agent_queue. by intros ->. Qed.

(** Capacity relations between the state before and after. *)
Definition grows_by_one (agent : string) (s s' : Sys) : Prop :=
  depth s agent <= depth s' agent <= depth s agent + 1 ∧
  ∀ a, a ≠ agent → depth s' a = depth s a.

Lemma EnqueueTask_grows t agent p n s r n' s' :
  EnqueueTask t agent p n s = (r, (n', s')) → grows_by_one agent s s'.
Proof.
  unfold EnqueueTask. intros [(e & Hrun & ->)|(now & n1 & s1 & Hnow & Hrun)]%bind_inv;
    unfold time_now in *; simplify_eq.
  apply stmt_inv in Hrun as [_ [(?&_&_&->)|[_ ?]]].
  { split; [lia|done]. }
  simplify_eq. split; [|intros a Hne; rewrite depth_enqueue; by rewrite decide_False].
  rewrite depth_enqueue, decide_True by done. unfold depth.
  destruct (agent_queue s1 agent !! t) eqn:E.
  - rewrite map_size_insert_Some by done. lia.
  - rewrite map_size_insert_None by done. lia.
Qed.

Lemma grows_total agent s s' :
  grows_by_one agent s s' → total_depth s' <= total_depth s + 1.
Proof.
  intros [Hb Ho]. unfold total_depth.
  assert (Hd : ∀ a, depth s' a = depth s a ∨
    (a = agent ∧ depth s' a <= depth s a + 1)).
  { intros a. destruct (decide (a = agent)) as [->|]; [right; split; [done|lia]|left; by apply Ho]. }
  pose proof (Hd AgentTypePlanner) as H1. pose proof (Hd AgentTypeCoder) as H2.
  pose proof (Hd AgentTypeReviewer) as H3. pose proof (Hd AgentTypeInfra) as H4.
  pose proof (Hd AgentTypeResearcher) as H5. clear Hd Ho.
  unfold AgentTypePlanner, AgentTypeCoder, AgentTypeReviewer, AgentTypeInfra,
    AgentTypeResearcher in *.
  destruct H1 as [|[E1 ?]], H2 as [|[E2 ?]], H3 as [|[E3 ?]], H4 as [|[E4 ?]],
    H5 as [|[E5 ?]]; first [lia|congruence].
Qed.

Lemma create_and_enqueue_grows body agent p target w k n s r n' s' :
  create_and_enqueue body agent p target w k n s = (r, (n', s')) →
  same_redis s s' ∨ (target ≠ ExecutionTargetLocal ∧ grows_by_one agent s s').
Proof.
  unfold create_and_enqueue.
  intros [(e & Hrun & ->)|(created & n1 & s1 & Hcreate & Hrun)]%bind_inv;
    [unfold attempt in Hrun; by destruct (CreateTask _ _ _) as [? [? ?]]|].
  assert (same_redis s s1) as Hs1.
  { revert Hcreate. apply respects_attempt, CreateTask_same_redis. }
  assert (Hgo : ∀ s2 s3, same_redis s s2 →
    same_redis s2 s3 ∨ (target ≠ ExecutionTargetLocal ∧ grows_by_one agent s2 s3) →
    same_redis s s3 ∨ (target ≠ ExecutionTargetLocal ∧ grows_by_one agent s s3)).
  { intros s2 s3 H2 [H3|[Ht [Hb Ho]]]; [left; by etrans|right]. split; [done|].
    rewrite !(depth_same_redis s s2) in Hb by done. split; [done|].
    intros a Ha. rewrite Ho by done. by apply depth_same_redis. }
  apply (Hgo s1); [done|]. clear Hgo Hs1 Hcreate.
  assert (Hsame : ∀ (m : Handler (option TaskResponse)) n s r n' s',
    respects same_redis m → m n s = (r, (n', s')) → same_redis s s') by eauto.
  destruct created as [[task|]|e].
  2: { left. eapply (Hsame _ _ _ _ _ _ (respects_throw _ _)); exact Hrun. }
  2: { left. revert Hrun. apply (Hsame _).
    destruct e; cbn; solve_handler; apply respects_query. }
  apply bind_inv in Hrun as [(e & He & ->)|(enq & n2 & s2 & He & Hrun)].
  { destruct (_ =?s _); [done|]. unfold attempt in He.
    by destruct (EnqueueTask _ _ _ _ _) as [? [? ?]]. }
  assert (same_redis s2 s') as Hs2.
  { revert Hrun. apply (Hsame _). destruct enq; solve_handler;
      first [apply respects_query|apply UpdateTaskState_same_redis]; apply _. }
  destruct (target =?s ExecutionTargetLocal) eqn:Et.
  - unfold ret in He. simplify_eq. by left.
  - right. apply String.eqb_neq in Et. split; [done|].
    unfold attempt in He. destruct (EnqueueTask _ _ _ _ _) as [r1 [n3 s3]] eqn:Eq.
    simplify_eq. apply EnqueueTask_grows in Eq as [Hb Ho]. split.
    + by rewrite (depth_same_redis s2 s').
    + intros a Ha. rewrite (depth_same_redis s2 s') by done. by apply Ho.
Qed.

Lemma total_same : respects same_redis TotalQueueDepth.
Proof. unfold TotalQueueDepth. unfold QueueDepth. solve_respects. Qed.

Lemma createTask_grows body key n s r n' s' :
  createTask cfg body key n s = (r, (n', s')) →
  same_redis s s' ∨
  ∃ agent, total_depth s < cfg_queue_max_global cfg ∧
    depth s agent < cfg_queue_max_per_agent cfg ∧ grows_by_one agent s s'.
Proof.
  unfold createTask, detail, json, ret. cbn zeta.
  destruct body as [body|]; [|intros [= <- <- <-]; by left].
  set (target := if create_execution_target body =?s "" then _ else _).
  repeat match goal with |- (if ?b then _ else _) _ _ = _ → _ =>
    destruct b; [intros [= <- <- <-]; by left|] end.
  destruct (workspacePath _ _ _); [|intros [= <- <- <-]; by left].
  intros [(e & Hrun & ->)|(prior & n1 & s1 & Hprior & Hrun)]%or_500_inv.
  { destruct (trim_space key =?s "") in Hrun; [unfold ret in Hrun; simplify_eq|].
    apply query_state in Hrun as ->. by left. }
  assert (s1 = s) as ->.
  { destruct (trim_space key =?s "") in Hprior; [unfold ret in Hprior; by simplify_eq|].
    by apply query_state in Hprior. }
  destruct prior as [t|]; [simplify_eq; by left|].
  destruct (target =?s ExecutionTargetLocal) eqn:Et.
  { apply create_and_enqueue_grows in Hrun as [?|[Hl _]]; [by left|].
    by apply String.eqb_neq in Hl; rewrite Et in Hl. }
  apply or_500_inv in Hrun as [(e & Hrun & ->)|(d & n2 & s2 & Hd & Hrun)].
  { left. revert Hrun. apply total_same. }
  apply TotalQueueDepth_ok in Hd as [-> ->].
  destruct (Z.leb_spec (cfg_queue_max_global cfg) (total_depth s)); [simplify_eq; by left|].
  apply or_500_inv in Hrun as [(e & Hrun & ->)|(d & n3 & s3 & Hd & Hrun)].
  { apply query_state in Hrun as ->. by left. }
  apply QueueDepth_ok in Hd as [-> ->].
  match type of Hrun with (if _ <=? depth s ?a then _ else _) _ _ = _ =>
    destruct (Z.leb_spec (cfg_queue_max_per_agent cfg) (depth s a));
      [simplify_eq; by left|] end.
  apply create_and_enqueue_grows in Hrun as [?|[_ Hg]]; [by left|].
  right. eauto.
Qed.

(** C11: the task endpoint never pushes the queues over their capacity: total
    and per-agent depths that are within [QueueMaxGlobal] and [QueueMaxPerAgent]
    before a request are within them after it, whatever the request and
    whichever statements fail (requests served one at a time). *)
Theorem createTask_respects_capacity body key n s :
  let '(_, (_, s')) := createTask cfg body key n s in
  (total_depth s <= cfg_queue_max_global cfg →
   total_depth s' <= cfg_queue_max_global cfg) ∧
  (∀ agent, depth s agent <= cfg_queue_max_per_agent cfg →
   depth s' agent <= cfg_queue_max_per_agent cfg).
Proof.
  destruct (createTask cfg body key n s) as [r [n' s']] eqn:Hrun.
  apply createTask_grows in Hrun as [Hs|(agent & Hg & Ha & Hgrow)].
  - split; [|intros a; by rewrite (depth_same_redis s s')].
    unfold total_depth. by rewrite !(depth_same_redis s s').
  - split; [pose proof (grows_total _ _ _ Hgrow); lia|].
    destruct Hgrow as [Hb Ho]. intros a Hle. destruct (decide (a = agent)) as [->|Hne].
    + lia.
    + by rewrite Ho.
Qed.
End Capacity.


(** Nothing leaves the queues. *)
Definition queues_grow (s s' : Sys) : Prop :=
  ∀ agent id, is_Some (agent_queue s agent !! id) → is_Some (agent_queue s' agent !! id).
#[export] Instance queues_grow_preorder : PreOrder queues_grow.
Proof. split; unfold queues_grow; [by intros s a i|]. intros ??? H1 H2 a i Hs. auto. Qed.
Lemma queues_grow_same s s' : redis s' = redis s → queues_grow s s'.
Proof. intros Hr agent id. unfold queues_grow, agent_queue. by rewrite Hr. Qed.
Lemma respects_queues_same {A} (m : M Sys A) :
  respects same_redis m → respects queues_grow m.
Proof. intros Hm n s r n' s' Hrun. eapply queues_grow_same, Hm, Hrun. Qed.

Lemma EnqueueTask_queues `{Env} t agent p : respects queues_grow (EnqueueTask t agent p).
Proof.
  unfold EnqueueTask. solve_respects. apply respects_exec; [apply _|].
  intros s ag id Hin. rewrite agent_queue_insert. case_decide as Ha; [subst|done].
  destruct (decide (t = id)) as [->|Hne]; [rewrite lookup_insert_eq; by eexists|].
  by rewrite lookup_insert_ne.
Qed.

(** ** Idempotent creation, approval and cancellation *)
Section ApiSpecs.
Context `{Env} (cfg : Config).

(** Creating a task again under an idempotency key that a stored task already
    carries creates nothing: the answer is that task (or the same refusal an
    invalid request gets), and neither the database nor the queues change. *)
Theorem createTask_idempotent body key n s row :
  calm → trim_space key ≠ "" →
  head (filter (λ r, row_idempotency_key r = Some (trim_space key))
          (rows_of (tasks (pg s)))) = Some row →
  let '(r, (_, s')) := createTask cfg body key n s in
  s' = s ∧ ∃ rep, r = Ok rep ∧
    (reply_status rep = 400 ∨ rep = Json 201 (Some (scanTask row))).
Proof.
  intros Hcalm Hkey Hrow. apply String.eqb_neq in Hkey.
  destruct (createTask cfg body key n s) as [r [n' s']] eqn:Hrun. revert Hrun.
  unfold createTask, detail, json, ret. cbn zeta.
  destruct body as [body|]; [|intros [= <- <- <-]; eauto].
  repeat match goal with |- (if ?b then _ else _) _ _ = _ → _ =>
    destruct b; [intros [= <- <- <-]; eauto|] end.
  destruct (workspacePath _ _ _); [|intros [= <- <- <-]; eauto].
  rewrite Hkey. unfold or_500, bind, attempt, GetTaskByIdempotencyKey.
  rewrite query_calm, Hrow by done. cbn. intros [= <- <- <-]. eauto.
Qed.

Lemma finalizeTask_same_redis id to actor reason results msg :
  respects same_redis (finalizeTask id to actor reason results msg).
Proof.
  by intros n s r n' s' [[-> _]|(row & now & tid & _ & _ & ->)]%finalizeTask_run.
Qed.
Lemma reconcile_as_same_redis actor id : respects same_redis (reconcile_root actor id).
Proof.
  unfold reconcile_root, aggregate_root, ReconcileInitiativeExecution, UpdateInitiative,
    GetInitiative, ListInitiativeTasks, GetTask, ListByRoot. solve_handler.
  1: by apply respects_exec_now; [apply _|].
  all: apply finalizeTask_same_redis.
Qed.
Lemma reconcile_same_redis id : respects same_redis (reconcileRootTask id).
Proof. apply reconcile_as_same_redis. Qed.
Lemma results_same_redis id results : respects same_redis (UpdateTaskResults id results).
Proof. by apply respects_exec_now; [apply _|]. Qed.
Lemma RequestApproval_same_redis id at_ tr timeout actor reason patch :
  respects same_redis (RequestApproval id at_ tr timeout actor reason patch).
Proof.
  by intros n s r n' s' [[-> _]|(row & now & aid & tid & _ & _ & _ & ->)]%RequestApproval_run.
Qed.

(** When an approval of a task for a remote agent is granted and the answer
    is 200, the task is in its agent's queue: an approved task is never left
    out of the queue by a success. *)
Theorem approval_enqueues id operator n s a row :
  approvals (pg s) !! id = Some a → get_row s (approval_task a) = Some row →
  row_id row = approval_task a →
  nonempty (row_assigned_agent row) = Some (derefString (row_assigned_agent row)) →
  row_execution_target row ≠ ExecutionTargetLocal →
  match approveApproval id (Some operator) n s with
  | (Ok (Json 200 _), (_, s')) =>
      is_Some (agent_queue s' (derefString (row_assigned_agent row)) !! approval_task a)
  | _ => True
  end.
Proof.
  intros Ha Hrow Hid Hagent Hremote.
  destruct (approveApproval id (Some operator) n s) as [r [n' s']] eqn:Hrun.
  destruct r as [[st body| | |]|]; try done. destruct (decide (st = 200)) as [->|Hst].
  2: { destruct st as [|p|p]; try done. repeat (destruct p; try done). }
  unfold approveApproval, resolveApproval, detail, json, ret in Hrun.
  case_match; [done|]. unfold bind at 1, attempt at 1 in Hrun.
  destruct (ResolveApproval id true (trim_space operator) n s) as [res [n1 s1]] eqn:Hres.
  destruct res as [[ap t]|e]; [|by destruct e].
  apply ResolveApproval_run in Hres as [[_ [? ?]]|(a' & row' & now & tid & Hspec)]; [done|].
  cbn in Hspec. destruct Hspec as (Ha' & _ & Hrow' & _ & -> & Hout).
  simplify_eq. specialize (Hout _ eq_refl).
  set (row2 := apply_transition TaskStateQueued now
    (set_metadata (merge_resolution true (row_metadata row)) row)) in *.
  match type of Hout with context [get_row ?S (approval_task a)] =>
    assert (Hget : get_row S (approval_task a) = Some row2) end.
  { rewrite get_row_transition_eq, get_row_update_eq.
    unfold get_row in *. cbn [pg on_pg update_approval update tasks]. by rewrite Hrow. }
  rewrite Hget in Hout. injection Hout as -> ->. cbn [fmap option_fmap option_map] in Hrun.
  change (task_assigned_agent (scanTask row2)) with (nonempty (row_assigned_agent row))
    in Hrun.
  rewrite Hagent in Hrun. apply String.eqb_neq in Hremote.
  change (task_execution_target (scanTask row2)) with (row_execution_target row) in Hrun.
  rewrite Hremote in Hrun. cbn [andb negb] in Hrun. unfold bind at 1, attempt in Hrun.
  change (task_id (scanTask row2)) with (row_id row) in Hrun. rewrite Hid in Hrun.
  match type of Hrun with context [EnqueueTask ?t ?g ?p ?m ?x] =>
    destruct (EnqueueTask t g p m x) as [[u|e] [n2 s2]] eqn:Henq end; [|done].
  assert (is_Some (agent_queue s2 (derefString (row_assigned_agent row))
    !! approval_task a)) as Hq.
  { unfold EnqueueTask in Henq. run_inv. rewrite agent_queue_insert, decide_True by done.
    rewrite lookup_insert_eq. by eexists. }
  apply bind_inv in Hrun as [(? & _ & ?)|(? & n3 & s3 & Hrec & Hend)]; [done|].
  simplify_eq. apply (reconcile_same_redis _ _ _ _ _ _) in Hrec.
  unfold agent_queue. by rewrite Hrec.
Qed.
End ApiSpecs.

(** ** Concrete requests *)
Definition demo_cfg : Config := MkConfig 100 10 "/srv/lab".
Definition demo_body : TaskCreateRequest :=
  MkTaskCreate "fix the build" ∅ [] "high" (Some "coder") "remote" None None.
Definition keyed_demo : Sys := Eval vm_compute in
  (@createTask (quiet_env 0) demo_cfg (Some demo_body) "key-1" 0%N empty_sys).2.2.

Lemma createTask_idempotent_witness :
  ∃ row, head (filter (λ r, row_idempotency_key r = Some "key-1")
            (rows_of (tasks (pg keyed_demo)))) = Some row ∧
    let '(r, (_, s')) :=
      @createTask (quiet_env 0) demo_cfg (Some demo_body) " key-1" 30%N keyed_demo in
    s' = keyed_demo ∧ ∃ rep, r = Ok rep ∧
      (reply_status rep = 400 ∨ rep = Json 201 (Some (scanTask row))).
Proof.
  assert (Hf : match head (filter (λ r, row_idempotency_key r = Some "key-1")
      (rows_of (tasks (pg keyed_demo)))) with Some _ => true | None => false end = true)
    by (vm_compute; reflexivity).
  destruct (head (filter (λ r, row_idempotency_key r = Some "key-1")
    (rows_of (tasks (pg keyed_demo))))) as [row|] eqn:Hrow; [|discriminate Hf].
  exists row. split; [done|].
  apply (@createTask_idempotent (quiet_env 0) demo_cfg (Some demo_body) " key-1" 30%N
    keyed_demo row (quiet_env_calm 0)); [by vm_compute|exact Hrow].
Defined.

Definition pending_demo : Sys := Eval vm_compute in
  (@worked_demo (quiet_env 0) 5 0%N empty_sys).2.2.

Lemma approval_enqueues_witness :
  ∃ body s', (let '(r, (_, x)) :=
      @approveApproval (quiet_env 0) "id-29" (Some "ana") 40%N pending_demo in
    (r, x)) = (Ok (Json 200 body), s') ∧ is_Some (agent_queue s' "coder" !! "id-0").
Proof.
  assert (Hf : match approvals (pg pending_demo) !! "id-29", get_row pending_demo "id-0" with
    | Some a, Some row =>
        (approval_task a =?s "id-0") && (row_id row =?s "id-0")
        && bool_decide (row_assigned_agent row = Some "coder")
        && negb (row_execution_target row =?s ExecutionTargetLocal)
    | _, _ => false end = true) by (vm_compute; reflexivity).
  destruct (approvals (pg pending_demo) !! "id-29") as [a|] eqn:Ha; [|discriminate Hf].
  destruct (get_row pending_demo "id-0") as [row|] eqn:Hrow; [|discriminate Hf].
  apply andb_prop in Hf as [[[H1%String.eqb_eq H2%String.eqb_eq]%andb_prop
    H3%bool_decide_eq_true]%andb_prop H4%negb_true_iff%String.eqb_neq].
  pose proof (@approval_enqueues (quiet_env 0) "id-29" "ana" 40%N pending_demo a row) as Happ.
  rewrite H1, H2, H3 in Happ. specialize (Happ Ha Hrow eq_refl eq_refl H4).
  assert (Hok : match @approveApproval (quiet_env 0) "id-29" (Some "ana") 40%N pending_demo with
    | (Ok (Json 200 _), _) => true | _ => false end = true) by (vm_compute; reflexivity).
  destruct (@approveApproval (quiet_env 0) "id-29" (Some "ana") 40%N pending_demo)
    as [[[st body|? ?|?|]|?] [n' s']]; try discriminate Hok.
  destruct (decide (st = 200)) as [->|Hst]; [by exists body, s'|].
  destruct st as [|p|p]; try discriminate Hok.
  by repeat (destruct p; try discriminate Hok).
Defined.

(** ** The state of a root task *)
Section Aggregation.
Context `{Env}.

Lemma transition_calm_effect id from to actor reason now n s :
  calm → ∃ n' tid, transitionTaskStateTx id from to actor reason now n s
    = (Ok tt, (n', transition_effect id to now
                     (MkTransition tid id from to actor reason now) s)).
Proof.
  intros Hcalm. unfold transitionTaskStateTx, bind, new_uuid.
  rewrite exec_calm by done. rewrite exec_calm by done. by do 2 eexists.
Qed.

Lemma finalizeTask_calm id to actor reason results msg n s row :
  calm → get_row s id = Some row →
  ∃ row', get_row (finalizeTask id to actor reason results msg n s).2.2 id = Some row' ∧
    row_state row' = if IsValidTransition (row_state row) to then to else row_state row.
Proof.
  intros Hcalm Hrow. unfold finalizeTask, bind at 1. rewrite in_tx_calm by done.
  unfold GetTaskForUpdateTx, GetTask, bind at 1. rewrite query_calm, Hrow by done.
  cbn [fmap option_fmap option_map]. change (task_state (scanTask row)) with (row_state row).
  destruct (IsValidTransition (row_state row) to) eqn:Hv; cbn [negb].
  - unfold bind at 1. rewrite exec_calm by done. unfold bind at 1, time_now at 1.
    unfold bind at 1.
    match goal with |- context [transitionTaskStateTx ?i ?f ?t ?a ?re ?nw ?m ?x] =>
      destruct (transition_calm_effect i f t a re nw m x Hcalm) as (n' & tid & ->) end.
    cbn [ret]. unfold ret. rewrite query_calm by done. cbn [snd].
    rewrite get_row_transition_eq, get_row_update_eq, Hrow. by eexists.
  - unfold invalid_transition, errorf, throw. cbn. eauto.
Qed.

(** The state a root task is given after one of its subtasks changed: failed
    as soon as a subtask failed or was cancelled, completed once all of them are
    completed, otherwise unchanged; and only if that is a valid transition, so a
    root that is not being worked on stays where it is. *)
Theorem aggregate_root_spec actor children n s row :
  calm → get_row s (row_id row) = Some row →
  let st := row_state row in
  ∃ row', get_row (aggregate_root actor (scanTask row) children n s).2.2 (row_id row)
            = Some row' ∧
    row_state row' =
      if existsb child_failed children then
        (if IsValidTransition st TaskStateFailed then TaskStateFailed else st)
      else if existsb child_open children then st
      else if IsValidTransition st TaskStateCompleted then TaskStateCompleted else st.
Proof.
  intros Hcalm Hrow. cbn zeta. unfold aggregate_root.
  change (task_state (scanTask row)) with (row_state row).
  change (task_id (scanTask row)) with (row_id row).
  destruct (existsb child_failed children).
  - destruct (IsTerminalState (row_state row)) eqn:Ht.
    { exists row. split; [done|]. apply terminal_no_edges in Ht.
      unfold IsValidTransition. by rewrite Ht. }
    unfold ignore, attempt, bind.
    destruct (finalizeTask_calm (row_id row) TaskStateFailed actor
      "One or more subtasks failed" (task_results (scanTask row))
      (Some "One or more subtasks failed") n s row Hcalm Hrow) as (row' & Hr & Hst).
    unfold FailTask. destruct (finalizeTask _ _ _ _ _ _ n s) as [r [n' s']]. eauto.
  - destruct (existsb child_open children); cbn [negb andb]; [by exists row|].
    case_bool_decide as Hc; cbn [negb].
    { exists row. split; [done|]. by rewrite Hc. }
    unfold ignore, attempt, bind.
    destruct (finalizeTask_calm (row_id row) TaskStateCompleted actor
      "All subtasks completed" (task_results (scanTask row)) None n s row Hcalm Hrow)
      as (row' & Hr & Hst).
    unfold CompleteTask. destruct (finalizeTask _ _ _ _ _ _ n s) as [r [n' s']]. eauto.
Qed.
End Aggregation.

Definition working_demo : Sys := Eval vm_compute in
  (@worked_demo (quiet_env 0) 3 0%N empty_sys).2.2.
Definition finished_child : TaskResponse :=
  scanTask (apply_transition TaskStateCompleted 7 (new_task_row demo_params "id-9" "c" 0)).

Lemma aggregate_root_spec_witness :
  ∃ row row', get_row working_demo "id-0" = Some row ∧
    get_row (@aggregate_root (quiet_env 0) "worker:aggregate" (scanTask row)
      [finished_child] 40%N working_demo).2.2 "id-0" = Some row' ∧
    row_state row' = TaskStateCompleted.
Proof.
  assert (Hf : match get_row working_demo "id-0" with
    | Some row => (row_id row =?s "id-0") && bool_decide (row_state row = TaskStateInProgress)
    | None => false end = true) by (vm_compute; reflexivity).
  destruct (get_row working_demo "id-0") as [row|] eqn:Hrow; [|discriminate Hf].
  apply andb_prop in Hf as [Hid%String.eqb_eq Hst%bool_decide_eq_true].
  pose proof (@aggregate_root_spec (quiet_env 0) "worker:aggregate" [finished_child] 40%N
    working_demo row (quiet_env_calm 0)) as Hagg.
  rewrite Hid in Hagg. destruct (Hagg Hrow) as (row' & Hrow' & Hstate).
  exists row, row'. rewrite Hst in Hstate. auto.
Defined.

(** ** The task tree *)

Definition child_of (nodes : gmap string TaskTree) (k id : string) : option TaskResponse :=
  x ← nodes !! id;
  if bool_decide (task_parent (tree_task x) = Some k) && negb (k =?s "")
  then Some (tree_task x) else None.

Lemma attach_step_lookup nodes id k :
  attach_step nodes id !! k =
  (λ node, Node (tree_task node) (tree_children node ++
     match child_of nodes k id with
     | Some _ => match nodes !! id with Some x => [x] | None => [] end
     | None => []
     end)%list) <$> nodes !! k.
Proof.
  assert (Hid : ∀ o : option TaskTree,
    (λ node, Node (tree_task node) (tree_children node ++ [])%list) <$> o = o)
    by (intros [[t c]|]; cbn; by rewrite ?app_nil_r).
  unfold attach_step, child_of. destruct (nodes !! id) as [x|] eqn:Hx; cbn; [|by rewrite Hid].
  destruct (task_parent (tree_task x)) as [p|]; [|by rewrite Hid].
  destruct (String.eqb_spec p "") as [->|Hp].
  - assert (bool_decide (Some "" = Some k) && negb (k =?s "") = false) as ->; [|by rewrite Hid].
    destruct (String.eqb_spec k "") as [->|Hk]; [by rewrite andb_false_r|].
    rewrite bool_decide_false by congruence. done.
  - destruct (decide (p = k)) as [->|Hne].
    + rewrite lookup_alter_eq, bool_decide_true by done.
      apply String.eqb_neq in Hp as ->. done.
    + rewrite lookup_alter_ne, bool_decide_false by congruence. cbn. by rewrite Hid.
Qed.

Lemma attach_step_child nodes id k id' :
  child_of (attach_step nodes id) k id' = child_of nodes k id'.
Proof.
  unfold child_of. rewrite attach_step_lookup. by destruct (nodes !! id').
Qed.

Lemma attach_fold order : ∀ nodes k node,
  nodes !! k = Some node →
  ∃ node', attach_children order nodes !! k = Some node' ∧
    tree_task node' = tree_task node ∧
    tree_task <$> tree_children node' =
      ((tree_task <$> tree_children node) ++ omap (child_of nodes k) order)%list.
Proof.
  induction order as [|id order IH]; intros nodes k node Hk; cbn.
  { exists node. by rewrite app_nil_r. }
  pose proof (attach_step_lookup nodes id k) as Hs. rewrite Hk in Hs. cbn in Hs.
  destruct (IH (attach_step nodes id) k _ Hs) as (node' & Hn & Ht & Hc).
  exists node'. split; [done|]. split; [done|]. rewrite Hc. cbn.
  assert (omap (child_of (attach_step nodes id) k) order = omap (child_of nodes k) order)
    as ->.
  { clear. induction order as [|x order IH]; cbn; [done|].
    by rewrite attach_step_child, IH. }
  rewrite fmap_app, <- app_assoc. f_equal.
  destruct (child_of nodes k id) as [t|] eqn:Ho; [|done]. unfold child_of in Ho.
  destruct (nodes !! id) as [x|]; cbn in Ho; [|done].
  destruct (bool_decide _ && _); by simplify_eq.
Qed.

Lemma tree_nodes_lookup items t :
  NoDup (task_id <$> items) → t ∈ items → tree_nodes items !! task_id t = Some (Node t []).
Proof.
  intros Hd Hin. unfold tree_nodes.
  enough (∀ m, (foldl (λ m item, <[task_id item := Node item []]> m) m items)
    !! task_id t = Some (Node t [])) as Hm by apply Hm.
  induction items as [|x items IH]; [by apply not_elem_of_nil in Hin|].
  rewrite fmap_cons, NoDup_cons in Hd. destruct Hd as [Hx Hd]. intros m. cbn.
  apply elem_of_cons in Hin as [->|Hin]; [|by apply IH].
  clear IH. assert (Hkeep : ∀ (l : list TaskResponse) (m' : gmap string TaskTree), task_id x ∉ task_id <$> l →
    m' !! task_id x = Some (Node x []) →
    foldl (λ m item, <[task_id item := Node item []]> m) m' l !! task_id x
      = Some (Node x [])).
  { induction l as [|y l IH]; intros m' Hy Hm; [done|]. cbn.
    rewrite fmap_cons, not_elem_of_cons in Hy. destruct Hy as [Hne Hy].
    apply IH; [done|]. by rewrite lookup_insert_ne. }
  apply Hkeep; [done|]. apply lookup_insert_eq.
Qed.

(** in the tree of a root task, every task's node carries exactly the tasks
    whose parent it is as direct children, once each, in whatever order the map of
    nodes is visited. *)
Theorem tree_direct_children items order t :
  NoDup (task_id <$> items) → order ≡ₚ task_id <$> items → t ∈ items → task_id t ≠ "" →
  ∃ node, attach_children order (tree_nodes items) !! task_id t = Some node ∧
    tree_task node = t ∧
    tree_task <$> tree_children node ≡ₚ filter (λ c, task_parent c = Some (task_id t)) items.
Proof.
  intros Hd Hperm Hin Hne.
  destruct (attach_fold order (tree_nodes items) (task_id t) (Node t [])) as
    (node & Hn & Ht & Hc); [by apply tree_nodes_lookup|].
  exists node. split; [done|]. split; [done|]. rewrite Hc. cbn. rewrite Hperm.
  clear Hc Hn Ht order Hperm node.
  assert (Hch : ∀ x, x ∈ items → child_of (tree_nodes items) (task_id t) (task_id x)
    = if decide (task_parent x = Some (task_id t)) then Some x else None).
  { intros x Hx. unfold child_of. rewrite tree_nodes_lookup by done. cbn.
    apply String.eqb_neq in Hne as ->. rewrite andb_true_r.
    case_bool_decide; case_decide; done. }
  enough (omap (child_of (tree_nodes items) (task_id t)) (task_id <$> items)
    = filter (λ c, task_parent c = Some (task_id t)) items) as -> by done.
  revert Hch. generalize (tree_nodes items) as nodes. clear Hd Hin.
  induction items as [|x items IH]; intros nodes Hch; [done|].
  rewrite fmap_cons, filter_cons. cbn. rewrite (Hch x) by left.
  rewrite <- (IH nodes) by (intros; apply Hch; by right). by case_decide.
Qed.

(** A root, its child and its grandchild. *)
Definition chain_task (id : string) (parent : option string) : TaskResponse :=
  scanTask (new_task_row
    (MkCreateTask id ∅ [] "normal" "coder" None "remote" None "api" None parent (Some "a")
       None "" true) id "c" 0).
Definition chain : list TaskResponse :=
  [chain_task "a" None; chain_task "b" (Some "a"); chain_task "c" (Some "b")].
Lemma tree_direct_children_witness :
  ∃ node, attach_children ["b"; "c"; "a"] (tree_nodes chain) !! "a" = Some node ∧
    tree_task node = chain_task "a" None ∧
    tree_task <$> tree_children node ≡ₚ
      filter (λ c, task_parent c = Some "a") chain.
Proof.
  apply (tree_direct_children chain ["b"; "c"; "a"] (chain_task "a" None)).
  - change (task_id <$> chain) with ["a"; "b"; "c"].
    repeat constructor; rewrite ?elem_of_cons, elem_of_nil; naive_solver.
  - change (task_id <$> chain) with (["a"] ++ ["b"; "c"])%list.
    change ["b"; "c"; "a"] with (["b"; "c"] ++ ["a"])%list. apply Permutation_app_comm.
  - left.
  - discriminate.
Defined.

Fixpoint tree_size (t : TaskTree) : nat :=
  let 'Node _ c := t in S (foldr (λ x n, tree_size x + n)%nat O c).

(** a parent is given a copy of its child, so what is below the child is only
    there if the child was completed first: on a chain of three tasks one visiting
    order of the map returns all three and another drops the grandchild. *)
Theorem tree_depends_on_map_order :
  let tree order := attach_children order (tree_nodes chain) !! "a" in
  tree_size <$> tree ["c"; "b"; "a"] = Some 3%nat ∧
  tree_size <$> tree ["a"; "b"; "c"] = Some 2%nat.
Proof. vm_compute. split; reflexivity. Qed.
