(* ===== verification/Worker.v ===== *)
(** * The embedded worker ([worker/worker.go])

    The worker polls the Redis queues, takes a task through
    queued - assigned - in_progress, runs it, and turns the runner's result into
    the next state of the task; a planner's result becomes subtasks.  The runner
    ([runner.TaskRunner.Execute], in [Runner]) is a parameter: any function of the task. *)
From S2P Require Import Prelude GoVal Effects Domain Schema TaskStore Queue.
From S2P Require Import InitiativeStore Http TaskApi.

(** ** State: the two servers, and the worker's own *)

(** The payload of [heartbeat:<worker>]; the memory and uptime figures, which no
    operation reads back, are left out. *)
Record Heartbeat := MkHeartbeat {
  hb_task : string;
  hb_ts : Z;
  hb_expires : option Z;
}.

Record WSys := MkWSys {
  w_sys : Sys;
  w_registry : gmap string (gmap string string);   (* [worker:<id>] hashes *)
  w_heartbeats : gmap string Heartbeat;            (* [heartbeat:<id>] keys *)
  w_current : option string;                       (* [RuntimeWorker.currentTask] *)
}.
#[export] Instance eta_wsys : Eta WSys := λ w,
  MkWSys (w_sys w) (w_registry w) (w_heartbeats w) (w_current w).

Definition on_sys {A} (m : M Sys A) : M WSys A := λ n w,
  let '(r, (n', s')) := m n (w_sys w) in (r, (n', w <| w_sys := s' |>)).

(** [orchestratorgo/worker/worker.go:597-605] getCurrentTask. *)
Definition getCurrentTask : M WSys (option string) := λ n w, (Ok (w_current w), (n, w)).
(** [orchestratorgo/worker/worker.go:607-616] setCurrentTask. *)
Definition setCurrentTask (taskID : option string) : M WSys unit := λ n w,
  (Ok tt, (n, w <| w_current := taskID |>)).

(** [orchestratorgo/runner/runner.go:20-24] ApprovalRequest. *)
Record ApprovalRequest := MkApprovalRequest {
  ar_action_type : string;
  ar_target_resource : string;
  ar_timeout_seconds : Z;
}.
(** [orchestratorgo/runner/runner.go:26-32] Result: [None] is a nil map. *)
Record RunResult := MkRunResult {
  rr_status : string;
  rr_summary : string;
  rr_results : option gmap_any;
  rr_error_message : string;
  rr_approval : option ApprovalRequest;
}.
Definition results_value (r : option gmap_any) : gval :=
  match r with Some m => VMap m | None => VNilMap end.
Definition error_results : gval := VMap {["status" := VStr "error"]}.

(** ** Planner output *)

(** [orchestratorgo/worker/worker.go:489-498] plannerSubtask. *)
Record plannerSubtask := MkSubtask {
  ps_title : string;
  ps_description : string;
  ps_assigned_agent : string;
  ps_priority : string;
  ps_execution_target : string;
  ps_requires_approval : bool;
  ps_tool_request : option gmap_any;
  ps_metadata : option gmap_any;
}.

(** [orchestratorgo/worker/worker.go:500-565] parsePlannerSubtasks, asStringMap,
    asBoolMap and asBoolAny. *)
Definition parsePlannerSubtasks (raw : gval) : list plannerSubtask :=
  (λ entry,
    let text key := trim_space (as_string (mget entry key)) in
    MkSubtask (text "title") (text "description") (text "assigned_agent")
      (text "priority") (text "execution_target")
      (as_bool (mget entry "requires_approval"))
      (only_map (mget entry "tool_request")) (only_map (mget entry "metadata")))
  <$> map_slice raw.

(** [orchestratorgo/worker/worker.go:567-576] cloneMapAny. *)
Definition cloneMapAny (input : option gmap_any) : gmap_any := default ∅ input.

(** [orchestratorgo/worker/worker.go:578-588] firstNonEmptyMetadata. *)
Fixpoint firstNonEmptyMetadata (metadata : gmap_any) (keys : list string) : string :=
  match keys with
  | [] => ""
  | key :: keys' =>
      let value := as_string (mget metadata key) in
      if blank value then firstNonEmptyMetadata metadata keys' else trim_space value
  end.

Section Worker.
Context `{Env} (cfg : Config) (workerID : string) (interval : Z).

Definition worker_actor : string := "worker:" +:+ workerID.

(** ** The worker registry ([store/redis.go]) *)

(** [orchestratorgo/store/redis.go:236-241] currentTaskValue. *)
Definition currentTaskValue (taskID : option string) : string := default "" taskID.

Definition hset (id : string) (fields : gmap string string) (w : WSys) : WSys :=
  w <| w_registry := <[id := fields ∪ default ∅ (w_registry w !! id)]> (w_registry w) |>.

(** [orchestratorgo/store/redis.go:147-156] RegisterWorker. *)
Definition RegisterWorker (agentTypes : string) : M WSys unit :=
  now <- time_now ;;
  exec (hset workerID
    (list_to_map [("agent_types", agentTypes); ("status", "active");
                  ("current_task", ""); ("registered_at", rfc3339 now);
                  ("last_heartbeat", rfc3339 now)])).

(** [orchestratorgo/store/redis.go:158-164] UpdateWorkerCurrentTask. *)
Definition UpdateWorkerCurrentTask (taskID : option string) : M WSys unit :=
  exec (hset workerID {["current_task" := currentTaskValue taskID]}).

(** [orchestratorgo/store/redis.go:166-192] EmitWorkerHeartbeat: a non-positive
    expiry is none. *)
Definition heartbeat_ttl : Z := wrap64 (Z.quot (7 * interval + 1) 2 * second).
Definition EmitWorkerHeartbeat (currentTask : option string) : M WSys unit :=
  now <- time_now ;;
  exec_now (λ server_now w,
    hset workerID (list_to_map [("last_heartbeat", rfc3339 now);
                                ("current_task", currentTaskValue currentTask)])
      (w <| w_heartbeats := <[workerID := MkHeartbeat (currentTaskValue currentTask) now
             (if 0 <? heartbeat_ttl then Some (server_now + heartbeat_ttl) else None)]>
             (w_heartbeats w) |>)).

(** [orchestratorgo/store/redis.go:194-200] DeregisterWorker. *)
Definition DeregisterWorker : M WSys unit :=
  exec (λ w, hset workerID {["status" := "stopped"]} w
             <| w_heartbeats := delete workerID (w_heartbeats w) |>).

(** ** Claiming *)

(** [orchestratorgo/worker/worker.go:260-276] recordRecoveryCheckpoint. *)
Definition recordRecoveryCheckpoint (taskID stage : string) (extra : gmap_any) :
    M Sys unit :=
  now <- time_now ;;
  let checkpoint := extra ∪ list_to_map
    [("stage", VStr (trim_space stage)); ("updated_at", VTime (truncate_second now))] in
  ignore (PatchTaskMetadata taskID {["recovery_checkpoint" := VMap checkpoint]}).

(** [orchestratorgo/worker/worker.go:114-162] tryClaimTask: the task whose
    execution it spawns. *)
Definition tryClaimTask (agentType : string) : M WSys (option string) :=
  popped <- attempt (on_sys (DequeueTask agentType)) ;;
  match popped with
  | Ok (Some taskID) =>
      found <- attempt (on_sys (GetTask taskID)) ;;
      match found with
      | Ok (Some task) =>
          if negb (bool_decide (task_state task = TaskStateQueued)) then ret None
          else if task_execution_target task =?s ExecutionTargetLocal then ret None
          else
            assigned <- attempt (on_sys (UpdateTaskState taskID TaskStateAssigned worker_actor
                                           ("Dequeued for " +:+ agentType))) ;;
            match assigned with
            | Err _ => ret None
            | Ok _ =>
                started <- attempt (on_sys (UpdateTaskState taskID TaskStateInProgress worker_actor
                                              "Execution started in Go worker")) ;;
                match started with
                | Err _ => ret None
                | Ok _ =>
                    setCurrentTask (Some taskID) ;;;
                    on_sys (recordRecoveryCheckpoint taskID "claimed"
                      (list_to_map
                        [("worker_id", VStr workerID); ("assigned_agent", VStr agentType);
                         ("execution_target", VStr (task_execution_target task))])) ;;;
                    current <- getCurrentTask ;;
                    ignore (UpdateWorkerCurrentTask current) ;;;
                    current <- getCurrentTask ;;
                    ignore (EmitWorkerHeartbeat current) ;;;
                    ret (Some taskID)
                end
            end
      | _ => ret None
      end
  | _ => ret None
  end.

(** [orchestratorgo/worker/worker.go:96-109] run: one tick of the poll timer, and
    the tasks whose execution it spawns. *)
Definition poll : M WSys (list string) :=
  current <- getCurrentTask ;;
  match current with
  | Some _ => ret []
  | None =>
      for_each [AgentTypePlanner; AgentTypeResearcher; AgentTypeCoder; AgentTypeReviewer] []
        (λ spawned agentType,
          current <- getCurrentTask ;;
          match current with
          | Some _ => ret spawned
          | None =>
              claimed <- tryClaimTask agentType ;;
              ret (spawned ++ option_list claimed)
          end)
  end.

(** [orchestratorgo/worker/worker.go:618-626] releaseTask. *)
Definition releaseTask : M WSys unit :=
  setCurrentTask None ;;;
  ignore (UpdateWorkerCurrentTask None) ;;;
  ignore (EmitWorkerHeartbeat None).

(** [orchestratorgo/worker/worker.go:244-258] recoverInterruptedTasks: durations
    wrap around. *)
Definition recoverInterruptedTasks : M Sys unit :=
  now <- time_now ;;
  RequeueRecoverableRemoteTasks
    (now + wrap64 (- wrap64 (wrap64 (Z.max 30 (wrap64 (interval * 3))) * second))) worker_actor ;;;
  ret tt.

(** [orchestratorgo/worker/worker.go:47-64] Start, up to the loop. *)
Definition Start : M WSys unit :=
  ignore (on_sys recoverInterruptedTasks) ;;;
  RegisterWorker "planner,researcher,coder,reviewer" ;;;
  EmitWorkerHeartbeat None.

(** ** Executing *)

(** [orchestratorgo/worker/worker.go:407-424] childWorkspacePath. *)
Definition childWorkspacePath (task : TaskResponse) (rootID : string) : option string :=
  if task_execution_target task =?s ExecutionTargetRemote then
    match task_workspace_path task with
    | Some p =>
        if blank p then
          let base := trim_space (cfg_workspace_root cfg) in
          if base =?s "" then None else Some (path_clean (path_join [base; rootID]))
        else Some (path_clean (trim_space p))
    | None =>
        let base := trim_space (cfg_workspace_root cfg) in
        if base =?s "" then None else Some (path_clean (path_join [base; rootID]))
    end
  else None.

(** [orchestratorgo/worker/worker.go:426-482] reconcileRootTask: the same code as
    the handlers', under the worker's name. *)
Definition reconcileRootTask (taskID : string) : M Sys unit :=
  reconcile_root worker_actor taskID.

(** [orchestratorgo/worker/worker.go:302-358] the parameters of a subtask. *)
Definition subtask_title (idx : nat) (spec : plannerSubtask) : string :=
  let title := trim_space (ps_title spec) in
  if title =?s "" then "Step " +:+ pretty (Z.of_nat idx + 1) else title.
Definition subtask_agent (spec : plannerSubtask) : string :=
  if existsb (String.eqb (ps_assigned_agent spec))
       [AgentTypePlanner; AgentTypeCoder; AgentTypeResearcher; AgentTypeReviewer]
  then ps_assigned_agent spec else AgentTypeCoder.
Definition subtask_priority (spec : plannerSubtask) : string :=
  if ps_priority spec =?s "" then PriorityNormal else ps_priority spec.
Definition subtask_target (task : TaskResponse) (spec : plannerSubtask) : string :=
  if ps_execution_target spec =?s "" then task_execution_target task
  else ps_execution_target spec.
Definition subtask_metadata (task : TaskResponse) (idx : nat) (spec : plannerSubtask) :
    gmap_any :=
  let childMetadata := list_to_map
    [("title", VStr (subtask_title idx spec));
     ("requires_approval", VBool (ps_requires_approval spec));
     ("planner_generated", VBool true);
     ("parent_task_id", VStr (task_id task));
     ("entrypoint", VStr (firstNonEmptyMetadata (task_metadata task) ["entrypoint"]));
     ("workspace_root", VStr (firstNonEmptyMetadata (task_metadata task) ["workspace_root"]));
     ("allowed_capabilities",
        match task_allowed_capabilities task with [] => VNil | l => VStrs l end)] in
  let childMetadata := default ∅ (ps_metadata spec) ∪ childMetadata in
  match ps_tool_request spec with
  | Some request => <["tool_request" := VMap request]> childMetadata
  | None => childMetadata
  end.
Definition subtask_params (task : TaskResponse) (rootID : string) (idx : nat)
    (spec : plannerSubtask) : CreateTaskParams :=
  let description := trim_space (ps_description spec) in
  {| ctp_description :=
       if description =?s "" then subtask_title idx spec else description;
     ctp_metadata := subtask_metadata task idx spec;
     ctp_allowed_capabilities := task_allowed_capabilities task;
     ctp_priority := subtask_priority spec;
     ctp_assigned_agent := subtask_agent spec;
     ctp_planned_agent := None;
     ctp_execution_target := subtask_target task spec;
     ctp_idempotency_key := None;
     ctp_entrypoint := firstNonEmptyMetadata (task_metadata task) ["entrypoint"];
     ctp_workspace_path :=
       if subtask_target task spec =?s ExecutionTargetRemote
       then childWorkspacePath task rootID else None;
     ctp_parent := Some (task_id task);
     ctp_root := Some rootID;
     ctp_initiative := None;
     ctp_kind := TaskKindPlanStep;
     ctp_queue_on_create := false |}.

(** [orchestratorgo/worker/worker.go:302-396] one turn of the loop over the
    subtasks: the id of the task it creates. *)
Definition create_subtask (task : TaskResponse) (rootID : string) (idx : nat)
    (spec : plannerSubtask) : M Sys string :=
  let agent := subtask_agent spec in
  let priority := subtask_priority spec in
  created <- CreateTask (subtask_params task rootID idx spec) ;;
  match created with
  | None => throw (ErrText "nil pointer dereference")
  | Some child =>
      (if agent =?s AgentTypePlanner then
         CompleteTask (task_id child) worker_actor
           "planner coordination step recorded without direct execution"
           (VMap (list_to_map
             [("status", VStr "success");
              ("summary",
                 VStr "Planner coordination step recorded without direct execution");
              ("coordination_only", VBool true)])) ;;;
         ret tt
       else if ps_requires_approval spec then
         RequestApproval (task_id child) "planner_subtask" (subtask_title idx spec) 300
           worker_actor "planner generated approval-gated subtask"
           {["approval_requested" := VBool true]} ;;;
         ret tt
       else if subtask_target task spec =?s ExecutionTargetLocal then
         UpdateTaskState (task_id child) TaskStateQueued worker_actor
           "Queued planner-generated local subtask"
       else
         enqueued <- attempt (EnqueueTask (task_id child) agent priority) ;;
         match enqueued with
         | Err e =>
             ignore (FailTask (task_id child) worker_actor "queue enqueue failed"
                       (error_text e) error_results) ;;;
             throw e
         | Ok _ =>
             UpdateTaskState (task_id child) TaskStateQueued worker_actor
               "Queued planner-generated subtask"
         end) ;;;
      ret (task_id child)
  end.

(** [orchestratorgo/worker/worker.go:278-405] handlePlannerSuccess. *)
Definition handlePlannerSuccess (task : TaskResponse) (result : RunResult) : M Sys unit :=
  UpdateTaskResults (task_id task) (results_value (rr_results result)) ;;;
  let results := cloneMapAny (rr_results result) in
  let subtasks := parsePlannerSubtasks (mget results "subtasks") in
  let planOnly := as_bool (mget results "plan_only") in
  if planOnly || (length subtasks =? 0)%nat then
    CompleteTask (task_id task) worker_actor
      "planner completed without execution subtasks" (results_value (rr_results result)) ;;;
    ret tt
  else
    let rootID := root_id_of task in
    createdIDs <- for_each (imap pair subtasks) [] (λ createdIDs step,
      id <- create_subtask task rootID step.1 step.2 ;;
      ret (createdIDs ++ [id])) ;;
    UpdateTaskResults (task_id task)
      (VMap (<["created_subtask_ids" := VStrs createdIDs]> results)) ;;;
    reconcileRootTask (task_id task).

(** [orchestratorgo/worker/worker.go:164-173] executeTask: loading the task. *)
Definition loadTask (taskID : string) : M Sys (option TaskResponse) :=
  found <- attempt (GetTask taskID) ;;
  match found with
  | Ok (Some task) =>
      recordRecoveryCheckpoint taskID "executing" {["worker_id" := VStr workerID]} ;;;
      ret (Some task)
  | _ => ret None
  end.

(** [orchestratorgo/worker/worker.go:175-240] executeTask: what becomes of a
    result. *)
Definition checkpoint_status (status : string) : gmap_any :=
  list_to_map [("worker_id", VStr workerID); ("status", VStr status)].
Definition settleTask (task : TaskResponse) (taskID : string) (result : RunResult) :
    M Sys unit :=
  if rr_status result =?s "success" then
    recordRecoveryCheckpoint taskID "completed" (checkpoint_status "success") ;;;
    if default "" (task_assigned_agent task) =?s AgentTypePlanner then
      handled <- attempt (handlePlannerSuccess task result) ;;
      match handled with
      | Ok _ => ret tt
      | Err e => ignore (FailTask taskID worker_actor (error_text e) (error_text e)
                           error_results)
      end
    else
      ignore (CompleteTask taskID worker_actor (rr_summary result)
                (results_value (rr_results result))) ;;;
      reconcileRootTask taskID
  else if rr_status result =?s "waiting_approval" then
    recordRecoveryCheckpoint taskID "waiting_approval"
      (checkpoint_status "waiting_approval") ;;;
    let '(timeoutSeconds, actionType, targetResource) :=
      match rr_approval result with
      | Some a => (ar_timeout_seconds a, ar_action_type a, ar_target_resource a)
      | None => (300, "task_execution", "task")
      end in
    requested <- attempt (RequestApproval taskID actionType targetResource timeoutSeconds
      worker_actor (rr_summary result) {["approval_requested" := VBool true]}) ;;
    match requested with
    | Ok _ => ret tt
    | Err e => ignore (FailTask taskID worker_actor "approval request failed" (error_text e)
                         error_results)
    end
  else
    recordRecoveryCheckpoint taskID "failed" (checkpoint_status "failed") ;;;
    let errorMessage := trim_space (rr_error_message result) in
    let errorMessage :=
      if errorMessage =?s "" then "task execution failed" else errorMessage in
    ignore (FailTask taskID worker_actor errorMessage errorMessage
              (results_value (rr_results result))) ;;;
    reconcileRootTask taskID.

(** [orchestratorgo/worker/worker.go:164-242] executeTask. *)
Definition executed (runner : TaskResponse → RunResult) (taskID : string) : M Sys unit :=
  loaded <- loadTask taskID ;;
  match loaded with
  | Some task => settleTask task taskID (runner task)
  | None => ret tt
  end.
Definition executeTask (runner : TaskResponse → RunResult) (taskID : string) :
    M WSys unit :=
  on_sys (executed runner taskID) ;;; releaseTask.
End Worker.

(** ** What the worker may do to the system *)

Section WorkerEvolution.
Context `{Env} (cfg : Config) (workerID : string) (interval : Z).

(** A relation on the servers, seen from the worker's state. *)
Definition on_servers (R : relation Sys) : relation WSys := λ w w', R (w_sys w) (w_sys w').
#[export] Instance on_servers_preorder R : PreOrder R → PreOrder (on_servers R).
Proof.
  intros HR. split; unfold on_servers; [intros w; reflexivity|].
  intros w1 w2 w3 H1 H2. by etrans.
Qed.

Lemma respects_on_sys {A} R (m : M Sys A) :
  respects R m → respects (on_servers R) (on_sys m).
Proof.
  intros Hm n w r n' w'. unfold on_sys.
  destruct (m n (w_sys w)) as [r1 [n1 s1]] eqn:E. intros; simplify_eq.
  unfold on_servers; cbn. by eapply Hm.
Qed.
Lemma respects_getCurrent R : PreOrder R → respects (on_servers R) getCurrentTask.
Proof. intros HR n w r n' w' ?. unfold getCurrentTask in *. simplify_eq. reflexivity. Qed.
Lemma respects_setCurrent R t : PreOrder R → respects (on_servers R) (setCurrentTask t).
Proof.
  intros HR n w r n' w' ?. unfold setCurrentTask in *. simplify_eq.
  unfold on_servers; cbn. reflexivity.
Qed.
Lemma respects_UpdateWorkerCurrentTask R t :
  PreOrder R → respects (on_servers R) (UpdateWorkerCurrentTask workerID t).
Proof.
  intros HR. apply respects_exec; [apply _|]. intros w. unfold on_servers; cbn. reflexivity.
Qed.
Lemma respects_EmitWorkerHeartbeat R t :
  PreOrder R → respects (on_servers R) (EmitWorkerHeartbeat workerID interval t).
Proof.
  intros HR. unfold EmitWorkerHeartbeat. solve_respects.
  apply respects_exec_now; [apply _|]. intros t' w. unfold on_servers; cbn. reflexivity.
Qed.
Hint Resolve respects_getCurrent respects_setCurrent respects_UpdateWorkerCurrentTask
  respects_EmitWorkerHeartbeat : respects.

Lemma checkpoint_evolves t stage extra :
  respects evolves (recordRecoveryCheckpoint t stage extra).
Proof. unfold recordRecoveryCheckpoint. cbn zeta. solve_handler. Qed.
Hint Resolve checkpoint_evolves : respects.

Lemma create_subtask_evolves task root i spec :
  respects evolves (create_subtask cfg workerID task root i spec).
Proof. unfold create_subtask. cbn zeta. solve_handler. Qed.
Hint Resolve create_subtask_evolves : respects.
Lemma worker_reconcile_evolves t : respects evolves (reconcileRootTask workerID t).
Proof. apply reconcile_root_evolves. Qed.
Hint Resolve worker_reconcile_evolves : respects.
Lemma handlePlannerSuccess_evolves task result :
  respects evolves (handlePlannerSuccess cfg workerID task result).
Proof. unfold handlePlannerSuccess. cbn zeta. solve_handler. Qed.
Hint Resolve handlePlannerSuccess_evolves : respects.
Lemma settleTask_evolves task t result :
  respects evolves (settleTask cfg workerID task t result).
Proof. unfold settleTask. cbn zeta. solve_handler. Qed.
Lemma loadTask_evolves t : respects evolves (loadTask workerID t).
Proof. unfold loadTask. solve_handler. Qed.

Lemma tryClaimTask_evolves a :
  respects (on_servers evolves) (tryClaimTask workerID interval a).
Proof.
  unfold tryClaimTask. solve_handler; apply respects_on_sys; eauto with respects.
Qed.
Lemma recover_evolves : respects evolves (recoverInterruptedTasks workerID interval).
Proof. unfold recoverInterruptedTasks. solve_handler. Qed.
End WorkerEvolution.

(** ** Claiming *)

Section Claiming.
Context `{Env} (cfg : Config) (workerID : string) (interval : Z).

Lemma on_sys_inv {A} (m : M Sys A) n w r n' w' :
  on_sys m n w = (r, (n', w')) →
  ∃ s', m n (w_sys w) = (r, (n', s')) ∧ w' = w <| w_sys := s' |>.
Proof.
  unfold on_sys. destruct (m n (w_sys w)) as [r1 [n1 s1]]. intros; simplify_eq. eauto.
Qed.
Lemma ignore_inv {S A} (m : M S A) n s r n' s' :
  ignore m n s = (r, (n', s')) → r = Ok tt ∧ ∃ r1, m n s = (r1, (n', s')).
Proof.
  unfold ignore, attempt, bind, ret. destruct (m n s) as [r1 [n1 s1]].
  intros; simplify_eq. eauto.
Qed.

(** Steps on the registry and the heartbeat only. *)
Definition only_registry : relation WSys := λ w w',
  w_sys w' = w_sys w ∧ w_current w' = w_current w.
#[export] Instance only_registry_preorder : PreOrder only_registry.
Proof. split; unfold only_registry; [done|]. intros ??? [] []. split; congruence. Qed.
Lemma Update_only_registry t :
  respects only_registry (UpdateWorkerCurrentTask workerID t).
Proof. by apply respects_exec; [apply _|]. Qed.
Lemma Emit_only_registry t :
  respects only_registry (EmitWorkerHeartbeat workerID interval t).
Proof.
  unfold EmitWorkerHeartbeat. solve_respects. by apply respects_exec_now; [apply _|].
Qed.

(** A recovery checkpoint changes a task's metadata, nothing the queues, the
    states or the log show. *)
Definition only_metadata (s s' : Sys) : Prop :=
  redis s' = redis s ∧ state_transitions (pg s') = state_transitions (pg s) ∧
  ∀ id, row_state <$> get_row s' id = row_state <$> get_row s id.
#[export] Instance only_metadata_preorder : PreOrder only_metadata.
Proof.
  split; unfold only_metadata; [done|]. intros ??? (?&?&Ha) (?&?&Hb).
  split_and!; [congruence..|]. intros id. by rewrite Hb.
Qed.
Lemma checkpoint_only_metadata t stage extra :
  respects only_metadata (recordRecoveryCheckpoint t stage extra).
Proof.
  unfold recordRecoveryCheckpoint. cbn zeta. solve_handler.
  unfold PatchTaskMetadata. case_decide; [by apply respects_ret|].
  apply respects_exec_now; [apply _|]. intros now s. split_and!; [done..|]. intros id.
  destruct (decide (t = id)) as [->|Hne];
    [rewrite get_row_update_eq|by rewrite get_row_update_ne].
  by destruct (get_row s id).
Qed.
Lemma checkpoint_ok t stage extra n s :
  ∃ n' s', recordRecoveryCheckpoint t stage extra n s = (Ok tt, (n', s')) ∧
    only_metadata s s'.
Proof.
  destruct (recordRecoveryCheckpoint t stage extra n s) as [r [n' s']] eqn:E.
  exists n', s'. split; [|by eapply checkpoint_only_metadata].
  unfold recordRecoveryCheckpoint, bind, time_now in E. cbn zeta in E.
  by apply ignore_inv in E as [-> _].
Qed.

Definition picked_up (agentType id : string) (s s' : Sys) : Prop :=
  (∃ score, zmin (agent_queue s agentType) = Some (id, score)) ∧
  agent_queue s' agentType = delete id (agent_queue s agentType) ∧
  (∃ row row', get_row s id = Some row ∧ row_state row = TaskStateQueued ∧
    row_execution_target row ≠ ExecutionTargetLocal ∧
    get_row s' id = Some row' ∧ row_state row' = TaskStateInProgress) ∧
  ∃ t1 t2, state_transitions (pg s') = state_transitions (pg s) ++ [t1; t2] ∧
    (tr_task t1, tr_from t1, tr_to t1) = (id, TaskStateQueued, TaskStateAssigned) ∧
    (tr_task t2, tr_from t2, tr_to t2) = (id, TaskStateAssigned, TaskStateInProgress).

Lemma dequeue_inv agentType n s id n' s' :
  DequeueTask agentType n s = (Ok (Some id), (n', s')) →
  (∃ score, zmin (agent_queue s agentType) = Some (id, score)) ∧
  s' = s <| redis := <[agentType := delete id (agent_queue s agentType)]> (redis s) |>.
Proof.
  intros [_ [(?&?&?&?)|[_ Hd]]]%stmt_inv; [done|].
  destruct (zmin (agent_queue s agentType)) as [[m sc]|]; simplify_eq. eauto.
Qed.

(** Two updates and a checkpoint after the dequeue. *)
Lemma pick_up_effect agentType id s n1 n2 n3 s1 s2 s3 s4 row reason reason' u u' n0 n0' :
  DequeueTask agentType n0 s = (Ok (Some id), (n1, s1)) →
  get_row s1 id = Some row →
  row_state row = TaskStateQueued → row_execution_target row ≠ ExecutionTargetLocal →
  UpdateTaskState id TaskStateAssigned (worker_actor workerID) reason n0' s1
    = (Ok u, (n2, s2)) →
  UpdateTaskState id TaskStateInProgress (worker_actor workerID) reason' n2 s2
    = (Ok u', (n3, s3)) →
  only_metadata s3 s4 → picked_up agentType id s s4.
Proof.
  intros [Hmin ->]%dequeue_inv Hrow Hq Hl.
  intros (r1 & t1 & i1 & Hr1 & _ & ->)%UpdateTaskState_ok.
  intros (r2 & t2 & i2 & Hr2 & _ & ->)%UpdateTaskState_ok (Hredis & Hlog & Hst).
  rewrite get_row_transition_eq, Hr1 in Hr2. rewrite Hr1 in Hrow. simplify_eq/=.
  split_and!; [done| | |].
  - unfold agent_queue. rewrite Hredis. cbn. by rewrite lookup_insert_eq.
  - specialize (Hst id). rewrite !get_row_transition_eq, Hr1 in Hst. cbn in Hst.
    destruct (get_row s4 id) as [row'|] eqn:Hrow'; simplify_eq/=.
    exists row, row'. split_and!; try done.
  - rewrite Hlog. cbn. rewrite <- app_assoc. do 2 eexists. split; [reflexivity|].
    cbn. by rewrite Hq.
Qed.

(** What an attempt to claim does, see [tryClaimTask_spec]. *)
Lemma tryClaimTask_run agentType n w :
  match tryClaimTask workerID interval agentType n w with
  | (Ok None, (_, w')) => w_current w' = w_current w
  | (Ok (Some id), (_, w')) =>
      w_current w' = Some id ∧ picked_up agentType id (w_sys w) (w_sys w')
  | (Err _, _) => False
  end.
Proof.
  unfold tryClaimTask, bind at 1, attempt at 1.
  destruct (on_sys (DequeueTask agentType) n w) as [popped [n1 w1]] eqn:Hd.
  apply on_sys_inv in Hd as (s1 & Hd & ->).
  destruct popped as [[id|]|e]; [|done..].
  unfold bind at 1, attempt at 1.
  destruct (on_sys (GetTask id) n1 (w <| w_sys := s1 |>)) as [found [n2 w2]] eqn:Hg.
  apply on_sys_inv in Hg as (s2 & Hg & ->). cbn in Hg.
  destruct found as [[task|]|e]; [|done..].
  apply query_ok in Hg as (Htask & -> & ->).
  destruct (get_row s1 id) as [row|] eqn:Hrow; [|done]. simplify_eq/=.
  change (task_state (scanTask row)) with (row_state row).
  change (task_execution_target (scanTask row)) with (row_execution_target row).
  case_bool_decide as Hq; cbn [negb]; [|done].
  destruct (String.eqb_spec (row_execution_target row) ExecutionTargetLocal) as [Hl|Hl];
    [done|].
  unfold bind at 1, attempt at 1.
  destruct (on_sys (UpdateTaskState id TaskStateAssigned _ _) _ _) as [ra [n3 w3]] eqn:Ha.
  apply on_sys_inv in Ha as (s3 & Ha & ->). destruct ra as [u|e]; [|done]. cbn in Ha.
  unfold bind at 1, attempt at 1.
  destruct (on_sys (UpdateTaskState id TaskStateInProgress _ _) _ _) as [rb [n4 w4]] eqn:Hb.
  apply on_sys_inv in Hb as (s4 & Hb & ->). destruct rb as [u'|e]; [|done]. cbn in Hb.
  unfold bind at 1, setCurrentTask at 1, bind at 1, on_sys at 1. cbn [w_sys update].
  match goal with |- context [recordRecoveryCheckpoint ?a ?b ?c ?m ?x] =>
    destruct (checkpoint_ok a b c m x) as (n5 & s5 & -> & Hmeta) end.
  unfold bind at 1, getCurrentTask at 1, bind at 1.
  destruct (ignore (UpdateWorkerCurrentTask _ _) _ _) as [r6 [n6 w6]] eqn:Hu.
  apply ignore_inv in Hu as [-> (r6' & Hu%Update_only_registry)].
  unfold bind at 1, getCurrentTask at 1, bind at 1.
  destruct (ignore (EmitWorkerHeartbeat _ _ _) _ _) as [r7 [n7 w7]] eqn:He.
  apply ignore_inv in He as [-> (r7' & He%Emit_only_registry)].
  cbn. destruct Hu as [Hu1 Hu2], He as [He1 He2]. split; [by rewrite He2, Hu2|].
  rewrite He1, Hu1. eapply pick_up_effect; eauto.
Qed.

(** One attempt to claim never fails: it hands over nothing and leaves the
    worker as idle as it was, or it hands over the most urgent task of the queue,
    having removed it from the queue and taken it, a queued task that is not for a
    local bridge, through exactly the two logged transitions to in_progress, and
    the worker is busy with that task. *)
Theorem tryClaimTask_spec agentType n w :
  match tryClaimTask workerID interval agentType n w with
  | (Ok None, (_, w')) => w_current w' = w_current w
  | (Ok (Some id), (_, w')) =>
      w_current w' = Some id ∧ picked_up agentType id (w_sys w) (w_sys w')
  | (Err _, _) => False
  end.
Proof. apply tryClaimTask_run. Qed.
End Claiming.

(** ** A run *)
Definition idle_demo : WSys := MkWSys keyed_demo ∅ ∅ None.
Definition demo_runner (task : TaskResponse) : RunResult :=
  MkRunResult "success" "done" (Some {["summary" := VStr "ok"]}) "" None.

(** ** Settling a result *)

Section Settling.
Context `{Env} (cfg : Config) (workerID : string) (interval : Z).

Definition has_state (s : Sys) (id : string) (st : TaskState) : Prop :=
  ∃ row, get_row s id = Some row ∧ row_state row = st.
(** A task that is in [st] stays there. *)
Definition sticky (id : string) (st : TaskState) : relation Sys := λ s s',
  has_state s id st → has_state s' id st.
#[export] Instance sticky_preorder id st : PreOrder (sticky id st).
Proof. split; unfold sticky; [by intros s ?|]. intros s1 s2 s3 H1 H2 Hs. auto. Qed.

Lemma finalizeTask_sticky id st t to a reason results msg :
  IsTerminalState st = true →
  respects (sticky id st) (finalizeTask t to a reason results msg).
Proof.
  intros Hst n s r n' s' [[-> _]|(row & now & tid & Hrow & Hv & ->)]%finalizeTask_run;
    [done|].
  intros (row0 & Hrow0 & Hs0). destruct (decide (t = id)) as [->|Hne].
  - simplify_eq. apply terminal_no_edges in Hst. unfold IsValidTransition in Hv.
    rewrite Hst in Hv. discriminate Hv.
  - exists row0. by rewrite get_row_transition_ne, get_row_update_ne.
Qed.
Lemma reconcile_root_sticky id st a t :
  IsTerminalState st = true → respects (sticky id st) (reconcile_root a t).
Proof.
  intros Hst. unfold reconcile_root, aggregate_root, ReconcileInitiativeExecution,
    UpdateInitiative, GetInitiative, ListInitiativeTasks, GetTask, ListByRoot.
  solve_handler.
  1: by apply respects_exec_now; [apply _|]; intros ? ? ?.
  all: by apply finalizeTask_sticky.
Qed.

Lemma only_metadata_state s s' id st :
  only_metadata s s' → has_state s id st → has_state s' id st.
Proof.
  intros (_ & _ & Hst) (row & Hrow & Hs). specialize (Hst id). rewrite Hrow in Hst.
  destruct (get_row s' id) as [row'|] eqn:Hrow'; [|done]. simplify_eq/=.
  exists row'. split; [done|congruence].
Qed.

Lemma finalizeTask_settles id from to a reason results msg n s :
  calm → has_state s id from → IsValidTransition from to = true →
  has_state (finalizeTask id to a reason results msg n s).2.2 id to.
Proof.
  intros Hcalm (row & Hrow & Hst) Hv.
  destruct (finalizeTask_calm id to a reason results msg n s row Hcalm Hrow)
    as (row' & Hrow' & Hst'). exists row'. split; [done|]. by rewrite Hst', Hst, Hv.
Qed.

Lemma reconcile_root_settled id st a t n s :
  IsTerminalState st = true → has_state s id st →
  has_state (reconcile_root a t n s).2.2 id st.
Proof.
  intros Hst Hs. destruct (reconcile_root a t n s) as [r [n' s']] eqn:E.
  by eapply reconcile_root_sticky.
Qed.

Definition settled_states (result : RunResult) : list TaskState :=
  if rr_status result =?s "success" then [TaskStateCompleted]
  else if rr_status result =?s "waiting_approval"
  then [TaskStateWaitingApproval; TaskStateFailed]
  else [TaskStateFailed].

Lemma approval_settles id at_ tr timeout reason patch n s :
  calm → has_state s id TaskStateInProgress →
  ∃ st, st ∈ [TaskStateWaitingApproval; TaskStateFailed] ∧
    has_state (bind (attempt (RequestApproval id at_ tr timeout (worker_actor workerID)
        reason patch)) (λ requested,
      match requested with
      | Ok _ => ret tt
      | Err e => ignore (FailTask id (worker_actor workerID) "approval request failed"
                   (error_text e) error_results)
      end) n s).2.2 id st.
Proof.
  intros Hcalm Hs. unfold bind, attempt.
  destruct (RequestApproval _ _ _ _ _ _ _ n s) as [r [n1 s1]] eqn:Hr.
  assert (Hs1 : ∃ st, (st = TaskStateWaitingApproval ∨ (st = TaskStateInProgress ∧ ∃ e, r = Err e))
    ∧ has_state s1 id st).
  { apply RequestApproval_run in Hr as [[-> He]|(row & now & aid & tid & Hrow & _ & _ & ->)].
    - eauto.
    - exists TaskStateWaitingApproval. split; [by left|].
      eexists. rewrite get_row_transition_eq, get_row_update_eq.
      unfold get_row in *. cbn. rewrite Hrow. cbn. done. }
  destruct Hs1 as (st & Hst & Hs1). destruct r as [a|e].
  - exists TaskStateWaitingApproval. split; [left|].
    destruct Hst as [->|[_ [e He]]]; [done|discriminate He].
  - exists TaskStateFailed. split; [right; left|].
    unfold ignore, attempt, bind, ret, FailTask.
    pose proof (finalizeTask_settles id st TaskStateFailed (worker_actor workerID)
      "approval request failed" error_results (Some (error_text e)) n1 s1 Hcalm Hs1) as Hf.
    destruct (finalizeTask _ _ _ _ _ _ n1 s1) as [r2 [n2 s2]]. apply Hf.
    by destruct Hst as [->|[-> _]].
Qed.

Lemma settleTask_settles task id result n s :
  calm → has_state s id TaskStateInProgress →
  default "" (task_assigned_agent task) ≠ AgentTypePlanner →
  ∃ st, st ∈ settled_states result ∧
    has_state (settleTask cfg workerID task id result n s).2.2 id st.
Proof.
  intros Hcalm Hs Hagent. unfold settleTask, settled_states, reconcileRootTask.
  apply String.eqb_neq in Hagent.
  destruct (rr_status result =?s "success");
    [|destruct (rr_status result =?s "waiting_approval")].
  all: unfold bind at 1;
    match goal with |- context [recordRecoveryCheckpoint ?a ?b ?c ?m ?x] =>
      destruct (checkpoint_ok a b c m x) as (n1 & s1 & -> & Hm) end;
    apply (only_metadata_state _ _ _ _ Hm) in Hs; clear Hm.
  - rewrite Hagent. rewrite ignore_bind. exists TaskStateCompleted. split; [left|].
    apply reconcile_root_settled; [done|]. by eapply finalizeTask_settles.
  - destruct (match rr_approval result with Some _ => _ | None => _ end) as [[? ?] ?].
    by apply approval_settles.
  - rewrite ignore_bind. exists TaskStateFailed. split; [left|].
    apply reconcile_root_settled; [done|]. by eapply finalizeTask_settles.
Qed.

Lemma releaseTask_idle n w :
  w_current (releaseTask workerID interval n w).2.2 = None ∧
  w_sys (releaseTask workerID interval n w).2.2 = w_sys w.
Proof.
  destruct (releaseTask workerID interval n w) as [r [n' w']] eqn:E. unfold releaseTask in E.
  unfold bind at 1, setCurrentTask at 1 in E. rewrite ignore_bind in E.
  destruct (UpdateWorkerCurrentTask workerID None _ _) as [r1 [n1 w1]] eqn:Hu.
  apply Update_only_registry in Hu as [Hu1 Hu2].
  apply ignore_inv in E as [_ (r3 & [He1 He2]%Emit_only_registry)]. cbn in *.
  by rewrite He1, He2, Hu1, Hu2.
Qed.

Lemma settleTask_total task id result :
  never_fails (settleTask cfg workerID task id result).
Proof.
  unfold settleTask, reconcileRootTask, reconcile_root, aggregate_root,
    recordRecoveryCheckpoint, ignore. cbn zeta. solve_total.
Qed.

Lemma executed_total runner id : never_fails (executed cfg workerID runner id).
Proof.
  unfold executed, loadTask, recordRecoveryCheckpoint, ignore. solve_total.
  apply settleTask_total.
Qed.
Lemma on_sys_total (m : M Sys unit) : never_fails m → ∀ n w, ∃ n' s',
  m n (w_sys w) = (Ok tt, (n', s')) ∧ on_sys m n w = (Ok tt, (n', w <| w_sys := s' |>)).
Proof.
  intros Hm n w. unfold on_sys. destruct (Hm n (w_sys w)) as ([] & n' & s' & ->). eauto.
Qed.
Lemma execute_settles runner id n s row :
  calm → get_row s id = Some row → row_state row = TaskStateInProgress →
  default "" (nonempty (row_assigned_agent row)) ≠ AgentTypePlanner →
  ∃ st, st ∈ settled_states (runner (scanTask row)) ∧
    has_state (executed cfg workerID runner id n s).2.2 id st.
Proof.
  intros Hcalm Hrow Hst Hagent. unfold executed, bind at 1, loadTask, bind at 1, attempt at 1.
  unfold GetTask. rewrite query_calm, Hrow by done. cbn [fmap option_fmap option_map].
  unfold bind at 1.
  match goal with |- context [recordRecoveryCheckpoint ?a ?b ?c ?m ?x] =>
    destruct (checkpoint_ok a b c m x) as (n1 & s1 & -> & Hm) end.
  unfold ret at 1. apply settleTask_settles; [done| |exact Hagent].
  eapply only_metadata_state; [exact Hm|]. by exists row.
Qed.

(** C17: executing a task always leaves the worker idle, whatever fails; and when
    no statement fails, a task in progress that is not a planner's ends where its
    result says: completed on success, waiting for approval when one is requested
    (failed when the request is refused), failed on anything else. *)
Theorem executeTask_spec runner id n w :
  let w' := (executeTask cfg workerID interval runner id n w).2.2 in
  w_current w' = None ∧
  ∀ row, calm → get_row (w_sys w) id = Some row → row_state row = TaskStateInProgress →
    default "" (nonempty (row_assigned_agent row)) ≠ AgentTypePlanner →
    ∃ row', get_row (w_sys w') id = Some row' ∧
      row_state row' ∈ settled_states (runner (scanTask row)).
Proof.
  cbn zeta. unfold executeTask.
  destruct (on_sys_total _ (executed_total runner id) n w) as (n1 & s1 & Hs & Hrun).
  rewrite (bind_ok _ _ _ _ _ _ _ Hrun).
  destruct (releaseTask_idle n1 (w <| w_sys := s1 |>)) as [Hcur Hsys].
  split; [done|]. intros row Hcalm Hrow Hst Hagent. rewrite Hsys. cbn.
  destruct (execute_settles runner id n (w_sys w) row) as (st & Hin & row' & Hrow' & Hst');
    [done..|].
  rewrite Hs in Hrow'. cbn in Hrow'. exists row'. split; [done|]. by rewrite Hst'.
Qed.
End Settling.

(** ** What becomes of a plan *)

Section Planning.
Context `{Env} (cfg : Config) (workerID : string).

Lemma planner_child_fails task root i spec n s :
  subtask_agent spec = AgentTypePlanner →
  ∃ e, (create_subtask cfg workerID task root i spec n s).1 = Err e.
Proof.
  intros Hagent. unfold create_subtask. cbn zeta. rewrite Hagent. cbn [String.eqb].
  unfold bind at 1. destruct (CreateTask _ n s) as [[[child|]|e] [n1 s1]] eqn:Hc; eauto.
  apply CreateTask_run in Hc as [[_ [e He]]|(tid & _ & _ & -> & [[e He]|Hr])]; [done..|].
  unfold creation in *. cbn [ctp_queue_on_create subtask_params] in *.
  unfold get_row in Hr; cbn in Hr. rewrite lookup_insert_eq in Hr.
  injection Hr as ->. rewrite String.eqb_refl. unfold bind at 1, bind at 1, CompleteTask.
  match goal with |- context [finalizeTask ?a ?b ?c ?d ?x ?y ?m ?z] =>
    destruct (finalizeTask a b c d x y m z) as [r2 [n2 s2]] eqn:Hf end.
  apply finalizeTask_run in Hf as [[_ [e ->]]|(row & now & ti & Hrow & Hv & _)]; [by eexists|].
  unfold get_row in Hrow; cbn in Hrow. rewrite lookup_insert_eq in Hrow.
  injection Hrow as <-. discriminate Hv.
Qed.

(** A plan with a step for the planner itself is never carried out: the step is
    created and then completed straight away, which the state machine does not
    allow for a task that is only created, so handling the plan fails whatever the
    state and the environment; the step and those before it are left behind. *)
Theorem planner_step_fails task result n s :
  let results := cloneMapAny (rr_results result) in
  if negb (as_bool (mget results "plan_only"))
     && existsb (λ spec, subtask_agent spec =?s AgentTypePlanner)
          (parsePlannerSubtasks (mget results "subtasks"))
  then ∃ e, (handlePlannerSuccess cfg workerID task result n s).1 = Err e
  else True.
Proof.
  cbn zeta. unfold handlePlannerSuccess. cbn zeta.
  destruct (as_bool _); [done|]. cbn [negb andb orb].
  set (subtasks := parsePlannerSubtasks _).
  destruct (existsb _ subtasks) eqn:Hex; [|done].
  apply existsb_exists in Hex as (spec & Hin & Hagent). apply String.eqb_eq in Hagent.
  apply list_elem_of_In, list_elem_of_lookup in Hin as [i Hi].
  unfold bind at 1. destruct (UpdateTaskResults _ _ n s) as [[u|e] [n1 s1]]; [|eauto].
  destruct (Nat.eqb_spec (length subtasks) 0) as [Hlen|_].
  { apply nil_length_inv in Hlen. by rewrite Hlen in Hi. }
  unfold bind at 1.
  destruct (for_each_fails (imap pair subtasks) (λ createdIDs step,
      id <- create_subtask cfg workerID task (root_id_of task) step.1 step.2 ;;
      ret (createdIDs ++ [id])) (i, spec)) with (acc := @nil string) (n := n1) (s := s1)
    as [e He].
  - apply list_elem_of_lookup. exists i. by rewrite list_lookup_imap, Hi.
  - intros acc m x. unfold bind. cbn [fst snd].
    destruct (planner_child_fails task (root_id_of task) i spec m x Hagent) as [e He].
    destruct (create_subtask _ _ _ _ _ _ m x) as [[b|e'] [n2 s2]]; [done|eauto].
  - destruct (for_each _ _ _ n1 s1) as [[b|e'] [n2 s2]]; [done|eauto].
Qed.

(** What a successful turn of the loop leaves behind for one step of the plan. *)
Record subtask_made (task : TaskResponse) (root : string) (s s' : Sys)
    (step : nat * plannerSubtask) (id : string) : Prop := {
  sm_fresh : get_row s id = None;
  sm_row : ∃ row, get_row s' id = Some row ∧ row_parent row = Some (task_id task) ∧
    row_assigned_agent row = Some (subtask_agent step.2) ∧
    row_kind row = TaskKindPlanStep ∧ row_state row ≠ TaskStateCreated;
  sm_queued :
    ps_requires_approval step.2 = false →
    subtask_target task step.2 ≠ ExecutionTargetLocal →
    is_Some (agent_queue s' (subtask_agent step.2) !! id);
}.

Lemma never_created_again s t :
  rtc lifecycle_edge s t → s ≠ TaskStateCreated → t ≠ TaskStateCreated.
Proof.
  induction 1 as [|x y z Hedge _ IH]; [done|]. intros _. apply IH.
  intros ->. inversion Hedge as [a b Hv| |]; subst. destruct x; discriminate Hv.
Qed.

Lemma subtask_made_mono task root s0 s s' s'' step id :
  evolves s0 s → subtask_made task root s s' step id → evolves s' s'' →
  queues_grow s' s'' → subtask_made task root s0 s'' step id.
Proof.
  intros H0 [Hf (row & Hrow & Hp & Ha & Hk & Hst) Hq] Hev Hg. split.
  - destruct (get_row s0 id) as [r|] eqn:Hr; [|done].
    destruct (ev_tasks _ _ H0 _ _ Hr) as (r' & Hr' & _). congruence.
  - destruct (ev_tasks _ _ Hev _ _ Hrow) as (row' & Hrow' & [Hid Hs]).
    exists row'. unfold identity in Hid. injection Hid as. split_and!; try congruence.
    by eapply never_created_again.
  - intros H1 H2. by apply Hg, Hq.
Qed.

Lemma UpdateTaskState_made id to actor reason n s u n' s' row0 :
  UpdateTaskState id to actor reason n s = (Ok u, (n', s')) → get_row s id = Some row0 →
  ∃ row, get_row s' id = Some row ∧ identity row = identity row0 ∧ row_state row = to ∧
    redis s' = redis s.
Proof.
  intros (row & now & ti & Hrow & _ & ->)%UpdateTaskState_ok Hrow0.
  rewrite Hrow0 in Hrow. injection Hrow as <-.
  rewrite get_row_transition_eq, Hrow0. eexists. by split_and!.
Qed.

Lemma create_subtask_run task root i spec n s id n' s' :
  create_subtask cfg workerID task root i spec n s = (Ok id, (n', s')) →
  subtask_made task root s s' (i, spec) id.
Proof.
  unfold create_subtask. cbn zeta. unfold bind at 1.
  destruct (CreateTask _ n s) as [[[child|]|e] [n1 s1]] eqn:Hc; [|done..].
  apply CreateTask_run in Hc as [[_ [e He]]|(tid & Hfresh & _ & Hs1 & [[e He]|Hr])];
    [done..|].
  unfold creation in Hs1. cbn [ctp_queue_on_create subtask_params] in Hs1.
  set (row0 := new_task_row _ _ _ _) in Hs1.
  assert (Hrow0 : get_row s1 (uuid n) = Some row0).
  { subst s1. unfold get_row; cbn. by rewrite lookup_insert_eq. }
  clear Hs1. rewrite Hrow0 in Hr. injection Hr as ->. change (task_id (scanTask row0)) with (uuid n).
  assert (Hmade : ∀ row s'', get_row s'' (uuid n) = Some row → identity row = identity row0 →
    row_state row ≠ TaskStateCreated →
    (ps_requires_approval spec = false → subtask_target task spec ≠ ExecutionTargetLocal →
     is_Some (agent_queue s'' (subtask_agent spec) !! uuid n)) →
    subtask_made task root s s'' (i, spec) (uuid n)).
  { intros row s'' Hrow Hid Hst Hq. split; [done| |done]. exists row.
    unfold identity in Hid. injection Hid as. split_and!; try done; cbn in *; congruence. }
  destruct (subtask_agent spec =?s AgentTypePlanner).
  { intros Hrun. exfalso. unfold bind at 1, bind at 1, CompleteTask in Hrun.
    destruct (finalizeTask _ _ _ _ _ _ n1 s1) as [r2 [n2 s2]] eqn:Hf.
    apply finalizeTask_run in Hf as [[_ [e ->]]|(row & now & ti & Hrow & Hv & _)]; [done|].
    rewrite Hrow0 in Hrow. injection Hrow as <-. discriminate Hv. }
  destruct (ps_requires_approval spec) eqn:Happ.
  { intros Hrun. apply bind_inv in Hrun as [(? & _ & ?)|([] & n2 & s2 & Hrun & Hret)]; [done|].
    unfold ret in Hret. simplify_eq.
    apply bind_inv in Hrun as [(? & _ & ?)|(a & n3 & s3 & Hrun & Hret)]; [done|].
    unfold ret in Hret. simplify_eq.
    apply RequestApproval_run in Hrun as [[_ [e He]]|(row & now & aid & ti & Hrow & _ & _ & ->)];
      [done|].
    rewrite Hrow0 in Hrow. injection Hrow as <-.
    eapply Hmade; [rewrite get_row_transition_eq, get_row_update_eq; unfold get_row in *;
      cbn; rewrite Hrow0; reflexivity|done|done|done]. }
  destruct (subtask_target task spec =?s ExecutionTargetLocal) eqn:Hloc.
  { intros Hrun. apply bind_inv in Hrun as [(? & _ & ?)|(u & n2 & s2 & Hrun & Hret)]; [done|].
    unfold ret in Hret. simplify_eq.
    apply (UpdateTaskState_made _ _ _ _ _ _ _ _ _ row0) in Hrun
      as (row & Hrow & Hid & Hst & _); [|done].
    eapply Hmade; [exact Hrow|done|by rewrite Hst|].
    apply String.eqb_eq in Hloc. by intros _ Hne. }
  intros Hrun. apply bind_inv in Hrun as [(? & _ & ?)|(u & n2 & s2 & Hrun & Hret)]; [done|].
  unfold ret in Hret. simplify_eq. unfold bind at 1, attempt at 1 in Hrun.
  destruct (EnqueueTask _ _ _ n1 s1) as [[v|e] [n3 s3]] eqn:Henq.
  2: { apply bind_inv in Hrun as [(? & _ & ?)|(? & ? & ? & _ & Ht)]; done. }
  assert (Hq3 : is_Some (agent_queue s3 (subtask_agent spec) !! uuid n) ∧
                get_row s3 (uuid n) = Some row0).
  { unfold EnqueueTask in Henq. run_inv. split; [|exact Hrow0].
    rewrite agent_queue_insert, decide_True, lookup_insert_eq by done. by eexists. }
  destruct Hq3 as [Hq3 Hrow3].
  apply (UpdateTaskState_made _ _ _ _ _ _ _ _ _ row0) in Hrun
    as (row & Hrow & Hid & Hst & Hred); [|done].
  eapply Hmade; [exact Hrow|done|by rewrite Hst|].
  intros _ _. unfold agent_queue in *. by rewrite Hred.
Qed.

Lemma create_subtask_grows task root i spec :
  respects queues_grow (create_subtask cfg workerID task root i spec).
Proof.
  unfold create_subtask. cbn zeta. solve_handler.
  all: try (apply respects_queues_same;
    first [apply CreateTask_same_redis|apply finalizeTask_same_redis
          |apply UpdateTaskState_same_redis|apply RequestApproval_same_redis]).
  apply EnqueueTask_queues.
Qed.

Definition create_all (task : TaskResponse) (root : string) (ids : list string)
    (step : nat * plannerSubtask) : M Sys (list string) :=
  id <- create_subtask cfg workerID task root step.1 step.2 ;; ret (ids ++ [id]).

Lemma create_all_run task root steps : ∀ ids n s ids' n' s',
  for_each steps ids (create_all task root) n s = (Ok ids', (n', s')) →
  evolves s s' ∧ queues_grow s s' ∧
  ∃ new, ids' = ids ++ new ∧ Forall2 (subtask_made task root s s') steps new.
Proof.
  induction steps as [|[i spec] steps IH]; intros ids n s ids' n' s' Hrun; cbn in Hrun.
  { unfold ret in Hrun. simplify_eq. split_and!; [reflexivity..|]. exists []. by rewrite app_nil_r. }
  apply bind_inv in Hrun as [(? & _ & ?)|(ids1 & n1 & s1 & Hstep & Hrun)]; [done|].
  unfold create_all in Hstep.
  apply bind_inv in Hstep as [(? & _ & ?)|(id & n2 & s2 & Hstep & Hret)]; [done|].
  unfold ret in Hret. simplify_eq.
  pose proof (create_subtask_evolves _ _ _ _ _ _ _ _ _ _ _ Hstep) as Hev.
  pose proof (create_subtask_grows _ _ _ _ _ _ _ _ _ Hstep) as Hgr.
  apply create_subtask_run in Hstep.
  apply IH in Hrun as (Hev' & Hgr' & new & -> & Hall).
  split_and!; [by etrans|by etrans|]. exists (id :: new). split; [by rewrite <- app_assoc|].
  constructor.
  - eapply subtask_made_mono; [reflexivity|exact Hstep|exact Hev'|exact Hgr'].
  - eapply Forall2_impl; [exact Hall|]. intros st x Hm.
    eapply subtask_made_mono; [exact Hev|exact Hm|reflexivity|reflexivity].
Qed.

(** C19: when a plan is handled without an error, either it was a plan without
    subtasks to run, or every step of it, in order, is a new task below the
    planner's: given to the step's agent, no longer merely created, and in its
    agent's queue unless it waits for an approval or belongs to a local bridge. *)
Theorem planner_releases_steps task result n s :
  let results := cloneMapAny (rr_results result) in
  let subtasks := parsePlannerSubtasks (mget results "subtasks") in
  match handlePlannerSuccess cfg workerID task result n s with
  | (Ok _, (_, s')) =>
      as_bool (mget results "plan_only") = true ∨ subtasks = [] ∨
      ∃ ids, Forall2 (subtask_made task (root_id_of task) s s') (imap pair subtasks) ids
  | (Err _, _) => True
  end.
Proof.
  cbn zeta. destruct (handlePlannerSuccess _ _ _ _ n s) as [[u|e] [n' s']] eqn:Hrun; [|done].
  unfold handlePlannerSuccess in Hrun. cbn zeta in Hrun.
  set (subtasks := parsePlannerSubtasks _) in *.
  apply bind_inv in Hrun as [(? & _ & ?)|(u1 & n1 & s1 & Hup & Hrun)]; [done|].
  destruct (as_bool _); [by left|]. right.
  destruct (Nat.eqb_spec (length subtasks) 0) as [Hlen|_];
    [left; by apply nil_length_inv|]. right. cbn [orb] in Hrun.
  apply bind_inv in Hrun as [(? & _ & ?)|(ids & n2 & s2 & Hall & Hrun)]; [done|].
  apply (create_all_run task (root_id_of task)) in Hall
    as (Hev & Hgr & new & -> & Hmade). exists new.
  apply bind_inv in Hrun as [(? & _ & ?)|(u3 & n3 & s3 & Hup3 & Hrec)]; [done|].
  eapply Forall2_impl; [exact Hmade|]. intros step id Hm.
  eapply subtask_made_mono; [|exact Hm| |].
  - exact (respects_run (UpdateTaskResults_evolves _ _) Hup).
  - etrans; [exact (respects_run (UpdateTaskResults_evolves _ _) Hup3)
            |exact (respects_run (reconcile_root_evolves _ _) Hrec)].
  - etrans; [exact (respects_run (respects_queues_same _ (results_same_redis _ _)) Hup3)
            |exact (respects_run (respects_queues_same _ (reconcile_as_same_redis _ _)) Hrec)].
Qed.
End Planning.

Definition working_worker : WSys := MkWSys working_demo ∅ ∅ (Some "id-0").
Lemma executeTask_spec_witness :
  let w' := (@executeTask (quiet_env 0) demo_cfg "w1" 15 demo_runner "id-0" 40%N
               working_worker).2.2 in
  w_current w' = None ∧
  ∃ row', get_row (w_sys w') "id-0" = Some row' ∧ row_state row' ∈ [TaskStateCompleted].
Proof.
  destruct (@executeTask_spec (quiet_env 0) demo_cfg "w1" 15 demo_runner "id-0" 40%N
    working_worker) as [Hidle Hsettled].
  split; [exact Hidle|].
  assert (Hf : match get_row (w_sys working_worker) "id-0" with
    | Some row => bool_decide (row_state row = TaskStateInProgress)
        && negb (default "" (nonempty (row_assigned_agent row)) =?s AgentTypePlanner)
    | None => false end = true) by (vm_compute; reflexivity).
  destruct (get_row (w_sys working_worker) "id-0") as [row|] eqn:Hrow; [|discriminate Hf].
  apply andb_prop in Hf as [Hst%bool_decide_eq_true Ha%negb_true_iff%String.eqb_neq].
  exact (Hsettled row (quiet_env_calm 0) eq_refl Hst Ha).
Defined.
