(* ===== verification/WorkerLoop.v ===== *)
(** * The worker's goroutines ([worker/worker.go])

    The poll loop and the executions it spawns, as threads that interleave with each
    other and with everything else that uses the two servers: the code of [Worker] cut at
    each call to a server, each access to [currentTask], the run of the task and the [go]
    statement.  Run alone, the threads do what the operations of [Worker] do. *)
From S2P Require Import Prelude GoVal Effects Domain Schema TaskStore Queue.
From S2P Require Import InitiativeStore Http TaskApi Worker.

(** ** Threads *)

(** What the worker tells the registry; an error is only logged. *)
Inductive Notice :=
  | Current_task (taskID : option string)
  | Beat (taskID : option string)
  | Stopped.

(** A thread is the call it makes next and what it does with the answer.  [Run] is
    [runner.Execute], which may take as long as it takes. *)
Inductive Thread :=
  | Return
  | Call {A} (m : M Sys A) (k : res A → Thread)
  | Get (k : option string → Thread)
  | Set_ (taskID : option string) (k : Thread)
  | Tell (notice : Notice) (k : Thread)
  | Run (task : TaskResponse) (k : RunResult → Thread)
  | Go (taskID : string) (child k : Thread).

Section Threads.
Context `{Env} (cfg : Config) (workerID : string) (interval : Z).
Context (runner : TaskResponse → RunResult).

(** ** The code *)

(** [orchestratorgo/worker/worker.go:618-626] releaseTask. *)
Definition release : Thread := Set_ None (Tell (Current_task None) (Tell (Beat None) Return)).

(** [orchestratorgo/worker/worker.go:164-242] executeTask. *)
Definition execute (taskID : string) : Thread :=
  Call (loadTask workerID taskID) (λ loaded,
    match loaded with
    | Ok (Some task) =>
        Run task (λ result,
        Call (settleTask cfg workerID task taskID result) (λ _,
        release))
    | _ => release
    end).

(** [orchestratorgo/worker/worker.go:114-162] tryClaimTask, and then [k]. *)
Definition tryClaim (agentType : string) (k : Thread) : Thread :=
  Call (DequeueTask agentType) (λ popped,
  match popped with
  | Ok (Some taskID) =>
      Call (GetTask taskID) (λ found,
      match found with
      | Ok (Some task) =>
          if negb (bool_decide (task_state task = TaskStateQueued)) then k
          else if task_execution_target task =?s ExecutionTargetLocal then k
          else
            Call (UpdateTaskState taskID TaskStateAssigned (worker_actor workerID)
                    ("Dequeued for " +:+ agentType)) (λ assigned,
            match assigned with
            | Err _ => k
            | Ok _ =>
                Call (UpdateTaskState taskID TaskStateInProgress (worker_actor workerID)
                        "Execution started in Go worker") (λ started,
                match started with
                | Err _ => k
                | Ok _ =>
                    Set_ (Some taskID) (
                    Call (recordRecoveryCheckpoint taskID "claimed" (list_to_map
                      [("worker_id", VStr workerID); ("assigned_agent", VStr agentType);
                       ("execution_target", VStr (task_execution_target task))])) (λ _,
                    Get (λ current, Tell (Current_task current) (
                    Get (λ current, Tell (Beat current) (
                    Go taskID (execute taskID) k))))))
                end)
            end)
      | _ => k
      end)
  | _ => k
  end).

(** [orchestratorgo/worker/worker.go:96-109] run: one tick of the poll timer, *)
Definition claimWhenIdle (agentType : string) (k : Thread) : Thread :=
  Get (λ current, match current with None => tryClaim agentType k | Some _ => k end).
Definition poll_tick : Thread :=
  Get (λ current,
    match current with
    | Some _ => Return
    | None =>
        tryClaim AgentTypePlanner (
        claimWhenIdle AgentTypeResearcher (
        claimWhenIdle AgentTypeCoder (
        claimWhenIdle AgentTypeReviewer Return)))
    end).
(** [orchestratorgo/worker/worker.go:92-95] run: and one of the heartbeat timer. *)
Definition heartbeat_tick : Thread := Get (λ current, Tell (Beat current) Return).

(** ** Running threads *)

Definition notify (notice : Notice) : M WSys unit :=
  match notice with
  | Current_task taskID => ignore (UpdateWorkerCurrentTask workerID taskID)
  | Beat taskID => ignore (EmitWorkerHeartbeat workerID interval taskID)
  | Stopped => ignore (DeregisterWorker workerID)
  end.

(** One step of a thread: what is left of it, the state after it, and the thread it has
    spawned, with the task this one is for. *)
Definition act (t : Thread) (n : N) (w : WSys) :
    option (Thread * (N * WSys) * list (string * Thread)) :=
  match t with
  | Return => None
  | Call m k => let '(r, nw) := on_sys m n w in Some (k r, nw, [])
  | Get k => Some (k (w_current w), (n, w), [])
  | Set_ taskID k => Some (k, (n, w <| w_current := taskID |>), [])
  | Tell notice k => let '(_, nw) := notify notice n w in Some (k, nw, [])
  | Run task k => Some (k (runner task), (n, w), [])
  | Go taskID child k => Some (k, (n, w), [(taskID, child)])
  end.

(** The worker: its loop, which is over once the worker stops, and the executions spawned. *)
Record WRun := MkRun {
  run_n : N;
  run_w : WSys;
  run_loop : option Thread;
  run_jobs : list (string * Thread);
}.

(** [orchestratorgo/worker/worker.go:73-112] run, and whoever else uses the servers: *)
Inductive worker_step : relation WRun :=
  (* the loop waits for a timer, or ends; *)
  | step_tick n w jobs tick :
      tick ∈ [poll_tick; heartbeat_tick] →
      worker_step (MkRun n w (Some Return) jobs) (MkRun n w (Some tick) jobs)
  | step_stop n w jobs :
      worker_step (MkRun n w (Some Return) jobs)
        (MkRun n w None (jobs ++ [("", Tell Stopped Return)]))
  (* a thread goes on; *)
  | step_loop n w jobs t t' n' w' spawned :
      act t n w = Some (t', (n', w'), spawned) →
      worker_step (MkRun n w (Some t) jobs) (MkRun n' w' (Some t') (jobs ++ spawned))
  | step_job n w loop l1 id t l2 t' n' w' spawned :
      act t n w = Some (t', (n', w'), spawned) →
      worker_step (MkRun n w loop (l1 ++ (id, t) :: l2))
        (MkRun n' w' loop (l1 ++ (id, t') :: l2 ++ spawned))
  (* the servers change under the worker. *)
  | step_others n w n' w' loop jobs :
      w_current w' = w_current w →
      worker_step (MkRun n w loop jobs) (MkRun n' w' loop jobs).

(** The executions that are at work: the next thing they do is for their task, running it
    or a call to the servers. *)
Definition at_work (job : string * Thread) : option string :=
  match job.2 with Call _ _ | Run _ _ => Some job.1 | _ => None end.
Definition executing (r : WRun) : list string := omap at_work (run_jobs r).

(** What a thread does by the time it returns, whatever it is answered: it has nothing to do
    but tell the registry; *)
Fixpoint only_tells (t : Thread) : Prop :=
  match t with
  | Return => True
  | Tell _ k => only_tells k
  | _ => False
  end.
(** it works, and clears [currentTask] after that; *)
Fixpoint clears (t : Thread) : Prop :=
  match t with
  | Call _ k => ∀ r, clears (k r)
  | Run _ k => ∀ r, clears (k r)
  | Set_ None k => only_tells k
  | _ => False
  end.
(** it sets [currentTask] only to a task it then starts, to be cleared, and only when it
    has found none: [free] tells whether it has; *)
Fixpoint claims (free : bool) (t : Thread) : Prop :=
  match t with
  | Return => True
  | Call _ k => ∀ r, claims free (k r)
  | Get k => claims true (k None) ∧ ∀ id, claims false (k (Some id))
  | Set_ (Some id) k => free = true ∧ starts id k
  | Tell _ k => claims free k
  | _ => False
  end
(** it starts the task, and then claims others. *)
with starts (id : string) (t : Thread) : Prop :=
  match t with
  | Call _ k => ∀ r, starts id (k r)
  | Get k => ∀ c, starts id (k c)
  | Tell _ k => starts id k
  | Go taskID child k => taskID = id ∧ clears child ∧ claims false k
  | _ => False
  end.
End Threads.

(** ** One task at a time *)

Section Exclusion.
Context `{Env} (cfg : Config) (workerID : string) (interval : Z).
Context (runner : TaskResponse → RunResult).

Local Abbreviation act := (act workerID interval runner).
Local Abbreviation step := (worker_step cfg workerID interval runner).

(** The registry is not the worker's state. *)
Lemma notify_current notice n w : w_current (notify workerID interval notice n w).2.2 = w_current w.
Proof.
  destruct (notify _ _ notice n w) as [r [n' w']] eqn:E. cbn.
  destruct notice; cbn [notify] in E; apply ignore_inv in E as [_ (r1 & E)].
  - by apply Update_only_registry in E as [_ ?].
  - by apply Emit_only_registry in E as [_ ?].
  - apply stmt_inv in E as [_ [(? & _ & _ & ->)|[_ E]]]; [done|]. by simplify_eq.
Qed.

Lemma only_tells_act t n w t' n' w' spawned :
  only_tells t → act t n w = Some (t', (n', w'), spawned) →
  only_tells t' ∧ w_current w' = w_current w ∧ spawned = [].
Proof.
  destruct t; cbn; try done. intros Ht. pose proof (notify_current notice n w) as Hn.
  destruct (notify _ _ _ _ _) as [r [n1 w1]]. intros; simplify_eq. done.
Qed.

Lemma clears_act t n w t' n' w' spawned :
  clears t → act t n w = Some (t', (n', w'), spawned) →
  spawned = [] ∧ (clears t' ∧ w_current w' = w_current w ∨ only_tells t' ∧ w_current w' = None).
Proof.
  destruct t as [|A m k| |[id|] k| | |]; cbn; try done; intros Ht.
  - unfold on_sys. destruct (m n (w_sys w)) as [r [n1 s1]]. intros; simplify_eq. eauto.
  - intros; simplify_eq. eauto.
  - intros; simplify_eq. eauto.
Qed.

Lemma claims_weaken t : claims false t → claims true t.
Proof.
  induction t as [|A m k IH|k IH|[id|] k IH|notice k IH|task k IH|id child _ k IH]; cbn; try done.
  - intros Ht r. by apply IH.
  - by intros [? _].
Qed.

(** What the loop may do next depends on whether [currentTask] is set. *)
Definition idle (w : WSys) : bool := bool_decide (w_current w = None).
Lemma idle_None w : w_current w = None → idle w = true.
Proof. apply bool_decide_eq_true_2. Qed.
Lemma idle_Some w id : w_current w = Some id → idle w = false.
Proof. intros E. unfold idle. by rewrite E. Qed.

Lemma claims_act t n w t' n' w' spawned :
  claims (idle w) t → act t n w = Some (t', (n', w'), spawned) →
  spawned = [] ∧ (w_current w' = w_current w ∧ claims (idle w) t' ∨
    ∃ id, w_current w = None ∧ w_current w' = Some id ∧ starts id t').
Proof.
  destruct t as [|A m k|k|[id|] k|notice k| |]; cbn; try done; intros Ht.
  - unfold on_sys. destruct (m n (w_sys w)) as [r [n1 s1]]. intros; simplify_eq. eauto.
  - intros; simplify_eq. split; [done|]. left. split; [done|]. destruct Ht as [Hnone Hsome].
    destruct (w_current w') eqn:E; [rewrite (idle_Some _ _ E)|rewrite (idle_None _ E)]; auto.
  - intros; simplify_eq. split; [done|]. right. exists id. destruct Ht as [Hfree Hst].
    apply bool_decide_eq_true in Hfree. done.
  - pose proof (notify_current notice n w) as Hn.
    destruct (notify _ _ _ _ _) as [r [n1 w1]]. intros; simplify_eq. eauto.
Qed.

Lemma starts_act id t n w t' n' w' spawned :
  starts id t → act t n w = Some (t', (n', w'), spawned) →
  w_current w' = w_current w ∧
  (spawned = [] ∧ starts id t' ∨
   ∃ child, spawned = [(id, child)] ∧ clears child ∧ claims false t').
Proof.
  destruct t as [|A m k|k| |notice k| |taskID child k]; cbn; try done; intros Ht.
  - unfold on_sys. destruct (m n (w_sys w)) as [r [n1 s1]]. intros; simplify_eq. eauto.
  - intros; simplify_eq. eauto.
  - pose proof (notify_current notice n w) as Hn.
    destruct (notify _ _ _ _ _) as [r [n1 w1]]. intros; simplify_eq. eauto.
  - intros; simplify_eq. destruct Ht as (-> & ? & ?). eauto 10.
Qed.

(** The code is of these kinds. *)
Lemma execute_clears id : clears (execute cfg workerID id).
Proof. intros [[task|]|e]; cbn; done. Qed.
Lemma tryClaim_claims a k :
  claims false k → claims true (tryClaim cfg workerID a k).
Proof.
  intros Hk. pose proof (claims_weaken _ Hk) as Hk'. cbn.
  intros [[id|]|e]; cbn; [|done..]. intros [[task|]|e]; cbn; [|done..].
  destruct (negb _); [done|]. destruct (_ =?s _); [done|]. cbn.
  intros [u|e]; cbn; [|done]. intros [u'|e]; cbn; [|done].
  split; [done|]. intros _ _ _. split_and!; [done| |done]. apply execute_clears.
Qed.
Lemma claimWhenIdle_claims a k : claims false k → claims false (claimWhenIdle cfg workerID a k).
Proof. intros Hk. split; [by apply tryClaim_claims|done]. Qed.
Lemma tick_claims tick : tick ∈ [poll_tick cfg workerID; heartbeat_tick] → claims false tick.
Proof.
  rewrite !elem_of_cons, elem_of_nil. intros [->|[->|[]]].
  - split; [|done]. by apply tryClaim_claims; do 3 apply claimWhenIdle_claims.
  - by split.
Qed.

(** Idle, about to start the task, or with one execution of it. *)
Definition quiet (jobs : list (string * Thread)) : Prop := Forall (λ job, only_tells job.2) jobs.
Definition loop_claims (free : bool) (loop : option Thread) : Prop :=
  match loop with Some t => claims free t | None => True end.
Inductive sound (r : WRun) : Prop :=
  | sound_idle :
      w_current (run_w r) = None → quiet (run_jobs r) → loop_claims true (run_loop r) → sound r
  | sound_starts id t :
      w_current (run_w r) = Some id → quiet (run_jobs r) → run_loop r = Some t → starts id t →
      sound r
  | sound_executes id l1 t l2 :
      w_current (run_w r) = Some id → run_jobs r = l1 ++ (id, t) :: l2 → clears t →
      quiet l1 → quiet l2 → loop_claims false (run_loop r) → sound r.

Lemma quiet_app l1 l2 : quiet l1 → quiet l2 → quiet (l1 ++ l2).
Proof. intros. by apply Forall_app. Qed.

Lemma loop_sound n w jobs t t' n' w' spawned :
  sound (MkRun n w (Some t) jobs) → act t n w = Some (t', (n', w'), spawned) →
  sound (MkRun n' w' (Some t') (jobs ++ spawned)).
Proof.
  intros Hs Hact. destruct Hs as [Hw Hq Hl|id x Hw Hq [= <-] Hst|id l1 x l2 Hw Hj Hc H1 H2 Hl];
    cbn [run_w run_jobs run_loop loop_claims] in *.
  - rewrite <- (idle_None w Hw) in Hl.
    apply claims_act in Hact as [-> [[Hw' Hc]|(id & _ & Hw' & Hst)]]; [| |done];
      rewrite app_nil_r.
    + rewrite (idle_None w Hw) in Hc. apply sound_idle; cbn; [congruence|done..].
    + by eapply sound_starts.
  - apply (starts_act id) in Hact as [Hw' [[-> Hst']|(child & -> & Hc & Hcl)]]; [| |done].
    + rewrite app_nil_r. apply (sound_starts _ id t'); cbn; [congruence|done..].
    + apply (sound_executes _ id jobs child []); cbn; [congruence|done..|constructor|done].
  - subst jobs. rewrite <- (idle_Some w id Hw) in Hl.
    apply claims_act in Hact as [-> [[Hw' Hcl]|(? & Hnone & _)]]; [|congruence|done].
    rewrite app_nil_r. rewrite (idle_Some w id Hw) in Hcl.
    apply (sound_executes _ id l1 x l2); cbn; [congruence|done..].
Qed.

Lemma job_sound n w loop l1 id t l2 t' n' w' spawned :
  sound (MkRun n w loop (l1 ++ (id, t) :: l2)) → act t n w = Some (t', (n', w'), spawned) →
  sound (MkRun n' w' loop (l1 ++ (id, t') :: l2 ++ spawned)).
Proof.
  intros Hs Hact.
  assert (Hquiet : only_tells t → only_tells t' ∧ w_current w' = w_current w ∧ spawned = [])
    by (intros; by eapply only_tells_act).
  assert (Hkept : quiet (l1 ++ (id, t) :: l2) →
    quiet (l1 ++ (id, t') :: l2 ++ spawned) ∧ w_current w' = w_current w).
  { unfold quiet. rewrite !Forall_app, !Forall_cons, Forall_app. cbn. intros (? & Ht & ?).
    destruct (Hquiet Ht) as (? & ? & ->). done. }
  destruct Hs as [Hw Hq Hl|id' x Hw Hq Hx Hst|id' k1 x k2 Hw Hj Hc H1 H2 Hl];
    cbn [run_w run_jobs run_loop] in *.
  - destruct (Hkept Hq) as [? ?]. apply sound_idle; cbn; [congruence|done..].
  - destruct (Hkept Hq) as [? ?]. apply (sound_starts _ id' x); cbn; [congruence|done..].
  - assert (Hhere : id = id' → t = x → quiet l1 → quiet l2 →
      sound (MkRun n' w' loop (l1 ++ (id, t') :: l2 ++ spawned))).
    { intros -> -> Hl1 Hl2. apply clears_act in Hact as [-> [[? ?]|[? ?]]]; [| |done];
        rewrite app_nil_r.
      - apply (sound_executes _ id' l1 t' l2); cbn; [congruence|done..].
      - apply sound_idle; cbn; [done| |].
        + apply quiet_app; [done|]. by constructor.
        + destruct loop; [by apply claims_weaken|done]. }
    apply app_eq_inv in Hj as [(k & -> & Hj)|(k & -> & Hj)]; destruct k as [|y k]; cbn in Hj;
      simplify_eq; rewrite ?app_nil_r in *; auto.
    + (* a job after the execution *)
      apply Forall_app in H2 as [Hk [Ht Hl2]%Forall_cons]. destruct (Hquiet Ht) as (? & ? & ->).
      eapply (sound_executes _ id' k1 x (k ++ (id, t') :: l2)); cbn; [congruence| |done|done| |done].
      * by rewrite app_nil_r, <- app_assoc.
      * apply quiet_app; [done|]. by constructor.
    + (* a job before it *)
      apply Forall_app in H1 as [Hl1 [Ht Hk]%Forall_cons]. destruct (Hquiet Ht) as (? & ? & ->).
      eapply (sound_executes _ id' (l1 ++ (id, t') :: k) x k2); cbn; [congruence| |done| |done..].
      * by rewrite app_nil_r, <- app_assoc.
      * apply quiet_app; [done|]. by constructor.
Qed.

Lemma step_sound r r' : sound r → step r r' → sound r'.
Proof.
  intros Hs Hstep. destruct Hstep as [n w jobs tick Htick|n w jobs| | |n w n' w' loop jobs Hw'].
  - pose proof (tick_claims tick Htick) as Hc. destruct Hs as [Hw Hq _|id t ? ? [= <-] []|id l1 t l2 Hw Hj Ht H1 H2 _].
    + apply sound_idle; [done..|]. by apply claims_weaken.
    + by apply (sound_executes _ id l1 t l2).
  - destruct Hs as [Hw Hq _|id t ? ? [= <-] []|id l1 t l2 Hw Hj Ht H1 H2 _]; cbn in *.
    + apply sound_idle; [done| |done]. apply quiet_app; [done|]. by repeat constructor.
    + subst jobs. apply (sound_executes _ id l1 t (l2 ++ [("", Tell Stopped Return)])); cbn;
        [done| |done|done| |done]; [by rewrite <- app_assoc|].
      apply quiet_app; [done|]. by repeat constructor.
  - by eapply loop_sound.
  - by eapply job_sound.
  - destruct Hs as [Hw Hq Hl|id t Hw Hq Hl Hst|id l1 t l2 Hw Hj Ht H1 H2 Hl]; cbn in *.
    + apply sound_idle; cbn; [congruence|done..].
    + apply (sound_starts _ id t); cbn; [congruence|done..].
    + apply (sound_executes _ id l1 t l2); cbn; [congruence|done..].
Qed.

Lemma quiet_at_work jobs : quiet jobs → omap at_work jobs = [].
Proof.
  induction 1 as [|[id t] jobs Ht _ IH]; [done|]. cbn [omap list_omap]. cbn in Ht.
  by destruct t; try done.
Qed.

(** Run alone, a thread goes to its end; the threads it spawned are left to run. *)
Fixpoint alone (t : Thread) (n : N) (w : WSys) : list (string * Thread) * (N * WSys) :=
  match t with
  | Return => ([], (n, w))
  | Call m k => let '(r, (n', w')) := on_sys m n w in alone (k r) n' w'
  | Get k => alone (k (w_current w)) n w
  | Set_ id k => alone k n (w <| w_current := id |>)
  | Tell notice k => let '(_, (n', w')) := notify workerID interval notice n w in alone k n' w'
  | Run task k => alone (k (runner task)) n w
  | Go id child k => let '(spawned, nw) := alone k n w in ((id, child) :: spawned, nw)
  end.
Definition executions (ids : list string) : list (string * Thread) :=
  (λ id, (id, execute cfg workerID id)) <$> ids.

Lemma notify_ok notice n w : ∃ n' w', notify workerID interval notice n w = (Ok tt, (n', w')).
Proof.
  destruct (notify _ _ notice n w) as [r [n' w']] eqn:E. exists n', w'.
  destruct notice; cbn [notify] in E; apply ignore_inv in E as [-> _]; done.
Qed.

(** [k] after a computation that returns the executions it has spawned. *)
Definition and_then (m : M WSys (list string)) (k : Thread) (n : N) (w : WSys) :
    list (string * Thread) * (N * WSys) :=
  match m n w with
  | (Ok ids, (n', w')) => let '(l, nw) := alone k n' w' in (executions ids ++ l, nw)
  | (Err _, nw) => ([], nw)
  end.
Lemma and_then_nil k n w : alone k n w = and_then (ret []) k n w.
Proof. unfold and_then, ret. by destruct (alone k n w). Qed.

Lemma tryClaim_alone a k n w :
  alone (tryClaim cfg workerID a k) n w
  = and_then (id <- tryClaimTask workerID interval a ;; ret (option_list id)) k n w.
Proof.
  assert (Hnone : ∀ n w, alone k n w = and_then (ret (option_list None)) k n w)
    by (intros; apply and_then_nil).
  unfold and_then, tryClaimTask. cbn [alone tryClaim].
  unfold bind, attempt.
  destruct (on_sys (DequeueTask a) n w) as [[[id|]|e] [n1 w1]]; [|apply Hnone..].
  cbn [alone].
  destruct (on_sys (GetTask id) n1 w1) as [[[task|]|e] [n2 w2]]; [|apply Hnone..].
  destruct (negb _); [apply Hnone|]. destruct (_ =?s _); [apply Hnone|]. cbn [alone].
  destruct (on_sys (UpdateTaskState id TaskStateAssigned _ _) n2 w2) as [[u|e] [n3 w3]];
    [|apply Hnone].
  cbn [alone].
  destruct (on_sys (UpdateTaskState id TaskStateInProgress _ _) n3 w3) as [[u'|e] [n4 w4]];
    [|apply Hnone].
  unfold setCurrentTask, getCurrentTask. cbn [alone].
  match goal with |- context [on_sys (recordRecoveryCheckpoint ?t ?g ?m) ?n5 ?w5] =>
    destruct (checkpoint_ok t g m n5 (w_sys w5)) as (n6 & s6 & Hm & _);
    unfold on_sys; rewrite Hm end.
  cbn [alone].
  match goal with |- context [notify _ _ (Current_task ?c) ?n7 ?w7] =>
    destruct (notify_ok (Current_task c) n7 w7) as (n8 & w8 & Hn); rewrite Hn;
    cbn [notify] in Hn; rewrite Hn end.
  cbn [alone].
  match goal with |- context [notify _ _ (Beat ?c) ?n7 ?w7] =>
    destruct (notify_ok (Beat c) n7 w7) as (n9 & w9 & Hb); rewrite Hb;
    cbn [notify] in Hb; rewrite Hb end.
  cbn [alone]. unfold ret. cbn. by destruct (alone k n9 w9).
Qed.

Lemma tryClaim_alone_ok a k n w :
  ∃ claimed n' w', tryClaimTask workerID interval a n w = (Ok claimed, (n', w')) ∧
    alone (tryClaim cfg workerID a k) n w
    = (executions (option_list claimed) ++ (alone k n' w').1, (alone k n' w').2).
Proof.
  rewrite tryClaim_alone. unfold and_then, bind, ret.
  pose proof (tryClaimTask_run workerID interval a n w) as Hrun.
  destruct (tryClaimTask _ _ _ n w) as [[claimed|e] [n' w']]; [|done].
  exists claimed, n', w'. split; [done|]. by destruct (alone k n' w').
Qed.

Lemma claims_alone agents : ∀ acc n w, ∃ ids nw,
  for_each agents acc (λ spawned agentType,
    current <- getCurrentTask ;;
    match current with
    | Some _ => ret spawned
    | None => claimed <- tryClaimTask workerID interval agentType ;;
              ret (spawned ++ option_list claimed)
    end) n w = (Ok (acc ++ ids), nw) ∧
  alone (foldr (claimWhenIdle cfg workerID) Return agents) n w = (executions ids, nw).
Proof.
  induction agents as [|a agents IH]; intros acc n w; cbn [for_each foldr claimWhenIdle alone].
  { exists [], (n, w). by rewrite app_nil_r. }
  unfold bind at 1, bind at 1, getCurrentTask at 1. destruct (w_current w) as [id|].
  { apply IH. }
  destruct (tryClaim_alone_ok a (foldr (claimWhenIdle cfg workerID) Return agents) n w)
    as (claimed & n' & w' & Hc & ->).
  unfold bind at 1. rewrite Hc.
  destruct (IH (acc ++ option_list claimed) n' w') as (ids & nw & Hf & Ha).
  exists (option_list claimed ++ ids), nw. rewrite Ha. cbn. split.
  - rewrite app_assoc. exact Hf.
  - unfold executions. by rewrite fmap_app.
Qed.

(** A tick of the poll timer, run alone, is [Worker.poll]; *)
Lemma poll_alone n w :
  ∃ ids nw, poll workerID interval n w = (Ok ids, nw) ∧
    alone (poll_tick cfg workerID) n w = (executions ids, nw).
Proof.
  destruct (w_current w) as [id|] eqn:Hw.
  - exists [], (n, w). unfold poll, bind, getCurrentTask. cbn [alone poll_tick]. by rewrite Hw.
  - destruct (claims_alone [AgentTypePlanner; AgentTypeResearcher; AgentTypeCoder;
      AgentTypeReviewer] [] n w) as (ids & nw & Hf & Ha).
    exists ids, nw. split.
    + unfold poll, bind at 1, getCurrentTask at 1. rewrite Hw. exact Hf.
    + rewrite <- Ha. cbn [alone poll_tick foldr claimWhenIdle]. by rewrite Hw.
Qed.

(** and an execution, run alone, is [Worker.executeTask]. *)
Lemma release_alone n w :
  alone release n w = ([], (releaseTask workerID interval n w).2).
Proof.
  unfold releaseTask, setCurrentTask, bind. cbn [alone release].
  destruct (notify_ok (Current_task None) n (w <| w_current := None |>)) as (n1 & w1 & H1).
  rewrite H1. cbn [notify] in H1. rewrite H1. cbn [alone].
  destruct (notify_ok (Beat None) n1 w1) as (n2 & w2 & H2).
  rewrite H2. cbn [notify] in H2. by rewrite H2.
Qed.
Lemma execute_alone id n w :
  alone (execute cfg workerID id) n w
  = ([], (executeTask cfg workerID interval runner id n w).2).
Proof.
  unfold executeTask, executed. cbn [alone execute]. unfold bind at 1.
  unfold on_sys at 1 2, bind at 1.
  destruct (loadTask workerID id n (w_sys w)) as [[[task|]|e] [n1 s1]] eqn:Hl; cbn [alone].
  - unfold on_sys. cbn [w_sys update].
    destruct (settleTask_total cfg workerID task id (runner task) n1 s1) as (u & n2 & s2 & Hs).
    change (w_sys (w <| w_sys := s1 |>)) with s1. rewrite Hs. apply release_alone.
  - apply release_alone.
  - exfalso. destruct (executed_total cfg workerID runner id n (w_sys w)) as (? & ? & ? & Hx).
    unfold executed, bind in Hx. by rewrite Hl in Hx.
Qed.

(** C18: a worker executes one task at a time: however the ticks of its loop, the executions
    they spawn and everybody else on the two servers interleave, between any two calls or
    accesses to [currentTask], and whatever fails, of a worker that starts idle one execution
    at most is at work, on the task its [currentTask] names; and a task [currentTask] names
    has an execution that clears it when it is through with the task, or one that is
    about to be started.  What interleaves is the code: alone, a tick is [Worker.poll], with the
    executions it hands out, and an execution is [Worker.executeTask]. *)
Theorem one_task_at_a_time n w r :
  w_current w = None → rtc step (MkRun n w (Some Return) []) r →
  (length (executing r) <= 1)%nat ∧
  (∀ id, id ∈ executing r → w_current (run_w r) = Some id) ∧
  (∀ id, w_current (run_w r) = Some id →
    (∃ t, (id, t) ∈ run_jobs r ∧ clears t) ∨ ∃ t, run_loop r = Some t ∧ starts id t) ∧
  (∀ m x, ∃ ids nw, poll workerID interval m x = (Ok ids, nw) ∧
    alone (poll_tick cfg workerID) m x = (executions ids, nw)) ∧
  (∀ id m x, alone (execute cfg workerID id) m x
     = ([], (executeTask cfg workerID interval runner id m x).2)).
Proof.
  intros Hidle Hrun. assert (Hs : sound r).
  { assert (Hinit : sound (MkRun n w (Some Return) [])) by (by apply sound_idle; [|constructor|]).
    revert Hinit. induction Hrun as [|x y z Hstep _ IH]; [done|]. intros Hx. by eapply IH, step_sound. }
  assert (Htail : (∀ m x, ∃ ids nw, poll workerID interval m x = (Ok ids, nw) ∧
    alone (poll_tick cfg workerID) m x = (executions ids, nw)) ∧
    (∀ id m x, alone (execute cfg workerID id) m x
     = ([], (executeTask cfg workerID interval runner id m x).2)))
    by (split; [apply poll_alone|apply execute_alone]).
  unfold executing. destruct Hs as [Hw Hq Hl|id t Hw Hq Hl Hst|id l1 t l2 Hw Hj Ht H1 H2 Hl].
  - rewrite (quiet_at_work _ Hq). split_and!; [cbn; lia|set_solver|congruence|apply Htail..].
  - rewrite (quiet_at_work _ Hq). split_and!; [cbn; lia|set_solver| |apply Htail..].
    intros id' Hid. rewrite Hw in Hid. injection Hid as <-. eauto.
  - rewrite Hj, omap_app. cbn [omap list_omap]. rewrite (quiet_at_work _ H1), (quiet_at_work _ H2).
    split_and!; [| | |apply Htail..].
    + destruct (at_work _); cbn; lia.
    + intros id'. destruct t; cbn; set_solver.
    + intros id' Hid. rewrite Hw in Hid. injection Hid as <-. left. exists t.
      split; [set_solver|done].
Qed.

(** The loop goes on for [k] steps. *)
Fixpoint advance (k : nat) (r : WRun) : WRun :=
  match k, run_loop r with
  | S k, Some t =>
      match act t (run_n r) (run_w r) with
      | Some (t', (n', w'), spawned) => advance k (MkRun n' w' (Some t') (run_jobs r ++ spawned))
      | None => r
      end
  | _, _ => r
  end.
Lemma advance_steps k : ∀ r, rtc step r (advance k r).
Proof.
  induction k as [|k IH]; intros [n w [t|] jobs]; cbn; try done.
  destruct (act t n w) as [[[t' [n' w']] spawned]|] eqn:E; [|done].
  eapply rtc_l; [by apply step_loop|apply IH].
Qed.
End Exclusion.

(** A tick of the poll timer finds the task of the demonstration and starts it. *)
Lemma one_task_at_a_time_witness :
  ∃ r id, rtc (@worker_step (quiet_env 0) demo_cfg "w1" 15 demo_runner)
            (MkRun 40%N idle_demo (Some Return) []) r ∧
    executing r = [id] ∧ w_current (run_w r) = Some id.
Proof.
  set (start := MkRun 40%N idle_demo (Some (@poll_tick (quiet_env 0) demo_cfg "w1")) []).
  set (r := @advance (quiet_env 0) "w1" 15 demo_runner 20 start).
  assert (Hrun : rtc (@worker_step (quiet_env 0) demo_cfg "w1" 15 demo_runner)
                   (MkRun 40%N idle_demo (Some Return) []) r).
  { eapply rtc_l; [apply (@step_tick (quiet_env 0) demo_cfg "w1" 15 demo_runner _ _ _
      (@poll_tick (quiet_env 0) demo_cfg "w1")); left|apply advance_steps]. }
  assert (He : executing r = ["id-7"]) by (vm_compute; reflexivity).
  exists r, "id-7". split; [exact Hrun|]. split; [exact He|].
  destruct (@one_task_at_a_time (quiet_env 0) demo_cfg "w1" 15 demo_runner 40%N idle_demo r
    eq_refl Hrun) as (_ & Hcur & _).
  apply Hcur. rewrite He. left.
Defined.
