(* ===== verification/InitiativeApi.v ===== *)
(** * Initiative handlers ([httpapi/initiatives.go])

    The phases of an initiative (requirements, design, plan, execution): their
    generation, review and approval, the tasks a plan becomes, and launching
    them.  The service that writes the phase documents calls a language model;
    it is a parameter, as is the JSON text codec. *)
From S2P Require Import Prelude GoVal Effects Domain Schema TaskStore Queue.
From S2P Require Import InitiativeStore Policy Http TaskApi Artifacts.

(** ** Parameters *)

(** [orchestratorgo/initiative/service.go:27-30] PhaseArtifacts. *)
Record PhaseArtifacts := MkPhaseArtifacts {
  pa_json : gmap_any;
  pa_markdown : string;
}.
(** The three calls of [initiative.Service] the handlers make. *)
Record PhaseService := MkPhaseService {
  GenerateRequirements : InitiativeResponse → string → res PhaseArtifacts;
  GenerateDesign : InitiativeResponse → gmap_any → string → res PhaseArtifacts;
  GenerateExecutionPlan : InitiativeResponse → gmap_any → string → res PhaseArtifacts;
}.
(** [encoding/json] on objects. *)
Class JsonCodec := {
  json_marshal : gmap_any → string;
  json_unmarshal : string → option gmap_any;
}.

(** ** Requests *)

(** [orchestratorgo/domain/initiative.go:62-68] InitiativeCreateRequest. *)
Record InitiativeCreateRequest := MkInitiativeCreate {
  icr_title : string;
  icr_workspace_root : string;
  icr_goal : string;
  icr_created_by : string;
  icr_execution_mode : string;
}.
(** [orchestratorgo/domain/initiative.go:74-77] InitiativeReviewRequest. *)
Record InitiativeReviewRequest := MkReviewRequest {
  irr_operator : string;
  irr_feedback : string;
}.
(** [orchestratorgo/domain/initiative.go:161-165] InitiativeLaunchTasksRequest. *)
Record InitiativeLaunchTasksRequest := MkLaunchRequest {
  ilr_task_ids : list string;
  ilr_groups : list string;
  ilr_mode_overrides : gmap string string;
}.

(** ** Helpers *)

(** [orchestratorgo/httpapi/initiatives.go:950-956] cleanStringPtr. *)
Definition cleanStringPtr (value : string) : option string :=
  let value := trim_space value in if value =?s "" then None else Some value.

(** [orchestratorgo/httpapi/initiatives.go:958-964] truncateTitle: by bytes. *)
Definition truncateTitle (value : string) (max : Z) : string :=
  let value := trim_space value in
  if (max <=? 0) || (slen value <=? max) then value
  else trim_space (stake (Z.to_nat max) value) +:+ "...".

(** [orchestratorgo/httpapi/initiatives.go:758-769] activeArtifactJSONIDForPhase. *)
Definition activeArtifactJSONIDForPhase (item : InitiativeResponse)
    (phase : InitiativePhase) : option string :=
  match phase with
  | InitiativePhaseRequirements => ini_requirements_artifact item
  | InitiativePhaseDesign => ini_design_artifact item
  | InitiativePhasePlan => ini_plan_artifact item
  | InitiativePhaseExecution => None
  end.

(** [orchestratorgo/httpapi/initiatives.go:978-989] validatePhaseArtifactPayload:
    the error, if any. *)
Definition validatePhaseArtifactPayload (phase : InitiativePhase) (payload : gmap_any) :
    option string :=
  match phase with
  | InitiativePhaseRequirements => ValidateRequirementsPayload payload
  | InitiativePhaseDesign => ValidateDesignPayload payload
  | InitiativePhasePlan => ValidateExecutionPlanPayload payload
  | InitiativePhaseExecution =>
      Some ("phase " +:+ phase_text phase +:+ " does not support artifact validation")
  end.

(** [orchestratorgo/httpapi/initiatives.go:1182-1189] latestReviewArtifactIDsForPhase. *)
Fixpoint latestReviewArtifactIDsForPhase (reviews : list InitiativePhaseReview)
    (phase : InitiativePhase) : option string * option string :=
  match reviews with
  | [] => (None, None)
  | review :: reviews' =>
      if bool_decide (review_phase review = phase)
         && (bool_decide (is_Some (review_json review))
             || bool_decide (is_Some (review_markdown review)))
      then (review_markdown review, review_json review)
      else latestReviewArtifactIDsForPhase reviews' phase
  end.

(** [orchestratorgo/httpapi/initiatives.go:1202-1213] generatedRoleForPhase. *)
Definition generatedRoleForPhase (phase : InitiativePhase) : string :=
  match phase with
  | InitiativePhaseRequirements => "analyst"
  | InitiativePhaseDesign => "architect"
  | InitiativePhasePlan => "planner"
  | InitiativePhaseExecution => "system"
  end.
(** [strings.Title] of a phase. *)
Definition phase_title (phase : InitiativePhase) : string :=
  match phase with
  | InitiativePhaseRequirements => "Requirements"
  | InitiativePhaseDesign => "Design"
  | InitiativePhasePlan => "Plan"
  | InitiativePhaseExecution => "Execution"
  end.

(** [orchestratorgo/httpapi/initiatives.go:869-908] normalizeInitiativeToolRequest:
    the metadata it leaves. *)
Definition set_default (key : string) (v : gval) (m : gmap_any) : gmap_any :=
  if blank (as_string (mget m key)) then <[key := v]> m else m.
Definition default_tool (assigned : string) (toolRequest : gmap_any) : gmap_any :=
  if assigned =?s AgentTypeResearcher then
    set_default "tool" (VStr "research_project") toolRequest
  else if assigned =?s AgentTypeCoder then
    set_default "tool" (VStr "scaffold_project") toolRequest
  else if assigned =?s AgentTypeReviewer then
    set_default "tool" (VStr "review_project") toolRequest
  else toolRequest.
Definition with_project (projectRequest toolRequest : gmap_any) : gmap_any :=
  if decide (projectRequest = ∅) then toolRequest
  else
    let toolRequest := <["project_request" := VMap projectRequest]> toolRequest in
    let toolRequest := toolRequest ∪ projectRequest in
    let parentDirectory := trim_space (as_string (mget projectRequest "parent_directory")) in
    let projectName := trim_space (as_string (mget projectRequest "project_name")) in
    if (parentDirectory =?s "") || (projectName =?s "") then toolRequest
    else set_default "project_root" (VStr (path_join [parentDirectory; projectName]))
           toolRequest.
Definition normalizeInitiativeToolRequest (metadata : gmap_any) (assigned : string) :
    gmap_any :=
  let projectRequest := default ∅ (only_map (mget metadata "project_request")) in
  let toolRequest := default ∅ (only_map (mget metadata "tool_request")) in
  let toolRequest := with_project projectRequest (default_tool assigned toolRequest) in
  let goal := trim_space (as_string (mget metadata "initiative_goal")) in
  let toolRequest :=
    if goal =?s "" then toolRequest else set_default "goal" (VStr goal) toolRequest in
  if as_bool (mget metadata "approval_required") then
    let metadata := <["requires_approval" := VBool true]> metadata in
    let toolRequest :=
      match toolRequest !! "requires_approval" with
      | Some _ => toolRequest
      | None => <["requires_approval" := VBool true]> toolRequest
      end in
    <["tool_request" := VMap toolRequest]> metadata
  else <["tool_request" := VMap toolRequest]> metadata.

(** [orchestratorgo/httpapi/initiatives.go:910-937] selectInitiativeTasks. *)
Definition trimmed_set (l : list string) : list string :=
  filter (λ s, s ≠ "") (trim_space <$> l).
Definition selectInitiativeTasks (items : list InitiativeTaskLink)
    (taskIDs groups : list string) : list InitiativeTaskLink :=
  let taskSet := trimmed_set taskIDs in
  let groupSet := trimmed_set groups in
  match taskSet, groupSet with
  | [], [] => items
  | _, _ =>
      filter (λ item,
        link_task_id item ∈ taskSet ∨
        firstNonEmptyString [derefString (link_launch_group item);
                             derefString (link_epic item)] ∈ groupSet) items
  end.

(** [orchestratorgo/httpapi/initiatives.go:1132-1170] deriveInitiativeExecutionStatusHTTP:
    the store's rule without its exception for superseded tasks. *)
Definition deriveInitiativeExecutionStatusHTTP (current : InitiativeStatus)
    (items : list InitiativeTaskLink) : InitiativeStatus :=
  match items with
  | [] => current
  | _ => derive_verdict current (foldl (derive_step (λ _, false)) start_flags items)
  end.

(** [orchestratorgo/httpapi/initiatives.go:1191-1200] artifactVersion. *)
Definition artifactVersion (artifact : ArtifactResponse) : Z :=
  match mget (artifact_metadata artifact) "version" with
  | VNum m e => if 0 <=? e then m * 10 ^ e else Z.quot m (10 ^ (- e))
  | VInt z => z
  | _ => 0
  end.

(** ** Views *)

(** [orchestratorgo/domain/initiative.go:91-103] InitiativePhaseHistoryEntry and
    InitiativePhaseHistoryResponse. *)
Record InitiativePhaseHistoryEntry := MkHistoryEntry {
  he_review : InitiativePhaseReview;
  he_version : Z;
  he_diff_summary : option string;
  he_artifact_type : option string;
  he_created_at : Z;
}.
Record InitiativePhaseHistory := MkHistory {
  hist_phase : InitiativePhase;
  hist_active_version : Z;
  hist_items : list InitiativePhaseHistoryEntry;
}.

(** [orchestratorgo/httpapi/initiatives.go:1000-1029] buildPhaseHistory. *)
Definition artifact_by_id (artifacts : list ArtifactResponse) (id : string) :
    option ArtifactResponse :=
  last (filter (λ a, trim_space (artifact_id a) = trim_space id) artifacts).
Definition history_entry (artifacts : list ArtifactResponse)
    (review : InitiativePhaseReview) : InitiativePhaseHistoryEntry :=
  match review_json review ≫= artifact_by_id artifacts with
  | Some artifact =>
      MkHistoryEntry review (artifactVersion artifact)
        (cleanStringPtr (as_string (mget (artifact_metadata artifact) "diff_summary")))
        (cleanStringPtr (artifact_type artifact)) (review_created_at review)
  | None => MkHistoryEntry review 0 None None (review_created_at review)
  end.
Definition buildPhaseHistory (item : InitiativeResponse) (phase : InitiativePhase)
    (reviews : list InitiativePhaseReview) (artifacts : list ArtifactResponse) :
    InitiativePhaseHistory :=
  MkHistory phase
    (match activeArtifactJSONIDForPhase item phase ≫= artifact_by_id artifacts with
     | Some artifact => artifactVersion artifact
     | None => 0
     end)
    (history_entry artifacts <$> filter (λ r, review_phase r = phase) reviews).

(** [orchestratorgo/httpapi/initiatives.go:991-998] buildInitiativePhaseHistories. *)
Definition buildInitiativePhaseHistories (item : InitiativeResponse)
    (reviews : list InitiativePhaseReview) (artifacts : list ArtifactResponse) :
    list InitiativePhaseHistory :=
  (λ phase, buildPhaseHistory item phase reviews artifacts)
  <$> [InitiativePhaseRequirements; InitiativePhaseDesign; InitiativePhasePlan].

(** [orchestratorgo/domain/initiative.go:105-112] InitiativeExecutionSummaryResponse. *)
Record InitiativeExecutionSummary := MkSummary {
  sum_backlog_materialized : bool;
  sum_aggregated_status : InitiativeStatus;
  sum_task_count : Z;
  sum_mode_counts : gmap string Z;
  sum_state_counts : gmap string Z;
  sum_pending_manual : Z;
}.

(** [orchestratorgo/httpapi/initiatives.go:1031-1047] buildInitiativeExecutionSummary. *)
Definition count_in (keys : list string) : gmap string Z :=
  foldl (λ m k, <[k := default 0 (m !! k) + 1]> m) ∅ keys.
Definition pending_manual (l : InitiativeTaskLink) : bool :=
  (link_execution_mode l =?s TaskLaunchModeManual)
  && bool_decide (task_state (link_task l) = TaskStateCreated).
Definition buildInitiativeExecutionSummary (item : InitiativeResponse)
    (tasks : list InitiativeTaskLink) : InitiativeExecutionSummary :=
  {| sum_backlog_materialized := negb (bool_decide (tasks = []));
     sum_aggregated_status := deriveInitiativeExecutionStatusHTTP (ini_status item) tasks;
     sum_task_count := Z.of_nat (length tasks);
     sum_mode_counts := count_in ((λ l, trim_space (link_execution_mode l)) <$> tasks);
     sum_state_counts :=
       count_in ((λ l, trim_space (state_text (task_state (link_task l)))) <$> tasks);
     sum_pending_manual := Z.of_nat (length (filter (λ l, pending_manual l = true) tasks)) |}.

(** ** Handlers *)

(** [orchestratorgo/httpapi/initiatives.go:651-654] phaseArtifactIDs. *)
Record phaseArtifactIDs := MkPhaseIDs { pi_markdown : option string; pi_json : option string }.

(** What the endpoints answer with. *)
Inductive InitiativeReply :=
  | ReplyInitiative (i : option InitiativeResponse)
  | ReplyPhase (i : option InitiativeResponse) (artifacts : phaseArtifactIDs)
  | ReplyPlan (i : option InitiativeResponse) (artifacts : phaseArtifactIDs)
      (tasks : list InitiativeTaskLink)
  | ReplyLaunch (i : option InitiativeResponse) (tasks : list TaskResponse)
  | ReplyLink (l : option InitiativeTaskLink)
  | ReplyHistory (h : InitiativePhaseHistory)
  | ReplyInitiatives (l : list InitiativeResponse)
  | ReplyLinks (l : list InitiativeTaskLink)
  | ReplyArtifacts (l : list ArtifactResponse).

Section Handlers.
Context `{Env} `{JsonCodec} (cfg : Config) (service : option PhaseService).

Abbreviation IHandler := (Handler InitiativeReply).

(** [orchestratorgo/httpapi/initiatives.go:52-88] createInitiative. *)
Definition createInitiative (body : option InitiativeCreateRequest) : IHandler :=
  match service, body with
  | None, _ => detail 503 "initiative service is not configured"
  | _, None => detail 400 "invalid JSON body"
  | Some _, Some body =>
      let title := trim_space (icr_title body) in
      let goal := trim_space (icr_goal body) in
      let root := trim_space (icr_workspace_root body) in
      let createdBy := trim_space (icr_created_by body) in
      let title := if title =?s "" then truncateTitle goal 80 else title in
      if (title =?s "") || (goal =?s "") || (root =?s "") then
        detail 400 "title, goal and workspace_root are required"
      else
        item <~ CreateInitiative {|
          ci_title := title;
          ci_workspace_root := root;
          ci_goal := goal;
          ci_created_by := firstNonEmptyString [createdBy; "api"];
          ci_execution_mode :=
            if icr_execution_mode body =?s "" then InitiativeExecutionModeSelective
            else icr_execution_mode body |} ;;
        json 201 (ReplyInitiative item)
  end.

(** [orchestratorgo/httpapi/initiatives.go:39-50] listInitiatives: the query's
    [archived], [limit] (as [parseIntDefault] read it) and [workspace_root]. *)
Definition listInitiatives (archived : string) (limit : Z) (root : string) : IHandler :=
  items <~ ListInitiatives
    (MkInitiativeFilter (equal_fold archived "include") limit (trim_space root)) ;;
  json 200 (ReplyInitiatives items).

(** [orchestratorgo/httpapi/initiatives.go:154-170] getInitiativeArtifacts and
    listInitiativeTasks. *)
Definition getInitiativeArtifacts (initiativeID : string) : IHandler :=
  items <~ ListInitiativeArtifacts initiativeID ;; json 200 (ReplyArtifacts items).
Definition listInitiativeTasks (initiativeID : string) : IHandler :=
  items <~ ListInitiativeTasks initiativeID ;; json 200 (ReplyLinks items).

(** [orchestratorgo/httpapi/initiatives.go:125-152] getInitiativePhaseHistory. *)
Definition getInitiativePhaseHistory (initiativeID phase : string) : IHandler :=
  item <~ GetInitiative initiativeID ;;
  match item with
  | None => detail 404 "initiative not found"
  | Some item =>
      match recognized_phase (trim_space phase) with
      | None => detail 400 "invalid phase"
      | Some phase =>
          reviews <~ ListInitiativePhaseReviews (ini_id item) ;;
          artifacts <~ ListInitiativeArtifacts (ini_id item) ;;
          json 200 (ReplyHistory (buildPhaseHistory item phase reviews artifacts))
      end
  end.

(** ** Phase documents *)

(** [orchestratorgo/httpapi/initiatives.go:718-740] getActiveInitiativeArtifactJSON. *)
Definition artifact_payload (artifact : ArtifactResponse) : option gmap_any :=
  let raw := trim_space (derefString (artifact_content artifact)) in
  let decoded := if raw =?s "" then None else json_unmarshal raw in
  match decoded with
  | Some payload =>
      if decide (payload = ∅) then only_map (mget (artifact_metadata artifact) "payload")
      else Some payload
  | None => only_map (mget (artifact_metadata artifact) "payload")
  end.
Definition getActiveInitiativeArtifactJSON (artifactID : option string) : M Sys gmap_any :=
  match artifactID with
  | None => errorf "required initiative artifact is missing"
  | Some id =>
      if blank id then errorf "required initiative artifact is missing"
      else
        found <- ListArtifactByID (trim_space id) ;;
        match found with
        | None => errorf "initiative artifact not found"
        | Some artifact =>
            match artifact_payload artifact with
            | Some payload => ret payload
            | None => errorf "initiative artifact JSON payload is missing"
            end
        end
  end.

(** [orchestratorgo/httpapi/initiatives.go:656-716] persistInitiativePhaseArtifacts. *)
Definition phase_version (reviews : list InitiativePhaseReview) (phase : InitiativePhase) : Z :=
  1 + Z.of_nat (length (filter (λ r,
    review_phase r = phase ∧ review_decision r = InitiativeReviewGenerated) reviews)).
Definition persistInitiativePhaseArtifacts (item : InitiativeResponse)
    (phase : InitiativePhase) (payload : PhaseArtifacts) (feedback : string) :
    M Sys phaseArtifactIDs :=
  reviews <- ListInitiativePhaseReviews (ini_id item) ;;
  let version := phase_version reviews phase in
  let metaBase : gmap_any := list_to_map
    [("initiative_id", VStr (ini_id item)); ("initiative_phase", VStr (phase_text phase));
     ("version", VInt version)] in
  let* (previousJSON, metaBase) :=
    match activeArtifactJSONIDForPhase item phase with
    | Some activeJSONID =>
        previous <- attempt (getActiveInitiativeArtifactJSON (Some activeJSONID)) ;;
        ret (match previous with Ok p => p | Err _ => ∅ end,
             <["previous_artifact_json_id" := VStr (trim_space activeJSONID)]> metaBase)
    | None => ret (∅, metaBase)
    end in
  let metaBase :=
    if blank feedback then metaBase
    else <["triggering_feedback" := VStr (trim_space feedback)]> metaBase in
  let metaBase :=
    <["diff_summary" := VStr (SummarizeStructuredDiff previousJSON (pa_json payload))]>
      metaBase in
  let metaBase := <["generated_role" := VStr (generatedRoleForPhase phase)]> metaBase in
  let titleBase := ini_title item +:+ " " +:+ phase_title phase +:+ " v" +:+ pretty version in
  mdID <- CreateArtifact (plain_artifact ("initiative_" +:+ phase_text phase +:+ ".md")
    (cleanStringPtr (titleBase +:+ " markdown")) None (cleanStringPtr "text/markdown")
    (cleanStringPtr (pa_markdown payload)) (<["format" := VStr "markdown"]> metaBase)) ;;
  jsonID <- CreateArtifact (plain_artifact ("initiative_" +:+ phase_text phase +:+ ".json")
    (cleanStringPtr (titleBase +:+ " json")) None (cleanStringPtr "application/json")
    (cleanStringPtr (json_marshal (pa_json payload)))
    (<["format" := VStr "json"]> (<["payload" := VMap (pa_json payload)]> metaBase))) ;;
  ret (MkPhaseIDs (Some mdID) (Some jsonID)).

(** [orchestratorgo/httpapi/initiatives.go:742-756] updateInitiativeActiveArtifacts. *)
Definition updateInitiativeActiveArtifacts (item : InitiativeResponse)
    (phase : InitiativePhase) (status : InitiativeStatus) (ids : phaseArtifactIDs) :
    M Sys (option InitiativeResponse) :=
  UpdateInitiative (ini_id item)
    (MkUpdateInitiative (Some status) (Some phase)
       (match phase with InitiativePhaseRequirements => pi_json ids | _ => None end)
       (match phase with InitiativePhaseDesign => pi_json ids | _ => None end)
       (match phase with InitiativePhasePlan => pi_json ids | _ => None end) None).

(** [orchestratorgo/httpapi/initiatives.go:172-283] advanceInitiative: a body that is
    empty is allowed, [None] is one that is not JSON. The [http.StatusBadGateway] is
    the generator's error. *)
Definition initiative_service_actor : string := "initiative-service".
Definition advance_to (item : InitiativeResponse) (phase : InitiativePhase)
    (status : InitiativeStatus) (generated : res PhaseArtifacts) (feedback : string) :
    IHandler :=
  match generated with
  | Err e => detail 502 (error_text e)
  | Ok payload =>
      artifacts <~ persistInitiativePhaseArtifacts item phase payload feedback ;;
      _ <~ CreateInitiativePhaseReview
        (MkCreateReview (ini_id item) phase InitiativeReviewGenerated
           (cleanStringPtr feedback) (Some initiative_service_actor)
           (pi_markdown artifacts) (pi_json artifacts)) ;;
      updated <~ updateInitiativeActiveArtifacts item phase status artifacts ;;
      json 200 (ReplyPhase updated artifacts)
  end.
Definition advanceInitiative (initiativeID : string) (feedback : option string) : IHandler :=
  match service, feedback with
  | None, _ => detail 503 "initiative service is not configured"
  | _, None => detail 400 "invalid JSON body"
  | Some svc, Some feedback =>
      item <~ GetInitiative initiativeID ;;
      match item with
      | None => detail 404 "initiative not found"
      | Some item =>
          match ini_current_phase item with
          | InitiativePhaseRequirements =>
              advance_to item InitiativePhaseRequirements InitiativeStatusRequirementsReview
                (GenerateRequirements svc item feedback) feedback
          | InitiativePhaseDesign =>
              requirements <- attempt
                (getActiveInitiativeArtifactJSON (ini_requirements_artifact item)) ;;
              match requirements with
              | Err e => detail 400 (error_text e)
              | Ok requirements =>
                  advance_to item InitiativePhaseDesign InitiativeStatusDesignReview
                    (GenerateDesign svc item requirements feedback) feedback
              end
          | InitiativePhasePlan =>
              detail 400 ("use /initiatives/{id}/tasks/generate to build the execution plan "
                          +:+ "and task backlog")
          | InitiativePhaseExecution =>
              detail 400 "initiative cannot be advanced from the current phase"
          end
      end
  end.

(** [orchestratorgo/httpapi/initiatives.go:293-417] resolveInitiativePhase. *)
Definition next_phase (approve : bool) (phase : InitiativePhase) :
    option (InitiativeStatus * InitiativePhase) :=
  match phase, approve with
  | InitiativePhaseRequirements, true =>
      Some (InitiativeStatusDesignDraft, InitiativePhaseDesign)
  | InitiativePhaseDesign, true => Some (InitiativeStatusPlanDraft, InitiativePhasePlan)
  | InitiativePhasePlan, true =>
      Some (InitiativeStatusExecutionReady, InitiativePhaseExecution)
  | InitiativePhaseRequirements, false =>
      Some (InitiativeStatusRequirementsDraft, InitiativePhaseRequirements)
  | InitiativePhaseDesign, false =>
      Some (InitiativeStatusDesignDraft, InitiativePhaseDesign)
  | InitiativePhasePlan, false => Some (InitiativeStatusPlanDraft, InitiativePhasePlan)
  | InitiativePhaseExecution, _ => None
  end.
Definition resolveInitiativePhase (initiativeID phase : string)
    (body : option InitiativeReviewRequest) (approve : bool) : IHandler :=
  match body with
  | None => detail 400 "invalid JSON body"
  | Some body =>
      item <~ GetInitiative initiativeID ;;
      match item with
      | None => detail 404 "initiative not found"
      | Some item =>
          match recognized_phase (trim_space phase) with
          | None => detail 400 "invalid phase"
          | Some phase =>
              if negb (bool_decide (ini_current_phase item = phase))
                 && negb (bool_decide (phase = InitiativePhasePlan)
                          && bool_decide (ini_status item = InitiativeStatusPlanReview))
              then detail 409 "phase does not match initiative current phase"
              else
                reviews <~ ListInitiativePhaseReviews (ini_id item) ;;
                activePayload <- attempt
                  (getActiveInitiativeArtifactJSON (activeArtifactJSONIDForPhase item phase)) ;;
                match activePayload with
                | Err e => detail 400 (error_text e)
                | Ok activePayload =>
                    match validatePhaseArtifactPayload phase activePayload with
                    | Some msg => detail 409 msg
                    | None =>
                        tasks <~ (if approve && bool_decide (phase = InitiativePhasePlan)
                                  then tasks <- ListInitiativeTasks (ini_id item) ;;
                                       ret (bool_decide (tasks = []))
                                  else ret false) ;;
                        if (tasks : bool) then
                          detail 409 "plan cannot be approved before the backlog is materialized"
                        else
                          let decision := if approve then InitiativeReviewApproved
                                          else InitiativeReviewRejected in
                          let '(activeMarkdownID, activeJSONID) :=
                            latestReviewArtifactIDsForPhase reviews phase in
                          let operator :=
                            firstNonEmptyString [trim_space (irr_operator body); "operator"] in
                          _ <~ CreateInitiativePhaseReview
                            (MkCreateReview (ini_id item) phase decision
                               (cleanStringPtr (irr_feedback body)) (Some operator)
                               activeMarkdownID activeJSONID) ;;
                          match next_phase approve phase with
                          | None =>
                              detail 400 (if approve
                                then "approval is not supported for this phase"
                                else "rejection is not supported for this phase")
                          | Some (nextStatus, nextPhase) =>
                              updated <~ UpdateInitiative (ini_id item)
                                (MkUpdateInitiative (Some nextStatus) (Some nextPhase)
                                   None None None None) ;;
                              json 200 (ReplyInitiative updated)
                          end
                    end
                end
          end
      end
  end.

(** [orchestratorgo/httpapi/initiatives.go:285-291] approveInitiativePhase and
    rejectInitiativePhase. *)
Definition approveInitiativePhase id phase body := resolveInitiativePhase id phase body true.
Definition rejectInitiativePhase id phase body := resolveInitiativePhase id phase body false.

(** ** From the plan to tasks *)

(** [orchestratorgo/httpapi/initiatives.go:771-849] materializeInitiativePlanTasks:
    launch orders count up from 10 by 10 over all epics. *)
Definition plan_steps (payload : gmap_any) : list (string * string * gmap_any) :=
  epic ← map_slice (mget payload "epics");
  let epicName := trim_space (as_string (mget epic "name")) in
  let group := trim_space (as_string (mget epic "group")) in
  (λ taskSpec, (epicName, group, taskSpec)) <$> map_slice (mget epic "tasks").
Definition planned_agent (taskSpec : gmap_any) : string :=
  let assigned := trim_space (as_string (mget taskSpec "suggested_agent")) in
  if assigned =?s "" then AgentTypeCoder else assigned.
Definition planned_target (taskSpec : gmap_any) : string :=
  let target := trim_space (as_string (mget taskSpec "execution_target")) in
  if target =?s "" then ExecutionTargetLocal else target.
Definition planned_mode (taskSpec : gmap_any) : string :=
  firstNonEmptyString [trim_space (as_string (mget taskSpec "execution_mode"));
                       TaskLaunchModeAgentLocal].
Definition planned_metadata (item : InitiativeResponse) (epicName group : string)
    (taskSpec : gmap_any) : gmap_any :=
  let metadata : gmap_any := list_to_map
    [("initiative_id", VStr (ini_id item)); ("initiative_phase_origin", VStr "plan");
     ("workspace_root", VStr (ini_workspace_root item));
     ("definition_of_done", VStr (as_string (mget taskSpec "definition_of_done")));
     ("approval_required", VBool (as_bool (mget taskSpec "approval_required")));
     ("planned_execution_mode",
        VStr (trim_space (as_string (mget taskSpec "execution_mode"))));
     ("launch_group", VStr group); ("epic", VStr epicName);
     ("title", VStr (as_string (mget taskSpec "title")))] in
  let metadata := default ∅ (only_map (mget taskSpec "metadata")) ∪ metadata in
  normalizeInitiativeToolRequest metadata (planned_agent taskSpec).
Definition planned_params (entrypoint : string) (item : InitiativeResponse)
    (taskSpec metadata : gmap_any) (workspace : option string) : CreateTaskParams :=
  let priority := trim_space (as_string (mget taskSpec "priority")) in
  {| ctp_description :=
       firstNonEmptyString [trim_space (as_string (mget taskSpec "description"));
                            trim_space (as_string (mget taskSpec "title"))];
     ctp_metadata := metadata;
     ctp_allowed_capabilities := [];
     ctp_priority := if isSupportedPriority priority then priority else PriorityNormal;
     ctp_assigned_agent := planned_agent taskSpec;
     ctp_planned_agent := Some (planned_agent taskSpec);
     ctp_execution_target := planned_target taskSpec;
     ctp_idempotency_key := None;
     ctp_entrypoint := entrypoint;
     ctp_workspace_path := workspace;
     ctp_parent := None;
     ctp_root := None;
     ctp_initiative := Some (ini_id item);
     ctp_kind := TaskKindPlanStep;
     ctp_queue_on_create := false |}.
Definition create_linked (params : CreateTaskParams)
    (link : string → LinkInitiativeTaskParams) : M Sys (TaskResponse * option InitiativeTaskLink) :=
  task <- CreateTask params ;;
  task <- deref task ;;
  link <- LinkInitiativeTask (link (task_id task)) ;;
  ret (task, link).
Definition materialize_step (item : InitiativeResponse) (launchOrder : Z)
    (step : string * string * gmap_any) : M Sys InitiativeTaskLink :=
  let '(epicName, group, taskSpec) := step in
  let metadata := planned_metadata item epicName group taskSpec in
  workspacePath <- of_res (workspacePath cfg (planned_target taskSpec) metadata) ;;
  created <- create_linked
    (planned_params "initiative:generate" item taskSpec metadata workspacePath)
    (λ taskID, MkLinkParams (ini_id item) taskID "plan" (cleanStringPtr epicName)
       (cleanStringPtr group) (planned_mode taskSpec) launchOrder) ;;
  deref created.2.
Definition by_launch_order : relation InitiativeTaskLink :=
  λ a b, link_launch_order a <= link_launch_order b.
#[export] Instance by_launch_order_dec : RelDecision by_launch_order.
Proof. unfold by_launch_order. apply _. Defined.
Definition materializeInitiativePlanTasks (item : InitiativeResponse) (payload : gmap_any) :
    M Sys (list InitiativeTaskLink) :=
  created <- for_each (imap pair (plan_steps payload)) [] (λ created it,
    link <- materialize_step item (10 * (Z.of_nat it.1 + 1)) it.2 ;;
    ret (created ++ [link])) ;;
  ret (merge_sort by_launch_order created).

(** [orchestratorgo/httpapi/initiatives.go:419-498] generateInitiativeTasks. *)
Definition generateInitiativeTasks (initiativeID : string) (feedback : option string) :
    IHandler :=
  match service, feedback with
  | None, _ => detail 503 "initiative service is not configured"
  | _, None => detail 400 "invalid JSON body"
  | Some svc, Some feedback =>
      item <~ GetInitiative initiativeID ;;
      match item with
      | None => detail 404 "initiative not found"
      | Some item =>
          if negb (bool_decide (ini_status item = InitiativeStatusPlanDraft))
             || negb (bool_decide (ini_current_phase item = InitiativePhasePlan))
          then detail 409
                 "initiative must have approved design before generating the execution plan"
          else
            designJSON <- attempt (getActiveInitiativeArtifactJSON (ini_design_artifact item)) ;;
            match designJSON with
            | Err e => detail 400 (error_text e)
            | Ok designJSON =>
                match GenerateExecutionPlan svc item designJSON feedback with
                | Err e => detail 502 (error_text e)
                | Ok payload =>
                    artifacts <~ persistInitiativePhaseArtifacts item InitiativePhasePlan
                                   payload feedback ;;
                    _ <~ CreateInitiativePhaseReview
                      (MkCreateReview (ini_id item) InitiativePhasePlan
                         InitiativeReviewGenerated (cleanStringPtr feedback)
                         (Some initiative_service_actor)
                         (pi_markdown artifacts) (pi_json artifacts)) ;;
                    updated <~ updateInitiativeActiveArtifacts item InitiativePhasePlan
                                 InitiativeStatusPlanReview artifacts ;;
                    match updated with
                    | None => throw (ErrText "nil pointer dereference")
                    | Some i =>
                        createdTasks <~ materializeInitiativePlanTasks i (pa_json payload) ;;
                        json 200 (ReplyPlan (Some i) artifacts createdTasks)
                    end
                end
            end
      end
  end.

(** ** Launching *)

(** [orchestratorgo/httpapi/initiatives.go:533-568] launchInitiativeTasks: the loop,
    which ends early with a refusal. *)
Fixpoint launch_selected (item : InitiativeResponse) (policy : ExecutionPolicy)
    (overrides : gmap string string) (selected : list InitiativeTaskLink)
    (launched : list TaskResponse) : M Sys (Reply InitiativeReply + list TaskResponse) :=
  match selected with
  | [] => ret (inr launched)
  | link :: rest =>
      let mode := firstNonEmptyString
        [trim_space (default "" (overrides !! link_task_id link));
         trim_space (link_execution_mode link)] in
      if negb (IsRecognizedTaskLaunchMode mode) then
        ret (inl (Detail 400 "invalid execution mode override"))
      else
        match ValidateTaskLaunchAgainstPolicy policy link mode with
        | Some msg => ret (inl (Detail 409 msg))
        | None =>
            moved <- attempt (UpdateInitiativeTaskMode (ini_id item) (link_task_id link) mode) ;;
            match moved with
            | Err e => ret (inl (Detail 500 (error_text e)))
            | Ok _ =>
                retargeted <- attempt (UpdateTaskLaunchMode (link_task_id link) mode) ;;
                match retargeted with
                | Err e => ret (inl (Detail 500 (error_text e)))
                | Ok _ =>
                    if mode =?s TaskLaunchModeManual then
                      launch_selected item policy overrides rest launched
                    else
                      queued <- attempt (QueueTaskForLaunch (link_task_id link)
                        "api:initiative_launch" "Queued from initiative launch") ;;
                      match queued with
                      | Err e => ret (inl (Detail 500 (error_text e)))
                      | Ok None => throw (ErrText "nil pointer dereference")
                      | Ok (Some queuedTask) =>
                          enqueued <-
                            match task_assigned_agent queuedTask with
                            | Some agent =>
                                if task_execution_target queuedTask =?s ExecutionTargetLocal
                                then ret (Ok tt)
                                else attempt (EnqueueTask (task_id queuedTask) agent
                                                (task_priority queuedTask))
                            | None => ret (Ok tt)
                            end ;;
                          match enqueued with
                          | Err _ => ret (inl (Detail 503 "failed to enqueue remote task"))
                          | Ok _ =>
                              launch_selected item policy overrides rest
                                (launched ++ [queuedTask])
                          end
                      end
                end
            end
        end
  end.

(** [orchestratorgo/httpapi/initiatives.go:500-587] launchInitiativeTasks. *)
Definition launchable_status (s : InitiativeStatus) : bool :=
  bool_decide (s ∈ [InitiativeStatusExecutionReady; InitiativeStatusExecuting;
                    InitiativeStatusBlocked]).
Definition launchInitiativeTasks (initiativeID : string)
    (body : option InitiativeLaunchTasksRequest) : IHandler :=
  match body with
  | None => detail 400 "invalid JSON body"
  | Some body =>
      item <~ GetInitiative initiativeID ;;
      match item with
      | None => detail 404 "initiative not found"
      | Some item =>
          if negb (launchable_status (ini_status item)) then
            detail 409 "initiative is not ready for execution"
          else
            allItems <~ ListInitiativeTasks (ini_id item) ;;
            let selected := selectInitiativeTasks allItems (ilr_task_ids body)
                              (ilr_groups body) in
            match selected with
            | [] => detail 400 "no launchable initiative tasks matched the request"
            | _ =>
                let policy := ResolveExecutionPolicy (cfg_workspace_root cfg)
                                (ini_workspace_root item) in
                outcome <- launch_selected item policy (ilr_mode_overrides body) selected [] ;;
                match outcome with
                | inl refusal => reply refusal
                | inr launched =>
                    updated <~ ReconcileInitiativeExecution (ini_id item) ;;
                    json 200 (ReplyLaunch updated launched)
                end
            end
      end
  end.

(** [orchestratorgo/httpapi/initiatives.go:589-649] updateInitiativeTaskMode: the
    body's [execution_mode]. *)
Definition updateInitiativeTaskMode (initiativeID taskID : string) (body : option string) :
    IHandler :=
  match body with
  | None => detail 400 "invalid JSON body"
  | Some mode =>
      let mode := trim_space mode in
      if negb (IsRecognizedTaskLaunchMode mode) then detail 400 "invalid execution_mode"
      else
        link <~ GetInitiativeTaskLink initiativeID taskID ;;
        match link with
        | None => detail 404 "initiative task link not found"
        | Some link =>
            item <~ GetInitiative initiativeID ;;
            match item with
            | None => detail 404 "initiative not found"
            | Some item =>
                let policy := ResolveExecutionPolicy (cfg_workspace_root cfg)
                                (ini_workspace_root item) in
                match ValidateTaskLaunchAgainstPolicy policy link mode with
                | Some msg => detail 409 msg
                | None =>
                    itemLink <~ UpdateInitiativeTaskMode initiativeID taskID mode ;;
                    match itemLink with
                    | None => throw (ErrText "nil pointer dereference")
                    | Some itemLink =>
                        _ <~ UpdateTaskLaunchMode (link_task_id itemLink) mode ;;
                        updated <~ GetInitiativeTaskLink (link_initiative itemLink)
                                     (link_task_id itemLink) ;;
                        ignore (ReconcileInitiativeExecution (link_initiative itemLink)) ;;;
                        json 200 (ReplyLink updated)
                    end
                end
            end
        end
  end.
End Handlers.

(** ** What the handlers may do to the tasks *)
Section HandlerEvolution.
Context `{Env} `{JsonCodec} (cfg : Config) (service : option PhaseService).

Lemma active_json_evolves id : respects evolves (getActiveInitiativeArtifactJSON id).
Proof. unfold getActiveInitiativeArtifactJSON, ListArtifactByID. solve_handler. Qed.
Hint Resolve active_json_evolves : respects.
Lemma GetInitiative_evolves id : respects evolves (GetInitiative id).
Proof. apply respects_query, _. Qed.
Lemma ListReviews_evolves id : respects evolves (ListInitiativePhaseReviews id).
Proof. apply respects_query, _. Qed.
Lemma ListLinks_evolves id : respects evolves (ListInitiativeTasks id).
Proof. apply respects_query, _. Qed.
Lemma GetLink_evolves id t : respects evolves (GetInitiativeTaskLink id t).
Proof. apply respects_query, _. Qed.
Hint Resolve GetInitiative_evolves ListReviews_evolves ListLinks_evolves GetLink_evolves
  : respects.
Lemma persist_evolves item phase payload feedback :
  respects evolves (persistInitiativePhaseArtifacts item phase payload feedback).
Proof. unfold persistInitiativePhaseArtifacts. cbn zeta. solve_handler. Qed.
Hint Resolve persist_evolves : respects.
Lemma active_artifacts_evolves item phase status ids :
  respects evolves (updateInitiativeActiveArtifacts item phase status ids).
Proof. apply UpdateInitiative_evolves. Qed.
Hint Resolve active_artifacts_evolves : respects.

Lemma createInitiative_evolves body : respects evolves (createInitiative service body).
Proof. unfold createInitiative. cbn zeta. solve_handler. Qed.
Lemma advanceInitiative_evolves id feedback :
  respects evolves (advanceInitiative service id feedback).
Proof. unfold advanceInitiative, advance_to. solve_handler. Qed.
Lemma resolveInitiativePhase_evolves id phase body approve :
  respects evolves (resolveInitiativePhase id phase body approve).
Proof. unfold resolveInitiativePhase. cbn zeta. solve_handler. Qed.
Lemma create_linked_evolves params link : respects evolves (create_linked params link).
Proof. unfold create_linked. solve_handler. Qed.
Hint Resolve create_linked_evolves : respects.
Lemma materialize_step_evolves item o step :
  respects evolves (materialize_step cfg item o step).
Proof. unfold materialize_step. cbn zeta. solve_handler. Qed.
Hint Resolve materialize_step_evolves : respects.
Lemma materialize_evolves item payload :
  respects evolves (materializeInitiativePlanTasks cfg item payload).
Proof. unfold materializeInitiativePlanTasks. solve_handler. Qed.
Hint Resolve materialize_evolves : respects.
Lemma generateInitiativeTasks_evolves id feedback :
  respects evolves (generateInitiativeTasks cfg service id feedback).
Proof. unfold generateInitiativeTasks. solve_handler. Qed.
Lemma launch_selected_evolves item policy overrides selected : ∀ launched,
  respects evolves (launch_selected item policy overrides selected launched).
Proof.
  induction selected as [|link rest IH]; intros launched; cbn -[ValidateTaskLaunchAgainstPolicy];
    solve_handler; apply IH.
Qed.
Hint Resolve launch_selected_evolves : respects.
Lemma launchInitiativeTasks_evolves id body :
  respects evolves (launchInitiativeTasks cfg id body).
Proof. unfold launchInitiativeTasks. cbn zeta. solve_handler. Qed.
Lemma updateInitiativeTaskMode_evolves id t body :
  respects evolves (updateInitiativeTaskMode cfg id t body).
Proof. unfold updateInitiativeTaskMode. cbn zeta. solve_handler. Qed.
End HandlerEvolution.
#[export] Hint Resolve createInitiative_evolves advanceInitiative_evolves
  resolveInitiativePhase_evolves generateInitiativeTasks_evolves
  launchInitiativeTasks_evolves updateInitiativeTaskMode_evolves : respects.

(** ** The two derivations of an initiative's status *)

(** The status the API shows for the tasks of an initiative is the one the store
    keeps, unless a cancelled task was superseded by a repair cycle: then the API says
    blocked, whatever the store keeps. *)
Theorem api_status_agrees current items :
  deriveInitiativeExecutionStatusHTTP current items
    = deriveInitiativeExecutionStatus current items ∨
  deriveInitiativeExecutionStatusHTTP current items = InitiativeStatusBlocked ∧
  ∃ l, l ∈ items ∧ task_state (link_task l) = TaskStateCancelled ∧
    superseded_by_repair (link_task l) = true.
Proof.
  destruct items as [|l0 items0]; [by left|]. set (items := l0 :: items0).
  change (deriveInitiativeExecutionStatusHTTP current items) with
    (derive_verdict current (foldl (derive_step (λ _, false)) start_flags items)).
  change (deriveInitiativeExecutionStatus current items) with
    (derive_verdict current (foldl (derive_step superseded_by_repair) start_flags items)).
  destruct (decide (Exists (λ l, task_state (link_task l) = TaskStateCancelled ∧
    superseded_by_repair (link_task l) = true) items)) as [Hex|Hno].
  - right. apply Exists_exists in Hex as (l & Hin & Hc & Hs). split; [|by exists l].
    rewrite derive_verdict_class.
    assert (any_class (λ _, false) CountFailed items = true) as ->; [|done].
    unfold any_class. apply existsb_exists. exists l.
    rewrite <- list_elem_of_In. split; [done|]. apply bool_decide_eq_true.
    unfold link_class. by rewrite Hc.
  - left. rewrite !derive_verdict_class.
    assert (Hany : ∀ c, any_class (λ _, false) c items = any_class superseded_by_repair c items).
    { intros c. unfold any_class. apply not_Exists_Forall in Hno; [|apply _].
      clearbody items. induction Hno as [|l ls Hl _ IH]; [done|]. cbn. rewrite IH. f_equal.
      apply bool_decide_ext. unfold link_class.
      destruct (task_state (link_task l)) eqn:Hst; try done.
      destruct (superseded_by_repair (link_task l)) eqn:Hs; [|done]. by destruct Hl. }
    by rewrite !Hany.
Qed.

(** ** Reviewing a phase *)
Section Reviewing.
Context `{Env} `{JsonCodec}.

(** Initiatives are stored under their own id. *)
Definition ini_keyed (s : Sys) : Prop :=
  ∀ id i, initiatives (pg s) !! id = Some i → ini_id i = id.

(** The document of a phase that is up for review. *)
Definition active_payload (s : Sys) (item : InitiativeResponse) (p : InitiativePhase) :
    option gmap_any :=
  id ← activeArtifactJSONIDForPhase item p;
  if blank id then None else stored_artifact s (trim_space id) ≫= artifact_payload.

Definition decision_of (approve : bool) : InitiativeReviewDecision :=
  if approve then InitiativeReviewApproved else InitiativeReviewRejected.

Record phase_resolved (id : string) (p : InitiativePhase) (approve : bool) (s s' : Sys)
    (item : InitiativeResponse) : Prop := {
  pr_item : initiatives (pg s) !! id = Some item;
  pr_phase : ini_current_phase item = p ∨
    p = InitiativePhasePlan ∧ ini_status item = InitiativeStatusPlanReview;
  pr_document : ∃ payload, active_payload s item p = Some payload ∧
    validatePhaseArtifactPayload p payload = None;
  pr_backlog : approve = true → p = InitiativePhasePlan → initiative_links id s ≠ [];
  pr_review : ∃ review, phase_reviews (pg s') = <[review_id review := review]> (phase_reviews (pg s)) ∧
    phase_reviews (pg s) !! review_id review = None ∧
    (review_initiative review, review_phase review, review_decision review)
      = (id, p, decision_of approve);
  pr_moved : ∃ st' p' now, next_phase approve p = Some (st', p') ∧
    initiatives (pg s') = <[id := apply_update
      (MkUpdateInitiative (Some st') (Some p') None None None None) now item]>
      (initiatives (pg s));
}.

Lemma active_json_inv o n s r n' s' :
  getActiveInitiativeArtifactJSON o n s = (r, (n', s')) →
  s' = s ∧ ∀ payload, r = Ok payload →
    (id ← o; if blank id then None else stored_artifact s (trim_space id) ≫= artifact_payload)
      = Some payload.
Proof.
  unfold getActiveInitiativeArtifactJSON, ListArtifactByID. destruct o as [id|]; cbn.
  2: { intros Hr. run_inv. split; [done|]. by intros ? ?. }
  destruct (blank id).
  { intros Hr. run_inv. split; [done|]. by intros ? ?. }
  intros [(e & Hr & ->)|(found & n1 & s1 & Hr & Hk)]%bind_inv.
  { apply query_state in Hr as ->. split; [done|]. by intros ? ?. }
  apply query_ok in Hr as (-> & -> & ->).
  destruct (stored_artifact s (trim_space id)) as [a|]; cbn.
  2: { run_inv. split; [done|]. by intros ? ?. }
  destruct (artifact_payload a) as [p|]; run_inv; (split; [done|]); intros ? Hp; by simplify_eq.
Qed.

Lemma review_run p n s r n' s' :
  CreateInitiativePhaseReview p n s = (r, (n', s')) →
  initiatives (pg s') = initiatives (pg s) ∧
  ∀ o, r = Ok o → ∃ id now, phase_reviews (pg s) !! id = None ∧
    phase_reviews (pg s') = <[id := new_review p id now]> (phase_reviews (pg s)) ∧
    ∀ i, initiative_links i s' = initiative_links i s.
Proof.
  unfold CreateInitiativePhaseReview. intros Hrun.
  apply bind_inv in Hrun as [(e & Hu & ->)|(id & n1 & s1 & Hu & Hrun)];
    unfold new_uuid in Hu; simplify_eq.
  apply bind_inv in Hrun as [(e & Hi & ->)|(u & n2 & s2 & Hi & Hq)].
  { apply stmt_inv in Hi as [_ [(?&?&?&->)|[_ Hi]]]; [split; [done|by intros ? ?]|].
    case_decide; [simplify_eq; split; [done|by intros ? ?]|].
    case_decide; simplify_eq; split; [done|by intros ? ?]. }
  apply query_state in Hq as ->.
  apply stmt_inv in Hi as [_ [(?&?&?&->)|[_ Hi]]]; [done|].
  case_decide as Hfresh; [by simplify_eq|]. case_decide; simplify_eq.
  split; [done|]. intros o ->. apply eq_None_not_Some in Hfresh. by do 2 eexists.
Qed.

Lemma resolve_run id phase body approve n s r n' s' :
  ini_keyed s → resolveInitiativePhase id phase body approve n s = (r, (n', s')) →
  (initiatives (pg s') = initiatives (pg s) ∧ ∀ b, r ≠ Ok (Json 200 b)) ∨
  ∃ p item, recognized_phase (trim_space phase) = Some p ∧
    phase_resolved id p approve s s' item.
Proof.
  intros Hkey Hrun. unfold resolveInitiativePhase, detail, json in Hrun.
  destruct body as [body|]; [|by run_inv; left].
  apply or_500_inv in Hrun as [(e & Hg & ->)|(o & n1 & s1 & Hg & Hrun)].
  { apply query_state in Hg as ->. by left. }
  apply query_ok in Hg as (-> & -> & ->).
  destruct (initiatives (pg s) !! id) as [item|] eqn:Hitem; [|by run_inv; left].
  pose proof (Hkey _ _ Hitem) as Hid. rewrite Hid in Hrun.
  destruct (recognized_phase (trim_space phase)) as [p|] eqn:Hp; [|by run_inv; left].
  destruct (negb _ && negb _) eqn:Hgate; [by run_inv; left|].
  apply or_500_inv in Hrun as [(e & Hg & ->)|(reviews & n1 & s1 & Hg & Hrun)].
  { apply query_state in Hg as ->. by left. }
  apply query_ok in Hg as (_ & -> & ->).
  unfold bind at 1, attempt at 1 in Hrun.
  destruct (getActiveInitiativeArtifactJSON _ _ s) as [active [n2 s2]] eqn:Ha.
  apply active_json_inv in Ha as [-> Hactive].
  destruct active as [payload|e]; [|by run_inv; left].
  specialize (Hactive payload eq_refl).
  destruct (validatePhaseArtifactPayload p payload) as [msg|] eqn:Hval; [by run_inv; left|].
  apply or_500_inv in Hrun as [(e & Hg & ->)|(empty & n3 & s3 & Hg & Hrun)].
  { left. split; [|done]. destruct (approve && bool_decide _); [|by run_inv].
    apply bind_inv in Hg as [(? & Hg & _)|(? & ? & ? & _ & Hr)]; [|by run_inv].
    by apply query_state in Hg as ->. }
  assert (s3 = s ∧ (empty = false → approve = true → p = InitiativePhasePlan →
    initiative_links id s ≠ [])) as [-> Hback].
  { destruct (approve && bool_decide (p = InitiativePhasePlan)) eqn:Hab.
    - apply bind_inv in Hg as [(? & _ & ?)|(l & ? & ? & Hg & Hr)]; [done|].
      apply query_ok in Hg as (-> & -> & ->). unfold ret in Hr. simplify_eq.
      split; [done|]. intros Hf _ _ Hnil. by rewrite Hnil in Hf.
    - unfold ret in Hg. simplify_eq. split; [done|]. intros _ -> ->.
      by rewrite bool_decide_true in Hab. }
  destruct empty; [by run_inv; left|]. specialize (Hback eq_refl).
  destruct (latestReviewArtifactIDsForPhase reviews p) as [md js].
  apply or_500_inv in Hrun as [(e & Hr & ->)|(o & n4 & s4 & Hr & Hrun)].
  { apply review_run in Hr as [-> _]. by left. }
  apply review_run in Hr as [Hini Hrev].
  destruct (Hrev o eq_refl) as (rid & now & Hfresh & Hrevs & _). clear Hrev.
  destruct (next_phase approve p) as [[st' p']|] eqn:Hnext; [|run_inv; by left].
  assert (Hdone : ∀ now', initiatives (pg s') =
      alter (apply_update (MkUpdateInitiative (Some st') (Some p') None None None None) now')
        id (initiatives (pg s4)) →
    phase_reviews (pg s') = phase_reviews (pg s4) →
    ∃ q item, Some p = Some q ∧ phase_resolved id q approve s s' item).
  { intros now' Hi Hph. exists p, item. split; [done|]. split; [done| | | | |].
    - apply andb_false_iff in Hgate as [Hg'|Hg']; apply negb_false_iff in Hg'.
      + left. by apply bool_decide_eq_true in Hg'.
      + right. apply andb_prop in Hg' as [H1%bool_decide_eq_true H2%bool_decide_eq_true]. done.
    - exists payload. done.
    - done.
    - eexists (new_review _ rid now). split; [by rewrite Hph, Hrevs|].
      split; [exact Hfresh|]. by destruct approve.
    - exists st', p', now'. split; [done|]. rewrite Hi, Hini.
      apply map_eq. intros k. destruct (decide (k = id)) as [->|Hne].
      + by rewrite lookup_alter_eq, lookup_insert_eq, Hitem.
      + by rewrite lookup_alter_ne, lookup_insert_ne. }
  apply or_500_inv in Hrun as [(e & Hu & ->)|(u & n5 & s5 & Hu & Hrun)].
  - unfold UpdateInitiative in Hu.
    apply bind_inv in Hu as [(e' & Hu & _)|(? & n5 & s5 & Hu & Hq)].
    + left. unfold exec_now in Hu. apply stmt_inv in Hu as [_ [(?&?&?&->)|[_ Hu]]]; [|done].
      split; [done|]. by intros ? ?.
    + right. apply query_state in Hq as ->. unfold exec_now in Hu.
      apply exec_ok in Hu as [-> _]. by eapply Hdone; reflexivity.
  - right. run_inv. unfold UpdateInitiative, exec_now in Hu.
    apply bind_inv in Hu as [(e' & _ & ?)|(? & n6 & s6 & Hu & Hq)]; [done|].
    apply query_state in Hq as ->. apply exec_ok in Hu as [-> _]. by eapply Hdone; reflexivity.
Qed.

(** C26: reviewing a phase. Unless the initiative is left as it was and the answer is
    not a success, the phase is the one the initiative is in (or its plan under
    review), its current document satisfies the phase's contract, a plan being
    approved has tasks, exactly one new review with the decision is recorded, and
    exactly this initiative moves, along the table of phases: forward when
    approved, back to a draft of the same phase when rejected. *)
Theorem resolve_phase_spec id phase body approve n s :
  ini_keyed s →
  match resolveInitiativePhase id phase body approve n s with
  | (r, (_, s')) =>
      (initiatives (pg s') = initiatives (pg s) ∧ ∀ b, r ≠ Ok (Json 200 b)) ∨
      ∃ p item, recognized_phase (trim_space phase) = Some p ∧
        phase_resolved id p approve s s' item
  end.
Proof.
  intros Hkey. destruct (resolveInitiativePhase _ _ _ _ n s) as [r [n' s']] eqn:Hrun.
  by eapply resolve_run.
Qed.
End Reviewing.

(** ** Changing the mode of a planned task *)
Section ModeChange.
Context `{Env} (cfg : Config).

Definition same_reviews : relation Sys := λ s s', phase_reviews (pg s') = phase_reviews (pg s).
#[export] Instance same_reviews_preorder : PreOrder same_reviews.
Proof. split; unfold same_reviews; [done|congruence]. Qed.

Lemma mode_change_same_reviews id t body :
  respects same_reviews (updateInitiativeTaskMode cfg id t body).
Proof.
  unfold updateInitiativeTaskMode, UpdateInitiativeTaskMode, UpdateTaskLaunchMode,
    ReconcileInitiativeExecution, UpdateInitiative, GetInitiative, GetInitiativeTaskLink,
    ListInitiativeTasks. cbn zeta.
  solve_handler; by first [apply respects_exec_now|apply respects_exec]; [apply _|].
Qed.

(** A link of a stored task is listed. *)
Lemma link_listed i t s :
  is_Some (task_links (pg s) !! (i, t)) → is_Some (get_row s t) →
  t ∈ link_task_id <$> initiative_links i s.
Proof.
  intros [l Hl] [row Hrow]. apply list_elem_of_fmap.
  exists (MkLink i t (lr_phase_origin l) (lr_epic l) (lr_launch_group l)
     (lr_execution_mode l) (lr_launch_order l) (lr_created_at l) (scanTask row)).
  split; [done|]. unfold initiative_links. apply elem_of_select. split; [|apply String.eqb_refl].
  apply list_elem_of_omap. exists ((i, t), l). split; [by apply elem_of_map_to_list|].
  unfold join_link. cbn [fst snd]. by rewrite Hrow.
Qed.
Lemma links_nonempty s id t l r :
  task_links (pg s) !! (id, t) = Some l → get_row s t = Some r → initiative_links id s ≠ [].
Proof.
  intros Hl Hr Hnil. assert (t ∈ link_task_id <$> initiative_links id s) as Hin
    by (apply link_listed; by eexists). rewrite Hnil in Hin. by apply not_elem_of_nil in Hin.
Qed.

Lemma reconcile_phase id n s i :
  calm → initiatives (pg s) !! id = Some i → initiative_links id s ≠ [] →
  ∃ i', initiatives (pg (ReconcileInitiativeExecution id n s).2.2) !! id = Some i' ∧
    ini_current_phase i' = InitiativePhaseExecution.
Proof.
  intros Hcalm Hi Hl. unfold ReconcileInitiativeExecution, GetInitiative, ListInitiativeTasks,
    bind at 1. rewrite query_calm, Hi by done. unfold bind at 1. rewrite query_calm by done.
  destruct (initiative_links id s) as [|l ls] eqn:E; [done|].
  unfold UpdateInitiative, bind at 1, exec_now. rewrite exec_calm by done.
  unfold GetInitiative. rewrite query_calm by done. cbn -[deriveInitiativeExecutionStatus].
  rewrite lookup_alter_eq, Hi. by eexists.
Qed.

(** changing the launch mode of a planned task moves the initiative into its
    execution phase, whatever phase it was in, without any review being recorded:
    the approval of a plan can be skipped. *)
Theorem mode_change_skips_review id t mode n s :
  match updateInitiativeTaskMode cfg id t (Some mode) n s with
  | (Ok (Json _ _), (_, s')) =>
      phase_reviews (pg s') = phase_reviews (pg s) ∧
      (calm → ∃ item', initiatives (pg s') !! id = Some item' ∧
         ini_current_phase item' = InitiativePhaseExecution)
  | _ => True
  end.
Proof.
  destruct (updateInitiativeTaskMode _ _ _ _ n s) as [[rep|e] [n' s']] eqn:Hrun; [|done].
  destruct rep as [st body| | |]; try done. split.
  { exact (respects_run (mode_change_same_reviews id t (Some mode)) Hrun). }
  intros Hcalm. unfold updateInitiativeTaskMode, detail, json in Hrun. cbn zeta in Hrun.
  destruct (negb _); [by run_inv|].
  apply or_500_inv in Hrun as [(e & _ & ?)|(link & n1 & s1 & Hg & Hrun)]; [done|].
  unfold GetInitiativeTaskLink in Hg. apply query_ok in Hg as (Hlink & -> & ->).
  destruct link as [link|]; [|by run_inv].
  apply or_500_inv in Hrun as [(e & _ & ?)|(item & n2 & s2 & Hg & Hrun)]; [done|].
  unfold GetInitiative in Hg. apply query_ok in Hg as (Hitem & -> & ->).
  destruct item as [item|]; [|by run_inv].
  destruct (ValidateTaskLaunchAgainstPolicy _ _ _) as [msg|]; [by run_inv|].
  apply or_500_inv in Hrun as [(e & _ & ?)|(o & n3 & s3 & Hu & Hrun)]; [done|].
  unfold UpdateInitiativeTaskMode, GetInitiativeTaskLink in Hu.
  apply bind_inv in Hu as [(? & _ & ?)|(u & n4 & s4 & Hu & Hq)]; [done|].
  apply exec_ok in Hu as [-> ->]. apply query_ok in Hq as (-> & -> & ->).
  cbn in Hrun. rewrite lookup_alter_eq in Hrun.
  destruct (task_links (pg s) !! (id, t)) as [l|] eqn:Hl; [|done]. cbn in Hrun, Hlink.
  unfold join_link in Hrun, Hlink. cbn in Hrun, Hlink.
  unfold get_row in Hrun. destruct (tasks (pg s) !! t) as [r|] eqn:Hr; [|done].
  cbn in Hrun.
  apply or_500_inv in Hrun as [(e & _ & ?)|(u' & n5 & s5 & Hm & Hrun)]; [done|].
  apply or_500_inv in Hrun as [(e & _ & ?)|(upd & n6 & s6 & Hq & Hrun)]; [done|].
  unfold GetInitiativeTaskLink in Hq. apply query_ok in Hq as (_ & -> & ->).
  rewrite ignore_bind in Hrun. unfold ret in Hrun. simplify_eq.
  assert (Hkept : initiatives (pg s5) = initiatives (pg s) ∧
    is_Some (task_links (pg s5) !! (id, t)) ∧ is_Some (get_row s5 t)).
  { unfold UpdateTaskLaunchMode, exec_now in Hm.
    repeat (destruct (_ =?s _) in Hm); [| | |unfold errorf, throw in Hm; done];
      apply exec_ok in Hm as [-> _]; cbn; (split; [done|]);
      rewrite lookup_alter_eq, Hl; (split; [by eexists|]);
      rewrite get_row_update_eq; unfold get_row; cbn; rewrite Hr; by eexists. }
  destruct Hkept as (Hini & [l' Hl'] & [r' Hr']).
  eapply reconcile_phase; [done|by rewrite Hini|by eapply links_nonempty].
Qed.
End ModeChange.

(** ** An initiative up to the review of its plan *)
Definition demo_codec : JsonCodec := {| json_marshal _ := ""; json_unmarshal _ := None |}.
Definition demo_requirements : gmap_any :=
  <["objective" := VStr "log in"]>
    (list_to_map ((λ k, (k, VList [VStr "x"])) <$> requirements_lists)).
Definition demo_design : gmap_any :=
  <["architecture" := VStr "one service"]>
    (list_to_map ((λ k, (k, VStr "x")) <$> design_values)).
Definition demo_plan : gmap_any :=
  {["epics" := VList [VMap (list_to_map
      [("name", VStr "core");
       ("tasks", VList [VMap (list_to_map
          [("title", VStr "form"); ("description", VStr "write the form");
           ("suggested_agent", VStr "coder"); ("execution_mode", VStr "agent_local");
           ("execution_target", VStr "local"); ("definition_of_done", VStr "tests pass")])])])]]}.
Definition demo_service : PhaseService := {|
  GenerateRequirements _ _ := Ok (MkPhaseArtifacts demo_requirements "requirements");
  GenerateDesign _ _ _ := Ok (MkPhaseArtifacts demo_design "design");
  GenerateExecutionPlan _ _ _ := Ok (MkPhaseArtifacts demo_plan "plan");
|}.
Definition demo_review : InitiativeReviewRequest := MkReviewRequest "ana" "".
Definition plan_setup `{Env} : M Sys unit :=
  let _ := demo_codec in
  createInitiative (Some demo_service)
    (Some (MkInitiativeCreate "Login" "/w" "add login" "ana" "")) ;;;
  advanceInitiative (Some demo_service) "id-0" (Some "") ;;;
  approveInitiativePhase "id-0" "requirements" (Some demo_review) ;;;
  advanceInitiative (Some demo_service) "id-0" (Some "") ;;;
  approveInitiativePhase "id-0" "design" (Some demo_review) ;;;
  generateInitiativeTasks demo_cfg (Some demo_service) "id-0" (Some "") ;;;
  ret tt.
Definition plan_demo : Sys := Eval vm_compute in
  (@plan_setup (quiet_env 0) 0%N empty_sys).2.2.
Definition planned_task : string := Eval vm_compute in
  default "" (head (task_id <$> (scanTask <$> rows_of (tasks (pg plan_demo))))).

Definition reviewed_in (s : Sys) (phase : InitiativePhase) (d : InitiativeReviewDecision) : bool :=
  existsb (λ r, bool_decide (review_phase r = phase) && bool_decide (review_decision r = d))
    (rows_of (phase_reviews (pg s))).

(** The plan waits for its review, which nobody has given. *)
Example plan_demo_state :
  (λ i, (ini_status i, ini_current_phase i)) <$> initiatives (pg plan_demo) !! "id-0"
    = Some (InitiativeStatusPlanReview, InitiativePhasePlan) ∧
  reviewed_in plan_demo InitiativePhaseDesign InitiativeReviewApproved = true ∧
  reviewed_in plan_demo InitiativePhasePlan InitiativeReviewApproved = false ∧
  row_state <$> get_row plan_demo planned_task = Some TaskStateCreated.
Proof. split_and!; vm_compute; reflexivity. Qed.

Lemma ini_keyed_by_compute s :
  forallb (λ '(k, i), ini_id i =?s k) (map_to_list (initiatives (pg s))) = true → ini_keyed s.
Proof.
  intros Hall id i Hi. rewrite forallb_forall in Hall.
  apply elem_of_map_to_list, list_elem_of_In in Hi. specialize (Hall _ Hi).
  by apply String.eqb_eq in Hall.
Qed.

Lemma resolve_phase_spec_witness :
  ∃ s', (@resolveInitiativePhase (quiet_env 0) demo_codec "id-0" "plan" (Some demo_review)
           true 200%N plan_demo).2.2 = s' ∧
    ∃ p item, recognized_phase (trim_space "plan") = Some p ∧
      @phase_resolved demo_codec "id-0" p true plan_demo s' item.
Proof.
  assert (Hkey : ini_keyed plan_demo) by (apply ini_keyed_by_compute; vm_compute; reflexivity).
  pose proof (@resolve_phase_spec (quiet_env 0) demo_codec "id-0" "plan" (Some demo_review)
    true 200%N plan_demo Hkey) as Hspec.
  assert (Hok : match @resolveInitiativePhase (quiet_env 0) demo_codec "id-0" "plan"
      (Some demo_review) true 200%N plan_demo with
    | (Ok (Json st _), _) => st =? 200 | _ => false end = true) by (vm_compute; reflexivity).
  destruct (@resolveInitiativePhase (quiet_env 0) demo_codec "id-0" "plan" (Some demo_review)
    true 200%N plan_demo) as [[[st b| | |]|e] [n' s']]; try discriminate Hok.
  apply Z.eqb_eq in Hok as ->. exists s'. split; [reflexivity|].
  destruct Hspec as [[_ Hno]|Hres]; [by destruct (Hno b)|exact Hres].
Defined.

Lemma mode_change_skips_review_witness :
  ∃ s', (@updateInitiativeTaskMode (quiet_env 0) demo_cfg "id-0" planned_task
           (Some "manual") 200%N plan_demo).2.2 = s' ∧
    phase_reviews (pg s') = phase_reviews (pg plan_demo) ∧
    ∃ item', initiatives (pg s') !! "id-0" = Some item' ∧
      ini_current_phase item' = InitiativePhaseExecution.
Proof.
  pose proof (@mode_change_skips_review (quiet_env 0) demo_cfg "id-0" planned_task "manual"
    200%N plan_demo) as Hspec.
  assert (Hok : match @updateInitiativeTaskMode (quiet_env 0) demo_cfg "id-0" planned_task
      (Some "manual") 200%N plan_demo with
    | (Ok (Json _ _), _) => true | _ => false end = true) by (vm_compute; reflexivity).
  destruct (@updateInitiativeTaskMode (quiet_env 0) demo_cfg "id-0" planned_task
    (Some "manual") 200%N plan_demo) as [[[st b| | |]|e] [n' s']]; try discriminate Hok.
  exists s'. split; [reflexivity|]. destruct Hspec as [Hrev Hphase]. split; [exact Hrev|].
  exact (Hphase (quiet_env_calm 0)).
Defined.

(** ** The tasks a plan becomes *)
Section Materializing.
Context `{Env} (cfg : Config).

(** No task is touched, no link is lost, and the links of the tasks there are stay. *)
Definition rows_kept : relation Sys := λ s s',
  (∀ id r, get_row s id = Some r → get_row s' id = Some r) ∧
  (∀ k, is_Some (task_links (pg s) !! k) → is_Some (task_links (pg s') !! k)) ∧
  ∀ k l, is_Some (get_row s k.2) → task_links (pg s) !! k = Some l → task_links (pg s') !! k = Some l.
#[export] Instance rows_kept_preorder : PreOrder rows_kept.
Proof.
  split; unfold rows_kept; [done|]. intros s1 s2 s3 (H1 & L1 & K1) (H2 & L2 & K2).
  split_and!; [auto..|]. intros k l [r Hr] Hl. apply K2; [|apply K1; [by exists r|done]].
  exists r. by apply H1.
Qed.

Lemma Link_effect p n s r n' s' :
  LinkInitiativeTask p n s = (r, (n', s')) →
  tasks (pg s') = tasks (pg s) ∧
  (s' = s ∨ ∃ l, task_links (pg s') = <[(lp_initiative p, lp_task p) := l]> (task_links (pg s))).
Proof.
  unfold LinkInitiativeTask, GetInitiativeTaskLink. intros Hrun.
  apply bind_inv in Hrun as [(e & Hu & ->)|(id & n1 & s1 & Hu & Hrun)];
    unfold new_uuid in Hu; simplify_eq.
  assert (Hi : ∀ r n2 s2, stmt (λ st : Sys,
      if decide (is_Some (initiatives (pg st) !! lp_initiative p)) then
        if decide (is_Some (get_row st (lp_task p))) then
          (Ok tt, with_links (partial_alter (λ old, Some (upsert_link p (uuid n) (clock (N.succ n)) old))
                    (lp_initiative p, lp_task p)) st)
        else (Err (ErrText "violates foreign key constraint"), st)
      else (Err (ErrText "violates foreign key constraint"), st)) (N.succ n) s1 = (r, (n2, s2)) →
    tasks (pg s2) = tasks (pg s1) ∧
    (s2 = s1 ∨ ∃ l, task_links (pg s2) = <[(lp_initiative p, lp_task p) := l]> (task_links (pg s1)))).
  { intros r2 n2 s2 Hi. apply stmt_inv in Hi as [_ [(?&?&?&->)|[_ Hi]]]; [auto|].
    repeat case_decide; simplify_eq; [|auto..]. split; [done|]. right. eexists. cbn.
    by rewrite partial_alter_insert_some_id || (apply map_eq; intros k;
      destruct (decide (k = (lp_initiative p, lp_task p))) as [->|];
      [rewrite lookup_partial_alter_eq, lookup_insert_eq|rewrite lookup_partial_alter_ne, lookup_insert_ne];
      done). }
  apply bind_inv in Hrun as [(e & Hs & ->)|(u & n2 & s2 & Hs & Hq)]; [by eapply Hi|].
  apply query_state in Hq as ->. by eapply Hi.
Qed.
Lemma Create_rows_kept params :
  ctp_queue_on_create params = false → respects rows_kept (CreateTask params).
Proof.
  intros Hq n s r n' s' [[-> _]|(id & Hfresh & _ & -> & _)]%CreateTask_run; [reflexivity|].
  unfold creation. rewrite Hq. split; [|done]. intros id0 r0 Hr. unfold get_row in *; cbn.
  rewrite lookup_insert_ne; [done|congruence].
Qed.
Lemma create_linked_kept params link :
  ctp_queue_on_create params = false → (∀ id, lp_task (link id) = id) →
  respects rows_kept (create_linked params link).
Proof.
  intros Hq Hid n s r n' s' Hrun. unfold create_linked in Hrun.
  apply bind_inv in Hrun as [(e & Hc & ->)|(o & n1 & s1 & Hc & Hrun)].
  { exact (respects_run (Create_rows_kept _ Hq) Hc). }
  pose proof (respects_run (Create_rows_kept _ Hq) Hc) as Hkept.
  apply bind_inv in Hrun as [(e & Hd & ->)|(t & n2 & s2 & Hd & Hrun)].
  { unfold deref in Hd. destruct o; run_inv; done. }
  apply deref_ok in Hd as [-> ->].
  assert (Hl : ∃ m r2 n2' s2', LinkInitiativeTask (link (task_id t)) m s1 = (r2, (n2', s2')) ∧ s' = s2').
  { apply bind_inv in Hrun as [(e & Hl & ->)|(k & n3 & s3 & Hl & Hrun)]; [by eauto 10|].
    unfold ret in Hrun. simplify_eq. eauto 10. }
  destruct Hl as (m & r2 & n2' & s2' & Hl & ->). clear Hrun.
  apply Link_effect in Hl as [Ht Hlinks]. rewrite Hid in Hlinks.
  assert (Hfresh : get_row s (task_id t) = None).
  { apply CreateTask_run in Hc as [[_ [e He]]|(id & Hfresh & _ & -> & [[e He]|Hr])]; [done..|].
    unfold creation in *. rewrite Hq in *.
    unfold get_row in Hr; cbn in Hr. rewrite lookup_insert_eq in Hr. by injection Hr as ->. }
  destruct Hkept as (K1 & K2 & K3). destruct Hlinks as [->|[l Hlinks]]; [done|].
  split_and!.
  - intros id row Hr. unfold get_row in *. rewrite Ht. by apply K1.
  - intros k Hk. rewrite Hlinks. apply K2 in Hk.
    destruct (decide (k = (lp_initiative (link (task_id t)), task_id t))) as [->|];
      [rewrite lookup_insert_eq; by eexists|by rewrite lookup_insert_ne].
  - intros k l0 [row Hr] Hl0. rewrite Hlinks. rewrite lookup_insert_ne; [apply K3; [by exists row|done]|].
    intros <-. change (get_row s (task_id t) = Some row) in Hr. congruence.
Qed.
Definition link_row_is (s : Sys) (p : LinkInitiativeTaskParams) : Prop :=
  ∃ row, task_links (pg s) !! (lp_initiative p, lp_task p) = Some row ∧
    lr_execution_mode row = lp_execution_mode p ∧ lr_launch_order row = lp_launch_order p.
Lemma link_result p n s o n' s' :
  LinkInitiativeTask p n s = (Ok (Some o), (n', s')) →
  link_initiative o = lp_initiative p ∧ link_task_id o = lp_task p ∧
  link_launch_order o = lp_launch_order p ∧ link_execution_mode o = lp_execution_mode p ∧
  link_row_is s' p.
Proof.
  unfold LinkInitiativeTask, GetInitiativeTaskLink. intros Hrun.
  apply bind_inv in Hrun as [(? & _ & ?)|(id & n1 & s1 & Hu & Hrun)]; [done|].
  apply bind_inv in Hrun as [(? & _ & ?)|(u & n2 & s2 & Hi & Hq)]; [done|].
  apply query_ok in Hq as (Ho & -> & ->).
  apply stmt_inv in Hi as [_ [(?&?&?&?)|[_ Hi]]]; [done|].
  repeat case_decide; simplify_eq. cbn in Ho. rewrite lookup_partial_alter_eq in Ho.
  cbn in Ho. destruct (tasks (pg s1) !! lp_task p); simplify_eq/=. split_and!; [done..|].
  eexists. cbn. rewrite lookup_partial_alter_eq. by split.
Qed.

(** A task created and linked is new, and as its parameters say. *)
Lemma create_linked_run params link n s t o n' s' :
  ctp_queue_on_create params = false →
  create_linked params link n s = (Ok (t, o), (n', s')) →
  get_row s (task_id t) = None ∧
  (∃ cid now, get_row s' (task_id t) = Some (new_task_row params (task_id t) cid now) ∧
    t = scanTask (new_task_row params (task_id t) cid now)) ∧
  ∀ l, o = Some l → let p := link (task_id t) in
    link_initiative l = lp_initiative p ∧ link_task_id l = lp_task p ∧
    link_launch_order l = lp_launch_order p ∧ link_execution_mode l = lp_execution_mode p ∧
    link_row_is s' p.
Proof.
  intros Hq Hrun. unfold create_linked in Hrun.
  apply bind_inv in Hrun as [(? & _ & ?)|(o' & n1 & s1 & Hc & Hrun)]; [done|].
  apply bind_inv in Hrun as [(? & _ & ?)|(t' & n2 & s2 & Hd & Hrun)]; [done|].
  apply deref_ok in Hd as [-> ->].
  apply bind_inv in Hrun as [(? & _ & ?)|(k & n3 & s3 & Hl & Hrun)]; [done|].
  unfold ret in Hrun. simplify_eq.
  pose proof (Link_effect _ _ _ _ _ _ Hl) as [Hkept _].
  apply CreateTask_run in Hc as [[_ [e He]]|(id & Hfresh & _ & -> & [[e He]|Hr])]; [done..|].
  unfold creation in *. rewrite Hq in *.
  unfold get_row in Hr; cbn in Hr. rewrite lookup_insert_eq in Hr. injection Hr as ->.
  split_and!; [done| |].
  - do 2 eexists. split; [unfold get_row; rewrite Hkept; cbn; apply lookup_insert_eq|done].
  - intros l ->. exact (link_result _ _ _ _ _ _ Hl).
Qed.

(** What a step of a plan describes. *)
Definition planned_description (taskSpec : gmap_any) : string :=
  firstNonEmptyString [trim_space (as_string (mget taskSpec "description"));
                       trim_space (as_string (mget taskSpec "title"))].

(** Both materialization loops: a step that makes its task, for each plan step. *)
Section Loop.
Variable (mode : gmap_any → string) (item : InitiativeResponse).
Record step_made (s s' : Sys) (it : nat * (string * string * gmap_any))
    (l : InitiativeTaskLink) : Prop := {
  st_link : link_initiative l = ini_id item ∧ link_launch_order l = 10 * (Z.of_nat it.1 + 1) ∧
    link_execution_mode l = mode it.2.2;
  st_fresh : get_row s (link_task_id l) = None;
  st_row : ∃ row, get_row s' (link_task_id l) = Some row ∧ row_state row = TaskStateCreated ∧
    row_assigned_agent row = Some (planned_agent it.2.2) ∧
    row_description row = planned_description it.2.2;
  st_listed : ∃ row, task_links (pg s') !! (ini_id item, link_task_id l) = Some row ∧
    lr_execution_mode row = mode it.2.2 ∧ lr_launch_order row = 10 * (Z.of_nat it.1 + 1);
}.
Lemma step_made_mono s0 s s' s'' it l :
  rows_kept s0 s → step_made s s' it l → rows_kept s' s'' → step_made s0 s'' it l.
Proof.
  intros [H0 _] [Hl Hf (row & Hrow & Hst) (lr & Hlr & Hm)] (Hk & _ & Hk'). split; [done| | |].
  - destruct (get_row s0 (link_task_id l)) as [r|] eqn:Hr; [|done].
    apply H0 in Hr. congruence.
  - exists row. split; [by apply Hk|done].
  - exists lr. split; [|done]. apply Hk'; [by exists row|done].
Qed.

Variable (step : Z → string * string * gmap_any → M Sys InitiativeTaskLink).
Hypothesis (Hkept : ∀ o x, respects rows_kept (step o x)).
Hypothesis (Hmade : ∀ i x n s l n' s',
  step (10 * (Z.of_nat i + 1)) x n s = (Ok l, (n', s')) → step_made s s' (i, x) l).
Lemma materialize_all steps : ∀ created n s out n' s',
  for_each steps created (λ created it,
    link <- step (10 * (Z.of_nat it.1 + 1)) it.2 ;;
    ret (created ++ [link])) n s = (Ok out, (n', s')) →
  rows_kept s s' ∧ ∃ new, out = created ++ new ∧ Forall2 (step_made s s') steps new.
Proof using Hkept Hmade.
  induction steps as [|[i x] steps IH]; intros created n s out n' s' Hrun; cbn in Hrun.
  { unfold ret in Hrun. simplify_eq. split; [reflexivity|]. exists []. by rewrite app_nil_r. }
  apply bind_inv in Hrun as [(? & _ & ?)|(c1 & n1 & s1 & Hstep & Hrun)]; [done|].
  apply bind_inv in Hstep as [(? & _ & ?)|(l & n2 & s2 & Hstep & Hret)]; [done|].
  unfold ret in Hret. simplify_eq. cbn in Hstep.
  pose proof (respects_run (Hkept _ _) Hstep) as Hk. apply Hmade in Hstep.
  apply IH in Hrun as (Hk' & new & -> & Hall). split; [by etrans|].
  exists (l :: new). split; [by rewrite <- app_assoc|]. constructor.
  - eapply step_made_mono; [reflexivity|exact Hstep|exact Hk'].
  - eapply Forall2_impl; [exact Hall|]. intros it y Hm.
    eapply step_made_mono; [exact Hk|exact Hm|reflexivity].
Qed.
End Loop.

(** A step that creates and links its task made it. *)
Lemma create_linked_made mode item params link n s t l n' s' i step :
  ctp_queue_on_create params = false →
  ctp_assigned_agent params = planned_agent step.2 →
  ctp_description params = planned_description step.2 →
  (∀ id, lp_initiative (link id) = ini_id item ∧ lp_task (link id) = id ∧
     lp_launch_order (link id) = 10 * (Z.of_nat i + 1) ∧
     lp_execution_mode (link id) = mode step.2) →
  create_linked params link n s = (Ok (t, Some l), (n', s')) →
  step_made mode item s s' (i, step) l.
Proof.
  intros Hq Ha Hdesc Hlp Hrun.
  apply create_linked_run in Hrun as (Hfresh & (cid & now & Hrow & Ht) & Hl); [|done].
  destruct (Hl l eq_refl) as (Hi & Htask & Ho & Hm & (lr & Hlisted & Hlm & Hlo)).
  destruct (Hlp (task_id t)) as (Ei & Et & Eo & Em). rewrite Et in Htask.
  rewrite Ei, Et in Hlisted. rewrite Em in Hlm. rewrite Eo in Hlo.
  split; rewrite ?Htask; cbn.
  - by rewrite Hi, Ho, Hm, Ei, Eo, Em.
  - done.
  - eexists. split; [exact Hrow|]. split; [done|]. cbn. rewrite Ha, Hdesc. done.
  - by exists lr.
Qed.

Lemma materialize_step_kept item o step :
  respects rows_kept (materialize_step cfg item o step).
Proof.
  unfold materialize_step. cbn zeta. solve_handler. by apply create_linked_kept.
Qed.
Lemma materialize_step_run item i step n s l n' s' :
  materialize_step cfg item (10 * (Z.of_nat i + 1)) step n s = (Ok l, (n', s')) →
  step_made planned_mode item s s' (i, step) l.
Proof.
  intros Hrun. unfold materialize_step in Hrun. destruct step as [[epic group] spec].
  apply bind_inv in Hrun as [(? & _ & ?)|(w & n1 & s1 & Hw & Hrun)]; [done|].
  unfold of_res in Hw. destruct (workspacePath _ _ _) as [w'|]; [|by unfold throw in Hw].
  unfold ret in Hw. simplify_eq.
  apply bind_inv in Hrun as [(? & _ & ?)|([t o] & n2 & s2 & Hc & Hrun)]; [done|].
  apply deref_ok in Hrun as [Ho ->]. cbn in Ho. subst o.
  by eapply create_linked_made; [..|exact Hc].
Qed.

(** Materializing a plan touches no existing task and drops no link, and when it succeeds every
    task the plan describes, in order over all epics, has become exactly one new
    task of its agent, linked to the initiative with its mode and the launch orders
    10, 20, ...: created, and not queued, so nothing of a plan runs by itself. *)
Theorem plan_becomes_tasks item payload n s :
  let '(r, (_, s')) := materializeInitiativePlanTasks cfg item payload n s in
  rows_kept s s' ∧
  match r with
  | Ok links => ∃ created, links ≡ₚ created ∧ Sorted by_launch_order links ∧
      Forall2 (step_made planned_mode item s s') (imap pair (plan_steps payload)) created
  | Err _ => True
  end.
Proof.
  destruct (materializeInitiativePlanTasks _ _ _ n s) as [r [n' s']] eqn:Hrun. split.
  { refine (respects_run _ Hrun). unfold materializeInitiativePlanTasks. solve_respects.
    apply materialize_step_kept. }
  destruct r as [links|e]; [|done]. unfold materializeInitiativePlanTasks in Hrun.
  apply bind_inv in Hrun as [(? & _ & ?)|(created & n1 & s1 & Hall & Hret)]; [done|].
  unfold ret in Hret. simplify_eq.
  apply (materialize_all planned_mode item) in Hall as (_ & new & -> & Hmade);
    [|apply materialize_step_kept|apply materialize_step_run]. exists new.
  split; [apply merge_sort_Permutation|]. split; [|done].
  apply Sorted_merge_sort. intros a b. unfold by_launch_order. lia.
Qed.
End Materializing.

(** ** Launching *)
Section Launching.
Context `{Env} (cfg : Config).

Definition launch_mode (overrides : gmap string string) (link : InitiativeTaskLink) : string :=
  firstNonEmptyString [trim_space (default "" (overrides !! link_task_id link));
                       trim_space (link_execution_mode link)].
Definition mode_permitted (policy : ExecutionPolicy) (mode : string) : Prop :=
  IsRecognizedTaskLaunchMode mode = true ∧ AllowsMode policy (trim_space mode) = true.

(** The link of a task and the target of the task say the mode it is launched under; a
    manual task keeps the target it had in [s]. *)
Record mode_written (s s' : Sys) (initiative task mode : string) : Prop := {
  mw_link : ∃ l, task_links (pg s') !! (initiative, task) = Some l ∧ lr_execution_mode l = mode;
  mw_target : ∃ row, get_row s' task = Some row ∧
    (mode = TaskLaunchModeAgentLocal → row_execution_target row = ExecutionTargetLocal) ∧
    (mode = TaskLaunchModeAgentRemote → row_execution_target row = ExecutionTargetRemote) ∧
    (mode = TaskLaunchModeManual →
     row_execution_target <$> get_row s task = Some (row_execution_target row));
}.

(** Only the tasks of [X] change their link or their target. *)
Definition others_kept (X : list string) : relation Sys := λ s s',
  (∀ k, k.2 ∉ X → task_links (pg s') !! k = task_links (pg s) !! k) ∧
  (∀ id, id ∉ X → row_execution_target <$> get_row s' id = row_execution_target <$> get_row s id) ∧
  ∀ k, lr_launch_order <$> task_links (pg s') !! k = lr_launch_order <$> task_links (pg s) !! k.
#[export] Instance others_kept_preorder X : PreOrder (others_kept X).
Proof.
  split; unfold others_kept; [done|]. intros s1 s2 s3 (L1 & T1 & O1) (L2 & T2 & O2).
  split_and!; intros k; [intros Hk..|].
  - by rewrite L2, L1.
  - by rewrite T2, T1.
  - by rewrite O2, O1.
Qed.
Lemma others_kept_subset X Y s s' :
  (∀ t, t ∈ X → t ∈ Y) → others_kept X s s' → others_kept Y s s'.
Proof. intros Hsub (L & T & O). split_and!; [intros k Hk; by auto..|done]. Qed.
Lemma others_kept_same X s s' :
  task_links (pg s') = task_links (pg s) → tasks (pg s') = tasks (pg s) → others_kept X s s'.
Proof. unfold others_kept, get_row. intros -> ->. done. Qed.
Lemma mode_written_mono s s' s'' i t mode X :
  t ∉ X → mode_written s s' i t mode → others_kept X s' s'' → mode_written s s'' i t mode.
Proof.
  intros Ht [(l & Hl & Hm) (row & Hrow & Htarget)] (L & T & _). split.
  - exists l. by rewrite L.
  - specialize (T t Ht). rewrite Hrow in T. cbn in T.
    apply fmap_Some in T as (row' & Hrow' & E). exists row'. rewrite <-E. done.
Qed.
Lemma mode_written_start s0 s s' i t mode X :
  t ∉ X → others_kept X s0 s → mode_written s s' i t mode → mode_written s0 s' i t mode.
Proof.
  intros Ht (_ & T & _) [Hl (row & Hrow & H1 & H2 & H3)]. split; [done|]. exists row.
  split_and!; [done..|]. intros Hm. rewrite <-T by done. by apply H3.
Qed.

Lemma UpdateMode_others X i t mode :
  t ∈ X → respects (others_kept X) (UpdateInitiativeTaskMode i t mode).
Proof.
  intros Ht. unfold UpdateInitiativeTaskMode, GetInitiativeTaskLink. solve_handler.
  apply respects_exec; [apply _|]. intros s. split_and!; [|done|].
  - intros k Hk. cbn. rewrite lookup_alter_ne; [done|]. intros <-. by destruct Hk.
  - intros k. cbn. destruct (decide ((i, t) = k)) as [<-|Hne].
    + rewrite lookup_alter_eq. by destruct (task_links (pg s) !! (i, t)).
    + by rewrite lookup_alter_ne.
Qed.
Lemma UpdateLaunchMode_others X t mode :
  t ∈ X → respects (others_kept X) (UpdateTaskLaunchMode t mode).
Proof.
  intros Ht. unfold UpdateTaskLaunchMode. solve_handler;
    (apply respects_exec_now; [apply _|]; intros now s; split_and!; [done| |done]; intros id Hid;
     rewrite get_row_update_ne; [done|]; intros ->; by destruct Hid).
Qed.
Lemma QueueTask_others X t actor reason : respects (others_kept X) (QueueTaskForLaunch t actor reason).
Proof.
  intros n s r n' s' [[-> _]|(row & now & id & Hrow & _ & ->)]%QueueTaskForLaunch_run; [reflexivity|].
  split_and!; [done| |done]. intros id' _. destruct (decide (t = id')) as [<-|Hne].
  - rewrite get_row_transition_eq, Hrow. done.
  - by rewrite get_row_transition_ne.
Qed.
Lemma Enqueue_others X t a p : respects (others_kept X) (EnqueueTask t a p).
Proof.
  unfold EnqueueTask. solve_handler; try (apply respects_exec; [apply _|]);
    try (apply respects_exec_now; [apply _|]); intros; by apply others_kept_same.
Qed.
Lemma Reconcile_others X id : respects (others_kept X) (ReconcileInitiativeExecution id).
Proof.
  unfold ReconcileInitiativeExecution, GetInitiative, ListInitiativeTasks, UpdateInitiative.
  solve_handler. by apply respects_exec_now; [apply _|].
Qed.

(** The two updates of a launch write the mode, *)
Lemma modes_updated i t mode n s r1 n1 s1 r2 n2 s2 :
  is_Some (task_links (pg s) !! (i, t)) → is_Some (get_row s t) →
  UpdateInitiativeTaskMode i t mode n s = (Ok r1, (n1, s1)) →
  UpdateTaskLaunchMode t mode n1 s1 = (Ok r2, (n2, s2)) →
  mode_written s s2 i t mode.
Proof.
  intros [l Hl] [row Hrow] H1 H2.
  assert (Hs1 : s1 = with_links (alter (λ l, l <| lr_execution_mode := mode |>) (i, t)) s).
  { unfold UpdateInitiativeTaskMode, GetInitiativeTaskLink in H1. by run_inv. }
  assert (Hlink : task_links (pg s1) !! (i, t) = Some (l <| lr_execution_mode := mode |>)).
  { rewrite Hs1. cbn. by rewrite lookup_alter_eq, Hl. }
  assert (Hrow1 : get_row s1 t = Some row) by by rewrite Hs1.
  unfold UpdateTaskLaunchMode in H2.
  assert (Hdone : ∀ f, (∀ id l, task_links (pg (update_task id f s1)) !! l = task_links (pg s1) !! l) →
    s2 = update_task t f s1 →
    (mode = TaskLaunchModeAgentLocal → row_execution_target (f row) = ExecutionTargetLocal) →
    (mode = TaskLaunchModeAgentRemote → row_execution_target (f row) = ExecutionTargetRemote) →
    (mode = TaskLaunchModeManual → row_execution_target (f row) = row_execution_target row) →
    mode_written s s2 i t mode).
  { intros f Hf -> F1 F2 F3. split.
    - eexists. by rewrite Hf, Hlink.
    - exists (f row). rewrite get_row_update_eq, Hrow1. split_and!; [done..|].
      intros Hm. rewrite Hrow. cbn. by rewrite F3. }
  destruct (String.eqb_spec mode TaskLaunchModeManual) as [->|H0];
    [|destruct (String.eqb_spec mode TaskLaunchModeAgentLocal) as [->|H3];
      [|destruct (String.eqb_spec mode TaskLaunchModeAgentRemote) as [->|H4]; [|by run_inv]]].
  all: unfold exec_now in H2; apply exec_ok in H2 as [-> _];
    (eapply Hdone; [done|reflexivity|by intros ..]).
Qed.

(** The links of an initiative are of different tasks, *)
Lemma initiative_links_nodup i s : NoDup (link_task_id <$> initiative_links i s).
Proof.
  unfold initiative_links, select. rewrite merge_sort_Permutation.
  pose proof (NoDup_fst_map_to_list (task_links (pg s))) as Hnd. revert Hnd.
  induction (map_to_list (task_links (pg s))) as [|[k l] L IH]; intros Hnd; [constructor|].
  cbn [fmap list_fmap fst] in Hnd. apply NoDup_cons in Hnd as [Hk Hnd]. specialize (IH Hnd).
  cbn [omap list_omap]. destruct (join_link s k l) as [x|] eqn:Hx; [|done].
  destruct (link_initiative x =?s i) eqn:Ei.
  2:{ rewrite filter_cons_False; [done|]. by rewrite Ei. }
  rewrite filter_cons_True by done. cbn [fmap list_fmap]. constructor; [|done].
  unfold join_link in Hx. apply fmap_Some in Hx as (row & _ & ->). cbn in *.
  apply String.eqb_eq in Ei. intros (y & Hy & Hin)%list_elem_of_fmap.
  apply list_elem_of_filter in Hin as [Ey%String.eqb_eq Hin].
  apply list_elem_of_omap in Hin as ([k' l'] & Hin & Hj). unfold join_link in Hj.
  apply fmap_Some in Hj as (row' & _ & ->). cbn in Ey, Hy. apply Hk.
  apply list_elem_of_fmap. exists (k', l'). split; [|done]. cbn. destruct k, k'; cbn in *. congruence.
Qed.
(** and rows of both tables are behind them. *)
Lemma initiative_links_rows i s l :
  l ∈ initiative_links i s →
  is_Some (task_links (pg s) !! (i, link_task_id l)) ∧ is_Some (get_row s (link_task_id l)).
Proof.
  unfold initiative_links. intros [Hin Hi%String.eqb_eq]%elem_of_select.
  apply list_elem_of_omap in Hin as ([[i' t] r] & Hin & Hj). unfold join_link in Hj.
  apply fmap_Some in Hj as (row & Hrow & ->). cbn in *. subst i'.
  apply elem_of_map_to_list in Hin. split; [by eexists|by exists row].
Qed.
Lemma selected_sublist items taskIDs groups :
  selectInitiativeTasks items taskIDs groups `sublist_of` items.
Proof.
  unfold selectInitiativeTasks. repeat case_match; try done; apply sublist_filter.
Qed.

Record launched_as (s' : Sys) (link : InitiativeTaskLink) (t : TaskResponse) : Prop := {
  la_state : task_state t = TaskStateQueued;
  la_row : ∃ row, get_row s' (link_task_id link) = Some row ∧ row_id row = task_id t;
  la_queue : ∀ agent, task_assigned_agent t = Some agent →
    task_execution_target t ≠ ExecutionTargetLocal →
    is_Some (agent_queue s' agent !! task_id t);
}.

Lemma launched_as_mono s s' link t :
  launched_as s link t → evolves s s' → queues_grow s s' → launched_as s' link t.
Proof.
  intros [Hst (row & Hrow & Hid) Hq] Hev Hg. split; [done| |].
  - destruct (ev_tasks _ _ Hev _ _ Hrow) as (row' & Hrow' & [Hsame _]).
    exists row'. split; [done|]. unfold identity in Hsame. congruence.
  - intros a Ha Hl. by apply Hg, Hq.
Qed.

Lemma UpdateMode_grows id t mode : respects queues_grow (UpdateInitiativeTaskMode id t mode).
Proof.
  unfold UpdateInitiativeTaskMode, GetInitiativeTaskLink. solve_handler.
  apply respects_exec; [apply _|]. intros s. by apply queues_grow_same.
Qed.
Lemma UpdateLaunchMode_grows t mode : respects queues_grow (UpdateTaskLaunchMode t mode).
Proof.
  unfold UpdateTaskLaunchMode. solve_handler;
    (apply respects_exec_now; [apply _|]; intros now s; by apply queues_grow_same).
Qed.
Lemma QueueTask_grows t actor reason : respects queues_grow (QueueTaskForLaunch t actor reason).
Proof.
  intros n s r n' s' [[-> _]|(row & now & id & _ & _ & ->)]%QueueTaskForLaunch_run;
    [reflexivity|by apply queues_grow_same].
Qed.
Hint Resolve UpdateMode_grows UpdateLaunchMode_grows QueueTask_grows EnqueueTask_queues
  : respects.
Lemma launch_selected_grows item policy overrides selected : ∀ launched,
  respects queues_grow (launch_selected item policy overrides selected launched).
Proof.
  induction selected as [|link rest IH]; intros launched;
    cbn -[ValidateTaskLaunchAgainstPolicy]; solve_handler; apply IH.
Qed.

Lemma queue_result id a reason n s t n' s' :
  QueueTaskForLaunch id a reason n s = (Ok (Some t), (n', s')) →
  task_state t = TaskStateQueued ∧ ∃ row, get_row s' id = Some row ∧ row_id row = task_id t.
Proof.
  intros Hrun. pose proof Hrun as Hr.
  apply QueueTaskForLaunch_run in Hr as [[_ [e He]]|(row & now & tid & Hrow & _ & Hs')]; [done|].
  unfold QueueTaskForLaunch in Hrun.
  apply bind_inv in Hrun as [(? & _ & ?)|(u & n1 & s1 & _ & Hget)]; [done|].
  unfold GetTask in Hget. apply query_ok in Hget as (Ht & <- & ->).
  rewrite Hs', get_row_transition_eq, Hrow in Ht. injection Ht as ->.
  split; [done|]. rewrite Hs', get_row_transition_eq, Hrow. by eexists.
Qed.

Lemma launch_selected_others item policy overrides selected : ∀ launched X,
  (∀ l, l ∈ selected → link_task_id l ∈ X) →
  respects (others_kept X) (launch_selected item policy overrides selected launched).
Proof.
  induction selected as [|link rest IH]; intros launched X HX;
    cbn -[ValidateTaskLaunchAgainstPolicy].
  { apply respects_ret, _. }
  assert (Hlink : link_task_id link ∈ X) by (apply HX; by left).
  assert (Hrest : ∀ l, l ∈ rest → link_task_id l ∈ X) by (intros l Hl; apply HX; by right).
  solve_handler; by auto using UpdateMode_others, UpdateLaunchMode_others, QueueTask_others, Enqueue_others.
Qed.

Lemma launch_selected_run item policy overrides selected : ∀ launched n s out n' s',
  NoDup (link_task_id <$> selected) →
  (∀ l, l ∈ selected → is_Some (task_links (pg s) !! (ini_id item, link_task_id l)) ∧
     is_Some (get_row s (link_task_id l))) →
  launch_selected item policy overrides selected launched n s = (Ok (inr out), (n', s')) →
  Forall (λ l, mode_permitted policy (launch_mode overrides l)) selected ∧
  Forall (λ l, mode_written s s' (ini_id item) (link_task_id l) (launch_mode overrides l)) selected ∧
  ∃ new, out = launched ++ new ∧
    Forall2 (launched_as s')
      (filter (λ l, launch_mode overrides l ≠ TaskLaunchModeManual) selected) new.
Proof.
  induction selected as [|link rest IH]; intros launched n s out n' s' Hnd Hrows Hrun;
    cbn -[ValidateTaskLaunchAgainstPolicy] in Hrun.
  { unfold ret in Hrun. simplify_eq. split_and!; [done..|]. exists []. by rewrite app_nil_r. }
  fold (launch_mode overrides link) in Hrun. set (t0 := link_task_id link) in *.
  cbn [fmap list_fmap] in Hnd. apply NoDup_cons in Hnd as [Hfresh Hnd]. fold t0 in Hfresh.
  destruct (IsRecognizedTaskLaunchMode _) eqn:Hrec; cbn [negb] in Hrun; [|by unfold ret in Hrun].
  destruct (ValidateTaskLaunchAgainstPolicy _ _ _) as [msg|] eqn:Hpol; [by unfold ret in Hrun|].
  assert (Hperm : mode_permitted policy (launch_mode overrides link)).
  { split; [done|]. unfold ValidateTaskLaunchAgainstPolicy, check in Hpol.
    by destruct (AllowsMode _ _). }
  unfold bind at 1, attempt at 1 in Hrun.
  destruct (UpdateInitiativeTaskMode _ _ _ n s) as [[m|e] [n1 s1]] eqn:Hu1; [|by unfold ret in Hrun].
  unfold bind at 1, attempt at 1 in Hrun.
  destruct (UpdateTaskLaunchMode _ _ n1 s1) as [[u|e] [n2 s2]] eqn:Hu2; [|by unfold ret in Hrun].
  destruct (Hrows link ltac:(by left)) as [Hl0 Hr0].
  pose proof (modes_updated _ _ _ _ _ _ _ _ _ _ _ Hl0 Hr0 Hu1 Hu2) as Hwritten.
  apply (respects_run (UpdateMode_others [t0] _ _ _ ltac:(by left))) in Hu1.
  apply (respects_run (UpdateLaunchMode_others [t0] _ _ ltac:(by left))) in Hu2.
  (* the rest of the loop, from a state that differs in this task only. *)
  assert (Hrest : ∀ n4 s4 launched', others_kept [] s2 s4 →
    launch_selected item policy overrides rest launched' n4 s4 = (Ok (inr out), (n', s')) →
    Forall (λ l, mode_permitted policy (launch_mode overrides l)) (link :: rest) ∧
    Forall (λ l, mode_written s s' (ini_id item) (link_task_id l) (launch_mode overrides l)) (link :: rest) ∧
    ∃ new, out = launched' ++ new ∧
      Forall2 (launched_as s') (filter (λ l, launch_mode overrides l ≠ TaskLaunchModeManual) rest) new).
  { intros n4 s4 launched' H4 Hrun4.
    assert (Hs4 : others_kept [t0] s s4).
    { transitivity s1; [done|]. transitivity s2; [done|]. eapply others_kept_subset; [|exact H4].
      intros t Ht. by apply not_elem_of_nil in Ht. }
    pose proof (launch_selected_others item policy overrides rest launched'
      (link_task_id <$> rest) ltac:(intros l Hl; by apply list_elem_of_fmap_2)) as Hoth.
    apply (λ H, respects_run H Hrun4) in Hoth.
    assert (Hne : ∀ l, l ∈ rest → link_task_id l ∉ [t0]).
    { intros l Hl E%list_elem_of_singleton. apply Hfresh. rewrite <-E. by apply list_elem_of_fmap_2. }
    apply IH in Hrun4 as (Hall & Hmodes & new & -> & Hnew); [|done|].
    - split_and!; [by constructor| |by exists new]. constructor.
      + eapply (mode_written_mono s s4); [exact Hfresh| |exact Hoth].
        eapply (mode_written_mono s s2); [apply not_elem_of_nil|exact Hwritten|exact H4].
      + apply Forall_forall. intros l Hl. rewrite Forall_forall in Hmodes.
        eapply mode_written_start; [by apply Hne|exact Hs4|by apply Hmodes].
    - intros l Hl. destruct (Hrows l ltac:(by right)) as [[x Hx] [y Hy]].
      destruct Hs4 as (L & T & _). split; [rewrite L; [by exists x|by apply Hne]|].
      specialize (T _ (Hne l Hl)). rewrite Hy in T. apply fmap_Some in T as (z & -> & _). by eexists. }
  destruct (String.eqb_spec (launch_mode overrides link) TaskLaunchModeManual) as [Hm|Hm].
  { apply Hrest in Hrun as (Hall & Hmodes & new & -> & Hnew); [|reflexivity]. split_and!; [done..|].
    exists new. split; [done|]. by rewrite filter_cons_False by (by intros ?). }
  unfold bind at 1, attempt at 1 in Hrun.
  destruct (QueueTaskForLaunch _ _ _ n2 s2) as [[[t|]|e] [n3 s3]] eqn:Hq;
    [|by unfold throw in Hrun|by unfold ret in Hrun].
  pose proof (respects_run (QueueTask_others [] _ _ _) Hq) as Hoq.
  apply queue_result in Hq as (Hst & row & Hrow & Hid).
  apply bind_inv in Hrun as [(? & _ & ?)|(enq & n4 & s4 & Henq & Hrun)]; [done|].
  destruct enq as [u'|e]; [|by unfold ret in Hrun].
  assert (launched_as s4 link t ∧ others_kept [] s3 s4) as [Hla Hoe].
  { destruct (task_assigned_agent t) as [agent|] eqn:Ha;
      [|unfold ret in Henq; simplify_eq; split; [|done];
        split; [done|by eexists|by intros ? Hx; rewrite Ha in Hx]].
    destruct (String.eqb_spec (task_execution_target t) ExecutionTargetLocal) as [Hl|Hl].
    { unfold ret in Henq. simplify_eq. split; [|done]. split; [done|by eexists|]. by intros ? _ Hx. }
    unfold attempt in Henq. destruct (EnqueueTask _ _ _ n3 s3) as [res [n5 s5]] eqn:E.
    simplify_eq. split; [|exact (respects_run (Enqueue_others [] _ _ _) E)].
    unfold EnqueueTask in E. run_inv.
    split; [done|by exists row|]. intros agent' Ha' _. rewrite Ha in Ha'. simplify_eq.
    rewrite agent_queue_insert, decide_True, lookup_insert_eq by done. by eexists. }
  pose proof (respects_run (launch_selected_evolves item policy overrides rest _) Hrun) as Hev.
  pose proof (respects_run (launch_selected_grows item policy overrides rest _) Hrun) as Hgr.
  apply Hrest in Hrun as (Hall & Hmodes & new & -> & Hnew); [|by transitivity s3].
  split_and!; [done..|]. exists (t :: new). split; [by rewrite <- app_assoc|].
  rewrite filter_cons_True by done. constructor; [by eapply launched_as_mono|done].
Qed.

(** A refusal is never a success. *)
Lemma refusal_not_launch item policy overrides selected : ∀ launched n s refusal n' s' st b,
  launch_selected item policy overrides selected launched n s = (Ok (inl refusal), (n', s')) →
  refusal ≠ Json st b.
Proof.
  induction selected as [|link rest IH]; intros launched n s refusal n' s' st b Hrun;
    cbn -[ValidateTaskLaunchAgainstPolicy] in Hrun; [by unfold ret in Hrun|].
  repeat match type of Hrun with
  | ret _ _ _ = _ => unfold ret in Hrun; by simplify_eq
  | throw _ _ _ = _ => by unfold throw in Hrun
  | launch_selected _ _ _ _ _ _ _ = _ => by eapply IH
  | bind _ _ _ _ = _ =>
      apply bind_inv in Hrun as [(? & _ & ?)|(? & ? & ? & _ & Hrun)]; [done|]
  | (match ?x with _ => _ end) _ _ = _ => destruct x
  end.
Qed.

Lemma reconcile_initiative_same_redis id :
  respects same_redis (ReconcileInitiativeExecution id).
Proof.
  unfold ReconcileInitiativeExecution, GetInitiative, ListInitiativeTasks, UpdateInitiative.
  solve_respects. by apply respects_exec_now; [apply _|].
Qed.

End Launching.
#[export] Hint Resolve UpdateMode_grows UpdateLaunchMode_grows QueueTask_grows
  EnqueueTask_queues : respects.
