(* ===== verification/Autonomous.v ===== *)
(** * Autonomous initiatives ([initiative/autonomous.go])

    One call takes a goal through all phases of an initiative: it writes the
    requirements, the design and the plan, makes tasks of the plan and launches
    them.  The generator of the phase documents and the JSON text codec are the
    parameters of [InitiativeApi]. *)
From S2P Require Import Prelude GoVal Effects Domain Schema TaskStore Queue.
From S2P Require Import InitiativeStore Policy Http TaskApi Artifacts InitiativeApi.

(** ** Data *)

(** [orchestratorgo/domain/initiative.go:171-178] AutonomousInitiativeRequest. *)
Record AutonomousInitiativeRequest := MkAutonomous {
  aut_surface : string;
  aut_workspace_alias : string;
  aut_workspace_root : string;
  aut_goal : string;
  aut_operator : string;
  aut_auto_approve : bool;
}.
(** [orchestratorgo/domain/initiative.go:180-189] AutonomousRunResult. *)
Record AutonomousRunResult := MkRun {
  run_initiative : string;
  run_workspace_root : string;
  run_status : InitiativeStatus;
  run_phase : InitiativePhase;
  run_created : Z;
  run_launched : Z;
  run_pending : string;
  run_summary : string;
}.
(** [orchestratorgo/initiative/autonomous.go:41-46] AutonomousRunner: the store is
    always there, the queue and the generator may be nil. *)
Record AutonomousRunner := MkRunner {
  ar_cfg : Config;
  ar_queue : bool;
  ar_generator : option PhaseService;
}.

(** ** Helpers *)

(** [orchestratorgo/initiative/autonomous.go:505-513] firstAutonomousNonEmpty. *)
Definition firstAutonomousNonEmpty (values : list string) : string :=
  trim_space (first_nonblank values).

(** [orchestratorgo/initiative/autonomous.go:482-488] cleanAutonomousStringPtr. *)
Definition cleanAutonomousStringPtr (value : string) : option string :=
  let value := trim_space value in if value =?s "" then None else Some value.

(** [orchestratorgo/initiative/autonomous.go:490-495] autonomousStringValue. *)
Definition autonomousStringValue (value : option string) : string := default "" value.

(** [orchestratorgo/initiative/autonomous.go:497-503] truncateAutonomousTitle. *)
Definition truncateAutonomousTitle (value : string) (max : Z) : string :=
  let value := trim_space value in
  if (slen value <=? max) || (max <=? 0) then value
  else trim_space (stake (Z.to_nat max) value) +:+ "...".

(** [orchestratorgo/initiative/autonomous.go:515-524] mergeAutonomousMaps. *)
Definition mergeAutonomousMaps (base extra : gmap_any) : gmap_any := extra ∪ base.

(** [orchestratorgo/initiative/autonomous.go:469-480] generatedRoleForAutonomousPhase. *)
Definition generatedRoleForAutonomousPhase (phase : InitiativePhase) : string :=
  match phase with
  | InitiativePhaseRequirements => "analyst"
  | InitiativePhaseDesign => "architect"
  | InitiativePhasePlan => "planner"
  | InitiativePhaseExecution => "agent"
  end.

(** [orchestratorgo/initiative/autonomous.go:526-536] autonomousWorkspacePath. *)
Definition autonomousWorkspacePath (orchestratorWorkspaceRoot target : string) :
    option string :=
  if target =?s ExecutionTargetLocal then None
  else
    let base := trim_space orchestratorWorkspaceRoot in
    if base =?s "" then None else Some (path_clean base).

(** [orchestratorgo/initiative/autonomous.go:538-548] autonomousAsBool. *)
Definition autonomousAsBool (value : gval) : bool :=
  match value with
  | VBool b => b
  | VStr s =>
      let typed := trim_space (to_lower s) in
      (typed =?s "true") || (typed =?s "1") || (typed =?s "yes") || (typed =?s "on")
  | _ => false
  end.

(** [orchestratorgo/initiative/autonomous.go:559-573] normalizeAutonomousLaunchMode. *)
Definition normalizeAutonomousLaunchMode (policy : ExecutionPolicy) (mode : string) : string :=
  let mode := trim_space mode in
  if mode =?s TaskLaunchModeManual then mode
  else if AllowsMode policy mode then mode
  else if pol_scope policy =?s "orchestrator_remote" then TaskLaunchModeAgentRemote
  else TaskLaunchModeAgentLocal.

(** [orchestratorgo/initiative/autonomous.go:435-451] deriveAutonomousPendingAction. *)
Definition deriveAutonomousPendingAction (status : InitiativeStatus)
    (tasksCreated tasksLaunched : Z) : string :=
  match status with
  | InitiativeStatusBlocked => "blocked"
  | InitiativeStatusExecutionReady =>
      if (0 <? tasksCreated) && (tasksLaunched =? 0) then "manual_or_policy_gate"
      else "launch_ready"
  | InitiativeStatusExecuting => "running"
  | InitiativeStatusCompleted => "completed"
  | _ => "phase_progress"
  end.

(** [orchestratorgo/initiative/autonomous.go:453-467] formatAutonomousSummary. *)
Definition formatAutonomousSummary (r : AutonomousRunResult) : string :=
  "Autonomous initiative queued" +:+ nl
  +:+ "- Initiative: " +:+ run_initiative r +:+ nl
  +:+ "- Workspace: " +:+ run_workspace_root r +:+ nl
  +:+ "- Status: " +:+ status_text (run_status r) +:+ nl
  +:+ "- Phase: " +:+ phase_text (run_phase r) +:+ nl
  +:+ "- Tasks created: " +:+ pretty (run_created r) +:+ nl
  +:+ "- Tasks launched: " +:+ pretty (run_launched r) +:+ nl
  +:+ "- Pending action: " +:+ run_pending r.

(** ** The run *)
Section Runner.
Context `{Env} `{JsonCodec} (r : AutonomousRunner).

(** [orchestratorgo/initiative/autonomous.go:319-341] getActiveInitiativeArtifactJSON:
    the text of the function of the same name of the handlers. *)
Definition getActiveAutonomousArtifactJSON (artifactID : option string) : M Sys gmap_any :=
  match artifactID with
  | None => errorf "required initiative artifact is missing"
  | Some id =>
      if blank id then errorf "required initiative artifact is missing"
      else
        items <- ListArtifactByID (trim_space id) ;;
        match items with
        | None => errorf "initiative artifact not found"
        | Some artifact =>
            match artifact_payload artifact with
            | Some payload => ret payload
            | None => errorf "initiative artifact JSON payload is missing"
            end
        end
  end.

(** [orchestratorgo/initiative/autonomous.go:289-317] persistInitiativePhaseArtifacts. *)
Definition persistAutonomousPhaseArtifacts (item : InitiativeResponse)
    (phase : InitiativePhase) (payload : PhaseArtifacts) : M Sys phaseArtifactIDs :=
  let metaBase : gmap_any := list_to_map
    [("initiative_id", VStr (ini_id item)); ("initiative_phase", VStr (phase_text phase));
     ("generated_role", VStr (generatedRoleForAutonomousPhase phase))] in
  let title := ini_title item +:+ " " +:+ phase_text phase in
  mdID <- CreateArtifact (plain_artifact ("initiative_" +:+ phase_text phase +:+ ".md")
    (cleanAutonomousStringPtr (title +:+ " markdown")) None
    (cleanAutonomousStringPtr "text/markdown")
    (cleanAutonomousStringPtr (pa_markdown payload))
    (mergeAutonomousMaps metaBase {["format" := VStr "markdown"]})) ;;
  jsonID <- CreateArtifact (plain_artifact ("initiative_" +:+ phase_text phase +:+ ".json")
    (cleanAutonomousStringPtr (title +:+ " json")) None
    (cleanAutonomousStringPtr "application/json")
    (cleanAutonomousStringPtr (json_marshal (pa_json payload)))
    (mergeAutonomousMaps metaBase
       (list_to_map [("format", VStr "json"); ("payload", VMap (pa_json payload))]))) ;;
  ret (MkPhaseIDs (Some mdID) (Some jsonID)).

(** [orchestratorgo/initiative/autonomous.go:276-287] recordGeneratedReview. *)
Definition recordGeneratedReview (initiativeID : string) (phase : InitiativePhase)
    (artifacts : phaseArtifactIDs) : M Sys unit :=
  CreateInitiativePhaseReview
    (MkCreateReview initiativeID phase InitiativeReviewGenerated None
       (Some "initiative-service") (pi_markdown artifacts) (pi_json artifacts)) ;;;
  ret tt.

(** [orchestratorgo/initiative/autonomous.go:343-356] updateInitiativeActiveArtifacts:
    the phase of the initiative stays. *)
Definition updateAutonomousActiveArtifacts (item : InitiativeResponse)
    (phase : InitiativePhase) (status : InitiativeStatus) (ids : phaseArtifactIDs) :
    M Sys (option InitiativeResponse) :=
  UpdateInitiative (ini_id item)
    (MkUpdateInitiative (Some status) None
       (match phase with InitiativePhaseRequirements => pi_json ids | _ => None end)
       (match phase with InitiativePhaseDesign => pi_json ids | _ => None end)
       (match phase with InitiativePhasePlan => pi_json ids | _ => None end) None).

(** [orchestratorgo/initiative/autonomous.go:246-274] approvePhase: the review is
    recorded before the phase is looked at. *)
Definition approvePhase (item : option InitiativeResponse) (phase : InitiativePhase)
    (operator : string) : M Sys (option InitiativeResponse) :=
  item <- deref item ;;
  CreateInitiativePhaseReview
    (MkCreateReview (ini_id item) phase InitiativeReviewApproved None
       (cleanAutonomousStringPtr
          (firstAutonomousNonEmpty [trim_space operator; "autonomous"])) None None) ;;;
  let next nextStatus nextPhase := UpdateInitiative (ini_id item)
    (MkUpdateInitiative (Some nextStatus) (Some nextPhase) None None None None) in
  match phase with
  | InitiativePhaseRequirements => next InitiativeStatusDesignDraft InitiativePhaseDesign
  | InitiativePhaseDesign => next InitiativeStatusPlanDraft InitiativePhasePlan
  | InitiativePhasePlan => next InitiativeStatusExecutionReady InitiativePhaseExecution
  | InitiativePhaseExecution => errorf ("unsupported phase " +:+ phase_text phase)
  end.

(** [orchestratorgo/initiative/autonomous.go:149-164] generateDesignPhase, the part the
    three phases share: what the generator wrote is stored, recorded and made the
    active artifact. *)
Definition store_phase (item : InitiativeResponse) (phase : InitiativePhase)
    (status : InitiativeStatus) (generated : res PhaseArtifacts) :
    M Sys (PhaseArtifacts * option InitiativeResponse) :=
  payload <- of_res generated ;;
  artifacts <- persistAutonomousPhaseArtifacts item phase payload ;;
  recordGeneratedReview (ini_id item) phase artifacts ;;;
  current <- updateAutonomousActiveArtifacts item phase status artifacts ;;
  ret (payload, current).

(** [orchestratorgo/initiative/autonomous.go:122-142] generateRequirementsPhase. *)
Definition generateRequirementsPhase (gen : PhaseService) (item : option InitiativeResponse)
    (req : AutonomousInitiativeRequest) : M Sys (option InitiativeResponse) :=
  item <- deref item ;;
  stored <- store_phase item InitiativePhaseRequirements InitiativeStatusRequirementsReview
    (GenerateRequirements gen item "") ;;
  if aut_auto_approve req
  then approvePhase stored.2 InitiativePhaseRequirements (aut_operator req)
  else ret stored.2.

(** [orchestratorgo/initiative/autonomous.go:144-168] generateDesignPhase. *)
Definition generateDesignPhase (gen : PhaseService) (item : option InitiativeResponse)
    (req : AutonomousInitiativeRequest) : M Sys (option InitiativeResponse) :=
  item <- deref item ;;
  requirements <- getActiveAutonomousArtifactJSON (ini_requirements_artifact item) ;;
  stored <- store_phase item InitiativePhaseDesign InitiativeStatusDesignReview
    (GenerateDesign gen item requirements "") ;;
  if aut_auto_approve req
  then approvePhase stored.2 InitiativePhaseDesign (aut_operator req)
  else ret stored.2.

(** [orchestratorgo/initiative/autonomous.go:358-433] materializeInitiativePlanTasks:
    the metadata of the step wins, and no tool request is derived from it. *)
Definition autonomous_metadata (item : InitiativeResponse) (epicName group : string)
    (taskSpec : gmap_any) : gmap_any :=
  let metadata : gmap_any := list_to_map
    [("initiative_id", VStr (ini_id item)); ("initiative_phase_origin", VStr "plan");
     ("workspace_root", VStr (ini_workspace_root item));
     ("definition_of_done", VStr (as_string (mget taskSpec "definition_of_done")));
     ("approval_required", VBool (autonomousAsBool (mget taskSpec "approval_required")));
     ("planned_execution_mode",
        VStr (trim_space (as_string (mget taskSpec "execution_mode"))));
     ("launch_group", VStr group); ("epic", VStr epicName);
     ("title", VStr (as_string (mget taskSpec "title")));
     ("initiative_goal", VStr (ini_goal item))] in
  default ∅ (only_map (mget taskSpec "metadata")) ∪ metadata.
Definition autonomous_mode (taskSpec : gmap_any) : string :=
  firstAutonomousNonEmpty [trim_space (as_string (mget taskSpec "execution_mode"));
                           TaskLaunchModeAgentLocal].
Definition autonomous_step (item : InitiativeResponse) (launchOrder : Z)
    (step : string * string * gmap_any) : M Sys InitiativeTaskLink :=
  let '(epicName, group, taskSpec) := step in
  created <- create_linked
    (planned_params "initiative:autonomous" item taskSpec
       (autonomous_metadata item epicName group taskSpec)
       (autonomousWorkspacePath (cfg_workspace_root (ar_cfg r)) (planned_target taskSpec)))
    (λ taskID, MkLinkParams (ini_id item) taskID "plan"
       (cleanAutonomousStringPtr epicName) (cleanAutonomousStringPtr group)
       (autonomous_mode taskSpec) launchOrder) ;;
  deref created.2.
Definition materializeAutonomousPlanTasks (item : InitiativeResponse) (payload : gmap_any) :
    M Sys (list InitiativeTaskLink) :=
  for_each (imap pair (plan_steps payload)) [] (λ created it,
    link <- autonomous_step item (10 * (Z.of_nat it.1 + 1)) it.2 ;;
    ret (created ++ [link])).

(** [orchestratorgo/initiative/autonomous.go:170-201] generatePlanTasks. *)
Definition generatePlanTasks (gen : PhaseService) (item : option InitiativeResponse)
    (req : AutonomousInitiativeRequest) : M Sys (Z * option InitiativeResponse) :=
  item <- deref item ;;
  designJSON <- getActiveAutonomousArtifactJSON (ini_design_artifact item) ;;
  stored <- store_phase item InitiativePhasePlan InitiativeStatusPlanReview
    (GenerateExecutionPlan gen item designJSON "") ;;
  current <- deref stored.2 ;;
  createdTasks <- materializeAutonomousPlanTasks current (pa_json stored.1) ;;
  current <- (if aut_auto_approve req
              then approvePhase (Some current) InitiativePhasePlan (aut_operator req)
              else ret (Some current)) ;;
  ret (Z.of_nat (length createdTasks), current).

(** [orchestratorgo/initiative/autonomous.go:203-244] launchGeneratedTasks. *)
Definition autonomous_launch_mode (policy : ExecutionPolicy) (link : InitiativeTaskLink) :
    string :=
  let mode := trim_space (link_execution_mode link) in
  normalizeAutonomousLaunchMode policy
    (if mode =?s "" then TaskLaunchModeAgentLocal else mode).
Definition launch_link (item : InitiativeResponse) (policy : ExecutionPolicy) (launched : Z)
    (link : InitiativeTaskLink) : M Sys Z :=
  let mode := autonomous_launch_mode policy link in
  match ValidateTaskLaunchAgainstPolicy policy link mode with
  | Some msg => errorf msg
  | None =>
      UpdateInitiativeTaskMode (ini_id item) (link_task_id link) mode ;;;
      UpdateTaskLaunchMode (link_task_id link) mode ;;;
      if mode =?s TaskLaunchModeManual then ret launched
      else
        queuedTask <- QueueTaskForLaunch (link_task_id link) "autonomous:initiative_launch"
          "Queued from autonomous initiative" ;;
        queuedTask <- deref queuedTask ;;
        (match task_assigned_agent queuedTask with
         | Some agent =>
             if (task_execution_target queuedTask =?s ExecutionTargetLocal)
                || negb (ar_queue r)
             then ret tt
             else EnqueueTask (task_id queuedTask) agent (task_priority queuedTask)
         | None => ret tt
         end) ;;;
        ret (launched + 1)
  end.
Definition launchGeneratedTasks (item : option InitiativeResponse) :
    M Sys (Z * option InitiativeResponse) :=
  item <- deref item ;;
  allItems <- ListInitiativeTasks (ini_id item) ;;
  let policy := ResolveExecutionPolicy (cfg_workspace_root (ar_cfg r))
                  (ini_workspace_root item) in
  launched <- for_each allItems 0 (launch_link item policy) ;;
  updated <- ReconcileInitiativeExecution (ini_id item) ;;
  ret (launched, updated).

(** [orchestratorgo/initiative/autonomous.go:90-120] advanceAndLaunch. *)
Definition run_result (current : InitiativeResponse) (created launched : Z) :
    AutonomousRunResult :=
  let result := MkRun (ini_id current) (ini_workspace_root current) (ini_status current)
    (ini_current_phase current) created launched
    (deriveAutonomousPendingAction (ini_status current) created launched) "" in
  MkRun (run_initiative result) (run_workspace_root result) (run_status result)
    (run_phase result) created launched (run_pending result)
    (formatAutonomousSummary result).
Definition advanceAndLaunch (gen : PhaseService) (item : option InitiativeResponse)
    (req : AutonomousInitiativeRequest) : M Sys AutonomousRunResult :=
  current <- generateRequirementsPhase gen item req ;;
  current <- generateDesignPhase gen current req ;;
  planned <- generatePlanTasks gen current req ;;
  launched <- launchGeneratedTasks planned.2 ;;
  current <- deref launched.2 ;;
  ret (run_result current planned.1 launched.1).

(** [orchestratorgo/initiative/autonomous.go:62-88] StartFromChannel. *)
Definition StartFromChannel (req : AutonomousInitiativeRequest) : M Sys AutonomousRunResult :=
  match ar_generator r with
  | None => errorf "autonomous runner is not configured"
  | Some gen =>
      let goal := trim_space (aut_goal req) in
      if goal =?s "" then errorf "goal is required"
      else
        let workspaceRoot := trim_space (aut_workspace_root req) in
        let workspaceRoot :=
          if workspaceRoot =?s "" then trim_space (cfg_workspace_root (ar_cfg r))
          else workspaceRoot in
        if workspaceRoot =?s "" then errorf "workspace_root is required"
        else
          item <- CreateInitiative {|
            ci_title := truncateAutonomousTitle goal 72;
            ci_workspace_root := workspaceRoot;
            ci_goal := goal;
            ci_created_by := firstAutonomousNonEmpty
              [trim_space (aut_operator req); trim_space (aut_surface req); "autonomous"];
            ci_execution_mode := InitiativeExecutionModeSelective |} ;;
          advanceAndLaunch gen item req
  end.
End Runner.

(** [orchestratorgo/httpapi/autonomous_http.go:11-31] startAutonomousInitiative: the
    phases are approved whatever the body says. *)
Definition startAutonomousInitiative `{Env} `{JsonCodec} (runner : option AutonomousRunner)
    (body : option AutonomousInitiativeRequest) : Handler AutonomousRunResult :=
  match runner, body with
  | None, _ => detail 501 "autonomous runner is not configured"
  | _, None => detail 400 "invalid JSON body"
  | Some r, Some req =>
      let req := MkAutonomous
        (firstNonEmptyString [trim_space (aut_surface req); "orchestrator.http"])
        (aut_workspace_alias req) (aut_workspace_root req) (aut_goal req)
        (aut_operator req) true in
      result <- attempt (StartFromChannel r req) ;;
      match result with
      | Err e => if decide (e = ErrText "nil pointer dereference") then throw e
                 else detail 400 (error_text e)
      | Ok result => json 202 result
      end
  end.

(** ** What a run does *)
Section RunSpec.
Context `{Env} `{JsonCodec} (r : AutonomousRunner).

Lemma normalize_allowed root workspace mode :
  let policy := ResolveExecutionPolicy root workspace in
  AllowsMode policy (normalizeAutonomousLaunchMode policy mode) = true.
Proof.
  cbn zeta. unfold normalizeAutonomousLaunchMode.
  destruct (String.eqb_spec (trim_space mode) TaskLaunchModeManual) as [->|_].
  { unfold ResolveExecutionPolicy. by destruct (_ && _). }
  destruct (AllowsMode _ (trim_space mode)) eqn:E; [done|]. clear E.
  unfold ResolveExecutionPolicy. by destruct (_ && _).
Qed.

(** No phase becomes approved. *)
Definition no_approval : relation Sys := λ s s', ∀ id v,
  phase_reviews (pg s') !! id = Some v → review_decision v = InitiativeReviewApproved →
  phase_reviews (pg s) !! id = Some v.
#[export] Instance no_approval_preorder : PreOrder no_approval.
Proof. split; [by intros s id v|]. intros s1 s2 s3 H1 H2 id v Hv Hd. eauto. Qed.
Lemma same_reviews_no_approval s s' : same_reviews s s' → no_approval s s'.
Proof. unfold same_reviews, no_approval. by intros ->. Qed.
Lemma respects_no_approval {A} (m : M Sys A) :
  respects same_reviews m → respects no_approval m.
Proof. intros Hm n s x n' s' Hrun. eapply same_reviews_no_approval, Hm, Hrun. Qed.

(** Rows and links also survive what does not touch them. *)
Definition same_tables : relation Sys := λ s s',
  tasks (pg s') = tasks (pg s) ∧ task_links (pg s') = task_links (pg s).
Lemma same_tables_rows s s' : same_tables s s' → rows_kept s s'.
Proof. intros [Ht Hl]. unfold rows_kept, get_row. by rewrite Ht, Hl. Qed.

(** The phases touch neither tasks nor links, and approve only when told to. *)
Definition prepares (auto : bool) : relation Sys := λ s s',
  same_tables s s' ∧ (ini_keyed s → ini_keyed s') ∧ (auto = false → no_approval s s').
#[export] Instance prepares_preorder auto : PreOrder (prepares auto).
Proof.
  split; unfold prepares, same_tables; [done|].
  intros s1 s2 s3 ([-> ->] & K1 & H1) ([-> ->] & K2 & H2). split; [done|].
  split; [auto|]. intros Ha. transitivity s2; auto.
Qed.
Lemma prepares_same auto s s' :
  same_tables s s' → same_reviews s s' → (ini_keyed s → ini_keyed s') → prepares auto s s'.
Proof. intros Ht Hr Hk. split; [done|]. split; [done|]. intros _. by apply same_reviews_no_approval. Qed.
Lemma keyed_with_initiatives f s :
  (∀ id i, f (initiatives (pg s)) !! id = Some i →
     ini_id i = id ∨ ∃ i0, initiatives (pg s) !! id = Some i0 ∧ ini_id i = ini_id i0) →
  ini_keyed s → ini_keyed (with_initiatives f s).
Proof.
  intros Hf Hk id i Hi. destruct (Hf id i Hi) as [?|(i0 & Hi0 & ->)]; [done|by apply Hk].
Qed.

Lemma CreateArtifact_prepares auto p : respects (prepares auto) (CreateArtifact p).
Proof.
  intros n s x n' s' Hrun. unfold CreateArtifact in Hrun.
  unfold bind, new_uuid, stmt, ret in Hrun.
  repeat case_match; simplify_eq; by apply prepares_same.
Qed.
Lemma CreateReview_prepares auto p :
  (auto = false → cr_decision p ≠ InitiativeReviewApproved) →
  respects (prepares auto) (CreateInitiativePhaseReview p).
Proof.
  intros Hd n s x n' s' Hrun. unfold CreateInitiativePhaseReview in Hrun.
  unfold bind, new_uuid, query, stmt, ret in Hrun.
  repeat case_match; simplify_eq; first [by apply prepares_same|split; [done|split; [done|]]];
    intros Ha id v; cbn; (destruct (decide (id = uuid n)) as [->|];
       [rewrite lookup_insert_eq; intros [= <-] Hv; by destruct (Hd Ha)
       |by rewrite lookup_insert_ne]).
Qed.
Lemma UpdateInitiative_prepares auto id p : respects (prepares auto) (UpdateInitiative id p).
Proof.
  intros n s x n' s' Hrun. unfold UpdateInitiative, GetInitiative, exec_now, exec in Hrun.
  unfold bind, query, stmt, ret in Hrun.
  repeat case_match; simplify_eq; apply prepares_same; try done;
    (apply keyed_with_initiatives; intros id' i; destruct (decide (id = id')) as [<-|];
       [rewrite lookup_alter_eq, fmap_Some; intros (i0 & Hi0 & ->); right; by exists i0
       |rewrite lookup_alter_ne by done; intros Hi; right; by exists i]).
Qed.
Lemma CreateInitiative_prepares auto p : respects (prepares auto) (CreateInitiative p).
Proof.
  intros n s x n' s' Hrun. unfold CreateInitiative, GetInitiative in Hrun.
  unfold bind, new_uuid, query, stmt, ret in Hrun.
  repeat case_match; simplify_eq; apply prepares_same; try done;
    (apply keyed_with_initiatives; intros id' i; destruct (decide (uuid n = id')) as [<-|];
       [rewrite lookup_insert_eq; intros [= <-]; by left
       |rewrite lookup_insert_ne by done; intros Hi; right; by exists i]).
Qed.
Hint Resolve CreateArtifact_prepares UpdateInitiative_prepares CreateInitiative_prepares
  : respects.
Lemma active_json_prepares auto o :
  respects (prepares auto) (getActiveAutonomousArtifactJSON o).
Proof. unfold getActiveAutonomousArtifactJSON, ListArtifactByID. solve_handler. Qed.
Hint Resolve active_json_prepares : respects.
Lemma store_phase_prepares auto item phase st gen :
  respects (prepares auto) (store_phase item phase st gen).
Proof.
  unfold store_phase, persistAutonomousPhaseArtifacts, recordGeneratedReview,
    updateAutonomousActiveArtifacts. solve_handler. by apply CreateReview_prepares.
Qed.
Hint Resolve store_phase_prepares : respects.
Lemma approvePhase_prepares item phase operator :
  respects (prepares true) (approvePhase item phase operator).
Proof. unfold approvePhase. solve_handler. by apply CreateReview_prepares. Qed.
Lemma approved_prepares req item phase :
  respects (prepares (aut_auto_approve req))
    (if aut_auto_approve req then approvePhase item phase (aut_operator req) else ret item).
Proof.
  destruct (aut_auto_approve req); [apply approvePhase_prepares|apply respects_ret, _].
Qed.
Hint Resolve approved_prepares : respects.
Lemma requirements_prepares gen item req :
  respects (prepares (aut_auto_approve req)) (generateRequirementsPhase gen item req).
Proof.
  unfold generateRequirementsPhase.
  repeat first [apply approved_prepares | handler_step].
Qed.
Lemma design_prepares gen item req :
  respects (prepares (aut_auto_approve req)) (generateDesignPhase gen item req).
Proof.
  unfold generateDesignPhase. repeat first [apply approved_prepares | handler_step].
Qed.

(** *** The documents *)

(** Artifacts stay, and initiatives with their goal, their workspace and their documents,
    but for the documents of the phases in [X]. *)
Definition docs_kept (X : list InitiativePhase) : relation Sys := λ s s',
  artifacts (pg s) ⊆ artifacts (pg s') ∧
  ∀ id i, initiatives (pg s) !! id = Some i → ∃ i', initiatives (pg s') !! id = Some i' ∧
    ini_id i' = ini_id i ∧ ini_goal i' = ini_goal i ∧ ini_workspace_root i' = ini_workspace_root i ∧
    ∀ phase, phase ∉ X → activeArtifactJSONIDForPhase i' phase = activeArtifactJSONIDForPhase i phase.
#[export] Instance docs_kept_preorder X : PreOrder (docs_kept X).
Proof.
  split; unfold docs_kept.
  - intros s. split; [done|]. intros id i Hi. by exists i.
  - intros s1 s2 s3 [A1 I1] [A2 I2]. split; [by etrans|]. intros id i Hi.
    destruct (I1 id i Hi) as (i2 & Hi2 & E1 & E2 & E3 & E4).
    destruct (I2 id i2 Hi2) as (i3 & Hi3 & F1 & F2 & F3 & F4).
    exists i3. split_and!; [done|congruence..|]. intros p Hp. by rewrite F4, E4.
Qed.
Lemma docs_kept_subset X Y s s' : (∀ p, p ∈ X → p ∈ Y) → docs_kept X s s' → docs_kept Y s s'.
Proof.
  intros Hsub [A I]. split; [done|]. intros id i Hi.
  destruct (I id i Hi) as (i' & ? & ? & ? & ? & Hd). exists i'. split_and!; [done..|].
  intros p Hp. apply Hd. auto.
Qed.
Lemma docs_kept_same X s s' :
  artifacts (pg s') = artifacts (pg s) → initiatives (pg s') = initiatives (pg s) → docs_kept X s s'.
Proof. unfold docs_kept. intros -> ->. split; [done|]. intros id i Hi. by exists i. Qed.

Lemma CreateArtifact_run p n s a n' s' :
  CreateArtifact p n s = (Ok a, (n', s')) → ∃ now, artifacts (pg s') !! a = Some (new_artifact p a now).
Proof.
  intros Hrun. unfold CreateArtifact, bind, new_uuid, stmt, ret in Hrun.
  repeat case_match; simplify_eq. eexists. cbn. apply lookup_insert_eq.
Qed.
Lemma CreateArtifact_docs X p : respects (docs_kept X) (CreateArtifact p).
Proof.
  intros n s x n' s' Hrun. unfold CreateArtifact, bind, new_uuid, stmt, ret in Hrun.
  repeat case_match; simplify_eq; try by apply docs_kept_same.
  split; [|intros id i Hi; by exists i]. cbn. by apply insert_subseteq, eq_None_not_Some.
Qed.
Lemma CreateReview_docs X p : respects (docs_kept X) (CreateInitiativePhaseReview p).
Proof.
  intros n s x n' s' Hrun. unfold CreateInitiativePhaseReview, bind, new_uuid, query, stmt, ret in Hrun.
  repeat case_match; simplify_eq; by apply docs_kept_same.
Qed.
Lemma CreateInitiative_docs X p : respects (docs_kept X) (CreateInitiative p).
Proof.
  intros n s x n' s' Hrun. unfold CreateInitiative, GetInitiative, bind, new_uuid, query, stmt, ret in Hrun.
  repeat case_match; simplify_eq; try by apply docs_kept_same.
  all: split; [done|]; intros id i Hi; exists i; cbn; rewrite lookup_insert_ne; [done|];
    intros <-; match goal with H : ¬ is_Some _ |- _ => apply H; by exists i end.
Qed.
Definition phase_param (p : UpdateInitiativeParams) (phase : InitiativePhase) : option string :=
  match phase with
  | InitiativePhaseRequirements => ui_requirements p
  | InitiativePhaseDesign => ui_design p
  | InitiativePhasePlan => ui_plan p
  | InitiativePhaseExecution => None
  end.
Lemma apply_update_doc p now i phase :
  activeArtifactJSONIDForPhase (apply_update p now i) phase
  = match phase_param p phase with Some a => Some a | None => activeArtifactJSONIDForPhase i phase end.
Proof. by destruct phase. Qed.
Lemma UpdateInitiative_docs X id p :
  (∀ phase, phase ∉ X → phase_param p phase = None) → respects (docs_kept X) (UpdateInitiative id p).
Proof.
  intros HX. unfold UpdateInitiative, GetInitiative. solve_handler.
  apply respects_exec_now; [apply _|]. intros now s. split; [done|]. intros id' i Hi. cbn.
  destruct (decide (id = id')) as [<-|Hne].
  - rewrite lookup_alter_eq, Hi. eexists. split_and!; [done..|]. intros phase Hp.
    rewrite apply_update_doc, HX by done. done.
  - rewrite lookup_alter_ne by done. by exists i.
Qed.
Lemma active_json_docs X o : respects (docs_kept X) (getActiveAutonomousArtifactJSON o).
Proof. unfold getActiveAutonomousArtifactJSON, ListArtifactByID. solve_handler. Qed.
Hint Resolve CreateArtifact_docs CreateReview_docs CreateInitiative_docs active_json_docs : respects.
Lemma store_phase_docs X item phase st gen :
  phase ∈ X → respects (docs_kept X) (store_phase item phase st gen).
Proof.
  intros HX. unfold store_phase, persistAutonomousPhaseArtifacts, recordGeneratedReview,
    updateAutonomousActiveArtifacts. solve_handler.
  apply UpdateInitiative_docs. intros p Hp. destruct phase, p; try done; by destruct Hp.
Qed.
Lemma approvePhase_docs X item phase operator : respects (docs_kept X) (approvePhase item phase operator).
Proof. unfold approvePhase. solve_handler; by apply UpdateInitiative_docs; intros []. Qed.
Lemma Reconcile_docs X id : respects (docs_kept X) (ReconcileInitiativeExecution id).
Proof.
  unfold ReconcileInitiativeExecution, GetInitiative, ListInitiativeTasks. solve_handler.
  apply UpdateInitiative_docs. by intros [].
Qed.

(** An initiative as it is stored. *)
Definition is_row (s : Sys) (i : InitiativeResponse) : Prop := initiatives (pg s) !! ini_id i = Some i.
Lemma UpdateInitiative_run id p n s i n' s' :
  ini_keyed s → UpdateInitiative id p n s = (Ok (Some i), (n', s')) →
  is_row s' i ∧ ini_id i = id ∧ ini_keyed s' ∧ artifacts (pg s') = artifacts (pg s) ∧
  ∃ now old, initiatives (pg s) !! id = Some old ∧ i = apply_update p now old.
Proof.
  intros Hk Hrun. pose proof (respects_run (UpdateInitiative_prepares true _ _) Hrun) as (_ & Hk' & _).
  specialize (Hk' Hk). unfold UpdateInitiative, GetInitiative in Hrun.
  apply bind_inv in Hrun as [(? & _ & ?)|(u & n1 & s1 & Hu & Hq)]; [done|].
  apply query_ok in Hq as (Hi & -> & _). unfold exec_now in Hu. apply exec_ok in Hu as [-> _].
  symmetry in Hi. pose proof (Hk' _ _ Hi) as Hid. unfold is_row. rewrite Hid. split_and!; [done..|].
  cbn in Hi. rewrite lookup_alter_eq in Hi. apply fmap_Some in Hi as (old & Hold & ->). eauto.
Qed.
Lemma CreateInitiative_run p n s i n' s' :
  ini_keyed s → CreateInitiative p n s = (Ok (Some i), (n', s')) →
  is_row s' i ∧ ini_keyed s' ∧ initiatives (pg s) !! ini_id i = None ∧
  ini_goal i = ci_goal p ∧ ini_workspace_root i = ci_workspace_root p.
Proof.
  intros Hk Hrun. pose proof (respects_run (CreateInitiative_prepares true _) Hrun) as (_ & Hk' & _).
  specialize (Hk' Hk). unfold CreateInitiative, GetInitiative, bind, new_uuid, query, stmt, ret in Hrun.
  repeat case_match; simplify_eq. all: unfold is_row; cbn in *; rewrite ?lookup_insert_eq in *; simplify_eq.
  all: cbn; rewrite lookup_insert_eq.
  split_and!; [done|done|by apply eq_None_not_Some|done|done].
Qed.

(** A document is stored, and the active one of its phase. *)
Definition document_stored (s : Sys) (i : InitiativeResponse) (phase : InitiativePhase)
    (doc : PhaseArtifacts) : Prop :=
  ∃ id row, activeArtifactJSONIDForPhase i phase = Some id ∧ artifacts (pg s) !! id = Some row ∧
    artifact_content (art_response row) = cleanAutonomousStringPtr (json_marshal (pa_json doc)) ∧
    artifact_metadata (art_response row) !! "initiative_phase" = Some (VStr (phase_text phase)).
Lemma document_stored_mono X s s' i i' phase doc :
  phase ∉ X → is_row s i → docs_kept X s s' → initiatives (pg s') !! ini_id i = Some i' →
  document_stored s i phase doc → document_stored s' i' phase doc.
Proof.
  intros HX Hi [A I] Hi' (id & row & Hid & Hrow & Hc). destruct (I _ _ Hi) as (i2 & Hi2 & _ & _ & _ & Hd).
  simplify_eq. exists id, row. rewrite Hd by done. split_and!; [done| |apply Hc..].
  by eapply lookup_weaken.
Qed.
Lemma active_payload_mono X s s' i i' phase payload :
  phase ∉ X → is_row s i → docs_kept X s s' → initiatives (pg s') !! ini_id i = Some i' →
  active_payload s i phase = Some payload → active_payload s' i' phase = Some payload.
Proof.
  intros HX Hi [A I] Hi'. destruct (I _ _ Hi) as (i2 & Hi2 & _ & _ & _ & Hd). simplify_eq.
  unfold active_payload, stored_artifact. rewrite Hd by done.
  destruct (activeArtifactJSONIDForPhase i phase) as [id|]; [|done]. cbn.
  destruct (blank id); [done|]. destruct (artifacts (pg s) !! trim_space id) as [row|] eqn:Hrow; [|done].
  by rewrite (lookup_weaken _ _ _ _ Hrow A).
Qed.

Lemma store_phase_run item phase st gen n s doc cur n' s' :
  ini_keyed s → phase ≠ InitiativePhaseExecution →
  store_phase item phase st gen n s = (Ok (doc, Some cur), (n', s')) →
  gen = Ok doc ∧ is_row s' cur ∧ ini_id cur = ini_id item ∧ ini_keyed s' ∧
  document_stored s' cur phase doc.
Proof.
  intros Hk Hphase Hrun. unfold store_phase in Hrun.
  apply bind_inv in Hrun as [(? & _ & ?)|(doc' & n1 & s1 & Hg & Hrun)]; [done|].
  assert (gen = Ok doc' ∧ s1 = s) as [-> ->].
  { destruct gen; cbn in Hg; unfold ret, throw in Hg; by simplify_eq. }
  apply bind_inv in Hrun as [(? & _ & ?)|(ids & n2 & s2 & Hp & Hrun)]; [done|].
  apply bind_inv in Hrun as [(? & _ & ?)|(u & n3 & s3 & Hr & Hrun)]; [done|].
  apply bind_inv in Hrun as [(? & _ & ?)|(cur' & n4 & s4 & Hu & Hrun)]; [done|].
  unfold ret in Hrun. simplify_eq. split; [done|].
  assert (Hk2 : ini_keyed s2 ∧ ∃ jid row, pi_json ids = Some jid ∧ artifacts (pg s2) !! jid = Some row ∧
    artifact_content (art_response row) = cleanAutonomousStringPtr (json_marshal (pa_json doc)) ∧
    artifact_metadata (art_response row) !! "initiative_phase" = Some (VStr (phase_text phase))).
  { unfold persistAutonomousPhaseArtifacts in Hp.
    apply bind_inv in Hp as [(? & _ & ?)|(md & m1 & t1 & H1 & Hp)]; [done|].
    apply bind_inv in Hp as [(? & _ & ?)|(js & m2 & t2 & H2 & Hp)]; [done|].
    unfold ret in Hp. simplify_eq.
    apply (respects_run (CreateArtifact_prepares true _)) in H1 as (_ & K1 & _).
    pose proof (respects_run (CreateArtifact_prepares true _) H2) as (_ & K2 & _).
    split; [auto|]. apply CreateArtifact_run in H2 as [now H2].
    eexists _, _. split; [done|]. split; [exact H2|]. split; [done|].
    cbn -[phase_text]. by destruct phase. }
  destruct Hk2 as (Hk2 & jid & row & Hj & Hrow & Hc).
  unfold recordGeneratedReview in Hr.
  apply bind_inv in Hr as [(? & _ & ?)|(v & m1 & t1 & Hr & Hx)]; [done|]. unfold ret in Hx. simplify_eq.
  pose proof (respects_run (CreateReview_docs [] _) Hr) as [A3 _].
  assert (Hk3 : ini_keyed s3).
  { refine (proj1 (proj2 (respects_run (CreateReview_prepares false _ _) Hr)) Hk2). done. }
  unfold updateAutonomousActiveArtifacts in Hu.
  apply UpdateInitiative_run in Hu as (Hrow4 & Hid & Hk4 & A4 & now & old & Hold & ->); [|done].
  split_and!; [done..|]. exists jid, row.
  split_and!; [|rewrite A4; by eapply lookup_weaken, A3|apply Hc..].
  rewrite apply_update_doc. by destruct phase; cbn; rewrite ?Hj.
Qed.

Lemma approved_run auto cur phase operator n s cur' n' s' :
  ini_keyed s → is_row s cur →
  (if auto : bool then approvePhase (Some cur) phase operator else ret (Some cur)) n s
    = (Ok (Some cur'), (n', s')) →
  is_row s' cur' ∧ ini_id cur' = ini_id cur ∧ ini_keyed s' ∧ docs_kept [] s s'.
Proof.
  intros Hk Hrow Hrun. destruct auto; [|unfold ret in Hrun; simplify_eq; by split_and!].
  pose proof (respects_run (approvePhase_docs [] _ _ _) Hrun) as Hd. unfold approvePhase in Hrun.
  apply bind_inv in Hrun as [(? & _ & ?)|(i & n1 & s1 & Hi & Hrun)]; [done|].
  apply deref_ok in Hi as [[= <-] ->].
  apply bind_inv in Hrun as [(? & _ & ?)|(v & n2 & s2 & Hr & Hrun)]; [done|].
  assert (Hk2 : ini_keyed s2).
  { refine (proj1 (proj2 (respects_run (CreateReview_prepares true _ _) Hr)) Hk). done. }
  destruct phase; [..|by unfold errorf, throw in Hrun].
  all: apply UpdateInitiative_run in Hrun as (? & ? & ? & _ & _); [by split_and!|done].
Qed.

(** What the service is asked about: the initiative, its goal and its workspace. *)
Definition asked_for (i item : InitiativeResponse) : Prop :=
  ini_id i = ini_id item ∧ ini_goal i = ini_goal item ∧ ini_workspace_root i = ini_workspace_root item.

Lemma requirements_run gen item req n s cur n' s' :
  ini_keyed s → is_row s item →
  generateRequirementsPhase gen (Some item) req n s = (Ok (Some cur), (n', s')) →
  ∃ doc, GenerateRequirements gen item "" = Ok doc ∧ document_stored s' cur InitiativePhaseRequirements doc ∧
    is_row s' cur ∧ ini_id cur = ini_id item ∧ ini_keyed s' ∧ docs_kept [InitiativePhaseRequirements] s s'.
Proof.
  intros Hk Hrow Hrun. unfold generateRequirementsPhase in Hrun.
  apply bind_inv in Hrun as [(? & _ & ?)|(i & n1 & s1 & Hi & Hrun)]; [done|].
  apply deref_ok in Hi as [[= <-] ->].
  apply bind_inv in Hrun as [(? & _ & ?)|([doc cur1] & n2 & s2 & Hp & Hrun)]; [done|]. cbn [fst snd] in Hrun.
  assert (∃ c, cur1 = Some c) as [c ->].
  { destruct cur1 as [c|]; [eauto|]. destruct (aut_auto_approve req); [|by unfold ret in Hrun].
    unfold approvePhase in Hrun. by apply bind_inv in Hrun as [(? & Hx & ?)|(? & ? & ? & Hx & ?)]. }
  pose proof (respects_run (store_phase_docs [InitiativePhaseRequirements] _ InitiativePhaseRequirements _ _ ltac:(by left)) Hp) as Hd.
  apply store_phase_run in Hp as (Hgen & Hrow2 & Hid2 & Hk2 & Hdoc); [|done..].
  apply approved_run in Hrun as (Hrow3 & Hid3 & Hk3 & Hd3); [|done..].
  exists doc. split_and!; [done| |done|congruence|done|].
  - eapply (document_stored_mono []); [apply not_elem_of_nil|exact Hrow2|exact Hd3| |done].
    by rewrite <-Hid3.
  - etransitivity; [exact Hd|]. eapply docs_kept_subset; [|exact Hd3]. set_solver.
Qed.
Lemma active_autonomous_json o n s payload n' s' :
  getActiveAutonomousArtifactJSON o n s = (Ok payload, (n', s')) →
  s' = s ∧ (id ← o; if blank id then None else stored_artifact s (trim_space id) ≫= artifact_payload)
      = Some payload.
Proof. intros Hrun. apply (active_json_inv o) in Hrun as [-> Hp]. auto. Qed.
Lemma design_run gen item req n s cur n' s' :
  ini_keyed s → is_row s item →
  generateDesignPhase gen (Some item) req n s = (Ok (Some cur), (n', s')) →
  ∃ read doc, active_payload s item InitiativePhaseRequirements = Some read ∧
    GenerateDesign gen item read "" = Ok doc ∧ document_stored s' cur InitiativePhaseDesign doc ∧
    is_row s' cur ∧ ini_id cur = ini_id item ∧ ini_keyed s' ∧ docs_kept [InitiativePhaseDesign] s s'.
Proof.
  intros Hk Hrow Hrun. unfold generateDesignPhase in Hrun.
  apply bind_inv in Hrun as [(? & _ & ?)|(i & n1 & s1 & Hi & Hrun)]; [done|].
  apply deref_ok in Hi as [[= <-] ->].
  apply bind_inv in Hrun as [(? & _ & ?)|(read & n2 & s2 & Hr & Hrun)]; [done|].
  apply active_autonomous_json in Hr as [-> Hread].
  apply bind_inv in Hrun as [(? & _ & ?)|([doc cur1] & n3 & s3 & Hp & Hrun)]; [done|]. cbn [fst snd] in Hrun.
  assert (∃ c, cur1 = Some c) as [c ->].
  { destruct cur1 as [c|]; [eauto|]. destruct (aut_auto_approve req); [|by unfold ret in Hrun].
    unfold approvePhase in Hrun. by apply bind_inv in Hrun as [(? & Hx & ?)|(? & ? & ? & Hx & ?)]. }
  pose proof (respects_run (store_phase_docs [InitiativePhaseDesign] _ InitiativePhaseDesign _ _ ltac:(by left)) Hp) as Hd.
  apply store_phase_run in Hp as (Hgen & Hrow2 & Hid2 & Hk2 & Hdoc); [|done..].
  apply approved_run in Hrun as (Hrow3 & Hid3 & Hk3 & Hd3); [|done..].
  exists read, doc. split_and!; [exact Hread|done| |done|congruence|done|].
  - eapply (document_stored_mono []); [apply not_elem_of_nil|exact Hrow2|exact Hd3| |done].
    by rewrite <-Hid3.
  - etransitivity; [exact Hd|]. eapply docs_kept_subset; [|exact Hd3]. set_solver.
Qed.

(** *** The tasks *)
Lemma autonomous_step_kept item o x : respects rows_kept (autonomous_step r item o x).
Proof. unfold autonomous_step. cbn zeta. solve_handler. by apply create_linked_kept. Qed.
Lemma autonomous_step_run item i step n s l n' s' :
  autonomous_step r item (10 * (Z.of_nat i + 1)) step n s = (Ok l, (n', s')) →
  step_made autonomous_mode item s s' (i, step) l.
Proof.
  intros Hrun. unfold autonomous_step in Hrun. destruct step as [[epic group] spec].
  apply bind_inv in Hrun as [(? & _ & ?)|([t o] & n2 & s2 & Hc & Hrun)]; [done|].
  apply deref_ok in Hrun as [Ho ->]. cbn in Ho. subst o.
  by eapply create_linked_made; [..|exact Hc].
Qed.

(** Making tasks leaves initiatives and reviews alone. *)
Definition inis_kept : relation Sys := λ s s',
  (initiatives (pg s') = initiatives (pg s) ∧ artifacts (pg s') = artifacts (pg s)) ∧ same_reviews s s'.
#[export] Instance inis_kept_preorder : PreOrder inis_kept.
Proof.
  split; unfold inis_kept, same_reviews; [done|].
  by intros s1 s2 s3 [[-> ->] ->] [[-> ->] ->].
Qed.
Lemma inis_kept_docs X s s' : inis_kept s s' → docs_kept X s s'.
Proof. intros [[Hi Ha] _]. by apply docs_kept_same. Qed.
Lemma autonomous_step_inis item o x : respects inis_kept (autonomous_step r item o x).
Proof.
  unfold autonomous_step, create_linked. cbn zeta. solve_handler.
  - intros n st y n' st' [[-> _]|(id & _ & _ & -> & _)]%CreateTask_run; [reflexivity|].
    unfold creation. by case_match.
  - intros n st y n' st' Hrun. unfold LinkInitiativeTask, GetInitiativeTaskLink in Hrun.
    unfold bind, new_uuid, query, stmt, ret in Hrun.
    repeat case_match; by simplify_eq.
Qed.
Lemma materialize_autonomous_inis item payload :
  respects inis_kept (materializeAutonomousPlanTasks r item payload).
Proof.
  unfold materializeAutonomousPlanTasks. solve_handler. apply autonomous_step_inis.
Qed.
Lemma inis_kept_no_approval s s' : inis_kept s s' → no_approval s s'.
Proof. intros [_ Hr]. by apply same_reviews_no_approval. Qed.
Lemma inis_kept_keyed s s' : inis_kept s s' → ini_keyed s → ini_keyed s'.
Proof. unfold ini_keyed. by intros [[-> _] _]. Qed.

Lemma generatePlanTasks_run gen item req n s created cur n' s' :
  ini_keyed s → is_row s item →
  generatePlanTasks r gen (Some item) req n s = (Ok (created, Some cur), (n', s')) →
  ∃ read doc (new : list InitiativeTaskLink),
    active_payload s item InitiativePhaseDesign = Some read ∧
    GenerateExecutionPlan gen item read "" = Ok doc ∧
    document_stored s' cur InitiativePhasePlan doc ∧
    is_row s' cur ∧ ini_id cur = ini_id item ∧ ini_keyed s' ∧ docs_kept [InitiativePhasePlan] s s' ∧
    (aut_auto_approve req = false → no_approval s s') ∧
    Forall2 (step_made autonomous_mode cur s s') (imap pair (plan_steps (pa_json doc))) new ∧
    created = Z.of_nat (length new).
Proof.
  intros Hk Hrow Hrun. unfold generatePlanTasks in Hrun.
  apply bind_inv in Hrun as [(? & _ & ?)|(i0 & n1 & s1 & Hd & Hrun)]; [done|].
  apply deref_ok in Hd as [[= <-] ->].
  apply bind_inv in Hrun as [(? & _ & ?)|(read & n2 & s2 & Hj & Hrun)]; [done|].
  apply active_autonomous_json in Hj as [-> Hread].
  apply bind_inv in Hrun as [(? & _ & ?)|([doc o] & n3 & s3 & Hp & Hrun)]; [done|].
  pose proof (respects_run (store_phase_prepares (aut_auto_approve req) _ _ _ _) Hp) as (Ht3 & _ & Hno3).
  pose proof (respects_run (store_phase_docs [InitiativePhasePlan] _ InitiativePhasePlan _ _
    ltac:(by left)) Hp) as Hd3.
  apply bind_inv in Hrun as [(? & _ & ?)|(i & n4 & s4 & Hd & Hrun)]; [done|].
  apply deref_ok in Hd as [Ho ->]. cbn in Ho. subst o. cbn [fst snd] in Hrun.
  apply store_phase_run in Hp as (Hgen & Hrow3 & Hid3 & Hk3 & Hdoc); [|done..].
  apply bind_inv in Hrun as [(? & _ & ?)|(new & n5 & s5 & Hm & Hrun)]; [done|].
  pose proof (respects_run (materialize_autonomous_inis _ _) Hm) as Hinis.
  unfold materializeAutonomousPlanTasks in Hm.
  apply (materialize_all autonomous_mode i) in Hm as (Hk5 & new' & -> & Hmade);
    [|apply autonomous_step_kept|apply autonomous_step_run].
  apply bind_inv in Hrun as [(? & _ & ?)|(cur' & n6 & s6 & Ha & Hrun)]; [done|].
  unfold ret in Hrun. simplify_eq.
  pose proof (respects_run (approved_prepares _ _ _) Ha) as (Ht6 & _ & Hno6).
  assert (Hrow5 : is_row s5 i).
  { unfold is_row. destruct Hinis as [[-> _] _]. exact Hrow3. }
  pose proof (inis_kept_keyed _ _ Hinis Hk3) as Hk5'.
  apply approved_run in Ha as (Hrow6 & Hid6 & Hk6 & Hd6); [|done..].
  assert (Hd36 : docs_kept [] s3 s') by (transitivity s5; [by apply inis_kept_docs|done]).
  exists read, doc, new'. split_and!; [exact Hread|done| |done|congruence|done| | | |done].
  - eapply (document_stored_mono []); [apply not_elem_of_nil|exact Hrow3|exact Hd36| |done].
    by rewrite <-Hid6.
  - transitivity s3; [done|]. eapply docs_kept_subset; [|exact Hd36]. set_solver.
  - intros Hauto. transitivity s3; [auto|]. transitivity s5; [|auto].
    by apply inis_kept_no_approval.
  - eapply Forall2_impl; [exact Hmade|]. intros it l Hml.
    eapply (step_made_mono _ _ s s3 s5 s') in Hml; [|by apply same_tables_rows..].
    destruct Hml. split; by rewrite ?Hid6.
Qed.

(** *** The launch *)
Lemma launch_link_evolves item policy launched link :
  respects evolves (launch_link r item policy launched link).
Proof. unfold launch_link. cbn zeta. solve_handler. Qed.
Lemma launch_link_grows item policy launched link :
  respects queues_grow (launch_link r item policy launched link).
Proof. unfold launch_link. cbn zeta. solve_handler. Qed.
Hint Resolve launch_link_evolves launch_link_grows : respects.

Lemma launch_link_docs X item policy launched link :
  respects (docs_kept X) (launch_link r item policy launched link).
Proof.
  unfold launch_link, UpdateInitiativeTaskMode, GetInitiativeTaskLink, UpdateTaskLaunchMode,
    EnqueueTask. cbn zeta. solve_handler;
    try (first [apply respects_exec_now|apply respects_exec]; [apply _|]; intros; by apply docs_kept_same).
  intros n st x n' st' [[-> _]|(row & now & id & _ & _ & ->)]%QueueTaskForLaunch_run;
    [reflexivity|by apply docs_kept_same].
Qed.

Lemma launch_link_run item policy launched link n s out n' s' :
  ar_queue r = true →
  is_Some (task_links (pg s) !! (ini_id item, link_task_id link)) ∧ is_Some (get_row s (link_task_id link)) →
  launch_link r item policy launched link n s = (Ok out, (n', s')) →
  let mode := autonomous_launch_mode policy link in
  mode_written s s' (ini_id item) (link_task_id link) mode ∧
  others_kept [link_task_id link] s s' ∧
  if mode =?s TaskLaunchModeManual then out = launched
  else out = launched + 1 ∧ ∃ t, launched_as s' link t.
Proof.
  cbv zeta. intros Hqueue [Hl0 Hr0] Hrun. unfold launch_link in Hrun. cbn zeta in Hrun.
  destruct (ValidateTaskLaunchAgainstPolicy _ _ _) as [msg|]; [by unfold errorf, throw in Hrun|].
  apply bind_inv in Hrun as [(? & _ & ?)|(m & n1 & s1 & Hu1 & Hrun)]; [done|].
  apply bind_inv in Hrun as [(? & _ & ?)|(u & n2 & s2 & Hu2 & Hrun)]; [done|].
  pose proof (modes_updated _ _ _ _ _ _ _ _ _ _ _ Hl0 Hr0 Hu1 Hu2) as Hwritten.
  set (t0 := link_task_id link) in *.
  apply (respects_run (UpdateMode_others [t0] _ _ _ ltac:(by left))) in Hu1.
  apply (respects_run (UpdateLaunchMode_others [t0] _ _ ltac:(by left))) in Hu2.
  assert (H02 : others_kept [t0] s s2) by (by transitivity s1).
  case_match; [unfold ret in Hrun; by simplify_eq|].
  apply bind_inv in Hrun as [(? & _ & ?)|(o & n3 & s3 & Hq & Hrun)]; [done|].
  apply bind_inv in Hrun as [(? & _ & ?)|(t & n4 & s4 & Hd & Hrun)]; [done|].
  apply deref_ok in Hd as [-> ->].
  pose proof (respects_run (QueueTask_others [] _ _ _) Hq) as Hoq.
  apply queue_result in Hq as (Hst & row & Hrow & Hid).
  apply bind_inv in Hrun as [(? & _ & ?)|([] & n5 & s5 & He & Hrun)]; [done|].
  unfold ret in Hrun. simplify_eq. rewrite Hqueue, orb_false_r in He.
  assert (launched_as s' link t ∧ others_kept [] s3 s') as [Hla Hoe].
  { destruct (task_assigned_agent t) as [agent|] eqn:Ha;
      [|unfold ret in He; simplify_eq; split; [|done];
        split; [done|by eexists|by intros ? Hx; rewrite Ha in Hx]].
    destruct (String.eqb_spec (task_execution_target t) ExecutionTargetLocal) as [Hl|Hl].
    { unfold ret in He. simplify_eq. split; [|done]. split; [done|by eexists|]. by intros ? _ Hx. }
    split; [|exact (respects_run (Enqueue_others [] _ _ _) He)]. unfold EnqueueTask in He. run_inv.
    split; [done|by exists row|]. intros agent' Ha' _. rewrite Ha in Ha'. simplify_eq.
    rewrite agent_queue_insert, decide_True, lookup_insert_eq by done. by eexists. }
  assert (H2 : others_kept [] s2 s') by (by transitivity s3).
  split_and!; [|transitivity s2; [done|]|done|by exists t].
  - eapply mode_written_mono; [apply not_elem_of_nil|exact Hwritten|exact H2].
  - eapply others_kept_subset; [|exact H2]. intros x Hx. by apply not_elem_of_nil in Hx.
Qed.

Lemma launch_links_run item policy links : ∀ acc n s out n' s',
  ar_queue r = true → NoDup (link_task_id <$> links) →
  (∀ l, l ∈ links → is_Some (task_links (pg s) !! (ini_id item, link_task_id l)) ∧
     is_Some (get_row s (link_task_id l))) →
  for_each links acc (launch_link r item policy) n s = (Ok out, (n', s')) →
  let mode := autonomous_launch_mode policy in
  Forall (λ l, mode_written s s' (ini_id item) (link_task_id l) (mode l)) links ∧
  others_kept (link_task_id <$> links) s s' ∧
  ∃ launched, out = acc + Z.of_nat (length launched) ∧
    Forall2 (launched_as s') (filter (λ l, mode l ≠ TaskLaunchModeManual) links) launched.
Proof.
  cbv zeta. induction links as [|link rest IH]; intros acc n s out n' s' Hq Hnd Hrows Hrun; cbn in Hrun.
  { unfold ret in Hrun. simplify_eq. split_and!; [done..|]. exists []. split; [cbn; lia|constructor]. }
  cbn [fmap list_fmap] in *. apply NoDup_cons in Hnd as [Hfresh Hnd].
  apply bind_inv in Hrun as [(? & _ & ?)|(acc1 & n1 & s1 & Hl & Hrun)]; [done|].
  apply launch_link_run in Hl as (Hwritten & Hoth & Hl); [|done|apply Hrows; by left].
  assert (Hev : evolves s1 s')
    by (eapply respects_run; [|exact Hrun]; solve_handler).
  assert (Hgr : queues_grow s1 s')
    by (eapply respects_run; [|exact Hrun]; solve_handler).
  assert (Hne : ∀ l, l ∈ rest → link_task_id l ∉ [link_task_id link]).
  { intros l Hin E%list_elem_of_singleton. apply Hfresh. rewrite <-E. by apply list_elem_of_fmap_2. }
  apply IH in Hrun as (Hmodes & Hrest & launched & -> & Hall); [|done|done|].
  2:{ intros l Hin. destruct (Hrows l ltac:(by right)) as [[x Hx] [y Hy]].
      destruct Hoth as (L & T & _). split; [rewrite L; [by exists x|by apply Hne]|].
      specialize (T _ (Hne l Hin)). rewrite Hy in T. apply fmap_Some in T as (z & -> & _). by eexists. }
  split_and!.
  - constructor; [by eapply mode_written_mono|].
    apply Forall_forall. intros l Hin. rewrite Forall_forall in Hmodes.
    eapply mode_written_start; [by apply Hne|exact Hoth|by apply Hmodes].
  - transitivity s1; (eapply others_kept_subset; [|done]); set_solver.
  - destruct (String.eqb_spec (autonomous_launch_mode policy link) TaskLaunchModeManual) as [Hm|Hm].
    + subst. exists launched. split; [done|]. by rewrite filter_cons_False by (by intros ?).
    + destruct Hl as [-> [t Hla]]. exists (t :: launched). split; [cbn; lia|].
      rewrite filter_cons_True by done. constructor; [by eapply launched_as_mono|done].
Qed.

Lemma launch_link_reviews item policy launched link :
  respects same_reviews (launch_link r item policy launched link).
Proof.
  unfold launch_link, UpdateInitiativeTaskMode, GetInitiativeTaskLink, UpdateTaskLaunchMode,
    EnqueueTask. cbn zeta. solve_handler;
    try (by first [apply respects_exec_now|apply respects_exec]; [apply _|]).
  intros n st x n' st' [[-> _]|(row & now & id & _ & _ & ->)]%QueueTaskForLaunch_run;
    reflexivity.
Qed.
Definition same_initiatives : relation Sys := λ s s', initiatives (pg s') = initiatives (pg s).
#[export] Instance same_initiatives_preorder : PreOrder same_initiatives.
Proof. split; unfold same_initiatives; congruence. Qed.
Lemma launch_link_initiatives item policy launched link :
  respects same_initiatives (launch_link r item policy launched link).
Proof.
  unfold launch_link, UpdateInitiativeTaskMode, GetInitiativeTaskLink, UpdateTaskLaunchMode,
    EnqueueTask. cbn zeta. solve_handler;
    try (by first [apply respects_exec_now|apply respects_exec]; [apply _|]).
  intros n st x n' st' [[-> _]|(row & now & id & _ & _ & ->)]%QueueTaskForLaunch_run;
    reflexivity.
Qed.
Lemma initiative_links_mode i st l :
  l ∈ initiative_links i st →
  ∃ row, task_links (pg st) !! (i, link_task_id l) = Some row ∧ lr_execution_mode row = link_execution_mode l.
Proof.
  unfold initiative_links. intros [Hin Hi%String.eqb_eq]%elem_of_select.
  apply list_elem_of_omap in Hin as ([[i' t] row] & Hin & Hj). unfold join_link in Hj.
  apply fmap_Some in Hj as (task & _ & ->). cbn in *. subst i'.
  apply elem_of_map_to_list in Hin. by exists row.
Qed.
Lemma Reconcile_no_approval id : respects no_approval (ReconcileInitiativeExecution id).
Proof.
  apply respects_no_approval. unfold ReconcileInitiativeExecution, GetInitiative,
    ListInitiativeTasks, UpdateInitiative. solve_handler. by apply respects_exec_now; [apply _|].
Qed.

Lemma Reconcile_row id n s i n' s' :
  ini_keyed s → ReconcileInitiativeExecution id n s = (Ok (Some i), (n', s')) →
  is_row s' i ∧ ini_id i = id.
Proof.
  intros Hk Hrun. unfold ReconcileInitiativeExecution, GetInitiative, ListInitiativeTasks in Hrun.
  apply bind_inv in Hrun as [(? & _ & ?)|(o & n1 & s1 & Hg & Hrun)]; [done|].
  apply query_ok in Hg as (Ho & -> & _). destruct o as [i0|]; [|by unfold ret in Hrun].
  apply bind_inv in Hrun as [(? & _ & ?)|(items & n2 & s2 & Hl & Hrun)]; [done|].
  apply query_ok in Hl as (_ & -> & _). destruct items.
  - unfold ret in Hrun. simplify_eq. unfold is_row. by rewrite (Hk _ _ (eq_sym Ho)).
  - by apply UpdateInitiative_run in Hrun as (? & ? & _).
Qed.
Lemma documents_after X s s' i i' :
  is_row s i → docs_kept X s s' → is_row s' i' → ini_id i' = ini_id i → asked_for i i'.
Proof.
  intros Hi [_ I] Hi' Hid. destruct (I _ _ Hi) as (i2 & Hi2 & ? & ? & ? & _).
  unfold is_row in Hi'. rewrite Hid in Hi'. by simplify_eq.
Qed.

(** Launching: the modes of all links are written, the rest of the tasks and the documents
    stay, and those whose mode is not manual are queued. *)
Lemma launchGeneratedTasks_run item n s count final n' s' :
  ini_keyed s → ar_queue r = true →
  launchGeneratedTasks r (Some item) n s = (Ok (count, Some final), (n', s')) →
  let policy := ResolveExecutionPolicy (cfg_workspace_root (ar_cfg r)) (ini_workspace_root item) in
  let links := initiative_links (ini_id item) s in
  is_row s' final ∧ ini_id final = ini_id item ∧ evolves s s' ∧ docs_kept [] s s' ∧
  no_approval s s' ∧ others_kept (link_task_id <$> links) s s' ∧
  Forall (λ l, mode_written s s' (ini_id item) (link_task_id l) (autonomous_launch_mode policy l)) links ∧
  ∃ tasks, count = Z.of_nat (length tasks) ∧
    Forall2 (launched_as s')
      (filter (λ l, autonomous_launch_mode policy l ≠ TaskLaunchModeManual) links) tasks.
Proof.
  intros Hk Hq Hl. unfold launchGeneratedTasks in Hl. cbv zeta.
  apply bind_inv in Hl as [(? & _ & ?)|(i & m1 & t1 & Hd' & Hl)]; [done|].
  apply deref_ok in Hd' as [Hi ->]. injection Hi as <-.
  apply bind_inv in Hl as [(? & _ & ?)|(links & m2 & t2 & Hls & Hl)]; [done|].
  unfold ListInitiativeTasks in Hls. apply query_ok in Hls as (-> & -> & _). cbn zeta in Hl.
  apply bind_inv in Hl as [(? & _ & ?)|(cnt & m3 & t3 & Hloop & Hl)]; [done|].
  apply bind_inv in Hl as [(? & _ & ?)|(upd & m4 & t4 & Hrec & Hl)]; [done|].
  unfold ret in Hl. simplify_eq.
  assert (Hev : evolves s t3) by (eapply respects_run; [|exact Hloop]; solve_handler).
  assert (Hdocs : docs_kept [] s t3).
  { eapply respects_run; [|exact Hloop]. solve_handler. apply launch_link_docs. }
  assert (Hno : no_approval s t3).
  { apply same_reviews_no_approval. eapply respects_run; [|exact Hloop].
    solve_handler. apply launch_link_reviews. }
  assert (Hkt : ini_keyed t3).
  { assert (initiatives (pg t3) = initiatives (pg s)) as Heq; [|unfold ini_keyed; by rewrite Heq].
    change (same_initiatives s t3). eapply respects_run; [|exact Hloop].
    solve_handler. apply launch_link_initiatives. }
  apply launch_links_run in Hloop as (Hmodes & Hoth & tasks & -> & Hall);
    [|done|apply initiative_links_nodup|intros l; apply initiative_links_rows].
  pose proof (respects_run (ReconcileInitiativeExecution_evolves _) Hrec) as Hev'.
  pose proof (respects_run (Reconcile_docs [] _) Hrec) as Hdocs'.
  pose proof (respects_run (Reconcile_others [] _) Hrec) as Hoth'.
  pose proof (respects_run (Reconcile_no_approval _) Hrec) as Hno'.
  pose proof (respects_run (respects_queues_same _ (reconcile_initiative_same_redis _)) Hrec) as Hq'.
  apply Reconcile_row in Hrec as [Hrowf Hidf]; [|done].
  split_and!; [done|done|by transitivity t3..| | |].
  - transitivity t3; [done|]. eapply others_kept_subset; [|exact Hoth'].
    intros t Ht. by apply not_elem_of_nil in Ht.
  - eapply Forall_impl; [exact Hmodes|]. intros l Hm.
    eapply mode_written_mono; [apply not_elem_of_nil|exact Hm|exact Hoth'].
  - exists tasks. split; [lia|]. eapply Forall2_impl; [exact Hall|]. intros l t Hla.
    by eapply launched_as_mono.
Qed.

(** The three documents of an initiative, as the service answered them: each is stored and
    the active one of its phase, and each but the first was asked for on what the one
    before reads as. *)
Definition documents_generated (gen : PhaseService) (s : Sys) (item : InitiativeResponse)
    (plan : PhaseArtifacts) : Prop :=
  ∃ i1 i2 i3 requirements design requirementsJSON designJSON,
    asked_for i1 item ∧ asked_for i2 item ∧ asked_for i3 item ∧
    GenerateRequirements gen i1 "" = Ok requirements ∧
    document_stored s item InitiativePhaseRequirements requirements ∧
    active_payload s item InitiativePhaseRequirements = Some requirementsJSON ∧
    GenerateDesign gen i2 requirementsJSON "" = Ok design ∧
    document_stored s item InitiativePhaseDesign design ∧
    active_payload s item InitiativePhaseDesign = Some designJSON ∧
    GenerateExecutionPlan gen i3 designJSON "" = Ok plan ∧
    document_stored s item InitiativePhasePlan plan.
(** What a step of the plan became: a new task as the step describes it, linked at its
    place with the mode it was launched under. *)
Record planned_task (s s' : Sys) (item : InitiativeResponse) (policy : ExecutionPolicy)
    (step : nat * (string * string * gmap_any)) (l : InitiativeTaskLink) : Prop := {
  pt_new : get_row s (link_task_id l) = None;
  pt_mode : link_execution_mode l = autonomous_mode step.2.2;
  pt_row : ∃ row, get_row s' (link_task_id l) = Some row ∧
    row_assigned_agent row = Some (planned_agent step.2.2) ∧
    row_description row = planned_description step.2.2;
  pt_link : ∃ row, task_links (pg s') !! (ini_id item, link_task_id l) = Some row ∧
    lr_execution_mode row = autonomous_launch_mode policy l ∧
    lr_launch_order row = 10 * (Z.of_nat step.1 + 1);
}.
(** The links of an initiative, each task once. *)
Definition are_links (s : Sys) (initiative : string) (links : list InitiativeTaskLink) : Prop :=
  NoDup (link_task_id <$> links) ∧
  ∀ t, t ∈ link_task_id <$> links ↔
    is_Some (task_links (pg s) !! (initiative, t)) ∧ is_Some (get_row s t).

(** The tasks made of a plan, at the end of a launch of all links. *)
Lemma steps_planned policy item final s s3 s4 s' steps new :
  let links := initiative_links (ini_id item) s4 in
  (∀ id, get_row s3 id = None → get_row s id = None) → ini_id final = ini_id item →
  evolves s4 s' → others_kept (link_task_id <$> links) s4 s' →
  Forall (λ l, mode_written s4 s' (ini_id item) (link_task_id l) (autonomous_launch_mode policy l)) links →
  Forall2 (step_made autonomous_mode item s3 s4) steps new →
  Forall2 (planned_task s s' final policy) steps new ∧
  ∀ l, l ∈ new → ∃ l', l' ∈ links ∧ link_task_id l' = link_task_id l ∧
    autonomous_launch_mode policy l' = autonomous_launch_mode policy l.
Proof.
  cbv zeta. intros Hnew Hid Hev Hoth Hmodes Hmade.
  assert (Hlisted : ∀ it l, step_made autonomous_mode item s3 s4 it l →
    ∃ l', l' ∈ initiative_links (ini_id item) s4 ∧ link_task_id l' = link_task_id l ∧
      link_execution_mode l' = link_execution_mode l).
  { intros it l [(_ & _ & Hm) _ (row & Hrow & _) (lr & Hlr & Hlm & _)].
    assert (Hin : link_task_id l ∈ link_task_id <$> initiative_links (ini_id item) s4)
      by (apply link_listed; by eexists).
    apply list_elem_of_fmap in Hin as (l' & Ht & Hin). exists l'. split_and!; [done|done|].
    destruct (initiative_links_mode _ _ _ Hin) as (lr' & Hlr' & <-). rewrite <-Ht, Hlr in Hlr'.
    simplify_eq. congruence. }
  split.
  - eapply Forall2_impl; [exact Hmade|]. intros it l Hm. pose proof Hm as Hm'.
    apply Hlisted in Hm' as (l' & Hin & Ht & Hmode).
    destruct Hm as [(_ & _ & Hm) Hfresh (row & Hrow & _ & Hagent & Hdesc) (lr & Hlr & _ & Horder)].
    split; [by apply Hnew|done| |].
    + destruct (ev_tasks _ _ Hev _ _ Hrow) as (row' & Hrow' & [Hsame _]). exists row'.
      unfold identity in Hsame. simplify_eq. split_and!; [done|congruence..].
    + rewrite Forall_forall in Hmodes. destruct (Hmodes l' Hin) as [(lr' & Hlr' & Hlm) _].
      rewrite Ht in Hlr'. rewrite Hid. exists lr'. split_and!; [done| |].
      * rewrite Hlm. unfold autonomous_launch_mode. by rewrite Hmode.
      * destruct Hoth as (_ & _ & O). specialize (O (ini_id item, link_task_id l)).
        rewrite Hlr, Hlr' in O. cbn in O. congruence.
  - intros l Hin. apply list_elem_of_lookup in Hin as [k Hin].
    eapply Forall2_lookup_r in Hin as (it & _ & Hm); [|exact Hmade].
    apply Hlisted in Hm as (l' & ? & ? & Hm). exists l'. split_and!; [done..|].
    unfold autonomous_launch_mode. by rewrite Hm.
Qed.
Lemma links_remain item s4 s' mode :
  let links := initiative_links (ini_id item) s4 in
  others_kept (link_task_id <$> links) s4 s' →
  Forall (λ l, mode_written s4 s' (ini_id item) (link_task_id l) (mode l)) links →
  are_links s' (ini_id item) links.
Proof.
  intros links Hoth Hmodes. split; [apply initiative_links_nodup|]. intros t. split.
  - intros (l & -> & Hin)%list_elem_of_fmap. rewrite Forall_forall in Hmodes.
    destruct (Hmodes l Hin) as [(lr & ? & _) (row & ? & _)]. split; by eexists.
  - intros [[lr Hlr] [row Hrow]]. destruct (decide (t ∈ link_task_id <$> links)) as [|Hnot]; [done|].
    destruct Hoth as (L & T & _). rewrite L in Hlr by done. specialize (T t Hnot).
    rewrite Hrow in T. symmetry in T. apply fmap_Some in T as (row4 & Hrow4' & _).
    apply link_listed; by eexists.
Qed.
(** A stored document, or what an active one reads as, is the same after the later phases. *)
Lemma document_survives X s s' i i' phase d :
  is_row s i → docs_kept X s s' → ini_id i' = ini_id i → phase ∉ X →
  document_stored s i phase d → is_row s' i' → document_stored s' i' phase d.
Proof. intros Hrow Hkept Hid HX Hd Hi'. eapply (document_stored_mono X s s' i); try done. by rewrite <-Hid. Qed.
Lemma payload_survives X s s' i i' phase p :
  is_row s i → docs_kept X s s' → ini_id i' = ini_id i → phase ∉ X →
  active_payload s i phase = Some p → is_row s' i' → active_payload s' i' phase = Some p.
Proof. intros Hrow Hkept Hid HX Hd Hi'. eapply (active_payload_mono X s s' i); try done. by rewrite <-Hid. Qed.

End RunSpec.

(** A run in the workspace of the orchestrator: the plan says [agent_local], the policy
    makes it remote, and no phase is approved. *)
Definition demo_runner : AutonomousRunner :=
  MkRunner (MkConfig 0 0 "/srv/lab") true (Some demo_service).
Definition demo_request : AutonomousInitiativeRequest :=
  MkAutonomous "chat" "" "/srv/lab/app" "Add a health endpoint" "ana" false.
Definition demo_run_state : Sys := Eval vm_compute in
  (@StartFromChannel (quiet_env 0) demo_codec demo_runner demo_request 0%N empty_sys).2.2.
Example demo_run :
  (λ run, (run_status run, run_created run, run_launched run, run_pending run)) <$>
    (match (@StartFromChannel (quiet_env 0) demo_codec demo_runner demo_request 0%N
              empty_sys).1 with Ok run => Some run | Err _ => None end)
    = Some (InitiativeStatusExecuting, 1, 1, "running") ∧
  size (agent_queue demo_run_state AgentTypeCoder) = 1%nat ∧
  reviewed_in demo_run_state InitiativePhasePlan InitiativeReviewApproved = false.
Proof. split_and!; vm_compute; reflexivity. Qed.

