(* ===== verification/Objective.v ===== *)
(** * Objectives: data and decisions ([httpapi/objectives.go], [httpapi/bridges.go])

    An objective is an initiative whose tasks come from a contract of work items
    with dependencies, are queued as those complete, and are replaced by a repair
    cycle when validation or review asks for one.  This file holds the data, the
    reading of task metadata, the budgets and the decisions; what they change is in
    [ObjectiveRun]. *)
From S2P Require Import Prelude GoVal Rfc3339 Json JsonText Effects Domain Schema TaskStore Queue InitiativeApi.

(** ** Reading dynamic values *)

(** A slice that may be nil. *)
Abbreviation slice A := (option (list A)).
Definition items {A} (l : slice A) : list A := default [] l.

(** [int(v)] of a float64 given by its shortest decimal form: exact up to 2^53, the
    nearest float beyond, and the least integer when it does not fit (amd64). *)
Definition float_to_int (m e : Z) : Z :=
  let q := if 0 <=? e then m * 10 ^ e else Z.quot m (10 ^ (- e)) in
  if Z.abs q <=? 2 ^ 53 then q
  else
    let f := Z.sgn q * fl_pos (Z.abs q) 1 in
    if (- 2 ^ 63 <=? f) && (f <? 2 ^ 63) then f else - 2 ^ 63.

(** [orchestratorgo/httpapi/objectives.go:1641-1648] objectiveAsBool. *)
Definition objectiveAsBool (v : gval) : bool := match v with VBool b => b | _ => false end.

(** [orchestratorgo/httpapi/objectives.go:1661-1674] objectiveAsIntOK. *)
Definition objectiveAsIntOK (v : gval) : option Z :=
  match v with VInt z => Some z | VNum m e => Some (float_to_int m e) | _ => None end.

(** [orchestratorgo/httpapi/objectives.go:1650-1659] objectiveAsInt. *)
Definition objectiveAsInt (v : gval) (fallback : Z) : Z :=
  default fallback (objectiveAsIntOK v).

(** [orchestratorgo/httpapi/bridges.go:947-963] anyStringSliceHTTP. *)
Definition anyStringSliceHTTP (v : gval) : option (slice string) :=
  match v with
  | VStrs l => Some (Some l)
  | VNilStrs => Some None
  | VList l =>
      let out := filter (λ s, s ≠ "") ((λ x, trim_space (as_string x)) <$> l) in
      if decide (out = []) then None else Some (Some out)
  | _ => None
  end.
(** [orchestratorgo/httpapi/bridges.go:965-970] anyStringSliceHTTPDefault. *)
Definition anyStringSliceHTTPDefault (v : gval) (fallback : slice string) : slice string :=
  default fallback (anyStringSliceHTTP v).

(** [orchestratorgo/httpapi/bridges.go:972-977] nonNilMapHTTP. *)
Definition nonNilMapHTTP (m : option gmap_any) : gmap_any := default ∅ m.

(** [orchestratorgo/httpapi/objectives.go:676-699] anyMapSliceHTTPDefault, of a nil
    fallback. *)
Definition anyMapSliceHTTP (v : gval) : list gmap_any :=
  match v with
  | VMaps l => l
  | VList l => filter (λ m, m ≠ ∅) (omap only_map l)
  | _ => []
  end.

(** [orchestratorgo/httpapi/objectives.go:658-665] cloneMetadataMap. *)
Definition cloneMetadataMap (v : gval) : gmap_any := default ∅ (only_map v).

(** [orchestratorgo/httpapi/objectives.go:667-674] firstNonNilMap, of two values. *)
Definition firstNonNilMap (v w : gval) : gval :=
  match filter (λ m, m ≠ ∅) (omap only_map [v; w]) with m :: _ => VMap m | [] => VMap ∅ end.

(** A slice that is nil when it is empty. *)
Definition nil_if_empty {A} (l : list A) : slice A :=
  match l with [] => None | _ => Some l end.

(** [orchestratorgo/httpapi/objectives.go:1579-1600] objectiveUniqueStrings: the first
    of each, trimmed; nil when none is left. *)
Fixpoint unique_from (seen : list string) (l : list string) : list string :=
  match l with
  | [] => []
  | value :: l =>
      let trimmed := trim_space value in
      if (trimmed =?s "") || bool_decide (trimmed ∈ seen) then unique_from seen l
      else trimmed :: unique_from (trimmed :: seen) l
  end.
Definition objectiveUniqueStrings (values : list string) : slice string :=
  nil_if_empty (unique_from [] values).

(** The trimmed text at a key of a map that may be nil. *)
Definition text_at (m : gmap_any) (key : string) : string :=
  trim_space (as_string (mget m key)).

(** Slices and maps in an interface. The maps of a slice are only ever marshalled
    from it; one that is nil is written as null. *)
Definition strs_value (l : slice string) : gval :=
  match l with Some l => VStrs l | None => VNilStrs end.
Definition map_value (m : option gmap_any) : gval :=
  match m with Some m => VMap m | None => VNilMap end.
Definition maps_value (l : slice (option gmap_any)) : gval :=
  match l with Some l => VList (map_value <$> l) | None => VNil end.
Definition plain_maps (l : slice gmap_any) : gval :=
  match l with Some l => VMaps l | None => VNil end.
Definition int_value (o : option Z) : gval :=
  match o with Some z => VInt z | None => VNil end.

(** ** Work items and contracts *)

(** [orchestratorgo/domain/objectives.go:5-12] WorkItemKind: the kinds of work items. *)
Definition WorkItemKindResearch := "research".
Definition WorkItemKindAnalyze := "analyze".
Definition WorkItemKindEdit := "edit".
Definition WorkItemKindValidate := "validate".
Definition WorkItemKindReview := "review".
Definition WorkItemKindReplan := "replan".

(** [orchestratorgo/domain/objectives.go:23-39] WorkItem. *)
Record WorkItem := MkWorkItem {
  wi_id : string;
  wi_kind : string;
  wi_title : string;
  wi_description : string;
  wi_agent : string;
  wi_mode : string;
  wi_target : string;
  wi_backend : string;
  wi_depends_on : slice string;
  wi_approval : bool;
  wi_done : string;
  wi_commands : slice string;
  wi_paths : slice string;
  wi_tool_request : option gmap_any;
  wi_metadata : gmap_any;
}.
#[export] Instance eta_work_item : Eta WorkItem := λ w,
  MkWorkItem (wi_id w) (wi_kind w) (wi_title w) (wi_description w) (wi_agent w) (wi_mode w)
    (wi_target w) (wi_backend w) (wi_depends_on w) (wi_approval w) (wi_done w)
    (wi_commands w) (wi_paths w) (wi_tool_request w) (wi_metadata w).
(** [orchestratorgo/domain/objectives.go:60-70] ScopeHypothesis. *)
Record ScopeHypothesis := MkScope {
  sh_path : string;
  sh_rationale : string;
  sh_evidence : string;
  sh_confidence : string;
  sh_citations : slice string;
  sh_rank : Z;
  sh_score : Z;
  sh_disposition : string;
  sh_rejected : string;
}.
#[export] Instance eta_scope : Eta ScopeHypothesis := λ h,
  MkScope (sh_path h) (sh_rationale h) (sh_evidence h) (sh_confidence h) (sh_citations h)
    (sh_rank h) (sh_score h) (sh_disposition h) (sh_rejected h).
(** [orchestratorgo/domain/objectives.go:41-58] ExecutionContract. *)
Record ExecutionContract := MkContract {
  ec_title : string;
  ec_objective : string;
  ec_workspace_root : string;
  ec_backend : string;
  ec_strategy : string;
  ec_commands : slice string;
  ec_criteria : slice string;
  ec_budget : Z;
  ec_risk : string;
  ec_approval : bool;
  ec_paths : slice string;
  ec_scope : slice ScopeHypothesis;
  ec_rejected : slice ScopeHypothesis;
  ec_repository : string;
  ec_profile : string;
  ec_items : slice WorkItem;
}.
#[export] Instance eta_contract : Eta ExecutionContract := λ c,
  MkContract (ec_title c) (ec_objective c) (ec_workspace_root c) (ec_backend c)
    (ec_strategy c) (ec_commands c) (ec_criteria c) (ec_budget c) (ec_risk c)
    (ec_approval c) (ec_paths c) (ec_scope c) (ec_rejected c) (ec_repository c)
    (ec_profile c) (ec_items c).

(** *** Their JSON: the fields in order, [omitempty] leaving out the empty ones. *)
Definition no_items {A} (l : slice A) : bool := match l with None | Some [] => true | _ => false end.
Definition no_text (s : string) : bool := s =?s "".

(** A field, by what its dynamic value becomes. *)
Definition entry {V} (leaf : gval → V) (key : string) (v : gval) : list (string * V) :=
  [(key, leaf v)].
Definition entry_unless {V} (leaf : gval → V) (empty : bool) (key : string) (v : gval) :
    list (string * V) :=
  if empty then [] else [(key, leaf v)].

(** [orchestratorgo/domain/objectives.go:23-39] WorkItem: its JSON fields. *)
Definition work_item_fields (w : WorkItem) : list (string * gval) :=
  let entry := entry id in
  let entry_unless := entry_unless id in
  entry "id" (VStr (wi_id w)) ++ entry "kind" (VStr (wi_kind w))
  ++ entry "title" (VStr (wi_title w)) ++ entry "description" (VStr (wi_description w))
  ++ entry "assigned_agent" (VStr (wi_agent w)) ++ entry "execution_mode" (VStr (wi_mode w))
  ++ entry "execution_target" (VStr (wi_target w)) ++ entry "backend" (VStr (wi_backend w))
  ++ entry_unless (no_items (wi_depends_on w)) "depends_on" (strs_value (wi_depends_on w))
  ++ entry "approval_required" (VBool (wi_approval w))
  ++ entry "definition_of_done" (VStr (wi_done w))
  ++ entry_unless (no_items (wi_commands w)) "validation_commands" (strs_value (wi_commands w))
  ++ entry_unless (no_items (wi_paths w)) "suspected_paths" (strs_value (wi_paths w))
  ++ entry_unless (bool_decide (default ∅ (wi_tool_request w) = ∅)) "tool_request"
       (map_value (wi_tool_request w))
  ++ entry_unless (bool_decide (wi_metadata w = ∅)) "metadata" (VMap (wi_metadata w)).
(** [orchestratorgo/domain/objectives.go:60-70] ScopeHypothesis: its JSON fields. *)
Definition scope_fields (h : ScopeHypothesis) : list (string * gval) :=
  let entry := entry id in
  let entry_unless := entry_unless id in
  entry "path" (VStr (sh_path h)) ++ entry "rationale" (VStr (sh_rationale h))
  ++ entry_unless (no_text (sh_evidence h)) "evidence" (VStr (sh_evidence h))
  ++ entry_unless (no_text (sh_confidence h)) "confidence" (VStr (sh_confidence h))
  ++ entry_unless (no_items (sh_citations h)) "citation_refs" (strs_value (sh_citations h))
  ++ entry_unless (sh_rank h =? 0) "rank" (VInt (sh_rank h))
  ++ entry_unless (sh_score h =? 0) "score" (VInt (sh_score h))
  ++ entry_unless (no_text (sh_disposition h)) "disposition" (VStr (sh_disposition h))
  ++ entry_unless (no_text (sh_rejected h)) "rejected_because" (VStr (sh_rejected h)).
(** [orchestratorgo/domain/objectives.go:41-58] ExecutionContract: its JSON fields. *)
Definition contract_fields {V} (leaf : gval → V) (structs : slice (list (string * gval)) → V)
    (c : ExecutionContract) : list (string * V) :=
  let entry := entry leaf in
  let entry_unless := entry_unless leaf in
  entry "title" (VStr (ec_title c)) ++ entry "normalized_objective" (VStr (ec_objective c))
  ++ entry "workspace_root" (VStr (ec_workspace_root c))
  ++ entry "execution_backend" (VStr (ec_backend c))
  ++ entry "change_strategy" (VStr (ec_strategy c))
  ++ entry "validation_commands" (strs_value (ec_commands c))
  ++ entry "completion_criteria" (strs_value (ec_criteria c))
  ++ entry_unless (ec_budget c =? 0) "time_budget_seconds" (VInt (ec_budget c))
  ++ entry "risk_level" (VStr (ec_risk c)) ++ entry "approval_required" (VBool (ec_approval c))
  ++ entry_unless (no_items (ec_paths c)) "suspected_paths" (strs_value (ec_paths c))
  ++ (if no_items (ec_scope c) then []
      else [("initial_scope_hypotheses", structs (map scope_fields <$> ec_scope c))])
  ++ (if no_items (ec_rejected c) then []
      else [("rejected_scope_hypotheses", structs (map scope_fields <$> ec_rejected c))])
  ++ entry_unless (no_text (ec_repository c)) "repository_url" (VStr (ec_repository c))
  ++ entry_unless (no_text (ec_profile c)) "repo_profile" (VStr (ec_profile c))
  ++ [("work_items", structs (map work_item_fields <$> ec_items c))].

(** As a value of a metadata map, and as a text. *)
Definition contract_value (c : ExecutionContract) : gmap_any :=
  list_to_map (contract_fields id (λ l, plain_maps (map list_to_map <$> l)) c).
Definition contract_text (c : ExecutionContract) : string :=
  MarshalIndent (struct_jval (contract_fields to_jval (λ l,
    match l with
    | Some l => JArr ((λ fields, struct_jval (prod_map id to_jval <$> fields)) <$> l)
    | None => JNull
    end) c)).

(** *** Reading them back: [json.Unmarshal] of the marshalled value

    A field of the wrong type keeps what it had and makes the call fail, after the
    other fields; null leaves a field alone, or empties a slice or a map. A field is
    named by any text that folds to its name, in the order of the keys. (A second
    array for one field would be read over the elements of the first: here it
    replaces them.) *)
Definition reader A : Type := A → gval → A * bool.
Definition read_string : reader string := λ old v,
  match v with
  | VStr s => (s, true)
  | VTime t => (rfc3339 t, true)
  | VNil | VNilMap | VNilStrs => (old, true)
  | _ => (old, false)
  end.
Definition read_bool : reader bool := λ old v,
  match v with
  | VBool b => (b, true)
  | VNil | VNilMap | VNilStrs => (old, true)
  | _ => (old, false)
  end.
(** The integers among the numbers [encoding/json] writes, if they fit. *)
Definition int_of_number (m e : Z) : option Z :=
  let z := if 0 <=? e then m * 10 ^ e else m / 10 ^ (- e) in
  if ((0 <=? e) || (m mod 10 ^ (- e) =? 0)) && (- 2 ^ 63 <=? z) && (z <? 2 ^ 63)
  then Some z else None.
Definition read_int : reader Z := λ old v,
  match v with
  | VInt z => (z, true)
  | VNum m e => match int_of_number m e with Some z => (z, true) | None => (old, false) end
  | VNil | VNilMap | VNilStrs => (old, true)
  | _ => (old, false)
  end.
Definition read_list {A} (zero : A) (elem : reader A) (l : list gval) : slice A * bool :=
  let r := elem zero <$> l in (Some r.*1, forallb snd r).
Definition read_slice {A} (zero : A) (elem : reader A) : reader (slice A) := λ old v,
  match v with
  | VList l => read_list zero elem l
  | VStrs l => read_list zero elem (VStr <$> l)
  | VMaps l => read_list zero elem (VMap <$> l)
  | VNil | VNilMap | VNilStrs => (None, true)
  | _ => (old, false)
  end.
Definition read_map : reader (option gmap_any) := λ old v,
  match v with
  | VMap m => (Some (jsonb_map m ∪ default ∅ old), true)
  | VNil | VNilMap | VNilStrs => (None, true)
  | _ => (old, false)
  end.
(** A struct, by the readers of its fields. *)
Definition fields_of A : Type := list (string * (A → gval → A * bool)).
Definition field {A B} (name : string) (get : A → B) (set : A → B → A) (read : reader B) :
    string * (A → gval → A * bool) :=
  (name, λ a v, let '(b, ok) := read (get a) v in (set a b, ok)).
Definition field_named {A} (fs : fields_of A) (key : string) : option (A → gval → A * bool) :=
  snd <$> head (filter (λ f, f.1 = fold_ascii key) fs).
Definition read_field {A} (fs : fields_of A) (m : gmap_any) (r : A * bool) (key : string) :
    A * bool :=
  match field_named fs key with
  | Some f => let '(a, ok) := f r.1 (mget m key) in (a, ok && r.2)
  | None => r
  end.
Definition read_struct {A} (fs : fields_of A) : reader A := λ old v,
  match v with
  | VMap m => foldl (read_field fs m) (old, true) (sorted_keys m)
  | VNil | VNilMap | VNilStrs => (old, true)
  | _ => (old, false)
  end.

Definition no_work_item : WorkItem :=
  MkWorkItem "" "" "" "" "" "" "" "" None false "" None None None ∅.
(** [orchestratorgo/domain/objectives.go:23-39] WorkItem: reading its JSON fields. *)
Definition read_work_item : reader WorkItem := read_struct
  [field "id" wi_id (λ w x, w <| wi_id := x |>) read_string;
   field "kind" wi_kind (λ w x, w <| wi_kind := x |>) read_string;
   field "title" wi_title (λ w x, w <| wi_title := x |>) read_string;
   field "description" wi_description (λ w x, w <| wi_description := x |>) read_string;
   field "assigned_agent" wi_agent (λ w x, w <| wi_agent := x |>) read_string;
   field "execution_mode" wi_mode (λ w x, w <| wi_mode := x |>) read_string;
   field "execution_target" wi_target (λ w x, w <| wi_target := x |>) read_string;
   field "backend" wi_backend (λ w x, w <| wi_backend := x |>) read_string;
   field "depends_on" wi_depends_on (λ w x, w <| wi_depends_on := x |>)
     (read_slice "" read_string);
   field "approval_required" wi_approval (λ w x, w <| wi_approval := x |>) read_bool;
   field "definition_of_done" wi_done (λ w x, w <| wi_done := x |>) read_string;
   field "validation_commands" wi_commands (λ w x, w <| wi_commands := x |>)
     (read_slice "" read_string);
   field "suspected_paths" wi_paths (λ w x, w <| wi_paths := x |>) (read_slice "" read_string);
   field "tool_request" wi_tool_request (λ w x, w <| wi_tool_request := x |>) read_map;
   field "metadata" (λ w, Some (wi_metadata w)) (λ w x, w <| wi_metadata := default ∅ x |>)
     read_map].
Definition no_scope : ScopeHypothesis := MkScope "" "" "" "" None 0 0 "" "".
(** [orchestratorgo/domain/objectives.go:60-70] ScopeHypothesis: reading its JSON fields. *)
Definition read_scope : reader ScopeHypothesis := read_struct
  [field "path" sh_path (λ h x, h <| sh_path := x |>) read_string;
   field "rationale" sh_rationale (λ h x, h <| sh_rationale := x |>) read_string;
   field "evidence" sh_evidence (λ h x, h <| sh_evidence := x |>) read_string;
   field "confidence" sh_confidence (λ h x, h <| sh_confidence := x |>) read_string;
   field "citation_refs" sh_citations (λ h x, h <| sh_citations := x |>)
     (read_slice "" read_string);
   field "rank" sh_rank (λ h x, h <| sh_rank := x |>) read_int;
   field "score" sh_score (λ h x, h <| sh_score := x |>) read_int;
   field "disposition" sh_disposition (λ h x, h <| sh_disposition := x |>) read_string;
   field "rejected_because" sh_rejected (λ h x, h <| sh_rejected := x |>) read_string].
Definition no_contract : ExecutionContract :=
  MkContract "" "" "" "" "" None None 0 "" false None None None "" "" None.
(** [orchestratorgo/domain/objectives.go:41-58] ExecutionContract: reading its JSON fields. *)
Definition read_contract : reader ExecutionContract := read_struct
  [field "title" ec_title (λ c x, c <| ec_title := x |>) read_string;
   field "normalized_objective" ec_objective (λ c x, c <| ec_objective := x |>) read_string;
   field "workspace_root" ec_workspace_root (λ c x, c <| ec_workspace_root := x |>) read_string;
   field "execution_backend" ec_backend (λ c x, c <| ec_backend := x |>) read_string;
   field "change_strategy" ec_strategy (λ c x, c <| ec_strategy := x |>) read_string;
   field "validation_commands" ec_commands (λ c x, c <| ec_commands := x |>)
     (read_slice "" read_string);
   field "completion_criteria" ec_criteria (λ c x, c <| ec_criteria := x |>)
     (read_slice "" read_string);
   field "time_budget_seconds" ec_budget (λ c x, c <| ec_budget := x |>) read_int;
   field "risk_level" ec_risk (λ c x, c <| ec_risk := x |>) read_string;
   field "approval_required" ec_approval (λ c x, c <| ec_approval := x |>) read_bool;
   field "suspected_paths" ec_paths (λ c x, c <| ec_paths := x |>) (read_slice "" read_string);
   field "initial_scope_hypotheses" ec_scope (λ c x, c <| ec_scope := x |>)
     (read_slice no_scope read_scope);
   field "rejected_scope_hypotheses" ec_rejected (λ c x, c <| ec_rejected := x |>)
     (read_slice no_scope read_scope);
   field "repository_url" ec_repository (λ c x, c <| ec_repository := x |>) read_string;
   field "repo_profile" ec_profile (λ c x, c <| ec_profile := x |>) read_string;
   field "work_items" ec_items (λ c x, c <| ec_items := x |>)
     (read_slice no_work_item read_work_item)].

(** [orchestratorgo/httpapi/objectives.go:1618-1628] decodeObjectiveExecutionContract:
    what is decoded, and whether there was no error. *)
Definition decodeObjectiveExecutionContract (v : gval) : ExecutionContract * bool :=
  read_contract no_contract v.

(** ** What a bridge reports *)

(** [orchestratorgo/domain/bridge.go:55-76] LocalBridgeResultRequest. *)
Record LocalBridgeResult := MkResult {
  br_status : string;
  br_summary : option string;
  br_stdout : option string;
  br_stderr : option string;
  br_exit_code : option Z;
  br_diff : option string;
  br_changed : slice string;
  br_tests : option gmap_any;
  br_artifacts : slice (option gmap_any);
  br_error : option string;
  br_action : option string;
  br_resource : option string;
  br_timeout : option Z;
  br_decision : option string;
  br_comments : slice (option gmap_any);
  br_findings : slice (option gmap_any);
  br_usage : slice (option gmap_any);
  br_helped : slice string;
  br_noise : slice string;
  br_denied : slice string;
}.
(** [strings.ToLower(strings.TrimSpace(result.Status))] *)
Definition result_status (result : LocalBridgeResult) : string :=
  to_lower (trim_space (br_status result)).
(** The maps of a finding or a comment: reading a nil one finds nothing. *)
Definition finding_text (finding : option gmap_any) (key : string) : string :=
  text_at (default ∅ finding) key.

(** ** Iterations and the time budget *)

(** [orchestratorgo/httpapi/objectives.go:19-19] defaultObjectiveMaxIterations. *)
Definition defaultObjectiveMaxIterations : Z := 3.
(** [orchestratorgo/httpapi/objectives.go:1602-1608] objectiveIteration. *)
Definition objectiveIteration (metadata : gmap_any) : Z :=
  let iteration := objectiveAsInt (mget metadata "objective_iteration") 1 in
  if iteration <=? 0 then 1 else iteration.
(** [orchestratorgo/httpapi/objectives.go:1610-1616] objectiveMaxIterations. *)
Definition objectiveMaxIterations (metadata : gmap_any) : Z :=
  let value := objectiveAsInt (mget metadata "objective_max_iterations")
                 defaultObjectiveMaxIterations in
  if value <=? 0 then defaultObjectiveMaxIterations else value.
(** [orchestratorgo/httpapi/objectives.go:864-875] objectiveRemainingRetries. *)
Definition objectiveRemainingRetries (metadata : gmap_any) : Z :=
  let maxIterations := objectiveMaxIterations metadata in
  let iteration := objectiveIteration metadata in
  let maxIterations := if maxIterations <? iteration then iteration else maxIterations in
  let remaining := maxIterations - iteration in
  if remaining <? 0 then 0 else remaining.

(** [orchestratorgo/httpapi/objectives.go:807-828] objectiveTimeBudgetDetails: the
    budget, the deadline, and whether there is one. *)
Definition objectiveTimeBudgetDetails (metadata : gmap_any) : Z * Z * bool :=
  let budgetSeconds := objectiveAsInt (mget metadata "objective_time_budget_seconds") 0 in
  if budgetSeconds <=? 0 then (0, 0, false)
  else
    let deadlineRaw := text_at metadata "objective_deadline_at" in
    if deadlineRaw =?s "" then
      let startedRaw := text_at metadata "objective_started_at" in
      if startedRaw =?s "" then (budgetSeconds, 0, false)
      else
        match parse_rfc3339 startedRaw with
        | None => (budgetSeconds, 0, false)
        | Some startedAt => (budgetSeconds, startedAt + wrap64 (budgetSeconds * second), true)
        end
    else
      match parse_rfc3339 deadlineRaw with
      | None => (budgetSeconds, 0, false)
      | Some deadline => (budgetSeconds, deadline, true)
      end.

(** [orchestratorgo/httpapi/objectives.go:830-836] objectiveTimeBudgetExceeded. *)
Definition objectiveTimeBudgetExceeded (metadata : gmap_any) (now : Z) : bool :=
  let '(_, deadline, ok) := objectiveTimeBudgetDetails metadata in
  if negb ok || time_is_zero deadline then false else negb (now <? deadline).

(** [int(d.Seconds())] of a [time.Duration]: a float64 sum, cut to an integer. *)
Definition whole_seconds (d : Z) : Z :=
  let sec := Z.quot d second in
  let nsec := Z.rem d second in
  Z.quot (fl_div (sec * fl_unit + fl_div (nsec * fl_unit) second) 1) fl_unit.
(** [Time.Sub], which saturates. *)
Definition time_sub (t u : Z) : Z := Z.max (- 2 ^ 63) (Z.min (2 ^ 63 - 1) (t - u)).
(** [orchestratorgo/httpapi/objectives.go:838-851] objectiveRemainingBudgetSeconds. *)
Definition objectiveRemainingBudgetSeconds (metadata : gmap_any) (now : Z) : Z * Z * Z * bool :=
  let '(budgetSeconds, deadline, ok) := objectiveTimeBudgetDetails metadata in
  if negb ok || time_is_zero deadline then (0, 0, 0, false)
  else
    let remaining :=
      if now <? deadline then
        let remaining := whole_seconds (time_sub deadline now) in
        if remaining <? 0 then 0 else remaining
      else 0 in
    (budgetSeconds, remaining, deadline, true).

(** [orchestratorgo/httpapi/objectives.go:853-862] objectiveTimeBudgetExceededReason. *)
Definition objectiveTimeBudgetExceededReason (budgetSeconds deadline : Z) : string :=
  if budgetSeconds <=? 0 then "Objective time budget exhausted."
  else if time_is_zero deadline then
    "Objective time budget exhausted after " +:+ pretty budgetSeconds +:+ " seconds."
  else
    "Objective time budget exhausted after " +:+ pretty budgetSeconds +:+ " seconds (deadline "
    +:+ rfc3339 deadline +:+ ").".

(** ** Queueing: what the finished tasks tell the next one *)

(** [orchestratorgo/httpapi/objectives.go:448-460] objectiveDependenciesSatisfied. *)
Definition dependencies (metadata : gmap_any) : list string :=
  items (anyStringSliceHTTPDefault (mget metadata "depends_on") (Some [])).
Definition completed_item (byWorkItemID : gmap string InitiativeTaskLink) (dep : string) : bool :=
  match byWorkItemID !! dep with
  | Some item => bool_decide (task_state (link_task item) = TaskStateCompleted)
  | None => false
  end.
Definition objectiveDependenciesSatisfied (metadata : gmap_any)
    (byWorkItemID : gmap string InitiativeTaskLink) : bool :=
  forallb (completed_item byWorkItemID) (dependencies metadata).

(** [orchestratorgo/httpapi/objectives.go:538-552] objectiveSanitizeScopePaths. *)
Definition objectiveSanitizeScopePaths (paths : list string) : slice string :=
  objectiveUniqueStrings
    (filter (λ p, to_upper (trim_space p) ∉ [""; "PASS"; "FAIL"]) paths).
Definition synced_workstream (workstream : string) : bool :=
  bool_decide (workstream ∈ ["documentation_sync"; "config_sync"; "dependency_sync"]).
(** [orchestratorgo/httpapi/objectives.go:554-569] objectivePrioritizeWorkstreamScope. *)
Definition objectivePrioritizeWorkstreamScope (task : TaskResponse) (recommended : slice string) :
    slice string :=
  if no_items recommended then recommended
  else if negb (synced_workstream (text_at (task_metadata task) "objective_workstream")) then
    recommended
  else
    let currentScope := objectiveSanitizeScopePaths
      (items (anyStringSliceHTTPDefault (mget (task_metadata task) "suspected_paths") None)) in
    if no_items currentScope then recommended
    else objectiveUniqueStrings (items currentScope ++ items recommended).

Section Patches.
Context `{JsonCodec}.

(** [orchestratorgo/httpapi/objectives.go:613-627] decodeObjectiveResearchPayload,
    which is also [orchestratorgo/httpapi/objectives.go:629-643]
    decodeObjectiveAnalysisPayload: empty when there is none. *)
Definition decodeObjectivePayload (results : gval) : gmap_any :=
  let stdout := text_at (default ∅ (only_map results)) "stdout" in
  if stdout =?s "" then ∅ else default ∅ (json_unmarshal stdout).

Definition set_unless (empty : bool) (key : string) (v : gval) (patch : gmap_any) : gmap_any :=
  if empty then patch else <[key := v]> patch.
Definition set_text (key : string) (text : string) : gmap_any → gmap_any :=
  set_unless (text =?s "") key (VStr text).
Definition set_strs (key : string) (l : slice string) : gmap_any → gmap_any :=
  set_unless (no_items l) key (strs_value l).
Definition set_maps (key : string) (l : list gmap_any) : gmap_any → gmap_any :=
  set_unless (bool_decide (l = [])) key (VMaps l).

(** [orchestratorgo/httpapi/objectives.go:496-536] applyObjectiveResearchPatch. *)
Definition applyObjectiveResearchPatch (patch : gmap_any) (task : TaskResponse)
    (link : InitiativeTaskLink) : gmap_any :=
  let payload := decodeObjectivePayload (task_results (link_task link)) in
  let strs key := anyStringSliceHTTPDefault (mget payload key) None in
  let patch :=
    let scope := strs "recommended_scope_paths" in
    if no_items scope then patch
    else
      let scope := objectiveSanitizeScopePaths (items scope) in
      let scope := objectivePrioritizeWorkstreamScope task scope in
      let patch := <["suspected_paths" := strs_value scope]> patch in
      let projectRequest := cloneMetadataMap (mget (task_metadata task) "project_request") in
      <["project_request" := VMap (<["expected_files" := strs_value scope]> projectRequest)]>
        patch in
  let patch := set_text "objective_research_brief" (text_at payload "next_edit_brief") patch in
  let patch := set_strs "objective_research_recommendations" (strs "recommendations") patch in
  let patch := set_maps "objective_failure_hypotheses"
    (anyMapSliceHTTP (mget payload "failure_hypotheses")) patch in
  let patch := set_maps "objective_patch_intent"
    (anyMapSliceHTTP (mget payload "patch_intent")) patch in
  let patch := set_maps "objective_retrieval_precedents"
    (anyMapSliceHTTP (mget payload "retrieval_precedents")) patch in
  let patch := set_strs "excluded_scope_paths" (strs "excluded_scope_paths") patch in
  let patch := set_text "planner_scope_resolution"
    (text_at payload "planner_scope_resolution") patch in
  let patch := set_text "planner_rejected_scope_resolution"
    (text_at payload "planner_rejected_scope_resolution") patch in
  set_text "scope_correction_reason" (text_at payload "scope_correction_reason") patch.

(** [orchestratorgo/httpapi/objectives.go:645-656] objectiveAnalysisScopePaths. *)
Definition objectiveAnalysisScopePaths (findings : list gmap_any) : slice string :=
  objectiveUniqueStrings
    (filter (λ p, p ≠ "")
       ((λ finding, text_at (cloneMetadataMap (mget finding "location")) "file") <$> findings)).

(** [orchestratorgo/httpapi/objectives.go:571-592] applyObjectiveAnalysisPatch. *)
Definition applyObjectiveAnalysisPatch (patch : gmap_any) (task : TaskResponse)
    (link : InitiativeTaskLink) : gmap_any :=
  let payload := decodeObjectivePayload (task_results (link_task link)) in
  if decide (payload = ∅) then patch
  else
    let findings := anyMapSliceHTTP (mget payload "findings") in
    let patch := set_maps "objective_analysis_findings" findings patch in
    let summary := cloneMetadataMap (mget payload "summary") in
    let patch := set_unless (bool_decide (summary = ∅)) "objective_analysis_summary"
                   (VMap summary) patch in
    let scopeFromAnalysis := objectiveAnalysisScopePaths findings in
    if no_items scopeFromAnalysis then patch
    else
      let existing := anyStringSliceHTTPDefault (mget patch "suspected_paths")
        (anyStringSliceHTTPDefault (mget (task_metadata task) "suspected_paths") None) in
      let merged := objectiveUniqueStrings (items scopeFromAnalysis ++ items existing) in
      let patch := <["suspected_paths" := strs_value merged]> patch in
      let projectRequest := cloneMetadataMap
        (firstNonNilMap (mget patch "project_request")
                        (mget (task_metadata task) "project_request")) in
      <["project_request" := VMap (<["expected_files" := strs_value merged]> projectRequest)]>
        patch.

(** [orchestratorgo/httpapi/objectives.go:594-611] applyObjectiveBaselineValidatePatch. *)
Definition applyObjectiveBaselineValidatePatch (patch : gmap_any) (link : InitiativeTaskLink) :
    gmap_any :=
  let results := default ∅ (only_map (task_results (link_task link))) in
  let testResults := cloneMetadataMap (mget results "test_results") in
  let patch := set_unless (bool_decide (testResults = ∅)) "objective_baseline_test_results"
                 (VMap testResults) patch in
  let patch := set_maps "objective_baseline_findings"
                 (anyMapSliceHTTP (mget results "findings")) patch in
  let patch := set_text "objective_baseline_summary" (text_at results "summary") patch in
  set_text "objective_baseline_stdout" (text_at results "stdout") patch.

(** [orchestratorgo/httpapi/objectives.go:462-494] objectiveQueueMetadataPatch: empty
    for nil. *)
Definition apply_dependency (task : TaskResponse) (byWorkItemID : gmap string InitiativeTaskLink)
    (patch : gmap_any) (depID : string) : gmap_any :=
  match byWorkItemID !! depID with
  | None => patch
  | Some link =>
      if negb (bool_decide (task_state (link_task link) = TaskStateCompleted)) then patch
      else
        let metadata := task_metadata (link_task link) in
        let kind := text_at metadata "work_item_kind" in
        if (kind =?s WorkItemKindResearch) || (kind =?s WorkItemKindReplan) then
          applyObjectiveResearchPatch patch task link
        else if kind =?s WorkItemKindAnalyze then applyObjectiveAnalysisPatch patch task link
        else if (kind =?s WorkItemKindValidate)
                && objectiveAsBool (mget metadata "objective_baseline_validation") then
          applyObjectiveBaselineValidatePatch patch link
        else patch
  end.
Definition objectiveQueueMetadataPatch (task : TaskResponse)
    (byWorkItemID : gmap string InitiativeTaskLink) : gmap_any :=
  if negb (text_at (task_metadata task) "work_item_kind" =?s WorkItemKindEdit) then ∅
  else foldl (apply_dependency task byWorkItemID) ∅ (dependencies (task_metadata task)).
End Patches.

(** ** Repair cycles *)

(** [orchestratorgo/httpapi/objectives.go:984-1010] shouldStartObjectiveRepairCycle. *)
Definition shouldStartObjectiveRepairCycle (task : TaskResponse) (result : LocalBridgeResult)
    (now : Z) : bool :=
  let metadata := task_metadata task in
  match task_initiative task with
  | None => false
  | Some _ =>
      if negb (objectiveAsBool (mget metadata "objective_entrypoint")) then false
      else if objectiveAsBool (mget metadata "objective_baseline_validation") then false
      else if objectiveTimeBudgetExceeded metadata now then false
      else if objectiveMaxIterations metadata <=? objectiveIteration metadata then false
      else
        let kind := text_at metadata "work_item_kind" in
        if kind =?s WorkItemKindValidate then negb (result_status result =?s "success")
        else if kind =?s WorkItemKindReview then
          equal_fold (derefString (br_decision result)) "changes_requested"
        else false
  end.

(** [orchestratorgo/httpapi/objectives.go:1406-1430] objectiveRepairFeedback. *)
Definition comment_line (comment : option gmap_any) : list string :=
  let message := finding_text comment "message" in
  if message =?s "" then []
  else
    let severity := finding_text comment "severity" in
    if severity =?s "" then [message] else ["[" +:+ severity +:+ "] " +:+ message].
Definition objectiveRepairFeedback (result : LocalBridgeResult) : string :=
  let parts :=
    filter (λ s, s ≠ "") [trim_space (derefString (br_summary result));
                          trim_space (derefString (br_error result))]
    ++ (items (br_comments result) ≫= comment_line) in
  match parts with
  | [] => "Validation or review reported changes are required."
  | _ => sjoin nl parts
  end.

(** [orchestratorgo/httpapi/objectives.go:1432-1437] objectivePriorFindings. *)
Definition objectivePriorFindings (result : LocalBridgeResult) : slice (option gmap_any) :=
  if no_items (br_findings result) then br_comments result else br_findings result.

(** [orchestratorgo/httpapi/objectives.go:1525-1543] objectiveFindingMessageForPath. *)
Definition about_path (path : string) (finding : option gmap_any) : bool :=
  let message := finding_text finding "message" in
  let findingPath := finding_text finding "path" in
  negb (message =?s "")
  && ((path =?s "") || (negb (findingPath =?s "") && (findingPath =?s path))
      || contains path message).
Definition objectiveFindingMessageForPath (findings : list (option gmap_any)) (path : string) :
    string :=
  match filter (λ f, about_path path f) findings with
  | finding :: _ => finding_text finding "message"
  | [] => ""
  end.
(** [orchestratorgo/httpapi/objectives.go:1545-1565] objectiveFirstFindingForPath. *)
Definition objectiveFirstFindingForPath (findings : list (option gmap_any)) (path : string) :
    option gmap_any :=
  match filter (λ f, about_path path f) findings with
  | finding :: _ => finding
  | [] => match findings with finding :: _ => finding | [] => None end
  end.
(** [orchestratorgo/httpapi/objectives.go:1567-1577] objectiveFirstFailureHypothesisForPath. *)
Definition objectiveFirstFailureHypothesisForPath (hypotheses : list gmap_any) (path : string) :
    option gmap_any :=
  match filter (λ h, text_at h "path" ≠ "" ∧ text_at h "path" = path) hypotheses with
  | h :: _ => Some h
  | [] => head hypotheses
  end.

(** [orchestratorgo/httpapi/objectives.go:1482-1523] objectiveRepairFailureHypotheses. *)
Definition exit_evidence (result : LocalBridgeResult) : option string :=
  match objectiveAsIntOK (mget (default ∅ (br_tests result)) "exit_code") with
  | Some exitCode =>
      if exitCode =? 0 then None
      else Some ("Declared validation command exited with code " +:+ pretty exitCode +:+ ".")
  | None => None
  end.
Definition path_hypothesis (result : LocalBridgeResult) (path : string) : gmap_any :=
  let hypothesis : gmap_any := list_to_map
    [("path", VStr path); ("failure_mode", VStr "targeted_regression");
     ("priority", VStr "medium")] in
  let hypothesis :=
    match exit_evidence result with
    | Some evidence =>
        <["evidence" := VStr evidence]> (<["priority" := VStr "high"]>
          (<["failure_mode" := VStr "validation_failure"]> hypothesis))
    | None => hypothesis
    end in
  match objectiveFirstFindingForPath (items (br_findings result)) path with
  | Some finding =>
      let hypothesis := set_text "failure_mode" (text_at finding "kind") hypothesis in
      let hypothesis := set_text "priority" (text_at finding "severity") hypothesis in
      set_text "evidence" (text_at finding "message") hypothesis
  | None => hypothesis
  end.
Definition objectiveRepairFailureHypotheses (result : LocalBridgeResult) (suspectedPaths : slice string) :
    slice gmap_any :=
  let paths := items (objectiveUniqueStrings (items suspectedPaths)) in
  if bool_decide (paths = []) && no_items (br_findings result)
     && bool_decide (default ∅ (br_tests result) = ∅) then None
  else
    match paths with
    | [] =>
        let hypothesis : gmap_any := list_to_map
          [("failure_mode", VStr "validation_failure"); ("priority", VStr "high")] in
        Some [match exit_evidence result with
              | Some evidence => <["evidence" := VStr evidence]> hypothesis
              | None => hypothesis
              end]
    | _ => Some (path_hypothesis result <$> paths)
    end.

(** [orchestratorgo/httpapi/objectives.go:1439-1480] objectiveRepairPatchIntent. *)
Definition path_intent (result : LocalBridgeResult) (hypotheses : list gmap_any) (path : string) :
    gmap_any :=
  let intent : gmap_any := list_to_map
    [("path", VStr path);
     ("action", VStr "repair the failing behavior in this file and avoid unrelated edits")] in
  match objectiveFirstFailureHypothesisForPath hypotheses path with
  | Some hypothesis =>
      let failureMode := text_at hypothesis "failure_mode" in
      let intent := set_text "failure_mode" failureMode intent in
      let intent :=
        if failureMode =?s "validation_failure" then
          <["action" := VStr "repair the validation failure in this file and rerun the declared test command before widening scope"]> intent
        else if failureMode =?s "missing_diff" then
          <["action" := VStr "produce the missing code change in this file and verify the diff exists before review"]> intent
        else intent in
      let intent := set_text "priority" (text_at hypothesis "priority") intent in
      set_text "rationale" (text_at hypothesis "evidence") intent
  | None =>
      set_text "rationale"
        (objectiveFindingMessageForPath (items (br_findings result)) path) intent
  end.
Definition objectiveRepairPatchIntent (result : LocalBridgeResult) (suspectedPaths : slice string) :
    slice gmap_any :=
  let hypotheses := items (objectiveRepairFailureHypotheses result suspectedPaths) in
  let paths := items (objectiveUniqueStrings (items suspectedPaths)) in
  match paths with
  | [] =>
      if no_items (br_findings result) then None
      else Some [list_to_map
        [("action", VStr "repair the highest-severity finding and keep the patch narrow");
         ("rationale",
            VStr (objectiveFindingMessageForPath (items (br_findings result)) ""))]]
  | _ => Some (path_intent result hypotheses <$> paths)
  end.

(** [orchestratorgo/httpapi/objectives.go:1345-1372] objectiveRepairAnalysisTypes. *)
Definition add_type (types : list string) (value : string) : list string :=
  if bool_decide (value ∈ types) then types else types ++ [value].
Definition analysis_types_of (kind : string) : list string :=
  if bool_decide (kind ∈ ["planner_rejected_scope_contradicted"; "research_scope_contradicted";
       "missing_diff"; "planner_scope_contradicted"; "retrieval_scope_contradicted"])
  then ["complexity"; "lint"]
  else if kind =?s "validation_failure" then ["dependencies"; "security"]
  else [].
Definition objectiveRepairAnalysisTypes (result : LocalBridgeResult) : list string :=
  foldl (λ types f, foldl add_type types (analysis_types_of (finding_text f "kind")))
    [] (items (br_findings result)).

(** [orchestratorgo/httpapi/objectives.go:1324-1343] shouldInsertObjectiveCodeAnalysis. *)
Definition shouldInsertObjectiveCodeAnalysis (result : LocalBridgeResult)
    (analysisTypes : list string) : bool :=
  negb (bool_decide (analysisTypes = []))
  && existsb (λ f,
       let kind := finding_text f "kind" in
       bool_decide (kind ∈ ["planner_rejected_scope_contradicted"; "planner_scope_contradicted";
         "research_scope_contradicted"; "retrieval_scope_contradicted"; "missing_diff"])
       || ((kind =?s "validation_failure") && no_items (br_changed result)))
     (items (br_findings result)).

(** [orchestratorgo/httpapi/objectives.go:1374-1386]
    shouldInsertObjectiveRepairBaselineValidation. *)
Definition shouldInsertObjectiveRepairBaselineValidation (result : LocalBridgeResult) : bool :=
  existsb (λ f,
    let kind := finding_text f "kind" in
    bool_decide (kind ∈ ["planner_scope_contradicted"; "planner_rejected_scope_contradicted";
      "retrieval_scope_contradicted"; "missing_diff"])
    || ((kind =?s "validation_failure") && no_items (br_changed result)))
  (items (br_findings result)).

(** [orchestratorgo/httpapi/objectives.go:1388-1404] objectiveRepairBaselineReason. *)
Definition baseline_reason (result : LocalBridgeResult) (finding : option gmap_any) :
    option string :=
  let kind := finding_text finding "kind" in
  let reproduce cause :=
    Some ("Reproduce the current validation state before the next repair edit because "
          +:+ cause) in
  if kind =?s "retrieval_scope_contradicted" then
    reproduce "the latest diff contradicted the retrieved precedent carried into the attempt."
  else if kind =?s "planner_scope_contradicted" then
    reproduce "the latest diff contradicted the planner shortlist and the next scope must be re-anchored."
  else if kind =?s "planner_rejected_scope_contradicted" then
    reproduce "the last patch landed in a path the planner had rejected."
  else if kind =?s "missing_diff" then
    reproduce "the previous attempt did not leave a usable diff."
  else if (kind =?s "validation_failure") && no_items (br_changed result) then
    reproduce "validation failed without leaving a narrowed diff."
  else None.
Definition objectiveRepairBaselineReason (result : LocalBridgeResult) : string :=
  default "Reproduce the current validation state before the next repair edit."
    (head (omap (baseline_reason result) (items (br_findings result)))).

(** [orchestratorgo/httpapi/objectives.go:1280-1287] objectiveRepairWorkstream. *)
Record objectiveRepairWorkstream := MkWorkstream {
  ws_id : string;
  ws_name : string;
  ws_title : string;
  ws_description : string;
  ws_done : string;
  ws_paths : slice string;
}.
(** [orchestratorgo/httpapi/objectives.go:1289-1322] objectiveRepairSecondaryWorkstreams. *)
Definition secondary_workstream (item : WorkItem) : option objectiveRepairWorkstream :=
  if negb (wi_kind item =?s WorkItemKindEdit) then None
  else
    let name := text_at (wi_metadata item) "objective_workstream" in
    if negb (synced_workstream name) then None
    else
      let id := trim_space (wi_id item) in
      if (id =?s "") || (id =?s "edit") then None
      else
        let paths := objectiveUniqueStrings (items (wi_paths item)) in
        if no_items paths then None
        else Some (MkWorkstream id name (wi_title item) (wi_description item) (wi_done item) paths).
Definition objectiveRepairSecondaryWorkstreams (contract : ExecutionContract) :
    list objectiveRepairWorkstream :=
  omap secondary_workstream (items (ec_items contract)).

(** [orchestratorgo/httpapi/objectives.go:1012-1078] buildObjectiveRepairCycle: the
    values its work items share. *)
Record RepairPlan := MkRepairPlan {
  rp_iteration : Z;
  rp_task : string;
  rp_workspace_root : string;
  rp_project_root : string;
  rp_project_name : string;
  rp_commands : slice string;
  rp_paths : slice string;
  rp_feedback : string;
  rp_hypotheses : slice gmap_any;
  rp_intent : slice gmap_any;
  rp_base : gmap_any;
  rp_request : gmap_any;
}.
Definition repair_plan (contract : ExecutionContract) (task : TaskResponse)
    (result : LocalBridgeResult) (workspaceRoot : string) : RepairPlan :=
  let metadata := task_metadata task in
  let iteration := objectiveIteration metadata + 1 in
  let projectRequest := cloneMetadataMap (mget metadata "project_request") in
  let validationCommands :=
    if no_items (ec_commands contract) then
      anyStringSliceHTTPDefault (mget metadata "validation_commands")
        (Some ["git"; "diff"; "--no-ext-diff"])
    else ec_commands contract in
  let suspectedPaths :=
    if no_items (ec_paths contract) then
      anyStringSliceHTTPDefault (mget metadata "suspected_paths") (Some [])
    else ec_paths contract in
  let suspectedPaths :=
    objectiveUniqueStrings
      (items (if no_items (br_changed result) then suspectedPaths else br_changed result)) in
  let feedback := objectiveRepairFeedback result in
  let failureHypotheses := objectiveRepairFailureHypotheses result suspectedPaths in
  let patchIntent := objectiveRepairPatchIntent result suspectedPaths in
  let base := list_to_map
    [("objective_iteration", VInt iteration);
     ("objective_max_iterations", VInt (objectiveMaxIterations metadata));
     ("objective_repair_origin_task_id", VStr (task_id task));
     ("objective_repair_feedback", VStr feedback);
     ("review_comments", maps_value (br_comments result));
     ("objective_findings", maps_value (br_findings result));
     ("objective_failure_hypotheses", plain_maps failureHypotheses);
     ("objective_patch_intent", plain_maps patchIntent)] ∪ metadata in
  let base :=
    match br_decision result with
    | Some decision => <["review_decision" := VStr (trim_space decision)]> base
    | None => base
    end in
  let request := list_to_map
    [("goal", VStr (ec_objective contract +:+ nl +:+ nl
                    +:+ "Address the latest repair feedback:" +:+ nl +:+ feedback));
     ("test_focus", VStr ("objective repair iteration " +:+ pretty iteration));
     ("test_command", strs_value validationCommands);
     ("expected_files", strs_value suspectedPaths)] ∪ projectRequest in
  {| rp_iteration := iteration;
     rp_task := task_id task;
     rp_workspace_root := workspaceRoot;
     rp_project_root := firstNonEmptyString [text_at projectRequest "project_root"; "."];
     rp_project_name := firstNonEmptyString
       [text_at projectRequest "project_name"; path_base workspaceRoot; "repo"];
     rp_commands := validationCommands;
     rp_paths := suspectedPaths;
     rp_feedback := feedback;
     rp_hypotheses := failureHypotheses;
     rp_intent := patchIntent;
     rp_base := base;
     rp_request := request |}.

Section RepairItems.
Variables (p : RepairPlan) (contract : ExecutionContract) (result : LocalBridgeResult).

(** [orchestratorgo/httpapi/objectives.go:1064-1077] buildObjectiveRepairCycle: the ids
    and the metadata of the items, *)
Definition numbered (prefix : string) : string := prefix +:+ "-" +:+ pretty (rp_iteration p).
Definition repair_metadata : gmap_any := <["project_request" := VMap (rp_request p)]> (rp_base p).
(** what every item has in common, *)
Definition repair_item (id kind title description agent backend : string) (dependsOn : slice string)
    (done : string) (paths : slice string) (tool metadata : gmap_any) : WorkItem :=
  {| wi_id := id; wi_kind := kind; wi_title := title; wi_description := description;
     wi_agent := agent; wi_mode := TaskLaunchModeAgentLocal; wi_target := ExecutionTargetLocal;
     wi_backend := backend; wi_depends_on := dependsOn; wi_approval := false; wi_done := done;
     wi_commands := None; wi_paths := paths; wi_tool_request := Some tool;
     wi_metadata := metadata |}.
Definition with_commands (w : WorkItem) : WorkItem := w <| wi_commands := rp_commands p |>.

(** [orchestratorgo/httpapi/objectives.go:1084-1108] buildObjectiveRepairCycle: the
    replanning, *)
Definition replan_item : WorkItem :=
  repair_item (numbered "replan") WorkItemKindReplan
    ("Replan objective iteration " +:+ pretty (rp_iteration p))
    ("Summarize the latest validation and review findings for repair iteration "
     +:+ pretty (rp_iteration p) +:+ ".")
    AgentTypeResearcher "local_bridge" None
    "Repair findings are summarized and persisted for the next edit attempt."
    (rp_paths p)
    (list_to_map
       [("tool", VStr "research_project"); ("project_request", VMap (rp_request p));
        ("prior_findings", maps_value (objectivePriorFindings result));
        ("prior_test_results", map_value (br_tests result));
        ("prior_changed_files", strs_value (br_changed result));
        ("repair_feedback", VStr (rp_feedback p));
        ("failure_hypotheses", plain_maps (rp_hypotheses p));
        ("patch_intent", plain_maps (rp_intent p))])
    repair_metadata.
(** [orchestratorgo/httpapi/objectives.go:1110-1137] buildObjectiveRepairCycle: the
    baseline validation, *)
Definition run_tests_request : gmap_any :=
  list_to_map [("tool", VStr "run_tests"); ("argv", strs_value (rp_commands p))].
Definition baseline_item : WorkItem :=
  with_commands (repair_item (numbered "validate-baseline") WorkItemKindValidate
    ("Reproduce baseline before repair iteration " +:+ pretty (rp_iteration p))
    (objectiveRepairBaselineReason result) AgentTypeReviewer "local_bridge"
    (Some [numbered "replan"])
    "Baseline validation evidence is refreshed before the next repair edit."
    (rp_paths p) run_tests_request
    (list_to_map
       [("objective_baseline_validation", VBool true);
        ("objective_baseline_reason", VStr (objectiveRepairBaselineReason result));
        ("objective_next_action_after_success", VStr "edit")] ∪ repair_metadata)).
(** [orchestratorgo/httpapi/objectives.go:1138-1163] buildObjectiveRepairCycle: the
    analysis, *)
Definition analyze_item (analysisTypes : list string) : WorkItem :=
  repair_item (numbered "analyze") WorkItemKindAnalyze
    ("Analyze repair iteration " +:+ pretty (rp_iteration p))
    "Run static analysis before the next repair edit because the latest findings suggest a structural issue."
    AgentTypeReviewer "local_bridge" (Some [numbered "replan"])
    "Static analysis findings are persisted and available to the next edit."
    (rp_paths p)
    (list_to_map [("tool", VStr "code_analysis"); ("project_root", VStr (rp_project_root p));
                  ("analysis_types", VStrs analysisTypes)])
    (list_to_map [("objective_analysis_types", VStrs analysisTypes);
                  ("objective_next_action_after_success", VStr "edit")] ∪ repair_metadata).
(** [orchestratorgo/httpapi/objectives.go:1164-1190] buildObjectiveRepairCycle: the
    edit, *)
Definition aider_request (taskID description : string) : gmap_any :=
  list_to_map
    [("tool", VStr "run_command");
     ("argv", VStrs ["aider-task"; "--task-id"; taskID; "--repo"; rp_project_name p;
                     "--description"; description])].
Definition edit_item (dependsOn : list string) : WorkItem :=
  let description := ec_objective contract +:+ nl +:+ nl
    +:+ "Address this repair feedback before finishing:" +:+ nl +:+ rp_feedback p in
  with_commands (repair_item (numbered "edit") WorkItemKindEdit
    ("Apply repair iteration " +:+ pretty (rp_iteration p) +:+ " with aider") description
    AgentTypeCoder "aider-task" (Some dependsOn)
    "Aider addresses the latest findings and produces a fresh diff."
    (rp_paths p) (aider_request (numbered (rp_task p)) description) repair_metadata)
  <| wi_approval := true |>.
(** [orchestratorgo/httpapi/objectives.go:1191-1228] buildObjectiveRepairCycle: the
    edits of the further workstreams, *)
Definition workstream_item (ws : objectiveRepairWorkstream) (after : string) : WorkItem :=
  with_commands (repair_item (numbered (ws_id ws)) WorkItemKindEdit (ws_title ws)
    (ws_description ws) AgentTypeCoder "aider-task" (Some [after]) (ws_done ws) (ws_paths ws)
    (aider_request (numbered (rp_task p +:+ "-" +:+ ws_id ws)) (ws_description ws))
    (list_to_map
       [("objective_workstream", VStr (ws_name ws));
        ("suspected_paths", strs_value (ws_paths ws));
        ("project_request",
           VMap (<["goal" := VStr (ws_description ws)]>
                 (<["expected_files" := strs_value (ws_paths ws)]> (rp_request p))))]
     ∪ repair_metadata))
  <| wi_approval := true |>.
(** which form a chain after [after], while the paths to validate grow, *)
Fixpoint workstream_items (l : list objectiveRepairWorkstream) (after : string)
    (paths : slice string) : list WorkItem * string * slice string :=
  match l with
  | [] => ([], after, paths)
  | ws :: l =>
      let '(rest, last, paths) := workstream_items l (numbered (ws_id ws))
        (objectiveUniqueStrings (items paths ++ items (ws_paths ws))) in
      (workstream_item ws after :: rest, last, paths)
  end.
(** [orchestratorgo/httpapi/objectives.go:1229-1248] buildObjectiveRepairCycle: the
    validation, *)
Definition validate_item (after : string) (paths : slice string) : WorkItem :=
  with_commands (repair_item (numbered "validate") WorkItemKindValidate
    ("Run validation for iteration " +:+ pretty (rp_iteration p))
    "Execute validation again after the repair edit." AgentTypeReviewer "local_bridge"
    (Some [after]) "Validation output is persisted for the repaired change set." paths
    run_tests_request repair_metadata).
(** [orchestratorgo/httpapi/objectives.go:1249-1276] buildObjectiveRepairCycle: the
    review, *)
Definition review_item (paths : slice string) : WorkItem :=
  with_commands (repair_item (numbered "review") WorkItemKindReview
    ("Review repair iteration " +:+ pretty (rp_iteration p))
    "Review the repaired diff and validation evidence." AgentTypeReviewer "local_bridge"
    (Some [numbered "validate"]) "Review decides whether the repaired iteration is approved."
    paths
    (list_to_map
       [("tool", VStr "review_workspace"); ("project_root", VStr (rp_project_root p));
        ("test_command", strs_value (rp_commands p));
        ("execution_contract",
           VMap (list_to_map
             [("title", VStr (ec_title contract));
              ("normalized_objective", VStr (ec_objective contract));
              ("workspace_root", VStr (rp_workspace_root p));
              ("iteration", VInt (rp_iteration p));
              ("repair_feedback", VStr (rp_feedback p))]))])
    repair_metadata).
(** [orchestratorgo/httpapi/objectives.go:1079-1277] buildObjectiveRepairCycle: and all
    of them, in order. *)
Definition repair_items : list WorkItem :=
  let analysisTypes := objectiveRepairAnalysisTypes result in
  let insertAnalysis := shouldInsertObjectiveCodeAnalysis result analysisTypes in
  let insertBaselineValidate := shouldInsertObjectiveRepairBaselineValidation result in
  let '(further, finalEditID, finalValidatePaths) :=
    workstream_items (objectiveRepairSecondaryWorkstreams contract) (numbered "edit")
      (objectiveUniqueStrings (items (rp_paths p))) in
  [replan_item]
  ++ (if insertBaselineValidate then [baseline_item] else [])
  ++ (if insertAnalysis then [analyze_item analysisTypes] else [])
  ++ [edit_item
        ([numbered "replan"]
         ++ (if insertBaselineValidate then [numbered "validate-baseline"] else [])
         ++ (if insertAnalysis then [numbered "analyze"] else []))]
  ++ further
  ++ [validate_item finalEditID finalValidatePaths; review_item finalValidatePaths].
End RepairItems.
(** [orchestratorgo/httpapi/objectives.go:1012-1278] buildObjectiveRepairCycle. *)
Definition buildObjectiveRepairCycle (contract : ExecutionContract) (task : TaskResponse)
    (result : LocalBridgeResult) : res (list WorkItem) :=
  let workspaceRoot := firstNonEmptyString
    [trim_space (ec_workspace_root contract); text_at (task_metadata task) "workspace_root"] in
  if workspaceRoot =?s "" then
    Err (ErrText "workspace_root is required to build repair cycle")
  else
    Ok (repair_items (repair_plan contract task result workspaceRoot) contract result).

(** [orchestratorgo/httpapi/objectives.go:701-712] priorityForWorkItem. *)
Definition priorityForWorkItem (item : WorkItem) : string :=
  if wi_kind item =?s WorkItemKindEdit then PriorityHigh else PriorityNormal.

(** ** A repair cycle can run *)

(** Every item depends on items before it only (or on [known] ones). *)
Fixpoint ordered (known : list string) (l : list WorkItem) : Prop :=
  match l with
  | [] => True
  | w :: l => items (wi_depends_on w) ⊆ known ∧ ordered (wi_id w :: known) l
  end.
Lemma ordered_weaken l : ∀ known known', known ⊆ known' → ordered known l → ordered known' l.
Proof.
  induction l as [|w l IH]; intros known known' Hsub; [done|]. cbn. intros [Hw Hl].
  split; [set_solver|]. eapply IH; [|exact Hl]. set_solver.
Qed.
Lemma ordered_app l1 : ∀ known l2,
  ordered known l1 → ordered ((wi_id <$> l1) ++ known) l2 → ordered known (l1 ++ l2).
Proof.
  induction l1 as [|w l1 IH]; intros known l2; cbn; [done|]. intros [Hw Hl] H2.
  split; [done|]. apply IH; [done|]. eapply ordered_weaken; [|exact H2]. set_solver.
Qed.
Lemma workstreams_ordered p l : ∀ after paths known further last paths',
  workstream_items p l after paths = (further, last, paths') → after ∈ known →
  ordered known further ∧ (last ∈ known ∨ last ∈ wi_id <$> further).
Proof.
  induction l as [|ws l IH]; intros after paths known further last paths' Hrun Hafter; cbn in Hrun.
  { injection Hrun as <- <- <-. split; [done|by left]. }
  destruct (workstream_items p l _ _) as [[rest last'] paths''] eqn:Hrest.
  injection Hrun as <- <- <-.
  destruct (IH _ _ (numbered p (ws_id ws) :: known) _ _ _ Hrest) as [Hord Hlast]; [left|].
  cbn. split; [split; [set_solver|done]|]. set_solver.
Qed.

(** The keys that count the cycles. *)
Definition counts (m : gmap_any) : option gval * option gval :=
  (m !! "objective_iteration", m !! "objective_max_iterations").
Lemma counts_insert m k v :
  k ≠ "objective_iteration" → k ≠ "objective_max_iterations" → counts (<[k:=v]> m) = counts m.
Proof. intros H1 H2. unfold counts. by rewrite !lookup_insert_ne. Qed.
Lemma counts_union (extra : list (string * gval)) m :
  Forall (λ kv, kv.1 ≠ "objective_iteration" ∧ kv.1 ≠ "objective_max_iterations") extra →
  counts (list_to_map extra ∪ m) = counts m.
Proof.
  induction 1 as [|[k v] extra [H1 H2] _ IH]; cbn; [by rewrite (left_id_L ∅ (∪))|].
  rewrite <- insert_union_l. by rewrite counts_insert.
Qed.
Ltac counts_easy :=
  repeat first [rewrite counts_insert by discriminate
               |rewrite counts_union by (repeat constructor; discriminate)].
(** The counts as a task that is stored and read back has them, and their reading. *)
Definition counted (n max : Z) (m : gmap_any) : Prop :=
  counts m = (Some (VInt n), Some (VInt max)).
Lemma counted_reading n max m :
  counted n max m → 0 < n → 0 < max →
  objectiveIteration m = n ∧ objectiveMaxIterations m = max.
Proof.
  unfold counted, counts. intros Hc Hn Hm.
  injection Hc as Hi Hx. unfold objectiveIteration, objectiveMaxIterations, mget.
  rewrite Hi, Hx. cbn. rewrite (proj2 (Z.leb_gt n 0)), (proj2 (Z.leb_gt max 0)); [done|lia..].
Qed.
Lemma float_to_int_small z : Z.abs z <= 2 ^ 53 → float_to_int z 0 = z.
Proof.
  intros Hz. unfold float_to_int. cbn [Z.leb Z.compare].
  replace (z * 10 ^ 0) with z by lia. by rewrite (proj2 (Z.leb_le _ _) Hz).
Qed.
Lemma as_int_stored z fallback :
  Z.abs z <= 2 ^ 53 → objectiveAsInt (jsonb (VInt z)) fallback = z.
Proof.
  intros Hz. change (objectiveAsInt (jsonb (VInt z)) fallback) with (float_to_int z 0).
  by apply float_to_int_small.
Qed.
Lemma counted_stored n max m :
  counted n max m → 0 < n → 0 < max → n <= 2 ^ 53 → max <= 2 ^ 53 →
  objectiveIteration (jsonb_map m) = n ∧ objectiveMaxIterations (jsonb_map m) = max.
Proof.
  unfold counted, counts. intros Hc Hn Hm Hn' Hm'.
  injection Hc as Hi Hx.
  unfold objectiveIteration, objectiveMaxIterations.
  rewrite !mget_jsonb_map. unfold mget. rewrite Hi, Hx.
  change (default VNil (Some (VInt n))) with (VInt n).
  change (default VNil (Some (VInt max))) with (VInt max).
  rewrite !as_int_stored by lia.
  rewrite (proj2 (Z.leb_gt n 0)), (proj2 (Z.leb_gt max 0)); [done|lia..].
Qed.
Lemma counted_union m m' n max : counted n max m → counted n max (m ∪ m').
Proof.
  unfold counted, counts. intros Hc. injection Hc as Hi Hx.
  by erewrite !lookup_union_Some_l.
Qed.

Lemma iteration_positive m : 0 < objectiveIteration m.
Proof. unfold objectiveIteration. destruct (_ <=? 0) eqn:H; lia. Qed.
Lemma max_positive m : 0 < objectiveMaxIterations m.
Proof. unfold objectiveMaxIterations, defaultObjectiveMaxIterations. destruct (_ <=? 0) eqn:H; lia. Qed.

Lemma repair_metadata_counted contract task result root :
  counted (objectiveIteration (task_metadata task) + 1)
    (objectiveMaxIterations (task_metadata task))
    (repair_metadata (repair_plan contract task result root)).
Proof.
  unfold repair_metadata, repair_plan. cbn [rp_base rp_request].
  destruct (br_decision result); unfold counted; counts_easy; apply counted_union; reflexivity.
Qed.
Lemma workstream_metadata p l : ∀ after paths further last paths',
  workstream_items p l after paths = (further, last, paths') →
  ∀ w, w ∈ further → counts (wi_metadata w) = counts (repair_metadata p).
Proof.
  induction l as [|ws l IH]; intros after paths further last paths' Hrun; cbn in Hrun.
  { injection Hrun as <- <- <-. intros w Hw. by apply elem_of_nil in Hw. }
  destruct (workstream_items p l _ _) as [[rest last'] paths''] eqn:Hrest.
  injection Hrun as <- <- <-. intros w [->|Hw]%elem_of_cons.
  - unfold workstream_item, with_commands, repair_item. cbn -[list_to_map]. by counts_easy.
  - exact (IH _ _ _ _ _ Hrest w Hw).
Qed.
Lemma repair_items_counts p contract result w :
  w ∈ repair_items p contract result → counts (wi_metadata w) = counts (repair_metadata p).
Proof.
  unfold repair_items. destruct (workstream_items p _ _ _) as [[further last] paths] eqn:Hws.
  rewrite !elem_of_app, !list_elem_of_singleton, !elem_of_cons.
  intros [->|[Hw|[Hw|[->|[Hw|[->|[->|Hw]]]]]]].
  all: try done.
  - destruct (shouldInsertObjectiveRepairBaselineValidation result);
      [apply list_elem_of_singleton in Hw as ->|by apply elem_of_nil in Hw].
    unfold baseline_item, with_commands, repair_item. cbn -[list_to_map]. by counts_easy.
  - destruct (shouldInsertObjectiveCodeAnalysis _ _);
      [apply list_elem_of_singleton in Hw as ->|by apply elem_of_nil in Hw].
    unfold analyze_item, repair_item. cbn -[list_to_map]. by counts_easy.
  - exact (workstream_metadata _ _ _ _ _ _ _ Hws w Hw).
  - by apply elem_of_nil in Hw.
Qed.
Lemma repair_items_ordered p contract result : ordered [] (repair_items p contract result).
Proof.
  unfold repair_items. destruct (workstream_items p _ _ _) as [[further last] paths] eqn:Hws.
  set (b := shouldInsertObjectiveRepairBaselineValidation result).
  set (a := shouldInsertObjectiveCodeAnalysis _ _).
  apply ordered_app; [cbn; split; [set_solver|done]|].
  apply ordered_app; [destruct b; cbn; [split; [set_solver|done]|done]|].
  apply ordered_app; [destruct a; cbn; [split; [|done]|done]; destruct b; cbn; set_solver|].
  apply ordered_app; [cbn; split; [destruct a, b; cbn; set_solver|done]|].
  set (known := _ ++ _).
  assert (Hedit : numbered p "edit" ∈ known) by (unfold known; cbn; left).
  destruct (workstreams_ordered p _ _ _ known _ _ _ Hws Hedit) as [Hord Hlast].
  apply ordered_app; [exact Hord|].
  cbn. repeat split; [|set_solver]. set_solver.
Qed.
Lemma repair_items_approval p contract result w :
  w ∈ repair_items p contract result → wi_approval w = (wi_kind w =?s WorkItemKindEdit).
Proof.
  unfold repair_items. destruct (workstream_items p _ _ _) as [[further last] paths] eqn:Hws.
  rewrite !elem_of_app, !list_elem_of_singleton, !elem_of_cons.
  intros [->|[Hw|[Hw|[->|[Hw|[->|[->|Hw]]]]]]].
  all: try done.
  - by destruct (shouldInsertObjectiveRepairBaselineValidation result);
      [apply list_elem_of_singleton in Hw as ->|apply elem_of_nil in Hw].
  - by destruct (shouldInsertObjectiveCodeAnalysis _ _);
      [apply list_elem_of_singleton in Hw as ->|apply elem_of_nil in Hw].
  - revert Hws w Hw. generalize (numbered p "edit"), (objectiveUniqueStrings (items (rp_paths p))).
    revert further last paths.
    induction (objectiveRepairSecondaryWorkstreams contract) as [|ws l IH];
      intros further last paths after start Hws w Hw; cbn in Hws.
    { injection Hws as <- <- <-. by apply elem_of_nil in Hw. }
    destruct (workstream_items p l _ _) as [[rest last'] paths'] eqn:Hrest.
    injection Hws as <- <- <-. apply elem_of_cons in Hw as [->|Hw]; [done|eauto].
  - by apply elem_of_nil in Hw.
Qed.
Lemma ends_shape {A} (r v l : A) as' bs es fs :
  [r] ++ as' ++ bs ++ es ++ fs ++ [v; l] = r :: (as' ++ bs ++ es ++ fs ++ [v]) ++ [l].
Proof. cbn. by rewrite <- !app_assoc. Qed.
Lemma repair_items_ends p contract result :
  ∃ middle paths, repair_items p contract result
    = replan_item p result :: middle ++ [review_item p contract paths].
Proof.
  unfold repair_items. destruct (workstream_items p _ _ _) as [[further last] paths].
  eexists _, paths. apply ends_shape.
Qed.

(** C7: a repair cycle can always be built when the workspace root is known, from the
    contract or from the task; the missing root is the only error.  Its items can run
    in the order given, from the first: each depends on earlier ones only, the first
    is a replanning that depends on nothing and the last a review.  All carry the
    next iteration and the same maximum, and exactly the edits need an approval. *)
Theorem repair_cycle_spec contract task result :
  let metadata := task_metadata task in
  match buildObjectiveRepairCycle contract task result with
  | Err e =>
      e = ErrText "workspace_root is required to build repair cycle" ∧
      trim_space (ec_workspace_root contract) = "" ∧ text_at metadata "workspace_root" = ""
  | Ok l =>
      ordered [] l ∧
      (∀ w, w ∈ l →
        objectiveIteration (wi_metadata w) = objectiveIteration metadata + 1 ∧
        objectiveMaxIterations (wi_metadata w) = objectiveMaxIterations metadata ∧
        wi_approval w = (wi_kind w =?s WorkItemKindEdit)) ∧
      ∃ first middle last, l = first :: middle ++ [last] ∧
        wi_kind first = WorkItemKindReplan ∧ wi_depends_on first = None ∧
        wi_kind last = WorkItemKindReview
  end.
Proof.
  intros metadata. unfold buildObjectiveRepairCycle. fold metadata.
  destruct (_ =?s "") eqn:Hroot.
  { split; [done|]. apply String.eqb_eq in Hroot. revert Hroot.
    unfold firstNonEmptyString, first_nonblank, text_at. rewrite !filter_cons, !trim_space_idemp.
    cbn [filter list_filter head].
    destruct (decide (trim_space (ec_workspace_root contract) ≠ "")); [done|].
    destruct (decide (_ ≠ "")); [done|]. intros _. split; by apply dec_stable. }
  set (p := repair_plan _ _ _ _). split_and!; [apply repair_items_ordered| |].
  - intros w Hw. pose proof (iteration_positive metadata). pose proof (max_positive metadata).
    rewrite (repair_items_approval _ _ _ _ Hw). split_and!; [..|done];
      apply (counted_reading (objectiveIteration metadata + 1) (objectiveMaxIterations metadata));
      try lia; unfold counted; rewrite (repair_items_counts _ _ _ _ Hw);
      apply repair_metadata_counted.
  - destruct (repair_items_ends p contract result) as (middle & paths & ->).
    by eexists _, _, _.
Qed.
