(* ===== verification/Evidence.v ===== *)
(** * The evidence a bridge leaves ([httpapi/bridges.go])

    From the result of a task: the status snapshots and iteration summaries of an
    objective, and the cases and lessons of a repository workflow, as the artifacts
    that are stored with the run. *)
From S2P Require Import Prelude GoVal Rfc3339 Json JsonText Effects Domain Schema TaskStore InitiativeApi Objective.

(** ** Status snapshots *)

(** [orchestratorgo/domain/objectives.go:96-118] ObjectiveStatusSnapshot. *)
Record ObjectiveStatusSnapshot := MkSnapshot {
  sn_initiative : string;
  sn_title : string;
  sn_objective : string;
  sn_phase : string;
  sn_iteration : Z;
  sn_max_iterations : Z;
  sn_remaining_retries : Z;
  sn_kind : string;
  sn_result_status : string;
  sn_decision : string;
  sn_needs_repair : bool;
  sn_next_action : string;
  sn_stop_reason : string;
  sn_blocker_reason : string;
  sn_budget : Z;
  sn_remaining_budget : Z;
  sn_deadline : string;
  sn_changed : slice string;
  sn_commands : slice string;
  sn_tests : gmap_any;
  sn_findings : slice (option gmap_any);
}.
Definition snapshot_fields (s : ObjectiveStatusSnapshot) : list (string * gval) :=
  let entry := entry id in
  let entry_unless := entry_unless id in
  let text key t := entry_unless (no_text t) key (VStr t) in
  let number key n := entry_unless (n =? 0) key (VInt n) in
  entry "initiative_id" (VStr (sn_initiative s)) ++ text "objective_title" (sn_title s)
  ++ text "normalized_objective" (sn_objective s) ++ entry "current_phase" (VStr (sn_phase s))
  ++ entry "iteration" (VInt (sn_iteration s))
  ++ entry "max_iterations" (VInt (sn_max_iterations s))
  ++ entry "remaining_retries" (VInt (sn_remaining_retries s))
  ++ entry "work_item_kind" (VStr (sn_kind s)) ++ entry "result_status" (VStr (sn_result_status s))
  ++ text "review_decision" (sn_decision s)
  ++ entry "needs_repair_cycle" (VBool (sn_needs_repair s))
  ++ entry "next_expected_action" (VStr (sn_next_action s))
  ++ text "stop_reason" (sn_stop_reason s) ++ text "blocker_reason" (sn_blocker_reason s)
  ++ number "time_budget_seconds" (sn_budget s)
  ++ number "remaining_budget_seconds" (sn_remaining_budget s)
  ++ text "deadline_at" (sn_deadline s)
  ++ entry_unless (no_items (sn_changed s)) "changed_files" (strs_value (sn_changed s))
  ++ entry_unless (no_items (sn_commands s)) "validation_commands" (strs_value (sn_commands s))
  ++ entry_unless (bool_decide (sn_tests s = ∅)) "test_results" (VMap (sn_tests s))
  ++ entry_unless (no_items (sn_findings s)) "findings" (maps_value (sn_findings s)).
Definition fields_text (fields : list (string * gval)) : string :=
  MarshalIndent (struct_jval (prod_map id to_jval <$> fields)).
Definition map_text (m : gmap_any) : string := MarshalIndent (to_jval (VMap m)).

(** [orchestratorgo/httpapi/objectives.go:751-774] persistObjectiveStopSnapshot: the
    snapshot it stores. *)
Definition stop_snapshot (task : TaskResponse) (initiative stopReason blockerReason : string)
    (deadline budgetSeconds : Z) : ObjectiveStatusSnapshot :=
  let metadata := task_metadata task in
  let contract := (decodeObjectiveExecutionContract (mget metadata "execution_contract")).1 in
  {| sn_initiative := trim_space initiative;
     sn_title := firstNonEmptyString
       [trim_space (ec_title contract); text_at metadata "objective_title"];
     sn_objective := firstNonEmptyString
       [trim_space (ec_objective contract); text_at metadata "initiative_goal"];
     sn_phase := phase_text InitiativePhaseExecution;
     sn_iteration := objectiveIteration metadata;
     sn_max_iterations := objectiveMaxIterations metadata;
     sn_remaining_retries := objectiveRemainingRetries metadata;
     sn_kind := text_at metadata "work_item_kind";
     sn_result_status := "error";
     sn_decision := "";
     sn_needs_repair := false;
     sn_next_action := "block_initiative";
     sn_stop_reason := stopReason;
     sn_blocker_reason := blockerReason;
     sn_budget := budgetSeconds;
     sn_remaining_budget := 0;
     sn_deadline := if time_is_zero deadline then "" else format_nano deadline 0;
     sn_changed := None;
     sn_commands := anyStringSliceHTTPDefault (mget metadata "validation_commands") (Some []);
     sn_tests := ∅;
     sn_findings := None |}.

(** [orchestratorgo/httpapi/bridges.go:778-784] objectiveEffectiveResultStatus. *)
Definition objectiveEffectiveResultStatus (task : TaskResponse) (result : LocalBridgeResult) :
    string :=
  let status := result_status result in
  if objectiveAsBool (mget (task_metadata task) "objective_baseline_validation")
     && negb (status =?s "") && negb (status =?s "waiting_approval")
  then "success" else status.

(** [orchestratorgo/httpapi/bridges.go:835-860] objectiveNextExpectedAction. *)
Definition objectiveNextExpectedAction (metadata : gmap_any)
    (workItemKind resultStatus reviewDecision : string) (needsRepair : bool) : string :=
  if needsRepair then "replan"
  else if equal_fold resultStatus "success" then
    let explicit := text_at metadata "objective_next_action_after_success" in
    if negb (explicit =?s "") then explicit
    else if (workItemKind =?s WorkItemKindResearch) || (workItemKind =?s WorkItemKindReplan)
    then "edit"
    else if workItemKind =?s WorkItemKindAnalyze then "edit"
    else if workItemKind =?s WorkItemKindEdit then "validate"
    else if workItemKind =?s WorkItemKindValidate then "review"
    else if (workItemKind =?s WorkItemKindReview) && equal_fold reviewDecision "approved"
    then "close_initiative"
    else "await_orchestrator"
  else "block_initiative".

(** [orchestratorgo/httpapi/bridges.go:862-870] objectiveStopReason. *)
Definition objectiveStopReason (metadata : gmap_any) (iteration maxIterations now : Z) : string :=
  if objectiveTimeBudgetExceeded metadata now then "time_budget_exhausted"
  else if maxIterations <=? iteration then "retry_budget_exhausted"
  else "execution_failed".

(** [orchestratorgo/httpapi/bridges.go:885-896] objectiveFailureLabel. *)
Definition objectiveFailureLabel (result : LocalBridgeResult) : string :=
  if equal_fold (derefString (br_decision result)) "changes_requested" then
    "review requested changes"
  else if negb (blank (derefString (br_error result))) then
    trim_space (derefString (br_error result))
  else if negb (blank (derefString (br_summary result))) then
    trim_space (derefString (br_summary result))
  else "an unresolved failure".

(** [orchestratorgo/httpapi/bridges.go:872-883] objectiveBlockerReason. *)
Definition objectiveBlockerReason (result : LocalBridgeResult) (repairFeedback stopReason : string)
    (budgetSeconds deadline : Z) : string :=
  if stopReason =?s "time_budget_exhausted" then
    objectiveTimeBudgetExceededReason budgetSeconds deadline
  else if stopReason =?s "retry_budget_exhausted" then
    "Maximum repair iterations exhausted after " +:+ objectiveFailureLabel result +:+ "."
  else if negb (blank repairFeedback) then trim_space repairFeedback
  else "Objective execution failed without a remaining autonomous repair path.".

(** ** The iteration of an objective *)

(** [orchestratorgo/httpapi/bridges.go:652-706] buildObjectiveIterationArtifacts: what
    its artifacts share. *)
Record IterationReport := MkIteration {
  it_initiative : string;
  it_task : string;
  it_title : string;
  it_objective : string;
  it_root : string;
  it_iteration : Z;
  it_max : Z;
  it_kind : string;
  it_status : string;
  it_decision : string;
  it_summary : string;
  it_error : string;
  it_needs_repair : bool;
  it_feedback : string;
}.
Definition summary_of (task : TaskResponse) (result : LocalBridgeResult) : string :=
  let summary := trim_space (derefString (br_summary result)) in
  if summary =?s "" then trim_space (task_description task) else summary.
Definition iteration_report (task : TaskResponse) (result : LocalBridgeResult)
    (initiative status : string) (now : Z) : IterationReport :=
  let metadata := task_metadata task in
  let contract := (decodeObjectiveExecutionContract (mget metadata "execution_contract")).1 in
  {| it_initiative := initiative;
     it_task := task_id task;
     it_title := firstNonEmptyString
       [trim_space (ec_title contract); text_at metadata "objective_title"];
     it_objective := firstNonEmptyString
       [trim_space (ec_objective contract); text_at metadata "initiative_goal"];
     it_root := firstNonEmptyString
       [trim_space (ec_workspace_root contract); text_at metadata "workspace_root"];
     it_iteration := objectiveIteration metadata;
     it_max := objectiveMaxIterations metadata;
     it_kind := text_at metadata "work_item_kind";
     it_status := status;
     it_decision := trim_space (derefString (br_decision result));
     it_summary := summary_of task result;
     it_error := trim_space (derefString (br_error result));
     it_needs_repair := shouldStartObjectiveRepairCycle task result now;
     it_feedback := firstNonEmptyString
       [text_at metadata "objective_repair_feedback"; objectiveRepairFeedback result] |}.
Definition iteration_payload (r : IterationReport) (metadata : gmap_any)
    (result : LocalBridgeResult) : gmap_any :=
  list_to_map
    [("memory_kind", VStr "objective_iteration"); ("initiative_id", VStr (it_initiative r));
     ("task_id", VStr (it_task r)); ("objective_title", VStr (it_title r));
     ("normalized_objective", VStr (it_objective r)); ("workspace_root", VStr (it_root r));
     ("iteration", VInt (it_iteration r)); ("max_iterations", VInt (it_max r));
     ("work_item_kind", VStr (it_kind r)); ("result_status", VStr (it_status r));
     ("raw_result_status", VStr (result_status result));
     ("review_decision", VStr (it_decision r)); ("summary", VStr (it_summary r));
     ("error_message", VStr (it_error r)); ("changed_files", strs_value (br_changed result));
     ("diff_present", VBool (negb (blank (derefString (br_diff result)))));
     ("test_results", VMap (nonNilMapHTTP (br_tests result)));
     ("review_comments", maps_value (br_comments result));
     ("findings", maps_value (br_findings result));
     ("validation_commands",
        strs_value (anyStringSliceHTTPDefault (mget metadata "validation_commands") (Some [])));
     ("definition_of_done", VStr (text_at metadata "definition_of_done"));
     ("needs_repair_cycle", VBool (it_needs_repair r)); ("repair_feedback", VStr (it_feedback r));
     ("objective_iteration_id",
        VStr (it_initiative r +:+ ":" +:+ pretty (it_iteration r) +:+ ":" +:+ it_kind r))].

(** [orchestratorgo/httpapi/bridges.go:786-833] buildObjectiveStatusSnapshot: it reads
    the clock for the budget and, if the initiative is to be blocked, once more. *)
Definition buildObjectiveStatusSnapshot (task : TaskResponse) (result : LocalBridgeResult)
    (r : IterationReport) (now now' : Z) : ObjectiveStatusSnapshot :=
  let metadata := task_metadata task in
  let iteration := it_iteration r in
  let maxIterations := if it_max r <? iteration then iteration else it_max r in
  let remainingRetries :=
    let n := maxIterations - iteration in if n <? 0 then 0 else n in
  let workItemKind := trim_space (it_kind r) in
  let resultStatus := trim_space (it_status r) in
  let reviewDecision := trim_space (it_decision r) in
  let nextExpectedAction :=
    objectiveNextExpectedAction metadata workItemKind resultStatus reviewDecision
      (it_needs_repair r) in
  let '(budgetSeconds, remainingBudgetSeconds, deadline, hasBudget) :=
    objectiveRemainingBudgetSeconds metadata now in
  let blocked := nextExpectedAction =?s "block_initiative" in
  let stopReason :=
    if blocked then objectiveStopReason metadata iteration maxIterations now' else "" in
  let blockerReason :=
    if blocked then objectiveBlockerReason result (it_feedback r) stopReason budgetSeconds deadline
    else "" in
  {| sn_initiative := trim_space (it_initiative r);
     sn_title := trim_space (it_title r);
     sn_objective := trim_space (it_objective r);
     sn_phase := phase_text InitiativePhaseExecution;
     sn_iteration := iteration;
     sn_max_iterations := maxIterations;
     sn_remaining_retries := remainingRetries;
     sn_kind := workItemKind;
     sn_result_status := resultStatus;
     sn_decision := reviewDecision;
     sn_needs_repair := it_needs_repair r;
     sn_next_action := nextExpectedAction;
     sn_stop_reason := stopReason;
     sn_blocker_reason := blockerReason;
     sn_budget := if hasBudget then budgetSeconds else 0;
     sn_remaining_budget := if hasBudget then remainingBudgetSeconds else 0;
     sn_deadline := if hasBudget then format_nano deadline 0 else "";
     sn_changed := br_changed result;
     sn_commands := anyStringSliceHTTPDefault (mget metadata "validation_commands") (Some []);
     sn_tests := nonNilMapHTTP (br_tests result);
     sn_findings := br_findings result |}.

(** [orchestratorgo/httpapi/bridges.go:707-776] buildObjectiveIterationArtifacts: the
    artifacts. *)
Definition iteration_artifact (r : IterationReport) (metadata : gmap_any)
    (result : LocalBridgeResult) : gmap_any :=
  list_to_map
    [("type", VStr "objective_iteration_summary");
     ("title", VStr ("Objective iteration " +:+ pretty (it_iteration r) +:+ " " +:+ it_kind r));
     ("media_type", VStr "application/json");
     ("content_text", VStr (map_text (iteration_payload r metadata result)));
     ("initiative_id", VStr (it_initiative r)); ("objective_title", VStr (it_title r));
     ("normalized_objective", VStr (it_objective r)); ("iteration", VInt (it_iteration r));
     ("max_iterations", VInt (it_max r)); ("work_item_kind", VStr (it_kind r));
     ("result_status", VStr (it_status r)); ("review_decision", VStr (it_decision r));
     ("needs_repair_cycle", VBool (it_needs_repair r));
     ("memory_kind", VStr "objective_iteration"); ("findings", maps_value (br_findings result))].
Definition snapshot_artifact (r : IterationReport) (s : ObjectiveStatusSnapshot)
    (result : LocalBridgeResult) : gmap_any :=
  list_to_map
    [("type", VStr "objective_status_snapshot");
     ("title", VStr ("Objective status snapshot " +:+ pretty (it_iteration r) +:+ " "
                     +:+ it_kind r));
     ("media_type", VStr "application/json");
     ("content_text", VStr (fields_text (snapshot_fields s)));
     ("initiative_id", VStr (it_initiative r)); ("objective_title", VStr (it_title r));
     ("normalized_objective", VStr (it_objective r)); ("iteration", VInt (it_iteration r));
     ("max_iterations", VInt (it_max r)); ("work_item_kind", VStr (it_kind r));
     ("result_status", VStr (it_status r)); ("review_decision", VStr (it_decision r));
     ("needs_repair_cycle", VBool (it_needs_repair r));
     ("next_expected_action", VStr (sn_next_action s));
     ("remaining_retries", VInt (sn_remaining_retries s));
     ("stop_reason", VStr (sn_stop_reason s)); ("blocker_reason", VStr (sn_blocker_reason s));
     ("time_budget_seconds", VInt (sn_budget s));
     ("remaining_budget_seconds", VInt (sn_remaining_budget s));
     ("deadline_at", VStr (sn_deadline s)); ("memory_kind", VStr "objective_status_snapshot");
     ("findings", maps_value (br_findings result))].
Definition repair_signal_artifact (r : IterationReport) : gmap_any :=
  let signal : gmap_any := list_to_map
    [("initiative_id", VStr (it_initiative r)); ("task_id", VStr (it_task r));
     ("iteration", VInt (it_iteration r)); ("max_iterations", VInt (it_max r));
     ("work_item_kind", VStr (it_kind r)); ("repair_feedback", VStr (it_feedback r));
     ("review_decision", VStr (it_decision r)); ("next_expected_action", VStr "replan")] in
  list_to_map
    [("type", VStr "objective_repair_signal");
     ("title", VStr ("Objective repair signal " +:+ pretty (it_iteration r)));
     ("media_type", VStr "application/json"); ("content_text", VStr (map_text signal));
     ("initiative_id", VStr (it_initiative r)); ("iteration", VInt (it_iteration r));
     ("work_item_kind", VStr (it_kind r)); ("needs_repair_cycle", VBool true);
     ("memory_kind", VStr "objective_repair_signal")].
Definition buildObjectiveIterationArtifacts (task : TaskResponse) (result : LocalBridgeResult)
    (now1 now2 now3 : Z) : list gmap_any :=
  match task_initiative task with
  | None => []
  | Some initiative =>
      let status := objectiveEffectiveResultStatus task result in
      if negb (objectiveAsBool (mget (task_metadata task) "objective_entrypoint"))
         || (status =?s "") || (status =?s "waiting_approval") then []
      else
        let r := iteration_report task result initiative status now1 in
        let snapshot := buildObjectiveStatusSnapshot task result r now2 now3 in
        [iteration_artifact r (task_metadata task) result; snapshot_artifact r snapshot result]
        ++ (if it_needs_repair r then [repair_signal_artifact r] else [])
  end.

(** ** The memory of repository workflows *)

(** [git], run in a directory: its output, unless it fails. *)
Class Git := { git : string → list string → option string }.

Section Workflow.
Context `{Git}.

(** [orchestratorgo/httpapi/bridges.go:933-945] gitOutput. *)
Definition gitOutput (dir : string) (args : list string) : string :=
  let dir := trim_space dir in
  if (dir =?s "") || bool_decide (args = []) then ""
  else trim_space (default "" (git dir args)).

(** [orchestratorgo/httpapi/bridges.go:898-931] renderRepoWorkflowLesson. *)
Definition lesson_line (label : string) (text : string) : list string :=
  if text =?s "" then [] else ["- " +:+ label +:+ ": " +:+ text].
Definition renderRepoWorkflowLesson (casePayload : gmap_any) : string :=
  let raw key := as_string (mget casePayload key) in
  let strs key := items (anyStringSliceHTTPDefault (mget casePayload key) (Some [])) in
  let grave := String (ascii_of_nat 96) "" in
  sjoin nl
    (["# Repo Workflow Lesson"; ""; "- Repository: " +:+ raw "repository_name";
      "- Workflow: " +:+ raw "workflow"; "- Profile: " +:+ raw "repo_profile";
      "- Stage: " +:+ raw "execution_stage"; "- Outcome: " +:+ raw "outcome";
      "- Summary: " +:+ raw "summary"]
     ++ lesson_line "Branch" (text_at casePayload "resolved_branch")
     ++ lesson_line "Commit" (text_at casePayload "resolved_commit")
     ++ (match strs "changed_files" with
         | [] => [] | l => ["- Changed files: " +:+ sjoin ", " l] end)
     ++ (match strs "test_command" with
         | [] => []
         | l => ["- Validation command: " +:+ grave +:+ sjoin " " l +:+ grave] end)
     ++ lesson_line "Failure signal" (text_at casePayload "error_message")
     ++ [""; "## Reuse";
         if raw "outcome" =?s "trusted"
         then "- Reuse this case as a trusted precedent for the same repo profile and stage."
         else "- Reuse this case as a warning: inspect the failure signal before retrying the same stage."]).

(** [orchestratorgo/httpapi/bridges.go:413-650] buildRepoWorkflowMemoryArtifacts. *)
Definition workflow_profile (metadata projectRequest : gmap_any) : string :=
  firstNonEmptyString [text_at projectRequest "repo_profile"; text_at metadata "repo_profile";
                       text_at metadata "repo_workflow"].
Definition workflow_root (task : TaskResponse) : string :=
  let workspaceRoot := text_at (task_metadata task) "workspace_root" in
  if workspaceRoot =?s "" then trim_space (derefString (task_workspace_path task))
  else workspaceRoot.
Definition repo_path (workspaceRoot projectRoot : string) : string :=
  if (projectRoot =?s "") || (projectRoot =?s ".") then workspaceRoot
  else if is_rooted projectRoot then projectRoot
  else if workspaceRoot =?s "" then workspaceRoot
  else path_join [workspaceRoot; projectRoot].
Definition workflow_case (task : TaskResponse) (result : LocalBridgeResult)
    (repoProfile agent status : string) : gmap_any :=
  let metadata := task_metadata task in
  let projectRequest := cloneMetadataMap (mget metadata "project_request") in
  let asked key := VStr (text_at projectRequest key) in
  let noted key := VStr (text_at metadata key) in
  let workspaceRoot := workflow_root task in
  let projectRoot := text_at projectRequest "project_root" in
  let repoPath := repo_path workspaceRoot projectRoot in
  let command key := strs_value (anyStringSliceHTTPDefault (mget projectRequest key) (Some [])) in
  list_to_map
    [("memory_kind", VStr "repo_workflow_case");
     ("workflow", VStr (firstNonEmptyString
        [text_at metadata "repo_workflow"; "repo_workflow_v1"]));
     ("repo_profile", VStr repoProfile);
     ("runtime_or_stack", asked "runtime_or_stack"); ("language", asked "language");
     ("framework", asked "framework"); ("problem_domain", asked "problem_domain");
     ("error_class", asked "error_class"); ("fix_pattern", asked "fix_pattern");
     ("validation_pattern", asked "validation_pattern");
     ("repository_name", VStr (firstNonEmptyString
        [text_at projectRequest "project_name"; path_base repoPath; "repo"]));
     ("repository_url", asked "repository_url");
     ("benchmark_case_id", noted "benchmark_case_id");
     ("benchmark_case_type", noted "benchmark_case_type");
     ("benchmark_league", noted "benchmark_league"); ("sequence_id", noted "sequence_id");
     ("sequence_position", noted "sequence_position");
     ("default_branch", asked "default_branch");
     ("resolved_branch", VStr (gitOutput repoPath ["rev-parse"; "--abbrev-ref"; "HEAD"]));
     ("resolved_commit", VStr (gitOutput repoPath ["rev-parse"; "HEAD"]));
     ("workspace_root", VStr workspaceRoot);
     ("project_root", VStr (firstNonEmptyString [projectRoot; "."]));
     ("initiative_id", VStr (derefString (task_initiative task)));
     ("task_id", VStr (task_id task)); ("assigned_agent", VStr agent);
     ("execution_stage",
        VStr (if agent =?s AgentTypeReviewer then "review" else "patch_apply"));
     ("result_status", VStr status);
     ("outcome", VStr (if status =?s "success" then "trusted" else "failed"));
     ("summary", VStr (summary_of task result));
     ("error_message", VStr (trim_space (derefString (br_error result))));
     ("changed_files", strs_value (br_changed result));
     ("diff_present", VBool (negb (blank (derefString (br_diff result)))));
     ("test_command", command "test_command"); ("expected_files", command "expected_files");
     ("test_results", VMap (nonNilMapHTTP (br_tests result)));
     ("definition_of_done", noted "definition_of_done")].
(** some of the entries of a case, *)
Definition entries_of (casePayload : gmap_any) (keys : list string) : gmap_any :=
  list_to_map ((λ key, (key, mget casePayload key)) <$> keys).
Definition case_tags : list string :=
  ["repo_profile"; "runtime_or_stack"; "language"; "framework"; "problem_domain"; "error_class";
   "fix_pattern"; "validation_pattern"; "repository_url"; "benchmark_case_id";
   "benchmark_case_type"; "benchmark_league"; "sequence_id"; "sequence_position"; "workflow";
   "outcome"].
Definition memory_artifact (casePayload : gmap_any) (type title mediaType content kind : string)
    (tags : list string) : gmap_any :=
  list_to_map
    [("type", VStr type); ("title", VStr title); ("media_type", VStr mediaType);
     ("content_text", VStr content); ("memory_kind", VStr kind)]
  ∪ entries_of casePayload tags.
Definition benchmark_case_keys : list string :=
  ["benchmark_case_type"; "benchmark_league"; "sequence_id"; "sequence_position";
   "repository_name"; "repository_url"; "repo_profile"; "runtime_or_stack"; "language";
   "framework"; "problem_domain"; "error_class"; "fix_pattern"; "validation_pattern";
   "default_branch"].
Definition benchmark_run_keys : list string :=
  ["benchmark_case_type"; "workflow"; "repository_name"; "repository_url"; "repo_profile";
   "resolved_branch"; "resolved_commit"; "task_id"; "initiative_id"; "assigned_agent";
   "execution_stage"; "result_status"; "outcome"; "benchmark_league"; "sequence_id";
   "sequence_position"; "changed_files"; "test_command"; "test_results"; "diff_present"].
Definition workflow_artifacts (casePayload : gmap_any) : list gmap_any :=
  let raw key := as_string (mget casePayload key) in
  let stage := raw "execution_stage" in
  let staged := "execution_stage" :: case_tags in
  let about := raw "repository_name" +:+ " " +:+ stage in
  let benchmarkCaseID := text_at casePayload "benchmark_case_id" in
  let benchmark keys :=
    map_text (<["benchmark_case_id" := VStr benchmarkCaseID]> (entries_of casePayload keys)) in
  [memory_artifact casePayload "repo_workflow_case" ("Repo workflow case: " +:+ about)
     "application/json" (map_text casePayload) "case" staged;
   memory_artifact casePayload "repo_workflow_lesson" ("Repo workflow lesson: " +:+ about)
     "text/markdown" (renderRepoWorkflowLesson casePayload) "lesson" staged]
  ++ (if benchmarkCaseID =?s "" then []
      else
        [memory_artifact casePayload "benchmark_case" ("Benchmark case: " +:+ benchmarkCaseID)
           "application/json" (benchmark benchmark_case_keys) "benchmark_case" case_tags;
         memory_artifact casePayload "benchmark_run"
           ("Benchmark run: " +:+ benchmarkCaseID +:+ " " +:+ stage)
           "application/json" (benchmark benchmark_run_keys) "benchmark_run" staged]).
Definition buildRepoWorkflowMemoryArtifacts (task : TaskResponse) (result : LocalBridgeResult) :
    list gmap_any :=
  let metadata := task_metadata task in
  let repoProfile :=
    workflow_profile metadata (cloneMetadataMap (mget metadata "project_request")) in
  let agent := trim_space (derefString (task_assigned_agent task)) in
  let status := result_status result in
  if repoProfile =?s "" then []
  else if negb (agent =?s AgentTypeCoder) && negb (agent =?s AgentTypeReviewer) then []
  else if (status =?s "") || (status =?s "waiting_approval") then []
  else workflow_artifacts (workflow_case task result repoProfile agent status).
End Workflow.
