(* ===== verification/Retrieval.v ===== *)
(** * Memory retrieval ([memory/retrieval.go], [domain/context.go])

    Which of the remembered fragments a prompt shows: the best ones, few of each class,
    none twice, each cut to a summary. *)
From S2P Require Import Prelude GoVal Json JsonText JsonValue.

(** ** Runes *)

Definition rune_count (s : string) : Z := Z.of_nat (length (runes s)).
(** [string([]rune(s)[:n])] *)
Definition take_runes (n : Z) (s : string) : string := sjoin "" (take (Z.to_nat n) (runes s)).

(** ** Scores

    A float64 is given by its shortest decimal form, as in [GoVal]: [(m, e)] is the one
    nearest to [m * 10^e], and such forms are ordered as the floats are. *)
Definition decimal := (Z * Z)%type.
Definition decimal_le : relation decimal :=
  λ x y, let e := Z.min x.2 y.2 in x.1 * 10 ^ (x.2 - e) <= y.1 * 10 ^ (y.2 - e).
#[export] Instance decimal_le_dec : RelDecision decimal_le.
Proof. intros x y. unfold decimal_le. apply _. Defined.

(** [fmt.Sprintf("%.2f", x)]: the exact value of the float64, to the nearest hundredth. *)
Definition two_decimals (x : decimal) : string :=
  let '(m, e) := x in
  let '(b, k) := if m =? 0 then (0, 0)
    else binary64 (of_decimal (Z.abs m) e) in
  let hundredths := round_half_even (100 * b * 2 ^ Z.max 0 k) (2 ^ Z.max 0 (- k)) in
  (if m <? 0 then "-" else "") +:+ pretty (hundredths / 100) +:+ "."
  +:+ pad 2 (hundredths mod 100).
Example two_decimals_exact :
  two_decimals <$> [(875, -3); (125, -3); (145, -3); (-1, 0); (1005, -3); (12, 20); (-1, -3); (5, -324)]
  = ["0.88"; "0.12"; "0.14"; "-1.00"; "1.00"; "1200000000000000000000.00"; "-0.00"; "0.00"].
Proof. vm_compute. reflexivity. Qed.

(** ** Data *)

(** [orchestratorgo/domain/context.go:5-13] MemoryClassRepoSpecific and the other classes. *)
Definition MemoryClassRepoSpecific := "repo_specific".
Definition MemoryClassTechnologySimilar := "technology_similar".
Definition MemoryClassPatternSimilar := "pattern_similar".
Definition MemoryClassNegativeGuardrail := "negative_guardrail".
Definition MemoryClassRecentExecution := "recent_execution".
Definition MemoryClassPlanningContext := "planning_context".

(** [orchestratorgo/domain/context.go:15-28] ContextChunk. *)
Record ContextChunk := MkChunk {
  ch_id : string;
  ch_type : string;
  ch_source : string;
  ch_index : Z;
  ch_text : string;
  ch_metadata : gmap_any;
  ch_score : option decimal;
  ch_ref : string;
  ch_class : string;
  ch_initiative : option string;
  ch_task : option string;
  ch_artifact : option string;
}.
(** [orchestratorgo/domain/context.go:71-82] RetrievalHit. *)
Record RetrievalHit := MkHit {
  hit_ref : string;
  hit_type : string;
  hit_source : string;
  hit_score : option decimal;
  hit_class : string;
  hit_initiative : option string;
  hit_task : option string;
  hit_artifact : option string;
  hit_summary : string;
  hit_reason : string;
}.

(** ** The selection *)

(** [orchestratorgo/memory/retrieval.go:11-16] DefaultPrecedentLimit and the other limits. *)
Definition DefaultPrecedentLimit : Z := 5.
Definition DefaultPerClassLimit : Z := 2.
Definition DefaultChunkSummaryChars : Z := 180.
Definition DefaultPacketBudgetChars : Z := 2400.

(** [orchestratorgo/memory/retrieval.go:18-30] NormalizeMemoryClass. *)
Definition memory_classes : list string :=
  [MemoryClassRepoSpecific; MemoryClassTechnologySimilar; MemoryClassPatternSimilar;
   MemoryClassNegativeGuardrail; MemoryClassRecentExecution; MemoryClassPlanningContext].
Definition NormalizeMemoryClass (raw : string) : string :=
  if bool_decide (trim_space raw ∈ memory_classes) then trim_space raw
  else MemoryClassRepoSpecific.

(** [orchestratorgo/memory/retrieval.go:32-48] CompactText. *)
Definition CompactText (text : string) (maxChars : Z) : string :=
  let text := trim_space text in
  if text =?s "" then ""
  else
    let maxChars := if maxChars <=? 0 then DefaultChunkSummaryChars else maxChars in
    if rune_count text <=? maxChars then text
    else if maxChars <=? 3 then take_runes maxChars text
    else trim_space (take_runes (maxChars - 3) text) +:+ "...".

(** [orchestratorgo/memory/retrieval.go:50-57] BuildSelectionReason. *)
Definition BuildSelectionReason (className : string) (score : option decimal) : string :=
  let label := replace_char "_" " " (NormalizeMemoryClass className) in
  match score with
  | Some x => "selected as " +:+ label +:+ " evidence (score " +:+ two_decimals x +:+ ")"
  | None => "selected as " +:+ label +:+ " evidence"
  end.

(** [orchestratorgo/memory/retrieval.go:155-170] memoryClassPriority. *)
Definition memoryClassPriority (className : string) : Z :=
  let className := NormalizeMemoryClass className in
  if className =?s MemoryClassRepoSpecific then 0
  else if className =?s MemoryClassRecentExecution then 1
  else if className =?s MemoryClassPatternSimilar then 2
  else if className =?s MemoryClassTechnologySimilar then 3
  else if className =?s MemoryClassPlanningContext then 4
  else 10.

(** [orchestratorgo/memory/retrieval.go:73-77] SelectRetrievalHits: the class of a chunk. *)
Definition chunk_class (c : ContextChunk) : string :=
  NormalizeMemoryClass
    (if ch_class c =?s "" then trim_space (as_string (mget (ch_metadata c) "memory_class"))
     else ch_class c).
(** [orchestratorgo/memory/retrieval.go:66-90] SelectRetrievalHits: the candidates. *)
Record candidate := MkRanked {
  ca_chunk : ContextChunk;
  ca_score : decimal;
  ca_priority : Z;
}.
Definition candidate_of (c : ContextChunk) : option candidate :=
  if chunk_class c =?s MemoryClassNegativeGuardrail then None
  else Some (MkRanked c (default (-1, 0) (ch_score c)) (memoryClassPriority (chunk_class c))).
(** [orchestratorgo/memory/retrieval.go:91-99] SelectRetrievalHits: and their order. *)
Definition by_rank : relation candidate := λ x y,
  if decide (decimal_le (ca_score x) (ca_score y) ∧ decimal_le (ca_score y) (ca_score x)) then
    by_key (λ c, (ca_priority c, trim_space (ch_ref (ca_chunk c)))) (lex2 Z.le String.le) x y
  else decimal_le (ca_score y) (ca_score x).
#[export] Instance by_rank_dec : RelDecision by_rank.
Proof. intros x y. unfold by_rank. destruct (decide _); apply _. Defined.
Definition ranking (chunks : list ContextChunk) : list candidate :=
  stable_sort by_rank (omap candidate_of chunks).

(** [orchestratorgo/memory/retrieval.go:113-116] SelectRetrievalHits: the reference of a
    candidate. *)
Definition source_ref (x : candidate) : string :=
  let c := ca_chunk x in
  let sourceRef := trim_space (ch_ref c) in
  if sourceRef =?s "" then trim_space (ch_type c) +:+ ":" +:+ trim_space (ch_source c)
  else sourceRef.
Definition class_of (x : candidate) : string := chunk_class (ca_chunk x).
(** [orchestratorgo/memory/retrieval.go:126-139] SelectRetrievalHits: a hit. *)
Definition hit_of (x : candidate) : RetrievalHit :=
  let c := ca_chunk x in
  {| hit_ref := source_ref x;
     hit_type := trim_space (ch_type c);
     hit_source := trim_space (ch_source c);
     hit_score := ch_score c;
     hit_class := class_of x;
     hit_initiative := ch_initiative c;
     hit_task := ch_task c;
     hit_artifact := ch_artifact c;
     hit_summary := CompactText (ch_text c) DefaultChunkSummaryChars;
     hit_reason := BuildSelectionReason (class_of x) (ch_score c) |}.
(** [orchestratorgo/memory/retrieval.go:101-153] SelectRetrievalHits: the loop over the
    candidates, with what it keeps. *)
Record Selection := MkSelection {
  se_hits : list RetrievalHit;
  se_per_class : gmap string Z;
  se_seen : gset string;
  se_summaries : gmap string string;
  se_why : list string;
}.
Definition no_selection : Selection := MkSelection [] ∅ ∅ ∅ [].
Definition pick (s : Selection) (x : candidate) : Selection :=
  let hit := hit_of x in
  {| se_hits := se_hits s ++ [hit];
     se_per_class := <[class_of x := default 0 (se_per_class s !! class_of x) + 1]>
                       (se_per_class s);
     se_seen := {[source_ref x]} ∪ se_seen s;
     se_summaries :=
       match se_summaries s !! class_of x with
       | Some _ => se_summaries s
       | None => <[class_of x := hit_summary hit]> (se_summaries s)
       end;
     se_why := se_why s ++ [source_ref x +:+ ": " +:+ hit_reason hit] |}.
Fixpoint select_from (limit perClassLimit : Z) (l : list candidate) (s : Selection) : Selection :=
  match l with
  | [] => s
  | x :: l' =>
      if source_ref x =?s ":" then select_from limit perClassLimit l' s
      else if bool_decide (source_ref x ∈ se_seen s) then select_from limit perClassLimit l' s
      else if perClassLimit <=? default 0 (se_per_class s !! class_of x)
      then select_from limit perClassLimit l' s
      else
        let s := pick s x in
        if limit <=? Z.of_nat (length (se_hits s)) then s
        else select_from limit perClassLimit l' s
  end.
(** [orchestratorgo/memory/retrieval.go:59-153] SelectRetrievalHits. *)
Definition or_default (limit fallback : Z) : Z := if limit <=? 0 then fallback else limit.
Definition SelectRetrievalHits (chunks : list ContextChunk) (limit perClassLimit : Z) :
    list RetrievalHit * gmap string string * list string :=
  let s := select_from (or_default limit DefaultPrecedentLimit)
    (or_default perClassLimit DefaultPerClassLimit) (ranking chunks) no_selection in
  (se_hits s, se_summaries s, se_why s).

(** ** The order of the candidates *)

Lemma decimal_le_at e x y :
  e <= x.2 → e <= y.2 → decimal_le x y ↔ x.1 * 10 ^ (x.2 - e) <= y.1 * 10 ^ (y.2 - e).
Proof.
  intros Hx Hy. unfold decimal_le. cbn zeta. set (c := Z.min x.2 y.2).
  replace (x.2 - e) with ((x.2 - c) + (c - e)) by lia.
  replace (y.2 - e) with ((y.2 - c) + (c - e)) by lia.
  rewrite !Z.pow_add_r, !Z.mul_assoc by lia.
  pose proof (Z.pow_pos_nonneg 10 (c - e) ltac:(lia) ltac:(lia)). split; nia.
Qed.
#[export] Instance decimal_le_total : Total decimal_le.
Proof.
  intros x y. unfold decimal_le. cbn zeta. rewrite (Z.min_comm y.2 x.2). lia.
Qed.
#[export] Instance decimal_le_trans : Transitive decimal_le.
Proof.
  intros x y z. set (e := Z.min x.2 (Z.min y.2 z.2)).
  rewrite (decimal_le_at e x y), (decimal_le_at e y z), (decimal_le_at e x z) by lia. lia.
Qed.
Lemma by_rank_score x y : by_rank x y → decimal_le (ca_score y) (ca_score x).
Proof. unfold by_rank. destruct (decide _) as [[??]|]; auto. Qed.
#[export] Instance by_rank_total : Total by_rank.
Proof.
  intros x y. unfold by_rank.
  destruct (decide _) as [[H1 H2]|H1], (decide (decimal_le (ca_score y) (ca_score x) ∧ _))
    as [[H3 H4]|H3]; try tauto.
  - apply (total (by_key _ _)).
  - destruct (total decimal_le (ca_score x) (ca_score y)); tauto.
Qed.
#[export] Instance by_rank_trans : Transitive by_rank.
Proof.
  intros x y z Hxy Hyz.
  pose proof (by_rank_score _ _ Hxy) as Sxy. pose proof (by_rank_score _ _ Hyz) as Syz.
  unfold by_rank in *.
  destruct (decide (decimal_le (ca_score x) (ca_score z) ∧ _)) as [[Hxz _]|_]; [|by etrans].
  rewrite decide_True in Hxy by (split; [by etrans|done]).
  rewrite decide_True in Hyz by (split; [by etrans|done]).
  by etrans.
Qed.

(** ** Summaries are short *)

Lemma runes_cons a r :
  ∃ u r', runes (String a r) = u :: runes r' ∧ slen u <= 4 ∧
    slen r' < slen (String a r) <= slen r' + 4.
Proof.
  unfold slen, runes. cbn [units].
  assert (Hone : ∀ u k r' : nat, (u <= 4)%nat → (0 < k <= 4)%nat → Z.of_nat u <= 4 ∧
    Z.of_nat r' < Z.of_nat (k + r') <= Z.of_nat r' + 4) by lia.
  destruct (within 0 127 a); [exists (String a ""), r; split; [done|apply (Hone 1%nat 1%nat); lia]|].
  destruct r as [|b r2]; [exists replacement, ""; split; [done|apply (Hone 3%nat 1%nat); lia]|].
  destruct (valid2 a b);
    [exists (String a (String b "")), r2; split; [done|apply (Hone 2%nat 2%nat); lia]|].
  destruct r2 as [|c r3];
    [exists replacement, (String b ""); split; [done|apply (Hone 3%nat 1%nat); lia]|].
  destruct (valid3 a b c);
    [exists (String a (String b (String c ""))), r3; split; [done|apply (Hone 3%nat 3%nat); lia]|].
  destruct r3 as [|d r4];
    [exists replacement, (String b (String c "")); split; [done|apply (Hone 3%nat 1%nat); lia]|].
  destruct (valid4 a b c d);
    [exists (String a (String b (String c (String d "")))), r4; split;
       [done|apply (Hone 4%nat 4%nat); lia]|
     exists replacement, (String b (String c (String d r4))); split;
       [done|apply (Hone 3%nat 1%nat); lia]].
Qed.
Lemma runes_bounds s : slen s <= 4 * rune_count s ∧ Forall (λ u, slen u <= 4) (runes s).
Proof.
  unfold rune_count.
  remember (String.length s) as n eqn:Hn. revert s Hn.
  induction n as [n IH] using (well_founded_induction lt_wf). intros s ->.
  destruct s as [|a r]; [by split|].
  destruct (runes_cons a r) as (u & r' & -> & Hu & Hr).
  destruct (IH (String.length r') ltac:(unfold slen in Hr; lia) r' eq_refl) as [H1 H2].
  split; [cbn [length]; lia|by constructor].
Qed.
Lemma slen_take_runes n s : 0 <= n → slen (take_runes n s) <= 4 * n.
Proof.
  intros Hn. unfold take_runes.
  pose proof (slen_sjoin "" (take (Z.to_nat n) (runes s)) 4 ltac:(lia)
    (Forall_take _ _ _ (proj2 (runes_bounds s)))) as H.
  rewrite length_take in H. change (slen "") with 0 in H. lia.
Qed.
Lemma slen_CompactText text n : 0 < n → slen (CompactText text n) <= 4 * n.
Proof.
  intros Hn. unfold CompactText. destruct (_ =?s _); [unfold slen; cbn; lia|].
  cbn zeta.
  rewrite (proj2 (Z.leb_gt n 0)) by lia. destruct (Z.leb_spec (rune_count (trim_space text)) n).
  - pose proof (proj1 (runes_bounds (trim_space text))). lia.
  - destruct (Z.leb_spec n 3); [apply slen_take_runes; lia|]. rewrite slen_app.
    change (slen "...") with 3.
    pose proof (slen_trim_space (take_runes (n - 3) (trim_space text))).
    pose proof (slen_take_runes (n - 3) (trim_space text) ltac:(lia)). lia.
Qed.

(** ** What is selected *)

(** The candidates picked so far, and when a candidate cannot join them. *)
Definition selection (picked : list candidate) : Selection := foldl pick no_selection picked.
Definition count_class (c : string) (l : list candidate) : Z :=
  Z.of_nat (length (filter (λ x, class_of x = c) l)).
Definition blocked (limit perClassLimit : Z) (picked : list candidate) (x : candidate) : Prop :=
  source_ref x ∈ source_ref <$> picked
  ∨ perClassLimit <= count_class (class_of x) picked
  ∨ limit <= Z.of_nat (length picked).
Record balanced (limit perClassLimit : Z) (picked : list candidate) : Prop := {
  bal_limit : Z.of_nat (length picked) <= limit;
  bal_class : ∀ c, count_class c picked <= perClassLimit;
  bal_refs : NoDup (source_ref <$> picked);
  bal_named : ":" ∉ source_ref <$> picked;
}.

Lemma selection_snoc picked x : selection (picked ++ [x]) = pick (selection picked) x.
Proof. apply foldl_snoc. Qed.
Lemma count_class_snoc c picked x :
  count_class c (picked ++ [x]) = count_class c picked + (if decide (class_of x = c) then 1 else 0).
Proof.
  unfold count_class. rewrite filter_app, length_app, filter_cons, filter_nil.
  destruct (decide _); cbn [length]; lia.
Qed.
Lemma selection_hits picked : se_hits (selection picked) = hit_of <$> picked.
Proof.
  induction picked as [|x l IH] using rev_ind; [done|].
  rewrite selection_snoc, fmap_app. cbn. by rewrite IH.
Qed.
Lemma selection_why picked :
  se_why (selection picked) = (λ x, source_ref x +:+ ": " +:+ hit_reason (hit_of x)) <$> picked.
Proof.
  induction picked as [|x l IH] using rev_ind; [done|].
  rewrite selection_snoc, fmap_app. cbn. by rewrite IH.
Qed.
Lemma selection_seen picked r : r ∈ se_seen (selection picked) ↔ r ∈ source_ref <$> picked.
Proof.
  induction picked as [|x l IH] using rev_ind; [cbn; set_solver|].
  rewrite selection_snoc, fmap_app, elem_of_app. cbn.
  rewrite elem_of_union, elem_of_singleton, IH, list_elem_of_singleton. tauto.
Qed.
Lemma selection_per_class picked c :
  default 0 (se_per_class (selection picked) !! c) = count_class c picked.
Proof.
  induction picked as [|x l IH] using rev_ind; [done|].
  rewrite selection_snoc, count_class_snoc. cbn. destruct (decide (class_of x = c)) as [<-|Hne].
  - by rewrite lookup_insert_eq, IH.
  - rewrite lookup_insert_ne, IH by done. lia.
Qed.
Lemma selection_summaries picked c :
  se_summaries (selection picked) !! c =
    hit_summary ∘ hit_of <$> head (filter (λ x, class_of x = c) picked).
Proof.
  induction picked as [|x l IH] using rev_ind; [done|].
  rewrite selection_snoc, filter_app. cbn [se_summaries pick].
  assert (Hx : filter (λ y, class_of y = c) [x] = if decide (class_of x = c) then [x] else []).
  { rewrite filter_cons, filter_nil. done. }
  rewrite Hx. destruct (decide (class_of x = c)) as [<-|Hne].
  - destruct (se_summaries (selection l) !! class_of x) eqn:E.
    + rewrite E. destruct (filter _ l); [discriminate IH|exact IH].
    + rewrite lookup_insert_eq. destruct (filter _ l); [done|discriminate IH].
  - rewrite app_nil_r. destruct (_ !! class_of x); [done|]. by rewrite lookup_insert_ne.
Qed.

Lemma pick_balanced limit perClassLimit picked x :
  balanced limit perClassLimit picked → source_ref x ≠ ":" →
  ¬ blocked limit perClassLimit picked x → balanced limit perClassLimit (picked ++ [x]).
Proof.
  intros [Hl Hc Hn Hs] Hx Hb. unfold blocked in Hb. split.
  - rewrite length_app. cbn [length]. lia.
  - intros c. rewrite count_class_snoc. specialize (Hc c). destruct (decide _) as [<-|]; lia.
  - rewrite fmap_app. apply NoDup_app. split_and!; [done| |apply NoDup_singleton].
    cbn. intros r Hr ->%list_elem_of_singleton. tauto.
  - rewrite fmap_app, elem_of_app. cbn. rewrite list_elem_of_singleton. naive_solver.
Qed.

(** The rest of the candidates, in their order, against those picked before. *)
Lemma select_from_spec limit perClassLimit l : ∀ picked,
  StronglySorted by_rank l → Forall (λ x, Forall (by_rank x) l) picked →
  balanced limit perClassLimit picked → Z.of_nat (length picked) < limit →
  ∃ more,
    select_from limit perClassLimit l (selection picked) = selection (picked ++ more)
    ∧ more `sublist_of` l ∧ balanced limit perClassLimit (picked ++ more)
    ∧ ∀ x, x ∈ l → x ∈ more ∨ source_ref x = ":" ∨
        ∃ earlier, earlier `prefix_of` picked ++ more ∧ Forall (λ y, by_rank y x) earlier ∧
                   blocked limit perClassLimit earlier x.
Proof.
  induction l as [|x l IH]; intros picked Hs Hbefore Hbal Hlen.
  { exists []. rewrite app_nil_r. split_and!; [done..|]. intros x Hx. by apply not_elem_of_nil in Hx. }
  apply StronglySorted_inv in Hs as [Hs Hx].
  assert (Hl : Forall (λ y, Forall (by_rank y) l) picked).
  { eapply Forall_impl; [exact Hbefore|]. intros y Hy. by inversion_clear Hy. }
  assert (Hxl : Forall (λ y, by_rank y x) picked).
  { eapply Forall_impl; [exact Hbefore|]. intros y Hy. by inversion_clear Hy. }
  assert (Hskip : (source_ref x = ":" ∨ blocked limit perClassLimit picked x) → ∃ more,
    select_from limit perClassLimit l (selection picked) = selection (picked ++ more)
    ∧ more `sublist_of` x :: l ∧ balanced limit perClassLimit (picked ++ more)
    ∧ ∀ y, y ∈ x :: l → y ∈ more ∨ source_ref y = ":" ∨
        ∃ earlier, earlier `prefix_of` picked ++ more ∧ Forall (λ z, by_rank z y) earlier ∧
                   blocked limit perClassLimit earlier y).
  { intros Hwhy. destruct (IH picked Hs Hl Hbal Hlen) as (more & Hrun & Hsub & Hb & Hall).
    exists more. split_and!; [done|by apply sublist_cons|done|].
    intros y [->|Hy]%elem_of_cons; [|by apply Hall].
    right. destruct Hwhy as [Hwhy|Hwhy]; [by left|right]. exists picked.
    split_and!; [by apply prefix_app_r|done..]. }
  cbn [select_from]. destruct (String.eqb_spec (source_ref x) ":") as [Href|Href]; [auto|].
  case_bool_decide as Hseen; [apply Hskip; right; left; by apply selection_seen|].
  rewrite selection_per_class.
  destruct (Z.leb_spec perClassLimit (count_class (class_of x) picked));
    [apply Hskip; right; right; by left|].
  assert (Hnb : ¬ blocked limit perClassLimit picked x).
  { intros [Hin%selection_seen|[Hc|Hc]]; [done|lia|lia]. }
  pose proof (pick_balanced _ _ _ _ Hbal Href Hnb) as Hbal'.
  assert (Hl' : Forall (λ y, Forall (by_rank y) l) (picked ++ [x])).
  { apply Forall_app. split; [done|]. by repeat constructor. }
  rewrite <- selection_snoc, selection_hits, length_fmap.
  destruct (Z.leb_spec limit (Z.of_nat (length (picked ++ [x])))) as [Hfull|Hroom].
  - exists [x]. split_and!; [done|by apply sublist_skip, sublist_nil_l|done|].
    intros y [->|Hy]%elem_of_cons; [left; by left|]. right. right. exists (picked ++ [x]).
    split_and!; [done| |by right; right].
    eapply Forall_impl; [exact Hl'|]. intros z Hz. rewrite Forall_forall in Hz. by apply Hz.
  - destruct (IH (picked ++ [x])) as (more & Hrun & Hsub & Hb & Hall); [done..|].
    exists (x :: more). rewrite <- (assoc app) in Hrun, Hb, Hall. cbn in Hrun, Hb, Hall.
    split_and!; [done|by apply sublist_skip|done|].
    intros y [->|Hy]%elem_of_cons; [left; by left|].
    destruct (Hall y Hy) as [?|?]; [left; by right|by right].
Qed.

(** The fragments a prompt shows are taken greedily in order of rank (better scores
    first, then classes by their priority, then references; guardrails never): at most
    [limit] of them, at most [perClassLimit] of a class, each with a reference of its
    own and a summary of at most 720 bytes.  A candidate is left out
    only when it has no reference, or when those picked before it, all of at least its
    rank, hold its reference, fill its class or fill the list.  The reasons list the
    hits in order and the summaries are those of the first hit of each class. *)
Theorem SelectRetrievalHits_spec chunks limit0 perClassLimit0 :
  let limit := or_default limit0 DefaultPrecedentLimit in
  let perClassLimit := or_default perClassLimit0 DefaultPerClassLimit in
  let '(hits, summaries, why) := SelectRetrievalHits chunks limit0 perClassLimit0 in
  ∃ picked,
    picked `sublist_of` ranking chunks ∧ hits = hit_of <$> picked ∧
    StronglySorted by_rank (ranking chunks) ∧
    (∀ x, x ∈ ranking chunks ↔ ∃ c, c ∈ chunks ∧ candidate_of c = Some x) ∧
    balanced limit perClassLimit picked ∧
    Forall (λ h, hit_class h ≠ MemoryClassNegativeGuardrail ∧ slen (hit_summary h) <= 720) hits ∧
    (∀ x, x ∈ ranking chunks → x ∈ picked ∨ source_ref x = ":" ∨
       ∃ earlier, earlier `prefix_of` picked ∧ Forall (λ y, by_rank y x) earlier ∧
                  blocked limit perClassLimit earlier x) ∧
    why = (λ h, hit_ref h +:+ ": " +:+ hit_reason h) <$> hits ∧
    ∀ c, summaries !! c = hit_summary <$> head (filter (λ h, hit_class h = c) hits).
Proof.
  intros limit perClassLimit. unfold SelectRetrievalHits. fold limit perClassLimit.
  assert (Hpos : 0 < limit ∧ 0 < perClassLimit).
  { subst limit perClassLimit. unfold or_default, DefaultPrecedentLimit, DefaultPerClassLimit.
    destruct (Z.leb_spec limit0 0), (Z.leb_spec perClassLimit0 0); lia. }
  pose proof (StronglySorted_stable_sort by_rank (omap candidate_of chunks)) as Hsort.
  assert (Helem : ∀ x, x ∈ ranking chunks ↔ ∃ c, c ∈ chunks ∧ candidate_of c = Some x).
  { intros x. unfold ranking. by rewrite stable_sort_Permutation, list_elem_of_omap. }
  destruct (select_from_spec limit perClassLimit (ranking chunks) []) as
    (picked & Hrun & Hsub & Hbal & Hall); [done|constructor| |cbn; lia|].
  { split; cbn; [lia|intros; unfold count_class; cbn; lia|constructor|apply not_elem_of_nil]. }
  change (selection []) with no_selection in Hrun. rewrite Hrun. cbn [app] in *.
  rewrite selection_hits, selection_why. exists picked.
  split_and!; [done..| |done| |].
  - apply Forall_fmap, Forall_forall. intros x Hx. cbn. split.
    + eapply elem_of_sublist in Hsub; [|exact Hx].
      apply Helem in Hsub as (c & _ & Hc). unfold candidate_of in Hc.
      destruct (String.eqb_spec (chunk_class c) MemoryClassNegativeGuardrail); [done|].
      by injection Hc as <-.
    + etrans; [by apply slen_CompactText|]. unfold DefaultChunkSummaryChars. lia.
  - by rewrite <- list_fmap_compose.
  - intros c. rewrite selection_summaries.
    assert (Hf : filter (λ h, hit_class h = c) (hit_of <$> picked)
                 = hit_of <$> filter (λ x, class_of x = c) picked).
    { clear. induction picked as [|x l IH]; [done|]. cbn [fmap list_fmap].
      rewrite !filter_cons. change (hit_class (hit_of x)) with (class_of x).
      destruct (decide _); cbn [fmap list_fmap]; by rewrite IH. }
    rewrite Hf. by destruct (filter _ picked).
Qed.
