(* ===== verification/Workspace.v ===== *)
(** * What the planner reads of a workspace ([initiative/objectives.go])

    The walk over the files, the kinds of paths, and the ranking of the files an
    objective is likely about. *)
From S2P Require Import Prelude GoVal Objective.

(** ** Files

    What a path names: a file ([None] when it cannot be read), a directory with its
    entries in the order of their names, or a symbolic link ([None] when it dangles). *)
Inductive node :=
  | File (content : option string)
  | Directory (entries : list (string * node))
  | Link (target : option node).

(** The file system, by path. *)
Class Disk := { disk : string → option node }.

(** What a link leads to. *)
Fixpoint follow (t : node) : option node :=
  match t with Link None => None | Link (Some t) => follow t | _ => Some t end.
(** An entry of a directory by name ([filepath.Join(dir, name)]), links followed. *)
Definition child (name : string) (t : node) : option node :=
  match follow t with
  | Some (Directory entries) =>
      match head (filter (λ e, e.1 = name) entries) with
      | Some (_, t) => follow t
      | None => None
      end
  | _ => None
  end.
Definition file_text (t : node) : option string :=
  match t with File content => content | _ => None end.
Definition is_directory (t : node) : bool := match t with Directory _ => true | _ => false end.

(** ** [filepath.WalkDir]

    [visit] is called for the root with the path "" and for everything under it with
    its path from there, directories before their entries; a directory that cannot be
    read has none. *)
Inductive walk_next := WalkOn | SkipDir | SkipAll.

Section Walk.
Context {A : Type} (visit : string → bool → A → A * walk_next).

Definition below (rel name : string) : string := if rel =?s "" then name else rel +:+ "/" +:+ name.
Fixpoint walk (rel : string) (t : node) (acc : A) : A * walk_next :=
  match t with
  | Directory entries =>
      match visit rel true acc with
      | (acc, WalkOn) =>
          (fix walk_entries (l : list (string * node)) (acc : A) : A * walk_next :=
             match l with
             | [] => (acc, WalkOn)
             | (name, t) :: l =>
                 match walk (below rel name) t acc with
                 | (acc, WalkOn) => walk_entries l acc
                 | (acc, SkipDir) => (acc, WalkOn)
                 | (acc, SkipAll) => (acc, SkipAll)
                 end
             end) entries acc
      | (acc, SkipDir) => (acc, WalkOn)
      | (acc, SkipAll) => (acc, SkipAll)
      end
  | _ => visit rel false acc
  end.
End Walk.
Definition WalkDir {A} (t : option node) (visit : string → bool → A → A * walk_next) (acc : A) : A :=
  match t with Some t => (walk visit "" t acc).1 | None => acc end.

(** ** Kinds of paths *)

(** [orchestratorgo/initiative/objectives.go:1107-1115] isObjectiveInterestingFile. *)
Definition interesting_extensions : list string :=
  [".go"; ".py"; ".ts"; ".tsx"; ".js"; ".jsx"; ".java"; ".kt"; ".rs"; ".rb"; ".php"; ".md";
   ".txt"; ".json"; ".toml"; ".yaml"; ".yml"].
Definition isObjectiveInterestingFile (path : string) : bool :=
  bool_decide (to_lower (path_ext path) ∈ interesting_extensions)
  || equal_fold (path_base path) "Dockerfile".

(** [orchestratorgo/initiative/objectives.go:1004-1013] objectiveIsDocumentationPath. *)
Definition objectiveIsDocumentationPath (path : string) : bool :=
  let path := to_lower (trim_space path) in
  if path =?s "" then false
  else if (path =?s "readme.md") || has_prefix "docs/" path then true
  else has_suffix ".md" path.

(** [orchestratorgo/initiative/objectives.go:1066-1092] objectiveIsInfraPath. *)
Definition objectiveIsInfraPath (path : string) : bool :=
  let path := to_lower (trim_space path) in
  if path =?s "" then false
  else
    let base := path_base path in
    if base =?s "dockerfile" then true
    else if has_prefix ".github/workflows/" path then true
    else if contains "docker-compose" path then true
    else if contains "compose." path && (has_suffix ".yml" path || has_suffix ".yaml" path)
    then true
    else if has_suffix ".env" path || contains ".env." path then true
    else if existsb (λ prefix, has_prefix prefix path)
              ["deploy/"; "deployment/"; "infra/"; "k8s/"; "helm/"; "config/"] then true
    else if (base =?s "docker-compose.yml") || (base =?s "docker-compose.yaml") then true
    else has_suffix ".yaml" path || has_suffix ".yml" path || has_suffix ".toml" path.

(** [orchestratorgo/initiative/objectives.go:1094-1105] objectiveIsDependencyPath. *)
Definition dependency_files : list string :=
  ["go.mod"; "go.sum"; "package.json"; "package-lock.json"; "pnpm-lock.yaml"; "yarn.lock";
   "requirements.txt"; "pyproject.toml"; "poetry.lock"; "cargo.toml"; "cargo.lock"; "gemfile";
   "gemfile.lock"; "composer.json"; "composer.lock"].
Definition objectiveIsDependencyPath (path : string) : bool :=
  let path := to_lower (trim_space path) in
  if path =?s "" then false else bool_decide (path_base path ∈ dependency_files).

(** [orchestratorgo/initiative/objectives.go:1055-1064] dependencyPathPriority. *)
Definition dependencyPathPriority (path : string) : Z :=
  let base := path_base (to_lower (trim_space path)) in
  if bool_decide (base ∈ ["package.json"; "go.mod"; "requirements.txt"; "pyproject.toml";
                          "cargo.toml"; "gemfile"; "composer.json"]) then 0
  else if bool_decide (base ∈ ["package-lock.json"; "pnpm-lock.yaml"; "yarn.lock"; "go.sum";
                               "poetry.lock"; "cargo.lock"; "gemfile.lock"; "composer.lock"]) then 1
  else 2.

(** [orchestratorgo/initiative/objectives.go:1147-1162] uniqueObjectivePaths. *)
Definition uniqueObjectivePaths (l : list string) : list string := unique_from [] l.

(** ** Files of a workspace *)

Section Files.
Context `{Disk}.

(** [os.Stat] and [os.ReadFile] of an entry of a directory. *)
Definition stat_in (root name : string) : option node :=
  match disk root with Some t => child name t | None => None end.
Definition read_in (root name : string) : option string :=
  match stat_in root name with Some t => file_text t | None => None end.

(** [orchestratorgo/initiative/objectives.go:937-947] readObjectiveReadme. *)
Definition readObjectiveReadme (workspaceRoot : string) : string :=
  match read_in (trim_space workspaceRoot) "README.md" with
  | None => ""
  | Some text => if 1200 <? slen text then stake 1200 text else text
  end.

(** [orchestratorgo/initiative/objectives.go:949-985] listObjectiveCandidateFiles. *)
Definition skipped_directories : list string := [".git"; ".lab"; "node_modules"; "dist"; "build"].
Definition visit_candidate (rel : string) (isDir : bool) (entries : list string) :
    list string * walk_next :=
  if rel =?s "" then (entries, WalkOn)
  else if isDir then
    (entries, if bool_decide (rel ∈ skipped_directories) then SkipDir else WalkOn)
  else if negb (isObjectiveInterestingFile rel) then (entries, WalkOn)
  else
    let entries := entries ++ [rel] in
    (entries, if (24 <=? length entries)%nat then SkipAll else WalkOn).
Definition listObjectiveCandidateFiles (workspaceRoot : string) : list string :=
  let root := trim_space workspaceRoot in
  if root =?s "" then []
  else merge_sort String.le (WalkDir (disk root) visit_candidate []).

(** [orchestratorgo/initiative/objectives.go:987-1002] objectiveDocumentationPaths. *)
Definition first_or_bootstrap (out : list string) (bootstrap : bool) (file : string) : list string :=
  uniqueObjectivePaths (if bool_decide (out = []) && bootstrap then [file] else out).
Definition objectiveDocumentationPaths (workspaceRoot : string) (bootstrap : bool) : list string :=
  first_or_bootstrap
    (take 3 (filter (λ path, objectiveIsDocumentationPath path = true)
               (listObjectiveCandidateFiles workspaceRoot)))
    bootstrap "README.md".
(** [orchestratorgo/initiative/objectives.go:1015-1030] objectiveInfraPaths. *)
Definition objectiveInfraPaths (workspaceRoot : string) (bootstrap : bool) : list string :=
  first_or_bootstrap
    (take 3 (filter (λ path, objectiveIsInfraPath path = true)
               (listObjectiveCandidateFiles workspaceRoot)))
    bootstrap "Dockerfile".
(** [orchestratorgo/initiative/objectives.go:1032-1053] objectiveDependencyPaths. *)
Definition manifests_first : relation string :=
  by_key (λ path, (dependencyPathPriority path, path)) (lex2 Z.le String.le).
#[export] Instance manifests_first_dec : RelDecision manifests_first.
Proof. unfold manifests_first. apply _. Defined.
Definition objectiveDependencyPaths (workspaceRoot : string) (bootstrap : bool) : list string :=
  first_or_bootstrap
    (take 3 (stable_sort manifests_first
       (filter (λ path, objectiveIsDependencyPath path = true)
          (listObjectiveCandidateFiles workspaceRoot))))
    bootstrap "package.json".

(** [orchestratorgo/initiative/objectives.go:1200-1209] shouldBootstrapObjectiveWorkspace. *)
Definition shouldBootstrapObjectiveWorkspace (workspaceRoot : string) : bool :=
  let root := trim_space workspaceRoot in
  if root =?s "" then false
  else match stat_in root ".git" with
       | Some _ => false
       | None => bool_decide (listObjectiveCandidateFiles root = [])
       end.
End Files.

(** ** Which files an objective is about *)

(** [orchestratorgo/initiative/objectives.go:1117-1130] containsExactPath, objectivePrimaryCodeCue. *)
Definition containsExactPath (goal candidate : string) : bool := contains candidate goal.
Definition mentions_any (words : list string) (text : string) : bool :=
  existsb (λ w, contains w text) words.
Definition objectivePrimaryCodeCue (goal lowerPath : string) : bool :=
  negb (objectiveIsDocumentationPath lowerPath || objectiveIsInfraPath lowerPath
        || objectiveIsDependencyPath lowerPath)
  && mentions_any ["fix"; "implement"; "repair"; "change"; "update"] goal.

(** [orchestratorgo/initiative/objectives.go:1132-1145] objectiveReadmeCueWeight. *)
Definition count_mentions (words : list string) (line : string) : Z :=
  Z.of_nat (length (filter (λ w, contains w line = true) words)).
Definition objectiveReadmeCueWeight (line : string) : Z :=
  2 * count_mentions ["current"; "primary"; "implemented"; "lives in"; "source of truth";
                      "toggle"; "objective"] line
  - 3 * count_mentions ["legacy"; "deprecated"; "old"; "unused"; "do not"; "should not";
                        "obsolete"] line.

(** [orchestratorgo/initiative/objectives.go:885-912] objectivePlannerPrecedentSupport. *)
Definition precedent_supports (lowerPath base : string) (item : gmap_any) : bool :=
  let summary := to_lower (text_at item "summary") in
  negb ((summary =?s "") || (text_at item "source_ref" =?s ""))
  && (contains lowerPath summary || contains base summary).
Definition objectivePlannerPrecedentSupport (precedents : list gmap_any) (lowerPath base : string) :
    list string * string * string :=
  match filter (λ item, precedent_supports lowerPath base item = true) precedents with
  | [] => ([], "", "")
  | item :: more =>
      (uniqueObjectivePaths ((λ i, text_at i "source_ref") <$> take 2 (item :: more)),
       "retrieved precedent supports this path", text_at item "summary")
  end.

(** [orchestratorgo/initiative/objectives.go:761-768] buildInitialScopeHypotheses: a
    candidate, *)
Record scope_candidate := MkScopeCandidate {
  sc_path : string;
  sc_score : Z;
  sc_rationale : string;
  sc_evidence : string;
  sc_confidence : string;
  sc_citations : list string;
}.
(** [orchestratorgo/initiative/objectives.go:777-790] buildInitialScopeHypotheses: by the
    goal, *)
Definition score_goal (goal path : string) : scope_candidate :=
  let lowerPath := to_lower (trim_space path) in
  if containsExactPath goal lowerPath || containsExactPath goal (to_lower (path_base lowerPath))
  then MkScopeCandidate path (12 + (if objectivePrimaryCodeCue goal lowerPath then 3 else 0))
         "objective references the file directly" path "high" []
  else MkScopeCandidate path 0 "" "" "low" [].
(** [orchestratorgo/initiative/objectives.go:791-816] buildInitialScopeHypotheses: by a line
    of the README, *)
Definition score_line (lowerPath : string) (c : scope_candidate) (line : string) : scope_candidate :=
  let line := trim_space line in
  let base := to_lower (path_base lowerPath) in
  if line =?s "" then c
  else
    let mention :=
      if contains lowerPath line then 8 else if contains base line then 6 else 0 in
    if mention =? 0 then c
    else
      let lineScore := mention + objectiveReadmeCueWeight line in
      if sc_score c <? lineScore then
        MkScopeCandidate (sc_path c) lineScore "repository documentation points to this file"
          line (if 9 <=? lineScore then "high" else "medium") (sc_citations c)
      else c.
(** [orchestratorgo/initiative/objectives.go:817-822] buildInitialScopeHypotheses: by the
    profile of the repository, *)
Definition score_expected (expectedPaths : list string) (c : scope_candidate) : scope_candidate :=
  if (sc_score c =? 0) && bool_decide (sc_path c ∈ expectedPaths) then
    MkScopeCandidate (sc_path c) 3 "repo profile expected file" (sc_path c) "low" (sc_citations c)
  else c.
(** [orchestratorgo/initiative/objectives.go:823-837] buildInitialScopeHypotheses: and by
    precedents. *)
Definition score_precedents (precedents : list gmap_any) (lowerPath : string)
    (c : scope_candidate) : scope_candidate :=
  let '(citations, reason, evidence) :=
    objectivePlannerPrecedentSupport precedents lowerPath (to_lower (path_base lowerPath)) in
  if bool_decide (citations = []) then c
  else
    MkScopeCandidate (sc_path c) (sc_score c + 4)
      (if sc_rationale c =?s "" then reason else sc_rationale c +:+ "; " +:+ reason)
      (if sc_evidence c =?s "" then evidence else sc_evidence c)
      (if sc_confidence c =?s "low" then "medium" else sc_confidence c) citations.
(** [orchestratorgo/initiative/objectives.go:772-849] buildInitialScopeHypotheses: the
    loop. *)
Definition scope_candidate_of (goal : string) (readmeLines expectedPaths : list string)
    (precedents : list gmap_any) (path : string) : option scope_candidate :=
  let lowerPath := to_lower (trim_space path) in
  if lowerPath =?s "" then None
  else
    let c := score_precedents precedents lowerPath
      (score_expected expectedPaths
        (foldl (score_line lowerPath) (score_goal goal path) readmeLines)) in
    if sc_score c =? 0 then None else Some c.
(** [orchestratorgo/initiative/objectives.go:850-855] buildInitialScopeHypotheses: the order
    of the candidates. *)
Definition by_evidence : relation scope_candidate :=
  by_key (λ c, (sc_score c, sc_path c)) (lex2 (flip Z.le) String.le).
#[export] Instance by_evidence_dec : RelDecision by_evidence.
Proof. unfold by_evidence. apply _. Defined.
#[export] Instance by_evidence_total : Total by_evidence.
Proof. unfold by_evidence. apply _. Qed.
#[export] Instance by_evidence_trans : Transitive by_evidence.
Proof. unfold by_evidence. apply _. Qed.

(** [orchestratorgo/initiative/objectives.go:914-925] rejectedScopeReason. *)
Definition rejectedScopeReason (path : string) (score : Z) (winnerPath : string)
    (winnerScore rank : Z) : string :=
  let excluded :=
    "ranked " +:+ pretty rank +:+ " and excluded from the first-pass scope shortlist" in
  if winnerPath =?s "" then excluded
  else if score <? winnerScore then
    "ranked below " +:+ winnerPath +:+ " because its evidence score (" +:+ pretty score
    +:+ ") was weaker than the winner (" +:+ pretty winnerScore +:+ ")"
  else if (score =? winnerScore) && negb (path =?s winnerPath) then
    "rank tie lost to " +:+ winnerPath
    +:+ "; the planner kept the earlier top-ranked path as the safer first target"
  else excluded.

(** [orchestratorgo/initiative/objectives.go:856-881] buildInitialScopeHypotheses: the two
    first are selected. *)
Definition hypothesis (winner : scope_candidate) (idx : nat) (c : scope_candidate) :
    ScopeHypothesis :=
  let rank := Z.of_nat idx + 1 in
  let selected := (idx <? 2)%nat in
  {| sh_path := sc_path c; sh_rationale := sc_rationale c; sh_evidence := sc_evidence c;
     sh_confidence := sc_confidence c; sh_citations := Some (sc_citations c); sh_rank := rank;
     sh_score := sc_score c;
     sh_disposition := if selected then "selected" else "rejected";
     sh_rejected := if selected then ""
       else rejectedScopeReason (sc_path c) (sc_score c) (sc_path winner) (sc_score winner) rank |}.

Section Scope.
Context `{Disk}.

(** [orchestratorgo/initiative/objectives.go:758-883] buildInitialScopeHypotheses: the
    selected and the rejected, *)
Definition ranked_candidates (workspaceRoot objective : string) (expectedPaths : list string)
    (precedents : list gmap_any) : list scope_candidate :=
  let readmeLines := split_on (ascii_of_nat 10) (to_lower (readObjectiveReadme workspaceRoot)) in
  stable_sort by_evidence
    (omap (scope_candidate_of (to_lower (trim_space objective)) readmeLines expectedPaths precedents)
       (uniqueObjectivePaths (listObjectiveCandidateFiles workspaceRoot ++ expectedPaths))).
Definition buildInitialScopeHypotheses (workspaceRoot objective : string)
    (expectedPaths : list string) (precedents : list gmap_any) :
    slice ScopeHypothesis * slice ScopeHypothesis :=
  match ranked_candidates workspaceRoot objective expectedPaths precedents with
  | [] => (None, None)
  | (winner :: _) as candidates =>
      let hypotheses := imap (hypothesis winner) candidates in
      (Some (take 2 hypotheses), Some (drop 2 hypotheses))
  end.
End Scope.

(** [orchestratorgo/initiative/objectives.go:927-935] scopeHypothesisPaths. *)
Definition scopeHypothesisPaths (hypotheses : list ScopeHypothesis) : list string :=
  uniqueObjectivePaths (filter (λ p, p ≠ "") (trim_space ∘ sh_path <$> hypotheses)).

(** ** The walk as a list *)

Lemma node_nested_ind (P : node → Prop) :
  (∀ c, P (File c)) → (∀ l, Forall (λ e, P e.2) l → P (Directory l)) → (∀ o, P (Link o)) →
  ∀ t, P t.
Proof.
  intros Hf Hd Hl. fix IH 1. intros [c|l|o]; [apply Hf| |apply Hl].
  apply Hd. induction l as [|[name t] l IHl]; constructor; [apply IH|exact IHl].
Qed.

(** The files the planner is interested in, in the order of the walk: all of those not
    under a skipped directory of the root. *)
Fixpoint files_below (rel : string) (t : node) : list string :=
  match t with
  | Directory entries =>
      if bool_decide (rel ∈ skipped_directories) then []
      else entries ≫= λ e, files_below (below rel e.1) e.2
  | _ => if negb (rel =?s "") && isObjectiveInterestingFile rel then [rel] else []
  end.

Definition collected (all : list string) : list string * walk_next :=
  if (24 <=? length all)%nat then (take 24 all, SkipAll) else (all, WalkOn).
Lemma collected_full acc more : (24 <= length acc)%nat → collected (acc ++ more) = collected acc.
Proof.
  intros Hacc. unfold collected. rewrite length_app.
  rewrite !(proj2 (Nat.leb_le _ _)) by lia. by rewrite take_app_le by lia.
Qed.
Lemma walk_candidates t : ∀ rel acc,
  (length acc < 24)%nat → walk visit_candidate rel t acc = collected (acc ++ files_below rel t).
Proof.
  assert (Hfile : ∀ rel acc, (length acc < 24)%nat → visit_candidate rel false acc
    = collected (acc ++ if negb (rel =?s "") && isObjectiveInterestingFile rel then [rel] else [])).
  { intros rel acc Hacc. unfold visit_candidate, collected.
    assert (Hroom : (24 <=? length acc)%nat = false) by by apply Nat.leb_gt.
    destruct (rel =?s ""), (isObjectiveInterestingFile rel); cbn [negb andb];
      rewrite ?app_nil_r, ?Hroom; try done.
    destruct (24 <=? length (acc ++ [rel]))%nat; [|done].
    rewrite take_ge; [done|]. rewrite length_app. cbn [length]. lia. }
  induction t as [c|l IH|o] using node_nested_ind; intros rel acc Hacc; [by apply Hfile| |by apply Hfile].
  cbn [walk files_below].
  assert (Hvisit : visit_candidate rel true acc
    = (acc, if bool_decide (rel ∈ skipped_directories) then SkipDir else WalkOn)).
  { unfold visit_candidate. by destruct (String.eqb_spec rel "") as [->|]. }
  rewrite Hvisit. case_bool_decide.
  { unfold collected. rewrite app_nil_r. by rewrite (proj2 (Nat.leb_gt 24 (length acc))). }
  clear Hvisit. revert acc Hacc. induction IH as [|[name t] l Ht Hl IHl]; intros acc Hacc.
  { cbn. unfold collected. rewrite app_nil_r. by rewrite (proj2 (Nat.leb_gt 24 (length acc))). }
  cbn [snd] in Ht. cbn. rewrite (Ht _ _ Hacc).
  destruct (Nat.le_gt_cases 24 (length (acc ++ files_below (below rel name) t))) as [Hfull|Hroom].
  - rewrite app_assoc, (collected_full _ _ Hfull). unfold collected.
    by rewrite (proj2 (Nat.leb_le _ _) Hfull).
  - unfold collected at 1. rewrite (proj2 (Nat.leb_gt _ _) Hroom), (IHl _ Hroom).
    by rewrite app_assoc.
Qed.

Section Listing.
Context `{Disk}.

(** The candidates are the first 24 of those files, sorted. *)
Definition first_files (workspaceRoot : string) : list string :=
  let root := trim_space workspaceRoot in
  if root =?s "" then [] else take 24 (default [] (files_below "" <$> disk root)).
Lemma listObjectiveCandidateFiles_first workspaceRoot :
  listObjectiveCandidateFiles workspaceRoot = merge_sort String.le (first_files workspaceRoot).
Proof.
  unfold listObjectiveCandidateFiles, first_files, WalkDir. destruct (_ =?s ""); [done|].
  destruct (disk _) as [t|]; [|done]. cbn [fmap option_fmap option_map default from_option id].
  rewrite walk_candidates by (cbn; lia). unfold collected. cbn [app].
  destruct (24 <=? _)%nat eqn:E; [done|]. apply Nat.leb_gt in E. cbn [fst].
  by rewrite take_ge by lia.
Qed.
End Listing.

(** ** Lowering keeps texts *)

Lemma to_lower_empty s : to_lower s = "" → s = "".
Proof.
  assert (Hne : ∀ l, l ≠ "" → lower_text l ≠ "").
  { intros [|a [|b [|c [|]]]]; try done; intros _; cbn; by case_match. }
  destruct s as [|a r]; [done|]. unfold to_lower. intros H. exfalso.
  assert (∃ u l, runes (String a r) = u :: l ∧ u ≠ "") as (u & l & Hr & Hu).
  { unfold runes. cbn [units]. repeat case_match; eexists _, _; (split; [reflexivity|done]). }
  rewrite Hr in H. cbn [fmap list_fmap] in H.
  assert (Hj : ∀ x y, x ≠ "" → x +:+ y ≠ "") by (by intros []).
  specialize (Hne _ Hu). destruct (lower_text <$> l); cbn [sjoin] in H; [done|].
  by apply (Hj _ (sjoin "" (s :: l0)) Hne).
Qed.

(** ** Distinct paths *)

Lemma unique_from_spec l : ∀ seen,
  NoDup (unique_from seen l) ∧
  ∀ p, p ∈ unique_from seen l ↔ p ∉ seen ∧ p ≠ "" ∧ p ∈ trim_space <$> l.
Proof.
  induction l as [|x l IH]; intros seen; cbn.
  { split; [constructor|]. intros p. rewrite elem_of_nil. tauto. }
  destruct (String.eqb_spec (trim_space x) "") as [Hx|Hx]; cbn [orb].
  { destruct (IH seen) as [H1 H2]. split; [done|]. intros p. rewrite H2, elem_of_cons. naive_solver. }
  case_bool_decide as Hseen.
  { destruct (IH seen) as [H1 H2]. split; [done|]. intros p. rewrite H2, elem_of_cons. naive_solver. }
  destruct (IH (trim_space x :: seen)) as [H1 H2]. split.
  - constructor; [|done]. rewrite H2. set_solver.
  - intros p. rewrite !elem_of_cons, H2, elem_of_cons.
    destruct (decide (p = trim_space x)) as [->|]; naive_solver.
Qed.
Lemma uniqueObjectivePaths_NoDup l : NoDup (uniqueObjectivePaths l).
Proof. apply unique_from_spec. Qed.
Lemma elem_of_uniqueObjectivePaths p l :
  p ∈ uniqueObjectivePaths l ↔ p ≠ "" ∧ p ∈ trim_space <$> l.
Proof.
  unfold uniqueObjectivePaths. rewrite (proj2 (unique_from_spec l [])).
  pose proof (not_elem_of_nil p). tauto.
Qed.

(** ** The scores *)

Lemma score_lines_path lowerPath lines : ∀ c,
  sc_path (foldl (score_line lowerPath) c lines) = sc_path c
  ∧ sc_score c <= sc_score (foldl (score_line lowerPath) c lines).
Proof.
  induction lines as [|line lines IH]; intros c; cbn; [done|].
  destruct (IH (score_line lowerPath c line)) as [-> H].
  assert (Hstep : sc_path (score_line lowerPath c line) = sc_path c
    ∧ sc_score c <= sc_score (score_line lowerPath c line)); [|split; [tauto|lia]].
  unfold score_line. repeat case_match; cbn; split; (done || lia).
Qed.
Lemma score_precedents_path precedents lowerPath c :
  sc_path (score_precedents precedents lowerPath c) = sc_path c
  ∧ sc_score c <= sc_score (score_precedents precedents lowerPath c).
Proof.
  unfold score_precedents. destruct (objectivePlannerPrecedentSupport _ _ _) as [[? ?] ?].
  case_bool_decide; cbn; split; (done || lia).
Qed.

(** Does the objective name the file? *)
Definition named_by (goal path : string) : Prop :=
  contains (to_lower path) goal = true
  ∨ contains (to_lower (path_base (to_lower path))) goal = true.

Lemma scope_candidate_of_spec goal lines expected precedents path c :
  scope_candidate_of goal lines expected precedents path = Some c →
  sc_path c = path ∧ 0 < sc_score c.
Proof.
  unfold scope_candidate_of. cbn zeta. destruct (_ =?s ""); [done|].
  set (lp := to_lower (trim_space path)).
  assert (H0 : sc_path (score_goal goal path) = path ∧ 0 <= sc_score (score_goal goal path)).
  { unfold score_goal. case_match; cbn; [case_match|]; split; (done || lia). }
  destruct (score_lines_path lp lines (score_goal goal path)) as [H1 H1'].
  set (c1 := foldl _ _ _) in *.
  assert (H2 : sc_path (score_expected expected c1) = sc_path c1
    ∧ sc_score c1 <= sc_score (score_expected expected c1)).
  { unfold score_expected. destruct (Z.eqb_spec (sc_score c1) 0); cbn [andb]; [|done].
    case_bool_decide; cbn; split; (done || lia). }
  destruct (score_precedents_path precedents lp (score_expected expected c1)) as [H3 H3'].
  set (c3 := score_precedents _ _ _) in *.
  destruct (Z.eqb_spec (sc_score c3) 0); [done|]. intros Hc. injection Hc as <-.
  destruct H0, H2. split; [congruence|lia].
Qed.
Lemma scope_candidate_found goal lines expected precedents path :
  path ≠ "" → trim_space path = path →
  (named_by goal path → ∃ c, scope_candidate_of goal lines expected precedents path = Some c
                             ∧ 12 <= sc_score c) ∧
  (path ∈ expected → ∃ c, scope_candidate_of goal lines expected precedents path = Some c).
Proof.
  intros Hne Htrim. unfold scope_candidate_of. cbn zeta. rewrite Htrim.
  destruct (String.eqb_spec (to_lower path) "") as [He|_]; [by apply to_lower_empty in He|].
  destruct (score_lines_path (to_lower path) lines (score_goal goal path)) as [H1 H1'].
  set (c1 := foldl _ _ _) in *.
  destruct (score_precedents_path precedents (to_lower path) (score_expected expected c1)) as [H3 H3'].
  set (c3 := score_precedents _ _ _) in *.
  assert (H0 : sc_path (score_goal goal path) = path ∧ 0 <= sc_score (score_goal goal path)).
  { unfold score_goal. case_match; cbn; [case_match|]; split; (done || lia). }
  assert (H2 : sc_score c1 <= sc_score (score_expected expected c1)
    ∧ (path ∈ expected → 0 < sc_score (score_expected expected c1))).
  { destruct H0 as [H0 H0']. unfold score_expected.
    destruct (Z.eqb_spec (sc_score c1) 0); cbn [andb]; [|split; lia].
    case_bool_decide as Hin; cbn; [lia|]. rewrite H1, H0 in Hin. split; [lia|done]. }
  split.
  - intros Hnamed.
    assert (H12 : 12 <= sc_score (score_goal goal path)).
    { unfold score_goal, containsExactPath. rewrite Htrim, (proj2 (orb_true_iff _ _)) by exact Hnamed.
      cbn. case_match; lia. }
    exists c3. rewrite (proj2 (Z.eqb_neq _ _)) by lia. split; [done|lia].
  - intros Hin. exists c3. by rewrite (proj2 (Z.eqb_neq _ _)) by (destruct H2 as [_ H2]; specialize (H2 Hin); lia).
Qed.

Section ScopeSpec.
Context `{Disk}.

Lemma ranked_candidates_Permutation root objective expected precedents :
  ranked_candidates root objective expected precedents ≡ₚ
    omap (scope_candidate_of (to_lower (trim_space objective))
            (split_on (ascii_of_nat 10) (to_lower (readObjectiveReadme root))) expected precedents)
      (uniqueObjectivePaths (listObjectiveCandidateFiles root ++ expected)).
Proof. apply stable_sort_Permutation. Qed.
Lemma omap_paths_sublist f (l : list string) :
  (∀ path c, f path = Some c → sc_path c = path) → (sc_path <$> omap f l) `sublist_of` l.
Proof.
  intros Hf. induction l as [|path l IH]; [constructor|].
  change (omap f (path :: l)) with (match f path with Some c => c :: omap f l | None => omap f l end).
  destruct (f path) as [c|] eqn:E; [|by apply sublist_cons].
  cbn. rewrite (Hf path c E). by apply sublist_skip.
Qed.
Lemma imap_hypothesis {B} winner (f : ScopeHypothesis → B) (g : scope_candidate → B) l :
  (∀ i c, f (hypothesis winner i c) = g c) → f <$> imap (hypothesis winner) l = g <$> l.
Proof.
  intros Hfg. apply list_eq. intros i. rewrite !list_lookup_fmap, list_lookup_imap.
  destruct (l !! i); cbn; [by rewrite Hfg|done].
Qed.
Lemma StronglySorted_by_key {B K} (key : B → K) (R : relation K) l :
  StronglySorted (by_key key R) l ↔ StronglySorted R (key <$> l).
Proof.
  induction l as [|x l IH]; cbn; [split; constructor|].
  split; intros [H1 H2]%StronglySorted_inv; (constructor; [by apply IH|]);
    by apply Forall_fmap.
Qed.
Lemma hypotheses_all root objective expected precedents :
  let '(selected, rejected) := buildInitialScopeHypotheses root objective expected precedents in
  ∃ winner,
    items selected ++ items rejected
      = imap (hypothesis winner) (ranked_candidates root objective expected precedents)
    ∧ length (items selected)
      = Nat.min 2 (length (ranked_candidates root objective expected precedents)).
Proof.
  unfold buildInitialScopeHypotheses.
  destruct (ranked_candidates _ _ _ _) as [|winner l] eqn:E.
  - by exists (MkScopeCandidate "" 0 "" "" "" []).
  - exists winner. split; [apply (take_drop 2 (imap (hypothesis winner) (winner :: l)))|].
    unfold items. cbn [default from_option id].
    by rewrite length_take, length_imap.
Qed.

(** The scope the planner proposes ranks, without repeating one, the files it
    considers: the first 24 files of interest in the order of the walk and those the
    profile expects.  The ranks count from one in the order of the scores, ties by path,
    the first two are the selection, and a file only enters with some evidence (a
    positive score).  No expected file is left out, and none that the objective names,
    which scores at least 12. *)
Theorem buildInitialScopeHypotheses_spec root objective expected precedents :
  let considered :=
    uniqueObjectivePaths (merge_sort String.le (first_files root) ++ expected) in
  let '(selected, rejected) := buildInitialScopeHypotheses root objective expected precedents in
  let all := items selected ++ items rejected in
  NoDup (sh_path <$> all) ∧
  (∀ i h, all !! i = Some h → sh_rank h = Z.of_nat i + 1) ∧
  StronglySorted (by_key (λ h, (sh_score h, sh_path h)) (lex2 (flip Z.le) String.le)) all ∧
  length (items selected) = Nat.min 2 (length all) ∧
  Forall (λ h, sh_path h ∈ considered ∧ 0 < sh_score h) all ∧
  ∀ p, p ∈ considered →
    (p ∈ expected → p ∈ sh_path <$> all) ∧
    (named_by (to_lower (trim_space objective)) p →
     ∃ h, h ∈ all ∧ sh_path h = p ∧ 12 <= sh_score h).
Proof.
  intros considered.
  pose proof (hypotheses_all root objective expected precedents) as Hall.
  destruct (buildInitialScopeHypotheses _ _ _ _) as [selected rejected].
  destruct Hall as (winner & Hall & Hlen). cbn zeta. rewrite Hlen, Hall. clear Hlen Hall.
  pose proof (ranked_candidates_Permutation root objective expected precedents) as Hperm.
  pose proof (StronglySorted_stable_sort by_evidence) as Hsort.
  specialize (Hsort (omap (scope_candidate_of (to_lower (trim_space objective))
            (split_on (ascii_of_nat 10) (to_lower (readObjectiveReadme root))) expected precedents)
      (uniqueObjectivePaths (listObjectiveCandidateFiles root ++ expected)))).
  fold (ranked_candidates root objective expected precedents) in Hsort.
  rewrite listObjectiveCandidateFiles_first in Hperm. fold considered in Hperm.
  set (f := scope_candidate_of _ _ _ _) in *.
  set (ranked := ranked_candidates _ _ _ _) in *.
  assert (Hin : ∀ c, c ∈ ranked ↔ ∃ path, path ∈ considered ∧ f path = Some c).
  { intros c. by rewrite Hperm, list_elem_of_omap. }
  pose proof (imap_hypothesis winner sh_path sc_path ranked (λ _ _, eq_refl)) as Hpaths.
  split_and!.
  - rewrite Hpaths, Hperm. eapply sublist_NoDup; [apply uniqueObjectivePaths_NoDup|].
    apply omap_paths_sublist. intros path c Hc. by eapply scope_candidate_of_spec.
  - intros i h Hi. apply list_lookup_imap_Some in Hi as (c & _ & ->). done.
  - apply StronglySorted_by_key.
    rewrite (imap_hypothesis winner _ (λ c, (sc_score c, sc_path c)) ranked (λ _ _, eq_refl)).
    by apply StronglySorted_by_key.
  - by rewrite length_imap.
  - apply Forall_forall. intros h (i & Hi)%list_elem_of_lookup.
    apply list_lookup_imap_Some in Hi as (c & Hc & ->). cbn.
    apply list_elem_of_lookup_2, Hin in Hc as (path & Hpath & Hc).
    by apply scope_candidate_of_spec in Hc as [-> ?].
  - intros p Hp. pose proof Hp as [Hne Htrim]%elem_of_uniqueObjectivePaths.
    apply list_elem_of_fmap in Htrim as (q & Hq & _).
    assert (Hpp : trim_space p = p) by (by rewrite Hq, trim_space_idemp).
    destruct (scope_candidate_found (to_lower (trim_space objective))
      (split_on (ascii_of_nat 10) (to_lower (readObjectiveReadme root))) expected precedents p Hne Hpp)
      as [Hnamed Hexpected]. fold f in Hnamed, Hexpected.
    assert (Hfound : ∀ c, f p = Some c → ∃ h, h ∈ imap (hypothesis winner) ranked
      ∧ sh_path h = p ∧ sh_score h = sc_score c).
    { intros c Hc. assert (c ∈ ranked) as (i & Hi)%list_elem_of_lookup by (apply Hin; eauto).
      exists (hypothesis winner i c). split_and!; [|by eapply scope_candidate_of_spec|done].
      apply list_elem_of_lookup. exists i. by rewrite list_lookup_imap, Hi. }
    split.
    + intros (c & Hc)%Hexpected. destruct (Hfound c Hc) as (h & Hh & <- & _).
      by apply list_elem_of_fmap_2.
    + intros (c & Hc & H12)%Hnamed. destruct (Hfound c Hc) as (h & Hh & Hhp & Hs).
      exists h. split_and!; [done..|]. by rewrite Hs.
Qed.
End ScopeSpec.
