(* ===== verification/Profile.v ===== *)
(** * How a repository is worked on ([initiative/service.go])

    The profile of a workspace: its name, its checks and the files its work should
    touch, found from the text of the goal, from a file of the workspace, or by
    default. *)
From S2P Require Import Prelude GoVal Json JsonText JsonValue Objective Workspace.

(** [orchestratorgo/initiative/service.go:444-471] repoWorkflowProfile. *)
Record repoWorkflowProfile := MkProfile {
  projectFlow : string;
  projectType : string;
  stack : string;
  language : string;
  framework : string;
  problemDomain : string;
  errorClass : string;
  fixPattern : string;
  validationPattern : string;
  repoName : string;
  projectRoot : string;
  repositoryURL : string;
  defaultBranch : string;
  testFocus : string;
  testCommand : slice string;
  expected : list string;
  patch : string;
  patchTarget : string;
  coderTool : string;
  writeContent : string;
  coderSummary : string;
  benchmarkCaseID : string;
  benchmarkCaseType : string;
  benchmarkLeague : string;
  sequenceID : string;
  sequencePosition : string;
}.
#[export] Instance eta_profile : Eta repoWorkflowProfile := λ p,
  MkProfile (projectFlow p) (projectType p) (stack p) (language p) (framework p)
    (problemDomain p) (errorClass p) (fixPattern p) (validationPattern p) (repoName p)
    (projectRoot p) (repositoryURL p) (defaultBranch p) (testFocus p) (testCommand p)
    (expected p) (patch p) (patchTarget p) (coderTool p) (writeContent p) (coderSummary p)
    (benchmarkCaseID p) (benchmarkCaseType p) (benchmarkLeague p) (sequenceID p)
    (sequencePosition p).
Definition no_profile : repoWorkflowProfile :=
  MkProfile "" "" "" "" "" "" "" "" "" "" "" "" "" "" None [] "" "" "" "" "" "" "" "" "" "".

(** ** Names and commands *)

(** [orchestratorgo/initiative/service.go:974-982] firstNonEmptyString. *)
Definition firstNonEmptyString (values : list string) : string := first_trimmed values.

(** [orchestratorgo/initiative/service.go:961-972] sanitizeProjectName: with [nonSlugChars]
    and [multiDash], which make one dash of a run. *)
Definition slug_char (a : ascii) : bool := within 97 122 a || within 48 57 a.
Fixpoint slug (s : string) : string :=
  match s with
  | EmptyString => ""
  | String a r =>
      if slug_char a then String a (slug r)
      else let r' := slug r in if has_prefix "-" r' then r' else "-" +:+ r'
  end.
Definition sanitizeProjectName (input : string) : string :=
  let value := trim_set "-" (slug (to_lower (trim_space input))) in
  if value =?s "" then "initiative-project" else value.
Example sanitizeProjectName_demo :
  sanitizeProjectName <$> ["  My Project_2 -- (ácento)!"; "***"; "a"]
  = ["my-project-2-cento"; "initiative-project"; "a"].
Proof. vm_compute. reflexivity. Qed.

(** [orchestratorgo/initiative/service.go:1011-1030] defaultInitiativeTestCommand. *)
Definition defaultInitiativeTestCommand (projectType stack : string) : list string :=
  let stack := to_lower (trim_space stack) in
  let projectType := to_lower (trim_space projectType) in
  if stack =?s "static" then
    ["python3"; "-c";
     "from pathlib import Path; html=Path('index.html').read_text(); assert '<html' in html.lower()"]
  else if stack =?s "node" then ["node"; "--check"; "app.js"]
  else
    ["python3"; "-m"; "py_compile";
     if projectType =?s "api_http" then "app.py"
     else if projectType =?s "worker_background" then "worker.py"
     else if projectType =?s "debug_regression" then "calculator.py"
     else if projectType =?s "toy_repo" then "src/service.py"
     else "main.py"].
(** [orchestratorgo/initiative/service.go:1032-1047] expectedInitiativeFiles. *)
Definition expectedInitiativeFiles (projectType : string) : list string :=
  let projectType := to_lower (trim_space projectType) in
  if projectType =?s "api_http" then ["README.md"; "app.py"; "tests/test_app.py"; "lab.json"]
  else if projectType =?s "web_small" then
    ["README.md"; "index.html"; "app.js"; "style.css"; "tests/test_static.py"; "lab.json"]
  else if projectType =?s "worker_background" then
    ["README.md"; "worker.py"; "tests/test_worker.py"; "lab.json"]
  else if projectType =?s "debug_regression" then
    ["README.md"; "calculator.py"; "tests/test_calculator.py"; "lab.json"]
  else if projectType =?s "toy_repo" then
    ["README.md"; "src/service.py"; "tests/test_service.py"; "docs/notes.md"; "lab.json"]
  else ["README.md"; "main.py"; "tests/test_main.py"; "lab.json"].

(** ** Benchmark cases *)

(** [orchestratorgo/initiative/service.go:959-959] benchmarkCaseBlockPattern: a tag, an
    object, the closing tag, with white space around the object, which extends to the
    first brace that the closing tag follows. *)
Definition opening_tag : string := "[BENCHMARK_CASE_JSON]".
Definition closing_tag : string := "[/BENCHMARK_CASE_JSON]".
Definition regexp_space (a : ascii) : bool := ascii_in [9; 10; 12; 13; 32]%nat a.
Fixpoint skip_spaces (s : string) : string :=
  match s with String a r => if regexp_space a then skip_spaces r else s | EmptyString => "" end.
(** What follows a closing brace, when it ends the block. *)
Definition after_object (r : string) : option string :=
  let r := skip_spaces r in
  if has_prefix closing_tag r then Some (sdrop (String.length closing_tag) r) else None.
(** The object from here on, and what follows the block. *)
Fixpoint object_block (s : string) : option (string * string) :=
  match s with
  | EmptyString => None
  | String a r =>
      let longer :=
        match object_block r with Some (body, rest) => Some (String a body, rest) | None => None end in
      if isb 125 a then
        match after_object r with Some rest => Some (String a "", rest) | None => longer end
      else longer
  end.
Definition block_here (s : string) : option (string * string) :=
  if has_prefix opening_tag s then
    let s := skip_spaces (sdrop (String.length opening_tag) s) in
    if has_prefix "{" s then object_block s else None
  else None.
(** The leftmost block. *)
Fixpoint first_block (s : string) : option string :=
  match block_here s with
  | Some (body, _) => Some body
  | None => match s with String _ r => first_block r | EmptyString => None end
  end.
(** The text without its blocks: [skip] bytes of one are still to be left out. *)
Fixpoint without_blocks (skip : nat) (s : string) : string :=
  match s with
  | EmptyString => ""
  | String a r =>
      match skip with
      | S n => without_blocks n r
      | O =>
          match block_here s with
          | Some (_, rest) => without_blocks (String.length r - String.length rest) r
          | None => String a (without_blocks 0 r)
          end
      end
  end.
Example block_demo :
  first_block "x [BENCHMARK_CASE_JSON] {a} {b}
 [/BENCHMARK_CASE_JSON] y [BENCHMARK_CASE_JSON]{c}[/BENCHMARK_CASE_JSON]" = Some "{a} {b}" ∧
  without_blocks 0 "x [BENCHMARK_CASE_JSON] {a} {b}
 [/BENCHMARK_CASE_JSON] y [BENCHMARK_CASE_JSON]{c}[/BENCHMARK_CASE_JSON]z" = "x  y z".
Proof. vm_compute. done. Qed.

(** [orchestratorgo/initiative/service.go:805-811] sanitizedInitiativeGoal. *)
Definition sanitizedInitiativeGoal (goal : string) : string :=
  trim_space (without_blocks 0 (trim_space goal)).

(** [orchestratorgo/initiative/service.go:813-825] cloneStrings. *)
Definition cloneStrings (l : list string) : slice string :=
  match l with [] => None | _ => Some (filter (λ s, s ≠ "") (trim_space <$> l)) end.

(** [orchestratorgo/initiative/service.go:738-767] decodeBenchmarkRepoWorkflowProfile: the
    payload, by the names of its fields: the texts, the lists and the position. *)
Record benchmark_case := MkCase {
  bc_text : gmap string string;
  bc_lists : gmap string (list string);
  bc_position : gval;
}.
Definition case_texts : list string :=
  ["id"; "case_type"; "repo_profile"; "repo_url"; "default_branch"; "project_type";
   "runtime_or_stack"; "project_root"; "test_focus"; "coder_tool"; "patch_target"; "patch";
   "write_content"; "coder_summary"; "benchmark_league"; "sequence_id"; "language"; "framework";
   "problem_domain"; "error_class"; "fix_pattern"; "validation_pattern"].
Definition case_lists : list string := ["test_command"; "expected_files"].
(** the fields in the order of the text, *)
Definition case_field (c : benchmark_case) (entry : string * jval) : option benchmark_case :=
  let key := fold_ascii (unquote entry.1) in
  if bool_decide (key ∈ case_texts) then
    match text_value (default "" (bc_text c !! key)) entry.2 with
    | Some x => Some (MkCase (<[key := x]> (bc_text c)) (bc_lists c) (bc_position c))
    | None => None
    end
  else if bool_decide (key ∈ case_lists) then
    match match entry.2 with JNull => Some [] | JArr l => list_value l | _ => None end with
    | Some l => Some (MkCase (bc_text c) (<[key := l]> (bc_lists c)) (bc_position c))
    | None => None
    end
  else if key =?s "sequence_position" then
    if in_range entry.2 then Some (MkCase (bc_text c) (bc_lists c) (of_jval entry.2)) else None
  else Some c.
Fixpoint case_fields (c : benchmark_case) (l : list (string * jval)) : option benchmark_case :=
  match l with
  | [] => Some c
  | entry :: l => match case_field c entry with Some c => case_fields c l | None => None end
  end.
Definition decode_case (raw : string) : option benchmark_case :=
  match parse raw with
  | Some JNull => Some (MkCase ∅ ∅ VNil)
  | Some (JObj l) => case_fields (MkCase ∅ ∅ VNil) l
  | _ => None
  end.

(** [orchestratorgo/initiative/service.go:796-798] decodeBenchmarkRepoWorkflowProfile: the name of the directory. *)
Definition repo_name (workspaceRoot : string) : string :=
  let name := path_base (trim_space workspaceRoot) in
  if (name =?s "") || (name =?s ".") || (name =?s "/") then "repo" else name.
(** [orchestratorgo/initiative/service.go:737-803] decodeBenchmarkRepoWorkflowProfile. *)
Definition decodeBenchmarkRepoWorkflowProfile (raw workspaceRoot : string) :
    option repoWorkflowProfile :=
  match decode_case raw with
  | None => None
  | Some c =>
      let raw_text key := default "" (bc_text c !! key) in
      let text key := trim_space (raw_text key) in
      let files key := cloneStrings (default [] (bc_lists c !! key)) in
      Some {|
        projectFlow := firstNonEmptyString [text "repo_profile"; "benchmark_repo_workflow"];
        projectType := firstNonEmptyString [text "project_type"; "existing_repo"];
        stack := firstNonEmptyString [text "runtime_or_stack"; "python"];
        language := firstNonEmptyString [text "language"; text "runtime_or_stack"];
        framework := text "framework";
        problemDomain := text "problem_domain";
        errorClass := text "error_class";
        fixPattern := text "fix_pattern";
        validationPattern := text "validation_pattern";
        repoName := repo_name workspaceRoot;
        projectRoot := firstNonEmptyString [text "project_root"; "."];
        repositoryURL := text "repo_url";
        defaultBranch := text "default_branch";
        testFocus := firstNonEmptyString [text "test_focus"; "benchmark workflow"];
        testCommand := files "test_command";
        expected := match files "expected_files" with
                    | Some ((_ :: _) as l) => l
                    | _ => ["README.md"]
                    end;
        patch := raw_text "patch";
        patchTarget := text "patch_target";
        coderTool := firstNonEmptyString [text "coder_tool"; "filesystem.write"];
        writeContent := raw_text "write_content";
        coderSummary := firstNonEmptyString
          [text "coder_summary"; "Apply benchmark-defined repository change."];
        benchmarkCaseID := text "id";
        benchmarkCaseType := text "case_type";
        benchmarkLeague := text "benchmark_league";
        sequenceID := text "sequence_id";
        sequencePosition := trim_space (sprint (bc_position c)) |}
  end.

Section Detection.
Context `{Disk}.

(** [orchestratorgo/initiative/service.go:720-727] loadBenchmarkRepoWorkflowProfile. *)
Definition loadBenchmarkRepoWorkflowProfile (workspaceRoot : string) : option repoWorkflowProfile :=
  match stat_in (trim_space workspaceRoot) ".lab" with
  | Some lab =>
      match child "benchmark-case.json" lab with
      | Some t =>
          match file_text t with
          | Some raw => decodeBenchmarkRepoWorkflowProfile raw workspaceRoot
          | None => None
          end
      | None => None
      end
  | None => None
  end.
(** [orchestratorgo/initiative/service.go:729-735] loadBenchmarkRepoWorkflowProfileFromGoal. *)
Definition loadBenchmarkRepoWorkflowProfileFromGoal (goal workspaceRoot : string) :
    option repoWorkflowProfile :=
  match first_block goal with
  | Some body => decodeBenchmarkRepoWorkflowProfile body workspaceRoot
  | None => None
  end.

(** [orchestratorgo/initiative/service.go:836-865] pythonSlugifyRegexPatch. *)
Definition pythonSlugifyRegexPatch : string := sjoin nl
  ["diff --git a/slugify/__main__.py b/slugify/__main__.py";
   "--- a/slugify/__main__.py";
   "+++ b/slugify/__main__.py";
   "@@ -76,6 +76,7 @@ def slugify_params(args: argparse.Namespace) -> dict[str, Any]:";
   "         save_order=args.save_order,";
   "         separator=args.separator,";
   "         stopwords=args.stopwords,";
   "+        regex_pattern=args.regex_pattern,";
   "         lowercase=args.lowercase,";
   "         replacements=args.replacements,";
   "         allow_unicode=args.allow_unicode";
   "diff --git a/test.py b/test.py";
   "--- a/test.py";
   "+++ b/test.py";
   "@@ -612,6 +612,11 @@ class TestCommandParams(unittest.TestCase):";
   "         expected = self.make_params(stopwords=['abba', 'beatles'], max_length=98, separator='+')";
   "         self.assertParamsMatch(expected, params)";
   " ";
   "+    def test_regex_pattern_param(self):";
   "+        params = self.get_params_from_cli('--regex-pattern', '[^a-z]+')";
   "+        expected = self.make_params(regex_pattern='[^a-z]+')";
   "+        self.assertParamsMatch(expected, params)";
   "+";
   "     def test_replacements_right(self):";
   "         params = self.get_params_from_cli('--replacements', 'A->B', 'C->D')";
   "         expected = self.make_params(replacements=[['A', 'B'], ['C', 'D']])"].

(** [orchestratorgo/initiative/service.go:639-679] detectRepoWorkflowProfile. *)
Definition default_profile (workspaceRoot : string) : repoWorkflowProfile :=
  no_profile <| projectFlow := "existing_repo_generic" |> <| projectType := "existing_repo" |>
    <| stack := "python" |> <| repoName := repo_name workspaceRoot |> <| projectRoot := "." |>
    <| testCommand := Some [] |> <| testFocus := "existing repository review" |> <| expected := ["README.md"] |>
    <| coderTool := "filesystem.write" |> <| patchTarget := ".lab/repo-workflow-marker.txt" |>
    <| writeContent := "repo workflow marker" +:+ nl |>
    <| coderSummary := "Write a deterministic marker file inside the repository workspace." |>.
Definition slugify_profile (profile : repoWorkflowProfile) : repoWorkflowProfile :=
  profile <| projectFlow := "python_slugify_v1" |>
    <| testFocus := "CLI regex_pattern wiring" |>
    <| testCommand := Some ["python3"; "-m"; "pytest"; "-q"; "test.py"] |>
    <| expected := ["pyproject.toml"; "slugify/__main__.py"; "slugify/slugify.py"; "test.py"] |>
    <| repositoryURL := "https://github.com/un33k/python-slugify" |>
    <| defaultBranch := "master" |> <| coderTool := "apply_patch" |>
    <| patchTarget := "slugify/__main__.py" |> <| patch := pythonSlugifyRegexPatch |>
    <| writeContent := "" |>
    <| coderSummary := "Patch python-slugify so the CLI forwards regex_pattern into slugify() and cover it with a deterministic regression test." |>.
Definition detectRepoWorkflowProfile (workspaceRoot initiativeGoal : string) : repoWorkflowProfile :=
  match loadBenchmarkRepoWorkflowProfileFromGoal initiativeGoal workspaceRoot with
  | Some profile => profile
  | None =>
      match loadBenchmarkRepoWorkflowProfile workspaceRoot with
      | Some profile => profile
      | None =>
          let profile := default_profile workspaceRoot in
          if equal_fold (repoName profile) "python-slugify" then slugify_profile profile
          else profile
      end
  end.
End Detection.

(** [orchestratorgo/initiative/service.go:681-718] applyBenchmarkMetadata: the entries of a
    profile that are not empty. *)
Definition entries_unless_empty (l : list (string * string)) (m : gmap_any) : gmap_any :=
  foldl (λ m kv, if kv.2 =?s "" then m else <[kv.1 := VStr kv.2]> m) m l.
Definition case_entries (p : repoWorkflowProfile) : list (string * string) :=
  [("benchmark_case_id", benchmarkCaseID p); ("benchmark_case_type", benchmarkCaseType p);
   ("benchmark_league", benchmarkLeague p); ("sequence_id", sequenceID p);
   ("sequence_position", sequencePosition p)].
Definition applyBenchmarkMetadata (metadata : gmap_any) (p : repoWorkflowProfile) : gmap_any :=
  entries_unless_empty
    (case_entries p ++
     [("language", language p); ("framework", framework p); ("problem_domain", problemDomain p);
      ("error_class", errorClass p); ("fix_pattern", fixPattern p);
      ("validation_pattern", validationPattern p)]) metadata.

(** A case that gives no position gets one all the same. *)
Example position_of_case_without_one :
  (sequencePosition <$> decodeBenchmarkRepoWorkflowProfile "{}" "/w") = Some "<nil>".
Proof. vm_compute. reflexivity. Qed.

(** ** A profile always says what to do *)

Lemma first_trimmed_nonempty l s : s ∈ l → trim_space s = s → s ≠ "" → first_trimmed l ≠ "".
Proof.
  intros Hs Ht Hne. unfold first_trimmed.
  destruct (head _) as [x|] eqn:E.
  - apply head_Some_elem_of, list_elem_of_filter in E as [? _]. done.
  - assert (Hin : s ∈ filter (λ s, s ≠ "") (trim_space <$> l)).
    { apply list_elem_of_filter. split; [done|]. rewrite <- Ht. by apply list_elem_of_fmap_2. }
    destruct (filter _ _); [by apply not_elem_of_nil in Hin|discriminate E].
Qed.
Lemma first_trimmed_trimmed l : trim_space (first_trimmed l) = first_trimmed l.
Proof.
  unfold first_trimmed. destruct (head _) as [x|] eqn:E; [|done].
  apply head_Some_elem_of, list_elem_of_filter in E as [_ Hx].
  apply list_elem_of_fmap in Hx as (y & -> & _). apply trim_space_idemp.
Qed.
Record profile_ok (p : repoWorkflowProfile) : Prop := {
  po_summary : blank (coderSummary p) = false;
  po_files : expected p ≠ [];
  po_name : repoName p ≠ "";
}.
Lemma repo_name_nonempty root : repo_name root ≠ "".
Proof.
  unfold repo_name. destruct (_ || _) eqn:E; [done|].
  intros He. rewrite He in E. discriminate E.
Qed.
Lemma first_trimmed_not_blank l s :
  s ∈ l → trim_space s = s → s ≠ "" → blank (first_trimmed l) = false.
Proof.
  intros. unfold blank. rewrite first_trimmed_trimmed.
  by apply String.eqb_neq, (first_trimmed_nonempty l s).
Qed.
Lemma decode_profile_ok raw root p :
  decodeBenchmarkRepoWorkflowProfile raw root = Some p → profile_ok p.
Proof.
  unfold decodeBenchmarkRepoWorkflowProfile. destruct (decode_case raw) as [c|]; [|done].
  cbn zeta. intros Hp. injection Hp as <-. split; cbn [coderSummary expected repoName].
  - by apply (first_trimmed_not_blank _ "Apply benchmark-defined repository change.");
      [right; left| |].
  - by destruct (cloneStrings _) as [[|? ?]|].
  - apply repo_name_nonempty.
Qed.
Lemma load_profile_ok `{Disk} root p : loadBenchmarkRepoWorkflowProfile root = Some p → profile_ok p.
Proof.
  unfold loadBenchmarkRepoWorkflowProfile.
  destruct (stat_in _ _) as [lab|]; [|done]. destruct (child _ lab) as [t|]; [|done].
  destruct (file_text t) as [raw|]; [|done]. apply decode_profile_ok.
Qed.
Lemma load_goal_profile_ok goal root p :
  loadBenchmarkRepoWorkflowProfileFromGoal goal root = Some p → profile_ok p.
Proof.
  unfold loadBenchmarkRepoWorkflowProfileFromGoal.
  destruct (first_block goal); [apply decode_profile_ok|done].
Qed.
Lemma detect_profile_ok `{Disk} root goal : profile_ok (detectRepoWorkflowProfile root goal).
Proof.
  unfold detectRepoWorkflowProfile.
  destruct (loadBenchmarkRepoWorkflowProfileFromGoal goal root) as [p|] eqn:Eg;
    [by eapply load_goal_profile_ok|].
  destruct (loadBenchmarkRepoWorkflowProfile root) as [p|] eqn:Ef; [by eapply load_profile_ok|].
  cbn zeta. destruct (equal_fold _ _); split; try done; apply repo_name_nonempty.
Qed.
