(* ===== verification/Plans.v ===== *)
(** * The phase documents ([initiative/service.go])

    The requirements, the design and the plan of an initiative: what the language
    model writes when it passes the contracts of [Policy], else a fixed document.  The
    calls to the model and to the research service are parameters. *)
From S2P Require Import Prelude GoVal Json JsonText JsonValue Effects Domain Schema.
From S2P Require Import InitiativeStore Policy InitiativeApi Objective Workspace Profile.

(** ** Values *)
Definition obj (l : list (string * gval)) : gmap_any := list_to_map l.
Definition strs (l : list string) : gval := VStrs l.

Section Fallbacks.
Context `{Disk}.

(** [orchestratorgo/initiative/service.go:132-148] shouldUseDeterministicRepoPlan. *)
Definition shouldUseDeterministicRepoPlan (initiative : InitiativeResponse) : bool :=
  let root := trim_space (ini_workspace_root initiative) in
  if has_prefix "Benchmark " (trim_space (ini_title initiative)) then true
  else match loadBenchmarkRepoWorkflowProfileFromGoal (ini_goal initiative)
               (ini_workspace_root initiative) with
       | Some _ => true
       | None =>
           if root =?s "" then false
           else bool_decide (is_Some (loadBenchmarkRepoWorkflowProfile root))
       end.

(** [orchestratorgo/initiative/service.go:243-278] fallbackRequirements. *)
Definition fallbackRequirements (initiative : InitiativeResponse) (feedback researchNotes : string) :
    gmap_any :=
  obj
    [("title", VStr (ini_title initiative));
     ("objective", VStr (sanitizedInitiativeGoal (ini_goal initiative)));
     ("scope", strs
        ["Convert the idea into a validated, executable initiative for a single workspace";
         "Keep operator approvals between major phases";
         "Produce artifacts that can drive task generation and selective execution"]);
     ("out_of_scope", strs
        ["UI polish beyond TUI and Telegram control"; "Full autonomy without approvals"]);
     ("constraints", strs
        ["All work must remain bound to workspace " +:+ ini_workspace_root initiative;
         "Artifacts are the source of truth; workspace files are execution side-effects"]);
     ("risks", strs
        ["Ambiguous initial idea can leak into weak design if not corrected in review";
         "Selective execution still needs dependency discipline between tasks"]);
     ("acceptance_criteria", strs
        ["Requirements are reviewable and technically actionable";
         "Requirements enumerate acceptance criteria and open questions"]);
     ("open_questions", strs
        ["What parts of the initiative remain manual by policy?";
         "What level of autonomy is acceptable after plan approval?"]);
     ("assumptions", strs
        [firstNonEmptyString [feedback; "No additional operator corrections were supplied."];
         firstNonEmptyString [researchNotes; "No external research context was required."]])].

(** [orchestratorgo/initiative/service.go:280-319] fallbackDesign. *)
Definition component (name responsibility : string) : gmap_any :=
  obj [("name", VStr name); ("responsibility", VStr responsibility)].
Definition fallbackDesign (initiative : InitiativeResponse) (requirements : gmap_any)
    (feedback : string) : gmap_any :=
  obj
    [("title", VStr (ini_title initiative));
     ("objective", VStr (sanitizedInitiativeGoal (ini_goal initiative)));
     ("architecture", VStr "Go orchestrator runtime remains the control plane. Initiative lifecycle sits above tasks and persists versioned phase artifacts. TUI is the authoring and approval surface, Telegram is remote control.");
     ("components", VMaps
        [component "initiative API" "create, advance, approve, reject, generate and launch";
         component "initiative store" "persist initiatives, phase reviews, task links";
         component "artifact layer" "store markdown/json outputs per phase";
         component "TUI initiative cockpit" "review and launch work from a workspace";
         component "Telegram control surface" "remote phase approvals and status checks"]);
     ("interfaces", strs
        ["POST /initiatives"; "POST /initiatives/{id}/advance";
         "POST /initiatives/{id}/approve/{phase}"; "POST /initiatives/{id}/tasks/generate";
         "POST /initiatives/{id}/tasks/launch"]);
     ("data_model", VMap (obj
        [("initiative", strs ["status"; "current_phase"; "active artifact ids"; "workspace_root"]);
         ("phase_reviews", strs ["phase"; "decision"; "feedback"; "artifact ids"]);
         ("task_links", strs ["phase_origin"; "execution_mode"; "launch_group"; "launch_order"])]));
     ("testing_strategy", strs
        ["API integration tests per phase transition";
         "TUI flow tests for initiative creation and approval";
         "E2E on temporary workspace with selective launch"]);
     ("technical_risks", strs
        ["Phase artifacts may become inconsistent if transition rules are weak";
         "Task launch ordering can degrade if generation omits explicit launch order"]);
     ("pending_decisions", strs
        [firstNonEmptyString [feedback; "No additional design corrections were supplied."]]);
     ("requirements_snapshot", VMap requirements)].

(** [orchestratorgo/initiative/service.go:331-441] fallbackExecutionPlan: an epic and a task
    of it, *)
Definition plan_epic (name group : string) (tasks : list gmap_any) : gmap_any :=
  obj [("name", VStr name); ("group", VStr group); ("tasks", VMaps tasks)].
Definition plan_task (title description agent priority mode : string) (approval : bool)
    (done : string) (metadata : gmap_any) : gmap_any :=
  obj
    [("title", VStr title); ("description", VStr description); ("suggested_agent", VStr agent);
     ("priority", VStr priority); ("execution_mode", VStr mode);
     ("execution_target", VStr "local"); ("approval_required", VBool approval);
     ("definition_of_done", VStr done); ("metadata", VMap metadata)].
(** [orchestratorgo/initiative/service.go:321-442] fallbackExecutionPlan: of a project that
    does not exist yet. *)
Definition scaffold_request (initiative : InitiativeResponse) : gmap_any :=
  let goal :=
    firstNonEmptyString [sanitizedInitiativeGoal (ini_goal initiative); ini_title initiative] in
  obj
    [("project_name", VStr (sanitizeProjectName (ini_title initiative)));
     ("parent_directory", VStr (ini_workspace_root initiative));
     ("project_type", VStr "cli_simple"); ("runtime_or_stack", VStr "python");
     ("goal", VStr goal); ("test_focus", VStr "initiative execution flow");
     ("initialize_git", VBool true); ("requires_approval", VBool false);
     ("test_command", strs (defaultInitiativeTestCommand "cli_simple" "python"));
     ("expected_files", strs (expectedInitiativeFiles "cli_simple"))].
Definition scaffold_plan (initiative : InitiativeResponse) (design : gmap_any) (feedback : string) :
    gmap_any :=
  let root := ini_workspace_root initiative in
  let goal :=
    firstNonEmptyString [sanitizedInitiativeGoal (ini_goal initiative); ini_title initiative] in
  obj
    [("title", VStr (ini_title initiative));
     ("epics", VMaps
        [plan_epic "Context and validation" "discovery"
           [plan_task "Research the initiative constraints"
              "Produce context, checklist and constraints for the initiative before code execution."
              "researcher" "normal" "agent_local" false
              "Research context is persisted and references the initiative goal."
              (obj [("initiative_goal", VStr goal)])];
         plan_epic "Initial delivery scaffold" "delivery"
           [plan_task "Create a minimal runnable project"
              ("Create a minimal project in workspace " +:+ root +:+ " for initiative "
               +:+ ini_title initiative +:+ ".")
              "coder" "high" "agent_local" false
              "Workspace contains runnable scaffold, manifest and test file."
              (obj
                 [("tool_request", VMap (obj [("tool", VStr "scaffold_project")]));
                  ("project_request", VMap (scaffold_request initiative));
                  ("workspace_root", VStr root)]);
            plan_task "Validate the generated scaffold"
              "Review the scaffolded project and validate expected files and test command."
              "reviewer" "normal" "agent_local" false
              "Reviewer confirms the scaffold passes expected checks."
              (obj
                 [("tool_request", VMap (obj
                     [("tool", VStr "review_project");
                      ("analysis_types", strs ["dependencies"; "security"])]));
                  ("project_request", VMap (scaffold_request initiative));
                  ("workspace_root", VStr root);
                  ("allowed_capabilities", strs ["code.analysis"])])];
         plan_epic "Human approval and handoff" "review"
           [plan_task "Review initiative outputs manually"
              "Inspect the generated artifacts, backlog and workspace outcome before expanding execution."
              "reviewer" "low" "manual" false
              (firstNonEmptyString
                 [feedback; "Operator confirms the initiative is ready for broader execution."])
              (obj [("manual_only", VBool true)])]]);
     ("design_snapshot", VMap design)].

(** [orchestratorgo/initiative/service.go:474-510] fallbackRepoExecutionPlan: the request
    every task carries, *)
Definition repo_request (goal : string) (p : repoWorkflowProfile) : gmap_any :=
  entries_unless_empty (case_entries p)
    (obj
       [("project_name", VStr (repoName p)); ("parent_directory", VStr ".");
        ("project_root", VStr (projectRoot p)); ("project_type", VStr (projectType p));
        ("runtime_or_stack", VStr (stack p)); ("language", VStr (language p));
        ("framework", VStr (framework p)); ("problem_domain", VStr (problemDomain p));
        ("error_class", VStr (errorClass p)); ("fix_pattern", VStr (fixPattern p));
        ("validation_pattern", VStr (validationPattern p));
        ("repository_url", VStr (repositoryURL p)); ("default_branch", VStr (defaultBranch p));
        ("goal", VStr goal); ("test_focus", VStr (testFocus p));
        ("test_command", strs_value (testCommand p)); ("expected_files", strs (expected p));
        ("repo_profile", VStr (projectFlow p))]).
(** [orchestratorgo/initiative/service.go:511-530] fallbackRepoExecutionPlan: the metadata
    of the research, *)
Definition research_metadata (root goal : string) (p : repoWorkflowProfile) : gmap_any :=
  let request := VMap (repo_request goal p) in
  applyBenchmarkMetadata
    (obj
       [("initiative_goal", VStr goal); ("project_request", request); ("workspace_root", VStr root);
        ("capability_intent", VStr "needs_external_evidence");
        ("preferred_capability_tags", strs ["evidence"; "search"; "docs"]);
        ("allowed_capabilities", strs ["filesystem.read"; "web.search"; "web.fetch"; "document.read"]);
        ("tool_request", VMap (obj
           [("tool", VStr "research_project"); ("project_request", request);
            ("project_root", VStr (projectRoot p)); ("goal", VStr goal);
            ("test_command", strs_value (testCommand p))]))]) p.
(** [orchestratorgo/initiative/service.go:531-557] fallbackRepoExecutionPlan: of the patch, *)
Definition coder_metadata (root goal : string) (p : repoWorkflowProfile) : gmap_any :=
  let tool := entries_unless_empty
    [("patch", patch p); ("content", writeContent p); ("path", patchTarget p)]
    (obj [("tool", VStr (coderTool p)); ("project_root", VStr (projectRoot p));
          ("requires_approval", VBool true)]) in
  applyBenchmarkMetadata
    (obj
       [("project_request", VMap (repo_request goal p)); ("workspace_root", VStr root);
        ("requires_approval", VBool true); ("capability_intent", VStr "needs_workspace_write");
        ("preferred_capability_tags", strs ["filesystem"; "write"; "workspace"]);
        ("allowed_capabilities", strs ["filesystem.write"]); ("tool_request", VMap tool);
        ("repo_workflow", VStr "repo_workflow_v1");
        ("repo_workflow_goal", VStr (coderSummary p))]) p.
(** [orchestratorgo/initiative/service.go:560-577] fallbackRepoExecutionPlan: and of the
    review. *)
Definition reviewer_metadata (root goal : string) (p : repoWorkflowProfile) : gmap_any :=
  applyBenchmarkMetadata
    (obj
       [("project_request", VMap (repo_request goal p)); ("workspace_root", VStr root);
        ("capability_intent", VStr "needs_repo_static_analysis");
        ("preferred_capability_tags",
           strs ["review"; "static-analysis"; "code-quality"; "validation"]);
        ("allowed_capabilities", strs ["filesystem.read"; "code.analysis"]);
        ("tool_request", VMap (obj
           [("tool", VStr "review_project"); ("project_root", VStr (projectRoot p));
            ("expected_files", strs (expected p)); ("test_command", strs_value (testCommand p));
            ("analysis_types", strs ["dependencies"; "security"])]))]) p.
(** [orchestratorgo/initiative/service.go:473-637] fallbackRepoExecutionPlan. *)
Definition fallbackRepoExecutionPlan (initiative : InitiativeResponse) (design : gmap_any) :
    gmap_any :=
  let root := ini_workspace_root initiative in
  let goal :=
    firstNonEmptyString [sanitizedInitiativeGoal (ini_goal initiative); ini_title initiative] in
  let profile := detectRepoWorkflowProfile root (ini_goal initiative) in
  obj
    [("title", VStr (ini_title initiative));
     ("epics", VMaps
        [plan_epic "Repository context" "discovery"
           [plan_task "Research repository constraints"
              ("Inspect the existing repository at " +:+ root +:+ " and prepare execution constraints.")
              "researcher" "normal" "agent_local" false
              "Repository context, test command, and expected files are captured for local execution."
              (research_metadata root goal profile)];
         plan_epic "Deterministic repo patch" "delivery"
           [plan_task "Apply deterministic repository patch" (coderSummary profile)
              "coder" "high" "agent_local" true
              "A deterministic patch is applied and a git diff is available for review."
              (coder_metadata root goal profile)];
         plan_epic "Repository validation" "validation"
           [plan_task "Review repository changes"
              ("Run the repository validation command for " +:+ repoName profile
               +:+ " and persist the review outcome.")
              "reviewer" "normal" "agent_local" false
              "Tests pass and review artifacts are persisted."
              (reviewer_metadata root goal profile)]]);
     ("design_snapshot", VMap design); ("project_flow", VStr "repo_workflow_v1");
     ("repo_profile", VStr (projectFlow profile))].

(** [orchestratorgo/initiative/service.go:321-442] fallbackExecutionPlan. *)
Definition fallbackExecutionPlan (initiative : InitiativeResponse) (design : gmap_any)
    (feedback : string) : gmap_any :=
  if shouldUseDeterministicRepoPlan initiative then fallbackRepoExecutionPlan initiative design
  else scaffold_plan initiative design feedback.
End Fallbacks.

(** ** Markdown *)

Section Markdown.
(** In which order [range] visits a map: Go does not say. *)
Context (map_range : gmap_any → list (string * gval)).

(** [orchestratorgo/initiative/service.go:910-932] mdSection. *)
Definition mdSection (title : string) (value : gval) : string :=
  sjoin nl
    (["## " +:+ title]
     ++ match value with
        | VStr v => [trim_space v]
        | VList v => (λ item, "- " +:+ trim_space (sprint item)) <$> v
        | VStrs v => (λ item, "- " +:+ trim_space item) <$> v
        | VMap v => (λ kv, "- " +:+ kv.1 +:+ ": " +:+ sprint kv.2) <$> map_range v
        | VNilMap | VNilStrs => []
        | v => [trim_space (sprint v)]
        end
     ++ [""]).
Definition sections (payload : gmap_any) (l : list (string * string)) : list string :=
  (λ s, mdSection s.1 (mget payload s.2)) <$> l.
(** [orchestratorgo/initiative/service.go:867-880] renderRequirementsMarkdown. *)
Definition renderRequirementsMarkdown (payload : gmap_any) : string :=
  sjoin nl (["# Requirements"; ""] ++ sections payload
    [("Objective", "objective"); ("Scope", "scope"); ("Out of scope", "out_of_scope");
     ("Constraints", "constraints"); ("Risks", "risks");
     ("Acceptance criteria", "acceptance_criteria"); ("Open questions", "open_questions");
     ("Assumptions", "assumptions")]).
(** [orchestratorgo/initiative/service.go:882-894] renderDesignMarkdown. *)
Definition renderDesignMarkdown (payload : gmap_any) : string :=
  sjoin nl (["# Technical Design"; ""] ++ sections payload
    [("Architecture", "architecture"); ("Components", "components"); ("Interfaces", "interfaces");
     ("Data model", "data_model"); ("Testing strategy", "testing_strategy");
     ("Technical risks", "technical_risks"); ("Pending decisions", "pending_decisions")]).
(** [orchestratorgo/initiative/service.go:896-908] renderExecutionPlanMarkdown. *)
Definition task_lines (task : gmap_any) : list string :=
  let text key := as_string (mget task key) in
  ["- " +:+ firstNonEmptyString [text "title"; "Task"] +:+ " [" +:+ text "suggested_agent" +:+ " / "
   +:+ text "execution_mode" +:+ " / " +:+ text "priority" +:+ "]";
   "  " +:+ firstNonEmptyString [text "description"; ""]].
Definition epic_lines (epic : gmap_any) : list string :=
  ["## " +:+ firstNonEmptyString [as_string (mget epic "name"); "Epic"]; ""]
  ++ (map_slice (mget epic "tasks") ≫= task_lines) ++ [""].
Definition renderExecutionPlanMarkdown (payload : gmap_any) : string :=
  sjoin nl (["# Execution Plan"; ""] ++ (map_slice (mget payload "epics") ≫= epic_lines)).
End Markdown.

(** ** The language model *)

(** [strings.TrimRight(s, "/")] *)
Definition trim_right_slashes (s : string) : string := trim_set_right "/" s.

(** [orchestratorgo/initiative/service.go:942-948] stripCodeFence. *)
Definition fence : string := "```".
Definition stripCodeFence (input : string) : string :=
  let value := trim_space input in
  let value := trim_prefix (fence +:+ "json") value in
  let value := trim_prefix fence value in
  trim_space (trim_suffix fence value).
(** [orchestratorgo/initiative/service.go:950-955] truncate. *)
Definition truncate (value : string) (max : Z) : string :=
  if (max <=? 0) || (slen value <=? max) then value
  else stake (Z.to_nat max) value +:+ "...".
(** [orchestratorgo/initiative/service.go:934-940] feedbackBlock. *)
Definition feedbackBlock (feedback : string) : string :=
  let feedback := trim_space feedback in
  if feedback =?s "" then "Feedback operator: none" else "Feedback operator:" +:+ nl +:+ feedback.

(** The settings of the planner model, what a POST of a body to a url with a token is
    answered (the status and the body), and the answer of the research service to a
    goal it takes for a question. *)
Class PlannerModel := {
  LlamaPlannerBaseURL : string;
  LlamaPlannerAPIKey : string;
  post : string → string → string → res (Z * string);
  research_answer : option (string → option string);
}.

(** [orchestratorgo/initiative/service.go:194-203] callStructured: the contents of the
    choices of a completion. *)
Definition read_message : string → jval → option string :=
  read_object (λ key old v, if key =?s "content" then text_value old v else Some old).
Definition read_choice : string → jval → option string :=
  read_object (λ key old v, if key =?s "message" then read_message old v else Some old).
Definition read_completion : jval → option (list string) :=
  read_object (λ key old v,
    if key =?s "choices" then
      match v with JNull => Some [] | JArr l => mapM (read_choice "") l | _ => None end
    else Some old) [].

Section Generation.
Context `{Disk} `{PlannerModel} (map_range : gmap_any → list (string * gval)).

(** [orchestratorgo/initiative/service.go:150-213] callStructured: what is sent, *)
Definition completion_request (prompt : string) : string :=
  Marshal (obj
    [("model", VStr "planner");
     ("messages", VMaps
        [obj [("role", VStr "user"); ("content", VStr ("[PLAN_MODE]" +:+ nl +:+ prompt))]]);
     ("temperature", VNum 1 (-1)); ("max_tokens", VInt 2200);
     ("response_format", VMap (obj [("type", VStr "json_object")]))]).
(** and what is made of the answer; a null document reads as an empty one, and nobody
    reads the text of the errors. *)
Definition body_limit : Z := 2 * 2 ^ 20.
Definition callStructured (prompt : string) : res gmap_any :=
  let baseURL := trim_right_slashes (trim_space LlamaPlannerBaseURL) in
  if baseURL =?s "" then Err (ErrText "planner base url is not configured")
  else
    match post (baseURL +:+ "/chat/completions") (trim_space LlamaPlannerAPIKey)
            (completion_request prompt) with
    | Err e => Err e
    | Ok (status, body) =>
        let payload :=
          if slen body <=? body_limit then body else stake (Z.to_nat body_limit) body in
        if (status <? 200) || (300 <=? status) then
          Err (ErrText ("planner request failed with status " +:+ pretty status +:+ ": "
                        +:+ trim_space payload))
        else
          match match parse payload with Some v => read_completion v | None => None end with
          | None => Err (ErrText "invalid completion")
          | Some [] => Err (ErrText "planner returned no choices")
          | Some (content :: _) =>
              match UnmarshalMap (stripCodeFence content) with
              | None => Err (ErrText "invalid document")
              | Some out => Ok (default ∅ out)
              end
          end
    end.

(** [orchestratorgo/initiative/service.go:223-241] researchNotes. *)
Definition researchNotes (goal : string) : string :=
  match research_answer with
  | None => ""
  | Some ask =>
      if blank goal then ""
      else match ask goal with
           | None => ""
           | Some answer =>
               if blank answer then ""
               else "Research context:" +:+ nl +:+ truncate answer 1000
           end
  end.

(** A document of the model when it meets the contract, else the fixed one. *)
Definition checked (answer : res gmap_any) (validate : gmap_any → option string)
    (fallback : gmap_any) : gmap_any :=
  match answer with
  | Err _ => fallback
  | Ok payload => match validate payload with None => payload | Some _ => fallback end
  end.
Definition quotes (s : string) : string := replace_char "'" dquote s.

(** [orchestratorgo/initiative/service.go:44-67] GenerateRequirements. *)
Definition GenerateRequirements (initiative : InitiativeResponse) (feedback : string) :
    res PhaseArtifacts :=
  let goal := sanitizedInitiativeGoal (ini_goal initiative) in
  let notes := researchNotes goal in
  let prompt := sjoin nl
    ["Eres un analyst técnico. Convierte una idea en requisitos técnicos ampliados para un workspace concreto.";
     "Devuelve SOLO JSON valido con estas claves: title, objective, scope, out_of_scope, constraints, risks, acceptance_criteria, open_questions, assumptions.";
     "Contexto:"; "Title: " +:+ ini_title initiative;
     "Workspace: " +:+ ini_workspace_root initiative; "Goal: " +:+ goal;
     feedbackBlock feedback; notes] in
  let payload := checked (callStructured prompt) ValidateRequirementsPayload
    (fallbackRequirements initiative feedback notes) in
  Ok (MkPhaseArtifacts payload (renderRequirementsMarkdown map_range payload)).

(** [orchestratorgo/initiative/service.go:69-93] GenerateDesign. *)
Definition GenerateDesign (initiative : InitiativeResponse) (requirements : gmap_any)
    (feedback : string) : res PhaseArtifacts :=
  let goal := sanitizedInitiativeGoal (ini_goal initiative) in
  let prompt := sjoin nl
    ["Eres un architect técnico. Convierte requisitos aprobados en un diseño técnico ejecutable.";
     "Devuelve SOLO JSON valido con estas claves: title, architecture, components, interfaces, data_model, testing_strategy, technical_risks, pending_decisions.";
     "Contexto:"; "Title: " +:+ ini_title initiative;
     "Workspace: " +:+ ini_workspace_root initiative; "Goal: " +:+ goal; "Requirements JSON:";
     Marshal requirements; feedbackBlock feedback] in
  let payload := checked (callStructured prompt) ValidateDesignPayload
    (fallbackDesign initiative requirements feedback) in
  Ok (MkPhaseArtifacts payload (renderDesignMarkdown map_range payload)).

(** [orchestratorgo/initiative/service.go:95-130] GenerateExecutionPlan. *)
Definition GenerateExecutionPlan (initiative : InitiativeResponse) (design : gmap_any)
    (feedback : string) : res PhaseArtifacts :=
  let prompt := sjoin nl
    ["Eres un planner operativo. Convierte un diseño aprobado en un backlog ejecutable y selectivamente lanzable.";
     quotes "Devuelve SOLO JSON valido con esta forma: {'title':'...','epics':[{'name':'...','group':'...','tasks':[{'title':'...','description':'...','suggested_agent':'coder','priority':'normal','execution_mode':'agent_local','execution_target':'local','approval_required':false,'definition_of_done':'...','metadata':{}}]}]}";
     "Reglas:";
     "- suggested_agent solo puede ser planner,researcher,coder,reviewer";
     "- execution_mode solo puede ser manual,agent_local,agent_remote";
     "- execution_target solo puede ser local o remote";
     "- incluye metadata suficiente para ejecutar tareas de workspace cuando proceda";
     "Contexto:"; "Title: " +:+ ini_title initiative;
     "Workspace: " +:+ ini_workspace_root initiative; "Goal: " +:+ ini_goal initiative;
     "Design JSON:"; Marshal design; feedbackBlock feedback] in
  let payload :=
    if shouldUseDeterministicRepoPlan initiative then fallbackRepoExecutionPlan initiative design
    else checked (callStructured prompt) ValidateExecutionPlanPayload
           (fallbackExecutionPlan initiative design feedback) in
  Ok (MkPhaseArtifacts payload (renderExecutionPlanMarkdown payload)).
End Generation.

(** The service the handlers of [InitiativeApi] call. *)
Definition phase_service `{Disk} `{PlannerModel} (map_range : gmap_any → list (string * gval)) :
    PhaseService := {|
  InitiativeApi.GenerateRequirements := GenerateRequirements map_range;
  InitiativeApi.GenerateDesign := GenerateDesign map_range;
  InitiativeApi.GenerateExecutionPlan := GenerateExecutionPlan;
|}.

(** ** The contracts are met *)

Fixpoint entry_at (l : list (string * gval)) (key : string) : gval :=
  match l with [] => VNil | (k, v) :: l => if k =?s key then v else entry_at l key end.
Lemma mget_obj l key : mget (obj l) key = entry_at l key.
Proof.
  induction l as [|[k v] l IH]; [done|]. cbn [entry_at]. rewrite <- IH. unfold mget, obj.
  cbn [list_to_map foldr uncurry fst snd].
  destruct (String.eqb_spec k key) as [->|]; [by rewrite lookup_insert_eq|by rewrite lookup_insert_ne].
Qed.
Ltac mget_obj := rewrite !mget_obj; cbn [entry_at String.eqb Ascii.eqb Bool.eqb].

Definition visible (a : ascii) : bool :=
  negb (space1 a) && negb (ascii_in [194; 225; 226; 227]%nat a).
Lemma not_blank_text a s : visible a = true → blank (String a s) = false.
Proof.
  unfold visible, ascii_in. intros [Hs Ha]%andb_true_iff. apply negb_true_iff in Hs, Ha.
  cbn [existsb] in Ha. rewrite !orb_false_iff in Ha. destruct Ha as (H1 & H2 & H3 & H4 & _).
  assert (Hl : trim_left (String a s) = String a s).
  { cbn [trim_left]. rewrite Hs. unfold space2, space3, ascii_in. cbn [existsb].
    rewrite H1, H2, H3, H4. cbn. by destruct s as [|b [|c s]]. }
  unfold blank, trim_space. rewrite Hl. cbn [trim_right].
  destruct (one_space _) eqn:E; [|done]. unfold one_space in E.
  destruct (trim_right s) as [|b [|c [|]]]; try done; [by rewrite Hs in E|..];
    unfold space2, space3, ascii_in in E; cbn [existsb] in E; rewrite ?H1, ?H2, ?H3, ?H4 in E; done.
Qed.
Lemma has_text_not_blank m key : blank (as_string (mget m key)) = false → has_text m key.
Proof. apply missing_false. Qed.

Lemma plan_task_contract title description agent priority mode approval done metadata :
  blank title = false → blank description = false → blank done = false →
  isSupportedAgent agent = true → IsRecognizedTaskLaunchMode mode = true →
  trim_space agent = agent → trim_space mode = mode →
  plan_task_ok (plan_task title description agent priority mode approval done metadata).
Proof.
  intros Ht Hd Hdone Ha Hm Hta Htm. apply (validate_plan_task_None ∅ 0%nat).
  unfold validate_plan_task, missing, text_of, plan_task. mget_obj. cbn [as_string].
  by rewrite Ht, Hd, Hdone, Hta, Htm, Ha, Hm.
Qed.
Lemma plan_epic_contract name group tasks :
  blank name = false → tasks ≠ [] → Forall plan_task_ok tasks → epic_ok (plan_epic name group tasks).
Proof.
  intros Hn Ht Hall. unfold epic_ok, plan_epic. split_and!.
  - apply has_text_not_blank. mget_obj. exact Hn.
  - mget_obj. exact Ht.
  - mget_obj. exact Hall.
Qed.
Lemma plan_contract (title : gval) epics rest :
  epics ≠ [] → Forall epic_ok epics →
  ValidateExecutionPlanPayload (obj (("title", title) :: ("epics", VMaps epics) :: rest)) = None.
Proof.
  intros Hne Hall. unfold ValidateExecutionPlanPayload. mget_obj. cbn [map_slice].
  rewrite check_None, bool_decide_eq_false, length_zero_iff_nil. split; [done|].
  by apply (check_all_imap_None _ epic_ok); [apply validate_epic_None|].
Qed.
Ltac fixed_text := apply not_blank_text; reflexivity.
Ltac fixed_task := apply plan_task_contract; [try fixed_text..|reflexivity|reflexivity|reflexivity|reflexivity].
Ltac fixed_epics :=
  repeat (apply Forall_cons; split;
          [apply plan_epic_contract; [fixed_text|discriminate|]|]); try apply Forall_nil_2;
  repeat (apply Forall_cons; split); try apply Forall_nil_2; try fixed_task.

Lemma repo_plan_contract `{Disk} initiative design :
  ValidateExecutionPlanPayload (fallbackRepoExecutionPlan initiative design) = None.
Proof.
  pose proof (po_summary _ (detect_profile_ok (ini_workspace_root initiative) (ini_goal initiative))).
  apply plan_contract; [discriminate|]. fixed_epics. done.
Qed.
Lemma first_of_feedback feedback a s :
  visible a = true → trim_space (String a s) = String a s →
  blank (firstNonEmptyString [feedback; String a s]) = false.
Proof. intros. by apply (first_trimmed_not_blank _ (String a s)); [right; left| |]. Qed.
Lemma scaffold_plan_contract initiative design feedback :
  ValidateExecutionPlanPayload (scaffold_plan initiative design feedback) = None.
Proof.
  apply plan_contract; [discriminate|]. fixed_epics. by apply first_of_feedback.
Qed.
Lemma some_text x l : x ∈ l → blank x = false → normalizedStringSlice (strs l) ≠ [].
Proof.
  intros Hx Hb Hnil. cbn in Hnil. apply (not_elem_of_nil (trim_space x)). rewrite <- Hnil.
  apply list_elem_of_filter. split; [by apply String.eqb_neq|by apply list_elem_of_fmap_2].
Qed.
Lemma strs_not_empty x l : blank x = false → isEmptyStructuredValue (strs (x :: l)) = false.
Proof. intros Hx. apply bool_decide_eq_false_2, (some_text x); [left|done]. Qed.
Lemma design_contract initiative requirements feedback :
  ValidateDesignPayload (fallbackDesign initiative requirements feedback) = None.
Proof.
  unfold ValidateDesignPayload, missing, text_of, fallbackDesign, design_values.
  cbn [check_all]. mget_obj. unfold check.
  rewrite !strs_not_empty by (apply not_blank_text || apply first_of_feedback; reflexivity). done.
Qed.
Lemma requirements_contract initiative feedback notes :
  ValidateRequirementsPayload (fallbackRequirements initiative feedback notes) =
    if blank (sanitizedInitiativeGoal (ini_goal initiative))
    then Some "requirements payload missing objective" else None.
Proof.
  unfold ValidateRequirementsPayload, missing, text_of, fallbackRequirements, requirements_lists.
  cbn [check_all]. mget_obj. cbn [as_string].
  destruct (blank _); [done|]. unfold check.
  assert (Hc : ∀ x l, blank x = false →
    bool_decide (normalizedStringSlice (strs (x :: l)) = []) = false).
  { intros x l Hx. apply bool_decide_eq_false_2, (some_text x); [left|done]. }
  rewrite !Hc by (apply not_blank_text || apply first_of_feedback; reflexivity). done.
Qed.

(** A document of the model is kept when it meets the contract. *)
Lemma checked_contract answer validate fallback :
  validate fallback = None → validate (checked answer validate fallback) = None.
Proof. intros Hf. unfold checked. destruct answer; [|done]. by destruct (validate a) eqn:E. Qed.
Lemma checked_cases answer validate fallback :
  (∃ payload, answer = Ok payload ∧ validate payload = None ∧
     checked answer validate fallback = payload)
  ∨ checked answer validate fallback = fallback.
Proof. unfold checked. destruct answer; [|auto]. destruct (validate a) eqn:E; eauto. Qed.

(** C14: whatever the language model answers, or when it does not, the service writes a
    document for each phase, and never an error.  The design and the plan always meet
    their contracts.  So do the requirements, except that the fixed document has no
    objective for a goal that is nothing but a benchmark block. *)
Theorem phase_documents_valid `{Disk} `{PlannerModel} map_range initiative document feedback :
  (∃ r, GenerateDesign map_range initiative document feedback = Ok r ∧
     ValidateDesignPayload (pa_json r) = None) ∧
  (∃ r, GenerateExecutionPlan initiative document feedback = Ok r ∧
     ValidateExecutionPlanPayload (pa_json r) = None) ∧
  ∃ r, GenerateRequirements map_range initiative feedback = Ok r ∧
     (ValidateRequirementsPayload (pa_json r) = None ∨
      blank (sanitizedInitiativeGoal (ini_goal initiative)) = true ∧
      pa_json r = fallbackRequirements initiative feedback
                    (researchNotes (sanitizedInitiativeGoal (ini_goal initiative))) ∧
      ValidateRequirementsPayload (pa_json r) = Some "requirements payload missing objective").
Proof.
  split_and!; (eexists; split; [reflexivity|]; cbn [pa_json]).
  - apply checked_contract, design_contract.
  - destruct (shouldUseDeterministicRepoPlan _) eqn:Hd; [apply repo_plan_contract|].
    apply checked_contract. unfold fallbackExecutionPlan. rewrite Hd. apply scaffold_plan_contract.
  - edestruct checked_cases as [(payload & _ & Hv & Hk)|Hk]; rewrite Hk; [by left|].
    rewrite requirements_contract. destruct (blank _); auto.
Qed.
