(* ===== verification/Planning.v ===== *)
(** * The planning context of an objective ([httpapi/objectives.go], [httpapi/helpers.go])

    What the planner is told about the workspace before it writes the contract, and
    the packet of it that is kept. *)
From S2P Require Import Prelude GoVal Rfc3339 Json JsonText JsonValue Effects Domain Schema TaskStore Artifacts.
From S2P Require Import Retrieval Objective Workspace Profile.

(** [orchestratorgo/domain/context.go:30-49] ContextPackage: of no task; its operational
    part repeats the constraints, the policies and the references. *)
Record ContextPackage := MkContext {
  cx_agent : string;
  cx_initiative : option string;
  cx_root : option string;
  cx_query : string;
  cx_mode : string;
  cx_strategy : string;
  cx_chunks : list ContextChunk;
  cx_precedents : list RetrievalHit;
  cx_refs : list string;
  cx_constraints : list string;
  cx_policies : list string;
  cx_prompt : string;
  cx_summaries : gmap string string;
  cx_why : list string;
  cx_total : Z;
  cx_generated : Z;
}.

(** ** Its JSON *)

Definition text_entry (key : string) (o : option string) : list (string * gval) :=
  match o with Some s => [(key, VStr s)] | None => [] end.
Definition score_entry (o : option decimal) : list (string * gval) :=
  match o with Some (m, e) => [("score", VNum m e)] | None => [] end.
Definition nonempty_text (key s : string) : list (string * gval) :=
  if s =?s "" then [] else [(key, VStr s)].
(** [orchestratorgo/domain/context.go:15-28] ContextChunk: its JSON fields. *)
Definition chunk_fields (c : ContextChunk) : list (string * gval) :=
  [("id", VStr (ch_id c)); ("source_type", VStr (ch_type c)); ("source_id", VStr (ch_source c));
   ("chunk_index", VInt (ch_index c)); ("content_text", VStr (ch_text c));
   ("metadata", VMap (ch_metadata c))] ++ score_entry (ch_score c)
  ++ [("source_ref", VStr (ch_ref c))] ++ nonempty_text "memory_class" (ch_class c)
  ++ text_entry "initiative_id" (ch_initiative c) ++ text_entry "task_id" (ch_task c)
  ++ text_entry "artifact_id" (ch_artifact c).
(** [orchestratorgo/domain/context.go:71-82] RetrievalHit: its JSON fields. *)
Definition hit_fields (h : RetrievalHit) : list (string * gval) :=
  [("source_ref", VStr (hit_ref h)); ("source_type", VStr (hit_type h));
   ("source_id", VStr (hit_source h))] ++ score_entry (hit_score h)
  ++ nonempty_text "memory_class" (hit_class h) ++ text_entry "initiative_id" (hit_initiative h)
  ++ text_entry "task_id" (hit_task h) ++ text_entry "artifact_id" (hit_artifact h)
  ++ nonempty_text "summary" (hit_summary h) ++ nonempty_text "selection_reason" (hit_reason h).
(** [orchestratorgo/domain/context.go:84-99] OperationalIR: its JSON fields. *)
Definition operational_fields {V} (leaf : gval → V) (struct : list (string * V) → V)
    (c : ContextPackage) : list (string * V) :=
  let nil key := (key, leaf VNil) in
  [("version", leaf (VStr "v1")); ("mode", leaf (VStr "objective_planning"));
   ("confidence", leaf (VStr "medium")); nil "trusted"; nil "invalid";
   ("constraints", leaf (VStrs (cx_constraints c))); nil "dependencies";
   ("policies", leaf (VStrs (cx_policies c))); nil "flows"; nil "approvals"; nil "risks";
   nil "validation_rules"; ("jsonata", struct [nil "selectors"; nil "conditions"; nil "projections"]);
   ("source_refs", leaf (VStrs (cx_refs c)))].
Definition summaries_entry {V} (leaf : gval → V) (c : ContextPackage) : list (string * V) :=
  if bool_decide (cx_summaries c = ∅) then []
  else [("compact_summaries", leaf (VMap (VStr <$> cx_summaries c)))].
Definition some_strings {V} (leaf : gval → V) (key : string) (l : list string) : list (string * V) :=
  if bool_decide (l = []) then [] else [(key, leaf (VStrs l))].
Definition timestamp (t : Z) : gval := VStr (format_nano t 0).
(** [orchestratorgo/domain/context.go:30-49] ContextPackage: its JSON fields, as the value
    of a metadata map. *)
Definition context_value (c : ContextPackage) : gmap_any :=
  let struct (l : list (string * gval)) := VMap (list_to_map l) in
  list_to_map
    ([("agent_type", VStr (cx_agent c))] ++ text_entry "initiative_id" (cx_initiative c)
     ++ text_entry "workspace_root" (cx_root c) ++ [("query", VStr (cx_query c))]
     ++ nonempty_text "memory_mode" (cx_mode c) ++ nonempty_text "memory_strategy" (cx_strategy c)
     ++ [("chunks", VMaps (list_to_map ∘ chunk_fields <$> cx_chunks c))]
     ++ (if bool_decide (length (cx_precedents c) = 0%nat) then []
         else [("precedents", VMaps (list_to_map ∘ hit_fields <$> cx_precedents c))])
     ++ [("source_refs", VStrs (cx_refs c)); ("constraints", VStrs (cx_constraints c));
         ("policies", VStrs (cx_policies c)); ("prompt_section", VStr (cx_prompt c))]
     ++ summaries_entry id c ++ some_strings id "why_these_precedents" (cx_why c)
     ++ [("operational_ir", struct (operational_fields id struct c));
         ("total_chars", VInt (cx_total c)); ("generated_at", timestamp (cx_generated c))]).

(** ** What the planner is told *)

(** [orchestratorgo/httpapi/objectives.go:228-258] summarizeObjectiveCandidateFiles: a step
    of the walk. *)
Definition source_extensions : list string := [".go"; ".py"; ".php"; ".js"; ".ts"; ".tsx"; ".jsx"].
Definition visit_source (root rel : string) (isDir : bool) (candidates : list string) :
    list string * walk_next :=
  if isDir then
    let name := path_base (if rel =?s "" then root else rel) in
    (candidates,
     if (name =?s ".git") || (has_prefix "." name && negb (name =?s ".")) then SkipDir else WalkOn)
  else if rel =?s "README.md" then (candidates, WalkOn)
  else
    let candidates :=
      if bool_decide (to_lower (path_ext rel) ∈ source_extensions) then candidates ++ [rel]
      else candidates in
    (candidates, if (6 <=? length candidates)%nat then SkipAll else WalkOn).

(** [orchestratorgo/httpapi/objectives.go:260-281] buildObjectivePromptSection. *)
Definition labelled (label text : string) : list string :=
  if text =?s "" then [] else [label +:+ ": " +:+ text].
Definition labelled_list (label : string) (l : list string) : list string :=
  if bool_decide (l = []) then [] else [label +:+ ": " +:+ sjoin " | " l].
Definition buildObjectivePromptSection (query : string) (compactSummaries : gmap string string)
    (why constraints policies : list string) : string :=
  let summary class := trim_space (default "" (compactSummaries !! class)) in
  sjoin nl
    (["Objective planning context"; "Objective: " +:+ trim_space query]
     ++ labelled "Repo-specific memory" (summary MemoryClassRepoSpecific)
     ++ labelled "Planning context" (summary MemoryClassPlanningContext)
     ++ labelled_list "Selection rationale" why ++ labelled_list "Constraints" constraints
     ++ labelled_list "Policies" policies).

Section Context_.
Context `{Disk}.

(** [orchestratorgo/httpapi/objectives.go:220-226] compactObjectiveWorkspaceReadme. *)
Definition compactObjectiveWorkspaceReadme (workspaceRoot : string) : string :=
  match read_in workspaceRoot "README.md" with
  | Some raw => CompactText raw 220
  | None => ""
  end.
(** [orchestratorgo/httpapi/objectives.go:228-258] summarizeObjectiveCandidateFiles. *)
Definition summarizeObjectiveCandidateFiles (workspaceRoot : string) : string :=
  let candidates := WalkDir (disk workspaceRoot) (visit_source workspaceRoot) [] in
  if bool_decide (candidates = []) then ""
  else CompactText ("Candidate repo paths: " +:+ sjoin ", " candidates) 220.

(** [orchestratorgo/httpapi/objectives.go:131-167] buildObjectivePlanningContext: the
    chunks. *)
Definition workspace_chunk (id type source text ref class : string) (index : Z) : ContextChunk :=
  {| ch_id := id; ch_type := type; ch_source := source; ch_index := index; ch_text := text;
     ch_metadata := {["memory_class" := VStr class]}; ch_score := None; ch_ref := ref;
     ch_class := class; ch_initiative := None; ch_task := None; ch_artifact := None |}.
Definition planning_chunks (workspaceRoot title query : string) : list ContextChunk :=
  let readme := compactObjectiveWorkspaceReadme workspaceRoot in
  let candidates := summarizeObjectiveCandidateFiles workspaceRoot in
  let chunks :=
    if readme =?s "" then []
    else [workspace_chunk "workspace-readme" "workspace_file" "README.md" readme
            "workspace:README.md" MemoryClassRepoSpecific 0] in
  let chunks :=
    if candidates =?s "" then chunks
    else chunks ++ [workspace_chunk "workspace-candidates" "workspace_index" "candidate_files"
                      candidates "workspace:candidate_files" MemoryClassRepoSpecific
                      (Z.of_nat (length chunks))] in
  chunks ++ [workspace_chunk "objective-brief" "objective_request"
               (first_nonblank [trim_space title; "objective"]) (CompactText query 220)
               "objective:request" MemoryClassPlanningContext (Z.of_nat (length chunks))].
(** [orchestratorgo/httpapi/objectives.go:112-218] buildObjectivePlanningContext. *)
Definition planning_constraints : list string :=
  ["Prefer repo_specific evidence before transfer evidence.";
   "Keep edits narrow and validation-driven."].
Definition planning_policies : list string :=
  ["negative_guardrail memory acts as exclusion evidence, not as a positive edit target.";
   "Compact retrieval before expanding raw context."].
Definition planning_package (initiativeID workspaceRoot query : string)
    (chunks : list ContextChunk) (now : Z) : option ContextPackage :=
  let '(precedents, compactSummaries, why) :=
    SelectRetrievalHits chunks DefaultPrecedentLimit DefaultPerClassLimit in
  if bool_decide (length precedents = 0%nat) then None
  else
    let prompt :=
      buildObjectivePromptSection query compactSummaries why planning_constraints planning_policies in
    let total (prompt : string) :=
      foldl (λ n h, n + slen (hit_summary h)) (slen prompt) precedents in
    let prompt :=
      if DefaultPacketBudgetChars <? total prompt
      then CompactText prompt (DefaultPacketBudgetChars / 2) else prompt in
    Some {|
      cx_agent := AgentTypePlanner;
      cx_initiative := if blank initiativeID then None else Some initiativeID;
      cx_root := if blank workspaceRoot then None else Some workspaceRoot;
      cx_query := query; cx_mode := "auto"; cx_strategy := "repo_specific_first";
      cx_chunks := chunks; cx_precedents := precedents; cx_refs := ch_ref <$> chunks;
      cx_constraints := planning_constraints; cx_policies := planning_policies;
      cx_prompt := prompt; cx_summaries := compactSummaries; cx_why := why;
      cx_total := total prompt; cx_generated := now |}.
Definition buildObjectivePlanningContext `{Env} (initiative : InitiativeResponse)
    (title objective workspaceRoot : string) : M Sys (option ContextPackage) :=
  let workspaceRoot :=
    let root := trim_space workspaceRoot in
    if root =?s "" then trim_space (ini_workspace_root initiative) else root in
  let query := first_nonblank [trim_space objective; trim_space title] in
  if workspaceRoot =?s "" then ret None
  else
    match stat_in workspaceRoot ".git" with
    | None => ret None
    | Some git =>
        if negb (is_directory git) then ret None
        else if query =?s "" then ret None
        else
          let chunks := planning_chunks workspaceRoot title query in
          match planning_package (ini_id initiative) workspaceRoot query chunks 0 with
          | None => ret None
          | Some _ =>
              now <- time_now ;;
              ret (planning_package (ini_id initiative) workspaceRoot query chunks now)
          end
    end.
End Context_.

(** ** The packet *)

Section Packet.
Context `{Env}.

(** [orchestratorgo/domain/context.go:51-69] RetrievalPacket: its JSON. *)
Definition packet_text (agentType initiativeID : string) (c : ContextPackage) : string :=
  let text key s := (key, to_jval (VStr s)) in
  let some key o := prod_map id to_jval <$> text_entry key o in
  let nonempty key s := prod_map id to_jval <$> nonempty_text key s in
  let struct fields := struct_jval (prod_map id to_jval <$> fields) in
  MarshalIndent (struct_jval
    ([text "agent_type" (trim_space agentType); text "initiative_id" initiativeID]
     ++ some "workspace_root" (cx_root c) ++ [text "query" (cx_query c)]
     ++ nonempty "memory_mode" (cx_mode c) ++ nonempty "memory_strategy" (cx_strategy c)
     ++ [("chunk_count", to_jval (VInt (Z.of_nat (length (cx_chunks c)))));
         ("source_refs", to_jval (VStrs (cx_refs c)))]
     ++ some_strings to_jval "constraints" (cx_constraints c)
     ++ some_strings to_jval "policies" (cx_policies c)
     ++ summaries_entry to_jval c ++ some_strings to_jval "why_these_precedents" (cx_why c)
     ++ [("precedents", JArr (struct ∘ hit_fields <$> cx_precedents c));
         ("operational_ir", struct_jval (operational_fields to_jval struct_jval c))]
     ++ (if cx_total c =? 0 then [] else [("total_chars", to_jval (VInt (cx_total c)))])
     ++ [("generated_at", to_jval (timestamp (cx_generated c)))])).
(** [orchestratorgo/httpapi/helpers.go:107-167] persistInitiativeRetrievalPacketArtifact: of
    a package with precedents, as every one is. *)
Definition persistInitiativeRetrievalPacketArtifact (initiative : InitiativeResponse)
    (agentType : string) (c : ContextPackage) : M Sys string :=
  if bool_decide (length (cx_chunks c) = 0%nat) then ret ""
  else
    let raw := packet_text agentType (ini_id initiative) c in
    CreateArtifact (plain_artifact "planning_retrieval_packet" (Some "Planning retrieval packet")
      None (Some "application/json") (if blank raw then None else Some raw)
      (list_to_map
         [("initiative_id", VStr (ini_id initiative)); ("agent_type", VStr (trim_space agentType));
          ("memory_kind", VStr "planning_retrieval_packet"); ("memory_mode", VStr (cx_mode c));
          ("memory_strategy", VStr (cx_strategy c)); ("query", VStr (cx_query c));
          ("chunk_count", VInt (Z.of_nat (length (cx_chunks c))));
          ("precedent_count", VInt (Z.of_nat (length (cx_precedents c))));
          ("total_chars", VInt (cx_total c)); ("source_refs", VStrs (cx_refs c));
          ("workspace_root", VStr (trim_space (ini_workspace_root initiative)))])).
End Packet.
