(* ===== verification/Contract.v ===== *)
(** * The contract of an objective ([initiative/objectives.go])

    From an objective to its work items: research, what must be known or built before
    the first edit, the edits, one after the other, validation and review. *)
From S2P Require Import Prelude GoVal Json JsonText JsonValue Effects Domain Schema TaskStore.
From S2P Require Import Retrieval Objective Workspace Profile Planning.

(** ** Decisions *)

(** [orchestratorgo/initiative/objectives.go:534-544] objectiveScopeHasStrongEvidence. *)
Definition objectiveScopeHasStrongEvidence (h : ScopeHypothesis) : bool :=
  (6 <=? sh_score h)
  || bool_decide (to_lower (trim_space (sh_confidence h)) ∈ ["medium"; "high"]).
(** [orchestratorgo/initiative/objectives.go:506-523] objectiveScopeIsAmbiguous. *)
Definition objectiveScopeIsAmbiguous (scopeHypotheses : list ScopeHypothesis) : bool :=
  match scopeHypotheses with
  | first :: second :: _ =>
      if blank (sh_path first) || blank (sh_path second) then false
      else if 2 <? Z.abs (sh_score first - sh_score second) then false
      else objectiveScopeHasStrongEvidence first && objectiveScopeHasStrongEvidence second
  | _ => false
  end.
(** [orchestratorgo/initiative/objectives.go:525-532] objectiveAmbiguousScopeReason. *)
Definition objectiveAmbiguousScopeReason (scopeHypotheses : list ScopeHypothesis) : string :=
  match scopeHypotheses with
  | first :: second :: _ =>
      "the planner shortlist remains ambiguous between " +:+ trim_space (sh_path first)
      +:+ " and " +:+ trim_space (sh_path second)
  | _ => "the planner shortlist remains ambiguous"
  end.

(** [orchestratorgo/initiative/objectives.go:403-407] objectiveInitialAnalysis. *)
Record objectiveInitialAnalysis := MkAnalysis { ia_types : list string; ia_reason : string }.
(** [orchestratorgo/initiative/objectives.go:435-469] detectInitialObjectiveAnalysis: the
    kinds of analysis a text asks for, *)
Definition text_types (text : string) : list string :=
  let lower := to_lower (trim_space text) in
  let asks (words : list string) (type : string) :=
    if mentions_any words lower then [type] else [] in
  asks ["security"; "secret"; "hardcoded"; "credential"] "security"
  ++ asks ["dependency"; "lockfile"; "go.sum"; "package.json"] "dependencies"
  ++ asks ["lint"; "whitespace"; "format"] "lint"
  ++ asks ["complexity"; "large source file"; "refactor"; "architecture"; "legacy"; "structural"]
       "complexity".
Definition add_type (types : list string) (type : string) : list string :=
  if bool_decide (type ∈ types) then types else types ++ [type].
Definition precedent_text (item : gmap_any) : string :=
  let text := text_at item "summary" in
  if text =?s "" then text_at item "source_ref" else text.
(** [orchestratorgo/initiative/objectives.go:432-504] detectInitialObjectiveAnalysis: [None]
    when it is not enabled. *)
Definition detectInitialObjectiveAnalysis (objective : string)
    (scopeHypotheses : list ScopeHypothesis) (precedents : list gmap_any) :
    option objectiveInitialAnalysis :=
  let objectiveTypes := text_types (to_lower (trim_space objective)) in
  let precedentTypes := precedents ≫= λ item, text_types (precedent_text item) in
  let objectiveMatched := negb (bool_decide (objectiveTypes = [])) in
  let precedentMatched := negb (bool_decide (precedentTypes = [])) in
  let ambiguousScope := objectiveScopeIsAmbiguous scopeHypotheses in
  let types := foldl add_type [] (objectiveTypes ++ precedentTypes) in
  if (bool_decide (types = []) || (negb objectiveMatched && negb precedentMatched))
     && negb ambiguousScope then None
  else
    let reasonParts :=
      (if objectiveMatched then ["the objective already signals structural analysis work"] else [])
      ++ (if precedentMatched
          then ["retrieved precedents point to the same class of structural issue"] else [])
      ++ (if ambiguousScope then [objectiveAmbiguousScopeReason scopeHypotheses] else []) in
    Some (MkAnalysis (if ambiguousScope then add_type types "complexity" else types)
            ("Run targeted static analysis before the first edit because "
             +:+ sjoin " and " reasonParts +:+ ".")).

(** [orchestratorgo/initiative/objectives.go:546-575] detectInitialBaselineValidation: its
    reason, when it is enabled. *)
Definition detectInitialBaselineValidation (objective : string) (precedents : list gmap_any)
    (bootstrap : bool) : option string :=
  if bootstrap then None
  else
    let goal := to_lower (trim_space objective) in
    let explicit := mentions_any ["fix"; "failing"; "regression"; "broken"; "repair"] goal
                    && mentions_any ["test"; "validation"] goal in
    let precedentMatched := existsb (λ item,
      mentions_any ["validation failed"; "failing test"; "regression"; "repair loop"]
        (to_lower (text_at item "summary"))) precedents in
    if negb explicit && negb precedentMatched then None
    else
      let reasonParts :=
        (if explicit then
           ["the objective reads like a bugfix/regression and names validation directly"] else [])
        ++ (if precedentMatched then
              ["retrieved precedents suggest reproducing the failure before editing"] else []) in
      Some ("Reproduce the current validation state before the first edit because "
            +:+ sjoin " and " reasonParts +:+ ".").

Section Workstreams.
Context `{Disk} (workspaceRoot objective : string) (suspectedPaths : list string)
  (bootstrap : bool).

(** A further edit: the files it touches, when the objective mentions its subject and is
    about some other file as well. *)
Definition workstream_paths (words : list string) (own : string → bool) (paths : list string) :
    option (list string) :=
  let goal := to_lower (trim_space objective) in
  if goal =?s "" then None
  else if negb (mentions_any words goal) then None
  else if forallb own suspectedPaths then None
  else if bool_decide (paths = []) then None
  else Some paths.
(** [orchestratorgo/initiative/objectives.go:577-605] detectObjectiveDocumentationWorkstream. *)
Definition detectObjectiveDocumentationWorkstream : option (list string) :=
  workstream_paths ["readme"; "documentation"; "docs"; "document"] objectiveIsDocumentationPath
    (objectiveDocumentationPaths workspaceRoot bootstrap).
(** [orchestratorgo/initiative/objectives.go:607-647] detectObjectiveInfraWorkstream. *)
Definition detectObjectiveInfraWorkstream : option (list string) :=
  workstream_paths
    ["docker"; "compose"; "kubernetes"; "helm"; "deploy"; "deployment"; "config";
     "configuration"; "workflow"; "ci"; "infra"; "environment"; ".env"] objectiveIsInfraPath
    (objectiveInfraPaths workspaceRoot bootstrap).
(** [orchestratorgo/initiative/objectives.go:649-694] detectObjectiveDependencyWorkstream. *)
Definition detectObjectiveDependencyWorkstream : option (list string) :=
  workstream_paths
    ["dependency"; "dependencies"; "lockfile"; "package.json"; "package-lock"; "yarn.lock";
     "pnpm-lock"; "go.mod"; "go.sum"; "requirements"; "pyproject"; "poetry.lock"; "cargo";
     "gemfile"; "composer"; "upgrade"; "bump"; "vulnerab"] objectiveIsDependencyPath
    (objectiveDependencyPaths workspaceRoot bootstrap).
End Workstreams.

(** [orchestratorgo/initiative/objectives.go:738-748] objectiveSummarizeContextChunk. *)
Definition objectiveSummarizeContextChunk (text : string) : string :=
  let text := trim_space text in
  if text =?s "" then ""
  else if rune_count text <=? 180 then text
  else trim_space (take_runes 180 text) +:+ "...".
(** [orchestratorgo/initiative/objectives.go:696-736] objectiveRetrievalPrecedentsFromContext. *)
Definition precedent_of (hit : RetrievalHit) : gmap_any :=
  list_to_map
    ([("source_ref", VStr (trim_space (hit_ref hit)));
      ("source_type", VStr (trim_space (hit_type hit)));
      ("source_id", VStr (trim_space (hit_source hit)));
      ("summary", VStr (objectiveSummarizeContextChunk (hit_summary hit)));
      ("memory_class", VStr (trim_space (hit_class hit)));
      ("selection_reason", VStr (trim_space (hit_reason hit)))]
     ++ score_entry (hit_score hit) ++ text_entry "initiative_id" (hit_initiative hit)
     ++ text_entry "task_id" (hit_task hit) ++ text_entry "artifact_id" (hit_artifact hit)).
Definition objectiveRetrievalPrecedentsFromContext (pkg : option ContextPackage) : slice gmap_any :=
  match pkg with
  | None => None
  | Some pkg =>
      let hits :=
        if bool_decide (length (cx_precedents pkg) = 0%nat) then
          (SelectRetrievalHits (cx_chunks pkg) DefaultPrecedentLimit DefaultPerClassLimit).1.1
        else cx_precedents pkg in
      nil_if_empty (precedent_of <$> hits)
  end.

(** ** A workspace that is still empty *)

(** [orchestratorgo/initiative/objectives.go:1211-1227] inferObjectiveScaffoldType. *)
Definition inferObjectiveScaffoldType (objective : string) : string * string :=
  let goal := to_lower (trim_space objective) in
  if mentions_any ["landing page"; "frontend"; "web"; "ui"] goal then ("web_small", "static")
  else if mentions_any ["api"; "http"; "endpoint"] goal then ("api_http", "python")
  else if mentions_any ["worker"; "background job"; "queue"] goal then ("worker_background", "python")
  else if mentions_any ["regression"; "debug"; "bugfix"] goal then ("debug_regression", "python")
  else if mentions_any ["library"; "package"; "module"] goal then ("toy_repo", "python")
  else ("cli_simple", "python").
(** Words are found inside others. *)
Example build_is_a_user_interface :
  inferObjectiveScaffoldType "Build a command line tool" = ("web_small", "static") ∧
  inferObjectiveScaffoldType "Write a rapid prototype of a command line tool" = ("api_http", "python").
Proof. vm_compute. done. Qed.

Section Contract.
Context `{Disk}.

(** [orchestratorgo/initiative/objectives.go:1169-1198] detectObjectiveBootstrapProfile: the
    profile, when the workspace has no repository and no file of interest. *)
Definition detectObjectiveBootstrapProfile (workspaceRoot title objective : string) :
    option repoWorkflowProfile :=
  if negb (shouldBootstrapObjectiveWorkspace workspaceRoot) then None
  else
    let '(type, runtime) := inferObjectiveScaffoldType objective in
    let name := sanitizeProjectName (path_base (trim_space workspaceRoot)) in
    let name := if name =?s "" then sanitizeProjectName title else name in
    let name := if name =?s "" then "objective-workspace" else name in
    Some (no_profile <| projectFlow := "greenfield_" +:+ type |> <| projectType := type |>
      <| stack := runtime |> <| repoName := name |> <| projectRoot := "." |>
      <| testFocus := "greenfield objective bootstrap" |>
      <| testCommand := Some (defaultInitiativeTestCommand type runtime) |>
      <| expected := expectedInitiativeFiles type |> <| coderTool := "scaffold_project" |>
      <| coderSummary := "Bootstrap a minimal runnable project in place before applying objective-specific edits." |>
      <| language := firstNonEmptyString [runtime; "python"] |>
      <| problemDomain := "greenfield objective execution" |>).

(** [orchestratorgo/initiative/objectives.go:17-25] ObjectiveInput. *)
Record ObjectiveInput := MkInput {
  oi_title : string;
  oi_objective : string;
  oi_workspace_root : string;
  oi_created_by : string;
  oi_budget : Z;
  oi_context : option ContextPackage;
  oi_artifact : string;
}.

(** [orchestratorgo/initiative/objectives.go:27-54] GenerateObjectiveExecutionContract: what
    the work items share. *)
Record ContractPlan := MkPlan {
  cp_title : string;
  cp_objective : string;
  cp_root : string;
  cp_bootstrap : bool;
  cp_profile : repoWorkflowProfile;
  cp_commands : list string;
  cp_precedents : slice gmap_any;
  cp_scope : slice ScopeHypothesis * slice ScopeHypothesis;
  cp_paths : list string;
  cp_input : ObjectiveInput;
}.
Definition contract_plan (input : ObjectiveInput) : option ContractPlan :=
  let workspaceRoot := trim_space (oi_workspace_root input) in
  let objective := trim_space (oi_objective input) in
  let title := firstNonEmptyString [trim_space (oi_title input); objective] in
  if (title =?s "") || (objective =?s "") || (workspaceRoot =?s "") then None
  else
    let bootstrap := detectObjectiveBootstrapProfile workspaceRoot title objective in
    let profile :=
      match bootstrap with
      | Some profile => profile
      | None => detectRepoWorkflowProfile workspaceRoot objective
      end in
    let precedents := objectiveRetrievalPrecedentsFromContext (oi_context input) in
    let scope := buildInitialScopeHypotheses workspaceRoot objective (expected profile)
                   (items precedents) in
    let paths := scopeHypothesisPaths (items scope.1) in
    Some {|
      cp_title := title; cp_objective := objective; cp_root := workspaceRoot;
      cp_bootstrap := bool_decide (is_Some bootstrap); cp_profile := profile;
      cp_commands := match testCommand profile with
                     | Some ((_ :: _) as command) => command
                     | _ => ["git"; "diff"; "--no-ext-diff"]
                     end;
      cp_precedents := precedents; cp_scope := scope;
      cp_paths := if bool_decide (paths = []) then expected profile else paths;
      cp_input := input |}.

Section Items.
Variable p : ContractPlan.

Definition cp_project_root : string :=
  firstNonEmptyString [trim_space (projectRoot (cp_profile p)); "."].
Definition cp_repo : string :=
  firstNonEmptyString [repoName (cp_profile p); path_base (cp_root p); "repo"].
Definition scope_value (l : slice ScopeHypothesis) : gval :=
  plain_maps (map (list_to_map ∘ scope_fields) <$> l).
(** [orchestratorgo/initiative/objectives.go:61-80] GenerateObjectiveExecutionContract: the
    request of the project, *)
Definition project_request : gmap_any :=
  let q := cp_profile p in
  let text s := VStr (trim_space s) in
  list_to_map
    [("project_name", VStr cp_repo); ("project_root", VStr cp_project_root);
     ("project_type", VStr (firstNonEmptyString [projectType q; "existing_repo"]));
     ("runtime_or_stack", VStr (firstNonEmptyString [stack q; "python"]));
     ("repository_url", text (repositoryURL q)); ("default_branch", text (defaultBranch q));
     ("repo_profile", VStr (firstNonEmptyString [projectFlow q; "existing_repo_generic"]));
     ("goal", VStr (cp_objective p));
     ("test_focus", VStr (firstNonEmptyString [testFocus q; "objective execution"]));
     ("test_command", VStrs (cp_commands p)); ("expected_files", VStrs (cp_paths p));
     ("language", text (language q)); ("framework", text (framework q));
     ("problem_domain", text (problemDomain q)); ("error_class", text (errorClass q));
     ("fix_pattern", text (fixPattern q)); ("validation_pattern", text (validationPattern q));
     ("bootstrap_workspace", VBool (cp_bootstrap p))].
(** [orchestratorgo/initiative/objectives.go:55-86] GenerateObjectiveExecutionContract: and
    the metadata of every item. *)
Definition edit_metadata : gmap_any :=
  (match oi_context (cp_input p) with
   | Some c =>
       if bool_decide (length (cx_chunks c) = 0%nat) then ∅
       else list_to_map
         [("context_package", VMap (context_value c));
          ("objective_retrieval_precedents", plain_maps (cp_precedents p));
          ("planning_context_source_refs", VStrs (cx_refs c))]
   | None => ∅
   end)
  ∪ list_to_map
    [("workspace_root", VStr (cp_root p));
     ("initial_scope_hypotheses", scope_value (cp_scope p).1);
     ("rejected_scope_hypotheses", scope_value (cp_scope p).2);
     ("planning_retrieval_precedents", plain_maps (cp_precedents p));
     ("planning_retrieval_packet_artifact_id", VStr (trim_space (oi_artifact (cp_input p))));
     ("project_request", VMap project_request)].

(** What all items have in common: they run on the machine of the workspace. *)
Definition local_item (id kind title description agent backend : string) (dependsOn : slice string)
    (done : string) (paths : list string) (tool metadata : gmap_any) : WorkItem :=
  {| wi_id := id; wi_kind := kind; wi_title := title; wi_description := description;
     wi_agent := agent; wi_mode := TaskLaunchModeAgentLocal; wi_target := ExecutionTargetLocal;
     wi_backend := backend; wi_depends_on := dependsOn; wi_approval := false; wi_done := done;
     wi_commands := None; wi_paths := Some paths; wi_tool_request := Some tool;
     wi_metadata := metadata |}.
Definition checked_by (w : WorkItem) : WorkItem := w <| wi_commands := Some (cp_commands p) |>.
Definition tests_request : gmap_any :=
  list_to_map [("tool", VStr "run_tests"); ("argv", VStrs (cp_commands p))].
Definition aider_argv (taskID description : string) : gmap_any :=
  list_to_map
    [("tool", VStr "run_command");
     ("argv", VStrs ["aider-task"; "--task-id"; taskID; "--repo"; cp_repo;
                     "--description"; description])].

(** [orchestratorgo/initiative/objectives.go:110-128] GenerateObjectiveExecutionContract: the
    research, *)
Definition initial_research : WorkItem :=
  local_item "research" WorkItemKindResearch "Research objective context"
    "Capture repository context, validation constraints, and likely files before editing."
    AgentTypeResearcher "local_bridge" None
    "Research context and evidence artifacts are persisted for the objective." (cp_paths p)
    (list_to_map [("tool", VStr "research_project"); ("project_request", VMap project_request)])
    edit_metadata.
(** [orchestratorgo/initiative/objectives.go:130-155] GenerateObjectiveExecutionContract: the
    baseline validation, *)
Definition initial_baseline (reason : string) : WorkItem :=
  checked_by (local_item "validate-baseline" WorkItemKindValidate
    "Reproduce baseline validation before editing" reason AgentTypeReviewer "local_bridge"
    (Some ["research"]) "Baseline validation evidence is captured before the first edit."
    (cp_paths p) tests_request
    (list_to_map
       [("objective_next_action_after_success", VStr "edit");
        ("objective_baseline_validation", VBool true);
        ("objective_baseline_reason", VStr reason)] ∪ edit_metadata)).
(** [orchestratorgo/initiative/objectives.go:156-189] GenerateObjectiveExecutionContract: the
    scaffold, *)
Definition initial_bootstrap : WorkItem :=
  let q := cp_profile p in
  checked_by (local_item "bootstrap" WorkItemKindEdit "Bootstrap runnable workspace scaffold"
    "Create the minimal runnable scaffold before objective-specific edits." AgentTypeCoder
    "local_bridge" (Some ["research"])
    "Workspace contains an in-place scaffold with deterministic validation targets." (cp_paths p)
    (list_to_map
       [("tool", VStr "scaffold_project"); ("project_root", VStr ".");
        ("project_name", VStr (repoName q)); ("project_type", VStr (projectType q));
        ("runtime_or_stack", VStr (stack q)); ("goal", VStr (cp_objective p));
        ("test_focus", VStr (firstNonEmptyString [testFocus q; "objective bootstrap"]));
        ("initialize_git", VBool true); ("commit_initial_scaffold", VBool true);
        ("test_command", VStrs (cp_commands p)); ("expected_files", VStrs (cp_paths p))])
    (<["bootstrap_workspace" := VBool true]> edit_metadata)).
(** [orchestratorgo/initiative/objectives.go:190-214] GenerateObjectiveExecutionContract: the
    analysis, *)
Definition initial_analyze (a : objectiveInitialAnalysis) (dependsOn : list string) : WorkItem :=
  local_item "analyze" WorkItemKindAnalyze "Analyze structural risks before editing" (ia_reason a)
    AgentTypeReviewer "local_bridge" (Some dependsOn)
    "Static analysis findings are persisted before the first edit." (cp_paths p)
    (list_to_map [("tool", VStr "code_analysis"); ("project_root", VStr cp_project_root);
                  ("analysis_types", VStrs (ia_types a))])
    (list_to_map [("objective_analysis_reason", VStr (ia_reason a));
                  ("objective_analysis_types", VStrs (ia_types a))] ∪ edit_metadata).
(** [orchestratorgo/initiative/objectives.go:215-231] GenerateObjectiveExecutionContract: the
    edit, *)
Definition initial_edit (taskID : string) (dependsOn : list string) : WorkItem :=
  checked_by (local_item "edit" WorkItemKindEdit "Apply objective changes with aider"
    (cp_objective p) AgentTypeCoder "aider-task" (Some dependsOn)
    "Aider applies changes and leaves a git diff for validation." (cp_paths p)
    (aider_argv taskID (cp_objective p)) edit_metadata) <| wi_approval := true |>.
(** [orchestratorgo/initiative/objectives.go:234-344] GenerateObjectiveExecutionContract: and
    the edits that keep other files in step, *)
Record InitialWorkstream := MkInitialWorkstream {
  iw_id : string;
  iw_name : string;
  iw_title : string;
  iw_description : string;
  iw_done : string;
  iw_paths : list string;
}.
Definition initial_workstreams : list InitialWorkstream :=
  let found (o : option (list string)) id name title description done :=
    match o with
    | Some paths => [MkInitialWorkstream id name title description done paths]
    | None => []
    end in
  found (detectObjectiveDocumentationWorkstream (cp_root p) (cp_objective p) (cp_paths p)
           (cp_bootstrap p))
    "edit-docs" "documentation_sync" "Synchronize documentation with the code change"
    "Synchronize the repository documentation and operator-facing notes with the implemented objective change."
    "Documentation and operator-facing notes reflect the implemented change without widening scope."
  ++ found (detectObjectiveInfraWorkstream (cp_root p) (cp_objective p) (cp_paths p)
              (cp_bootstrap p))
    "edit-config" "config_sync" "Synchronize configuration and infra with the code change"
    "Synchronize configuration, deployment, or environment files with the implemented objective change."
    "Configuration and infra-facing files reflect the implemented change without diverging from the code path."
  ++ found (detectObjectiveDependencyWorkstream (cp_root p) (cp_objective p) (cp_paths p)
              (cp_bootstrap p))
    "edit-deps" "dependency_sync"
    "Synchronize dependency manifests and lockfiles with the code change"
    "Synchronize dependency manifests, lockfiles, or package metadata with the implemented objective change."
    "Dependency manifests and lockfiles reflect the implemented change without drifting from the main code path.".
Definition initial_workstream (ws : InitialWorkstream) (taskID : string) (dependsOn : list string) :
    WorkItem :=
  checked_by (local_item (iw_id ws) WorkItemKindEdit (iw_title ws) (iw_description ws)
    AgentTypeCoder "aider-task" (Some dependsOn) (iw_done ws) (iw_paths ws)
    (aider_argv taskID (iw_description ws))
    (list_to_map
       [("objective_workstream", VStr (iw_name ws)); ("suspected_paths", VStrs (iw_paths ws));
        ("project_request",
           VMap (<["goal" := VStr (iw_description ws)]>
                 (<["expected_files" := VStrs (iw_paths ws)]> project_request)))]
     ∪ edit_metadata)) <| wi_approval := true |>.
(** [orchestratorgo/initiative/objectives.go:346-361] GenerateObjectiveExecutionContract: the
    validation, *)
Definition initial_validate (after : string) (paths : list string) : WorkItem :=
  checked_by (local_item "validate" WorkItemKindValidate "Run validation commands"
    "Execute the contract validation commands against the edited repository." AgentTypeReviewer
    "local_bridge" (Some [after]) "Validation command output and exit status are persisted." paths
    tests_request edit_metadata).
(** [orchestratorgo/initiative/objectives.go:362-378] GenerateObjectiveExecutionContract: the
    review. *)
Definition initial_review (paths : list string) : WorkItem :=
  checked_by (local_item "review" WorkItemKindReview "Review diff and validation evidence"
    "Review the git diff, changed files, and validation results against the execution contract."
    AgentTypeReviewer "local_bridge" (Some ["validate"])
    "Review decision is persisted as approved, changes_requested, or rejected." paths
    (list_to_map
       [("tool", VStr "review_workspace"); ("project_root", VStr cp_project_root);
        ("test_command", VStrs (cp_commands p));
        ("execution_contract",
           VMap (list_to_map
             [("title", VStr (cp_title p)); ("normalized_objective", VStr (cp_objective p));
              ("workspace_root", VStr (cp_root p))]))])
    edit_metadata).
(** [orchestratorgo/initiative/objectives.go:129-214] GenerateObjectiveExecutionContract: what
    precedes the first edit. *)
Definition initial_preparations : list WorkItem :=
  let baseline := detectInitialBaselineValidation (cp_objective p) (items (cp_precedents p))
                    (cp_bootstrap p) in
  let before :=
    match baseline with Some reason => [initial_baseline reason] | None => [] end
    ++ (if cp_bootstrap p then [initial_bootstrap] else []) in
  before
  ++ match detectInitialObjectiveAnalysis (cp_objective p) (items (cp_scope p).1)
             (items (cp_precedents p)) with
     | Some a => [initial_analyze a ("research" :: (wi_id <$> before))]
     | None => []
     end.
End Items.

Context `{Env}.
(** [orchestratorgo/initiative/objectives.go:232-344] GenerateObjectiveExecutionContract: a
    further edit, after the last one, with a fresh id for its run. *)
Definition add_workstream (p : ContractPlan) (editDependsOn : list string)
    (st : list WorkItem * string * list string) (ws : InitialWorkstream) :
    M Sys (list WorkItem * string * list string) :=
  let '(edits, finalEditID, paths) := st in
  taskID <- new_uuid ;;
  ret (edits ++ [initial_workstream p ws taskID (editDependsOn ++ [finalEditID])],
       iw_id ws, uniqueObjectivePaths (paths ++ iw_paths ws)).
(** [orchestratorgo/initiative/objectives.go:1229-1241] objectiveExecutionBackend,
    objectiveChangeStrategy. *)
Definition objectiveExecutionBackend (needsBootstrap : bool) : string :=
  if needsBootstrap then "local_bridge+aider-task" else "aider-task".
Definition objectiveChangeStrategy (needsBootstrap : bool) : string :=
  if needsBootstrap then
    "Research the empty workspace, scaffold a minimal runnable project in place, edit through aider-task, run validation commands, then review diff and evidence."
  else
    "Research the repository, edit through aider-task, run validation commands, then review diff and evidence.".
(** [orchestratorgo/initiative/objectives.go:27-401] GenerateObjectiveExecutionContract. *)
Definition GenerateObjectiveExecutionContract (input : ObjectiveInput) : M Sys ExecutionContract :=
  match contract_plan input with
  | None => errorf "title, objective and workspace_root are required"
  | Some p =>
      taskID <- new_uuid ;;
      let preparations := initial_preparations p in
      let editDependsOn := "research" :: (wi_id <$> preparations) in
      further <- for_each (initial_workstreams p) ([], "edit", cp_paths p)
                   (add_workstream p editDependsOn) ;;
      let '(edits, finalEditID, finalValidatePaths) := further in
      ret {|
        ec_title := cp_title p; ec_objective := cp_objective p; ec_workspace_root := cp_root p;
        ec_backend := objectiveExecutionBackend (cp_bootstrap p);
        ec_strategy := objectiveChangeStrategy (cp_bootstrap p);
        ec_commands := Some (cp_commands p);
        ec_criteria := Some ["Repository diff exists for the requested objective.";
                             "Validation commands complete successfully.";
                             "Review decision is approved."];
        ec_budget := oi_budget input; ec_risk := "medium"; ec_approval := true;
        ec_paths := Some (cp_paths p); ec_scope := (cp_scope p).1; ec_rejected := (cp_scope p).2;
        ec_repository := trim_space (repositoryURL (cp_profile p));
        ec_profile := firstNonEmptyString [projectFlow (cp_profile p); "existing_repo_generic"];
        ec_items := Some
          ([initial_research p] ++ preparations ++ [initial_edit p taskID editDependsOn]
           ++ edits ++ [initial_validate p finalEditID finalValidatePaths;
                        initial_review p finalValidatePaths]) |}
  end.
End Contract.

(** ** The work of a contract can be done, and ends in a review *)

(** An item waits for another, directly. *)
Definition waits_for (l : list WorkItem) : relation string :=
  λ id dep, ∃ w, w ∈ l ∧ wi_id w = id ∧ dep ∈ items (wi_depends_on w).

(** The further edits form a chain after the first. *)
Record chain (p : ContractPlan) (deps : list string) (l : list WorkItem) (last : string) : Prop := {
  chain_last : last ∈ "edit" :: (wi_id <$> l);
  chain_ordered : ordered ("edit" :: deps) l;
  chain_waits : ∀ id, id ∈ "edit" :: (wi_id <$> l) → rtc (waits_for l) last id;
  chain_edits : Forall (λ w, wi_kind w = WorkItemKindEdit ∧ wi_approval w = true ∧
    wi_target w = ExecutionTargetLocal ∧ wi_backend w = "aider-task" ∧
    deps ⊆ items (wi_depends_on w)) l;
}.
Lemma waits_for_mono l l' x y : l ⊆ l' → rtc (waits_for l) x y → rtc (waits_for l') x y.
Proof.
  intros Hl. apply rtc_subrel. intros a b (w & Hw & Ha & Hb). exists w. split_and!; auto.
Qed.
Lemma add_workstream_run `{Env} p deps l last paths ws n s r n' s' :
  chain p deps l last →
  add_workstream p deps (l, last, paths) ws n s = (r, (n', s')) →
  s' = s ∧ ∃ w last' paths',
    r = Ok (l ++ [w], last', paths') ∧ wi_id w = iw_id ws ∧ chain p deps (l ++ [w]) last'.
Proof.
  intros Hc Hrun. unfold add_workstream, bind, new_uuid, ret in Hrun. injection Hrun as <- <- <-.
  split; [done|]. eexists _, _, _. split_and!; [reflexivity|done|].
  set (w := initial_workstream _ _ _ _). destruct Hc as [Hlast Hord Hwaits Hedits].
  split.
  - rewrite fmap_app. cbn. set_solver.
  - apply ordered_app; [done|]. cbn. split; [|done]. cbn in Hlast. set_solver.
  - intros id Hid. change (iw_id ws) with (wi_id w).
    rewrite fmap_app, app_comm_cons, elem_of_app in Hid. cbn in Hid.
    destruct Hid as [Hid| ->%list_elem_of_singleton]; [|apply rtc_refl].
    eapply rtc_l; [|eapply waits_for_mono, Hwaits, Hid; set_solver].
    exists w. split_and!; [set_solver|done|]. cbn. set_solver.
  - apply Forall_app. split; [done|]. constructor; [|done]. split_and!; try done.
    cbn. set_solver.
Qed.
Lemma add_workstreams_run `{Env} p deps wss : ∀ l last paths n s r n' s',
  chain p deps l last →
  for_each wss (l, last, paths) (add_workstream p deps) n s = (r, (n', s')) →
  s' = s ∧ ∃ l' last' paths',
    r = Ok (l', last', paths') ∧ wi_id <$> l' = (wi_id <$> l) ++ (iw_id <$> wss) ∧
    chain p deps l' last'.
Proof.
  induction wss as [|ws wss IH]; intros l last paths n s r n' s' Hc Hrun; cbn [for_each] in Hrun.
  { unfold ret in Hrun. injection Hrun as <- <- <-. split; [done|].
    exists l, last, paths. by rewrite app_nil_r. }
  apply bind_inv in Hrun as [(e & Hws & ->)|([[l1 last1] paths1] & n1 & s1 & Hws & Hrun)].
  - apply (add_workstream_run p deps l last paths ws) in Hws as (_ & ? & ? & ? & ? & _); done.
  - apply (add_workstream_run p deps l last paths ws) in Hws
      as (-> & w & last2 & paths2 & Heq & Hid & Hc1); [|done].
    injection Heq as -> -> ->. apply IH in Hrun as (-> & l' & last' & paths' & -> & Hl' & Hc'); [|done].
    split; [done|]. exists l', last', paths'. split_and!; [done| |done].
    rewrite Hl', fmap_app, <- app_assoc. cbn. by rewrite Hid.
Qed.
Lemma chain_nil p deps : chain p deps [] "edit".
Proof.
  split; [left|done| |constructor]. intros id ->%list_elem_of_singleton. apply rtc_refl.
Qed.

(** What precedes the first edit: some of three items, each after the research. *)
Lemma preparations_spec `{Disk} p :
  ordered ["research"] (initial_preparations p) ∧
  wi_id <$> initial_preparations p `sublist_of` ["validate-baseline"; "bootstrap"; "analyze"] ∧
  Forall (λ w, wi_target w = ExecutionTargetLocal ∧ wi_approval w = false ∧
    wi_backend w = "local_bridge") (initial_preparations p).
Proof.
  unfold initial_preparations. cbn zeta.
  destruct (detectInitialBaselineValidation _ _ _), (cp_bootstrap p),
    (detectInitialObjectiveAnalysis _ _ _); cbn [app fmap list_fmap wi_id].
  all: split_and!; [cbn; set_solver|repeat first [apply sublist_nil_l | apply sublist_skip | apply sublist_cons]|by repeat constructor].
Qed.

Lemma workstream_ids_sublist `{Disk} p :
  iw_id <$> initial_workstreams p `sublist_of` ["edit-docs"; "edit-config"; "edit-deps"].
Proof.
  unfold initial_workstreams.
  destruct (detectObjectiveDocumentationWorkstream _ _ _ _), (detectObjectiveInfraWorkstream _ _ _ _),
    (detectObjectiveDependencyWorkstream _ _ _ _); cbn;
    repeat first [apply sublist_nil_l | apply sublist_skip | apply sublist_cons].
Qed.
Lemma expected_files_nonempty type : expectedInitiativeFiles type ≠ [].
Proof. unfold expectedInitiativeFiles. repeat case_match; discriminate. Qed.
Lemma contract_plan_spec `{Disk} input :
  if blank (oi_objective input) || blank (oi_workspace_root input) then contract_plan input = None
  else ∃ p, contract_plan input = Some p ∧ cp_objective p = trim_space (oi_objective input) ∧
    cp_root p = trim_space (oi_workspace_root input) ∧ cp_commands p ≠ [] ∧ cp_paths p ≠ [].
Proof.
  unfold contract_plan, blank. cbn zeta.
  destruct (String.eqb_spec (trim_space (oi_objective input)) "") as [_|Ho];
    [by rewrite !orb_true_r|].
  destruct (String.eqb_spec (trim_space (oi_workspace_root input)) "") as [_|Hr];
    [by rewrite !orb_true_r|].
  assert (Ht : firstNonEmptyString [trim_space (oi_title input); trim_space (oi_objective input)] ≠ "").
  { apply (first_trimmed_nonempty _ (trim_space (oi_objective input))); [by right; left| |done].
    apply trim_space_idemp. }
  rewrite (proj2 (String.eqb_neq _ _) Ht). cbn [orb].
  eexists. split; [reflexivity|]. cbn [cp_objective cp_root cp_commands cp_paths].
  split_and!; [done|done|by repeat case_match|]. case_bool_decide; [|done].
  destruct (detectObjectiveBootstrapProfile _ _ _) as [q|] eqn:E; [|apply detect_profile_ok].
  unfold detectObjectiveBootstrapProfile in E. destruct (negb _); [done|].
  destruct (inferObjectiveScaffoldType _) as [type runtime]. cbn zeta in E. injection E as <-.
  apply expected_files_nonempty.
Qed.

(** A research, its preparations, an edit after them, a chain of further edits, and a
    validation and a review after the last. *)
Section Assembled.
Context (research edit validate review : WorkItem) (preparations l : list WorkItem) (last : string).
Let deps := wi_id research :: (wi_id <$> preparations).
Let all := [research] ++ preparations ++ [edit] ++ l ++ [validate; review].
Hypothesis Hresearch : items (wi_depends_on research) = [].
Hypothesis Hpreparations : ordered [wi_id research] preparations.
Hypothesis Hedit : items (wi_depends_on edit) = deps.
Hypothesis Hvalidate : items (wi_depends_on validate) = [last].
Hypothesis Hreview : items (wi_depends_on review) = [wi_id validate].
Hypothesis Hlast : last ∈ wi_id edit :: (wi_id <$> l).
Hypothesis Hordered : ordered (wi_id edit :: deps) l.
Hypothesis Hwaits : ∀ id, id ∈ wi_id edit :: (wi_id <$> l) → rtc (waits_for l) last id.

Lemma assembled_ordered : ordered [] all.
Proof.
  subst all. apply ordered_app; [cbn; rewrite Hresearch; set_solver|].
  apply ordered_app; [done|].
  apply ordered_app; [cbn; rewrite Hedit; subst deps; set_solver|].
  apply ordered_app.
  - eapply ordered_weaken; [|exact Hordered]. subst deps. clear. cbn. set_solver.
  - cbn. rewrite Hvalidate, Hreview. clear -Hlast. set_solver.
Qed.
Lemma assembled_waits w : w ∈ all → rtc (waits_for all) (wi_id review) (wi_id w).
Proof.
  assert (Hrv : waits_for all (wi_id review) (wi_id validate)).
  { exists review. rewrite Hreview. clear. subst all. set_solver. }
  assert (Hvl : waits_for all (wi_id validate) last).
  { exists validate. rewrite Hvalidate. clear. subst all. set_solver. }
  assert (Hin : ∀ id, id ∈ wi_id edit :: (wi_id <$> l) → rtc (waits_for all) (wi_id review) id).
  { intros id Hid. eapply rtc_l; [exact Hrv|]. eapply rtc_l; [exact Hvl|].
    eapply waits_for_mono, Hwaits, Hid. subst all. set_solver. }
  assert (Hdeps : ∀ id, id ∈ deps → rtc (waits_for all) (wi_id review) id).
  { intros id Hid. eapply rtc_r; [apply (Hin (wi_id edit)); left|].
    exists edit. rewrite Hedit. split_and!; [|done|exact Hid]. subst all. set_solver. }
  unfold all. rewrite !elem_of_app, !elem_of_cons, !elem_of_nil.
  intros [[->|[]]|[Hw|[[->|[]]|[Hw|[->|[->|[]]]]]]].
  - apply Hdeps. left.
  - apply Hdeps. right. by apply list_elem_of_fmap_2.
  - apply Hin. left.
  - apply Hin. right. by apply list_elem_of_fmap_2.
  - by apply rtc_once.
  - apply rtc_refl.
Qed.
End Assembled.

(** The items of a contract, from its preparations and the chain of its further edits. *)
Definition contract_items `{Disk} (p : ContractPlan) (taskID : string) (l : list WorkItem)
    (last : string) (paths : list string) : list WorkItem :=
  let deps := "research" :: (wi_id <$> initial_preparations p) in
  [initial_research p] ++ initial_preparations p ++ [initial_edit p taskID deps]
  ++ l ++ [initial_validate p last paths; initial_review p paths].
Section ContractItems.
Context `{Disk} (p : ContractPlan) (taskID : string) (l : list WorkItem) (last : string)
  (paths : list string).
Let deps := "research" :: (wi_id <$> initial_preparations p).
Hypothesis Hchain : chain p deps l last.
Let all := contract_items p taskID l last paths.

Lemma contract_ids :
  wi_id <$> all = "research" :: (wi_id <$> initial_preparations p) ++ "edit" :: (wi_id <$> l)
                    ++ ["validate"; "review"].
Proof.
  unfold all, contract_items. cbn [app]. by rewrite fmap_cons, fmap_app, fmap_cons, fmap_app.
Qed.
Lemma contract_ordered : ordered [] all.
Proof.
  destruct Hchain. apply (assembled_ordered (initial_research p) (initial_edit p taskID deps)
    (initial_validate p last paths) (initial_review p paths) (initial_preparations p) l last);
    try done. apply preparations_spec.
Qed.
Lemma review_waits w : w ∈ all → rtc (waits_for all) "review" (wi_id w).
Proof.
  destruct Hchain. apply (assembled_waits (initial_research p) (initial_edit p taskID deps)
    (initial_validate p last paths) (initial_review p paths) (initial_preparations p) l last);
    try done. apply preparations_spec.
Qed.
Lemma items_local w : w ∈ all →
  wi_target w = ExecutionTargetLocal ∧
  (wi_backend w = "aider-task" →
     wi_kind w = WorkItemKindEdit ∧ wi_approval w = true ∧ deps ⊆ items (wi_depends_on w)).
Proof.
  destruct Hchain as [_ _ _ Hedits]. destruct (preparations_spec p) as (_ & _ & Hprep).
  rewrite Forall_forall in Hedits, Hprep.
  subst all. unfold contract_items. fold deps. rewrite !elem_of_app, !elem_of_cons, !elem_of_nil.
  intros [[->|[]]|[Hw|[[->|[]]|[Hw|[->|[->|[]]]]]]]; try done.
  - destruct (Hprep w Hw) as (? & _ & ->). done.
  - destruct (Hedits w Hw) as (? & ? & ? & ? & ?). done.
Qed.
End ContractItems.

Lemma preparation_names id :
  id ∈ ["research"; "validate-baseline"; "bootstrap"; "analyze"] →
  id ∉ ["edit"; "edit-docs"; "edit-config"; "edit-deps"; "validate"; "review"].
Proof.
  revert id. apply Forall_forall. apply (bool_decide_unpack _). by vm_compute.
Qed.

(** C13: a contract is written exactly when the objective, its workspace and so a title are
    given, and writing it changes nothing.  Its items can be done in their order: each
    waits for earlier ones only, the research comes first, then the preparations and the
    edits, the validation and the review last, which waits, directly or not, for every
    other item.  All run on the machine of the workspace; whatever aider edits needs an
    approval, and waits for the research and the preparations. *)
Theorem contract_spec `{Disk} `{Env} input n s :
  let '(r, (n', s')) := GenerateObjectiveExecutionContract input n s in
  s' = s ∧
  if blank (oi_objective input) || blank (oi_workspace_root input)
  then r = Err (ErrText "title, objective and workspace_root are required")
  else ∃ c edits,
    r = Ok c ∧ ec_budget c = oi_budget input ∧
    ec_objective c = trim_space (oi_objective input) ∧
    ec_workspace_root c = trim_space (oi_workspace_root input) ∧
    items (ec_commands c) ≠ [] ∧ items (ec_paths c) ≠ [] ∧
    ordered [] (items (ec_items c)) ∧
    wi_id <$> items (ec_items c)
      = ["research"] ++ (wi_id <$> edits) ++ ["validate"; "review"] ∧
    wi_id <$> edits `sublist_of`
      ["validate-baseline"; "bootstrap"; "analyze"; "edit"; "edit-docs"; "edit-config"; "edit-deps"] ∧
    "edit" ∈ wi_id <$> edits ∧
    (∀ w, w ∈ items (ec_items c) →
       rtc (waits_for (items (ec_items c))) "review" (wi_id w) ∧
       wi_target w = ExecutionTargetLocal ∧
       (wi_backend w = "aider-task" →
          wi_kind w = WorkItemKindEdit ∧ wi_approval w = true ∧
          ∀ id, id ∈ ["research"; "validate-baseline"; "bootstrap"; "analyze"] →
            id ∈ wi_id <$> items (ec_items c) → id ∈ items (wi_depends_on w))).
Proof.
  pose proof (contract_plan_spec input) as Hplan.
  unfold GenerateObjectiveExecutionContract.
  destruct (blank (oi_objective input) || _); [by rewrite Hplan|].
  destruct Hplan as (p & -> & Ho & Hr & Hcmd & Hpaths). set (run := bind _ _).
  destruct (run n s) as [r [n' s']] eqn:Hrun. unfold run in Hrun. clear run.
  unfold bind at 1, new_uuid at 1 in Hrun. cbn zeta in Hrun.
  set (deps := "research" :: (wi_id <$> initial_preparations p)) in *.
  apply bind_inv in Hrun as [(e & Hf & ->)|([[l last] paths] & n1 & s1 & Hf & Hrun)];
    apply (add_workstreams_run p deps) in Hf as (-> & l' & last' & paths' & Hl & Hids & Hchain);
    try apply chain_nil; [discriminate Hl|].
  injection Hl as <- <- <-. unfold ret in Hrun. injection Hrun as <- <- <-. split; [done|].
  eexists _, (initial_preparations p ++ [initial_edit p (uuid n) deps] ++ l).
  split; [reflexivity|].
  change (items (ec_items _)) with (contract_items p (uuid n) l last paths).
  cbn [ec_budget ec_objective ec_workspace_root ec_commands ec_paths].
  destruct (preparations_spec p) as (_ & Hprep & _).
  pose proof (workstream_ids_sublist p) as Hws. cbn [fmap list_fmap app] in Hids.
  rewrite <- Hids in Hws. split_and!; try done.
  - by apply contract_ordered.
  - rewrite contract_ids, !fmap_app, <- !app_assoc. done.
  - rewrite !fmap_app. apply (sublist_app _ ["validate-baseline"; "bootstrap"; "analyze"]); [done|].
    by apply (sublist_app _ ["edit"]).
  - rewrite !fmap_app, !elem_of_app. right. left. left.
  - intros w Hw. split; [by apply (review_waits p _ _ _ _ Hchain)|].
    destruct (items_local p _ _ _ _ Hchain w Hw) as [Ht Haider]. split; [done|].
    intros (Hk & Ha & Hd)%Haider. split_and!; [done..|]. intros id Hid Hin. apply Hd.
    rewrite contract_ids, elem_of_cons, elem_of_app, elem_of_cons, elem_of_app in Hin.
    apply preparation_names in Hid.
    destruct Hin as [->|[Hin|[->|[Hin|Hin]]]]; [left|by right|..]; destruct Hid.
    + left.
    + apply (elem_of_sublist _ _ _ Hin) in Hws. rewrite !elem_of_cons in Hws. rewrite !elem_of_cons. tauto.
    + rewrite !elem_of_cons in Hin. rewrite !elem_of_cons. tauto.
Qed.
