(* ===== verification/ObjectiveRun.v ===== *)
(** * Objectives: running them ([httpapi/objectives.go])

    Turning the work items of a contract into tasks, queueing those whose
    dependencies are complete, stopping at the time budget, and starting a repair
    cycle, which cancels what depended on the work it replaces. *)
From S2P Require Import Workspace Profile Planning Contract.
From S2P Require Import Prelude GoVal Rfc3339 JsonText Effects Domain Schema TaskStore Artifacts Queue InitiativeStore Http TaskApi InitiativeApi Objective Evidence.

(** [orchestratorgo/httpapi/handlers.go:2434-2440] stringPtr: nil for a blank text. *)
Definition stringPtr (value : string) : option string :=
  if blank value then None else Some value.

Definition objectives_actor : string := "objectives:auto".
Definition budget_exhausted : string := "time_budget_exhausted".

Section Run.
Context `{Env} `{JsonCodec}.

(** [orchestratorgo/httpapi/objectives.go:290-307] persistObjectiveContractArtifact. *)
Definition persistObjectiveContractArtifact (initiativeID : string) (contract : ExecutionContract) :
    M Sys string :=
  CreateArtifact (plain_artifact "objective_execution_contract"
    (Some "Objective execution contract") None (Some "application/json")
    (stringPtr (contract_text contract))
    (list_to_map
       [("initiative_id", VStr initiativeID); ("entrypoint", VStr "objectives");
        ("workspace_root", VStr (ec_workspace_root contract));
        ("repo_profile", VStr (ec_profile contract))])).

(** ** From work items to tasks *)

(** [orchestratorgo/httpapi/objectives.go:309-396] materializeObjectiveWorkItems: what
    the code sets before and after the item's own metadata. *)
Definition contract_metadata (contract : ExecutionContract) (workItem : WorkItem) : gmap_any :=
  list_to_map
    [("workspace_root", VStr (ec_workspace_root contract));
     ("initiative_goal", VStr (ec_objective contract));
     ("objective_title", VStr (ec_title contract));
     ("execution_backend", VStr (ec_backend contract));
     ("execution_contract", VMap (contract_value contract));
     ("work_item_id", VStr (wi_id workItem)); ("work_item_kind", VStr (wi_kind workItem));
     ("depends_on", strs_value (wi_depends_on workItem));
     ("definition_of_done", VStr (wi_done workItem));
     ("validation_commands", strs_value (wi_commands workItem));
     ("suspected_paths", strs_value (wi_paths workItem));
     ("requires_approval", VBool (wi_approval workItem));
     ("objective_entrypoint", VBool true)].
Definition budget_metadata (contract : ExecutionContract) (startedAt : Z) : gmap_any :=
  let base : gmap_any := list_to_map
    [("objective_time_budget_seconds", VInt (ec_budget contract));
     ("objective_started_at", VStr (format_nano startedAt 0))] in
  if 0 <? ec_budget contract then
    <["objective_deadline_at" :=
        VStr (format_nano (startedAt + wrap64 (ec_budget contract * second)) 0)]> base
  else base.
Definition work_item_metadata (contract : ExecutionContract) (startedAt : Z)
    (workItem : WorkItem) : gmap_any :=
  let metadata := contract_metadata contract workItem ∪ budget_metadata contract startedAt in
  let metadata := wi_metadata workItem ∪ metadata in
  let metadata := contract_metadata contract workItem ∪ metadata in
  match wi_tool_request workItem with
  | Some tool => <["tool_request" := VMap tool]> metadata
  | None => metadata
  end.
Definition work_item_params (item : InitiativeResponse) (contract : ExecutionContract)
    (startedAt : Z) (workItem : WorkItem) : CreateTaskParams :=
  {| ctp_description := wi_description workItem;
     ctp_metadata := work_item_metadata contract startedAt workItem;
     ctp_allowed_capabilities := [];
     ctp_priority := priorityForWorkItem workItem;
     ctp_assigned_agent := wi_agent workItem;
     ctp_planned_agent := Some (wi_agent workItem);
     ctp_execution_target := wi_target workItem;
     ctp_idempotency_key := None;
     ctp_entrypoint := "objectives";
     ctp_workspace_path := None;
     ctp_parent := None;
     ctp_root := None;
     ctp_initiative := Some (ini_id item);
     ctp_kind := TaskKindPlanStep;
     ctp_queue_on_create := false |}.
Definition work_item_link (item : InitiativeResponse) (workItem : WorkItem) (order : Z)
    (taskID : string) : LinkInitiativeTaskParams :=
  MkLinkParams (ini_id item) taskID "objective" (cleanStringPtr (wi_kind workItem))
    (cleanStringPtr (wi_kind workItem)) (wi_mode workItem) order.
Definition materialize_item (item : InitiativeResponse) (contract : ExecutionContract)
    (startedAt order : Z) (workItem : WorkItem) : M Sys TaskResponse :=
  created <- create_linked (work_item_params item contract startedAt workItem)
               (work_item_link item workItem order) ;;
  ret created.1.
Definition materializeObjectiveWorkItems (item : InitiativeResponse)
    (contract : ExecutionContract) : M Sys (list TaskResponse) :=
  now <- time_now ;;
  let objectiveStartedAt :=
    if time_is_zero (ini_created_at item) then now else ini_created_at item in
  for_each (imap pair (items (ec_items contract))) [] (λ tasks it,
    task <- materialize_item item contract objectiveStartedAt (10 * (Z.of_nat it.1 + 1)) it.2 ;;
    ret (tasks ++ [task])).

(** ** Stopping at the budget *)

(** [orchestratorgo/httpapi/objectives.go:775-805] persistObjectiveStopSnapshot. *)
Definition persistObjectiveStopSnapshot (task : TaskResponse) (stopReason blockerReason : string)
    (deadline budgetSeconds : Z) : M Sys unit :=
  match task_initiative task with
  | None => ret tt
  | Some initiative =>
      let snapshot := stop_snapshot task initiative stopReason blockerReason deadline
                        budgetSeconds in
      CreateArtifact (plain_artifact "objective_status_snapshot"
        (stringPtr ("Objective status snapshot " +:+ pretty (sn_iteration snapshot) +:+ " "
                    +:+ sn_kind snapshot))
        None (Some "application/json") (stringPtr (fields_text (snapshot_fields snapshot)))
        (list_to_map
           [("initiative_id", VStr (sn_initiative snapshot));
            ("objective_title", VStr (sn_title snapshot));
            ("normalized_objective", VStr (sn_objective snapshot));
            ("iteration", VInt (sn_iteration snapshot));
            ("max_iterations", VInt (sn_max_iterations snapshot));
            ("work_item_kind", VStr (sn_kind snapshot));
            ("result_status", VStr (sn_result_status snapshot));
            ("next_expected_action", VStr (sn_next_action snapshot));
            ("remaining_retries", VInt (sn_remaining_retries snapshot));
            ("blocker_reason", VStr (sn_blocker_reason snapshot));
            ("stop_reason", VStr (sn_stop_reason snapshot));
            ("time_budget_seconds", VInt (sn_budget snapshot));
            ("remaining_budget_seconds", VInt (sn_remaining_budget snapshot));
            ("deadline_at", VStr (sn_deadline snapshot));
            ("memory_kind", VStr "objective_status_snapshot")])) ;;;
      ret tt
  end.

(** [orchestratorgo/httpapi/objectives.go:714-749] failObjectiveTaskDueToTimeBudget. *)
Definition failObjectiveTaskDueToTimeBudget (task : TaskResponse) : M Sys unit :=
  match task_initiative task with
  | None => ret tt
  | Some initiative =>
      let '(budgetSeconds, deadline, ok) := objectiveTimeBudgetDetails (task_metadata task) in
      if negb ok then ret tt
      else
        let reason := objectiveTimeBudgetExceededReason budgetSeconds deadline in
        now <- time_now ;;
        PatchTaskMetadata (task_id task)
          (list_to_map
             [("objective_stop_reason", VStr budget_exhausted);
              ("objective_time_budget_exhausted", VBool true);
              ("objective_time_budget_exhausted_at", VStr (format_nano now 0))]) ;;;
        FailTask (task_id task) objectives_actor reason reason
          (VMap (list_to_map
             [("status", VStr "error"); ("stop_reason", VStr budget_exhausted);
              ("summary", VStr reason); ("error", VStr reason)])) ;;;
        persistObjectiveStopSnapshot task budget_exhausted reason deadline budgetSeconds ;;;
        ReconcileInitiativeExecution initiative ;;;
        ret tt
  end.

(** ** Queueing what is ready *)

(** [orchestratorgo/httpapi/objectives.go:398-446] queueReadyObjectiveTasks: the last
    link of a work item counts. *)
Definition work_item_id (metadata : gmap_any) : string := text_at metadata "work_item_id".
Definition add_work_item (byID : gmap string InitiativeTaskLink) (item : InitiativeTaskLink) :
    gmap string InitiativeTaskLink :=
  let workItemID := work_item_id (task_metadata (link_task item)) in
  if workItemID =?s "" then byID else <[workItemID := item]> byID.
Definition by_work_item (l : list InitiativeTaskLink) : gmap string InitiativeTaskLink :=
  foldl add_work_item ∅ l.
Definition patch_ready (byWorkItemID : gmap string InitiativeTaskLink) (task : TaskResponse)
    (taskID : string) : M Sys unit :=
  let patch := objectiveQueueMetadataPatch task byWorkItemID in
  if decide (patch = ∅) then ret tt
  else
    PatchTaskMetadata taskID patch ;;;
    GetTask taskID ;;;
    ret tt.
Definition queue_item (byWorkItemID : gmap string InitiativeTaskLink) (item : InitiativeTaskLink) :
    M Sys unit :=
  if negb (bool_decide (task_state (link_task item) = TaskStateCreated)) then ret tt
  else if negb (objectiveDependenciesSatisfied (task_metadata (link_task item)) byWorkItemID)
  then ret tt
  else
    task <- GetTask (link_task_id item) ;;
    task <- deref task ;;
    now <- time_now ;;
    if objectiveTimeBudgetExceeded (task_metadata task) now then
      failObjectiveTaskDueToTimeBudget task
    else
      patch_ready byWorkItemID task (link_task_id item) ;;;
      queuedTask <- QueueTaskForLaunch (link_task_id item) objectives_actor
        "Queued objective work item after dependency resolution" ;;
      queuedTask <- deref queuedTask ;;
      match task_assigned_agent queuedTask with
      | Some agent =>
          if task_execution_target queuedTask =?s ExecutionTargetLocal then ret tt
          else EnqueueTask (task_id queuedTask) agent (task_priority queuedTask)
      | None => ret tt
      end.
Definition queueReadyObjectiveTasks (initiativeID : string) : M Sys unit :=
  l <- ListInitiativeTasks initiativeID ;;
  for_each l tt (λ _ item, queue_item (by_work_item l) item).

(** ** Repair cycles *)

(** [orchestratorgo/httpapi/objectives.go:920-982] cancelSupersededObjectiveDependents:
    one item of a pass, *)
Definition cancellable_dependent (s : TaskState) : bool :=
  bool_decide (s ∈ [TaskStateCreated; TaskStateQueued; TaskStateAssigned;
                    TaskStateWaitingApproval]).
Definition depends_on_any (superseded : gset string) (metadata : gmap_any) : bool :=
  existsb (λ dep, bool_decide (dep ∈ superseded)) (dependencies metadata).
Definition newly_superseded (task : TaskResponse) (superseded : gset string)
    (item : InitiativeTaskLink) : bool :=
  let metadata := task_metadata (link_task item) in
  let workItemID := work_item_id metadata in
  negb (task_id (link_task item) =?s task_id task)
  && (objectiveIteration metadata =? objectiveIteration (task_metadata task))
  && negb (workItemID =?s "") && negb (bool_decide (workItemID ∈ superseded))
  && depends_on_any superseded metadata.
Definition supersede_item (task : TaskResponse) (st : gset string * bool)
    (item : InitiativeTaskLink) : M Sys (gset string * bool) :=
  let '(superseded, changed) := st in
  if negb (newly_superseded task superseded item) then ret st
  else
    let next := objectiveIteration (task_metadata task) + 1 in
    (if cancellable_dependent (task_state (link_task item)) then
       PatchTaskMetadata (task_id (link_task item))
         (list_to_map [("superseded_by_repair_cycle", VBool true);
                       ("superseded_iteration", VInt next)]) ;;;
       CancelTask (task_id (link_task item)) objectives_actor
         ("Superseded by objective repair iteration " +:+ pretty next)
     else ret tt) ;;;
    ret ({[work_item_id (task_metadata (link_task item))]} ∪ superseded, true).
(** and passes while something changes, [None] when the fuel ends first. *)
Fixpoint supersede_passes (fuel : nat) (task : TaskResponse) (l : list InitiativeTaskLink)
    (superseded : gset string) : M Sys (option (gset string)) :=
  match fuel with
  | O => ret None
  | S fuel =>
      st <- for_each l (superseded, false) (supersede_item task) ;;
      if (st.2 : bool) then supersede_passes fuel task l st.1 else ret (Some st.1)
  end.
Definition cancelSupersededObjectiveDependents (initiativeID : string) (task : TaskResponse) :
    M Sys (option (gset string)) :=
  let currentWorkItemID := work_item_id (task_metadata task) in
  if currentWorkItemID =?s "" then ret (Some ∅)
  else
    l <- ListInitiativeTasks initiativeID ;;
    supersede_passes (S (length l)) task l {[currentWorkItemID]}.

(** [orchestratorgo/httpapi/objectives.go:882-918] startObjectiveRepairCycle. *)
Definition startObjectiveRepairCycle (task : TaskResponse) (result : LocalBridgeResult) :
    M Sys unit :=
  now <- time_now ;;
  if negb (shouldStartObjectiveRepairCycle task result now) then ret tt
  else if objectiveMaxIterations (task_metadata task) <=? objectiveIteration (task_metadata task)
  then ret tt
  else
    match task_initiative task with
    | None => ret tt
    | Some initiativeID =>
        initiative <- GetInitiative initiativeID ;;
        match initiative with
        | None => errorf ("initiative " +:+ initiativeID +:+ " not found")
        | Some initiative =>
            match decodeObjectiveExecutionContract
                    (mget (task_metadata task) "execution_contract") with
            | (_, false) => errorf "json: cannot unmarshal into ExecutionContract"
            | (contract, true) =>
                workItems <- of_res (buildObjectiveRepairCycle contract task result) ;;
                cancelSupersededObjectiveDependents initiativeID task ;;;
                materializeObjectiveWorkItems initiative
                  (contract <| ec_items := Some workItems |>) ;;;
                queueReadyObjectiveTasks (ini_id initiative)
            end
        end
    end.

(** ** Creating an objective *)

(** [orchestratorgo/domain/objectives.go:14-21] ObjectiveRequest. *)
Record ObjectiveRequest := MkObjectiveRequest {
  or_title : string;
  or_objective : string;
  or_workspace_root : string;
  or_created_by : string;
  or_budget : Z;
  or_mode : string;
}.
(** [orchestratorgo/domain/objectives.go:89-94] ObjectiveResponse. *)
Record ObjectiveResponse := MkObjectiveResponse {
  os_initiative : option InitiativeResponse;
  os_contract : ExecutionContract;
  os_tasks : list TaskResponse;
  os_total : Z;
}.
(** [orchestratorgo/httpapi/objectives.go:21-110] createObjective. *)
Definition trim_request (body : ObjectiveRequest) : ObjectiveRequest :=
  let objective := trim_space (or_objective body) in
  let title := trim_space (or_title body) in
  {| or_title := if title =?s "" then truncateTitle objective 80 else title;
     or_objective := objective;
     or_workspace_root := trim_space (or_workspace_root body);
     or_created_by := trim_space (or_created_by body);
     or_budget := or_budget body;
     or_mode := if or_mode body =?s "" then InitiativeExecutionModeSelective
                else or_mode body |}.
(** what is made of the contract, *)
Definition run_contract (initiativeRecord : InitiativeResponse) (contract : ExecutionContract) :
    Handler ObjectiveResponse :=
  _ <~ persistObjectiveContractArtifact (ini_id initiativeRecord) contract ;;
  tasks <~ materializeObjectiveWorkItems initiativeRecord contract ;;
  _ <~ queueReadyObjectiveTasks (ini_id initiativeRecord) ;;
  updated <~ ReconcileInitiativeExecution (ini_id initiativeRecord) ;;
  json 201 (MkObjectiveResponse updated contract tasks (Z.of_nat (length tasks))).
(** and the whole handler; [service]: the initiative service is configured. *)
Definition createObjective `{Disk} (service : bool) (body : option ObjectiveRequest) :
    Handler ObjectiveResponse :=
  if negb service then detail 503 "objective service is not configured" else
  match body with
  | None => detail 400 "invalid JSON body"
  | Some body =>
      let body := trim_request body in
      if (or_title body =?s "") || (or_objective body =?s "") || (or_workspace_root body =?s "")
      then detail 400 "title, objective and workspace_root are required"
      else if or_budget body <? 0 then
        detail 400 "time_budget_seconds must be greater than or equal to zero"
      else
        initiativeRecord <~ CreateInitiative
          (MkCreateInitiative (or_title body) (or_workspace_root body) (or_objective body)
             (firstNonEmptyString [or_created_by body; "objective"]) (or_mode body)) ;;
        initiativeRecord <- deref initiativeRecord ;;
        planningContext <~ buildObjectivePlanningContext initiativeRecord (or_title body)
          (or_objective body) (or_workspace_root body) ;;
        planningRetrievalArtifactID <~
          match planningContext with
          | Some context =>
              persistInitiativeRetrievalPacketArtifact initiativeRecord AgentTypePlanner context
          | None => ret ""
          end ;;
        contract <- attempt (GenerateObjectiveExecutionContract
          (MkInput (or_title body) (or_objective body) (or_workspace_root body)
             (or_created_by body) (or_budget body) planningContext planningRetrievalArtifactID)) ;;
        match contract with
        | Err e => detail 502 (error_text e)
        | Ok contract => run_contract initiativeRecord contract
        end
  end.
End Run.

(** ** Tasks only move along the lifecycle *)
Section RunEvolution.
Context `{Env} `{JsonCodec}.

Lemma persistContract_evolves id c : respects evolves (persistObjectiveContractArtifact id c).
Proof. apply CreateArtifact_evolves. Qed.
Lemma materializeItems_evolves item c : respects evolves (materializeObjectiveWorkItems item c).
Proof.
  unfold materializeObjectiveWorkItems, materialize_item. solve_handler.
  apply create_linked_evolves.
Qed.
Lemma persistSnapshot_evolves task r b d z :
  respects evolves (persistObjectiveStopSnapshot task r b d z).
Proof. unfold persistObjectiveStopSnapshot. cbn zeta. solve_handler. Qed.
Hint Resolve persistContract_evolves materializeItems_evolves persistSnapshot_evolves : respects.
Lemma failBudget_evolves task : respects evolves (failObjectiveTaskDueToTimeBudget task).
Proof. unfold failObjectiveTaskDueToTimeBudget. cbn zeta. solve_handler. Qed.
Hint Resolve failBudget_evolves : respects.
Lemma queue_item_evolves by_id item : respects evolves (queue_item by_id item).
Proof. unfold queue_item, patch_ready, GetTask. cbn zeta. solve_handler. Qed.
Hint Resolve queue_item_evolves : respects.
Lemma queueReady_evolves id : respects evolves (queueReadyObjectiveTasks id).
Proof. unfold queueReadyObjectiveTasks, ListInitiativeTasks. solve_handler. Qed.
Hint Resolve queueReady_evolves : respects.
Lemma supersede_item_evolves task st item : respects evolves (supersede_item task st item).
Proof. unfold supersede_item. cbn zeta. solve_handler. Qed.
Hint Resolve supersede_item_evolves : respects.
Lemma supersede_passes_evolves fuel task l : ∀ sup,
  respects evolves (supersede_passes fuel task l sup).
Proof. induction fuel as [|fuel IH]; intros sup; cbn; solve_handler. Qed.
Hint Resolve supersede_passes_evolves : respects.
Lemma cancelSuperseded_evolves id task :
  respects evolves (cancelSupersededObjectiveDependents id task).
Proof. unfold cancelSupersededObjectiveDependents, ListInitiativeTasks. cbn zeta. solve_handler. Qed.
Hint Resolve cancelSuperseded_evolves : respects.
Lemma startRepair_evolves task result : respects evolves (startObjectiveRepairCycle task result).
Proof. unfold startObjectiveRepairCycle, GetInitiative. solve_handler. Qed.
Lemma run_contract_evolves initiative contract :
  respects evolves (run_contract initiative contract).
Proof. unfold run_contract. solve_handler. Qed.
Hint Resolve run_contract_evolves : respects.
Lemma createObjective_evolves `{Disk} service body :
  respects evolves (createObjective service body).
Proof.
  unfold createObjective, buildObjectivePlanningContext, persistInitiativeRetrievalPacketArtifact,
    GenerateObjectiveExecutionContract, add_workstream. cbn zeta. solve_handler.
Qed.
End RunEvolution.
#[export] Hint Resolve persistContract_evolves materializeItems_evolves persistSnapshot_evolves
  failBudget_evolves queueReady_evolves cancelSuperseded_evolves startRepair_evolves
  createObjective_evolves : respects.

(** ** What is queued *)

(** The links of an initiative show its tasks, each once. *)
Lemma initiative_links_task i s item :
  item ∈ initiative_links i s →
  link_initiative item = i ∧
  ∃ row, get_row s (link_task_id item) = Some row ∧ link_task item = scanTask row.
Proof.
  unfold initiative_links. rewrite elem_of_select. intros [Hin Hi%String.eqb_eq].
  split; [done|]. apply list_elem_of_omap in Hin as ([[k1 k2] l] & _ & Hj).
  unfold join_link in Hj. destruct (get_row s _) as [row|] eqn:Hrow; simplify_eq/=. eauto.
Qed.

Section Queueing.
Context `{Env} `{JsonCodec}.

(** Only the row of one task changes. *)
Definition only_row (id : string) : relation Sys := λ s s',
  ∀ k, k ≠ id → get_row s' k = get_row s k.
#[export] Instance only_row_preorder id : PreOrder (only_row id).
Proof. split; unfold only_row; [done|]. intros s1 s2 s3 H1 H2 k Hk. rewrite H2; auto. Qed.
Lemma update_task_only id f s : only_row id s (update_task id f s).
Proof. intros k Hk. apply get_row_update_ne. congruence. Qed.
Lemma transition_effect_only id to now t s : only_row id s (transition_effect id to now t s).
Proof.
  intros k Hk. unfold transition_effect. rewrite get_row_insert_transition.
  apply get_row_update_ne. congruence.
Qed.
Lemma same_tables_only (f : DB → DB) id s : tasks (f (pg s)) = tasks (pg s) → only_row id s (on_pg f s).
Proof. intros Hf k _. unfold get_row. cbn. by rewrite Hf. Qed.
Lemma Patch_only id patch : respects (only_row id) (PatchTaskMetadata id patch).
Proof.
  unfold PatchTaskMetadata. case_decide; [auto with respects|].
  apply respects_exec_now; [apply _|]. intros. apply update_task_only.
Qed.
Lemma finalize_only id to actor reason results msg :
  respects (only_row id) (finalizeTask id to actor reason results msg).
Proof.
  intros n s r n' s' [[-> _]|(row & now & tid & _ & _ & ->)]%finalizeTask_run; [done|].
  etrans; [apply update_task_only|apply transition_effect_only].
Qed.
Lemma Queue_only id actor reason : respects (only_row id) (QueueTaskForLaunch id actor reason).
Proof.
  intros n s r n' s' [[-> _]|(row & now & tid & _ & _ & ->)]%QueueTaskForLaunch_run; [done|].
  apply transition_effect_only.
Qed.
Lemma Enqueue_only id t a p : respects (only_row id) (EnqueueTask t a p).
Proof. unfold EnqueueTask. solve_respects. by apply respects_exec; [apply _|]. Qed.
Lemma artifacts_only_row id s s' : only_artifacts s s' → only_row id s s'.
Proof. intros (Ht & _) k _. unfold get_row. by rewrite Ht. Qed.
Lemma Reconcile_only id i : respects (only_row id) (ReconcileInitiativeExecution i).
Proof.
  unfold ReconcileInitiativeExecution, UpdateInitiative, GetInitiative, ListInitiativeTasks.
  solve_respects. apply respects_exec_now; [apply _|]. intros t s0. done.
Qed.
Lemma snapshot_only id task r b d z :
  respects (only_row id) (persistObjectiveStopSnapshot task r b d z).
Proof.
  unfold persistObjectiveStopSnapshot. cbn zeta. solve_respects.
  eapply respects_weaken; [apply artifacts_only_row|apply CreateArtifact_only].
Qed.
Hint Resolve Patch_only finalize_only Queue_only Enqueue_only Reconcile_only snapshot_only
  : respects.
Lemma failBudget_only task :
  respects (only_row (task_id task)) (failObjectiveTaskDueToTimeBudget task).
Proof.
  unfold failObjectiveTaskDueToTimeBudget, FailTask. cbn zeta. solve_respects.
Qed.
Hint Resolve failBudget_only : respects.

(** The state of a task that is patched, and of one that is not. *)
Lemma Patch_row id patch n s r n' s' row :
  PatchTaskMetadata id patch n s = (r, (n', s')) → get_row s id = Some row →
  ∃ row', get_row s' id = Some row' ∧ row_state row' = row_state row ∧ identity row' = identity row
    ∧ row_execution_target row' = row_execution_target row.
Proof.
  unfold PatchTaskMetadata. intros Hrun Hrow. case_decide; [unfold ret in Hrun; simplify_eq; eauto|].
  unfold exec_now, exec in Hrun.
  apply stmt_inv in Hrun as [_ [(? & _ & _ & ->)|[_ [= _ <-]]]]; [eauto|].
  rewrite get_row_update_eq, Hrow. eauto.
Qed.

(** Failing a task that has not started is refused: it stays created, and the whole call
    fails. *)
Lemma failBudget_created task n s r n' s' row :
  failObjectiveTaskDueToTimeBudget task n s = (r, (n', s')) →
  get_row s (task_id task) = Some row → row_state row = TaskStateCreated →
  (∃ row', get_row s' (task_id task) = Some row' ∧ row_state row' = TaskStateCreated) ∧
  (r = Ok tt → task_initiative task = None ∨
               (objectiveTimeBudgetDetails (task_metadata task)).2 = false).
Proof.
  unfold failObjectiveTaskDueToTimeBudget. intros Hrun Hrow Hst.
  destruct (task_initiative task) as [i|]; [|unfold ret in Hrun; simplify_eq; eauto].
  destruct (objectiveTimeBudgetDetails _) as [[budget deadline] ok].
  destruct ok; cbn [negb] in Hrun; [|unfold ret in Hrun; simplify_eq; eauto].
  apply bind_inv in Hrun as [(e & Hnow & ->)|(now & n1 & s1 & Hnow & Hrun)];
    [discriminate Hnow|]. injection Hnow as <- <- <-.
  apply bind_inv in Hrun as [(e & Hp & ->)|(u & n2 & s2 & Hp & Hrun)];
    (eapply Patch_row in Hp as (row' & Hrow' & Hst' & _); [|exact Hrow]); rewrite Hst in Hst';
    [split; [by eauto|discriminate]|].
  apply bind_inv in Hrun as [(e & Hf & ->)|(o & n3 & s3 & Hf & _)];
    apply finalizeTask_run in Hf as [[-> He]|(row2 & now2 & tid & Hrow2 & Hv & _)].
  - split; [by eauto|discriminate].
  - rewrite Hrow' in Hrow2. injection Hrow2 as <-. by rewrite Hst' in Hv.
  - by destruct He.
  - rewrite Hrow' in Hrow2. injection Hrow2 as <-. by rewrite Hst' in Hv.
Qed.

Lemma Queue_answer id actor reason n s o n' s' :
  QueueTaskForLaunch id actor reason n s = (Ok o, (n', s')) → o = scanTask <$> get_row s' id.
Proof.
  unfold QueueTaskForLaunch. intros [(? & _ & ?)|(u & n1 & s1 & _ & Hget)]%bind_inv; [done|].
  by apply query_ok in Hget as (-> & -> & _).
Qed.

(** A listed task whose dependencies are complete. *)
Definition ready (by_id : gmap string InitiativeTaskLink) (item : InitiativeTaskLink) : Prop :=
  task_state (link_task item) = TaskStateCreated ∧
  objectiveDependenciesSatisfied (task_metadata (link_task item)) by_id = true.
(** A task is queued for whoever is to run it. *)
Definition queued_for (s : Sys) (row : TaskRow) : Prop :=
  row_execution_target row ≠ ExecutionTargetLocal → ∀ agent,
  nonempty (row_assigned_agent row) = Some agent → is_Some (agent_queue s agent !! row_id row).
Definition has_state (s : Sys) (id : string) (st : TaskState) : Prop :=
  ∃ row, get_row s id = Some row ∧ row_state row = st.

Lemma release_run id n s r n' s' row :
  get_row s id = Some row →
  (queuedTask <- QueueTaskForLaunch id objectives_actor
     "Queued objective work item after dependency resolution" ;;
   queuedTask <- deref queuedTask ;;
   match task_assigned_agent queuedTask with
   | Some agent =>
       if task_execution_target queuedTask =?s ExecutionTargetLocal then ret tt
       else EnqueueTask (task_id queuedTask) agent (task_priority queuedTask)
   | None => ret tt
   end) n s = (r, (n', s')) →
  (has_state s' id (row_state row) ∧ ∃ e, r = Err e) ∨
  has_state s' id TaskStateQueued ∧ (r = Ok tt → queued_for s' row).
Proof.
  intros Hrow Hrun.
  apply bind_inv in Hrun as [(e & Hq & ->)|(o & n1 & s1 & Hq & Hrun)];
    pose proof (QueueTaskForLaunch_run _ _ _ _ _ _ _ _ Hq)
      as [[-> He]|(row1 & now & tid & Hrow1 & _ & Hs1)].
  - left. split; [by exists row|eauto].
  - right. split; [|done]. subst s'. exists (apply_transition TaskStateQueued now row1).
    unfold transition_effect. rewrite get_row_insert_transition, get_row_update_eq, Hrow1. done.
  - by destruct He.
  - right. rewrite Hrow in Hrow1. injection Hrow1 as <-.
    assert (Hst : get_row s1 id = Some (apply_transition TaskStateQueued now row)).
    { subst s1. unfold transition_effect.
      by rewrite get_row_insert_transition, get_row_update_eq, Hrow. }
    apply Queue_answer in Hq as ->. rewrite Hst in Hrun. cbn in Hrun. unfold queued_for.
    destruct (nonempty (row_assigned_agent row)) as [agent|] eqn:Ha;
      [|injection Hrun as <- <- <-; split; [by eexists|done]].
    destruct (String.eqb_spec (row_execution_target row) ExecutionTargetLocal) as [Hl|Hl];
      [injection Hrun as <- <- <-; split; [by eexists|done]|].
    unfold EnqueueTask in Hrun.
    apply bind_inv in Hrun as [(e & Hd & ->)|(t & n2 & s2 & Hd & Hrun)]; [discriminate Hd|].
    injection Hd as <- <- <-.
    apply stmt_inv in Hrun as [_ [(? & _ & -> & ->)|[_ Hrun]]];
      [split; [by eexists|done]|].
    injection Hrun as <- <-. split; [by eexists|]. intros _ _ agent' [= <-]. unfold agent_queue at 1.
    cbn [redis]. rewrite lookup_insert_eq. cbn. rewrite lookup_insert_eq. by eexists.
Qed.

Lemma patch_ready_row by_id task id n s r n' s' row :
  patch_ready by_id task id n s = (r, (n', s')) → get_row s id = Some row →
  ∃ row', get_row s' id = Some row' ∧ row_state row' = row_state row ∧
    identity row' = identity row ∧ row_execution_target row' = row_execution_target row.
Proof.
  unfold patch_ready. intros Hrun Hrow. case_decide; [injection Hrun as <- <- <-; eauto|].
  apply bind_inv in Hrun as [(e & Hp & ->)|(u & n1 & s1 & Hp & Hrun)];
    [by eapply Patch_row in Hp|].
  eapply Patch_row in Hp; [|exact Hrow].
  apply bind_inv in Hrun as [(e & Hg & ->)|(o & n2 & s2 & Hg & Hret)];
    apply query_state in Hg as ->; [done|]. by injection Hret as <- <- <-.
Qed.

Lemma queue_item_run by_id item n s r n' s' row :
  keyed s → get_row s (link_task_id item) = Some row → link_task item = scanTask row →
  queue_item by_id item n s = (r, (n', s')) →
  (has_state s' (link_task_id item) (row_state row) ∧
   (r = Ok tt → ready by_id item →
      row_initiative row = None ∧
      ∃ k, objectiveTimeBudgetExceeded (row_metadata row) (clock k) = true)) ∨
  ready by_id item ∧ has_state s' (link_task_id item) TaskStateQueued ∧
  (∃ k, objectiveTimeBudgetExceeded (row_metadata row) (clock k) = false) ∧
  (r = Ok tt → queued_for s' row).
Proof.
  intros Hk Hrow Hlink Hrun. unfold queue_item in Hrun. rewrite Hlink in Hrun.
  unfold ready. rewrite Hlink. cbn [scanTask task_state task_metadata] in *.
  case_bool_decide as Hst; cbn [negb] in Hrun;
    [|injection Hrun as <- <- <-; left; split; [by eexists|by intros _ [? _]]].
  destruct (objectiveDependenciesSatisfied _ _) eqn:Hdeps; cbn [negb] in Hrun;
    [|injection Hrun as <- <- <-; left; split; [by eexists|by intros _ [_ ?]]].
  apply bind_inv in Hrun as [(e & Hg & ->)|(o & n1 & s1 & Hg & Hrun)];
    [apply query_state in Hg as ->; left; split; [by eexists|done]|].
  apply query_ok in Hg as (-> & -> & _). rewrite Hrow in Hrun. cbn [fmap option_fmap option_map] in Hrun.
  apply bind_inv in Hrun as [(e & Hd & ->)|(t & n2 & s2 & Hd & Hrun)]; [discriminate Hd|].
  injection Hd as <- <- <-.
  apply bind_inv in Hrun as [(e & Hd & ->)|(now & n2 & s2 & Hd & Hrun)]; [discriminate Hd|].
  injection Hd as <- <- <-. cbn [scanTask task_metadata] in Hrun.
  pose proof (Hk _ _ Hrow) as Hid.
  destruct (objectiveTimeBudgetExceeded _ _) eqn:Hexc.
  { left. rewrite <- Hid in Hrow |- *.
    pose proof (failBudget_created (scanTask row) _ _ _ _ _ _ Hrun Hrow Hst) as [Hcr Hok].
    rewrite Hst. split; [exact Hcr|].
    intros Hr _. split; [|by eexists]. destruct (Hok Hr) as [Hi|Hno]; [done|].
    unfold objectiveTimeBudgetExceeded in Hexc. cbn in Hno.
    destruct (objectiveTimeBudgetDetails _) as [[? ?] ?]. cbn in Hno. by subst. }
  apply bind_inv in Hrun as [(e & Hp & ->)|(u & n2 & s2 & Hp & Hrun)].
  - left. split; [|done]. by eapply patch_ready_row in Hp as (row' & Hrow' & <- & _);
      [exists row'|].
  - eapply patch_ready_row in Hp as (row' & Hrow' & Hsame & Hid' & Htarget); [|exact Hrow].
    eapply release_run in Hrun as [[Hs [e ->]]|[Hs Hok]]; [..|exact Hrow'].
    + left. rewrite <- Hsame. by split.
    + right. split_and!; [done..|by eexists|]. intros Hr Hl agent Ha.
      unfold identity in Hid'. injection Hid' as E1 _ _ E2 _ _ _ _ _ _ _ _.
      rewrite <- E1. apply (Hok Hr); congruence.
Qed.

(** Nothing leaves the queues. *)
Lemma Patch_grows id patch : respects queues_grow (PatchTaskMetadata id patch).
Proof.
  unfold PatchTaskMetadata. case_decide; [auto with respects|].
  apply respects_exec_now; [apply _|]. intros. by apply queues_grow_same.
Qed.
Lemma finalize_grows id to actor reason results msg :
  respects queues_grow (finalizeTask id to actor reason results msg).
Proof. apply respects_queues_same, finalizeTask_same_redis. Qed.
Lemma Reconcile_grows id : respects queues_grow (ReconcileInitiativeExecution id).
Proof. apply respects_queues_same, reconcile_initiative_same_redis. Qed.
Lemma snapshot_grows task r b d z :
  respects queues_grow (persistObjectiveStopSnapshot task r b d z).
Proof.
  unfold persistObjectiveStopSnapshot. cbn zeta. solve_respects.
  eapply respects_weaken; [|apply CreateArtifact_only].
  intros t t' (_ & _ & _ & _ & _ & _ & _ & Hr). by apply queues_grow_same.
Qed.
Hint Resolve Patch_grows finalize_grows Reconcile_grows snapshot_grows EnqueueTask_queues : respects.
Lemma queue_item_grows by_id item : respects queues_grow (queue_item by_id item).
Proof.
  unfold queue_item, patch_ready, failObjectiveTaskDueToTimeBudget, FailTask, GetTask.
  cbn zeta. solve_respects.
Qed.
Lemma queued_for_grows s s' row : queued_for s row → queues_grow s s' → queued_for s' row.
Proof. intros Hq Hg Hl agent Ha. by apply Hg, Hq. Qed.

(** What queueing did to one listed task: it stayed as it was, or was released. *)
Inductive turn (by_id : gmap string InitiativeTaskLink) (item : InitiativeTaskLink)
    (row : TaskRow) (r : res unit) (s' : Sys) : Prop :=
  | turn_stays :
      has_state s' (link_task_id item) (row_state row) →
      (r = Ok tt → ready by_id item →
         row_initiative row = None ∧
         ∃ k, objectiveTimeBudgetExceeded (row_metadata row) (clock k) = true) →
      turn by_id item row r s'
  | turn_released :
      ready by_id item → has_state s' (link_task_id item) TaskStateQueued →
      (∃ k, objectiveTimeBudgetExceeded (row_metadata row) (clock k) = false) →
      (r = Ok tt → queued_for s' row) →
      turn by_id item row r s'.

Lemma queue_item_only by_id item n s r n' s' :
  keyed s → queue_item by_id item n s = (r, (n', s')) → only_row (link_task_id item) s s'.
Proof.
  intros Hk Hrun. unfold queue_item in Hrun.
  destruct (negb _); [injection Hrun as <- <- <-; done|].
  destruct (negb _); [injection Hrun as <- <- <-; done|].
  apply bind_inv in Hrun as [(e & Hg & ->)|(o & n1 & s1 & Hg & Hrun)];
    [by apply query_state in Hg as ->|].
  apply query_ok in Hg as (-> & -> & _).
  destruct (get_row s (link_task_id item)) as [row|] eqn:Hrow;
    [|injection Hrun as <- <- <-; done]. pose proof (Hk _ _ Hrow) as Hid.
  cbn [fmap option_fmap option_map] in Hrun.
  apply bind_inv in Hrun as [(e & Hd & ->)|(t & n2 & s2 & Hd & Hrun)]; [discriminate Hd|].
  injection Hd as <- <- <-. revert Hrun. apply (respects_run (R := only_row _)).
  pose proof (failBudget_only (scanTask row)) as Hf. cbn in Hf. rewrite Hid in Hf.
  unfold patch_ready, GetTask. solve_respects.
Qed.

Lemma turn_of_run by_id item n s r n' s' row :
  keyed s → get_row s (link_task_id item) = Some row → link_task item = scanTask row →
  queue_item by_id item n s = (r, (n', s')) → turn by_id item row r s'.
Proof.
  intros Hk Hrow Hl Hrun.
  edestruct queue_item_run as [[? ?]|(? & ? & ? & ?)]; [exact Hk|exact Hrow|exact Hl|exact Hrun|..].
  - by apply turn_stays.
  - by apply turn_released.
Qed.
Lemma turn_mono by_id item row r s s' :
  get_row s' (link_task_id item) = get_row s (link_task_id item) → queues_grow s s' →
  turn by_id item row (Ok tt) s → turn by_id item row r s'.
Proof.
  intros Hsame Hg [(row' & Hrow & Hst) Ho|Hr (row' & Hrow & Hst) Hb Ho].
  - apply turn_stays; [exists row'; by rewrite Hsame|by intros _; apply Ho].
  - apply turn_released; [done|exists row'; by rewrite Hsame|done|].
    intros _. eapply queued_for_grows; [by apply Ho|done].
Qed.
Lemma loop_grows by_id l :
  respects queues_grow (for_each l tt (λ _ item, queue_item by_id item)).
Proof. apply respects_for_each; [apply _|]. intros. apply queue_item_grows. Qed.
Lemma elem_neq {A} (key : A → string) x y (l : list A) :
  key x ∉ key <$> l → y ∈ l → key y ≠ key x.
Proof. intros Hx Hy Heq. apply Hx. rewrite <- Heq. by apply list_elem_of_fmap_2. Qed.

Lemma queue_loop by_id l : ∀ n s r n' s',
  keyed s → NoDup (link_task_id <$> l) →
  for_each l tt (λ _ item, queue_item by_id item) n s = (r, (n', s')) →
  (∀ k, k ∉ link_task_id <$> l → get_row s' k = get_row s k) ∧
  ∀ item row, item ∈ l → get_row s (link_task_id item) = Some row →
    link_task item = scanTask row → turn by_id item row r s'.
Proof.
  induction l as [|x l IH]; intros n s r n' s' Hk Hnd Hrun; cbn in Hrun.
  { injection Hrun as <- <- <-. split; [done|]. by intros ? ? ?%not_elem_of_nil. }
  rewrite fmap_cons in *. apply NoDup_cons in Hnd as [Hx Hnd].
  apply bind_inv in Hrun as [(e & Hq & ->)|([] & n1 & s1 & Hq & Hrun)];
    pose proof (queue_item_only _ _ _ _ _ _ _ Hk Hq) as Honly.
  - split; [intros k [? _]%not_elem_of_cons; by apply Honly|].
    intros item row [->|Hin]%elem_of_cons Hrow Hlink.
    + by eapply turn_of_run.
    + apply turn_stays; [|done]. exists row. split; [|done]. rewrite Honly; [done|].
      by apply (elem_neq link_task_id x item l).
  - pose proof (respects_run (queue_item_evolves _ _) Hq) as Hev.
    pose proof (respects_run (loop_grows _ _) Hrun) as Hg.
    apply IH in Hrun as [Hother Hall]; [|by eapply evolves_keyed|done].
    split; [intros k [? ?]%not_elem_of_cons; rewrite Hother by done; by apply Honly|].
    intros item row [->|Hin]%elem_of_cons Hrow Hlink.
    + apply (turn_mono _ _ _ _ s1); [by apply Hother|done|by eapply turn_of_run].
    + apply Hall; [done| |done]. rewrite Honly; [done|]. by apply (elem_neq link_task_id x item l).
Qed.

(** Queueing the ready tasks of an initiative: every listed task has its turn, and no
    other task changes. *)
Lemma queueReady_run id n s r n' s' :
  keyed s → queueReadyObjectiveTasks id n s = (r, (n', s')) →
  let links := initiative_links id s in
  (∀ k, k ∉ link_task_id <$> links → get_row s' k = get_row s k) ∧
  ∀ item row, item ∈ links → get_row s (link_task_id item) = Some row →
    turn (by_work_item links) item row r s'.
Proof.
  intros Hk Hrun links. unfold queueReadyObjectiveTasks in Hrun.
  apply bind_inv in Hrun as [(e & Hq & ->)|(l & n1 & s1 & Hq & Hrun)].
  - apply query_state in Hq as ->. split; [done|]. intros item row Hin Hrow.
    apply turn_stays; [by eexists|done].
  - apply query_ok in Hq as (-> & -> & _). fold links in Hrun.
    pose proof (queue_loop _ _ _ _ _ _ _ Hk (initiative_links_nodup id s) Hrun)
      as [Hother Hall]. split; [done|]. intros item row Hin Hrow. apply Hall; [done..|].
    apply initiative_links_task in Hin as (_ & row' & Hrow' & Hl). congruence.
Qed.

Lemma by_work_item_lookup l dep link :
  by_work_item l !! dep = Some link →
  link ∈ l ∧ work_item_id (task_metadata (link_task link)) = dep.
Proof.
  unfold by_work_item.
  enough (Hgo : ∀ m, foldl add_work_item m l !! dep = Some link →
    m !! dep = Some link ∨
    link ∈ l ∧ work_item_id (task_metadata (link_task link)) = dep).
  { intros [Hm|?]%Hgo; [|done]. by rewrite lookup_empty in Hm. }
  induction l as [|x l IH]; intros m Hl; [by left|]. cbn in Hl.
  apply IH in Hl as [Hl|[Hin ?]]; [|right; split; [by right|done]].
  unfold add_work_item in Hl. destruct (_ =?s ""); [by left|].
  destruct (decide (work_item_id (task_metadata (link_task x)) = dep)) as [Heq|Hne].
  - rewrite Heq, lookup_insert_eq in Hl. injection Hl as <-. right. split; [by left|done].
  - rewrite lookup_insert_ne in Hl by done. by left.
Qed.

(** Every dependency is a work item of the initiative whose task is completed. *)
Definition dependencies_done (id : string) (s : Sys) (metadata : gmap_any) : Prop :=
  ∀ dep, dep ∈ dependencies metadata → ∃ link, link ∈ initiative_links id s ∧
    work_item_id (task_metadata (link_task link)) = dep ∧
    has_state s (link_task_id link) TaskStateCompleted.
Lemma satisfied_done id s metadata :
  objectiveDependenciesSatisfied metadata (by_work_item (initiative_links id s)) = true →
  dependencies_done id s metadata.
Proof.
  unfold objectiveDependenciesSatisfied. rewrite forallb_forall. intros Hall dep Hin.
  apply list_elem_of_In, Hall in Hin. unfold completed_item in Hin.
  destruct (by_work_item _ !! dep) as [link|] eqn:Hl; [|done].
  apply bool_decide_eq_true in Hin. apply by_work_item_lookup in Hl as [Hlink Hid].
  exists link. split_and!; [done..|].
  apply initiative_links_task in Hlink as (_ & row & Hrow & Ht). exists row.
  split; [done|]. by rewrite Ht in Hin.
Qed.

(** C5: queueing the work items of an objective, whichever statements fail and however
    far it gets: a task whose state changes was created and is now queued, it is
    linked to the initiative, every work item it depends on was completed, and at
    some time of the call its time budget was not used up. When the call succeeds,
    each such task of the initiative has been released (and a remote one pushed to
    the queue of its agent), unless its budget was used up. *)
Theorem queueReady_spec id n s :
  keyed s →
  let '(r, (_, s')) := queueReadyObjectiveTasks id n s in
  (∀ task row st, get_row s task = Some row → has_state s' task st → st ≠ row_state row →
     row_state row = TaskStateCreated ∧ st = TaskStateQueued ∧
     (∃ item, item ∈ initiative_links id s ∧ link_task_id item = task) ∧
     dependencies_done id s (row_metadata row) ∧
     ∃ k, objectiveTimeBudgetExceeded (row_metadata row) (clock k) = false) ∧
  (r = Ok tt → ∀ item row, item ∈ initiative_links id s →
     get_row s (link_task_id item) = Some row → row_state row = TaskStateCreated →
     objectiveDependenciesSatisfied (row_metadata row)
       (by_work_item (initiative_links id s)) = true →
     (has_state s' (link_task_id item) TaskStateQueued ∧ queued_for s' row) ∨
     ∃ k, objectiveTimeBudgetExceeded (row_metadata row) (clock k) = true).
Proof.
  intros Hk. destruct (queueReadyObjectiveTasks id n s) as [r [n' s']] eqn:Hrun.
  apply queueReady_run in Hrun as [Hother Hall]; [|done]. split.
  - intros task row st Hrow (row' & Hrow' & Hst) Hne.
    destruct (decide (task ∈ link_task_id <$> initiative_links id s)) as [Hin|Hnin];
      [|rewrite Hother, Hrow in Hrow' by done; congruence].
    apply list_elem_of_fmap in Hin as (item & -> & Hin).
    destruct (Hall _ _ Hin Hrow) as [(row2 & Hrow2 & Hst2) _|[Hcr Hdeps] (row2 & Hrow2 & Hst2) Hb _];
      [congruence|].
    pose proof (initiative_links_task _ _ _ Hin) as (_ & row3 & Hrow3 & Ht).
    assert (row3 = row) as -> by congruence. rewrite Ht in Hcr, Hdeps.
    split_and!; [done|congruence|by exists item|by apply satisfied_done|done].
  - intros Hr item row Hin Hrow Hcr Hdeps.
    pose proof (initiative_links_task _ _ _ Hin) as (_ & row3 & Hrow3 & Ht).
    assert (row3 = row) as -> by congruence.
    destruct (Hall _ _ Hin Hrow) as [_ Ho|_ Hst _ Ho].
    + right. apply Ho; [done|]. split; by rewrite Ht.
    + left. split; [done|by apply Ho].
Qed.

(** A work item that is ready but past its deadline stops its objective for good:
    the code wants to fail the task, but created tasks cannot fail, so the call
    ends with an error whatever else happens, and the task stays created. *)
Theorem expired_item_blocks id n s item row :
  keyed s → item ∈ initiative_links id s → get_row s (link_task_id item) = Some row →
  row_state row = TaskStateCreated → is_Some (row_initiative row) →
  objectiveDependenciesSatisfied (row_metadata row) (by_work_item (initiative_links id s)) = true →
  (∀ k, objectiveTimeBudgetExceeded (row_metadata row) (clock k) = true) →
  let '(r, (_, s')) := queueReadyObjectiveTasks id n s in
  (∃ e, r = Err e) ∧ has_state s' (link_task_id item) TaskStateCreated.
Proof.
  intros Hk Hin Hrow Hcr [i Hi] Hdeps Hexp.
  destruct (queueReadyObjectiveTasks id n s) as [r [n' s']] eqn:Hrun.
  apply queueReady_run in Hrun as [_ Hall]; [|done].
  pose proof (initiative_links_task _ _ _ Hin) as (_ & row3 & Hrow3 & Ht).
  assert (row3 = row) as -> by congruence.
  destruct (Hall _ _ Hin Hrow) as [Hst Ho|_ _ [k Hb] _].
  - rewrite Hcr in Hst. split; [|done]. destruct r as [[]|e]; [|by eexists].
    destruct Ho as [Hno _]; [done|split; by rewrite Ht|congruence].
  - by rewrite Hexp in Hb.
Qed.
End Queueing.

(** *** An objective of two items, the first of which is done *)
Definition demo_item (id kind : string) (dependsOn : slice string) : WorkItem :=
  no_work_item <| wi_id := id |> <| wi_kind := kind |> <| wi_agent := AgentTypeCoder |>
    <| wi_target := ExecutionTargetLocal |> <| wi_depends_on := dependsOn |>.
Definition demo_contract : ExecutionContract :=
  no_contract <| ec_workspace_root := "/w" |> <| ec_budget := 60 |>
    <| ec_items := Some [demo_item "edit" WorkItemKindEdit None;
                         demo_item "validate" WorkItemKindValidate (Some ["edit"])] |>.
Definition task_of (item : string) (s : Sys) : string :=
  default "" (link_task_id <$> head (filter
    (λ l, work_item_id (task_metadata (link_task l)) = item) (initiative_links "id-0" s))).
Definition edit_task : string := "id-6".
Definition validate_task : string := "id-16".
Definition run_setup `{Env} : M Sys unit :=
  let _ := demo_codec in
  initiative <- (CreateInitiative (MkCreateInitiative "Login" "/w" "add login" "objective" "")) ;;
  match initiative with Some i => run_contract i demo_contract ;;; ret tt | None => ret tt end ;;;
  UpdateTaskState edit_task TaskStateAssigned "bridge:b" "claimed" ;;;
  UpdateTaskState edit_task TaskStateInProgress "bridge:b" "started" ;;;
  CompleteTask edit_task "bridge:b" "done" VNil ;;;
  ret tt.
Definition run_t0 : Z := unix_epoch + 1700000000 * second.
Definition edit_done : Sys := Eval vm_compute in
  (@run_setup (quiet_env run_t0) 0%N empty_sys).2.2.
Definition demo_states (s : Sys) : list (string * string * TaskState) :=
  (λ l, (link_task_id l, work_item_id (task_metadata (link_task l)), task_state (link_task l)))
  <$> initiative_links "id-0" s.
(** A clock that shows [k] seconds after the start at the thousandth effect. *)
Definition later (k : Z) : Env := quiet_env (run_t0 + (k - 1000) * second).
Lemma edit_done_keyed : keyed edit_done.
Proof.
  unfold keyed, get_row. apply map_Forall_lookup. apply (bool_decide_unpack _). by vm_compute.
Qed.

Definition queue_demo (e : Env) : res unit * (N * Sys) :=
  @queueReadyObjectiveTasks e demo_codec "id-0" 1000%N edit_done.
Lemma in_state (s : Sys) id st : (row_state <$> get_row s id) = Some st → has_state s id st.
Proof. intros (row & Hrow & ->)%fmap_Some. by exists row. Qed.

Definition validate_row : TaskRow := Eval vm_compute in
  default (new_task_row (work_item_params (MkInitiative "" "" "" "" InitiativeStatusBlocked
    InitiativePhasePlan None None None "" "" None 0 0) no_contract 0 no_work_item) "" "" 0)
    (get_row edit_done validate_task).
(** With the edit done in time, the validation is released. *)
Lemma queueReady_spec_witness :
  has_state (queue_demo (later 20)).2.2 validate_task TaskStateQueued ∧
  dependencies_done "id-0" edit_done (row_metadata validate_row).
Proof.
  assert (Hst : has_state (queue_demo (later 20)).2.2 validate_task TaskStateQueued)
    by (apply in_state; vm_compute; reflexivity).
  split; [exact Hst|].
  pose proof (@queueReady_spec (later 20) demo_codec "id-0" 1000%N edit_done edit_done_keyed)
    as Hspec. fold (queue_demo (later 20)) in Hspec.
  destruct (queue_demo (later 20)) as [r [n' s']].
  apply (proj1 Hspec validate_task validate_row TaskStateQueued); [|exact Hst|discriminate].
  vm_compute. reflexivity.
Defined.

(** Past the deadline, it blocks the objective. *)
Lemma expired_at_all_times k :
  objectiveTimeBudgetExceeded (row_metadata validate_row) (@clock (later 2000) k) = true.
Proof.
  assert (Hd : ∃ d, objectiveTimeBudgetDetails (row_metadata validate_row) = (60, d, true) ∧
    time_is_zero d = false ∧ d <= @clock (later 2000) 0).
  { eexists. split; [vm_compute; reflexivity|]. split; [vm_compute; reflexivity|].
    apply Z.leb_le. vm_compute. reflexivity. }
  destruct Hd as (d & Hd & Hz & Hle). unfold objectiveTimeBudgetExceeded. rewrite Hd, Hz.
  apply negb_true_iff, Z.ltb_ge. etrans; [exact Hle|]. cbn. lia.
Qed.
Lemma expired_item_blocks_witness :
  ∃ item, link_task_id item = validate_task ∧
    let '(r, (_, s')) := queue_demo (later 2000) in
    (∃ e, r = Err e) ∧ has_state s' (link_task_id item) TaskStateCreated.
Proof.
  assert (Hin : ∃ item, item ∈ initiative_links "id-0" edit_done ∧
    link_task_id item = validate_task).
  { assert (Hl : validate_task ∈ link_task_id <$> initiative_links "id-0" edit_done)
      by (apply (bool_decide_unpack _); vm_compute; reflexivity).
    apply list_elem_of_fmap in Hl as (item & Hid & Hin). by exists item. }
  destruct Hin as (item & Hin & Hid). exists item. split; [exact Hid|].
  apply (@expired_item_blocks (later 2000) demo_codec "id-0" 1000%N edit_done item validate_row).
  - exact edit_done_keyed.
  - exact Hin.
  - rewrite Hid. vm_compute. reflexivity.
  - vm_compute. reflexivity.
  - eexists. vm_compute. reflexivity.
  - vm_compute. reflexivity.
  - exact expired_at_all_times.
Defined.

(** ** What a repair cycle cancels *)
Section Superseding.
Context `{Env} `{JsonCodec} (task : TaskResponse).

Definition item_id (item : InitiativeTaskLink) : string :=
  work_item_id (task_metadata (link_task item)).
(** Another task of the same iteration, for a work item. *)
Definition peer (item : InitiativeTaskLink) : Prop :=
  task_id (link_task item) ≠ task_id task ∧
  objectiveIteration (task_metadata (link_task item)) = objectiveIteration (task_metadata task) ∧
  item_id item ≠ "".
(** The work items that depend on that of [task], directly or not. *)
Inductive superseded (l : list InitiativeTaskLink) : string → Prop :=
  | superseded_self : superseded l (work_item_id (task_metadata task))
  | superseded_dependent item dep :
      item ∈ l → peer item → dep ∈ dependencies (task_metadata (link_task item)) →
      superseded l dep → superseded l (item_id item).

Lemma newly_superseded_spec sup item :
  newly_superseded task sup item = true ↔
  (peer item ∧ (item_id item ∉ sup) ∧
   ∃ dep, dep ∈ dependencies (task_metadata (link_task item)) ∧ dep ∈ sup).
Proof.
  unfold newly_superseded, peer, depends_on_any. fold (item_id item).
  rewrite !andb_true_iff, !negb_true_iff, !String.eqb_neq, Z.eqb_eq, bool_decide_eq_false,
    existsb_exists.
  setoid_rewrite bool_decide_eq_true. setoid_rewrite <- list_elem_of_In. naive_solver.
Qed.

(** The sets the passes compute, without their effects. *)
Definition pure_step (st : gset string * bool) (item : InitiativeTaskLink) : gset string * bool :=
  if newly_superseded task st.1 item then ({[item_id item]} ∪ st.1, true) else st.
Definition pending (l : list InitiativeTaskLink) (sup : gset string) : nat :=
  length (filter (λ item, item_id item ∉ sup) l).

Lemma pure_step_grows st item : st.1 ⊆ (pure_step st item).1.
Proof. unfold pure_step. destruct (newly_superseded _ _ _); cbn; set_solver. Qed.
Lemma pure_pass_grows l : ∀ st, st.1 ⊆ (foldl pure_step st l).1.
Proof.
  induction l as [|x l IH]; intros st; cbn; [done|]. etrans; [apply pure_step_grows|apply IH].
Qed.
Lemma pending_mono l sup sup' : sup ⊆ sup' → (pending l sup' <= pending l sup)%nat.
Proof.
  intros Hsub. unfold pending. induction l as [|x l IH]; [done|]. rewrite !filter_cons.
  repeat case_decide; cbn; [lia|set_solver|lia|lia].
Qed.
Lemma pending_lt l sup sup' item :
  sup ⊆ sup' → item ∈ l → item_id item ∉ sup → item_id item ∈ sup' →
  (pending l sup' < pending l sup)%nat.
Proof.
  intros Hsub Hin Hno Hyes. induction Hin as [x l|x y l Hin IH]; unfold pending in *;
    rewrite !filter_cons; repeat case_decide; cbn; try set_solver; try (specialize (IH Hno Hyes)); try lia.
  pose proof (pending_mono l sup sup' Hsub). unfold pending in *. lia.
Qed.

(** A pass that changes nothing has found every dependent; one that does leaves
    fewer. *)
Lemma pure_pass_stays l : ∀ sup sup',
  foldl pure_step (sup, false) l = (sup', false) →
  sup' = sup ∧ ∀ item, item ∈ l → newly_superseded task sup item = false.
Proof.
  assert (Htrue : ∀ l sup, (foldl pure_step (sup, true) l).2 = true).
  { clear l. intros l. induction l as [|x l IH]; intros sup; cbn; [done|].
    unfold pure_step at 2. cbn. destruct (newly_superseded _ _ _); apply IH. }
  induction l as [|x l IH]; intros sup sup' Hrun; cbn in Hrun.
  { injection Hrun as <-. split; [done|]. by intros ? ?%not_elem_of_nil. }
  unfold pure_step at 2 in Hrun. cbn in Hrun.
  destruct (newly_superseded task sup x) eqn:Hx.
  { pose proof (Htrue l ({[item_id x]} ∪ sup)) as Ht. rewrite Hrun in Ht. discriminate. }
  apply IH in Hrun as [-> Hall]. split; [done|]. intros item [->|Hin]%elem_of_cons; auto.
Qed.
Lemma pure_pass_decreases l k : ∀ sup sup',
  foldl pure_step (sup, false) k = (sup', true) → k ⊆ l →
  (pending l sup' < pending l sup)%nat.
Proof.
  induction k as [|x k IH]; intros sup sup' Hrun Hsub; cbn in Hrun; [discriminate|].
  unfold pure_step at 2 in Hrun. cbn in Hrun.
  destruct (newly_superseded task sup x) eqn:Hx; [|apply IH; [done|set_solver]].
  apply newly_superseded_spec in Hx as (_ & Hno & _).
  pose proof (pure_pass_grows k ({[item_id x]} ∪ sup, true)) as Hg. rewrite Hrun in Hg. cbn in Hg.
  apply (pending_lt l sup sup' x); set_solver.
Qed.
Lemma pure_pass_sound l k : ∀ st,
  k ⊆ l → (∀ w, w ∈ st.1 → superseded l w) →
  ∀ w, w ∈ (foldl pure_step st k).1 → superseded l w.
Proof.
  induction k as [|x k IH]; intros st Hsub Hst; cbn; [done|].
  apply IH; [set_solver|]. intros w. unfold pure_step.
  destruct (newly_superseded _ _ _) eqn:Hx; cbn; [|apply Hst].
  apply newly_superseded_spec in Hx as (Hp & _ & dep & Hd & Hin).
  intros [->%elem_of_singleton|Hw]%elem_of_union; [|by apply Hst].
  eapply superseded_dependent; [set_solver|done|done|by apply Hst].
Qed.
Lemma closed_complete l sup w :
  work_item_id (task_metadata task) ∈ sup →
  (∀ item, item ∈ l → newly_superseded task sup item = false) →
  superseded l w → w ∈ sup.
Proof.
  intros Hself Hclosed Hw. induction Hw as [|item dep Hin Hp Hd _ IH]; [done|].
  destruct (decide (item_id item ∈ sup)) as [|Hno]; [done|].
  assert (newly_superseded task sup item = true) as Hy.
  { apply newly_superseded_spec. eauto. }
  by rewrite Hclosed in Hy.
Qed.

(** Their effects: with the list of the initiative's tasks as it was. *)
Variables (l : list InitiativeTaskLink) (s0 : Sys).
Hypothesis (Hlisted : ∀ item, item ∈ l → ∃ row,
  get_row s0 (link_task_id item) = Some row ∧ row_id row = link_task_id item ∧
  link_task item = scanTask row).
Hypothesis (Hnodup : NoDup (link_task_id <$> l)).

(** A task is as it was, or was cancelled for its dependence. *)
Definition only_cancels (sup : gset string) (s : Sys) : Prop :=
  ∀ t row, get_row s0 t = Some row →
    has_state s t (row_state row) ∨
    (has_state s t TaskStateCancelled ∧ cancellable_dependent (row_state row) = true ∧
     ∃ item, item ∈ l ∧ link_task_id item = t ∧ peer item ∧ item_id item ∈ sup).
(** The only task of its work item. *)
Definition sole (item : InitiativeTaskLink) : Prop :=
  item_id item ≠ work_item_id (task_metadata task) ∧
  ∀ other, other ∈ l → peer other → item_id other = item_id item → other = item.
Definition cancels_all (sup : gset string) (s : Sys) : Prop :=
  ∀ item, item ∈ l → peer item → sole item → item_id item ∈ sup →
    cancellable_dependent (task_state (link_task item)) = true →
    has_state s (link_task_id item) TaskStateCancelled.

Lemma same_task x y : x ∈ l → y ∈ l → link_task_id x = link_task_id y → x = y.
Proof.
  intros Hx Hy Heq. apply list_elem_of_lookup in Hx as [i Hi], Hy as [j Hj].
  assert (i = j) as ->; [|congruence].
  apply (NoDup_lookup _ i j (link_task_id x) Hnodup);
    rewrite list_lookup_fmap; [by rewrite Hi|]. rewrite Hj. cbn. congruence.
Qed.
Lemma listed_id item : item ∈ l → task_id (link_task item) = link_task_id item.
Proof. intros (row & _ & Hid & ->)%Hlisted. done. Qed.

(** Cancelling one listed task that still is as it was. *)
Lemma cancel_one item sup s n r n' s' patch reason :
  item ∈ l → only_cancels sup s → item_id item ∉ sup → 
  (PatchTaskMetadata (link_task_id item) patch ;;;
   CancelTask (link_task_id item) objectives_actor reason) n s = (r, (n', s')) →
  only_row (link_task_id item) s s' ∧
  match r with
  | Ok _ => has_state s' (link_task_id item) TaskStateCancelled
  | Err _ => has_state s' (link_task_id item) (task_state (link_task item))
  end.
Proof.
  intros Hin Hsup Hno Hrun.
  destruct (Hlisted _ Hin) as (row0 & Hrow0 & _ & Hlink).
  assert (Hst : has_state s (link_task_id item) (row_state row0)).
  { destruct (Hsup _ _ Hrow0) as [?|(_ & _ & y & Hy & Heq & _ & Hys)]; [done|].
    apply (same_task y item Hy Hin) in Heq as ->. done. }
  rewrite Hlink. cbn [task_state scanTask]. destruct Hst as (row & Hrow & Hst).
  apply bind_inv in Hrun as [(e & Hp & ->)|(u & n1 & s1 & Hp & Hc)];
    pose proof (respects_run (Patch_only _ _) Hp) as Ho1;
    (eapply Patch_row in Hp as (row1 & Hrow1 & Hst1 & _); [|exact Hrow]).
  { split; [done|]. exists row1. split; [done|congruence]. }
  unfold CancelTask in Hc. destruct r as [u'|e].
  - apply UpdateTaskState_ok in Hc as (row2 & now & tid & Hrow2 & _ & ->).
    split; [etrans; [exact Ho1|apply transition_effect_only]|].
    exists (apply_transition TaskStateCancelled now row2). unfold transition_effect.
    by rewrite get_row_insert_transition, get_row_update_eq, Hrow2.
  - apply in_tx_err in Hc as ->. split; [done|]. exists row1. split; [done|congruence].
Qed.

Lemma only_cancels_step item sup s s' :
  item ∈ l → only_row (link_task_id item) s s' → only_cancels sup s →
  (∀ row, get_row s0 (link_task_id item) = Some row →
     has_state s' (link_task_id item) (row_state row) ∨
     (has_state s' (link_task_id item) TaskStateCancelled ∧
      cancellable_dependent (row_state row) = true ∧ peer item)) →
  only_cancels ({[item_id item]} ∪ sup) s'.
Proof.
  intros Hin Ho Hsup Hitem t row Hrow.
  destruct (decide (t = link_task_id item)) as [->|Hne].
  - destruct (Hitem _ Hrow) as [?|(Hc & Hcan & Hp)]; [by left|]. right. split_and!; [done..|].
    exists item. split_and!; [done..|]. set_solver.
  - destruct (Hsup _ _ Hrow) as [(row' & Hrow' & Hst)|((row' & Hrow' & Hst) & Hcan & y & Hy & Ht & Hp & Hs)];
      [left|right; split_and!; [|done|exists y; split_and!; [done..|set_solver]]];
      exists row'; by rewrite Ho.
Qed.

Lemma supersede_item_run item sup ch n s r n' s' :
  item ∈ l → only_cancels sup s → cancels_all sup s →
  supersede_item task (sup, ch) item n s = (r, (n', s')) →
  match r with
  | Ok st => st = pure_step (sup, ch) item ∧ only_cancels st.1 s' ∧ cancels_all st.1 s'
  | Err _ => only_cancels ({[item_id item]} ∪ sup) s'
  end.
Proof.
  intros Hin Hsup Hall Hrun. unfold supersede_item in Hrun. unfold pure_step. cbn [fst].
  destruct (newly_superseded task sup item) eqn:Hnew; cbn [negb] in Hrun;
    [|injection Hrun as <- <- <-; done].
  apply newly_superseded_spec in Hnew as (Hp & Hno & _).
  rewrite (listed_id _ Hin) in Hrun. fold (item_id item) in Hrun.
  destruct (Hlisted _ Hin) as (row0 & Hrow0 & Hid0 & Hlink).
  assert (Hcur : has_state s (link_task_id item) (row_state row0)).
  { destruct (Hsup _ _ Hrow0) as [?|(_ & _ & y & Hy & Heq & _ & Hys)]; [done|].
    apply (same_task y item Hy Hin) in Heq as ->. done. }
  assert (Hkeep : ∀ s1, only_row (link_task_id item) s s1 →
    (cancellable_dependent (task_state (link_task item)) = true →
       has_state s1 (link_task_id item) TaskStateCancelled) →
    cancels_all ({[item_id item]} ∪ sup) s1).
  { intros s1 Ho Hc y Hy Hpy Hsole Hys Hcan.
    destruct (decide (item_id y ∈ sup)) as [Hin'|Hnin].
    - destruct (Hall _ Hy Hpy Hsole Hin' Hcan) as (row' & Hrow' & Hst').
      exists row'. split; [|done]. rewrite Ho; [done|].
      intros Heq. apply (same_task y item Hy Hin) in Heq as ->. done.
    - assert (y = item) as ->; [|by apply Hc].
      destruct Hsole as [_ Hsole]. symmetry. apply Hsole; [done..|]. set_solver. }
  rewrite Hlink in Hrun, Hkeep. cbn [task_state scanTask] in Hrun, Hkeep.
  destruct (cancellable_dependent (row_state row0)) eqn:Hcan.
  - apply bind_inv in Hrun as [(e & Hc & ->)|(u & n1 & s1 & Hc & Hret)];
      apply (cancel_one item sup) in Hc as [Ho Hst]; try done.
    + apply (only_cancels_step _ _ s); [done..|]. intros row Hrow. left.
      rewrite Hlink in Hst. cbn in Hst. congruence.
    + injection Hret as <- <- <-. cbn [fst]. split; [done|]. split; [|by apply Hkeep].
      apply (only_cancels_step _ _ s); [done..|]. intros row Hrow. right. split_and!; [done| |done].
      congruence.
  - injection Hrun as <- <- <-. split; [done|]. cbn [fst]. split; [|by apply Hkeep].
    apply (only_cancels_step _ _ s); [done..|]. intros row Hrow. left. congruence.
Qed.

Lemma only_cancels_mono sup sup' s : sup ⊆ sup' → only_cancels sup s → only_cancels sup' s.
Proof.
  intros Hsub Hs t row Hrow. destruct (Hs _ _ Hrow) as [?|(? & ? & y & ? & ? & ? & ?)]; [by left|].
  right. split_and!; [done..|]. exists y. split_and!; [done..|]. set_solver.
Qed.
Definition dependents (s : Sys) : Prop :=
  ∃ sup, (∀ w, w ∈ sup → superseded l w) ∧ only_cancels sup s.

Lemma supersede_pass_run k : ∀ st n s r n' s',
  k ⊆ l → only_cancels st.1 s → cancels_all st.1 s →
  (∀ w, w ∈ st.1 → superseded l w) →
  for_each k st (supersede_item task) n s = (r, (n', s')) →
  match r with
  | Ok st' => st' = foldl pure_step st k ∧ only_cancels st'.1 s' ∧ cancels_all st'.1 s'
  | Err _ => dependents s'
  end.
Proof.
  induction k as [|x k IH]; intros [sup ch] n s r n' s' Hsub Hc Ha Hs Hrun; cbn in Hrun.
  { injection Hrun as <- <- <-. done. }
  assert (Hx : x ∈ l) by set_solver.
  assert (Hnext : ∀ w, w ∈ (pure_step (sup, ch) x).1 → superseded l w).
  { apply (pure_pass_sound l [x]); [set_solver|done]. }
  apply bind_inv in Hrun as [(e & Hi & ->)|(st1 & n1 & s1 & Hi & Hrun)];
    pose proof (supersede_item_run _ _ _ _ _ _ _ _ Hx Hc Ha Hi) as Hstep.
  - destruct (newly_superseded task sup x) eqn:Hnew.
    + unfold pure_step in Hnext. cbn in Hnext. rewrite Hnew in Hnext. eexists. by split.
    + cbn in Hi. discriminate Hi.
  - destruct Hstep as (-> & Hc1 & Ha1). apply IH in Hrun; [done|set_solver|done..].
Qed.

(** With more fuel than there are items left to find, the loop ends, and it has found
    the dependents. *)
Lemma supersede_passes_run fuel : ∀ sup n s r n' s',
  work_item_id (task_metadata task) ∈ sup → (pending l sup < fuel)%nat →
  only_cancels sup s → cancels_all sup s → (∀ w, w ∈ sup → superseded l w) →
  supersede_passes fuel task l sup n s = (r, (n', s')) →
  match r with
  | Ok o => ∃ sup', o = Some sup' ∧ (∀ w, w ∈ sup' ↔ superseded l w) ∧
              only_cancels sup' s' ∧ cancels_all sup' s'
  | Err _ => dependents s'
  end.
Proof.
  induction fuel as [|fuel IH]; intros sup n s r n' s' Hself Hfuel Hc Ha Hs Hrun; [lia|].
  cbn in Hrun.
  apply bind_inv in Hrun as [(e & Hp & ->)|([sup1 ch] & n1 & s1 & Hp & Hrun)];
    pose proof (supersede_pass_run l (sup, false) _ _ _ _ _ (reflexivity l) Hc Ha Hs Hp) as Hpass; [done|].
  destruct Hpass as (Hpure & Hc1 & Ha1). cbn [fst snd] in *.
  pose proof (pure_pass_grows l (sup, false)) as Hg. rewrite <- Hpure in Hg. cbn in Hg.
  pose proof (pure_pass_sound l l (sup, false) (reflexivity l) Hs) as Hsound.
  rewrite <- Hpure in Hsound. cbn in Hsound.
  destruct ch.
  - symmetry in Hpure. apply (pure_pass_decreases l) in Hpure; [|done].
    eapply IH in Hrun; [exact Hrun|set_solver|lia|done..].
  - injection Hrun as <- <- <-. symmetry in Hpure. apply pure_pass_stays in Hpure as [-> Hclosed].
    exists sup. split_and!; [done| |done..]. intros w. split; [apply Hs|].
    by apply closed_complete.
Qed.
End Superseding.

(** C8: looking for the work to replace in a repair cycle ends, within one pass more
    than the initiative has tasks, and finds exactly the work items that depend on
    the failed one, directly or not. Along the way, even when a statement fails, a
    task changes its state only if it belongs to such an item, had not started, and
    is cancelled; in the end each such task is cancelled (if no other task of the
    iteration has its work item). *)
Theorem cancelSuperseded_spec `{Env} `{JsonCodec} id task n s :
  keyed s → work_item_id (task_metadata task) ≠ "" →
  let links := initiative_links id s in
  let '(r, (_, s')) := cancelSupersededObjectiveDependents id task n s in
  r ≠ Ok None ∧
  (∀ t row st, get_row s t = Some row → has_state s' t st → st ≠ row_state row →
     st = TaskStateCancelled ∧ cancellable_dependent (row_state row) = true ∧
     ∃ item, item ∈ links ∧ link_task_id item = t ∧ peer task item ∧
       superseded task links (item_id item)) ∧
  ∀ found, r = Ok (Some found) →
    (∀ w, w ∈ found ↔ superseded task links w) ∧
    ∀ item, item ∈ links → peer task item → sole task links item →
      superseded task links (item_id item) →
      cancellable_dependent (task_state (link_task item)) = true →
      has_state s' (link_task_id item) TaskStateCancelled.
Proof.
  intros Hk Hself links.
  destruct (cancelSupersededObjectiveDependents id task n s) as [r [n' s']] eqn:Hrun.
  assert (Hchanged : ∀ sup, only_cancels task links s sup s' →
    (∀ w, w ∈ sup → superseded task links w) →
    ∀ t row st, get_row s t = Some row → has_state s' t st → st ≠ row_state row →
     st = TaskStateCancelled ∧ cancellable_dependent (row_state row) = true ∧
     ∃ item, item ∈ links ∧ link_task_id item = t ∧ peer task item ∧
       superseded task links (item_id item)).
  { intros sup Hsup Hs t row st Hrow (row' & Hrow' & Hst) Hne.
    destruct (Hsup _ _ Hrow) as [(row2 & Hrow2 & Hst2)|((row2 & Hrow2 & Hst2) & Hcan & y & ? & ? & ? & ?)];
      [congruence|].
    split_and!; [congruence|done|]. exists y. split_and!; [done..|by apply Hs]. }
  unfold cancelSupersededObjectiveDependents in Hrun.
  apply String.eqb_neq in Hself as Hb. rewrite Hb in Hrun.
  assert (Hstart : ∀ sup, only_cancels task links s sup s).
  { intros sup t row Hrow. left. by exists row. }
  assert (Hlisted : ∀ item, item ∈ links → ∃ row, get_row s (link_task_id item) = Some row ∧
    row_id row = link_task_id item ∧ link_task item = scanTask row).
  { intros item (_ & row & Hrow & Ht)%initiative_links_task. exists row.
    split_and!; [done|by apply Hk|done]. }
  apply bind_inv in Hrun as [(e & Hq & ->)|(l & n1 & s1 & Hq & Hrun)].
  { apply query_state in Hq as ->. split_and!; [done| |done].
    apply (Hchanged ∅); [done|set_solver]. }
  apply query_ok in Hq as (-> & -> & _). fold links in Hrun.
  eapply (supersede_passes_run task links s Hlisted (initiative_links_nodup id s)) in Hrun;
    [|set_solver| |apply Hstart| |].
  - destruct r as [o|e].
    + destruct Hrun as (sup & -> & Hw & Hc & Ha). split_and!; [congruence| |].
      * apply (Hchanged sup Hc). intros w. apply Hw.
      * intros found [= <-]. split; [done|]. intros item Hin Hp Hsole Hs Hcan.
        apply Ha; [done..|by apply Hw|done].
    + destruct Hrun as (sup & Hs & Hc). split_and!; [done|by apply (Hchanged sup)|done].
  - unfold pending. pose proof (length_filter (λ item, item_id item ∉ ({[work_item_id (task_metadata task)]} : gset string)) links). lia.
  - intros item Hin Hp [Hno _] Hs. set_solver.
  - intros w ->%elem_of_singleton. apply superseded_self.
Qed.

(** Replacing the edit cancels the validation, which had not started. *)
Definition edit_response : TaskResponse := Eval vm_compute in
  default (scanTask validate_row) (scanTask <$> get_row edit_done edit_task).
Definition cancel_demo : res (option (gset string)) * (N * Sys) :=
  @cancelSupersededObjectiveDependents (later 20) "id-0" edit_response 1000%N edit_done.
Lemma cancelSuperseded_spec_witness :
  has_state cancel_demo.2.2 validate_task TaskStateCancelled ∧
  superseded edit_response (initiative_links "id-0" edit_done) "validate".
Proof.
  split; [apply in_state; vm_compute; reflexivity|].
  assert (Hr : cancel_demo.1 = Ok (Some {["validate"; "edit"]})) by (vm_compute; reflexivity).
  pose proof (@cancelSuperseded_spec (later 20) demo_codec "id-0" edit_response 1000%N edit_done
    edit_done_keyed ltac:(vm_compute; discriminate)) as Hspec.
  cbv zeta in Hspec. fold cancel_demo in Hspec. destruct cancel_demo as [r [n' s']].
  cbn [fst] in Hr. subst r. destruct Hspec as (_ & _ & Hfound).
  destruct (Hfound _ eq_refl) as [Hw _]. apply Hw, elem_of_union_l, elem_of_singleton.
  reflexivity.
Defined.

(** ** Repairs end *)

(** The metadata of a task created for an item, as it is stored. *)
Definition stored_metadata (contract : ExecutionContract) (startedAt : Z) (w : WorkItem) : gmap_any :=
  jsonb_map (work_item_metadata contract startedAt w).
(** [repairs before after]: a result reported for a task with metadata [before] starts
    a repair cycle, in which a task with metadata [after] is created. *)
Inductive repairs (before after : gmap_any) : Prop :=
  | repairs_intro contract task result now l w startedAt :
      task_metadata task = before →
      shouldStartObjectiveRepairCycle task result now = true →
      buildObjectiveRepairCycle contract task result = Ok l →
      w ∈ l →
      after = stored_metadata (contract <| ec_items := Some l |>) startedAt w →
      repairs before after.

Lemma stored_counted contract startedAt w n max :
  counted n max (wi_metadata w) → counted n max (work_item_metadata contract startedAt w).
Proof.
  intros Hc. apply (counted_union _ (contract_metadata contract w ∪ budget_metadata contract startedAt)) in Hc.
  unfold work_item_metadata, counted.
  assert (counts (contract_metadata contract w
            ∪ (wi_metadata w ∪ (contract_metadata contract w ∪ budget_metadata contract startedAt)))
          = (Some (VInt n), Some (VInt max))) as Hcount.
  { rewrite <- Hc at 1. unfold contract_metadata at 1. by rewrite counts_union by (repeat constructor; discriminate). }
  destruct (wi_tool_request w); [|exact Hcount]. by rewrite counts_insert.
Qed.
Lemma repairs_step before after :
  repairs before after → objectiveMaxIterations before <= 2 ^ 53 →
  objectiveIteration after = objectiveIteration before + 1 ∧
  objectiveMaxIterations after = objectiveMaxIterations before ∧
  objectiveIteration before < objectiveMaxIterations before.
Proof.
  intros [contract task result now l w startedAt <- Hstart Hbuild Hw ->] Hmax.
  assert (Hlt : objectiveIteration (task_metadata task) < objectiveMaxIterations (task_metadata task)).
  { revert Hstart. unfold shouldStartObjectiveRepairCycle.
    destruct (task_initiative task); [|done]. repeat (case_match; [done|]). intros _. lia. }
  pose proof (iteration_positive (task_metadata task)).
  unfold buildObjectiveRepairCycle in Hbuild. case_match; [discriminate Hbuild|].
  injection Hbuild as <-.
  unfold stored_metadata.
  destruct (counted_stored (objectiveIteration (task_metadata task) + 1)
    (objectiveMaxIterations (task_metadata task))
    (work_item_metadata (contract <| ec_items := Some (repair_items (repair_plan contract task result
       (firstNonEmptyString [trim_space (ec_workspace_root contract); text_at (task_metadata task) "workspace_root"]))
        contract result) |>) startedAt w)) as [-> ->]; [|lia..|lia].
  apply stored_counted. unfold counted. rewrite (repair_items_counts _ _ _ _ Hw).
  apply repair_metadata_counted.
Qed.

(** C6: repairs end.  A task whose metadata counts [n] remaining retries starts no
    chain of repair cycles longer than [n], whatever the bridges report and the
    contracts say: every task of a cycle carries one retry less, through the marshalled
    metadata it is stored with. *)
Theorem repairs_bounded n before after :
  objectiveMaxIterations before <= 2 ^ 53 →
  nsteps repairs n before after →
  Z.of_nat n + objectiveRemainingRetries after <= objectiveRemainingRetries before.
Proof.
  intros Hmax Hsteps. induction Hsteps as [m|n before next after Hstep _ IH]; [lia|].
  destruct (repairs_step before next Hstep Hmax) as (Hi & Hm & Hlt).
  rewrite Hm in IH. specialize (IH Hmax). revert IH.
  unfold objectiveRemainingRetries at 2 4. rewrite Hi, Hm.
  repeat case_match; lia.
Qed.

(** The validation fails: the cycle that starts has one retry left. *)
Definition failed_validation : LocalBridgeResult :=
  MkResult "failed" None None (Some "1 test failed") (Some 1) None None None None
    (Some "tests failed") None None None None None None None None None None.
Definition validate_metadata : gmap_any := task_metadata (scanTask validate_row).
Definition repair_demo : list WorkItem :=
  match buildObjectiveRepairCycle demo_contract (scanTask validate_row) failed_validation with
  | Ok l => l
  | Err _ => []
  end.
Lemma repair_demo_built :
  buildObjectiveRepairCycle demo_contract (scanTask validate_row) failed_validation = Ok repair_demo.
Proof.
  unfold repair_demo.
  assert (Hok : match buildObjectiveRepairCycle demo_contract (scanTask validate_row)
                        failed_validation with Ok _ => true | Err _ => false end = true)
    by (vm_compute; reflexivity).
  destruct (buildObjectiveRepairCycle _ _ _); [reflexivity|discriminate Hok].
Qed.
Lemma repair_demo_last : default no_work_item (last repair_demo) ∈ repair_demo.
Proof.
  assert (Hok : match last repair_demo with Some _ => true | None => false end = true)
    by (vm_compute; reflexivity).
  destruct (last repair_demo) eqn:Hlast; [by apply last_Some_elem_of|discriminate Hok].
Qed.
Definition repaired_metadata : gmap_any :=
  stored_metadata (demo_contract <| ec_items := Some repair_demo |>) run_t0
    (default no_work_item (last repair_demo)).
Lemma repairs_bounded_witness :
  objectiveRemainingRetries validate_metadata = 2 ∧ repairs validate_metadata repaired_metadata ∧
  objectiveRemainingRetries repaired_metadata <= 1.
Proof.
  assert (Hone : repairs validate_metadata repaired_metadata).
  { eapply (repairs_intro _ _ demo_contract (scanTask validate_row) failed_validation
      (run_t0 + 20 * second) repair_demo (default no_work_item (last repair_demo)) run_t0);
      [reflexivity|vm_compute; reflexivity|exact repair_demo_built|exact repair_demo_last
      |reflexivity]. }
  split_and!; [vm_compute; reflexivity|exact Hone|].
  assert (Hmax : objectiveMaxIterations validate_metadata <= 2 ^ 53) by (vm_compute; discriminate).
  pose proof (repairs_bounded 1 _ _ Hmax (nsteps_once _ _ Hone)) as Hb.
  assert (Hr : objectiveRemainingRetries validate_metadata = 2) by (vm_compute; reflexivity).
  rewrite Hr in Hb. lia.
Defined.
