(* ===== verification/Machine.v ===== *)
(** * The machine a task runs on

    What the runner of a task and the planner it asks may call outside themselves: the
    file system, processes, the clock and two services.  A computation is run against a
    machine that answers its calls, whatever the answers; what it may do to the machine
    is then said call by call. *)
From S2P Require Import Prelude GoVal Effects Workspace.

(** ** Calls *)

(** How a process ended: its output, its exit code when it was started, the error, and
    whether its time was up. *)
Record CommandResult := MkCommandResult {
  cr_output : string;
  cr_exit_code : option Z;
  cr_error : option string;
  cr_deadline : bool;
}.
(** What the research service found out. *)
Record QueryResult := MkQueryResult {
  qr_intent : string;
  qr_answer : string;
  qr_sources : gval;
  qr_confidence : gval;
}.

(** How a process ended whose outputs are kept apart; its exit code is 0 when it was not
    started. *)
Record ExecResult := MkExecResult {
  ex_stdout : string;
  ex_stderr : string;
  ex_exit_code : Z;
  ex_error : option string;
}.
(** What [os.Stat] finds at a path, and [os.ReadDir] when it is a directory: how many
    entries. *)
Inductive probe :=
  | Absent
  | Unknown (message : string)
  | PlainFile
  | Folder_of (entries : nat)
  | Unlisted (message : string).

(** A call, by the type of its answer. [None] is the nil error; [Stat] tells a
    directory from another file; [ExecWith] adds to the environment and limits the time;
    [Snapshot] stands for a traversal that only reads, the
    files as it finds them. *)
Inductive os_call : Type → Type :=
  | Getwd : os_call (res string)
  | Now : os_call Z
  | Stat (path : string) : os_call (res bool)
  | ReadFile (path : string) : os_call (res string)
  | MkdirAll (path : string) : os_call (option string)
  | WriteFile (path content : string) : os_call (option string)
  | OpenAppend (path : string) : os_call (option string)
  | WriteString (path content : string) : os_call (option string)
  | Command (dir : string) (argv : list string) (timeout : option Z) : os_call CommandResult
  | Exec (dir : string) (argv : list string) (stdin : string) : os_call ExecResult
  | ExecWith (dir : string) (argv env : list string) (timeout : Z) : os_call ExecResult
  | Probe (path : string) : os_call probe
  | Snapshot : os_call (string → option node)
  | Query (question : string) : os_call (res QueryResult)
  | Post (url token body : string) : os_call (res (Z * string)).

Class Machine (W : Type) := call_on : ∀ A, os_call A → W → A * W.

(** ** Computations *)
Definition Run (W A : Type) : Type := W → A * W.
#[export] Instance run_ret {W} : MRet (Run W) := λ A a w, (a, w).
#[export] Instance run_bind {W} : MBind (Run W) := λ A B f m w, let '(a, w) := m w in f a w.
Definition call {W} `{Machine W} {A} (c : os_call A) : Run W A := call_on A c.

(** [filepath.Abs] *)
Definition Abs {W} `{Machine W} (path : string) : Run W (res string) :=
  if is_rooted path then mret (Ok (path_clean path))
  else
    wd ← call Getwd;
    mret (match wd with Ok wd => Ok (path_join [wd; path]) | Err e => Err e end).

(** ** What a computation does to the machine *)

(** [keeps R m]: the machine after [m] is related to the one before. *)
Definition keeps {W A} (R : relation W) (m : Run W A) : Prop := ∀ w, R w (m w).2.

Section Keeps.
Context {W : Type} (R : relation W) `{!PreOrder R}.

Lemma keeps_ret {A} (a : A) : keeps R (mret a).
Proof. by intros w. Qed.
(** The next step knows what the first answered. *)
Lemma keeps_bind {A B} (m : Run W A) (f : A → Run W B) :
  keeps R m → (∀ w a w', m w = (a, w') → keeps R (f a)) → keeps R (m ≫= f).
Proof.
  intros Hm Hf w. unfold mbind, run_bind. specialize (Hm w). destruct (m w) as [a w'] eqn:E.
  etrans; [exact Hm|by apply (Hf w a w')].
Qed.
Lemma keeps_call `{Machine W} {A} (c : os_call A) :
  (∀ w, R w (call_on A c w).2) → keeps R (call c).
Proof. done. Qed.
End Keeps.

(** Step by step: [calls] says which calls keep the relation, what is left is why a call
    is one of them; [keeps] knows the computations that were looked at before. *)
Create HintDb keeps.
Ltac keep_with calls :=
  repeat lazymatch goal with
    | |- keeps _ (mret _) => apply keeps_ret; exact _
    | |- keeps _ (call _) => apply keeps_call; intros ?; apply calls; try exact I
    | |- keeps _ (_ ≫= _) => apply keeps_bind; [exact _| |intros ? ? ? ?]
    | |- keeps _ (match _ with _ => _ end) => case_match
    | |- keeps _ (if _ then _ else _) => case_match
    | |- keeps _ (let _ := _ in _) => cbv zeta
    | |- keeps _ _ => solve [eauto with keeps]
    end.
(** ** A machine with files

    For examples: directories and files by their path, no links; what is not the file
    system answers as given. *)
Inductive entry := Folder | Text (content : string).
Abbreviation Files := (gmap string entry).

Section Files.
Context (wd : string) (clock : Z) (run : string → list string → CommandResult).

(** A path and the directories above it. *)
Fixpoint ancestors (above : string) (l : list string) : list string :=
  match l with
  | [] => []
  | x :: l => (above +:+ "/" +:+ x) :: ancestors (above +:+ "/" +:+ x) l
  end.
Definition path_chain (p : string) : list string :=
  ancestors "" (filter (λ x, x ≠ "") (split_on "/" (path_clean p))).
Definition is_folder (fs : Files) (p : string) : bool :=
  (p =?s "/") || match fs !! p with Some Folder => true | _ => false end.
Definition no_directory (p : string) : string := p +:+ ": not a directory".

Fixpoint make_folders (l : list string) (fs : Files) : option string * Files :=
  match l with
  | [] => (None, fs)
  | p :: l =>
      match fs !! p with
      | Some (Text _) => (Some (no_directory p), fs)
      | _ => make_folders l (<[p := Folder]> fs)
      end
  end.
Definition write_text (p : string) (f : option string → string) (fs : Files) : option string * Files :=
  let p := path_clean p in
  if is_folder fs p then (Some (p +:+ ": is a directory"), fs)
  else if negb (is_folder fs (path_dir p)) then (Some (no_directory p), fs)
  else (None, <[p := Text (f (match fs !! p with Some (Text c) => Some c | _ => None end))]> fs).

(** The tree below a path, as deep as asked. *)
Fixpoint tree_at (depth : nat) (fs : Files) (p : string) : option node :=
  match fs !! p with
  | Some (Text c) => Some (File (Some c))
  | _ =>
      if negb (is_folder fs p) then None
      else match depth with
           | O => Some (Directory [])
           | S depth =>
               let names := filter (λ q, path_dir q = p ∧ q ≠ p) (merge_sort String.le (elements (dom fs))) in
               Some (Directory (omap (λ q, pair (path_base q) <$> tree_at depth fs q) names))
           end
  end.
Definition entries_of (fs : Files) (p : string) : nat :=
  length (filter (λ q, path_dir q = p ∧ q ≠ p) (elements (dom fs))).

Definition file_machine : Machine Files := λ A c fs,
  match c in os_call A return A * Files with
  | Getwd => (Ok wd, fs)
  | Now => (clock, fs)
  | Stat p =>
      (if is_folder fs (path_clean p) then Ok true
       else match fs !! path_clean p with
            | Some (Text _) => Ok false
            | _ => Err (ErrText (p +:+ ": no such file or directory"))
            end, fs)
  | ReadFile p =>
      (match fs !! path_clean p with
       | Some (Text c) => Ok c
       | _ => Err (ErrText (p +:+ ": no such file or directory"))
       end, fs)
  | MkdirAll p => make_folders (path_chain p) fs
  | WriteFile p c => write_text p (λ _, c) fs
  | OpenAppend p => write_text p (default "") fs
  | WriteString p c => write_text p (λ old, default "" old +:+ c) fs
  | Command dir argv _ => (run dir argv, fs)
  | Exec dir argv _ =>
      let outcome := run dir argv in
      (MkExecResult (cr_output outcome) "" (default 0 (cr_exit_code outcome)) (cr_error outcome), fs)
  | ExecWith dir argv _ _ =>
      let outcome := run dir argv in
      (MkExecResult (cr_output outcome) "" (default 0 (cr_exit_code outcome)) (cr_error outcome), fs)
  | Probe p =>
      (match fs !! path_clean p with
       | Some (Text _) => PlainFile
       | _ => if is_folder fs (path_clean p) then Folder_of (entries_of fs (path_clean p)) else Absent
       end, fs)
  | Snapshot => (λ p, tree_at 8 fs (path_clean p), fs)
  | Query _ => (Err (ErrText "no research"), fs)
  | Post _ _ _ => (Err (ErrText "no planner"), fs)
  end.
End Files.
