(* ===== verification/Planner.v ===== *)
(** * The planner service ([planner/service.go])

    A plan asked of a language model: the prompt, the call, and the reading of the
    answer. *)
From S2P Require Import Prelude GoVal Json JsonText JsonValue Effects Objective Profile Plans Machine.

(** [orchestratorgo/planner/service.go:14-18] Service: without the HTTP client. *)
Record Service := MkService {
  baseURL : string;
  apiKey : string;
}.
(** [orchestratorgo/planner/service.go:27-37] New: the timeout is the client's. *)
Definition New (base key : string) : Service :=
  MkService (trim_right_slashes (trim_space base)) (trim_space key).

(** [orchestratorgo/planner/service.go:20-25] Result: an entry null of the subtasks reads
    as an empty one. *)
Record PlanResult := MkPlanResult {
  pr_summary : string;
  pr_plan : string;
  pr_subtasks : slice gmap_any;
  pr_raw : string;
}.
#[export] Instance eta_plan_result : Eta PlanResult := λ r,
  MkPlanResult (pr_summary r) (pr_plan r) (pr_subtasks r) (pr_raw r).
Definition no_result : PlanResult := MkPlanResult "" "" None "".

(** [orchestratorgo/planner/service.go:39-83] CreatePlan: the context that research found,
    the prompt, *)
Definition capability_context (metadata : gmap_any) : string :=
  match mget metadata "capability_context" with
  | VStrs ((_ :: _) as l) =>
      nl +:+ nl +:+ "Contexto adicional de capacidades:" +:+ nl +:+ sjoin (nl +:+ nl) (take 5 l)
  | _ => ""
  end.
Definition json_example : string := replace_char "'" dquote
  "Devuelve SOLO JSON valido con esta forma exacta: {'summary':'...','plan':'...','subtasks':[{'title':'...','description':'...','assigned_agent':'coder','priority':'normal','requires_approval':false}]}".
Definition prompt (description : string) (metadata : gmap_any) : string := sjoin nl
  ["[PLAN_MODE]";
   "Eres un planner operativo para un orquestador multiagente.";
   json_example;
   "Reglas:";
   "- assigned_agent solo puede ser 'planner', 'researcher', 'coder' o 'reviewer'";
   "- No incluyas markdown ni texto fuera del JSON";
   "- Crea subtareas ejecutables y concretas";
   "- Usa requires_approval=true solo si la subtarea parece destructiva o sensible";
   "";
   "Objetivo:";
   description;
   "";
   "Metadata:";
   Marshal metadata +:+ capability_context metadata].
(** and what is sent. *)
Definition plan_request (description : string) (metadata : gmap_any) : string :=
  Marshal (obj
    [("model", VStr "planner");
     ("messages", VMaps
        [obj [("role", VStr "user"); ("content", VStr (prompt description metadata))]]);
     ("temperature", VNum 1 (-1)); ("max_tokens", VInt 1600);
     ("response_format", VMap (obj [("type", VStr "json_object")]))]).

(** [orchestratorgo/planner/service.go:115-118] CreatePlan: the fields of the answer; a
    field given twice is read over what the first left, an entry of the subtasks too. *)
Definition read_subtask (old : gmap_any) (v : jval) : option gmap_any :=
  match v with JNull => Some ∅ | _ => (λ m, m ∪ old) <$> map_of v end.
Fixpoint read_subtasks (old : list gmap_any) (l : list jval) : option (list gmap_any) :=
  match l with
  | [] => Some []
  | v :: l =>
      match read_subtask (default ∅ (head old)) v, read_subtasks (tail old) l with
      | Some m, Some ms => Some (m :: ms)
      | _, _ => None
      end
  end.
Definition read_field (key : string) (r : PlanResult) (v : jval) : option PlanResult :=
  if key =?s "summary" then (λ s, r <| pr_summary := s |>) <$> text_value (pr_summary r) v
  else if key =?s "plan" then (λ s, r <| pr_plan := s |>) <$> text_value (pr_plan r) v
  else if key =?s "raw_response" then (λ s, r <| pr_raw := s |>) <$> text_value (pr_raw r) v
  else if key =?s "subtasks" then
    match v with
    | JNull => Some (r <| pr_subtasks := None |>)
    | JArr l =>
        (λ ms, r <| pr_subtasks := Some ms |>) <$> read_subtasks (default [] (pr_subtasks r)) l
    | _ => None
    end
  else Some r.

Section CreatePlan.
(** [json_error] is the text of the error of a document that does not decode. *)
Context {W : Type} `{Machine W} (json_error : string → string).

(** [orchestratorgo/planner/service.go:95-124] CreatePlan: the reading of the answer, *)
Definition read_plan (content : string) : res PlanResult :=
  match match parse content with Some v => read_object read_field no_result v | None => None end with
  | None => Err (ErrText ("invalid planner output: " +:+ json_error content))
  | Some parsed =>
      let parsed := parsed <| pr_raw := content |> in
      if blank (pr_summary parsed) || blank (pr_plan parsed) then
        Err (ErrText "planner output missing summary or plan")
      else Ok parsed
  end.
Definition read_response (status : Z) (body : string) : res PlanResult :=
  let payload := if slen body <=? body_limit then body else stake (Z.to_nat body_limit) body in
  if (status <? 200) || (300 <=? status) then
    Err (ErrText ("planner request failed with status " +:+ pretty status +:+ ": "
                  +:+ trim_space payload))
  else
    match match parse payload with Some v => read_completion v | None => None end with
    | None => Err (ErrText (json_error payload))
    | Some [] => Err (ErrText "planner returned no choices")
    | Some (content :: _) =>
        if blank content then Err (ErrText "planner returned empty content")
        else read_plan (stripCodeFence content)
    end.
(** [orchestratorgo/planner/service.go:39-125] CreatePlan. *)
Definition CreatePlan (s : Service) (description : string) (metadata : gmap_any) :
    Run W (res PlanResult) :=
  if baseURL s =?s "" then mret (Err (ErrText "planner base URL is not configured"))
  else
    answer ← call (Post (baseURL s +:+ "/chat/completions") (apiKey s)
                     (plan_request description metadata));
    mret match answer with
         | Err e => Err e
         | Ok (status, body) => read_response status body
         end.
End CreatePlan.

Example read_plan_demo :
  (λ t, match read_plan (λ _, "?") (replace_char "'" dquote t) with
        | Ok r => (pr_summary r, length (default [] (pr_subtasks r)))
        | Err e => (error_text e, 0%nat)
        end) <$>
    ["{'Summary':'s','plan':'p','subtasks':[{'title':'a'},null]}"; "{'summary':'s'}"; "[]";
     "{'summary':'s','plan':1}"]
  = [("s", 2%nat); ("planner output missing summary or plan", 0%nat);
     ("invalid planner output: ?", 0%nat); ("invalid planner output: ?", 0%nat)].
Proof. vm_compute. reflexivity. Qed.
