(* ===== verification/Runner.v ===== *)
(** * Running a task ([runner/runner.go])

    What an agent does with a task: the planner's fixed plans and the ones it asks for,
    the researcher's notes, the files the coder writes and the checks of the reviewer.
    The machine they run on is a parameter; the theorems are in [RunnerSpec]. *)
From S2P Require Import Prelude GoVal Json JsonText JsonValue Effects Domain Schema.
From S2P Require Import Policy Objective Profile Plans Worker Machine Planner.

(** ** Reading values *)

(** [orchestratorgo/runner/runner.go:836-852] asString: other values by their JSON text. *)
Definition asString (v : gval) : string :=
  match v with
  | VStr s => s
  | VTime t => rfc3339 t
  | VNil => ""
  | _ =>
      let raw := compact (to_jval v) in
      if raw =?s "null" then "" else trim_set dquote raw
  end.
(** [orchestratorgo/runner/runner.go:881-888] firstNonEmptyMetadata. *)
Definition firstNonEmptyMetadata (metadata : gmap_any) (keys : list string) : string :=
  first_trimmed ((λ key, asString (mget metadata key)) <$> keys).
(** [orchestratorgo/runner/runner.go:1240-1259] anyStringSliceDefault. *)
Definition anyStringSliceDefault (v : gval) (fallback : list string) : list string :=
  match v with
  | VStrs ((_ :: _) as l) => l
  | VList l =>
      match filter (λ s, s ≠ "") ((λ x, trim_space (asString x)) <$> l) with
      | [] => fallback
      | out => out
      end
  | _ => fallback
  end.
(** [orchestratorgo/runner/runner.go:899-905] truncateOutput. *)
Definition truncateOutput (text : string) (max : Z) : string :=
  let text := trim_space text in
  if slen text <=? max then text
  else stake (Z.to_nat max) text +:+ nl +:+ "... [output truncated]".
(** [orchestratorgo/runner/runner.go:918-954] sanitizeProjectName: a run of other
    characters becomes a dash. *)
Definition name_char (a : ascii) : bool :=
  within 97 122 a || within 65 90 a || within 48 57 a || isb 46 a || isb 95 a || isb 45 a.
Fixpoint dashed (in_run : bool) (s : string) : string :=
  match s with
  | EmptyString => ""
  | String a r =>
      if name_char a then String a (dashed false r)
      else if in_run then dashed true r else "-" +:+ dashed true r
  end.
Definition sanitizeProjectName (value : string) : string :=
  trim_set "-." (dashed false (trim_space value)).
Example sanitizeProjectName_runner_demo :
  sanitizeProjectName <$> [" My Proyect: ñandú 2.0! "; "../x"; "**"]
  = ["My-Proyect-and-2.0"; "x"; ""].
Proof. vm_compute. reflexivity. Qed.
(** ** Fixed answers *)

(** [orchestratorgo/runner/runner.go:1200-1221] defaultProjectTestCommand. *)
Definition page_check : list string :=
  ["python3"; "-c";
   "from pathlib import Path; html=Path('index.html').read_text(); assert '<html' in html.lower()"].
Definition defaultProjectTestCommand (projectType stack : string) : list string :=
  let stack := to_lower (trim_space stack) in
  let projectType := to_lower (trim_space projectType) in
  if stack =?s "node" then ["node"; "--check"; "app.js"]
  else if (stack =?s "static") || (projectType =?s "web_small") then page_check
  else
    ["python3"; "-m"; "py_compile";
     if projectType =?s "api_http" then "app.py"
     else if projectType =?s "worker_background" then "worker.py"
     else if projectType =?s "debug_regression" then "calculator.py"
     else if projectType =?s "toy_repo" then "src/service.py"
     else "main.py"].
(** [orchestratorgo/runner/runner.go:1223-1238] expectedProjectFiles. *)
Definition expectedProjectFiles (projectType : string) : list string :=
  let projectType := to_lower (trim_space projectType) in
  if projectType =?s "api_http" then ["README.md"; "app.py"; "tests/test_app.py"; "lab.json"]
  else if projectType =?s "web_small" then
    ["README.md"; "index.html"; "app.js"; "style.css"; "tests/test_static.py"; "lab.json"]
  else if projectType =?s "worker_background" then
    ["README.md"; "worker.py"; "tests/test_worker.py"; "lab.json"]
  else if projectType =?s "debug_regression" then
    ["README.md"; "calculator.py"; "tests/test_calculator.py"; "lab.json"]
  else if projectType =?s "toy_repo" then
    ["README.md"; "src/service.py"; "tests/test_service.py"; "docs/notes.md"; "lab.json"]
  else ["README.md"; "main.py"; "tests/test_main.py"; "lab.json"].

(** [orchestratorgo/runner/runner.go:26-32] Result: as the code fills it in. *)
Definition failure (message : string) : RunResult := MkRunResult "error" "" None message None.
Definition success (summary : string) (results : gmap_any) : RunResult :=
  MkRunResult "success" summary (Some results) "" None.

(** [orchestratorgo/runner/runner.go:39-51] TaskRunner: the settings it reads, the planner
    and whether there is a research service. *)
Record TaskRunner := MkTaskRunner {
  DefaultGitBranch : string;
  AiderTimeoutSeconds : Z;
  AiderTaskPath : string;
  tr_planner : option Service;
  tr_research : bool;
}.

(** ** Capabilities *)

(** [orchestratorgo/runner/runner.go:34-37] runnerToolCapabilityMap. *)
Definition runnerToolCapabilityMap : gmap string string :=
  {["write_file" := "filesystem.write"; "filesystem.write" := "filesystem.write"]}.
(** [orchestratorgo/runner/runner.go:795-815] runnerAllowedCapabilities. *)
Definition runnerAllowedCapabilities (metadata : gmap_any) : gset string :=
  match mget metadata "allowed_capabilities" with
  | VStrs l => list_to_set (filter (λ s, s ≠ "") (trim_space <$> l))
  | VList l => list_to_set (filter (λ s, s ≠ "") ((λ x, trim_space (asString x)) <$> l))
  | _ => ∅
  end.
(** [orchestratorgo/runner/runner.go:777-793] ensureRunnerToolCapabilityAllowed. *)
Definition ensureRunnerToolCapabilityAllowed (metadata : gmap_any) (tool : string) : option string :=
  let capability := trim_space (default "" (runnerToolCapabilityMap !! tool)) in
  if capability =?s "" then None
  else
    let allowed := runnerAllowedCapabilities metadata in
    if bool_decide (allowed = ∅) then None
    else if bool_decide (capability ∈ allowed) then None
    else if has_prefix "filesystem." capability && bool_decide ("filesystem" ∈ allowed) then None
    else Some ("tool " +:+ tool +:+ " requires allowed capability " +:+ capability).

Section Runner.
Context {W : Type} `{Machine W} (json_error : string → string) (r : TaskRunner).

(** ** Paths *)

(** [orchestratorgo/runner/runner.go:817-834] safeResolve. *)
Definition safeResolve (workspaceRoot rawPath : string) : Run W (res string) :=
  root ← Abs workspaceRoot;
  match root with
  | Err e => mret (Err e)
  | Ok root =>
      let candidateInput :=
        if is_rooted rawPath then rawPath else path_join [root; rawPath] in
      candidate ← Abs candidateInput;
      mret match candidate with
           | Err e => Err e
           | Ok candidate =>
               if negb (candidate =?s root) && negb (has_prefix (root +:+ "/") candidate)
               then Err (ErrText ("path escapes workspace: " +:+ rawPath))
               else Ok candidate
           end
  end.
(** [orchestratorgo/runner/runner.go:995-1002] workspaceHasGitRepo. *)
Definition workspaceHasGitRepo (root : string) : Run W bool :=
  let root := trim_space root in
  if root =?s "" then mret false
  else
    info ← call (Stat (path_join [root; ".git"]));
    mret match info with Ok _ => true | Err _ => false end.

(** ** The coder *)

(** [orchestratorgo/runner/runner.go:705-775] executeToolRequest: the result of a write,
    *)
Definition write_result (summary done rawPath path : string) : RunResult :=
  success summary (obj
    [("status", VStr "success"); ("summary", VStr (done +:+ " " +:+ rawPath));
     ("changed_files", VStrs [rawPath]);
     ("artifacts", VMaps [obj [("type", VStr "file"); ("path", VStr path)]])]).
(** a write that goes through unless a step of it fails, *)
Fixpoint attempt_all (steps : list (os_call (option string))) (result : RunResult) : Run W RunResult :=
  match steps with
  | [] => mret result
  | c :: steps =>
      err ← call c;
      match err with Some e => mret (failure e) | None => attempt_all steps result end
  end.
(** at a path of the workspace, *)
Definition write_request (workspaceRoot : string) (request : gmap_any) (what : string)
    (steps : string → string → list (os_call (option string)))
    (result : string → string → RunResult) : Run W RunResult :=
  let rawPath := trim_space (asString (mget request "path")) in
  if rawPath =?s "" then mret (failure ("tool_request.path is required for " +:+ what))
  else
    let content := asString (mget request "content") in
    resolved ← safeResolve workspaceRoot rawPath;
    match resolved with
    | Err e => mret (failure (error_text e))
    | Ok path => attempt_all (MkdirAll (path_dir path) :: steps path content) (result rawPath path)
    end.
(** and the choice of the tool; [None] is a request that is not handled. *)
Definition executeToolRequest (workspaceRoot : string) (metadata request : gmap_any) :
    Run W (option RunResult) :=
  let tool := trim_space (asString (mget request "tool")) in
  match ensureRunnerToolCapabilityAllowed metadata tool with
  | Some message => mret (Some (failure message))
  | None =>
      if (tool =?s "write_file") || (tool =?s "filesystem.write") then
        result ← write_request workspaceRoot request "filesystem write"
          (λ path content, [WriteFile path content]) (write_result "coder wrote file" "Wrote");
        mret (Some result)
      else if tool =?s "append_file" then
        result ← write_request workspaceRoot request "append_file"
          (λ path content, [OpenAppend path; WriteString path content])
          (write_result "coder appended file" "Appended");
        mret (Some result)
      else mret None
  end.

(** [orchestratorgo/runner/runner.go:644-703] executeAiderTask. *)
Definition aider_command (task : TaskResponse) (repo : string) : list string :=
  let branch := firstNonEmptyMetadata (task_metadata task) ["branch"; "default_branch"] in
  let branch := if branch =?s "" then DefaultGitBranch r else branch in
  let aiderPath := trim_space (AiderTaskPath r) in
  let aiderPath := if aiderPath =?s "" then "/usr/local/bin/aider-task" else aiderPath in
  ["sudo"; "-u"; "aider"; "--"; aiderPath; "--task-id"; task_id task; "--repo"; repo;
   "--branch"; branch; "--prompt"; task_description task].
Definition aider_timeout : Z :=
  wrap64 ((if AiderTimeoutSeconds r <=? 0 then 1800 else AiderTimeoutSeconds r) * second).
Definition executeAiderTask (task : TaskResponse) (repo : string) : Run W RunResult :=
  outcome ← call (Command "" (aider_command task repo) (Some aider_timeout));
  let stdout := VStr (truncateOutput (trim_space (cr_output outcome)) 64000) in
  let error_result := obj [("status", VStr "error"); ("stdout", stdout)] in
  mret
    (if cr_deadline outcome then
       MkRunResult "error" "coder timed out" (Some error_result) "aider-task exceeded timeout" None
     else match cr_error outcome with
          | Some e => MkRunResult "error" "coder execution failed" (Some error_result) e None
          | None =>
              success "coder executed aider-task" (obj
                [("status", VStr "success"); ("summary", VStr "coder executed aider-task");
                 ("stdout", stdout); ("changed_files", VStrs [])])
          end).

(** [orchestratorgo/runner/runner.go:199-256] executeCoder: the approval it asks for, *)
Definition tool_request (task : TaskResponse) : option gmap_any :=
  only_map (mget (task_metadata task) "tool_request").
Definition needs_approval (task : TaskResponse) : bool :=
  as_bool (mget (task_metadata task) "requires_approval")
  && negb (as_bool (mget (task_metadata task) "approval_requested")).
Definition approval_result (task : TaskResponse) : RunResult :=
  let path := trim_space (asString (mget (default ∅ (tool_request task)) "path")) in
  MkRunResult "waiting_approval" "approval required before executing coder task" None ""
    (Some (MkApprovalRequest "coder_execution" (if path =?s "" then "coder-task" else path) 300)).
(** the report it writes when there is nothing else to do, *)
Definition report_file (workspaceRoot : string) : string :=
  path_join [workspaceRoot; "task-result.txt"].
Definition write_report (task : TaskResponse) (workspaceRoot : string) : Run W RunResult :=
  now ← call Now;
  let content :=
    "task_id=" +:+ task_id task +:+ nl +:+ "agent=coder" +:+ nl +:+ "description="
    +:+ task_description task +:+ nl +:+ "completed_at=" +:+ rfc3339 now +:+ nl in
  err ← call (WriteFile (report_file workspaceRoot) content);
  mret match err with
       | Some e => failure e
       | None =>
           success "coder wrote execution report" (obj
             [("status", VStr "success"); ("summary", VStr "coder wrote execution report");
              ("changed_files", VStrs ["task-result.txt"]);
              ("artifacts", VMaps
                 [obj [("type", VStr "file"); ("path", VStr (report_file workspaceRoot))]])])
       end.
(** and the whole. *)
Definition coder_repo (task : TaskResponse) : string :=
  firstNonEmptyMetadata (task_metadata task) ["repo_name"; "repo_path"; "repository_path"].
Definition coder_root (task : TaskResponse) : string :=
  trim_space (default "" (task_workspace_path task)).
Definition executeCoder (task : TaskResponse) : Run W RunResult :=
  if needs_approval task then mret (approval_result task)
  else if coder_root task =?s "" then
    mret (failure "workspace_path is required for coder execution")
  else
    err ← call (MkdirAll (coder_root task));
    match err with
    | Some e => mret (failure e)
    | None =>
        handled ← match tool_request task with
                  | Some request => executeToolRequest (coder_root task) (task_metadata task) request
                  | None => mret None
                  end;
        match handled with
        | Some result => mret result
        | None =>
            if coder_repo task =?s "" then write_report task (coder_root task)
            else executeAiderTask task (coder_repo task)
        end
    end.

(** ** The reviewer *)

(** [orchestratorgo/runner/runner.go:1261-1277] runCommandInDir. *)
Definition runCommandInDir (dir : string) (argv : list string) :
    Run W (string * string * Z * option string) :=
  match argv with
  | [] => mret ("", "", -1, Some "argv is required")
  | _ =>
      outcome ← call (Command dir argv None);
      let text := cr_output outcome in
      let exitCode := default 0 (cr_exit_code outcome) in
      mret match cr_error outcome with
           | Some e => (text, text, exitCode, Some e)
           | None => (text, "", exitCode, None)
           end
  end.

(** [orchestratorgo/runner/runner.go:258-275] executeReviewer: the directory of the
    project, from the workspace, *)
Definition project_input (request : gmap_any) : string :=
  let parentDirectory := trim_space (asString (mget request "parent_directory")) in
  let projectName := sanitizeProjectName (asString (mget request "project_name")) in
  if is_rooted parentDirectory && (path_base parentDirectory =?s projectName)
  then parentDirectory else path_join [parentDirectory; projectName].
(** [orchestratorgo/runner/runner.go:285-290] executeReviewer: the files that are not
    there, *)
Fixpoint missing_files (projectRoot : string) (files : list string) : Run W (list string) :=
  match files with
  | [] => mret []
  | rel :: files =>
      found ← call (Stat (path_join [projectRoot; rel]));
      missing ← missing_files projectRoot files;
      mret match found with Ok _ => missing | Err _ => rel :: missing end
  end.
(** [orchestratorgo/runner/runner.go:291-353] executeReviewer: the run of the tests, *)
Definition test_result (argv : list string) (run : option (string * string * Z * option string)) :
    gmap_any :=
  match run with
  | None => obj [("argv", VStrs argv); ("executed", VBool false)]
  | Some (stdout, stderr, exitCode, err) =>
      let m := obj
        [("argv", VStrs argv); ("executed", VBool true);
         ("stdout", VStr (truncateOutput stdout 8000));
         ("stderr", VStr (truncateOutput stderr 8000)); ("exit_code", VInt exitCode)] in
      match err with Some e => <["error" := VStr e]> m | None => m end
  end.
(** and the verdict. *)
Definition verdict (projectRoot : string) (expected missing argv : list string)
    (run : option (string * string * Z * option string)) : RunResult :=
  let report status summary := obj
    [("status", VStr status); ("validation_summary", VStr summary);
     ("test_result", VMap (test_result argv run))] in
  match run with
  | Some (stdout, stderr, _, Some e) =>
      MkRunResult "error" "reviewer detected failing project tests"
        (Some (<["missing_files" := VStrs missing]>
                 (report "error" "Project scaffold failed reviewer checks")))
        (first_trimmed [trim_space stderr; trim_space stdout; e]) None
  | _ =>
      match missing with
      | _ :: _ =>
          MkRunResult "error" "reviewer detected missing files"
            (Some (<["missing_files" := VStrs missing]>
                     (report "error" "Project scaffold is missing expected files")))
            "project scaffold is incomplete" None
      | [] =>
          success "reviewer validated scaffolded project"
            (obj [("project_root", VStr projectRoot); ("expected_files", VStrs expected);
                  ("pass_checks", VStrs
                     ["project directory exists"; "expected files present"; "test command succeeded"])]
             ∪ report "success" "Project scaffold passed reviewer checks")
      end
  end.
(** [orchestratorgo/runner/runner.go:258-353] executeReviewer. *)
Definition executeReviewer (task : TaskResponse) : Run W RunResult :=
  let metadata := task_metadata task in
  let workspaceRoot := firstNonEmptyMetadata metadata ["workspace_root"] in
  match only_map (mget metadata "project_request") with
  | Some request =>
      if workspaceRoot =?s "" then
        mret (failure "reviewer requires metadata.project_request and metadata.workspace_root")
      else
        resolved ← safeResolve workspaceRoot (project_input request);
        match resolved with
        | Err e => mret (failure (error_text e))
        | Ok projectRoot =>
            info ← call (Stat projectRoot);
            match info with
            | Ok true =>
                let projectType := firstNonEmptyMetadata request ["project_type"] in
                let stack := firstNonEmptyMetadata request ["runtime_or_stack"] in
                let expected := anyStringSliceDefault (mget request "expected_files")
                                  (expectedProjectFiles projectType) in
                missing ← missing_files projectRoot expected;
                let testCommand := anyStringSliceDefault (mget request "test_command")
                                     (defaultProjectTestCommand projectType stack) in
                run ← match testCommand with
                      | [] => mret None
                      | _ => outcome ← runCommandInDir projectRoot testCommand; mret (Some outcome)
                      end;
                mret (verdict projectRoot expected missing testCommand run)
            | _ => mret (failure ("project directory missing: " +:+ projectRoot))
            end
        end
  | None => mret (failure "reviewer requires metadata.project_request and metadata.workspace_root")
  end.
(** ** The planner *)

(** [orchestratorgo/runner/runner.go:1082-1153] loadRunnerBenchmarkRepoWorkflowProfile: the
    case is decoded as the initiative service decodes it. *)
Definition loadRunnerBenchmarkRepoWorkflowProfile (workspaceRoot : string) :
    Run W (option repoWorkflowProfile) :=
  raw ← call (ReadFile (path_join [trim_space workspaceRoot; ".lab"; "benchmark-case.json"]));
  mret match raw with
       | Ok raw => decodeBenchmarkRepoWorkflowProfile raw workspaceRoot
       | Err _ => None
       end.
(** [orchestratorgo/runner/runner.go:1004-1041] detectRunnerRepoWorkflowProfile: the
    defaults are the initiative service's. *)
Definition detectRunnerRepoWorkflowProfile (workspaceRoot : string) : Run W repoWorkflowProfile :=
  loaded ← loadRunnerBenchmarkRepoWorkflowProfile workspaceRoot;
  mret match loaded with
       | Some profile => profile
       | None =>
           let profile := default_profile workspaceRoot in
           if equal_fold (repoName profile) "python-slugify" then slugify_profile profile
           else profile
       end.

(** [orchestratorgo/runner/runner.go:980-993] explicitRepoWorkflowRequested. *)
Definition explicitRepoWorkflowRequested (metadata : gmap_any) (projectRequest : option gmap_any)
    (workspaceRoot : string) : Run W bool :=
  let case_keys := ["benchmark_case_id"; "benchmark_case_type"] in
  if negb (firstNonEmptyMetadata metadata (case_keys ++ ["repo_workflow"]) =?s "") then mret true
  else if match projectRequest with
          | Some request => negb (firstNonEmptyMetadata request case_keys =?s "")
          | None => false
          end then mret true
  else if workspaceRoot =?s "" then mret false
  else
    loaded ← loadRunnerBenchmarkRepoWorkflowProfile workspaceRoot;
    mret (bool_decide (is_Some loaded)).
(** [orchestratorgo/runner/runner.go:956-978] repoWorkflowRoot: the empty text is none. *)
Definition repoWorkflowRoot (metadata : gmap_any) (projectRequest : option gmap_any) : Run W string :=
  let workspaceRoot := firstNonEmptyMetadata metadata ["workspace_root"] in
  explicit ← explicitRepoWorkflowRequested metadata projectRequest workspaceRoot;
  if negb explicit then mret ""
  else
    here ← (if workspaceRoot =?s "" then mret false else workspaceHasGitRepo workspaceRoot);
    if here : bool then mret workspaceRoot
    else match projectRequest with
         | None => mret ""
         | Some request =>
             let projectRoot := trim_space (asString (mget request "project_root")) in
             if projectRoot =?s "" then mret ""
             else
               let projectRoot :=
                 if negb (is_rooted projectRoot) && negb (workspaceRoot =?s "")
                 then path_join [workspaceRoot; projectRoot] else projectRoot in
               there ← workspaceHasGitRepo projectRoot;
               mret (if there : bool then projectRoot else "")
         end.
End Runner.

(** [orchestratorgo/runner/runner.go:512-529] buildRepoWorkflowPlan: what every step
    carries, *)
Definition step_metadata (request : gmap_any) (workspaceRoot intent : string)
    (tags capabilities : list string) (tool_request : gmap_any) : gmap_any :=
  obj
    [("project_request", VMap request); ("workspace_root", VStr workspaceRoot);
     ("capability_intent", VStr intent); ("preferred_capability_tags", VStrs tags);
     ("allowed_capabilities", VStrs capabilities); ("tool_request", VMap tool_request)].
Definition research_step (request : gmap_any) (workspaceRoot : string) (tool_request : gmap_any) :
    gmap_any :=
  step_metadata request workspaceRoot "needs_external_evidence" ["evidence"; "search"; "docs"]
    ["filesystem.read"; "web.search"; "web.fetch"; "document.read"] tool_request.
Definition write_step (request : gmap_any) (workspaceRoot : string) (tool_request : gmap_any) :
    gmap_any :=
  step_metadata request workspaceRoot "needs_workspace_write" ["filesystem"; "write"; "workspace"]
    ["filesystem.write"] tool_request.
Definition review_step (request : gmap_any) (workspaceRoot : string) (tool_request : gmap_any) :
    gmap_any :=
  step_metadata request workspaceRoot "needs_repo_static_analysis"
    ["review"; "static-analysis"; "code-quality"; "validation"]
    ["filesystem.read"; "code.analysis"] tool_request.
(** [orchestratorgo/runner/runner.go:591-622] buildRepoWorkflowPlan: a step. *)
Definition plan_step (title description agent : string) (approval : bool)
    (metadata : gmap_any) (tool_request : gval) : gmap_any :=
  obj
    [("title", VStr title); ("description", VStr description); ("assigned_agent", VStr agent);
     ("priority", VStr PriorityNormal); ("requires_approval", VBool approval);
     ("execution_target", VStr ExecutionTargetLocal); ("metadata", VMap metadata);
     ("tool_request", tool_request)].
Definition step_of (title description agent : string) (approval : bool) (metadata : gmap_any) :
    gmap_any :=
  plan_step title description agent approval metadata (mget metadata "tool_request").

(** [orchestratorgo/runner/runner.go:488-642] buildRepoWorkflowPlan: the request of a
    repository, *)
Definition repo_project_request (given : option gmap_any) (p : repoWorkflowProfile) : gmap_any :=
  let given := default ∅ given in
  let set := obj
    [("project_name", VStr (repoName p)); ("project_root", VStr (projectRoot p));
     ("project_type", VStr (projectType p)); ("runtime_or_stack", VStr (stack p));
     ("language", VStr (language p)); ("framework", VStr (framework p));
     ("problem_domain", VStr (problemDomain p)); ("error_class", VStr (errorClass p));
     ("fix_pattern", VStr (fixPattern p)); ("validation_pattern", VStr (validationPattern p));
     ("repository_url", VStr (repositoryURL p)); ("default_branch", VStr (defaultBranch p));
     ("goal", VStr (firstNonEmptyMetadata given ["goal"])); ("test_focus", VStr (testFocus p));
     ("test_command", strs_value (testCommand p)); ("expected_files", VStrs (expected p));
     ("repo_profile", VStr (projectFlow p))] in
  entries_unless_empty (case_entries p) (set ∪ given).
Definition repo_research_metadata (given : option gmap_any) (workspaceRoot : string)
    (p : repoWorkflowProfile) : gmap_any :=
  let request := repo_project_request given p in
  applyBenchmarkMetadata
    (research_step request workspaceRoot (obj
       [("tool", VStr "research_project"); ("project_request", VMap request);
        ("project_root", VStr (projectRoot p));
        ("goal", VStr (firstNonEmptyMetadata request ["goal"]));
        ("test_command", strs_value (testCommand p))])) p.
Definition repo_coder_request (p : repoWorkflowProfile) : gmap_any :=
  entries_unless_empty
    [("path", patchTarget p); ("patch", patch p); ("content", writeContent p)]
    (obj [("tool", VStr (coderTool p)); ("project_root", VStr (projectRoot p));
          ("requires_approval", VBool true)]).
Definition repo_coder_metadata (given : option gmap_any) (workspaceRoot : string)
    (p : repoWorkflowProfile) : gmap_any :=
  applyBenchmarkMetadata
    (obj [("requires_approval", VBool true); ("repo_workflow", VStr "repo_workflow_v1")]
     ∪ write_step (repo_project_request given p) workspaceRoot (repo_coder_request p)) p.
Definition repo_reviewer_metadata (given : option gmap_any) (workspaceRoot : string)
    (p : repoWorkflowProfile) : gmap_any :=
  applyBenchmarkMetadata
    (review_step (repo_project_request given p) workspaceRoot (obj
       [("tool", VStr "review_project"); ("project_root", VStr (projectRoot p));
        ("expected_files", VStrs (expected p)); ("test_command", strs_value (testCommand p));
        ("analysis_types", VStrs ["dependencies"; "security"])])) p.
(** the steps, *)
Definition repo_subtasks (given : option gmap_any) (workspaceRoot : string)
    (p : repoWorkflowProfile) : list gmap_any :=
  [step_of "Research repository constraints"
     ("Inspect the repository at " +:+ workspaceRoot +:+ " and prepare execution constraints.")
     AgentTypeResearcher false (repo_research_metadata given workspaceRoot p);
   step_of "Apply deterministic repository patch" (coderSummary p)
     AgentTypeCoder true (repo_coder_metadata given workspaceRoot p);
   step_of "Review repository changes"
     ("Validate repository state at " +:+ projectRoot p)
     AgentTypeReviewer false (repo_reviewer_metadata given workspaceRoot p)].
(** and the plan. *)
Definition plan_result (summary plan_summary plan_markdown flow root_rel : string)
    (subtasks : list gmap_any) (command : gval) : RunResult :=
  success summary (obj
    [("status", VStr "success"); ("plan_summary", VStr plan_summary);
     ("plan_markdown", VStr plan_markdown); ("subtasks", VMaps subtasks);
     ("project_flow", VStr flow);
     ("requested_agents", VStrs ["researcher"; "coder"; "reviewer"]);
     ("project_root_rel", VStr root_rel); ("test_command", command); ("plan_only", VBool false)]).
Definition with_result (key : string) (v : gval) (result : RunResult) : RunResult :=
  MkRunResult (rr_status result) (rr_summary result) ((<[key := v]>) <$> rr_results result)
    (rr_error_message result) (rr_approval result).
Definition repo_plan (given : option gmap_any) (workspaceRoot : string) (p : repoWorkflowProfile) :
    RunResult :=
  with_result "repo_profile" (VStr (projectFlow p))
    (plan_result "planner prepared deterministic existing-repo workflow"
       ("Patch and validate existing repository " +:+ repoName p)
       ("1. Research repository constraints" +:+ nl +:+ "2. Apply deterministic patch" +:+ nl
        +:+ "3. Review and test" +:+ nl +:+ nl +:+ "Target: `" +:+ projectRoot p +:+ "`")
       "repo_workflow_v1" (projectRoot p) (repo_subtasks given workspaceRoot p)
       (strs_value (testCommand p))).

(** [orchestratorgo/runner/runner.go:355-486] buildBoilerplatePlan: the request, which is
    the task's own, *)
Definition boilerplate_request (given : gmap_any) : gmap_any :=
  let projectType := firstNonEmptyMetadata given ["project_type"] in
  let stack := firstNonEmptyMetadata given ["runtime_or_stack"] in
  obj [("project_name", VStr (sanitizeProjectName (asString (mget given "project_name"))));
       ("test_command", VStrs (defaultProjectTestCommand projectType stack));
       ("expected_files", VStrs (expectedProjectFiles projectType))] ∪ given.
Definition boilerplate_command (given : gmap_any) : list string :=
  defaultProjectTestCommand (firstNonEmptyMetadata given ["project_type"])
    (firstNonEmptyMetadata given ["runtime_or_stack"]).
Definition boilerplate_files (given : gmap_any) : list string :=
  expectedProjectFiles (firstNonEmptyMetadata given ["project_type"]).
Definition boilerplate_root (given : gmap_any) : string :=
  path_join [firstNonEmptyMetadata given ["parent_directory"];
             sanitizeProjectName (asString (mget given "project_name"))].
(** what its steps ask for, *)
Definition boilerplate_research (given : gmap_any) : gmap_any :=
  obj [("tool", VStr "research_project"); ("project_request", VMap (boilerplate_request given))].
Definition boilerplate_scaffold (given : gmap_any) : gmap_any :=
  let text key := VStr (firstNonEmptyMetadata given [key]) in
  obj
    [("tool", VStr "scaffold_project");
     ("project_name", VStr (sanitizeProjectName (asString (mget given "project_name"))));
     ("parent_directory", text "parent_directory"); ("project_type", text "project_type");
     ("runtime_or_stack", text "runtime_or_stack"); ("goal", text "goal");
     ("test_focus", text "test_focus");
     ("initialize_git", VBool (as_bool (mget given "initialize_git")));
     ("test_command", VStrs (boilerplate_command given));
     ("expected_files", VStrs (boilerplate_files given));
     ("files_plan", VStrs ["README.md"; "tests/*"])].
Definition boilerplate_review (given : gmap_any) : gmap_any :=
  obj
    [("tool", VStr "review_project"); ("project_root", VStr (boilerplate_root given));
     ("expected_files", VStrs (boilerplate_files given));
     ("test_command", VStrs (boilerplate_command given))].
(** the steps *)
Definition boilerplate_subtasks (metadata given : gmap_any) : list gmap_any :=
  let root := firstNonEmptyMetadata metadata ["workspace_root"] in
  let request := boilerplate_request given in
  [step_of "Research scaffold constraints"
     ("Prepare constraints and validation checklist for " +:+ boilerplate_root given)
     AgentTypeResearcher false (research_step request root (boilerplate_research given));
   step_of "Scaffold project files" ("Create boilerplate for " +:+ boilerplate_root given)
     AgentTypeCoder (as_bool (mget metadata "requires_approval"))
     (write_step request root (boilerplate_scaffold given));
   plan_step "Review scaffolded project" ("Validate generated project at " +:+ boilerplate_root given)
     AgentTypeReviewer false
     (review_step request root
        (<["analysis_types" := VStrs ["dependencies"; "security"]]> (boilerplate_review given)))
     (VMap (boilerplate_review given))].
(** and the plan. *)
Definition boilerplate_plan (metadata given : gmap_any) : RunResult :=
  plan_result "planner prepared deterministic multi-agent boilerplate flow"
    ("Create and validate boilerplate project "
     +:+ sanitizeProjectName (asString (mget given "project_name"))
     +:+ " with planner, researcher, coder, and reviewer")
    ("1. Research constraints" +:+ nl +:+ "2. Scaffold files" +:+ nl +:+ "3. Review and test"
     +:+ nl +:+ nl +:+ "Target: `" +:+ boilerplate_root given +:+ "`")
    "boilerplate_v1" (boilerplate_root given) (boilerplate_subtasks metadata given)
    (VStrs (boilerplate_command given)).

(** ** Agents *)

(** [orchestratorgo/runner/runner.go:160-196] executeResearcher: the notes on a project. *)
Definition project_notes (request : gmap_any) : RunResult :=
  let projectType := firstNonEmptyMetadata request ["project_type"] in
  let stack := firstNonEmptyMetadata request ["runtime_or_stack"] in
  let testCommand := defaultProjectTestCommand projectType stack in
  success "researcher prepared project context" (obj
    [("status", VStr "success"); ("project_type", VStr projectType);
     ("runtime_or_stack", VStr stack);
     ("recommendations", VStrs
        ["Keep " +:+ projectType +:+ " minimal and directly testable.";
         "Bias toward " +:+ stack +:+ " for runtime consistency.";
         "Expose exactly one obvious success path for the reviewer."]);
     ("stack_rationale", VStrs
        ["Goal: " +:+ firstNonEmptyMetadata request ["goal"];
         "Primary test focus: " +:+ firstNonEmptyMetadata request ["test_focus"];
         "Suggested test command: " +:+ sjoin " " testCommand]);
     ("checklist", VStrs
        ["Project directory exists"; "README explains purpose";
         "At least one runnable test file exists"; "Test command is deterministic"]);
     ("test_command", VStrs testCommand)]).

Section Agents.
Context {W : Type} `{Machine W} (json_error : string → string) (r : TaskRunner).

(** [orchestratorgo/runner/runner.go:134-158] executeResearcher: the answer to a question, *)
Definition query_notes (answer : QueryResult) : RunResult :=
  success "researcher completed" (obj
    [("status", VStr "success"); ("intent", VStr (qr_intent answer));
     ("recommendations", VStrs [qr_answer answer]); ("sources", qr_sources answer);
     ("confidence", qr_confidence answer)]).
Definition fallback_notes : RunResult :=
  success "researcher produced fallback context" (obj
    [("status", VStr "success");
     ("recommendations", VStrs
        ["Keep the project intentionally small and deterministic.";
         "Prefer a runnable local test command with zero or near-zero external dependencies."])]).
Definition ask (question : string) : Run W (option QueryResult) :=
  if tr_research r then
    answer ← call (Query question);
    mret match answer with Ok answer => Some answer | Err _ => None end
  else mret None.
(** [orchestratorgo/runner/runner.go:134-197] executeResearcher. *)
Definition executeResearcher (task : TaskResponse) : Run W RunResult :=
  match only_map (mget (task_metadata task) "project_request") with
  | Some request => mret (project_notes request)
  | None =>
      answer ← ask (task_description task);
      mret match answer with Some answer => query_notes answer | None => fallback_notes end
  end.

(** [orchestratorgo/runner/runner.go:94-116] executePlanner: the plan asked for, *)
Definition asked_plan (task : TaskResponse) (plan : res PlanResult) : RunResult :=
  match plan with
  | Err e => MkRunResult "error" "planner failed" None (error_text e) None
  | Ok plan =>
      success "planner completed" (obj
        [("status", VStr "success"); ("plan_summary", VStr (pr_summary plan));
         ("plan_markdown", VStr (pr_plan plan)); ("subtasks", plain_maps (pr_subtasks plan));
         ("raw_response", VStr (pr_raw plan));
         ("plan_only", VBool (as_bool (mget (task_metadata task) "plan_only")))])
  end.
Definition researched (metadata : gmap_any) (answer : option QueryResult) : gmap_any :=
  match answer with
  | Some answer =>
      <["research_intent" := VStr (qr_intent answer)]>
        (<["capability_context" := VStrs [qr_answer answer]]> metadata)
  | None => metadata
  end.
(** [orchestratorgo/runner/runner.go:121-131] executePlanner: the plan without a planner, *)
Definition empty_plan (task : TaskResponse) : RunResult :=
  success "planner completed in fallback mode" (obj
    [("status", VStr "success");
     ("plan_summary", VStr ("Fallback plan generated for task " +:+ task_id task));
     ("plan_markdown", VStr
        ("# Execution plan" +:+ nl +:+ nl +:+ "1. Scope" +:+ nl +:+ "2. Prepare" +:+ nl
         +:+ "3. Deliver"));
     ("subtasks", VMaps []);
     ("plan_only", VBool (as_bool (mget (task_metadata task) "plan_only")))]).
(** [orchestratorgo/runner/runner.go:86-132] executePlanner: first the fixed plans, [None]
    when neither applies. *)
Definition fixed_plan (metadata : gmap_any) : Run W (option RunResult) :=
  let given := only_map (mget metadata "project_request") in
  root ← repoWorkflowRoot metadata given;
  if negb (root =?s "") then
    profile ← detectRunnerRepoWorkflowProfile root;
    mret (Some (repo_plan given root profile))
  else
    match given with
    | None => mret None
    | Some request =>
        again ← repoWorkflowRoot metadata given;
        mret (if again =?s "" then Some (boilerplate_plan metadata request) else None)
    end.
Definition executePlanner (task : TaskResponse) : Run W RunResult :=
  let metadata := task_metadata task in
  fixed ← fixed_plan metadata;
  match fixed with
  | Some plan => mret plan
  | None =>
      answer ← (if as_bool (mget metadata "research_mode") then ask (task_description task)
                else mret None);
      match tr_planner r with
      | Some planner =>
          plan ← CreatePlan json_error planner (task_description task) (researched metadata answer);
          mret (asked_plan task plan)
      | None => mret (empty_plan task)
      end
  end.

(** [orchestratorgo/runner/runner.go:53-74] Execute. *)
Definition Execute (task : TaskResponse) : Run W RunResult :=
  let agent := default "" (task_assigned_agent task) in
  if agent =?s AgentTypePlanner then executePlanner task
  else if agent =?s AgentTypeResearcher then executeResearcher task
  else if agent =?s AgentTypeCoder then executeCoder r task
  else if agent =?s AgentTypeReviewer then executeReviewer task
  else mret (failure ("agent type " +:+ go_quote agent +:+ " is not supported in orchestrator-go runner")).
End Agents.

(** ** A run *)
Definition demo_machine : Machine Files := file_machine "/" 0 (λ _ _, MkCommandResult "" (Some 0) None false).
Definition demo_task (agent : string) (metadata : gmap_any) : TaskResponse :=
  MkTask "t" TaskStateInProgress "d" metadata [] None None "" (Some agent) None "normal" "remote"
    None (Some "/ws") 0 "" VNil None 0 0 None None None.
Definition demo_runner : TaskRunner := MkTaskRunner "main" 0 "" None false.
Definition demo_run (task : TaskResponse) (fs : Files) : RunResult * Files :=
  Execute (H := demo_machine) (λ _, "?") demo_runner task fs.
Definition write_demo (tool path : string) : gmap_any :=
  {["tool_request" := VMap (obj [("tool", VStr tool); ("path", VStr path); ("content", VStr "x")])]}.
Example runs :
  (λ p, let '(result, fs) := demo_run (demo_task AgentTypeCoder (write_demo p.1 p.2)) ∅ in
        (rr_status result, rr_error_message result, map_to_list (fs : gmap string entry))) <$>
    [("write_file", "a/b.txt"); ("append_file", "../ws2/b"); ("apply_patch", "a")]
  = [("success", "", [("/ws/a/b.txt", Text "x"); ("/ws/a", Folder); ("/ws", Folder)]);
     ("error", "path escapes workspace: ../ws2/b", [("/ws", Folder)]);
     ("success", "",
      [("/ws/task-result.txt",
        Text ("task_id=t" +:+ nl +:+ "agent=coder" +:+ nl +:+ "description=d" +:+ nl
              +:+ "completed_at=0001-01-01T00:00:00Z" +:+ nl)); ("/ws", Folder)])].
Proof. vm_compute. reflexivity. Qed.
