(* ===== verification/RunnerSpec.v ===== *)
(** * What running a task does ([runner/runner.go])

    The theorems about [Runner]: what an agent may do to the machine it runs on, when the
    reviewer is content, what the planner's plans are, and where the code does not do what
    it means to. *)
From S2P Require Import Prelude GoVal Json JsonText JsonValue Effects Domain Schema TaskStore.
From S2P Require Import Policy Objective Profile Plans Worker Machine Planner Runner.

(** ** What a task may do to the machine *)

(** A directory that a path names, relative ones from the working directory; and a cleaned
    path in it or below. *)
Definition names_directory (path root : string) : Prop :=
  if is_rooted path then root = path_clean path
  else ∃ wd, is_rooted wd = true ∧ root = path_join [wd; path].
Definition inside (root p : string) : Prop :=
  is_rooted p = true ∧ path_clean p = p ∧ split_on "/" root `prefix_of` split_on "/" p.
Definition in_workspace (workspace p : string) : Prop :=
  ∃ root, names_directory workspace root ∧ inside root p.

Section Confined.
Context {W : Type} `{Machine W}.
(** [os.Getwd] returns a rooted path. *)
Hypothesis getwd_rooted : ∀ w wd, (call_on _ Getwd w).1 = Ok wd → is_rooted wd = true.

Lemma Abs_run path w root w' :
  Abs path w = (Ok root, w') → names_directory path root ∧ is_rooted root = true ∧ path_clean root = root.
Proof.
  unfold Abs, names_directory. destruct (is_rooted path) eqn:Hp.
  - intros E. apply (f_equal fst) in E. injection E as <-.
    split_and!; [done|by apply path_clean_rooted|by apply path_clean_idemp].
  - unfold mbind, run_bind, call. pose proof (getwd_rooted w) as Hwd.
    destruct (call_on _ Getwd w) as [[wd|e] w1]; [|done].
    intros E. apply (f_equal fst) in E. injection E as <-.
    specialize (Hwd wd eq_refl). split; [by exists wd|].
    destruct (path_join_rooted wd [path] Hwd) as (s & Hs & ->).
    split; [by apply path_clean_rooted|by apply path_clean_idemp].
Qed.
Lemma safeResolve_run workspace raw w p w' :
  safeResolve workspace raw w = (Ok p, w') → in_workspace workspace p.
Proof.
  unfold safeResolve. unfold mbind at 1, run_bind at 1.
  destruct (Abs workspace w) as [[root|e] w1] eqn:Hroot; [|done].
  apply Abs_run in Hroot as (Hname & Hrooted & _).
  unfold mbind, run_bind. destruct (Abs _ w1) as [[candidate|e] w2] eqn:Hc; [|done].
  apply Abs_run in Hc as (_ & Hcr & Hcc).
  intros E. apply (f_equal fst) in E. cbn in E. revert E.
  destruct (negb (candidate =?s root) && negb (has_prefix (root +:+ "/") candidate)) eqn:Hesc; [done|].
  intros E. injection E as <-. exists root. split; [done|]. split_and!; [done|done|].
  apply split_prefix_of. apply andb_false_iff in Hesc as [He|He]; apply negb_false_iff in He.
  - left. by apply String.eqb_eq.
  - by right.
Qed.
End Confined.

(** Metadata that names no capabilities allows any. *)
Definition may_write (metadata : gmap_any) : Prop :=
  let allowed := runnerAllowedCapabilities metadata in
  allowed = ∅ ∨ "filesystem.write" ∈ allowed ∨ "filesystem" ∈ allowed.
Definition may (r : TaskRunner) (task : TaskResponse) {A} (c : os_call A) : Prop :=
  let agent := default "" (task_assigned_agent task) in
  let coder := agent = AgentTypeCoder ∧ needs_approval task = false in
  let request := default ∅ (tool_request task) in
  let tool := trim_space (asString (mget request "tool")) in
  let content := asString (mget request "content") in
  let workspace := coder_root task in
  match c with
  | MkdirAll p =>
      coder ∧ (p = workspace ∨ ∃ file, in_workspace workspace file ∧ p = path_dir file)
  | WriteFile p text =>
      coder ∧
      (p = report_file workspace ∧ coder_repo task = "" ∨
       in_workspace workspace p ∧ text = content ∧ may_write (task_metadata task) ∧
       (tool = "write_file" ∨ tool = "filesystem.write"))
  | OpenAppend p => coder ∧ in_workspace workspace p ∧ tool = "append_file"
  | WriteString p text =>
      coder ∧ in_workspace workspace p ∧ text = content ∧ tool = "append_file"
  | Command dir argv _ =>
      coder ∧ coder_repo task ≠ "" ∧ argv = aider_command r task (coder_repo task) ∨
      agent = AgentTypeReviewer ∧
      in_workspace (firstNonEmptyMetadata (task_metadata task) ["workspace_root"]) dir
  | Exec _ _ _ | ExecWith _ _ _ _ => False
  | Query _ => tr_research r = true ∧ (agent = AgentTypePlanner ∨ agent = AgentTypeResearcher)
  | Post _ _ _ => agent = AgentTypePlanner ∧ is_Some (tr_planner r)
  | Getwd | Now | Stat _ | ReadFile _ | Probe _ | Snapshot => True
  end.

Lemma capability_allowed metadata tool :
  tool = "write_file" ∨ tool = "filesystem.write" →
  ensureRunnerToolCapabilityAllowed metadata tool = None ↔ may_write metadata.
Proof.
  intros Htool. unfold ensureRunnerToolCapabilityAllowed, may_write.
  assert (trim_space (default "" (runnerToolCapabilityMap !! tool)) = "filesystem.write") as ->
    by (by destruct Htool as [-> | ->]).
  cbn zeta. change ("filesystem.write" =?s "") with false.
  change (has_prefix "filesystem." "filesystem.write") with true. cbn [andb].
  repeat case_bool_decide; naive_solver.
Qed.

Section Confinement.
Context {W : Type} `{Machine W} (json_error : string → string) (r : TaskRunner).
Context (R : relation W) `{!PreOrder R} (task : TaskResponse).
Hypothesis getwd_rooted : ∀ w wd, (call_on _ Getwd w).1 = Ok wd → is_rooted wd = true.
Hypothesis calls : ∀ A (c : os_call A) w, may r task c → R w (call_on A c w).2.

Ltac keep := keep_with calls.

Lemma Abs_keeps path : keeps R (Abs path).
Proof. unfold Abs. keep. Qed.
#[local] Hint Resolve Abs_keeps : keeps.
Lemma safeResolve_keeps workspace raw : keeps R (safeResolve workspace raw).
Proof. unfold safeResolve. keep. Qed.
Lemma hasGit_keeps root : keeps R (workspaceHasGitRepo root).
Proof. unfold workspaceHasGitRepo. keep. Qed.
Lemma load_keeps root : keeps R (loadRunnerBenchmarkRepoWorkflowProfile root).
Proof. unfold loadRunnerBenchmarkRepoWorkflowProfile. keep. Qed.
#[local] Hint Resolve safeResolve_keeps hasGit_keeps load_keeps : keeps.
Lemma root_keeps metadata given : keeps R (repoWorkflowRoot metadata given).
Proof. unfold repoWorkflowRoot, explicitRepoWorkflowRequested. keep. Qed.
#[local] Hint Resolve root_keeps : keeps.
Lemma fixed_plan_keeps metadata : keeps R (fixed_plan metadata).
Proof. unfold fixed_plan, detectRunnerRepoWorkflowProfile. keep. Qed.
#[local] Hint Resolve fixed_plan_keeps : keeps.

Lemma ask_keeps question :
  default "" (task_assigned_agent task) = AgentTypePlanner ∨
  default "" (task_assigned_agent task) = AgentTypeResearcher → keeps R (ask r question).
Proof. intros Hagent. unfold ask. keep. by split. Qed.
Lemma executePlanner_keeps :
  default "" (task_assigned_agent task) = AgentTypePlanner → keeps R (executePlanner json_error r task).
Proof.
  intros Hagent. pose proof (ask_keeps (task_description task) (or_introl Hagent)).
  unfold executePlanner, CreatePlan. keep; by split; [|eexists].
Qed.
Lemma executeResearcher_keeps :
  default "" (task_assigned_agent task) = AgentTypeResearcher → keeps R (executeResearcher r task).
Proof.
  intros Hagent. pose proof (ask_keeps (task_description task) (or_intror Hagent)).
  unfold executeResearcher. keep.
Qed.

(** Steps that all may be taken. *)
Lemma attempt_all_keeps steps result :
  Forall (λ c, may r task c) steps → keeps R (attempt_all steps result).
Proof.
  induction 1 as [|c steps Hc Hsteps IH]; cbn [attempt_all]; keep; exact Hc.
Qed.
Lemma executeToolRequest_keeps request :
  default "" (task_assigned_agent task) = AgentTypeCoder → needs_approval task = false →
  tool_request task = Some request →
  keeps R (executeToolRequest (coder_root task) (task_metadata task) request).
Proof.
  intros Hagent Happ Hreq.
  assert (Hwrite : ∀ what steps result,
    (∀ path, in_workspace (coder_root task) path →
       Forall (λ c, may r task c) (steps path (asString (mget request "content")))) →
    keeps R (write_request (coder_root task) request what steps result)).
  { intros what steps result Hsteps. unfold write_request. cbv zeta.
    case_match; [keep|]. apply keeps_bind; [exact _|apply safeResolve_keeps|].
    intros w [path|e] w' Hrun; [|keep].
    apply (safeResolve_run getwd_rooted) in Hrun. apply attempt_all_keeps.
    constructor; [|by apply Hsteps]. split; [done|]. right. by exists path. }
  unfold executeToolRequest. cbv zeta.
  destruct (ensureRunnerToolCapabilityAllowed _ _) as [e|] eqn:Hcap; [keep|].
  destruct (_ || _) eqn:Htool.
  - apply orb_true_iff in Htool. rewrite !String.eqb_eq in Htool.
    apply (capability_allowed _ _ Htool) in Hcap.
    apply keeps_bind; [exact _|apply Hwrite|intros ? ? ? ?; keep]. intros path Hpath.
    apply Forall_singleton. split; [done|]. right. rewrite Hreq. done.
  - case_match eqn:Happend; [|keep]. apply String.eqb_eq in Happend.
    apply keeps_bind; [exact _|apply Hwrite|intros ? ? ? ?; keep]. intros path Hpath.
    apply Forall_cons. split; [|apply Forall_singleton]; (split; [done|]); rewrite Hreq; done.
Qed.
Lemma executeCoder_keeps :
  default "" (task_assigned_agent task) = AgentTypeCoder → keeps R (executeCoder r task).
Proof.
  intros Hagent. unfold executeCoder.
  destruct (needs_approval task) eqn:Happ; [keep|].
  pose proof executeToolRequest_keeps as Htool.
  unfold write_report, executeAiderTask.
  keep; first
    [ by split; [|left]
    | split; [done|]; left; split; [done|by apply String.eqb_eq]
    | left; split; [done|]; split; [by apply String.eqb_neq|done] ].
Qed.
Lemma missing_keeps root files : keeps R (missing_files root files).
Proof. induction files; cbn [missing_files]; keep. Qed.
#[local] Hint Resolve missing_keeps : keeps.
Lemma executeReviewer_keeps :
  default "" (task_assigned_agent task) = AgentTypeReviewer → keeps R (executeReviewer task).
Proof.
  intros Hagent. unfold executeReviewer, runCommandInDir. keep.
  right. split; [done|]. subst.
  match goal with Hrun : safeResolve _ _ _ = _ |- _ => by apply (safeResolve_run getwd_rooted) in Hrun end.
Qed.
End Confinement.

(** C20: what running a task may do to the machine, whatever the machine answers.  Only the
    coder writes files, and not for a task that requires an approval which was not asked
    for yet (whether it was given is not looked at): directories on the way to its files,
    the report in its workspace, or the file its tool names, which lies in the workspace by
    its cleaned path; a write by the write tool needs the capability.  Only the reviewer
    runs commands, inside the workspace, and the coder the one command of aider.  So a
    relation that these calls respect is respected by the whole run. *)
Theorem Execute_confined {W : Type} `{Machine W} (R : relation W) `{!PreOrder R} json_error r task :
  (∀ w wd, (call_on _ Getwd w).1 = Ok wd → is_rooted wd = true) →
  (∀ A (c : os_call A) w, may r task c → R w (call_on A c w).2) →
  keeps R (Execute json_error r task).
Proof.
  intros Hwd Hcalls. unfold Execute. cbv zeta.
  destruct (String.eqb_spec (default "" (task_assigned_agent task)) AgentTypePlanner);
    [by apply executePlanner_keeps|].
  destruct (String.eqb_spec (default "" (task_assigned_agent task)) AgentTypeResearcher);
    [by apply executeResearcher_keeps|].
  destruct (String.eqb_spec (default "" (task_assigned_agent task)) AgentTypeCoder);
    [by apply executeCoder_keeps|].
  destruct (String.eqb_spec (default "" (task_assigned_agent task)) AgentTypeReviewer);
    [by eapply executeReviewer_keeps|].
  apply keeps_ret, _.
Qed.

(** On a machine with files, the texts outside a directory stay. *)
Definition outside (root : string) (fs fs' : Files) : Prop :=
  ∀ q c, ¬ split_on "/" root `prefix_of` split_on "/" q → fs !! q = Some (Text c) ↔ fs' !! q = Some (Text c).
#[export] Instance outside_preorder root : PreOrder (outside root).
Proof.
  split; [by intros fs q c _|]. intros fs1 fs2 fs3 H12 H23 q c Hq.
  by rewrite (H12 q c Hq), (H23 q c Hq).
Qed.
Lemma make_folders_text l fs q c :
  (make_folders l fs).2 !! q = Some (Text c) ↔ fs !! q = Some (Text c).
Proof.
  revert fs. induction l as [|p l IH]; intros fs; [done|]. cbn [make_folders].
  destruct (fs !! p) as [[|t]|] eqn:Hp; [|done|]; rewrite IH;
    (destruct (decide (q = p)) as [->|Hne];
     [by rewrite lookup_insert_eq, Hp|by rewrite lookup_insert_ne]).
Qed.
Lemma write_text_outside root p f fs :
  inside root p → outside root fs (write_text p f fs).2.
Proof.
  intros (_ & Hclean & Hin) q c Hq. unfold write_text. rewrite Hclean.
  destruct (is_folder fs p); [done|]. destruct (negb _); [done|]. cbn [snd]. rewrite lookup_insert_ne; [done|]. by intros ->.
Qed.
Lemma file_machine_outside wd clock run r task root A (c : os_call A) fs :
  let machine := file_machine wd clock run in
  coder_root task = root → is_rooted root = true → path_clean root = root →
  inside root (report_file root) →
  may r task c → outside root fs (machine A c fs).2.
Proof.
  intros machine Hroot Hrooted Hclean Hreport Hmay.
  assert (Hin : ∀ p, in_workspace (coder_root task) p → inside root p).
  { intros p (d & Hd & Hp). unfold names_directory in Hd. rewrite Hroot, Hrooted, Hclean in Hd.
    by subst d. }
  destruct c as [| | | | |p text|p|p text| | | | | | |]; try done; cbn [machine file_machine snd].
  - intros q c' _. by rewrite make_folders_text.
  - apply write_text_outside. destruct Hmay as [_ [[-> _]|[Hp _]]]; [by rewrite Hroot|by apply Hin].
  - apply write_text_outside. destruct Hmay as (_ & Hp & _). by apply Hin.
  - apply write_text_outside. destruct Hmay as (_ & Hp & _). by apply Hin.
Qed.
Lemma Execute_confined_witness :
  let task := demo_task AgentTypeCoder (write_demo "write_file" "a/../b.txt") in
  keeps (outside "/ws") (demo_run task) ∧ (demo_run task ∅).2 !! "/ws/b.txt" = Some (Text "x").
Proof.
  split; [|vm_compute; reflexivity].
  apply (Execute_confined (H := demo_machine) (outside "/ws")).
  - intros w wd E. injection E as <-. reflexivity.
  - intros A c w Hmay.
    apply (file_machine_outside "/" 0 (λ _ _, MkCommandResult "" (Some 0) None false) demo_runner
      (demo_task AgentTypeCoder (write_demo "write_file" "a/../b.txt"))); try reflexivity; [|exact Hmay].
    split_and!; [reflexivity|reflexivity|by exists ["task-result.txt"]].
Defined.

(** ** The verdict of the reviewer *)
Definition reading {A} (c : os_call A) : Prop :=
  match c with Getwd | Now | Stat _ | ReadFile _ => True | _ => False end.
Definition review_files (request : gmap_any) : list string :=
  anyStringSliceDefault (mget request "expected_files")
    (expectedProjectFiles (firstNonEmptyMetadata request ["project_type"])).
Definition review_command (request : gmap_any) : list string :=
  anyStringSliceDefault (mget request "test_command")
    (defaultProjectTestCommand (firstNonEmptyMetadata request ["project_type"])
       (firstNonEmptyMetadata request ["runtime_or_stack"])).

Lemma anyStringSliceDefault_nonempty v fallback :
  fallback ≠ [] → anyStringSliceDefault v fallback ≠ [].
Proof.
  intros Hf. unfold anyStringSliceDefault. destruct v as [| | | | | |[|? ?]|l| | | |]; try done.
  by destruct (filter _ _).
Qed.
Lemma review_command_nonempty request : review_command request ≠ [].
Proof.
  apply anyStringSliceDefault_nonempty. unfold defaultProjectTestCommand. cbv zeta.
  by repeat case_match.
Qed.
Lemma verdict_status root expected missing argv run :
  rr_status (verdict root expected missing argv run) =
  if bool_decide (missing = []) && match run with Some (_, _, _, Some _) => false | _ => true end
  then "success" else "error".
Proof. destruct run as [[[[? ?] ?] [e|]]|], missing; reflexivity. Qed.

Section Review.
Context {W : Type} `{Machine W}.
Hypothesis reads : ∀ A (c : os_call A) w, reading c → (call_on A c w).2 = w.

Definition found (w : W) (p : string) : Prop := ∃ b, (call_on _ (Stat p) w).1 = Ok b.
Lemma call_read {A} (c : os_call A) w : reading c → call c w = ((call_on A c w).1, w).
Proof. intros Hc. unfold call. rewrite (surjective_pairing (call_on A c w)). by rewrite (reads _ c w Hc). Qed.
Lemma Abs_read p w : (Abs p w).2 = w.
Proof.
  unfold Abs. destruct (is_rooted p); [done|]. unfold mbind, run_bind.
  by rewrite call_read.
Qed.
Lemma safeResolve_read workspace raw w : (safeResolve workspace raw w).2 = w.
Proof.
  unfold safeResolve. unfold mbind at 1, run_bind at 1.
  pose proof (Abs_read workspace w) as Hw. destruct (Abs workspace w) as [[root|e] w1]; cbn in Hw; subst; [|done].
  unfold mbind, run_bind. set (c := if is_rooted raw then _ else _).
  pose proof (Abs_read c w) as Hw. by destruct (Abs c w) as [? ?].
Qed.
Lemma missing_files_read root files w :
  ∃ missing, missing_files root files w = (missing, w) ∧
    (missing = [] ↔ Forall (λ rel, found w (path_join [root; rel])) files).
Proof.
  induction files as [|rel files (missing & IH & Hm)]; cbn [missing_files].
  - exists []. by rewrite Forall_nil.
  - eexists. unfold mbind, run_bind. rewrite call_read, IH by done. split; [reflexivity|].
    rewrite Forall_cons, <- Hm. unfold found.
    destruct (call_on _ (Stat (path_join [root; rel])) w).1 as [b|e]; naive_solver.
Qed.

Lemma rejected result (P : Prop) :
  rr_status result = "error" → ¬ P →
  (rr_status result = "success" ∨ rr_status result = "error") ∧ (rr_status result = "success" ↔ P).
Proof. intros -> HP. split; [by right|]. by split. Qed.
Lemma accepted result (P : Prop) :
  rr_status result = "success" → P →
  (rr_status result = "success" ∨ rr_status result = "error") ∧ (rr_status result = "success" ↔ P).
Proof. intros -> HP. split; [by left|]. by split. Qed.

(** On a machine where looking changes nothing, the reviewer is content exactly when the
    request and its workspace are given, the project is a directory of the workspace,
    every expected file is there and the test command, of which there is always one,
    ends without an error; else it reports an error. *)
Theorem executeReviewer_spec task w :
  let workspace := firstNonEmptyMetadata (task_metadata task) ["workspace_root"] in
  let result := (executeReviewer task w).1 in
  (rr_status result = "success" ∨ rr_status result = "error") ∧
  (rr_status result = "success" ↔
   ∃ request root,
     only_map (mget (task_metadata task) "project_request") = Some request ∧
     workspace ≠ "" ∧ (safeResolve workspace (project_input request) w).1 = Ok root ∧
     (call_on _ (Stat root) w).1 = Ok true ∧
     Forall (λ rel, found w (path_join [root; rel])) (review_files request) ∧
     cr_error (call_on _ (Command root (review_command request) None) w).1 = None).
Proof.
  cbn zeta. remember (executeReviewer task w).1 as result eqn:Hresult.
  unfold executeReviewer in Hresult. cbv zeta in Hresult.
  destruct (only_map _) as [request|] eqn:Hreq;
    [|apply rejected; [by rewrite Hresult|]; by intros (? & ? & ? & _)].
  destruct (String.eqb_spec (firstNonEmptyMetadata (task_metadata task) ["workspace_root"]) "")
    as [Hws|Hws]; [apply rejected; [by rewrite Hresult|]; by intros (? & ? & _ & ? & _)|].
  unfold mbind at 1, run_bind at 1 in Hresult.
  pose proof (safeResolve_read (firstNonEmptyMetadata (task_metadata task) ["workspace_root"])
    (project_input request) w) as Hw.
  destruct (safeResolve _ _ w) as [[root|e] w1] eqn:Hres; cbn [snd] in Hw; subst w1;
    [|apply rejected; [by rewrite Hresult|]; intros (? & ? & [= <-] & _ & Hr & _); by rewrite Hres in Hr].
  unfold mbind at 1, run_bind at 1 in Hresult. rewrite call_read in Hresult by done.
  destruct (call_on _ (Stat root) w).1 as [[]|e] eqn:Hstat;
    [|apply rejected; [by rewrite Hresult|]; intros (? & ? & [= <-] & _ & Hr & Hs & _);
      rewrite Hres in Hr; injection Hr as <-; congruence..].
  fold (review_files request) (review_command request) in Hresult.
  destruct (missing_files_read root (review_files request) w) as (missing & Hmiss & Hm).
  unfold mbind at 1, run_bind at 1 in Hresult. rewrite Hmiss in Hresult.
  pose proof (review_command_nonempty request) as Hcmd.
  destruct (review_command request) as [|c l] eqn:Hc; [done|].
  unfold runCommandInDir, mbind, run_bind, call in Hresult.
  destruct (call_on _ (Command root (c :: l) None) w) as [outcome w1] eqn:Hrun.
  destruct (cr_error outcome) as [e|] eqn:He;
    [|destruct (decide (missing = [])) as [Hnil|Hnil]].
  - apply rejected; [by rewrite Hresult; cbn [mret run_ret fst]; rewrite verdict_status, andb_false_r|].
    intros (? & ? & [= <-] & _ & Hr & _ & _ & Herr). rewrite Hres in Hr. injection Hr as <-.
    rewrite Hc, Hrun in Herr. cbn in Herr. congruence.
  - apply accepted; [by rewrite Hresult; cbn [mret run_ret fst]; rewrite verdict_status, bool_decide_eq_true_2|].
    exists request, root. split_and!; try done; [by rewrite Hres|by apply Hm|by rewrite Hc, Hrun].
  - apply rejected; [by rewrite Hresult; cbn [mret run_ret fst]; rewrite verdict_status, bool_decide_eq_false_2|].
    intros (? & ? & [= <-] & _ & Hr & _ & Hall & _). rewrite Hres in Hr. injection Hr as <-.
    by apply Hm in Hall.
Qed.
End Review.

Lemma executeReviewer_spec_witness :
  let task := demo_task AgentTypeReviewer
    {["workspace_root" := VStr "/ws";
      "project_request" := VMap {["project_name" := VStr "p"; "expected_files" := VStrs ["a"]]}]} in
  let fs : Files := {["/ws" := Folder; "/ws/p" := Folder; "/ws/p/a" := Text ""]} in
  rr_status (executeReviewer (H := demo_machine) task fs).1 = "success".
Proof.
  apply (executeReviewer_spec (H := demo_machine)).
  - intros A c w Hc. by destruct c.
  - eexists _, "/ws/p". split_and!; [reflexivity|by vm_compute|reflexivity|reflexivity| |reflexivity].
    apply Forall_singleton. by exists false.
Defined.

(** ** The fixed plans *)
Lemma entries_lookup l (m : gmap_any) key :
  key ∉ l.*1 → entries_unless_empty l m !! key = m !! key.
Proof.
  unfold entries_unless_empty. revert m. induction l as [|[k v] l IH]; intros m; [done|].
  cbn [foldl fmap list_fmap fst snd]. rewrite not_elem_of_cons. intros [Hk Hl]. rewrite IH by done.
  destruct (v =?s ""); [done|]. by rewrite lookup_insert_ne.
Qed.
Definition step_read (title description agent : string) (approval : bool) (metadata : gmap_any)
    (tool_request : gval) : plannerSubtask :=
  MkSubtask (trim_space title) (trim_space description) (trim_space agent) PriorityNormal
    ExecutionTargetLocal approval (only_map tool_request) (Some metadata).
Lemma parse_steps l :
  parsePlannerSubtasks (VMaps ((λ '(title, description, agent, approval, metadata, tool_request),
    plan_step title description agent approval metadata tool_request) <$> l)) =
  (λ '(title, description, agent, approval, metadata, tool_request),
    step_read title description agent approval metadata tool_request) <$> l.
Proof.
  unfold parsePlannerSubtasks, map_slice. rewrite <- list_fmap_compose.
  apply list_fmap_ext. intros i [[[[[title description] agent] approval] metadata] request] _.
  reflexivity.
Qed.
Lemma child_metadata task idx spec metadata key v :
  ps_metadata spec = Some metadata → key ≠ "tool_request" → metadata !! key = Some v →
  subtask_metadata task idx spec !! key = Some v.
Proof.
  intros Hm Hkey Hv. unfold subtask_metadata. rewrite Hm. cbn [default].
  destruct (ps_tool_request spec) as [request|]; [rewrite lookup_insert_ne by done|];
    by apply lookup_union_Some_l.
Qed.
Lemma child_metadata_absent task idx spec metadata key :
  ps_metadata spec = Some metadata →
  key ∉ ["title"; "requires_approval"; "planner_generated"; "parent_task_id"; "entrypoint";
         "workspace_root"; "allowed_capabilities"; "tool_request"] →
  metadata !! key = None → subtask_metadata task idx spec !! key = None.
Proof.
  intros Hm Hkey Hnone. rewrite !not_elem_of_cons in Hkey.
  destruct Hkey as (? & ? & ? & ? & ? & ? & ? & ? & _).
  unfold subtask_metadata. rewrite Hm. cbn [default].
  assert (Hbase : ∀ a b c d e f g, (metadata ∪ list_to_map
    [("title", a); ("requires_approval", b); ("planner_generated", c); ("parent_task_id", d);
     ("entrypoint", e); ("workspace_root", f); ("allowed_capabilities", g)] : gmap_any) !! key = None).
  { intros. apply lookup_union_None. split; [done|]. cbn [list_to_map foldr uncurry].
    by rewrite !lookup_insert_ne by done. }
  destruct (ps_tool_request spec) as [request|]; [rewrite lookup_insert_ne by done|]; apply Hbase.
Qed.

(** What the three steps of a fixed plan are, as the worker reads them: [gated] is whether
    the edit waits for an approval, [files] what the review looks for. *)
Record three_steps (steps : list plannerSubtask) (gated : bool) (files : list string) : Prop := {
  ts_agents : ps_assigned_agent <$> steps = [AgentTypeResearcher; AgentTypeCoder; AgentTypeReviewer];
  ts_targets : Forall (λ s, ps_execution_target s = ExecutionTargetLocal) steps;
  ts_approvals : ps_requires_approval <$> steps = [false; gated; false];
  ts_files : files ≠ [];
  ts_review : ∃ review tool, last steps = Some review ∧ ps_tool_request review = Some tool ∧
    mget tool "expected_files" = VStrs files ∧
    ∀ parent idx, ∃ request,
      subtask_metadata parent idx review !! "project_request" = Some (VMap request) ∧
      review_files request = files;
}.
(** The task the worker makes of the edit asks for an approval before anything else. *)
Definition edit_asks_first (steps : list plannerSubtask) : Prop :=
  ∃ edit, steps !! 1%nat = Some edit ∧
    ∀ parent idx task, task_metadata task = subtask_metadata parent idx edit →
      needs_approval task = true.
Definition planned_steps (plan : RunResult) : list plannerSubtask :=
  parsePlannerSubtasks (mget (default ∅ (rr_results plan)) "subtasks").
Definition planned_flow (plan : RunResult) : gval := mget (default ∅ (rr_results plan)) "project_flow".

Lemma repo_request_files given p : expected p ≠ [] → review_files (repo_project_request given p) = expected p.
Proof.
  intros Hne. unfold review_files, repo_project_request, mget.
  rewrite entries_lookup by (apply (bool_decide_unpack _); by vm_compute).
  set (m := obj _). assert ((m ∪ default ∅ given) !! "expected_files" = Some (VStrs (expected p))) as ->
    by (apply lookup_union_Some_l; reflexivity).
  cbn [default]. unfold anyStringSliceDefault. by destruct (expected p).
Qed.
Lemma boilerplate_files_nonempty given : boilerplate_files given ≠ [].
Proof. unfold boilerplate_files, expectedProjectFiles. cbv zeta. by repeat case_match. Qed.
Lemma boilerplate_request_files given :
  review_files (boilerplate_request given) = boilerplate_files given.
Proof.
  unfold review_files, boilerplate_request, mget. set (m := obj _).
  assert ((m ∪ given) !! "expected_files" = Some (VStrs (boilerplate_files given))) as ->
    by (apply lookup_union_Some_l; reflexivity).
  cbn [default]. pose proof (boilerplate_files_nonempty given). unfold anyStringSliceDefault.
  by destruct (boilerplate_files given).
Qed.

Section ReadThree.
Context (t1 d1 t2 d2 t3 d3 : string) (m1 m2 m3 : gmap_any) (q1 q2 : gval) (gated : bool).
Context (tool request : gmap_any) (files : list string).
Let given_steps :=
  [plan_step t1 d1 AgentTypeResearcher false m1 q1; plan_step t2 d2 AgentTypeCoder gated m2 q2;
   plan_step t3 d3 AgentTypeReviewer false m3 (VMap tool)].
Lemma read_three :
  files ≠ [] → mget tool "expected_files" = VStrs files →
  m3 !! "project_request" = Some (VMap request) → review_files request = files →
  three_steps (parsePlannerSubtasks (VMaps given_steps)) gated files.
Proof.
  intros Hne Htool Hm3 Hfiles.
  change (VMaps given_steps) with (VMaps ((λ '(title, description, agent, approval, metadata, tool_request),
    plan_step title description agent approval metadata tool_request) <$>
    [(t1, d1, AgentTypeResearcher, false, m1, q1); (t2, d2, AgentTypeCoder, gated, m2, q2);
     (t3, d3, AgentTypeReviewer, false, m3, VMap tool)])).
  rewrite parse_steps. cbn [fmap list_fmap]. split; try done.
  - repeat constructor.
  - exists (step_read t3 d3 AgentTypeReviewer false m3 (VMap tool)), tool.
    split_and!; [reflexivity|reflexivity|exact Htool|]. intros parent idx. exists request.
    split; [|exact Hfiles]. by apply (child_metadata _ _ _ m3).
Qed.
Lemma read_three_gate :
  m2 !! "requires_approval" = Some (VBool true) → m2 !! "approval_requested" = None →
  edit_asks_first (parsePlannerSubtasks (VMaps given_steps)).
Proof.
  intros Hreq Happ. exists (step_read t2 d2 AgentTypeCoder gated m2 q2). split; [reflexivity|].
  intros parent idx task Hmeta. unfold needs_approval, mget. rewrite Hmeta.
  set (edit := step_read _ _ _ _ _ _).
  assert (subtask_metadata parent idx edit !! "requires_approval" = Some (VBool true)) as ->
    by (by apply (child_metadata _ _ _ m2)).
  assert (subtask_metadata parent idx edit !! "approval_requested" = None) as ->; [|done].
  apply (child_metadata_absent _ _ _ m2); [done| |done].
  apply (bool_decide_unpack _). by vm_compute.
Qed.
End ReadThree.

(** The case of a repository leaves the other metadata of a step alone. *)
Lemma benchmark_lookup m p key :
  key ∈ ["project_request"; "tool_request"; "requires_approval"; "approval_requested"] →
  applyBenchmarkMetadata m p !! key = m !! key.
Proof.
  intros Hkey. apply entries_lookup. cbn [fmap list_fmap app case_entries fst].
  revert key Hkey. apply Forall_forall. apply (bool_decide_unpack _). by vm_compute.
Qed.
Lemma repo_plan_steps given root p :
  expected p ≠ [] → three_steps (planned_steps (repo_plan given root p)) true (expected p).
Proof.
  intros Hp. unfold planned_steps.
  change (mget _ "subtasks") with (VMaps (repo_subtasks given root p)).
  unfold repo_subtasks, step_of.
  unfold mget at 3. unfold repo_reviewer_metadata at 2. rewrite benchmark_lookup by set_solver.
  apply (read_three _ _ _ _ _ _ _ _ _ _ _ _ _ (repo_project_request given p)); [done|reflexivity| |].
  - unfold repo_reviewer_metadata. rewrite benchmark_lookup by set_solver. reflexivity.
  - by apply repo_request_files.
Qed.
Lemma repo_plan_gate given root p : edit_asks_first (planned_steps (repo_plan given root p)).
Proof.
  unfold planned_steps. change (mget _ "subtasks") with (VMaps (repo_subtasks given root p)).
  unfold repo_subtasks, step_of.
  unfold mget at 3. unfold repo_reviewer_metadata at 2. rewrite benchmark_lookup by set_solver.
  apply read_three_gate; unfold repo_coder_metadata; rewrite benchmark_lookup by set_solver; reflexivity.
Qed.
Lemma boilerplate_plan_steps metadata given :
  three_steps (planned_steps (boilerplate_plan metadata given))
    (as_bool (mget metadata "requires_approval")) (boilerplate_files given).
Proof.
  unfold planned_steps.
  change (mget _ "subtasks") with (VMaps (boilerplate_subtasks metadata given)).
  apply (read_three _ _ _ _ _ _ _ _ _ _ _ _ _ (boilerplate_request given));
    [apply boilerplate_files_nonempty|reflexivity|reflexivity|apply boilerplate_request_files].
Qed.

Lemma runner_profile_files {W} `{Machine W} root w p w' :
  detectRunnerRepoWorkflowProfile root w = (p, w') → expected p ≠ [].
Proof.
  unfold detectRunnerRepoWorkflowProfile, loadRunnerBenchmarkRepoWorkflowProfile, mbind, run_bind.
  destruct (call _ w) as [[raw|e] w1]; cbn [mret run_ret].
  - destruct (decodeBenchmarkRepoWorkflowProfile raw root) as [q|] eqn:Hq.
    + intros E. injection E as <- _. by apply decode_profile_ok in Hq as [].
    + destruct (equal_fold _ _); intros E; by injection E as <- _.
  - destruct (equal_fold _ _); intros E; by injection E as <- _.
Qed.
(** A fixed plan: of a repository, whose edit always waits, or of a new project, whose edit
    waits when the task says so. *)
Definition fixed_steps (metadata : gmap_any) (plan : RunResult) : Prop :=
  ∃ gated files, three_steps (planned_steps plan) gated files ∧
    (planned_flow plan = VStr "repo_workflow_v1" ∧ gated = true ∧
       edit_asks_first (planned_steps plan) ∨
     planned_flow plan = VStr "boilerplate_v1" ∧
       gated = as_bool (mget metadata "requires_approval")).
Lemma fixed_plan_steps {W} `{Machine W} metadata w plan w' :
  fixed_plan metadata w = (Some plan, w') → fixed_steps metadata plan.
Proof.
  unfold fixed_plan. cbv zeta. unfold mbind at 1, run_bind at 1.
  destruct (repoWorkflowRoot metadata _ w) as [root w1]. destruct (negb _).
  - unfold mbind, run_bind. destruct (detectRunnerRepoWorkflowProfile root w1) as [p w2] eqn:Hp.
    intros E. injection E as <- _. exists true, (expected p). split.
    + by apply repo_plan_steps, (runner_profile_files root w1 p w2).
    + left. split_and!; [reflexivity|done|apply repo_plan_gate].
  - destruct (only_map _) as [request|]; [|done].
    unfold mbind, run_bind. destruct (repoWorkflowRoot metadata _ w1) as [again w2].
    destruct (again =?s ""); intros E; [|done]. injection E as <- _.
    eexists _, (boilerplate_files request). split; [apply boilerplate_plan_steps|]. by right.
Qed.

(** The plan a model wrote, in the answer to a request: its first choice, without the fence
    around it, is a document with a summary and a plan that are not blank; a document in
    its plain form says its fields, the subtasks as they are. *)
Definition plain_plan (summary plan : string) (subtasks : list jval) : jval :=
  JObj [("summary", JStr summary); ("plan", JStr plan); ("subtasks", JArr subtasks)].
Definition plain_choice (content : string) : jval :=
  JObj [("choices", JArr [JObj [("message", JObj [("content", JStr content)])]])].
Definition first_content (payload content : string) : Prop :=
  (∃ v rest, parse payload = Some v ∧ read_completion v = Some (content :: rest)) ∧
  ∀ raw, parse payload = Some (plain_choice raw) → content = unquote raw.
Definition document_says (document : string) (plan : PlanResult) : Prop :=
  (∃ v p, parse document = Some v ∧ read_object read_field no_result v = Some p ∧
     plan = p <| pr_raw := document |>) ∧
  ∀ summary text subtasks, parse document = Some (plain_plan summary text subtasks) →
    pr_summary plan = unquote summary ∧ pr_plan plan = unquote text ∧
    ∃ maps, pr_subtasks plan = Some maps ∧ Forall2 (λ v m, map_of v = Some m) subtasks maps.
Definition model_wrote (answer : res (Z * string)) (plan : PlanResult) : Prop :=
  ∃ status body content, answer = Ok (status, body) ∧ 200 <= status < 300 ∧
    first_content (if slen body <=? body_limit then body else stake (Z.to_nat body_limit) body) content ∧
    blank content = false ∧ document_says (stripCodeFence content) plan ∧
    blank (pr_summary plan) = false ∧ blank (pr_plan plan) = false.
(** A result that passes a plan on. *)
Definition tells_plan (result : RunResult) (plan : PlanResult) (planOnly : bool) : Prop :=
  rr_status result = "success" ∧ rr_results result = Some (list_to_map
    [("status", VStr "success"); ("plan_summary", VStr (pr_summary plan));
     ("plan_markdown", VStr (pr_plan plan));
     ("subtasks", match pr_subtasks plan with Some maps => VMaps maps | None => VNil end);
     ("raw_response", VStr (pr_raw plan)); ("plan_only", VBool planOnly)]).

Lemma read_subtasks_maps l ms :
  read_subtasks [] l = Some ms → Forall2 (λ v m, map_of v = Some m) l ms.
Proof.
  revert ms. induction l as [|v l IH]; intros ms; cbn [read_subtasks head tail default].
  { intros E. injection E as <-. constructor. }
  destruct (read_subtask ∅ v) as [m|] eqn:Hm; [|done].
  destruct (read_subtasks [] l) as [ms'|]; [|done]. intros E. injection E as <-.
  constructor; [|by apply IH]. unfold read_subtask in Hm. destruct v; try by injection Hm as <-.
  all: destruct (map_of _) as [m'|]; [|done]; injection Hm as <-; by rewrite map_union_empty.
Qed.
Lemma plain_plan_read summary plan subtasks p :
  read_object read_field no_result (plain_plan summary plan subtasks) = Some p →
  pr_summary p = unquote summary ∧ pr_plan p = unquote plan ∧
  ∃ maps, pr_subtasks p = Some maps ∧ Forall2 (λ v m, map_of v = Some m) subtasks maps.
Proof.
  assert (∀ r v, read_field "summary" r v
    = (λ s, r <| pr_summary := s |>) <$> text_value (pr_summary r) v) as Hs by done.
  assert (∀ r v, read_field "plan" r v
    = (λ s, r <| pr_plan := s |>) <$> text_value (pr_plan r) v) as Hp by done.
  assert (∀ r l, read_field "subtasks" r (JArr l) = (λ ms, r <| pr_subtasks := Some ms |>)
    <$> read_subtasks (default [] (pr_subtasks r)) l) as Hl by done.
  assert (fold_ascii (unquote "summary") = "summary") as Es by (vm_compute; done).
  assert (fold_ascii (unquote "plan") = "plan") as Ep by (vm_compute; done).
  assert (fold_ascii (unquote "subtasks") = "subtasks") as El by (vm_compute; done).
  unfold plain_plan, read_object. cbn [read_entries]. rewrite Es, Hs, Ep. cbn [text_value fmap option_fmap option_map].
  rewrite Hp, El. cbn [text_value fmap option_fmap option_map]. rewrite Hl.
  match goal with |- context [default [] (pr_subtasks ?r)] =>
    change (default [] (pr_subtasks r)) with (@nil gmap_any) end.
  destruct (read_subtasks _ subtasks) as [ms|] eqn:E; [|done].
  intros Hread. injection Hread as <-. split_and!; [done..|]. exists ms. split; [done|].
  by apply read_subtasks_maps.
Qed.
Lemma plain_choice_read payload raw v l :
  parse payload = Some v → read_completion v = Some l → parse payload = Some (plain_choice raw) →
  l = [unquote raw].
Proof. intros Hv Hl Hp. rewrite Hp in Hv. injection Hv as <-. cbn in Hl. by injection Hl as <-. Qed.

(** Reading an answer finds the plan the model wrote, and fails only when there is none. *)
Lemma read_plan_says json_error document :
  match read_plan json_error document with
  | Ok plan => document_says document plan ∧ blank (pr_summary plan) = false ∧ blank (pr_plan plan) = false
  | Err _ => ∀ plan, document_says document plan → blank (pr_summary plan) = false → blank (pr_plan plan) = true
  end.
Proof.
  unfold read_plan. destruct (parse document) as [v|] eqn:Hv.
  2:{ intros plan [(v & p & Hx & _) _]. congruence. }
  destruct (read_object read_field no_result v) as [p|] eqn:Hp.
  2:{ intros plan [(v' & p & Hx & Hy & _) _]. congruence. }
  cbn zeta. destruct (blank (pr_summary (p <| pr_raw := document |>))) eqn:Es; cbn [orb].
  { intros plan [(v' & p' & Hx & Hy & ->) _] Hb. rewrite Hv in Hx. injection Hx as <-.
    rewrite Hp in Hy. injection Hy as <-. congruence. }
  destruct (blank (pr_plan (p <| pr_raw := document |>))) eqn:Ep.
  { intros plan [(v' & p' & Hx & Hy & ->) _] Hb. rewrite Hv in Hx. injection Hx as <-.
    rewrite Hp in Hy. by injection Hy as <-. }
  split_and!; [|done..]. split; [by exists v, p|].
  intros summary text subtasks Hplain. rewrite Hv in Hplain. injection Hplain as ->.
  by apply plain_plan_read in Hp.
Qed.
Lemma read_response_wrote json_error status body :
  match read_response json_error status body with
  | Ok plan => model_wrote (Ok (status, body)) plan
  | Err _ => ∀ plan, ¬ model_wrote (Ok (status, body)) plan
  end.
Proof.
  unfold read_response, model_wrote. cbv zeta.
  set (payload := if slen body <=? body_limit then body else _).
  destruct ((status <? 200) || (300 <=? status)) eqn:Hstatus.
  { intros plan (st & b & c & E & Hst & _). injection E as <- <-. lia. }
  destruct (parse payload) as [v|] eqn:Hv.
  2:{ intros plan (st & b & c & E & _ & [(v & r & Hx & _) _] & _). injection E as <- <-.
      fold payload in Hx. congruence. }
  assert (Hfirst : ∀ content, first_content payload content →
    ∃ rest, read_completion v = Some (content :: rest)).
  { intros content [(v' & r & Hx & Hy) _]. rewrite Hv in Hx. injection Hx as <-. by exists r. }
  destruct (read_completion v) as [[|content l]|] eqn:Hc.
  - intros plan (st & b & c & E & _ & Hfc & _). injection E as <- <-. by destruct (Hfirst c Hfc).
  - assert (Hfc : first_content payload content).
    { split; [by exists v, l|]. intros raw Hraw.
      pose proof (plain_choice_read _ _ _ _ Hv Hc Hraw) as E. by injection E. }
    destruct (blank content) eqn:Hb.
    { intros plan (st & b & c & E & _ & Hfc' & Hb' & _). injection E as <- <-.
      destruct (Hfirst c Hfc') as [rest E]. injection E as <- _. congruence. }
    pose proof (read_plan_says json_error (stripCodeFence content)) as Hsays.
    destruct (read_plan json_error (stripCodeFence content)) as [plan|e].
    + exists status, body, content. split_and!; [done|lia|lia|done|done|apply Hsays..].
    + intros plan (st & b & c & E & _ & Hfc' & _ & Hd & H1 & H2). injection E as <- <-.
      destruct (Hfirst c Hfc') as [rest E]. injection E as <- _. specialize (Hsays _ Hd H1). congruence.
  - intros plan (st & b & c & E & _ & Hfc & _). injection E as <- <-. by destruct (Hfirst c Hfc).
Qed.


(** ** Where the code does not do what it means to *)

(** What the coder looks at is whether an approval was asked for.  The store forgets that
    when it is granted and keeps it when it is refused: an approved task asks again, for
    ever, and a task that was refused runs when it is launched again. *)
Lemma approved_asks_again task task' approve :
  as_bool (mget (task_metadata task) "requires_approval") = true →
  as_bool (mget (task_metadata task) "approval_requested") = true →
  task_metadata task' = merge_resolution approve (task_metadata task) →
  needs_approval task = false ∧ needs_approval task' = approve.
Proof.
  unfold needs_approval, merge_resolution, mget. intros Hr Ha ->. rewrite Hr, Ha. split; [done|].
  destruct approve.
  - rewrite lookup_delete_ne, lookup_insert_ne, lookup_delete_eq by done. by rewrite Hr.
  - rewrite !lookup_insert_ne by done. by rewrite Hr, Ha.
Qed.

(** Appending to a file needs no capability, where writing one does. *)
Example append_needs_no_capability :
  (λ tool, (demo_run (demo_task AgentTypeCoder
     (<["allowed_capabilities" := VStrs ["web.search"]]> (write_demo tool "a"))) ∅).2 !! "/ws/a") <$>
    ["write_file"; "append_file"] = [None; Some (Text "x")].
Proof. vm_compute. reflexivity. Qed.
(** A request for another tool, such as the patch of a fixed plan, is not carried out and
    succeeds: only the report is written. *)
Example patch_not_applied :
  let '(result, fs) := demo_run (demo_task AgentTypeCoder
     {["tool_request" := VMap (repo_coder_request (slugify_profile (default_profile "/ws")))]}) ∅ in
  rr_status result = "success" ∧ elements (dom fs) = ["/ws/task-result.txt"; "/ws"].
Proof. vm_compute. done. Qed.
(** The plan for a repository without a test command has it checked by compiling main.py,
    which it does not expect to be there. *)
Example generic_repository_checked_by_main :
  let request := repo_project_request None (default_profile "/ws") in
  review_files request = ["README.md"] ∧ review_command request = ["python3"; "-m"; "py_compile"; "main.py"].
Proof. vm_compute. done. Qed.
(** The initiative service checks a small web page by a file it does not expect; the
    runner has its own table. *)
Example web_small_checks :
  last (defaultInitiativeTestCommand "web_small" "python") = Some "main.py" ∧
  bool_decide ("main.py" ∈ expectedInitiativeFiles "web_small") = false ∧
  defaultProjectTestCommand "web_small" "python" = page_check.
Proof. vm_compute. done. Qed.
