(* ===== verification/Regexp.v ===== *)
(** * Regular expressions

    Go's [regexp], on bytes: the leftmost match, and of those the one that a backtracking
    search finds first, with what it captured. *)
From S2P Require Import Prelude.

Inductive regexp :=
  | Empty
  | Byte (p : ascii → bool)
  | Seq (a b : regexp)
  | Alt (a b : regexp)
  | Star (greedy : bool) (a : regexp)
  | Capture (n : nat) (a : regexp)
  | LineStart
  | TextEnd.

(** Where a search is: the byte before, and what is left. *)
Record place := MkPlace { before : option ascii; rest : string }.
Definition captures := gmap nat string.

Section Matching.
Context {A : Type}.

Fixpoint try_match (r : regexp) (k : captures → place → option A) (g : captures) (at_ : place) {struct r} :
    option A :=
  match r with
  | Empty => k g at_
  | Byte p =>
      match rest at_ with
      | String c s => if p c then k g (MkPlace (Some c) s) else None
      | EmptyString => None
      end
  | Seq a b => try_match a (try_match b k) g at_
  | Alt a b => match try_match a k g at_ with Some x => Some x | None => try_match b k g at_ end
  | Star greedy a =>
      (fix loop (rounds : nat) (g : captures) (at_ : place) : option A :=
         let more :=
           match rounds with
           | O => None
           | S rounds =>
               try_match a (λ g at', if (String.length (rest at') <? String.length (rest at_))%nat
                                     then loop rounds g at' else None) g at_
           end in
         if greedy then match more with Some x => Some x | None => k g at_ end
         else match k g at_ with Some x => Some x | None => more end)
        (String.length (rest at_)) g at_
  | Capture n a =>
      try_match a (λ g at',
        k (<[n := stake (String.length (rest at_) - String.length (rest at')) (rest at_)]> g) at') g at_
  | LineStart =>
      match before at_ with
      | None => k g at_
      | Some c => if isb 10 c then k g at_ else None
      end
  | TextEnd => match rest at_ with EmptyString => k g at_ | _ => None end
  end.
End Matching.

(** [FindStringSubmatch]: the captures of the leftmost match from here on, and the place
    after it. *)
Definition match_here (r : regexp) : place → option (captures * place) :=
  try_match r (λ g at_, Some (g, at_)) ∅.
Fixpoint find_from (r : regexp) (b : option ascii) (s : string) : option (captures * place) :=
  match match_here r (MkPlace b s) with
  | Some m => Some m
  | None => match s with String c s => find_from r (Some c) s | EmptyString => None end
  end.
Definition find (r : regexp) (s : string) : option captures := fst <$> find_from r None s.
(** [FindAllStringSubmatch], of an expression without empty matches. *)
Fixpoint find_all_from (rounds : nat) (r : regexp) (at_ : place) : list captures :=
  match rounds with
  | O => []
  | S rounds =>
      match find_from r (before at_) (rest at_) with
      | Some (g, at_) => g :: find_all_from rounds r at_
      | None => []
      end
  end.
Definition find_all (r : regexp) (s : string) : list captures :=
  find_all_from (String.length s) r (MkPlace None s).
Definition captured (g : captures) (n : nat) : string := default "" (g !! n).

(** ** Notations *)
Definition Plus (greedy : bool) (a : regexp) : regexp := Seq a (Star greedy a).
Definition Opt (a : regexp) : regexp := Alt a Empty.
Fixpoint Lit (s : string) : regexp :=
  match s with
  | EmptyString => Empty
  | String c s => Seq (Byte (Ascii.eqb c)) (Lit s)
  end.
Fixpoint Seqs (l : list regexp) : regexp :=
  match l with [] => Empty | a :: l => Seq a (Seqs l) end.
Definition one_of (l : string) : regexp := Byte (in_set l).
Definition none_of (l : string) : regexp := Byte (λ c, negb (in_set l c)).
(** The class [\s]. *)
Definition white (a : ascii) : bool := ascii_in [9; 10; 12; 13; 32]%nat a.
Definition spaces : regexp := Star true (Byte white).

Example find_demo :
  (λ g, (captured g 1, captured g 2)) <$>
    find_all (Seqs [LineStart; Capture 1 (Plus false (none_of nl)); Lit "="; Capture 2 (Star true (none_of nl))])
      ("a=b=c" +:+ nl +:+ "x" +:+ nl +:+ "yy=1")
  = [("a", "b=c"); ("yy", "1")].
Proof. vm_compute. reflexivity. Qed.
