(* ===== verification/RepairScope.v ===== *)
(** * The scope of a repair ([bridge/executor.go])

    What the research of a bridge makes of earlier findings: which of the paths the
    planner chose or rejected stand, which files the next attempt is about, why it
    failed, and the brief for the next edit. *)
From S2P Require Import Prelude GoVal JsonText JsonValue Objective Retrieval Workspace.

(** ** Reading values *)

(** [orchestratorgo/bridge/executor.go:1315-1332] anyStringSlice; an item that is not a text
    spoils the slice. *)
Definition anyStringSlice (v : gval) : option (list string) :=
  match v with
  | VStrs l => Some l
  | VNilStrs => Some []
  | VList l =>
      let texts := (λ x, trim_space (as_string x)) <$> l in
      if existsb (λ s, s =?s "") texts then None else Some texts
  | _ => None
  end.
(** [orchestratorgo/bridge/executor.go:1334-1339] anyStringSliceDefault. *)
Definition anyStringSliceDefault (v : gval) (fallback : list string) : list string :=
  match anyStringSlice v with Some ((_ :: _) as l) => l | _ => fallback end.
(** [orchestratorgo/bridge/executor.go:2318-2341] anyMapSliceDefault, of an empty fallback. *)
Definition anyMapSlice (v : gval) : list gmap_any :=
  match v with
  | VMaps l => l
  | VList l => filter (λ m, m ≠ ∅) (omap only_map l)
  | _ => []
  end.
(** [orchestratorgo/bridge/executor.go:2343-2348] nonNilMap. *)
Definition nonNilMap (v : gval) : gmap_any := default ∅ (only_map v).
(** [orchestratorgo/bridge/executor.go:2386-2395] asIntOK. *)
Definition asIntOK (v : gval) : option Z := objectiveAsIntOK v.
(** [orchestratorgo/bridge/executor.go:1350-1359] asInt. *)
Definition asInt (v : gval) (fallback : Z) : Z := default fallback (asIntOK v).
(** [orchestratorgo/bridge/executor.go:1396-1402] mustJSON. *)
Definition mustJSON (v : gval) : string := compact (to_jval v).

(** ** Lists of paths *)

(** [orchestratorgo/bridge/executor.go:1999-2020] uniqueNonEmptyStrings. *)
Definition uniqueNonEmptyStrings (l : list string) : list string := unique_from [] l.
(** [orchestratorgo/bridge/executor.go:1951-1966] intersectStrings. *)
Definition intersectStrings (values candidates : list string) : list string :=
  filter (λ s, s ∈ uniqueNonEmptyStrings candidates) (uniqueNonEmptyStrings values).
(** [orchestratorgo/bridge/executor.go:1968-1987] differenceStrings. *)
Definition differenceStrings (values remove : list string) : list string :=
  filter (λ s, s ∉ uniqueNonEmptyStrings remove) (uniqueNonEmptyStrings values).
(** [orchestratorgo/bridge/executor.go:1989-1997] containsString. *)
Definition containsString (values : list string) (target : string) : bool :=
  let target := trim_space target in
  negb (target =?s "") && existsb (λ item, trim_space item =?s target) values.
(** [orchestratorgo/bridge/executor.go:636-659] anyHypothesisPaths, of a decoded value. *)
Definition paths_of (l : list gmap_any) : list string :=
  filter (λ s, s ≠ "") ((λ item, text_at item "path") <$> l).
Definition anyHypothesisPaths (v : gval) : list string :=
  uniqueNonEmptyStrings (paths_of (anyMapSlice v)).
(** [orchestratorgo/bridge/executor.go:661-669] reviewResearchPaths. *)
Definition reviewResearchPaths (request : gmap_any) : list string :=
  uniqueNonEmptyStrings
    (anyStringSliceDefault (mget request "suspected_paths") []
     ++ paths_of (anyMapSlice (mget request "objective_patch_intent"))).

(** ** What the findings say of the planner's choice *)

(** [orchestratorgo/bridge/executor.go:1500-1509] plannerRepairScopeCorrection. *)
Record plannerRepairScopeCorrection := MkCorrection {
  PlannerScopeResolution : string;
  RejectedPlannerScopeResolution : string;
  ConfirmedPlannerPaths : list string;
  ContradictedPlannerPaths : list string;
  PromotedRejectedPaths : list string;
  ConfirmedRejectedPaths : list string;
  ExcludedScopePaths : list string;
  ScopeCorrectionReason : string;
}.
(** [orchestratorgo/bridge/executor.go:1904-1914] findingKinds. *)
Definition findingKinds (findings : list gmap_any) : list string :=
  filter (λ s, s ≠ "") ((λ f, text_at f "kind") <$> findings).
(** [orchestratorgo/bridge/executor.go:1832-1885] interpretPlannerRepairFindings: reasons
    are given for what has an effect. *)
Definition reason_if (b : bool) (reason : string) : list string := if b then [reason] else [].
Definition some_path (l : list string) : bool := negb (bool_decide (l = [])).
Definition interpretPlannerRepairFindings (priorFindings : list gmap_any)
    (selectedPlannerPaths rejectedPlannerPaths changedFiles : list string) :
    plannerRepairScopeCorrection :=
  let selected := uniqueNonEmptyStrings selectedPlannerPaths in
  let rejected := uniqueNonEmptyStrings rejectedPlannerPaths in
  let changed := uniqueNonEmptyStrings changedFiles in
  let found kind := bool_decide (kind ∈ findingKinds priorFindings) in
  let selectedInDiff := intersectStrings changed selected in
  let rejectedInDiff := intersectStrings changed rejected in
  let confirmed := found "planner_scope_confirmed" in
  let contradicted := found "planner_scope_contradicted" in
  let rejection := found "planner_rejected_scope_confirmed" in
  let promotion := found "planner_rejected_scope_contradicted" in
  let missed := if contradicted then filter (λ p, containsString selectedInDiff p = false) selected else [] in
  let kept := if rejection then rejected else [] in
  let promoted := if promotion then rejectedInDiff else [] in
  let excluded := missed ++ kept in
  MkCorrection
    (if contradicted then "contradicted" else if confirmed then "confirmed" else "unchanged")
    (if promotion then "contradicted" else if rejection then "confirmed" else "unchanged")
    (if confirmed then selected else [])
    (uniqueNonEmptyStrings missed) promoted (uniqueNonEmptyStrings kept)
    (uniqueNonEmptyStrings (if promotion then differenceStrings excluded rejectedInDiff else excluded))
    (trim_space (sjoin "; " (uniqueNonEmptyStrings
      (reason_if (confirmed && some_path selected) "keep the planner-confirmed shortlist as the primary target"
       ++ reason_if (some_path missed) "drop planner-selected paths that did not appear in the failed diff"
       ++ reason_if (some_path kept) "keep planner-rejected competitor paths excluded"
       ++ reason_if (some_path promoted) "promote rejected paths that the failed edit actually touched")))).

(** ** Files the goal and the README are about *)

(** [orchestratorgo/bridge/executor.go:1704-1725] informativeGoalTokens: words of four
    bytes or more. *)
Fixpoint split_by (separator : ascii → bool) (s : string) : list string :=
  match s with
  | EmptyString => [""]
  | String a r =>
      if separator a then "" :: split_by separator r
      else match split_by separator r with x :: l => String a x :: l | [] => [String a ""] end
  end.
Definition tokens (separators s : string) : list string :=
  filter (λ t, 4 <= slen t) (trim_space <$> filter (λ t, t ≠ "") (split_by (in_set separators) s)).
Definition word_separators : string := " ,.:;-_/\()" +:+ nl +:+ String (ascii_of_nat 9) "".
Fixpoint first_of_each (seen l : list string) : list string :=
  match l with
  | [] => []
  | x :: l => if bool_decide (x ∈ seen) then first_of_each seen l else x :: first_of_each (x :: seen) l
  end.
Definition informativeGoalTokens (goal : string) : list string :=
  first_of_each [] (tokens word_separators (to_lower (trim_space goal))).
(** [orchestratorgo/bridge/executor.go:1689-1702] readmeCueWeight. *)
Definition readmeCueWeight (line : string) : Z := objectiveReadmeCueWeight line.

(** [orchestratorgo/bridge/executor.go:1601-1621] inferScopePathsFromGoal: the best four of
    the paths with a score. *)
Definition by_score : relation (string * Z) := by_key (λ c, (c.2, c.1)) (lex2 (flip Z.le) String.le).
#[export] Instance by_score_dec : RelDecision by_score.
Proof. unfold by_score. apply _. Defined.
Definition best_four (score : string → Z) (treeFiles : list string) : list string :=
  take 4 (fst <$> stable_sort by_score
    (filter (λ c, 0 < c.2) ((λ p, (p, score p)) <$> uniqueNonEmptyStrings treeFiles))).
(** [orchestratorgo/bridge/executor.go:1568-1600] inferScopePathsFromGoal. *)
Definition goal_score (goal path : string) : Z :=
  let lowerPath := to_lower (trim_space path) in
  let base := to_lower (path_base lowerPath) in
  let nameWithoutExt := trim_suffix (path_ext base) base in
  (if contains lowerPath goal then 10 else if contains base goal then 8 else 0)
  + Z.of_nat (length (filter (λ t, contains t goal = true) (tokens "_-./\" nameWithoutExt))).
Definition inferScopePathsFromGoal (goal : string) (treeFiles : list string) : list string :=
  let goal := to_lower (trim_space goal) in
  if goal =?s "" then [] else best_four (goal_score goal) treeFiles.
(** [orchestratorgo/bridge/executor.go:1623-1687] inferScopePathsFromReadme: the best line
    counts. *)
Definition readme_line_score (goalTokens : list string) (lowerPath line : string) : Z :=
  let line := trim_space line in
  let base := to_lower (path_base lowerPath) in
  let mention := if contains lowerPath line then 6 else if contains base line then 4 else 0 in
  if (line =?s "") || (mention =? 0) then 0
  else mention + Z.of_nat (length (filter (λ t, contains t line = true) goalTokens)) + readmeCueWeight line.
Definition readme_score (goalTokens lines : list string) (path : string) : Z :=
  foldl (λ score line, Z.max score (readme_line_score goalTokens (to_lower (trim_space path)) line)) 0 lines.
Definition inferScopePathsFromReadme (goal readmeExcerpt : string) (treeFiles : list string) : list string :=
  let readmeExcerpt := to_lower (trim_space readmeExcerpt) in
  if readmeExcerpt =?s "" then []
  else best_four (readme_score (informativeGoalTokens goal) (split_on (ascii_of_nat 10) readmeExcerpt)) treeFiles.

(** [orchestratorgo/bridge/executor.go:1552-1566] filterValidationArtifactPaths. *)
Definition filterValidationArtifactPaths (paths : list string) : list string :=
  filter (λ p, to_upper (trim_space p) ∉ ["PASS"; "FAIL"]) paths.
(** [orchestratorgo/bridge/executor.go:1520-1550] recommendResearchScopePaths: nil when
    there was nothing to choose from. *)
Definition scope_sources (goal : string) (c : plannerRepairScopeCorrection)
    (priorChangedFiles priorPatchIntentPaths expectedFiles treeFiles : list string)
    (readmeExcerpt : string) : list string :=
  uniqueNonEmptyStrings
    (PromotedRejectedPaths c ++ ConfirmedPlannerPaths c ++ priorChangedFiles ++ priorPatchIntentPaths
     ++ expectedFiles ++ inferScopePathsFromReadme goal readmeExcerpt treeFiles
     ++ inferScopePathsFromGoal goal treeFiles).
Definition recommendResearchScopePaths (goal : string) (c : plannerRepairScopeCorrection)
    (priorChangedFiles priorPatchIntentPaths expectedFiles treeFiles : list string)
    (readmeExcerpt : string) : slice string :=
  match scope_sources goal c priorChangedFiles priorPatchIntentPaths expectedFiles treeFiles readmeExcerpt with
  | [] => None
  | sources =>
      let scopePaths := filterValidationArtifactPaths sources in
      match filter (λ p, p ∉ ExcludedScopePaths c) scopePaths with
      | [] => Some scopePaths
      | filtered => Some filtered
      end
  end.

(** ** Why the last attempt failed *)

Definition filled_path (s : string) : bool := negb (s =?s "").
(** [orchestratorgo/bridge/executor.go:1887-1902] repairCauseCategoryForPath. *)
Definition repairCauseCategoryForPath (path : string) (c : plannerRepairScopeCorrection) : string :=
  if filled_path path && containsString (PromotedRejectedPaths c) path then "edit_landed_in_rejected_path"
  else if filled_path path && containsString (ConfirmedPlannerPaths c) path then
    "bad_edit_against_good_shortlist"
  else if PlannerScopeResolution c =?s "contradicted" then "bad_planner_shortlist"
  else if RejectedPlannerScopeResolution c =?s "contradicted" then "edit_landed_in_rejected_path"
  else if PlannerScopeResolution c =?s "confirmed" then "bad_edit_against_good_shortlist"
  else "bad_planner_shortlist".
(** [orchestratorgo/bridge/executor.go:1916-1935] firstRelevantFindingForPath. *)
Definition relevant (path : string) (finding : gmap_any) : bool :=
  let message := text_at finding "message" in
  let findingPath := text_at finding "path" in
  negb (message =?s "")
  && (filled_path findingPath && (findingPath =?s path) || filled_path path && contains path message).
Definition firstRelevantFindingForPath (findings : list gmap_any) (path : string) : option gmap_any :=
  head (filter (λ f, relevant (trim_space path) f = true) findings ++ findings).
(** [orchestratorgo/bridge/executor.go:1937-1949] firstRepairHypothesisForPath. *)
Definition firstRepairHypothesisForPath (hypotheses : list gmap_any) (path : string) : option gmap_any :=
  head (filter (λ h, text_at h "path" ≠ "" ∧ text_at h "path" = trim_space path) hypotheses ++ hypotheses).

(** [orchestratorgo/bridge/executor.go:1727-1776] buildRepairFailureHypotheses: of a path, *)
Definition failed_exit (priorTestResults : gmap_any) : option string :=
  match asIntOK (mget priorTestResults "exit_code") with
  | Some exitCode =>
      if exitCode =? 0 then None
      else Some ("Declared validation command exited with code " +:+ pretty exitCode +:+ ".")
  | None => None
  end.
Definition filled_or (s fallback : string) : string := if s =?s "" then fallback else s.
Definition text_entry (key s : string) (m : gmap_any) : gmap_any := if s =?s "" then m else <[key := VStr s]> m.
Definition failure_hypothesis (priorFindings : list gmap_any) (priorTestResults : gmap_any)
    (c : plannerRepairScopeCorrection) (path : string) : gmap_any :=
  let finding := default ∅ (firstRelevantFindingForPath priorFindings path) in
  let failed := failed_exit priorTestResults in
  let '(mode, priority) :=
    match failed with Some _ => ("validation_failure", "high") | None => ("targeted_regression", "medium") end in
  text_entry "evidence" (filled_or (text_at finding "message") (default "" failed)) {[
    "path" := VStr path;
    "failure_mode" := VStr (filled_or (text_at finding "kind") mode);
    "priority" := VStr (filled_or (text_at finding "severity") priority);
    "cause_category" := VStr (repairCauseCategoryForPath path c)]}.
(** and of all. *)
Definition buildRepairFailureHypotheses (priorFindings : list gmap_any) (priorTestResults : gmap_any)
    (scopePaths : list string) (c : plannerRepairScopeCorrection) : slice gmap_any :=
  match scopePaths with
  | [] =>
      if bool_decide (priorFindings = []) && bool_decide (priorTestResults = ∅) then None
      else Some [text_entry "evidence" (default "" (failed_exit priorTestResults)) {[
             "failure_mode" := VStr "validation_failure"; "priority" := VStr "high";
             "cause_category" := VStr (repairCauseCategoryForPath "" c)]}]
  | _ => Some (failure_hypothesis priorFindings priorTestResults c <$> scopePaths)
  end.

(** [orchestratorgo/bridge/executor.go:1778-1830] buildRepairPatchIntent: the action for a
    cause, or else for a mode of failure, *)
Definition intent_action (failureMode causeCategory : string) : string :=
  if causeCategory =?s "bad_planner_shortlist" then
    "shift the patch toward the files observed in the failed iteration and avoid returning to the planner's contradicted shortlist"
  else if causeCategory =?s "bad_edit_against_good_shortlist" then
    "stay on the planner-confirmed shortlist and correct the implementation without widening scope"
  else if causeCategory =?s "edit_landed_in_rejected_path" then
    "repair the path that the previous edit actually touched, then decide whether that rejected path should remain in scope"
  else if failureMode =?s "validation_failure" then
    "repair the validation failure in this file first, then rerun the declared validation command before widening scope"
  else if failureMode =?s "missing_diff" then
    "produce the missing code change in this file and verify the diff is real before review"
  else "repair the behavior implicated by the latest finding and keep the patch limited to this file".
Definition fallbackAction : string :=
  "inspect the failing logic, apply the narrowest fix that satisfies validation, and avoid unrelated edits".
(** the intent for a path, and all. *)
Definition patch_intent (failureHypotheses : list gmap_any) (path : string) : gmap_any :=
  match firstRepairHypothesisForPath failureHypotheses path with
  | None => {["path" := VStr path; "action" := VStr fallbackAction]}
  | Some h =>
      text_entry "cause_category" (text_at h "cause_category")
        (text_entry "rationale" (text_at h "evidence")
          (text_entry "priority" (text_at h "priority")
            (text_entry "failure_mode" (text_at h "failure_mode")
              {["path" := VStr path;
                "action" := VStr (intent_action (text_at h "failure_mode") (text_at h "cause_category"))]})))
  end.
Definition buildRepairPatchIntent (failureHypotheses : list gmap_any) (scopePaths : list string) :
    slice gmap_any :=
  match scopePaths, failureHypotheses with
  | [], [] => None
  | [], _ => Some [{["action" := VStr fallbackAction]}]
  | _, _ => Some (patch_intent failureHypotheses <$> scopePaths)
  end.

(** ** The brief *)

(** [orchestratorgo/bridge/executor.go:1404-1498] buildRepairEditBrief: lines about a
    precedent, a finding, a hypothesis and an intent, if they say something, *)
Definition titled (title : string) (lines : list string) (b : bool) : list string :=
  if b then title :: lines else [].
Definition listed (title : string) (paths : list string) : list string :=
  match paths with [] => [] | _ => [title +:+ sjoin ", " paths] end.
Definition precedent_line (item : gmap_any) : list string :=
  let sourceRef := text_at item "source_ref" in
  let summary := text_at item "summary" in
  if summary =?s "" then []
  else if sourceRef =?s "" then ["- " +:+ summary] else ["- " +:+ sourceRef +:+ " -> " +:+ summary].
Definition finding_line (finding : gmap_any) : list string :=
  let severity := text_at finding "severity" in
  let message := text_at finding "message" in
  if message =?s "" then []
  else if severity =?s "" then ["- " +:+ message] else ["- [" +:+ severity +:+ "] " +:+ message].
Definition hypothesis_line (item : gmap_any) : list string :=
  let path := text_at item "path" in
  let evidence := text_at item "evidence" in
  let label := first_nonblank [text_at item "priority"; text_at item "failure_mode"; "info"] in
  if evidence =?s "" then []
  else if path =?s "" then ["- [" +:+ label +:+ "] " +:+ evidence]
  else ["- [" +:+ label +:+ "] " +:+ path +:+ " -> " +:+ evidence].
Definition intent_line (item : gmap_any) : list string :=
  let path := text_at item "path" in
  let action := text_at item "action" in
  let rationale := text_at item "rationale" in
  if action =?s "" then []
  else if path =?s "" then ["- " +:+ action]
  else if rationale =?s "" then ["- " +:+ path +:+ ": " +:+ action]
  else ["- " +:+ path +:+ ": " +:+ action +:+ " (" +:+ rationale +:+ ")"].
(** what is said of the planner's choice, *)
Definition correction_lines (c : plannerRepairScopeCorrection) : list string :=
  (if ScopeCorrectionReason c =?s "" then [] else ["Scope correction:"; ScopeCorrectionReason c])
  ++ listed "Planner confirmed paths: " (ConfirmedPlannerPaths c)
  ++ (if some_path (ContradictedPlannerPaths c) then
        listed "Planner selected paths contradicted by review: " (ContradictedPlannerPaths c)
      else if PlannerScopeResolution c =?s "contradicted" then
        ["Planner selected paths contradicted by review: previous shortlist lost priority for the next attempt"]
      else [])
  ++ listed "Planner rejected but observed in diff: " (PromotedRejectedPaths c)
  ++ (if some_path (ConfirmedRejectedPaths c) then
        listed "Planner rejected paths still excluded: " (ConfirmedRejectedPaths c)
      else if RejectedPlannerScopeResolution c =?s "confirmed" then
        listed "Planner rejected paths still excluded: " (ExcludedScopePaths c)
      else [])
  ++ listed "Excluded paths for next attempt: " (ExcludedScopePaths c).
(** and the whole. *)
Definition buildRepairEditBrief (goal repairFeedback : string) (priorFindings : list gmap_any)
    (priorTestResults : gmap_any) (scopePaths : list string)
    (failureHypotheses patchIntent : list gmap_any) (c : plannerRepairScopeCorrection)
    (retrievalPrecedents : list gmap_any) : string :=
  let each {A} (title : string) (line : A → list string) (l : list A) : list string :=
    match l with [] => [] | _ => title :: (l ≫= line) end in
  trim_space (sjoin nl
    ([trim_space goal]
     ++ titled "Repair feedback:" [trim_space repairFeedback] (negb (blank repairFeedback))
     ++ correction_lines c
     ++ each "Retrieved precedents:" precedent_line retrievalPrecedents
     ++ each "Prior findings:" finding_line priorFindings
     ++ match asIntOK (mget priorTestResults "exit_code") with
        | Some exitCode => ["Previous validation exit code: " +:+ pretty exitCode]
        | None => []
        end
     ++ listed "Likely scope: " scopePaths
     ++ each "Failure hypotheses:" hypothesis_line failureHypotheses
     ++ each "Patch intent:" intent_line patchIntent)).

(** ** Precedents *)

(** [orchestratorgo/bridge/executor.go:2022-2113] retrievalPrecedentsFromContextPackage: the
    score and the identifiers a precedent keeps, *)
Definition score_of (item : gmap_any) : option decimal :=
  match mget item "score" with VNum m e => Some (m, e) | _ => None end.
Definition with_origin (item precedent : gmap_any) : gmap_any :=
  let precedent := match score_of item with
                   | Some (m, e) => <["score" := VNum m e]> precedent
                   | None => precedent
                   end in
  foldl (λ p key, text_entry key (text_at item key) p) precedent ["initiative_id"; "task_id"; "artifact_id"].
Definition sourced (item : gmap_any) (summary className reason : string) : gmap_any :=
  with_origin item {[
    "source_ref" := VStr (text_at item "source_ref");
    "source_type" := VStr (text_at item "source_type");
    "source_id" := VStr (text_at item "source_id");
    "summary" := VStr summary;
    "memory_class" := VStr className;
    "selection_reason" := VStr reason]}.
(** those that are given, at most five, *)
Definition given_precedent (item : gmap_any) : gmap_any :=
  let className := NormalizeMemoryClass (as_string (mget item "memory_class")) in
  sourced item (CompactText (text_at item "summary") 220) className
    (filled_or (text_at item "selection_reason") (BuildSelectionReason className None)).
(** or made of chunks, at most two of a class. *)
Definition chunk_precedent (chunk : gmap_any) (className : string) : gmap_any :=
  sourced chunk (CompactText (text_at chunk "content_text") 220) className
    (BuildSelectionReason className (score_of chunk)).
Fixpoint chunk_precedents (limit : nat) (perClass : gmap string Z) (chunks : list gmap_any) : list gmap_any :=
  match limit, chunks with
  | O, _ | _, [] => []
  | S limit', chunk :: chunks =>
      let className := NormalizeMemoryClass (as_string (mget chunk "memory_class")) in
      let count := default 0 (perClass !! className) in
      if DefaultPerClassLimit <=? count then chunk_precedents limit perClass chunks
      else chunk_precedent chunk className
           :: chunk_precedents limit' (<[className := count + 1]> perClass) chunks
  end.
Definition maps_in (v : gval) : list gmap_any :=
  match v with VList l => filter (λ m, m ≠ ∅) (omap only_map l) | _ => [] end.
Definition retrievalPrecedentsFromContextPackage (v : gval) : slice gmap_any :=
  let contextPackage := default ∅ (only_map v) in
  match maps_in (mget contextPackage "precedents") with
  | (_ :: _) as given => Some (given_precedent <$> take (Z.to_nat DefaultPrecedentLimit) given)
  | [] =>
      nil_if_empty (chunk_precedents (Z.to_nat DefaultPrecedentLimit) ∅
        (maps_in (mget contextPackage "chunks")))
  end.
