(* ===== verification/ReviewReport.v ===== *)
(** * The report of a review ([bridge/executor.go])

    How the files a diff changed compare with those the planner chose or rejected, the
    research proposed and earlier work suggests, and the findings and the packet that say
    so. *)
From S2P Require Import Prelude GoVal JsonText JsonValue Objective Retrieval Workspace RepairScope.

(** ** Alignment *)

(** [orchestratorgo/bridge/executor.go:832-844] reviewScopeAlignment. *)
Definition touches (paths changedFiles : list string) : bool :=
  existsb (λ changed, existsb (λ path, trim_space changed =?s trim_space path) paths) changedFiles.
Definition reviewScopeAlignment (expectedPaths changedFiles : list string) : string :=
  if negb (some_path expectedPaths) || negb (some_path changedFiles) then "unknown"
  else if touches expectedPaths changedFiles then "confirmed" else "contradicted".
(** [orchestratorgo/bridge/executor.go:846-858] reviewRejectedScopeAlignment. *)
Definition reviewRejectedScopeAlignment (rejectedPaths changedFiles : list string) : string :=
  if negb (some_path rejectedPaths) || negb (some_path changedFiles) then "unknown"
  else if touches rejectedPaths changedFiles then "contradicted" else "confirmed".
(** [orchestratorgo/bridge/executor.go:727-743] precedentAlignment. *)
Definition summary_names (summary : string) (changedFiles : list string) : bool :=
  existsb (λ changed,
    let changed := to_lower (trim_space changed) in
    negb (changed =?s "")
    && (contains changed summary || contains (to_lower (path_base changed)) summary)) changedFiles.
Definition lower_summary (precedent : gmap_any) : string := to_lower (text_at precedent "summary").
Definition precedentAlignment (precedent : gmap_any) (changedFiles : list string) : string :=
  if (lower_summary precedent =?s "") || negb (some_path changedFiles) then "unknown"
  else if summary_names (lower_summary precedent) changedFiles then "confirmed" else "contradicted".
(** [orchestratorgo/bridge/executor.go:860-895] reviewRetrievalAlignment: the references up
    to the first precedent that names a changed file. *)
Fixpoint refs_until (changedFiles : list string) (precedents : list gmap_any) : list string * bool :=
  match precedents with
  | [] => ([], false)
  | item :: precedents =>
      let sourceRef := text_at item "source_ref" in
      let ref := if sourceRef =?s "" then [] else [sourceRef] in
      if summary_names (lower_summary item) changedFiles then (ref, true)
      else let '(refs, confirmed) := refs_until changedFiles precedents in (ref ++ refs, confirmed)
  end.
Definition reviewRetrievalAlignment (precedents : list gmap_any) (changedFiles : list string) :
    string * slice string :=
  if bool_decide (precedents = []) || negb (some_path changedFiles) then ("unknown", None)
  else
    let '(refs, confirmed) := refs_until changedFiles precedents in
    match uniqueNonEmptyStrings refs with
    | [] => ("unknown", None)
    | refs => (if confirmed then "confirmed" else "contradicted", Some refs)
    end.

(** ** Findings *)

(** [orchestratorgo/bridge/executor.go:745-803] buildReviewAlignmentFindings. *)
Definition review_finding (kind severity message : string) (paths : gval) (pathsKey : string)
    (changedFiles : slice string) (action : string) : gmap_any :=
  {["kind" := VStr kind; "severity" := VStr severity; "message" := VStr message;
    "source" := VStr "review"; pathsKey := paths; "changed_files" := strs_value changedFiles;
    "recommended_action" := VStr action]}.
Definition finding_if (b : bool) (f : gmap_any) : list gmap_any := if b then [f] else [].
Definition buildReviewAlignmentFindings (planner rejected research : string)
    (plannerPaths rejectedPaths researchPaths : list string) (changedFiles : slice string) :
    list gmap_any :=
  let paths l := strs_value (nil_if_empty l) in
  finding_if (planner =?s "confirmed")
    (review_finding "planner_scope_confirmed" "info"
      "The observed diff confirms the planner's selected first-pass scope hypothesis."
      (paths plannerPaths) "expected_paths" changedFiles
      "Use this confirmed planner precedent when narrowing similar future objectives.")
  ++ finding_if (planner =?s "contradicted")
    (review_finding "planner_scope_contradicted" "medium"
      "The observed diff contradicts the planner's initial scope hypothesis."
      (paths plannerPaths) "expected_paths" changedFiles
      "Update the next plan using the files actually changed or revisit the planner's first-pass scope guess.")
  ++ finding_if (rejected =?s "contradicted")
    (review_finding "planner_rejected_scope_contradicted" "high"
      "The observed diff landed in a path the planner explicitly rejected in the first-pass shortlist."
      (paths rejectedPaths) "expected_paths" changedFiles
      "Revisit the planner's rejection rationale and promote the actually changed file into the next plan.")
  ++ finding_if (rejected =?s "confirmed")
    (review_finding "planner_rejected_scope_confirmed" "info"
      "The observed diff avoided the planner's rejected competitors."
      (paths rejectedPaths) "expected_paths" changedFiles
      "Treat the rejected competitor list as a valid exclusion precedent for similar objectives.")
  ++ finding_if (research =?s "contradicted")
    (review_finding "research_scope_contradicted" "high"
      "The observed diff contradicts the research-guided patch intent."
      (paths researchPaths) "expected_paths" changedFiles
      "Narrow the next repair cycle to the files that actually need changes and revise the research scope before editing again.").
(** [orchestratorgo/bridge/executor.go:805-830] buildReviewRetrievalFindings. *)
Definition buildReviewRetrievalFindings (alignment : string) (refs changedFiles : slice string) :
    list gmap_any :=
  finding_if (alignment =?s "confirmed")
    (review_finding "retrieval_scope_confirmed" "info"
      "The observed diff aligns with a retrieved precedent."
      (strs_value refs) "precedent_refs" changedFiles
      "Reuse this precedent class for similar objectives.")
  ++ finding_if (alignment =?s "contradicted")
    (review_finding "retrieval_scope_contradicted" "medium"
      "The observed diff does not align with the retrieved precedents that were carried into the edit."
      (strs_value refs) "precedent_refs" changedFiles
      "Demote the contradicted precedent and rely on the actual diff for the next repair cycle.").
(** [orchestratorgo/bridge/executor.go:897-911] buildValidationFailureFindings. *)
Definition buildValidationFailureFindings (argv : list string) (exitCode : Z) (message : string) :
    list gmap_any :=
  let message := trim_space message in
  finding_if (some_path argv || negb (message =?s ""))
    {["kind" := VStr "validation_failure"; "severity" := VStr "high";
      "message" := VStr (first_nonblank [message; "Validation command failed."]);
      "source" := VStr "validate"; "validation_command" := VStrs argv; "exit_code" := VInt exitCode;
      "recommended_action" :=
        VStr "Reproduce the failing validation command and fix the error before approval."]}.

(** ** The packet *)

(** [orchestratorgo/bridge/executor.go:687-725] buildReviewMemoryUtility. *)
Definition refs_with (alignment : string → bool) (precedents : list gmap_any) (changedFiles : list string) :
    list string :=
  uniqueNonEmptyStrings ((λ item, text_at item "source_ref")
    <$> filter (λ item, alignment (precedentAlignment item changedFiles) = true) precedents).
Definition buildReviewMemoryUtility (precedents : list gmap_any) (alignment : string)
    (changedFiles : slice string) (decision : string) : gmap_any :=
  let changed := items changedFiles in
  let used := refs_with (λ a, a =?s "confirmed") precedents changed in
  let refs l := strs_value (nil_if_empty l) in
  {["precedents_used" := refs used;
    "precedents_contradicted" := refs (refs_with (λ a, a =?s "contradicted") precedents changed);
    "precedents_neutral" := refs (refs_with (λ a, a =?s "unknown") precedents changed);
    "changed_files" := strs_value changedFiles;
    "outcome" := VStr (trim_space decision);
    "recommendation" := VStr
      (if (alignment =?s "confirmed") && equal_fold (trim_space decision) "approved" then "reuse"
       else if alignment =?s "contradicted" then "demote"
       else if some_path used then "retain" else "observe")]}.
(** [orchestratorgo/bridge/executor.go:671-685] buildReviewPacketReport. *)
Definition buildReviewPacketReport (decision : string) (changedFiles : slice string)
    (testCommand : list string) (executionContract : gval) (planner rejected research retrieval : string)
    (refs : slice string) (findings precedents : list gmap_any) : string :=
  mustJSON (VMap {[
    "decision" := VStr decision;
    "changed_files" := strs_value changedFiles;
    "validation_command" := VStrs testCommand;
    "objective" := executionContract;
    "planner_scope_alignment" := VStr planner;
    "planner_rejected_scope_alignment" := VStr rejected;
    "research_scope_alignment" := VStr research;
    "retrieval_scope_alignment" := VStr retrieval;
    "retrieval_precedent_refs" := strs_value refs;
    "memory_utility" := VMap (buildReviewMemoryUtility precedents retrieval changedFiles decision);
    "findings" := VMaps findings]}).
