(* ===== verification/CodeAnalysis.v ===== *)
(** * Code analysis ([codeanalysis/service.go])

    A static look at the files of a directory: dependencies without locks, lines that
    look like secrets or risky calls, large files and trailing spaces. *)
From S2P Require Import Prelude GoVal Json JsonText JsonValue Effects Objective Workspace Regexp.

(** ** Findings *)

(** [orchestratorgo/codeanalysis/service.go:14-28] Finding, Summary and Result. *)
Record Finding := MkFinding { Severity : string; Message : string; Location : gmap_any }.
Record Result := MkAnalysis { Findings : list Finding; TotalFindings : Z; BySeverity : gmap string Z }.

(** [orchestratorgo/codeanalysis/service.go:304-322] summarize. *)
Definition severities : gmap string Z :=
  {["info" := 0; "warning" := 0; "error" := 0; "critical" := 0]}.
Definition count_severity (counts : gmap string Z) (f : Finding) : gmap string Z :=
  let severity := to_lower (trim_space (Severity f)) in
  let severity := match counts !! severity with Some _ => severity | None => "info" end in
  <[severity := default 0 (counts !! severity) + 1]> counts.
Definition summarize (findings : list Finding) : Result :=
  MkAnalysis findings (Z.of_nat (length findings)) (foldl count_severity severities findings).

(** ** Files *)

(** [orchestratorgo/codeanalysis/service.go:270-279] shouldSkipPath. *)
Definition shouldSkipPath (path : string) : bool :=
  existsb (λ part, bool_decide (part ∈ [".git"; "node_modules"; "vendor"; ".venv"; "venv"; "dist"; "build"]))
    (split_on "/" path).
(** [orchestratorgo/codeanalysis/service.go:281-288] isLikelyCodeFile. *)
Definition isLikelyCodeFile (path : string) : bool :=
  bool_decide (to_lower (path_ext path)
    ∈ [".go"; ".py"; ".js"; ".ts"; ".tsx"; ".jsx"; ".php"; ".rb"; ".java"; ".rs"; ".sh"]).

Section Analysis.
Context `{Disk}.
(** The order in which Go ranges over a map; and the text of a failing [os.Stat]. *)
Context (range : gmap_any → list (string * gval)) (stat_error : string → string).

(** What is below a directory, links followed; and its text. *)
Definition at_path (root rel : string) : option node :=
  foldl (λ t name, match t with Some t => child name t | None => None end)
    (match disk root with Some t => follow t | None => None end) (split_on "/" rel).
Definition text_below (root rel : string) : option string :=
  match at_path root rel with Some t => file_text t | None => None end.
(** The code files below a directory, in the order of the walk, with their texts; one
    that cannot be opened is left out. *)
Definition full_path (root rel : string) : string := if rel =?s "" then root else root +:+ "/" +:+ rel.
Definition code_files (root : string) : list (string * string) :=
  omap (λ rel, pair rel <$> text_below root rel)
    (WalkDir (disk root) (λ rel isDir files,
       (if isDir || shouldSkipPath (full_path root rel) || negb (isLikelyCodeFile (full_path root rel))
        then files else files ++ [rel], WalkOn)) []).
(** Lines by number, as a [bufio.Scanner] reads them. *)
Definition numbered_lines (text : string) : list (Z * string) :=
  imap (λ i line, (Z.of_nat i + 1, line)) (scan_lines (64 * 1024) text).1.

(** [orchestratorgo/codeanalysis/service.go:93-147] analyzeDependencies. *)
Definition in_file (file : string) : gmap_any := {["file" := VStr file]}.
Definition hasFile (root name : string) : bool := bool_decide (is_Some (stat_in root name)).
Definition report_if (b : bool) (severity message : string) (location : gmap_any) : list Finding :=
  if b then [MkFinding severity message location] else [].
Definition floating (section : string) (payload : gmap_any) : list Finding :=
  range (default ∅ (only_map (mget payload section))) ≫= λ '(name, versionRaw),
    let version := trim_space (sprint versionRaw) in
    report_if ((version =?s "*") || equal_fold version "latest") "warning"
      (name +:+ " uses floating dependency " +:+ go_quote version)
      {["file" := VStr "package.json"; "dependency" := VStr name]}.
Definition analyzeDependencies (root : string) : list Finding :=
  let has := hasFile root in
  report_if (has "package.json" && negb (has "package-lock.json") && negb (has "pnpm-lock.yaml")
              && negb (has "yarn.lock"))
    "warning" "package.json present without npm/yarn/pnpm lockfile" (in_file "package.json")
  ++ report_if (has "composer.json" && negb (has "composer.lock"))
    "warning" "composer.json present without composer.lock" (in_file "composer.json")
  ++ report_if (has "go.mod" && negb (has "go.sum"))
    "warning" "go.mod present without go.sum" (in_file "go.mod")
  ++ report_if (has "pyproject.toml" && negb (has "poetry.lock") && negb (has "uv.lock")
                 && negb (has "requirements.lock"))
    "info" "pyproject.toml present without a dedicated lockfile" (in_file "pyproject.toml")
  ++ match read_in root "package.json" with
     | Some raw =>
         match UnmarshalMap raw with
         | Some payload =>
             floating "dependencies" (default ∅ payload) ++ floating "devDependencies" (default ∅ payload)
         | None => []
         end
     | None => []
     end.

(** [orchestratorgo/codeanalysis/service.go:30-30] secretPattern; the folding of case makes
    the long s an s and the Kelvin sign a k. *)
Definition folded_letter (a : ascii) : regexp :=
  let one := Byte (λ b, Ascii.eqb (lower_ascii b) a) in
  if isb 115 a then Alt one (Lit "ſ") else if isb 107 a then Alt one (Lit "K") else one.
Fixpoint folded (s : string) : regexp :=
  match s with EmptyString => Empty | String a s => Seq (folded_letter a) (folded s) end.
Definition secret_char : regexp :=
  Alt (Byte (λ a, within 97 122 a || within 65 90 a || within 48 57 a || isb 95 a || isb 45 a))
    (Alt (Lit "ſ") (Lit "K")).
Definition secretPattern : regexp := Seqs
  [Alt (Seqs [folded "api"; Opt (one_of "_-"); folded "key"])
     (Alt (folded "secret") (Alt (folded "token") (folded "password")));
   spaces; one_of ":="; spaces; one_of (dquote +:+ "'");
   Seqs (replicate 8 secret_char); Star true secret_char; one_of (dquote +:+ "'")].
(** [orchestratorgo/codeanalysis/service.go:225-268] scanSecurityFile. *)
Definition at_line (rel : string) (line : Z) : gmap_any := {["file" := VStr rel; "line" := VInt line]}.
Definition security_line (rel : string) (numbered : Z * string) : list Finding :=
  let '(line, text) := numbered in
  let location := at_line rel line in
  if bool_decide (is_Some (find secretPattern text)) then
    [MkFinding "critical" "possible hardcoded secret" location]
  else if contains "shell=True" text then
    [MkFinding "warning" "subprocess shell=True can introduce command injection risk" location]
  else if contains "eval(" text then
    [MkFinding "warning" "eval(...) spotted; review code execution surface" location]
  else if contains "innerHTML" text && contains "=" (trim_space text) then
    [MkFinding "info" "innerHTML assignment found; verify sanitization" location]
  else [].
Definition scanSecurityFile (rel text : string) : list Finding :=
  numbered_lines text ≫= security_line rel.
(** [orchestratorgo/codeanalysis/service.go:149-163] analyzeSecurity. *)
Definition analyzeSecurity (root : string) : list Finding :=
  code_files root ≫= λ '(rel, text), scanSecurityFile rel text.

(** [orchestratorgo/codeanalysis/service.go:290-302] countLines. *)
Definition countLines (text : string) : option Z :=
  let '(lines, too_long) := scan_lines (64 * 1024) text in
  if too_long then None else Some (Z.of_nat (length lines)).
(** [orchestratorgo/codeanalysis/service.go:165-189] analyzeComplexity. *)
Definition analyzeComplexity (root : string) : list Finding :=
  code_files root ≫= λ '(rel, text),
    match countLines text with
    | Some lineCount =>
        report_if (500 <? lineCount) "info" ("large source file (" +:+ pretty lineCount +:+ " lines)")
          (in_file rel)
    | None => []
    end.
(** [orchestratorgo/codeanalysis/service.go:191-223] analyzeLint: the first line of a file. *)
Definition trailing (line : string) : bool :=
  has_suffix " " line || has_suffix (String (ascii_of_nat 9) "") line.
Definition analyzeLint (root : string) : list Finding :=
  code_files root ≫= λ '(rel, text),
    match filter (λ l, trailing l.2 = true) (numbered_lines text) with
    | (line, _) :: _ => [MkFinding "info" "trailing whitespace" (at_line rel line)]
    | [] => []
    end.

(** [orchestratorgo/codeanalysis/service.go:64-91] normalizeTypes. *)
Definition normalizeTypes (l : list string) : list string :=
  match merge_sort String.le (filter (λ t, t ∈ ["dependencies"; "security"; "complexity"; "lint"])
          (unique_from [] (to_lower <$> l))) with
  | [] => ["dependencies"; "security"]
  | types => types
  end.
(** [orchestratorgo/codeanalysis/service.go:32-62] Analyze. *)
Definition analysis_of (root type : string) : list Finding :=
  if type =?s "dependencies" then analyzeDependencies root
  else if type =?s "security" then analyzeSecurity root
  else if type =?s "complexity" then analyzeComplexity root
  else analyzeLint root.
Definition Analyze (root : string) (analysisTypes : list string) : res Result :=
  let root := path_clean (trim_space root) in
  match match disk root with Some t => follow t | None => None end with
  | None => Err (ErrText (stat_error root))
  | Some t =>
      if is_directory t then Ok (summarize (normalizeTypes analysisTypes ≫= analysis_of root))
      else Err (ErrText "analysis root is not a directory")
  end.
End Analysis.

(** [orchestratorgo/codeanalysis/service.go:14-28] Finding, Summary and Result, as JSON. *)
Definition summary_value (r : Result) : gval :=
  VMap {["total_findings" := VInt (TotalFindings r); "by_severity" := VMap (VInt <$> BySeverity r)]}.
Definition summary_json (r : Result) : jval :=
  struct_jval [("total_findings", JNum (pretty (TotalFindings r)));
               ("by_severity", to_jval (VMap (VInt <$> BySeverity r)))].
Definition findings_json (r : Result) : jval :=
  JArr ((λ f, struct_jval
    ([("severity", json_str (Severity f)); ("message", json_str (Message f))]
     ++ (if bool_decide (Location f = ∅) then [] else [("location", to_jval (VMap (Location f)))])))
    <$> Findings r).
Definition result_json (r : Result) : string :=
  compact (struct_jval [("findings", findings_json r); ("summary", summary_json r)]).
(** The findings of a [Result], each with its fields as keys. *)
Definition findings_value (r : Result) : gval :=
  VMaps ((λ f, {["severity" := VStr (Severity f); "message" := VStr (Message f)]}
    ∪ (if bool_decide (Location f = ∅) then ∅ else {["location" := VMap (Location f)]})) <$> Findings r).
