(* ===== verification/ScaffoldFiles.v ===== *)
(** * The files of a new project ([bridge/scaffold_project.go])

    What a bridge writes when it scaffolds a project of each type: the texts, under
    their paths, and the command that checks them.  A grave accent stands for a
    quotation mark in the texts. *)
From S2P Require Import Prelude Runner.

Definition unquoted (s : string) : string := replace_char "`" dquote s.

(** [orchestratorgo/bridge/scaffold_project.go:535-540] sanitizeProjectName: as the runner does. *)
Definition sanitizeProjectName (value : string) : string := Runner.sanitizeProjectName value.
(** [orchestratorgo/bridge/scaffold_project.go:542-548] truncateString. *)
Definition truncateString (text : string) (max : Z) : string :=
  let text := trim_space text in if slen text <=? max then text else stake (Z.to_nat max) text.
(** [orchestratorgo/bridge/scaffold_project.go:550-565] expectedProjectFiles: as the runner's. *)
Definition expectedProjectFiles (projectType : string) : list string :=
  Runner.expectedProjectFiles projectType.
(** [orchestratorgo/bridge/executor.go:2469-2488] defaultBridgeTestCommand. *)
Definition defaultBridgeTestCommand (projectType stack : string) : list string :=
  let stack := to_lower (trim_space stack) in
  let projectType := to_lower (trim_space projectType) in
  if stack =?s "static" then page_check
  else if stack =?s "node" then ["node"; "--check"; "app.js"]
  else
    ["python3"; "-m"; "py_compile";
     if projectType =?s "api_http" then "app.py"
     else if projectType =?s "worker_background" then "worker.py"
     else if projectType =?s "debug_regression" then "calculator.py"
     else if projectType =?s "toy_repo" then "src/service.py"
     else "main.py"].

(** ** Texts *)

(** [orchestratorgo/bridge/scaffold_project.go:166-174] scaffoldFiles: README.md. *)
Definition readme (projectType stack projectName goal testFocus : string) : string :=
  unquoted "# " +:+ projectName +:+ unquoted "

Type: " +:+ projectType +:+ unquoted "
Stack: " +:+ stack +:+ unquoted "
Goal: " +:+ goal +:+ unquoted "
Test focus: " +:+ testFocus +:+ unquoted "

This mini project exists to test the Lab local bridge, task orchestration, approvals, diffs, and result persistence without requiring a cathedral of dependencies.
".
(** [orchestratorgo/bridge/scaffold_project.go:182-198] scaffoldFiles: app.py. *)
Definition app_py : string :=
  unquoted "from http.server import BaseHTTPRequestHandler, HTTPServer


class Handler(BaseHTTPRequestHandler):
    def do_GET(self):
        if self.path == `/health`:
            self.send_response(200)
            self.end_headers()
            self.wfile.write(b`ok`)
            return
        self.send_response(404)
        self.end_headers()


if __name__ == `__main__`:
    HTTPServer((`127.0.0.1`, 8088), Handler).serve_forever()
".
(** [orchestratorgo/bridge/scaffold_project.go:199-205] scaffoldFiles: tests/test_app.py. *)
Definition test_app_py : string :=
  unquoted "from pathlib import Path


def test_app_has_health_route():
    source = Path(`app.py`).read_text()
    assert '`/health`' in source
".
(** [orchestratorgo/bridge/scaffold_project.go:207-253] scaffoldFiles: index.html. *)
Definition index_html (projectName goal testFocus : string) : string :=
  unquoted "<!doctype html>
<html lang=`en`>
  <head>
    <meta charset=`utf-8` />
    <meta name=`viewport` content=`width=device-width, initial-scale=1` />
    <title>" +:+ projectName +:+ unquoted "</title>
    <link rel=`stylesheet` href=`style.css` />
  </head>
  <body>
    <main class=`shell`>
      <section class=`hero`>
        <p class=`eyebrow`>Lab frontend smoke</p>
        <h1>" +:+ projectName +:+ unquoted "</h1>
        <p class=`hero-copy`>" +:+ goal +:+ unquoted "</p>
        <div class=`hero-actions`>
          <button id=`ping` type=`button`>Run local test</button>
          <span id=`status-badge` class=`badge badge-idle`>ready</span>
        </div>
      </section>

      <section class=`grid`>
        <article class=`card`>
          <h2>Execution target</h2>
          <p>Local bridge with deterministic static assets.</p>
        </article>
        <article class=`card`>
          <h2>Primary check</h2>
          <p>" +:+ testFocus +:+ unquoted "</p>
        </article>
        <article class=`card`>
          <h2>Operator note</h2>
          <p>Keep the UI intentionally small, but not embarrassingly generic.</p>
        </article>
      </section>

      <section class=`console-card`>
        <div class=`console-header`>
          <span>activity.log</span>
          <span>frontend smoke</span>
        </div>
        <pre id=`output`>ready</pre>
      </section>
    </main>
    <script src=`app.js`></script>
  </body>
</html>
".
(** [orchestratorgo/bridge/scaffold_project.go:254-270] scaffoldFiles: app.js. *)
Definition app_js : string :=
  unquoted "const output = document.getElementById(`output`);
const badge = document.getElementById(`status-badge`);
const button = document.getElementById(`ping`);

const lines = [
  `bridge: connected`,
  `planner: completed`,
  `coder: completed`,
  `reviewer: completed`,
];

button.addEventListener(`click`, () => {
  output.textContent = lines.join(`\n`);
  badge.textContent = `bridge-tui-ok`;
  badge.className = `badge badge-success`;
});
".
(** [orchestratorgo/bridge/scaffold_project.go:271-447] scaffoldFiles: style.css. *)
Definition style_css : string :=
  unquoted ":root {
  color-scheme: light;
  --bg: #f3efe5;
  --panel: rgba(255, 252, 246, 0.86);
  --ink: #172033;
  --muted: #5c6474;
  --accent: #1e847f;
  --accent-strong: #0f5c60;
  --border: rgba(23, 32, 51, 0.1);
  --shadow: 0 24px 60px rgba(20, 27, 45, 0.12);
}

* {
  box-sizing: border-box;
}

body {
  margin: 0;
  min-height: 100vh;
  font-family: `Avenir Next`, `Segoe UI`, sans-serif;
  color: var(--ink);
  background:
    radial-gradient(circle at top left, rgba(30, 132, 127, 0.18), transparent 32%),
    linear-gradient(180deg, #fbf8f1 0%, var(--bg) 100%);
}

.shell {
  width: min(960px, calc(100% - 32px));
  margin: 40px auto;
}

.hero,
.card,
.console-card {
  background: var(--panel);
  border: 1px solid var(--border);
  box-shadow: var(--shadow);
  backdrop-filter: blur(10px);
}

.hero {
  padding: 32px;
  border-radius: 28px;
}

.eyebrow {
  margin: 0 0 12px;
  text-transform: uppercase;
  letter-spacing: 0.16em;
  font-size: 0.72rem;
  color: var(--accent-strong);
}

h1,
h2,
p {
  margin: 0;
}

h1 {
  font-size: clamp(2.2rem, 4vw, 3.8rem);
  line-height: 0.96;
  max-width: 12ch;
}

.hero-copy {
  margin-top: 18px;
  max-width: 56ch;
  font-size: 1.05rem;
  line-height: 1.65;
  color: var(--muted);
}

.hero-actions {
  display: flex;
  gap: 12px;
  align-items: center;
  margin-top: 24px;
  flex-wrap: wrap;
}

button {
  border: 0;
  border-radius: 999px;
  background: linear-gradient(135deg, var(--accent), var(--accent-strong));
  color: white;
  padding: 14px 20px;
  font: inherit;
  font-weight: 700;
  cursor: pointer;
}

.badge {
  display: inline-flex;
  align-items: center;
  border-radius: 999px;
  padding: 10px 14px;
  font-size: 0.92rem;
  font-weight: 700;
}

.badge-idle {
  background: rgba(23, 32, 51, 0.08);
  color: var(--muted);
}

.badge-success {
  background: rgba(30, 132, 127, 0.15);
  color: var(--accent-strong);
}

.grid {
  display: grid;
  grid-template-columns: repeat(3, minmax(0, 1fr));
  gap: 16px;
  margin-top: 20px;
}

.card {
  border-radius: 22px;
  padding: 20px;
}

.card h2 {
  font-size: 1rem;
  margin-bottom: 10px;
}

.card p {
  color: var(--muted);
  line-height: 1.55;
}

.console-card {
  border-radius: 24px;
  margin-top: 20px;
  overflow: hidden;
}

.console-header {
  display: flex;
  justify-content: space-between;
  padding: 14px 18px;
  border-bottom: 1px solid var(--border);
  color: var(--muted);
  font-size: 0.85rem;
  text-transform: uppercase;
  letter-spacing: 0.08em;
}

pre {
  margin: 0;
  padding: 20px 18px 24px;
  min-height: 120px;
  white-space: pre-wrap;
  color: #d9f7f2;
  background: #13202b;
  font-family: `SFMono-Regular`, `Menlo`, monospace;
  line-height: 1.55;
}

@media (max-width: 720px) {
  .shell {
    width: min(100% - 20px, 100%);
    margin: 20px auto;
  }

  .hero,
  .card {
    border-radius: 22px;
  }

  .grid {
    grid-template-columns: 1fr;
  }
}
".
(** [orchestratorgo/bridge/scaffold_project.go:448-459] scaffoldFiles: tests/test_static.py. *)
Definition test_static_py : string :=
  unquoted "from pathlib import Path


def test_index_contains_button():
    html = Path(`index.html`).read_text()
    assert `Run local test` in html


def test_static_shell_mentions_activity_log():
    html = Path(`index.html`).read_text()
    assert `activity.log` in html
".
(** [orchestratorgo/bridge/scaffold_project.go:461-468] scaffoldFiles: worker.py. *)
Definition worker_py (projectName : string) : string :=
  unquoted "def run_job(payload: dict | None = None) -> str:
    payload = payload or {}
    return `processed:" +:+ projectName +:+ unquoted ":` + str(payload.get(`job`, `default`))


if __name__ == `__main__`:
    print(run_job({`job`: `demo`}))
".
(** [orchestratorgo/bridge/scaffold_project.go:469-474] scaffoldFiles: tests/test_worker.py. *)
Definition test_worker_py (projectName : string) : string :=
  unquoted "from worker import run_job


def test_run_job():
    assert run_job({`job`: `sync`}) == `processed:" +:+ projectName +:+ unquoted ":sync`
".
(** [orchestratorgo/bridge/scaffold_project.go:476-484] scaffoldFiles: calculator.py. *)
Definition calculator_py : string :=
  unquoted "def add(a: int, b: int) -> int:
    return a + b


def divide(a: int, b: int) -> float:
    if b == 0:
        raise ValueError(`division by zero`)
    return a / b
".
(** [orchestratorgo/bridge/scaffold_project.go:485-494] scaffoldFiles: tests/test_calculator.py. *)
Definition test_calculator_py : string :=
  unquoted "from calculator import add, divide


def test_add():
    assert add(2, 3) == 5


def test_divide():
    assert divide(8, 2) == 4
".
(** [orchestratorgo/bridge/scaffold_project.go:496-498] scaffoldFiles: src/service.py. *)
Definition service_py : string :=
  unquoted "def summarize(items: list[str]) -> str:
    return `, `.join(sorted(items))
".
(** [orchestratorgo/bridge/scaffold_project.go:499-504] scaffoldFiles: tests/test_service.py. *)
Definition test_service_py : string :=
  unquoted "from src.service import summarize


def test_summarize():
    assert summarize([`beta`, `alpha`]) == `alpha, beta`
".
(** [orchestratorgo/bridge/scaffold_project.go:505-505] scaffoldFiles: docs/notes.md. *)
Definition notes_md : string :=
  "This repository is intentionally tiny. The point is orchestration testing, not medieval craftsmanship." +:+ nl.
(** [orchestratorgo/bridge/scaffold_project.go:507-513] scaffoldFiles: main.py. *)
Definition main_py (projectName : string) : string :=
  unquoted "def main() -> str:
    return `hello from " +:+ projectName +:+ unquoted "`


if __name__ == `__main__`:
    print(main())
".
(** [orchestratorgo/bridge/scaffold_project.go:514-519] scaffoldFiles: tests/test_main.py. *)
Definition test_main_py (projectName : string) : string :=
  unquoted "from main import main


def test_main():
    assert main() == `hello from " +:+ projectName +:+ unquoted "`
".
(** [orchestratorgo/bridge/scaffold_project.go:522-530] scaffoldFiles: lab.json, with the texts quoted as Go does. *)
Definition lab_json (projectType stack projectName goal testFocus : string) : string :=
  unquoted "{
  `project_name`: " +:+ go_quote projectName +:+ unquoted ",
  `project_type`: " +:+ go_quote projectType +:+ unquoted ",
  `runtime_or_stack`: " +:+ go_quote stack +:+ unquoted ",
  `goal`: " +:+ go_quote goal +:+ unquoted ",
  `test_focus`: " +:+ go_quote testFocus +:+ unquoted ",
  `test_command`: " +:+ go_quote (sjoin " " (defaultBridgeTestCommand projectType stack)) +:+ unquoted "
}
".

(** ** The files *)

(** [orchestratorgo/bridge/scaffold_project.go:176-520] scaffoldFiles: the files of a type, *)
Definition type_files (projectType projectName goal testFocus : string) : list (string * string) :=
  if projectType =?s "api_http" then [("app.py", app_py); ("tests/test_app.py", test_app_py)]
  else if projectType =?s "web_small" then
    [("index.html", index_html projectName goal testFocus); ("app.js", app_js);
     ("style.css", style_css); ("tests/test_static.py", test_static_py)]
  else if projectType =?s "worker_background" then
    [("worker.py", worker_py projectName); ("tests/test_worker.py", test_worker_py projectName)]
  else if projectType =?s "debug_regression" then
    [("calculator.py", calculator_py); ("tests/test_calculator.py", test_calculator_py)]
  else if projectType =?s "toy_repo" then
    [("src/service.py", service_py); ("tests/test_service.py", test_service_py); ("docs/notes.md", notes_md)]
  else [("main.py", main_py projectName); ("tests/test_main.py", test_main_py projectName)].
(** [orchestratorgo/bridge/scaffold_project.go:163-180] scaffoldFiles: and all. *)
Definition scaffoldFiles (projectType stack projectName goal testFocus : string) : gmap string string :=
  let projectType := to_lower (trim_space projectType) in
  let stack := to_lower (trim_space stack) in
  list_to_map
    (("README.md", readme projectType stack projectName goal testFocus)
     :: ("lab.json", lab_json projectType stack projectName goal testFocus)
     :: type_files projectType projectName goal testFocus).

(** The paths do not depend on the texts: those a review expects. *)
Lemma scaffold_paths projectType stack projectName goal testFocus :
  ∀ path, path ∈ dom (scaffoldFiles projectType stack projectName goal testFocus)
    ↔ path ∈ expectedProjectFiles projectType.
Proof.
  intros path. unfold scaffoldFiles, expectedProjectFiles, Runner.expectedProjectFiles. cbv zeta.
  rewrite dom_list_to_map. unfold type_files.
  repeat case_match; rewrite elem_of_list_to_set;
    rewrite ?fmap_cons; unfold fst; rewrite fmap_nil, !elem_of_cons, elem_of_nil; tauto.
Qed.
