(* ===== verification/Glob.v ===== *)
(** * Names that match a pattern

    [filepath.Match] on Unix: the pattern is taken apart in chunks between stars, and a
    chunk is matched rune by rune where it has a class or a question mark, else byte by
    byte. *)
From S2P Require Import Prelude.

Definition slash : ascii := "/".
Definition is_char (n : N) (s : string) : bool :=
  match s with String a _ => isb n a | EmptyString => false end.

(** The first rune of a text and the rest ([utf8.DecodeRuneInString]); a byte that starts
    none reads as U+FFFD. *)
Definition first_rune (s : string) : option (string * string) :=
  match units (λ _, "") s, s with
  | EmptyString :: _, String _ r => Some (replacement, r)
  | u :: _, _ => Some (u, sdrop (String.length u) s)
  | [], _ => None
  end.

(** ** Chunks *)

(** Up to a star outside a class, which a backslash takes the next byte past. *)
Fixpoint scan_chunk (inrange : bool) (s : string) : string * string :=
  match s with
  | EmptyString => ("", "")
  | String a r =>
      let take inrange := let '(chunk, rest) := scan_chunk inrange r in (String a chunk, rest) in
      if isb 92 a then
        match r with
        | EmptyString => (s, "")
        | String b r => let '(chunk, rest) := scan_chunk inrange r in (String a (String b chunk), rest)
        end
      else if isb 91 a then take true
      else if isb 93 a then take false
      else if isb 42 a && negb inrange then ("", s)
      else take inrange
  end.
Fixpoint drop_stars (s : string) : bool * string :=
  match s with
  | String a r => if isb 42 a then (true, (drop_stars r).2) else (false, s)
  | EmptyString => (false, "")
  end.
(** Whether stars come first, the chunk after them and the rest of the pattern. *)
Definition scanChunk (pattern : string) : bool * string * string :=
  let '(star, pattern) := drop_stars pattern in
  let '(chunk, rest) := scan_chunk false pattern in (star, chunk, rest).

(** A character of a class; nothing when the pattern is wrong, which it also is when it
    ends there. *)
Definition getEsc (chunk : string) : option (string * string) :=
  if is_char 45 chunk || is_char 93 chunk then None
  else
    match first_rune (if is_char 92 chunk then sdrop 1 chunk else chunk) with
    | Some (r, rest) =>
        if (rest =?s "")
           || (r =?s replacement) && negb (has_prefix replacement (if is_char 92 chunk then sdrop 1 chunk else chunk))
        then None
        else Some (r, rest)
    | None => None
    end.
(** The ranges of a class, whether one holds the rune, and what follows the class. *)
Fixpoint class_ranges (fuel : nat) (r : string) (found first : bool) (chunk : string) :
    option (bool * string) :=
  match fuel with
  | O => None
  | S fuel =>
      if is_char 93 chunk && negb first then Some (found, sdrop 1 chunk)
      else
        match getEsc chunk with
        | None => None
        | Some (lo, chunk) =>
            match (if is_char 45 chunk then getEsc (sdrop 1 chunk) else Some (lo, chunk)) with
            | None => None
            | Some (hi, chunk) =>
                class_ranges fuel r (found || String.leb lo r && String.leb r hi) false chunk
            end
        end
  end.

(** What is left of a name that starts as the chunk says, if it does; nothing when the
    pattern is wrong, which is found out even when the name does not match. *)
Fixpoint match_chunk (fuel : nat) (chunk : string) (name : option string) : option (option string) :=
  match fuel with
  | O => None
  | S fuel =>
      match chunk with
      | EmptyString => Some name
      | String a rest =>
          let name := match name with Some EmptyString => None | _ => name end in
          let rune := match name with Some s => first_rune s | None => None end in
          if isb 91 a then
            let negated := is_char 94 rest in
            match class_ranges fuel (default "" (fst <$> rune)) false true
                    (if negated then sdrop 1 rest else rest) with
            | None => None
            | Some (found, chunk) =>
                match_chunk fuel chunk (if Bool.eqb found negated then None else snd <$> rune)
            end
          else if isb 63 a then
            match_chunk fuel rest
              (match name with Some s => if is_char 47 s then None else snd <$> rune | None => None end)
          else
            let literal (a : ascii) (rest : string) :=
              match_chunk fuel rest
                (match name with
                 | Some (String b s) => if Ascii.eqb a b then Some s else None
                 | _ => None
                 end) in
            if isb 92 a then match rest with String b rest => literal b rest | EmptyString => None end
            else literal a rest
      end
  end.
Definition matchChunk (chunk name : string) : option (option string) :=
  match_chunk (S (S (String.length chunk))) chunk (Some name).

(** ** Patterns *)

(** The starts of a name after a star, which passes no separator. *)
Fixpoint after_star (name : string) : list string :=
  match name with
  | String a r => if Ascii.eqb a slash then [] else r :: after_star r
  | EmptyString => []
  end.
(** The first of them that the chunk takes, wholly when it is the last chunk. *)
Fixpoint first_match (chunk : string) (final : bool) (names : list string) : option (option string) :=
  match names with
  | [] => Some None
  | name :: names =>
      match matchChunk chunk name with
      | None => None
      | Some (Some rest) =>
          if final && negb (rest =?s "") then first_match chunk final names else Some (Some rest)
      | Some None => first_match chunk final names
      end
  end.
(** The chunks that remain are looked at for errors. *)
Fixpoint valid_chunks (fuel : nat) (pattern : string) : bool :=
  match fuel with
  | O => false
  | S fuel =>
      if pattern =?s "" then true
      else
        let '(_, chunk, pattern) := scanChunk pattern in
        match matchChunk chunk "" with Some _ => valid_chunks fuel pattern | None => false end
  end.
Fixpoint match_from (fuel : nat) (pattern name : string) : option bool :=
  match fuel with
  | O => None
  | S fuel =>
      if pattern =?s "" then Some (name =?s "")
      else
        let '(star, chunk, rest) := scanChunk pattern in
        if star && (chunk =?s "") then Some (negb (contains "/" name))
        else
          let refuse := if valid_chunks fuel rest then Some false else None in
          let search :=
            if star then
              match first_match chunk (rest =?s "") (after_star name) with
              | None => None
              | Some (Some name) => match_from fuel rest name
              | Some None => refuse
              end
            else refuse in
          match matchChunk chunk name with
          | None => None
          | Some (Some after) =>
              if (after =?s "") || negb (rest =?s "") then match_from fuel rest after else search
          | Some None => search
          end
  end.
(** [filepath.Match]; nothing for [ErrBadPattern]. *)
Definition Match (pattern name : string) : option bool :=
  match_from (S (String.length pattern)) pattern name.

Example Match_demo :
  (λ p : string * string, Match p.1 p.2) <$>
    [("*.go", "a.go"); ("*.go", "a.gone"); ("a?c", "abc"); ("[a-c]*", "bx"); ("[^a-c]*", "bx");
     ("a*b*c", "aXbYcc"); ("a[", "b"); ("a\", "b"); ("?", "ñ"); ("*", ""); ("\*", "*"); ("[]a]", "]")]
  = [Some true; Some false; Some true; Some true; Some false; Some true; None; None; Some true;
     Some true; Some true; None].
Proof. vm_compute. reflexivity. Qed.
