(* ===== verification/CoderTask.v ===== *)
(** * What a bridge tells the coder ([bridge/executor.go])

    The command line of an aider task: the description with what is known of earlier
    attempts, the test command, the scope and the metadata. *)
From S2P Require Import Prelude GoVal Objective Retrieval Plans RepairScope.

(** ** The description *)

(** [orchestratorgo/bridge/executor.go:2298-2307] truncateForPrompt. *)
Definition truncateForPrompt (value : string) (maxRunes : Z) : string :=
  if maxRunes <=? 0 then ""
  else if rune_count value <=? maxRunes then value
  else take_runes maxRunes value +:+ "...".

(** [orchestratorgo/bridge/executor.go:2154-2296] enrichAiderDescription: a titled text, a
    titled list, *)
Definition section_of (title text : string) : list string :=
  if text =?s "" then [] else [""; title; text].
Definition list_of (head : list string) (line : gmap_any → list string) (l : list gmap_any) : list string :=
  match l with [] => [] | _ => head ++ (l ≫= line) end.
(** a finding under the first of some labels, *)
Definition labelled_line (keys : list string) (item : gmap_any) : list string :=
  let message := text_at item "message" in
  let label := first_nonblank ((text_at item <$> keys) ++ ["info"]) in
  if message =?s "" then [] else ["- [" +:+ label +:+ "] " +:+ message].
Definition analysis_line (item : gmap_any) : list string :=
  let file := text_at (default ∅ (only_map (mget item "location"))) "file" in
  match labelled_line ["severity"] item with
  | [line] => [if file =?s "" then line else line +:+ " (" +:+ file +:+ ")"]
  | l => l
  end.
(** what became of the planner's choice, *)
Definition resolution_lines (metadata : gmap_any) : list string :=
  let paths key := anyStringSliceDefault (mget metadata key) [] in
  let planner := text_at metadata "planner_scope_resolution" in
  let rejected := text_at metadata "planner_rejected_scope_resolution" in
  (if planner =?s "contradicted" then
     ["Planner selected paths contradicted by review: previous shortlist lost priority for this attempt"]
   else if planner =?s "confirmed" then listed "Planner confirmed paths: " (paths "suspected_paths")
   else [])
  ++ (if rejected =?s "confirmed" then
        listed "Planner rejected paths still excluded: " (paths "excluded_scope_paths")
      else if rejected =?s "contradicted" then
        listed "Planner rejected but observed in diff: " (paths "suspected_paths")
      else [])
  ++ listed "Excluded paths: " (paths "excluded_scope_paths").
(** and the whole. *)
Definition enrichAiderDescription (description : string) (metadata : gmap_any) : string :=
  let entries key := anyMapSlice (mget metadata key) in
  let context := text_at (default ∅ (only_map (mget metadata "context_package"))) "prompt_section" in
  trim_space (sjoin nl
    ([trim_space description]
     ++ section_of "Research brief:" (text_at metadata "objective_research_brief")
     ++ section_of "Repair feedback:" (text_at metadata "objective_repair_feedback")
     ++ list_of [""; "Review findings:"] finding_line (entries "review_comments")
     ++ list_of [""; "Structured findings:"] (labelled_line ["severity"; "kind"]) (entries "objective_findings")
     ++ list_of [""; "Failure hypotheses:"] hypothesis_line (entries "objective_failure_hypotheses")
     ++ section_of "Baseline validation:" (text_at metadata "objective_baseline_summary")
     ++ list_of ["Baseline validation findings:"] (labelled_line ["severity"])
          (entries "objective_baseline_findings")
     ++ list_of [""; "Patch intent:"] intent_line (entries "objective_patch_intent")
     ++ list_of [""; "Static analysis findings:"] analysis_line (entries "objective_analysis_findings")
     ++ section_of "Scope correction:" (text_at metadata "scope_correction_reason")
     ++ resolution_lines metadata
     ++ list_of [""; "Retrieved precedents:"] precedent_line (entries "objective_retrieval_precedents")
     ++ (if context =?s "" then [] else [""; "Retrieved context:"; truncateForPrompt context 1600]))).

(** ** The metadata *)

(** [orchestratorgo/bridge/executor.go:2437-2452] contextPackageSourceRefs. *)
Definition contextPackageSourceRefs (v : gval) : slice string :=
  match v with
  | VStrs l => Some l
  | VNilStrs => Some []
  | VList l => Some (filter (λ s, s ≠ "") ((λ x, trim_space (as_string x)) <$> l))
  | _ => None
  end.
(** [orchestratorgo/bridge/executor.go:2119-2152] buildAiderTaskMetadata. *)
Definition buildAiderTaskMetadata (metadata : gmap_any) : gmap_any :=
  let text key := VStr (text_at metadata key) in
  let maps key := VMaps (anyMapSlice (mget metadata key)) in
  let texts key := VStrs (anyStringSliceDefault (mget metadata key) []) in
  let map key := VMap (nonNilMap (mget metadata key)) in
  let out := obj
    [("objective_title", text "objective_title");
     ("initiative_goal", text "initiative_goal");
     ("work_item_kind", text "work_item_kind");
     ("objective_iteration", VInt (asInt (mget metadata "objective_iteration") 1));
     ("objective_max_iterations", VInt (asInt (mget metadata "objective_max_iterations") 3));
     ("objective_research_brief", text "objective_research_brief");
     ("repair_feedback", text "objective_repair_feedback");
     ("review_decision", text "review_decision");
     ("review_comments", maps "review_comments");
     ("objective_findings", maps "objective_findings");
     ("objective_failure_hypotheses", maps "objective_failure_hypotheses");
     ("objective_patch_intent", maps "objective_patch_intent");
     ("objective_baseline_test_results", map "objective_baseline_test_results");
     ("objective_baseline_findings", maps "objective_baseline_findings");
     ("objective_baseline_summary", text "objective_baseline_summary");
     ("objective_analysis_findings", maps "objective_analysis_findings");
     ("objective_analysis_summary", map "objective_analysis_summary");
     ("excluded_scope_paths", texts "excluded_scope_paths");
     ("scope_correction_reason", text "scope_correction_reason");
     ("planner_scope_resolution", text "planner_scope_resolution");
     ("planner_rejected_scope_resolution", text "planner_rejected_scope_resolution");
     ("objective_retrieval_precedents", maps "objective_retrieval_precedents");
     ("retrieval_packet_artifact_id", text "retrieval_packet_artifact_id");
     ("validation_commands", texts "validation_commands");
     ("suspected_paths", texts "suspected_paths")] in
  let contextPackage := nonNilMap (mget metadata "context_package") in
  if bool_decide (contextPackage = ∅) then out
  else
    <["context_prompt_section" := VStr (text_at contextPackage "prompt_section")]>
      (<["context_source_refs" := strs_value (contextPackageSourceRefs (mget contextPackage "source_refs"))]> out).

(** ** The command line *)

(** [orchestratorgo/bridge/executor.go:2309-2316] flagValueIndex. *)
Definition flagValueIndex (argv : list string) (flag : string) : option nat :=
  fst <$> list_find (λ a, a = flag) argv.
(** [orchestratorgo/bridge/executor.go:1103-1132] prepareCommandArgs: a flag that is not
    given, if there is a value for it, *)
Definition add_flag (flag : string) (value : option string) (argv : list string) : list string :=
  match flagValueIndex argv flag, value with
  | None, Some value => argv ++ [flag; value]
  | _, _ => argv
  end.
Definition joined (separator : string) (l : list string) : option string :=
  match l with [] => None | _ => Some (sjoin separator l) end.
(** and the whole. *)
Definition task_metadata_of (request : gmap_any) : gmap_any := nonNilMap (mget request "_task_metadata").
Definition prepareCommandArgs (argv : list string) (request : gmap_any) : list string :=
  let metadata := task_metadata_of request in
  if negb (default "" (head argv) =?s "aider-task") || bool_decide (metadata = ∅) then argv
  else
    let argv := match flagValueIndex argv "--description" with
                | Some i => alter (λ d, enrichAiderDescription d metadata) (S i) argv
                | None => argv
                end in
    add_flag "--metadata" (Some (mustJSON (VMap (buildAiderTaskMetadata metadata))))
      (add_flag "--scope-paths" (joined "," (anyStringSliceDefault (mget metadata "suspected_paths") []))
        (add_flag "--test-command" (joined " " (anyStringSliceDefault (mget metadata "validation_commands") []))
          argv)).

(** The program stays the same. *)
Lemma add_flag_head flag value argv a :
  head argv = Some a → head (add_flag flag value argv) = Some a.
Proof. unfold add_flag. by destruct (flagValueIndex _ _), value, argv. Qed.
Lemma prepareCommandArgs_head argv request : head (prepareCommandArgs argv request) = head argv.
Proof.
  unfold prepareCommandArgs. destruct argv as [|a argv]; [done|]. destruct (_ || _); [done|].
  change (head (a :: argv)) with (Some a). do 3 apply add_flag_head. by destruct (flagValueIndex _ _).
Qed.
