(* ===== verification/Executor.v ===== *)
(** * The executor of a bridge ([bridge/executor.go])

    What a bridge does with a task it has claimed: the tools it knows, on the files of
    its workspace, with the commands it may run; and the result it sends back. *)
From S2P Require Import Prelude GoVal JsonText Effects Domain Objective Retrieval Workspace Plans Runner Machine.
From S2P Require Import RepairScope ReviewReport CodeAnalysis ScaffoldFiles Glob CoderTask.

(** ** Tools *)

(** [orchestratorgo/bridge/executor.go:20-33] allowedCommands. *)
Definition allowedCommands : list string :=
  ["pytest"; "python"; "python3"; "uv"; "npm"; "pnpm"; "yarn"; "make"; "composer"; "php"; "git";
   "aider-task"].
(** [orchestratorgo/bridge/executor.go:47-55] toolCapabilityMap. *)
Definition toolCapabilityMap : gmap string string :=
  {["read_file" := "filesystem.read"; "filesystem.read" := "filesystem.read";
    "list_files" := "filesystem.list"; "filesystem.list" := "filesystem.list";
    "write_file" := "filesystem.write"; "filesystem.write" := "filesystem.write";
    "code_analysis" := "code.analysis"]}.
(** [orchestratorgo/bridge/executor.go:2415-2435] allowedCapabilities. *)
Definition allowedCapabilities (metadata : gmap_any) : gset string :=
  list_to_set (filter (λ s, s ≠ "")
    match mget metadata "allowed_capabilities" with
    | VStrs l => trim_space <$> l
    | VList l => (λ x, trim_space (as_string x)) <$> l
    | _ => []
    end).
(** [orchestratorgo/bridge/executor.go:2397-2413] ensureToolCapabilityAllowed. *)
Definition ensureToolCapabilityAllowed (metadata : gmap_any) (tool : string) : option string :=
  let capability := trim_space (default "" (toolCapabilityMap !! tool)) in
  let allowed := allowedCapabilities metadata in
  if (capability =?s "") || bool_decide (allowed = ∅) || bool_decide (capability ∈ allowed)
     || has_prefix "filesystem." capability && bool_decide ("filesystem" ∈ allowed)
  then None
  else Some ("tool " +:+ tool +:+ " requires allowed capability " +:+ capability).
(** [orchestratorgo/bridge/executor.go:2350-2384] mergeToolRequestWithMetadata. *)
Definition merged_keys : list string :=
  ["initial_scope_hypotheses"; "rejected_scope_hypotheses"; "objective_patch_intent";
   "objective_baseline_test_results"; "objective_baseline_findings"; "objective_baseline_summary";
   "objective_failure_hypotheses"; "objective_analysis_findings"; "objective_analysis_summary";
   "excluded_scope_paths"; "scope_correction_reason"; "planner_scope_resolution";
   "planner_rejected_scope_resolution"; "context_package"; "retrieval_packet_artifact_id";
   "objective_retrieval_precedents"; "suspected_paths"; "review_comments"; "review_decision"].
Definition mergeToolRequestWithMetadata (toolRequest metadata : gmap_any) : gmap_any :=
  foldl (λ out key,
    match out !! key, metadata !! key with
    | None, Some v => <[key := v]> out
    | _, _ => out
    end) toolRequest merged_keys.
(** [orchestratorgo/bridge/executor.go:1341-1348] asBool. *)
Definition asBool (v : gval) : bool := objectiveAsBool v.

(** ** Results *)

#[export] Instance eta_result : Eta LocalBridgeResult := λ r,
  MkResult (br_status r) (br_summary r) (br_stdout r) (br_stderr r) (br_exit_code r) (br_diff r)
    (br_changed r) (br_tests r) (br_artifacts r) (br_error r) (br_action r) (br_resource r)
    (br_timeout r) (br_decision r) (br_comments r) (br_findings r) (br_usage r) (br_helped r)
    (br_noise r) (br_denied r).
Definition bare (status summary : string) : LocalBridgeResult :=
  MkResult status (Some summary) None None None None None None None None None None None None None
    None None None None None.
Definition maps (l : list gmap_any) : slice (option gmap_any) := Some (Some <$> l).
Definition maps_of (l : slice gmap_any) : slice (option gmap_any) :=
  match l with Some l => maps l | None => None end.
(** [orchestratorgo/bridge/executor.go:1370-1376] stringPtr. *)
Definition stringPtr (value : string) : option string :=
  if trim_space value =?s "" then None else Some (trim_space value).
Definition with_output (stdout stderr : string) (exitCode : Z) (r : LocalBridgeResult) : LocalBridgeResult :=
  r <| br_stdout := stringPtr stdout |> <| br_stderr := stringPtr stderr |> <| br_exit_code := Some exitCode |>.
Definition artifact (type title media_type text : string) : gmap_any :=
  obj [("type", VStr type); ("title", VStr title); ("media_type", VStr media_type);
       ("content_text", VStr text)].
Definition refuse {A} (message : string) : res A := Err (ErrText message).
(** [orchestratorgo/bridge/executor.go:1036-1055] uniqueCapabilities, of those that helped. *)
Definition helped_capabilities (l : list gmap_any) : slice string :=
  Some (merge_sort String.le (first_of_each []
    (filter (λ s, s ≠ "")
      ((λ item, text_at item "capability") <$> filter (λ item, asBool (mget item "helped") = true) l)))).

(** ** Paths *)

(** [filepath.Rel], of cleaned rooted paths. *)
Definition path_parts (p : string) : list string := filter (λ c, c ≠ "") (split_on "/" p).
Fixpoint rel_parts (base target : list string) : list string :=
  match base, target with
  | b :: base', t :: target' => if b =?s t then rel_parts base' target' else replicate (length base) ".." ++ target
  | _, _ => replicate (length base) ".." ++ target
  end.
Definition Rel (base target : string) : string :=
  match rel_parts (path_parts base) (path_parts target) with [] => "." | l => sjoin "/" l end.

Section Executor.
Context {W : Type} `{Machine W}.
(** What [os.Stat] and [os.Lstat] say of a path that is not there; and the orders in which
    Go ranges over maps. *)
Context (stat_error lstat_error : string → string).
Context (range : gmap_any → list (string * gval)) (range_files : gmap string string → list (string * string)).

(** [orchestratorgo/bridge/executor.go:57-71] NewWorkspaceExecutor: the root of its workspace. *)
Definition NewWorkspaceExecutor (workspaceRoot : string) : Run W (res string) :=
  root ← Abs (trim_space workspaceRoot);
  match root with
  | Err e => mret (Err e)
  | Ok root =>
      info ← call (Stat root);
      mret match info with
           | Err e => Err e
           | Ok false => refuse ("workspace root is not a directory: " +:+ root)
           | Ok true => Ok root
           end
  end.

Context (root : string).

(** [orchestratorgo/bridge/executor.go:1283-1304] resolveWithDefault: the path and the same from
    the root of the workspace. *)
Definition resolveWithDefault (raw : gval) (fallback : string) : res (string * string) :=
  let path := trim_space (as_string raw) in
  let path := if path =?s "" then fallback else path in
  if path =?s "" then refuse "path is required"
  else
    let candidate := path_clean (if is_rooted path then path else path_join [root; path]) in
    let rel := Rel root candidate in
    if (rel =?s "..") || has_prefix "../" rel then refuse ("path escapes workspace: " +:+ path)
    else Ok (candidate, rel).
(** [orchestratorgo/bridge/executor.go:1279-1281] resolve. *)
Definition resolve (raw : gval) : res (string * string) := resolveWithDefault raw "".

(** ** Git *)

(** [orchestratorgo/bridge/executor.go:1231-1253] workspaceGitState: the output of a command,
    whatever becomes of it, *)
Definition git_output (argv : list string) : Run W string :=
  outcome ← call (Exec root argv "");
  mret (ex_stdout outcome).
Definition git_status_all : list string := ["git"; "status"; "--short"; "--untracked-files=all"].
Definition git_diff : list string := ["git"; "diff"; "--no-ext-diff"].
(** the files of a short status, *)
Definition status_file (rawLine : string) : list string :=
  let line := trim_set_right (String (ascii_of_nat 13) "") rawLine in
  if trim_space line =?s "" then []
  else [trim_space (if 3 <? slen line then sdrop 3 line else line)].
(** and the whole. *)
Definition workspaceGitState : Run W (string * list string) :=
  status ← git_output git_status_all;
  diff ← git_output git_diff;
  mret (diff, split_on (ascii_of_nat 10) status ≫= status_file).
(** [orchestratorgo/bridge/executor.go:1255-1263] workspaceGitSummaries. *)
Definition git_diff_stat : list string := ["git"; "diff"; "--stat"; "--no-ext-diff"].
Definition workspaceGitSummaries : Run W (string * string) :=
  status ← git_output git_status_all;
  stat ← git_output git_diff_stat;
  mret (status, stat).
(** [orchestratorgo/bridge/executor.go:1265-1277] gitTopLevel. *)
Definition git_toplevel : list string := ["git"; "rev-parse"; "--show-toplevel"].
Definition gitTopLevel : Run W (option string) :=
  outcome ← call (Exec root git_toplevel "");
  mret match ex_error outcome with
       | Some _ => None
       | None => Some (path_clean (trim_space (ex_stdout outcome)))
       end.
(** [orchestratorgo/bridge/executor.go:1174-1183] withGitArtifacts. *)
Definition withGitArtifacts (result : LocalBridgeResult) : Run W LocalBridgeResult :=
  top ← gitTopLevel;
  if bool_decide (top = Some root) then
    state ← workspaceGitState;
    mret (result <| br_changed := Some state.2 |> <| br_diff := Some state.1 |>)
  else mret result.

(** ** Commands *)

(** What a command that failed has to say. *)
Definition complaint (outcome : ExecResult) (e : string) : string :=
  first_nonblank [trim_space (ex_stderr outcome); trim_space (ex_stdout outcome); e].
(** [orchestratorgo/bridge/executor.go:1144-1172] runSubprocess. *)
Definition runSubprocess (argv : list string) (summary : string) : Run W (res LocalBridgeResult) :=
  match argv with
  | [] => mret (refuse "argv is required")
  | _ =>
      outcome ← call (Exec root argv "");
      let result status :=
        with_output (ex_stdout outcome) (ex_stderr outcome) (ex_exit_code outcome) (bare status summary) in
      match ex_error outcome with
      | Some e => mret (Ok ((result "error") <| br_error := Some (complaint outcome e) |>))
      | None => result ← withGitArtifacts (result "success"); mret (Ok result)
      end
  end.
(** [orchestratorgo/bridge/executor.go:1134-1142] runAllowedCommand. *)
Definition runAllowedCommand (argv : list string) (summary : string) : Run W (res LocalBridgeResult) :=
  match argv with
  | [] => mret (refuse "argv is required")
  | program :: _ =>
      if bool_decide (program ∈ allowedCommands) then runSubprocess argv summary
      else mret (refuse ("command not allowed: " +:+ program))
  end.

(** [orchestratorgo/bridge/executor.go:1185-1229] withCoderPacket: what the packet says of the
    changes and of the output, *)
Definition excerpt (key : string) (text : option string) (packet : gmap_any) : gmap_any :=
  let text := trim_space (default "" text) in
  if text =?s "" then packet else <[key := VStr (truncateForPrompt text 800)]> packet.
Definition coder_packet (result : LocalBridgeResult) (metadata : gmap_any) (gitStatus diffStat : string) :
    gmap_any :=
  let changed := items (br_changed result) in
  let hasObservableChanges :=
    negb (trim_space (default "" (br_diff result)) =?s "") || some_path changed
    || negb (trim_space gitStatus =?s "") || negb (trim_space diffStat =?s "") in
  let texts key := VStrs (anyStringSliceDefault (mget metadata key) []) in
  excerpt "stdout_excerpt" (br_stdout result) (excerpt "stderr_excerpt" (br_stderr result) (obj
    [("tool", VStr "aider-task");
     ("status", VStr (result_status result));
     ("summary", VStr (trim_space (default "" (br_summary result))));
     ("exit_code", VInt (default 0 (br_exit_code result)));
     ("changed_files", VStrs changed);
     ("changed_file_count", VInt (Z.of_nat (length changed)));
     ("diff_present", VBool hasObservableChanges);
     ("git_status_short", VStr gitStatus);
     ("git_diff_stat", VStr diffStat);
     ("validation_commands", texts "validation_commands");
     ("suspected_paths", texts "suspected_paths");
     ("objective_iteration", VInt (asInt (mget metadata "objective_iteration") 1));
     ("scope_correction", VMap (obj
        [("planner_scope_resolution", VStr (text_at metadata "planner_scope_resolution"));
         ("planner_rejected_scope_resolution",
            VStr (text_at metadata "planner_rejected_scope_resolution"));
         ("excluded_scope_paths", texts "excluded_scope_paths");
         ("reason", VStr (text_at metadata "scope_correction_reason"))]));
     ("self_check", VMap (obj
        [("git_status_short_present", VBool (negb (trim_space gitStatus =?s "")));
         ("git_diff_stat_present", VBool (negb (trim_space diffStat =?s "")));
         ("diff_present", VBool hasObservableChanges)]))])).
(** and the result with it. *)
Definition withCoderPacket (result : LocalBridgeResult) (argv : list string) (metadata : gmap_any) :
    Run W LocalBridgeResult :=
  if default "" (head argv) =?s "aider-task" then
    state ← workspaceGitSummaries;
    let packet := coder_packet result metadata state.1 state.2 in
    mret (result <| br_artifacts := Some (items (br_artifacts result)
      ++ [Some (artifact "coder_packet" "Coder execution packet" "application/json"
                  (mustJSON (VMap packet)))]) |>)
  else mret result.
(** [orchestratorgo/bridge/executor.go:1083-1101] runCommand. *)
Definition runCommand (request : gmap_any) : Run W (res LocalBridgeResult) :=
  match anyStringSlice (mget request "argv") with
  | Some ((_ :: _) as argv) =>
      let argv := prepareCommandArgs argv request in
      result ← runAllowedCommand argv ("Ran command: " +:+ sjoin " " argv);
      match result with
      | Err e => mret (Err e)
      | Ok result =>
          if default "" (head argv) =?s "aider-task" then
            enriched ← withGitArtifacts result;
            packed ← withCoderPacket enriched argv (task_metadata_of request);
            mret (Ok packed)
          else mret (Ok result)
      end
  | _ => mret (refuse "run_command requires argv list")
  end.
(** [orchestratorgo/bridge/executor.go:1057-1081] applyPatch. *)
Definition git_apply : list string := ["git"; "apply"; "--whitespace=nowarn"; "-"].
Definition applyPatch (request : gmap_any) : Run W (res LocalBridgeResult) :=
  let patch := as_string (mget request "patch") in
  if trim_space patch =?s "" then mret (refuse "patch is required")
  else
    outcome ← call (Exec root git_apply patch);
    match ex_error outcome with
    | Some e =>
        mret (refuse (trim_space (first_nonblank [ex_stderr outcome; ex_stdout outcome; e])))
    | None =>
        result ← withGitArtifacts
          (with_output (ex_stdout outcome) (ex_stderr outcome) 0 (bare "success" "Applied patch"));
        mret (Ok result)
    end.
(** [orchestratorgo/bridge/executor.go:129-146] Execute: run_tests. *)
Definition runTests (request : gmap_any) : Run W (res LocalBridgeResult) :=
  let argv := anyStringSliceDefault (mget request "argv") ["pytest"; "-q"] in
  result ← runAllowedCommand argv "Ran tests";
  mret match result with
       | Err e => Err e
       | Ok result =>
           let stdout := default "" (br_stdout result) in
           let stderr := default "" (br_stderr result) in
           let exitCode := default 0 (br_exit_code result) in
           let tested := result <| br_tests := Some (obj
             [("argv", VStrs argv); ("exit_code", VInt exitCode); ("status", VStr (result_status result));
              ("stdout", VStr stdout); ("stderr", VStr stderr)]) |> in
           Ok (if result_status result =?s "success" then tested
               else tested <| br_findings := maps (buildValidationFailureFindings argv exitCode
                 (first_nonblank [trim_space (default "" (br_error result)); trim_space stderr;
                                  trim_space stdout])) |>)
       end.

(** ** Files *)

(** [orchestratorgo/bridge/executor.go:158-175] readFile. *)
Definition readFile (request : gmap_any) : Run W (res LocalBridgeResult) :=
  match resolve (mget request "path") with
  | Err e => mret (Err e)
  | Ok (path, rel) =>
      raw ← call (ReadFile path);
      mret match raw with
           | Err e => Err e
           | Ok raw =>
               Ok ((bare "success" ("Read " +:+ rel)) <| br_stdout := Some raw |> <| br_changed := Some [] |>)
           end
  end.
(** [orchestratorgo/bridge/executor.go:177-216] listFiles: a file below the path, *)
Definition visit_match (path pattern rel : string) (isDir : bool) (found : res (list string)) :
    res (list string) * walk_next :=
  let current := path_join [path; rel] in
  match found with
  | Ok l =>
      if isDir then (found, WalkOn)
      else match Match pattern (path_base current) with
           | None => (refuse "syntax error in pattern", SkipAll)
           | Some b => (Ok (if b then l ++ [Rel root current] else l), WalkOn)
           end
  | Err _ => (found, SkipAll)
  end.
(** and all of them. *)
Definition listFiles (request : gmap_any) : Run W (res LocalBridgeResult) :=
  match resolveWithDefault (mget request "path") "." with
  | Err e => mret (Err e)
  | Ok (path, _) =>
      let pattern := first_nonblank [text_at request "pattern"; "*"] in
      files ← call Snapshot;
      mret match files path with
           | None => refuse (lstat_error path)
           | Some t =>
               match WalkDir (Some t) (visit_match path pattern) (Ok []) with
               | Err e => Err e
               | Ok l =>
                   Ok ((bare "success" ("Listed " +:+ pretty (Z.of_nat (length l)) +:+ " files"))
                         <| br_stdout := Some (sjoin nl (merge_sort String.le l)) |>
                         <| br_changed := Some [] |>)
               end
           end
  end.
(** [orchestratorgo/bridge/executor.go:218-232] writeFile. *)
Definition writeFile (request : gmap_any) : Run W (res LocalBridgeResult) :=
  match resolve (mget request "path") with
  | Err e => mret (Err e)
  | Ok (path, rel) =>
      made ← call (MkdirAll (path_dir path));
      match made with
      | Some e => mret (refuse e)
      | None =>
          written ← call (WriteFile path (as_string (mget request "content")));
          match written with
          | Some e => mret (refuse e)
          | None =>
              result ← withGitArtifacts ((bare "success" ("Wrote " +:+ rel)) <| br_changed := Some [rel] |>);
              mret (Ok result)
          end
      end
  end.

(** [orchestratorgo/bridge/executor.go:1026-1034] isInterestingProjectFile. *)
Definition isInterestingProjectFile (path : string) : bool := isObjectiveInterestingFile path.
(** [orchestratorgo/bridge/executor.go:992-1024] listProjectFiles: walked as the planner walks. *)
Definition listProjectFiles (t : option node) : list string :=
  merge_sort String.le (WalkDir t visit_candidate []).
(** [orchestratorgo/bridge/executor.go:946-990] collectProjectReadContext: the start of a file, *)
Definition read_usage (source kind : string) : gmap_any :=
  obj [("capability", VStr "filesystem.read"); ("helped", VBool true); ("source", VStr source);
       ("kind", VStr kind)].
Definition readCandidate (projectRootValue projectRoot relPath key : string)
    (so_far : gmap_any * list gmap_any) : Run W (gmap_any * list gmap_any) :=
  raw ← call (ReadFile (path_join [projectRoot; relPath]));
  mret match raw with
       | Err _ => so_far
       | Ok text =>
           (<[key := VStr (stake 600 text)]> so_far.1,
            so_far.2 ++ [read_usage (path_join [trim_space projectRootValue; relPath]) "local_repo_context"])
       end.
(** the first manifest there is, *)
Fixpoint read_manifest (projectRootValue projectRoot : string) (names : list string)
    (so_far : gmap_any * list gmap_any) : Run W (gmap_any * list gmap_any) :=
  match names with
  | [] => mret so_far
  | name :: names =>
      info ← call (Stat (path_join [projectRoot; name]));
      match info with
      | Ok _ =>
          readCandidate projectRootValue projectRoot name "manifest_excerpt"
            (<["manifest_file" := VStr name]> so_far.1, so_far.2)
      | Err _ => read_manifest projectRootValue projectRoot names so_far
      end
  end.
(** and the files there are. *)
Definition collectProjectReadContext (projectRootValue : string) : Run W (gmap_any * slice gmap_any) :=
  match resolveWithDefault (VStr projectRootValue) "." with
  | Err _ => mret (∅, None)
  | Ok (projectRoot, _) =>
      readme ← readCandidate projectRootValue projectRoot "README.md" "readme_excerpt" (∅, []);
      manifest ← read_manifest projectRootValue projectRoot
                   ["package.json"; "composer.json"; "pyproject.toml"; "go.mod"] readme;
      files ← call Snapshot;
      mret match listProjectFiles (files projectRoot) with
           | [] => (manifest.1, Some manifest.2)
           | treeFiles =>
               (<["tree_files" := VStrs treeFiles]> manifest.1,
                Some (manifest.2 ++ [read_usage projectRootValue "local_repo_tree"]))
           end
  end.

(** ** Research *)

(** [orchestratorgo/bridge/executor.go:234-361] researchProject: where the project is, *)
Definition project_request (request : gmap_any) : gmap_any := nonNilMap (mget request "project_request").
Definition asked (request : gmap_any) (key : string) : string :=
  first_nonblank [text_at (project_request request) key; text_at request key].
Definition inferred_root (projectRequest : gmap_any) : string :=
  let given := text_at projectRequest "project_root" in
  let parentDirectory := text_at projectRequest "parent_directory" in
  let projectName := text_at projectRequest "project_name" in
  if negb (given =?s "") then given
  else if (parentDirectory =?s "") || (projectName =?s "") then ""
  else path_join [parentDirectory; projectName].
(** what it advises, *)
Definition recommendations (evidence : gmap_any) (precedents : slice gmap_any) (repairMode : bool)
    (priorTestResults : gmap_any) : list string :=
  let present key := bool_decide (is_Some (evidence !! key)) in
  ["Keep the project tiny and deterministic.";
   "Expose one obvious entrypoint and one obvious validation path.";
   "Prefer a test command with no external network dependency."]
  ++ (if present "manifest_file" then
        ["Use the repository manifest as the primary contract before inventing extra assumptions."] else [])
  ++ (if present "readme_excerpt" then
        ["Prefer README-aligned constraints over generic repo folklore."] else [])
  ++ (if bool_decide (items precedents = []) then []
      else ["Reuse the retrieved precedents as bounded evidence, not as a substitute for the current diff and validation signals."])
  ++ (if repairMode then
        ["Treat the previous validation and review findings as the primary contract for the next edit.";
         "Fix the highest-severity failure first, then rerun the declared validation command before changing scope again.";
         "Keep the next patch narrow and focused on the files implicated by the failing iteration."]
        ++ match failed_exit priorTestResults with
           | Some _ =>
               ["The previous validation command returned a non-zero exit code. Reproduce that failure before broadening the change."]
           | None => []
           end
      else []).
(** and what it makes of it all, given what was read of the project. *)
Definition research (request evidence : gmap_any) : string * bool :=
  let projectRequest := project_request request in
  let projectType := asked request "project_type" in
  let stack := asked request "runtime_or_stack" in
  let goal := asked request "goal" in
  let testCommand := anyStringSliceDefault (mget request "test_command")
                       (defaultBridgeTestCommand projectType stack) in
  let priorFindings := anyMapSlice (mget request "prior_findings") in
  let priorTestResults := nonNilMap (mget request "prior_test_results") in
  let priorChangedFiles := anyStringSliceDefault (mget request "prior_changed_files") [] in
  let retrievalPrecedents := retrievalPrecedentsFromContextPackage (mget request "context_package") in
  let repairFeedback :=
    first_nonblank [text_at request "repair_feedback"; text_at projectRequest "repair_feedback"] in
  let repairMode :=
    negb (bool_decide (priorFindings = [])) || negb (bool_decide (priorTestResults = ∅))
    || some_path priorChangedFiles || negb (repairFeedback =?s "") in
  let c := interpretPlannerRepairFindings priorFindings
             (anyHypothesisPaths (mget request "initial_scope_hypotheses"))
             (anyHypothesisPaths (mget request "rejected_scope_hypotheses")) priorChangedFiles in
  let recommendedScopePaths := recommendResearchScopePaths goal c priorChangedFiles
    (anyHypothesisPaths (mget request "patch_intent"))
    (anyStringSliceDefault (mget projectRequest "expected_files") [])
    (anyStringSliceDefault (mget evidence "tree_files") []) (text_at evidence "readme_excerpt") in
  let scope := items recommendedScopePaths in
  let failureHypotheses := buildRepairFailureHypotheses priorFindings priorTestResults scope c in
  let patchIntent := buildRepairPatchIntent (items failureHypotheses) scope in
  let nextEditBrief := buildRepairEditBrief goal repairFeedback priorFindings priorTestResults scope
    (items failureHypotheses) (items patchIntent) c (items retrievalPrecedents) in
  let failure_signals := obj
    [("repair_feedback", VStr repairFeedback); ("prior_test_results", VMap priorTestResults);
     ("prior_changed_files", VStrs priorChangedFiles)] in
  (unquoted "{
  `project_type`: " +:+ go_quote projectType +:+ unquoted ",
  `runtime_or_stack`: " +:+ go_quote stack +:+ unquoted ",
  `goal`: " +:+ go_quote goal +:+ unquoted ",
  `test_focus`: " +:+ go_quote (asked request "test_focus") +:+ unquoted ",
  `repair_mode`: " +:+ (if repairMode then "true" else "false") +:+ unquoted ",
  `recommendations`: " +:+ mustJSON (VStrs (recommendations evidence retrievalPrecedents repairMode priorTestResults)) +:+ unquoted ",
  `recommended_scope_paths`: " +:+ mustJSON (strs_value recommendedScopePaths) +:+ unquoted ",
  `planner_scope_resolution`: " +:+ go_quote (PlannerScopeResolution c) +:+ unquoted ",
  `planner_rejected_scope_resolution`: " +:+ go_quote (RejectedPlannerScopeResolution c) +:+ unquoted ",
  `scope_correction_reason`: " +:+ go_quote (ScopeCorrectionReason c) +:+ unquoted ",
  `excluded_scope_paths`: " +:+ mustJSON (strs_value (nil_if_empty (ExcludedScopePaths c))) +:+ unquoted ",
  `retrieval_precedents`: " +:+ mustJSON (plain_maps retrievalPrecedents) +:+ unquoted ",
  `failure_hypotheses`: " +:+ mustJSON (plain_maps failureHypotheses) +:+ unquoted ",
  `patch_intent`: " +:+ mustJSON (plain_maps patchIntent) +:+ unquoted ",
  `next_edit_brief`: " +:+ go_quote nextEditBrief +:+ unquoted ",
  `checklist`: [
    `README present`,
    `At least one test file present`,
    `Declared test command is runnable`
  ],
  `test_command`: " +:+ go_quote (sjoin " " testCommand) +:+ unquoted ",
  `failure_signals`: " +:+ mustJSON (VMap failure_signals) +:+ unquoted ",
  `prior_findings`: " +:+ mustJSON (VMaps priorFindings) +:+ unquoted ",
  `local_evidence`: " +:+ mustJSON (VMap evidence) +:+ unquoted "
}", repairMode).
(** [orchestratorgo/bridge/executor.go:234-361] researchProject. *)
Definition researchProject (request : gmap_any) : Run W (res LocalBridgeResult) :=
  let projectRootValue :=
    first_nonblank [inferred_root (project_request request); text_at request "project_root"; "."] in
  gathered ← collectProjectReadContext projectRootValue;
  let '(evidence, usage) := gathered in
  let '(payload, repairMode) := research request evidence in
  let subject := asked request "project_type" +:+ "/" +:+ asked request "runtime_or_stack" in
  mret (Ok ((bare "success" ((if repairMode then "Built repair plan for "
                             else "Researched scaffold constraints for ") +:+ subject))
    <| br_stdout := Some payload |>
    <| br_usage := maps_of usage |>
    <| br_helped := helped_capabilities (items usage) |>
    <| br_artifacts := maps
         ([artifact "research_context" "Project research context" "application/json" payload;
           artifact "research_evidence" "Local repository evidence" "application/json"
             (mustJSON (VMap evidence))]
          ++ (if repairMode then
                [artifact "repair_plan" "Objective repair plan" "application/json" payload] else [])) |>)).

(** ** Analysis and review *)

(** [orchestratorgo/bridge/executor.go:913-944] codeAnalysis. *)
Definition analysis_usage (rel : string) (analysis : CodeAnalysis.Result) : gmap_any :=
  obj [("capability", VStr "code.analysis"); ("helped", VBool true); ("source", VStr rel);
       ("kind", VStr "static_analysis"); ("finding_count", VInt (TotalFindings analysis))].
Definition codeAnalysis (request : gmap_any) : Run W (res LocalBridgeResult) :=
  let rootValue := first_nonblank [text_at request "project_root"; text_at request "path"; "."] in
  match resolve (VStr rootValue) with
  | Err e => mret (Err e)
  | Ok (projectRoot, rel) =>
      let analysisTypes := anyStringSliceDefault (mget request "analysis_types")
                             [text_at request "analysis_type"] in
      files ← call Snapshot;
      mret match Analyze (H := {| disk := files |}) range stat_error projectRoot analysisTypes with
           | Err e => Err e
           | Ok analysis =>
               let stdout := result_json analysis in
               Ok ((bare "success" ("Analyzed " +:+ rel +:+ " with " +:+ pretty (TotalFindings analysis)
                                   +:+ " finding(s)"))
                     <| br_stdout := Some stdout |>
                     <| br_usage := maps [analysis_usage rel analysis] |>
                     <| br_helped := Some ["code.analysis"] |>
                     <| br_artifacts := maps
                          [<["metadata" := VMap (obj [("analysis_types", VStrs analysisTypes)])]>
                             (artifact "code_analysis_report" "Code analysis report" "application/json"
                                stdout)] |>)
           end
  end.

(** [orchestratorgo/bridge/executor.go:388-403] reviewProject: the test command, in a directory. *)
Definition run_test (dir : string) (argv : list string) : Run W ExecResult :=
  match argv with
  | [] => mret (MkExecResult "" "" 0 None)
  | _ => call (Exec dir argv "")
  end.
(** [orchestratorgo/bridge/executor.go:363-492] reviewProject: the files that are not there, *)
Fixpoint missing_from (projectRootValue : string) (files : list string) : Run W (res (list string)) :=
  match files with
  | [] => mret (Ok [])
  | file :: files =>
      match resolve (VStr (path_join [projectRootValue; file])) with
      | Err e => mret (Err e)
      | Ok (target, _) =>
          info ← call (Stat target);
          missing ← missing_from projectRootValue files;
          mret match missing with
               | Err e => Err e
               | Ok missing => Ok (match info with Ok _ => missing | Err _ => file :: missing end)
               end
      end
  end.
(** a refusal, *)
Definition review_failed (rel : string) (outcome : ExecResult) (message : string) : LocalBridgeResult :=
  (with_output (ex_stdout outcome) (ex_stderr outcome) (ex_exit_code outcome)
    (bare "error" ("Review failed for " +:+ rel)))
    <| br_error := Some message |>
    <| br_artifacts := maps [artifact "review_report" "Project review failure" "text/plain" message] |>.
(** an approval, with what an analysis adds to it, *)
Definition review_passed (rel : string) (outcome : ExecResult) (usage : slice gmap_any)
    (artifacts : list gmap_any) : LocalBridgeResult :=
  (with_output (ex_stdout outcome) (ex_stderr outcome) (ex_exit_code outcome)
    (bare "success" ("Review passed for " +:+ rel)))
    <| br_artifacts := maps artifacts |>
    <| br_usage := maps_of usage |>
    <| br_helped := helped_capabilities (items usage) |>.
Definition review_report (report : string) : gmap_any :=
  artifact "review_report" "Project review report" "text/plain" report.
Definition with_analysis (projectRoot rel report : string) (analysisTypes : list string)
    (evidence : list gmap_any) (outcome : ExecResult) (usage : slice gmap_any)
    (files : string → option node) : LocalBridgeResult :=
  match Analyze (H := {| disk := files |}) range stat_error projectRoot analysisTypes with
  | Err e =>
      review_passed rel outcome usage
        ((review_report (report +:+ "analysis_error=" +:+ error_text e +:+ nl) :: evidence)
         ++ [artifact "code_analysis_report" "Code analysis failure" "text/plain" (error_text e)])
  | Ok analysis =>
      review_passed rel outcome (Some (items usage ++ [analysis_usage rel analysis]))
        ((review_report (report +:+ "analysis_types=" +:+ sjoin "," analysisTypes +:+ nl
            +:+ "analysis_findings=" +:+ pretty (TotalFindings analysis) +:+ nl) :: evidence)
         ++ [<["metadata" := VMap (obj
                 [("analysis_types", VStrs analysisTypes); ("summary", summary_value analysis)])]>
               (artifact "code_analysis_report" "Code analysis report" "application/json"
                  (result_json analysis))])
  end.
Definition approve_project (projectRootValue projectRoot rel : string) (request : gmap_any)
    (expectedFiles testCommand : list string) (outcome : ExecResult) : Run W LocalBridgeResult :=
  gathered ← collectProjectReadContext projectRootValue;
  let '(evidence, usage) := gathered in
  let report := "expected_files=" +:+ sjoin "," expectedFiles +:+ nl +:+ "test_command="
                +:+ sjoin " " testCommand +:+ nl in
  let '(snapshot, full_report) :=
    if bool_decide (evidence = ∅) then ([], report)
    else
      ([artifact "review_evidence" "Repository evidence snapshot" "application/json"
          (mustJSON (VMap evidence))],
       report +:+ "manifest_file=" +:+ first_nonblank [as_string (mget evidence "manifest_file")] +:+ nl) in
  match anyStringSliceDefault (mget request "analysis_types") [] with
  | [] => mret (review_passed rel outcome usage (review_report report :: snapshot))
  | analysisTypes =>
      files ← call Snapshot;
      mret (with_analysis projectRoot rel full_report analysisTypes snapshot outcome usage files)
  end.
(** and the whole. *)
Definition reviewProject (request : gmap_any) : Run W (res LocalBridgeResult) :=
  let projectRootValue := text_at request "project_root" in
  if projectRootValue =?s "" then mret (refuse "project_root is required")
  else
    match resolve (VStr projectRootValue) with
    | Err e => mret (Err e)
    | Ok (projectRoot, rel) =>
        info ← call (Stat projectRoot);
        match info with
        | Ok true =>
            let expectedFiles := anyStringSliceDefault (mget request "expected_files") ["README.md"] in
            missing ← missing_from projectRootValue expectedFiles;
            match missing with
            | Err e => mret (Err e)
            | Ok missing =>
                let testCommand := anyStringSliceDefault (mget request "test_command") ["pytest"; "-q"] in
                outcome ← run_test projectRoot testCommand;
                match ex_error outcome, missing with
                | Some e, _ => mret (Ok (review_failed rel outcome (complaint outcome e)))
                | None, _ :: _ =>
                    mret (Ok (review_failed rel outcome ("missing expected files: " +:+ sjoin ", " missing)))
                | None, [] =>
                    result ← approve_project projectRootValue projectRoot rel request expectedFiles
                               testCommand outcome;
                    mret (Ok result)
                end
            end
        | _ => mret (refuse "project_root does not exist")
        end
    end.

(** [orchestratorgo/bridge/executor.go:494-634] reviewWorkspace: the packet of a decision, how the
    files changed compare with the plan and with the precedents, *)
Record alignment := MkAlignment { al_planner : string; al_rejected : string; al_research : string }.
Definition unknown_alignment : alignment := MkAlignment "unknown" "unknown" "unknown".
Definition compared (request : gmap_any) (changed : list string) : alignment :=
  MkAlignment
    (reviewScopeAlignment (anyHypothesisPaths (mget request "initial_scope_hypotheses")) changed)
    (reviewRejectedScopeAlignment (anyHypothesisPaths (mget request "rejected_scope_hypotheses")) changed)
    (reviewScopeAlignment (reviewResearchPaths request) changed).
Definition alignment_findings (request : gmap_any) (a : alignment) (changed : list string) : list gmap_any :=
  buildReviewAlignmentFindings (al_planner a) (al_rejected a) (al_research a)
    (anyHypothesisPaths (mget request "initial_scope_hypotheses"))
    (anyHypothesisPaths (mget request "rejected_scope_hypotheses"))
    (reviewResearchPaths request) (Some changed).
Definition reviewed (request : gmap_any) (decision : string) (testCommand : list string) (a : alignment)
    (findings : list gmap_any) (diff : string) (changed : list string) (outcome : ExecResult)
    (r : LocalBridgeResult) : LocalBridgeResult :=
  let precedents := anyMapSlice (mget request "objective_retrieval_precedents") in
  let '(retrieval, refs) := reviewRetrievalAlignment precedents changed in
  let findings := findings ++ buildReviewRetrievalFindings retrieval refs (Some changed) in
  let report := buildReviewPacketReport decision (Some changed) testCommand
    (mget request "execution_contract") (al_planner a) (al_rejected a) (al_research a) retrieval refs
    findings precedents in
  (with_output (ex_stdout outcome) (ex_stderr outcome) (ex_exit_code outcome) r)
    <| br_diff := Some diff |> <| br_changed := Some changed |> <| br_decision := Some decision |>
    <| br_findings := maps findings |>
    <| br_artifacts := maps
         [artifact "review_packet" "Objective review packet" "application/json" report] |>.
Definition tested (testCommand : list string) (exitCode : Z) : option gmap_any :=
  Some (obj [("argv", VStrs testCommand); ("exit_code", VInt exitCode)]).
Definition changes_requested (rel message severity : string) : LocalBridgeResult :=
  (bare "error" ("Review requested changes for " +:+ rel))
    <| br_error := Some message |>
    <| br_comments := maps [obj [("severity", VStr severity); ("message", VStr message)]] |>.
(** the decision when the tests fail, when nothing changed, and otherwise, *)
Definition tests_failed (request : gmap_any) (rel : string) (testCommand : list string)
    (outcome : ExecResult) (e diff : string) (changed : list string) : LocalBridgeResult :=
  let message := complaint outcome e in
  let a := compared request changed in
  reviewed request "changes_requested" testCommand a
    (buildValidationFailureFindings testCommand (ex_exit_code outcome) message
     ++ alignment_findings request a changed)
    diff changed outcome (changes_requested rel message "high").
Definition nothing_changed (request : gmap_any) (rel : string) (testCommand : list string)
    (outcome : ExecResult) (diff : string) (changed : list string) : LocalBridgeResult :=
  let message := "review requires an actual repository diff before approval" in
  reviewed request "changes_requested" testCommand unknown_alignment
    [obj [("kind", VStr "missing_diff"); ("severity", VStr "medium"); ("message", VStr message);
          ("source", VStr "review"); ("project_root", VStr rel);
          ("recommended_action", VStr "Produce a real repository diff before asking for approval.")]]
    diff changed outcome
    ((changes_requested rel message "medium") <| br_tests := tested testCommand (ex_exit_code outcome) |>).
Definition approved (request : gmap_any) (rel : string) (testCommand : list string)
    (outcome : ExecResult) (diff : string) (changed : list string) : LocalBridgeResult :=
  let a := compared request changed in
  reviewed request "approved" testCommand a (alignment_findings request a changed) diff changed outcome
    ((bare "success" ("Review approved for " +:+ rel))
       <| br_tests := tested testCommand (ex_exit_code outcome) |>).
(** and the whole. *)
Definition reviewWorkspace (request : gmap_any) : Run W (res LocalBridgeResult) :=
  let projectRootValue := first_nonblank [text_at request "project_root"; "."] in
  match resolveWithDefault (VStr projectRootValue) "." with
  | Err e => mret (Err e)
  | Ok (projectRoot, rel) =>
      info ← call (Stat projectRoot);
      match info with
      | Ok true =>
          let testCommand := anyStringSliceDefault (mget request "test_command")
                               ["python3"; "-c"; "print('ok')"] in
          outcome ← run_test projectRoot testCommand;
          state ← workspaceGitState;
          let '(diff, changed) := state in
          mret (Ok match ex_error outcome with
                   | Some e => tests_failed request rel testCommand outcome e diff changed
                   | None =>
                       if (trim_space diff =?s "") || negb (some_path changed)
                       then nothing_changed request rel testCommand outcome diff changed
                       else approved request rel testCommand outcome diff changed
                   end)
      | _ => mret (refuse "project_root does not exist")
      end
  end.

(** ** A new project *)

(** [orchestratorgo/bridge/scaffold_project.go:133-152] ensureScaffoldTargetAvailable. *)
Definition ensureScaffoldTargetAvailable (projectRoot label : string) : Run W (option string) :=
  info ← call (Probe projectRoot);
  match info with
  | PlainFile => mret (Some ("project_root is not a directory: " +:+ label))
  | Unlisted e | Unknown e => mret (Some e)
  | Folder_of n => mret (if (0 <? n)%nat then Some ("project already exists: " +:+ label) else None)
  | Absent => call (MkdirAll projectRoot)
  end.
(** [orchestratorgo/bridge/scaffold_project.go:102-131] resolveScaffoldRoot: the directory, the
    same from the workspace, and its label. *)
Definition if_available (projectRoot name : string) (found : string * string * string) :
    Run W (res (string * string * string)) :=
  err ← ensureScaffoldTargetAvailable projectRoot name;
  mret match err with Some e => refuse e | None => Ok found end.
Definition resolveScaffoldRoot (parentDirectory : gval) (projectRootValue projectName : string) :
    Run W (res (string * string * string)) :=
  let projectRootValue := trim_space projectRootValue in
  if negb (projectRootValue =?s "") then
    match resolveWithDefault (VStr projectRootValue) "." with
    | Err e => mret (Err e)
    | Ok (path, rel) =>
        if_available path projectRootValue (path, rel, if rel =?s "." then path_base root else rel)
    end
  else
    match resolveWithDefault parentDirectory "." with
    | Err e => mret (Err e)
    | Ok (parentPath, parentRel) =>
        if projectName =?s "" then mret (refuse "project_name is required")
        else
          let rel := path_join [parentRel; projectName] in
          if_available (path_join [parentPath; projectName]) projectName
            (path_join [parentPath; projectName], rel, rel)
    end.
(** [orchestratorgo/bridge/scaffold_project.go:154-161] joinScaffoldRelativePath. *)
Definition joinScaffoldRelativePath (projectRootRel fileRel : string) : string :=
  let projectRootRel := trim_space projectRootRel in
  let fileRel := trim_space fileRel in
  if (projectRootRel =?s "") || (projectRootRel =?s ".") then fileRel
  else path_join [projectRootRel; fileRel].
(** [orchestratorgo/bridge/scaffold_project.go:38-49] scaffoldProject: the files, *)
Fixpoint write_files (projectRoot rel : string) (files : list (string * string)) : Run W (res (list string)) :=
  match files with
  | [] => mret (Ok [])
  | (relPath, content) :: files =>
      let target := path_join [projectRoot; path_clean relPath] in
      made ← call (MkdirAll (path_dir target));
      match made with
      | Some e => mret (refuse e)
      | None =>
          written ← call (WriteFile target content);
          match written with
          | Some e => mret (refuse e)
          | None =>
              changed ← write_files projectRoot rel files;
              mret match changed with
                   | Err e => Err e
                   | Ok changed => Ok (joinScaffoldRelativePath rel relPath :: changed)
                   end
          end
      end
  end.
(** [orchestratorgo/bridge/scaffold_project.go:51-66] scaffoldProject: the repository, *)
Fixpoint git_steps (steps : list (string * string * list string)) : Run W (option string) :=
  match steps with
  | [] => mret None
  | (step, dir, argv) :: steps =>
      outcome ← call (Command dir argv None);
      match cr_error outcome with
      | Some _ => mret (Some ("git " +:+ step +:+ " failed: " +:+ trim_space (cr_output outcome)))
      | None => git_steps steps
      end
  end.
Definition repository_steps (initializeGit commitInitialScaffold : bool) (projectRoot : string) :
    list (string * string * list string) :=
  if negb initializeGit then []
  else
    ("init", projectRoot, ["git"; "init"])
    :: (if negb commitInitialScaffold then []
        else [("add", "", ["git"; "-C"; projectRoot; "add"; "."]);
              ("commit", "", ["git"; "-C"; projectRoot; "-c"; "user.name=Codex"; "-c";
                              "user.email=codex@example.com"; "commit"; "-m"; "Initial scaffold"])]).
(** [orchestratorgo/bridge/scaffold_project.go:16-100] scaffoldProject. *)
Definition scaffold_artifacts (rel : string) (files : gmap string string) (projectType stack : string)
    (testCommand expectedFiles : list string) : list gmap_any :=
  let text name := truncateString (default "" (files !! name)) 2000 in
  [artifact "project_manifest" "Scaffolded project manifest" "text/markdown" (text "README.md")
     ∪ obj [("path", VStr (joinScaffoldRelativePath rel "README.md"));
            ("project_type", VStr projectType); ("runtime", VStr stack);
            ("test_command", VStr (sjoin " " testCommand))];
   artifact "project_contract" "Expected scaffold contract" "application/json" (text "lab.json")
     ∪ obj [("path", VStr (joinScaffoldRelativePath rel "lab.json"));
            ("expected_files", VStrs expectedFiles)]].
Definition scaffoldProject (request : gmap_any) : Run W (res LocalBridgeResult) :=
  let or_else key fallback := first_nonblank [text_at request key; fallback] in
  let projectName := sanitizeProjectName (as_string (mget request "project_name")) in
  let projectType := or_else "project_type" "cli_simple" in
  let stack := or_else "runtime_or_stack" "python" in
  let goal := or_else "goal" "Exercise the local bridge and task system" in
  let testFocus := or_else "test_focus" "basic execution" in
  let testCommand := anyStringSliceDefault (mget request "test_command")
                       (defaultBridgeTestCommand projectType stack) in
  let expectedFiles := anyStringSliceDefault (mget request "expected_files")
                         (ScaffoldFiles.expectedProjectFiles projectType) in
  resolved ← resolveScaffoldRoot (mget request "parent_directory") (text_at request "project_root")
               projectName;
  match resolved with
  | Err e => mret (Err e)
  | Ok (projectRoot, rel, label) =>
      let projectName := if projectName =?s "" then label else projectName in
      if projectName =?s "" then mret (refuse "project_name is required")
      else
        let files := scaffoldFiles projectType stack projectName goal testFocus in
        written ← write_files projectRoot rel (range_files files);
        match written with
        | Err e => mret (Err e)
        | Ok changed =>
            failed ← git_steps (repository_steps (asBool (mget request "initialize_git"))
                                  (asBool (mget request "commit_initial_scaffold")) projectRoot);
            match failed with
            | Some e => mret (refuse e)
            | None =>
                result ← withGitArtifacts
                  ((bare "success" ("Scaffolded " +:+ projectType +:+ " project " +:+ label))
                     <| br_stdout := Some (sjoin nl changed) |> <| br_changed := Some changed |>
                     <| br_artifacts := maps
                          (scaffold_artifacts rel files projectType stack testCommand expectedFiles) |>);
                mret (Ok result)
            end
        end
  end.

(** ** A task *)

(** [orchestratorgo/bridge/executor.go:73-156] Execute: what is asked before a tool is used, *)
Definition tool_of (request : gmap_any) : string := text_at request "tool".
Definition waiting (request : gmap_any) (tool : string) : LocalBridgeResult :=
  (bare "waiting_approval" ("Approval required before executing tool " +:+ tool))
    <| br_action := Some "local_bridge_tool" |>
    <| br_resource := Some (first_nonblank [text_at request "path"; tool]) |>
    <| br_timeout := Some (asInt (mget request "timeout_seconds") 300) |>.
Definition must_wait (metadata request : gmap_any) : bool :=
  (asBool (mget metadata "requires_approval") || asBool (mget request "requires_approval"))
  && negb (asBool (mget metadata "approval_granted")).
(** the tool, *)
Definition use_tool (tool : string) (request : gmap_any) : Run W (res LocalBridgeResult) :=
  let named l := bool_decide (tool ∈ l) in
  if named ["read_file"; "filesystem.read"] then readFile request
  else if named ["list_files"; "filesystem.list"] then listFiles request
  else if named ["write_file"; "filesystem.write"] then writeFile request
  else if tool =?s "research_project" then researchProject request
  else if tool =?s "scaffold_project" then scaffoldProject request
  else if tool =?s "review_project" then reviewProject request
  else if tool =?s "review_workspace" then reviewWorkspace request
  else if tool =?s "apply_patch" then applyPatch request
  else if tool =?s "run_command" then runCommand request
  else if tool =?s "git_status" then runSubprocess ["git"; "status"; "--short"] "git status"
  else if tool =?s "git_diff" then runSubprocess git_diff "git diff"
  else if tool =?s "run_tests" then runTests request
  else if tool =?s "code_analysis" then codeAnalysis request
  else mret (refuse ("unsupported local tool: " +:+ tool)).
(** and the whole. *)
Definition full_request (metadata toolRequest : gmap_any) : gmap_any :=
  <["_task_metadata" := VMap metadata]> (mergeToolRequestWithMetadata toolRequest metadata).
Definition Execute (claim : LocalBridgeTaskClaimResponse) : Run W (res LocalBridgeResult) :=
  let metadata := claim_metadata claim in
  match only_map (mget metadata "tool_request") with
  | None => mret (refuse "local task requires metadata.tool_request")
  | Some toolRequest =>
      let request := full_request metadata toolRequest in
      let tool := tool_of request in
      if tool =?s "" then mret (refuse "tool_request.tool is required")
      else
        match ensureToolCapabilityAllowed metadata tool with
        | Some e => mret (refuse e)
        | None =>
            if must_wait metadata request then mret (Ok (waiting request tool))
            else use_tool tool request
        end
  end.
End Executor.
