(* ===== verification/ExecutorSpec.v ===== *)
(** * What the executor of a bridge does ([bridge/executor.go])

    The theorems about [Executor]: what a claimed task may do to the machine, when a
    review approves, and which files a repair is about. *)
From S2P Require Import Prelude GoVal JsonText Effects Domain Objective Retrieval Workspace Plans Runner Machine RunnerSpec.
From S2P Require Import RepairScope ReviewReport CodeAnalysis ScaffoldFiles Glob CoderTask Executor.

(** ** Paths of the workspace *)

(** A cleaned path at the root or below, part by part. *)
Definition at_or_below (root p : string) : Prop :=
  is_rooted p = true ∧ path_clean p = p ∧ path_parts root `prefix_of` path_parts p.

Lemma rel_parts_spec base target :
  base `prefix_of` target ∨ ∃ l, rel_parts base target = ".." :: l.
Proof.
  revert target. induction base as [|b base IH]; intros [|t target]; cbn [rel_parts].
  - by left.
  - left. apply prefix_nil.
  - right. eexists. cbn [replicate length app]. reflexivity.
  - destruct (String.eqb_spec b t) as [->|].
    + destruct (IH target) as [Hp|Hl]; [left; by apply prefix_cons|by right].
    + right. eexists. cbn [replicate length app]. reflexivity.
Qed.
Lemma resolve_below root raw fallback p rel :
  is_rooted root = true → resolveWithDefault root raw fallback = Ok (p, rel) → at_or_below root p.
Proof.
  intros Hroot. unfold resolveWithDefault. set (path := if _ =?s "" then fallback else _).
  destruct (path =?s ""); [done|]. set (candidate := path_clean _).
  destruct (_ || _) eqn:Hesc; [done|]. intros E. injection E as <- _.
  assert (Hr : ∃ s, is_rooted s = true ∧ candidate = path_clean s).
  { unfold candidate. destruct (is_rooted path) eqn:Hp; [by exists path|].
    destruct (path_join_rooted root [path] Hroot) as (s & Hs & ->). exists (path_clean s).
    split; [by apply path_clean_rooted|done]. }
  destruct Hr as (s & Hs & Hc). rewrite Hc. split_and!; [by apply path_clean_rooted|by apply path_clean_idemp|].
  rewrite <- Hc. destruct (rel_parts_spec (path_parts root) (path_parts candidate)) as [Hp|[l Hl]]; [done|].
  exfalso. revert Hesc. unfold Rel. rewrite Hl. destruct l as [|x l]; [done|].
  change (sjoin "/" (".." :: x :: l)) with ("../" +:+ sjoin "/" (x :: l)). by destruct (sjoin "/" (x :: l)).
Qed.

(** The parts of a path and of one joined to it. *)
Lemma split_on_sep sep a b :
  split_on sep (a +:+ String sep b) = split_on sep a ++ split_on sep b.
Proof.
  induction a as [|c a IH].
  - change ("" +:+ String sep b) with (String sep b). cbn [split_on]. by rewrite Ascii.eqb_refl.
  - change (String c a +:+ String sep b) with (String c (a +:+ String sep b)). cbn [split_on].
    rewrite IH. destruct (Ascii.eqb c sep); [done|].
    destruct (split_on_cons sep a) as (x & xs & ->). done.
Qed.
Lemma parts_of_proper l : Forall proper l → filter (λ c, c ≠ "") l = l.
Proof.
  induction 1 as [|c l (_ & Hc & _) Hl IH]; [done|]. by rewrite filter_cons_True, IH.
Qed.
Lemma clean_path_parts s :
  is_rooted s = true → path_parts (path_clean s) = rev (foldl (clean_step true) [] (split_on "/" s)).
Proof.
  intros Hs. unfold path_parts, path_clean. rewrite Hs. cbv zeta.
  pose proof (clean_parts s) as Hp. revert Hp.
  generalize (foldl (clean_step true) [] (split_on "/" s)) as st. intros st Hst.
  change ("/" +:+ sjoin "/" (rev st)) with (String "/" (sjoin "/" (rev st))). cbn [split_on].
  rewrite Ascii.eqb_refl. rewrite filter_cons_False by (intros Hne; by apply Hne).
  apply Forall_rev in Hst. destruct (rev st) as [|x l] eqn:E; [done|].
  rewrite split_on_sjoin by (eapply Forall_impl; [exact Hst|]; by intros ? []).
  by apply parts_of_proper.
Qed.
Lemma join_below root p s :
  at_or_below root p → Forall proper (split_on "/" s) → at_or_below root (path_join [p; s]).
Proof.
  intros (Hrooted & Hclean & Hin) Hs.
  assert (s ≠ "") as Hne.
  { intros ->. apply Forall_cons in Hs as [(_ & Hs & _) _]. by apply Hs. }
  assert (p ≠ "") as Hpne by (by intros ->).
  unfold path_join. rewrite !filter_cons_True, filter_nil by done.
  change (sjoin "/" [p; s]) with (p +:+ String "/" s).
  assert (Hr : is_rooted (p +:+ String "/" s) = true).
  { revert Hrooted. destruct p as [|a p]; [done|].
    change (String a p +:+ String "/" s) with (String a (p +:+ String "/" s)).
    unfold is_rooted, has_prefix. cbn [String.prefix]. destruct (ascii_dec "/" a); [|done].
    by destruct p. }
  split_and!; [by apply path_clean_rooted|by apply path_clean_idemp|].
  rewrite clean_path_parts by done. rewrite split_on_sep, foldl_app, clean_of_parts by done.
  rewrite rev_app_distr, rev_involutive, <- clean_path_parts by done. rewrite Hclean.
  by apply prefix_app_r.
Qed.

(** A name made fit for a directory. *)
Fixpoint all_chars (f : ascii → bool) (s : string) : Prop :=
  match s with String a r => f a = true ∧ all_chars f r | EmptyString => True end.
Lemma dashed_chars b s : all_chars name_char (dashed b s).
Proof.
  revert b. induction s as [|a s IH]; intros b; [done|]. cbn [dashed].
  destruct (name_char a) eqn:Ha; [by split; [|apply IH]|]. destruct b; [done|]. by split; [|apply IH].
Qed.
Lemma trim_left_chars f cut s : all_chars f s → all_chars f (trim_set_left cut s).
Proof. induction s as [|a s IH]; [done|]. cbn [trim_set_left]. intros [Ha Hs]. destruct (in_set cut a); auto. by split. Qed.
Lemma trim_right_chars f cut s : all_chars f s → all_chars f (trim_set_right cut s).
Proof.
  induction s as [|a s IH]; [done|]. cbn [trim_set_right]. intros [Ha Hs].
  destruct (_ && _); [done|]. split; auto.
Qed.
Lemma trim_left_head cut s : match trim_set_left cut s with String a _ => in_set cut a = false | _ => True end.
Proof. induction s as [|a s IH]; [done|]. cbn [trim_set_left]. by destruct (in_set cut a) eqn:Ha. Qed.
Lemma trim_right_head cut s :
  match trim_set_right cut s with String a _ => ∃ r, s = String a r | _ => True end.
Proof. destruct s as [|a s]; [done|]. cbn [trim_set_right]. destruct (_ && _); [done|by exists s]. Qed.
Lemma no_slash s : all_chars name_char s → split_on "/" s = [s].
Proof.
  induction s as [|a s IH]; [done|]. cbn [split_on].
  intros [Ha Hs]. destruct (Ascii.eqb_spec a "/") as [->|]; [discriminate Ha|].
  by rewrite IH.
Qed.
Lemma sanitized_proper v :
  sanitizeProjectName v ≠ "" → Forall proper (split_on "/" (sanitizeProjectName v)).
Proof.
  intros Hne. unfold sanitizeProjectName, Runner.sanitizeProjectName, trim_set in *.
  set (s := dashed false (trim_space v)) in *.
  assert (Hchars : all_chars name_char (trim_set_right "-." (trim_set_left "-." s)))
    by (apply trim_right_chars, trim_left_chars, dashed_chars).
  rewrite (no_slash _ Hchars). apply Forall_singleton.
  pose proof (trim_left_head "-." s) as Hl. pose proof (trim_right_head "-." (trim_set_left "-." s)) as Hr.
  split; [by apply no_slash|]. split; [done|].
  destruct (trim_set_right _ _) as [|a r]; [done|]. destruct Hr as [r' Hr]. rewrite Hr in Hl.
  split; intros E; injection E as -> _; discriminate Hl.
Qed.
(** And the paths of a new project. *)
Definition proper_path (path : string) : bool :=
  forallb (λ c, bool_decide (split_on "/" c = [c]) && negb (c =?s "") && negb (c =?s ".") && negb (c =?s ".."))
    (split_on "/" (path_clean path)).
Lemma proper_path_parts path : proper_path path = true → Forall proper (split_on "/" (path_clean path)).
Proof.
  unfold proper_path. rewrite forallb_forall, Forall_forall. intros Hall c Hc%list_elem_of_In.
  apply Hall in Hc. rewrite !andb_true_iff, !negb_true_iff, bool_decide_eq_true, !String.eqb_neq in Hc.
  unfold proper. tauto.
Qed.
Lemma scaffold_path_proper projectType path :
  path ∈ ScaffoldFiles.expectedProjectFiles projectType → Forall proper (split_on "/" (path_clean path)).
Proof.
  intros Hin. apply proper_path_parts.
  assert (forallb proper_path (ScaffoldFiles.expectedProjectFiles projectType) = true) as Hall.
  { unfold ScaffoldFiles.expectedProjectFiles, Runner.expectedProjectFiles. cbv zeta.
    generalize (to_lower (trim_space projectType)) as type. intros type.
    repeat (destruct (type =?s _); [vm_compute; reflexivity|]). vm_compute. reflexivity. }
  rewrite forallb_forall in Hall. by apply Hall, list_elem_of_In.
Qed.

(** ** What a claimed task may do to the machine *)

(** Metadata that names no capabilities allows any tool. *)
Definition permitted (metadata : gmap_any) (tool : string) : Prop :=
  let allowed := allowedCapabilities metadata in
  ∀ capability, toolCapabilityMap !! tool = Some capability →
    allowed = ∅ ∨ capability ∈ allowed ∨ has_prefix "filesystem." capability = true ∧ "filesystem" ∈ allowed.
Definition git_reads : list (list string) :=
  [git_status_all; git_diff; git_diff_stat; git_toplevel; ["git"; "status"; "--short"]].
Definition review_argv (request : gmap_any) (tool : string) : list string :=
  anyStringSliceDefault (mget request "test_command")
    (if tool =?s "review_project" then ["pytest"; "-q"] else ["python3"; "-c"; "print('ok')"]).
(** What a tool may do in a workspace. *)
Definition may_call (root : string) (request : gmap_any) {A} (c : os_call A) : Prop :=
  let tool := tool_of request in
  let writes := tool = "write_file" ∨ tool = "filesystem.write" in
  let reviews := tool = "review_project" ∨ tool = "review_workspace" in
  match c with
  | MkdirAll p =>
      (writes ∨ tool = "scaffold_project") ∧ (∃ file, at_or_below root file ∧ p = path_dir file) ∨
      tool = "scaffold_project" ∧ at_or_below root p
  | WriteFile p text =>
      at_or_below root p ∧
      (writes ∧ text = as_string (mget request "content") ∨ tool = "scaffold_project")
  | Exec dir argv stdin =>
      dir = root ∧ argv ∈ git_reads ∧ stdin = "" ∨
      dir = root ∧ argv = git_apply ∧ tool = "apply_patch" ∧ stdin = as_string (mget request "patch") ∨
      dir = root ∧ (tool = "run_command" ∨ tool = "run_tests") ∧ stdin = "" ∧
        (∃ program, head argv = Some program ∧ program ∈ allowedCommands) ∨
      at_or_below root dir ∧ reviews ∧ argv = review_argv request tool ∧ stdin = ""
  | Command dir argv _ =>
      tool = "scaffold_project" ∧
      ∃ project commit step, at_or_below root project ∧
        (step, dir, argv) ∈ repository_steps (asBool (mget request "initialize_git")) commit project
  | OpenAppend _ | WriteString _ _ | ExecWith _ _ _ _ | Query _ | Post _ _ _ => False
  | Getwd | Now | Stat _ | ReadFile _ | Probe _ | Snapshot => True
  end.
Definition may (root : string) (claim : LocalBridgeTaskClaimResponse) {A} (c : os_call A) : Prop :=
  let metadata := claim_metadata claim in
  ∃ toolRequest, only_map (mget metadata "tool_request") = Some toolRequest ∧
  let request := full_request metadata toolRequest in
  must_wait metadata request = false ∧ permitted metadata (tool_of request) ∧ may_call root request c.

Lemma capability_permitted metadata tool :
  ensureToolCapabilityAllowed metadata tool = None → permitted metadata tool.
Proof.
  unfold ensureToolCapabilityAllowed, permitted. intros Hnone capability Hcap.
  assert (Ht : trim_space capability = capability ∧ capability ≠ "").
  { clear Hnone. revert capability Hcap. apply (map_Forall_lookup (λ _ c, trim_space c = c ∧ c ≠ "")).
    apply (bool_decide_unpack _). vm_compute. exact I. }
  destruct Ht as [Ht Hne]. rewrite Hcap in Hnone. cbn [default from_option id] in Hnone. rewrite Ht in Hnone.
  destruct (_ || _) eqn:Hor; [|discriminate Hnone].
  apply orb_true_iff in Hor as [Hor|Hor]; [|apply andb_true_iff in Hor as [? ?%bool_decide_eq_true]; auto].
  apply orb_true_iff in Hor as [Hor|Hor%bool_decide_eq_true]; [|auto].
  apply orb_true_iff in Hor as [Hor%String.eqb_eq|Hor%bool_decide_eq_true]; auto. done.
Qed.

Section Confinement.
Context {W : Type} `{Machine W} (stat_error lstat_error : string → string).
Context (range : gmap_any → list (string * gval)) (range_files : gmap string string → list (string * string)).
Context (R : relation W) `{!PreOrder R} (root : string) (request : gmap_any).
Hypothesis root_rooted : is_rooted root = true.
Hypothesis ranges_over : ∀ m path text, (path, text) ∈ range_files m → path ∈ dom m.
Hypothesis calls : ∀ A (c : os_call A) w, may_call root request c → R w (call_on A c w).2.

Ltac keep := keep_with calls.
Lemma git_keeps argv : argv ∈ git_reads → keeps R (call (Exec root argv "")).
Proof. intros Hargv. apply keeps_call. intros w. apply calls. left. by split_and!. Qed.
Lemma git_output_keeps argv : argv ∈ git_reads → keeps R (git_output root argv).
Proof. intros Hargv. unfold git_output. apply keeps_bind; [exact _|by apply git_keeps|]. intros. keep. Qed.
Lemma state_keeps : keeps R (workspaceGitState root).
Proof.
  unfold workspaceGitState. apply keeps_bind; [exact _|apply git_output_keeps; by left|]. intros ? ? ? ?.
  apply keeps_bind; [exact _|apply git_output_keeps; by right; left|]. intros ? ? ? ?. keep.
Qed.
Lemma summaries_keeps : keeps R (workspaceGitSummaries root).
Proof.
  unfold workspaceGitSummaries. apply keeps_bind; [exact _|apply git_output_keeps; by left|]. intros ? ? ? ?.
  apply keeps_bind; [exact _|apply git_output_keeps; do 2 right; by left|]. intros ? ? ? ?. keep.
Qed.
#[local] Hint Resolve state_keeps summaries_keeps : keeps.
Lemma artifacts_keeps result : keeps R (withGitArtifacts root result).
Proof.
  unfold withGitArtifacts, gitTopLevel. apply keeps_bind; [exact _| |intros ? ? ? ?; keep].
  apply keeps_bind; [exact _|apply git_keeps; do 3 right; by left|]. intros ? ? ? ?. keep.
Qed.
#[local] Hint Resolve artifacts_keeps : keeps.
Lemma subprocess_keeps argv summary :
  (argv ≠ [] → keeps R (call (Exec root argv ""))) → keeps R (runSubprocess root argv summary).
Proof.
  intros Hcall. unfold runSubprocess. destruct argv as [|a argv]; [keep|].
  apply keeps_bind; [exact _|by apply Hcall|]. intros ? ? ? ?. keep.
Qed.
Lemma allowed_keeps argv summary :
  tool_of request = "run_command" ∨ tool_of request = "run_tests" →
  keeps R (runAllowedCommand root argv summary).
Proof.
  intros Htool. unfold runAllowedCommand. destruct argv as [|a argv]; [keep|].
  case_bool_decide as Ha; [|keep]. apply subprocess_keeps. intros _. apply keeps_call. intros w. apply calls.
  do 2 right. left. split_and!; try done. by exists a.
Qed.
Lemma packet_keeps result argv metadata : keeps R (withCoderPacket root result argv metadata).
Proof. unfold withCoderPacket. keep. Qed.
#[local] Hint Resolve allowed_keeps packet_keeps : keeps.
Lemma candidate_keeps v p name key so_far : keeps R (readCandidate v p name key so_far).
Proof. unfold readCandidate. keep. Qed.
#[local] Hint Resolve candidate_keeps : keeps.
Lemma manifest_keeps v p names so_far : keeps R (read_manifest v p names so_far).
Proof. revert so_far. induction names; intros so_far; cbn [read_manifest]; keep. Qed.
#[local] Hint Resolve manifest_keeps : keeps.
Lemma context_keeps v : keeps R (collectProjectReadContext root v).
Proof. unfold collectProjectReadContext. keep. Qed.
#[local] Hint Resolve context_keeps : keeps.
Lemma missing_from_keeps v files : keeps R (missing_from root v files).
Proof. induction files; cbn [missing_from]; keep. Qed.
#[local] Hint Resolve missing_from_keeps : keeps.

Lemma writeFile_keeps :
  tool_of request = "write_file" ∨ tool_of request = "filesystem.write" → keeps R (writeFile root request).
Proof.
  intros Htool. unfold writeFile. destruct (resolve root _) as [[path rel]|] eqn:Hres; [|keep].
  apply (resolve_below _ _ _ _ _ root_rooted) in Hres. keep.
  - left. split; [by left|]. by exists path.
  - split; [done|]. by left.
Qed.
Lemma run_test_keeps dir :
  at_or_below root dir → tool_of request = "review_project" ∨ tool_of request = "review_workspace" →
  keeps R (run_test dir (review_argv request (tool_of request))).
Proof.
  intros Hdir Htool. unfold run_test. destruct (review_argv request (tool_of request)) eqn:Hargv; [keep|].
  keep. do 3 right. by split_and!.
Qed.
Lemma review_argv_is fallback :
  fallback = (if tool_of request =?s "review_project" then ["pytest"; "-q"] else ["python3"; "-c"; "print('ok')"]) →
  anyStringSliceDefault (mget request "test_command") fallback = review_argv request (tool_of request).
Proof. by intros ->. Qed.
Lemma reviewProject_keeps :
  tool_of request = "review_project" → keeps R (reviewProject stat_error range root request).
Proof.
  intros Htool. unfold reviewProject, approve_project. cbv zeta. rewrite review_argv_is by (by rewrite Htool).
  case_match; [keep|]. destruct (resolve root _) as [[path rel]|] eqn:Hres; [|keep].
  apply (resolve_below _ _ _ _ _ root_rooted) in Hres.
  pose proof (run_test_keeps path Hres (or_introl Htool)) as Hrun. keep.
Qed.
Lemma reviewWorkspace_keeps :
  tool_of request = "review_workspace" → keeps R (reviewWorkspace root request).
Proof.
  intros Htool. unfold reviewWorkspace. cbv zeta. rewrite review_argv_is by (by rewrite Htool).
  destruct (resolveWithDefault root _ _) as [[path rel]|] eqn:Hres; [|keep].
  apply (resolve_below _ _ _ _ _ root_rooted) in Hres.
  pose proof (run_test_keeps path Hres (or_intror Htool)) as Hrun. keep.
Qed.
Lemma applyPatch_keeps : tool_of request = "apply_patch" → keeps R (applyPatch root request).
Proof. intros Htool. unfold applyPatch. keep. right. left. by split_and!. Qed.
Lemma runCommand_keeps :
  tool_of request = "run_command" → keeps R (runCommand root request).
Proof. intros Htool. unfold runCommand. pose proof (or_introl Htool : _ ∨ tool_of request = "run_tests"). keep. Qed.

(** ** A new project stays where it is put *)
Hypothesis scaffolds : tool_of request = "scaffold_project".
Lemma available_keeps path label found : at_or_below root path → keeps R (if_available path label found).
Proof. intros Hpath. unfold if_available, ensureScaffoldTargetAvailable. keep. by right. Qed.
Lemma available_answer path label found w result w' :
  if_available path label found w = (Ok result, w') → result = found.
Proof.
  unfold if_available, mbind, run_bind. destruct (ensureScaffoldTargetAvailable _ _ w) as [[e|] w1]; intros E;
    apply (f_equal fst) in E; by simplify_eq/=.
Qed.
Lemma scaffold_root_below parent value projectName :
  let name := sanitizeProjectName projectName in
  keeps R (resolveScaffoldRoot root parent value name) ∧
  ∀ w found w', resolveScaffoldRoot root parent value name w = (Ok found, w') → at_or_below root found.1.1.
Proof.
  intros name. unfold resolveScaffoldRoot. cbv zeta. destruct (negb _).
  - destruct (resolveWithDefault root _ _) as [[path rel]|] eqn:Hres; [|split; [keep|by intros]].
    apply (resolve_below _ _ _ _ _ root_rooted) in Hres. split; [by apply available_keeps|].
    intros w found w' ->%available_answer. done.
  - destruct (resolveWithDefault root _ _) as [[path rel]|] eqn:Hres; [|split; [keep|by intros]].
    apply (resolve_below _ _ _ _ _ root_rooted) in Hres.
    destruct (String.eqb_spec name "") as [|Hname]; [split; [keep|by intros]|].
    assert (at_or_below root (path_join [path; name])) as Hjoin
      by (by apply join_below; [|apply sanitized_proper]).
    split; [by apply available_keeps|]. intros w found w' ->%available_answer. done.
Qed.
Lemma write_files_keeps project rel files :
  at_or_below root project →
  Forall (λ f, Forall proper (split_on "/" (path_clean f.1))) files → keeps R (write_files project rel files).
Proof.
  intros Hproject. induction 1 as [|[path content] files Hpath Hfiles IH]; cbn [write_files]; [keep|].
  apply (join_below _ _ _ Hproject) in Hpath. keep.
  - left. split; [by right|]. by eexists.
  - split; [done|]. by right.
Qed.
Lemma git_steps_keeps steps :
  (∀ step dir argv, (step, dir, argv) ∈ steps → keeps R (call (Command dir argv None))) →
  keeps R (git_steps steps).
Proof.
  induction steps as [|[[step dir] argv] steps IH]; intros Hsteps; cbn [git_steps]; [keep|].
  apply keeps_bind; [exact _|apply (Hsteps step); by left|]. intros w outcome w' _. case_match; [keep|].
  apply IH. intros ? ? ? Hin. eapply Hsteps. by right.
Qed.
Lemma scaffoldProject_keeps : keeps R (scaffoldProject range_files root request).
Proof.
  unfold scaffoldProject. cbv zeta.
  destruct (scaffold_root_below (mget request "parent_directory") (text_at request "project_root")
    (as_string (mget request "project_name"))) as [Hroot Hbelow].
  apply keeps_bind; [exact _|exact Hroot|]. intros w [[[project rel] label]|e] w' Hfound; [|keep].
  apply Hbelow in Hfound. cbn [fst] in Hfound. case_match; [keep|].
  apply keeps_bind; [exact _| |].
  { apply write_files_keeps; [done|]. apply Forall_forall. intros [path text] Hin%ranges_over.
    eapply scaffold_path_proper. by apply scaffold_paths in Hin. }
  intros w1 [changed|e] w2 _; [|keep]. apply keeps_bind; [exact _| |intros; keep].
  apply git_steps_keeps. intros step dir argv Hin. apply keeps_call. intros w3. apply calls.
  split; [done|]. by exists project, (asBool (mget request "commit_initial_scaffold")), step.
Qed.
End Confinement.

Lemma use_tool_keeps {W : Type} `{Machine W} stat_error lstat_error range range_files
    (R : relation W) `{!PreOrder R} root request :
  is_rooted root = true →
  (∀ (m : gmap string string) path text, (path, text) ∈ range_files m → path ∈ dom m) →
  (∀ A (c : os_call A) w, may_call root request c → R w (call_on A c w).2) →
  keeps R (use_tool stat_error lstat_error range range_files root (tool_of request) request).
Proof.
  intros Hroot Hranges Hcalls. unfold use_tool. cbv zeta.
  case_bool_decide; [unfold readFile; keep_with Hcalls|].
  case_bool_decide; [unfold listFiles; keep_with Hcalls|].
  case_bool_decide as Hwrite.
  { apply writeFile_keeps; [done..|]. rewrite !elem_of_cons, elem_of_nil in Hwrite. tauto. }
  destruct (String.eqb_spec (tool_of request) "research_project").
  { unfold researchProject. cbv zeta. apply keeps_bind; [exact _|by eapply context_keeps|].
    intros w [evidence usage] w' _. destruct (research _ _). apply keeps_ret, _. }
  destruct (String.eqb_spec (tool_of request) "scaffold_project"); [by apply scaffoldProject_keeps|].
  destruct (String.eqb_spec (tool_of request) "review_project"); [by apply reviewProject_keeps|].
  destruct (String.eqb_spec (tool_of request) "review_workspace"); [by apply reviewWorkspace_keeps|].
  destruct (String.eqb_spec (tool_of request) "apply_patch"); [by apply applyPatch_keeps|].
  destruct (String.eqb_spec (tool_of request) "run_command"); [apply runCommand_keeps; auto|].
  destruct (tool_of request =?s "git_status").
  { apply subprocess_keeps with (request := request); [done..|]. intros _.
    apply git_keeps with (request := request); [done|]. do 4 right. by left. }
  destruct (tool_of request =?s "git_diff").
  { apply subprocess_keeps with (request := request); [done..|]. intros _.
    apply git_keeps with (request := request); [done|]. right. by left. }
  destruct (String.eqb_spec (tool_of request) "run_tests").
  { unfold runTests. cbv zeta. apply keeps_bind; [exact _|apply allowed_keeps with (request := request); auto|]. intros. apply keeps_ret, _. }
  case_match; [unfold codeAnalysis; keep_with Hcalls|]. apply keeps_ret, _.
Qed.

(** C21: what a claimed task may do to the machine of a bridge, whatever the machine answers.
    Nothing at all unless the task is approved when it must be, and the metadata permits
    the tool.  Files and directories are written by the write tools and by the scaffold,
    at paths in the workspace; a process is one of git's that only look, a patch given to
    git, a command of the list, or the test command of a review, each run in a directory
    of the workspace; or git's, on a new project.  So a relation that these calls respect
    is respected by the whole task. *)
Theorem claim_confined {W : Type} `{Machine W} stat_error lstat_error range range_files
    (R : relation W) `{!PreOrder R} root claim :
  is_rooted root = true →
  (∀ (m : gmap string string) path text, (path, text) ∈ range_files m → path ∈ dom m) →
  (∀ A (c : os_call A) w, may root claim c → R w (call_on A c w).2) →
  keeps R (Execute stat_error lstat_error range range_files root claim).
Proof.
  intros Hroot Hranges Hcalls. unfold Execute. cbv zeta.
  destruct (only_map _) as [toolRequest|] eqn:Hreq; [|apply keeps_ret, _].
  set (request := full_request _ _). destruct (tool_of request =?s ""); [apply keeps_ret, _|].
  destruct (ensureToolCapabilityAllowed _ _) as [e|] eqn:Hcap; [apply keeps_ret, _|].
  apply capability_permitted in Hcap.
  destruct (must_wait _ _) eqn:Hwait; [apply keeps_ret, _|].
  assert (∀ A (c : os_call A) w, may_call root request c → R w (call_on A c w).2) as Hmay.
  { intros A c w Hc. apply Hcalls. by exists toolRequest. }
  by apply use_tool_keeps.
Qed.

(** On a machine with files, the texts that are not in the workspace stay. *)
Definition spared (root : string) (fs fs' : Files) : Prop :=
  ∀ q c, ¬ path_parts root `prefix_of` path_parts q → fs !! q = Some (Text c) ↔ fs' !! q = Some (Text c).
#[export] Instance spared_preorder root : PreOrder (spared root).
Proof.
  split; [by intros fs q c _|]. intros fs1 fs2 fs3 H12 H23 q c Hq. by rewrite (H12 q c Hq), (H23 q c Hq).
Qed.
Lemma file_machine_spared wd clock run root claim A (c : os_call A) fs :
  let machine := file_machine wd clock run in
  may root claim c → spared root fs (machine A c fs).2.
Proof.
  intros machine (toolRequest & _ & _ & _ & Hmay).
  destruct c as [| | | | |p text|p|p text| | | | | | |]; try done; cbn [machine file_machine snd].
  - intros q c' _. by rewrite make_folders_text.
  - destruct Hmay as [(_ & Hclean & Hp) _]. intros q c Hq. unfold write_text. rewrite Hclean.
    destruct (is_folder fs p); [done|]. destruct (negb _); [done|]. cbn [snd].
    rewrite lookup_insert_ne; [done|]. by intros ->.
Qed.
Definition claim_demo (metadata : gmap_any) : LocalBridgeTaskClaimResponse :=
  MkClaim "t" None None "" "" "" "" "" metadata "" "".
Definition write_claim : LocalBridgeTaskClaimResponse := claim_demo
  {["tool_request" := VMap {["tool" := VStr "write_file"; "path" := VStr "a/../b.txt"; "content" := VStr "x"]}]}.
Lemma claim_confined_witness :
  let run := Execute (H := demo_machine) id id map_to_list map_to_list "/ws" write_claim in
  keeps (spared "/ws") run ∧ (run {["/ws" := Folder]}).2 !! "/ws/b.txt" = Some (Text "x").
Proof.
  split; [|vm_compute; reflexivity].
  apply (claim_confined (H := demo_machine) id id map_to_list map_to_list (spared "/ws")).
  - reflexivity.
  - intros m path text Hin. apply elem_of_map_to_list in Hin. by apply elem_of_dom_2 in Hin.
  - intros A c w. apply file_machine_spared.
Defined.

(** ** When a review approves *)

Lemma reviewed_spec request decision argv a findings diff changed outcome r :
  let r' := reviewed request decision argv a findings diff changed outcome r in
  br_diff r' = Some diff ∧ br_changed r' = Some changed ∧ br_decision r' = Some decision ∧
  br_status r' = br_status r ∧ br_error r' = br_error r.
Proof. unfold reviewed. by destruct (reviewRetrievalAlignment _ _). Qed.
Ltac reviewed_fields :=
  match goal with |- context [reviewed ?q ?d ?t ?a ?f ?df ?ch ?o ?r] =>
    pose proof (reviewed_spec q d t a f df ch o r) as Hfields; cbv zeta in Hfields;
    destruct Hfields as (-> & -> & -> & -> & ->) end.

(** What a review found, and what it decided. *)
Definition review_outcome {W : Type} `{Machine W} (root : string) (request : gmap_any) (w : W)
    (result : LocalBridgeResult) : Prop :=
  ∃ dir rel w1 outcome w2 diff changed w3,
    resolveWithDefault root (VStr (first_nonblank [text_at request "project_root"; "."])) "." = Ok (dir, rel) ∧
    call_on _ (Stat dir) w = (Ok true, w1) ∧
    run_test dir (anyStringSliceDefault (mget request "test_command") ["python3"; "-c"; "print('ok')"]) w1
      = (outcome, w2) ∧
    workspaceGitState root w2 = ((diff, changed), w3) ∧
    br_diff result = Some diff ∧ br_changed result = Some changed ∧
    (br_decision result = Some "approved" ∧ br_status result = "success" ∧ br_error result = None ∧
       ex_error outcome = None ∧ trim_space diff ≠ "" ∧ changed ≠ [] ∨
     br_decision result = Some "changes_requested" ∧ br_status result = "error" ∧ is_Some (br_error result) ∧
       (is_Some (ex_error outcome) ∨ trim_space diff = "" ∨ changed = [])).
(** C23: a review of the workspace that returns a result looked at a directory of the
    workspace; it approves exactly when the test command ran without an error there and
    git, asked afterwards, shows a diff that is not blank and a file that changed, and
    asks for changes, with the reason, in every other case.  Either way the result
    carries that diff and those files. *)
Theorem reviewWorkspace_spec {W : Type} `{Machine W} root request w result w' :
  reviewWorkspace root request w = (Ok result, w') → review_outcome root request w result.
Proof.
  unfold reviewWorkspace, review_outcome. cbv zeta.
  destruct (resolveWithDefault _ _ _) as [[dir rel]|]; [|done].
  set (argv := anyStringSliceDefault _ _).
  unfold mbind at 1, run_bind at 1, call at 1. destruct (call_on _ (Stat dir) w) as [[[]|] w1] eqn:Hstat; [|done..].
  unfold mbind at 1, run_bind at 1. destruct (run_test dir argv w1) as [outcome w2] eqn:Htest.
  unfold mbind, run_bind. destruct (workspaceGitState root w2) as [[diff changed] w3] eqn:Hgit.
  intros E. apply (f_equal fst) in E. cbn [fst mret run_ret] in E. injection E as <-.
  exists dir, rel, w1, outcome, w2, diff, changed, w3. do 4 (split; [done|]).
  unfold tests_failed, nothing_changed, approved. cbv zeta. destruct (ex_error outcome) as [e|] eqn:He.
  { reviewed_fields. do 2 (split; [done|]). right. split_and!; try done. by left. }
  destruct (String.eqb_spec (trim_space diff) "") as [Hd|Hd]; cbn [orb];
    [|destruct (some_path changed) eqn:Hs; cbn [negb]].
  - reviewed_fields. do 2 (split; [done|]). right. split_and!; try done. by right; left.
  - reviewed_fields. do 2 (split; [done|]). left. split_and!; try done. by intros ->.
  - reviewed_fields. do 2 (split; [done|]). right. split_and!; try done. right; right. by destruct changed.
Qed.
(** A repository with a change, and one with a new file that git does not know: the review
    does not approve the latter. *)
Definition repo_machine (diff status : string) : Machine Files :=
  file_machine "/" 0 (λ _ argv, MkCommandResult
    (if bool_decide (argv = git_diff) then diff
     else if bool_decide (argv = git_status_all) then status else "")
    (Some 0) None false).
Definition decision_of (r : res LocalBridgeResult * Files) : option string :=
  match r.1 with Ok result => br_decision result | Err _ => None end.
Definition demo_review (diff status : string) : Run Files (res LocalBridgeResult) :=
  reviewWorkspace (H := repo_machine diff status) "/ws" ∅.
Lemma reviewWorkspace_spec_witness :
  let fs : Files := {["/ws" := Folder]} in
  match demo_review "+x" " M a.go" fs with
  | (Ok result, _) => review_outcome (H := repo_machine "+x" " M a.go") "/ws" ∅ fs result
  | _ => False
  end ∧
  decision_of (demo_review "+x" " M a.go" fs) = Some "approved" ∧
  decision_of (demo_review "" "?? b.go" fs) = Some "changes_requested".
Proof.
  cbv zeta. split; [|split; vm_compute; reflexivity].
  destruct (demo_review _ _ _) as [[result|e] w'] eqn:E.
  - by apply (reviewWorkspace_spec (H := repo_machine "+x" " M a.go") _ _ _ _ w').
  - apply (f_equal decision_of) in E. vm_compute in E. discriminate E.
Defined.

(** ** The files a repair is about *)

(** C24: the files a repair is told to work on: each once, and exactly those, trimmed, that the
    promoted and confirmed paths, the last diff, the last intent, the expected files, the
    README and the goal name, other than the words a validation prints; the excluded ones
    among them only when nothing else is left. *)
Theorem recommended_scope goal c changed intents expected tree readme :
  let l := items (recommendResearchScopePaths goal c changed intents expected tree readme) in
  let named := PromotedRejectedPaths c ++ ConfirmedPlannerPaths c ++ changed ++ intents ++ expected
    ++ inferScopePathsFromReadme goal readme tree ++ inferScopePathsFromGoal goal tree in
  let candidate p := p ≠ "" ∧ p ∈ trim_space <$> named ∧ to_upper p ≠ "PASS" ∧ to_upper p ≠ "FAIL" in
  NoDup l ∧
  ∀ p, p ∈ l ↔ candidate p ∧ (p ∉ ExcludedScopePaths c ∨ ∀ q, candidate q → q ∈ ExcludedScopePaths c).
Proof.
  intros l named candidate. unfold l, recommendResearchScopePaths, scope_sources.
  fold named. set (excluded := ExcludedScopePaths c). unfold uniqueNonEmptyStrings.
  destruct (unique_from_spec named []) as [Hnodup Hin]. remember (unique_from [] named) as sources eqn:Hsrc.
  assert (Hc : ∀ p, p ∈ filterValidationArtifactPaths sources ↔ candidate p).
  { intros p. unfold filterValidationArtifactPaths, candidate.
    rewrite list_elem_of_filter, !not_elem_of_cons, Hin. split.
    - intros ((H1 & H2 & _) & _ & Hne & Hp). assert (trim_space p = p) as Ht
        by (apply list_elem_of_fmap in Hp as (q & -> & _); apply trim_space_idemp). by rewrite Ht in H1, H2.
    - intros (Hne & Hp & H1 & H2). assert (trim_space p = p) as Ht
        by (apply list_elem_of_fmap in Hp as (q & -> & _); apply trim_space_idemp). rewrite Ht.
      split_and!; try done; apply not_elem_of_nil. }
  assert (Hn : NoDup (filterValidationArtifactPaths sources)) by by apply NoDup_filter.
  destruct sources as [|x sources].
  { split; [constructor|]. intros p. cbn [items default from_option]. rewrite elem_of_nil. split; [done|].
    intros [Hp%Hc _]. by apply elem_of_nil in Hp. }
  destruct (filter _ (filterValidationArtifactPaths (x :: sources))) as [|y filtered] eqn:Hf;
    cbn [items default from_option id].
  - split; [done|]. intros p. rewrite Hc. split; [|by intros []]. intros Hp. split; [done|]. right.
    intros q Hq%Hc. destruct (decide (q ∈ excluded)) as [|Hno]; [done|]. exfalso.
    assert (q ∈ filter (λ p, p ∉ excluded) (filterValidationArtifactPaths (x :: sources))) as Hin'
      by by apply list_elem_of_filter. rewrite Hf in Hin'. by apply elem_of_nil in Hin'.
  - rewrite <- Hf. split; [by apply NoDup_filter|]. intros p. rewrite list_elem_of_filter, Hc. split.
    + intros [Hno Hp]. split; [done|]. by left.
    + intros [Hp [Hno|Hall]]; [done|]. exfalso.
      assert (y ∈ y :: filtered) as Hy by by left. rewrite <- Hf in Hy.
      apply list_elem_of_filter in Hy as [Hno Hy%Hc]. by apply Hno, Hall.
Qed.

(** ** A page that is checked as a program *)

(** The command a new web page declares compiles a file that the page does not have. *)
Example web_page_check :
  defaultBridgeTestCommand "web_small" "python" = ["python3"; "-m"; "py_compile"; "main.py"] ∧
  (∀ name goal focus, "main.py" ∉ dom (scaffoldFiles "web_small" "python" name goal focus)).
Proof.
  split; [vm_compute; reflexivity|]. intros name goal focus. rewrite scaffold_paths.
  apply (bool_decide_unpack _). vm_compute. exact I.
Qed.
