(* ===== verification/BridgeApi.v ===== *)
(** * The bridge endpoints ([httpapi/bridges.go])

    A bridge registers, sends heartbeats, claims the next task of its workspace and
    reports the result, which completes the task, fails it, asks for an approval or
    moves the objective it belongs to: further tasks are queued, a repair cycle
    starts, or the objective stops. *)
From S2P Require Import Prelude GoVal Rfc3339 JsonText Effects Domain Schema TaskStore Artifacts BridgeLease Queue InitiativeStore Http TaskApi InitiativeApi Objective Evidence ObjectiveRun.

(** ** Requests and replies *)

(** [orchestratorgo/domain/bridge.go:5-12] LocalBridgeRegisterRequest. *)
Record LocalBridgeRegisterRequest := MkRegister {
  reg_bridge : string;
  reg_name : string;
  reg_hostname : string;
  reg_workspace_root : string;
  reg_capabilities : gmap_any;
  reg_api_key_name : option string;
}.
(** [orchestratorgo/domain/bridge.go:14-21] LocalBridgeHeartbeatRequest. *)
Record LocalBridgeHeartbeatRequest := MkHeartbeat {
  hb_status : string;
  hb_current_task : option string;
  hb_lease_ttl : option Z;
  hb_stage : option string;
  hb_tool : option string;
  hb_summary : option string;
}.
(** What an accepted result answers: the invocation and the artifacts. *)
Record Accepted := MkAccepted {
  acc_invocation : string;
  acc_artifacts : list string;
}.

(** [orchestratorgo/httpapi/handlers.go:2015-2021] truncateForAPI. *)
Definition truncateForAPI (text : string) (max : Z) : string :=
  let text := trim_space text in
  if slen text <=? max then text
  else trim_space (stake (Z.to_nat max) text) +:+ "...".

Section Bridge.
(** [lease_ttl]: the server's LocalBridgeLeaseTTLSeconds. *)
Context `{Env} `{JsonCodec} `{Git} (lease_ttl : Z).

(** [orchestratorgo/httpapi/helpers.go:43-48] localBridgeLeaseTTLSeconds. *)
Definition localBridgeLeaseTTLSeconds : Z := if 0 <? lease_ttl then lease_ttl else 45.

(** [orchestratorgo/httpapi/bridges.go:19-47] registerBridge. *)
Definition registerBridge (body : option LocalBridgeRegisterRequest) :
    Handler (option LocalBridgeResponse) :=
  match body with
  | None => detail 400 "invalid JSON body"
  | Some body =>
      let bridgeID := trim_space (reg_bridge body) in
      let name := trim_space (reg_name body) in
      let hostname := trim_space (reg_hostname body) in
      let workspaceRoot := trim_space (reg_workspace_root body) in
      if (bridgeID =?s "") || (name =?s "") || (hostname =?s "") || (workspaceRoot =?s "") then
        detail 400 "bridge_id, name, hostname and workspace_root are required"
      else
        record <~ UpsertLocalBridge
          (MkUpsertBridge bridgeID name hostname workspaceRoot (reg_capabilities body)
             (reg_api_key_name body) "active") ;;
        json 200 record
  end.

(** [orchestratorgo/httpapi/bridges.go:49-75] heartbeatBridge. *)
Definition heartbeatBridge (bridgeID : string) (body : option LocalBridgeHeartbeatRequest) :
    Handler LocalBridgeResponse :=
  match body with
  | None => detail 400 "invalid JSON body"
  | Some body =>
      record <~ HeartbeatLocalBridge bridgeID (trim_space (hb_status body)) ;;
      match record with
      | None => detail 404 "local bridge not found"
      | Some record =>
          let taskID := trim_space (derefString (hb_current_task body)) in
          if taskID =?s "" then json 200 record
          else
            let ttl :=
              match hb_lease_ttl body with
              | Some t => if 0 <? t then t else localBridgeLeaseTTLSeconds
              | None => localBridgeLeaseTTLSeconds
              end in
            _ <~ TouchLocalBridgeTaskLease taskID bridgeID ttl "active" (hb_stage body)
                   (hb_tool body) (hb_summary body) ;;
            json 200 record
      end
  end.

(** [orchestratorgo/httpapi/bridges.go:77-84] listBridges. *)
Definition listBridges : Handler (list LocalBridgeResponse) :=
  l <~ ListLocalBridges ;; json 200 l.

(** [orchestratorgo/httpapi/bridges.go:86-98] claimNextBridgeTask. *)
Definition claimNextBridgeTask (bridgeID : string) : Handler LocalBridgeTaskClaimResponse :=
  claim <~ ClaimNextLocalBridgeTaskWithTTL bridgeID localBridgeLeaseTTLSeconds ;;
  match claim with None => reply JsonNull | Some claim => json 200 claim end.

(** ** The record of an execution *)

(** [orchestratorgo/httpapi/bridges.go:265-411] persistLocalBridgeExecution: the record
    of the run, *)
Definition execution_output (result : LocalBridgeResult) : gmap_any :=
  list_to_map
    [("summary", VStr (trim_space (derefString (br_summary result))));
     ("stdout", VStr (derefString (br_stdout result)));
     ("stderr", VStr (derefString (br_stderr result)));
     ("exit_code", int_value (br_exit_code result));
     ("diff", VStr (derefString (br_diff result)));
     ("changed_files", strs_value (br_changed result));
     ("test_results", map_value (br_tests result));
     ("review_decision", VStr (derefString (br_decision result)));
     ("review_comments", maps_value (br_comments result));
     ("capability_usage", maps_value (br_usage result));
     ("capability_helped", strs_value (br_helped result));
     ("capability_noise", strs_value (br_noise result));
     ("capability_denied", strs_value (br_denied result))].
Definition execution_invocation (bridgeID taskID : string) (task : TaskResponse)
    (result : LocalBridgeResult) : CreateToolInvocationParams :=
  {| ti_task := Some taskID;
     ti_agent := Some (default AgentTypeCoder (task_assigned_agent task));
     ti_entrypoint := "local_bridge";
     ti_capability := "local_bridge.run";
     ti_input := list_to_map
       [("bridge_id", VStr bridgeID);
        ("workspace_root", VStr (as_string (mget (task_metadata task) "workspace_root")));
        ("tool_request", mget (task_metadata task) "tool_request")];
     ti_output := execution_output result;
     ti_status := result_status result;
     ti_duration := 0;
     ti_error := stringPtr (trim_space (derefString (br_error result))) |}.
(** its texts, *)
Definition appendTextArtifact (bridgeID taskID invocationID : string) (artifactIDs : list string)
    (it : string * string * string) : M Sys (list string) :=
  let '(kind, title, content) := it in
  if blank content then ret artifactIDs
  else
    id <- CreateArtifact
      (MkCreateArtifact (Some taskID) (Some invocationID) kind (stringPtr title) None
         (Some "text/plain") (Some (truncateForAPI content 16000))
         {["bridge_id" := VStr bridgeID]}) ;;
    ret (artifactIDs ++ [id]).
Definition execution_texts (result : LocalBridgeResult) : list (string * string * string) :=
  [("local_bridge_stdout", "Local bridge stdout", derefString (br_stdout result));
   ("local_bridge_stderr", "Local bridge stderr", derefString (br_stderr result));
   ("local_bridge_diff", "Local bridge diff", derefString (br_diff result))]
  ++ (if bool_decide (default ∅ (br_tests result) = ∅) then []
      else [("local_bridge_test_results", "Local bridge test results",
             map_text (default ∅ (br_tests result)))]).
(** its documents, tagged with what they belong to, *)
Definition document_metadata (task : TaskResponse) (artifact : option gmap_any) : gmap_any :=
  let metadata := task_metadata task in
  let m := default ∅ artifact in
  let m := set_text "initiative_id" (trim_space (derefString (task_initiative task))) m in
  let m := <["task_id" := VStr (task_id task)]> m in
  let m := set_text "work_item_id" (text_at metadata "work_item_id") m in
  let m := set_text "work_item_kind" (text_at metadata "work_item_kind") m in
  let iteration := objectiveAsInt (mget metadata "objective_iteration") 0 in
  if 0 <? iteration then <["iteration" := VInt iteration]> m else m.
Definition document_params (taskID invocationID : string) (task : TaskResponse)
    (artifact : option gmap_any) : CreateArtifactParams :=
  let text := finding_text artifact in
  MkCreateArtifact (Some taskID) (Some invocationID)
    (firstNonEmptyString [text "type"; "local_bridge_artifact"])
    (stringPtr (text "title")) (stringPtr (text "path")) (stringPtr (text "media_type"))
    (stringPtr (truncateForAPI (text "content_text") 4000)) (document_metadata task artifact).
(** and what the task keeps as its results. *)
Definition execution_results (result : LocalBridgeResult) (artifacts : list (option gmap_any))
    (invocationID : string) (artifactIDs : list string) : gmap_any :=
  list_to_map
    [("status", VStr (result_status result)); ("summary", VStr (derefString (br_summary result)));
     ("stdout", VStr (derefString (br_stdout result)));
     ("stderr", VStr (derefString (br_stderr result)));
     ("exit_code", int_value (br_exit_code result));
     ("diff", VStr (derefString (br_diff result)));
     ("changed_files", strs_value (br_changed result));
     ("test_results", map_value (br_tests result));
     ("review_decision", VStr (derefString (br_decision result)));
     ("review_comments", maps_value (br_comments result));
     ("findings", maps_value (br_findings result)); ("artifacts", maps_value (Some artifacts));
     ("error_message", VStr (derefString (br_error result)));
     ("tool_invocation_id", VStr invocationID); ("artifact_ids", VStrs artifactIDs);
     ("capability_usage", maps_value (br_usage result));
     ("capability_helped", strs_value (br_helped result));
     ("capability_noise", strs_value (br_noise result));
     ("capability_denied", strs_value (br_denied result))].
Definition persistLocalBridgeExecution (bridgeID taskID : string) (task : TaskResponse)
    (result : LocalBridgeResult) : M Sys (gmap_any * string * list string) :=
  invocationID <- CreateToolInvocation (execution_invocation bridgeID taskID task result) ;;
  now1 <- time_now ;;
  now2 <- time_now ;;
  now3 <- time_now ;;
  let artifacts := items (br_artifacts result)
    ++ (Some <$> buildObjectiveIterationArtifacts task result now1 now2 now3)
    ++ (Some <$> buildRepoWorkflowMemoryArtifacts task result) in
  artifactIDs <- for_each (execution_texts result) []
    (appendTextArtifact bridgeID taskID invocationID) ;;
  artifactIDs <- for_each artifacts artifactIDs (λ artifactIDs artifact,
    id <- CreateArtifact (document_params taskID invocationID task artifact) ;;
    ret (artifactIDs ++ [id])) ;;
  UpdateToolInvocationArtifactIDs invocationID artifactIDs ;;;
  ret (execution_results result artifacts invocationID artifactIDs, invocationID, artifactIDs).

(** ** Results *)

(** [orchestratorgo/httpapi/bridges.go:217-236] shouldStopObjectiveAfterSuccess: the
    reasons, when it must. *)
Definition shouldStopObjectiveAfterSuccess (task : TaskResponse) (result : LocalBridgeResult)
    (now : Z) : option (string * string) :=
  let metadata := task_metadata task in
  match task_initiative task with
  | None => None
  | Some _ =>
      if negb (objectiveAsBool (mget metadata "objective_entrypoint")) then None
      else if negb (objectiveTimeBudgetExceeded metadata now) then None
      else if (text_at metadata "work_item_kind" =?s WorkItemKindReview)
              && equal_fold (derefString (br_decision result)) "approved" then None
      else
        let '(budgetSeconds, deadline, ok) := objectiveTimeBudgetDetails metadata in
        if negb ok then None
        else Some (budget_exhausted, objectiveTimeBudgetExceededReason budgetSeconds deadline)
  end.

(** [orchestratorgo/httpapi/bridges.go:238-263] stopObjectiveAfterTaskCompletion. *)
Definition stopObjectiveAfterTaskCompletion (task : TaskResponse)
    (stopReason blockerReason : string) : M Sys unit :=
  match task_initiative task with
  | None => ret tt
  | Some initiative =>
      let '(budgetSeconds, deadline, _) := objectiveTimeBudgetDetails (task_metadata task) in
      now <- time_now ;;
      PatchTaskMetadata (task_id task)
        (list_to_map
           [("objective_stop_reason", VStr stopReason);
            ("objective_time_budget_exhausted", VBool (stopReason =?s budget_exhausted));
            ("objective_time_budget_exhausted_at", VStr (format_nano now 0))]) ;;;
      persistObjectiveStopSnapshot task stopReason blockerReason deadline budgetSeconds ;;;
      UpdateInitiative initiative
        (MkUpdateInitiative (Some InitiativeStatusBlocked) (Some InitiativePhaseExecution)
           None None None None) ;;;
      ret tt
  end.

(** [orchestratorgo/httpapi/bridges.go:100-215] submitBridgeTaskResult: what each status
    does to the task, *)
Definition bridge_actor (bridgeID : string) : string := "bridge:" +:+ bridgeID.
Definition finalize_lease (bridgeID taskID status : string) (result : LocalBridgeResult) :
    M Sys unit :=
  ignore (FinalizeLocalBridgeTaskLease taskID bridgeID status (stringPtr status) None
            (br_summary result)).
Definition queue_next (task : TaskResponse) : M Sys unit :=
  match task_initiative task with
  | Some initiative => queueReadyObjectiveTasks initiative
  | None => ret tt
  end.
Definition submit_approval (bridgeID taskID : string) (task : TaskResponse)
    (result : LocalBridgeResult) : M Sys unit :=
  finalize_lease bridgeID taskID "waiting_approval" result ;;;
  let timeout :=
    match br_timeout result with
    | Some t => if 0 <? t then t else 300
    | None => 300
    end in
  RequestApproval taskID
    (firstNonEmptyString [derefString (br_action result); "local_bridge_tool"])
    (firstNonEmptyString [derefString (br_resource result); derefString (br_summary result);
                          task_description task])
    timeout (bridge_actor bridgeID)
    (firstNonEmptyString [derefString (br_summary result); "Local bridge requested approval"])
    {["approval_requested" := VBool true]} ;;;
  ret tt.
Definition complete_with (bridgeID taskID reason : string) (result : LocalBridgeResult)
    (results : gmap_any) : M Sys unit :=
  finalize_lease bridgeID taskID "completed" result ;;;
  CompleteTask taskID (bridge_actor bridgeID)
    (firstNonEmptyString [derefString (br_summary result); reason]) (VMap results) ;;;
  ret tt.
Definition submit_success (bridgeID taskID : string) (task : TaskResponse)
    (result : LocalBridgeResult) (results : gmap_any) : M Sys unit :=
  complete_with bridgeID taskID "Local bridge execution completed" result results ;;;
  now <- time_now ;;
  match shouldStopObjectiveAfterSuccess task result now with
  | Some (stopReason, blockerReason) =>
      stopObjectiveAfterTaskCompletion task stopReason blockerReason
  | None => queue_next task
  end ;;;
  reconcileRootTask taskID.
Definition submit_baseline_failure (bridgeID taskID : string) (task : TaskResponse)
    (result : LocalBridgeResult) (results : gmap_any) : M Sys unit :=
  complete_with bridgeID taskID
    "Objective baseline validation recorded failing evidence before the first edit"
    result results ;;;
  queue_next task ;;;
  reconcileRootTask taskID.
Definition submit_repair (bridgeID taskID : string) (task : TaskResponse)
    (result : LocalBridgeResult) (results : gmap_any) : M Sys unit :=
  complete_with bridgeID taskID
    "Objective iteration completed and requested another repair cycle" result results ;;;
  startObjectiveRepairCycle task result ;;;
  match task_initiative task with
  | Some initiative => ReconcileInitiativeExecution initiative ;;; ret tt
  | None => ret tt
  end ;;;
  reconcileRootTask taskID.
Definition submit_failure (bridgeID taskID : string) (task : TaskResponse)
    (result : LocalBridgeResult) (results : gmap_any) : M Sys unit :=
  let errorMessage := firstNonEmptyString
    [derefString (br_error result); derefString (br_stderr result);
     derefString (br_stdout result); "Local bridge execution failed"] in
  finalize_lease bridgeID taskID "failed" result ;;;
  FailTask taskID (bridge_actor bridgeID) errorMessage errorMessage (VMap results) ;;;
  reconcileRootTask taskID.
Definition submit_status (bridgeID taskID : string) (task : TaskResponse)
    (result : LocalBridgeResult) (results : gmap_any) : M Sys unit :=
  let status := result_status result in
  if status =?s "waiting_approval" then submit_approval bridgeID taskID task result
  else if status =?s "success" then submit_success bridgeID taskID task result results
  else if objectiveAsBool (mget (task_metadata task) "objective_baseline_validation") then
    submit_baseline_failure bridgeID taskID task result results
  else
    now <- time_now ;;
    if shouldStartObjectiveRepairCycle task result now then
      submit_repair bridgeID taskID task result results
    else submit_failure bridgeID taskID task result results.
(** and the handler: any error is a 500. *)
Definition submitBridgeTaskResult (bridgeID taskID : string) (body : option LocalBridgeResult) :
    Handler Accepted :=
  match body with
  | None => detail 400 "invalid JSON body"
  | Some body =>
      task <~ GetTask taskID ;;
      match task with
      | None => detail 404 "task not found"
      | Some task =>
          persisted <~ persistLocalBridgeExecution bridgeID taskID task body ;;
          let '(results, invocationID, artifactIDs) := persisted in
          _ <~ submit_status bridgeID taskID task body results ;;
          json 202 (MkAccepted invocationID artifactIDs)
      end
  end.
End Bridge.

(** ** Every endpoint keeps the contract of the store *)

Section BridgeEvolution.
Context `{Env} `{JsonCodec} `{Git} (lease_ttl : Z).

Lemma registerBridge_evolves body : respects evolves (registerBridge body).
Proof. unfold registerBridge. cbn zeta. solve_handler. Qed.
Lemma heartbeatBridge_evolves b body : respects evolves (heartbeatBridge lease_ttl b body).
Proof. unfold heartbeatBridge. cbn zeta. solve_handler. Qed.
Lemma listBridges_evolves : respects evolves listBridges.
Proof. unfold listBridges, ListLocalBridges. solve_handler. Qed.
Lemma claimNext_keeps b : respects keeps (claimNextBridgeTask lease_ttl b).
Proof. unfold claimNextBridgeTask. solve_handler. Qed.
Lemma persistExecution_artifacts b id task result :
  respects only_artifacts (persistLocalBridgeExecution b id task result).
Proof.
  unfold persistLocalBridgeExecution, appendTextArtifact. cbn zeta. solve_handler.
Qed.
Lemma persistExecution_evolves b id task result :
  respects evolves (persistLocalBridgeExecution b id task result).
Proof. eapply respects_weaken; [apply only_artifacts_evolves|apply persistExecution_artifacts]. Qed.
Lemma stopObjective_evolves task r b : respects evolves (stopObjectiveAfterTaskCompletion task r b).
Proof. unfold stopObjectiveAfterTaskCompletion. cbn zeta. solve_handler. Qed.
Hint Resolve persistExecution_evolves stopObjective_evolves : respects.
Lemma submit_status_evolves b id task result results :
  respects evolves (submit_status b id task result results).
Proof.
  unfold submit_status, submit_approval, submit_success, submit_baseline_failure, submit_repair,
    submit_failure, complete_with, queue_next, finalize_lease. cbn zeta. solve_handler.
Qed.
Hint Resolve submit_status_evolves : respects.
Lemma submit_evolves b id body : respects evolves (submitBridgeTaskResult b id body).
Proof. unfold submitBridgeTaskResult, GetTask. solve_handler. Qed.
End BridgeEvolution.
#[export] Hint Resolve registerBridge_evolves heartbeatBridge_evolves listBridges_evolves
  claimNext_keeps submit_evolves persistExecution_evolves stopObjective_evolves : respects.

(** ** What a reported result does to the task *)

Section Outcome.
Context `{Env} `{JsonCodec} `{Git}.

(** Finished tasks stay as they are, for the calls that never relaunch one. *)
Definition settles (s s' : Sys) : Prop := ∀ id st,
  IsTerminalState st = true → has_state s id st → has_state s' id st.
#[export] Instance settles_preorder : PreOrder settles.
Proof. split; unfold settles; [by intros s id st ? ?|]. intros s1 s2 s3 Ha Hb id st Hst Hs. auto. Qed.
Lemma terminal_no_edge st t : IsTerminalState st = true → IsValidTransition st t = false.
Proof. by destruct st, t. Qed.
Lemma finalize_settles id to actor reason results msg :
  respects settles (finalizeTask id to actor reason results msg).
Proof.
  intros n s r n' s' [[-> _]|(row & now & tid & Hrow & Hv & ->)]%finalizeTask_run; [done|].
  intros k st Hst (row' & Hrow' & <-). exists row'. split; [|done].
  destruct (decide (k = id)) as [->|Hk].
  - rewrite Hrow in Hrow'. injection Hrow' as <-. by rewrite terminal_no_edge in Hv.
  - unfold transition_effect. rewrite get_row_insert_transition.
    by rewrite !get_row_update_ne by congruence.
Qed.
Lemma ReconcileInitiative_settles i : respects settles (ReconcileInitiativeExecution i).
Proof.
  unfold ReconcileInitiativeExecution, UpdateInitiative, GetInitiative, ListInitiativeTasks.
  solve_respects. apply respects_exec_now; [apply _|]. intros t s0 k st _ Hs. exact Hs.
Qed.
Hint Resolve finalize_settles ReconcileInitiative_settles : respects.
Lemma reconcileRoot_settles id : respects settles (reconcileRootTask id).
Proof.
  unfold reconcileRootTask, reconcile_root, aggregate_root, FailTask, CompleteTask, ListByRoot,
    GetTask. cbn zeta. solve_handler.
Qed.

(** What keeps the row of a task, its state apart from nothing. *)
Definition same_states (s s' : Sys) : Prop := ∀ id st, has_state s id st → has_state s' id st.
#[export] Instance same_states_preorder : PreOrder same_states.
Proof. split; unfold same_states; [by intros s id st ?|]. intros s1 s2 s3 Ha Hb id st Hs. auto. Qed.
Lemma Patch_same_states id patch : respects same_states (PatchTaskMetadata id patch).
Proof.
  intros n s r n' s' Hrun k st (row & Hrow & <-).
  destruct (decide (k = id)) as [->|Hk].
  - destruct (Patch_row _ _ _ _ _ _ _ _ Hrun Hrow) as (row' & ? & ? & _). by exists row'.
  - exists row. split; [|done].
    by rewrite (respects_run (Patch_only id patch) Hrun k Hk).
Qed.
Hint Resolve Patch_same_states : respects.
Lemma finalize_lease_same_states b id status result :
  respects same_states (finalize_lease b id status result).
Proof. unfold finalize_lease, FinalizeLocalBridgeTaskLease. cbn zeta. solve_handler. Qed.

(** The state a result asks for: [now] is read when it is applied. *)
Definition outcome (task : TaskResponse) (result : LocalBridgeResult) (now : Z) : TaskState :=
  let status := result_status result in
  if status =?s "waiting_approval" then TaskStateWaitingApproval
  else if status =?s "success" then TaskStateCompleted
  else if objectiveAsBool (mget (task_metadata task) "objective_baseline_validation") then
    TaskStateCompleted
  else if shouldStartObjectiveRepairCycle task result now then TaskStateCompleted
  else TaskStateFailed.

(** [id] is in [st] as before, or has taken the edge to [to]; it has when all went well. *)
Definition moves (id : string) (st to : TaskState) (done : bool) (s' : Sys) : Prop :=
  (done = false ∧ has_state s' id st) ∨
  (IsValidTransition st to = true ∧ has_state s' id to).
Definition is_ok {A} (r : res A) : bool := match r with Ok _ => true | Err _ => false end.

Lemma finalize_moves id to actor reason results msg n s r n' s' st :
  finalizeTask id to actor reason results msg n s = (r, (n', s')) →
  has_state s id st → moves id st to (is_ok r) s'.
Proof.
  intros [[-> [e ->]]|(row & now & tid & Hrow & Hv & ->)]%finalizeTask_run Hst; [by left|].
  right. destruct Hst as (row' & Hrow' & <-). rewrite Hrow in Hrow'. injection Hrow' as <-.
  split; [done|]. exists (apply_transition to now (finalize_row results msg row)).
  by rewrite get_row_transition_eq, get_row_update_eq, Hrow.
Qed.
Lemma RequestApproval_moves id action target timeout actor reason patch n s r n' s' st :
  RequestApproval id action target timeout actor reason patch n s = (r, (n', s')) →
  has_state s id st → moves id st TaskStateWaitingApproval (is_ok r) s'.
Proof.
  intros [[-> [e ->]]|(row & now & aid & tid & Hrow & Hv & _ & ->)]%RequestApproval_run Hst;
    [by left|].
  right. destruct Hst as (row' & Hrow' & <-). rewrite Hrow in Hrow'. injection Hrow' as <-.
  split; [done|]. eexists. rewrite get_row_transition_eq, get_row_update_eq.
  cbn. change (get_row (on_pg _ s) id) with (get_row s id). rewrite Hrow. done.
Qed.
(** What runs before it keeps the state, what runs after it the outcome. *)
Lemma moves_before {A} (m : M Sys unit) (k : M Sys A) id st to n s r n' s' :
  respects same_states m →
  (∀ n s r n' s', k n s = (r, (n', s')) → has_state s id st → moves id st to (is_ok r) s') →
  (m ;;; k) n s = (r, (n', s')) → has_state s id st → moves id st to (is_ok r) s'.
Proof.
  intros Hm Hk [(e & Hrun & ->)|(u & n1 & s1 & Hrun & Hk')]%bind_inv Hst.
  - left. split; [done|]. by eapply (respects_run Hm Hrun).
  - eapply Hk; [exact Hk'|]. by eapply (respects_run Hm Hrun).
Qed.
Lemma moves_after {A B} (m : M Sys A) (k : A → M Sys B) (R : relation Sys) id st to n s r n' s' :
  (∀ a, respects R (k a)) →
  (∀ s s', R s s' → has_state s id to → has_state s' id to) →
  (∀ r n' s', m n s = (r, (n', s')) → moves id st to (is_ok r) s') →
  bind m k n s = (r, (n', s')) → moves id st to (is_ok r) s'.
Proof.
  intros Hk HR Hm [(e & Hrun & ->)|(a & n1 & s1 & Hrun & Hk')]%bind_inv; [by apply Hm in Hrun|].
  apply Hm in Hrun as [[? _]|[Hv Hst]]; [done|]. right. split; [done|].
  eapply HR; [|exact Hst]. by eapply (respects_run (Hk a)).
Qed.
Lemma evolves_keeps_completed id s s' :
  evolves s s' → has_state s id TaskStateCompleted → has_state s' id TaskStateCompleted.
Proof. intros He (row & Hrow & Hst). by eapply evolves_completed. Qed.
Lemma complete_with_moves b id reason result results n s r n' s' st :
  complete_with b id reason result results n s = (r, (n', s')) → has_state s id st →
  moves id st TaskStateCompleted (is_ok r) s'.
Proof.
  unfold complete_with. apply moves_before; [apply finalize_lease_same_states|].
  intros n1 s1 r1 n1' s1' Hrun Hst.
  eapply (moves_after _ _ same_states); [..|exact Hrun].
  - intros ?. apply respects_ret, _.
  - intros s3 s4 Hs. by apply Hs.
  - intros r2 n2 s2 Hrun2. by eapply finalize_moves.
Qed.
(** Completing, and what keeps the contract after it. *)
Lemma complete_then_moves (k : M Sys unit) b id reason result results n s r n' s' st :
  respects evolves k →
  (complete_with b id reason result results ;;; k) n s = (r, (n', s')) → has_state s id st →
  moves id st TaskStateCompleted (is_ok r) s'.
Proof.
  intros Hk Hrun Hst. eapply (moves_after _ _ evolves); [..|exact Hrun].
  - by intros ?.
  - apply evolves_keeps_completed.
  - intros r2 n2 s2 Hrun2. by eapply complete_with_moves.
Qed.
Lemma submit_status_moves b id task result results n s r n' s' st :
  submit_status b id task result results n s = (r, (n', s')) → has_state s id st →
  ∃ now, moves id st (outcome task result now) (is_ok r) s'.
Proof.
  unfold submit_status, outcome. cbn zeta.
  destruct (_ =?s "waiting_approval"); [|destruct (_ =?s "success");
    [|destruct (objectiveAsBool _)]].
  - intros Hrun Hst. exists 0. revert Hrun Hst. unfold submit_approval.
    apply moves_before; [apply finalize_lease_same_states|]. cbn zeta.
    intros n1 s1 r1 n1' s1' Hrun Hst. eapply (moves_after _ _ same_states); [..|exact Hrun].
    + intros ?. apply respects_ret, _.
    + intros s3 s4 Hs. by apply Hs.
    + intros r2 n2 s2 Hrun2. by eapply RequestApproval_moves.
  - intros Hrun Hst. exists 0. eapply complete_then_moves; [|exact Hrun|exact Hst].
    unfold queue_next. solve_handler.
  - intros Hrun Hst. exists 0. eapply complete_then_moves; [|exact Hrun|exact Hst].
    unfold queue_next. solve_handler.
  - intros [(e & Hnow & ->)|(now & n1 & s1 & Hnow & Hrun)]%bind_inv Hst; [discriminate Hnow|].
    injection Hnow as <- <- <-. exists (clock n). destruct (shouldStartObjectiveRepairCycle _ _ _).
    + eapply complete_then_moves; [|exact Hrun|exact Hst]. solve_handler.
    + revert Hrun Hst. unfold submit_failure. cbn zeta.
      apply moves_before; [apply finalize_lease_same_states|].
      intros n2 s2 r2 n2' s2' Hrun Hst. eapply (moves_after _ _ settles); [..|exact Hrun].
      * intros ?. apply reconcileRoot_settles.
      * intros s3 s4 Hs. by apply Hs.
      * intros r3 n3 s3 Hrun3. by eapply finalize_moves.
Qed.

(** C4: a result reported by a bridge.  It is accepted (202) only for a task whose
    state allows the outcome the status asks for, and the task is then in that state:
    [waiting_approval] waits; [success], a failed baseline validation and a failure
    that starts a repair cycle complete it; any other status fails it, whatever is
    queued, cancelled, created or reconciled after.  Otherwise the answer is a 500 and
    the task is where it was or in that state, never in another; an unknown task is a
    404 and changes nothing.  The bridge's lease plays no part. *)
Theorem submit_outcome bridgeID taskID result n s :
  let '(r, (_, s')) := submitBridgeTaskResult bridgeID taskID (Some result) n s in
  evolves s s' ∧
  match get_row s taskID with
  | None => s' = s ∧ (r = Ok (Detail 404 "task not found") ∨ ∃ e, r = Ok (Detail 500 e))
  | Some row =>
      let st := row_state row in
      ∃ now, let to := outcome (scanTask row) result now in
        ((∃ accepted, r = Ok (Json 202 accepted)) ∧
         IsValidTransition st to = true ∧ has_state s' taskID to) ∨
        ((∃ e, r = Ok (Detail 500 e)) ∧
         (has_state s' taskID st ∨
          IsValidTransition st to = true ∧ has_state s' taskID to))
  end.
Proof.
  destruct (submitBridgeTaskResult _ _ _ n s) as [r [n' s']] eqn:Hrun.
  split; [exact (respects_run (submit_evolves bridgeID taskID (Some result)) Hrun)|].
  unfold submitBridgeTaskResult in Hrun.
  apply or_500_inv in Hrun as [(e & Hget & ->)|(task & n1 & s1 & Hget & Hrun)].
  { apply query_state in Hget as ->. destruct (get_row s taskID) as [row|] eqn:Hrow; [|by eauto].
    exists 0. right. split; [by eauto|]. left. by exists row. }
  apply query_ok in Hget as (-> & -> & ->).
  destruct (get_row s taskID) as [row|] eqn:Hrow; cbn [fmap option_fmap option_map] in Hrun;
    [|unfold detail, ret in Hrun; injection Hrun as <- _ <-; by eauto].
  assert (Hst : has_state s taskID (row_state row)) by (by exists row).
  apply or_500_inv in Hrun as [(e & Hp & ->)|([[results inv] arts] & n2 & s2 & Hp & Hrun)];
    assert (Hmid : ∀ u, only_artifacts s u → has_state u taskID (row_state row))
      by (intros u (Ht & _); destruct Hst as (x & Hx & ?); exists x; unfold get_row in *; by rewrite Ht);
    apply (respects_run (persistExecution_artifacts _ _ _ _)), Hmid in Hp.
  { exists 0. right. split; [by eauto|by left]. }
  apply or_500_inv in Hrun as [(e & Hs & ->)|(u & n3 & s3 & Hs & Hrun)];
    destruct (submit_status_moves _ _ _ _ _ _ _ _ _ _ _ Hs Hp) as [now Hmoves]; exists now.
  - right. split; [by eauto|]. destruct Hmoves as [[_ ?]|?]; [by left|by right].
  - left. unfold json, ret in Hrun. injection Hrun as <- _ <-.
    split; [by eauto|]. by destruct Hmoves as [[? _]|?].
Qed.
End Outcome.
