(* ===== verification/Capability.v ===== *)
(** * What runs a capability ([httpapi/capability_runtime.go], [handlers.go])

    The capabilities the server has of its own: files, static analysis, commands, git and
    docker, all at paths below the allowed roots.  Those that only ask another service are
    a parameter. *)
From S2P Require Import Prelude GoVal JsonText JsonValue Effects Objective Workspace Http BridgeApi Machine.
From S2P Require Import RepairScope CodeAnalysis Glob Executor.

(** ** Results *)

(** [orchestratorgo/capabilities/client.go:36-60] SourceRef, Artifact and Result: as the server
    fills them in. *)
Record SourceRef := MkSource { sr_title : string; sr_uri : string; sr_kind : string }.
Record Artifact := MkCapArtifact {
  ka_type : string;
  ka_title : string;
  ka_media_type : string;
  ka_content : string;
  ka_metadata : gmap_any;
}.
Record CapabilityResult := MkCapResult {
  kr_status : string;
  kr_summary : string;
  kr_output : gmap_any;
  kr_sources : list SourceRef;
  kr_artifacts : list Artifact;
  kr_error : string;
}.
Definition succeeded (summary : string) (output : gmap_any) (artifacts : list Artifact) : CapabilityResult :=
  MkCapResult "success" summary output [] artifacts "".

(** ** Reading the input *)

(** [orchestratorgo/httpapi/handlers.go:2481-2496] asStringSlice. *)
Definition asStringSlice (v : gval) : slice string :=
  match v with
  | VStrs l => Some l
  | VNilStrs => Some []
  | VList l => Some (filter (λ s, s ≠ "") ((λ x, trim_space (as_string x)) <$> l))
  | _ => None
  end.
(** [orchestratorgo/httpapi/capability_runtime.go:532-538] argvFromInput. *)
Definition argvFromInput (v : gval) : res (list string) :=
  match items (asStringSlice v) with [] => refuse "argv is required" | argv => Ok argv end.

Section Capability.
Context {W : Type} `{Machine W}.
(** The orders in which Go ranges over a map, what [os.Stat] and [os.Lstat] say of a path that
    is not there, the roots, and the services. *)
Context (range : gmap_any → list (string * gval)) (stat_error lstat_error : string → string).
Context (AllowedLocalRoots : list string) (service : string → gmap_any → Run W (res CapabilityResult)).

(** [orchestratorgo/httpapi/capability_runtime.go:540-557] mapStringString. *)
Definition mapStringString (v : gval) : gmap string string :=
  foldl (λ out '(key, item),
    if trim_space key =?s "" then out else <[trim_space key := trim_space (as_string item)]> out)
    ∅ (range (default ∅ (only_map v))).
(** [orchestratorgo/httpapi/capability_runtime.go:57-68] allowedEnvPairs, of trimmed keys. *)
Definition allowedEnvPairs (env : gmap string string) : list string :=
  merge_sort String.le ((λ '(key, value), key +:+ "=" +:+ value) <$> map_to_list env).

(** ** Paths *)

(** [orchestratorgo/httpapi/handlers.go:2031-2056] resolveAllowedLocalPath: the path, and from the
    first root it is below. *)
Fixpoint first_root (candidate : string) (roots : list string) : Run W (res (string * string)) :=
  match roots with
  | [] => mret (refuse "path is outside allowed local roots")
  | root :: roots =>
      let root := trim_space root in
      if root =?s "" then first_root candidate roots
      else
        absRoot ← Abs root;
        match absRoot with
        | Err _ => first_root candidate roots
        | Ok absRoot =>
            let rel := Rel absRoot candidate in
            if (rel =?s ".") || negb (rel =?s "..") && negb (has_prefix "../" rel)
            then mret (Ok (candidate, rel))
            else first_root candidate roots
        end
  end.
Definition resolveAllowedLocalPath (rawPath : string) : Run W (res (string * string)) :=
  candidate ← Abs (trim_space rawPath);
  match candidate with
  | Err e => mret (Err e)
  | Ok candidate => first_root candidate AllowedLocalRoots
  end.

(** ** Files *)

(** [orchestratorgo/httpapi/handlers.go:1086-1190] executeFilesystemCapability: the operation is
    the one the input names, or else the capability's; reading, *)
Definition filesystem_operation (capabilityName : string) (input : gmap_any) : string :=
  let value := to_lower (text_at input "operation") in
  if value =?s "" then trim_space (trim_prefix "filesystem." capabilityName) else value.
Definition at_path (rel : string) : gmap_any := {["path" := VStr rel]}.
Definition filesystem_read (resolved rel : string) : Run W (res CapabilityResult) :=
  raw ← call (ReadFile resolved);
  mret match raw with
       | Err e => Err e
       | Ok text =>
           let text := truncateForAPI text 4000 in
           Ok (succeeded ("Read " +:+ rel) (<["content" := VStr text]> (at_path rel))
                 [MkCapArtifact "filesystem_read" "Filesystem read result" "text/plain" text (at_path rel)])
       end.
(** listing a directory, *)
Definition list_directory (resolved rel pattern : string) : Run W (res CapabilityResult) :=
  files ← call Snapshot;
  mret match files resolved with
       | None => refuse (lstat_error resolved)
       | Some t =>
           match WalkDir (Some t) (visit_match resolved resolved pattern) (Ok []) with
           | Err e => Err e
           | Ok l =>
               let payload := <["items" := VStrs (merge_sort String.le l)]> (at_path rel) in
               Ok (succeeded ("Listed " +:+ pretty (Z.of_nat (length l)) +:+ " file(s) under " +:+ rel) payload
                     [MkCapArtifact "filesystem_list" "Filesystem list result" "application/json"
                        (truncateForAPI (mustJSON (VMap payload)) 4000)
                        (<["pattern" := VStr pattern]> (at_path rel))])
           end
       end.
Definition filesystem_list (resolved rel pattern : string) : Run W (res CapabilityResult) :=
  info ← call (Stat resolved);
  match info with
  | Err e => mret (Err e)
  | Ok false => mret (refuse "list operation requires a directory path")
  | Ok true => list_directory resolved rel pattern
  end.
(** writing, *)
Definition filesystem_write (resolved rel content : string) : Run W (res CapabilityResult) :=
  made ← call (MkdirAll (path_dir resolved));
  match made with
  | Some e => mret (refuse e)
  | None =>
      written ← call (WriteFile resolved content);
      mret match written with
           | Some e => refuse e
           | None =>
               Ok (succeeded ("Wrote " +:+ rel) (at_path rel)
                     [MkCapArtifact "filesystem_write" "Filesystem write result" "text/plain"
                        (truncateForAPI content 4000) (at_path rel)])
           end
  end.
(** and the whole. *)
Definition executeFilesystemCapability (capabilityName : string) (input : gmap_any) :
    Run W (res CapabilityResult) :=
  let operation := filesystem_operation capabilityName input in
  let rawPath := text_at input "path" in
  if (operation =?s "") || (rawPath =?s "") then mret (refuse "operation and path are required")
  else
    resolved ← resolveAllowedLocalPath rawPath;
    match resolved with
    | Err e => mret (Err e)
    | Ok (path, rel) =>
        if operation =?s "read" then filesystem_read path rel
        else if operation =?s "list" then
          filesystem_list path rel (first_nonblank [text_at input "pattern"; "*"])
        else if operation =?s "write" then filesystem_write path rel (as_string (mget input "content"))
        else mret (refuse "unsupported filesystem operation")
    end.

(** [orchestratorgo/httpapi/handlers.go:1049-1084] executeCodeAnalyzeCapability: the report, *)
Definition code_report (path rel language : string) (analysisTypes : slice string) :
    Run W (res CapabilityResult) :=
  files ← call Snapshot;
  mret match Analyze (H := {| disk := files |}) range stat_error path (items analysisTypes) with
       | Err e => Err e
       | Ok result =>
           let text := compact (struct_jval
             [("findings", findings_json result); ("language", json_str language);
              ("path", json_str rel); ("summary", summary_json result)]) in
           Ok (succeeded ("Analyzed " +:+ rel +:+ " with " +:+ pretty (TotalFindings result) +:+ " finding(s)")
                 {["findings" := findings_value result; "summary" := summary_value result;
                   "path" := VStr rel; "language" := VStr language]}
                 [MkCapArtifact "code_analysis_report" "Code analysis report" "application/json"
                    (truncateForAPI text 4000) (<["analysis_types" := strs_value analysisTypes]> (at_path rel))])
       end.
Definition with_type (analysisTypes : slice string) (value : string) : slice string :=
  if value =?s "" then analysisTypes else Some (items analysisTypes ++ [value]).
(** and the whole. *)
Definition executeCodeAnalyzeCapability (input : gmap_any) : Run W (res CapabilityResult) :=
  let filePath := text_at input "file_path" in
  if filePath =?s "" then mret (refuse "file_path is required")
  else
    resolved ← resolveAllowedLocalPath filePath;
    match resolved with
    | Err e => mret (Err e)
    | Ok (path, rel) =>
        code_report path rel (text_at input "language")
          (with_type (asStringSlice (mget input "analysis_types")) (text_at input "analysis_type"))
    end.

(** ** The endpoints of files and of analysis, up to the record of what they did *)

(** [orchestratorgo/httpapi/handlers.go:1409-1546] filesystemTool: its body, *)
Record FilesystemBody := MkFilesystem {
  fb_operation : string;
  fb_path : string;
  fb_content : string;
  fb_pattern : string;
}.
Definition gateway_error (r : res CapabilityResult) : Reply CapabilityResult :=
  match r with Ok result => Json 200 result | Err e => Detail 502 (error_text e) end.
(** the listing of a directory, *)
Definition list_reply (path rel pattern : string) : Run W (Reply CapabilityResult) :=
  info ← call (Stat path);
  match info with
  | Err e => mret (Detail 502 (error_text e))
  | Ok false => mret (Detail 400 "list operation requires a directory path")
  | Ok true => result ← list_directory path rel pattern; mret (gateway_error result)
  end.
(** and the reply. *)
Definition filesystemTool (body : option FilesystemBody) : Run W (Reply CapabilityResult) :=
  match body with
  | None => mret (Detail 400 "invalid JSON body")
  | Some body =>
      let operation := to_lower (trim_space (fb_operation body)) in
      let rawPath := trim_space (fb_path body) in
      if (operation =?s "") || (rawPath =?s "") then mret (Detail 400 "operation and path are required")
      else
        resolved ← resolveAllowedLocalPath rawPath;
        match resolved with
        | Err e => mret (Detail 400 (error_text e))
        | Ok (path, rel) =>
            if operation =?s "read" then
              result ← filesystem_read path rel; mret (gateway_error result)
            else if operation =?s "list" then
              list_reply path rel (first_nonblank [trim_space (fb_pattern body); "*"])
            else if operation =?s "write" then
              result ← filesystem_write path rel (fb_content body); mret (gateway_error result)
            else mret (Detail 400 "unsupported filesystem operation")
        end
  end.
(** [orchestratorgo/httpapi/handlers.go:1342-1407] codeAnalyze: its body and its reply. *)
Record AnalyzeBody := MkAnalyze {
  ab_file : string;
  ab_type : string;
  ab_types : list string;
  ab_language : string;
}.
Definition codeAnalyze (body : option AnalyzeBody) : Run W (Reply CapabilityResult) :=
  match body with
  | None => mret (Detail 400 "invalid JSON body")
  | Some body =>
      let filePath := trim_space (ab_file body) in
      if filePath =?s "" then mret (Detail 400 "file_path is required")
      else
        resolved ← resolveAllowedLocalPath filePath;
        match resolved with
        | Err e => mret (Detail 400 (error_text e))
        | Ok (path, rel) =>
            result ← code_report path rel (trim_space (ab_language body))
                       (with_type (Some (ab_types body)) (trim_space (ab_type body)));
            mret (gateway_error result)
        end
  end.

(** ** Commands *)

(** [orchestratorgo/httpapi/capability_runtime.go:24-55] executeCommand, by the server itself. *)
Definition executeCommand (argv : list string) (workdir : string) (env : gmap string string) (timeout : Z) :
    Run W ExecResult :=
  match argv with
  | [] => mret (MkExecResult "" "" 0 (Some "argv is required"))
  | _ => call (ExecWith workdir argv (allowedEnvPairs env) (if timeout <=? 0 then 30 * second else timeout))
  end.
(** [orchestratorgo/httpapi/capability_runtime.go:118-145] executeShellExecCapability: what became
    of a command, here and of the others below. *)
Definition command_output (rel : string) (argv : list string) (outcome : ExecResult) : gmap_any :=
  {["path" := VStr rel; "argv" := VStrs argv; "stdout" := VStr (ex_stdout outcome);
    "stderr" := VStr (ex_stderr outcome); "exit_code" := VInt (ex_exit_code outcome)]}.
Definition command_result (rel : string) (argv : list string) (outcome : ExecResult)
    (done failed type title : string) : CapabilityResult :=
  let output := command_output rel argv outcome in
  let artifact := MkCapArtifact type title "application/json" (truncateForAPI (mustJSON (VMap output)) 4000)
                    (at_path rel) in
  match ex_error outcome with
  | None => MkCapResult "success" done output [] [artifact] ""
  | Some e =>
      MkCapResult "error" failed output [] [artifact]
        (first_nonblank [trim_space (ex_stderr outcome); trim_space e])
  end.
(** [orchestratorgo/httpapi/capability_runtime.go:103-146] executeShellExecCapability. *)
Definition executeShellExecCapability (input : gmap_any) : Run W (res CapabilityResult) :=
  match argvFromInput (mget input "argv") with
  | Err e => mret (Err e)
  | Ok argv =>
      let workdirValue := first_nonblank [text_at input "working_directory"; text_at input "path"] in
      if workdirValue =?s "" then mret (refuse "working_directory is required")
      else
        resolved ← resolveAllowedLocalPath workdirValue;
        match resolved with
        | Err e => mret (Err e)
        | Ok (path, rel) =>
            let timeout := wrap64 (objectiveAsInt (mget input "timeout_seconds") 30 * second) in
            outcome ← executeCommand argv path (mapStringString (mget input "environment")) timeout;
            mret (Ok (command_result rel argv outcome
                        ("Executed " +:+ sjoin " " argv +:+ " in " +:+ rel) ("Command failed in " +:+ rel)
                        "shell_exec" "Shell execution result"))
        end
  end.
(** [orchestratorgo/httpapi/capability_runtime.go:148-204] executeGitCapability: the command, *)
Definition git_argv (capabilityName : string) (input : gmap_any) : option (list string) :=
  let name := trim_space capabilityName in
  if name =?s "git.status" then Some git_status_all
  else if name =?s "git.diff" then Some git_diff
  else if name =?s "git.log" then
    Some ["git"; "log"; "--oneline"; "-n"; pretty (objectiveAsInt (mget input "limit") 10)]
  else if name =?s "git.branch" then
    let branch := text_at input "name" in
    Some (if branch =?s "" then ["git"; "branch"; "--list"] else ["git"; "branch"; branch])
  else None.
(** and what became of it. *)
Definition executeGitCapability (capabilityName : string) (input : gmap_any) : Run W (res CapabilityResult) :=
  let repoPath := first_nonblank [text_at input "repository_path"; text_at input "path"] in
  if repoPath =?s "" then mret (refuse "repository_path is required")
  else
    resolved ← resolveAllowedLocalPath repoPath;
    match resolved with
    | Err e => mret (Err e)
    | Ok (path, rel) =>
        match git_argv capabilityName input with
        | None => mret (refuse ("unsupported git capability " +:+ capabilityName))
        | Some argv =>
            outcome ← executeCommand argv path ∅ (20 * second);
            mret (Ok (command_result rel argv outcome
                        ("Executed " +:+ capabilityName +:+ " on " +:+ rel)
                        (capabilityName +:+ " failed on " +:+ rel)
                        ("git_" +:+ replace_char "." "_" (trim_prefix "git." capabilityName))
                        "Git capability result"))
        end
    end.
(** [orchestratorgo/httpapi/capability_runtime.go:326-332] allowedWorkdir. *)
Definition allowedWorkdir (input : gmap_any) : Run W (res (string * string)) :=
  let workdirValue := first_nonblank [text_at input "working_directory"; text_at input "path"] in
  if workdirValue =?s "" then mret (refuse "working_directory is required")
  else resolveAllowedLocalPath workdirValue.
(** [orchestratorgo/httpapi/capability_runtime.go:309-324] dockerComposeContext. *)
Definition dockerComposeContext (input : gmap_any) : Run W (res (string * string * string)) :=
  let composeFile := text_at input "compose_file" in
  if composeFile =?s "" then mret (refuse "compose_file is required")
  else
    resolved ← resolveAllowedLocalPath composeFile;
    match resolved with
    | Err e => mret (Err e)
    | Ok (path, _) =>
        workdir ← resolveAllowedLocalPath (path_dir path);
        mret match workdir with
             | Err e => Err e
             | Ok (_, rel) => Ok (path, path_dir path, rel)
             end
    end.
(** [orchestratorgo/httpapi/capability_runtime.go:277-307] runDockerCommand. *)
Definition runDockerCommand (argv : list string) (workdir rel : string) : Run W (res CapabilityResult) :=
  outcome ← executeCommand argv workdir ∅ (60 * second);
  mret (Ok (command_result rel argv outcome ("Executed docker command in " +:+ rel)
              ("Docker command failed in " +:+ rel) "docker_command" "Docker capability result")).
(** [orchestratorgo/httpapi/capability_runtime.go:206-275] executeDockerCapability: in a directory,
    with the file of a composition, *)
Definition docker_compose (input : gmap_any) (rest : list string) : Run W (res CapabilityResult) :=
  context ← dockerComposeContext input;
  match context with
  | Err e => mret (Err e)
  | Ok (composeFile, workdir, rel) =>
      runDockerCommand (["docker"; "compose"; "-f"; composeFile] ++ rest) workdir rel
  end.
Definition in_workdir (input : gmap_any) (k : string → string → Run W (res CapabilityResult)) :
    Run W (res CapabilityResult) :=
  context ← allowedWorkdir input;
  match context with Err e => mret (Err e) | Ok (workdir, rel) => k workdir rel end.
(** and all. *)
Definition executeDockerCapability (capabilityName : string) (input : gmap_any) :
    Run W (res CapabilityResult) :=
  let name := trim_space capabilityName in
  if name =?s "docker.compose_up" then docker_compose input ["up"; "-d"]
  else if name =?s "docker.compose_down" then docker_compose input ["down"]
  else if name =?s "docker.logs" then
    in_workdir input (λ workdir rel,
      let service := text_at input "service" in
      if service =?s "" then mret (refuse "service is required")
      else runDockerCommand ["docker"; "logs"; service] workdir rel)
  else if name =?s "docker.ps" then
    in_workdir input (runDockerCommand
      ["docker"; "ps"; "--format"; "{{.ID}} {{.Image}} {{.Status}} {{.Names}}"])
  else if name =?s "docker.build" then
    in_workdir input (λ workdir rel,
      let dockerfile := text_at input "dockerfile" in
      if dockerfile =?s "" then runDockerCommand ["docker"; "build"; workdir] workdir rel
      else
        resolved ← resolveAllowedLocalPath dockerfile;
        match resolved with
        | Err e => mret (Err e)
        | Ok (path, _) => runDockerCommand ["docker"; "build"; "-f"; path; workdir] workdir rel
        end)
  else if name =?s "docker.run" then
    in_workdir input (λ workdir rel,
      let image := text_at input "image" in
      if image =?s "" then mret (refuse "image is required")
      else
        let args := match argvFromInput (mget input "argv") with Ok args => args | Err _ => [] end in
        runDockerCommand (["docker"; "run"; "--rm"; image] ++ args) workdir rel)
  else mret (refuse ("unsupported docker capability " +:+ capabilityName)).

(** ** All of them *)

(** [orchestratorgo/httpapi/capability_runtime.go:70-101] ExecuteInternalCapability. *)
Definition service_capabilities : list string :=
  ["web.search"; "web.fetch"; "document.read"; "image.analyze"; "research.query"; "http.check";
   "browser.verify"; "github.read"; "jira.read"; "slack.read"; "slack.notify"].
Definition docker_capabilities : list string :=
  ["docker.compose_up"; "docker.compose_down"; "docker.logs"; "docker.ps"; "docker.build"; "docker.run"].
Definition ExecuteInternalCapability (capability : string) (input : gmap_any) : Run W (res CapabilityResult) :=
  let name := trim_space capability in
  let named l := bool_decide (name ∈ l) in
  if named service_capabilities then service capability input
  else if name =?s "code.analysis" then executeCodeAnalyzeCapability input
  else if named ["filesystem.read"; "filesystem.list"; "filesystem.write"] then
    executeFilesystemCapability capability input
  else if name =?s "shell.exec" then executeShellExecCapability input
  else if named ["git.status"; "git.diff"; "git.log"; "git.branch"] then executeGitCapability capability input
  else if named docker_capabilities then executeDockerCapability capability input
  else mret (refuse ("unsupported capability " +:+ capability)).
End Capability.
