(* ===== verification/CapabilitySpec.v ===== *)
(** * What running a capability does ([httpapi/capability_runtime.go])

    The theorems about [Capability]: which files it may write and which commands it may
    run, whatever the machine answers. *)
From S2P Require Import Prelude GoVal Effects Objective Http Workspace Runner Machine RunnerSpec.
From S2P Require Import Executor ExecutorSpec Capability.

(** A cleaned path at or below one of the roots, relative ones from the working directory. *)
Definition below_root (roots : list string) (p : string) : Prop :=
  ∃ root dir, root ∈ roots ∧ names_directory (trim_space root) dir ∧ at_or_below dir p.
Definition writing (capability : string) (input : gmap_any) : Prop :=
  trim_space capability ∈ ["filesystem.read"; "filesystem.list"; "filesystem.write"] ∧
  filesystem_operation capability input = "write".
(** The command a capability runs. *)
Definition runs_command (capability : string) (input : gmap_any) (argv : list string) : Prop :=
  let name := trim_space capability in
  name = "shell.exec" ∧ argvFromInput (mget input "argv") = Ok argv ∨
  git_argv capability input = Some argv ∨
  name ∈ docker_capabilities ∧ head argv = Some "docker".
Definition may_use (roots : list string) (capability : string) (input : gmap_any) {A} (c : os_call A) : Prop :=
  match c with
  | MkdirAll p => writing capability input ∧ ∃ file, below_root roots file ∧ p = path_dir file
  | WriteFile p text =>
      writing capability input ∧ below_root roots p ∧ text = as_string (mget input "content")
  | ExecWith dir argv _ timeout =>
      (below_root roots dir ∨ ∃ file, below_root roots file ∧ dir = path_dir file) ∧
      runs_command capability input argv ∧ 0 < timeout
  | OpenAppend _ | WriteString _ _ | Command _ _ _ | Exec _ _ _ | Query _ | Post _ _ _ => False
  | Getwd | Now | Stat _ | ReadFile _ | Probe _ | Snapshot => True
  end.

Section Confinement.
Context {W : Type} `{Machine W} (range : gmap_any → list (string * gval)) (stat_error lstat_error : string → string).
Context (roots : list string) (service : string → gmap_any → Run W (res CapabilityResult)).
Context (R : relation W) `{!PreOrder R} (capability : string) (input : gmap_any).
Hypothesis getwd_rooted : ∀ w wd, (call_on _ Getwd w).1 = Ok wd → is_rooted wd = true.
Hypothesis calls : ∀ A (c : os_call A) w, may_use roots capability input c → R w (call_on A c w).2.

Ltac keep := keep_with calls.
Lemma Abs_stays path : keeps R (Abs path).
Proof. unfold Abs. keep. Qed.
#[local] Hint Resolve Abs_stays : keeps.
Lemma first_root_stays candidate l : keeps R (first_root candidate l).
Proof. induction l as [|root l IH]; cbn [first_root]; cbv zeta; keep. Qed.
#[local] Hint Resolve first_root_stays : keeps.
Lemma resolve_stays raw : keeps R (resolveAllowedLocalPath roots raw).
Proof. unfold resolveAllowedLocalPath. keep. Qed.
#[local] Hint Resolve resolve_stays : keeps.

(** A path that resolves is below one of the roots. *)
Lemma rel_below root p :
  is_rooted p = true → path_clean p = p →
  (Rel root p =?s ".") || negb (Rel root p =?s "..") && negb (has_prefix "../" (Rel root p)) = true →
  at_or_below root p.
Proof.
  intros Hr Hc Hrel. split_and!; [done..|].
  destruct (rel_parts_spec (path_parts root) (path_parts p)) as [|[l Hl]]; [done|]. exfalso.
  revert Hrel. unfold Rel. rewrite Hl. destruct l as [|x l]; [done|].
  change (sjoin "/" (".." :: x :: l)) with ("../" +:+ sjoin "/" (x :: l)). by destruct (sjoin "/" (x :: l)).
Qed.
Lemma first_root_below candidate l w p rel w' :
  is_rooted candidate = true → path_clean candidate = candidate →
  first_root candidate l w = (Ok (p, rel), w') → below_root l p.
Proof.
  intros Hr Hc. revert w. induction l as [|root l IH]; intros w; [done|]. cbn [first_root]. cbv zeta.
  assert (Hlater : ∀ w, first_root candidate l w = (Ok (p, rel), w') → below_root (root :: l) p).
  { intros w1 (r & d & Hin & Hd)%IH. exists r, d. split; [by right|done]. }
  destruct (trim_space root =?s ""); [apply Hlater|]. unfold mbind, run_bind.
  destruct (Abs (trim_space root) w) as [[dir|e] w1] eqn:Habs; [|apply Hlater].
  apply (Abs_run getwd_rooted) in Habs as (Hname & _ & _).
  destruct (_ || _) eqn:Hrel; [|apply Hlater]. intros E. apply (f_equal fst) in E. cbn in E. injection E as <- _.
  exists root, dir. split_and!; [by left|done|]. by apply rel_below.
Qed.
Lemma resolve_below_root raw w p rel w' :
  resolveAllowedLocalPath roots raw w = (Ok (p, rel), w') → below_root roots p.
Proof.
  unfold resolveAllowedLocalPath, mbind, run_bind. destruct (Abs _ w) as [[candidate|e] w1] eqn:Habs; [|done].
  apply (Abs_run getwd_rooted) in Habs as (_ & Hr & Hc). by apply first_root_below.
Qed.

Lemma list_stays p rel pattern : keeps R (list_directory lstat_error p rel pattern).
Proof. unfold list_directory. keep. Qed.
Lemma report_stays p rel language types : keeps R (code_report range stat_error p rel language types).
Proof. unfold code_report. keep. Qed.
#[local] Hint Resolve list_stays report_stays : keeps.
Lemma filesystem_stays :
  trim_space capability ∈ ["filesystem.read"; "filesystem.list"; "filesystem.write"] →
  keeps R (executeFilesystemCapability lstat_error roots capability input).
Proof.
  intros Hname. unfold executeFilesystemCapability. cbv zeta. destruct (_ || _); [keep|].
  apply keeps_bind; [exact _|apply resolve_stays|]. intros w [[p rel]|e] w' Hres; [|keep].
  apply resolve_below_root in Hres. unfold filesystem_read, filesystem_list, filesystem_write.
  destruct (_ =?s "read"); [keep|]. destruct (_ =?s "list"); [keep|].
  destruct (String.eqb_spec (filesystem_operation capability input) "write"); [|keep].
  keep; split; try done; by exists p.
Qed.
Lemma analyze_stays : keeps R (executeCodeAnalyzeCapability range stat_error roots input).
Proof. unfold executeCodeAnalyzeCapability. keep. Qed.
Lemma command_stays argv dir env timeout :
  below_root roots dir ∨ (∃ file, below_root roots file ∧ dir = path_dir file) →
  runs_command capability input argv → keeps R (executeCommand argv dir env timeout).
Proof.
  intros Hdir Hargv. unfold executeCommand. destruct argv as [|a argv]; [keep|]. keep.
  split_and!; [done..|]. destruct (Z.leb_spec timeout 0); unfold second; lia.
Qed.
Lemma shell_stays :
  trim_space capability = "shell.exec" → keeps R (executeShellExecCapability range roots input).
Proof.
  intros Hname. unfold executeShellExecCapability. destruct (argvFromInput _) as [argv|e] eqn:Hargv; [|keep].
  cbv zeta. destruct (_ =?s ""); [keep|]. apply keeps_bind; [exact _|apply resolve_stays|].
  intros w [[p rel]|e] w' Hres; [|keep]. apply resolve_below_root in Hres.
  apply keeps_bind; [exact _| |intros; keep]. apply command_stays; [by left|]. by left.
Qed.
Lemma git_stays : keeps R (executeGitCapability roots capability input).
Proof.
  unfold executeGitCapability. cbv zeta. destruct (_ =?s ""); [keep|].
  apply keeps_bind; [exact _|apply resolve_stays|]. intros w [[p rel]|e] w' Hres; [|keep].
  apply resolve_below_root in Hres. destruct (git_argv _ _) as [argv|] eqn:Hargv; [|keep].
  apply keeps_bind; [exact _| |intros; keep]. apply command_stays; [by left|]. by right; left.
Qed.

Hypothesis docker : trim_space capability ∈ docker_capabilities.
Lemma docker_command_stays argv dir rel :
  below_root roots dir ∨ (∃ file, below_root roots file ∧ dir = path_dir file) →
  head argv = Some "docker" → keeps R (runDockerCommand argv dir rel).
Proof.
  intros Hdir Hargv. unfold runDockerCommand. apply keeps_bind; [exact _| |intros; keep].
  apply command_stays; [done|]. by right; right.
Qed.
Lemma compose_stays rest : keeps R (docker_compose roots input rest).
Proof.
  unfold docker_compose. apply keeps_bind; [exact _|unfold dockerComposeContext; keep|].
  intros w [[[file dir] rel]|e] w' Hctx; [|keep]. apply docker_command_stays; [|done]. right. exists file.
  revert Hctx. unfold dockerComposeContext. cbv zeta. destruct (_ =?s ""); [done|].
  unfold mbind at 1, run_bind at 1. destruct (resolveAllowedLocalPath roots _ w) as [[[p r]|e] w1] eqn:Hres; [|done].
  apply resolve_below_root in Hres. unfold mbind, run_bind.
  destruct (resolveAllowedLocalPath roots _ w1) as [[[? ?]|e] w2]; [|done].
  intros E. apply (f_equal fst) in E. cbn in E. by injection E as <- <- _.
Qed.
Lemma workdir_stays k :
  (∀ dir rel, below_root roots dir → keeps R (k dir rel)) → keeps R (in_workdir roots input k).
Proof.
  intros Hk. unfold in_workdir, allowedWorkdir. cbv zeta. destruct (_ =?s "").
  { apply keeps_bind; [exact _|keep|]. intros ? ? ? E. apply (f_equal fst) in E. cbn in E. subst.
    unfold refuse. apply keeps_ret, _. }
  apply keeps_bind; [exact _|apply resolve_stays|]. intros w [[p rel]|e] w' Hres; [|keep].
  apply Hk. by apply resolve_below_root in Hres.
Qed.
Lemma docker_stays : keeps R (executeDockerCapability roots capability input).
Proof.
  pose proof (λ argv dir rel Hd, docker_command_stays argv dir rel (or_introl Hd)) as Hrun.
  unfold executeDockerCapability. cbv zeta.
  repeat (destruct (_ =?s _); [first [apply compose_stays
    | apply workdir_stays; intros dir rel Hdir; repeat case_match; keep; by apply Hrun]|]). keep.
Qed.
End Confinement.

(** C33: what running a capability may do to the machine of the server, whatever the machine
    answers.  Files are written by an operation that is a write, at paths whose cleaned
    form lies in an allowed root, with the content of the input; commands run in an allowed
    directory, or that of an allowed file, under a positive limit of time: the command of
    the input for the shell, one of git's four, or docker's.  So a relation that these
    calls respect, and the services too, is respected by the whole run.  (The operation is
    the one the input names, whatever the capability: see [read_capability_writes].) *)
Theorem capability_confined {W : Type} `{Machine W} range stat_error lstat_error roots service
    (R : relation W) `{!PreOrder R} capability input :
  (∀ w wd, (call_on _ Getwd w).1 = Ok wd → is_rooted wd = true) →
  keeps R (service capability input) →
  (∀ A (c : os_call A) w, may_use roots capability input c → R w (call_on A c w).2) →
  keeps R (ExecuteInternalCapability range stat_error lstat_error roots service capability input).
Proof.
  intros Hwd Hservice Hcalls. unfold ExecuteInternalCapability. cbv zeta.
  case_bool_decide; [done|].
  destruct (String.eqb_spec (trim_space capability) "code.analysis"); [by eapply analyze_stays|].
  case_bool_decide; [by eapply filesystem_stays|].
  destruct (String.eqb_spec (trim_space capability) "shell.exec"); [by eapply shell_stays|].
  case_bool_decide; [by eapply git_stays|]. case_bool_decide; [by eapply docker_stays|].
  apply keeps_ret, _.
Qed.

(** On a machine with files, a capability leaves the texts that are in no root. *)
Definition spared_outside (roots : list string) (fs fs' : Files) : Prop :=
  ∀ q c, (∀ root, root ∈ roots → ¬ path_parts root `prefix_of` path_parts q) →
    fs !! q = Some (Text c) ↔ fs' !! q = Some (Text c).
#[export] Instance spared_outside_preorder roots : PreOrder (spared_outside roots).
Proof.
  split; [by intros fs q c _|]. intros fs1 fs2 fs3 H12 H23 q c Hq. by rewrite (H12 q c Hq), (H23 q c Hq).
Qed.
Lemma file_machine_spared_outside wd clock run roots capability input A (c : os_call A) fs :
  let machine := file_machine wd clock run in
  Forall (λ root, trim_space root = root ∧ is_rooted root = true ∧ path_clean root = root) roots →
  may_use roots capability input c → spared_outside roots fs (machine A c fs).2.
Proof.
  intros machine Hroots Hmay.
  destruct c as [| | | | |p text|p|p text| | | | | | |]; try done; cbn [machine file_machine snd].
  - intros q c' _. by rewrite make_folders_text.
  - destruct Hmay as (_ & (root & dir & Hroot & Hname & _ & Hclean & Hp) & _). intros q c Hq.
    rewrite Forall_forall in Hroots. destruct (Hroots root Hroot) as (Ht & Hr & Hc).
    unfold names_directory in Hname. rewrite Ht, Hr, Hc in Hname. subst dir.
    unfold write_text. rewrite Hclean. destruct (is_folder fs p); [done|]. destruct (negb _); [done|].
    cbn [snd]. rewrite lookup_insert_ne; [done|]. intros ->. by apply (Hq root).
Qed.
(** The capability that reads, asked to write. *)
Definition write_input : gmap_any :=
  {["operation" := VStr "Write"; "path" := VStr "/srv/ai-lab/x/../b.txt"; "content" := VStr "x"]}.
Definition run_demo (capability : string) (input : gmap_any) : Run Files (res CapabilityResult) :=
  ExecuteInternalCapability (H := demo_machine) map_to_list id id ["/srv/ai-lab"; "/tmp"]
    (λ _ _, mret (refuse "no service")) capability input.
Lemma capability_confined_witness :
  keeps (spared_outside ["/srv/ai-lab"; "/tmp"]) (run_demo "filesystem.read" write_input) ∧
  (run_demo "filesystem.read" write_input ∅).2 !! "/srv/ai-lab/b.txt" = Some (Text "x").
Proof.
  split; [|vm_compute; reflexivity].
  apply (capability_confined (H := demo_machine) map_to_list id id _ _ (spared_outside ["/srv/ai-lab"; "/tmp"])).
  - intros w wd E. injection E as <-. reflexivity.
  - apply keeps_ret, _.
  - intros A c w. apply file_machine_spared_outside. repeat constructor.
Defined.
Example read_capability_writes :
  filesystem_operation "filesystem.read" write_input = "write" ∧
  (run_demo "filesystem.read" write_input ∅).2 !! "/srv/ai-lab/b.txt" = Some (Text "x") ∧
  (run_demo "filesystem.read" {["path" := VStr "/etc/passwd"]} ∅).1
    = Err (ErrText "path is outside allowed local roots").
Proof. split_and!; vm_compute; reflexivity. Qed.
