(* ===== verification/Daemon.v ===== *)
(** * The agent on a user's machine ([bridge/daemon.go], [objective_runner.go], [envfile.go])

    It registers, says it is alive, claims tasks one at a time, executes each and reports
    what became of it; or it runs one objective to its end.  The server, the clock and the
    executor are parameters. *)
From S2P Require Import Prelude GoVal Effects Domain Objective Evidence BridgeApi Machine RepairScope Executor.

(** ** Calls *)

(** What is waited for: the end of the context, what was started, or a time. *)
Inductive awaited := Cancelled (message : string) | Ready | TimeUp.
(** What the runner reads of an initiative and of the approvals. *)
Record InitiativeDetail := MkDetail {
  id_id : string;
  id_status : InitiativeStatus;
  id_snapshot : option ObjectiveStatusSnapshot;
}.
(** A call of the client, by the type of its answer; [None] is the nil error.  A response
    without an initiative is [Ok None]. *)
Inductive client_call : Type → Type :=
  | ContextErr : client_call (option string)
  | ClockNow : client_call Z
  | Await (time : Z) : client_call awaited
  | Register (body : LocalBridgeRegisterRequest) : client_call (option string)
  | Heartbeat (bridgeID : string) (body : LocalBridgeHeartbeatRequest) : client_call (option string)
  | ClaimNext (bridgeID : string) : client_call (res (option LocalBridgeTaskClaimResponse))
  | SubmitResult (bridgeID taskID : string) (body : LocalBridgeResult) : client_call (option string)
  | CreateObjective (title objective workspaceRoot createdBy : string) (budget : Z) :
      client_call (res (option string))
  | GetInitiative (id : string) : client_call (res (option InitiativeDetail))
  | GetInitiativeArtifacts (id : string) : client_call (res (list ArtifactResponse))
  | WaitingTasks (initiativeID : string) : client_call (res (list string))
  | ListBridges : client_call (res (list LocalBridgeResponse))
  | ListApprovals : client_call (res (list ApprovalResponse))
  | ResolveApproval (id operator : string) (approve : bool) : client_call (option string).
Class Client (W : Type) := client_on : ∀ A, client_call A → W → A * W.

(** ** Texts *)

(** [orchestratorgo/bridge/daemon.go:234-239] stringsTrim. *)
Definition stringsTrim (value fallback : string) : string :=
  if trim_space value =?s "" then fallback else trim_space value.
(** [orchestratorgo/bridge/daemon.go:186-192] currentClaimTool. *)
Definition currentClaimTool (claim : LocalBridgeTaskClaimResponse) : string :=
  text_at (nonNilMap (mget (claim_metadata claim) "tool_request")) "tool".
(** [orchestratorgo/bridge/daemon.go:194-202] currentClaimSummary. *)
Definition currentClaimSummary (claim : LocalBridgeTaskClaimResponse) : string :=
  let coder := text_at (claim_metadata claim) "coder_summary" in
  let review := text_at (claim_metadata claim) "review_summary" in
  if negb (coder =?s "") then coder
  else if negb (review =?s "") then review
  else trim_space (claim_description claim).
(** [orchestratorgo/bridge/daemon.go:204-224] bridgeCapabilities. *)
Definition bridgeCapabilities : gmap_any := {["tools" := VStrs
  ["read_file"; "filesystem.read"; "list_files"; "filesystem.list"; "write_file"; "filesystem.write";
   "research_project"; "scaffold_project"; "review_project"; "review_workspace"; "apply_patch";
   "run_command"; "git_status"; "git_diff"; "run_tests"]]}.

(** [orchestratorgo/bridge/daemon.go:29-45] Daemon: what does not change. *)
Record Daemon := MkDaemon {
  dm_bridge : string;
  dm_workspace : string;
  dm_name : string;
  dm_hostname : string;
  dm_poll : Z;
  dm_heartbeat : Z;
}.
(** [orchestratorgo/bridge/daemon.go:29-45] Daemon: the task it holds, and what is said of it. *)
Record Activity := MkActivity {
  act_task : option string;
  act_stage : option string;
  act_tool : option string;
  act_summary : option string;
}.
Definition idle : Activity := MkActivity None None None None.
(** [orchestratorgo/bridge/daemon.go:47-77] NewDaemon: from its options, once the root of the
    workspace is known; what it draws as an identifier and the name of the host are given. *)
Definition NewDaemon (bridgeID name hostname workspaceRoot drawn defaultHostname : string)
    (pollInterval heartbeatInterval : Z) : Daemon :=
  MkDaemon (stringsTrim bridgeID drawn) workspaceRoot (stringsTrim name "lab-agentd")
    (stringsTrim hostname defaultHostname)
    (if pollInterval <=? 0 then 2 * second else pollInterval)
    (if heartbeatInterval <=? 0 then 15 * second else heartbeatInterval).

(** [orchestratorgo/bridge/cli.go:158-164] normalizedBridgeID. *)
Definition normalizedBridgeID (value drawn : string) : string :=
  if stringsTrim value "" =?s "" then drawn else stringsTrim value "".

(** How a run ended: it still goes on, it returned, or [fuel] was not enough to tell.  An
    error is a text or what [fmt.Errorf] makes of a format without arguments. *)
Inductive failure := Message (text : string) | Formatted (format : string).
Inductive outcome := GoesOn | Returned (err : option failure) | Unfinished.
Definition failed (message : string) : outcome := Returned (Some (Message message)).

(** ** Snapshots *)

(** [orchestratorgo/bridge/objective_runner.go:245-262] objectiveStatusSnapshotRank. *)
Definition objectiveStatusSnapshotRank (s : ObjectiveStatusSnapshot) : Z :=
  if sn_kind s =?s WorkItemKindReview then 6
  else if sn_kind s =?s WorkItemKindValidate then 5
  else if sn_kind s =?s WorkItemKindEdit then 4
  else if sn_kind s =?s WorkItemKindAnalyze then 3
  else if sn_kind s =?s WorkItemKindReplan then 2
  else if sn_kind s =?s WorkItemKindResearch then 1 else 0.
(** [orchestratorgo/bridge/objective_runner.go:233-243] objectiveStatusSnapshotPrecedes: by
    iteration, then by the kind of work, then by time. *)
Definition objectiveStatusSnapshotPrecedes (current candidate : ObjectiveStatusSnapshot * Z) : bool :=
  let '(a, t) := current in
  let '(b, u) := candidate in
  if negb (sn_iteration b =? sn_iteration a) then sn_iteration a <? sn_iteration b
  else if negb (objectiveStatusSnapshotRank b =? objectiveStatusSnapshotRank a)
  then objectiveStatusSnapshotRank a <? objectiveStatusSnapshotRank b
  else t <? u.
Definition later (latest : option (ObjectiveStatusSnapshot * Z)) (candidate : ObjectiveStatusSnapshot * Z) :
    option (ObjectiveStatusSnapshot * Z) :=
  match latest with
  | None => Some candidate
  | Some current => if objectiveStatusSnapshotPrecedes current candidate then Some candidate else latest
  end.

Section Daemon.
Context {W : Type} `{Client W}.
(** How a snapshot is read from its JSON, and what executes a claim. *)
Context (decode : string → option ObjectiveStatusSnapshot).
Context (execute : LocalBridgeTaskClaimResponse → Run W (res LocalBridgeResult)).
Definition ask {A} (c : client_call A) : Run W A := client_on A c.

(** [orchestratorgo/bridge/objective_runner.go:209-231] loadLatestStatusSnapshot: of artifacts. *)
Definition snapshot_of (artifact : ArtifactResponse) : option (ObjectiveStatusSnapshot * Z) :=
  if artifact_type artifact =?s "objective_status_snapshot" then
    match artifact_content artifact with
    | Some text => (λ s, (s, artifact_created_at artifact)) <$> decode text
    | None => None
    end
  else None.
Definition latest_snapshot (artifacts : list ArtifactResponse) : option ObjectiveStatusSnapshot :=
  fst <$> foldl later None (omap snapshot_of artifacts).
Definition loadLatestStatusSnapshot (initiativeID : string) : Run W (res (option ObjectiveStatusSnapshot)) :=
  artifacts ← ask (GetInitiativeArtifacts initiativeID);
  mret match artifacts with Err e => Err e | Ok artifacts => Ok (latest_snapshot artifacts) end.

(** ** The daemon *)
Context (d : Daemon).

(** [orchestratorgo/bridge/daemon.go:114-125] register. *)
Definition register : Run W (option string) :=
  ask (Register (MkRegister (dm_bridge d) (dm_name d) (dm_hostname d) (dm_workspace d)
                   bridgeCapabilities None)).
(** [orchestratorgo/bridge/daemon.go:127-130] sendHeartbeat. *)
Definition lease_seconds : Z := wrap64 (Z.quot (dm_heartbeat d) second * 3).
Definition sendHeartbeat (a : Activity) : Run W (option string) :=
  ask (Heartbeat (dm_bridge d)
         (MkHeartbeat "active" (act_task a) (Some lease_seconds) (act_stage a) (act_tool a) (act_summary a))).

(** [orchestratorgo/bridge/daemon.go:132-184] executeClaim: while it is executed, a heartbeat now
    and then; [None] after [fuel] of them without an end.  What is executed works on files,
    which no call of the client sees: it comes first here. *)
Fixpoint await_outcome (fuel : nat) (a : Activity) : Run W (option (option string)) :=
  match fuel with
  | O => mret None
  | S fuel =>
      event ← ask (Await (dm_heartbeat d));
      match event with
      | Cancelled e => mret (Some (Some e))
      | Ready => mret (Some None)
      | TimeUp =>
          err ← sendHeartbeat a;
          match err with Some e => mret (Some (Some e)) | None => await_outcome fuel a end
      end
  end.
(** what is reported when it is refused, *)
Definition rejected_result (message : string) : LocalBridgeResult :=
  (bare "error" "Local execution rejected")
    <| br_stderr := Some message |> <| br_error := Some message |>.
Definition reported (outcome : res LocalBridgeResult) : LocalBridgeResult :=
  match outcome with Ok result => result | Err e => rejected_result (error_text e) end.
(** and the whole. *)
Definition working (claim : LocalBridgeTaskClaimResponse) : Activity :=
  MkActivity (Some (claim_task claim)) (stringPtr "executing") (stringPtr (currentClaimTool claim))
    (stringPtr (currentClaimSummary claim)).
Definition executeClaim (fuel : nat) (claim : LocalBridgeTaskClaimResponse) : Run W outcome :=
  result ← execute claim;
  waited ← await_outcome fuel (working claim);
  match waited with
  | None => mret Unfinished
  | Some (Some e) => mret (failed e)
  | Some None =>
      err ← ask (SubmitResult (dm_bridge d) (claim_task claim) (reported result));
      mret match err with
           | Some e => failed ("submit result for task " +:+ claim_task claim +:+ ": " +:+ e)
           | None => GoesOn
           end
  end.

(** [orchestratorgo/bridge/daemon.go:79-112] Run: a heartbeat when it is time, *)
Definition heartbeat_if_due (last : option Z) : Run W (option string * option Z) :=
  now ← ask ClockNow;
  if match last with None => true | Some t => dm_heartbeat d <=? now - t end then
    err ← sendHeartbeat idle;
    match err with
    | Some e => mret (Some e, last)
    | None => now ← ask ClockNow; mret (None, Some now)
    end
  else mret (None, last).
(** the next task, if there is one, *)
Definition rest : Run W outcome :=
  event ← ask (Await (dm_poll d));
  mret match event with Cancelled e => failed e | _ => GoesOn end.
Definition work (fuel : nat) : Run W outcome :=
  claim ← ask (ClaimNext (dm_bridge d));
  match claim with
  | Err e => mret (failed (error_text e))
  | Ok None => rest
  | Ok (Some claim) => executeClaim fuel claim
  end.
(** and so on, for [n] rounds at most. *)
Fixpoint daemon_rounds (n fuel : nat) (last : option Z) : Run W outcome :=
  match n with
  | O => mret GoesOn
  | S n =>
      cancelled ← ask ContextErr;
      match cancelled with
      | Some e => mret (failed e)
      | None =>
          beat ← heartbeat_if_due last;
          match beat with
          | (Some e, _) => mret (failed e)
          | (None, last) =>
              done ← work fuel;
              match done with GoesOn => daemon_rounds n fuel last | _ => mret done end
          end
      end
  end.
Definition DaemonRun (n fuel : nat) : Run W outcome :=
  err ← register;
  match err with Some e => mret (failed e) | None => daemon_rounds n fuel None end.

(** [orchestratorgo/bridge/cli.go:69-86] RunSmoke: what it prints; every mention of the bridge
    draws an identifier of its own when none is given. *)
Definition RunSmoke (bridgeID : string) (drawn : string * string * string) (name hostname root : string) :
    Run W (res (option LocalBridgeTaskClaimResponse)) :=
  let '(first, second, third) := drawn in
  err ← ask (Register (MkRegister (normalizedBridgeID bridgeID first) (first_nonblank [name; "lab-agentd"])
                         hostname root bridgeCapabilities None));
  match err with
  | Some e => mret (refuse e)
  | None =>
      err ← ask (Heartbeat (normalizedBridgeID bridgeID second) (MkHeartbeat "active" None None None None None));
      match err with
      | Some e => mret (refuse e)
      | None => ask (ClaimNext (normalizedBridgeID bridgeID third))
      end
  end.
(** [orchestratorgo/bridge/cli.go:51-67] RunStatus: what it prints, all bridges or one. *)
Definition RunStatus (bridgeID drawn : string) :
    Run W (res (list LocalBridgeResponse + LocalBridgeResponse)) :=
  items ← ask ListBridges;
  mret match items with
       | Err e => Err e
       | Ok items =>
           let target := normalizedBridgeID bridgeID drawn in
           if target =?s "" then Ok (inl items)
           else match filter (λ b, bridge_id b = target) items with
                | b :: _ => Ok (inr b)
                | [] => refuse ("bridge " +:+ target +:+ " not found")
                end
       end.

(** ** One objective *)

(** [orchestratorgo/bridge/objective_runner.go:13-18] ApprovalMode. *)
Definition ApprovalModeManual : string := "manual".
Definition ApprovalModeLocalOnly : string := "local_only".
(** [orchestratorgo/bridge/objective_runner.go:305-314] approvalModeOrDefault. *)
Definition approvalModeOrDefault (value : string) : string :=
  if trim_space value =?s ApprovalModeManual then ApprovalModeManual else ApprovalModeLocalOnly.
(** [orchestratorgo/bridge/objective_runner.go:202-207] durationSeconds. *)
Definition durationSeconds (value : Z) : Z := if value <=? 0 then 0 else value / second.
(** [orchestratorgo/bridge/objective_runner.go:264-303] resolveApprovals: those it resolves, one
    after the other, *)
Definition resolvable (waiting : list string) (a : ApprovalResponse) : bool :=
  (approval_status a =?s ApprovalPending) && (approval_action_type a =?s "local_bridge_tool")
  && existsb (String.eqb (approval_task a)) waiting.
Fixpoint approve_all (approvals : list ApprovalResponse) (resolved : Z) : Run W (Z * option string) :=
  match approvals with
  | [] => mret (resolved, None)
  | a :: approvals =>
      err ← ask (ResolveApproval (approval_id a) "lab-agent" true);
      match err with Some e => mret (resolved, Some e) | None => approve_all approvals (resolved + 1) end
  end.
(** and how many there were. *)
Definition resolveApprovals (mode initiativeID : string) : Run W (Z * option string) :=
  if negb (mode =?s ApprovalModeLocalOnly) then mret (0, None)
  else
    waiting ← ask (WaitingTasks initiativeID);
    match waiting with
    | Err e => mret (0, Some (error_text e))
    | Ok [] => mret (0, None)
    | Ok waiting =>
        approvals ← ask ListApprovals;
        match approvals with
        | Err e => mret (0, Some (error_text e))
        | Ok approvals => approve_all (filter (λ a, resolvable waiting a = true) approvals) 0
        end
    end.

(** [orchestratorgo/bridge/objective_runner.go:28-40] ObjectiveRunResult: without the objective as
    it was created and the times. *)
Record ObjectiveRunResult := MkRun {
  or_bridge : string;
  or_workspace : string;
  or_initiative : option InitiativeDetail;
  or_snapshot : option ObjectiveStatusSnapshot;
  or_processed : Z;
  or_resolved : Z;
  or_terminal : string;
  or_blocking : option string;
}.
#[local] Instance eta_objective_run : Eta ObjectiveRunResult := λ r,
  MkRun (or_bridge r) (or_workspace r) (or_initiative r) (or_snapshot r) (or_processed r)
    (or_resolved r) (or_terminal r) (or_blocking r).
(** [orchestratorgo/bridge/objective_runner.go:151-174] Run: what became of the initiative, *)
Definition ended_text (detail : InitiativeDetail) (snapshot : option ObjectiveStatusSnapshot) : string :=
  let blocker := default "" (sn_blocker_reason <$> snapshot) in
  if trim_space blocker =?s "" then
    "initiative " +:+ id_id detail +:+ " ended in " +:+ status_text (id_status detail)
  else blocker.
Definition latest_of (detail : InitiativeDetail) (initiativeID : string) (result : ObjectiveRunResult) :
    Run W ObjectiveRunResult :=
  match id_snapshot detail with
  | Some s => mret (result <| or_snapshot := Some s |>)
  | None =>
      loaded ← loadLatestStatusSnapshot initiativeID;
      mret match loaded with Ok snapshot => result <| or_snapshot := snapshot |> | Err _ => result end
  end.
Definition judge (detail : InitiativeDetail) (result : ObjectiveRunResult) : ObjectiveRunResult * outcome :=
  match id_status detail with
  | InitiativeStatusCompleted => (result, Returned None)
  | InitiativeStatusBlocked | InitiativeStatusCancelled =>
      let message := ended_text detail (or_snapshot result) in
      (result <| or_blocking := Some message |>, Returned (Some (Formatted message)))
  | _ => (result, GoesOn)
  end.
Definition look (initiativeID : string) (result : ObjectiveRunResult) :
    Run W (ObjectiveRunResult * outcome) :=
  detail ← ask (GetInitiative initiativeID);
  match detail with
  | Err e => mret (result, failed (error_text e))
  | Ok None => mret (result, failed ("initiative " +:+ initiativeID +:+ " not found"))
  | Ok (Some detail) =>
      result ← latest_of detail initiativeID (result <| or_initiative := Some detail |>);
      mret (judge detail result)
  end.
(** [orchestratorgo/bridge/objective_runner.go:176-198] Run: the approvals and the next task, *)
Definition process (fuel : nat) (result : ObjectiveRunResult) : Run W (ObjectiveRunResult * outcome) :=
  claim ← ask (ClaimNext (dm_bridge d));
  match claim with
  | Err e => mret (result, failed (error_text e))
  | Ok (Some claim) =>
      done ← executeClaim fuel claim;
      mret match done with
           | GoesOn => (result <| or_processed := or_processed result + 1 |>, GoesOn)
           | _ => (result, done)
           end
  | Ok None => done ← rest; mret (result, done)
  end.
Definition proceed (fuel : nat) (mode initiativeID : string) (result : ObjectiveRunResult) :
    Run W (ObjectiveRunResult * outcome) :=
  resolved ← resolveApprovals mode initiativeID;
  match resolved with
  | (_, Some e) => mret (result, failed e)
  | (n, None) => process fuel (result <| or_resolved := or_resolved result + n |>)
  end.
(** [orchestratorgo/bridge/objective_runner.go:147-199] Run: the rounds, [n] at most; those who wait
    too long find the context at its end. *)
Fixpoint objective_rounds (n fuel : nat) (mode initiativeID : string) (result : ObjectiveRunResult) :
    Run W (ObjectiveRunResult * outcome) :=
  match n with
  | O => mret (result, GoesOn)
  | S n =>
      cancelled ← ask ContextErr;
      match cancelled with
      | Some e => mret (result, failed e)
      | None =>
          '(result, seen) ← look initiativeID result;
          match seen with
          | GoesOn =>
              '(result, done) ← proceed fuel mode (default "" (id_id <$> or_initiative result)) result;
              match done with
              | GoesOn => objective_rounds n fuel mode initiativeID result
              | _ => mret (result, done)
              end
          | _ => mret (result, seen)
          end
      end
  end.
(** [orchestratorgo/bridge/objective_runner.go:20-26] ObjectiveRunRequest. *)
Record ObjectiveRunRequest := MkRunRequest {
  orr_title : string;
  orr_objective : string;
  orr_created_by : string;
  orr_budget : Z;
}.
(** [orchestratorgo/bridge/objective_runner.go:96-145] Run: the workspace is the daemon's. *)
Definition nothing_done : ObjectiveRunResult := MkRun "" "" None None 0 0 "" None.
Definition RunnerRun (n fuel : nat) (mode : string) (req : ObjectiveRunRequest) :
    Run W (ObjectiveRunResult * outcome) :=
  let objective := trim_space (orr_objective req) in
  if objective =?s "" then mret (nothing_done, failed "objective is required")
  else
    let result := MkRun (dm_bridge d) (dm_workspace d) None None 0 0 "" None in
    err ← register;
    match err with
    | Some e => mret (result, failed e)
    | None =>
        created ← ask (CreateObjective (trim_space (orr_title req)) objective (dm_workspace d)
                         (first_nonblank [trim_space (orr_created_by req); "lab-agent"]) (orr_budget req));
        match created with
        | Err e => mret (result, failed (error_text e))
        | Ok None => mret (result, failed "objective response did not include initiative")
        | Ok (Some initiativeID) => objective_rounds n fuel mode initiativeID result
        end
    end.
(** [orchestratorgo/bridge/objective_runner.go:55-94] RunObjective: the runner is made, [d] is its
    daemon; what is printed, and the error. *)
Definition RunObjective (n fuel : nat) (title objective createdBy mode : string) (budget : Z) :
    Run W (ObjectiveRunResult * outcome) :=
  '(result, done) ← RunnerRun n fuel (approvalModeOrDefault mode)
    (MkRunRequest (trim_space title) (trim_space objective)
       (first_nonblank [trim_space createdBy; "lab-agent"]) (durationSeconds budget));
  mret (match or_initiative result with
        | Some detail => result <| or_terminal := status_text (id_status detail) |>
        | None => result
        end, done).
End Daemon.
(** [orchestratorgo/bridge/objective_runner.go:316-321] durationOrDefault. *)
Definition durationOrDefault (value fallback : Z) : Z := if value <=? 0 then fallback else value.
(** [orchestratorgo/bridge/objective_runner.go:67-78] RunObjective: its daemon. *)
Definition runner_daemon (bridgeID name hostname workspaceRoot drawn defaultHostname : string)
    (pollInterval heartbeatInterval : Z) : Daemon :=
  MkDaemon (normalizedBridgeID bridgeID drawn) workspaceRoot (first_nonblank [name; "lab-agent"])
    (first_nonblank [hostname; defaultHostname])
    (durationOrDefault pollInterval (2 * second)) (durationOrDefault heartbeatInterval (15 * second)).
