(* ===== verification/DaemonSpec.v ===== *)
(** * What the agent on a user's machine says ([bridge/daemon.go], [objective_runner.go])

    The theorems about [Daemon].  The client is made to write down its calls; the order in
    which they may come is a relation between stages, and every run follows it, whatever the
    server answers. *)
From S2P Require Import Prelude GoVal Effects Domain Objective Evidence BridgeApi Machine RepairScope Executor Daemon.

(** ** What is written down *)
Inductive event :=
  | Beat (bridgeID : string) (body : LocalBridgeHeartbeatRequest)
  | Claimed (bridgeID : string) (claim : LocalBridgeTaskClaimResponse)
  | Started (claim : LocalBridgeTaskClaimResponse) (outcome : res LocalBridgeResult)
  | Submitted (bridgeID taskID : string) (body : LocalBridgeResult)
  | Waiting (initiativeID : string) (tasks : list string)
  | Listed (approvals : list ApprovalResponse)
  | Resolved (id operator : string) (approve : bool).

Definition event_of {A} (c : client_call A) : A → list event :=
  match c in client_call A return A → list event with
  | Heartbeat b body => λ _, [Beat b body]
  | ClaimNext b => λ a, match a with Ok (Some claim) => [Claimed b claim] | _ => [] end
  | SubmitResult b t body => λ _, [Submitted b t body]
  | WaitingTasks i => λ a, match a with Ok tasks => [Waiting i tasks] | Err _ => [] end
  | ListApprovals => λ a, match a with Ok approvals => [Listed approvals] | Err _ => [] end
  | ResolveApproval i o approve => λ _, [Resolved i o approve]
  | _ => λ _, []
  end.
Definition recorded {W} `{Client W} : Client (W * list event) := λ A c '(w, l),
  let '(a, w) := client_on A c w in (a, (w, l ++ event_of c a)).
Definition recorded_execute {W} (execute : LocalBridgeTaskClaimResponse → Run W (res LocalBridgeResult)) :
    LocalBridgeTaskClaimResponse → Run (W * list event) (res LocalBridgeResult) := λ claim '(w, l),
  let '(outcome, w) := execute claim w in (outcome, (w, l ++ [Started claim outcome])).

(** ** In which order *)

(** At rest, with what it knows of waiting tasks and of approvals; with a claimed task; with
    one whose execution has started. *)
Inductive stage :=
  | Resting (waiting : list string) (listed : list ApprovalResponse)
  | Holding (claim : LocalBridgeTaskClaimResponse)
  | Executing (claim : LocalBridgeTaskClaimResponse) (outcome : res LocalBridgeResult).
Definition resting (s : stage) : Prop := ∃ waiting listed, s = Resting waiting listed.
Definition alive (d : Daemon) (a : Activity) : event :=
  Beat (dm_bridge d)
    (MkHeartbeat "active" (act_task a) (Some (lease_seconds d)) (act_stage a) (act_tool a) (act_summary a)).

Inductive allowed (d : Daemon) (mode : string) : stage → event → stage → Prop :=
  | allowed_idle w l : allowed d mode (Resting w l) (alive d idle) (Resting w l)
  | allowed_claim w l c : allowed d mode (Resting w l) (Claimed (dm_bridge d) c) (Holding c)
  | allowed_start c r : allowed d mode (Holding c) (Started c r) (Executing c r)
  | allowed_busy c r : allowed d mode (Executing c r) (alive d (working c)) (Executing c r)
  | allowed_submit c r :
      allowed d mode (Executing c r) (Submitted (dm_bridge d) (claim_task c) (reported r)) (Resting [] [])
  | allowed_waiting w l i w' : allowed d mode (Resting w l) (Waiting i w') (Resting w' [])
  | allowed_listed w l l' : allowed d mode (Resting w l) (Listed l') (Resting w l')
  | allowed_resolve w l a :
      mode = ApprovalModeLocalOnly → a ∈ l → approval_status a = ApprovalPending →
      approval_action_type a = "local_bridge_tool" → approval_task a ∈ w →
      allowed d mode (Resting w l) (Resolved (approval_id a) "lab-agent" true) (Resting w l).
(** From rest to where a record of events leads. *)
Inductive path (d : Daemon) (mode : string) : list event → stage → Prop :=
  | path_start : path d mode [] (Resting [] [])
  | path_snoc l s e s' : path d mode l s → allowed d mode s e s' → path d mode (l ++ [e]) s'.

Section Protocol.
Context {W : Type} `{Client W}.
Context (execute : LocalBridgeTaskClaimResponse → Run W (res LocalBridgeResult)).
Context (decode : string → option ObjectiveStatusSnapshot).
Context (d : Daemon) (mode : string).
#[local] Existing Instance recorded | 0.
Let Logged := (W * list event)%type.

(** From the stage [s] on, [m] says what is allowed and ends as [Q] says. *)
Definition speaks {A} (s : stage) (m : Run Logged A) (Q : A → stage → Prop) : Prop :=
  ∀ w l, path d mode l s → ∃ s', path d mode (m (w, l)).2.2 s' ∧ Q (m (w, l)).1 s'.

Lemma speaks_ret {A} s (a : A) (Q : A → stage → Prop) : Q a s → speaks s (mret a) Q.
Proof. intros HQ w l Hl. by exists s. Qed.
Lemma speaks_bind {A B} s (m : Run Logged A) (f : A → Run Logged B) Q R :
  speaks s m Q → (∀ a s', Q a s' → speaks s' (f a) R) → speaks s (m ≫= f) R.
Proof.
  intros Hm Hf w l Hl. unfold mbind, run_bind. destruct (Hm w l Hl) as (s' & Hs' & HQ).
  destruct (m (w, l)) as [a [w' l']]. by apply (Hf a s' HQ).
Qed.
(** A call that is not written down, and one that is. *)
Lemma speaks_silent {A} s (c : client_call A) (Q : A → stage → Prop) :
  (∀ a, event_of c a = []) → (∀ a, Q a s) → speaks s (ask c) Q.
Proof.
  intros Hc HQ w l Hl. unfold ask, client_on at 1 2, recorded. destruct (client_on A c w) as [a w'].
  rewrite Hc, app_nil_r. by exists s.
Qed.
Lemma speaks_call {A} s (c : client_call A) (Q : A → stage → Prop) :
  (∀ a, (event_of c a = [] ∧ Q a s)
        ∨ ∃ e s', event_of c a = [e] ∧ allowed d mode s e s' ∧ Q a s') →
  speaks s (ask c) Q.
Proof.
  intros Hc w l Hl. unfold ask, client_on at 1 2, recorded. destruct (client_on A c w) as [a w'].
  destruct (Hc a) as [[-> HQ]|(e & s' & -> & He & HQ)].
  - rewrite app_nil_r. by exists s.
  - exists s'. split; [|done]. by eapply path_snoc.
Qed.
Lemma speaks_execute claim :
  speaks (Holding claim) (recorded_execute execute claim) (λ r s, s = Executing claim r).
Proof.
  intros w l Hl. unfold recorded_execute. destruct (execute claim w) as [r w'].
  exists (Executing claim r). split; [|done]. by eapply path_snoc; [|constructor].
Qed.

(** Where a run that goes on stands, and what one that ends with an error may leave. *)
Definition at_rest (done : outcome) (s : stage) : Prop :=
  match done with GoesOn => resting s | Returned None => False | _ => True end.
Definition fails_or (P : stage → Prop) {B} (r : res B) (s : stage) : Prop :=
  match r with Ok _ => P s | Err _ => True end.

Lemma speaks_await fuel claim outcome :
  speaks (Executing claim outcome) (await_outcome d fuel (working claim))
    (λ _ s, s = Executing claim outcome).
Proof.
  induction fuel as [|fuel IH]; [by apply speaks_ret|]. cbn [await_outcome].
  eapply speaks_bind; [by apply (speaks_silent _ _ (λ _ s, s = Executing claim outcome))|].
  intros [e| |] s ->; [by apply speaks_ret..|].
  eapply speaks_bind.
  - apply (speaks_call _ _ (λ _ s, s = Executing claim outcome)). intros a. right.
    do 2 eexists. split_and!; [done|apply (allowed_busy d mode)|done].
  - intros [e|] s ->; [by apply speaks_ret|done].
Qed.
Lemma speaks_claim fuel claim :
  speaks (Holding claim) (executeClaim (recorded_execute execute) d fuel claim) at_rest.
Proof.
  eapply speaks_bind; [apply speaks_execute|]. intros r s ->.
  eapply speaks_bind; [apply speaks_await|]. intros [[e|]|] s ->; [by apply speaks_ret| |by apply speaks_ret].
  eapply speaks_bind.
  - apply (speaks_call _ _ (λ _ s, s = Resting [] [])). intros a. right.
    do 2 eexists. split_and!; [done|apply allowed_submit|done].
  - intros [e|] s ->; apply speaks_ret; cbn; [done|by do 2 eexists].
Qed.
Lemma speaks_rest s : resting s → speaks s (rest d) at_rest.
Proof.
  intros Hs. eapply speaks_bind; [by apply (speaks_silent _ _ (λ _ s', s' = s))|].
  intros [e| |] s' ->; by apply speaks_ret.
Qed.
(** The claim of the next task, then what is done with it. *)
Lemma speaks_next {A} s (f : res (option LocalBridgeTaskClaimResponse) → Run Logged A) Q :
  resting s → (∀ e, speaks s (f (Err e)) Q) → speaks s (f (Ok None)) Q →
  (∀ claim, speaks (Holding claim) (f (Ok (Some claim))) Q) →
  speaks s (ask (ClaimNext (dm_bridge d)) ≫= f) Q.
Proof.
  intros (w & l & ->) Herr Hnone Hsome. eapply speaks_bind.
  - apply (speaks_call _ _ (λ a s', match a with Ok (Some c) => s' = Holding c | _ => s' = Resting w l end)).
    intros [[c|]|e]; [right|by left..]. do 2 eexists. split_and!; [done|constructor|done].
  - intros [[c|]|e] s' ->; [apply Hsome|apply Hnone|apply Herr].
Qed.
Lemma speaks_work fuel s : resting s → speaks s (work (recorded_execute execute) d fuel) at_rest.
Proof.
  intros Hs. apply speaks_next; [done| | |].
  - intros e. by apply speaks_ret.
  - by apply speaks_rest.
  - intros claim. apply speaks_claim.
Qed.
Lemma speaks_register s : speaks s (register d) (λ _ s', s' = s).
Proof. by apply speaks_silent. Qed.
Lemma speaks_heartbeat s last : resting s → speaks s (heartbeat_if_due d last) (λ _, resting).
Proof.
  intros (w & l & ->). eapply speaks_bind; [by apply (speaks_silent _ _ (λ _ s', s' = Resting w l))|].
  intros now s ->. destruct (match last with None => _ | Some _ => _ end).
  - eapply speaks_bind.
    + apply (speaks_call _ _ (λ _ s', s' = Resting w l)). intros a. right.
      do 2 eexists. split_and!; [done|apply (allowed_idle d mode)|done].
    + intros [e|] s ->; [apply speaks_ret; by do 2 eexists|].
      eapply speaks_bind; [by apply (speaks_silent _ _ (λ _ s', s' = Resting w l))|].
      intros t s ->. apply speaks_ret. by do 2 eexists.
  - apply speaks_ret. by do 2 eexists.
Qed.
Lemma speaks_daemon_rounds n fuel s last :
  resting s → speaks s (daemon_rounds (recorded_execute execute) d n fuel last) at_rest.
Proof.
  revert s last. induction n as [|n IH]; intros s last Hs; [by apply speaks_ret|]. cbn [daemon_rounds].
  eapply speaks_bind; [by apply (speaks_silent _ _ (λ _ s', s' = s))|].
  intros [e|] s' ->; [by apply speaks_ret|].
  eapply speaks_bind; [by apply speaks_heartbeat|]. intros [[e|] t] s' Hs'; [by apply speaks_ret|].
  eapply speaks_bind; [by apply speaks_work|].
  intros [|[e|]|] s'' Hdone; [by apply IH|by apply speaks_ret|done|by apply speaks_ret].
Qed.

(** Approvals. *)
Lemma speaks_approve_all (waiting : list string) (listed approvals : list ApprovalResponse) n :
  mode = ApprovalModeLocalOnly →
  approvals ⊆ filter (λ a, resolvable waiting a = true) listed →
  speaks (Resting waiting listed) (approve_all approvals n) (λ _, resting).
Proof.
  intros Hmode. revert n. induction approvals as [|a approvals IH]; intros n Hin.
  - apply speaks_ret. by do 2 eexists.
  - assert (a ∈ filter (λ a, resolvable waiting a = true) listed) as Ha by (apply Hin; left).
    apply list_elem_of_filter in Ha as [Ha Hl]. unfold resolvable in Ha.
    rewrite !andb_true_iff, !String.eqb_eq, existsb_exists in Ha.
    destruct Ha as [[Hstatus Htype] (task & Htask & Heq)].
    apply String.eqb_eq in Heq as <-. apply list_elem_of_In in Htask.
    cbn [approve_all]. eapply speaks_bind.
    + apply (speaks_call _ _ (λ _ s, s = Resting waiting listed)). intros r. right.
      do 2 eexists. split_and!; [done|by apply allowed_resolve|done].
    + intros [e|] s ->; [apply speaks_ret; by do 2 eexists|]. apply IH. set_solver.
Qed.
Lemma speaks_approvals initiativeID s :
  resting s → speaks s (resolveApprovals mode initiativeID) (λ _, resting).
Proof.
  intros (w & l & ->). unfold resolveApprovals.
  destruct (String.eqb_spec mode ApprovalModeLocalOnly) as [Hmode|]; cbn [negb];
    [|apply speaks_ret; by do 2 eexists].
  eapply speaks_bind.
  - apply (speaks_call _ _ (λ r s, match r with Ok tasks => s = Resting tasks [] | Err _ => resting s end)).
    intros [tasks|e]; [right|left; split; [done|by do 2 eexists]].
    do 2 eexists. split_and!; [done|constructor|done].
  - intros [[|t tasks]|e] s Hs; [subst; apply speaks_ret; by do 2 eexists| |by apply speaks_ret]. subst s.
    eapply speaks_bind.
    + apply (speaks_call _ _ (λ r s, match r with
        | Ok l => s = Resting (t :: tasks) l | Err _ => resting s end)).
      intros [l'|e]; [right|left; split; [done|by do 2 eexists]].
      do 2 eexists. split_and!; [done|constructor|done].
    + intros [l'|e] s Hs; [|by apply speaks_ret]. subst s. by apply speaks_approve_all.
Qed.

(** One objective: a run that returned no error knows the initiative as completed. *)
Definition settled (r : ObjectiveRunResult * outcome) (s : stage) : Prop :=
  match r.2 with
  | GoesOn => resting s
  | Returned None =>
      resting s ∧ ∃ detail, or_initiative r.1 = Some detail ∧ id_status detail = InitiativeStatusCompleted
  | _ => True
  end.
Lemma at_rest_settled result done s : at_rest done s → settled (result, done) s.
Proof. by destruct done as [|[e|]|]. Qed.
Lemma speaks_look initiativeID result s : resting s → speaks s (look decode initiativeID result) settled.
Proof.
  intros Hs. eapply speaks_bind; [by apply (speaks_silent _ _ (λ _ s', s' = s))|].
  intros [[detail|]|e] s' ->; [|by apply speaks_ret..].
  eapply (speaks_bind _ _ _ (λ r s', s' = s ∧ or_initiative r = Some detail)).
  - unfold latest_of. destruct (id_snapshot detail); [by apply speaks_ret|].
    eapply (speaks_bind _ _ _ (λ _ s', s' = s)).
    + eapply speaks_bind; [by apply (speaks_silent _ _ (λ _ s', s' = s))|]. intros r s' ->. by apply speaks_ret.
    + intros [snap|e] s' ->; by apply speaks_ret.
  - intros r s' [-> Hr]. apply speaks_ret. unfold judge, settled.
    destruct (id_status detail) eqn:Hstatus; cbn; eauto.
Qed.
Lemma speaks_process fuel result s :
  resting s → speaks s (process (recorded_execute execute) d fuel result) settled.
Proof.
  intros Hs. apply speaks_next; [done| | |].
  - intros e. by apply speaks_ret.
  - eapply speaks_bind; [by apply speaks_rest|]. intros done s' Hdone. by apply speaks_ret, at_rest_settled.
  - intros claim. eapply speaks_bind; [apply speaks_claim|]. intros done s' Hdone. apply speaks_ret.
    by destruct done as [|[e|]|].
Qed.
Lemma speaks_objective_rounds n fuel initiativeID result s :
  resting s → speaks s (objective_rounds decode (recorded_execute execute) d n fuel mode initiativeID result) settled.
Proof.
  revert result s. induction n as [|n IH]; intros result s Hs; [by apply speaks_ret|]. cbn [objective_rounds].
  eapply speaks_bind; [by apply (speaks_silent _ _ (λ _ s', s' = s))|].
  intros [e|] s' ->; [by apply speaks_ret|].
  eapply speaks_bind; [by apply speaks_look|]. intros [seen done] s' Hseen.
  destruct done as [|e|]; [|by apply speaks_ret..].
  eapply (speaks_bind _ _ _ settled).
  - eapply speaks_bind; [by apply speaks_approvals|].
    intros [k [e|]] s'' Hs''; [by apply speaks_ret|by apply speaks_process].
  - intros [result' done] s'' Hdone. destruct done as [|e|]; [by apply IH|by apply speaks_ret..].
Qed.
End Protocol.

(** ** The latest snapshot *)
Lemma precedes_trans current best x :
  objectiveStatusSnapshotPrecedes current best = true → objectiveStatusSnapshotPrecedes current x = false →
  objectiveStatusSnapshotPrecedes best x = false.
Proof.
  destruct current as [a t], best as [b u], x as [c v]. unfold objectiveStatusSnapshotPrecedes.
  generalize (objectiveStatusSnapshotRank a) (objectiveStatusSnapshotRank b) (objectiveStatusSnapshotRank c).
  intros ra rb rc. split_tests; bool_to_prop; lia.
Qed.
Lemma precedes_irrefl x : objectiveStatusSnapshotPrecedes x x = false.
Proof. destruct x as [a t]. unfold objectiveStatusSnapshotPrecedes. rewrite !Z.eqb_refl. cbn. apply Z.ltb_irrefl. Qed.
Lemma foldl_later l best :
  ∃ b, foldl later (Some best) l = Some b ∧ b ∈ best :: l
       ∧ ∀ x, x ∈ best :: l → objectiveStatusSnapshotPrecedes b x = false.
Proof.
  revert best. induction l as [|c l IH]; intros best.
  - exists best. split_and!; [done|left|]. intros x ->%list_elem_of_singleton. apply precedes_irrefl.
  - cbn [foldl later]. destruct (objectiveStatusSnapshotPrecedes best c) eqn:Hbc.
    + destruct (IH c) as (b & Hb & Hin & Hmax). exists b. split_and!; [done|by right|].
      intros x [->|Hx]%elem_of_cons; [|by apply Hmax].
      destruct (objectiveStatusSnapshotPrecedes b best) eqn:Hbb; [|done].
      assert (objectiveStatusSnapshotPrecedes b c = false) as Hc by (apply Hmax; left).
      pose proof (precedes_trans _ _ _ Hbb Hc). congruence.
    + destruct (IH best) as (b & Hb & Hin & Hmax). exists b. split_and!; [done|set_solver|].
      intros x [->|[->|Hx]%elem_of_cons]%elem_of_cons; [apply Hmax; left| |by apply Hmax; right].
      destruct (objectiveStatusSnapshotPrecedes b c) eqn:Hc; [|done].
      assert (objectiveStatusSnapshotPrecedes b best = false) as Hb' by (apply Hmax; left).
      revert Hbc Hc Hb'. destruct best as [x t], b as [y u], c as [z v]. unfold objectiveStatusSnapshotPrecedes.
      generalize (objectiveStatusSnapshotRank x) (objectiveStatusSnapshotRank y) (objectiveStatusSnapshotRank z).
      intros rx ry rz. split_tests; bool_to_prop; lia.
Qed.
(** The snapshot shown is one of those that could be read, and none of them is later. *)
Lemma latest_snapshot_spec decode artifacts :
  match latest_snapshot decode artifacts with
  | None => omap (snapshot_of decode) artifacts = []
  | Some s =>
      ∃ t, (s, t) ∈ omap (snapshot_of decode) artifacts ∧
           ∀ x, x ∈ omap (snapshot_of decode) artifacts → objectiveStatusSnapshotPrecedes (s, t) x = false
  end.
Proof.
  unfold latest_snapshot. destruct (omap (snapshot_of decode) artifacts) as [|x l]; [done|].
  cbn [foldl later]. destruct (foldl_later l x) as ([s t] & -> & Hin & Hmax). cbn. by exists t.
Qed.

(** ** The command line *)

(** Without an identifier, the status of no bridge is found unless its identifier is drawn. *)
Lemma status_draws {W} `{Client W} (drawn : string) (w : W) items :
  drawn ≠ "" → (ask ListBridges w).1 = Ok items → (∀ b, b ∈ items → bridge_id b ≠ drawn) →
  (RunStatus "" drawn w).1 = refuse ("bridge " +:+ drawn +:+ " not found").
Proof.
  intros Hdrawn Hitems Hnone. unfold RunStatus, mbind, run_bind, mret, run_ret.
  destruct (ask ListBridges w) as [r w']. cbn in Hitems |- *. subst r. unfold normalizedBridgeID. cbn.
  destruct (String.eqb_spec drawn ""); [done|].
  destruct (filter (λ b, bridge_id b = drawn) items) as [|b l] eqn:E; [done|].
  assert (b ∈ filter (λ b, bridge_id b = drawn) items) as Hb by (rewrite E; left).
  apply list_elem_of_filter in Hb as [Hb Hin]. by destruct (Hnone b Hin).
Qed.

(** ** The protocol *)

(** C22: Whatever the server answers and however long it runs, the agent says only what the stage
    it is in allows: one task is held at a time, from its claim on it is executed once and its
    heartbeats name it, then its result (or the refusal) is submitted under its identifier
    before anything else is claimed; approvals are resolved only in the mode [local_only], of
    tasks the server lists as waiting.  It holds no task when it goes on; the daemon never stops
    without an error, and a run of an objective only once the initiative is completed. *)
Theorem agent_protocol {W} `{Client W} execute decode (d : Daemon) (n fuel : nat) (w : W) :
  (∀ mode,
     let '(done, (_, l)) := @DaemonRun _ recorded (recorded_execute execute) d n fuel (w, []) in
     ∃ s, path d mode l s ∧ at_rest done s) ∧
  (∀ title objective createdBy mode budget,
     let '(run, (_, l)) :=
       @RunObjective _ recorded decode (recorded_execute execute) d n fuel title objective createdBy mode budget
         (w, []) in
     ∃ s, path d (approvalModeOrDefault mode) l s ∧ settled run s).
Proof.
  assert (resting (Resting [] [])) as Hrest by (by do 2 eexists).
  split; intros.
  - enough (speaks d mode (Resting [] []) (@DaemonRun _ recorded (recorded_execute execute) d n fuel) at_rest) as Hs.
    { specialize (Hs w [] (path_start _ _)). by destruct (@DaemonRun _ _ _ _ _ _ _) as [? [? ?]]. }
    eapply speaks_bind; [apply speaks_register|].
    intros [e|] s ->; [by apply speaks_ret|by apply speaks_daemon_rounds].
  - set (m := approvalModeOrDefault mode).
    enough (speaks d m (Resting [] [])
              (@RunObjective _ recorded decode (recorded_execute execute) d n fuel title objective createdBy mode budget)
              settled) as Hs.
    { specialize (Hs w [] (path_start _ _)). by destruct (@RunObjective _ _ _ _ _ _ _ _ _ _ _ _ _) as [? [? ?]]. }
    eapply (speaks_bind _ _ _ _ _ settled).
    + unfold RunnerRun. case_match; [by apply speaks_ret|]. eapply speaks_bind; [apply speaks_register|].
      intros [e|] s ->; [by apply speaks_ret|].
      eapply speaks_bind; [by apply (speaks_silent _ _ _ _ (λ _ s', s' = Resting [] []))|].
      intros [[i|]|e] s ->; [|by apply speaks_ret..]. by apply speaks_objective_rounds.
    + intros [result done] s Hdone. apply speaks_ret. destruct result as [? ? [detail|] ? ? ? ? ?]; exact Hdone.
Qed.

(** ** A server that answers

    One task to claim, after which the initiative is completed; two approvals wait. *)
Definition demo_claim : LocalBridgeTaskClaimResponse :=
  MkClaim "t1" None None " read it " "coder" "local" "/w" "/w"
    {["tool_request" := VMap {["tool" := VStr "read_file"]}]} "" "".
Definition demo_approval (id task : string) : ApprovalResponse :=
  MkApproval id task "local_bridge_tool" "" ApprovalPending None 0 0 0 None 0.
Definition demo_server : Client nat := λ A c n,
  match c in client_call A return A * nat with
  | ContextErr => (None, n)
  | ClockNow => (0, n)
  | Await _ => (Ready, n)
  | Register _ => (None, n)
  | Heartbeat _ _ => (None, n)
  | ClaimNext _ => (match n with O => Ok (Some demo_claim) | S O => Ok None | _ => Err (ErrText "gone") end, S n)
  | SubmitResult _ _ _ => (None, n)
  | CreateObjective _ _ _ _ _ => (Ok (Some "i1"), n)
  | GetInitiative i =>
      (Ok (Some (MkDetail i (if (0 <? n)%nat then InitiativeStatusCompleted else InitiativeStatusExecuting) None)), n)
  | GetInitiativeArtifacts _ => (Ok [], n)
  | WaitingTasks _ => (Ok ["t1"], n)
  | ListBridges => (Ok [], n)
  | ListApprovals => (Ok [demo_approval "a1" "t2"; demo_approval "a2" "t1"], n)
  | ResolveApproval _ _ _ => (None, n)
  end.
Definition demo_daemon : Daemon := NewDaemon " b1 " "" "" "/w" "drawn" "host" 0 0.
Definition demo_refusal : LocalBridgeTaskClaimResponse → Run nat (res LocalBridgeResult) :=
  λ _, mret (Err (ErrText "not permitted")).
Example daemon_demo :
  @DaemonRun _ (@recorded _ demo_server) (recorded_execute demo_refusal) demo_daemon 9 9 (O, [])
  = (failed "gone", (3%nat,
      [Beat "b1" (MkHeartbeat "active" None (Some 45) None None None);
       Claimed "b1" demo_claim; Started demo_claim (Err (ErrText "not permitted"));
       Submitted "b1" "t1" (rejected_result "not permitted")])).
Proof. vm_compute. reflexivity. Qed.
Example objective_demo :
  let '((result, done), (_, log)) :=
    @RunObjective _ (@recorded _ demo_server) (λ _, None) (recorded_execute demo_refusal) demo_daemon 9 9
      "" " fix it " "" "" 0 (O, []) in
  done = Returned None ∧ or_processed result = 1 ∧ or_resolved result = 1 ∧ or_terminal result = "completed"
  ∧ log = [Waiting "i1" ["t1"]; Listed [demo_approval "a1" "t2"; demo_approval "a2" "t1"];
           Resolved "a2" "lab-agent" true; Claimed "b1" demo_claim;
           Started demo_claim (Err (ErrText "not permitted"));
           Submitted "b1" "t1" (rejected_result "not permitted")].
Proof. vm_compute. done. Qed.
