(* ===== verification/EnvFile.v ===== *)
(** * The environment file of the agent ([bridge/envfile.go])

    The path is taken from the arguments; each line of the file assigns one variable of the
    process. *)
From S2P Require Import Prelude GoVal Effects.

(** [orchestratorgo/bridge/envfile.go:10-29] ExtractEnvFileArg: the path and the other arguments. *)
Fixpoint extract_env_file (args : list string) (envFile : string) (filtered : list string) :
    res (string * list string) :=
  match args with
  | [] => Ok (envFile, filtered)
  | a :: args =>
      let arg := trim_space a in
      if arg =?s "--env-file" then
        match args with
        | [] => Err (ErrText "--env-file requires a path")
        | path :: args => extract_env_file args (trim_space path) filtered
        end
      else if has_prefix "--env-file=" arg
      then extract_env_file args (trim_space (trim_prefix "--env-file=" arg)) filtered
      else extract_env_file args envFile (filtered ++ [a])
  end.
Definition ExtractEnvFileArg (args : list string) : res (string * list string) :=
  extract_env_file args "" [].

(** [os.Setenv] *)
Abbreviation Environ := (gmap string string).
Definition has_byte (n : nat) (s : string) : bool := contains (String (ascii_of_nat n) "") s.
Definition Setenv (key value : string) (env : Environ) : Environ * option string :=
  if (key =?s "") || contains "=" key || has_byte 0 key || has_byte 0 value
  then (env, Some "setenv: invalid argument")
  else (<[key := value]> env, None).

(** [orchestratorgo/bridge/envfile.go:46-64] LoadEnvFile: quotes around a value are taken off, *)
Definition quoted_by (q value : string) : bool := has_prefix q value && has_suffix q value.
Definition unquote (value : string) : string :=
  if (2 <=? slen value) && (quoted_by dquote value || quoted_by "'" value)
  then stake (String.length value - 2) (sdrop 1 value)
  else value.
(** what a line assigns, if anything, *)
Definition assignment (number : Z) (text : string) : res (option (string * string)) :=
  let line := trim_space text in
  if (line =?s "") || has_prefix "#" line then Ok None
  else
    let line := if has_prefix "export " line then trim_space (trim_prefix "export " line) else line in
    match cut "=" line with
    | None => Err (ErrText ("invalid env assignment at line " +:+ pretty number))
    | Some (key, value) =>
        let key := trim_space key in
        if key =?s "" then Err (ErrText ("empty env key at line " +:+ pretty number))
        else Ok (Some (key, unquote (trim_space value)))
    end.
(** [orchestratorgo/bridge/envfile.go:43-69] LoadEnvFile: the lines, until one is wrong, *)
Fixpoint assign_lines (number : Z) (lines : list string) (env : Environ) : Environ * option string :=
  match lines with
  | [] => (env, None)
  | line :: lines =>
      match assignment (number + 1) line with
      | Err e => (env, Some (error_text e))
      | Ok None => assign_lines (number + 1) lines env
      | Ok (Some (key, value)) =>
          match Setenv key value env with
          | (env, Some e) => (env, Some e)
          | (env, None) => assign_lines (number + 1) lines env
          end
      end
  end.
(** [orchestratorgo/bridge/envfile.go:31-72] LoadEnvFile: the file, when it is opened, is given. *)
Definition LoadEnvFile (path : string) (file : string → res string) (env : Environ) : Environ * option string :=
  if trim_space path =?s "" then (env, None)
  else match file (trim_space path) with
       | Err e => (env, Some (error_text e))
       | Ok text =>
           let '(lines, too_long) := scan_lines 65536 text in
           match assign_lines 0 lines env with
           | (env, Some e) => (env, Some e)
           | (env, None) => (env, if too_long then Some "bufio.Scanner: token too long" else None)
           end
       end.

(** ** What is loaded *)

Example load_demo :
  LoadEnvFile "f"
    (λ _, Ok (sjoin nl ["# key"; "export A = 'x y' "; ""; "B=1=2"; "C=" +:+ dquote; "=3"; "D=4"])) ∅
  = ({["A" := "x y"; "B" := "1=2"; "C" := dquote]}, Some "empty env key at line 6").
Proof. vm_compute. reflexivity. Qed.

(** An error leaves what the lines before it assigned; nothing else changes. *)
Lemma assign_lines_app number l l' env :
  assign_lines number (l ++ l') env =
  match assign_lines number l env with
  | (env, Some e) => (env, Some e)
  | (env, None) => assign_lines (number + Z.of_nat (length l)) l' env
  end.
Proof.
  revert number env. induction l as [|x l IH]; intros number env; cbn [app assign_lines length].
  - by rewrite Z.add_0_r.
  - replace (number + Z.of_nat (S (length l))) with (number + 1 + Z.of_nat (length l)) by lia.
    destruct (assignment (number + 1) x) as [[[k v]|]|e]; [|apply IH|done].
    destruct (Setenv k v env) as [env' [e|]]; [done|apply IH].
Qed.
Lemma assign_lines_named number l env k :
  (assign_lines number l env).1 !! k ≠ env !! k →
  ∃ i x v, l !! i = Some x ∧ assignment (number + 1 + Z.of_nat i) x = Ok (Some (k, v)).
Proof.
  revert number env. induction l as [|x l IH]; intros number env; cbn [assign_lines]; [done|].
  assert (∀ env', (assign_lines (number + 1) l env').1 !! k ≠ env' !! k →
    ∃ i y v, (x :: l) !! i = Some y ∧ assignment (number + 1 + Z.of_nat i) y = Ok (Some (k, v))) as Hlater.
  { intros env' Hne. destruct (IH _ _ Hne) as (i & y & v & Hy & Ha). exists (S i), y, v. split; [done|].
    rewrite <- Ha. f_equal. lia. }
  destruct (assignment (number + 1) x) as [[[k' v]|]|e] eqn:E; [|apply Hlater|done].
  unfold Setenv. destruct (_ || _ || _ || _); [done|]. intros Hne.
  destruct (decide (k' = k)) as [->|Hk].
  - exists 0%nat, x, v. split; [done|]. by rewrite Z.add_0_r.
  - apply (Hlater (<[k' := v]> env)). by rewrite lookup_insert_ne.
Qed.

(** Arguments that do not name the flag are kept as they are, in order. *)
Lemma extract_other args envFile filtered :
  Forall (λ a, (trim_space a =?s "--env-file") = false ∧ has_prefix "--env-file=" (trim_space a) = false) args →
  extract_env_file args envFile filtered = Ok (envFile, filtered ++ args).
Proof.
  intros Hargs. revert filtered. induction Hargs as [|a args [Hflag Hset] Hargs IH]; intros filtered;
    cbn [extract_env_file]; [by rewrite app_nil_r|].
  rewrite Hflag, Hset, IH, <- app_assoc. done.
Qed.
