(* ===== verification/System.v ===== *)
(** * The control plane as one system

    The endpoints of the HTTP API and the calls of the workers, in any order, each
    with its own clock, faults and choices, are the steps of one system.  It refines
    an abstract life cycle in which tasks are created and move along the edges of the
    state machine and approvals are asked and decided once. *)
From S2P Require Import Workspace.
From S2P Require Import Prelude Effects Domain Schema TaskStore Artifacts BridgeLease Queue InitiativeStore InitiativeApi Http TaskApi Worker Autonomous Objective Evidence ObjectiveRun BridgeApi.

(** ** The abstract life cycle *)

(** A finite map in which entries are added and move. *)
Inductive map_step {A} (init : string → A → Prop) (R : relation A) : relation (gmap string A) :=
  | map_add k a m : m !! k = None → init k a → map_step init R m (<[k:=a]> m)
  | map_move k a b m : m !! k = Some a → R a b → map_step init R m (<[k:=b]> m).

Lemma map_moves {A} init (R : relation A) k a b m :
  m !! k = Some a → rtc R a b → rtc (map_step init R) m (<[k:=b]> m).
Proof.
  intros Hm Hab. revert m Hm. induction Hab as [a|a c b Hac _ IH]; intros m Hm.
  { by rewrite insert_id. }
  eapply rtc_l; [by eapply map_move|]. rewrite <- (insert_insert_eq m k b c).
  apply IH, lookup_insert_eq.
Qed.
(** Entry by entry. *)
Lemma map_rtc {A} init (R : relation A) (m m' : gmap string A) :
  (∀ k a, m !! k = Some a → is_Some (m' !! k)) →
  (∀ k b, m' !! k = Some b →
    match m !! k with
    | Some a => rtc R a b
    | None => ∃ a, init k a ∧ rtc R a b
    end) →
  rtc (map_step init R) m m'.
Proof.
  intros Hdom Hall.
  assert (Hsome : ∀ n, n ⊆ m' → rtc (map_step init R) m (n ∪ m)).
  { induction n as [|k b n Hnone IH] using map_ind; intros Hsub.
    { by rewrite (left_id_L ∅ (∪)). }
    pose proof (lookup_weaken _ _ k b (lookup_insert_eq n k b) Hsub) as Hb.
    etrans; [apply IH; etrans; [by apply (insert_subseteq n k b)|done]|].
    rewrite <- insert_union_l. specialize (Hall _ _ Hb).
    assert (Hk : (n ∪ m) !! k = m !! k) by (rewrite lookup_union_r; done).
    destruct (m !! k) as [a|]; [by eapply map_moves|].
    destruct Hall as (a & Ha & Hab). eapply rtc_l; [by apply map_add|].
    rewrite <- (insert_insert_eq _ k b a). eapply map_moves; [apply lookup_insert_eq|done]. }
  specialize (Hsome m' (reflexivity _)).
  assert (m' ∪ m = m') as Heq; [|by rewrite Heq in Hsome].
  apply map_eq. intros k. destruct (m' !! k) as [b|] eqn:Hb.
  - by rewrite (lookup_union_Some_l _ _ _ _ Hb).
  - rewrite lookup_union_r by done. apply eq_None_not_Some. intros [a Ha].
    destruct (Hdom _ _ Ha). congruence.
Qed.

(** The life of the tasks and of the approvals: what is fixed when a task is created,
    with its id, and its state; what task an approval is about, and its status. *)
Definition Ident : Type := ltac:(match type of identity with _ → ?T => exact T end).
Definition ident_id (i : Ident) : string := let '(id, _, _, _, _, _) := i in id.
Record Life := MkLife {
  life_tasks : gmap string (Ident * TaskState);
  life_approvals : gmap string (string * string);
}.
Definition born (id : string) (t : Ident * TaskState) : Prop :=
  ident_id t.1 = id ∧ t.2 = TaskStateCreated.
Definition task_moves (t t' : Ident * TaskState) : Prop :=
  t'.1 = t.1 ∧ lifecycle_edge t.2 t'.2.
Definition approval_moves (a a' : string * string) : Prop :=
  a'.1 = a.1 ∧ a.2 = ApprovalPending.
Inductive life_step : relation Life :=
  | life_task t t' a : map_step born task_moves t t' → life_step (MkLife t a) (MkLife t' a)
  | life_approval t a a' :
      map_step (λ _ _, True) approval_moves a a' → life_step (MkLife t a) (MkLife t a').

Definition life (s : Sys) : Life :=
  MkLife ((λ r, (identity r, row_state r)) <$> tasks (pg s))
         ((λ a, (approval_task a, approval_status a)) <$> approvals (pg s)).

Lemma life_tasks_steps t t' a :
  rtc (map_step born task_moves) t t' → rtc life_step (MkLife t a) (MkLife t' a).
Proof. apply (rtc_congruence (λ t, MkLife t a)). intros. by apply life_task. Qed.
Lemma life_approvals_steps t a a' :
  rtc (map_step (λ _ _, True) approval_moves) a a' → rtc life_step (MkLife t a) (MkLife t a').
Proof. apply (rtc_congruence (MkLife t)). intros. by apply life_approval. Qed.

Lemma rtc_task_moves i st st' :
  rtc lifecycle_edge st st' → rtc task_moves (i, st) (i, st').
Proof. apply (rtc_congruence (pair i)). intros. by split. Qed.

(** The contract of the store is the simulation. *)
Lemma evolves_life s s' : evolves s s' → rtc life_step (life s) (life s').
Proof.
  intros [Ht Hn _ Ha Hq]. unfold life.
  etrans; [apply life_tasks_steps|apply life_approvals_steps]; apply map_rtc.
  - intros k x Hx. rewrite lookup_fmap in *. apply fmap_Some in Hx as (r & Hr & _).
    destruct (Ht _ _ Hr) as (r' & Hr' & _). unfold get_row in Hr'. by rewrite Hr'.
  - intros k y Hy. rewrite !lookup_fmap in *. apply fmap_Some in Hy as (r' & Hr' & ->).
    destruct (tasks (pg s) !! k) as [r|] eqn:Hr; cbn.
    + destruct (Ht _ _ Hr) as (r2 & Hr2 & [Hid Hst]). unfold get_row in Hr2.
      rewrite Hr' in Hr2. injection Hr2 as <-. rewrite Hid. by apply rtc_task_moves.
    + destruct (Hn _ _ Hr' Hr) as [Hid Hst].
      exists (identity r', TaskStateCreated). split; [by split|by apply rtc_task_moves].
  - intros k x Hx. rewrite lookup_fmap in *. apply fmap_Some in Hx as (a & Hk & _).
    destruct (Ha _ _ Hk) as (a' & Hk' & _). by rewrite Hk'.
  - intros k y Hy. rewrite !lookup_fmap in *. apply fmap_Some in Hy as (a' & Hk' & ->).
    destruct (approvals (pg s) !! k) as [a|] eqn:Hk; cbn; [|by eexists].
    destruct (Ha _ _ Hk) as (a2 & Hk2 & _ & Htask & Hdone). rewrite Hk' in Hk2.
    injection Hk2 as <-. destruct (decide (approval_status a = ApprovalPending)) as [Hp|Hp].
    + apply rtc_once. by split.
    + by rewrite (Hdone Hp).
Qed.

(** ** The steps of the system *)

(** The worker's claim, from a well-keyed state. *)
Section Steps.
Context `{JsonCodec} `{Git} (cfg : Config) (service : option PhaseService)
  `{Disk} (objectives : bool) (autonomous : option AutonomousRunner)
  (lease_ttl : Z) (interval : Z).

(** [orchestratorgo/httpapi/handlers.go:75-125] Router: the routes on tasks, approvals,
    bridges, initiatives and objectives, but for further ones that only read. *)
Inductive endpoint `{Env} : ∀ A, Handler A → Prop :=
  | ep_createTask body key : endpoint _ (createTask cfg body key)
  | ep_getTask id : endpoint _ (getTask id)
  | ep_updateTask id body : endpoint _ (updateTask id body)
  | ep_listTaskChildren id : endpoint _ (listTaskChildren id)
  | ep_cancelTask id : endpoint _ (cancelTask id)
  | ep_archiveTask id : endpoint _ (archiveTask id)
  | ep_unarchiveTask id : endpoint _ (unarchiveTask id)
  | ep_resolveApproval id body approve : endpoint _ (resolveApproval id body approve)
  | ep_getTaskTree order id : endpoint _ (getTaskTree order id)
  | ep_createInitiative body : endpoint _ (createInitiative service body)
  | ep_advanceInitiative id feedback : endpoint _ (advanceInitiative service id feedback)
  | ep_resolvePhase id phase body approve :
      endpoint _ (resolveInitiativePhase id phase body approve)
  | ep_generateTasks id feedback : endpoint _ (generateInitiativeTasks cfg service id feedback)
  | ep_launchTasks id body : endpoint _ (launchInitiativeTasks cfg id body)
  | ep_updateTaskMode id t body : endpoint _ (updateInitiativeTaskMode cfg id t body)
  | ep_startAutonomous body : endpoint _ (startAutonomousInitiative autonomous body)
  | ep_createObjective body : endpoint _ (createObjective objectives body)
  | ep_registerBridge body : endpoint _ (registerBridge body)
  | ep_heartbeatBridge id body : endpoint _ (heartbeatBridge lease_ttl id body)
  | ep_listBridges : endpoint _ listBridges
  | ep_claimNext id : endpoint _ (claimNextBridgeTask lease_ttl id)
  | ep_submitResult id t body : endpoint _ (submitBridgeTaskResult id t body).
(** The calls of a worker, around a run of the runner. *)
Inductive worker_call `{Env} (workerID : string) : ∀ A, M Sys A → Prop :=
  | wc_recover : worker_call workerID _ (recoverInterruptedTasks workerID interval)
  | wc_load t : worker_call workerID _ (loadTask workerID t)
  | wc_settle task t result : worker_call workerID _ (settleTask cfg workerID task t result).

Inductive step : relation Sys :=
  | step_endpoint (e : Env) A (h : Handler A) n s r n' s' :
      endpoint A h → h n s = (r, (n', s')) → step s s'
  | step_worker (e : Env) workerID A (m : M Sys A) n s r n' s' :
      worker_call workerID A m → m n s = (r, (n', s')) → step s s'
  | step_claim (e : Env) workerID agentType n w r n' w' :
      tryClaimTask workerID interval agentType n w = (r, (n', w')) → step (w_sys w) (w_sys w').
End Steps.

(** ** Every step keeps the contract *)

Section Keeping.
Context `{JsonCodec} `{Git} (cfg : Config) (service : option PhaseService)
  `{Disk} (objectives : bool) (autonomous : option AutonomousRunner)
  (lease_ttl : Z) (interval : Z).
Abbreviation endpoint := (endpoint cfg service objectives autonomous lease_ttl).
Abbreviation worker_call := (worker_call cfg interval).
Abbreviation step := (step cfg service objectives autonomous lease_ttl interval).

Hint Resolve create_linked_evolves launch_link_evolves : respects.
Lemma StartFromChannel_evolves `{Env} r req : respects evolves (StartFromChannel r req).
Proof.
  unfold StartFromChannel, advanceAndLaunch, generateRequirementsPhase, generateDesignPhase,
    generatePlanTasks, store_phase, approvePhase, launchGeneratedTasks, materializeAutonomousPlanTasks,
    autonomous_step, recordGeneratedReview, updateAutonomousActiveArtifacts,
    persistAutonomousPhaseArtifacts, getActiveAutonomousArtifactJSON, GetInitiative,
    ListInitiativeTasks, ListInitiativePhaseReviews.
  cbn zeta. solve_handler.
Qed.
Lemma startAutonomous_evolves `{Env} body :
  respects evolves (startAutonomousInitiative autonomous body).
Proof. unfold startAutonomousInitiative. solve_handler. apply StartFromChannel_evolves. Qed.
Lemma endpoint_keeps `{Env} A h : endpoint A h → respects keeps h.
Proof.
  intros []; try solve [eauto with respects].
  - apply respects_keeps. unfold getTask. solve_handler.
  - apply respects_keeps. unfold listTaskChildren. solve_handler.
  - apply respects_keeps, startAutonomous_evolves.
Qed.
Lemma worker_call_keeps `{Env} id A m : worker_call id A m → respects keeps m.
Proof.
  intros []; apply respects_keeps;
    [apply recover_evolves|apply loadTask_evolves|apply settleTask_evolves].
Qed.
Lemma step_keeps s s' : step s s' → keeps s s'.
Proof.
  intros [e A h n s1 r n' s2 Hep Hrun|e id A m n s1 r n' s2 Hwc Hrun|e id agent n w r n' w' Hrun].
  - by eapply (respects_run (endpoint_keeps A h Hep)).
  - by eapply (respects_run (worker_call_keeps id A m Hwc)).
  - intros _. exact (respects_run (tryClaimTask_evolves id interval agent) Hrun).
Qed.
Lemma steps_keep s s' : rtc step s s' → keeps s s'.
Proof. induction 1 as [|x y z Hxy _ IH]; [done|]. etrans; [by apply step_keeps|done]. Qed.
End Keeping.

(** ** What every reachable state is *)

Section Reachable.
Context `{JsonCodec} `{Git} (cfg : Config) (service : option PhaseService)
  `{Disk} (objectives : bool) (autonomous : option AutonomousRunner)
  (lease_ttl : Z) (interval : Z).
Abbreviation step := (step cfg service objectives autonomous lease_ttl interval).

(** The keys and the references of the tables of tasks, approvals and transitions. *)
Record well_formed (s : Sys) : Prop := {
  wf_tasks : keyed s;
  wf_approvals : ∀ id a, approvals (pg s) !! id = Some a →
    approval_id a = id ∧ is_Some (get_row s (approval_task a));
  wf_log : Forall (λ t, is_Some (get_row s (tr_task t))) (state_transitions (pg s));
}.
Lemma evolves_row s s' id : evolves s s' → is_Some (get_row s id) → is_Some (get_row s' id).
Proof. intros He [r Hr]. destruct (ev_tasks _ _ He _ _ Hr) as (r' & ? & _). by exists r'. Qed.
Lemma evolves_well_formed s s' : evolves s s' → well_formed s → well_formed s'.
Proof.
  intros He [Hk Ha Hl]. split; [by eapply evolves_keyed| |].
  - intros id a' Ha'. destruct (approvals (pg s) !! id) as [a|] eqn:Hid; [|by eapply ev_asked].
    destruct (Ha _ _ Hid) as [<- Hrow].
    destruct (ev_approvals _ _ He _ _ Hid) as (b & Hb & Hi & Ht & _).
    rewrite Hb in Ha'. injection Ha' as <-. split; [done|]. rewrite Ht. by eapply evolves_row.
  - destruct (ev_log _ _ He) as (new & -> & Hnew). apply Forall_app. split; [|done].
    eapply Forall_impl; [exact Hl|]. intros t. by apply evolves_row.
Qed.

(** C1: the system refines its life cycle.  However the endpoints of the API and the
    calls of the workers follow each other, and whatever fails in the middle of any of
    them, the tasks and the approvals move as the abstract life cycle does: a task
    appears under its own id in [created] and from then on follows its edges, with its
    identity fixed; an approval changes only while it is pending, and stays about the
    same task. *)
Theorem system_refines_lifecycle s s' :
  keyed s → rtc step s s' → rtc life_step (life s) (life s').
Proof. intros Hk Hsteps. by apply evolves_life, (steps_keep _ _ _ _ _ _ _ _ Hsteps). Qed.

(** C9: in every state that is reached from an empty one, each task is stored under its
    id, each approval under its own and about a task there is, and each logged
    transition is of a task there is. *)
Theorem reachable_well_formed s : rtc step empty_sys s → well_formed s.
Proof.
  intros Hsteps.
  assert (Hempty : well_formed empty_sys).
  { split; [intros id r Hr; discriminate Hr|intros id a Ha; discriminate Ha|constructor]. }
  eapply evolves_well_formed; [|exact Hempty].
  exact (steps_keep _ _ _ _ _ _ _ _ Hsteps (wf_tasks _ Hempty)).
Qed.
End Reachable.

(** Two requests: a task is created, then cancelled. *)
Definition no_git : Git := {| git _ _ := None |}.
Definition no_files : Disk := {| disk _ := None |}.
Definition demo_step : relation Sys :=
  @step demo_codec no_git demo_cfg None no_files false None 45 10.
Definition cancelled_demo : Sys := (@cancelTask (quiet_env 0) "id-7" 50%N keyed_demo).2.2.
Lemma demo_request A (h : Handler A) n s :
  @endpoint demo_codec no_git demo_cfg None no_files false None 45 (quiet_env 0) A h →
  demo_step s (h n s).2.2.
Proof.
  intros Hep. destruct (h n s) as [r [n' s']] eqn:Hrun. by eapply step_endpoint.
Qed.
Lemma demo_steps : rtc demo_step empty_sys cancelled_demo.
Proof.
  eapply rtc_l; [|apply rtc_once, demo_request, ep_cancelTask].
  assert (Hs : keyed_demo
    = (@createTask (quiet_env 0) demo_cfg (Some demo_body) "key-1" 0%N empty_sys).2.2)
    by (vm_compute; reflexivity).
  rewrite Hs. apply demo_request, ep_createTask.
Qed.
Lemma system_refines_lifecycle_witness :
  (snd <$> life_tasks (life cancelled_demo)) !! "id-7" = Some TaskStateCancelled ∧
  rtc life_step (MkLife ∅ ∅) (life cancelled_demo).
Proof.
  split; [vm_compute; reflexivity|].
  refine (@system_refines_lifecycle demo_codec no_git demo_cfg None no_files false None 45 10 empty_sys cancelled_demo
    _ demo_steps).
  intros id r Hr. discriminate Hr.
Defined.
Lemma reachable_well_formed_witness :
  is_Some (get_row cancelled_demo "id-7") ∧ well_formed cancelled_demo.
Proof.
  split; [|exact (@reachable_well_formed demo_codec no_git demo_cfg None no_files false None 45 10 cancelled_demo demo_steps)].
  assert (Hf : match get_row cancelled_demo "id-7" with Some _ => true | None => false end = true)
    by (vm_compute; reflexivity).
  destruct (get_row cancelled_demo "id-7"); [by eexists|discriminate Hf].
Defined.
