(* ===== verification/Auth.v ===== *)
(** * Who may call the API

    [httpapi/middleware.go]: API keys by their SHA-256, the scopes, the tracker
    that blocks a source after too many failures, and the middleware that puts
    them in front of every handler; [httpapi/safe_mode.go] and the handlers'
    own scope check. *)
From S2P Require Import Prelude GoVal Effects Domain Schema Http.

(** ** [crypto/sha256] and [encoding/hex] *)
Module Sha256.
Definition word : Z := 2 ^ 32.
Definition add32 (l : list Z) : Z := foldr Z.add 0 l mod word.
Definition rotr (x n : Z) : Z := Z.lor (Z.shiftr x n) (Z.shiftl x (32 - n) mod word).
Definition xor3 (a b c : Z) : Z := Z.lxor a (Z.lxor b c).

(** The constants of the standard: 32 bits of the fractional parts of the cube
    roots of the first 64 primes and of the square roots of the first eight. *)
Definition is_prime (n : nat) : bool :=
  forallb (λ d, negb (n mod d =? 0)%nat) (seq 2 (n - 2)).
Definition primes : list Z := Z.of_nat <$> filter (λ n, is_prime n = true) (seq 2 310).
Fixpoint cube_root (bits : nat) (r n : Z) : Z :=
  match bits with
  | O => r
  | S i =>
      let r' := r + 2 ^ Z.of_nat i in
      cube_root i (if r' * r' * r' <=? n then r' else r) n
  end.
Definition K : list Z :=
  Eval vm_compute in (λ p, cube_root 36 0 (p * 2 ^ 96) mod word) <$> primes.
Definition init : list Z :=
  Eval vm_compute in (λ p, Z.sqrt (p * 2 ^ 64) mod word) <$> take 8 primes.

Fixpoint bytes (s : string) : list Z :=
  match s with
  | EmptyString => []
  | String a r => Z.of_nat (nat_of_ascii a) :: bytes r
  end.

(** [n] bytes of [x], the most significant first. *)
Fixpoint be_bytes (n : nat) (x : Z) : list Z :=
  match n with
  | O => []
  | S n' => Z.shiftr x (8 * Z.of_nat n') mod 256 :: be_bytes n' x
  end.

Definition pad (l : list Z) : list Z :=
  let n := Z.of_nat (length l) in
  l ++ [128] ++ replicate (Z.to_nat ((55 - n) mod 64)) 0 ++ be_bytes 8 (8 * n).

Fixpoint words (l : list Z) : list Z :=
  match l with
  | a :: b :: c :: d :: r =>
      ((a * 256 + b) * 256 + c) * 256 + d :: words r
  | _ => []
  end.

(** The message schedule, the latest word first. *)
Fixpoint schedule (n : nat) (rev_w : list Z) : list Z :=
  match n with
  | O => rev_w
  | S n' =>
      let at_ i := default 0 (rev_w !! i) in
      let s0 := xor3 (rotr (at_ 14%nat) 7) (rotr (at_ 14%nat) 18) (Z.shiftr (at_ 14%nat) 3) in
      let s1 := xor3 (rotr (at_ 1%nat) 17) (rotr (at_ 1%nat) 19) (Z.shiftr (at_ 1%nat) 10) in
      schedule n' (add32 [at_ 15%nat; s0; at_ 6%nat; s1] :: rev_w)
  end.

Definition round (h : list Z) (kw : Z * Z) : list Z :=
  match h with
  | [a; b; c; d; e; f; g; i] =>
      let s1 := xor3 (rotr e 6) (rotr e 11) (rotr e 25) in
      let ch := Z.lxor (Z.land e f) (Z.land (word - 1 - e) g) in
      let t1 := add32 [i; s1; ch; kw.1; kw.2] in
      let s0 := xor3 (rotr a 2) (rotr a 13) (rotr a 22) in
      let maj := xor3 (Z.land a b) (Z.land a c) (Z.land b c) in
      [add32 [t1; s0; maj]; a; b; c; add32 [d; t1]; e; f; g]
  | _ => h
  end.

Definition block (h : list Z) (w : list Z) : list Z :=
  let ws := rev (schedule 48 (rev w)) in
  zip_with (λ a b, add32 [a; b]) h (foldl round h (zip K ws)).

Fixpoint blocks (n : nat) (h : list Z) (w : list Z) : list Z :=
  match n with
  | O => h
  | S n' => blocks n' (block h (firstn 16 w)) (skipn 16 w)
  end.

Definition hex_digit (n : Z) : ascii :=
  ascii_of_nat (Z.to_nat (if n <? 10 then 48 + n else 87 + n)).
Fixpoint hex (l : list Z) : string :=
  match l with
  | [] => ""
  | b :: r => String (hex_digit (b / 16)) (String (hex_digit (b mod 16)) (hex r))
  end.

(** [hex.EncodeToString(sha256.Sum256([]byte(s)))] *)
Definition sum_hex (s : string) : string :=
  let w := words (pad (bytes s)) in
  hex (concat (map (be_bytes 4) (blocks (length w / 16) init w))).

Example sum_empty :
  sum_hex "" = "e3b0c44298fc1c149afbf4c8996fb92427ae41e4649b934ca495991b7852b855".
Proof. vm_compute. reflexivity. Qed.
Example sum_abc :
  sum_hex "abc" = "ba7816bf8f01cfea414140de5dae2223b00361a396177a9cb410ff61f20015ad".
Proof. vm_compute. reflexivity. Qed.
Example sum_two_blocks :
  sum_hex "abcdbcdecdefdefgefghfghighijhijkijkljklmklmnlmnomnopnopq"
  = "248d6a61d20638b8e5c026930c3e6039a33ce45964ff2167f6ecedd419db06c1".
Proof. vm_compute. reflexivity. Qed.
End Sha256.

(** ** Requests and keys *)

(** A row of [api_keys]. *)
Record ApiKeyRow := MkKeyRow {
  key_id : string;
  key_hash : string;
  key_name : string;
  key_scope : string;
  key_is_active : bool;
  key_revoked_at : option Z;
}.

(** [orchestratorgo/domain/types.go:246-250] APIKeyRecord. *)
Record APIKeyRecord := MkKey { ak_id : string; ak_name : string; ak_scope : string }.

(** What the middleware reads of a request; an absent header is empty. *)
Record Request := MkRequest {
  req_method : string;
  req_path : string;
  req_authorization : string;
  req_forwarded_for : string;
  req_remote_addr : string;
}.

(** [orchestratorgo/httpapi/middleware.go:159-166] bruteForceTracker; times and
    durations in nanoseconds. *)
Record bruteForceTracker := MkTracker {
  maxAttempts : Z;
  window : Z;
  block : Z;
  failures : gmap string (list Z);
  blocked : gmap string Z;
}.
#[export] Instance eta_tracker : Eta bruteForceTracker := λ b,
  MkTracker (maxAttempts b) (window b) (block b) (failures b) (blocked b).

(** [orchestratorgo/httpapi/middleware.go:168-176] newBruteForceTracker: durations
    wrap around. *)
Definition newBruteForceTracker (maxAttempts windowSeconds blockSeconds : Z) :
    bruteForceTracker :=
  MkTracker maxAttempts (wrap64 (windowSeconds * second)) (wrap64 (blockSeconds * second)) ∅ ∅.

Section Tracker.
Context `{Env}.

(** [orchestratorgo/httpapi/middleware.go:178-191] IsBlocked. *)
Definition IsBlocked (source : string) : M bruteForceTracker bool := λ n b,
  match blocked b !! source with
  | None => (Ok false, (n, b))
  | Some expiry =>
      if expiry <? clock n then
        (Ok false, (N.succ n, b <| blocked := delete source (blocked b) |>
                                <| failures := delete source (failures b) |>))
      else (Ok true, (N.succ n, b))
  end.

(** [orchestratorgo/httpapi/middleware.go:193-209] RecordFailure. *)
Definition recent (cutoff : Z) (l : list Z) : list Z :=
  filter (λ ts, cutoff < ts) l.
Definition RecordFailure (source : string) : M bruteForceTracker unit := λ n b,
  let now := clock n in
  let cutoff := now + wrap64 (- window b) in
  let current := recent cutoff (default [] (failures b !! source)) ++ [now] in
  let b := b <| failures := <[source := current]> (failures b) |> in
  (Ok tt, (N.succ n,
     if maxAttempts b <=? Z.of_nat (length current)
     then b <| blocked := <[source := now + block b]> (blocked b) |> else b)).

(** [orchestratorgo/httpapi/middleware.go:211-215] Reset. *)
Definition Reset (source : string) : M bruteForceTracker unit := λ n b,
  (Ok tt, (n, b <| failures := delete source (failures b) |>)).
End Tracker.

(** [net.SplitHostPort]: the host, or [None] for its error. *)
Fixpoint index_of (c : ascii) (s : string) : option nat :=
  match s with
  | EmptyString => None
  | String a r => if Ascii.eqb a c then Some O else S <$> index_of c r
  end.
Fixpoint last_index_of (c : ascii) (s : string) : option nat :=
  match s with
  | EmptyString => None
  | String a r =>
      match last_index_of c r with
      | Some i => Some (S i)
      | None => if Ascii.eqb a c then Some O else None
      end
  end.
Definition has_char (c : ascii) (s : string) : bool :=
  match index_of c s with Some _ => true | None => false end.
Definition split_host_port (s : string) : option string :=
  match last_index_of ":" s with
  | None => None
  | Some i =>
      let checked (host : string) (j k : nat) :=
        if has_char "[" (sdrop j s) || has_char "]" (sdrop k s) then None else Some host in
      if has_prefix "[" s then
        match index_of "]" s with
        | None => None
        | Some e =>
            if (S e =? String.length s)%nat then None
            else if (S e =? i)%nat then checked (stake (e - 1) (sdrop 1 s)) 1%nat (S e)
            else None
        end
      else
        let host := stake i s in
        if has_char ":" host then None else checked host 0%nat 0%nat
  end.

(** [orchestratorgo/httpapi/middleware.go:148-157] getClientIP. *)
Definition getClientIP (r : Request) : string :=
  if negb (blank (req_forwarded_for r))
  then trim_space (default "" (head (split_on "," (req_forwarded_for r))))
  else default (req_remote_addr r) (split_host_port (req_remote_addr r)).

(** [orchestratorgo/httpapi/middleware.go:23-30] publicPaths. *)
Definition publicPaths : list string :=
  ["/health"; "/ready"; "/metrics"; "/docs"; "/openapi.json"; "/redoc"].
(** [orchestratorgo/httpapi/middleware.go:124-129] isPublicPath. *)
Definition isPublicPath (path : string) : bool :=
  existsb (String.eqb path) publicPaths || has_prefix "/docs" path || has_prefix "/redoc" path.

(** [orchestratorgo/httpapi/middleware.go:32-32] adminOnlyPrefixes. *)
Definition adminOnlyPrefixes : list string := ["/config/"; "/audit"].
(** [orchestratorgo/httpapi/middleware.go:33-33] operatorOnlyPrefixes. *)
Definition operatorOnlyPrefixes : list string := ["/bridges"].
(** [orchestratorgo/httpapi/middleware.go:35-40] scopeAllowedMethods. *)
Definition scopeAllowedMethods (scope : string) : list string :=
  if (scope =?s ScopeAdmin) || (scope =?s ScopeOperator)
  then ["GET"; "POST"; "PUT"; "PATCH"; "DELETE"; "HEAD"; "OPTIONS"]
  else if scope =?s ScopeBot then ["GET"; "POST"; "HEAD"; "OPTIONS"]
  else if scope =?s ScopeReadonly then ["GET"; "HEAD"; "OPTIONS"]
  else [].

(** [orchestratorgo/httpapi/middleware.go:131-146] checkScope: the error text. *)
Definition checkScope (scope method path : string) : string :=
  if existsb (λ p, has_prefix p path) adminOnlyPrefixes && negb (scope =?s ScopeAdmin)
  then "Path '" +:+ path +:+ "' requires 'admin' scope, got '" +:+ scope +:+ "'"
  else if existsb (λ p, has_prefix p path) operatorOnlyPrefixes
            && negb (scope =?s ScopeAdmin) && negb (scope =?s ScopeOperator)
  then "Path '" +:+ path +:+ "' requires 'operator' or 'admin' scope, got '" +:+ scope +:+ "'"
  else if negb (existsb (String.eqb method) (scopeAllowedMethods scope))
  then "Method '" +:+ method +:+ "' not allowed for scope '" +:+ scope
       +:+ "'. Required scope: 'operator' or 'admin'"
  else "".

(** ** The middleware *)

(** The server behind the middleware, the keys and the tracker. *)
Record AuthSys := MkAuth {
  a_sys : Sys;
  a_keys : list ApiKeyRow;
  a_limiter : bruteForceTracker;
}.
#[export] Instance eta_auth : Eta AuthSys := λ a,
  MkAuth (a_sys a) (a_keys a) (a_limiter a).

Definition on_limiter {A} (m : M bruteForceTracker A) : M AuthSys A := λ n a,
  let '(r, (n', b')) := m n (a_limiter a) in (r, (n', a <| a_limiter := b' |>)).
Definition on_server {A} (m : M Sys A) : M AuthSys A := λ n a,
  let '(r, (n', s')) := m n (a_sys a) in (r, (n', a <| a_sys := s' |>)).

(** A reply of the middleware, or of the handler behind it. *)
Inductive Answer (A : Type) :=
  | Answered (r : Reply A)
  | Refused (status : Z) (error_code message : string).
Arguments Answered {A} _.
Arguments Refused {A} _ _ _.

Definition key_record (k : ApiKeyRow) : APIKeyRecord :=
  MkKey (key_id k) (key_name k) (key_scope k).
Definition usable (k : ApiKeyRow) : bool :=
  key_is_active k && bool_decide (key_revoked_at k = None).

Section Middleware.
Context `{Env} {A : Type}.

(** [orchestratorgo/store/postgres.go:46-60] GetAPIKeyByHash: [key_hash] is not
    unique, the first row in the server's order is scanned. *)
Definition GetAPIKeyByHash (keyHash : string) : M AuthSys (option APIKeyRecord) :=
  query (λ a, key_record <$>
    head (filter (λ k, ((key_hash k =?s keyHash) && usable k) = true) (a_keys a))).

(** [orchestratorgo/httpapi/middleware.go:54-111] Middleware in front of [next],
    which gets the authenticated key of the request's context. *)
Definition refuse_counted (clientIP code msg : string) : M AuthSys (Answer A) :=
  on_limiter (RecordFailure clientIP) ;;; ret (Refused 401 code msg).
Definition missing_token (clientIP : string) : M AuthSys (Answer A) :=
  refuse_counted clientIP "missing_token"
    "Authorization header with Bearer token is required.".
Definition Middleware (next : option APIKeyRecord → Handler A) (r : Request) :
    M AuthSys (Answer A) :=
  let serve key := reply <- on_server (next key) ;; ret (Answered reply) in
  if isPublicPath (req_path r) then serve None
  else
    let clientIP := getClientIP r in
    isBlocked <- on_limiter (IsBlocked clientIP) ;;
    if isBlocked : bool then
      ret (Refused 403 "source_blocked" "Too many failed authentication attempts. Try again later.")
    else
      let header := req_authorization r in
      if negb (has_prefix "Bearer " header) then missing_token clientIP
      else
        let rawToken := trim_space (trim_prefix "Bearer " header) in
        if rawToken =?s "" then missing_token clientIP
        else
          record <- attempt (GetAPIKeyByHash (Sha256.sum_hex rawToken)) ;;
          match record with
          | Err _ => ret (Answered (Detail 500 "failed to validate API key"))
          | Ok None => refuse_counted clientIP "invalid_token" "Invalid API key."
          | Ok (Some record) =>
              let errText := checkScope (ak_scope record) (req_method r) (req_path r) in
              if negb (errText =?s "") then ret (Refused 403 "insufficient_scope" errText)
              else on_limiter (Reset clientIP) ;;; serve (Some record)
          end.

(** [orchestratorgo/httpapi/handlers.go:2457-2468] requireOperatorScope, in front of
    the rest of a handler. *)
Definition requireOperatorScope (key : option APIKeyRecord) (k : Handler A) : Handler A :=
  match key with
  | None => detail 401 "authentication is required"
  | Some record =>
      if negb (ak_scope record =?s ScopeAdmin) && negb (ak_scope record =?s ScopeOperator)
      then detail 403 "operator or admin scope is required" else k
  end.
End Middleware.

(** [orchestratorgo/httpapi/handlers.go:2449-2455] authenticatedKeyName. *)
Definition authenticatedKeyName (key : option APIKeyRecord) : option string :=
  ak_name <$> key.

(** ** Safe mode *)

(** [orchestratorgo/httpapi/safe_mode.go:14-21] Enabled: a nil state is enabled. *)
Definition Enabled (s : option bool) : bool := default true s.
(** [orchestratorgo/httpapi/safe_mode.go:23-32] SetEnabled: the previous value and the
    state it leaves. *)
Definition SetEnabled (s : option bool) (enabled : bool) : bool * option bool :=
  match s with None => (enabled, None) | Some p => (p, Some enabled) end.
(** [orchestratorgo/httpapi/handlers.go:2699-2704] safeModeEnabled, of the state or else
    of the configuration. *)
Definition safeModeEnabled (s : option bool) (configured : bool) : bool :=
  match s with Some _ => Enabled s | None => configured end.
(** [orchestratorgo/httpapi/handlers.go:909-928] toggleSafeMode: a body that is not JSON,
    or its [enabled]; the reply and the state. *)
Definition toggleSafeMode (s : option bool) (body : option (option bool)) :
    Reply (bool * string) * option bool :=
  match body with
  | None => (Detail 400 "invalid JSON body", s)
  | Some None => (Detail 400 "enabled is required", s)
  | Some (Some e) =>
      let '(previous, s') := SetEnabled s e in
      let word (b : bool) := if b then "enabled" else "disabled" in
      (Json 200 (e, "Safe mode " +:+ word e +:+ " (was " +:+ word previous +:+ ")"), s')
  end.

Example client_v6 : getClientIP (MkRequest "GET" "/tasks" "" "" "[::1]:5050") = "::1".
Proof. reflexivity. Qed.
Example client_v4 : getClientIP (MkRequest "GET" "/tasks" "" "" "10.0.0.7:5050") = "10.0.0.7".
Proof. reflexivity. Qed.
Example client_forwarded :
  getClientIP (MkRequest "GET" "/tasks" "" " 1.2.3.4 , 9.9.9.9" "10.0.0.7:5050") = "1.2.3.4".
Proof. reflexivity. Qed.

(** ** What a refusal means *)

(** The requests a scope allows. *)
Definition permitted (scope method path : string) : Prop :=
  method ∈ scopeAllowedMethods scope ∧
  (∀ p, p ∈ adminOnlyPrefixes → has_prefix p path = true → scope = ScopeAdmin) ∧
  (∀ p, p ∈ operatorOnlyPrefixes → has_prefix p path = true →
     scope = ScopeAdmin ∨ scope = ScopeOperator).

Lemma existsb_string s l : existsb (String.eqb s) l = true ↔ s ∈ l.
Proof.
  rewrite existsb_exists. setoid_rewrite list_elem_of_In. split.
  - by intros (x & Hx & ->%String.eqb_eq).
  - intros Hs. exists s. by rewrite String.eqb_refl.
Qed.
Lemma prefixed_false l path (P : Prop) :
  existsb (λ p, has_prefix p path) l = false →
  ∀ p, p ∈ l → has_prefix p path = true → P.
Proof.
  intros Hl p Hp Hpre. exfalso. assert (existsb (λ p, has_prefix p path) l = true); [|congruence].
  apply existsb_exists. exists p. by rewrite <-list_elem_of_In.
Qed.

Lemma prefixed_false_inv l path :
  (∀ p, p ∈ l → has_prefix p path = true → False) →
  existsb (λ p, has_prefix p path) l = false.
Proof.
  intros Hl. apply not_true_iff_false. intros (p & Hp & Hpre)%existsb_exists.
  apply (Hl p); [by apply list_elem_of_In|done].
Qed.

Lemma checkScope_permitted scope method path :
  checkScope scope method path = "" ↔ permitted scope method path.
Proof.
  unfold checkScope, permitted.
  destruct (existsb _ adminOnlyPrefixes) eqn:Ea; cbn [andb].
  - destruct (scope =?s ScopeAdmin) eqn:Es; cbn [negb andb].
    + apply String.eqb_eq in Es as ->. rewrite !andb_false_r.
      destruct (existsb _ (scopeAllowedMethods _)) eqn:Em; cbn [negb].
      * apply existsb_string in Em. split; [intros _|done]. split; [done|split; auto].
      * split; [done|]. intros (Hm%existsb_string & _). congruence.
    + split; [done|]. intros (_ & Ha & _). apply existsb_exists in Ea as (p & Hp & Hpre).
      apply String.eqb_neq in Es. destruct Es. eapply Ha; [by apply list_elem_of_In|done].
  - destruct (existsb _ operatorOnlyPrefixes) eqn:Eo; cbn [andb].
    + destruct (scope =?s ScopeAdmin) eqn:Es; [|destruct (scope =?s ScopeOperator) eqn:Es'];
        cbn [negb andb].
      3:{ split; [done|]. intros (_ & _ & Ho). apply existsb_exists in Eo as (p & Hp & Hpre).
          apply String.eqb_neq in Es, Es'.
          edestruct Ho; [by apply list_elem_of_In|done|done|done]. }
      all: destruct (existsb _ (scopeAllowedMethods _)) eqn:Em; cbn [negb];
        [apply existsb_string in Em; split; [|done]; intros _; split_and!; [done| |]
        |split; [done|]; intros (Hm%existsb_string & _); congruence].
      all: try by eapply prefixed_false.
      all: intros _ _ _; rewrite ?String.eqb_eq in *; auto.
    + destruct (existsb _ (scopeAllowedMethods _)) eqn:Em; cbn [negb].
      * apply existsb_string in Em. split; [|done]. intros _.
        split_and!; [done|by eapply prefixed_false..].
      * split; [done|]. intros (Hm%existsb_string & _). congruence.
Qed.

(** The token a request presents. *)
Definition token (r : Request) : string := trim_space (trim_prefix "Bearer " (req_authorization r)).
Definition bears_token (r : Request) : bool :=
  has_prefix "Bearer " (req_authorization r) && negb (token r =?s "").
Definition key_of (r : Request) (k : ApiKeyRow) : bool :=
  (key_hash k =?s Sha256.sum_hex (token r)) && usable k.

Section Refusals.
Context `{Env} {A : Type}.

(** Why a request is refused at time [now]. *)
Inductive refused_for (r : Request) (now : Z) (a : AuthSys) : Answer A → Prop :=
  | for_block expiry msg :
      blocked (a_limiter a) !! getClientIP r = Some expiry → now <= expiry →
      refused_for r now a (Refused 403 "source_blocked" msg)
  | for_missing_token msg :
      bears_token r = false → refused_for r now a (Refused 401 "missing_token" msg)
  | for_unknown_key msg :
      bears_token r = true → (∀ k, k ∈ a_keys a → key_of r k = false) →
      refused_for r now a (Refused 401 "invalid_token" msg)
  | for_scope k msg :
      k ∈ a_keys a → key_of r k = true → ¬ permitted (key_scope k) (req_method r) (req_path r) →
      refused_for r now a (Refused 403 "insufficient_scope" msg)
  | for_fault n msg :
      fault n = Some msg →
      refused_for r now a (Answered (Detail 500 "failed to validate API key")).

(** Who may be served. *)
Definition admitted (r : Request) (a : AuthSys) (who : option APIKeyRecord) : Prop :=
  match who with
  | None => isPublicPath (req_path r) = true
  | Some key => bears_token r = true ∧ ∃ k, k ∈ a_keys a ∧ key_of r k = true ∧
      key = key_record k ∧ permitted (key_scope k) (req_method r) (req_path r)
  end.

Lemma head_key r l k :
  head (filter (λ k, ((key_hash k =?s Sha256.sum_hex (token r)) && usable k) = true) l) = Some k →
  k ∈ l ∧ key_of r k = true.
Proof.
  intros Hk. assert (k ∈ filter (λ k, ((key_hash k =?s Sha256.sum_hex (token r)) && usable k)
    = true) l) as Hin by (destruct (filter _ l); simplify_eq/=; left).
  apply list_elem_of_filter in Hin. unfold key_of. tauto.
Qed.
Lemma head_no_key r l :
  head (filter (λ k, ((key_hash k =?s Sha256.sum_hex (token r)) && usable k) = true) l) = None →
  ∀ k, k ∈ l → key_of r k = false.
Proof.
  intros Hn k Hk. apply not_true_iff_false. intros Hkey.
  assert (k ∈ filter (λ k, ((key_hash k =?s Sha256.sum_hex (token r)) && usable k) = true) l)
    as Hin by (apply list_elem_of_filter; split; [exact Hkey|done]).
  destruct (filter _ l); [by apply not_elem_of_nil in Hin|discriminate Hn].
Qed.
End Refusals.

(** ** A run of the middleware *)

Definition status {A} (ans : Answer A) : Z :=
  match ans with Answered rep => reply_status rep | Refused st _ _ => st end.
Definition answered {A} (r : res (Reply A)) : res (Answer A) :=
  match r with Ok rep => Ok (Answered rep) | Err e => Err e end.

Section Runs.
Context `{Env} {A : Type} (next : option APIKeyRecord → Handler A).

(** Served by the handler behind it, or refused; and what becomes of the tracker. *)
Inductive handled (r : Request) (n : N) (a : AuthSys) : res (Answer A) → N → AuthSys → Prop :=
  | was_public rep n' s' :
      admitted r a None → next None n (a_sys a) = (rep, (n', s')) →
      handled r n a (answered rep) n' (MkAuth s' (a_keys a) (a_limiter a))
  | was_key key b m n1 rep n' s' :
      isPublicPath (req_path r) = false → admitted r a (Some key) →
      IsBlocked (getClientIP r) n (a_limiter a) = (Ok false, (m, b)) → (m <= n1)%N →
      next (Some key) n1 (a_sys a) = (rep, (n', s')) →
      handled r n a (answered rep) n'
        (MkAuth s' (a_keys a) (b <| failures := delete (getClientIP r) (failures b) |>))
  | was_blocked ans m b :
      isPublicPath (req_path r) = false → refused_for r (clock n) a ans → status ans = 403 →
      IsBlocked (getClientIP r) n (a_limiter a) = (Ok true, (m, b)) →
      handled r n a (Ok ans) m (MkAuth (a_sys a) (a_keys a) b)
  | was_spared ans m b n' :
      isPublicPath (req_path r) = false → refused_for r (clock n) a ans →
      status ans = 403 ∨ status ans = 500 → IsBlocked (getClientIP r) n (a_limiter a) = (Ok false, (m, b)) →
      (m <= n')%N → handled r n a (Ok ans) n' (MkAuth (a_sys a) (a_keys a) b)
  | was_counted ans m b m' n' b' :
      isPublicPath (req_path r) = false → refused_for r (clock n) a ans → status ans = 401 →
      IsBlocked (getClientIP r) n (a_limiter a) = (Ok false, (m, b)) → (m <= m')%N →
      RecordFailure (getClientIP r) m' b = (Ok tt, (n', b')) →
      handled r n a (Ok ans) n' (MkAuth (a_sys a) (a_keys a) b').

Lemma is_blocked_cases source n b :
  ∃ m b', (n <= m)%N ∧
    ((IsBlocked source n b = (Ok false, (m, b')) ∧
        ∀ e, blocked b !! source = Some e → e < clock n) ∨
     (IsBlocked source n b = (Ok true, (m, b')) ∧ b' = b ∧
        ∃ e, blocked b !! source = Some e ∧ clock n <= e)).
Proof.
  unfold IsBlocked. destruct (blocked b !! source) as [e|] eqn:E.
  - destruct (e <? clock n) eqn:Hlt.
    + apply Z.ltb_lt in Hlt. do 2 eexists. split; [|left; split; [done|]].
      * lia.
      * by intros ? [= <-].
    + apply Z.ltb_ge in Hlt. do 2 eexists. split; [|right; eauto]. lia.
  - do 2 eexists. split; [|left; split; [done|by intros]]. lia.
Qed.

Lemma Middleware_handled r n a :
  let '(res, (n', a')) := Middleware next r n a in handled r n a res n' a'.
Proof.
  unfold Middleware. destruct (isPublicPath (req_path r)) eqn:Hpub.
  { unfold bind, on_server. destruct (next None n (a_sys a)) as [[rep|e] [n' s']] eqn:Hn;
      (eapply (was_public r n a) in Hn; [exact Hn|done]). }
  destruct (is_blocked_cases (getClientIP r) n (a_limiter a)) as (m & b & Hm & [[Hb Hold]|(Hb & -> & e & He & Hle)]).
  2:{ unfold bind, on_limiter. rewrite Hb. cbn.
      eapply (was_blocked r n a _ m (a_limiter a)); [done|by eapply for_block|done|exact Hb]. }
  unfold bind at 1. unfold on_limiter at 1. rewrite Hb.
  destruct (has_prefix "Bearer " (req_authorization r)) eqn:Hbearer; cbn [negb].
  2:{ eapply (was_counted r n a _ m b m); [done| |done|exact Hb|done|reflexivity].
      apply for_missing_token. unfold bears_token. by rewrite Hbearer. }
  fold (token r). destruct (token r =?s "") eqn:Htok; cbn [negb].
  { eapply (was_counted r n a _ m b m); [done| |done|exact Hb|done|reflexivity].
    apply for_missing_token. unfold bears_token. by rewrite Hbearer, Htok. }
  assert (Hbears : bears_token r = true) by (unfold bears_token; by rewrite Hbearer, Htok).
  unfold GetAPIKeyByHash, query, stmt, attempt, bind.
  destruct (fault m) as [msg|] eqn:Hf.
  { eapply (was_spared r n a _ m b); [done|by eapply for_fault|cbn; lia|exact Hb|lia]. }
  cbn [a_keys update]. destruct (head _) as [k|] eqn:Hk; cbn [fmap option_fmap option_map].
  2:{ eapply (was_counted r n a _ m b (N.succ m)); [done| |done|exact Hb|lia|reflexivity].
      by apply for_unknown_key, head_no_key. }
  apply head_key in Hk as [Hin Hkey]. cbn [ak_scope key_record].
  destruct (checkScope _ _ _ =?s "") eqn:Hscope; cbn [negb].
  - apply String.eqb_eq, checkScope_permitted in Hscope.
    unfold on_limiter, on_server, Reset. cbn.
    destruct (next _ (N.succ m) _) as [[rep|e] [n' s']] eqn:Hn;
      (eapply (was_key r n a (key_record k)) in Hn; [exact Hn|done| |exact Hb|lia]);
      split; eauto 10.
  - apply String.eqb_neq in Hscope. rewrite checkScope_permitted in Hscope.
    eapply (was_spared r n a _ m b); [done|by eapply for_scope|cbn; lia|exact Hb|lia].
Qed.

(** ** The property of the middleware *)

(** C28: the middleware never touches the keys, and either hands the request over
    unchanged to the handler behind it, for a public path or in the name of a key that
    is active, not revoked, whose SHA-256 the presented token has and whose scope
    permits the method and the path; or leaves the server alone and refuses, for the
    reason its answer states: a source still blocked, no token, no such key, a scope
    that does not permit the request, or a failing key lookup. *)
Theorem auth_spec r n a :
  let '(res, (_, a')) := Middleware next r n a in
  a_keys a' = a_keys a ∧
  ((∃ who n1 n2 rep, admitted r a who ∧
      next who n1 (a_sys a) = (rep, (n2, a_sys a')) ∧ res = answered rep) ∨
   (a_sys a' = a_sys a ∧ ∃ ans, res = Ok ans ∧ refused_for r (clock n) a ans)).
Proof.
  pose proof (Middleware_handled r n a) as Hr.
  destruct (Middleware next r n a) as [res [n' a']].
  destruct Hr; (split; [done|]); try (right; by eauto).
  - left. exists None. eauto 10.
  - left. exists (Some key). eauto 10.
Qed.

(** ** How many guesses a source has *)

(** Requests served one after the other. *)
Fixpoint serve_all (reqs : list Request) (n : N) (a : AuthSys) :
    list (res (Answer A)) * (N * AuthSys) :=
  match reqs with
  | [] => ([], (n, a))
  | r :: reqs' =>
      let '(o, (n1, a1)) := Middleware next r n a in
      let '(os, fin) := serve_all reqs' n1 a1 in (o :: os, fin)
  end.

(** The answer tells the source that what it presented is not a key. *)
Definition guess_failed (o : res (Answer A)) : bool :=
  match o with Ok (Refused st _ _) => st =? 401 | _ => false end.
Definition failed_guess (x : string) (r : Request) (o : res (Answer A)) : nat :=
  if decide (getClientIP r = x) then if guess_failed o then 1%nat else O else O.
Definition failed_guesses (x : string) (reqs : list Request) (os : list (res (Answer A))) : nat :=
  sum_list (zip_with (failed_guess x) reqs os).

(** The source has no key. *)
Definition keyless (x : string) (keys : list ApiKeyRow) (r : Request) : Prop :=
  getClientIP r = x → ∀ k, k ∈ keys → key_of r k = false.

Context (x : string).
Context (Hmono : ∀ i j, (i <= j)%N → clock i <= clock j).
Context (Hnext : ∀ who m s, (m <= (next who m s).2.1)%N).

Definition same_settings (b b' : bruteForceTracker) : Prop :=
  maxAttempts b' = maxAttempts b ∧ window b' = window b ∧ block b' = block b.

Definition since (t : Z) (l : list Z) : list Z := filter (λ ts, t <= ts) l.
(** The source has failed [k] times since [t]. *)
Definition watched (t : Z) (k : nat) (b : bruteForceTracker) : Prop :=
  (k <= length (since t (default [] (failures b !! x))))%nat ∧
  (∀ e, blocked b !! x = Some e → t + block b <= e) ∧
  (maxAttempts b <= Z.of_nat k → is_Some (blocked b !! x)).

Lemma IsBlocked_frame source n b v m b' :
  IsBlocked source n b = (Ok v, (m, b')) →
  (n <= m)%N ∧ same_settings b b' ∧
  (source ≠ x → failures b' !! x = failures b !! x ∧ blocked b' !! x = blocked b !! x).
Proof.
  unfold IsBlocked, same_settings. intros Hb.
  destruct (blocked b !! source); [case_match|]; simplify_eq/=; (split; [lia|]);
    (split; [done|]); intros Hx; by rewrite ?lookup_delete_ne.
Qed.

Lemma RecordFailure_frame source n b m b' :
  RecordFailure source n b = (Ok tt, (m, b')) →
  m = N.succ n ∧ same_settings b b' ∧
  (source ≠ x → failures b' !! x = failures b !! x ∧ blocked b' !! x = blocked b !! x).
Proof.
  unfold RecordFailure, same_settings. intros Hb. simplify_eq/=.
  split; [done|]. case_match; cbn; (split; [done|]); intros Hx; by rewrite ?lookup_insert_ne.
Qed.


Lemma handled_frame r n a o n' a' :
  handled r n a o n' a' →
  (n <= n')%N ∧ a_keys a' = a_keys a ∧ same_settings (a_limiter a) (a_limiter a').
Proof.
  assert (Hserve : ∀ who m s rep m' s', next who m s = (rep, (m', s')) → (m <= m')%N).
  { intros who m s rep m' s' E. specialize (Hnext who m s). by rewrite E in Hnext. }
  intros [rep n1 s1 ? Hn|key b m n1 rep n2 s1 ? ? Hb ? Hn|ans m b ? ? ? Hb
         |ans m b n1 ? ? ? Hb ?|ans m b m1 n1 b1 ? ? ? Hb ? Hf].
  - apply Hserve in Hn. done.
  - apply Hserve in Hn. apply IsBlocked_frame in Hb as (? & ? & _). split_and!; [lia|done..].
  - by apply IsBlocked_frame in Hb as (? & ? & _).
  - apply IsBlocked_frame in Hb as (? & ? & _). split_and!; [lia|done..].
  - apply IsBlocked_frame in Hb as (? & (? & ? & ?) & _).
    apply RecordFailure_frame in Hf as (-> & (? & ? & ?) & _).
    split_and!; [lia|done|]. unfold same_settings; cbn. split_and!; congruence.
Qed.

Lemma watched_same t k b b' :
  same_settings b b' → failures b' !! x = failures b !! x → blocked b' !! x = blocked b !! x →
  watched t k b → watched t k b'.
Proof. unfold watched. intros (-> & _ & ->) -> ->. done. Qed.

Lemma answered_not_failed rep : guess_failed (answered rep) = false.
Proof. by destruct rep. Qed.
Lemma refused_not_failed (ans : Answer A) : status ans ≠ 401 → guess_failed (Ok ans) = false.
Proof. destruct ans as [rep|st c m]; cbn; [done|]. intros. by apply Z.eqb_neq. Qed.

(** A request of somebody else leaves the count of the source alone. *)
Lemma handled_other r n a o n' a' t k :
  handled r n a o n' a' → getClientIP r ≠ x → watched t k (a_limiter a) →
  watched t k (a_limiter a').
Proof.
  intros Hr Hx Hw.
  assert (Hset := proj2 (proj2 (handled_frame _ _ _ _ _ _ Hr))).
  eapply watched_same; [exact Hset| | |exact Hw];
    destruct Hr as [rep n1 s1 ? Hn|key b m n1 rep n2 s1 ? ? Hb ? Hn|ans m b ? ? ? Hb
         |ans m b n1 ? ? ? Hb ?|ans m b m1 n1 b1 ? ? ? Hb ? Hf]; cbn; try done;
    apply IsBlocked_frame in Hb as (_ & _ & Hb); specialize (Hb Hx) as [Hfb Hbb];
    rewrite ?lookup_delete_ne by done; try done;
    apply RecordFailure_frame in Hf as (_ & _ & Hf); specialize (Hf Hx) as [? ?]; cbn in *; congruence.
Qed.

Lemma recent_keeps cutoff t l :
  cutoff < t → since t (recent cutoff l) = since t l.
Proof.
  intros Ht. unfold recent, since. rewrite list_filter_filter_l; [done|]. intros; lia.
Qed.

(** Recording a failure counts it, and blocks the source at the limit. *)
Lemma RecordFailure_watched n b m b' t k :
  RecordFailure x n b = (Ok tt, (m, b')) →
  0 <= window b < 2 ^ 63 → clock n - t < window b → t <= clock n →
  (k <= length (since t (default [] (failures b !! x))))%nat →
  (∀ e, blocked b !! x = Some e → t + block b <= e) → watched t (S k) b'.
Proof.
  unfold RecordFailure. intros Hrun Hw Hn Ht Hk Hb.
  rewrite wrap64_small in Hrun by lia.
  set (old := default [] (failures b !! x)) in *.
  set (cur := recent (clock n + - window b) old ++ [clock n]) in *.
  assert (Hcur : (S k <= length (since t cur))%nat).
  { unfold cur, since. rewrite filter_app, length_app. fold (since t (recent (clock n + - window b) old)).
    rewrite recent_keeps by lia. rewrite filter_cons_True by done. cbn. lia. }
  assert (Hlen : (S k <= length cur)%nat).
  { etransitivity; [exact Hcur|]. apply length_filter. }
  injection Hrun as _ <-. unfold watched.
  destruct (maxAttempts b <=? Z.of_nat (length cur)) eqn:Hmax; cbn;
    rewrite lookup_insert_eq; cbn; split_and!; try done.
  - rewrite lookup_insert_eq. intros e [= <-]. lia.
  - rewrite lookup_insert_eq. by eexists.
  - apply Z.leb_gt in Hmax. intros. lia.
Qed.

(** A request of the source without a key, while its first failure is recent: it
    is counted, unless the limit is reached already. *)
Lemma handled_guess r n a o n' a' t k :
  handled r n a o n' a' → getClientIP r = x → keyless x (a_keys a) r →
  0 <= window (a_limiter a) < 2 ^ 63 →
  t <= clock n → clock n' - t < window (a_limiter a) → clock n' - t <= block (a_limiter a) →
  watched t k (a_limiter a) →
  let failed := if guess_failed o then 1%nat else O in
  watched t (failed + k) (a_limiter a') ∧
  (failed = 1%nat → Z.of_nat k < maxAttempts (a_limiter a)).
Proof.
  intros Hr Hx Hkey Hwin Ht Hend Hblock Hw. pose proof Hw as (Hcount & Hexp & Hmax).
  assert (Hle := proj1 (handled_frame _ _ _ _ _ _ Hr)).
  assert (Hclear : ∀ m b, IsBlocked x n (a_limiter a) = (Ok false, (m, b)) →
    b = a_limiter a ∧ m = n ∧ blocked (a_limiter a) !! x = None).
  { intros m b. unfold IsBlocked. destruct (blocked _ !! x) as [e|] eqn:E; [|by intros [= -> ->]].
    specialize (Hexp e eq_refl). assert (clock n <= clock n') by by apply Hmono.
    destruct (e <? clock n) eqn:Hlt; [|done]. apply Z.ltb_lt in Hlt. lia. }
  destruct Hr as [rep n1 s1 ? Hn|key b m n1 rep n2 s1 ? Hadm Hb ? Hn|ans m b ? ? Hst Hb
         |ans m b n1 ? ? Hst Hb ?|ans m b m1 n1 b1 ? Hfor Hst Hb ? Hf];
    rewrite ?Hx in *; cbn [a_limiter].
  - rewrite answered_not_failed. done.
  - destruct Hadm as (_ & k0 & Hin & Hk0 & _). rewrite (Hkey Hx k0 Hin) in Hk0. done.
  - rewrite refused_not_failed by lia. split; [|done].
    unfold IsBlocked in Hb. destruct (blocked _ !! x); [|done]. case_match; [done|].
    all: injection Hb as _ <-; done.
  - rewrite refused_not_failed by lia. by destruct (Hclear _ _ Hb) as (-> & _ & _).
  - destruct (Hclear _ _ Hb) as (-> & -> & Hnone).
    assert (Hnew : Z.of_nat k < maxAttempts (a_limiter a)).
    { apply Z.nle_gt. intros [e He]%Hmax. congruence. }
    assert (guess_failed (Ok ans) = true) as ->.
    { destruct ans as [rep|]; cbn in *; [inversion Hfor; subst; done|by apply Z.eqb_eq]. }
    split; [|done]. assert (Hm : n1 = N.succ m1) by by apply RecordFailure_frame in Hf as (? & _).
    assert (clock m1 <= clock n1) by (apply Hmono; lia).
    assert (clock n <= clock m1) by by apply Hmono.
    eapply RecordFailure_watched; [exact Hf|..]; try done; lia.
Qed.

Lemma serve_all_le reqs n a : (n <= (serve_all reqs n a).2.1)%N.
Proof.
  revert n a. induction reqs as [|r reqs IH]; intros n a; cbn [serve_all]; [done|].
  pose proof (Middleware_handled r n a) as Hr.
  destruct (Middleware next r n a) as [o [n1 a1]].
  apply handled_frame in Hr as (Hn & _). specialize (IH n1 a1).
  destruct (serve_all reqs n1 a1) as [os [n' a']]. cbn in *. lia.
Qed.

(** The count over a run, from the first failure on. *)
Lemma watched_bound reqs n a t k :
  let '(os, (n', _)) := serve_all reqs n a in
  Forall (keyless x (a_keys a)) reqs → 0 <= window (a_limiter a) < 2 ^ 63 →
  t <= clock n → clock n' - t < window (a_limiter a) → clock n' - t <= block (a_limiter a) →
  watched t k (a_limiter a) →
  (failed_guesses x reqs os + k <= Nat.max k (Z.to_nat (maxAttempts (a_limiter a))))%nat.
Proof.
  revert n a k. induction reqs as [|r reqs IH]; intros n a k; cbn [serve_all]; [intros; cbn; lia|].
  pose proof (Middleware_handled r n a) as Hr.
  destruct (Middleware next r n a) as [o [n1 a1]] eqn:E.
  pose proof (handled_frame _ _ _ _ _ _ Hr) as (Hn & Hkeys & Hset & Hwin & Hblk).
  specialize (IH n1 a1). pose proof (serve_all_le reqs n1 a1) as Hn1.
  destruct (serve_all reqs n1 a1) as [os [n' a']]. cbn in Hn1.
  intros [Hk Hks]%Forall_cons Hw Ht Hend Hblock Hwatch.
  rewrite Hkeys, Hwin, Hblk, Hset in IH.
  assert (clock n <= clock n1) by by apply Hmono. assert (clock n1 <= clock n') by by apply Hmono.
  unfold failed_guesses. cbn [zip_with sum_list]. unfold failed_guess at 1.
  fold (failed_guesses x reqs os). case_decide as Hx.
  - destruct (handled_guess _ _ _ _ _ _ t k Hr Hx Hk Hw) as [Hw' Hlim]; [lia..|done|].
    specialize (IH _ Hks Hw ltac:(lia) Hend Hblock Hw').
    destruct (guess_failed o); [specialize (Hlim eq_refl)|]; unfold id; lia.
  - specialize (IH k Hks Hw ltac:(lia) Hend Hblock (handled_other _ _ _ _ _ _ _ _ Hr Hx Hwatch)).
    unfold id; lia.
Qed.

(** A failed guess starts the count. *)
Lemma handled_first r n a o n' a' :
  handled r n a o n' a' → getClientIP r = x → 0 < window (a_limiter a) < 2 ^ 63 →
  guess_failed o = true →
  ∃ t, clock n <= t <= clock n' ∧ watched t 1 (a_limiter a').
Proof.
  intros Hr Hx Hwin Ho.
  destruct Hr as [rep n1 s1 ? Hn|key b m n1 rep n2 s1 ? Hadm Hb ? Hn|ans m b ? ? Hst Hb
         |ans m b n1 ? ? Hst Hb ?|ans m b m1 n1 b1 ? Hfor Hst Hb ? Hf];
    [(by rewrite answered_not_failed in Ho)|(by rewrite answered_not_failed in Ho)
    |(by rewrite refused_not_failed in Ho by lia)|(by rewrite refused_not_failed in Ho by lia)|].
  pose proof (IsBlocked_frame _ _ _ _ _ _ Hb) as (Hm & (_ & Hw & _) & _).
  pose proof (RecordFailure_frame _ _ _ _ _ Hf) as (-> & _). rewrite Hx in *.
  assert (Hfree : blocked b !! x = None).
  { unfold IsBlocked in Hb. destruct (blocked (a_limiter a) !! x) eqn:E; [case_match|];
      simplify_eq/=; [apply lookup_delete_eq|done]. }
  exists (clock m1). split; [split; apply Hmono; lia|].
  eapply RecordFailure_watched; [exact Hf|rewrite ?Hw; lia..| |]; [cbn; lia|].
  intros e He. congruence.
Qed.

Lemma guesses_counted reqs n a :
  let '(os, (n', _)) := serve_all reqs n a in
  Forall (keyless x (a_keys a)) reqs → 0 < window (a_limiter a) < 2 ^ 63 →
  clock n' - clock n < window (a_limiter a) → clock n' - clock n <= block (a_limiter a) →
  (failed_guesses x reqs os <= Nat.max 1 (Z.to_nat (maxAttempts (a_limiter a))))%nat.
Proof.
  revert n a. induction reqs as [|r reqs IH]; intros n a; cbn [serve_all]; [intros; cbn; lia|].
  pose proof (Middleware_handled r n a) as Hr.
  destruct (Middleware next r n a) as [o [n1 a1]] eqn:E.
  pose proof (handled_frame _ _ _ _ _ _ Hr) as (Hn & Hkeys & Hset & Hwin & Hblk).
  specialize (IH n1 a1). pose proof (serve_all_le reqs n1 a1) as Hn1.
  pose proof (λ t, watched_bound reqs n1 a1 t 1) as Hwb.
  destruct (serve_all reqs n1 a1) as [os [n' a']]. cbn in Hn1.
  intros [Hk Hks]%Forall_cons Hw Hend Hblock.
  rewrite Hkeys, Hwin, Hblk, Hset in IH, Hwb.
  assert (clock n <= clock n1) by by apply Hmono. assert (clock n1 <= clock n') by by apply Hmono.
  unfold failed_guesses. cbn [zip_with sum_list]. unfold failed_guess at 1.
  fold (failed_guesses x reqs os).
  specialize (IH Hks Hw ltac:(lia) ltac:(lia)).
  case_decide as Hx; [|unfold id; lia]. destruct (guess_failed o) eqn:Ho; [|unfold id; lia].
  destruct (handled_first _ _ _ _ _ _ Hr Hx Hw Ho) as (t & [Ht1 Ht2] & Hwatch).
  specialize (Hwb t Hks ltac:(lia) ltac:(lia) ltac:(lia) ltac:(lia) Hwatch). unfold id. lia.
Qed.

(** A request is refused unexamined: the same answer is given to every request of its
    source, whatever it asks and presents, whatever keys there are and whatever handler is
    behind, and nothing is done but to read the clock. *)
Definition unexamined (r : Request) (n : N) (a : AuthSys) : Prop :=
  ∃ msg, ∀ (next' : option APIKeyRecord → Handler A) r' keys,
    getClientIP r' = getClientIP r → isPublicPath (req_path r') = false →
    let a' := a <| a_keys := keys |> in
    Middleware next' r' n a' = (Ok (Refused 403 "source_blocked" msg), (N.succ n, a')).
Definition lookup_failed (o : res (Answer A)) : Prop :=
  o = Ok (Answered (Detail 500 "failed to validate API key")) ∧ ∃ m msg, fault m = Some msg.

Lemma keyless_outcome r n a :
  (∀ k, k ∈ a_keys a → key_of r k = false) → isPublicPath (req_path r) = false →
  let o := (Middleware next r n a).1 in
  guess_failed o = true ∨ lookup_failed o ∨ unexamined r n a.
Proof.
  cbv zeta. intros Hkeys Hpub.
  destruct (is_blocked_cases (getClientIP r) n (a_limiter a))
    as (m & b & Hm & [[Hb Hold]|(Hb & -> & e & He & Hle)]).
  2:{ right; right. eexists. intros next' r' keys Hip Hpub'. cbv zeta. unfold Middleware.
      rewrite Hpub', Hip. unfold bind, on_limiter. unfold IsBlocked.
      change (a_limiter (a <| a_keys := keys |>)) with (a_limiter a). rewrite He.
      apply Z.ltb_ge in Hle. rewrite Hle. reflexivity. }
  assert (Hdet : Middleware next r n a = Middleware next r n a) by done.
  pose proof (Middleware_handled r n a) as Hr.
  destruct (Middleware next r n a) as [res [n' a']]. cbn [fst].
  destruct Hr as [rep n1 s1 ? Hn|key b' m1 n1 rep n2 s1 ? Hadm Hb' ? Hn|ans m1 b' ? ? Hst Hb'
         |ans m1 b' n1 ? Hfor Hst Hb' ?|ans m1 b' m2 n1 b1 ? Hfor Hst Hb' ? Hf]; [congruence| |congruence| |].
  - destruct Hadm as (_ & k0 & Hin & Hk0 & _). rewrite (Hkeys k0 Hin) in Hk0. done.
  - right; left. destruct Hfor as [e msg He Hle| | |k msg Hin Hk ?|k msg Hf]; cbn in Hst; try lia.
    + specialize (Hold e He). lia.
    + by rewrite (Hkeys k Hin) in Hk.
    + split; eauto.
  - left. destruct ans as [rep|]; cbn in *; [inversion Hfor; subst; done|by apply Z.eqb_eq].
Qed.

Lemma serve_all_at before r after n a :
  let '(_, (m, am)) := serve_all before n a in
  (serve_all (before ++ r :: after) n a).1 !! length before = Some (Middleware next r m am).1 ∧
  a_keys am = a_keys a.
Proof.
  revert n a. induction before as [|r0 before IH]; intros n a; cbn [serve_all app length].
  { destruct (Middleware next r n a) as [o [n1 a1]]. by destruct (serve_all after n1 a1) as [os fin]. }
  pose proof (Middleware_handled r0 n a) as Hr.
  destruct (Middleware next r0 n a) as [o [n1 a1]].
  apply handled_frame in Hr as (_ & Hkeys & _). specialize (IH n1 a1).
  destruct (serve_all before n1 a1) as [os [m am]].
  destruct (serve_all (before ++ r :: after) n1 a1) as [os' fin]. cbn. by rewrite <-Hkeys.
Qed.

(** C29: a source without a key has its guesses judged at most [maxAttempts] times
    (once, if that is less than one) in any period shorter than the window and no
    longer than the block, in which requests are served one after the other, whatever
    it and everybody else send.  Every other request of it for a path that is not public,
    unless the lookup of the key fails, is refused unexamined: no key is looked up and no
    handler is run, and the answer would be the same for any token and any keys. *)
Theorem guesses_bounded reqs n a :
  let '(os, (n', _)) := serve_all reqs n a in
  Forall (keyless x (a_keys a)) reqs → 0 < window (a_limiter a) < 2 ^ 63 →
  clock n' - clock n < window (a_limiter a) → clock n' - clock n <= block (a_limiter a) →
  (failed_guesses x reqs os <= Nat.max 1 (Z.to_nat (maxAttempts (a_limiter a))))%nat ∧
  ∀ before r after, reqs = before ++ r :: after → getClientIP r = x →
    isPublicPath (req_path r) = false →
    let '(_, (m, am)) := serve_all before n a in
    ∃ o, os !! length before = Some o ∧
      (guess_failed o = true ∨ lookup_failed o ∨ unexamined r m am).
Proof.
  pose proof (guesses_counted reqs n a) as Hcount.
  destruct (serve_all reqs n a) as [os [n' a']] eqn:E. intros Hk Hw Hend Hblock.
  split; [by apply Hcount|]. intros before r after -> Hx Hpub.
  pose proof (serve_all_at before r after n a) as Hat. rewrite E in Hat.
  destruct (serve_all before n a) as [os1 [m am]]. destruct Hat as [Hat Hkeys]. cbn [fst] in Hat.
  eexists. split; [exact Hat|]. apply keyless_outcome; [|done]. rewrite Hkeys.
  apply Forall_app in Hk as [_ [Hk _]%Forall_cons]. by apply Hk.
Qed.
End Runs.

(** ** A run *)

Definition demo_key : ApiKeyRow :=
  MkKeyRow "k1" (Sha256.sum_hex "secret") "bot" ScopeBot true None.
Definition demo_auth : AuthSys :=
  MkAuth empty_sys [demo_key] (newBruteForceTracker 3 60 60).
Definition asks (token : string) : Request :=
  MkRequest "GET" "/tasks" ("Bearer " +:+ token) "" "10.0.0.7:5050".
Definition demo_next (who : option APIKeyRecord) : Handler string :=
  json 200 (default "" (authenticatedKeyName who)).
Definition demo_asks : list Request := asks <$> ["a"; "b"; "c"; "d"; "secret"].

(** The fifth request has the key, but its source is blocked by then. *)
Example demo_served :
  let env := quiet_env 0 in
  (serve_all demo_next demo_asks 0 demo_auth).1
  = (let invalid := Ok (Refused 401 "invalid_token" "Invalid API key.") in
     let block := Ok (Refused 403 "source_blocked"
       "Too many failed authentication attempts. Try again later.") in
     [invalid; invalid; invalid; block; block]).
Proof. vm_compute. reflexivity. Qed.
Example demo_admitted :
  let env := quiet_env 0 in
  (serve_all demo_next [asks "a"; asks "secret"] 0 demo_auth).1
  = [Ok (Refused 401 "invalid_token" "Invalid API key."); Ok (Answered (Json 200 "bot"))].
Proof. vm_compute. reflexivity. Qed.

Lemma guesses_bounded_witness :
  let env := quiet_env 0 in
  let reqs := take 4 demo_asks in
  let '(os, _) := serve_all demo_next reqs 0 demo_auth in
  failed_guesses "10.0.0.7" reqs os = 3%nat ∧
  (failed_guesses "10.0.0.7" reqs os <= Nat.max 1 3)%nat.
Proof.
  assert (Hcalm : ∀ i j, (i <= j)%N → @clock (quiet_env 0) i <= @clock (quiet_env 0) j)
    by (intros i j Hij; cbn; lia).
  assert (Hnext : ∀ who m s, (m <= (demo_next who m s).2.1)%N) by (intros who m s; cbn; lia).
  pose proof (@guesses_bounded (quiet_env 0) string demo_next "10.0.0.7" Hcalm Hnext
    (take 4 demo_asks) 0 demo_auth) as Hbound.
  cbv zeta. destruct (serve_all _ _ _ _) as [os [n' a']] eqn:E.
  assert (os = (serve_all (H:=quiet_env 0) demo_next (take 4 demo_asks) 0 demo_auth).1) as Hos
    by (rewrite E; reflexivity).
  assert (n' = (serve_all (H:=quiet_env 0) demo_next (take 4 demo_asks) 0 demo_auth).2.1) as Hn
    by (rewrite E; reflexivity).
  vm_compute in Hos, Hn. subst os n'. split; [vm_compute; reflexivity|].
  apply Hbound.
  - repeat constructor; intros _ k Hk; apply list_elem_of_singleton in Hk as ->;
      vm_compute; reflexivity.
  - vm_compute. split; reflexivity.
  - vm_compute. reflexivity.
  - vm_compute. discriminate.
Defined.
