(* ===== verification/Gateway.v ===== *)
(** * The local model gateway

    [codexlocalgateway]: the OpenAI-compatible front of a local model.  Module
    [Responses] is its store of past conversations (store.go), [Compaction] what it
    does with a prompt that is too long for the model (server.go), [Settings] the
    normalised configuration and the bearer check. *)
From S2P Require Import Prelude GoVal Effects.

Definition newline : ascii := ascii_of_nat 10.
Definition newline_text : string := String newline "".

(** ** Messages *)

(** [codexlocalgateway/types.go:32-35] chatToolFunction. *)
Record chatToolFunction := MkFunction { fn_name : string; fn_arguments : string }.
(** [codexlocalgateway/types.go:26-30] chatToolCall. *)
Record chatToolCall := MkCall { call_id : string; call_type : string; call_function : chatToolFunction }.
(** [codexlocalgateway/types.go:19-24] chatMessage. *)
Record chatMessage := MkMessage {
  msg_role : string;
  msg_content : string;
  msg_tool_call_id : string;
  msg_tool_calls : list chatToolCall;
}.

(** ** Configuration *)
Module Settings.

(** [codexlocalgateway/config.go:27-46] Config; durations in nanoseconds. *)
Record Config := MkConfig {
  Addr : string;
  PublicBaseURL : string;
  APIKey : string;
  UpstreamBaseURL : string;
  UpstreamAPIKey : string;
  Model : string;
  UpstreamModel : string;
  RequestTimeout : Z;
  MaxBodyBytes : Z;
  RateLimitRPM : Z;
  RateLimitBurst : Z;
  DefaultMaxOutputTokens : Z;
  ContextWindow : Z;
  AutoCompactTokenLimit : Z;
  MaxPromptChars : Z;
  ResponseStoreTTL : Z;
  ResponseStoreMaxEntries : Z;
  LogLevel : string;
}.

(** [codexlocalgateway/config.go:72-118] normalized, with the defaults of
    [codexlocalgateway/config.go:10-25]. *)
Definition or_text (s fallback : string) : string := if s =?s "" then fallback else s.
Definition or_positive (z fallback : Z) : Z := if z <=? 0 then fallback else z.
Definition trim_right_slash (s : string) : string := trim_set_right "/" s.
Definition minute : Z := 60 * second.
Definition normalized (c : Config) : Config := {|
  Addr := or_text (Addr c) "127.0.0.1:8180";
  PublicBaseURL := trim_right_slash (PublicBaseURL c);
  APIKey := APIKey c;
  UpstreamBaseURL := trim_right_slash (or_text (UpstreamBaseURL c) "http://127.0.0.1:8080/v1");
  UpstreamAPIKey := UpstreamAPIKey c;
  Model := or_text (Model c) "qwen-local-code";
  UpstreamModel := or_text (UpstreamModel c) "coder";
  RequestTimeout := or_positive (RequestTimeout c) (180 * second);
  MaxBodyBytes := or_positive (MaxBodyBytes c) (2 * 1024 * 1024);
  RateLimitRPM := or_positive (RateLimitRPM c) 30;
  RateLimitBurst := or_positive (RateLimitBurst c) 3;
  DefaultMaxOutputTokens := or_positive (DefaultMaxOutputTokens c) 1024;
  ContextWindow := or_positive (ContextWindow c) 24000;
  AutoCompactTokenLimit := or_positive (AutoCompactTokenLimit c) 16000;
  MaxPromptChars := or_positive (MaxPromptChars c) 30000;
  ResponseStoreTTL := or_positive (ResponseStoreTTL c) (30 * minute);
  ResponseStoreMaxEntries := or_positive (ResponseStoreMaxEntries c) 256;
  LogLevel := LogLevel c;
|}.

(** [codexlocalgateway/middleware.go:55-73] authenticate: the error message, if the
    request with this [Authorization] header is refused. *)
Definition authenticate (c : Config) (auth : string) : option string :=
  if APIKey c =?s "" then None
  else if negb (has_prefix "Bearer " auth) then Some "missing bearer token"
  else if negb (trim_prefix "Bearer " auth =?s APIKey c) then Some "invalid bearer token"
  else None.
End Settings.

(** ** Past conversations *)
Module Responses.

(** [codexlocalgateway/store.go:8-11] responseState; messages are cloned on the way in
    and on the way out, so a stored conversation is a value. *)
Record responseState := MkState { messages : list chatMessage; expiresAt : Z }.

(** [codexlocalgateway/store.go:13-18] responseStore. *)
Record responseStore := MkStore {
  ttl : Z;
  maxEntries : Z;
  items : gmap string responseState;
}.
#[export] Instance eta_store : Eta responseStore := λ s,
  MkStore (ttl s) (maxEntries s) (items s).

(** [codexlocalgateway/store.go:20-32] newResponseStore. *)
Definition newResponseStore (ttl maxEntries : Z) : responseStore :=
  MkStore (if ttl <=? 0 then 30 * 60 * second else ttl)
    (if maxEntries <=? 0 then 256 else maxEntries) ∅.

Section Store.
Context `{Env}.
(** The order in which the [n]-th effect ranges over a map. *)
Context (range : N → gmap string responseState → list (string * responseState)).

(** [codexlocalgateway/store.go:34-46] get. *)
Definition get (id : string) : M responseStore (option (list chatMessage)) := λ n s,
  match items s !! id with
  | None => (Ok None, (n, s))
  | Some state =>
      if expiresAt state <? clock n
      then (Ok None, (N.succ n, s <| items := delete id (items s) |>))
      else (Ok (Some (messages state)), (N.succ n, s))
  end.

(** [codexlocalgateway/store.go:71-78] evictExpiredLocked. *)
Definition evictExpiredLocked : M responseStore unit := λ n s,
  (Ok tt, (N.succ n, s <| items :=
     filter (λ kv : string * responseState, ¬ expiresAt kv.2 < clock n) (items s) |>)).

(** [codexlocalgateway/store.go:48-69] set: the entry that expires first makes room. *)
Definition older (acc : string * Z) (kv : string * responseState) : string * Z :=
  if (acc.1 =?s "") || (expiresAt kv.2 <? acc.2) then (kv.1, expiresAt kv.2) else acc.
Definition full (s : responseStore) : bool :=
  maxEntries s <=? Z.of_nat (size (items s)).
Definition evictOldest : M responseStore unit := λ n s,
  let '(oldestID, _) := foldl older ("", 0) (range n (items s)) in
  (Ok tt, (N.succ n, s <| items := delete oldestID (items s) |>)).
Definition store_now (id : string) (msgs : list chatMessage) : M responseStore unit := λ n s,
  (Ok tt, (N.succ n, s <| items := <[id := MkState msgs (clock n + ttl s)]> (items s) |>)).
Definition when_full (m : M responseStore unit) : M responseStore unit := λ n s,
  if full s then m n s else (Ok tt, (n, s)).
Definition set (id : string) (msgs : list chatMessage) : M responseStore unit :=
  when_full evictExpiredLocked ;;; when_full evictOldest ;;; store_now id msgs.

(** ** What [set] keeps *)
Context (Hrange : ∀ n m, range n m ≡ₚ map_to_list m).

Lemma older_least l acc :
  acc.1 ≠ "" → Forall (λ kv, kv.1 ≠ "") l →
  let r := foldl older acc l in
  r.1 ≠ "" ∧ r.2 <= acc.2 ∧ Forall (λ kv, r.2 <= expiresAt kv.2) l ∧
  (r = acc ∨ ∃ kv, kv ∈ l ∧ r = (kv.1, expiresAt kv.2)).
Proof.
  intros Hacc Hl. revert acc Hacc. induction Hl as [|kv l Hkv Hl IH]; intros acc Hacc; cbn.
  { split_and!; [done|lia|done|by left]. }
  assert (Hstep : (older acc kv).1 ≠ "" ∧ (older acc kv).2 <= acc.2 ∧
    (older acc kv).2 <= expiresAt kv.2 ∧
    (older acc kv = acc ∨ older acc kv = (kv.1, expiresAt kv.2))).
  { unfold older. rewrite (proj2 (String.eqb_neq _ _) Hacc). cbn.
    destruct (Z.ltb_spec (expiresAt kv.2) acc.2); cbn; split_and!; auto; lia. }
  destruct Hstep as (Hne & Hle & Hlek & Hcase).
  destruct (IH _ Hne) as (Hr & Hrle & Hall & Hr'). split_and!; [done|lia| |].
  - constructor; [lia|done].
  - destruct Hr' as [->|(kv' & Hin & ->)].
    + destruct Hcase as [->| ->]; [by left|right]. exists kv. split; [left|done].
    + right. exists kv'. split; [by right|done].
Qed.

(** The victim is an entry that expires first. *)
Lemma oldest_spec n m :
  m !! "" = None → m ≠ ∅ →
  ∃ id st, (foldl older ("", 0) (range n m)).1 = id ∧ m !! id = Some st ∧
    ∀ id2 st2, m !! id2 = Some st2 → expiresAt st <= expiresAt st2.
Proof.
  intros Hempty Hm. pose proof (Hrange n m) as Hp.
  assert (Hkeys : Forall (λ kv : string * responseState, kv.1 ≠ "") (range n m)).
  { rewrite Hp. apply Forall_forall. intros [k st] Hk%elem_of_map_to_list. cbn. congruence. }
  destruct (range n m) as [|kv l] eqn:E.
  { symmetry in Hp. apply Permutation_nil_r, map_to_list_empty_iff in Hp. done. }
  apply Forall_cons in Hkeys as [Hkv Hl]. cbn [foldl].
  change (older ("", 0) kv) with (kv.1, expiresAt kv.2).
  destruct (older_least l (kv.1, expiresAt kv.2) Hkv Hl) as (_ & Hle & Hall & Hr). cbn in *.
  assert (Hin : ∀ id2 st2, m !! id2 = Some st2 → (id2, st2) ∈ kv :: l).
  { intros id2 st2 H2. by rewrite Hp, elem_of_map_to_list. }
  assert (Hrin : ∃ kv', kv' ∈ kv :: l ∧ foldl older (kv.1, expiresAt kv.2) l = (kv'.1, expiresAt kv'.2)).
  { destruct Hr as [->|(kv' & ? & ->)]; [exists kv|exists kv']; (split; [|done]); [left|by right]. }
  destruct Hrin as ([id st] & Hmem & Hr'). rewrite Hr' in *. cbn in *.
  exists id, st. rewrite Hp in Hmem. apply elem_of_map_to_list in Hmem. split_and!; [done..|].
  intros id2 st2 H2. apply Hin, elem_of_cons in H2 as [<-|H2]; [done|].
  rewrite Forall_forall in Hall. apply (Hall _ H2).
Qed.

Definition earliest (st : responseState) (m : gmap string responseState) : Prop :=
  ∀ id st', m !! id = Some st' → expiresAt st <= expiresAt st'.
Definition live (t : Z) (m : gmap string responseState) : gmap string responseState :=
  filter (λ kv : string * responseState, ¬ expiresAt kv.2 < t) m.

(** Making room: what is left when a full store is asked for it. *)
Lemma make_room n s :
  0 < maxEntries s → items s !! "" = None → Z.of_nat (size (items s)) <= maxEntries s →
  let '(r, (_, s')) := (when_full evictExpiredLocked ;;; when_full evictOldest) n s in
  r = Ok tt ∧ ttl s' = ttl s ∧ maxEntries s' = maxEntries s ∧ full s' = false ∧
  (s' = s ∨ full s = true ∧
     (items s' = live (clock n) (items s) ∨
      ∃ id st, items s !! id = Some st ∧ earliest st (items s) ∧
        live (clock n) (items s) = items s ∧ items s' = delete id (items s))).
Proof.
  intros Hmax Hempty Hsize. unfold when_full, bind.
  destruct (full s) eqn:Hfull.
  2:{ rewrite Hfull. split_and!; auto. }
  unfold evictExpiredLocked. cbn [fst snd]. fold (live (clock n) (items s)).
  set (s1 := s <| items := live (clock n) (items s) |>).
  assert (Hsub : live (clock n) (items s) ⊆ items s) by apply map_filter_subseteq.
  destruct (full s1) eqn:Hfull1.
  2:{ split_and!; auto. }
  assert (Hsame : live (clock n) (items s) = items s).
  { apply map_subseteq_size_eq; [done|].
    unfold full in Hfull, Hfull1. rewrite Z.leb_le in Hfull, Hfull1. cbn in *. lia. }
  unfold evictOldest.
  destruct (oldest_spec (N.succ n) (items s1)) as (id & st & Hid & Hst & Hleast).
  { cbn. by rewrite Hsame. }
  { intros He. unfold full in Hfull1. rewrite He, map_size_empty in Hfull1.
    rewrite Z.leb_le in Hfull1. cbn in *. lia. }
  destruct (foldl older _ _) as [oid oe]. cbn in Hid. subst oid. cbn in Hst, Hleast |- *.
  rewrite Hsame in *. split_and!; try done.
  - unfold full; cbn. apply Z.leb_gt. rewrite map_size_delete_Some by eauto.
    assert (0 < size (items s))%nat; [|lia].
    apply Nat.neq_0_lt_0. intros H0%map_size_empty_inv. rewrite H0 in Hst. done.
  - right. split; [done|right]. exists id, st. done.
Qed.

(** What became of an entry that [set] does not write. *)
Definition entry_lost (t : Z) (m m' : gmap string responseState) (id other : string) : Prop :=
  m' !! other = None ∧ ∃ st, m !! other = Some st ∧
    (expiresAt st < t ∨
     earliest st m ∧ ∀ third, third ≠ other → third ≠ id → m' !! third = m !! third).

(** Storing a conversation never exceeds the bound on entries, and until it
    expires the conversation is read back as it was stored.  Every other entry stays
    as it was unless the store is full: then the expired ones go, or, when there are
    none, exactly one that expires first. *)
Theorem set_spec id msgs n s :
  let '(r, (n', s')) := set id msgs n s in
  0 < maxEntries s → items s !! "" = None → Z.of_nat (size (items s)) <= maxEntries s →
  r = Ok tt ∧ Z.of_nat (size (items s')) <= maxEntries s ∧
  (∀ m, clock m <= clock (N.pred n') + ttl s → (get id m s').1 = Ok (Some msgs)) ∧
  ∀ other, other ≠ id →
    items s' !! other = items s !! other ∨
    full s = true ∧ entry_lost (clock n) (items s) (items s') id other.
Proof.
  destruct (set id msgs n s) as [r [n' s']] eqn:Hrun. intros Hmax Hempty Hsize.
  unfold set in Hrun. rewrite <-bind_assoc in Hrun.
  pose proof (make_room n s Hmax Hempty Hsize) as Hroom.
  destruct ((when_full evictExpiredLocked ;;; when_full evictOldest) n s) as [r1 [n1 s1]] eqn:E.
  destruct Hroom as (-> & Httl & Hmaxs & Hfull & Hcase).
  rewrite (bind_ok _ _ _ _ _ _ _ E) in Hrun. unfold store_now in Hrun.
  injection Hrun as <- <- <-. cbn [items maxEntries update]. rewrite N.pred_succ, Httl.
  split_and!; [done| | |].
  - unfold full in Hfull. rewrite Z.leb_gt, Hmaxs in Hfull. rewrite map_size_insert.
    destruct (items s1 !! id); unfold Datatypes.id; lia.
  - intros m Hm. unfold get. cbn. rewrite lookup_insert_eq. cbn.
    by rewrite (proj2 (Z.ltb_ge _ _)) by lia.
  - intros other Hne. rewrite lookup_insert_ne by done.
    destruct Hcase as [->|(Hfulls & [Hlive|(vid & st & Hst & Hleast & Hlive & Hdel)])]; [by left| |].
    + rewrite Hlive. unfold live. destruct (items s !! other) as [st|] eqn:Ho.
      2:{ left. by apply map_lookup_filter_None_2; left. }
      destruct (decide (expiresAt st < clock n)).
      * right. split; [done|]. split.
        -- rewrite lookup_insert_ne by done. apply map_lookup_filter_None_2. right.
           intros ? ?. naive_solver.
        -- eauto.
      * left. by apply map_lookup_filter_Some_2.
    + destruct (decide (other = vid)) as [->|Hvid].
      * right. split; [done|]. split.
        -- by rewrite lookup_insert_ne, Hdel, lookup_delete_eq by done.
        -- exists st. split; [done|right]. split; [done|]. intros third Ht Hid.
           by rewrite lookup_insert_ne, Hdel, lookup_delete_ne by done.
      * left. by rewrite Hdel, lookup_delete_ne by done.
Qed.
(** The bounds are never changed. *)
Definition same_bounds (s s' : responseStore) : Prop := ttl s' = ttl s ∧ maxEntries s' = maxEntries s.
Lemma set_bounds id msgs : respects same_bounds (set id msgs).
Proof.
  assert (PreOrder same_bounds).
  { split; [done|]. intros s1 s2 s3 [??] [??]. split; congruence. }
  assert (Hwhen : ∀ m, respects same_bounds m → respects same_bounds (when_full m)).
  { intros m Hm n s r n' s'. unfold when_full. destruct (full s); [apply Hm|by intros [= <- <- <-]]. }
  unfold set. apply respects_bind; [done| |intros _; apply respects_bind; [done| |intros _]].
  - apply Hwhen. by intros n s r n' s' [= <- <- <-].
  - apply Hwhen. intros n s r n' s'. unfold evictOldest. destruct (foldl _ _ _) as [id' t].
    by intros [= <- <- <-].
  - by intros n s r n' s' [= <- <- <-].
Qed.
End Store.

(** ** A run: a full store makes room for a fourth conversation. *)
Definition demo_range (_ : N) (m : gmap string responseState) : list (string * responseState) :=
  map_to_list m.
Definition demo_store : responseStore :=
  MkStore (60 * second) 3
    (list_to_map [("a", MkState [] (9 * second)); ("b", MkState [] (7 * second));
                  ("c", MkState [] (8 * second))]).
Lemma set_spec_witness :
  let env := quiet_env 0 in
  (set demo_range "d" [] 1%N demo_store).1 = Ok tt ∧
  (get "b" 9%N (set demo_range "d" [] 1%N demo_store).2.2).1 = Ok None ∧
  Z.of_nat (size (items (set demo_range "d" [] 1%N demo_store).2.2)) <= 3.
Proof.
  pose proof (@set_spec (quiet_env 0) demo_range (λ _ _, reflexivity _) "d" [] 1%N demo_store) as Hset.
  cbv zeta. split; [vm_compute; reflexivity|]. split; [vm_compute; reflexivity|].
  destruct (set demo_range "d" [] 1%N demo_store) as [r [n' s']].
  destruct Hset as (_ & Hsize & _); [vm_compute; reflexivity|reflexivity|vm_compute; discriminate|].
  exact Hsize.
Defined.
End Responses.

(** ** Prompts that are too long *)
Module Compaction.

(** [codexlocalgateway/server.go:821-830] chatPromptChars. *)
Definition call_chars (c : chatToolCall) : Z :=
  slen (fn_name (call_function c)) + slen (fn_arguments (call_function c)).
Definition message_chars (m : chatMessage) : Z :=
  slen (msg_content m) + foldr Z.add 0 (call_chars <$> msg_tool_calls m).
Definition chatPromptChars (messages : list chatMessage) : Z :=
  foldr Z.add 0 (message_chars <$> messages).

(** [codexlocalgateway/server.go:1090-1095] truncateInline. *)
Definition truncateInline (value : string) (max : Z) : string :=
  if (max <=? 0) || (slen value <=? max) then value
  else trim_space (stake (Z.to_nat max) value) +:+ "...".

(** [codexlocalgateway/server.go:1081-1088] firstNonEmptyString. *)
Definition firstNonEmptyString (values : list string) : string :=
  default "" (head (filter (λ s, s ≠ "") (trim_space <$> values))).

(** [codexlocalgateway/server.go:1014-1034] isConstraintLine. *)
Definition mentions (signals : list string) (line : string) : bool :=
  existsb (λ signal, contains signal (to_lower line)) signals.
Definition isConstraintLine (line : string) : bool :=
  mentions ["must"; "do not"; "don't"; "without touching"; "keep "; "verify"; "without ";
            "only "; "mandatory"; "abort"] line.

(** [codexlocalgateway/server.go:1036-1058] isChangeLine. *)
Definition isChangeLine (line : string) : bool :=
  mentions ["changed"; "modified"; "updated"; "files changed"; "git status"; "composer.lock";
            "package-lock"; "artisan"; "phpunit"] line
  || has_prefix "M " line || has_prefix "A " line || has_prefix "D " line.

(** [codexlocalgateway/server.go:1060-1079] isFailureLine. *)
Definition isFailureLine (line : string) : bool :=
  mentions ["error"; "failed"; "fatal"; "exception"; "traceback"; "non-zero"; "exit code";
            "status 4"; "status 5"] line.

(** [codexlocalgateway/server.go:992-1012] collectSignals: from the latest message back;
    what was [seen] is what is in [items]. *)
Fixpoint collect_lines (keep : string → bool) (limit : nat) (lines items : list string) :
    list string :=
  match lines with
  | [] => items
  | line :: lines' =>
      let line := truncateInline (trim_space line) 180 in
      if (line =?s "") || negb (keep line) then collect_lines keep limit lines' items
      else if existsb (String.eqb line) items then collect_lines keep limit lines' items
      else
        let items := items ++ [line] in
        if (length items =? limit)%nat then items else collect_lines keep limit lines' items
  end.
Fixpoint collect_back (keep : string → bool) (limit : nat) (rev_messages : list chatMessage)
    (items : list string) : list string :=
  match rev_messages with
  | [] => items
  | m :: ms =>
      if (length items <? limit)%nat
      then collect_back keep limit ms (collect_lines keep limit (split_on newline (msg_content m)) items)
      else items
  end.
Definition collectSignals (messages : list chatMessage) (keep : string → bool) (limit : nat) :
    list string :=
  collect_back keep limit (rev messages) [].

(** [codexlocalgateway/server.go:981-990] extractWorkspacePath. *)
Definition path_marks : string := "`'" +:+ String (ascii_of_nat 34) ",()[]".
Definition extractWorkspacePath (line : string) : string :=
  default "" (path_clean <$> head (filter (λ tok, (has_prefix "/Users/" tok
      || has_prefix "/workspace/" tok || (tok =?s "/workspace")) = true)
    (trim_set path_marks <$> fields line))).

(** [codexlocalgateway/server.go:962-979] latestWorkspace. *)
Definition workspace_of (m : chatMessage) : string :=
  default "" (head (filter (λ p, p ≠ "")
    ((λ line, extractWorkspacePath (trim_space line))
       <$> split_on newline (trim_space (msg_content m))))).
Definition latestWorkspace (messages : list chatMessage) : string :=
  default "" (head (filter (λ p, p ≠ "") (workspace_of <$> rev messages))).

(** [codexlocalgateway/server.go:907-960] latestObjective. *)
Definition compacted_mark : string := "Compacted previous context".
Definition speaks (m : chatMessage) : bool :=
  ((msg_role m =?s "user") || (msg_role m =?s "system"))
  && negb (trim_space (msg_content m) =?s "")
  && negb (contains compacted_mark (trim_space (msg_content m))).
Fixpoint user_task (lines : list string) : option string :=
  match lines with
  | [] => None
  | line :: rest =>
      let line := trim_space line in
      if has_prefix "user task:" (to_lower line) then
        let value := trim_space (trim_prefix "User task:" line) in
        if negb (value =?s "") then Some value
        else match head (filter (λ s, s ≠ "") (trim_space <$> rest)) with
             | Some follow => Some follow
             | None => user_task rest
             end
      else user_task rest
  end.
Fixpoint first_some {A} (l : list (option A)) : option A :=
  match l with [] => None | Some a :: _ => Some a | None :: l' => first_some l' end.
Definition mentioned_task (content : string) : string :=
  default content
    ((λ line, trim_space (trim_prefix "User task:" line))
       <$> head (filter (λ line, contains "user task:" (to_lower line) = true)
                  (trim_space <$> split_on newline content))).
Definition latestObjective (messages : list chatMessage) : string :=
  let contents := (λ m, trim_space (msg_content m))
    <$> filter (λ m, speaks m = true) (rev messages) in
  match first_some ((λ c, user_task (split_on newline c)) <$> contents) with
  | Some objective => objective
  | None => default "" (mentioned_task <$> head contents)
  end.

(** [codexlocalgateway/server.go:878-905] buildCompactionSummary. *)
Definition signal_line (title : string) (signals : list string) : list string :=
  match signals with [] => [] | _ => [title +:+ sjoin " | " signals] end.
Definition summary_lines (messages : list chatMessage) : list string :=
  let objective := firstNonEmptyString [latestObjective messages; "unknown"] in
  let workspace := firstNonEmptyString [latestWorkspace messages; "unknown"] in
  ["Compacted previous context for local lab model.";
   "Preserve these facts as authoritative:";
   "- Objective: " +:+ truncateInline objective 280;
   "- Workspace: " +:+ truncateInline workspace 180]
  ++ signal_line "- Constraints: " (collectSignals messages isConstraintLine 4)
  ++ signal_line "- Recent changes: " (collectSignals messages isChangeLine 3)
  ++ signal_line "- Recent validation errors: " (collectSignals messages isFailureLine 3)
  ++ ["Older transcript was discarded to stay within context. Keep the same repo, objective, and constraints."].
Definition buildCompactionSummary (messages : list chatMessage) : chatMessage :=
  MkMessage "system" (sjoin newline_text (summary_lines messages)) "" [].

(** [codexlocalgateway/server.go:832-848] compactMessages. *)
Definition kept_candidates (messages : list chatMessage) : list chatMessage :=
  filter (λ first, ((msg_role first =?s "system")
      && negb (contains compacted_mark (msg_content first))) = true) (take 1 messages)
  ++ drop (length messages - 2) messages.
Fixpoint shrink (limit : Z) (summary : chatMessage) (kept : list chatMessage) : list chatMessage :=
  match kept with
  | [] => [summary]
  | _ :: kept' =>
      if limit <? chatPromptChars (summary :: kept) then shrink limit summary kept'
      else summary :: kept
  end.
Definition compactMessages (messages : list chatMessage) (limit : Z) : list chatMessage :=
  if (length messages <=? 2)%nat then messages
  else shrink limit (buildCompactionSummary messages) (kept_candidates messages).

(** [codexlocalgateway/server.go:863-876] promptTooLargeError. *)
Definition promptTooLargeError (total limit : Z) (afterCompaction : bool) : GoError :=
  ErrText (if afterCompaction then
    "prompt text is too large for the local lab model after compaction: " +:+ pretty total
      +:+ " chars exceeds limit " +:+ pretty limit
      +:+ "; split the task, start a fresh local thread, or use native GPT for this task"
  else
    "prompt text is too large for the local lab model: " +:+ pretty total
      +:+ " chars exceeds limit " +:+ pretty limit
      +:+ "; split the task, reduce attached context, or use native GPT for this task").

(** [codexlocalgateway/server.go:784-793] enforceChatPromptSize. *)
Definition enforceChatPromptSize (limit : Z) (messages : list chatMessage) : option GoError :=
  if limit <=? 0 then None
  else let total := chatPromptChars messages in
       if total <=? limit then None else Some (promptTooLargeError total limit false).

(** [codexlocalgateway/server.go:795-819] compactChatPrompt. *)
Definition compactChatPrompt (limit : Z) (messages : list chatMessage) :
    res (list chatMessage) :=
  if limit <=? 0 then Ok messages
  else
    let total := chatPromptChars messages in
    if total <=? limit then Ok messages
    else if (length messages <? 3)%nat then Err (promptTooLargeError total limit false)
    else
      let compacted := compactMessages messages limit in
      let after := chatPromptChars compacted in
      if limit <? after then Err (promptTooLargeError after limit true) else Ok compacted.

(** ** The size of a summary *)

Lemma truncateInline_bound value max : 0 < max → slen (truncateInline value max) <= max + 3.
Proof.
  intros Hmax. unfold truncateInline. rewrite (proj2 (Z.leb_gt _ _)) by lia. cbn [orb].
  destruct (Z.leb_spec (slen value) max); [lia|]. rewrite slen_app.
  change (slen "...") with 3. pose proof (slen_trim_space (stake (Z.to_nat max) value)).
  pose proof (slen_stake (Z.to_nat max) value). lia.
Qed.

Definition signals_ok (limit : nat) (items : list string) : Prop :=
  (length items <= limit)%nat ∧ Forall (λ s, slen s <= 183) items.

Lemma collect_lines_ok keep limit lines items :
  (length items < limit)%nat → Forall (λ s, slen s <= 183) items →
  signals_ok limit (collect_lines keep limit lines items).
Proof.
  unfold signals_ok. revert items. induction lines as [|line lines IH]; intros items Hlen Hall;
    cbn [collect_lines]; [split; [lia|done]|].
  set (l := truncateInline (trim_space line) 180).
  destruct (_ || _); [by apply IH|]. destruct (existsb _ _); [by apply IH|].
  assert (Forall (λ s, slen s <= 183) (items ++ [l])) as Hall'.
  { apply Forall_app_2; [done|]. constructor; [|done].
    by pose proof (truncateInline_bound (trim_space line) 180 ltac:(lia)). }
  destruct (Nat.eqb_spec (length (items ++ [l])) limit) as [Heq|Hne].
  - split; [lia|done].
  - apply IH; [|done]. rewrite length_app in *. cbn in *. lia.
Qed.

Lemma collectSignals_ok messages keep limit :
  (0 < limit)%nat → signals_ok limit (collectSignals messages keep limit).
Proof.
  intros Hlimit. unfold collectSignals.
  assert (Hgo : ∀ ms items, signals_ok limit items →
    signals_ok limit (collect_back keep limit ms items)).
  { induction ms as [|m ms IH]; intros items Hok; cbn [collect_back]; [done|].
    destruct (Nat.ltb_spec (length items) limit); [|done].
    apply IH, collect_lines_ok; [done|apply Hok]. }
  apply Hgo. split; cbn; [lia|done].
Qed.

Lemma signal_line_bound title items limit :
  signals_ok limit items →
  foldr Z.add 0 (slen <$> signal_line title items) <= slen title + Z.of_nat limit * 186 ∧
  (length (signal_line title items) <= 1)%nat.
Proof.
  intros [Hlen Hall]. unfold signal_line. pose proof (slen_nonneg title).
  destruct items as [|x items]; [cbn; lia|]. split; [|done].
  cbn [fmap list_fmap foldr]. rewrite slen_app.
  pose proof (slen_sjoin " | " (x :: items) 183 ltac:(lia) Hall) as Hj.
  change (slen " | ") with 3 in Hj. nia.
Qed.

Lemma slen_sjoin_sum sep l :
  slen (sjoin sep l) <= foldr Z.add 0 (slen <$> l) + Z.of_nat (length l) * slen sep.
Proof.
  induction l as [|x l IH]; [cbn; unfold slen; cbn; lia|].
  pose proof (slen_nonneg sep). destruct l as [|y l]; [cbn in *; lia|].
  change (sjoin sep (x :: y :: l)) with (x +:+ sep +:+ sjoin sep (y :: l)).
  rewrite !slen_app. cbn [fmap list_fmap foldr length] in *. lia.
Qed.

Lemma sum_app (l1 l2 : list Z) : foldr Z.add 0 (l1 ++ l2) = foldr Z.add 0 l1 + foldr Z.add 0 l2.
Proof. induction l1 as [|x l1 IH]; cbn; [done|]. rewrite IH. lia. Qed.

(** However long the transcript is. *)
Lemma summary_bound messages : message_chars (buildCompactionSummary messages) <= 2700.
Proof.
  unfold message_chars, buildCompactionSummary. cbn [msg_content msg_tool_calls fmap list_fmap foldr].
  etransitivity; [apply Z.add_le_mono_r, slen_sjoin_sum|].
  change (slen newline_text) with 1. unfold summary_lines. cbv zeta.
  set (objective := firstNonEmptyString _). set (workspace := firstNonEmptyString [latestWorkspace _; _]).
  pose proof (truncateInline_bound objective 280 ltac:(lia)).
  pose proof (truncateInline_bound workspace 180 ltac:(lia)).
  destruct (signal_line_bound "- Constraints: " _ 4
    (collectSignals_ok messages isConstraintLine 4 ltac:(lia))) as [Hc Hc1].
  destruct (signal_line_bound "- Recent changes: " _ 3
    (collectSignals_ok messages isChangeLine 3 ltac:(lia))) as [Hch Hch1].
  destruct (signal_line_bound "- Recent validation errors: " _ 3
    (collectSignals_ok messages isFailureLine 3 ltac:(lia))) as [He He1].
  rewrite !fmap_app, !sum_app, !length_app. cbn [fmap list_fmap foldr length].
  rewrite !slen_app.
  repeat match goal with
  | |- context [slen (String ?a ?s)] => let v := eval vm_compute in (slen (String a s)) in
      change (slen (String a s)) with v
  | H : context [slen (String ?a ?s)] |- _ => let v := eval vm_compute in (slen (String a s)) in
      change (slen (String a s)) with v in H
  end.
  lia.
Qed.

(** ** What compaction keeps *)

Lemma shrink_spec limit summary kept :
  ∃ dropped rest, kept = dropped ++ rest ∧ shrink limit summary kept = summary :: rest ∧
    (rest = [] ∨ chatPromptChars (summary :: rest) <= limit) ∧
    ∀ before m, dropped = before ++ [m] → limit < chatPromptChars (summary :: m :: rest).
Proof.
  induction kept as [|m kept IH]; cbn [shrink].
  { exists [], []. split_and!; [done..|by left|]. intros [|??] ?; by intros. }
  destruct (Z.ltb_spec limit (chatPromptChars (summary :: m :: kept))) as [Hlt|Hle].
  - destruct IH as (dropped & rest & -> & -> & Hfit & Hmore).
    exists (m :: dropped), rest. split_and!; [done..|].
    intros [|b before] m' Heq; simplify_eq/=; [done|]. by eapply Hmore.
  - exists [], (m :: kept). split_and!; [done..|by right|]. intros [|??] ?; by intros.
Qed.

Lemma compactChatPrompt_cases limit messages :
  let summary := buildCompactionSummary messages in
  let fits ms := chatPromptChars ms <= limit in
  match compactChatPrompt limit messages with
  | Ok ms =>
      ms = messages ∧ (limit <= 0 ∨ fits messages) ∨
      0 < limit ∧ ¬ fits messages ∧ (3 <= length messages)%nat ∧ fits ms ∧
      ∃ dropped rest, kept_candidates messages = dropped ++ rest ∧ ms = summary :: rest ∧
        ∀ before m, dropped = before ++ [m] → ¬ fits (summary :: m :: rest)
  | Err _ =>
      0 < limit ∧ ¬ fits messages ∧ ((length messages < 3)%nat ∨ ¬ fits [summary]) ∧
      ((3 <= length messages)%nat → limit < 2700)
  end.
Proof.
  cbv zeta. unfold compactChatPrompt. pose proof (summary_bound messages) as Hsum.
  destruct (Z.leb_spec limit 0); [by auto|].
  destruct (Z.leb_spec (chatPromptChars messages) limit); [by auto|].
  destruct (Nat.ltb_spec (length messages) 3) as [Hlen|Hlen].
  { split_and!; [done|lia|by left|lia]. }
  unfold compactMessages. destruct (Nat.leb_spec (length messages) 2); [lia|].
  destruct (shrink_spec limit (buildCompactionSummary messages) (kept_candidates messages))
    as (dropped & rest & Hk & -> & Hfit & Hmore).
  destruct (Z.ltb_spec limit (chatPromptChars (buildCompactionSummary messages :: rest))) as [Hover|].
  - destruct Hfit as [->|?]; [|lia]. cbn in Hover |- *. split_and!; [done|lia|right; lia|lia].
  - right. split_and!; [done|lia..|]. exists dropped, rest. split_and!; [done..|].
    intros before m Hd. specialize (Hmore before m Hd). lia.
Qed.

(** A last message that does not fit is not refused: it is dropped. *)
Lemma long_request_dropped limit before m1 m2 :
  before ≠ [] → 2700 <= limit < message_chars m2 →
  compactChatPrompt limit (before ++ [m1; m2])
  = Ok [buildCompactionSummary (before ++ [m1; m2])].
Proof.
  intros Hbefore Hlimit. set (msgs := before ++ [m1; m2]).
  assert (Hpos : ∀ ms, 0 <= chatPromptChars ms).
  { induction ms as [|m ms IH]; cbn; [lia|]. unfold chatPromptChars in IH.
    assert (0 <= message_chars m); [|lia]. unfold message_chars.
    pose proof (slen_nonneg (msg_content m)).
    induction (msg_tool_calls m) as [|c cs IHc]; cbn in *; [lia|].
    pose proof (slen_nonneg (fn_name (call_function c))).
    pose proof (slen_nonneg (fn_arguments (call_function c))). unfold call_chars at 1. lia. }
  assert (Hlast : ∀ l, message_chars m2 <= chatPromptChars (l ++ [m2])).
  { induction l as [|x l IH]; cbn; [lia|]. unfold chatPromptChars in *.
    specialize (Hpos [x]). cbn in Hpos. lia. }
  assert (Hlen : (3 <= length msgs)%nat).
  { unfold msgs. rewrite length_app. destruct before; cbn; [done|lia]. }
  pose proof (compactChatPrompt_cases limit msgs) as Hspec. cbv beta zeta in Hspec.
  assert (Hbig : limit < chatPromptChars msgs).
  { specialize (Hlast (before ++ [m1])). rewrite <-app_assoc in Hlast. cbn [app] in Hlast; fold msgs in Hlast. lia. }
  destruct (compactChatPrompt limit msgs) as [ms|e]; [|lia].
  destruct Hspec as [[_ ?]|(_ & _ & _ & Hfit & dropped & rest & Hk & -> & _)]; [lia|].
  destruct rest as [|x rest' _] using rev_ind; [done|].
  exfalso. assert (x = m2) as ->.
  { unfold kept_candidates, msgs in Hk. rewrite length_app in Hk. cbn [length] in Hk.
    replace (length before + 2 - 2)%nat with (length before) in Hk by lia.
    rewrite drop_app_length, app_assoc in Hk.
    change [m1; m2] with ([m1] ++ [m2]) in Hk. rewrite !app_assoc in Hk.
    by apply app_inj_tail in Hk as [_ <-]. }
  specialize (Hlast (buildCompactionSummary msgs :: rest')). cbn [app] in Hlast. lia.
Qed.
(** ** What a summary says *)

(** The lines of a transcript as a summary quotes them. *)
Definition said (messages : list chatMessage) (line : string) : Prop :=
  line ≠ "" ∧ ∃ m raw, m ∈ messages ∧ raw ∈ split_on newline (msg_content m) ∧
    line = truncateInline (trim_space raw) 180.
(** Lines of some kind: no more than [limit], none twice, and all there are when they are
    fewer. *)
Definition quotes (messages : list chatMessage) (kind : string → bool) (limit : nat)
    (items : list string) : Prop :=
  NoDup items ∧ (length items <= limit)%nat ∧
  (∀ line, line ∈ items → said messages line ∧ kind line = true) ∧
  ((length items < limit)%nat → ∀ line, said messages line → kind line = true → line ∈ items).
(** The kinds of lines that are quoted, with their titles and bounds. *)
Definition quoted_kinds : list (string * (string → bool) * nat) :=
  [("- Constraints: ", isConstraintLine, 4%nat); ("- Recent changes: ", isChangeLine, 3%nat);
   ("- Recent validation errors: ", isFailureLine, 3%nat)].
Definition or_unknown (value : string) : string := if blank value then "unknown" else trim_space value.
Definition summarizes (messages : list chatMessage) (summary : chatMessage) : Prop :=
  msg_role summary = "system" ∧ msg_tool_call_id summary = "" ∧ msg_tool_calls summary = [] ∧
  message_chars summary <= 2700 ∧
  ∃ lines, msg_content summary = sjoin newline_text lines ∧
    head lines = Some (compacted_mark +:+ " for local lab model.") ∧
    "- Objective: " +:+ truncateInline (or_unknown (latestObjective messages)) 280 ∈ lines ∧
    "- Workspace: " +:+ truncateInline (or_unknown (latestWorkspace messages)) 180 ∈ lines ∧
    ∀ title kind limit, (title, kind, limit) ∈ quoted_kinds →
      ∃ items, quotes messages kind limit items ∧
        (items ≠ [] → title +:+ sjoin " | " items ∈ lines).

(** What one message adds; [done] are the messages read before it. *)
Lemma collect_lines_quotes kind limit (from : list chatMessage) lines read items :
  (∀ raw, raw ∈ lines → truncateInline (trim_space raw) 180 ≠ "" →
     said from (truncateInline (trim_space raw) 180)) →
  (length items < limit)%nat → NoDup items →
  (∀ line, line ∈ items → said from line ∧ kind line = true) →
  (∀ line, read line → kind line = true → line ∈ items) →
  let items' := collect_lines kind limit lines items in
  NoDup items' ∧ (length items' <= limit)%nat ∧
  (∀ line, line ∈ items' → said from line ∧ kind line = true) ∧
  ((length items' < limit)%nat → ∀ line, kind line = true → line ≠ "" →
     read line ∨ (∃ raw, raw ∈ lines ∧ line = truncateInline (trim_space raw) 180) → line ∈ items').
Proof.
  cbv zeta. revert read items. induction lines as [|raw lines IH]; intros read items Hsaid Hlen Hnd Hin Hread;
    cbn [collect_lines].
  { split_and!; [done|lia|done|]. intros _ line Hkind _ [?|(raw & Hraw & _)]; [eauto|].
    by apply not_elem_of_nil in Hraw. }
  set (l := truncateInline (trim_space raw) 180).
  assert (Hsaid' : ∀ raw, raw ∈ lines → truncateInline (trim_space raw) 180 ≠ "" →
    said from (truncateInline (trim_space raw) 180)) by (intros r Hr; apply Hsaid; by right).
  (* what the rest of the lines adds to [items1], which holds [l] if it is to be kept. *)
  assert (Hrest : ∀ items1, (length items1 < limit)%nat → NoDup items1 →
    (∀ line, line ∈ items1 → said from line ∧ kind line = true) →
    (∀ line, line ∈ items → line ∈ items1) → (kind l = true → l ≠ "" → l ∈ items1) →
    let items' := collect_lines kind limit lines items1 in
    NoDup items' ∧ (length items' <= limit)%nat ∧
    (∀ line, line ∈ items' → said from line ∧ kind line = true) ∧
    ((length items' < limit)%nat → ∀ line, kind line = true → line ≠ "" →
       read line ∨ (∃ r, r ∈ raw :: lines ∧ line = truncateInline (trim_space r) 180) → line ∈ items')).
  { cbv zeta. intros items1 Hlen1 Hnd1 Hin1 Hsub Hl.
    destruct (IH (λ line, line ≠ "" ∧ (read line ∨ line = l)) items1 Hsaid' Hlen1 Hnd1 Hin1)
      as (A & B & C & D).
    { intros line [Hne [Hr| ->]] Hk; [apply Hsub; eauto|by apply Hl]. }
    split_and!; [done..|]. intros Hlt line Hk Hne Hor. apply D; [done..|].
    destruct Hor as [?|(r & Hr & ->)]; [auto|]. apply elem_of_cons in Hr as [->|Hr]; [auto|].
    right. eauto. }
  destruct (String.eqb_spec l "") as [Hempty|Hl]; cbn [orb].
  { apply Hrest; try done. }
  destruct (kind l) eqn:Hkind; cbn [negb]; [|by apply Hrest].
  destruct (existsb (String.eqb l) items) eqn:Hex.
  { apply Hrest; try done. intros _ _. apply existsb_exists in Hex as (x & Hx & Heq).
    apply String.eqb_eq in Heq as ->. by apply list_elem_of_In. }
  assert (Hnew : l ∉ items).
  { intros Hl'. apply Bool.not_true_iff_false in Hex. apply Hex, existsb_exists.
    exists l. split; [by apply list_elem_of_In|apply String.eqb_refl]. }
  assert (Hnd' : NoDup (items ++ [l])).
  { apply NoDup_app. split_and!; [done| |apply NoDup_singleton].
    intros x Hx ->%list_elem_of_singleton. done. }
  assert (Hin' : ∀ line, line ∈ items ++ [l] → said from line ∧ kind line = true).
  { intros line [?| ->%list_elem_of_singleton]%elem_of_app; [auto|]. split; [|done].
    apply Hsaid; [by left|done]. }
  destruct (Nat.eqb_spec (length (items ++ [l])) limit) as [Heq|Hne].
  - split_and!; [done|lia|done|lia].
  - apply Hrest; [|done|done| |].
    + rewrite length_app in *. cbn in *. lia.
    + intros line Hline. apply elem_of_app. by left.
    + intros _ _. apply elem_of_app. right. by left.
Qed.

Lemma collectSignals_quotes messages kind limit :
  (0 < limit)%nat → quotes messages kind limit (collectSignals messages kind limit).
Proof.
  intros Hlimit. unfold collectSignals.
  assert (Hgo : ∀ unread read items,
    (∀ m, m ∈ messages ↔ m ∈ read ∨ m ∈ unread) → NoDup items → (length items <= limit)%nat →
    (∀ line, line ∈ items → said messages line ∧ kind line = true) →
    ((length items < limit)%nat → ∀ line, said read line → kind line = true → line ∈ items) →
    quotes messages kind limit (collect_back kind limit unread items)).
  { induction unread as [|m unread IH]; intros read items Hall Hnd Hlen Hin Hread; cbn [collect_back].
    - split_and!; [done..|]. intros Hlt line (Hne & m & raw & Hm & Hraw & ->) Hk.
      apply Hread; [done| |done]. split; [done|]. exists m, raw. split_and!; [|done..].
      apply Hall in Hm as [?|Hm]; [done|by apply not_elem_of_nil in Hm].
    - destruct (Nat.ltb_spec (length items) limit) as [Hlt|Hge]; [|by split_and!; [..|lia]].
      destruct (collect_lines_quotes kind limit messages (split_on newline (msg_content m))
        (said read) items) as (A & B & C & D); [|done|done|done|by apply Hread|].
      { intros raw Hraw Hne. split; [done|]. exists m, raw. split_and!; [|done..].
        apply Hall. right. by left. }
      apply (IH (m :: read)); [|done..|].
      + intros x. rewrite Hall, !elem_of_cons. tauto.
      + intros Hlt' line (Hne & x & raw & Hx & Hraw & Hline) Hk. apply D; [done..|].
        apply elem_of_cons in Hx as [->|Hx]; [by right; exists raw|].
        left. split; [done|]. by exists x, raw. }
  apply (Hgo _ []); [|constructor|cbn; lia| |].
  - intros m. rewrite (list_elem_of_In (rev messages)), <-in_rev, <-list_elem_of_In. set_solver.
  - intros line Hline. by apply not_elem_of_nil in Hline.
  - intros _ line (_ & m & raw & Hm & _) _. by apply not_elem_of_nil in Hm.
Qed.

Lemma or_unknown_spec value : firstNonEmptyString [value; "unknown"] = or_unknown value.
Proof.
  unfold firstNonEmptyString, or_unknown, blank. cbn [fmap list_fmap].
  destruct (String.eqb_spec (trim_space value) "") as [E|E].
  - rewrite E. vm_compute. reflexivity.
  - rewrite filter_cons_True by done. done.
Qed.
Lemma signal_line_in title items : items ≠ [] → title +:+ sjoin " | " items ∈ signal_line title items.
Proof. destruct items; [done|]. intros _. by left. Qed.
Lemma buildCompactionSummary_summarizes messages :
  summarizes messages (buildCompactionSummary messages).
Proof.
  unfold summarizes. split_and!; [done..|apply summary_bound|]. exists (summary_lines messages).
  split; [done|]. unfold summary_lines. cbv zeta. rewrite !or_unknown_spec.
  split_and!; [done|by right; right; left|by right; right; right; left|].
  intros title kind limit Hk. unfold quoted_kinds in Hk.
  exists (collectSignals messages kind limit).
  assert (Hpos : (0 < limit)%nat) by (set_unfold in Hk; naive_solver lia).
  split; [by apply collectSignals_quotes|]. intros Hne.
  apply (signal_line_in title) in Hne. revert Hne.
  assert (Hk' : title = "- Constraints: " ∧ kind = isConstraintLine ∧ limit = 4%nat
    ∨ title = "- Recent changes: " ∧ kind = isChangeLine ∧ limit = 3%nat
    ∨ title = "- Recent validation errors: " ∧ kind = isFailureLine ∧ limit = 3%nat)
    by (set_unfold in Hk; naive_solver).
  intros Hne. rewrite !elem_of_app. destruct Hk' as [(-> & -> & ->)|[(-> & -> & ->)|(-> & -> & ->)]]; auto.
Qed.

(** ** What is sent instead *)

(** The longest ending of a list with a property. *)
Definition longest_ending {A} (l : list A) (P : list A → Prop) (rest : list A) : Prop :=
  rest `suffix_of` l ∧ P rest ∧ ∀ longer, longer `suffix_of` l → P longer → longer `suffix_of` rest.
(** An instruction that is kept: of the system, and not the summary of an earlier
    compaction. *)
Definition instruction (m : chatMessage) : bool :=
  bool_decide (msg_role m = "system") && negb (contains compacted_mark (msg_content m)).

Lemma message_chars_nonneg m : 0 <= message_chars m.
Proof.
  unfold message_chars. pose proof (slen_nonneg (msg_content m)).
  induction (msg_tool_calls m) as [|c cs IHc]; cbn in *; [lia|].
  pose proof (slen_nonneg (fn_name (call_function c))).
  pose proof (slen_nonneg (fn_arguments (call_function c))). unfold call_chars at 1. lia.
Qed.
Lemma chatPromptChars_app l1 l2 : chatPromptChars (l1 ++ l2) = chatPromptChars l1 + chatPromptChars l2.
Proof. unfold chatPromptChars. by rewrite fmap_app, sum_app. Qed.
Lemma chatPromptChars_nonneg l : 0 <= chatPromptChars l.
Proof.
  unfold chatPromptChars. induction l as [|m l IH]; cbn; [done|]. pose proof (message_chars_nonneg m). lia.
Qed.
Lemma chatPromptChars_cons m l : chatPromptChars (m :: l) = message_chars m + chatPromptChars l.
Proof. done. Qed.

Lemma ending_longest limit summary dropped rest :
  chatPromptChars (summary :: rest) <= limit →
  (∀ before m, dropped = before ++ [m] → ¬ chatPromptChars (summary :: m :: rest) <= limit) →
  longest_ending (dropped ++ rest) (λ l, chatPromptChars (summary :: l) <= limit) rest.
Proof.
  intros Hfit Hmore. split_and!; [by exists dropped|done|]. intros longer [l Hl] Hfit'.
  destruct (decide (length longer <= length rest)%nat) as [Hle|Hgt].
  - exists (drop (length longer - length longer) (take (length rest - length longer) rest)).
    rewrite Nat.sub_diag, drop_0.
    assert (longer = drop (length rest - length longer) rest) as Heq; [|rewrite Heq at 2; by rewrite take_drop].
    pose proof (f_equal (drop (length l)) Hl) as Hd. rewrite drop_app_length in Hd. rewrite <-Hd.
    assert (Hlen : length (dropped ++ rest) = length (l ++ longer)) by (by rewrite Hl).
    rewrite !length_app in Hlen. rewrite drop_app_ge by lia. f_equal.
    rewrite length_drop. lia.
  - exfalso. assert (Hlen : length (dropped ++ rest) = length (l ++ longer)) by (by rewrite Hl).
    rewrite !length_app in Hlen.
    destruct (app_eq_inv _ _ _ _ Hl) as [(k & -> & E)|(k & E & ->)].
    + destruct k as [|x k _] using rev_ind; [by rewrite E in Hgt; cbn in Hgt; lia|].
      specialize (Hmore (l ++ k) x). rewrite app_assoc in Hmore. specialize (Hmore eq_refl).
      apply Hmore. rewrite E, <-app_assoc in Hfit'. cbn [app] in Hfit'.
      rewrite !chatPromptChars_cons in *. rewrite chatPromptChars_app in Hfit'.
      rewrite !chatPromptChars_cons in *. pose proof (chatPromptChars_nonneg k). lia.
    + rewrite length_app in Hgt. lia.
Qed.

(** The messages to choose from are the instruction at the start and the last two. *)
Lemma kept_candidates_shape messages :
  (3 <= length messages)%nat →
  ∃ first middle m1 m2, messages = first :: middle ++ [m1; m2] ∧
    kept_candidates messages = (if instruction first then [first] else []) ++ [m1; m2].
Proof.
  intros Hlen. destruct messages as [|first messages]; [cbn in Hlen; lia|].
  destruct messages as [|m2 ms _] using rev_ind; [cbn in Hlen; lia|].
  destruct ms as [|m1 middle _] using rev_ind; [cbn in Hlen; lia|].
  exists first, middle, m1, m2. rewrite <-app_assoc. split; [done|].
  unfold kept_candidates. cbn [app take].
  replace (length (first :: middle ++ [m1; m2]) - 2)%nat with (length (first :: middle))
    by (cbn; rewrite length_app; cbn; lia).
  rewrite (app_comm_cons middle [m1; m2] first), drop_app_length. f_equal.
  assert (Hi : instruction first = (msg_role first =?s "system")
    && negb (contains compacted_mark (msg_content first))).
  { unfold instruction. f_equal. destruct (String.eqb_spec (msg_role first) "system") as [E|E].
    - by rewrite bool_decide_true.
    - by rewrite bool_decide_false. }
  cbn [app take]. destruct (instruction first).
  - by rewrite filter_cons_True.
  - rewrite filter_cons_False; [done|]. cbn beta. intros Ht. by rewrite Ht in Hi.
Qed.

(** C40: compacting a prompt.  It is left alone when it fits or there is no limit.
    Otherwise it has at least three messages, and what is sent is a summary followed by
    messages of it as they are: of the first message, if it is one of the system that is
    not itself an earlier summary, and the last two, the longest ending with which it
    fits.  The summary is a system message of at most 2700 characters that names the
    objective and the workspace and quotes lines of the transcript: up to four constraints,
    three changes and three failures, none twice, and all there are when they are fewer.
    A prompt is refused when it has fewer than three messages or not even a summary fits,
    which a limit of 2700 characters or more rules out, however long the transcript is. *)
Theorem compactChatPrompt_spec limit messages :
  let fits ms := chatPromptChars ms <= limit in
  match compactChatPrompt limit messages with
  | Ok ms =>
      ms = messages ∧ (limit <= 0 ∨ fits messages) ∨
      0 < limit ∧ ¬ fits messages ∧
      ∃ first middle m1 m2 summary rest,
        messages = first :: middle ++ [m1; m2] ∧ ms = summary :: rest ∧
        summarizes messages summary ∧
        longest_ending ((if instruction first then [first] else []) ++ [m1; m2])
          (λ l, fits (summary :: l)) rest
  | Err _ =>
      0 < limit ∧ ¬ fits messages ∧
      ((length messages < 3)%nat ∨ limit < 2700 ∧ ∃ summary, summarizes messages summary ∧ ¬ fits [summary])
  end.
Proof.
  cbv zeta. pose proof (compactChatPrompt_cases limit messages) as Hcases. cbv zeta in Hcases.
  pose proof (buildCompactionSummary_summarizes messages) as Hsum.
  destruct (compactChatPrompt limit messages) as [ms|e].
  - destruct Hcases as [?|(Hpos & Hbig & Hlen & Hfit & dropped & rest & Hk & -> & Hmore)]; [by left|].
    right. split_and!; [done..|].
    destruct (kept_candidates_shape messages Hlen) as (first & middle & m1 & m2 & Hm & Hshape).
    exists first, middle, m1, m2, (buildCompactionSummary messages), rest. split_and!; [done..|].
    rewrite <-Hshape, Hk. by apply ending_longest.
  - destruct Hcases as (Hpos & Hbig & Hwhy & Hlim). split_and!; [done..|].
    destruct (decide (length messages < 3)%nat) as [|Hge]; [by left|]. right.
    split; [apply Hlim; lia|]. exists (buildCompactionSummary messages). split; [done|].
    by destruct Hwhy.
Qed.

(** The transcript of the repository's own test. *)
Definition says (role content : string) : chatMessage := MkMessage role content "" [].
Definition demo_transcript : list chatMessage :=
  [says "system" "Initial system instruction.";
   says "user" ("User task:" +:+ newline_text
     +:+ "Upgrade Laravel without touching .env.local." +:+ newline_text
     +:+ "Project path: /Users/fran.lopez/Development/smartfm/api");
   says "assistant" "Modified composer.json and composer.lock";
   says "tool" "PHP Fatal error: test failed with exit code 1";
   says "user" "Keep docker compose as the validation path.";
   says "assistant" "latest";
   says "user" "continue"].
Example demo_summary :
  summary_lines demo_transcript =
  ["Compacted previous context for local lab model.";
   "Preserve these facts as authoritative:";
   "- Objective: Upgrade Laravel without touching .env.local.";
   "- Workspace: /Users/fran.lopez/Development/smartfm/api";
   "- Constraints: Keep docker compose as the validation path. | Upgrade Laravel without touching .env.local.";
   "- Recent changes: Modified composer.json and composer.lock";
   "- Recent validation errors: PHP Fatal error: test failed with exit code 1";
   "Older transcript was discarded to stay within context. Keep the same repo, objective, and constraints."].
Proof. vm_compute. reflexivity. Qed.
Example demo_compacted :
  compactMessages demo_transcript 700 =
  [buildCompactionSummary demo_transcript; says "system" "Initial system instruction.";
   says "assistant" "latest"; says "user" "continue"].
Proof. vm_compute. reflexivity. Qed.
End Compaction.
