(* ===== verification/ToolCall.v ===== *)
(** * Tool calls in what the model writes ([codexlocalgateway/responses.go])

    A local model often writes a tool call as text: a JSON object, a prefix and its
    arguments, a shell block.  This file finds the call that is meant, checks it against
    the tools on offer, and recognises a command that was run already. *)
From S2P Require Import Prelude GoVal Json JsonText JsonValue Effects Gateway Regexp.

Definition fence : string := "```".
Definition quote_chars : string := dquote +:+ "'".

(** ** Raw values

    [json.RawMessage] keeps the text of a value.  The values of an object, in order: the
    text is cut at its outer commas, and each part after its colon. *)
Definition json_white (s : string) : string :=
  trim_set (String (ascii_of_nat 9) (String (ascii_of_nat 10) (String (ascii_of_nat 13) " "))) s.
Definition glue (c : ascii) (l : list string) : list string :=
  match l with x :: l => String c x :: l | [] => [String c ""] end.
Fixpoint parts (depth : nat) (in_string escaped : bool) (s : string) : list string :=
  match s with
  | EmptyString => [""]
  | String c r =>
      if in_string then
        glue c (parts depth (escaped || negb (isb 34 c)) (negb escaped && isb 92 c) r)
      else if isb 34 c then glue c (parts depth true false r)
      else if isb 123 c || isb 91 c then
        match depth with
        | O => parts 1 false false r
        | S _ => glue c (parts (S depth) false false r)
        end
      else if isb 125 c || isb 93 c then
        match depth with
        | O => [""]
        | S O => [""]
        | S depth => glue c (parts depth false false r)
        end
      else if isb 44 c && (depth =? 1)%nat then "" :: parts depth false false r
      else glue c (parts depth false false r)
  end.
Fixpoint after_colon (in_string escaped : bool) (s : string) : string :=
  match s with
  | EmptyString => ""
  | String c r =>
      if in_string then after_colon (escaped || negb (isb 34 c)) (negb escaped && isb 92 c) r
      else if isb 58 c then r
      else after_colon (isb 34 c) false r
  end.
Definition raw_values (text : string) : list string :=
  (λ part, json_white (after_colon false false part)) <$> parts 0 false false text.
(** Into a struct some of whose fields are raw. *)
Fixpoint read_raw {A} (f : string → A → jval → string → option A) (a : A)
    (l : list ((string * jval) * string)) : option A :=
  match l with
  | [] => Some a
  | ((key, v), raw) :: l =>
      match f (fold_ascii (unquote key)) a v raw with Some a => read_raw f a l | None => None end
  end.
Definition read_raw_object {A} (f : string → A → jval → string → option A) (a : A) (text : string) :
    option A :=
  match parse text with
  | Some JNull => Some a
  | Some (JObj l) => read_raw f a (zip l (raw_values text))
  | _ => None
  end.
Example raw_values_demo :
  raw_values (replace_char "'" dquote " {'a,:' : [1, {'b' :2} ] , 'c':'x}\', y'}")
  = replace_char "'" dquote <$> ["[1, {'b' :2} ]"; "'x}\', y'"].
Proof. vm_compute. reflexivity. Qed.

(** ** Values *)

Definition object_in (text : string) : option gmap_any := default ∅ <$> UnmarshalMap text.
Definition text_of (m : gmap_any) (key : string) : string := as_string (mget m key).

(** [codexlocalgateway/responses.go:111-144] textFromValue and textFromMap. *)
Fixpoint textFromValue (v : gval) : string :=
  match v with
  | VStr s => s
  | VMap m =>
      match m !! "text" with
      | Some (VStr s) => s
      | _ =>
          default ""
            (((λ content,
                match content with
                | VStr s => s
                | VList l => sjoin nl (filter (λ s, blank s = false) (textFromValue <$> l))
                | _ => ""
                end) <$> m) !! "content")
      end
  | _ => ""
  end.
(** [codexlocalgateway/responses.go:96-109] outputToString. *)
Definition outputToString (v : gval) : string :=
  match v with VNil => "" | VStr s => s | _ => compact (to_jval v) end.
(** [codexlocalgateway/responses.go:18-40] flattenInput. *)
Definition input_required (raw : string) : bool := (raw =?s "") || (raw =?s "null").
Definition not_text : GoError := ErrText "input must be a string or text array".
Definition flattenInput (raw : string) : res string :=
  if input_required raw then Err (ErrText "input is required")
  else match UnmarshalString raw with
       | Some s => Ok s
       | None =>
           match UnmarshalList raw with
           | Some l => Ok (sjoin nl (filter (λ s, blank s = false) (textFromValue <$> l)))
           | None => Err not_text
           end
       end.

(** [codexlocalgateway/responses.go:42-94] inputToChatMessages: texts are gathered until an
    output interrupts them. *)
Definition user_message (texts : list string) : list chatMessage :=
  let content := sjoin nl texts in
  if blank content then [] else [MkMessage "user" content "" []].
Definition is_output (v : gval) : option gmap_any :=
  match v with
  | VMap m => match m !! "type" with
              | Some (VStr t) => if t =?s "function_call_output" then Some m else None
              | _ => None
              end
  | _ => None
  end.
Fixpoint input_messages (l : list gval) (texts : list string) : res (list chatMessage) :=
  match l with
  | [] => Ok (user_message texts)
  | v :: l =>
      match is_output v with
      | Some m =>
          let callID := text_of m "call_id" in
          if blank callID then Err (ErrText "function_call_output requires call_id")
          else match input_messages l [] with
               | Ok messages =>
                   Ok (user_message texts
                       ++ MkMessage "tool" (outputToString (mget m "output")) callID [] :: messages)
               | Err e => Err e
               end
      | None =>
          let text := textFromValue v in
          input_messages l (if blank text then texts else texts ++ [text])
      end
  end.
Definition inputToChatMessages (raw : string) : res (list chatMessage) :=
  if input_required raw then Err (ErrText "input is required")
  else match UnmarshalString raw with
       | Some s =>
           if blank s then Err (ErrText "input must contain text")
           else Ok [MkMessage "user" s "" []]
       | None =>
           match UnmarshalList raw with
           | None => Err not_text
           | Some l =>
               match input_messages l [] with
               | Ok [] => Err (ErrText "input must contain text or function_call_output")
               | r => r
               end
           end
       end.

(** ** The tools on offer *)

(** [codexlocalgateway/responses.go:868-877] decodeToolMaps. *)
Definition decodeToolMaps (tools : string) : list gmap_any :=
  if input_required tools then [] else default [] (UnmarshalMaps tools).
(** [codexlocalgateway/responses.go:813-828] toolNames. *)
Definition tool_name (tool : gmap_any) : string :=
  let name := text_of tool "name" in
  if name =?s "" then
    match mget tool "function" with VMap fn => text_of fn "name" | _ => "" end
  else name.
Definition toolNames (tools : string) : list string :=
  filter (λ name, name ≠ "") (tool_name <$> decodeToolMaps tools).
(** [codexlocalgateway/responses.go:847-866] toolTypeByName. *)
Definition tool_type (tool : gmap_any) : string :=
  if text_of tool "name" =?s "" then "function" else text_of tool "type".
Definition toolTypeByName (tools : string) : gmap string string :=
  foldl (λ m tool, if tool_name tool =?s "" then m else <[tool_name tool := tool_type tool]> m)
    ∅ (decodeToolMaps tools).
(** [codexlocalgateway/responses.go:739-750] toolNameAllowed. *)
Definition toolNameAllowed (name tools : string) : bool :=
  match toolNames tools with [] => true | names => bool_decide (name ∈ names) end.
(** [codexlocalgateway/responses.go:830-845] preferredFallbackToolNames. *)
Definition preferredFallbackToolNames (tools : string) : list string :=
  match filter (λ name, name ∈ toolNames tools) ["apply_patch"; "exec_command"] with
  | [] => toolNames tools
  | preferred => preferred
  end.
(** [codexlocalgateway/responses.go:879-892] requiredToolName. *)
Definition requiredToolName (choice : gval) : string :=
  match choice with VMap m => tool_name m | _ => "" end.
(** [codexlocalgateway/responses.go:907-919] requiresToolCall. *)
Definition requiresToolCall (choice : gval) : bool :=
  match choice with
  | VStr s => negb (s =?s "") && negb (s =?s "auto") && negb (s =?s "none")
  | VMap m => text_of m "type" =?s "function"
  | _ => false
  end.
(** [codexlocalgateway/responses.go:894-905] sanitizeToolName. *)
Definition tool_char (a : ascii) : bool :=
  within 97 122 a || within 65 90 a || within 48 57 a || isb 95 a || isb 45 a.
Fixpoint tool_chars (s : string) : string :=
  match s with
  | EmptyString => ""
  | String a r => if tool_char a then String a (tool_chars r) else tool_chars r
  end.
Definition sanitizeToolName (name : string) : string :=
  let s := tool_chars name in if s =?s "" then "tool" else s.

(** ** Items *)

(** [codexlocalgateway/types.go:83-93] responseItem: the parts of its content by their text. *)
Record responseItem := MkItem {
  it_id : string;
  it_type : string;
  it_status : string;
  it_role : string;
  it_content : list string;
  it_call_id : string;
  it_name : string;
  it_arguments : string;
  it_input : string;
}.
(** A completed call of a function, and of a custom tool. *)
Definition function_item (callID name arguments : string) : responseItem :=
  MkItem ("fc_" +:+ callID) "function_call" "completed" "" [] callID name arguments "".
Definition custom_item (callID name input : string) : responseItem :=
  MkItem ("ctc_" +:+ callID) "custom_tool_call" "completed" "" [] callID name "" input.

(** [codexlocalgateway/responses.go:808-811] mustJSON: of a map of one text, and of a text. *)
Definition json_field (key value : string) : string := Marshal {[key := VStr value]}.
Definition json_text (value : string) : string := in_quotes (quote value).
(** [codexlocalgateway/responses.go:779-788] execCommandItem. *)
Definition execCommandItem (callID command : string) : responseItem :=
  function_item callID "exec_command" (json_field "cmd" command).
(** [codexlocalgateway/responses.go:774-777] execCommandWriteFileItem. *)
Definition write_command (path content : string) : string :=
  "python3 - <<'PY'" +:+ nl +:+ "from pathlib import Path" +:+ nl
  +:+ "Path(" +:+ go_quote path +:+ ").write_text(" +:+ go_quote content +:+ ")" +:+ nl +:+ "PY".
Definition execCommandWriteFileItem (callID path content : string) : responseItem :=
  execCommandItem callID (write_command path content).
(** [codexlocalgateway/responses.go:801-806] buildToolSearchCodeExec. *)
Definition buildToolSearchCodeExec (command : string) : string :=
  "return await tools.exec_command({cmd: " +:+ json_text command +:+ ", yield_time_ms: 1000});".
(** [codexlocalgateway/responses.go:790-799] toolSearchCodeExecItem. *)
Definition toolSearchCodeExecItem (callID command : string) : responseItem :=
  function_item callID "tool_search_code" (json_field "code" (buildToolSearchCodeExec command)).

(** ** Commands *)

(** [codexlocalgateway/responses.go:708-724] writeFields. *)
Definition writeFields (m : gmap_any) : option (string * string) :=
  let path := text_of m "file_path" in
  let path := if blank path then text_of m "path" else path in
  if blank path then None
  else match mget m "patch_content", mget m "content" with
       | VStr content, _ | _, VStr content => Some (path, content)
       | _, _ => None
       end.
(** [codexlocalgateway/responses.go:726-737] stripJSONFence. *)
Definition stripJSONFence (text : string) : string :=
  let trimmed := trim_space text in
  if negb (has_prefix fence trimmed) then trimmed
  else
    let trimmed := trim_prefix fence trimmed in
    let trimmed := trim_space (trim_prefix "json" (trim_space trimmed)) in
    trim_space (default trimmed (before_last fence trimmed)).
(** [codexlocalgateway/responses.go:647-659] execCommandFromArguments: line breaks in a
    text are tried as escapes. *)
Definition escape_newlines (s : string) : string := replace_char (ascii_of_nat 10) "\n" s.
Definition read_cmd (text : string) : option string :=
  match parse text with
  | Some v =>
      read_object (λ key old v, if key =?s "cmd" then text_value old v else Some old) "" v
  | None => None
  end.
Definition execCommandFromArguments (arguments : string) : option string :=
  match match read_cmd arguments with Some c => Some c | None => read_cmd (escape_newlines arguments) end with
  | Some cmd => if blank cmd then None else Some (trim_space cmd)
  | None => None
  end.
(** [codexlocalgateway/responses.go:640-645] execCommandFromResponseItem. *)
Definition execCommandFromResponseItem (item : responseItem) : option string :=
  if (it_type item =?s "function_call") && (it_name item =?s "exec_command")
  then execCommandFromArguments (it_arguments item) else None.

(** [codexlocalgateway/responses.go:162-167] fallbackToolCall. *)
Record fallbackToolCall := MkFallback {
  fc_type : string;
  fc_call_id : string;
  fc_name : string;
  fc_arguments : string;
}.
#[export] Instance eta_fallback : Eta fallbackToolCall := λ c,
  MkFallback (fc_type c) (fc_call_id c) (fc_name c) (fc_arguments c).
Definition no_call : fallbackToolCall := MkFallback "" "" "" "".
Definition read_call (key : string) (c : fallbackToolCall) (v : jval * string) : option fallbackToolCall :=
  if key =?s "type" then (λ s, c <| fc_type := s |>) <$> text_value (fc_type c) v.1
  else if key =?s "call_id" then (λ s, c <| fc_call_id := s |>) <$> text_value (fc_call_id c) v.1
  else if key =?s "name" then (λ s, c <| fc_name := s |>) <$> text_value (fc_name c) v.1
  else if key =?s "arguments" then Some (c <| fc_arguments := v.2 |>)
  else Some c.
Definition UnmarshalCall : string → option fallbackToolCall := read_raw_object
  (λ key c v raw, read_call key c (v, raw)) no_call.

(** [codexlocalgateway/responses.go:14-14] prefixedToolPattern. *)
Definition letter (a : ascii) : bool := within 97 122 a || within 65 90 a || isb 95 a.
Definition prefixedToolPattern : regexp := Seqs
  [spaces; Capture 1 (Seq (Byte letter) (Star true (Byte tool_char))); spaces; Opt (Lit ":");
   Plus true (Byte white); Capture 2 (Seqs [Lit "{"; Star true (Byte (λ _, true)); Lit "}"]);
   spaces; TextEnd].
Definition prefixed (text : string) : option (string * string) :=
  (λ m, (captured m.1 1, captured m.1 2)) <$> match_here prefixedToolPattern (MkPlace None text).
(** [codexlocalgateway/responses.go:399-420] parsePrefixedToolCall. *)
Definition parsePrefixedToolCall (text : string) : res (option fallbackToolCall) :=
  match prefixed (trim_space text) with
  | None => Ok None
  | Some (name, rawArgs) =>
      match parse (trim_space rawArgs) with
      | None => Err (ErrText ("prefixed tool call for " +:+ go_quote name
                              +:+ " does not contain valid JSON arguments"))
      | Some _ => Ok (Some (MkFallback "function_call" "" name (trim_space rawArgs)))
      end
  end.
Example prefixed_demo :
  prefixed <$> ["exec_command: {a} }  "; "x{}"; "exec_command {"; " a-b  {}"]
  = [Some ("exec_command", "{a} }"); None; None; Some ("a-b", "{}")].
Proof. vm_compute. reflexivity. Qed.

(** [codexlocalgateway/responses.go:436-464] shellFenceCommand. *)
Definition shellFenceCommand (text : string) : option string :=
  match split_text fence (trim_space text) with
  | [_; block; _] =>
      match cut nl block with
      | Some (lang, body) =>
          let lang := to_lower (trim_space lang) in
          if negb (bool_decide (lang ∈ ["sh"; "bash"; "shell"; "zsh"])) then None
          else let command := trim_space body in
               if command =?s "" then None else Some command
      | None => None
      end
  | _ => None
  end.
(** [codexlocalgateway/responses.go:422-434] shellFenceToolCall. *)
Definition shellFenceToolCall (text tools : string) : option responseItem :=
  match shellFenceCommand text with
  | None => None
  | Some command =>
      if toolNameAllowed "exec_command" tools then Some (execCommandItem "call_exec_command" command)
      else if toolNameAllowed "tool_search_code" tools then
        Some (toolSearchCodeExecItem "call_tool_search_code_exec" command)
      else None
  end.

(** [codexlocalgateway/responses.go:501-521] unwrapNestedExecCommandString. *)
Definition unwrapNestedExecCommandString (value : string) : option string :=
  let direct :=
    match parsePrefixedToolCall value with
    | Ok (Some call) =>
        if fc_name call =?s "exec_command" then execCommandFromArguments (trim_space (fc_arguments call))
        else None
    | _ => None
    end in
  match direct with
  | Some command => Some command
  | None =>
      let trimmed := stripJSONFence (trim_space value) in
      if negb (has_prefix "{" trimmed) then None
      else match UnmarshalCall trimmed with
           | None => None
           | Some nested =>
               if (fc_type nested =?s "function_call") && (fc_name nested =?s "exec_command")
               then execCommandFromArguments (trim_space (fc_arguments nested)) else None
           end
  end.
(** [codexlocalgateway/responses.go:466-499] normalizeExecCommandFallback: it never errs. *)
Definition nested_write (callID : string) (m : gmap_any) : option responseItem :=
  (λ w, execCommandWriteFileItem callID w.1 w.2) <$> writeFields m.
Definition normalizeExecCommandFallback (callID arguments : string) : option responseItem :=
  match object_in arguments with
  | None => None
  | Some args =>
      match nested_write callID args with
      | Some item => Some item
      | None =>
          match mget args "cmd" with
          | VStr cmd =>
              match unwrapNestedExecCommandString cmd with
              | Some command => Some (execCommandItem callID command)
              | None =>
                  let nested :=
                    match object_in (trim_space cmd) with
                    | Some m => Some m
                    | None => object_in (escape_newlines (trim_space cmd))
                    end in
                  match nested with Some m => nested_write callID m | None => None end
              end
          | VMap m => nested_write callID m
          | _ => None
          end
      end
  end.
(** [codexlocalgateway/responses.go:661-675] normalizeToolSearchCodeFallback. *)
Definition normalizeToolSearchCodeFallback (callID arguments : string) : option responseItem :=
  match object_in arguments with
  | None => None
  | Some args =>
      if negb (blank (text_of args "code")) then None
      else match filter (λ c, blank c = false) [text_of args "cmd"; text_of args "command"] with
           | command :: _ => Some (toolSearchCodeExecItem callID command)
           | [] => None
           end
  end.
(** [codexlocalgateway/responses.go:523-540] normalizeResponseToolItem. *)
Definition normalizeResponseToolItem (item : responseItem) : responseItem :=
  if negb (it_type item =?s "function_call") then item
  else if it_name item =?s "exec_command" then
    default item (normalizeExecCommandFallback (it_call_id item) (it_arguments item))
  else if it_name item =?s "tool_search_code" then
    default item (normalizeToolSearchCodeFallback (it_call_id item) (it_arguments item))
  else item.

(** ** Finding a call *)

(** [codexlocalgateway/responses.go:352-374] fencedJSONCandidates: the blocks between
    fences, without a first line that says json. *)
Fixpoint odd_parts (l : list string) : list string :=
  match l with _ :: x :: l => x :: odd_parts l | _ => [] end.
Definition block_body (block : string) : string :=
  match cut nl block with
  | Some (header, body) =>
      let header := to_lower (trim_space header) in
      if (header =?s "json") || (header =?s "") then trim_space body else block
  | None => block
  end.
Definition fencedJSONCandidates (text : string) : list string :=
  match split_text fence text with
  | (_ :: _ :: _ :: _) as parts =>
      filter (λ block, has_prefix "{" block && has_suffix "}" block = true)
        (block_body <$> filter (λ block, block ≠ "") (trim_space <$> odd_parts parts))
  | _ => []
  end.
(** [codexlocalgateway/responses.go:333-350] embeddedFunctionCallJSON. *)
Definition is_call (candidate : string) : bool :=
  match UnmarshalCall candidate with
  | Some call => (fc_type call =?s "function_call") && negb (blank (fc_name call))
  | None => false
  end.
Definition embeddedFunctionCallJSON (text : string) : option string :=
  if negb (contains "function_call" text) then None
  else head (filter (λ candidate, is_call candidate = true) (fencedJSONCandidates text)).
(** [codexlocalgateway/responses.go:376-397] embeddedPrefixedToolCall: [pending] is whether
    a line named exec_command. *)
Fixpoint prefixed_line (pending : bool) (lines : list string) : option string :=
  match lines with
  | [] => None
  | line :: lines =>
      let line := trim_space line in
      if line =?s "" then prefixed_line pending lines
      else if bool_decide (is_Some (prefixed line)) then Some line
      else if pending && has_prefix "{" line && has_suffix "}" line then
        Some ("exec_command " +:+ line)
      else
        let lower := to_lower (trim_set "*: " line) in
        prefixed_line
          (pending || (lower =?s "action: exec_command") || (lower =?s "exec_command")) lines
  end.
Definition embeddedPrefixedToolCall (text : string) : option string :=
  prefixed_line false (split_on (ascii_of_nat 10) text).

Section Fallback.
(** [json_error] is the text of the error of a document that does not decode. *)
Context (json_error : string → string).

(** [codexlocalgateway/responses.go:752-772] normalizeFallbackAlias. *)
Definition read_write (text : string) : option (string * string) :=
  match parse text with
  | Some v =>
      read_object (λ key old v,
        if key =?s "path" then (λ s, (s, old.2)) <$> text_value old.1 v
        else if key =?s "content" then (λ s, (old.1, s)) <$> text_value old.2 v
        else Some old) ("", "") v
  | None => None
  end.
Definition normalizeFallbackAlias (call : fallbackToolCall) (tools : string) : res (option responseItem) :=
  if negb (fc_name call =?s "write_file") || negb (toolNameAllowed "exec_command" tools) then Ok None
  else match read_write (fc_arguments call) with
       | None => Err (ErrText (json_error (fc_arguments call)))
       | Some (path, content) =>
           if blank path then Err (ErrText "write_file fallback requires path")
           else Ok (Some (execCommandItem
                  (if fc_call_id call =?s "" then "call_write_file" else fc_call_id call)
                  (write_command path content)))
       end.

(** [codexlocalgateway/responses.go:184-234] parseFallbackToolCall: the type of the tool a
    call names; no tools allow any function. *)
Definition known_tool (name tools : string) : option string :=
  let types := toolTypeByName tools in
  if bool_decide (types = ∅) then Some "function" else types !! name.
Definition unknown_tool (name : string) : GoError :=
  ErrText ("fallback function_call references unknown tool " +:+ go_quote name).
Definition call_identifier (call : fallbackToolCall) : string :=
  if fc_call_id call =?s "" then "call_" +:+ sanitizeToolName (fc_name call) else fc_call_id call.
Definition or_empty_object (arguments : string) : string :=
  if (arguments =?s "") || (arguments =?s "null") then "{}" else arguments.
(** a call of a function, *)
Definition function_call (callID name arguments : string) : responseItem :=
  let normalized :=
    if name =?s "exec_command" then normalizeExecCommandFallback callID arguments
    else if name =?s "tool_search_code" then normalizeToolSearchCodeFallback callID arguments
    else None in
  default (function_item callID name arguments) normalized.
(** the call a prefix names, *)
Definition custom_input (arguments : string) : string :=
  match object_in arguments with
  | Some m => default arguments (head (filter (λ s, s ≠ "") [text_of m "patch"; text_of m "cmd"]))
  | None => arguments
  end.
Definition prefixed_call (call : fallbackToolCall) (tools : string) : res (option responseItem) :=
  match normalizeFallbackAlias call tools with
  | Err e => Err e
  | Ok (Some item) => Ok (Some item)
  | Ok None =>
      match known_tool (fc_name call) tools with
      | None => Err (unknown_tool (fc_name call))
      | Some type =>
          let arguments := or_empty_object (trim_space (fc_arguments call)) in
          Ok (Some
            (if type =?s "custom"
             then custom_item (call_identifier call) (fc_name call) (custom_input arguments)
             else function_call (call_identifier call) (fc_name call) arguments))
      end
  end.
(** and the call an object spells out, whose arguments may be a text. *)
Definition call_arguments (call : fallbackToolCall) : res string :=
  let arguments := or_empty_object (trim_space (fc_arguments call)) in
  if has_prefix dquote arguments then
    match UnmarshalString (fc_arguments call) with
    | Some decoded => Ok decoded
    | None => Err (ErrText (json_error (fc_arguments call)))
    end
  else Ok arguments.
Definition custom_write (callID arguments tools : string) : option responseItem :=
  match object_in arguments with
  | Some m =>
      if (text_of m "patch" =?s "") && (text_of m "cmd" =?s "") && negb (text_of m "path" =?s "") then
        match mget m "content" with
        | VStr content =>
            if toolNameAllowed "exec_command" tools
            then Some (execCommandWriteFileItem callID (text_of m "path") content) else None
        | _ => None
        end
      else None
  | None => None
  end.
Definition custom_call (callID name arguments tools : string) : responseItem :=
  match custom_write callID arguments tools with
  | Some item => item
  | None =>
      let input := custom_input arguments in
      if (name =?s "apply_patch") && negb (has_prefix "*** Begin Patch" (trim_space input))
         && toolNameAllowed "exec_command" tools
      then execCommandItem callID input else custom_item callID name input
  end.
Definition object_call (call : fallbackToolCall) (tools : string) : res (option responseItem) :=
  if blank (fc_name call) then Err (ErrText "fallback function_call requires name")
  else match normalizeFallbackAlias call tools with
  | Err e => Err e
  | Ok (Some item) => Ok (Some item)
  | Ok None =>
      match known_tool (fc_name call) tools with
      | None => Err (unknown_tool (fc_name call))
      | Some type =>
          match call_arguments call with
          | Err e => Err e
          | Ok arguments =>
              Ok (Some
                (if type =?s "custom" then custom_call (call_identifier call) (fc_name call) arguments tools
                 else function_call (call_identifier call) (fc_name call) arguments))
          end
      end
  end.
(** [codexlocalgateway/responses.go:169-331] parseFallbackToolCall: [None] is a text without
    a call. *)
Definition candidate_text (text : string) : string :=
  let text := trim_space text in
  match embeddedFunctionCallJSON text with
  | Some found => found
  | None => default text (embeddedPrefixedToolCall text)
  end.
Definition parseFallbackToolCall (text tools : string) : res (option responseItem) :=
  let text := candidate_text text in
  match shellFenceToolCall text tools with
  | Some item => Ok (Some item)
  | None =>
      match parsePrefixedToolCall text with
      | Err e => Err e
      | Ok (Some call) => prefixed_call call tools
      | Ok None =>
          let trimmed := stripJSONFence text in
          if negb (has_prefix "{" trimmed) then Ok None
          else match UnmarshalCall trimmed with
               | None => Err (ErrText (json_error trimmed))
               | Some call =>
                   if negb (fc_type call =?s "function_call") then Ok None else object_call call tools
               end
      end
  end.
End Fallback.

(** ** Commands that ran already *)

(** [codexlocalgateway/responses.go:13-13] pythonWritePattern. *)
Definition pythonWritePattern : regexp :=
  let text := Star true (Alt (Seq (Lit "\") (none_of nl)) (none_of quote_chars)) in
  Seqs [Lit "Path("; one_of quote_chars; Capture 1 (Plus true (none_of quote_chars)); one_of quote_chars;
        Lit ").write_text("; one_of quote_chars; Capture 2 text; one_of quote_chars; Lit ")"].
(** [codexlocalgateway/responses.go:12-12] echoWritePattern. *)
Definition echoWritePattern : regexp :=
  let word := Byte (λ c, negb (white c) && negb (in_set ";&" c)) in
  Seqs [Alt LineStart (Seq (one_of (";&" +:+ nl)) spaces); Lit "echo"; Plus true (Byte white);
        Capture 1 (Plus false (none_of nl)); spaces; Lit ">"; spaces; Capture 2 (Plus true word)].
(** [codexlocalgateway/responses.go:635-638] unescapeCommandString. *)
Fixpoint unescapeCommandString (s : string) : string :=
  match s with
  | String a (String b r as s') =>
      if isb 92 a then
        if isb 110 b then nl +:+ unescapeCommandString r
        else if isb 34 b || isb 39 b || isb 92 b then String b (unescapeCommandString r)
        else String a (unescapeCommandString s')
      else String a (unescapeCommandString s')
  | _ => s
  end.
(** [codexlocalgateway/responses.go:616-633] fileWriteEffect: the path and the text. *)
Definition echo_write (m : captures) : string * string :=
  let path := trim_set quote_chars (captured m 2) in
  let content := trim_set quote_chars (trim_space (captured m 1)) in
  let content := trim_set quote_chars (trim_space (unescapeCommandString content)) in
  (path, trim_suffix "\" content +:+ nl).
Definition fileWriteEffect (command : string) : option (string * string) :=
  let trimmed := trim_space command in
  match find pythonWritePattern trimmed with
  | Some m => Some (unescapeCommandString (captured m 1), unescapeCommandString (captured m 2))
  | None => echo_write <$> last (find_all echoWritePattern trimmed)
  end.
(** [codexlocalgateway/responses.go:604-614] equivalent. *)
Definition equivalent (w other : string * string) : bool :=
  let left := path_clean (trim_space w.1) in
  let right := path_clean (trim_space other.1) in
  (w.2 =?s other.2) && ((left =?s right) || (path_base left =?s path_base right)).
Definition same_effect (previous target : string) : bool :=
  (previous =?s target)
  || match fileWriteEffect target, fileWriteEffect previous with
     | Some w, Some p => equivalent p w
     | _, _ => false
     end.
(** [codexlocalgateway/responses.go:576-597] duplicateExecCommandItem. *)
Definition duplicateExecCommandItem (existing : list responseItem) (candidate : responseItem) : bool :=
  match execCommandFromResponseItem candidate with
  | None => false
  | Some target =>
      existsb (λ item, match execCommandFromResponseItem item with
                       | Some previous => same_effect previous target
                       | None => false
                       end) existing
  end.

(** [codexlocalgateway/responses.go:685-706] containsExitCodeZero. *)
Fixpoint containsExitCodeZero (v : gval) : bool :=
  match v with
  | VMap m =>
      match m !! "exit_code" with Some (VNum 0 _) => true | _ => false end
      || map_fold (λ _ found acc, found || acc) false (containsExitCodeZero <$> m)
  | VList l => existsb id (containsExitCodeZero <$> l)
  | _ => false
  end.
(** [codexlocalgateway/responses.go:677-683] toolOutputSucceeded. *)
Definition toolOutputSucceeded (content : string) : bool :=
  match parse content with
  | Some v =>
      if in_range v then containsExitCodeZero (of_jval v)
      else contains "exit_code=0" content || contains "exit_code 0" content
  | None => contains "exit_code=0" content || contains "exit_code 0" content
  end.
(** [codexlocalgateway/responses.go:542-574] repeatedSuccessfulExecCommand: the commands
    seen so far, by their call. *)
Definition remember_calls (seen : gmap string string) (calls : list chatToolCall) : gmap string string :=
  foldl (λ seen c,
    if fn_name (call_function c) =?s "exec_command" then
      match execCommandFromArguments (fn_arguments (call_function c)) with
      | Some command => <[call_id c := command]> seen
      | None => seen
      end
    else seen) seen calls.
Fixpoint ran_before (target : string) (messages : list chatMessage) (seen : gmap string string) : bool :=
  match messages with
  | [] => false
  | m :: messages =>
      if msg_role m =?s "assistant" then
        ran_before target messages (remember_calls seen (msg_tool_calls m))
      else if (msg_role m =?s "tool") && toolOutputSucceeded (msg_content m)
              && same_effect (default "" (seen !! msg_tool_call_id m)) target
      then true else ran_before target messages seen
  end.
Definition repeatedSuccessfulExecCommand (messages : list chatMessage) (item : responseItem) : bool :=
  match execCommandFromResponseItem item with
  | None => false
  | Some target => ran_before target messages ∅
  end.

Example effects_demo :
  fileWriteEffect <$>
    ["cd x; echo 'a b'  > out.txt"; write_command "a/b.py" ("x" +:+ nl); "ls > f"]
  = [Some ("out.txt", "a b" +:+ nl); Some ("a/b.py", "x" +:+ nl); None].
Proof. vm_compute. reflexivity. Qed.
(** Two files of one name and one text in two directories count as one write. *)
Example same_name_same_effect :
  same_effect (write_command "a/__init__.py" "") (write_command "b/__init__.py" "") = true.
Proof. vm_compute. reflexivity. Qed.

(** ** A call is for a tool on offer *)
Lemma tool_types_names tools name t :
  toolTypeByName tools !! name = Some t → name ∈ toolNames tools.
Proof.
  unfold toolTypeByName, toolNames. generalize (decodeToolMaps tools) as l. intros l.
  assert (H : ∀ l (m : gmap string string), foldl (λ m tool, if tool_name tool =?s "" then m
      else <[tool_name tool := tool_type tool]> m) m l !! name = Some t →
    m !! name = Some t ∨ name ∈ filter (λ name, name ≠ "") (tool_name <$> l)).
  { clear. intros l. induction l as [|tool l IH]; intros m; [by left|].
    cbn [foldl fmap list_fmap]. rewrite filter_cons.
    destruct (String.eqb_spec (tool_name tool) "") as [E|E].
    - rewrite decide_False by auto. apply IH.
    - rewrite decide_True by done. intros Hl. apply IH in Hl as [Hl|Hl]; [|right; by right].
      destruct (decide (tool_name tool = name)) as [<-|Hne]; [right; by left|].
      rewrite lookup_insert_ne in Hl by done. by left. }
  intros Hl. apply H in Hl as [Hl|Hl]; [|done]. by rewrite lookup_empty in Hl.
Qed.
Lemma no_tool_types tools : toolTypeByName tools = ∅ → toolNames tools = [].
Proof.
  unfold toolTypeByName, toolNames. generalize (decodeToolMaps tools) as l. intros l.
  set (add := λ (m : gmap string string) tool, if tool_name tool =?s "" then m else <[tool_name tool := tool_type tool]> m).
  assert (Hgrow : ∀ l m, foldl add m l = ∅ → m = ∅ ∧ filter (λ name, name ≠ "") (tool_name <$> l) = []).
  { clear l. intros l. induction l as [|tool l IH]; intros m; [done|].
    cbn [foldl fmap list_fmap]. rewrite filter_cons. intros Hl. apply IH in Hl as [Hm ->].
    unfold add in Hm. destruct (String.eqb_spec (tool_name tool) "") as [E|E].
    - by rewrite decide_False by auto.
    - by apply insert_non_empty in Hm. }
  intros Hl. by apply Hgrow in Hl as [_ ?].
Qed.
Lemma known_tool_allowed name tools t :
  known_tool name tools = Some t → toolNameAllowed name tools = true.
Proof.
  unfold known_tool, toolNameAllowed. case_bool_decide as He.
  - intros _. by rewrite (no_tool_types tools He).
  - intros Ht. apply tool_types_names in Ht. destruct (toolNames tools); [done|].
    by apply bool_decide_eq_true_2.
Qed.

(** A completed call with its identifiers, of an allowed tool. *)
Record offered (tools : string) (item : responseItem) : Prop := {
  of_kind :
    it_type item = "function_call" ∧ it_id item = "fc_" +:+ it_call_id item ∨
    it_type item = "custom_tool_call" ∧ it_id item = "ctc_" +:+ it_call_id item ∧
      toolTypeByName tools !! it_name item = Some "custom";
  of_status : it_status item = "completed";
  of_name : toolNameAllowed (it_name item) tools = true;
}.
Lemma function_offered tools callID name arguments :
  toolNameAllowed name tools = true → offered tools (function_item callID name arguments).
Proof. intros Hn. split; [by left|done|done]. Qed.
Lemma function_call_name callID name arguments :
  ∃ arguments', function_call callID name arguments = function_item callID name arguments'.
Proof.
  unfold function_call.
  assert (Hw : ∀ m item, nested_write callID m = Some item →
    ∃ a, item = function_item callID "exec_command" a).
  { intros m item. unfold nested_write. destruct (writeFields m); [|done]. intros [= <-]. by eexists. }
  destruct (String.eqb_spec name "exec_command") as [->|_].
  - destruct (normalizeExecCommandFallback callID arguments) as [item|] eqn:E; [|by eexists].
    unfold normalizeExecCommandFallback in E. destruct (object_in arguments) as [args|]; [|done].
    destruct (nested_write callID args) as [i|] eqn:Hi; [injection E as <-; by apply Hw in Hi|].
    destruct (mget args "cmd") as [| | | |cmd| | | |m| | |]; try done; [|by apply Hw in E].
    destruct (unwrapNestedExecCommandString cmd); [injection E as <-; by eexists|].
    destruct (match object_in (trim_space cmd) with Some m => _ | None => _ end); [|done].
    by apply Hw in E.
  - destruct (String.eqb_spec name "tool_search_code") as [->|_]; [|by eexists].
    destruct (normalizeToolSearchCodeFallback callID arguments) as [item|] eqn:E; [|by eexists].
    unfold normalizeToolSearchCodeFallback in E. destruct (object_in arguments) as [args|]; [|done].
    destruct (negb _); [done|]. destruct (filter _ _); [done|]. injection E as <-. by eexists.
Qed.
Lemma function_call_offered tools callID name arguments :
  toolNameAllowed name tools = true → offered tools (function_call callID name arguments).
Proof.
  intros Hn. destruct (function_call_name callID name arguments) as [a ->]. by apply function_offered.
Qed.
Lemma custom_offered tools callID name input :
  known_tool name tools = Some "custom" → offered tools (custom_item callID name input).
Proof.
  intros Ht. split; [right|done|by apply known_tool_allowed in Ht].
  split_and!; [done|done|]. unfold known_tool in Ht. by case_bool_decide.
Qed.
Lemma alias_offered json_error call tools item :
  normalizeFallbackAlias json_error call tools = Ok (Some item) → offered tools item.
Proof.
  unfold normalizeFallbackAlias. destruct (toolNameAllowed "exec_command" tools) eqn:Ha;
    [|by rewrite orb_true_r].
  rewrite orb_false_r. destruct (negb _); [done|]. destruct (read_write _) as [[path content]|]; [|done].
  destruct (blank path); [done|]. intros [= <-]. by apply function_offered.
Qed.
Lemma shell_offered text tools item : shellFenceToolCall text tools = Some item → offered tools item.
Proof.
  unfold shellFenceToolCall. destruct (shellFenceCommand text) as [command|]; [|done].
  destruct (toolNameAllowed "exec_command" tools) eqn:He; [intros [= <-]; by apply function_offered|].
  destruct (toolNameAllowed "tool_search_code" tools) eqn:Ht; [|done].
  intros [= <-]. by apply function_offered.
Qed.
Lemma custom_call_offered callID name arguments tools :
  known_tool name tools = Some "custom" → offered tools (custom_call callID name arguments tools).
Proof.
  intros Ht. unfold custom_call, custom_write.
  destruct (toolNameAllowed "exec_command" tools) eqn:He.
  - destruct (match object_in arguments with Some _ => _ | None => _ end) as [item|] eqn:Hw.
    + destruct (object_in arguments) as [m|]; [|done]. destruct (_ && _); [|done].
      destruct (mget m "content"); try done. injection Hw as <-. by apply function_offered.
    + destruct (_ && _ && _); [by apply function_offered|by apply custom_offered].
  - rewrite andb_false_r. destruct (object_in arguments) as [m|]; [|by apply custom_offered].
    destruct (_ && _ && _); [|by apply custom_offered].
    by destruct (mget m "content"); apply custom_offered.
Qed.

Lemma fallback_offered json_error text tools item :
  parseFallbackToolCall json_error text tools = Ok (Some item) → offered tools item.
Proof.
  unfold parseFallbackToolCall. cbv zeta. generalize (candidate_text text) as t. intros t.
  destruct (shellFenceToolCall t tools) as [i|] eqn:Hs; [intros [= <-]; by apply shell_offered in Hs|].
  destruct (parsePrefixedToolCall t) as [[call|]|e]; [| |done].
  - unfold prefixed_call. destruct (normalizeFallbackAlias _ _ _) as [[i|]|e] eqn:Ha; [| |done].
    + intros [= <-]. by apply alias_offered in Ha.
    + destruct (known_tool _ _) as [type|] eqn:Hk; [|done]. cbv zeta. intros [= <-].
      destruct (String.eqb_spec type "custom") as [->|_]; [by apply custom_offered|].
      apply known_tool_allowed in Hk. by apply function_call_offered.
  - destruct (negb _); [done|]. destruct (UnmarshalCall _) as [call|]; [|done].
    destruct (negb _); [done|]. unfold object_call. destruct (blank _); [done|].
    destruct (normalizeFallbackAlias _ _ _) as [[i|]|e] eqn:Ha; [| |done].
    + intros [= <-]. by apply alias_offered in Ha.
    + destruct (known_tool _ _) as [type|] eqn:Hk; [|done].
      destruct (call_arguments _ _) as [arguments|]; [|done]. intros [= <-].
      destruct (String.eqb_spec type "custom") as [->|_]; [by apply custom_call_offered|].
      apply known_tool_allowed in Hk. by apply function_call_offered.
Qed.

(** A call found in a text of the model is a completed call of a tool the client
    offers, any tool when it offers none, and a custom call only of a tool declared so;
    what names another tool is an error, never a call. *)
Theorem parseFallbackToolCall_offered json_error text tools item :
  parseFallbackToolCall json_error text tools = Ok (Some item) → offered tools item.
Proof. apply fallback_offered. Qed.

Lemma parseFallbackToolCall_offered_witness :
  let tools := replace_char "'" dquote "[{'type':'function','name':'exec_command'}]" in
  let text := replace_char "'" dquote "exec_command: {'cmd':'ls'}" in
  ∃ item, parseFallbackToolCall (λ _, "?") text tools = Ok (Some item) ∧ offered tools item.
Proof.
  eexists. split; [vm_compute; reflexivity|].
  apply (parseFallbackToolCall_offered (λ _, "?") (replace_char "'" dquote "exec_command: {'cmd':'ls'}")).
  vm_compute. reflexivity.
Defined.
