(* ===== verification/GatewayApi.v ===== *)
(** * The responses endpoint of the gateway ([codexlocalgateway/server.go])

    A request of the responses API becomes a chat request for the local model, with the
    conversation it continues and instructions on tools; the answer becomes a response,
    where a call of a tool is preferred to prose. *)
From S2P Require Import Prelude GoVal Json JsonText JsonValue Effects Gateway Regexp ToolCall.

(** ** Decoding *)

(** [json.Unmarshal] into an int: digits, after a sign at most, in 64 bits. *)
Fixpoint digits (s : string) (acc : Z) : option Z :=
  match s with
  | EmptyString => Some acc
  | String c r => if within 48 57 c then digits r (acc * 10 + digit_of c) else None
  end.
Definition read_int (old : Z) (v : jval) : option Z :=
  match v with
  | JNull => Some old
  | JNum text =>
      let n := if has_prefix "-" text then Z.opp <$> digits (sdrop 1 text) 0 else digits text 0 in
      match n with
      | Some z => if (- 2 ^ 63 <=? z) && (z <? 2 ^ 63) then Some z else None
      | None => None
      end
  | _ => None
  end.
(** A field that nobody reads still has to have its type. *)
Definition typed {A B} (old : A) (read : option B) : option A := (λ _, old) <$> read.
Definition read_bool (old : bool) (v : jval) : option bool :=
  match v with JNull => Some old | JBool b => Some b | _ => None end.
Definition read_float (v : jval) : option gval :=
  match v with JNull => Some VNil | JNum text => float_of_text text | _ => None end.
Definition read_any (v : jval) : option gval := if in_range v then Some (of_jval v) else None.

(** Decoding goes on after a value of another type, which it leaves out: what was read, and
    whether that is all. *)
Definition soft {A} (old : A) (r : option A) : A * bool :=
  match r with Some a => (a, true) | None => (old, false) end.
Definition soft_map {A B} (f : A → B) (r : A * bool) : B * bool := (f r.1, r.2).
Definition strict {A} (r : A * bool) : option A := if r.2 then Some r.1 else None.
Fixpoint soft_raw {A} (f : string → A → jval → string → A * bool) (a : A)
    (l : list ((string * jval) * string)) : A * bool :=
  match l with
  | [] => (a, true)
  | ((key, v), raw) :: l =>
      let '(a, ok) := f (fold_ascii (unquote key)) a v raw in
      let '(a, all) := soft_raw f a l in (a, ok && all)
  end.
Definition soft_raw_object {A} (f : string → A → jval → string → A * bool) (a : A) (text : string) :
    A * bool :=
  match parse text with
  | Some JNull => (a, true)
  | Some (JObj l) => soft_raw f a (zip l (raw_values text))
  | _ => (a, false)
  end.
Definition soft_object {A} (f : string → A → jval → A * bool) (a : A) (v : jval) : A * bool :=
  match v with
  | JNull => (a, true)
  | JObj l => soft_raw (λ key a v _, f key a v) a ((λ kv, (kv, "")) <$> l)
  | _ => (a, false)
  end.
Definition soft_list {A} (read : jval → A * bool) (old : list A) (v : jval) : list A * bool :=
  match v with
  | JNull => ([], true)
  | JArr l => ((λ v, (read v).1) <$> l, forallb (λ v, (read v).2) l)
  | _ => (old, false)
  end.
(** Calls of tools. *)
Definition soft_function : chatToolFunction → jval → chatToolFunction * bool :=
  soft_object (λ key old v,
    if key =?s "name" then
      soft_map (λ s, MkFunction s (fn_arguments old)) (soft (fn_name old) (text_value (fn_name old) v))
    else if key =?s "arguments" then
      soft_map (MkFunction (fn_name old)) (soft (fn_arguments old) (text_value (fn_arguments old) v))
    else (old, true)).
Definition soft_tool_call : jval → chatToolCall * bool :=
  soft_object (λ key old v,
    if key =?s "id" then
      soft_map (λ s, MkCall s (call_type old) (call_function old)) (soft (call_id old) (text_value (call_id old) v))
    else if key =?s "type" then
      soft_map (λ s, MkCall (call_id old) s (call_function old)) (soft (call_type old) (text_value (call_type old) v))
    else if key =?s "function" then
      soft_map (MkCall (call_id old) (call_type old)) (soft_function (call_function old) v)
    else (old, true)) (MkCall "" "" (MkFunction "" "")).

(** ** Requests *)

(** [codexlocalgateway/types.go:5-17] responsesRequest: raw values by their text; numbers
    that are passed on as they are. *)
Record responsesRequest := MkRequest {
  rq_input : string;
  rq_instructions : string;
  rq_max_output_tokens : Z;
  rq_temperature : gval;
  rq_top_p : gval;
  rq_stream : bool;
  rq_tools : string;
  rq_tool_choice : gval;
  rq_previous : string;
}.
#[export] Instance eta_request : Eta responsesRequest := λ r,
  MkRequest (rq_input r) (rq_instructions r) (rq_max_output_tokens r) (rq_temperature r)
    (rq_top_p r) (rq_stream r) (rq_tools r) (rq_tool_choice r) (rq_previous r).
(** [codexlocalgateway/server.go:409-413] responses: the decoding of a body. *)
Definition read_request (key : string) (q : responsesRequest) (v : jval) (raw : string) :
    option responsesRequest :=
  if key =?s "model" then typed q (text_value "" v)
  else if key =?s "input" then Some (q <| rq_input := raw |>)
  else if key =?s "instructions" then
    (λ s, q <| rq_instructions := s |>) <$> text_value (rq_instructions q) v
  else if key =?s "max_output_tokens" then
    (λ n, q <| rq_max_output_tokens := n |>) <$> read_int (rq_max_output_tokens q) v
  else if key =?s "temperature" then (λ x, q <| rq_temperature := x |>) <$> read_float v
  else if key =?s "top_p" then (λ x, q <| rq_top_p := x |>) <$> read_float v
  else if key =?s "stream" then (λ b, q <| rq_stream := b |>) <$> read_bool (rq_stream q) v
  else if key =?s "tools" then Some (q <| rq_tools := raw |>)
  else if key =?s "tool_choice" then (λ x, q <| rq_tool_choice := x |>) <$> read_any v
  else if key =?s "parallel_tool_calls" then typed q (read_bool false v)
  else if key =?s "previous_response_id" then
    (λ s, q <| rq_previous := s |>) <$> text_value (rq_previous q) v
  else Some q.
Definition no_request : responsesRequest := MkRequest "" "" 0 VNil VNil false "" VNil "".
Definition UnmarshalRequest : string → option responsesRequest := read_raw_object read_request no_request.

(** [codexlocalgateway/types.go:37-47] chatCompletionRequest. *)
Record chatCompletionRequest := MkChatRequest {
  cq_model : string;
  cq_messages : list chatMessage;
  cq_max_tokens : Z;
  cq_temperature : gval;
  cq_top_p : gval;
  cq_stream : bool;
  cq_tools : string;
  cq_tool_choice : gval;
  cq_parallel : option bool;
}.
#[export] Instance eta_chat_request : Eta chatCompletionRequest := λ q,
  MkChatRequest (cq_model q) (cq_messages q) (cq_max_tokens q) (cq_temperature q) (cq_top_p q)
    (cq_stream q) (cq_tools q) (cq_tool_choice q) (cq_parallel q).

(** [codexlocalgateway/server.go:518-520] hasTools. *)
Definition hasTools (raw : string) : bool :=
  negb (raw =?s "") && negb (raw =?s "null") && negb (raw =?s "[]").
(** [codexlocalgateway/server.go:679-693] hasFunctionCallOutput. *)
Definition hasFunctionCallOutput (raw : string) : bool :=
  if input_required raw then false
  else match UnmarshalList raw with
       | Some l => existsb (λ v, bool_decide (is_Some (is_output v))) l
       | None => false
       end.

(** [codexlocalgateway/server.go:586-607] looksLikeImmediateExecRequest. *)
Definition immediate_signals : list string :=
  ["run exactly this command"; "execute this command"; "run this command";
   "execute this shell command"; "execute the following command"; "do not suggest it";
   "do not ask for confirmation"; "call the tool immediately"].
Definition says_any (signals : list string) (normalized : string) : bool :=
  existsb (λ signal, contains signal normalized) signals.
Definition looksLikeImmediateExecRequest (input : string) : bool :=
  let normalized := to_lower (trim_space input) in
  negb (normalized =?s "") && says_any immediate_signals normalized.
(** [codexlocalgateway/server.go:620-677] looksLikeAgenticExecutionRequest. *)
Definition action_signals : list string :=
  ["execute"; "run "; "create"; "write"; "edit"; "modify"; "change"; "update"; "upgrade"; "fix";
   "correct"; "patch"; "apply"; "install"; "start"; "launch"; "validate"; "verify"; "test";
   "migrate"; "refactor"; "create a branch"; "open the repo"].
Definition explanation_signals : list string :=
  ["explain"; "why "; "how does"; "how do"; "what is"; "should i"; "is it safe";
   "could you explain"; "summarize"].
Definition looksLikeAgenticExecutionRequest (input : string) : bool :=
  let normalized := to_lower (trim_space input) in
  if normalized =?s "" then false
  else says_any action_signals normalized
       && negb (says_any explanation_signals normalized
                && negb (looksLikeImmediateExecRequest normalized)).
(** [codexlocalgateway/server.go:609-618] shouldUseStrictExecution. *)
Definition shouldUseStrictExecution (req : responsesRequest) : bool :=
  if hasFunctionCallOutput (rq_input req) || negb (hasTools (rq_tools req)) then false
  else match flattenInput (rq_input req) with
       | Ok input => looksLikeAgenticExecutionRequest input
       | Err _ => false
       end.
(** [codexlocalgateway/server.go:561-584] effectiveToolChoice. *)
Definition exec_choice : gval :=
  VMap {["type" := VStr "function"; "function" := VMap {["name" := VStr "exec_command"]}]}.
Definition effectiveToolChoice (req : responsesRequest) : gval :=
  if hasFunctionCallOutput (rq_input req) then VNil
  else if requiresToolCall (rq_tool_choice req) then rq_tool_choice req
  else match flattenInput (rq_input req) with
       | Err _ => rq_tool_choice req
       | Ok input =>
           if toolNameAllowed "exec_command" (rq_tools req) && looksLikeImmediateExecRequest input
           then exec_choice
           else if negb (shouldUseStrictExecution req) then rq_tool_choice req
           else VStr "required"
       end.

(** [codexlocalgateway/server.go:522-550] fallbackToolInstruction. *)
Definition call_form : string := replace_char "'" dquote
  "{'type':'function_call','call_id':'call_<short_id>','name':'tool_name','arguments':{...}}".
Definition fallbackToolInstruction (tools : string) (choice : gval) : chatMessage :=
  let chosen := requiredToolName choice in
  let names := if chosen =?s "" then preferredFallbackToolNames tools else [chosen] in
  let nameLine :=
    match names with
    | [] => "Use only a tool name from the provided tools list."
    | _ => "Use only one of these tool names: " +:+ sjoin ", " names +:+ "."
    end in
  let toolSearchInstruction :=
    if toolNameAllowed "tool_search_code" tools then
      replace_char "'" dquote " For tool_search_code, arguments must be {'code':'...'}. " +:+
      "When execution, editing, testing, or file changes are required and tool_search_code is available, call it immediately with JavaScript that searches the hidden tool catalog, describes the chosen tool, and calls it. " +:+
      "Do not answer with NO_REPLY or prose before that tool-backed execution starts."
    else "" in
  MkMessage "system"
    (nameLine
     +:+ " If you need to call a tool and native tool_calls are unavailable, return exactly one JSON object: "
     +:+ call_form +:+ ". "
     +:+ replace_char "'" dquote "For exec_command, arguments must be {'cmd':'real shell command'}; never put another JSON object inside cmd. "
     +:+ "If the user explicitly tells you to run or execute a command now, you must answer with the exec_command JSON function_call and no surrounding prose. "
     +:+ "If approval policy is never or sandbox is already danger-full-access, do not ask for confirmation and do not say you are about to run a command; call the tool immediately. "
     +:+ "If an exec_command already succeeded for the exact same cmd, do not repeat that same cmd again for the same task; otherwise continue calling exec_command as needed to finish the task. "
     +:+ "After a successful exec_command, either issue the next necessary tool call or finish with a verified result that includes git status and validation output. "
     +:+ "Do not use write_stdin unless a prior exec_command returned a session_id. Do not claim that you edited files or ran commands unless a tool result confirms it."
     +:+ toolSearchInstruction) "" [].
(** [codexlocalgateway/server.go:552-559] strictExecutionInstruction. *)
Definition strictExecutionInstruction : chatMessage :=
  MkMessage "system"
    ("Strict execution mode: if this task is about executing, editing, fixing, updating, validating, or starting something, the first valid response must be a tool call and not prose. "
     +:+ "If execution has not started yet, do not explain what you would do next. Call a tool. "
     +:+ "Only return prose after tool-backed progress exists or the task is conclusively blocked.")
    "" [].

(** ** Commands given in the request *)

(** [codexlocalgateway/server.go:710-771] immediateExecCommand: the first marker that
    occurs, in their order; a command in backquotes, or up to the first stopper. *)
Definition command_markers : list string :=
  ["run exactly this command now and do not suggest it:"; "run exactly this command now:";
   "execute this command immediately:"; "execute this command now:"; "run exactly this command:";
   "run this command immediately:"; "run this command now:"; "run this command:";
   "execute this command:"].
Definition command_stoppers : list string :=
  [". After "; ". after "; ". Then "; ". then "; ". Reply "; ". reply "; nl +:+ "After ";
   nl +:+ "after "; nl +:+ "Then "; nl +:+ "then "].
Fixpoint first_cut (separators : list string) (s : string) : option (string * string * string) :=
  match separators with
  | [] => None
  | sep :: separators =>
      match cut sep s with
      | Some (a, b) => Some (sep, a, b)
      | None => first_cut separators s
      end
  end.
Definition immediateExecCommand (input : string) : option string :=
  let trimmed := trim_space input in
  match first_cut command_markers (to_lower trimmed) with
  | None => None
  | Some (marker, before, _) =>
      let command := trim_space (sdrop (String.length before + String.length marker) trimmed) in
      if command =?s "" then None
      else
        let command :=
          if has_prefix "`" command then
            let command := sdrop 1 command in
            match cut "`" command with Some (a, _) => a | None => command end
          else match first_cut command_stoppers command with Some (_, a, _) => a | None => command end in
        let command := trim_space (trim_set "` " command) in
        if command =?s "" then None else Some command
  end.
Example immediate_demo :
  immediateExecCommand <$> ["Please Run this command: `ls -la` and stop"; "execute this command: make. Then rest"; "run"]
  = [Some "ls -la"; Some "make"; None].
Proof. vm_compute. reflexivity. Qed.
(** [codexlocalgateway/server.go:695-708] synthesizeImmediateExecCommand. *)
Definition synthesizeImmediateExecCommand (req : responsesRequest) : option responseItem :=
  if hasFunctionCallOutput (rq_input req) || negb (toolNameAllowed "exec_command" (rq_tools req)) then None
  else match flattenInput (rq_input req) with
       | Err _ => None
       | Ok input => execCommandItem "call_exec_command" <$> immediateExecCommand input
       end.

(** ** Answers of the model *)

(** [codexlocalgateway/types.go:49-77] chatCompletionResponse and chatUsage. *)
Record chatChoice := MkChoice {
  cc_index : Z;
  cc_role : string;
  cc_content : string;
  cc_tool_calls : list chatToolCall;
  cc_delta : string;
  cc_finish_reason : string;
}.
#[export] Instance eta_choice : Eta chatChoice := λ c,
  MkChoice (cc_index c) (cc_role c) (cc_content c) (cc_tool_calls c) (cc_delta c) (cc_finish_reason c).
Record responsesUsage := MkUsage { InputTokens : Z; OutputTokens : Z; TotalTokens : Z }.
#[export] Instance eta_usage : Eta responsesUsage := λ u,
  MkUsage (InputTokens u) (OutputTokens u) (TotalTokens u).
Record chatCompletionResponse := MkCompletion {
  cp_id : string;
  cp_object : string;
  cp_created : Z;
  cp_model : string;
  cp_choices : list chatChoice;
  cp_usage : responsesUsage;
}.
#[export] Instance eta_completion : Eta chatCompletionResponse := λ c,
  MkCompletion (cp_id c) (cp_object c) (cp_created c) (cp_model c) (cp_choices c) (cp_usage c).

Definition read_list {A} (read : jval → option A) (v : jval) : option (list A) :=
  match v with JNull => Some [] | JArr l => mapM read l | _ => None end.
Definition read_answer : chatChoice → jval → option chatChoice :=
  read_object (λ key old v,
    if key =?s "role" then (λ s, old <| cc_role := s |>) <$> text_value (cc_role old) v
    else if key =?s "content" then (λ s, old <| cc_content := s |>) <$> text_value (cc_content old) v
    else if key =?s "tool_calls" then
      (λ l, old <| cc_tool_calls := l |>) <$> read_list (λ v, strict (soft_tool_call v)) v
    else Some old).
Definition read_delta : chatChoice → jval → option chatChoice :=
  read_object (λ key old v,
    if key =?s "content" then (λ s, old <| cc_delta := s |>) <$> text_value (cc_delta old) v
    else Some old).
Definition no_choice : chatChoice := MkChoice 0 "" "" [] "" "".
Definition read_chat_choice : jval → option chatChoice :=
  read_object (λ key old v,
    if key =?s "index" then (λ n, old <| cc_index := n |>) <$> read_int (cc_index old) v
    else if key =?s "message" then read_answer old v
    else if key =?s "delta" then read_delta old v
    else if key =?s "finish_reason" then
      (λ s, old <| cc_finish_reason := s |>) <$> text_value (cc_finish_reason old) v
    else Some old) no_choice.
Definition read_usage : responsesUsage → jval → option responsesUsage :=
  read_object (λ key old v,
    if key =?s "prompt_tokens" then (λ n, old <| InputTokens := n |>) <$> read_int (InputTokens old) v
    else if key =?s "completion_tokens" then (λ n, old <| OutputTokens := n |>) <$> read_int (OutputTokens old) v
    else if key =?s "total_tokens" then (λ n, old <| TotalTokens := n |>) <$> read_int (TotalTokens old) v
    else Some old).
Definition read_completion : chatCompletionResponse → jval → option chatCompletionResponse :=
  read_object (λ key old v,
    if key =?s "id" then (λ s, old <| cp_id := s |>) <$> text_value (cp_id old) v
    else if key =?s "object" then (λ s, old <| cp_object := s |>) <$> text_value (cp_object old) v
    else if key =?s "created" then (λ n, old <| cp_created := n |>) <$> read_int (cp_created old) v
    else if key =?s "model" then (λ s, old <| cp_model := s |>) <$> text_value (cp_model old) v
    else if key =?s "choices" then (λ l, old <| cp_choices := l |>) <$> read_list read_chat_choice v
    else if key =?s "usage" then (λ u, old <| cp_usage := u |>) <$> read_usage (cp_usage old) v
    else Some old).
Definition UnmarshalChat (text : string) : option chatCompletionResponse :=
  match parse text with
  | Some v => read_completion (MkCompletion "" "" 0 "" [] (MkUsage 0 0 0)) v
  | None => None
  end.

(** ** The request to the model *)

Definition given (b : bool) (key : string) (v : jval) : list (string * jval) :=
  if b then [(key, v)] else [].
Definition filled (s : string) : bool := negb (s =?s "").
(** [codexlocalgateway/server.go:426-430] responses: the body sent upstream. *)
Definition call_jval (c : chatToolCall) : jval :=
  struct_jval
    [("id", json_str (call_id c)); ("type", json_str (call_type c));
     ("function", struct_jval [("name", json_str (fn_name (call_function c)));
                               ("arguments", json_str (fn_arguments (call_function c)))])].
Definition message_jval (m : chatMessage) : jval :=
  struct_jval
    (("role", json_str (msg_role m))
     :: given (filled (msg_content m)) "content" (json_str (msg_content m))
     ++ given (filled (msg_tool_call_id m)) "tool_call_id" (json_str (msg_tool_call_id m))
     ++ given (bool_decide (msg_tool_calls m ≠ [])) "tool_calls" (JArr (call_jval <$> msg_tool_calls m))).
(** A raw value is written anew, with its markup escaped. *)
Fixpoint escape_markup (s : string) : string :=
  match s with
  | String a r =>
      if isb 60 a || isb 62 a || isb 38 a then quote_byte a +:+ escape_markup r
      else match r with
           | String b (String c r3) =>
               if line_separator a b c
               then "\u202" +:+ String (hex_char (code c mod 16)%N) (escape_markup r3)
               else String a (escape_markup r)
           | _ => String a (escape_markup r)
           end
  | EmptyString => ""
  end.
Fixpoint escaped (v : jval) : jval :=
  match v with
  | JStr raw => JStr (escape_markup raw)
  | JArr l => JArr (escaped <$> l)
  | JObj l => JObj ((λ kv, (escape_markup kv.1, escaped kv.2)) <$> l)
  | _ => v
  end.
Definition raw_jval (raw : string) : jval := default JNull (escaped <$> parse raw).
Definition is_given (v : gval) : bool := match v with VNil => false | _ => true end.
Definition chat_body (q : chatCompletionRequest) : string :=
  compact (struct_jval
    ([("model", json_str (cq_model q)); ("messages", JArr (message_jval <$> cq_messages q))]
     ++ given (negb (cq_max_tokens q =? 0)) "max_tokens" (JNum (pretty (cq_max_tokens q)))
     ++ given (is_given (cq_temperature q)) "temperature" (to_jval (cq_temperature q))
     ++ given (is_given (cq_top_p q)) "top_p" (to_jval (cq_top_p q))
     ++ given (cq_stream q) "stream" (JBool true)
     ++ given (filled (cq_tools q)) "tools" (raw_jval (cq_tools q))
     ++ given (is_given (cq_tool_choice q)) "tool_choice" (to_jval (cq_tool_choice q))
     ++ match cq_parallel q with Some b => [("parallel_tool_calls", JBool b)] | None => [] end)).

(** ** Answers *)

(** [codexlocalgateway/types.go:72-81] responsesEnvelope: the completed response. *)
Record responsesEnvelope := MkEnvelope {
  rs_id : string;
  rs_created_at : Z;
  rs_model : string;
  rs_output : list responseItem;
  rs_output_text : string;
  rs_usage : responsesUsage;
}.
(** [codexlocalgateway/server.go:1097-1111] toolCallParseError and executionNotStartedError,
    and an answer that is not the expected JSON. *)
Inductive chat_error :=
  | toolCallParseError (message : string)
  | executionNotStartedError (message : string)
  | malformedError (message : string).
(** What one exchange with the upstream came to; a content type may be missing. *)
Inductive exchange :=
  | NotBuilt (message : string)
  | NoAnswer (deadline : bool) (message : string)
  | Unreadable (message : string)
  | Answered (status : Z) (content_type body : string).
Definition repeatedExecCommandMessage : string :=
  "Command already completed successfully; no further tool call is needed.".

Section Endpoint.
Context `{Env}.
Context (range : N → gmap string Responses.responseState → list (string * Responses.responseState)).
(** The texts of decoding errors, and the answer of the upstream to a body. *)
Context (json_error chat_json_error : string → string).
Context (upstream : N → string → exchange).
Context (cfg : Settings.Config).

Abbreviation St := (M Responses.responseStore).
Local Abbreviation store_set := (Responses.set range).

(** [codexlocalgateway/server.go:468-516] responsesToChat. *)
Definition opening_messages (req : responsesRequest) : St (res (list chatMessage)) :=
  if filled (rq_previous req) then
    prior <- Responses.get (rq_previous req) ;;
    ret (match prior with
         | Some messages => Ok messages
         | None => Err (ErrText ("previous_response_id " +:+ go_quote (rq_previous req)
                                 +:+ " was not found or expired"))
         end)
  else ret (Ok (if blank (rq_instructions req) then []
                else [MkMessage "system" (rq_instructions req) "" []])).
Definition tool_instructions (req : responsesRequest) : list chatMessage :=
  if hasTools (rq_tools req) then
    fallbackToolInstruction (rq_tools req) (rq_tool_choice req)
    :: (if shouldUseStrictExecution req then [strictExecutionInstruction] else [])
  else [].
Definition build_chat (req : responsesRequest) (messages : list chatMessage) :
    res chatCompletionRequest :=
  match Compaction.compactChatPrompt (Settings.MaxPromptChars cfg) messages with
  | Err e => Err e
  | Ok messages =>
      Ok (MkChatRequest (Settings.UpstreamModel cfg) messages
        (if rq_max_output_tokens req <=? 0 then Settings.DefaultMaxOutputTokens cfg
         else rq_max_output_tokens req)
        (rq_temperature req) (rq_top_p req) (rq_stream req) "" VNil None)
  end.
Definition responsesToChat (req : responsesRequest) : St (res chatCompletionRequest) :=
  match inputToChatMessages (rq_input req) with
  | Err e => ret (Err e)
  | Ok input =>
      opening <- opening_messages req ;;
      ret (match opening with
           | Err e => Err e
           | Ok opening => build_chat req (opening ++ tool_instructions req ++ input)
           end)
  end.

(** [codexlocalgateway/server.go:1242-1280] callUpstream: a body, or a status and a
    message. *)
Definition callUpstream (body : string) : St (Z * string * string + Z * string) := λ n s,
  let outcome :=
    match upstream n body with
    | NotBuilt message => inr (500, message)
    | NoAnswer deadline message =>
        inr (if deadline || contains "Client.Timeout" message then 504 else 502, message)
    | Unreadable message => inr (502, message)
    | Answered status content_type body =>
        let body := stake (Z.to_nat (Settings.MaxBodyBytes cfg)) body in
        if (status <? 200) || (300 <=? status) then
          inr (502, "upstream returned " +:+ pretty status +:+ ": " +:+ trim_space body)
        else inl (status, if content_type =?s "" then "application/json" else content_type, body)
    end in
  (Ok outcome, (N.succ n, s)).

(** ** The response to an answer *)

(** [codexlocalgateway/server.go:1231-1240] messageResponseItem. *)
Definition messageResponseItem (text : string) : St responseItem :=
  message <- new_uuid ;;
  ret (MkItem ("msg_" +:+ message) "message" "" "assistant" [text] "" "" "" "").

(** [codexlocalgateway/server.go:1113-1227] chatToResponses: what a turn comes to, the
    items, the text and the message that is kept. *)
Record turn := MkTurn {
  tn_output : list responseItem;
  tn_text : string;
  tn_assistant : chatMessage;
}.
Definition prose_message (text : string) : chatMessage := MkMessage "assistant" text "" [].
Definition calls_message (calls : list chatToolCall) : chatMessage :=
  MkMessage "assistant" "" "" calls.
Definition item_call (item : responseItem) : chatToolCall :=
  MkCall (it_call_id item) "function" (MkFunction (it_name item) (it_arguments item)).
Definition prose_turn (output : list responseItem) (text : string) : St turn :=
  item <- messageResponseItem text ;;
  ret (MkTurn (output ++ [item]) text (prose_message text)).
Definition call_turn (item : responseItem) : turn :=
  MkTurn [item] "" (calls_message [item_call item]).
(** native calls, up to one that repeats a command, *)
Definition native_item (call : chatToolCall) : responseItem :=
  normalizeResponseToolItem
    (function_item (call_id call) (fn_name (call_function call)) (fn_arguments (call_function call))).
Fixpoint native_output (messages : list chatMessage) (calls : list chatToolCall)
    (output : list responseItem) : list responseItem * bool :=
  match calls with
  | [] => (output, false)
  | call :: calls =>
      let item := native_item call in
      if repeatedSuccessfulExecCommand messages item then (output, true)
      else if duplicateExecCommandItem output item then native_output messages calls output
      else native_output messages calls (output ++ [item])
  end.
Definition native_turn (messages : list chatMessage) (text : string) (calls : list chatToolCall) :
    St turn :=
  let '(output, repeated) := native_output messages calls [] in
  if repeated then prose_turn output repeatedExecCommandMessage
  else ret (MkTurn output
         (if text =?s repeatedExecCommandMessage then text else "") (calls_message calls)).
(** else a call in the text, the command of the request, or prose. *)
Definition text_turn (messages : list chatMessage) (req : responsesRequest) (text : string) :
    St (turn + chat_error) :=
  match parseFallbackToolCall json_error text (rq_tools req) with
  | Err e => ret (inr (toolCallParseError (error_text e)))
  | Ok (Some item) =>
      if repeatedSuccessfulExecCommand messages item
      then t <- prose_turn [] repeatedExecCommandMessage ;; ret (inl t)
      else ret (inl (call_turn item))
  | Ok None =>
      match synthesizeImmediateExecCommand req with
      | Some item => ret (inl (call_turn item))
      | None =>
          if shouldUseStrictExecution req then
            ret (inr (executionNotStartedError "strict execution mode required a tool call before prose, but the model returned narration without starting execution"))
          else if requiresToolCall (rq_tool_choice req) then
            ret (inr (toolCallParseError "required tool_choice did not produce a valid native tool_call or fallback JSON function_call"))
          else t <- prose_turn [] text ;; ret (inl t)
      end
  end.
Definition answer_text (choice : chatChoice) : string :=
  if cc_content choice =?s "" then cc_delta choice else cc_content choice.
Definition first_choice (chat : chatCompletionResponse) : chatChoice :=
  default no_choice (head (cp_choices chat)).
Definition take_turn (messages : list chatMessage) (req : responsesRequest) (choice : chatChoice) :
    St (turn + chat_error) :=
  match cc_tool_calls choice with
  | [] => text_turn messages req (answer_text choice)
  | calls => t <- native_turn messages (answer_text choice) calls ;; ret (inl t)
  end.
Definition envelope_of (id : string) (now : Z) (t : turn) (usage : responsesUsage) : responsesEnvelope :=
  MkEnvelope id (now / second) (Settings.Model cfg) (tn_output t) (tn_text t) usage.
Definition chatToResponses (body : string) (req : responsesRequest) (messages : list chatMessage) :
    St (responsesEnvelope + chat_error) :=
  match UnmarshalChat body with
  | None =>
      ret (inr (malformedError ("upstream did not return valid chat completion JSON: " +:+ chat_json_error body)))
  | Some chat =>
      now <- time_now ;;
      id <- new_uuid ;;
      outcome <- take_turn messages req (first_choice chat) ;;
      match outcome with
      | inr e => ret (inr e)
      | inl t =>
          store_set ("resp_" +:+ id) (messages ++ [tn_assistant t]) ;;;
          ret (inl (envelope_of ("resp_" +:+ id) now t (cp_usage chat)))
      end
  end.

(** ** What a turn comes to *)

Lemma native_item_spec call :
  ∃ arguments, native_item call = function_item (call_id call) (fn_name (call_function call)) arguments.
Proof.
  unfold native_item, normalizeResponseToolItem. cbn [it_type it_name it_call_id it_arguments function_item].
  destruct (function_call_name (call_id call) (fn_name (call_function call))
              (fn_arguments (call_function call))) as [a Ha].
  exists a. rewrite <-Ha. unfold function_call.
  by destruct (_ =?s "exec_command"); [|destruct (_ =?s "tool_search_code")].
Qed.

(** Every item is a call that does not repeat a command, one that ran before or one
    before it in the answer. *)
Definition is_call_item (item : responseItem) : Prop :=
  it_type item = "function_call" ∨ it_type item = "custom_tool_call".
Definition fresh_calls (messages : list chatMessage) (output : list responseItem) : Prop :=
  Forall (λ item, is_call_item item ∧ repeatedSuccessfulExecCommand messages item = false) output ∧
  ∀ before item after, output = before ++ item :: after →
    duplicateExecCommandItem before item = false.
(** The item of a native call: its identifier and its tool, and its arguments as they are
    unless it is one of the two tools whose arguments are repaired. *)
Definition item_of (call : chatToolCall) (item : responseItem) : Prop :=
  ∃ arguments, item = function_item (call_id call) (fn_name (call_function call)) arguments ∧
    (fn_name (call_function call) ≠ "exec_command" → fn_name (call_function call) ≠ "tool_search_code" →
     arguments = fn_arguments (call_function call)).
(** The items sent for native calls of the model: in their order, one of each call but of
    those that repeat a command of another item. *)
Inductive sends : list chatToolCall → list responseItem → Prop :=
  | sends_none : sends [] []
  | sends_call calls output call item :
      sends calls output → item_of call item → sends (calls ++ [call]) (output ++ [item])
  | sends_again calls output call item :
      sends calls output → item_of call item → duplicateExecCommandItem output item = true →
      sends (calls ++ [call]) output.

Lemma fresh_calls_app messages output item :
  fresh_calls messages output → is_call_item item →
  repeatedSuccessfulExecCommand messages item = false →
  duplicateExecCommandItem output item = false → fresh_calls messages (output ++ [item]).
Proof.
  intros [Hall Hdup] Hcall Hrep Hd. split; [by apply Forall_app_2; [|by constructor]|].
  intros before item' after. destruct after as [|x after _] using rev_ind.
  - by intros [<- [= <-]]%app_inj_tail.
  - rewrite app_comm_cons, app_assoc. intros [Heq _]%app_inj_tail. by eapply Hdup.
Qed.
Lemma native_item_of call : item_of call (native_item call).
Proof.
  destruct (native_item_spec call) as [a Ha]. exists a. split; [done|]. intros H1 H2.
  assert (native_item call = function_item (call_id call) (fn_name (call_function call))
    (fn_arguments (call_function call))) as E.
  { unfold native_item, normalizeResponseToolItem. cbn [it_type it_name it_call_id it_arguments function_item].
    apply String.eqb_neq in H1, H2. by rewrite ?H1, ?H2. }
  rewrite E in Ha. by injection Ha.
Qed.
(** The calls up to the first that repeats a command that ran, if one does. *)
Lemma native_output_spec messages before calls output :
  fresh_calls messages output → sends before output →
  let '(output', repeated) := native_output messages calls output in
  fresh_calls messages output' ∧
  if repeated then
    ∃ taken call rest item, calls = taken ++ call :: rest ∧ sends (before ++ taken) output' ∧
      item_of call item ∧ repeatedSuccessfulExecCommand messages item = true
  else sends (before ++ calls) output'.
Proof.
  revert before output. induction calls as [|call calls IH]; intros before output Hfresh Hsends;
    cbn [native_output].
  { split; [done|]. by rewrite app_nil_r. }
  pose proof (native_item_of call) as Hitem.
  destruct (repeatedSuccessfulExecCommand messages (native_item call)) eqn:Hrep.
  { split; [done|]. exists [], call, calls, (native_item call). by rewrite app_nil_r. }
  assert (Hgo : ∀ output1, fresh_calls messages output1 → sends (before ++ [call]) output1 →
    let '(output', repeated) := native_output messages calls output1 in
    fresh_calls messages output' ∧
    if repeated then
      ∃ taken c rest item, call :: calls = taken ++ c :: rest ∧ sends (before ++ taken) output' ∧
        item_of c item ∧ repeatedSuccessfulExecCommand messages item = true
    else sends (before ++ call :: calls) output').
  { intros output1 Hf Hs. specialize (IH _ _ Hf Hs).
    destruct (native_output messages calls output1) as [o r]. destruct IH as [? Hr]. split; [done|].
    destruct r; [|by rewrite <-app_assoc in Hr].
    destruct Hr as (taken & c & rest & item & -> & Hs' & Hi & Hrep'). rewrite <-app_assoc in Hs'.
    by exists (call :: taken), c, rest, item. }
  destruct (duplicateExecCommandItem output (native_item call)) eqn:Hdup.
  - apply Hgo; [done|]. by eapply sends_again.
  - apply Hgo; [|by constructor]. apply fresh_calls_app; [done| |done..].
    destruct Hitem as (a & -> & _). by left.
Qed.

(** ** What the model said, and the turn it becomes *)

(** The content of the first choice, or else its delta, and its calls. *)
Definition first_said (chat : chatCompletionResponse) (text : string) (calls : list chatToolCall) : Prop :=
  match cp_choices chat with
  | [] => text = "" ∧ calls = []
  | choice :: _ =>
      calls = cc_tool_calls choice ∧
      (cc_content choice ≠ "" ∧ text = cc_content choice ∨ cc_content choice = "" ∧ text = cc_delta choice)
  end.
(** An answer in its plain form says its content. *)
Definition plain_answer (role content : string) : jval :=
  JObj [("choices", JArr [JObj [("message", JObj [("role", JStr role); ("content", JStr content)])]])].
Definition model_said (raw text : string) (calls : list chatToolCall) : Prop :=
  (∃ chat, UnmarshalChat raw = Some chat ∧ first_said chat text calls) ∧
  ∀ role content, parse raw = Some (plain_answer role content) → text = unquote content ∧ calls = [].

(** A turn is what the model said: its native calls, but those that repeat a command; else
    the call its text is; else the command the request itself asks for; else its text as
    prose, where nothing required a call.  It is the refusal of a command that ran when the
    model asks for that again.  The text of a stream without tools is prose whatever it is. *)
Inductive good_turn (messages : list chatMessage) (req : responsesRequest) (text : string) :
    list chatToolCall → turn → Prop :=
  | turn_of_calls calls output :
      calls ≠ [] → sends calls output → fresh_calls messages output →
      good_turn messages req text calls
        (MkTurn output (if decide (text = repeatedExecCommandMessage) then text else "") (calls_message calls))
  | turn_of_repeated_call before call after item output message :
      sends before output → fresh_calls messages output →
      item_of call item → repeatedSuccessfulExecCommand messages item = true →
      it_type message = "message" → it_content message = [repeatedExecCommandMessage] →
      good_turn messages req text (before ++ call :: after)
        (MkTurn (output ++ [message]) repeatedExecCommandMessage (prose_message repeatedExecCommandMessage))
  | turn_of_text_call item :
      parseFallbackToolCall json_error text (rq_tools req) = Ok (Some item) →
      offered (rq_tools req) item → repeatedSuccessfulExecCommand messages item = false →
      good_turn messages req text [] (MkTurn [item] "" (calls_message [item_call item]))
  | turn_of_repeated_text item message :
      parseFallbackToolCall json_error text (rq_tools req) = Ok (Some item) →
      repeatedSuccessfulExecCommand messages item = true →
      it_type message = "message" → it_content message = [repeatedExecCommandMessage] →
      good_turn messages req text []
        (MkTurn [message] repeatedExecCommandMessage (prose_message repeatedExecCommandMessage))
  | turn_of_request item :
      parseFallbackToolCall json_error text (rq_tools req) = Ok None →
      synthesizeImmediateExecCommand req = Some item →
      good_turn messages req text [] (MkTurn [item] "" (calls_message [item_call item]))
  | turn_of_prose message :
      parseFallbackToolCall json_error text (rq_tools req) = Ok None ∧
        synthesizeImmediateExecCommand req = None ∧
        shouldUseStrictExecution req = false ∧ requiresToolCall (rq_tool_choice req) = false
      ∨ rq_stream req = true ∧ hasTools (rq_tools req) = false →
      it_type message = "message" → it_content message = [text] →
      good_turn messages req text [] (MkTurn [message] text (prose_message text)).

(** [gives Q m]: [m] leaves the store alone and its value is in [Q]. *)
Definition gives {A} (Q : A → Prop) (m : St A) : Prop :=
  ∀ n s, ∃ a n', m n s = (Ok a, (n', s)) ∧ Q a.
Lemma gives_ret {A} (Q : A → Prop) (a : A) : Q a → gives Q (ret a).
Proof. intros Ha n s. by exists a, n. Qed.
Lemma gives_bind {A B} (P : A → Prop) (Q : B → Prop) (m : St A) (f : A → St B) :
  gives P m → (∀ a, P a → gives Q (f a)) → gives Q (bind m f).
Proof.
  intros Hm Hf n s. destruct (Hm n s) as (a & n1 & E & Ha). rewrite (bind_ok _ _ _ _ _ _ _ E).
  by apply Hf.
Qed.
Lemma prose_turn_gives output text :
  gives (λ t, ∃ message, tn_output t = output ++ [message] ∧ it_type message = "message" ∧
    it_content message = [text] ∧ tn_text t = text ∧ tn_assistant t = prose_message text)
    (prose_turn output text).
Proof. intros n s. eexists _, _. split; [reflexivity|]. cbn. by eexists. Qed.

Lemma take_turn_gives messages req chat :
  ∃ text calls, first_said chat text calls ∧
  gives (λ r, match r with inl t => good_turn messages req text calls t | inr _ => True end)
    (take_turn messages req (first_choice chat)).
Proof.
  set (choice := first_choice chat). exists (answer_text choice), (cc_tool_calls choice). split.
  { unfold first_said, choice, first_choice, answer_text.
    destruct (cp_choices chat) as [|c l]; cbn; [done|]. split; [done|].
    destruct (String.eqb_spec (cc_content c) ""); auto. }
  unfold take_turn. destruct (cc_tool_calls choice) as [|call calls].
  - unfold text_turn. destruct (parseFallbackToolCall _ _ _) as [[item|]|e] eqn:Hp; [| |by apply gives_ret].
    + pose proof (fallback_offered _ _ _ _ Hp) as Ho.
      destruct (repeatedSuccessfulExecCommand messages item) eqn:Hrep.
      * intros n s. eexists _, _. split; [reflexivity|]. by eapply turn_of_repeated_text.
      * apply gives_ret. by apply turn_of_text_call.
    + destruct (synthesizeImmediateExecCommand req) as [item|] eqn:Hs.
      { apply gives_ret. by eapply turn_of_request. }
      destruct (shouldUseStrictExecution req) eqn:Hst; [by apply gives_ret|].
      destruct (requiresToolCall _) eqn:Hr; [by apply gives_ret|].
      intros n s. eexists _, _. split; [reflexivity|]. apply turn_of_prose; [by left|done..].
  - eapply gives_bind; [|intros t Ht; by apply gives_ret]. unfold native_turn.
    pose proof (native_output_spec messages [] (call :: calls) []) as Hn.
    destruct (native_output messages (call :: calls) []) as [output repeated].
    destruct Hn as (Hfresh & Hn); [split; [done|by intros [|??]]|constructor|].
    destruct repeated.
    + destruct Hn as (before & c & after & item & -> & Hs & Hi & Hrep).
      intros n s. eexists _, _. split; [reflexivity|]. by eapply turn_of_repeated_call.
    + apply gives_ret. destruct (String.eqb_spec (answer_text choice) repeatedExecCommandMessage) as [E|E].
      * pose proof (turn_of_calls messages req (answer_text choice) (call :: calls) output
          ltac:(done) Hn Hfresh) as H0. by rewrite decide_True in H0.
      * pose proof (turn_of_calls messages req (answer_text choice) (call :: calls) output
          ltac:(done) Hn Hfresh) as H0. by rewrite decide_False in H0.
Qed.
Lemma plain_answer_said raw role content :
  parse raw = Some (plain_answer role content) →
  ∃ chat, UnmarshalChat raw = Some chat ∧ first_said chat (unquote content) [].
Proof.
  intros E. eexists. split; [unfold UnmarshalChat; rewrite E; reflexivity|].
  cbn. split; [done|]. destruct (String.eqb_spec (unquote content) "") as [->|]; auto.
Qed.
Lemma first_said_said raw chat text calls :
  UnmarshalChat raw = Some chat → first_said chat text calls → model_said raw text calls.
Proof.
  intros E Hsaid. split; [by exists chat|]. intros role content Hp.
  destruct (plain_answer_said _ _ _ Hp) as (chat' & E' & Hsaid'). rewrite E in E'. injection E' as <-.
  unfold first_said in *. destruct (cp_choices chat) as [|c l]; [naive_solver|].
  destruct Hsaid as [-> Hx], Hsaid' as [Hc Hy]. split; [|congruence]. naive_solver congruence.
Qed.

(** Strict execution: no narration but the refusal to repeat a command. *)
Lemma sends_calls calls output : sends calls output → Forall is_call_item output.
Proof.
  induction 1 as [|calls output call item _ IH (a & -> & _)|]; [done| |done].
  apply Forall_app_2; [done|]. constructor; [by left|done].
Qed.
Lemma strict_turn messages req text calls t :
  shouldUseStrictExecution req = true → good_turn messages req text calls t →
  Forall is_call_item (tn_output t) ∨ tn_text t = repeatedExecCommandMessage.
Proof.
  intros Hs Hg. inversion Hg as [c o Hne Hsd| |item Hp Ho| |item Hp Hi|m Hwhy]; subst; cbn; auto.
  - left. by eapply sends_calls.
  - left. constructor; [|done]. destruct (of_kind _ _ Ho) as [[? _]|(? & _)]; [by left|by right].
  - left. constructor; [|constructor]. left. unfold synthesizeImmediateExecCommand in Hi.
    destruct (_ || _); [done|]. destruct (flattenInput _); [|done].
    by destruct (immediateExecCommand _); [injection Hi as <-|].
  - destruct Hwhy as [(_ & _ & ? & _)|[_ Ht]]; [congruence|].
    unfold shouldUseStrictExecution in Hs. by rewrite Ht, orb_true_r in Hs.
Qed.

(** ** A whole request *)

Definition store_ok (s : Responses.responseStore) : Prop :=
  0 < Responses.maxEntries s ∧ Responses.items s !! "" = None ∧
  Z.of_nat (size (Responses.items s)) <= Responses.maxEntries s.
(** Nothing was stored; what expired may be gone. *)
Definition shrinks (s s' : Responses.responseStore) : Prop :=
  Responses.ttl s' = Responses.ttl s ∧ Responses.maxEntries s' = Responses.maxEntries s ∧
  Responses.items s' ⊆ Responses.items s.
Lemma shrinks_refl s : shrinks s s.
Proof. by split_and!. Qed.
Lemma shrinks_ok s s' : shrinks s s' → store_ok s → store_ok s'.
Proof.
  intros (_ & Hm & Hi) (Hpos & He & Hsize). split_and!.
  - by rewrite Hm.
  - by eapply lookup_weaken_None.
  - rewrite Hm. apply map_subseteq_size in Hi. lia.
Qed.

Lemma responsesToChat_shrinks req n s :
  ∃ r n' s', responsesToChat req n s = (Ok r, (n', s')) ∧ shrinks s s'.
Proof.
  unfold responsesToChat. destruct (inputToChatMessages (rq_input req)) as [input|e].
  2:{ eexists _, _, _. split; [reflexivity|apply shrinks_refl]. }
  unfold bind, opening_messages. destruct (filled (rq_previous req)).
  2:{ eexists _, _, _. split; [reflexivity|apply shrinks_refl]. }
  unfold bind, Responses.get. destruct (Responses.items s !! rq_previous req) as [st|].
  2:{ eexists _, _, _. split; [reflexivity|apply shrinks_refl]. }
  destruct (_ <? _); (eexists _, _, _; split; [reflexivity|]).
  - split_and!; [done|done|]. apply delete_subseteq.
  - apply shrinks_refl.
Qed.

(** A later request goes on from a conversation, in every store that still has it as it is
    stored here (it may be evicted to make room for others). *)
Definition continues (id : string) (messages : list chatMessage) (until : Z)
    (s : Responses.responseStore) : Prop :=
  ∀ s' req input m, Responses.items s' !! id = Responses.items s !! id →
    rq_previous req = id → inputToChatMessages (rq_input req) = Ok input →
    clock m <= until →
    (responsesToChat req m s').1
    = Ok (build_chat req (messages ++ tool_instructions req ++ input)).
Lemma get_local id m s s' :
  Responses.items s' !! id = Responses.items s !! id →
  (Responses.get id m s').1 = (Responses.get id m s).1.
Proof.
  intros E. unfold Responses.get. rewrite E. destruct (Responses.items s !! id) as [st|]; [|done].
  by destruct (_ <? _).
Qed.
Lemma stored_continues id messages until s :
  id ≠ "" →
  (∀ m, clock m <= until → (Responses.get id m s).1 = Ok (Some messages)) →
  continues id messages until s.
Proof.
  intros Hid Hget s' req input m Hsame Hprev Hin Hm. unfold responsesToChat. rewrite Hin.
  specialize (Hget m Hm). rewrite <-(get_local _ _ _ _ Hsame) in Hget.
  unfold bind, opening_messages, bind. rewrite Hprev.
  assert (filled id = true) as ->.
  { unfold filled. by destruct (String.eqb_spec id ""). }
  destruct (Responses.get id m s') as [r [m' s1]]. cbn in Hget. by subst r.
Qed.

(** The response to what the model said, and the conversation it leaves. *)
Definition answered (req : responsesRequest) (messages : list chatMessage) (text : string)
    (calls : list chatToolCall) (e : responsesEnvelope) (until : Z) (s : Responses.responseStore) : Prop :=
  ∃ t, good_turn messages req text calls t ∧ rs_output e = tn_output t ∧ rs_output_text e = tn_text t ∧
    rs_model e = Settings.Model cfg ∧
    continues (rs_id e) (messages ++ [tn_assistant t]) until s.

Context (Hrange : ∀ n m, range n m ≡ₚ map_to_list m).

(** A conversation that is stored, *)
Lemma store_set_keeps id messages n s :
  store_ok s → id ≠ "" →
  ∃ n' s', store_set id messages n s = (Ok tt, (n', s')) ∧ store_ok s' ∧
    continues id messages (clock (N.pred n') + Responses.ttl s) s'.
Proof.
  intros (Hpos & He & Hsize) Hid.
  pose proof (Responses.set_spec range Hrange id messages n s) as Hset.
  destruct (store_set id messages n s) as [r [n' s']] eqn:Es. exists n', s'.
  destruct (Hset Hpos He Hsize) as (-> & Hsize' & Hget & Hothers). clear Hset.
  destruct (Responses.set_bounds range _ _ _ _ _ _ _ Es) as [Httl Hmax].
  split_and!; [done| |by apply stored_continues].
  split_and!; [by rewrite Hmax| |by rewrite Hmax].
  destruct (Hothers "") as [->|[_ [? _]]]; done.
Qed.
(** and the one of a turn. *)
Lemma chatToResponses_answers body req messages n s :
  store_ok s →
  let '(r, (n', s')) := chatToResponses body req messages n s in
  store_ok s' ∧
  ∃ o, r = Ok o ∧
    match o with
    | inl e => ∃ text calls, model_said body text calls ∧
        answered req messages text calls e (clock (N.pred n') + Responses.ttl s) s'
    | inr _ => s' = s
    end.
Proof.
  intros Hok. unfold chatToResponses. destruct (UnmarshalChat body) as [chat|] eqn:Hchat.
  2:{ cbn. split; [done|]. by eexists. }
  unfold bind at 1, time_now. unfold bind at 1, new_uuid. cbv zeta.
  set (id := "resp_" +:+ uuid (N.succ n)). set (n2 := N.succ (N.succ n)).
  destruct (take_turn_gives messages req chat) as (text & calls & Hsaid & Hgives).
  destruct (Hgives n2 s) as (o & n3 & E & Ht).
  rewrite (bind_ok _ _ _ _ _ _ _ E). destruct o as [t|e].
  2:{ cbn. split; [done|]. by eexists. }
  destruct (store_set_keeps id (messages ++ [tn_assistant t]) n3 s Hok) as (n4 & s4 & Es & Hok' & Hc); [done|].
  rewrite (bind_ok _ _ _ _ _ _ _ Es). cbn. split; [done|].
  eexists. split; [done|]. exists text, calls. split; [by eapply first_said_said|]. by exists t.
Qed.
End Endpoint.
