(* ===== verification/GatewayStream.v ===== *)
(** * Streams of the gateway ([codexlocalgateway/server.go])

    A response that is asked for as a stream is written as server-sent events, from what
    the upstream streams; the handler of the responses endpoint, which answers either
    way. *)
From S2P Require Import Prelude GoVal Json JsonText JsonValue Effects Gateway Regexp ToolCall GatewayApi.

(** ** Events *)

(** [codexlocalgateway/server.go:1282-1602] writeResponsesStreamFromUpstream: the events it
    writes, by the items and texts they carry. *)
Inductive event :=
  | Created (id : string) (created_at : Z)
  | MessageAdded (message : string)
  | PartAdded (message : string)
  | TextDelta (message delta : string)
  | TextDone (message text : string)
  | PartDone (message : string) (part : list (string * string))
  | CallAdded (item : responseItem)
  | ArgumentsDelta (item delta : string)
  | ArgumentsDone (item arguments : string)
  | ItemDone (item : responseItem)
  | ResponseCompleted (e : responsesEnvelope)
  | ResponseFailed (kind : option string) (message : string)
  | Keepalive
  | DoneMark.

(** [codexlocalgateway/types.go:72-103] responsesEnvelope, as JSON. *)
Definition part_jval (part : list (string * string)) : jval := struct_jval (prod_map id json_str <$> part).
Definition text_part (text : string) : list (string * string) := [("type", "output_text"); ("text", text)].
Definition item_jval (i : responseItem) : jval :=
  struct_jval
    ([("id", json_str (it_id i)); ("type", json_str (it_type i))]
     ++ given (filled (it_status i)) "status" (json_str (it_status i))
     ++ given (filled (it_role i)) "role" (json_str (it_role i))
     ++ given (bool_decide (it_content i ≠ [])) "content"
          (JArr ((λ text, part_jval (text_part text)) <$> it_content i))
     ++ given (filled (it_call_id i)) "call_id" (json_str (it_call_id i))
     ++ given (filled (it_name i)) "name" (json_str (it_name i))
     ++ given (filled (it_arguments i)) "arguments" (json_str (it_arguments i))
     ++ given (filled (it_input i)) "input" (json_str (it_input i))).
Definition envelope_jval (status : string) (e : responsesEnvelope) : jval :=
  struct_jval
    [("id", json_str (rs_id e)); ("object", json_str "response");
     ("created_at", JNum (pretty (rs_created_at e))); ("model", json_str (rs_model e));
     ("status", json_str status); ("output", JArr (item_jval <$> rs_output e));
     ("output_text", json_str (rs_output_text e));
     ("usage", struct_jval
        [("input_tokens", JNum (pretty (InputTokens (rs_usage e))));
         ("output_tokens", JNum (pretty (OutputTokens (rs_usage e))));
         ("total_tokens", JNum (pretty (TotalTokens (rs_usage e))))])].

(** [codexlocalgateway/server.go:1651-1709] writeSSE, writeSSETextStart and
    writeSSEFunctionCall: the name and the fields of an event. *)
Definition zero : jval := JNum "0".
Definition of_message (message : string) : list (string * jval) :=
  [("item_id", json_str message); ("output_index", zero); ("content_index", zero)].
Definition of_item (item : string) : list (string * jval) :=
  [("item_id", json_str item); ("output_index", zero)].
Definition event_fields (model : string) (e : event) : option (string * list (string * jval)) :=
  match e with
  | Created id created_at =>
      Some ("response.created",
        [("response", envelope_jval "in_progress" (MkEnvelope id created_at model [] "" (MkUsage 0 0 0)))])
  | MessageAdded message =>
      Some ("response.output_item.added",
        [("output_index", zero);
         ("item", object_of {["id" := json_str message; "type" := json_str "message";
            "status" := json_str "in_progress"; "role" := json_str "assistant"; "content" := JArr []]})])
  | PartAdded message =>
      Some ("response.content_part.added",
        ("part", object_of {["type" := json_str "output_text"; "text" := json_str ""]}) :: of_message message)
  | TextDelta message delta =>
      Some ("response.output_text.delta", ("delta", json_str delta) :: of_message message)
  | TextDone message text =>
      Some ("response.output_text.done", ("text", json_str text) :: of_message message)
  | PartDone message part =>
      Some ("response.content_part.done", ("part", part_jval part) :: of_message message)
  | CallAdded item =>
      Some ("response.output_item.added", [("output_index", zero); ("item", item_jval item)])
  | ArgumentsDelta item delta =>
      Some ("response.function_call_arguments.delta", ("delta", json_str delta) :: of_item item)
  | ArgumentsDone item arguments =>
      Some ("response.function_call_arguments.done", ("arguments", json_str arguments) :: of_item item)
  | ItemDone item =>
      Some ("response.output_item.done", [("output_index", zero); ("item", item_jval item)])
  | ResponseCompleted e => Some ("response.completed", [("response", envelope_jval "completed" e)])
  | ResponseFailed kind message =>
      Some ("response.failed",
        ("message", json_str message)
        :: match kind with Some kind => [("error_type", json_str kind)] | None => [] end)
  | Keepalive | DoneMark => None
  end.
Definition render (model : string) (e : event) : string :=
  match event_fields model e with
  | Some (name, fields) =>
      "event: " +:+ name +:+ nl +:+ "data: "
      +:+ compact (object_of (list_to_map (("type", json_str name) :: fields))) +:+ nl +:+ nl
  | None =>
      match e with Keepalive => ": keepalive" | _ => "data: [DONE]" end +:+ nl +:+ nl
  end.
Example render_demo :
  render "m" (TextDelta "msg_1" "Hi")
  = "event: response.output_text.delta" +:+ nl
    +:+ replace_char "'" dquote "data: {'content_index':0,'delta':'Hi','item_id':'msg_1','output_index':0,'type':'response.output_text.delta'}"
    +:+ nl +:+ nl.
Proof. vm_compute. reflexivity. Qed.
(** [codexlocalgateway/server.go:1660-1682] writeSSETextStart. *)
Definition text_start (message : string) : list event := [MessageAdded message; PartAdded message].
(** [codexlocalgateway/server.go:1684-1709] writeSSEFunctionCall. *)
Definition call_events (item : responseItem) : list event :=
  CallAdded item
  :: (if blank (it_arguments item) then []
      else [ArgumentsDelta (it_id item) (it_arguments item); ArgumentsDone (it_id item) (it_arguments item)])
  ++ [ItemDone item].

(** ** What the upstream streams *)

(** How it was opened: after some ticks of waiting, not at all or with a status and a
    body; and the error, if any, with which reading it ends. *)
Inductive opened :=
  | NotOpened (waits : nat) (message : string)
  | Opened (waits : nat) (status : Z) (body : string) (broken : option string).

(** [codexlocalgateway/server.go:1322-1371] writeResponsesStreamFromUpstream: the loop over
    the lines. *)
Definition line_data (line : string) : option string :=
  let line := trim_space line in
  if (line =?s "") || has_prefix ":" line || negb (has_prefix "data:" line) then None
  else Some (trim_space (trim_prefix "data:" line)).
Record progress := MkProgress {
  pg_output : string;
  pg_usage : responsesUsage;
  pg_events : list event;
}.
Definition some_usage (u : responsesUsage) : bool :=
  (0 <? TotalTokens u) || (0 <? InputTokens u) || (0 <? OutputTokens u).
Definition chunk_delta (chunk : chatCompletionResponse) : string :=
  match cp_choices chunk with
  | [] => ""
  | choice :: _ => if cc_delta choice =?s "" then cc_content choice else cc_delta choice
  end.
Definition read_chunk (streamTools : bool) (message data : string) (p : progress) : progress :=
  match UnmarshalChat data with
  | None => p
  | Some chunk =>
      let usage := if some_usage (cp_usage chunk) then cp_usage chunk else pg_usage p in
      let delta := chunk_delta chunk in
      if delta =?s "" then MkProgress (pg_output p) usage (pg_events p)
      else MkProgress (pg_output p +:+ delta) usage
             (pg_events p ++ if streamTools then [] else [TextDelta message delta])
  end.
(** the loop, and whether it came to the end of the lines. *)
Fixpoint read_stream (streamTools : bool) (message : string) (lines : list string) (p : progress) :
    progress * bool :=
  match lines with
  | [] => (p, true)
  | line :: lines =>
      match line_data line with
      | None => read_stream streamTools message lines p
      | Some data =>
          if data =?s "[DONE]" then (p, false)
          else read_stream streamTools message lines (read_chunk streamTools message data p)
      end
  end.

(** ** Writing a stream *)

Definition is_end (e : event) : bool :=
  match e with ResponseCompleted _ | DoneMark => true | _ => false end.

(** What a client is sent: an error, a response, or a stream of events. *)
Inductive answer :=
  | Failure (status : Z) (kind message : string)
  | Completed (e : responsesEnvelope)
  | Streamed (events : list event).

Section Stream.
Context `{Env}.
Context (range : N → gmap string Responses.responseState → list (string * Responses.responseState)).
Context (json_error chat_json_error : string → string).
(** What the upstream answers to a body, at once or as a stream. *)
Context (upstream : N → string → exchange).
Context (stream_upstream : N → string → opened).
Context (cfg : Settings.Config).

Abbreviation St := (M Responses.responseStore).

(** [codexlocalgateway/server.go:1604-1649] openStreamingUpstream: a keepalive for every
    tick, and a body or the message of an error. *)
Definition openStreamingUpstream (body : string) :
    St (list event * (string * option string + string)) := λ n s,
  let outcome :=
    match stream_upstream n body with
    | NotOpened waits message => (replicate waits Keepalive, inr message)
    | Opened waits status body broken =>
        (replicate waits Keepalive,
         if (status <? 200) || (300 <=? status) then
           inr ("upstream returned " +:+ pretty status +:+ ": "
                +:+ trim_space (stake (Z.to_nat (Settings.MaxBodyBytes cfg)) body))
         else inl (body, broken))
    end in
  (Ok outcome, (N.succ n, s)).

(** [codexlocalgateway/server.go:1373-1602] writeResponsesStreamFromUpstream: what is made
    of the text, a turn and its events or the error and its event. *)
Definition close_text (message text : string) (part : list (string * string)) (item : responseItem) :
    list event :=
  [TextDone message text; PartDone message part; ItemDone item].
Definition stream_prose (message output : string) (events : list event) : turn * list event :=
  let item := MkItem message "message" "" "assistant" [output] "" "" "" "" in
  (MkTurn [item] output (prose_message output),
   events ++ close_text message output (reverse (text_part output)) item).
Definition stream_refusal (message : string) : St (turn * list event) :=
  let text := repeatedExecCommandMessage in
  item <- messageResponseItem text ;;
  ret (MkTurn [item] text (prose_message text),
       text_start message ++ TextDelta message text :: close_text message text (text_part text) item).
Definition stream_call (item : responseItem) : turn * list event := (call_turn item, call_events item).
Definition stream_turn (messages : list chatMessage) (req : responsesRequest) (message output : string) :
    St (turn * list event + (option string * string)) :=
  if hasTools (rq_tools req) then
    match parseFallbackToolCall json_error output (rq_tools req) with
    | Err e => ret (inr (None, error_text e))
    | Ok (Some item) =>
        if repeatedSuccessfulExecCommand messages item
        then t <- stream_refusal message ;; ret (inl t)
        else ret (inl (stream_call item))
    | Ok None =>
        match synthesizeImmediateExecCommand req with
        | Some item => ret (inl (stream_call item))
        | None =>
            if shouldUseStrictExecution req then
              ret (inr (Some "execution_not_started", "strict execution mode required a tool call before prose, but the model returned narration without starting execution"))
            else if requiresToolCall (rq_tool_choice req) then
              ret (inr (None, "required tool_choice did not produce a valid native tool_call or fallback JSON function_call"))
            else
              ret (inl (stream_prose message output
                (text_start message ++ if output =?s "" then [] else [TextDelta message output])))
        end
    end
  else ret (inl (stream_prose message output [])).
Definition scanner_error (limit : Z) (body : string) (broken : option string) : option string :=
  if (scan_lines limit body).2 then Some "bufio.Scanner: token too long"
  else broken.
(** [codexlocalgateway/server.go:1282-1602] writeResponsesStreamFromUpstream: the events
    and the error. *)
Definition writeResponsesStreamFromUpstream (body : string) (req : responsesRequest)
    (messages : list chatMessage) : St (list event * option string) :=
  response <- new_uuid ;;
  message <- new_uuid ;;
  created <- time_now ;;
  let id := "resp_" +:+ response in
  let message := "msg_" +:+ message in
  let streamTools := hasTools (rq_tools req) in
  let opening := Created id (created / second) :: if streamTools then [] else text_start message in
  outcome <- openStreamingUpstream body ;;
  match outcome with
  | (waiting, inr error) =>
      ret (opening ++ waiting ++ [ResponseFailed None error], Some error)
  | (waiting, inl (text, broken)) =>
      let limit := Z.max (64 * 1024) (Settings.MaxBodyBytes cfg) in
      let lines := (scan_lines limit text).1 in
      let '(p, ended) := read_stream streamTools message lines (MkProgress "" (MkUsage 0 0 0) []) in
      let events := opening ++ waiting ++ pg_events p in
      match (if ended then scanner_error limit text broken else None) with
      | Some error => ret (events, Some error)
      | None =>
          outcome <- stream_turn messages req message (pg_output p) ;;
          match outcome with
          | inr (kind, error) => ret (events ++ [ResponseFailed kind error], Some error)
          | inl (t, last) =>
              Responses.set range id (messages ++ [tn_assistant t]) ;;;
              ret (events ++ last
                   ++ [ResponseCompleted (envelope_of cfg id created t (pg_usage p)); DoneMark], None)
          end
      end
  end.

(** [codexlocalgateway/server.go:402-466] responses. *)
Definition chat_failure (e : chat_error) : answer :=
  match e with
  | executionNotStartedError message => Failure 409 "execution_not_started" message
  | toolCallParseError message => Failure 502 "tool_call_parse_error" message
  | malformedError message => Failure 502 "upstream_malformed_json" message
  end.
Definition prompt_failure (e : GoError) : answer :=
  if contains "prompt text is too large" (error_text e)
  then Failure 400 "context_window_exceeded" (error_text e)
  else Failure 400 "invalid_request" (error_text e).
Definition answer_chat (req : responsesRequest) (chat : chatCompletionRequest) : St answer :=
  match Compaction.enforceChatPromptSize (Settings.MaxPromptChars cfg) (cq_messages chat) with
  | Some e => ret (Failure 400 "context_window_exceeded" (error_text e))
  | None =>
      if rq_stream req then
        written <- writeResponsesStreamFromUpstream (chat_body chat) req (cq_messages chat) ;;
        ret (Streamed written.1)
      else
        outcome <- callUpstream upstream cfg (chat_body chat) ;;
        match outcome with
        | inr (status, message) => ret (Failure status "upstream_error" message)
        | inl (_, _, body) =>
            outcome <- chatToResponses range json_error chat_json_error cfg body req (cq_messages chat) ;;
            ret (match outcome with inl e => Completed e | inr e => chat_failure e end)
        end
  end.
Definition responses (body : string) : St answer :=
  if Settings.MaxBodyBytes cfg <? slen body then
    ret (Failure 400 "invalid_request" "http: request body too large")
  else match UnmarshalRequest body with
       | None => ret (Failure 400 "invalid_json" "request body must be valid JSON")
       | Some req =>
           let req := req <| rq_tool_choice := effectiveToolChoice req |> in
           chat <- responsesToChat cfg req ;;
           match chat with
           | Err e => ret (prompt_failure e)
           | Ok chat => answer_chat req chat
           end
       end.

(** ** What a client makes of a stream *)

(** The text its deltas add up to, and the items that were done. *)
Definition delta_of (e : event) : string := match e with TextDelta _ delta => delta | _ => "" end.
Fixpoint deltas (events : list event) : string :=
  match events with [] => "" | e :: events => delta_of e +:+ deltas events end.
Definition done_of (e : event) : option responseItem := match e with ItemDone item => Some item | _ => None end.
Definition items_done (events : list event) : list responseItem := omap done_of events.
(** Events before the end, that say this much. *)
Record says (events : list event) (text : string) (items : list responseItem) : Prop := {
  sy_open : Forall (λ e, is_end e = false) events;
  sy_text : deltas events = text;
  sy_items : items_done events = items;
}.

Lemma deltas_app l l' : deltas (l ++ l') = deltas l +:+ deltas l'.
Proof. induction l as [|e l IH]; cbn; [done|]. by rewrite IH, sapp_assoc. Qed.
Lemma says_app l l' text text' items items' :
  says l text items → says l' text' items' → says (l ++ l') (text +:+ text') (items ++ items').
Proof.
  intros [] []. split; [by apply Forall_app|rewrite deltas_app; congruence|].
  unfold items_done in *. rewrite omap_app. congruence.
Qed.
Lemma says_nil : says [] "" [].
Proof. by split. Qed.
Lemma says_keepalive waits : says (replicate waits Keepalive) "" [].
Proof.
  induction waits as [|waits IH]; [apply says_nil|]. destruct IH. split; [by constructor|done|done].
Qed.
Lemma says_call item : says (call_events item) "" [item].
Proof. unfold call_events. destruct (blank _); split; by repeat constructor. Qed.
(** Before the text is judged, a client without tools has seen all of it, and one with
    tools nothing. *)
Definition seen_text (streamTools : bool) (output : string) : string := if streamTools then "" else output.
Lemma read_stream_says streamTools message lines p :
  says (pg_events p) (seen_text streamTools (pg_output p)) [] →
  let p' := (read_stream streamTools message lines p).1 in
  says (pg_events p') (seen_text streamTools (pg_output p')) [].
Proof.
  revert p. induction lines as [|line lines IH]; intros p Hp; [done|]. cbn [read_stream].
  destruct (line_data line) as [data|]; [|by apply IH].
  destruct (data =?s "[DONE]"); [done|]. apply IH. clear IH. unfold read_chunk.
  destruct (UnmarshalChat data) as [chunk|]; [|done]. cbv zeta.
  destruct (chunk_delta chunk =?s ""); [done|]. cbn [pg_events pg_output].
  destruct streamTools; cbn [seen_text] in *; [by rewrite app_nil_r|].
  apply (says_app _ _ _ _ [] [] Hp).
  split; [by repeat constructor|cbn; by rewrite sapp_nil|done].
Qed.

(** What the lines of a stream add up to: the deltas of its chunks, up to the end mark. *)
Definition chunk_said (chunk : chatCompletionResponse) (delta : string) : Prop :=
  match cp_choices chunk with
  | [] => delta = ""
  | choice :: _ =>
      cc_delta choice ≠ "" ∧ delta = cc_delta choice ∨ cc_delta choice = "" ∧ delta = cc_content choice
  end.
Definition plain_delta (delta : string) : jval :=
  JObj [("choices", JArr [JObj [("delta", JObj [("content", JStr delta)])]])].
Inductive streams : list string → string → Prop :=
  | streams_nothing : streams [] ""
  | streams_end line lines : line_data line = Some "[DONE]" → streams (line :: lines) ""
  | streams_comment line lines text :
      line_data line = None → streams lines text → streams (line :: lines) text
  | streams_noise line lines data text :
      line_data line = Some data → data ≠ "[DONE]" → UnmarshalChat data = None →
      streams lines text → streams (line :: lines) text
  | streams_chunk line lines data chunk delta text :
      line_data line = Some data → data ≠ "[DONE]" → UnmarshalChat data = Some chunk →
      chunk_said chunk delta → (∀ d, parse data = Some (plain_delta d) → delta = unquote d) →
      streams lines text → streams (line :: lines) (delta +:+ text).
Lemma chunk_delta_said chunk : chunk_said chunk (chunk_delta chunk).
Proof.
  unfold chunk_said, chunk_delta. destruct (cp_choices chunk) as [|c l]; [done|].
  destruct (String.eqb_spec (cc_delta c) ""); auto.
Qed.
Lemma plain_delta_said data chunk d :
  UnmarshalChat data = Some chunk → parse data = Some (plain_delta d) → chunk_delta chunk = unquote d.
Proof.
  unfold UnmarshalChat. intros E Hp. rewrite Hp in E. cbn in E. injection E as <-. cbn.
  by destruct (String.eqb_spec (unquote d) "") as [->|].
Qed.
Lemma read_stream_streams streamTools message lines p :
  ∃ text, streams lines text ∧
    pg_output (read_stream streamTools message lines p).1 = pg_output p +:+ text.
Proof.
  revert p. induction lines as [|line lines IH]; intros p; cbn [read_stream].
  { exists "". split; [constructor|by rewrite sapp_nil]. }
  destruct (line_data line) as [data|] eqn:Hd.
  2:{ destruct (IH p) as (text & ? & ?). exists text. split; [by apply streams_comment|done]. }
  destruct (String.eqb_spec data "[DONE]") as [->|Hne].
  { exists "". split; [by apply streams_end|by rewrite sapp_nil]. }
  destruct (IH (read_chunk streamTools message data p)) as (text & Hs & ->).
  unfold read_chunk. destruct (UnmarshalChat data) as [chunk|] eqn:Hc.
  2:{ exists text. split; [by eapply streams_noise|done]. }
  exists (chunk_delta chunk +:+ text). split.
  - eapply streams_chunk; try done; [apply chunk_delta_said|]. intros d. by apply plain_delta_said.
  - cbv zeta. destruct (String.eqb_spec (chunk_delta chunk) "") as [->|]; cbn; [done|].
    by rewrite sapp_assoc.
Qed.

(** The turn that is kept is the one its events tell. *)
Lemma stream_turn_gives messages req message output :
  rq_stream req = true →
  gives (λ r, match r with
              | inl (t, events) =>
                  good_turn json_error messages req output [] t ∧
                  ∃ text, says events text (tn_output t) ∧
                    seen_text (hasTools (rq_tools req)) output +:+ text = tn_text t
              | inr _ => True
              end) (stream_turn messages req message output).
Proof.
  intros Hstream. unfold stream_turn. destruct (hasTools (rq_tools req)) eqn:Ht.
  2:{ apply gives_ret. split.
      - apply turn_of_prose; [by right|done..].
      - exists "". split; [split; [by repeat constructor|done|done]|apply sapp_nil]. }
  destruct (parseFallbackToolCall _ _ _) as [[item|]|e] eqn:Hp; [| |by apply gives_ret].
  - pose proof (fallback_offered _ _ _ _ Hp) as Ho.
    destruct (repeatedSuccessfulExecCommand messages item) eqn:Hrep.
    + intros n s. eexists _, _. split; [reflexivity|]. split.
      * by eapply turn_of_repeated_text.
      * eexists. split; [split; [by repeat constructor|done|done]|done].
    + apply gives_ret. split; [by apply turn_of_text_call|].
      exists "". split; [apply says_call|done].
  - destruct (synthesizeImmediateExecCommand req) as [item|] eqn:Hs.
    { apply gives_ret. split; [by eapply turn_of_request|].
      exists "". split; [apply says_call|done]. }
    destruct (shouldUseStrictExecution req) eqn:Hst; [by apply gives_ret|].
    destruct (requiresToolCall _) eqn:Hr; [by apply gives_ret|].
    apply gives_ret. split; [apply turn_of_prose; [by left|done..]|].
    exists output. split; [|done].
    destruct (String.eqb_spec output "") as [->|]; split; [by repeat constructor|done..|by repeat constructor| |done].
    cbn. by rewrite sapp_nil.
Qed.

(** ** A stream says what the response would *)

(** Two turns that differ in the identifiers of their messages at most. *)
Definition named (id : string) (i : responseItem) : responseItem :=
  MkItem id (it_type i) (it_status i) (it_role i) (it_content i) (it_call_id i) (it_name i)
    (it_arguments i) (it_input i).
Definition same_item (i j : responseItem) : Prop :=
  i = j ∨ it_type i = "message" ∧ j = named (it_id j) i.
Definition same_turn (t t' : turn) : Prop :=
  Forall2 same_item (tn_output t) (tn_output t') ∧ tn_text t = tn_text t' ∧
  tn_assistant t = tn_assistant t'.
Definition same_error (kind : option string) (message : string) (e : chat_error) : Prop :=
  match e with
  | executionNotStartedError message' => kind = Some "execution_not_started" ∧ message = message'
  | toolCallParseError message' => kind = None ∧ message = message'
  | malformedError _ => False
  end.
(** C39: with tools on offer, the text a stream adds up to is judged as the same text in one
    answer is: the same turn but for the identifiers of messages, or the same error. *)
Theorem stream_same_turn messages req message output n s n' s' :
  hasTools (rq_tools req) = true →
  match (stream_turn messages req message output n s).1, (text_turn json_error messages req output n' s').1 with
  | Ok (inl (t, _)), Ok (inl t') => same_turn t t'
  | Ok (inr (kind, error)), Ok (inr e) => same_error kind error e
  | _, _ => False
  end.
Proof.
  intros Ht. unfold stream_turn, text_turn. rewrite Ht.
  destruct (parseFallbackToolCall _ _ _) as [[item|]|e]; [| |done].
  - destruct (repeatedSuccessfulExecCommand messages item).
    + split_and!; [|done..]. constructor; [by right|done].
    + split_and!; [|done..]. constructor; [by left|done].
  - destruct (synthesizeImmediateExecCommand req) as [item|].
    { split_and!; [|done..]. constructor; [by left|done]. }
    destruct (shouldUseStrictExecution req); [done|]. destruct (requiresToolCall _); [done|].
    split_and!; [|done..]. constructor; [by right|done].
Qed.

(** ** The endpoint *)

Context (Hrange : ∀ n m, range n m ≡ₚ map_to_list m).

(** What the upstream answered to the exchange [m], at once, *)
Definition upstream_said (m : N) (body text : string) (calls : list chatToolCall) : Prop :=
  ∃ status type raw, upstream m body = Answered status type raw ∧ 200 <= status < 300 ∧
    model_said (stake (Z.to_nat (Settings.MaxBodyBytes cfg)) raw) text calls.
(** or as a stream that was read to its end. *)
Definition upstream_streamed (m : N) (body text : string) : Prop :=
  ∃ waits status raw broken, stream_upstream m body = Opened waits status raw broken ∧
    200 <= status < 300 ∧
    streams (scan_lines (Z.max (64 * 1024) (Settings.MaxBodyBytes cfg)) raw).1 text.
(** A stream that ends tells the response that is stored; one that fails never says that
    it ended. *)
Definition stream_ok (m : N) (body : string) (req : responsesRequest) (messages : list chatMessage)
    (events : list event) (until : Z) (s s' : Responses.responseStore) : Prop :=
  (∃ e before text, events = before ++ [ResponseCompleted e; DoneMark] ∧
     says before (rs_output_text e) (rs_output e) ∧
     upstream_streamed m body text ∧
     answered json_error cfg req messages text [] e until s')
  ∨ Forall (λ e, is_end e = false) events ∧ s' = s.
Lemma stream_answers body req messages n s :
  rq_stream req = true → store_ok s →
  let '(r, (n', s')) := writeResponsesStreamFromUpstream body req messages n s in
  store_ok s' ∧
  ∃ events error, r = Ok (events, error) ∧
    stream_ok (n + 3)%N body req messages events (clock (N.pred n') + Responses.ttl s) s s'.
Proof.
  intros Hstream Hok. unfold writeResponsesStreamFromUpstream.
  unfold bind at 1, new_uuid. unfold bind at 1, new_uuid. unfold bind at 1, time_now. cbv zeta.
  set (id := "resp_" +:+ uuid n). set (message := "msg_" +:+ uuid (N.succ n)).
  set (created := clock (N.succ (N.succ n))). set (n3 := N.succ (N.succ (N.succ n))).
  replace (n + 3)%N with n3 by lia.
  set (streamTools := hasTools (rq_tools req)).
  set (opening := Created id _ :: _).
  assert (Hopening : says opening "" []).
  { unfold opening. destruct streamTools; split; by repeat constructor. }
  unfold bind at 1, openStreamingUpstream.
  assert (Hfail : ∀ waits error, Forall (λ e, is_end e = false)
    (opening ++ replicate waits Keepalive ++ [ResponseFailed None error])).
  { intros waits error. apply Forall_app_2; [apply Hopening|]. apply Forall_app_2.
    - apply says_keepalive.
    - by repeat constructor. }
  unfold stream_ok, upstream_streamed.
  destruct (stream_upstream n3 body) as [waits error|waits status text broken].
  { split; [done|]. eexists _, _. split; [done|]. right. by split. }
  destruct ((status <? 200) || (300 <=? status)) eqn:Hstatus.
  { split; [done|]. eexists _, _. split; [done|]. right. by split. }
  set (limit := Z.max _ _). set (lines := (scan_lines limit text).1).
  pose proof (read_stream_says streamTools message lines (MkProgress "" (MkUsage 0 0 0) [])) as Hread.
  assert (Hnil : seen_text streamTools "" = "") by (by destruct streamTools).
  cbn [pg_output pg_events] in Hread. rewrite Hnil in Hread. specialize (Hread says_nil).
  cbv zeta in Hread.
  destruct (read_stream_streams streamTools message lines (MkProgress "" (MkUsage 0 0 0) []))
    as (said & Hsaid & Hout).
  destruct (read_stream _ _ _ _) as [p ended]. cbn [fst pg_output] in Hread, Hout.
  change ("" +:+ said) with said in Hout.
  assert (Hevents : says (opening ++ replicate waits Keepalive ++ pg_events p)
    (seen_text streamTools (pg_output p)) []).
  { apply (says_app _ _ "" _ [] [] Hopening).
    exact (says_app _ _ "" _ [] [] (says_keepalive waits) Hread). }
  destruct (if ended then _ else _) as [error|].
  { split; [done|]. eexists _, _. split; [done|]. right. split; [apply Hevents|done]. }
  destruct (stream_turn_gives messages req message (pg_output p) Hstream (N.succ n3) s)
    as (o & n4 & E & Ho).
  rewrite (bind_ok _ _ _ _ _ _ _ E). destruct o as [[t events]|[kind error]].
  2:{ split; [done|]. eexists _, _. split; [done|]. right. split; [|done].
      apply Forall_app_2; [apply Hevents|by repeat constructor]. }
  destruct Ho as (Hgood & told & Hsays & Htext).
  destruct (store_set_keeps range cfg Hrange id (messages ++ [tn_assistant t]) n4 s Hok)
    as (n5 & s5 & Es & Hok' & Hc); [done|].
  rewrite (bind_ok _ _ _ _ _ _ _ Es). split; [done|]. eexists _, _. split; [done|]. left.
  eexists _, ((opening ++ replicate waits Keepalive ++ pg_events p) ++ events), said.
  split_and!; [by rewrite !app_assoc| | |].
  - cbn. rewrite <-Htext. apply (says_app _ _ _ _ [] _ Hevents Hsays).
  - exists waits, status, text, broken. split_and!; [done|lia..|done].
  - exists t. rewrite <-Hout. by split_and!.
Qed.

(** What an answer says of the upstream and of the store, for the exchange of [m]. *)
Definition outcome_ok (m : N) (req : responsesRequest) (chat : chatCompletionRequest) (a : answer)
    (until : Z) (s s' : Responses.responseStore) : Prop :=
  match a with
  | Failure _ _ _ => s' = s
  | Completed e =>
      rq_stream req = false ∧
      ∃ text calls, upstream_said m (chat_body chat) text calls ∧
        answered json_error cfg req (cq_messages chat) text calls e until s'
  | Streamed events =>
      rq_stream req = true ∧ stream_ok (m + 3)%N (chat_body chat) req (cq_messages chat) events until s s'
  end.
Lemma answer_chat_answers req chat n s :
  store_ok s →
  let '(r, (n', s')) := answer_chat req chat n s in
  store_ok s' ∧
  ∃ a, r = Ok a ∧ outcome_ok n req chat a (clock (N.pred n') + Responses.ttl s) s s'.
Proof.
  intros Hok. unfold answer_chat. destruct (Compaction.enforceChatPromptSize _ _) as [e|].
  { split; [done|]. by eexists. }
  destruct (rq_stream req) eqn:Hstream.
  { pose proof (stream_answers (chat_body chat) req (cq_messages chat) n s Hstream Hok) as Hs.
    unfold bind. destruct (writeResponsesStreamFromUpstream _ _ _ _ _) as [r [n' s']].
    destruct Hs as (Hok' & events & error & -> & Hs). split; [done|].
    exists (Streamed events). by split_and!. }
  unfold bind at 1, callUpstream. unfold outcome_ok, upstream_said.
  destruct (upstream n (chat_body chat)) as [m|d m|m|status type raw];
    try by (split; [done|eexists]).
  destruct ((status <? 200) || (300 <=? status)) eqn:Hstatus; [by split; [done|eexists]|].
  set (body := stake _ raw).
  pose proof (chatToResponses_answers range json_error chat_json_error cfg Hrange
    body req (cq_messages chat) (N.succ n) s Hok) as Hc.
  unfold bind. destruct (chatToResponses _ _ _ _ _ _ _ _ _) as [r [n' s']].
  destruct Hc as (Hok' & o & -> & Ho). split; [done|].
  destruct o as [e|e]; [|exists (chat_failure e); split; [done|]; by destruct e].
  exists (Completed e). split_and!; [done..|]. destruct Ho as (text & calls & Hsaid & Ha).
  exists text, calls. split; [|done]. exists status, type, raw. split_and!; [done|lia..|done].
Qed.

End Stream.

(** ** Requests answered *)

Definition quoted (s : string) : string := replace_char "'" dquote s.
Definition demo_config : Settings.Config := Settings.normalized
  (Settings.MkConfig "" "" "" "" "" "" "" 0 0 0 0 0 0 0 0 0 0 "").
Definition demo_tools : string := "[{'type':'function','name':'exec_command'},{'type':'custom','name':'apply_patch'}]".
Definition demo_request (input rest : string) : string :=
  quoted ("{'model':'m','input':" +:+ input +:+ ",'tools':" +:+ demo_tools +:+ rest +:+ "}").
Definition demo_says (content : string) (_ : N) (_ : string) : exchange :=
  Answered 200 "" (quoted ("{'choices':[{'message':{'content':'" +:+ content +:+ "'}}]}")).
Definition demo_stream (_ : N) (_ : string) : opened := Opened 1 200
  (sjoin (nl +:+ nl) (quoted <$>
     ["data: {'choices':[{'delta':{'content':'exec_command: '}}]}"; ": wait"; "data: oops";
      "data: {'choices':[{'delta':{'content':'{}'}}],'usage':{'total_tokens':7}}"; "data: [DONE]"])) None.
Definition demo_responses (answers : N → string → exchange) (body : string) :=
  @responses (quiet_env 0) Responses.demo_range (λ _, "?") (λ _, "?") answers demo_stream demo_config body.
Definition empty_store : Responses.responseStore := Responses.newResponseStore 0 0.
Definition outcome (a : res answer) : Z * string * list (string * string) :=
  match a with
  | Ok (Completed e) =>
      (200, rs_output_text e,
       (λ i, (it_type i, if it_type i =?s "message" then sjoin nl (it_content i)
                         else it_arguments i +:+ it_input i)) <$> rs_output e)
  | Ok (Failure status kind _) => (status, kind, [])
  | Ok (Streamed events) => (200, deltas events, [])
  | Err _ => (0, "", [])
  end.
Example answers_demo :
  (λ '(content, input), outcome (demo_responses (demo_says content) (demo_request input "") 0%N empty_store).1) <$>
    [("I will.", "'Run this command now: ls -l. Then stop'"); ("I will.", "'Fix the tests'");
     ("Because.", "'Why is it so?'"); ("exec_command: {\'cmd\':\'make\'}", "'Fix the tests'");
     ("rm_all: {\'cmd\':\'make\'}", "'Fix the tests'"); ("", "7")]
  = [(200, "", [("function_call", quoted "{'cmd':'ls -l'}")]);
     (409, "execution_not_started", []);
     (200, "Because.", [("message", "Because.")]);
     (200, "", [("function_call", quoted "{'cmd':'make'}")]);
     (502, "tool_call_parse_error", []);
     (400, "invalid_request", [])].
Proof. vm_compute. reflexivity. Qed.

(** The calls a stored conversation knows, and the calls a client was sent. *)
Definition calls_known (s : Responses.responseStore) (id : string) : list (string * string) :=
  match Responses.items s !! id with
  | Some st => (λ c, (call_id c, fn_arguments (call_function c)))
      <$> (Responses.messages st ≫= msg_tool_calls)
  | None => []
  end.
Definition calls_sent (a : res answer) : list string :=
  match a with
  | Ok (Completed e) => it_call_id <$> filter (λ i, it_type i ≠ "message") (rs_output e)
  | _ => []
  end.
Definition exec_call (id command : string) : chatToolCall :=
  MkCall id "function" (MkFunction "exec_command" (json_field "cmd" command)).
Definition demo_store : Responses.responseStore := Responses.MkStore (60 * second) 8
  {["a" := Responses.MkState
      [MkMessage "user" "Fix the tests" "" []; calls_message [exec_call "c1" "ls"];
       MkMessage "tool" "exit_code=0" "c1" []] (60 * second)]}.
Definition demo_calls (_ : N) (_ : string) : exchange :=
  Answered 200 "" (compact (struct_jval [("choices", JArr [struct_jval [("message",
    struct_jval [("tool_calls", JArr (call_jval <$> [exec_call "c2" "make"; exec_call "c3" "ls"]))])]])])).
(** A call sent before one that repeats a command is not in the conversation that is kept:
    its output will answer no call. *)
Example call_forgotten :
  let '(a, (_, s)) := demo_responses demo_calls
    (demo_request "'go on'" ",'previous_response_id':'a'") 0%N demo_store in
  calls_sent a = ["c2"] ∧
  match a with Ok (Completed e) => calls_known s (rs_id e) = [("c1", quoted "{'cmd':'ls'}")] | _ => False end.
Proof. vm_compute. done. Qed.
(** Of a call of a custom tool the conversation keeps no input. *)
Definition demo_patch : string :=
  "apply_patch: {\'patch\':\'*** Begin Patch\'}".
Example patch_forgotten :
  let '(a, (_, s)) := demo_responses (demo_says demo_patch) (demo_request "'Fix the tests'" "") 0%N empty_store in
  outcome a = (200, "", [("custom_tool_call", "*** Begin Patch")]) ∧
  match a with Ok (Completed e) => calls_known s (rs_id e) = [("call_apply_patch", "")] | _ => False end.
Proof. vm_compute. done. Qed.

(** A stream tells its text when there are no tools. *)
Definition demo_streamed (stream : N → string → opened) (rest : string) : list event :=
  let body := quoted ("{'input':'Fix the tests','stream':true" +:+ rest +:+ "}") in
  match (@responses (quiet_env 0) Responses.demo_range (λ _, "?") (λ _, "?") (demo_says "") stream
           demo_config body 0%N empty_store).1 with
  | Ok (Streamed events) => events
  | _ => []
  end.
Example stream_demo :
  let events := demo_streamed demo_stream "" in
  deltas events = "exec_command: {}" ∧
  match last (removelast events) with
  | Some (ResponseCompleted e) => rs_output_text e = "exec_command: {}" ∧ TotalTokens (rs_usage e) = 7
  | _ => False
  end.
Proof. vm_compute. done. Qed.
(** A native call that is streamed goes unnoticed: what was asked for counts as not
    started. *)
Definition native_stream (_ : N) (_ : string) : opened := Opened 0 200
  (quoted "data: {'choices':[{'delta':{'tool_calls':[{'id':'c','type':'function','function':{'name':'exec_command','arguments':'{}'}}]}}]}"
   +:+ nl +:+ "data: [DONE]") None.
Example native_call_unnoticed :
  match last (demo_streamed native_stream (",'tools':" +:+ demo_tools)) with
  | Some (ResponseFailed (Some kind) _) => kind = "execution_not_started"
  | _ => False
  end.
Proof. vm_compute. done. Qed.
(** A stream that breaks off ends without a word. *)
Example broken_stream_silent :
  demo_streamed (λ _ _, Opened 0 200 "" (Some "unexpected EOF")) (",'tools':" +:+ demo_tools)
  = [Created ("resp_" +:+ @uuid (quiet_env 0) 0%N) 2].
Proof. vm_compute. done. Qed.

Lemma stream_same_turn_witness :
  let req := MkRequest (quoted "'Fix the tests'") "" 0 VNil VNil true (quoted demo_tools) VNil "" in
  hasTools (rq_tools req) = true ∧
  match (@stream_turn (quiet_env 0) (λ _, "?") [] req "msg_1" "Later." 0%N empty_store).1,
        (@text_turn (quiet_env 0) (λ _, "?") [] req "Later." 5%N empty_store).1 with
  | Ok (inr (kind, error)), Ok (inr e) => kind = Some "execution_not_started" ∧ same_error kind error e
  | _, _ => False
  end.
Proof.
  cbv zeta. split; [vm_compute; reflexivity|].
  pose proof (@stream_same_turn (quiet_env 0) (λ _, "?") []
    (MkRequest (quoted "'Fix the tests'") "" 0 VNil VNil true (quoted demo_tools) VNil "")
    "msg_1" "Later." 0%N empty_store 5%N empty_store ltac:(vm_compute; reflexivity)) as Hsame.
  revert Hsame. vm_compute. intros Hsame. split; [reflexivity|exact Hsame].
Defined.
