(* ===== verification/GatewayChat.v ===== *)
(** * The chat endpoint of the gateway ([codexlocalgateway/server.go])

    A chat request is passed on as it came but for its model; an answer whose text is
    meant as a call of a tool is rewritten as one, if need be with the help of a second
    request that asks the model for the call. *)
From S2P Require Import Prelude GoVal Json JsonText JsonValue Effects Gateway Regexp ToolCall GatewayApi.

(** ** The request *)

(** [codexlocalgateway/server.go:202-203] chatCompletions: the decoding of a body, whose
    error is ignored. *)
Definition soft_message : jval → chatMessage * bool :=
  soft_object (λ key old v,
    if key =?s "role" then
      soft_map (λ s, MkMessage s (msg_content old) (msg_tool_call_id old) (msg_tool_calls old))
        (soft (msg_role old) (text_value (msg_role old) v))
    else if key =?s "content" then
      soft_map (λ s, MkMessage (msg_role old) s (msg_tool_call_id old) (msg_tool_calls old))
        (soft (msg_content old) (text_value (msg_content old) v))
    else if key =?s "tool_call_id" then
      soft_map (λ s, MkMessage (msg_role old) (msg_content old) s (msg_tool_calls old))
        (soft (msg_tool_call_id old) (text_value (msg_tool_call_id old) v))
    else if key =?s "tool_calls" then
      soft_map (MkMessage (msg_role old) (msg_content old) (msg_tool_call_id old))
        (soft_list soft_tool_call (msg_tool_calls old) v)
    else (old, true)) (MkMessage "" "" "" []).
Definition read_parallel (v : jval) : option (option bool) :=
  match v with JNull => Some None | JBool b => Some (Some b) | _ => None end.
Definition soft_chat_field (key : string) (q : chatCompletionRequest) (v : jval) (raw : string) :
    chatCompletionRequest * bool :=
  if key =?s "model" then soft_map (λ s, q <| cq_model := s |>) (soft (cq_model q) (text_value (cq_model q) v))
  else if key =?s "messages" then
    soft_map (λ l, q <| cq_messages := l |>) (soft_list soft_message (cq_messages q) v)
  else if key =?s "max_tokens" then
    soft_map (λ n, q <| cq_max_tokens := n |>) (soft (cq_max_tokens q) (read_int (cq_max_tokens q) v))
  else if key =?s "temperature" then
    soft_map (λ x, q <| cq_temperature := x |>) (soft (cq_temperature q) (read_float v))
  else if key =?s "top_p" then soft_map (λ x, q <| cq_top_p := x |>) (soft (cq_top_p q) (read_float v))
  else if key =?s "stream" then
    soft_map (λ b, q <| cq_stream := b |>) (soft (cq_stream q) (read_bool (cq_stream q) v))
  else if key =?s "tools" then (q <| cq_tools := raw |>, true)
  else if key =?s "tool_choice" then
    soft_map (λ x, q <| cq_tool_choice := x |>) (soft (cq_tool_choice q) (read_any v))
  else if key =?s "parallel_tool_calls" then
    soft_map (λ b, q <| cq_parallel := b |>) (soft (cq_parallel q) (read_parallel v))
  else (q, true).
Definition UnmarshalChatRequest : string → chatCompletionRequest * bool :=
  soft_raw_object soft_chat_field (MkChatRequest "" [] 0 VNil VNil false "" VNil None).

(** [codexlocalgateway/server.go:773-782] enforcePromptSize: a body that does not fit is not
    measured. *)
Definition enforcePromptSize (cfg : Settings.Config) (body : string) : option GoError :=
  if Settings.MaxPromptChars cfg <=? 0 then None
  else let '(req, ok) := UnmarshalChatRequest body in
       if ok then Compaction.enforceChatPromptSize (Settings.MaxPromptChars cfg) (cq_messages req)
       else None.

(** [codexlocalgateway/responses.go:146-160] remapModel; the map of null takes no entry,
    which panics. *)
Definition remapModel (body publicModel upstreamModel : string) : option string :=
  match UnmarshalMap body with
  | None => Some body
  | Some payload =>
      let model := as_string (mget (default ∅ payload) "model") in
      if (model =?s "") || (model =?s publicModel) then
        (λ m, Marshal (<["model" := VStr upstreamModel]> m)) <$> payload
      else Some body
  end.

(** [codexlocalgateway/server.go:288-305] shouldUseStrictExecutionForChat. *)
Definition shouldUseStrictExecutionForChat (req : chatCompletionRequest) : bool :=
  hasTools (cq_tools req)
  && (requiresToolCall (cq_tool_choice req)
      || existsb (λ m, (msg_role m =?s "user") && looksLikeAgenticExecutionRequest (msg_content m))
           (rev (cq_messages req))).

(** ** The answer *)

(** [codexlocalgateway/types.go:49-77] chatCompletionResponse, as JSON. *)
Definition counted (n : Z) (key : string) : list (string * jval) :=
  given (negb (n =? 0)) key (JNum (pretty n)).
Definition texted (s key : string) : list (string * jval) := given (filled s) key (json_str s).
Definition choice_jval (c : chatChoice) : jval :=
  struct_jval
    (counted (cc_index c) "index"
     ++ [("message", struct_jval
            (texted (cc_role c) "role" ++ texted (cc_content c) "content"
             ++ given (bool_decide (cc_tool_calls c ≠ [])) "tool_calls" (JArr (call_jval <$> cc_tool_calls c))));
         ("delta", struct_jval (texted (cc_delta c) "content"))]
     ++ texted (cc_finish_reason c) "finish_reason").
Definition usage_jval (u : responsesUsage) : jval :=
  struct_jval
    (counted (InputTokens u) "prompt_tokens" ++ counted (OutputTokens u) "completion_tokens"
     ++ counted (TotalTokens u) "total_tokens").
Definition completion_text (c : chatCompletionResponse) : string :=
  compact (struct_jval
    (texted (cp_id c) "id" ++ texted (cp_object c) "object" ++ counted (cp_created c) "created"
     ++ texted (cp_model c) "model"
     ++ given (bool_decide (cp_choices c ≠ [])) "choices" (JArr (choice_jval <$> cp_choices c))
     ++ [("usage", usage_jval (cp_usage c))])).

(** [codexlocalgateway/server.go:346-370] rewriteChatCompletionAsToolCall: the first choice
    becomes a call. *)
Definition as_tool_call (item : responseItem) (choice : chatChoice) : chatChoice :=
  choice <| cc_content := "" |> <| cc_tool_calls := [item_call item] |>
    <| cc_finish_reason := "tool_calls" |>.
Definition with_call (item : responseItem) (chat : chatCompletionResponse) : chatCompletionResponse :=
  match cp_choices chat with
  | [] => chat
  | choice :: choices => chat <| cp_choices := as_tool_call item choice :: choices |>
  end.

Section Chat.
Context `{Env}.
Context (json_error chat_json_error : string → string).
Context (upstream : N → string → exchange).
Context (cfg : Settings.Config).

Abbreviation St := (M Responses.responseStore).

Definition rewriteChatCompletionAsToolCall (body : string) (item : responseItem) : res (option string) :=
  match UnmarshalChat body with
  | None => Err (ErrText (chat_json_error body))
  | Some chat =>
      match cp_choices chat with
      | [] => Ok None
      | _ => Ok (Some (completion_text (with_call item chat)))
      end
  end.
(** [codexlocalgateway/server.go:248-286] normalizeChatCompletionToolCalls. *)
Definition normalizeChatCompletionToolCalls (body : string) (req : chatCompletionRequest) :
    res (option string) :=
  if cq_stream req || negb (hasTools (cq_tools req)) then Ok None
  else match UnmarshalChat body with
       | None => Ok None
       | Some chat =>
           match cp_choices chat with
           | [] => Ok None
           | choice :: _ =>
               if bool_decide (cc_tool_calls choice ≠ []) then Ok None
               else match parseFallbackToolCall json_error (cc_content choice) (cq_tools req) with
                    | Err e => Err e
                    | Ok (Some item) =>
                        if it_type item =?s "function_call"
                        then Ok (Some (completion_text (with_call item chat))) else Ok None
                    | Ok None => Ok None
                    end
           end
       end.
(** [codexlocalgateway/server.go:307-321] firstAssistantText. *)
Definition firstAssistantText (body : string) : option string :=
  match UnmarshalChat body with
  | Some chat =>
      match cp_choices chat with
      | choice :: _ =>
          let text := trim_space (answer_text choice) in
          if text =?s "" then None else Some text
      | [] => None
      end
  | None => None
  end.
(** [codexlocalgateway/server.go:225-225] plainURLPattern. *)
Definition plainURLPattern : regexp :=
  Capture 1 (Seqs [Lit "http"; Opt (Lit "s"); Lit "://";
                   Plus true (Byte (λ c, negb (white c) && negb (isb 41 c)))]).
(** [codexlocalgateway/server.go:323-344] synthesizeURLFetchExecCommand. *)
Definition browse_signals : list string :=
  ["open"; "navigate"; "visit"; "check"; "search"; "website"; "docs"; "browser"].
Definition synthesizeURLFetchExecCommand (text tools : string) : option responseItem :=
  if negb (toolNameAllowed "exec_command" tools) || toolNameAllowed "browser.verify" tools then None
  else if negb (says_any browse_signals (to_lower text)) then None
  else match find plainURLPattern text with
       | Some m => Some (execCommandItem "call_exec_command" ("curl -fsSL " +:+ captured m 1))
       | None => None
       end.

(** [codexlocalgateway/server.go:372-400] repairChatCompletionToolCall. *)
Definition repair_instruction : string :=
  "Rewrite the previous assistant draft as exactly one tool call. Return either a native tool_call or one JSON object of the form "
  +:+ call_form +:+ " with no prose. "
  +:+ "If web content is needed and exec_command is available, prefer exec_command with curl -fsSL <url>.".
Definition repair_request (req : chatCompletionRequest) (assistantText : string) : chatCompletionRequest :=
  req <| cq_model := Settings.UpstreamModel cfg |> <| cq_stream := false |>
    <| cq_max_tokens := if (cq_max_tokens req <=? 0) || (256 <? cq_max_tokens req) then 256
                        else cq_max_tokens req |>
    <| cq_messages := cq_messages req
         ++ [MkMessage "assistant" assistantText "" []; MkMessage "system" repair_instruction "" []] |>.
Definition repairChatCompletionToolCall (req : chatCompletionRequest) (assistantText : string) :
    St (res (option string)) :=
  outcome <- callUpstream upstream cfg (chat_body (repair_request req assistantText)) ;;
  ret (match outcome with
       | inr (_, message) => Err (ErrText message)
       | inl (status, _, repaired) =>
           if (status <? 200) || (300 <=? status)
           then Err (ErrText ("repair upstream returned " +:+ pretty status))
           else Ok (Some repaired)
       end).
(** [codexlocalgateway/server.go:227-246] recoverChatCompletionToolCalls. *)
Definition recoverChatCompletionToolCalls (body : string) (req : chatCompletionRequest) :
    St (res (option string)) :=
  match normalizeChatCompletionToolCalls body req with
  | Err e => ret (Err e)
  | Ok (Some normalized) => ret (Ok (Some normalized))
  | Ok None =>
      if negb (shouldUseStrictExecutionForChat req) then ret (Ok None)
      else match firstAssistantText body with
           | None => ret (Ok None)
           | Some assistantText =>
               match synthesizeURLFetchExecCommand assistantText (cq_tools req) with
               | Some item => ret (rewriteChatCompletionAsToolCall body item)
               | None =>
                   repaired <- repairChatCompletionToolCall req assistantText ;;
                   ret (match repaired with
                        | Ok (Some repaired) => normalizeChatCompletionToolCalls repaired req
                        | r => r
                        end)
               end
           end
  end.

(** [codexlocalgateway/server.go:196-223] chatCompletions: what the client is sent, or the
    panic of a handler. *)
Inductive chat_answer :=
  | ChatFailure (status : Z) (kind message : string)
  | Passed (status : Z) (content_type body : string)
  | Panicked.
Definition chatCompletions (body : string) : St chat_answer :=
  if Settings.MaxBodyBytes cfg <? slen body then
    ret (ChatFailure 400 "invalid_request" "http: request body too large")
  else
    let req := (UnmarshalChatRequest body).1 in
    match enforcePromptSize cfg body with
    | Some e => ret (ChatFailure 400 "context_window_exceeded" (error_text e))
    | None =>
        match remapModel body (Settings.Model cfg) (Settings.UpstreamModel cfg) with
        | None => ret Panicked
        | Some body =>
            outcome <- callUpstream upstream cfg body ;;
            match outcome with
            | inr (status, message) => ret (ChatFailure status "upstream_error" message)
            | inl (status, content_type, body) =>
                recovered <- recoverChatCompletionToolCalls body req ;;
                ret (match recovered with
                     | Ok (Some normalized) => Passed status content_type normalized
                     | Ok None => Passed status content_type body
                     | Err e => ChatFailure 502 "tool_call_parse_error" (error_text e)
                     end)
            end
        end
    end.

(** ** What a client gets *)

(** A completion whose first choice was rewritten as a call, of a function on offer. *)
Inductive rewritten (tools text : string) : Prop :=
  | rewritten_choice source chat choice choices item :
      UnmarshalChat source = Some chat → cp_choices chat = choice :: choices →
      offered tools item → it_type item = "function_call" →
      text = completion_text (chat <| cp_choices := as_tool_call item choice :: choices |>) →
      rewritten tools text.

Lemma normalize_rewritten body req text :
  normalizeChatCompletionToolCalls body req = Ok (Some text) → rewritten (cq_tools req) text.
Proof.
  unfold normalizeChatCompletionToolCalls. destruct (_ || _); [done|].
  destruct (UnmarshalChat body) as [chat|] eqn:Hc; [|done].
  destruct (cp_choices chat) as [|choice choices] eqn:Hch; [done|]. case_bool_decide; [done|].
  destruct (parseFallbackToolCall _ _ _) as [[item|]|e] eqn:Hp; [|done..].
  destruct (String.eqb_spec (it_type item) "function_call") as [Hf|]; [|done]. intros [= <-].
  apply fallback_offered in Hp. apply (rewritten_choice _ _ body chat choice choices item); [done..|].
  unfold with_call. by rewrite Hch.
Qed.
Lemma fetch_rewritten body text tools item text' :
  synthesizeURLFetchExecCommand text tools = Some item →
  rewriteChatCompletionAsToolCall body item = Ok (Some text') → rewritten tools text'.
Proof.
  unfold synthesizeURLFetchExecCommand. destruct (toolNameAllowed "exec_command" tools) eqn:Ha; [|done].
  destruct (negb true || _); [done|]. destruct (negb _); [done|].
  destruct (find _ _) as [m|]; [|done]. intros [= <-]. unfold rewriteChatCompletionAsToolCall.
  destruct (UnmarshalChat body) as [chat|] eqn:Hc; [|done].
  destruct (cp_choices chat) as [|choice choices] eqn:Hch; [done|]. intros [= <-].
  eapply (rewritten_choice _ _ body chat choice choices); [done|done| | |].
  - by apply function_offered.
  - done.
  - unfold with_call. by rewrite Hch.
Qed.

(** One more exchange at most. *)
Lemma recover_spec body req n s :
  ∃ r n', recoverChatCompletionToolCalls body req n s = (Ok r, (n', s)) ∧
    (n' = n ∨ n' = N.succ n ∧ shouldUseStrictExecutionForChat req = true) ∧
    match r with Ok (Some text) => rewritten (cq_tools req) text | _ => True end.
Proof.
  unfold recoverChatCompletionToolCalls.
  destruct (normalizeChatCompletionToolCalls body req) as [[text|]|e] eqn:Hn.
  { eexists _, _. split_and!; [done|by left|by eapply normalize_rewritten]. }
  2:{ eexists _, _. split_and!; [done|by left|done]. }
  destruct (shouldUseStrictExecutionForChat req).
  2:{ eexists _, _. split_and!; [done|by left|done]. }
  destruct (firstAssistantText body) as [assistant|].
  2:{ eexists _, _. split_and!; [done|by left|done]. }
  destruct (synthesizeURLFetchExecCommand assistant (cq_tools req)) as [item|] eqn:Hf.
  { eexists _, _. split_and!; [done|by left|].
    destruct (rewriteChatCompletionAsToolCall body item) as [[text|]|e] eqn:Hr; [|done..].
    by eapply fetch_rewritten. }
  eexists _, _. split_and!; [reflexivity|by right|].
  destruct (match upstream n _ with NotBuilt _ => _ | _ => _ end) as [[[status type] repaired]|[st msg]];
    [|done]. destruct (_ || _); [done|].
  destruct (normalizeChatCompletionToolCalls repaired req) as [[text|]|e] eqn:Hr; [|done..].
  by eapply normalize_rewritten.
Qed.

(** The chat endpoint.  Apart from the body null, on which it panics, a request gets an
    answer, for which the upstream is asked at most twice, the second time only when an
    action was asked for.  What is passed on came with a status of success: the upstream's
    own answer, or a completion whose first choice was rewritten as a call of a function
    the request offers. *)
Theorem chatCompletions_spec body n s :
  ∃ a n', chatCompletions body n s = (Ok a, (n', s)) ∧ 
    ((n' <= N.succ n)%N ∨ n' = N.succ (N.succ n) ∧ shouldUseStrictExecutionForChat (UnmarshalChatRequest body).1 = true) ∧
    match a with
    | ChatFailure status _ _ => 400 <= status
    | Panicked => parse body = Some JNull
    | Passed status content_type text =>
        200 <= status < 300 ∧
        ∃ sent answer type,
          remapModel body (Settings.Model cfg) (Settings.UpstreamModel cfg) = Some sent ∧
          upstream n sent = Answered status type answer ∧
          (text = stake (Z.to_nat (Settings.MaxBodyBytes cfg)) answer ∨
           rewritten (cq_tools (UnmarshalChatRequest body).1) text)
    end.
Proof.
  unfold chatCompletions. destruct (_ <? slen body).
  { eexists _, _. split_and!; [done|left; lia|done]. }
  destruct (enforcePromptSize cfg body) as [e|].
  { eexists _, _. split_and!; [done|left; lia|done]. }
  destruct (remapModel body _ _) as [sent|] eqn:Hsent.
  2:{ eexists _, _. split_and!; [done|left; lia|]. unfold remapModel, UnmarshalMap in Hsent.
      destruct (parse body) as [v|]; [|done]. destruct v; try done.
      destruct (in_range _); [|done]. cbn in Hsent. by destruct (_ || _). }
  unfold bind at 1, callUpstream.
  destruct (upstream n sent) as [m|d m|m|status type answer] eqn:Hup.
  1-3: eexists _, _; split_and!; [done|left; lia|]; cbn; try done; by destruct (_ || _).
  destruct (Z.ltb_spec status 200); [eexists _, _; split_and!; [done|left; lia|done]|].
  destruct (Z.leb_spec 300 status); [eexists _, _; split_and!; [done|left; lia|done]|].
  cbn [orb]. destruct (recover_spec (stake (Z.to_nat (Settings.MaxBodyBytes cfg)) answer)
    (UnmarshalChatRequest body).1 (N.succ n) s) as (r & n' & E & Hn' & Hr).
  rewrite (bind_ok _ _ _ _ _ _ _ E). eexists _, _. split; [reflexivity|].
  split; [destruct Hn' as [->|[-> ?]]; [by left|by right]|].
  destruct r as [[text|]|e]; [| |done]; (split; [lia|]); exists sent, answer, type; eauto.
Qed.
End Chat.

(** ** Requests passed on *)

Definition quoted (s : string) : string := replace_char "'" dquote s.
Definition demo_config : Settings.Config := Settings.normalized
  (Settings.MkConfig "" "" "" "" "" "" "" 0 0 0 0 0 0 0 40 0 0 "").
Definition demo_request (content tools : string) : string :=
  quoted ("{'messages':[{'role':'user','content':" +:+ content +:+ "}],'tools':[" +:+ tools +:+ "]}").
Definition exec_tool : string := "{'type':'function','function':{'name':'exec_command'}}".
(** The first answer, and the second. *)
Definition demo_upstream (first second : string) (n : N) (_ : string) : exchange :=
  Answered 200 "" (quoted ("{'choices':[{'message':{" +:+ (if (n =? 0)%N then first else second) +:+ "}}]}")).
Definition demo_chat (first second body : string) : chat_answer * N :=
  match @chatCompletions (λ _, "?") (λ _, "?") (demo_upstream first second) demo_config body
          0%N (Responses.newResponseStore 0 0) with
  | (Ok a, (n, _)) => (a, n)
  | (Err _, (n, _)) => (Panicked, n)
  end.
Definition passed_text (a : chat_answer) : string := match a with Passed _ _ text => text | _ => "" end.
Definition called (command : string) : string := quoted (
  "{'choices':[{'message':{'tool_calls':[{'id':'call_exec_command','type':'function','function':{'name':'exec_command','arguments':'{\'cmd\':\'"
  +:+ command +:+ "\'}'}}]},'delta':{},'finish_reason':'tool_calls'}],'usage':{}}").
Example chat_demo :
  (λ '(first, second), let '(a, n) := demo_chat first second (demo_request "'Fix the tests'" exec_tool) in
                       (passed_text a, n)) <$>
    [("'content':'exec_command: {\'cmd\':\'make\'}'", "");
     ("'content':'I open https://a.b/c) now'", "");
     ("'content':'Later.'", "'content':'exec_command: {\'cmd\':\'ls\'}'")]
  = [(called "make", 1%N); (called "curl -fsSL https://a.b/c", 1%N); (called "ls", 2%N)].
Proof. vm_compute. reflexivity. Qed.
(** A native call, which the second request asks for, is not taken over. *)
Example repaired_native_call_lost :
  passed_text (demo_chat "'content':'Later.'"
    "'tool_calls':[{'id':'c','type':'function','function':{'name':'exec_command','arguments':'{}'}}]"
    (demo_request "'Fix the tests'" exec_tool)).1
  = quoted "{'choices':[{'message':{'content':'Later.'}}]}".
Proof. vm_compute. reflexivity. Qed.
(** The body null is too little. *)
Example null_panics : (demo_chat "" "" "null").1 = Panicked.
Proof. vm_compute. reflexivity. Qed.
(** A prompt is not measured when a content is a list of parts. *)
Definition long_text : string := "'0123456789012345678901234567890123456789x'".
Example parts_unmeasured :
  let outcome body := match (demo_chat "'content':'ok'" "" body).1 with ChatFailure status _ _ => status | _ => 0 end in
  outcome (demo_request long_text "") = 400 ∧
  outcome (demo_request ("[{'type':'text','text':" +:+ long_text +:+ "}]") "") = 0.
Proof. vm_compute. done. Qed.
