(* ===== verification/TelegramQueue.v ===== *)
(** * The queue of updates of the secretary ([secretary/telegram_webhook.go])

    Updates arrive at a webhook and are kept in files, one directory of pending updates and
    one of completed ones; a worker takes them in the order of their identifiers.  A file
    that is no JSON is [None]; the names of the files are padded to twenty digits, so that
    their order is that of the identifiers. *)
From S2P Require Import Prelude GoVal Effects.

(** ** Data *)

(** [secretary/telegram.go:30-34] Voice. *)
Record Voice := MkVoice { vo_file : string; vo_duration : Z; vo_size : Z }.
(** [secretary/telegram.go:35-41] Message: with its sender and its chat. *)
Record Message := MkMessage {
  msg_id : Z;
  msg_from : Z;
  msg_chat : Z;
  msg_chat_type : string;
  msg_text : string;
  msg_voice : option Voice;
}.
(** [secretary/telegram.go:42-45] Update. *)
Record Update := MkUpdate { up_id : Z; up_message : option Message }.
(** [secretary/telegram_webhook.go:20-24] telegramWebhookMaxPending. *)
Definition telegramWebhookMaxPending : Z := 128.
Definition telegramCompletedRetention : Z := 48 * hour.
(** [secretary/telegram_webhook.go:34-43] FileTelegramUpdateQueue: its two directories. *)
Record Queue := MkQueue {
  pending : gmap Z (option Update);
  completed : gmap Z (option Z);
}.
#[export] Instance eta_queue : Eta Queue := λ q, MkQueue (pending q) (completed q).
Definition names {A} (m : gmap Z A) : list Z := merge_sort Z.le (elements (dom m)).

(** ** Operations *)
Section Operations.
Context `{Env}.

(** What a function says instead of the error it meets. *)
Definition told {S A} (message : string) (m : M S A) : M S A :=
  r <- attempt m;; match r with Ok a => ret a | Err _ => errorf message end.
(** [secretary/telegram_webhook.go:209-248] writeTelegramQueueJSON: a file is there at once or not
    at all; that the directory is then synchronised may still fail. *)
Definition writeTelegramQueueJSON (f : Queue → Queue) : M Queue unit := exec f ;;; query (λ _, tt).

(** [secretary/telegram_webhook.go:178-202] pruneCompletedLocked. *)
Definition prune_one (now : Z) (id : Z) : M Queue unit :=
  content <- told "cannot read completed Telegram update" (query (λ q, completed q !! id));;
  match content with
  | None => errorf "cannot read completed Telegram update"
  | Some None => errorf "invalid completed Telegram update"
  | Some (Some t) =>
      if time_is_zero t then errorf "invalid completed Telegram update"
      else if telegramCompletedRetention <? now - t then
        told "cannot prune completed Telegram update" (exec (λ q, q <| completed := delete id (completed q) |>))
      else ret tt
  end.
Definition pruneCompletedLocked (now : Z) : M Queue unit :=
  entries <- told "cannot inspect completed Telegram updates" (query (λ q, names (completed q)));;
  for_each entries tt (λ _ id, prune_one now id).
(** [secretary/telegram_webhook.go:62-92] Enqueue: whether the update is new. *)
Definition Enqueue (update : Update) : M Queue bool :=
  let id := up_id update in
  if id <=? 0 then errorf "invalid Telegram update ID"
  else
    now <- time_now;;
    pruneCompletedLocked now ;;;
    waiting <- told "cannot inspect pending Telegram update" (query (λ q, bool_decide (is_Some (pending q !! id))));;
    if waiting : bool then ret false
    else
      handled <- told "cannot inspect completed Telegram update"
                   (query (λ q, bool_decide (is_Some (completed q !! id))));;
      if handled : bool then ret false
      else
        count <- told "cannot inspect Telegram queue" (query (λ q, Z.of_nat (size (pending q))));;
        if telegramWebhookMaxPending <=? count then errorf "Telegram update queue is full"
        else
          told "cannot persist Telegram update"
            (writeTelegramQueueJSON (λ q, q <| pending := <[id := Some update]> (pending q) |>)) ;;;
          ret true.

(** [secretary/telegram_webhook.go:94-144] Next: one look at the directory, *)
Fixpoint next_of (ids : list Z) : M Queue (option Update) :=
  match ids with
  | [] => ret None
  | id :: ids =>
      handled <- told "cannot inspect completed Telegram update"
                   (query (λ q, bool_decide (is_Some (completed q !! id))));;
      if handled : bool then
        told "cannot clear completed Telegram update"
          (exec (λ q, q <| pending := delete id (pending q) |>)) ;;;
        next_of ids
      else
        content <- told "cannot read queued Telegram update" (query (λ q, pending q !! id));;
        match content with
        | None => errorf "cannot read queued Telegram update"
        | Some None => errorf "invalid queued Telegram update"
        | Some (Some update) =>
            if up_id update =? id then ret (Some update) else errorf "invalid queued Telegram update"
        end
  end.
Definition look : M Queue (option Update) :=
  ids <- told "cannot read Telegram queue" (query (λ q, names (pending q)));; next_of ids.
(** and as many as are needed, [n] at most; [cancelled] says when the context ended. *)
Fixpoint Next (cancelled : nat → option string) (n : nat) : M Queue (option Update) :=
  match n with
  | O => ret None
  | S n =>
      found <- look;;
      match found with
      | Some update => ret (Some update)
      | None => match cancelled n with Some e => errorf e | None => Next cancelled n end
      end
  end.
(** [secretary/telegram_webhook.go:146-168] Complete. *)
Definition Complete (id : Z) : M Queue unit :=
  if id <=? 0 then errorf "invalid Telegram update ID"
  else
    waiting <- told "cannot inspect pending Telegram update" (query (λ q, bool_decide (is_Some (pending q !! id))));;
    if negb waiting then
      handled <- attempt (query (λ q, bool_decide (is_Some (completed q !! id))));;
      match handled with Ok true => ret tt | _ => errorf "Telegram update is not pending" end
    else
      now <- time_now;;
      told "cannot persist Telegram completion"
        (writeTelegramQueueJSON (λ q, q <| completed := <[id := Some now]> (completed q) |>)) ;;;
      told "cannot remove completed Telegram update" (exec (λ q, q <| pending := delete id (pending q) |>)) ;;;
      query (λ _, tt).

(** ** The webhook and its worker *)

(** [secretary/telegram_webhook.go:255-296] TelegramWebhook: the status of the answer; [decode]
    is how the only value of a text is read as an update. *)
Inductive body := TooLarge | Unreadable | Read (text : string).
Record WebhookRequest := MkWebhookRequest {
  wr_method : string;
  wr_token : string;
  wr_body : body;
}.
Definition ServeHTTP (decode : string → option Update) (secret : string) (r : WebhookRequest) : M Queue Z :=
  if negb (wr_method r =?s "POST") then ret 405
  else if (secret =?s "") || negb (wr_token r =?s secret) then ret 401
  else match wr_body r with
       | TooLarge => ret 413
       | Unreadable => ret 400
       | Read text =>
           match decode text with
           | None => ret 400
           | Some update =>
               if up_id update <=? 0 then ret 400
               else
                 r <- attempt (Enqueue update);;
                 ret (match r with Ok _ => 200 | Err _ => 503 end)
           end
       end.

(** [secretary/telegram.go:238-271] RunWebhookWorker: for [n] rounds, which end early when the
    context does; what was taken, and whether [process] had an error with it. *)
Context (process : N → Update → option string).
Definition processed (u : Update) : M Queue (option string) := λ n q, (Ok (process n u), (N.succ n, q)).
Fixpoint RunWebhookWorker (ended : nat → bool) (n : nat) : M Queue (list (Update * bool)) :=
  match n with
  | O => ret []
  | S n =>
      if ended n then ret []
      else
        found <- attempt look;;
        match found with
        | Err _ | Ok None => RunWebhookWorker ended n
        | Ok (Some u) =>
            err <- processed u;;
            match err with
            | Some _ => rest <- RunWebhookWorker ended n;; ret ((u, false) :: rest)
            | None =>
                attempt (Complete (up_id u)) ;;;
                rest <- RunWebhookWorker ended n;;
                ret ((u, true) :: rest)
            end
        end
  end.
End Operations.

(** ** The queue is bounded *)
Section Bound.
Context `{Env}.
Definition bounded (q q' : Queue) : Prop :=
  Z.of_nat (size (pending q)) <= telegramWebhookMaxPending →
  Z.of_nat (size (pending q')) <= telegramWebhookMaxPending.
#[export] Instance bounded_preorder : PreOrder bounded.
Proof. split; [by intros ? ?|]. intros x y z Hxy Hyz Hx. auto. Qed.

Lemma respects_told {S A} (R : relation S) message (m : M S A) :
  PreOrder R → respects R m → respects R (told message m).
Proof. intros HR Hm. unfold told. solve_respects. Qed.
Lemma size_delete_le {A} (m : gmap Z A) id : (size (delete id m) ≤ size m)%nat.
Proof.
  destruct (m !! id) as [a|] eqn:E; [rewrite map_size_delete_Some by eauto; lia|by rewrite delete_id].
Qed.
Lemma bounded_prune now : respects bounded (pruneCompletedLocked now).
Proof.
  unfold pruneCompletedLocked, prune_one.
  repeat first [apply respects_told; [apply _|] | respects_step].
  apply respects_exec; [apply _|by intros q Hq].
Qed.
Lemma bounded_next ids : respects bounded (next_of ids).
Proof.
  induction ids as [|id ids IH]; cbn [next_of]; [solve_respects|].
  repeat first [apply respects_told; [apply _|] | exact IH | respects_step].
  apply respects_exec; [apply _|]. intros q Hq. cbn. pose proof (size_delete_le (pending q) id). lia.
Qed.
Lemma bounded_complete id : respects bounded (Complete id).
Proof.
  unfold Complete, writeTelegramQueueJSON.
  repeat first [apply respects_told; [apply _|] | respects_step]; (apply respects_exec; [apply _|]); [by intros q Hq|].
  intros q Hq. cbn. pose proof (size_delete_le (pending q) id). lia.
Qed.
Lemma told_inv {S A} message (m : M S A) n s r ns :
  told message m n s = (r, ns) →
  (∃ a, r = Ok a ∧ m n s = (Ok a, ns)) ∨ ∃ e, r = Err (ErrText message) ∧ m n s = (Err e, ns).
Proof.
  unfold told, attempt, bind, errorf, throw, ret.
  destruct (m n s) as [[a|e] [n' s']]; cbn; intros; simplify_eq; eauto.
Qed.
(** A question about the queue: it is answered, or the error is said; the queue stays. *)
Lemma ask_inv {S A B} message (f : S → A) (k : A → M S B) n q r n' q' :
  bind (told message (query f)) k n q = (r, (n', q')) →
  (r = Err (ErrText message) ∧ q' = q) ∨ k (f q) (N.succ n) q = (r, (n', q')).
Proof.
  intros [(e & He & ->)|(b & n1 & q1 & Hb & Hk)]%bind_inv.
  - apply told_inv in He as [(? & ? & ?)|(? & [= ->] & He)]; [done|]. left. split; [done|]. by eapply query_state.
  - apply told_inv in Hb as [(? & [= ->] & Hb)|(? & ? & ?)]; [|done].
    apply query_ok in Hb as (-> & -> & ->). by right.
Qed.
(** A file that is written: it is there, or there was an error. *)
Lemma write_inv message f n q r n' q' :
  told message (writeTelegramQueueJSON f) n q = (r, (n', q')) →
  (r = Err (ErrText message) ∧ q' = q) ∨ q' = f q.
Proof.
  intros Hrun. assert (∃ r', writeTelegramQueueJSON f n q = (r', (n', q')) ∧
    (r = Err (ErrText message) ∨ ∃ a, r' = Ok a)) as (r' & Hw & Hr)
    by (apply told_inv in Hrun as [(? & ? & ?)|(? & ? & ?)]; eauto 10).
  apply bind_inv in Hw as [(e & He & ->)|([] & n6 & q6 & He & Hs)].
  - apply stmt_inv in He as [_ [(? & _ & _ & ->)|[_ ?]]]; [|simplify_eq].
    left. split; [|done]. by destruct Hr as [|[? ?]].
  - apply exec_ok in He as [-> ->]. apply query_state in Hs. subst. by right.
Qed.
Lemma bounded_enqueue u : respects bounded (Enqueue u).
Proof.
  intros n q r n' q' Hrun Hq. unfold Enqueue in Hrun. destruct (_ <=? 0); [by run_inv|].
  apply bind_inv in Hrun as [(e & Hnow & ->)|(now & n1 & q1 & Hnow & Hrun)]; [by unfold time_now in *; simplify_eq|].
  unfold time_now in Hnow. simplify_eq.
  apply bind_inv in Hrun as [(e & Hprune & ->)|(? & n2 & q2 & Hprune & Hrun)];
    apply (respects_run (bounded_prune _)) in Hprune; specialize (Hprune Hq); [done|].
  apply ask_inv in Hrun as [[_ ->]|Hrun]; [done|]. destruct (bool_decide _); [by run_inv|].
  apply ask_inv in Hrun as [[_ ->]|Hrun]; [done|]. destruct (bool_decide _); [by run_inv|].
  apply ask_inv in Hrun as [[_ ->]|Hrun]; [done|].
  destruct (Z.leb_spec telegramWebhookMaxPending (Z.of_nat (size (pending q2)))); [by run_inv|].
  assert (∀ id c, Z.of_nat (size (<[id := c]> (pending q2))) <= telegramWebhookMaxPending) as Hins.
  { intros id c. destruct (pending q2 !! id) as [v|] eqn:E.
    - rewrite map_size_insert_Some by eauto. lia.
    - rewrite map_size_insert_None by done. lia. }
  apply bind_inv in Hrun as [(e & He & _)|([] & n6 & q6 & He & Hs)].
  - by apply write_inv in He as [[? ->]| ->]; [|cbn; apply Hins].
  - unfold ret in Hs. simplify_eq. by apply write_inv in He as [[? ->]| ->]; [|cbn; apply Hins].
Qed.
End Bound.

(** ** What is completed is not taken again *)

(** The operations of the webhook and its worker in any order, and the updates taken. *)
Inductive operation := Put (u : Update) | Take | Finish (id : Z).
Section Once.
Context `{Env}.
Definition perform (o : operation) : M Queue (list Update) :=
  match o with
  | Put u => attempt (Enqueue u) ;;; ret []
  | Take => r <- attempt look;; ret (match r with Ok (Some u) => [u] | _ => [] end)
  | Finish id => attempt (Complete id) ;;; ret []
  end.
Fixpoint perform_all (l : list operation) : M Queue (list Update) :=
  match l with
  | [] => ret []
  | o :: l => us <- perform o;; rest <- perform_all l;; ret (us ++ rest)
  end.

Context (id t0 : Z) (n0 : N).
Hypothesis (Hzero : t0 > 0).
Hypothesis (Hwindow : ∀ k, (n0 ≤ k)%N → t0 <= clock k <= t0 + telegramCompletedRetention).
Definition is_done (q : Queue) : Prop := ∃ t, completed q !! id = Some (Some t) ∧ t0 <= t.

(** From a state in which it is completed, [m] ends in one, and answers as [P] says. *)
Definition stays {A} (P : A → Prop) (m : M Queue A) : Prop :=
  ∀ n q r n' q', (n0 ≤ n)%N → is_done q → m n q = (r, (n', q')) →
  (n0 ≤ n')%N ∧ is_done q' ∧ ∀ a, r = Ok a → P a.
Definition any {A} (a : A) : Prop := True.

Lemma stays_ret {A} (P : A → Prop) a : P a → stays P (ret a).
Proof. intros HP n q r n' q' Hn Hq [= <- <- <-]. split_and!; [done..|]. by intros b [= <-]. Qed.
Lemma stays_errorf {A} (P : A → Prop) e : stays P (errorf e).
Proof. intros n q r n' q' Hn Hq [= <- <- <-]. by split_and!. Qed.
Lemma stays_bind {A B} (P : A → Prop) (Q : B → Prop) (m : M Queue A) (f : A → M Queue B) :
  stays P m → (∀ a, P a → stays Q (f a)) → stays Q (bind m f).
Proof.
  intros Hm Hf n q r n' q' Hn Hq [(e & He & ->)|(a & n1 & q1 & Ha & Hb)]%bind_inv.
  - apply Hm in He as (? & ? & _); [|done..]. by split_and!.
  - apply Hm in Ha as (? & ? & HP); [|done..]. eapply Hf; eauto.
Qed.
Lemma stays_attempt {A} (P : A → Prop) (m : M Queue A) :
  stays P m → stays (λ r, ∀ a, r = Ok a → P a) (attempt m).
Proof.
  intros Hm n q r n' q' Hn Hq. unfold attempt. destruct (m n q) as [r1 [n1 q1]] eqn:E.
  intros [= <- <- <-]. apply Hm in E as (? & ? & HP); [|done..]. split_and!; [done..|]. by intros a [= <-].
Qed.
Lemma stays_told {A} (P : A → Prop) message (m : M Queue A) : stays P m → stays P (told message m).
Proof.
  intros Hm. eapply stays_bind; [by apply stays_attempt|].
  intros [a|e] Ha; [apply stays_ret; by apply Ha|apply stays_errorf].
Qed.
Lemma stays_query {A} (P : A → Prop) (f : Queue → A) : (∀ q, is_done q → P (f q)) → stays P (query f).
Proof.
  intros Hf n q r n' q' Hn Hq [-> [(? & _ & -> & ->)|[_ ?]]]%stmt_inv; simplify_eq.
  - split_and!; [lia|done..].
  - split_and!; [lia|done|]. intros a [= <-]. by apply Hf.
Qed.
Lemma stays_exec (f : Queue → Queue) : (∀ q, is_done q → is_done (f q)) → stays any (exec f).
Proof.
  intros Hf n q r n' q' Hn Hq [-> [(? & _ & -> & ->)|[_ ?]]]%stmt_inv; simplify_eq.
  - split_and!; [lia|done..].
  - split_and!; [lia|by apply Hf|done].
Qed.
Lemma stays_now : stays (λ t, t0 <= t <= t0 + telegramCompletedRetention) time_now.
Proof.
  intros n q r n' q' Hn Hq [= <- <- <-]. split_and!; [lia|done|]. intros a [= <-]. by apply Hwindow.
Qed.
Lemma stays_for_each {A} (l : list A) (body : unit → A → M Queue unit) :
  (∀ x, stays any (body tt x)) → stays any (for_each l tt body).
Proof.
  intros Hbody. induction l as [|x l IH]; cbn [for_each]; [by apply stays_ret|].
  eapply stays_bind; [apply Hbody|]. by intros [] _.
Qed.
Lemma stays_write message (f : Queue → Queue) :
  (∀ q, is_done q → is_done (f q)) → stays any (told message (writeTelegramQueueJSON f)).
Proof.
  intros Hf. apply stays_told. eapply stays_bind; [by apply stays_exec|]. intros _ _. by apply stays_query.
Qed.

Lemma stays_prune now :
  t0 <= now <= t0 + telegramCompletedRetention → stays any (pruneCompletedLocked now).
Proof.
  intros Hnow. eapply stays_bind; [by apply stays_told, (stays_query any)|]. intros ids _.
  apply stays_for_each. intros x.
  eapply (stays_bind (λ c, x = id → ∃ t, c = Some (Some t) ∧ t0 <= t)).
  { apply stays_told, stays_query. intros q Hq ->. exact Hq. }
  intros [[t|]|] Hc; [|apply stays_errorf..]. destruct (time_is_zero t); [apply stays_errorf|].
  destruct (Z.ltb_spec telegramCompletedRetention (now - t)); [|by apply stays_ret].
  apply stays_told, stays_exec. intros q (t' & Ht' & Hle). exists t'. cbn.
  rewrite lookup_delete_ne; [done|]. intros ->. destruct (Hc eq_refl) as (? & [= <-] & ?). lia.
Qed.
Lemma stays_enqueue u : stays any (Enqueue u).
Proof.
  unfold Enqueue. destruct (_ <=? 0); [apply stays_errorf|].
  eapply stays_bind; [apply stays_now|]. intros now Hnow.
  eapply stays_bind; [by apply stays_prune|]. intros _ _.
  eapply stays_bind; [by apply stays_told, (stays_query any)|]. intros [] _; [by apply stays_ret|].
  eapply stays_bind; [by apply stays_told, (stays_query any)|]. intros [] _; [by apply stays_ret|].
  eapply stays_bind; [by apply stays_told, (stays_query any)|]. intros count _.
  destruct (_ <=? count); [apply stays_errorf|].
  eapply stays_bind; [by apply stays_write|]. intros _ _. by apply stays_ret.
Qed.
Lemma stays_next ids : stays (λ u, ∀ v, u = Some v → up_id v ≠ id) (next_of ids).
Proof.
  induction ids as [|x ids IH]; cbn [next_of]; [by apply stays_ret|].
  eapply (stays_bind (λ b : bool, x = id → b = true)).
  { apply stays_told, stays_query. intros q (t & Ht & _) ->. rewrite Ht. by apply bool_decide_eq_true. }
  intros [] Hx.
  - eapply stays_bind; [by apply stays_told, stays_exec|]. by intros _ _.
  - eapply stays_bind; [by apply stays_told, (stays_query any)|]. intros [[u|]|] _; [|apply stays_errorf..].
    destruct (Z.eqb_spec (up_id u) x) as [<-|]; [|apply stays_errorf].
    apply stays_ret. intros v [= <-] Hv. by specialize (Hx Hv).
Qed.
Lemma stays_complete x : stays any (Complete x).
Proof.
  unfold Complete. destruct (x <=? 0); [apply stays_errorf|].
  eapply stays_bind; [by apply stays_told, (stays_query any)|]. intros [] _; cbn [negb].
  - eapply stays_bind; [apply stays_now|]. intros now Hnow.
    eapply stays_bind.
    { apply stays_write. intros q (t & Ht & Hle). destruct (decide (x = id)) as [->|].
      - exists now. cbn. rewrite lookup_insert_eq. split; [done|apply Hnow].
      - exists t. cbn. by rewrite lookup_insert_ne. }
    intros _ _. eapply stays_bind; [by apply stays_told, stays_exec|]. intros _ _. by apply stays_query.
  - eapply stays_bind; [by apply stays_attempt, (stays_query any)|].
    intros [[]|e] _; [by apply stays_ret|apply stays_errorf..].
Qed.
Lemma stays_perform l : stays (λ us, id ∉ up_id <$> us) (perform_all l).
Proof.
  induction l as [|o l IH]; cbn [perform_all]; [apply stays_ret; set_solver|].
  eapply (stays_bind (λ us, id ∉ up_id <$> us)).
  - destruct o as [u| |x]; cbn [perform].
    + eapply stays_bind; [apply stays_attempt, stays_enqueue|]. intros _ _. apply stays_ret. set_solver.
    + eapply stays_bind.
      { apply stays_attempt. eapply stays_bind; [by apply stays_told, (stays_query any)|].
        intros ids _. apply stays_next. }
      intros [[u|]|e] Hu; apply stays_ret; [|set_solver..]. specialize (Hu _ eq_refl u eq_refl). set_solver.
    + eapply stays_bind; [apply stays_attempt, stays_complete|]. intros _ _. apply stays_ret. set_solver.
  - intros us Hus. eapply stays_bind; [exact IH|]. intros rest Hrest. apply stays_ret.
    rewrite fmap_app. set_solver.
Qed.
End Once.

(** ** The worker *)
Section Worker.
Context `{Env} (Hcalm : calm) (process : N → Update → option string).

Definition well_formed (q : Queue) : Prop := ∀ id c, pending q !! id = Some c →
  id > 0 ∧ completed q !! id = None ∧ ∃ u, c = Some u ∧ up_id u = id.

Lemma told_query_calm {A} message (f : Queue → A) n q :
  told message (query f) n q = (Ok (f q), (N.succ n, q)).
Proof. unfold told, attempt, bind, ret. by rewrite (query_calm Hcalm). Qed.
Lemma told_exec_calm message (f : Queue → Queue) n q :
  told message (exec f) n q = (Ok tt, (N.succ n, f q)).
Proof. unfold told, attempt, bind, ret. by rewrite (exec_calm Hcalm). Qed.
Lemma told_write_calm message (f : Queue → Queue) n q :
  told message (writeTelegramQueueJSON f) n q = (Ok tt, (N.succ (N.succ n), f q)).
Proof.
  unfold told, writeTelegramQueueJSON, attempt, bind, ret. rewrite (exec_calm Hcalm). by rewrite (query_calm Hcalm).
Qed.
Lemma look_first n q id ids :
  well_formed q → names (pending q) = id :: ids →
  ∃ u n', pending q !! id = Some (Some u) ∧ up_id u = id ∧ look n q = (Ok (Some u), (n', q)).
Proof.
  intros Hwf Hids. assert (id ∈ names (pending q)) as Hin by (rewrite Hids; left).
  unfold names in Hin. rewrite merge_sort_Permutation, elem_of_elements, elem_of_dom in Hin.
  destruct Hin as [c Hc]. destruct (Hwf id c Hc) as (Hpos & Hdone & u & -> & Hu).
  exists u, (N.succ (N.succ (N.succ n))). split_and!; [done..|].
  unfold look. unfold bind at 1. rewrite told_query_calm, Hids. cbn [next_of].
  unfold bind at 1. rewrite told_query_calm, Hdone. cbn. unfold bind. rewrite told_query_calm, Hc.
  by rewrite Hu, Z.eqb_refl.
Qed.
Lemma Complete_calm id n q c :
  id > 0 → pending q !! id = Some c → ∃ n' t,
    Complete id n q = (Ok tt, (n', MkQueue (delete id (pending q)) (<[id := Some t]> (completed q)))).
Proof.
  intros Hpos Hc. unfold Complete. destruct (Z.leb_spec id 0); [lia|].
  do 2 eexists. erewrite bind_ok by apply told_query_calm. rewrite Hc, bool_decide_true by eauto. cbn [negb].
  erewrite bind_ok by reflexivity. erewrite bind_ok by apply told_write_calm.
  erewrite bind_ok by apply told_exec_calm. apply (query_calm Hcalm).
Qed.
Lemma names_delete {A} (m : gmap Z A) id ids : names m = id :: ids → names (delete id m) = ids.
Proof.
  intros Hm. unfold names in *.
  assert (id :: ids ≡ₚ elements (dom m)) as Hp by (rewrite <- Hm; apply merge_sort_Permutation).
  assert (NoDup (id :: ids)) as [Hid Hids]%NoDup_cons by (rewrite Hp; apply NoDup_elements).
  assert (StronglySorted Z.le (id :: ids)) as Hs by (rewrite <- Hm; apply StronglySorted_merge_sort; apply _).
  inversion_clear Hs as [|? ? Hs' _].
  apply (StronglySorted_unique Z.le); [apply StronglySorted_merge_sort; apply _|done|].
  rewrite merge_sort_Permutation. apply NoDup_Permutation; [apply NoDup_elements|done|].
  intros x. rewrite elem_of_elements, dom_delete.
  assert (x ∈ dom m ↔ x ∈ id :: ids) as Hx by (rewrite Hp; by rewrite elem_of_elements).
  set_solver.
Qed.
Lemma well_formed_complete id t q :
  well_formed q → well_formed (MkQueue (delete id (pending q)) (<[id := Some t]> (completed q))).
Proof.
  intros Hwf x c Hx. cbn in *. apply lookup_delete_Some in Hx as [Hne Hx]. rewrite lookup_insert_ne by done. by apply Hwf.
Qed.

Lemma worker_run ended ids n q :
  (∀ k u, process k u = None) → (∀ k, ended k = false) → well_formed q → names (pending q) = ids →
  ∃ taken n' q', RunWebhookWorker process ended (length ids) n q = (Ok taken, (n', q')) ∧
    up_id ∘ fst <$> taken = ids ∧ (∀ u b, (u, b) ∈ taken → b = true ∧ pending q !! up_id u = Some (Some u)) ∧
    names (pending q') = [] ∧ (∀ id, id ∈ ids → is_Some (completed q' !! id)) ∧
    (∀ id, is_Some (completed q !! id) → is_Some (completed q' !! id)).
Proof.
  intros Hprocess Hended. revert n q. induction ids as [|id ids IH]; intros n q Hwf Hids.
  { exists [], n, q. split_and!; try done; set_solver. }
  destruct (look_first n q id ids Hwf Hids) as (u & n1 & Hu & Huid & Hlook).
  destruct (Complete_calm id (N.succ n1) q (Some u)) as (n2 & t & Hcomplete); [by destruct (Hwf _ _ Hu)|done|].
  set (q2 := MkQueue (delete id (pending q)) (<[id := Some t]> (completed q))) in *.
  destruct (IH n2 q2) as (taken & n' & q' & Hrun & Htaken & Hall & Hempty & Hdone & Hkept);
    [by apply well_formed_complete|by apply names_delete|].
  exists ((u, true) :: taken), n', q'. split_and!.
  - cbn [length RunWebhookWorker]. rewrite Hended. unfold bind at 1, attempt at 1. rewrite Hlook.
    unfold bind at 1, processed. rewrite Hprocess. unfold bind at 1, attempt at 1.
    rewrite Huid, Hcomplete. unfold bind. by rewrite Hrun.
  - cbn. by rewrite Huid, Htaken.
  - intros v b [[= -> ->]|Hv]%elem_of_cons; [by rewrite Huid|].
    apply Hall in Hv as [-> Hv]. split; [done|]. cbn in Hv. by apply lookup_delete_Some in Hv as [_ Hv].
  - done.
  - intros x [->|Hx]%elem_of_cons; [|by apply Hdone]. apply Hkept. cbn. rewrite lookup_insert_eq. by eexists.
  - intros x Hx. apply Hkept. cbn. destruct (decide (x = id)) as [->|].
    + rewrite lookup_insert_eq. by eexists.
    + by rewrite lookup_insert_ne.
Qed.

(** An update that cannot be processed is taken again and again: what waits behind it waits for
    ever. *)
Lemma head_blocks ended ids id rounds n q :
  (∀ k u, is_Some (process k u)) → (∀ k, ended k = false) → well_formed q → names (pending q) = id :: ids →
  ∃ u n', up_id u = id ∧ RunWebhookWorker process ended rounds n q = (Ok (replicate rounds (u, false)), (n', q)).
Proof.
  intros Hprocess Hended Hwf Hids.
  destruct (look_first n q id ids Hwf Hids) as (u & _ & Hu & Huid & _). exists u.
  revert n. induction rounds as [|rounds IH]; intros n; [by exists n|].
  destruct (look_first n q id ids Hwf Hids) as (u' & n1 & Hu' & _ & Hlook).
  rewrite Hu in Hu'. injection Hu' as <-.
  destruct (IH (N.succ n1)) as (n' & _ & Hrun). exists n'. split; [done|].
  cbn [RunWebhookWorker replicate]. rewrite Hended. unfold bind at 1, attempt at 1. rewrite Hlook.
  unfold bind at 1, processed. destruct (Hprocess n1 u) as [e ->]. unfold bind. by rewrite Hrun.
Qed.
End Worker.

Section Spec.
Context `{Env}.
Lemma bounded_perform l : respects bounded (perform_all l).
Proof.
  induction l as [|o l IH]; cbn [perform_all]; [solve_respects|].
  apply respects_bind; [apply _| |intros us; apply respects_bind; [apply _|exact IH|solve_respects]].
  destruct o as [u| |id]; cbn [perform]; unfold look;
    repeat first [apply bounded_enqueue|apply bounded_next|apply bounded_complete
                 |apply respects_told; [apply _|]|respects_step].
Qed.
(** What a completion that succeeds leaves. *)
Lemma Complete_records id n q n1 q1 :
  is_Some (pending q !! id) → Complete id n q = (Ok tt, (n1, q1)) →
  id > 0 ∧ ∃ k, q1 = MkQueue (delete id (pending q)) (<[id := Some (clock k)]> (completed q)).
Proof.
  intros Hpending Hrun. unfold Complete in Hrun. destruct (Z.leb_spec id 0); [by run_inv|].
  split; [lia|]. apply ask_inv in Hrun as [[? _]|Hrun]; [done|].
  rewrite bool_decide_true in Hrun by done. cbn [negb] in Hrun.
  apply bind_inv in Hrun as [(? & _ & ?)|(now & n2 & q2 & Hnow & Hrun)]; [done|].
  unfold time_now in Hnow. simplify_eq.
  apply bind_inv in Hrun as [(? & _ & ?)|([] & n3 & q3 & Hw & Hrun)]; [done|].
  apply write_inv in Hw as [[? _]| ->]; [done|].
  apply bind_inv in Hrun as [(? & _ & ?)|([] & n4 & q4 & Hd & Hrun)]; [done|].
  apply told_inv in Hd as [(? & _ & Hd)|(? & ? & _)]; [|done].
  destruct x. apply exec_ok in Hd as [-> ->]. apply query_state in Hrun. subst. by eexists.
Qed.
End Spec.

(** C35: The queue of updates: it never holds more than 128 pending updates, and an update whose
    completion succeeded is pending no more and, in the 48 hours after it, never taken again,
    however often Telegram sends it, whatever else arrives, is taken or completed, and whatever
    fails. *)
Theorem completed_once `{Env} id ops n q n1 q1 us n2 q2 :
  is_Some (pending q !! id) → Complete id n q = (Ok tt, (n1, q1)) → perform_all ops n1 q1 = (Ok us, (n2, q2)) →
  ∃ t, completed q1 !! id = Some (Some t) ∧ pending q1 !! id = None ∧
    (t > 0 → (∀ k, (n1 ≤ k)%N → t <= clock k <= t + telegramCompletedRetention) → id ∉ up_id <$> us) ∧
    (Z.of_nat (size (pending q)) <= telegramWebhookMaxPending →
     Z.of_nat (size (pending q2)) <= telegramWebhookMaxPending).
Proof.
  intros Hpending Hcomplete Hops. pose proof (respects_run (bounded_complete id) Hcomplete) as Hb1.
  pose proof (respects_run (bounded_perform ops) Hops) as Hb2.
  destruct (Complete_records _ _ _ _ _ Hpending Hcomplete) as (_ & k & ->). cbn.
  exists (clock k). rewrite lookup_insert_eq, lookup_delete_eq. split_and!; [done..| |by auto].
  intros Ht Hwindow.
  destruct (stays_perform id (clock k) n1 Ht Hwindow ops _ _ _ _ _ (N.le_refl _)
    (ex_intro _ _ (conj (lookup_insert_eq _ _ _) (Z.le_refl _))) Hops) as (_ & _ & Hus).
  by apply Hus.
Qed.

Definition demo_update (id : Z) : Update := MkUpdate id (Some (MkMessage 1 7 7 "private" "hola" None)).
Definition still_env : Env := {|
  uuid n := "id"; clock _ := unix_epoch; fault _ := None;
  timestamptz_in _ := None; timestamptz_out _ := "";
|}.
Lemma completed_once_witness :
  let q := MkQueue {[5 := Some (demo_update 5)]} ∅ in
  let ops := [Put (demo_update 5); Put (demo_update 6); Take] in
  ∃ n1 q1 us n2 q2, @Complete still_env 5 0%N q = (Ok tt, (n1, q1)) ∧
    @perform_all still_env ops n1 q1 = (Ok us, (n2, q2)) ∧ up_id <$> us = [6] ∧ 5 ∉ up_id <$> us.
Proof.
  intros q ops.
  destruct (@Complete still_env 5 0%N q) as [r1 [n1 q1]] eqn:E1.
  destruct (@perform_all still_env ops n1 q1) as [r2 [n2 q2]] eqn:E2.
  pose proof E1 as E1'. vm_compute in E1'. injection E1' as <- <- <-.
  pose proof E2 as E2'. vm_compute in E2'. injection E2' as <- <- <-.
  do 5 eexists. split_and!; [reflexivity|exact E2|reflexivity|].
  assert (is_Some (pending q !! 5)) as Hp by (eexists; reflexivity).
  destruct (@completed_once still_env _ _ _ _ _ _ _ _ _ Hp E1 E2) as (t & Ht & _ & Hnot & _).
  vm_compute in Ht. injection Ht as <-. apply Hnot; [done|]. by intros k _.
Defined.
