(* ===== verification/Timers.v ===== *)
(** * The timers of the secretary ([secretary/timer.go], parts of [service.go] and [telegram.go])

    A file holds all timers.  Each operation reads it and writes it under a lock, so the
    operations are steps that follow each other; the delivery of due timers is a list that is
    read, then a message and a step for each of its timers. *)
From S2P Require Import Prelude GoVal Effects Regexp TelegramQueue.

(** ** Requests *)

(** A text in any case: also the long s, which folds to an s. *)
Fixpoint fold_lit (s : string) : regexp :=
  match s with
  | EmptyString => Empty
  | String c s =>
      let either := Byte (λ a, Ascii.eqb a c || Ascii.eqb a (upper_ascii c)) in
      Seq (if Ascii.eqb c "s" then Alt either (Lit (String (ascii_of_nat 197) (String (ascii_of_nat 191) "")))
           else either)
        (fold_lit s)
  end.
Definition blanks : regexp := Plus true (Byte white).
Definition digit : regexp := Byte (within 48 57).
(** An i with or without its accent. *)
Definition accented_i : regexp := Alt (fold_lit "i") (Alt (Lit "í") (Lit "Í")).
Definition avisame : regexp := Seqs [fold_lit "av"; accented_i; fold_lit "same"].
Definition minute_mark : regexp := Alt (Lit "'") (Alt (Lit "’") (Lit "′")).

(** [secretary/timer.go:27] timerRequest. *)
Definition timer_unit : regexp :=
  Alt (fold_lit "s") (Alt (Seqs [fold_lit "seg"; Opt (fold_lit "undo"); Opt (fold_lit "s")])
  (Alt (fold_lit "m") (Alt (Seqs [fold_lit "min"; Opt (fold_lit "uto"); Opt (fold_lit "s")])
  (Alt (fold_lit "h") (Alt (Seqs [fold_lit "hor"; Opt (fold_lit "a"); Opt (fold_lit "s")]) minute_mark))))).
Definition timer_start : regexp :=
  Alt (Seq (fold_lit "/timer") blanks)
  (Alt (Seqs [Opt (Seqs [fold_lit "pon"; Opt (fold_lit "me"); blanks]); Opt (Seq (fold_lit "un") blanks);
              fold_lit "temporizador"; Opt (Seq blanks (fold_lit "de")); blanks])
       (Seqs [avisame; blanks; fold_lit "en"; blanks])).
Definition timerRequest : regexp :=
  Seqs [timer_start; Capture 1 (Plus true digit); spaces; Capture 2 timer_unit;
        Opt (Seq spaces (one_of ".!")); TextEnd].
(** [secretary/timer.go:28] timerIntent: the edge of a word is the end or a byte of none. *)
Definition word_edge : regexp :=
  Alt TextEnd (Byte (λ a, negb (within 48 57 a || within 65 90 a || within 97 122 a || isb 95 a))).
Definition timerIntent : regexp :=
  Alt (Seq (fold_lit "/timer") (Alt (Byte white) TextEnd))
  (Alt (Seqs [Star true (none_of nl); fold_lit "temporizador"; word_edge])
       (Seqs [avisame; blanks; fold_lit "en"; word_edge])).
(** From the start of the text: [MatchString] and [FindStringSubmatch]. *)
Definition matched (r : regexp) (s : string) : option captures := fst <$> match_here r (MkPlace None s).

(** [strconv.Atoi] of digits: [None] beyond 64 bits. *)
Fixpoint decimal (s : string) (n : Z) : option Z :=
  match s with
  | EmptyString => Some n
  | String c s =>
      let n := n * 10 + (Z.of_N (code c) - 48) in
      if n <? 2 ^ 63 then decimal s n else None
  end.
(** [secretary/timer.go:30-55] parseTimerRequest. *)
Definition unit_of (unit : string) : option Z :=
  if existsb (String.eqb unit) ["s"; "seg"; "segundo"; "segundos"] then Some second
  else if existsb (String.eqb unit) ["m"; "min"; "minuto"; "minutos"; "'"; "’"; "′"] then Some minute
  else if existsb (String.eqb unit) ["h"; "hora"; "horas"] then Some hour
  else None.
Definition parseTimerRequest (text : string) : option Z :=
  match matched timerRequest (trim_space text) with
  | None => None
  | Some g =>
      match decimal (captured g 1) 0 with
      | None => None
      | Some amount =>
          if amount <? 1 then None
          else match unit_of (to_lower (captured g 2)) with
               | None => None
               | Some u => if (24 * hour) / u <? amount then None else Some (amount * u)
               end
      end
  end.
(** [secretary/timer.go:57] isTimerIntent. *)
Definition isTimerIntent (text : string) : bool := bool_decide (is_Some (matched timerIntent (trim_space text))).
(** [secretary/timer.go:192-216] formatTimerDuration. *)
Definition counted (n : Z) (one many : string) : string :=
  pretty n +:+ " " +:+ (if n =? 1 then one else many).
Definition formatTimerDuration (d : Z) : string :=
  if Z.rem d hour =? 0 then counted (Z.quot d hour) "hora" "horas"
  else if Z.rem d minute =? 0 then counted (Z.quot d minute) "minuto" "minutos"
  else counted (Z.quot d second) "segundo" "segundos".

(** ** The file *)

(** [secretary/timer.go:17-25] Timer. *)
Record Timer := MkTimer {
  tm_id : string;
  tm_user : Z;
  tm_chat : Z;
  tm_created : Z;
  tm_due : Z;
  tm_delivered : bool;
  tm_canceled : bool;
}.
#[export] Instance eta_timer : Eta Timer := λ t,
  MkTimer (tm_id t) (tm_user t) (tm_chat t) (tm_created t) (tm_due t) (tm_delivered t) (tm_canceled t).
Definition active (user : Z) (t : Timer) : bool :=
  (tm_user t =? user) && negb (tm_canceled t) && negb (tm_delivered t).
Definition is_due (now : Z) (t : Timer) : bool :=
  negb (tm_canceled t) && negb (tm_delivered t) && (tm_due t <=? now).
(** The file, [None] when it is no list of timers, and the messages that were sent. *)
Record Desk := MkDesk { timers_file : option (list Timer); told_users : list (Z * string) }.
#[export] Instance eta_desk : Eta Desk := λ d, MkDesk (timers_file d) (told_users d).

Section Operations.
Context `{Env}.

(** [secretary/timer.go:67-80] readTimersLocked: a file that is not there has no timers. *)
Definition readTimersLocked : M Desk (list Timer) :=
  content <- told "cannot read timer state" (query timers_file);;
  match content with Some l => ret l | None => errorf "invalid timer state" end.
(** [secretary/timer.go:88-93] writeTimersLocked. *)
Definition writeTimersLocked (l : list Timer) : M Desk unit :=
  told "cannot persist timer state" (exec (λ d, d <| timers_file := Some l |>)).
(** [secretary/timer.go:103-130] createTimer: [new_uuid] draws its identifier. *)
Definition createTimer (user duration : Z) : M Desk Timer :=
  timers <- readTimersLocked;;
  if 10 <=? Z.of_nat (length (filter (λ t, active user t = true) timers)) then errorf "timer limit reached"
  else
    id <- new_uuid;;
    now <- time_now;;
    let timer := MkTimer id user user now (now + duration) false false in
    writeTimersLocked (timers ++ [timer]) ;;;
    ret timer.
(** [secretary/timer.go:132-144] timersForUser. *)
Definition timersForUser (user : Z) : M Desk (list Timer) :=
  timers <- readTimersLocked;; ret (filter (λ t, active user t = true) timers).
(** The first timer of which [p] holds is changed. *)
Fixpoint change_first (p : Timer → bool) (f : Timer → Timer) (l : list Timer) : option (list Timer) :=
  match l with
  | [] => None
  | t :: l => if p t then Some (f t :: l) else cons t <$> change_first p f l
  end.
(** [secretary/timer.go:146-160] cancelTimer. *)
Definition cancelTimer (user : Z) (id : string) : M Desk bool :=
  timers <- readTimersLocked;;
  match change_first (λ t, (tm_id t =?s id) && active user t) (λ t, t <| tm_canceled := true |>) timers with
  | Some timers => writeTimersLocked timers ;;; ret true
  | None => ret false
  end.
(** [secretary/timer.go:162-174] dueTimers. *)
Definition dueTimers (now : Z) : M Desk (list Timer) :=
  timers <- readTimersLocked;; ret (filter (λ t, is_due now t = true) timers).
(** [secretary/timer.go:176-190] markTimerDelivered. *)
Definition markTimerDelivered (id : string) : M Desk unit :=
  timers <- readTimersLocked;;
  match change_first (λ t, (tm_id t =?s id) && negb (tm_canceled t)) (λ t, t <| tm_delivered := true |>) timers with
  | Some timers => writeTimersLocked timers
  | None => errorf ("timer " +:+ id +:+ " no longer exists")
  end.

(** [secretary/telegram.go:601-618] deliverDueTimers: one of them, *)
Definition finished_text : string := "⏰ Temporizador terminado.".
Definition send (chat : Z) (text : string) : M Desk unit :=
  exec (λ d, d <| told_users := told_users d ++ [(chat, text)] |>).
Definition deliver (t : Timer) : M Desk unit :=
  sent <- attempt (send (tm_chat t) finished_text);;
  match sent with
  | Err _ => ret tt
  | Ok _ => attempt (markTimerDelivered (tm_id t)) ;;; ret tt
  end.
(** and all. *)
Definition deliverDueTimers : M Desk unit :=
  now <- time_now;;
  due <- attempt (dueTimers now);;
  match due with
  | Err _ => ret tt
  | Ok due => for_each due tt (λ _ t, deliver t)
  end.

(** [secretary/service.go:284-293] reply: what is answered about a timer, if the text asks for one. *)
Definition timer_hint : string :=
  "Para el temporizador, indica una duración de 1 segundo a 24 horas; por ejemplo: «temporizador de 10 minutos». Por ahora enviaré un aviso al terminar.".
Definition reply_timer (user : Z) (text : string) : M Desk (option string) :=
  let text := trim_space text in
  match parseTimerRequest text with
  | Some duration =>
      timer <- createTimer user duration;;
      ret (Some ("⏱ Temporizador " +:+ tm_id timer +:+ " iniciado: " +:+ formatTimerDuration duration
                   +:+ ". Te aviso cuando termine."))
  | None => ret (if isTimerIntent text then Some timer_hint else None)
  end.
(** [secretary/service.go:319-331] reply: the command that cancels one. *)
Definition reply_cancel (user : Z) (text : string) : M Desk string :=
  match fields text with
  | [_; id] =>
      canceled <- cancelTimer user id;;
      ret (if canceled : bool then "Temporizador cancelado." else "No encuentro un temporizador activo con ese ID.")
  | _ => ret "Uso: /cancel ID"
  end.
End Operations.

Example requests :
  parseTimerRequest " Ponme un temporizador de 10 minutos. " = Some (10 * minute) ∧
  parseTimerRequest "AVÍSAME EN 2 H" = Some (2 * hour) ∧
  parseTimerRequest "/timer 90′" = Some (90 * minute) ∧
  parseTimerRequest "/timer 25h" = None ∧
  isTimerIntent "/timer 25h" = true ∧ isTimerIntent "mis temporizadores" = false.
Proof. vm_compute. done. Qed.
(** Units the expression knows and the table does not. *)
Example unit_unknown :
  parseTimerRequest "/timer 10 mins" = None ∧ bool_decide (is_Some (matched timerRequest "/timer 10 mins")) = true.
Proof. vm_compute. done. Qed.

(** ** What the operations do to the file *)

(** A timer as it gets older: only its marks are set. *)
Definition ages (t t' : Timer) : Prop :=
  tm_id t' = tm_id t ∧ tm_user t' = tm_user t ∧ tm_chat t' = tm_chat t ∧ tm_created t' = tm_created t ∧
  tm_due t' = tm_due t ∧ (tm_delivered t = true → tm_delivered t' = true) ∧
  (tm_canceled t = true → tm_canceled t' = true).
Definition file_ages (c c' : option (list Timer)) : Prop :=
  match c, c' with
  | Some l, Some l' => ∃ l1 l2, l' = l1 ++ l2 ∧ Forall2 ages l l1
  | None, None => True
  | _, _ => False
  end.
Definition few (l : list Timer) : Prop := ∀ user, (length (filter (λ t, active user t = true) l) ≤ 10)%nat.
(** Timers only age or are added, no message is unsaid, and no user gets more than ten at a time. *)
Definition desk_ages (d d' : Desk) : Prop :=
  file_ages (timers_file d) (timers_file d') ∧ told_users d `prefix_of` told_users d' ∧
  (∀ l l', timers_file d = Some l → timers_file d' = Some l' → few l → few l').

#[export] Instance ages_preorder : PreOrder ages.
Proof. split; [by intros t; split_and!|]. unfold ages. intros x y z Hxy Hyz. destruct_and!. split_and!; [congruence..|auto|auto]. Qed.
#[export] Instance file_ages_preorder : PreOrder file_ages.
Proof.
  split.
  - intros [l|]; [|done]. exists l, []. split; [by rewrite app_nil_r|]. reflexivity.
  - intros [x|] [y|] [z|]; try done. intros (y1 & y2 & -> & Hxy) (z1 & z2 & -> & Hyz).
    apply Forall2_app_inv_l in Hyz as (u & v & Hu & Hv & ->).
    exists u, (v ++ z2). split; [by rewrite app_assoc|]. by transitivity y1.
Qed.
#[export] Instance desk_ages_preorder : PreOrder desk_ages.
Proof.
  split.
  - intros d. split_and!; [done..|]. by intros l l' -> [= <-].
  - intros x y z (Hf & Hp & Hq) (Hf' & Hp' & Hq'). split_and!; [by etrans..|].
    intros l l' Hl Hl' Hfew. destruct (timers_file y) as [m|] eqn:E; [by eauto|].
    unfold file_ages in Hf. by rewrite Hl, ?E in Hf.
Qed.

Lemma change_first_ages p f l l' :
  (∀ t, ages t (f t)) → change_first p f l = Some l' → Forall2 ages l l'.
Proof.
  intros Hf. revert l'. induction l as [|t l IH]; intros l' Hl; [done|]. cbn in Hl.
  destruct (p t); [injection Hl as <-; constructor; [done|reflexivity]|].
  destruct (change_first p f l) as [m|]; [|done]. injection Hl as <-. constructor; [reflexivity|by apply IH].
Qed.
Lemma ages_active user t t' : ages t t' → active user t' = true → active user t = true.
Proof.
  unfold ages, active. intros (_ & -> & _ & _ & _ & Hd & Hc).
  destruct (tm_user t =? user), (tm_delivered t), (tm_canceled t); cbn; try done;
    first [by rewrite Hc|by rewrite Hd, ?andb_false_r].
Qed.
Lemma ages_few l l' : Forall2 ages l l' → few l → few l'.
Proof.
  intros Hl Hfew user. specialize (Hfew user). enough
    (length (filter (λ t, active user t = true) l') ≤ length (filter (λ t, active user t = true) l))%nat by lia.
  clear Hfew. induction Hl as [|t t' l l' Ht Hl IH]; [done|]. rewrite !filter_cons.
  pose proof (ages_active user t t' Ht). repeat case_decide; cbn; try lia. exfalso. auto.
Qed.

Section Ageing.
Context `{Env}.
(** An operation that reads the file, then leaves it or writes it as [R] allows. *)
Lemma desk_read {A} (k : list Timer → M Desk A) :
  (∀ l n d r n' d', timers_file d = Some l → k l n d = (r, (n', d')) → desk_ages d d') →
  respects desk_ages (l <- readTimersLocked;; k l).
Proof.
  intros Hk n d r n' d' [(e & He & _)|(l & n1 & d1 & Hl & Hrun)]%bind_inv.
  - apply bind_inv in He as [(e' & He & _)|(c & n2 & d2 & Hc & Hrun)].
    + apply told_inv in He as [(? & ? & ?)|(? & _ & He)]; [done|]. apply query_state in He. by subst.
    + apply told_inv in Hc as [(? & [= ->] & Hc)|(? & ? & _)]; [|done]. apply query_ok in Hc as (_ & -> & _).
      destruct x; by run_inv.
  - apply bind_inv in Hl as [(? & _ & ?)|(c & n2 & d2 & Hc & Hl)]; [done|].
    apply told_inv in Hc as [(? & [= ->] & Hc)|(? & ? & _)]; [|done]. apply query_ok in Hc as (-> & -> & _).
    destruct (timers_file d) as [m|] eqn:E; run_inv. by eapply Hk.
Qed.
Lemma desk_write l l' n d r n' d' :
  timers_file d = Some l → (∃ l1 l2, l' = l1 ++ l2 ∧ Forall2 ages l l1) → (few l → few l') →
  writeTimersLocked l' n d = (r, (n', d')) → desk_ages d d'.
Proof.
  intros Hd Hages Hfew Hw. assert (d' = d ∨ d' = d <| timers_file := Some l' |>) as [->| ->]; [|done|].
  - apply told_inv in Hw as [(u & _ & Hw)|(? & _ & Hw)].
    + destruct u. apply exec_ok in Hw as [-> _]. by right.
    + apply stmt_inv in Hw as [_ [(? & _ & _ & ->)|[_ ?]]]; [by left|simplify_eq].
  - split_and!; cbn; [by rewrite Hd|done|]. intros m m' Hm [= <-]. rewrite Hd in Hm. by injection Hm as <-.
Qed.
Lemma desk_write_ret {A} l l' (a : A) n d r n' d' :
  timers_file d = Some l → (∃ l1 l2, l' = l1 ++ l2 ∧ Forall2 ages l l1) → (few l → few l') →
  (writeTimersLocked l' ;;; ret a) n d = (r, (n', d')) → desk_ages d d'.
Proof.
  intros Hd Hages Hfew [(e & He & _)|([] & n1 & d1 & He & Hrun)]%bind_inv; [by eapply desk_write|].
  unfold ret in Hrun. simplify_eq. by eapply desk_write.
Qed.
Lemma ages_create user duration : respects desk_ages (createTimer user duration).
Proof.
  apply desk_read. intros l n d r n' d' Hd Hrun.
  destruct (Z.leb_spec 10 (Z.of_nat (length (filter (λ t, active user t = true) l)))) as [|Hlt]; [by run_inv|].
  apply bind_inv in Hrun as [(? & ? & _)|(id & n1 & d1 & Hid & Hrun)]; [done|]. unfold new_uuid in Hid. simplify_eq.
  apply bind_inv in Hrun as [(? & ? & _)|(now & n2 & d2 & Hnow & Hrun)]; [done|]. unfold time_now in Hnow. simplify_eq.
  eapply desk_write_ret; [done| | |exact Hrun].
  - do 2 eexists. split; [done|reflexivity].
  - intros Hfew u. rewrite filter_app, length_app. specialize (Hfew u).
    rewrite filter_cons. destruct (decide (u = user)) as [->|Hne].
    + case_decide; cbn; lia.
    + rewrite decide_False; [cbn; lia|]. unfold active. cbn. by destruct (Z.eqb_spec user u).
Qed.
Lemma ages_change {A} p f (store : list Timer → M Desk A) (other : M Desk A) :
  (∀ t, ages t (f t)) → respects desk_ages other →
  (∀ l l' n d r n' d', timers_file d = Some l → (∃ l1 l2, l' = l1 ++ l2 ∧ Forall2 ages l l1) →
     (few l → few l') → store l' n d = (r, (n', d')) → desk_ages d d') →
  respects desk_ages (l <- readTimersLocked;;
    match change_first p f l with Some l => store l | None => other end).
Proof.
  intros Hf Hother Hstore. apply desk_read. intros l n d r n' d' Hd Hrun.
  destruct (change_first p f l) as [l'|] eqn:E; [|by eapply Hother].
  pose proof (change_first_ages _ _ _ _ Hf E) as Hages.
  eapply Hstore; [done| |by apply ages_few|exact Hrun]. exists l', []. by rewrite app_nil_r.
Qed.
Lemma ages_cancel user id : respects desk_ages (cancelTimer user id).
Proof.
  apply ages_change; [by intros t; split_and!|apply respects_ret; apply _|]. intros. by eapply desk_write_ret.
Qed.
Lemma ages_mark id : respects desk_ages (markTimerDelivered id).
Proof.
  apply ages_change; [by intros t; split_and!|apply respects_errorf; apply _|]. intros. by eapply desk_write.
Qed.
Lemma ages_due now : respects desk_ages (dueTimers now).
Proof. apply desk_read. intros. by run_inv. Qed.
Lemma ages_deliver t : respects desk_ages (deliver t).
Proof.
  unfold deliver. apply respects_bind; [apply _|apply respects_attempt|intros [[]|e]].
  - apply respects_exec; [apply _|]. intros d. split_and!; cbn; [reflexivity|by eexists|]. by intros l l' -> [= <-].
  - apply respects_bind; [apply _|apply respects_attempt, ages_mark|solve_respects].
  - solve_respects.
Qed.
Lemma ages_deliver_due : respects desk_ages deliverDueTimers.
Proof.
  unfold deliverDueTimers. apply respects_bind; [apply _|solve_respects|intros now].
  apply respects_bind; [apply _|apply respects_attempt, ages_due|intros [due|e]; [|solve_respects]].
  apply respects_for_each; [apply _|]. intros _ t _. apply ages_deliver.
Qed.
End Ageing.

(** ** Delivery *)
Section Delivery.
Context `{Env} (Hcalm : calm).
Definition mark_all (ids : list string) (l : list Timer) : list Timer :=
  (λ t, if bool_decide (tm_id t ∈ ids) then t <| tm_delivered := true |> else t) <$> l.

Lemma read_calm l n d : timers_file d = Some l → readTimersLocked n d = (Ok l, (N.succ n, d)).
Proof.
  intros Hd. unfold readTimersLocked, told, attempt, bind, ret. rewrite (query_calm Hcalm). by rewrite Hd.
Qed.
Lemma write_calm l n d : writeTimersLocked l n d = (Ok tt, (N.succ n, d <| timers_file := Some l |>)).
Proof. unfold writeTimersLocked, told, attempt, bind, ret. by rewrite (exec_calm Hcalm). Qed.
Lemma change_first_one p f l t :
  NoDup (tm_id <$> l) → t ∈ l → p t = true → (∀ x, x ∈ l → p x = true → tm_id x = tm_id t) →
  change_first p f l = Some ((λ x, if tm_id x =?s tm_id t then f x else x) <$> l).
Proof.
  induction l as [|x l IH]; intros Hnodup Hin Hp Hone; [set_solver|].
  rewrite fmap_cons, NoDup_cons in Hnodup. destruct Hnodup as [Hx Hnodup]. cbn [change_first fmap list_fmap].
  assert (∀ y, y ∈ l → tm_id y ≠ tm_id x) as Hother.
  { intros y Hy Heq. apply Hx. rewrite <- Heq. by apply list_elem_of_fmap_2. }
  destruct (p x) eqn:Hpx.
  - assert (tm_id x = tm_id t) as Heq by (apply Hone; [left|done]). rewrite <- Heq, eqb_string_refl. do 2 f_equal.
    rewrite <- (list_fmap_id l) at 1. apply list_fmap_ext. intros i y Hy%list_elem_of_lookup_2.
    destruct (String.eqb_spec (tm_id y) (tm_id x)); [|done]. by destruct (Hother y Hy).
  - apply elem_of_cons in Hin as [->|Hin]; [congruence|].
    rewrite IH by (try done; intros y Hy; apply Hone; by right). cbn.
    destruct (String.eqb_spec (tm_id x) (tm_id t)) as [Heq|]; [|done].
    by destruct (Hother t Hin).
Qed.
Lemma mark_all_in ids l t : NoDup (tm_id <$> l) → t ∈ l → tm_id t ∉ ids → t ∈ mark_all ids l.
Proof.
  intros _ Ht Hid. apply list_elem_of_fmap. exists t. by rewrite bool_decide_false.
Qed.
Lemma mark_all_ids ids l : tm_id <$> mark_all ids l = tm_id <$> l.
Proof. unfold mark_all. rewrite <- list_fmap_compose. apply list_fmap_ext. intros i x _. cbn. by destruct (bool_decide _). Qed.
Lemma mark_all_snoc ids l id :
  (λ x, if tm_id x =?s id then x <| tm_delivered := true |> else x) <$> mark_all ids l = mark_all (ids ++ [id]) l.
Proof.
  unfold mark_all. rewrite <- list_fmap_compose. apply list_fmap_ext. intros i x _. cbn.
  destruct (decide (tm_id x ∈ ids)) as [Hin|Hin].
  - rewrite bool_decide_true by done. rewrite (bool_decide_true (_ ∈ _ ++ _)) by set_solver. by destruct (_ =?s _).
  - rewrite bool_decide_false by done. destruct (String.eqb_spec (tm_id x) id) as [->|].
    + by rewrite bool_decide_true by set_solver.
    + by rewrite bool_decide_false by set_solver.
Qed.
Lemma deliver_calm l ids t n d :
  NoDup (tm_id <$> l) → t ∈ l → tm_canceled t = false → tm_id t ∉ ids → timers_file d = Some (mark_all ids l) →
  ∃ n', deliver t n d
    = (Ok tt, (n', MkDesk (Some (mark_all (ids ++ [tm_id t]) l)) (told_users d ++ [(tm_chat t, finished_text)]))).
Proof.
  intros Hnodup Hin Hlive Hid Hd. eexists. unfold deliver, send.
  erewrite bind_ok by (unfold attempt; by rewrite (exec_calm Hcalm)).
  unfold markTimerDelivered. erewrite bind_ok; [reflexivity|]. unfold attempt.
  erewrite bind_ok by (by apply read_calm).
  erewrite (change_first_one _ _ _ t); [|by rewrite mark_all_ids|by apply mark_all_in| |].
  - rewrite mark_all_snoc, write_calm. done.
  - by rewrite eqb_string_refl, Hlive.
  - intros x _ [Hx _]%andb_true_iff. by apply String.eqb_eq.
Qed.
Lemma deliver_all l ts ids n d :
  NoDup (tm_id <$> l) → (∀ t, t ∈ ts → t ∈ l ∧ tm_canceled t = false) → NoDup (ids ++ (tm_id <$> ts)) →
  timers_file d = Some (mark_all ids l) →
  ∃ n', for_each ts tt (λ _ t, deliver t) n d
    = (Ok tt, (n', MkDesk (Some (mark_all (ids ++ (tm_id <$> ts)) l))
                 (told_users d ++ ((λ t, (tm_chat t, finished_text)) <$> ts)))).
Proof.
  intros Hnodup. revert ids n d. induction ts as [|t ts IH]; intros ids n d Hts Hids Hd; cbn [for_each fmap list_fmap].
  - exists n. rewrite !app_nil_r, <- Hd. by destruct d.
  - destruct (Hts t) as [Hin Hlive]; [left|].
    assert (tm_id t ∉ ids) as Hid.
    { apply NoDup_app in Hids as (_ & Hdisj & _). intros Hi. apply (Hdisj _ Hi). left. }
    destruct (deliver_calm l ids t n d) as [n1 Hrun]; [done..|]. erewrite bind_ok by exact Hrun.
    destruct (IH (ids ++ [tm_id t]) n1
                (MkDesk (Some (mark_all (ids ++ [tm_id t]) l)) (told_users d ++ [(tm_chat t, finished_text)])))
      as [n' Hrest]; [intros x Hx; apply Hts; by right|by rewrite <- app_assoc|done|].
    exists n'. rewrite Hrest. cbn. by rewrite <- !app_assoc.
Qed.
End Delivery.

Lemma change_first_none p f l : (∀ x, x ∈ l → p x = false) → change_first p f l = None.
Proof.
  induction l as [|x l IH]; intros Hp; [done|]. cbn [change_first]. rewrite Hp by left.
  rewrite IH; [done|]. intros y Hy. apply Hp. by right.
Qed.
(** Between the list of due timers and the message a timer may be cancelled: its user is told
    nevertheless, and the file keeps it as cancelled. *)
Lemma cancelled_still_told `{Env} (Hcalm : calm) (l : list Timer) t n d :
  timers_file d = Some l → (∀ x, x ∈ l → tm_id x = tm_id t → tm_canceled x = true) →
  ∃ n', deliver t n d = (Ok tt, (n', d <| told_users := told_users d ++ [(tm_chat t, finished_text)] |>)).
Proof.
  intros Hd Hcancelled. eexists. unfold deliver, send.
  erewrite bind_ok by (unfold attempt; by rewrite (exec_calm Hcalm)).
  cbn beta iota. erewrite bind_ok; [reflexivity|]. unfold attempt, markTimerDelivered.
  erewrite bind_ok by (by apply (read_calm Hcalm)). unfold errorf, throw.
  rewrite change_first_none; [reflexivity|]. intros x Hx.
  destruct (String.eqb_spec (tm_id x) (tm_id t)); [|done]. by rewrite Hcancelled.
Qed.
(** When the mark cannot be written, the user is told again at the next tick. *)
Example unsaved_told_again :
  let t := MkTimer "t1" 7 7 0 0 false false in
  let env := Build_Env (λ _, "id") (λ _, unix_epoch)
    (λ n, if (n =? 4)%N then Some "disk full" else None) (λ _, None) (λ _, "") in
  told_users ((@deliverDueTimers env ;;; @deliverDueTimers env) 0%N (MkDesk (Some [t]) [])).2.2
  = [(7, finished_text); (7, finished_text)].
Proof. vm_compute. reflexivity. Qed.

(** ** The timers *)
Inductive timer_call :=
  | Start (user duration : Z)
  | Cancel (user : Z) (id : string)
  | DueList (now : Z)
  | DeliverOne (t : Timer)
  | DeliverDue.
Definition call_timer `{Env} (c : timer_call) : M Desk unit :=
  match c with
  | Start user duration => attempt (createTimer user duration) ;;; ret tt
  | Cancel user id => attempt (cancelTimer user id) ;;; ret tt
  | DueList now => attempt (dueTimers now) ;;; ret tt
  | DeliverOne t => deliver t
  | DeliverDue => deliverDueTimers
  end.
Lemma ages_call `{Env} c : respects desk_ages (call_timer c).
Proof.
  destruct c; cbn [call_timer];
    [apply respects_bind; [apply _|apply respects_attempt|solve_respects]..| |].
  - apply ages_create.
  - apply ages_cancel.
  - apply ages_due.
  - apply ages_deliver.
  - apply ages_deliver_due.
Qed.

(** C37: Timers.  However the calls of users and of the delivery follow each other (a delivery
    also timer by timer), and whatever fails: timers are only added, marked as delivered or
    marked as cancelled, no mark is taken back, and no user ever has more than ten that wait.
    When nothing fails, a delivery tells each user of a due timer once, in the order of the
    file, marks exactly these timers, and leaves nothing due at that time. *)
Theorem timers_spec `{Env} (calls : list timer_call) n d :
  let d' := (for_each calls tt (λ _ c, call_timer c) n d).2.2 in
  desk_ages d d' ∧
  (calm → ∀ l, timers_file d' = Some l → NoDup (tm_id <$> l) → ∀ m,
     let due := filter (λ t, is_due (clock m) t = true) l in
     ∃ m' l', deliverDueTimers m d' = (Ok tt, (m', MkDesk (Some l')
                (told_users d' ++ ((λ t, (tm_chat t, finished_text)) <$> due)))) ∧
       l' = (λ t, if is_due (clock m) t then t <| tm_delivered := true |> else t) <$> l ∧
       filter (λ t, is_due (clock m) t = true) l' = []).
Proof.
  destruct (for_each calls tt (λ _ c, call_timer c) n d) as [r [n' d']] eqn:E. cbn [fst snd]. split.
  { eapply respects_run; [|exact E]. apply respects_for_each; [apply _|]. intros _ c _. apply ages_call. }
  intros Hcalm l Hd Hnodup m. set (due := filter (λ t, is_due (clock m) t = true) l).
  assert (NoDup (tm_id <$> due)) as Hdue.
  { eapply sublist_NoDup; [exact Hnodup|]. apply fmap_sublist, sublist_filter. }
  assert (attempt (dueTimers (clock m)) (N.succ m) d' = (Ok (Ok due), (N.succ (N.succ m), d'))) as Hlist.
  { unfold attempt, dueTimers, bind. by rewrite (read_calm Hcalm l) by done. }
  assert (deliverDueTimers m d' = for_each due tt (λ _ t, deliver t) (N.succ (N.succ m)) d') as ->.
  { unfold deliverDueTimers. rewrite (bind_ok _ _ _ _ (clock m) (N.succ m) d') by done.
    by rewrite (bind_ok _ _ _ _ _ _ _ Hlist). }
  destruct (deliver_all Hcalm l due [] (N.succ (N.succ m)) d') as [m' Hrun]; [done| |done| |].
  - intros t [Ht Hin]%list_elem_of_filter. split; [done|]. unfold is_due in Ht. by destruct (tm_canceled t).
  - rewrite Hd. f_equal. unfold mark_all. symmetry. rewrite <- (list_fmap_id l) at 2. by apply list_fmap_ext.
  - fold due. unfold ret. cbn [fst snd]. exists m'. eexists. split; [exact Hrun|]. cbn [app].
    assert (mark_all (tm_id <$> due) l
            = (λ t, if is_due (clock m) t then t <| tm_delivered := true |> else t) <$> l) as Heq.
    { unfold mark_all. apply list_fmap_ext. intros i t Ht. destruct (is_due (clock m) t) eqn:His.
      - rewrite bool_decide_true; [done|]. apply list_elem_of_fmap_2, list_elem_of_filter. split; [done|].
        by eapply list_elem_of_lookup_2.
      - rewrite bool_decide_false; [done|]. intros (t' & Hid & Ht')%list_elem_of_fmap.
        apply list_elem_of_filter in Ht' as [Hdue' (j & Hj)%list_elem_of_lookup].
        assert (i = j) as <-; [|congruence]. eapply NoDup_lookup; [exact Hnodup| |].
        + by rewrite list_lookup_fmap, Ht.
        + by rewrite list_lookup_fmap, Hj, Hid. }
    split; [exact Heq|]. rewrite Heq. clear. induction l as [|t l IH]; [done|].
    rewrite fmap_cons, filter_cons_False; [exact IH|].
    destruct (is_due (clock m) t) eqn:Hd; unfold is_due in *; cbn; [by rewrite andb_false_r|congruence].
Qed.

Lemma timers_spec_witness :
  let env := quiet_env unix_epoch in
  let calls := [Start 7 second; Start 8 (3600 * second); Start 8 minute; Cancel 8 "id-5"] in
  let d := (@for_each _ _ _ calls tt (λ _ c, @call_timer env c) 0%N (MkDesk (Some []) [])).2.2 in
  ∃ l m' l', timers_file d = Some l ∧ length l = 3%nat ∧
    @deliverDueTimers env 100%N d = (Ok tt, (m', MkDesk (Some l') [(7, finished_text); (8, finished_text)])) ∧
    filter (λ t, is_due (@clock env 100%N) t = true) l' = [].
Proof.
  intros env calls d.
  destruct (@timers_spec env calls 0%N (MkDesk (Some []) [])) as [_ Hspec]. fold d in Hspec.
  destruct (timers_file d) as [l|] eqn:Hl; [|by vm_compute in Hl].
  assert (NoDup (tm_id <$> l)) as Hnodup.
  { vm_compute in Hl. injection Hl as <-. apply (bool_decide_unpack _). vm_compute. exact I. }
  destruct (Hspec (quiet_env_calm _) l eq_refl Hnodup 100%N) as (m' & l' & Hrun & _ & Hdue).
  exists l, m', l'. split_and!; [done| | |exact Hdue].
  - vm_compute in Hl. by injection Hl as <-.
  - rewrite Hrun. do 4 f_equal. vm_compute in Hl. injection Hl as <-. vm_compute. reflexivity.
Defined.
