(* ===== verification/Interaction.v ===== *)
(** * What the secretary shows of its work ([secretary/interaction.go], [secretary/progress.go])

    The events reported while an answer is made up, the reaction or the text each of them is
    shown as, and the two trackers that speak up, once, when the work takes long. *)
From S2P Require Import Prelude GoVal.

(** ** Events *)

(** [secretary/interaction.go:5-12] InteractionMeaning. *)
Inductive InteractionMeaning :=
  | InteractionLookup | InteractionAgreement | InteractionAction | InteractionNeutral.
(** [secretary/interaction.go:14-25] InteractionEventKind. *)
Inductive InteractionEventKind :=
  | EventIntentRecognized | EventStageChanged | EventLookupStarted | EventActionRecognized
  | EventActionStarted | EventWorkDelayed | EventCompleted | EventBlocked.
#[export] Instance InteractionEventKind_dec : EqDecision InteractionEventKind.
Proof. solve_decision. Defined.
(** [secretary/interaction.go:36-45] InteractionEvent: the reason of a block is not shown. *)
Record InteractionEvent := MkEvent {
  ev_kind : InteractionEventKind;
  ev_meaning : InteractionMeaning;
  ev_source : string;
  ev_action : string;
  ev_stage : string;
}.
(** [secretary/interaction.go:49-63] interactionEmoji. *)
Definition interactionEmoji (event : InteractionEvent) : string :=
  match ev_kind event, ev_meaning event with
  | EventIntentRecognized, InteractionLookup => "🔍"
  | EventIntentRecognized, InteractionAgreement => "✅"
  | EventIntentRecognized, InteractionAction => "👍"
  | _, _ => ""
  end.
(** [secretary/progress.go:122-128] boundedLabel. *)
Definition boundedLabel (value : string) : string :=
  let value := trim_space value in
  if (80 <? length (runes value))%nat then sjoin "" (take 80 (runes value)) else value.
(** [secretary/interaction.go:65-85] interactionProgressText. *)
Definition interactionProgressText (event : InteractionEvent) : string :=
  match ev_kind event with
  | EventLookupStarted =>
      let source := boundedLabel (ev_source event) in
      if source =?s "" then ""
      else match ev_meaning event with
           | InteractionAction => "Buscando en " +:+ source +:+ "; esta conexión solo permite consultar."
           | _ => "Déjame revisar " +:+ source +:+ "."
           end
  | EventWorkDelayed =>
      let stage := trim_space (ev_stage event) in
      if stage =?s "" then ""
      else "Esto está tardando más de lo previsto; sigo " +:+ stage +:+ "."
  | _ => ""
  end.

(** ** Trackers

    Both trackers keep the stage of the work and have a timer, whose goroutine says once
    where the work is; [tk_unsaid] is what it has not said yet of that, part by part. *)

(** [secretary/progress.go:11-31] progressTracker and interactionProgressTracker. *)
Record Tracker := MkTracker {
  tk_says : string → string;
  tk_stage : string;
  tk_sent : bool;
  tk_closed : bool;
  tk_unsaid : list string;
}.
#[export] Instance eta_tracker : Eta Tracker := λ p,
  MkTracker (tk_says p) (tk_stage p) (tk_sent p) (tk_closed p) (tk_unsaid p).
(** None: it never speaks. *)
Definition no_tracker : Tracker := MkTracker (λ _, "") "" false true [].
(** [secretary/progress.go:130-144] newProgressTracker and SetPrefix. *)
Definition newProgressTracker (prefix : string) : Tracker :=
  MkTracker (λ stage, trim_space prefix +:+ " " +:+ stage +:+ ".") "" false false [].
(** [secretary/progress.go:33-42] newInteractionProgressTracker: it speaks by an event. *)
Definition delayed_event (stage : string) : InteractionEvent :=
  MkEvent EventWorkDelayed InteractionNeutral "" "" stage.
Definition newInteractionProgressTracker : Tracker :=
  MkTracker (λ stage, interactionProgressText (delayed_event stage)) "interpretando la consulta"
    false false [].

(** [secretary/progress.go:146-163] SetStage: the timer runs from the first stage on. *)
Definition set_stage (stage : string) (p : Tracker) : Tracker :=
  let stage := trim_space (trim_suffix "." stage) in
  if (stage =?s "") || tk_closed p then p else p <| tk_stage := stage |>.
(** [secretary/progress.go:87-104] sendDelayed: what the timer does when it fires; the text goes
    out in the parts given. *)
Definition sendDelayed (parts : string → list string) (p : Tracker) : Tracker :=
  if tk_closed p || tk_sent p || (tk_stage p =?s "") then p
  else p <| tk_sent := true |> <| tk_unsaid := parts (tk_says p (tk_stage p)) |>.
(** [secretary/progress.go:44-85] Observe: the stage an event brings, whether it is the last, *)
Definition event_stage (event : InteractionEvent) (stage : string) : string :=
  match ev_kind event with
  | EventIntentRecognized => "preparando la respuesta"
  | EventStageChanged => if blank (ev_stage event) then stage else trim_space (ev_stage event)
  | EventLookupStarted => "consultando " +:+ boundedLabel (ev_source event)
  | EventActionRecognized => "comprobando la acción solicitada"
  | EventActionStarted => "ejecutando " +:+ boundedLabel (ev_action event)
  | EventWorkDelayed => trim_space (ev_stage event)
  | EventCompleted | EventBlocked => stage
  end.
Definition is_last (event : InteractionEvent) : bool :=
  bool_decide (ev_kind event ∈ [EventCompleted; EventBlocked]).
(** and whether it is shown. *)
Definition is_shown (event : InteractionEvent) : bool :=
  bool_decide (ev_kind event ∉ [EventStageChanged; EventWorkDelayed]).
(** [secretary/progress.go:52-71] Observe: what it does to the tracker. *)
Definition tracked (event : InteractionEvent) (p : Tracker) : Tracker :=
  p <| tk_stage := event_stage event (tk_stage p) |>
    <| tk_closed := tk_closed p || is_last event |>.

(** Once closed, a tracker does not start to speak. *)
Lemma sendDelayed_closed parts p : tk_closed p = true → sendDelayed parts p = p.
Proof. unfold sendDelayed. by intros ->. Qed.
