(* ===== verification/TelegramBot.v ===== *)
(** * The Telegram side of the secretary ([secretary/telegram.go])

    What is said to Telegram and to whom: texts as its markup, long ones in parts, updates
    and voice notes of the people who are permitted, and the loop that polls for updates.
    Every request is written down, also one that fails.  While an update is processed a timer
    runs whose goroutine may say, between any two requests of its own or of the bot, that the
    work takes long; when it does, and which events the answer reports, is given. *)
From S2P Require Import Prelude GoVal Effects TelegramQueue Interaction.

(** ** Markup *)

(** [html.EscapeString] *)
Definition escape1 (a : ascii) : string :=
  if Ascii.eqb a "&" then "&amp;"
  else if Ascii.eqb a "'" then "&#39;"
  else if Ascii.eqb a "<" then "&lt;"
  else if Ascii.eqb a ">" then "&gt;"
  else if isb 34 a then "&#34;"
  else String a "".
Fixpoint escape (s : string) : string :=
  match s with EmptyString => "" | String a s => escape1 a +:+ escape s end.
(** [secretary/telegram.go:171-193] telegramHTML: what a text is written as, for as many steps as
    it has bytes. *)
Fixpoint html_rounds (rounds : nat) (text : string) : string :=
  match rounds with
  | O => ""
  | S rounds =>
      if text =?s "" then ""
      else match cut "**" text with
           | None => escape text
           | Some (before, after) =>
               escape before +:+
               match cut "**" after with
               | Some (bold, rest) =>
                   if bold =?s "" then "**" +:+ html_rounds rounds after
                   else "<b>" +:+ escape bold +:+ "</b>" +:+ html_rounds rounds rest
               | None => "**" +:+ html_rounds rounds after
               end
           end
  end.
Definition telegramHTML (text : string) : string := html_rounds (String.length text) text.

(** ** Requests *)

(** The methods that are called, by what matters of them. *)
Inductive api_call :=
  | SendMessage (chat : Z) (html : string)
  | SendChatAction (chat : Z)
  | SetMessageReaction (chat message : Z) (emoji : string)
  | GetFile (file : string)
  | Download (path : string).
Definition addressed (c : api_call) : option Z :=
  match c with
  | SendMessage chat _ | SendChatAction chat | SetMessageReaction chat _ _ => Some chat
  | _ => None
  end.
(** What has been asked, and the tracker of the work that is going on. *)
Record Turn := MkTurn { turn_calls : list api_call; turn_tracker : Tracker }.
#[export] Instance eta_turn : Eta Turn := λ s, MkTurn (turn_calls s) (turn_tracker s).

(** [secretary/telegram.go:47-49] Permitted. *)
Definition Permitted (allowed : Z → bool) (m : Message) : bool :=
  (msg_chat_type m =?s "private") && (msg_chat m =? msg_from m) && allowed (msg_from m).
(** [secretary/telegram.go:51-63] Bot: its switches. *)
Record Bot := MkBot {
  bot_allowed : Z → bool;
  bot_transcription : bool;
  bot_speech : bool;
  bot_voice_max : Z;
  bot_base_valid : bool;
}.
(** [secretary/telegram.go:115-118] maxTelegramFileBytes. *)
Definition maxTelegramFileBytes : Z := 20 * 1024 * 1024.
Definition maxTelegramVoiceBytes : Z := 49000000.

(** [secretary/telegram.go:120] telegramFilePathSegment. *)
Definition segment_byte (a : ascii) : bool :=
  within 65 90 a || within 97 122 a || within 48 57 a || isb 95 a || isb 46 a || isb 45 a.
Fixpoint all_bytes (p : ascii → bool) (s : string) : bool :=
  match s with EmptyString => true | String a s => p a && all_bytes p s end.
Definition segment_valid (part : string) : bool :=
  negb (part =?s "") && negb (part =?s ".") && negb (part =?s "..") && all_bytes segment_byte part.
(** [secretary/telegram.go:525-542] telegramFileURL: the path below the file endpoint; whether the
    endpoint and its token are usable is given. *)
Definition telegramFileURL (b : Bot) (filePath : string) : option string :=
  if (filePath =?s "") || has_prefix "/" filePath then None
  else if negb (forallb segment_valid (split_on "/" filePath)) then None
  else if bot_base_valid b then Some filePath else None.

(** [secretary/telegram.go:73-78] telegramProgressPrefixes. *)
Definition telegramProgressPrefixes : list string :=
  ["Sigo con ello:"; "Aún estoy"; "Me está llevando algo más; sigo"; "Continúo"].
(** [secretary/telegram.go:154-167] send: in parts of 3500 characters, *)
Fixpoint parts_of (rounds : nat) (l : list string) : list string :=
  match rounds, l with
  | S rounds, _ :: _ => sjoin "" (take 3500 l) :: parts_of rounds (drop 3500 l)
  | _, _ => []
  end.
Definition parts (text : string) : list string := parts_of (length (runes text)) (runes text).

Section Bot.
Context `{Env} (b : Bot).
(** What the services behind the bot answer: the model, with the events it reports on its way, the
    transcription, the conversion and Telegram's files. *)
Context (answer : N → Z → string → list InteractionEvent * res string).
Context (transcript : N → res string) (wav : N → option string).
Context (file_path : N → string) (download : N → res (Z * Z)).
(** How many steps the timer's goroutine takes while the bot is between two requests, and the
    counter that is shared with the other updates. *)
Context (fires : N → nat) (acknowledgements : N → nat).

(** [secretary/telegram.go:122-148] call: the request is made, whatever becomes of it. *)
Definition call (c : api_call) : M Turn unit := λ n s,
  (match fault n with Some e => Err (ErrText e) | None => Ok tt end,
   (N.succ n, s <| turn_calls := turn_calls s ++ [c] |>)).
(** What a service answers, and the tracker. *)
Definition asked {A} (f : N → A) : M Turn A := λ n s, (Ok (f n), (N.succ n, s)).
Definition track (f : Tracker → Tracker) : M Turn unit := λ n s,
  (Ok tt, (n, s <| turn_tracker := f (turn_tracker s) |>)).
Definition tracking : M Turn Tracker := λ n s, (Ok (turn_tracker s), (n, s)).

(** [secretary/progress.go:165-173] sendDelayed: a step of the timer's goroutine: it fires, or says
    the next part, the first one that fails being the last. *)
Definition timer_step (chat : Z) : M Turn unit :=
  p <- tracking;;
  match tk_unsaid p with
  | [] => track (sendDelayed parts)
  | part :: rest =>
      said <- attempt (call (SendMessage chat (telegramHTML part)));;
      track (λ p, p <| tk_unsaid := match said with Ok _ => rest | Err _ => [] end |>)
  end.
Definition timer_steps (chat : Z) (steps : nat) : M Turn unit :=
  for_each (seq 0 steps) tt (λ _ _, timer_step chat).
Definition passes (chat : Z) : M Turn unit := steps <- asked fires;; timer_steps chat steps.
(** [secretary/progress.go:112-119] Close: what it has begun to say is waited for. *)
Definition waits (chat : Z) : M Turn unit :=
  p <- tracking;; timer_steps chat (length (tk_unsaid p)).
(** [secretary/progress.go:175-182] Close. *)
Definition close_tracker (chat : Z) : M Turn unit :=
  passes chat ;;; track (λ p, p <| tk_closed := true |>) ;;; waits chat.
(** [secretary/progress.go:146-163] SetStage: it shares its lock with the timer. *)
Definition SetStage (chat : Z) (stage : string) : M Turn unit :=
  passes chat ;;; waits chat ;;; track (set_stage stage).

(** A request the bot makes on its way, *)
Definition request (chat : Z) (c : api_call) : M Turn unit := passes chat ;;; call c.
(** [secretary/telegram.go:154-167] send. *)
Definition send (chat : Z) (text : string) : M Turn unit :=
  for_each (parts text) tt (λ _ part, request chat (SendMessage chat (telegramHTML part))).

(** [secretary/telegram.go:85-94] progressTracker. *)
Definition progressTracker : M Turn unit :=
  index <- asked acknowledgements;;
  track (λ _, newProgressTracker (default "" (telegramProgressPrefixes !! (index mod 4)%nat))).
(** [secretary/telegram.go:459-479] interactionObserver: how an event is shown, *)
Definition render_event (m : Message) (event : InteractionEvent) : M Turn unit :=
  (if interactionEmoji event =?s "" then ret tt
   else attempt (request (msg_chat m)
          (SetMessageReaction (msg_chat m) (msg_id m) (interactionEmoji event))) ;;; ret tt) ;;;
  (if interactionProgressText event =?s "" then ret tt
   else attempt (send (msg_chat m) (interactionProgressText event)) ;;; ret tt).
(** [secretary/progress.go:44-85] Observe: and when. *)
Definition Observe (m : Message) (event : InteractionEvent) : M Turn unit :=
  passes (msg_chat m) ;;;
  p <- tracking;;
  if tk_closed p then ret tt
  else
    track (tracked event) ;;;
    (if is_shown event then render_event m event else ret tt) ;;;
    (if is_last event then waits (msg_chat m) else ret tt).
(** [secretary/telegram.go:222-228] processUpdate: the answer to a text, with what is shown on
    the way. *)
Definition reply (m : Message) (text : string) : M Turn (res string) :=
  told <- asked (λ n, answer n (msg_from m) text);;
  for_each told.1 tt (λ _ event, Observe m event) ;;;
  ret told.2.

(** [secretary/telegram.go:346-457] processVoiceWithProgress: what is asked of a voice note, *)
Definition voice_refused (v : Voice) : bool :=
  let longest := if bot_voice_max b <=? 0 then 120 * second else bot_voice_max b in
  (vo_file v =?s "") || (vo_duration v <=? 0) || (Z.quot longest second <? vo_duration v)
  || (vo_size v <? 0) || (maxTelegramFileBytes <? vo_size v).
Definition unclear : string := "No he podido entender la nota de voz. ¿Puedes enviar otra con más claridad?".
Definition voice_failed : string :=
  "No he podido completar la respuesta. Reenvía tu consulta por texto; no he ejecutado acciones externas.".
(** its bytes: how many were announced and how many came, *)
Definition fetch_voice (chat : Z) (v : Voice) : M Turn unit :=
  SetStage chat "descargando la nota de voz" ;;;
  path <- told "telegram voice download failed" (request chat (GetFile (vo_file v)) ;;; asked file_path);;
  match telegramFileURL b path with
  | None => errorf "telegram voice download failed"
  | Some path =>
      outcome <- told "telegram voice download failed" (request chat (Download path) ;;; asked download);;
      match outcome with
      | Err _ => errorf "telegram voice download failed"
      | Ok (announced, came) =>
          if maxTelegramFileBytes <? announced then errorf "telegram voice download failed"
          else if maxTelegramFileBytes <? came then errorf "Telegram voice exceeds the size limit"
          else if came <=? 0 then errorf "telegram voice download failed"
          else ret tt
      end
  end.
(** and the whole; the tracker that is open is closed by who called. *)
Definition processVoiceWithProgress (m : Message) : M Turn unit :=
  match msg_voice m with
  | None => errorf "unauthorized voice message"
  | Some v =>
      if negb (Permitted (bot_allowed b) m) then errorf "unauthorized voice message"
      else if negb (bot_transcription b) then errorf "voice handling is disabled"
      else if negb (bot_speech b) then errorf "voice response is unavailable"
      else if voice_refused v then errorf "invalid or oversized Telegram voice metadata"
      else
        fetch_voice (msg_chat m) v ;;;
        SetStage (msg_chat m) "transcribiendo la nota de voz" ;;;
        converted <- asked wav;;
        match converted with
        | None => send (msg_chat m) unclear
        | Some _ =>
            heard <- asked transcript;;
            match heard with
            | Err _ => send (msg_chat m) unclear
            | Ok text =>
                if trim_space text =?s "" then send (msg_chat m) unclear
                else
                  close_tracker (msg_chat m) ;;;
                  track (λ _, newInteractionProgressTracker) ;;;
                  reply <- reply m text;;
                  send (msg_chat m) (match reply with Ok text => text | Err _ => voice_failed end)
            end
        end
  end.

(** [secretary/telegram.go:197-236] processUpdate: the error, if there is one. *)
Definition no_text : string := "Por ahora recibo texto. La voz se incorporará después.".
Definition text_failed : string :=
  "No he podido completar la respuesta. Reenvía tu consulta; no he ejecutado acciones externas.".
Definition processUpdate (u : Update) : M Turn unit :=
  match up_message u with
  | None => ret tt
  | Some m =>
      if negb (Permitted (bot_allowed b) m) then ret tt
      else match msg_voice m with
           | Some _ =>
               progressTracker ;;;
               SetStage (msg_chat m) "descargando la nota de voz" ;;;
               outcome <- attempt (processVoiceWithProgress m);;
               close_tracker (msg_chat m) ;;;
               of_res outcome
           | None =>
               if trim_space (msg_text m) =?s "" then send (msg_chat m) no_text
               else
                 attempt (call (SendChatAction (msg_chat m))) ;;;
                 track (λ _, newInteractionProgressTracker) ;;;
                 reply <- reply m (msg_text m);;
                 close_tracker (msg_chat m) ;;;
                 send (msg_chat m) (match reply with Ok text => text | Err _ => text_failed end)
           end
  end.
(** A turn begins without a tracker. *)
Definition turn : Turn := MkTurn [] no_tracker.
End Bot.

(** ** Polling *)

(** The offset on disk, [None] when there is none, and the updates that were processed. *)
Record Poll := MkPoll { offset_file : option Z; handled : list Z }.
#[export] Instance eta_poll : Eta Poll := λ p, MkPoll (offset_file p) (handled p).
Section Polling.
Context `{Env} (updates : N → Z → res (list Update)).
(** [secretary/telegram.go:318-331] Run: the updates of one answer, each one checkpointed before
    it is processed; what that does is left to [processUpdate]. *)
Definition poll_one (_ : Z) (u : Update) : M Poll Z :=
  told "cannot persist polling offset" (exec (λ p, p <| offset_file := Some (up_id u + 1) |>)) ;;;
  (λ n p, (Ok tt, (N.succ n, p <| handled := handled p ++ [up_id u] |>))) ;;;
  ret (up_id u + 1).
(** [secretary/telegram.go:308-333] Run: the rounds of the loop, [n] at most, *)
Fixpoint poll_rounds (n : nat) (offset : Z) : M Poll unit :=
  match n with
  | O => ret tt
  | S n =>
      answer <- (λ k p, (Ok (updates k offset), (N.succ k, p)));;
      match answer with
      | Err _ => poll_rounds n offset
      | Ok l => offset <- for_each l offset poll_one;; poll_rounds n offset
      end
  end.
(** [secretary/telegram.go:284-334] Run: from the offset on disk; a webhook that is set is left
    alone. *)
Definition Run (webhook : string) (n : nat) : M Poll unit :=
  if negb (webhook =?s "") then errorf "existing webhook must be reviewed before polling"
  else
    offset <- told "cannot read polling state" (query offset_file);;
    poll_rounds n (default 0 offset).
End Polling.

(** ** What the markup shows *)
Inductive piece := Plain (s : string) | Bold (s : string).
Definition render (p : piece) : string :=
  match p with Plain s => escape s | Bold s => "<b>" +:+ escape s +:+ "</b>" end.
Definition source (p : piece) : string :=
  match p with Plain s => s | Bold s => "**" +:+ s +:+ "**" end.
Definition shown (l : list piece) : string := foldr (λ p s, render p +:+ s) "" l.
Definition sources (l : list piece) : string := foldr (λ p s, source p +:+ s) "" l.
Lemma shown_cons p l : shown (p :: l) = render p +:+ shown l.
Proof. done. Qed.
Lemma sources_cons p l : sources (p :: l) = source p +:+ sources l.
Proof. done. Qed.
(** No byte that is markup. *)
Definition harmless (s : string) : bool :=
  all_bytes (λ a, negb (Ascii.eqb a "<") && negb (Ascii.eqb a ">") && negb (isb 34 a)) s.

Lemma all_bytes_app p a b : all_bytes p (a +:+ b) = all_bytes p a && all_bytes p b.
Proof. induction a as [|c a IH]; [done|]. rewrite sapp_cons. cbn. by rewrite IH, andb_assoc. Qed.
Lemma escape_harmless s : harmless (escape s) = true.
Proof.
  unfold harmless. induction s as [|a s IH]; [done|]. cbn [escape]. rewrite all_bytes_app, IH, andb_true_r.
  unfold escape1. repeat (case_match; [done|]). cbn.
  repeat match goal with H : _ = false |- _ => rewrite H; clear H end. done.
Qed.
Lemma has_prefix_split p s : has_prefix p s = true → s = p +:+ sdrop (String.length p) s.
Proof.
  revert s. induction p as [|c p IH]; intros s Hs; [done|]. destruct s as [|d s]; [done|].
  unfold has_prefix in *. cbn in Hs. destruct (ascii_dec c d) as [->|]; [|done].
  cbn [String.length sdrop]. rewrite sapp_cons. f_equal. by apply IH.
Qed.
Lemma cut_split sep s a b : cut sep s = Some (a, b) → s = a +:+ sep +:+ b.
Proof.
  revert a b. induction s as [|c s IH]; intros a b; cbn [cut].
  - destruct (has_prefix sep "") eqn:Hp; [|done]. intros [= <- <-]. by apply has_prefix_split.
  - destruct (has_prefix sep (String c s)) eqn:Hp; [intros [= <- <-]; by apply has_prefix_split|].
    destruct (cut sep s) as [[a' b']|]; [|done]. intros [= <- <-]. rewrite sapp_cons. f_equal. by apply IH.
Qed.
Lemma html_rounds_pieces rounds text :
  (String.length text ≤ rounds)%nat →
  ∃ l, html_rounds rounds text = shown l ∧ sources l = text ∧ Bold "" ∉ l.
Proof.
  revert text. induction rounds as [|rounds IH]; intros text Hlen; cbn [html_rounds].
  { exists []. split_and!; [done| |set_solver]. by destruct text; [|cbn in Hlen; lia]. }
  destruct (String.eqb_spec text "") as [->|_]; [exists []; split_and!; [done..|set_solver]|].
  destruct (cut "**" text) as [[x after]|] eqn:Hcut.
  2:{ exists [Plain text]. split_and!; [cbn; by rewrite sapp_nil|cbn; by rewrite sapp_nil|set_solver]. }
  apply cut_split in Hcut as ->. rewrite !sapp_length in Hlen. cbn [String.length] in Hlen.
  assert (∃ l, "**" +:+ html_rounds rounds after = shown l ∧ sources l = "**" +:+ after ∧ Bold "" ∉ l)
    as (l & Hl & Hs & Hb).
  { destruct (IH after) as (l & -> & <- & Hb); [lia|]. exists (Plain "**" :: l). split_and!; [done..|set_solver]. }
  destruct (cut "**" after) as [[bold rest]|] eqn:Hrest.
  - destruct (String.eqb_spec bold "") as [|Hbold].
    + exists (Plain x :: l). split_and!; [by rewrite shown_cons, <- Hl|by rewrite sources_cons, Hs|set_solver].
    + apply cut_split in Hrest as ->. rewrite !sapp_length in Hlen. cbn [String.length] in Hlen.
      destruct (IH rest) as (l' & -> & <- & Hb'); [lia|]. exists (Plain x :: Bold bold :: l').
      split_and!; [by rewrite !shown_cons; cbn [render]; rewrite !sapp_assoc
        |by rewrite !sources_cons; cbn [source]; rewrite !sapp_assoc|].
      intros [|[[=]|]%elem_of_cons]%elem_of_cons; [done|by apply Hbold|done].
  - exists (Plain x :: l). split_and!; [by rewrite shown_cons, <- Hl|by rewrite sources_cons, Hs|set_solver].
Qed.
(** The text is written as itself, escaped, and some parts of it between two marks in bold: no
    other markup, and nothing of the text is lost. *)
Lemma telegramHTML_spec text :
  ∃ l, telegramHTML text = shown l ∧ sources l = text ∧
       ∀ p, p ∈ l → p ≠ Bold "" ∧ harmless (match p with Plain _ => render p | Bold s => escape s end) = true.
Proof.
  destruct (html_rounds_pieces (String.length text) text) as (l & Hl & Hs & Hb); [done|].
  exists l. split_and!; [done..|]. intros p Hp. split; [by intros ->|]. destruct p; apply escape_harmless.
Qed.
Example telegramHTML_demo :
  telegramHTML "a **b<c** d ** e" = "a <b>b&lt;c</b> d ** e" ∧ telegramHTML "****x**" = "**<b>x</b>".
Proof. done. Qed.

(** ** Parts *)
Lemma sjoin_app l k : sjoin "" (l ++ k) = sjoin "" l +:+ sjoin "" k.
Proof.
  induction l as [|x l IH]; [done|]. destruct l as [|y l].
  - destruct k; cbn; by rewrite ?sapp_nil.
  - change ((x :: y :: l) ++ k) with (x :: y :: (l ++ k)).
    change (sjoin "" (x :: y :: (l ++ k))) with (x +:+ "" +:+ sjoin "" ((y :: l) ++ k)). rewrite IH.
    change (sjoin "" (x :: y :: l)) with (x +:+ "" +:+ sjoin "" (y :: l)). by rewrite !sapp_assoc.
Qed.
Lemma sjoin_cons x l : sjoin "" (x :: l) = x +:+ sjoin "" l.
Proof. apply (sjoin_app [x] l). Qed.
Lemma parts_of_all rounds l :
  (length l ≤ rounds)%nat → sjoin "" (parts_of rounds l) = sjoin "" l.
Proof.
  revert l. induction rounds as [|rounds IH]; intros [|x l] Hl; try done; [cbn in Hl; lia|].
  change (parts_of (S rounds) (x :: l))
    with (sjoin "" (take 3500 (x :: l)) :: parts_of rounds (drop 3500 (x :: l))).
  assert (length (drop 3500 (x :: l)) ≤ rounds)%nat as Hd by (rewrite length_drop; cbn [length] in *; lia).
  rewrite sjoin_cons, (IH _ Hd). by rewrite <- sjoin_app, take_drop.
Qed.
(** All of a text is sent, character by character, in order. *)
Lemma parts_all text : sjoin "" (parts text) = sjoin "" (runes text).
Proof. by apply parts_of_all. Qed.

(** ** Whom it talks to *)
Definition says (P : api_call → Prop) (s s' : Turn) : Prop :=
  ∃ l, turn_calls s' = turn_calls s ++ l ∧ Forall P l.
#[export] Instance says_preorder P : PreOrder (says P).
Proof.
  split; [intros s; exists []; by rewrite app_nil_r|].
  intros s1 s2 s3 (l & H1 & Hl) (k & H2 & Hk). exists (l ++ k).
  by rewrite H2, H1, app_assoc, Forall_app.
Qed.
Section Says.
Context `{Env} (P : api_call → Prop).
Lemma tells_call c : P c → respects (says P) (call c).
Proof. intros Hc n s r n' s' [= <- <- <-]. exists [c]. by split; [|constructor]. Qed.
Lemma says_asked {A} (f : N → A) : respects (says P) (asked f).
Proof. intros n s r n' s' [= <- <- <-]. reflexivity. Qed.
Lemma says_track f : respects (says P) (track f).
Proof. intros n s r n' s' [= <- <- <-]. exists []. by rewrite app_nil_r. Qed.
Lemma says_tracking : respects (says P) tracking.
Proof. intros n s r n' s' [= <- <- <-]. reflexivity. Qed.
End Says.
#[export] Hint Resolve says_asked says_track says_tracking : respects.

(** What may be asked on behalf of a message. *)
Definition may_ask (b : Bot) (m : Message) (c : api_call) : Prop :=
  match c with
  | SendMessage chat html =>
      chat = msg_chat m ∧ ∃ text l, html = telegramHTML text ∧ html = shown l ∧ sources l = text
  | SendChatAction chat => chat = msg_chat m
  | SetMessageReaction chat message emoji =>
      chat = msg_chat m ∧ message = msg_id m ∧ emoji ∈ ["🔍"; "✅"; "👍"]
  | GetFile file => ∃ v, msg_voice m = Some v ∧ file = vo_file v ∧ voice_refused b v = false
  | Download path => path ≠ "" ∧ Forall (λ part, part ≠ "" ∧ part ≠ "." ∧ part ≠ "..") (split_on "/" path)
  end.
Section MayAsk.
Context `{Env} (b : Bot) (m : Message).
Context (answer : N → Z → string → list InteractionEvent * res string).
Context (transcript : N → res string) (wav : N → option string).
Context (file_path : N → string) (download : N → res (Z * Z)).
Context (fires acknowledgements : N → nat).

Lemma may_say part : may_ask b m (SendMessage (msg_chat m) (telegramHTML part)).
Proof. split; [done|]. destruct (telegramHTML_spec part) as (l & Hl & Hl' & _). by exists part, l. Qed.
Lemma may_tick steps : respects (says (may_ask b m)) (timer_steps (msg_chat m) steps).
Proof.
  apply respects_for_each; [apply _|]. intros _ _ _. unfold timer_step. solve_respects.
  apply tells_call, may_say.
Qed.
Lemma may_pass : respects (says (may_ask b m)) (passes fires (msg_chat m)).
Proof. unfold passes. solve_respects. apply may_tick. Qed.
Lemma may_wait : respects (says (may_ask b m)) (waits (msg_chat m)).
Proof. unfold waits. solve_respects. apply may_tick. Qed.
Hint Resolve may_pass may_wait : respects.
Lemma may_close : respects (says (may_ask b m)) (close_tracker fires (msg_chat m)).
Proof. unfold close_tracker. solve_respects. Qed.
Lemma may_stage stage : respects (says (may_ask b m)) (SetStage fires (msg_chat m) stage).
Proof. unfold SetStage. solve_respects. Qed.
Lemma may_request c : may_ask b m c → respects (says (may_ask b m)) (request fires (msg_chat m) c).
Proof. intros Hc. unfold request. solve_respects. by apply tells_call. Qed.
Lemma may_send text : respects (says (may_ask b m)) (send fires (msg_chat m) text).
Proof. apply respects_for_each; [apply _|]. intros _ part _. apply may_request, may_say. Qed.
Hint Resolve may_close may_stage may_send : respects.
Lemma may_render event : respects (says (may_ask b m)) (render_event fires m event).
Proof.
  unfold render_event. solve_respects. apply may_request. split_and!; [done..|].
  destruct event as [[] [] ? ? ?]; try discriminate; set_solver.
Qed.
Hint Resolve may_render : respects.
Lemma may_observe event : respects (says (may_ask b m)) (Observe fires m event).
Proof. unfold Observe. solve_respects. Qed.
Hint Resolve may_observe : respects.
Lemma may_reply text : respects (says (may_ask b m)) (reply answer fires m text).
Proof. unfold reply. solve_respects. Qed.
Hint Resolve may_reply : respects.
Lemma may_fetch v :
  msg_voice m = Some v → voice_refused b v = false →
  respects (says (may_ask b m)) (fetch_voice b file_path download fires (msg_chat m) v).
Proof.
  intros Hv Hrefused. unfold fetch_voice. apply respects_bind; [apply _|solve_respects|intros _].
  apply respects_bind; [apply _|apply respects_told; [apply _|]|intros path].
  - apply respects_bind; [apply _|apply may_request; by exists v|solve_respects].
  - unfold telegramFileURL. destruct (_ || has_prefix "/" path) eqn:He; [solve_respects|].
    destruct (forallb segment_valid (split_on "/" path)) eqn:Hseg; cbn [negb]; [|solve_respects].
    destruct (bot_base_valid b); [|solve_respects].
    apply respects_bind; [apply _|apply respects_told; [apply _|]|intros ?; solve_respects].
    apply respects_bind; [apply _|apply may_request|solve_respects].
    split; [by intros ->|]. rewrite forallb_forall in Hseg. apply Forall_forall.
    intros part Hpart%list_elem_of_In%Hseg. split_and!; by intros ->.
Qed.
Lemma may_voice :
  respects (says (may_ask b m))
    (processVoiceWithProgress b answer transcript wav file_path download fires m).
Proof.
  unfold processVoiceWithProgress. destruct (msg_voice m) as [v|] eqn:Hv; [|solve_respects].
  destruct (voice_refused b v) eqn:Hrefused; [solve_respects|].
  repeat first [by apply may_fetch|respects_step].
Qed.
Hint Resolve may_voice : respects.
Lemma may_update :
  respects (says (may_ask b m))
    (processUpdate b answer transcript wav file_path download fires acknowledgements
       (MkUpdate 0 (Some m))).
Proof.
  unfold processUpdate, progressTracker. cbn [up_message].
  repeat first [by apply tells_call|respects_step].
Qed.
End MayAsk.

(** C36: What an update makes the bot ask of Telegram, whatever its services answer, whichever
    events they report, whenever its timers fire and whichever requests fail.  Nothing, unless its
    message is permitted: from an allowed person, in the private chat with that person.
    Everything that is sent goes to that chat, the answer and what is said of the progress alike,
    and its markup is the escaped text with parts in bold; what reacts to a message reacts to this
    one; a file is only asked for with a voice note within the limits, and what is downloaded has
    a path without empty parts, dots and double dots. *)
Theorem processUpdate_permitted `{Env} b answer transcript wav file_path download fires acknowledgements
    u n s r n' s' :
  processUpdate b answer transcript wav file_path download fires acknowledgements u n s = (r, (n', s')) →
  ∃ calls, turn_calls s' = turn_calls s ++ calls ∧ ∀ c, c ∈ calls → ∃ m, up_message u = Some m ∧
    msg_chat_type m = "private" ∧ msg_chat m = msg_from m ∧ bot_allowed b (msg_from m) = true ∧ may_ask b m c.
Proof.
  intros Hrun. destruct u as [id [m|]].
  2:{ unfold processUpdate, ret in Hrun. simplify_eq/=. exists []. rewrite app_nil_r. split; [done|set_solver]. }
  destruct (Permitted (bot_allowed b) m) eqn:Hp.
  2:{ unfold processUpdate in Hrun. cbn [up_message] in Hrun. rewrite Hp in Hrun. unfold ret in Hrun.
      simplify_eq/=. exists []. rewrite app_nil_r. split; [done|set_solver]. }
  apply (may_update b m answer transcript wav file_path download fires acknowledgements) in Hrun
    as (calls & Hs & Hcalls).
  exists calls. split; [done|]. intros c Hc. rewrite Forall_forall in Hcalls. exists m.
  unfold Permitted in Hp. rewrite !andb_true_iff, String.eqb_eq, Z.eqb_eq in Hp.
  destruct Hp as [[Htype Hchat] Hallowed]. split_and!; [done..|]. by apply Hcalls.
Qed.

(** A bot whose timers fire soon, and whose answers look something up. *)
Definition demo_bot : Bot := MkBot (Z.eqb 7) true true 0 true.
Definition demo_events : list InteractionEvent :=
  [MkEvent EventIntentRecognized InteractionLookup "" "" "";
   MkEvent EventLookupStarted InteractionLookup "el calendario" "" "";
   MkEvent EventCompleted InteractionNeutral "" "" ""].
Definition demo_process (u : Update) : res unit * (N * Turn) :=
  @processUpdate still_env demo_bot (λ _ _ text, (demo_events, Ok ("**eco** <" +:+ text +:+ ">")))
    (λ _, Ok "hola") (λ _, Some "wav") (λ _, "voice/file_1.oga") (λ _, Ok (10, 10))
    (λ n, if (n =? 6)%N then 2%nat else 0%nat) (λ _, 5%nat) u 0%N turn.
Definition demo_voice : Update := MkUpdate 2 (Some (MkMessage 1 7 7 "private" "" (Some (MkVoice "f" 3 100)))).
Lemma processUpdate_permitted_witness :
  (let '(r, (_, s)) := demo_process (MkUpdate 1 (Some (MkMessage 1 7 (-5) "group" "hola" None))) in
   r = Ok tt ∧ turn_calls s = []) ∧
  ∃ r n' s', demo_process demo_voice = (r, (n', s')) ∧ r = Ok tt ∧
    turn_calls s' =
      [GetFile "f"; SendMessage 7 "Aún estoy descargando la nota de voz."; Download "voice/file_1.oga";
       SetMessageReaction 7 1 "🔍"; SendMessage 7 "Déjame revisar el calendario.";
       SendMessage 7 "<b>eco</b> &lt;hola&gt;"] ∧
    ∃ calls, turn_calls s' = [] ++ calls ∧ ∀ c, c ∈ calls → ∃ m, up_message demo_voice = Some m ∧
      msg_chat_type m = "private" ∧ msg_chat m = msg_from m ∧ bot_allowed demo_bot (msg_from m) = true ∧
      may_ask demo_bot m c.
Proof.
  split; [vm_compute; split; reflexivity|]. destruct (demo_process demo_voice) as [r [n' s']] eqn:E.
  exists r, n', s'. split; [done|].
  assert (Hr : (demo_process demo_voice).1 = Ok tt) by (vm_compute; reflexivity).
  assert (Hs : turn_calls (demo_process demo_voice).2.2 =
      [GetFile "f"; SendMessage 7 "Aún estoy descargando la nota de voz."; Download "voice/file_1.oga";
       SetMessageReaction 7 1 "🔍"; SendMessage 7 "Déjame revisar el calendario.";
       SendMessage 7 "<b>eco</b> &lt;hola&gt;"]) by (vm_compute; reflexivity).
  rewrite E in Hr, Hs. cbn [fst snd] in Hr, Hs. split_and!; [done..|].
  unfold demo_process in E. by apply processUpdate_permitted in E.
Defined.

(** ** Polling *)

(** Telegram answers updates from the offset on, in their order. *)
Definition in_order (offset : Z) (l : list Update) : Prop :=
  StronglySorted Z.lt (up_id <$> l) ∧ ∀ u, u ∈ l → offset <= up_id u.
Section Once.
Context `{Env} (updates : N → Z → res (list Update)).
Hypothesis (Htelegram : ∀ k offset l, updates k offset = Ok l → in_order offset l).

(** Whatever was handled is below the offset on disk, which is not above the one in memory. *)
Definition behind (p : Poll) (offset : Z) : Prop :=
  NoDup (handled p) ∧ (∀ i, i ∈ handled p → i < default 0 (offset_file p)) ∧ default 0 (offset_file p) <= offset.
Lemma poll_one_behind p offset u n r n' p' :
  behind p offset → offset <= up_id u → poll_one offset u n p = (r, (n', p')) →
  ∃ o, behind p' o ∧ ∀ a, r = Ok a → a = up_id u + 1 ∧ behind p' a.
Proof.
  intros (Hnodup & Hbelow & Hle) Hid Hrun. unfold poll_one in Hrun.
  apply bind_inv in Hrun as [(e & He & ->)|([] & n1 & p1 & He & Hrun)].
  - apply told_inv in He as [(? & ? & ?)|(? & _ & He)]; [done|].
    apply stmt_inv in He as [_ [(? & _ & _ & ->)|[_ ?]]]; [|simplify_eq]. by exists offset.
  - apply told_inv in He as [([] & _ & He)|(? & ? & _)]; [|done]. apply exec_ok in He as [-> _].
    unfold bind, ret in Hrun. simplify_eq. cbn.
    assert (behind (MkPoll (Some (up_id u + 1)) (handled p ++ [up_id u])) (up_id u + 1)) as Hb.
    { split_and!; cbn.
      - apply NoDup_app. split_and!; [done| |apply NoDup_singleton].
        intros i Hi ->%list_elem_of_singleton. specialize (Hbelow _ Hi). lia.
      - intros i [Hi| ->%list_elem_of_singleton]%elem_of_app; [specialize (Hbelow _ Hi)|]; lia.
      - lia. }
    eexists. split; [exact Hb|]. by intros a [= <-].
Qed.
Lemma poll_each_behind l p offset n r n' p' :
  behind p offset → in_order offset l → for_each l offset poll_one n p = (r, (n', p')) →
  ∃ o, behind p' o ∧ ∀ a, r = Ok a → behind p' a.
Proof.
  revert p offset n. induction l as [|u l IH]; intros p offset n Hp [Hsorted Hfrom] Hrun; cbn [for_each] in Hrun.
  { unfold ret in Hrun. simplify_eq. exists offset. split; [done|]. by intros a [= <-]. }
  assert (offset <= up_id u) as Hu by (apply Hfrom; left).
  apply bind_inv in Hrun as [(e & He & ->)|(a & n1 & p1 & Ha & Hrun)].
  - destruct (poll_one_behind _ _ _ _ _ _ _ Hp Hu He) as (o & Ho & _). by exists o.
  - destruct (poll_one_behind _ _ _ _ _ _ _ Hp Hu Ha) as (_ & _ & Hok).
    destruct (Hok a eq_refl) as [-> Hp1]. rewrite fmap_cons in Hsorted.
    inversion_clear Hsorted as [|? ? Hs Hall]. eapply (IH p1 (up_id u + 1)); [done| |exact Hrun].
    split; [done|]. intros v Hv. rewrite Forall_forall in Hall.
    specialize (Hall (up_id v) (list_elem_of_fmap_2 _ _ _ Hv)). lia.
Qed.
Lemma poll_rounds_behind rounds p offset n r n' p' :
  behind p offset → poll_rounds updates rounds offset n p = (r, (n', p')) → ∃ o, behind p' o.
Proof.
  revert p offset n. induction rounds as [|rounds IH]; intros p offset n Hp Hrun; cbn [poll_rounds] in Hrun.
  { unfold ret in Hrun. simplify_eq. by exists offset. }
  unfold bind at 1 in Hrun. destruct (updates n offset) as [l|e] eqn:Hl; [|by eapply IH].
  apply Htelegram in Hl. apply bind_inv in Hrun as [(e & He & ->)|(a & n1 & p1 & Ha & Hrun)].
  - destruct (poll_each_behind _ _ _ _ _ _ _ Hp Hl He) as (o & Ho & _). by exists o.
  - destruct (poll_each_behind _ _ _ _ _ _ _ Hp Hl Ha) as (_ & _ & Hok). by eapply IH; [apply Hok|].
Qed.
(** The bot is started again and again. *)
Definition restarts (runs : list (string * nat)) : M Poll unit :=
  for_each runs tt (λ _ run, attempt (Run updates run.1 run.2) ;;; ret tt).
Lemma restarts_behind runs p n :
  behind p (default 0 (offset_file p)) →
  let p' := (restarts runs n p).2.2 in behind p' (default 0 (offset_file p')).
Proof.
  revert p n. induction runs as [|[webhook rounds] runs IH]; intros p n Hp; [done|].
  destruct (Run updates webhook rounds n p) as [r [n1 p1]] eqn:E.
  assert (restarts ((webhook, rounds) :: runs) n p = restarts runs n1 p1) as ->.
  { unfold restarts. cbn [for_each]. erewrite bind_ok; [reflexivity|].
    unfold bind, attempt, ret. cbn [fst snd]. by rewrite E. }
  apply IH. unfold Run in E. destruct (negb _); [by unfold errorf, throw in E; simplify_eq|].
  apply ask_inv in E as [[_ ->]|E]; [done|].
  destruct (poll_rounds_behind _ _ _ _ _ _ _ Hp E) as (o & Hnodup & Hbelow & _). by split_and!.
Qed.
End Once.

(** Polling: however often the bot is started again, and whatever fails, no update is handled
    twice, when Telegram answers the updates from the offset on in their order. *)
Theorem polled_once `{Env} (updates : N → Z → res (list Update)) (runs : list (string * nat)) (n : N) :
  (∀ k offset l, updates k offset = Ok l → in_order offset l) →
  NoDup (handled (restarts updates runs n (MkPoll None [])).2.2).
Proof.
  intros Htelegram. assert (behind (MkPoll None []) 0) as Hp by (split_and!; [constructor|set_solver|done]).
  by destruct (restarts_behind updates Htelegram runs (MkPoll None []) n Hp) as (Hnodup & _).
Qed.
Definition demo_updates (k : N) (offset : Z) : res (list Update) :=
  if (k =? 9)%N then Err (ErrText "timeout")
  else Ok (filter (λ u, offset <= up_id u) [demo_update 3; demo_update 4; demo_update 6]).
Lemma polled_once_witness :
  let env := flaky_env 0 4 in
  let p := (@restarts env demo_updates [("", 1%nat); ("", 2%nat)] 0%N (MkPoll None [])).2.2 in
  handled p = [3; 4; 6] ∧ NoDup (handled p).
Proof.
  split; [vm_compute; reflexivity|]. apply (@polled_once (flaky_env 0 4)).
  intros k offset l. unfold demo_updates. destruct (k =? 9)%N; [done|]. intros [= <-]. split.
  - assert (StronglySorted Z.lt [3; 4; 6]) as Hs by (repeat constructor).
    change [3; 4; 6] with (up_id <$> [demo_update 3; demo_update 4; demo_update 6]) in Hs. revert Hs.
    generalize [demo_update 3; demo_update 4; demo_update 6]. intros l.
    induction l as [|u l IH]; intros Hs; [constructor|]. rewrite fmap_cons in Hs.
    inversion_clear Hs as [|? ? Hs' Hall]. rewrite filter_cons. case_decide; [|by apply IH].
    rewrite fmap_cons. constructor; [by apply IH|]. apply Forall_forall. rewrite Forall_forall in Hall.
    intros x (v & -> & [_ Hv]%list_elem_of_filter)%list_elem_of_fmap. by apply Hall, list_elem_of_fmap_2.
  - intros u Hu%list_elem_of_filter. apply Hu.
Defined.
