(* ===== verification/Learning.v ===== *)
(** * What the secretary learns ([secretary/learning_store.go], [learning_feedback.go])

    Traces of interactions, feedback on them and pieces of knowledge, appended to files of
    records, one per person and day.  Corrections are candidates until the same person
    approves them.  Texts are taken to be valid UTF-8, which JSON keeps. *)
From S2P Require Import Prelude GoVal Effects TelegramQueue.

(** ** Records *)

(** [secretary/capability_result.go:17-23] EvidenceRef. *)
Record EvidenceRef := MkEvidence {
  ev_provider : string;
  ev_id : string;
  ev_title : string;
  ev_url : string;
  ev_retrieved : Z;
}.
(** [secretary/capability_result.go:25-31] CapabilityOutcome. *)
Record CapabilityOutcome := MkOutcome {
  co_capability : string;
  co_outcome : string;
  co_duration : Z;
  co_count : Z;
  co_evidence : list EvidenceRef;
}.
(** [secretary/learning_types.go:49-63] InteractionTrace. *)
Record InteractionTrace := MkTrace {
  tr_schema : Z;
  tr_id : string;
  tr_operator : Z;
  tr_at : Z;
  tr_channel : string;
  tr_conversation : string;
  tr_intent : string;
  tr_meaning : string;
  tr_outcome : string;
  tr_duration : Z;
  tr_model : string;
  tr_router : string;
  tr_capabilities : list CapabilityOutcome;
}.
#[export] Instance eta_trace : Eta InteractionTrace := λ t,
  MkTrace (tr_schema t) (tr_id t) (tr_operator t) (tr_at t) (tr_channel t) (tr_conversation t)
    (tr_intent t) (tr_meaning t) (tr_outcome t) (tr_duration t) (tr_model t) (tr_router t) (tr_capabilities t).
(** [secretary/learning_types.go:65-68] FeedbackInput. *)
Record FeedbackInput := MkInput { fi_label : string; fi_correction : string }.
(** [secretary/learning_types.go:70-78] FeedbackEvent. *)
Record FeedbackEvent := MkFeedback {
  fe_schema : Z;
  fe_id : string;
  fe_interaction : string;
  fe_operator : Z;
  fe_at : Z;
  fe_label : string;
  fe_correction : string;
}.
#[export] Instance eta_feedback : Eta FeedbackEvent := λ e,
  MkFeedback (fe_schema e) (fe_id e) (fe_interaction e) (fe_operator e) (fe_at e) (fe_label e) (fe_correction e).
(** [secretary/learning_types.go:80-98] KnowledgeItem: without its confidence, which is 0.5 for
    what feedback makes. *)
Record KnowledgeItem := MkKnowledge {
  kn_schema : Z;
  kn_id : string;
  kn_operator : Z;
  kn_type : string;
  kn_entity_type : string;
  kn_subject : string;
  kn_predicate : string;
  kn_value : string;
  kn_aliases : list string;
  kn_refs : gmap string string;
  kn_sources : list EvidenceRef;
  kn_valid_from : Z;
  kn_valid_until : Z;
  kn_status : string;
  kn_created : Z;
  kn_updated : Z;
}.
#[export] Instance eta_knowledge : Eta KnowledgeItem := λ k,
  MkKnowledge (kn_schema k) (kn_id k) (kn_operator k) (kn_type k) (kn_entity_type k) (kn_subject k)
    (kn_predicate k) (kn_value k) (kn_aliases k) (kn_refs k) (kn_sources k) (kn_valid_from k)
    (kn_valid_until k) (kn_status k) (kn_created k) (kn_updated k).

(** [secretary/learning_types.go:5-8] learningSchemaVersion. *)
Definition learningSchemaVersion : Z := 1.
Definition secretaryRouterVersion : string := "secretary-router-v1".
(** [secretary/learning_types.go:16-46] KnowledgeStatus. *)
Definition KnowledgeCandidate : string := "candidate".
Definition KnowledgeApproved : string := "approved".
Definition KnowledgeRejected : string := "rejected".
(** [secretary/learning_types.go:16-46] FeedbackLabel. *)
Definition FeedbackCorrect : string := "correct".
Definition FeedbackIncorrect : string := "incorrect".
Definition FeedbackWrongSource : string := "wrong_source".
Definition FeedbackMissingSource : string := "missing_source".
Definition FeedbackWrongEntity : string := "wrong_entity".
Definition FeedbackMissingFact : string := "missing_fact".
Definition FeedbackStyle : string := "style".
(** [secretary/learning_store.go:210-217] validFeedbackLabel. *)
Definition validFeedbackLabel (label : string) : bool :=
  existsb (String.eqb label)
    [FeedbackCorrect; FeedbackIncorrect; FeedbackWrongSource; FeedbackMissingSource; FeedbackWrongEntity;
     FeedbackMissingFact; FeedbackStyle].
(** [secretary/learning_store.go:243-245] validKnowledgeStatus. *)
Definition validKnowledgeStatus (status : string) : bool :=
  existsb (String.eqb status) [KnowledgeCandidate; KnowledgeApproved; KnowledgeRejected].

(** ** Files *)

(** A file: its lines, [None] for one that is no record, and whether the last one was cut off by a
    write that failed half way. *)
Record LearningFile (A : Type) := MkFile { lf_lines : list (option A); lf_cut : bool }.
Arguments MkFile {A}.
Arguments lf_lines {A}.
Arguments lf_cut {A}.
(** By person and day. *)
Abbreviation LearningFiles A := (gmap (Z * Z) (LearningFile A)).
(** [secretary/learning_store.go:32-35] JSONLLearningStore: its three classes of records. *)
Record Store := MkStore {
  st_traces : LearningFiles InteractionTrace;
  st_feedback : LearningFiles FeedbackEvent;
  st_knowledge : LearningFiles KnowledgeItem;
}.
#[export] Instance eta_store : Eta Store := λ s, MkStore (st_traces s) (st_feedback s) (st_knowledge s).
Record shelf (A : Type) := MkShelf { on_shelf : Store → LearningFiles A; put_shelf : LearningFiles A → Store → Store }.
Arguments MkShelf {A}.
Arguments on_shelf {A}.
Arguments put_shelf {A}.
Definition traces : shelf InteractionTrace := MkShelf st_traces (λ m s, s <| st_traces := m |>).
Definition feedback : shelf FeedbackEvent := MkShelf st_feedback (λ m s, s <| st_feedback := m |>).
Definition knowledge : shelf KnowledgeItem := MkShelf st_knowledge (λ m s, s <| st_knowledge := m |>).
Definition day_of (t : Z) : Z := t / (24 * hour).
Definition no_file {A} : LearningFile A := MkFile [] false.
(** A line at the end; behind one that was cut off it is part of that. *)
Definition add_line {A} (x : A) (f : LearningFile A) : LearningFile A :=
  if lf_cut f then MkFile (lf_lines f) false else MkFile (lf_lines f ++ [Some x]) false.
Definition cut_line {A} (f : LearningFile A) : LearningFile A :=
  if lf_cut f then f else MkFile (lf_lines f ++ [None]) true.

Section Operations.
Context `{Env}.
(** What a failing write leaves: whether it wrote a part of a line, after how many whole ones; which
    records are too long; how a map is ranged over. *)
Context (torn : N → bool) (whole : N → nat) (too_long : InteractionTrace + FeedbackEvent + KnowledgeItem → bool).
Context (range : gmap string KnowledgeItem → list KnowledgeItem).

Definition write_line {A} (c : shelf A) (key : Z * Z) (x : A) : M Store unit := λ n s,
  let old := default no_file (on_shelf c s !! key) in
  let store f := put_shelf c (<[key := f]> (on_shelf c s)) s in
  match fault n with
  | Some e => (Err (ErrText e), (N.succ n, if torn n then store (cut_line old) else s))
  | None => (Ok tt, (N.succ n, store (add_line x old)))
  end.
(** [secretary/learning_store.go:63-95] append. *)
Definition append {A} (c : shelf A) (big : bool) (operator at_ : Z) (x : A) : M Store unit :=
  if (operator <=? 0) || time_is_zero at_ then errorf "invalid learning record identity"
  else
    told "cannot create private learning directory" (query (λ _, tt)) ;;;
    if big then errorf "invalid or oversized learning record"
    else told "cannot persist learning record" (write_line c (operator, day_of at_) x).
(** [secretary/learning_store.go:41-47] learningID: drawn when there is none. *)
Definition drawn_id (id : string) : M Store string := if id =?s "" then new_uuid else ret id.
(** [secretary/learning_store.go:97-116] AppendTrace. *)
Definition AppendTrace (t : InteractionTrace) : M Store unit :=
  if negb (tr_schema t =? 0) && negb (tr_schema t =? learningSchemaVersion)
  then errorf "unsupported learning schema version"
  else if (tr_operator t <=? 0) || time_is_zero (tr_at t) || blank (tr_channel t) || blank (tr_conversation t)
  then errorf "invalid interaction trace"
  else
    id <- drawn_id (tr_id t);;
    let t := t <| tr_id := id |> <| tr_schema := learningSchemaVersion |>
               <| tr_router := if tr_router t =?s "" then secretaryRouterVersion else tr_router t |> in
    append traces (too_long (inl (inl t))) (tr_operator t) (tr_at t) t.
(** [secretary/learning_store.go:192-208] AppendFeedback. *)
Definition AppendFeedback (e : FeedbackEvent) : M Store unit :=
  if negb (fe_schema e =? 0) && negb (fe_schema e =? learningSchemaVersion)
  then errorf "unsupported learning schema version"
  else if (fe_operator e <=? 0) || time_is_zero (fe_at e) || blank (fe_interaction e)
          || negb (validFeedbackLabel (fe_label e))
  then errorf "invalid feedback event"
  else
    id <- drawn_id (fe_id e);;
    let e := e <| fe_id := id |> <| fe_schema := learningSchemaVersion |> in
    append feedback (too_long (inl (inr e))) (fe_operator e) (fe_at e) e.
(** [secretary/learning_store.go:219-241] SaveKnowledge. *)
Definition SaveKnowledge (k : KnowledgeItem) : M Store unit :=
  if negb (kn_schema k =? 0) && negb (kn_schema k =? learningSchemaVersion)
  then errorf "unsupported learning schema version"
  else if (kn_operator k <=? 0) || blank (kn_value k) || negb (validKnowledgeStatus (kn_status k))
  then errorf "invalid knowledge item"
  else
    id <- drawn_id (kn_id k);;
    created <- (if time_is_zero (kn_created k) then time_now else ret (kn_created k));;
    let k := k <| kn_id := id |> <| kn_schema := learningSchemaVersion |> <| kn_created := created |>
               <| kn_updated := if time_is_zero (kn_updated k) then created else kn_updated k |> in
    append knowledge (too_long (inr k)) (kn_operator k) created k.

(** [secretary/learning_store.go:118-149] decodeLearningFile. *)
Definition decodeLearningFile {A} (c : shelf A) (key : Z * Z) : M Store (list A) :=
  file <- told "cannot read learning records" (query (λ s, on_shelf c s !! key));;
  match file with
  | None => errorf "cannot read learning records"
  | Some f => match mapM id (lf_lines f) with Some l => ret l | None => errorf "malformed learning record" end
  end.
(** [secretary/learning_store.go:154-161] jsonlFiles: the days of a person in their order. *)
Definition days_of {A} (operator : Z) (m : LearningFiles A) : list Z :=
  merge_sort Z.le (snd <$> filter (λ k, k.1 = operator) (elements (dom m))).
Definition jsonlFiles {A} (c : shelf A) (operator : Z) : M Store (list Z) :=
  told "cannot list learning records" (query (λ s, days_of operator (on_shelf c s))).
(** All records of a person: file by file, each record of a version that is known. *)
Definition fold_records {A B} (c : shelf A) (operator : Z) (version : A → Z) (f : B → A → B) (b : B) : M Store B :=
  days <- jsonlFiles c operator;;
  for_each days b (λ b day,
    records <- decodeLearningFile c (operator, day);;
    for_each records b (λ b x,
      if version x =? learningSchemaVersion then ret (f b x) else errorf "unsupported learning schema version")).
(** [secretary/learning_store.go:163-190] LastTrace. *)
Definition LastTrace (operator : Z) (channel conversation : string) : M Store (option InteractionTrace) :=
  fold_records traces operator tr_schema (λ latest t,
    if (tr_operator t =? operator) && (tr_channel t =?s channel) && (tr_conversation t =?s conversation)
       && match latest with None => true | Some l => tr_at l <? tr_at t end
    then Some t else latest) None.
(** [secretary/learning_store.go:247-280] ListKnowledge: the last record of each identifier; of those
    created at one time any order. *)
Definition keep_latest (operator : Z) (m : gmap string KnowledgeItem) (k : KnowledgeItem) : gmap string KnowledgeItem :=
  if kn_operator k =? operator then <[kn_id k := k]> m else m.
Definition ListKnowledge (operator : Z) (status : string) : M Store (list KnowledgeItem) :=
  latest <- fold_records knowledge operator kn_schema (keep_latest operator) ∅;;
  ret (stable_sort (by_key kn_created Z.le)
         (filter (λ k, status = "" ∨ kn_status k = status) (range latest))).

(** [secretary/learning_store.go:282-322] rewriteJSONL: the error of the write itself is lost, so
    that half a file may take the place of the old one. *)
Definition rewriteJSONL {A} (c : shelf A) (key : Z * Z) (l : list A) : M Store unit :=
  match l with
  | [] => told "cannot prune learning records" (exec (λ s, put_shelf c (delete key (on_shelf c s)) s))
  | _ =>
      told "cannot rewrite learning records" (query (λ _, tt)) ;;;
      written <- (λ n s, (Ok (match fault n with
                              | None => MkFile (Some <$> l) false
                              | Some _ =>
                                  let kept := MkFile (Some <$> take (whole n) l) false in
                                  if torn n then cut_line kept else kept
                              end), (N.succ n, s)));;
      told "cannot rewrite learning records" (exec (λ s, put_shelf c (<[key := written]> (on_shelf c s)) s))
  end.
(** [secretary/learning_store.go:361-395] pruneLearningFiles: what is kept. *)
Definition pruneLearningFiles {A} (c : shelf A) (keep : A → bool) : M Store (list A) :=
  keys <- told "cannot list learning records" (query (λ s, elements (dom (on_shelf c s))));;
  for_each keys [] (λ kept key,
    records <- decodeLearningFile c key;;
    let l := filter (λ x, keep x = true) records in
    rewriteJSONL c key l ;;;
    ret (kept ++ l)).
(** [secretary/learning_store.go:324-359] Prune: what is kept of each class. *)
Definition kept_knowledge (now cutoff : Z) (k : KnowledgeItem) : bool :=
  if kn_status k =?s KnowledgeCandidate then cutoff <=? kn_created k
  else if (kn_status k =?s KnowledgeApproved) && negb (time_is_zero (kn_valid_until k))
  then now <? kn_valid_until k
  else true.
Definition Prune (now traceDays candidateDays : Z) : M Store unit :=
  if (traceDays <=? 0) || (candidateDays <=? 0) then errorf "invalid learning retention"
  else
    let traceCutoff := now - traceDays * (24 * hour) in
    let candidateCutoff := now - candidateDays * (24 * hour) in
    kept <- pruneLearningFiles traces (λ t, traceCutoff <=? tr_at t);;
    pruneLearningFiles feedback (λ e, (traceCutoff <=? fe_at e)
                                      && existsb (String.eqb (fe_interaction e)) (tr_id <$> kept)) ;;;
    pruneLearningFiles knowledge (kept_knowledge now candidateCutoff) ;;;
    ret tt.
(** [secretary/learning_store.go:399-412] Forget. *)
Definition forget_class {A} (c : shelf A) (operator : Z) : M Store unit :=
  told "cannot forget learning records"
    (exec (λ s, put_shelf c (filter (λ f, f.1.1 ≠ operator) (on_shelf c s)) s)).
Definition Forget (operator : Z) : M Store unit :=
  if operator <=? 0 then errorf "invalid operator id"
  else forget_class traces operator ;;; forget_class feedback operator ;;; forget_class knowledge operator.

(** ** Feedback and review *)
Context (conversationDigest : string → string → string).

(** [secretary/learning_feedback.go:46-52] traceEvidence. *)
Definition traceEvidence (t : InteractionTrace) : list EvidenceRef :=
  concat (co_evidence <$> tr_capabilities t).
Definition ErrNoPreviousInteraction : string := "no previous interaction in this conversation".
(** [secretary/learning_feedback.go:10-44] SubmitFeedback: what makes a candidate of a correction, *)
Definition suggests (label : string) : bool :=
  existsb (String.eqb label) [FeedbackMissingFact; FeedbackWrongEntity; FeedbackWrongSource; FeedbackIncorrect].
Definition candidate_of (operator : Z) (t : InteractionTrace) (input : FeedbackInput) (now : Z) : KnowledgeItem :=
  MkKnowledge 0 "" operator "fact" "" ("interacción " +:+ tr_id t) (fi_label input) (fi_correction input)
    [] ∅ (traceEvidence t) 0 0 KnowledgeCandidate now 0.
(** and the whole. *)
Definition SubmitFeedback (operator : Z) (channel conversation : string) (input : FeedbackInput) : M Store unit :=
  if (operator <=? 0) || blank channel || blank conversation then errorf "feedback context unavailable"
  else if negb (validFeedbackLabel (fi_label input)) then errorf "unknown feedback label"
  else
    let input := MkInput (fi_label input) (trim_space (fi_correction input)) in
    if 2000 <? Z.of_nat (length (runes (fi_correction input))) then errorf "feedback is too long"
    else if negb (fi_label input =?s FeedbackCorrect) && (fi_correction input =?s "")
    then errorf "feedback reason required"
    else
      found <- told "cannot find latest interaction"
                 (LastTrace operator channel (conversationDigest channel conversation));;
      match found with
      | None => errorf ErrNoPreviousInteraction
      | Some t =>
          if negb (tr_operator t =? operator) || negb (tr_channel t =?s channel)
             || negb (tr_conversation t =?s conversationDigest channel conversation)
          then errorf "latest interaction does not belong to this conversation"
          else
            now <- time_now;;
            told "cannot save feedback"
              (AppendFeedback (MkFeedback 0 "" (tr_id t) operator now (fi_label input) (fi_correction input))) ;;;
            if suggests (fi_label input) then
              now <- time_now;;
              told "feedback saved but candidate creation failed"
                (SaveKnowledge (candidate_of operator t input now))
            else ret tt
      end.
(** [secretary/learning_feedback.go:54-87] ReviewKnowledge. *)
Definition review_status (action : string) : option string :=
  if existsb (String.eqb action) ["approve"; "/aprueba"] then Some KnowledgeApproved
  else if existsb (String.eqb action) ["reject"; "/descarta"] then Some KnowledgeRejected
  else None.
Definition ReviewKnowledge (operator : Z) (action itemID : string) : M Store unit :=
  if (operator <=? 0) || blank itemID then errorf "knowledge review unavailable"
  else
    match review_status (trim_space action) with
    | None => errorf "unknown knowledge review action"
    | Some status =>
        items <- told "cannot load knowledge candidates" (ListKnowledge operator KnowledgeCandidate);;
        match filter (λ k, kn_id k = itemID) items with
        | [] => errorf "candidate not found"
        | k :: _ =>
            if negb (kn_operator k =? operator) then errorf "candidate belongs to another operator"
            else
              now <- time_now;;
              told "cannot review knowledge candidate"
                (SaveKnowledge (k <| kn_status := status |> <| kn_updated := now |>))
        end
    end.
(** [secretary/learning_feedback.go:147-153] shortText. *)
Definition shortText (value : string) (maxRunes : nat) : string :=
  let l := runes (trim_space value) in
  if (maxRunes <? length l)%nat then sjoin "" (take maxRunes l) +:+ "…" else sjoin "" l.
(** [secretary/learning_feedback.go:155-160] feedbackErrorText. *)
Definition feedbackErrorText (e : GoError) : string :=
  if error_text e =?s ErrNoPreviousInteraction
  then "No hay una respuesta anterior en esta conversación a la que asociar el feedback."
  else "No he podido guardar ese feedback. Comprueba el formato y que haya una respuesta anterior en esta conversación.".
(** [secretary/learning_feedback.go:89-145] learningCommand: the input of a feedback, *)
Definition feedback_input (rest : string) : option FeedbackInput :=
  if rest =?s "bien" then Some (MkInput FeedbackCorrect "")
  else if has_prefix "mal:" rest then Some (MkInput FeedbackIncorrect (trim_space (trim_prefix "mal:" rest)))
  else if has_prefix "corrige:" rest
  then Some (MkInput FeedbackMissingFact (trim_space (trim_prefix "corrige:" rest)))
  else None.
(** and the answer to a command, if it is one of these. *)
Definition learningCommand (user : Z) (channel conversation text : string) : M Store (option string) :=
  match fields text with
  | [] => ret None
  | command :: arguments =>
      if command =?s "/feedback" then
        match feedback_input (trim_space (trim_prefix "/feedback" text)) with
        | None =>
            ret (Some "Uso: /feedback bien | /feedback mal: motivo | /feedback corrige: corrección")
        | Some input =>
            done <- attempt (SubmitFeedback user channel conversation input);;
            ret (Some match done with
                 | Err e => feedbackErrorText e
                 | Ok _ =>
                     if fi_label input =?s FeedbackCorrect
                     then "Anotado: la respuesta anterior queda marcada como correcta."
                     else "Corrección guardada para revisión; aún no la usaré como un hecho aprobado."
                 end)
        end
      else if command =?s "/aprendizaje" then
        items <- attempt (ListKnowledge user KnowledgeCandidate);;
        ret (Some match items with
             | Err _ => "No he podido cargar las correcciones pendientes."
             | Ok [] => "No hay correcciones pendientes de revisión."
             | Ok items => sjoin nl ((λ k, kn_id k +:+ ": " +:+ shortText (kn_value k) 140) <$> items)
             end)
      else if (command =?s "/aprueba") || (command =?s "/descarta") then
        match arguments with
        | [id] =>
            done <- attempt (ReviewKnowledge user command id);;
            ret (Some match done with
                 | Err _ => "No he podido revisar esa corrección: no existe como candidata pendiente."
                 | Ok _ =>
                     if command =?s "/aprueba"
                     then "Corrección aprobada; podrá recuperarse como memoria verificada."
                     else "Corrección descartada."
                 end)
        | _ => ret (Some "Indica el ID de una corrección pendiente.")
        end
      else ret None
  end.
End Operations.

(** ** Reading *)

(** The records of a person in the order in which they are read. *)
Definition lines_of {A} (operator : Z) (m : LearningFiles A) (day : Z) : list A :=
  omap id (lf_lines (default no_file (m !! (operator, day)))).
Definition records {A} (operator : Z) (m : LearningFiles A) : list A :=
  concat (lines_of operator m <$> days_of operator m).
Definition readable {A} (version : A → Z) (operator : Z) (m : LearningFiles A) : Prop :=
  ∀ day f, m !! (operator, day) = Some f → ∀ x, x ∈ lf_lines f → ∃ a, x = Some a ∧ version a = learningSchemaVersion.

Lemma elem_of_days {A} (operator : Z) (m : LearningFiles A) (day : Z) :
  day ∈ days_of operator m ↔ is_Some (m !! (operator, day)).
Proof.
  unfold days_of. rewrite merge_sort_Permutation, <- elem_of_dom, list_elem_of_fmap. split.
  - intros ([o d] & -> & [Ho Hin]%list_elem_of_filter). cbn in Ho. subst o. by apply elem_of_elements.
  - intros Hin. exists (operator, day). split; [done|]. apply list_elem_of_filter. by rewrite elem_of_elements.
Qed.
Lemma NoDup_days {A} (operator : Z) (m : LearningFiles A) : NoDup (days_of operator m).
Proof.
  unfold days_of. rewrite merge_sort_Permutation. apply NoDup_fmap_2_strong; [|apply NoDup_filter, NoDup_elements].
  intros [o d] [o' d'] [Ho _]%list_elem_of_filter [Ho' _]%list_elem_of_filter. cbn in *. by intros ->; subst.
Qed.
Lemma elem_of_records {A} (operator : Z) (m : LearningFiles A) (x : A) :
  x ∈ records operator m ↔ ∃ day f, m !! (operator, day) = Some f ∧ Some x ∈ lf_lines f.
Proof.
  unfold records. rewrite list_elem_of_In, in_concat. split.
  - intros (l & Hl%list_elem_of_In & Hx%list_elem_of_In).
    apply list_elem_of_fmap in Hl as (day & -> & Hday). apply elem_of_days in Hday as [f Hf].
    unfold lines_of in Hx. rewrite Hf in Hx. apply list_elem_of_omap in Hx as (y & Hy & Heq). unfold id in Heq. subst y. by exists day, f.
  - intros (day & f & Hf & Hx). exists (omap id (lf_lines f)). split; apply list_elem_of_In.
    + apply list_elem_of_fmap. exists day. unfold lines_of. rewrite Hf, elem_of_days. by eauto.
    + apply list_elem_of_omap. by exists (Some x).
Qed.

Section Reading.
Context `{Env} (Hcalm : calm).
Lemma mapM_lines {A} (l : list (option A)) : (∀ x, x ∈ l → is_Some x) → mapM id l = Some (omap id l).
Proof.
  intros Hl. apply mapM_Some_2. induction l as [|x l IH]; [constructor|].
  destruct (Hl x) as [a ->]; [left|]. cbn. constructor; [done|]. apply IH. intros y Hy. apply Hl. by right.
Qed.
Lemma told_ask {S A} message (f : S → A) n s : told message (query f) n s = (Ok (f s), (N.succ n, s)).
Proof. unfold told, attempt, bind, ret. by rewrite (query_calm Hcalm). Qed.
Lemma for_each_known {S A B} (version : A → Z) (f : B → A → B) l b n (s : S) :
  (∀ x, x ∈ l → version x = learningSchemaVersion) →
  for_each l b (λ b x, if version x =? learningSchemaVersion then ret (f b x)
                       else errorf "unsupported learning schema version") n s = (Ok (foldl f b l), (n, s)).
Proof.
  revert b. induction l as [|x l IH]; intros b Hl; [done|]. cbn [for_each foldl].
  rewrite Hl by left. rewrite Z.eqb_refl. unfold bind, ret at 1. apply IH. intros y Hy. apply Hl. by right.
Qed.
Lemma fold_records_calm {A B} (c : shelf A) (operator : Z) version (f : B → A → B) b n s :
  readable version operator (on_shelf c s) →
  ∃ n', fold_records c operator version f b n s = (Ok (foldl f b (records operator (on_shelf c s))), (n', s)).
Proof.
  intros Hok. unfold fold_records, records, jsonlFiles.
  assert (∀ days b n, (∀ day, day ∈ days → is_Some (on_shelf c s !! (operator, day))) → ∃ n',
    for_each days b (λ b day, records <- decodeLearningFile c (operator, day);;
      for_each records b (λ b x, if version x =? learningSchemaVersion then ret (f b x)
                                 else errorf "unsupported learning schema version")) n s
    = (Ok (foldl f b (concat (lines_of operator (on_shelf c s) <$> days))), (n', s))) as Hdays.
  { intros days. induction days as [|day days IH]; intros b0 n0 Hd; [by exists n0|].
    destruct (Hd day) as [file Hfile]; [left|]. cbn [for_each fmap list_fmap concat].
    assert (lines_of operator (on_shelf c s) day = omap id (lf_lines file)) as ->
      by (unfold lines_of; by rewrite Hfile).
    rewrite foldl_app.
    destruct (IH (foldl f b0 (omap id (lf_lines file))) (N.succ n0)) as [n' Hrun]; [intros x Hx; apply Hd; by right|].
    exists n'. erewrite bind_ok; [exact Hrun|]. unfold decodeLearningFile.
    erewrite bind_ok; [|erewrite bind_ok by apply told_ask; rewrite Hfile, mapM_lines; [reflexivity|]].
    - apply for_each_known. intros x (y & Hy & Heq)%list_elem_of_omap. unfold id in Heq. subst y.
      destruct (Hok day file Hfile _ Hy) as (a & [= <-] & Ha). done.
    - intros x Hx. destruct (Hok day file Hfile x Hx) as (a & -> & _). by eexists. }
  destruct (Hdays (days_of operator (on_shelf c s)) b (N.succ n)) as [n' Hrun].
  { intros day. apply elem_of_days. }
  exists n'. erewrite bind_ok by apply told_ask. exact Hrun.
Qed.
End Reading.

(** ** What a review changes *)

(** What is known of a person: the last record of each identifier. *)
Definition known (operator : Z) (s : Store) : gmap string KnowledgeItem :=
  foldl (keep_latest operator) ∅ (records operator (st_knowledge s)).
(** The files as the operations write them: whole, each record where its person and its day say,
    and the records of one identifier created at one time. *)
Definition orderly (operator : Z) (s : Store) : Prop :=
  readable kn_schema operator (st_knowledge s) ∧
  (∀ day f, st_knowledge s !! (operator, day) = Some f → lf_cut f = false ∧
     ∀ k, Some k ∈ lf_lines f → kn_operator k = operator ∧ day_of (kn_created k) = day ∧ kn_created k ≠ 0) ∧
  (∀ k k', k ∈ records operator (st_knowledge s) → k' ∈ records operator (st_knowledge s) →
     kn_id k = kn_id k' → kn_created k = kn_created k').

Lemma keep_latest_in operator l m id k :
  foldl (keep_latest operator) m l !! id = Some k →
  m !! id = Some k ∨ (k ∈ l ∧ kn_id k = id ∧ kn_operator k = operator).
Proof.
  revert m. induction l as [|x l IH]; intros m Hk; [by left|]. cbn [foldl] in Hk.
  apply IH in Hk as [Hk|(Hin & Hid & Hop)]; [|right; by split_and!; [right|..]].
  unfold keep_latest in Hk. destruct (Z.eqb_spec (kn_operator x) operator); [|by left].
  apply lookup_insert_Some in Hk as [[Hid ->]|[_ Hk]]; [|by left]. right. by split_and!; [left|..].
Qed.
Lemma keep_latest_insert operator l m id k :
  (∀ x, x ∈ l → kn_id x ≠ id) →
  foldl (keep_latest operator) (<[id := k]> m) l = <[id := k]> (foldl (keep_latest operator) m l).
Proof.
  revert m. induction l as [|x l IH]; intros m Hl; [done|]. cbn [foldl].
  assert (keep_latest operator (<[id := k]> m) x = <[id := k]> (keep_latest operator m x)) as ->.
  { unfold keep_latest. destruct (_ =? operator); [|done]. apply insert_insert_ne. apply Hl. left. }
  apply IH. intros y Hy. apply Hl. by right.
Qed.
(** A record added to a file that is there. *)
Lemma records_add (operator : Z) (m : LearningFiles KnowledgeItem) (day : Z) f k :
  m !! (operator, day) = Some f → lf_cut f = false → ∃ pre post,
    records operator m = pre ++ omap id (lf_lines f) ++ post ∧
    records operator (<[(operator, day) := add_line k f]> m) = pre ++ omap id (lf_lines f) ++ k :: post ∧
    ∀ x, x ∈ post → ∃ day' f', day' ≠ day ∧ m !! (operator, day') = Some f' ∧ Some x ∈ lf_lines f'.
Proof.
  intros Hf Hcut.
  assert (days_of operator (<[(operator, day) := add_line k f]> m) = days_of operator m) as Hdays.
  { unfold days_of. rewrite dom_insert_lookup_L; [done|by eexists]. }
  unfold records. rewrite Hdays.
  assert (day ∈ days_of operator m) as (l1 & l2 & Hl)%list_elem_of_split by (apply elem_of_days; by eexists).
  pose proof (NoDup_days operator m) as Hnodup. rewrite Hl in Hnodup |- *.
  apply NoDup_app in Hnodup as (_ & Hl1 & [Hl2 _]%NoDup_cons).
  assert (∀ l : list Z, day ∉ l →
    lines_of operator (<[(operator, day) := add_line k f]> m) <$> l = lines_of operator m <$> l) as Hsame.
  { intros l Hday. apply list_fmap_ext. intros i d Hd%list_elem_of_lookup_2. unfold lines_of.
    rewrite lookup_insert_ne; [done|]. by intros [= <-]. }
  rewrite !fmap_app, !fmap_cons, !concat_app. cbn [concat].
  rewrite !Hsame; [|done|intros Hin; apply (Hl1 day Hin); left].
  exists (concat (lines_of operator m <$> l1)), (concat (lines_of operator m <$> l2)).
  assert (lines_of operator m day = omap id (lf_lines f)) as -> by (unfold lines_of; by rewrite Hf).
  assert (lines_of operator (<[(operator, day) := add_line k f]> m) day = omap id (lf_lines f) ++ [k]) as ->.
  { unfold lines_of, add_line. rewrite lookup_insert_eq, Hcut.
    apply (omap_app (id : option KnowledgeItem → _) (lf_lines f) [Some k]). }
  split_and!; [done|by rewrite <- app_assoc|].
  intros x Hx. rewrite list_elem_of_In, in_concat in Hx. destruct Hx as (l & Hin & Hx).
  apply list_elem_of_In in Hin, Hx. apply list_elem_of_fmap in Hin as (d & -> & Hd).
  unfold lines_of in Hx. destruct (m !! (operator, d)) as [f'|] eqn:Hf'; [|cbn in Hx; by apply elem_of_nil in Hx].
  exists d, f'. split_and!; [by intros ->|done|]. apply list_elem_of_omap in Hx as (y & Hy & Heq).
  unfold id in Heq. by subst y.
Qed.

(** A record with the identifier, the person and the time of one that is known. *)
Lemma save_known operator s k k' day f :
  orderly operator s → k ∈ records operator (st_knowledge s) → kn_id k' = kn_id k →
  kn_operator k' = operator → kn_created k' = kn_created k → kn_schema k' = learningSchemaVersion →
  day = day_of (kn_created k) → st_knowledge s !! (operator, day) = Some f →
  let s' := s <| st_knowledge := <[(operator, day) := add_line k' f]> (st_knowledge s) |> in
  orderly operator s' ∧ known operator s' = <[kn_id k := k']> (known operator s).
Proof.
  intros (Hreadable & Hfiles & Hone) Hk Hid Hop Hcreated Hschema -> Hf s'.
  destruct (Hfiles _ _ Hf) as [Hcut Hlines].
  assert (kn_created k ≠ 0) as Hnonzero.
  { apply elem_of_records in Hk as (d & f' & Hf' & Hin). by apply (Hfiles _ _ Hf'). }
  destruct (records_add operator (st_knowledge s) _ f k' Hf Hcut) as (pre & post & Hold & Hnew & Hpost).
  assert (∀ x, x ∈ records operator (st_knowledge s') ↔ x = k' ∨ x ∈ records operator (st_knowledge s)) as Hall.
  { intros x. cbn. rewrite Hnew, Hold. set_solver. }
  split; [split_and!|].
  - intros day g Hg x Hx. cbn in Hg. apply lookup_insert_Some in Hg as [[_ <-]|[_ Hg]]; [|by eapply Hreadable].
    unfold add_line in Hx. rewrite Hcut in Hx. cbn in Hx.
    apply elem_of_app in Hx as [Hx| ->%list_elem_of_singleton]; [by eapply Hreadable|by exists k'].
  - intros day g Hg. cbn in Hg. apply lookup_insert_Some in Hg as [[[= <-] <-]|[_ Hg]]; [|by apply Hfiles].
    unfold add_line. rewrite Hcut. split; [done|]. cbn. intros x [Hx|[= ->]%list_elem_of_singleton]%elem_of_app.
    + by apply Hlines.
    + by rewrite Hcreated.
  - intros x y [->|Hx]%Hall [->|Hy]%Hall Hxy; [done| | |by apply Hone].
    + rewrite Hcreated. apply Hone; [done..|]. congruence.
    + rewrite Hcreated. apply Hone; [done..|]. congruence.
  - unfold known. cbn. rewrite Hnew, Hold, !foldl_app. cbn [foldl].
    unfold keep_latest at 2. rewrite Hop, Z.eqb_refl, Hid. apply keep_latest_insert.
    intros x Hx Heq. destruct (Hpost x Hx) as (day' & f' & Hne & Hf' & Hin). apply Hne.
    destruct (Hfiles _ _ Hf') as [_ Hlines']. destruct (Hlines' _ Hin) as (_ & <- & _). f_equal.
    apply Hone; [|done|done]. apply elem_of_records. by exists (day_of (kn_created x)), f'.
Qed.

Section Review.
Context `{Env} (Hcalm : calm) (torn : N → bool).
Context (too_long : InteractionTrace + FeedbackEvent + KnowledgeItem → bool).
Context (range : gmap string KnowledgeItem → list KnowledgeItem).
Hypothesis (Hrange : ∀ m, range m ≡ₚ (snd <$> map_to_list m)).

Lemma known_in operator s id k :
  known operator s !! id = Some k →
  k ∈ records operator (st_knowledge s) ∧ kn_id k = id ∧ kn_operator k = operator.
Proof.
  intros Hk. apply keep_latest_in in Hk as [Hk|Hk]; [by rewrite lookup_empty in Hk|done].
Qed.
Lemma ListKnowledge_spec operator status n s :
  orderly operator s → ∃ n' l, ListKnowledge range operator status n s = (Ok l, (n', s)) ∧
    ∀ k, k ∈ l ↔ known operator s !! kn_id k = Some k ∧ (status = "" ∨ kn_status k = status).
Proof.
  intros (Hreadable & _ & _).
  destruct (fold_records_calm Hcalm knowledge operator kn_schema (keep_latest operator) ∅ n s Hreadable)
    as [n' Hrun]. eexists n', _. split.
  - unfold ListKnowledge. erewrite bind_ok by exact Hrun. reflexivity.
  - intros k. rewrite stable_sort_Permutation, list_elem_of_filter, Hrange, list_elem_of_fmap.
    fold (known operator s). split.
    + intros [Hs ([id k'] & -> & Hin)]. apply elem_of_map_to_list in Hin. cbn in *.
      split; [|done]. by destruct (known_in _ _ _ _ Hin) as (_ & -> & _).
    + intros [Hk Hs]. split; [done|]. exists (kn_id k, k). split; [done|]. by apply elem_of_map_to_list.
Qed.
Lemma told_ok {S A} message (m : M S A) n s a ns : m n s = (Ok a, ns) → told message m n s = (Ok a, ns).
Proof. unfold told, attempt, bind, ret. by intros ->; destruct ns. Qed.
End Review.

(** A review.  When no statement fails, reviewing either is an error that changes nothing, or it
    takes one piece of knowledge of that person, with that identifier, that is a candidate still,
    and makes it approved or rejected, as the action says; everything else the person is known
    to have is as it was, and the files stay in order. *)
Theorem review_spec `{Env} torn too_long range operator action itemID n s r n' s' :
  calm → (∀ m, range m ≡ₚ (snd <$> map_to_list m)) → orderly operator s →
  ReviewKnowledge torn too_long range operator action itemID n s = (r, (n', s')) →
  match r with
  | Err _ => s' = s
  | Ok _ => ∃ k status now,
      known operator s !! itemID = Some k ∧ kn_status k = KnowledgeCandidate ∧
      review_status (trim_space action) = Some status ∧ orderly operator s' ∧
      known operator s' = <[itemID := k <| kn_status := status |> <| kn_updated := now |>]> (known operator s)
  end.
Proof.
  intros Hcalm Hrange Hs Hrun. unfold ReviewKnowledge in Hrun.
  destruct ((operator <=? 0) || blank itemID) eqn:Harg; [by run_inv|].
  apply orb_false_iff in Harg as [Hop%Z.leb_gt Hblank].
  destruct (review_status (trim_space action)) as [status|] eqn:Hstatus; [|by run_inv].
  destruct (ListKnowledge_spec Hcalm range Hrange operator KnowledgeCandidate n s Hs) as (n1 & l & Hlist & Hl).
  rewrite (bind_ok _ _ _ _ _ _ _ (told_ok _ _ _ _ _ _ Hlist)) in Hrun.
  destruct (filter (λ k, kn_id k = itemID) l) as [|k rest] eqn:Hfilter; [by run_inv|].
  assert (k ∈ filter (λ k, kn_id k = itemID) l) as Hin by (rewrite Hfilter; left).
  apply list_elem_of_filter in Hin as [Hid Hin]. apply Hl in Hin as [Hknown [?|Hcand]]; [done|]. rewrite Hid in Hknown.
  destruct (known_in operator s itemID k Hknown) as (Hrec & _ & Hkop).
  rewrite Hkop, Z.eqb_refl in Hrun. cbn [negb] in Hrun. unfold bind at 1, time_now at 1 in Hrun.
  set (now := clock n1) in *. set (k1 := (k <| kn_status := status |>) <| kn_updated := now |>) in *.
  destruct Hs as (Hreadable & Hfiles & Hone). assert (orderly operator s) as Hs by by split_and!.
  apply elem_of_records in Hrec as (day & f & Hf & Hline). assert (Hrec := Hline).
  destruct (Hfiles day f Hf) as [Hcut Hlines]. destruct (Hlines k Hline) as (_ & Hday & Hnonzero).
  destruct (Hreadable day f Hf _ Hline) as (? & [= <-] & Hschema).
  assert (k ∈ records operator (st_knowledge s)) as Hkrec by (apply elem_of_records; by exists day, f).
  assert (∀ r n2 s2, SaveKnowledge torn too_long k1 (N.succ n1) s = (r, (n2, s2)) →
    match r with
    | Err _ => s2 = s
    | Ok _ => ∃ k', s2 = s <| st_knowledge := <[(operator, day) := add_line k' f]> (st_knowledge s) |> ∧
                    ∃ now, k' = (k <| kn_status := status |>) <| kn_updated := now |>
    end) as Hsave.
  { intros r2 n2 s2 Hsave. unfold SaveKnowledge in Hsave.
    change (kn_schema k1) with (kn_schema k) in Hsave. rewrite Hschema in Hsave. cbn [negb andb] in Hsave.
    change (learningSchemaVersion =? 0) with false in Hsave. cbn [negb andb] in Hsave.
    change (learningSchemaVersion =? learningSchemaVersion) with true in Hsave. cbn [negb andb] in Hsave.
    destruct (_ || _ || _); [by run_inv|].
    change (kn_id k1) with (kn_id k) in Hsave. rewrite Hid in Hsave. unfold drawn_id in Hsave.
    destruct (String.eqb_spec itemID "") as [->|_]; [done|].
    unfold bind at 1, ret at 1 in Hsave. change (kn_created k1) with (kn_created k) in Hsave.
    unfold time_is_zero at 1 in Hsave. destruct (Z.eqb_spec (kn_created k) 0); [done|].
    unfold bind at 1, ret at 1 in Hsave. unfold append in Hsave.
    change (kn_operator _) with (kn_operator k) in Hsave at 1.
    destruct (_ || time_is_zero (kn_created k)); [by run_inv|].
    rewrite (bind_ok _ _ _ _ _ _ _ (told_ask Hcalm _ _ _ _)) in Hsave.
    destruct (too_long _); [by run_inv|].
    unfold told, attempt, bind, ret, write_line in Hsave. rewrite Hcalm in Hsave. cbn in Hsave.
    rewrite Hday, Hkop, Hf in Hsave. injection Hsave as <- <- <-. eexists. split; [reflexivity|].
    exists (if time_is_zero now then kn_created k else now). unfold k1.
    destruct k; cbn in *. by subst. }
  apply told_inv in Hrun as [([] & -> & Hrun)|(e & -> & Hrun)]; apply Hsave in Hrun; [|done].
  destruct Hrun as (k' & -> & now' & Hk').
  destruct (save_known operator s k k' day f) as [Hs' Hknown'];
    [done|done|by subst k'|by subst k'|by subst k'|by subst k'|done|done|].
  exists k, status, now'. rewrite Hid in Hknown'. split_and!; [done..|]. by rewrite Hknown', Hk'.
Qed.

Definition plain_range (m : gmap string KnowledgeItem) : list KnowledgeItem := snd <$> map_to_list m.
Definition demo_trace : InteractionTrace :=
  MkTrace 1 "t1" 7 unix_epoch "telegram" "telegram/7" "" "" "success" 0 "" "" [].
Definition demo_store : Store :=
  (@AppendTrace (quiet_env unix_epoch) (λ _, false) (λ _, false) demo_trace 0%N (MkStore ∅ ∅ ∅)).2.2.
Definition demo_feedback : M Store unit :=
  @SubmitFeedback (quiet_env unix_epoch) (λ _, false) (λ _, false) (λ c v, c +:+ "/" +:+ v) 7 "telegram" "7"
    (MkInput FeedbackMissingFact " el jueves ").
Lemma orderly_one operator day k :
  kn_schema k = learningSchemaVersion → kn_operator k = operator → day_of (kn_created k) = day → kn_created k ≠ 0 →
  ∀ t e, orderly operator (MkStore t e {[(operator, day) := MkFile [Some k] false]}).
Proof.
  intros Hschema Hop Hday Hcreated t e.
  assert (∀ x, x ∈ records operator {[(operator, day) := MkFile [Some k] false]} → x = k) as Hone.
  { intros x (d & f & Hf & Hx)%elem_of_records. apply lookup_singleton_Some in Hf as [_ <-].
    by apply list_elem_of_singleton in Hx as [= ->]. }
  split_and!; cbn.
  - intros d f Hf x Hx. apply lookup_singleton_Some in Hf as [_ <-]. apply list_elem_of_singleton in Hx as ->. by exists k.
  - intros d f Hf. apply lookup_singleton_Some in Hf as [[= <-] <-]. split; [done|].
    intros x [= ->]%list_elem_of_singleton. done.
  - by intros x y ->%Hone ->%Hone.
Qed.
(** A correction becomes a candidate, which is then approved. *)
Lemma review_spec_witness :
  let env := quiet_env unix_epoch in
  let s := (demo_feedback 0%N demo_store).2.2 in
  let review := @ReviewKnowledge env (λ _, false) (λ _, false) plain_range 7 "/aprueba" in
  (review "nobody" 20%N s).1 = Err (ErrText "candidate not found") ∧
  ∃ n' s' k now, review "id-7" 20%N s = (Ok tt, (n', s')) ∧ kn_value k = "el jueves" ∧
    known 7 s !! "id-7" = Some k ∧ kn_status k = KnowledgeCandidate ∧
    known 7 s' !! "id-7" = Some (k <| kn_status := KnowledgeApproved |> <| kn_updated := now |>).
Proof.
  intros env s review. split; [vm_compute; reflexivity|].
  assert (orderly 7 s) as Hs.
  { let t := eval vm_compute in (st_traces s) in let e := eval vm_compute in (st_feedback s) in
    let m := eval vm_compute in (st_knowledge s !! (7, day_of unix_epoch)) in
    match m with Some (MkFile [Some ?k] false) =>
      replace s with (MkStore t e {[(7, day_of unix_epoch) := MkFile [Some k] false]}) by (vm_compute; reflexivity);
      apply orderly_one; [reflexivity..|vm_compute; discriminate]
    end. }
  destruct (review "id-7" 20%N s) as [r [n' s']] eqn:Hrun.
  assert (r = Ok tt) as -> by (change r with (fst (r, (n', s'))); rewrite <- Hrun; vm_compute; reflexivity).
  assert (∀ m, plain_range m ≡ₚ (snd <$> map_to_list m)) as Hrange by reflexivity.
  destruct (@review_spec env _ _ _ _ _ _ _ _ _ _ _ (quiet_env_calm _) Hrange Hs Hrun)
    as (k & status & now & Hk & Hcand & Hstatus & _ & Hafter).
  exists n', s', k, now. split_and!; [done| |done|done|].
  - assert (Hk' := Hk). vm_compute in Hk'. by injection Hk' as <-.
  - vm_compute in Hstatus. injection Hstatus as <-. by rewrite Hafter, lookup_insert_eq.
Defined.

(** ** What goes wrong *)

(** Half a file takes the place of a whole one: the prune succeeds, the second trace is gone. *)
Example prune_loses :
  let t id := MkTrace 1 id 7 unix_epoch "telegram" "c" "" "" "" 0 "" "" [] in
  let s := MkStore {[(7, day_of unix_epoch) := MkFile [Some (t "t1"); Some (t "t2")] false]} ∅ ∅ in
  let run := @Prune (flaky_env 0 3) (λ _, false) (λ _, 1%nat) (unix_epoch + hour) 90 30 0%N s in
  run.1 = Ok tt ∧ tr_id <$> records 7 (st_traces run.2.2) = ["t1"].
Proof. vm_compute. done. Qed.
(** What was approved until a time is, once that is over, a candidate again. *)
Example prune_reopens :
  let k status until := MkKnowledge 1 "k1" 7 "fact" "" "" "" "v" [] ∅ [] 0 until status unix_epoch unix_epoch in
  let s := MkStore ∅ ∅ {[(7, day_of unix_epoch) :=
    MkFile [Some (k KnowledgeCandidate 0); Some (k KnowledgeApproved (unix_epoch + minute))] false]} in
  kn_status <$> known 7 s !! "k1" = Some KnowledgeApproved ∧
  kn_status <$> known 7 (@Prune (quiet_env 0) (λ _, false) (λ _, O) (unix_epoch + hour) 90 30 0%N s).2.2 !! "k1"
  = Some KnowledgeCandidate.
Proof. vm_compute. done. Qed.
(** A write that fails half way makes the records of the person unreadable. *)
Example torn_line_blocks :
  let run := @AppendTrace (flaky_env 0 1) (λ _, true) (λ _, false) demo_trace 0%N (MkStore ∅ ∅ ∅) in
  (@LastTrace (quiet_env 0) 7 "telegram" "telegram/7" 9%N run.2.2).1 = Err (ErrText "malformed learning record").
Proof. vm_compute. done. Qed.
